(* ===== verification/_CoqProject ===== *)
-Q . S2P
Prelude.v
Machine.v
Logic.v
Endpoint.v
UsbDevice.v
Descriptors.v
Bootloader.v
Avr109.v
Boot.v
Frame.v
Programming.v
CdcLink.v
Session.v
Safety.v
BootProps.v
Liveness.v
RingBuffer.v
Bridge.v
Control.v
DescriptorProps.v
Requests.v
Sim.v
Eboot.v
EbootProps.v
EbootCommand.v
EbootMain.v
EbootSim.v
Base64.v
Base64Props.v
Twi.v
TwiProps.v
TwiSafety.v
Sha1.v
Sha1Props.v
Sha1Hash.v
Umm.v
UmmHeap.v
UmmOps.v
UmmAlloc.v
UmmMalloc.v
UmmRealloc.v
UmmProps.v
UmmCheck.v
UmmDetect.v
UmmInfo.v
UmmWitness.v
Wiring.v
WiringProps.v
Uart.v
UartProps.v
UartPort.v
UartConfig.v
UartWitness.v
Si2c.v
Si2cWrite.v
Si2cRead.v
Si2cRepeat.v
Si2cWitness.v
Gdb.v
GdbPacket.v
GdbReceive.v
GdbMemory.v
GdbSession.v
GdbScript.v
GdbSafety.v
GdbWitness.v
Sqrt32.v
I2s.v
I2sRing.v
I2sStream.v
I2sProps.v
I2sWitness.v
EspClock.v
Waveform.v
WaveformProps.v
WaveformIrq.v
WaveformSpec.v
Pwm.v
WaveformWitness.v
Witness.v
