(* ===== verification/Prelude.v ===== *)
(** * Verification of the Adelino firmware and of the code around it

    Adelino is a board with an ATmega32U4 and an ESP8266.  The repository holds
    the USB boot loader of the ATmega32U4 ([src/Firmware/adelino], on top of the
    LUFA USB stack in [src/Firmware/lufa-LUFA-111009]) and the Arduino platforms
    of both processors ([src/Platforms/Arduino/AVR] and [.../ESP]).  This
    development models the boot loader with the part of LUFA that it links, and
    the C components of the platforms that have a contract of their own: the
    ESP8266 boot loader eboot, the heap allocator, the serial port driver, the
    software I2C, the I2S driver, the waveform generator with analog output, the clock
    and the debugger stub of its core, the base64 codec, SHA-1, an integer square root,
    and the two-wire driver and the clock of the AVR core.

    ** The boot loader

    The boot loader enumerates as a USB serial port.  The main loop runs the USB
    task, the CDC task and the LED task until the tick counter [Timeout] has run
    out, and then starts the sketch.  A byte from the host is passed to the
    ESP8266 ([ESP8266_programmer], with the UART interrupt filling a ring buffer
    for the way back), unless it is the escape byte, which starts the AVR109
    programmer: that one writes the flash of the ATmega32U4.

    The processor, its peripherals and avr-libc are not in the repository.  They
    are the class [Board] of Machine.v: an abstract state, an arbitrary effect for
    every register access and every primitive of avr-libc, and an arbitrary
    decision which interrupts are taken at each access.  The firmware is a program
    in the monad [M] over the global variables (each with the width of its C type),
    the memory objects, the interrupt flag, the trace of everything done to the
    hardware, and the board.  A program returns, jumps to the sketch, or runs out
    of fuel.

    - Machine.v: registers, primitives, the class [Board], the state and the monad,
      interrupts.  Logic.v: the program logic (footprints [within], monotonicity in
      the fuel).
    - Endpoint.v: [Endpoint_AVR8.c/.h] and the control stream templates of LUFA.
      UsbDevice.v: [USBController_AVR8], [USBInterrupt_AVR8], [Device_AVR8.h],
      [DeviceStandardReq.c] and [USBTask.c]; the callbacks into the application are
      the class [UsbApp].
    - Descriptors.v: [Descriptors.c/.h].  Bootloader.v, Avr109.v and Boot.v:
      [Adelino.c/.h] (interrupt handlers, USB events and byte link; the AVR109
      programmer, written against the class [Link] of the byte link; tasks, ESP8266
      bridge and [main]).

    The theorems about it:

    - Frame.v, Safety.v: on every board, the modifies clause of each layer,
      independence from the fuel, and that nothing but the escape byte leads to
      self-programming.
    - Programming.v, Session.v: with the documented self-programming behaviour of the
      processor ([SpmBoard]) and a link that is an ordered byte channel ([LinkOk]),
      an upload leaves exactly the image in flash, a read returns it, and every other
      command has its documented answer.  CdcLink.v shows that the link over the CDC
      endpoints is such a channel ([CdcBoard], [TickBudget]), with a host that takes
      each packet some polls after it was handed over and a bank that loses what is
      written to it until then, so that the session theorems hold for the boot
      loader's own link.
    - BootProps.v, Liveness.v: reset reasons, the state in which the sketch is
      entered, the ESP8266 reset lines, that a silent host means a start of the
      sketch, and where the link hangs because its timeout is masked.
    - RingBuffer.v: the UART buffer refines a bounded queue, in every interleaving of
      the interrupt with the accesses of the main program, resets included.  Bridge.v:
      the loop that connects the host with the ESP8266, with all its interrupts, refines
      a pair of byte channels and makes progress.
    - Control.v, DescriptorProps.v, Requests.v: control transfers ([CtlBoard]), the
      descriptors that are reported and their agreement with the endpoints that are
      configured, and the stall of unsupported requests.
    - Sim.v, Witness.v: an executable board that satisfies all of these hypotheses
      together, and the theorems applied to it.

    ** The components of the platforms

    - Eboot.v ([bootloaders/eboot]: [eboot.c], [eboot_command.c], [flash.c], and
      [core_esp8266_eboot_command.c]): copying and loading firmware images, the
      command block in RTC memory, [main].  The ROM routines are the class [Rom],
      with the laws of NOR flash in [NorRom].  EbootProps.v (copy and erase),
      EbootCommand.v (the checksum detects every change of one word; reading a
      cleared command), EbootMain.v (a whole update, [main] always ends in a jump or
      a reset); EbootSim.v has a simulated flash and the witnesses.
    - Umm.v ([cores/esp8266/umm_malloc/umm_malloc.c]): the whole allocator over a
      byte memory.  UmmHeap.v, UmmOps.v (the invariant [heap_ok]), UmmAlloc.v,
      UmmMalloc.v, UmmRealloc.v: the operations preserve the invariant and the data
      of the used blocks.  UmmProps.v: the refinement of a specification over the
      live allocations.  UmmCheck.v, UmmDetect.v: the integrity check accepts every
      heap that can be reached and detects broken links in any.  UmmInfo.v: which
      requests are served, statistics, overflow of the block count.  UmmWitness.v: a heap of
      50 blocks.
    - Uart.v ([cores/esp8266/uart.c]): the driver over a UART with its FIFOs and
      interrupt registers; what happens on the line is a script with one entry per
      register access, and a pending interrupt is taken at every access of the
      foreground to what it shares with the handler, unless it is masked.
      UartProps.v (the circular buffer, the interrupt handler and [uart_read] as
      operations on a queue), UartPort.v (a reading program sees the stream of the
      line; resizing; the transmitter), UartConfig.v (opening, pins, baud rate
      detection), UartWitness.v.
    - Si2c.v ([cores/esp8266/core_esp8266_si2c.c], with the dispatcher of the pin
      interrupts in [core_esp8266_wiring_digital.c]): a master that drives the two lines
      from a program and a slave that follows them with pin interrupts, on the same
      open-drain bus.  Every change of a line is served at once; the task that runs the
      callbacks of the slave runs after a lag, counted in accesses of the master, and
      the timer of the slave expires when the parameter [expires] says so.  Si2cWrite.v
      (changes of the lines, bits, bytes, messages; recovery by the timer), Si2cRead.v
      (the other direction), Si2cRepeat.v (both with a repeated start), Si2cWitness.v.
    - Gdb.v ([libraries/GDBStub/src/internal/gdbstub.c]): the stub that serves gdb over
      the serial port; the characters that gdb will send are a list, a routine that
      waits behind its end is [Waiting], the transmit FIFO drains at a pace of its own
      and loses what is written to it when it is full, and the routines in assembly are
      the class [Target].  GdbPacket.v (the protocol with its reference receiver, and
      what the stub sends), GdbReceive.v (numbers and the scanner of packets),
      GdbMemory.v (memory and registers in packets), GdbSession.v (the answer to each
      request), GdbScript.v (whole conversations refine the specification [talk];
      console output; packets with escapes), GdbSafety.v (no input makes the stub leave
      its buffer, loop or continue the program unasked), GdbWitness.v.
    - I2s.v ([cores/esp8266/core_esp8266_i2s.c]): the circular chains of DMA buffers
      with the interrupt handler; the engine and the sample periods that pass at each
      access of the program are a script.  I2sRing.v (the queue and the order of the
      chain; everything stays in range), I2sStream.v (what is in the buffers),
      I2sProps.v (the streams of programs that write and read), I2sWitness.v.
    - Waveform.v ([cores/esp8266/core_esp8266_waveform.c], and [__digitalWrite] of
      [core_esp8266_wiring_digital.c]): square waves on the pins, made by the interrupt
      handler of timer 1; the cycle counter is a function of the number of readings, and
      the interrupt, which cannot be masked, comes at chosen points between the stores
      of a start and of a stop.  WaveformProps.v (the oscillator of a pin, with
      unbounded times, and one service of a pin as a step of it), WaveformIrq.v (the
      handler ends and serves every pin), WaveformSpec.v (starting, stopping and
      writing, interrupted anywhere, keep every pin in the state of an oscillator; runs
      of a program with interrupts and rests).  Pwm.v ([core_esp8266_wiring_pwm.c] and
      [__pinMode]): analog output on top of it.  WaveformWitness.v.
    - EspClock.v ([cores/esp8266/core_esp8266_wiring.c]: the overflow timer, [micros],
      [micros64], [millis]): the clock while the timer routine is interrupted anywhere.
    - Sqrt32.v ([cores/esp8266/sqrt32.c]): the square root of every 32-bit number.
    - Base64.v ([cores/esp8266/libb64]) and Base64Props.v: round trip, bounds of both
      buffers.
    - Sha1.v ([libraries/Hash/src/sha1]), Sha1Props.v, Sha1Hash.v: equivalence with
      the definition of FIPS 180-4 for messages hashed in any pieces.
    - Twi.v ([AVR/libraries/Wire/src/utility/twi.c]), TwiProps.v, TwiSafety.v: the
      interrupt handler as the state machine of the bus; every outcome of a master
      transaction; the bus is a transition system, and the buffers of the driver are
      safe in every reachable state.
    - Wiring.v ([AVR/cores/arduino/wiring.c]: the timer interrupt, [millis], [micros],
      [delay]) and WiringProps.v: the clock against the cycles of the processor, under
      any pace of at most 64 cycles per access.

    ** Integers, bounds and fuel

    A value of a C type of [w] bits is a [Z], and every assignment and conversion that
    can wrap is written out ([u8], [u16], [u32] below, [wrap]).  Loops that are
    structural in the source (over a length or an array) are structural here.  The
    others have fuel: one number for all loops of a run of the boot loader, eboot,
    SHA-1, [delay], the serial port driver or the two-wire driver, the number of blocks
    for the loops of the allocator.  For the serial port the bytes on the way, the size
    of the buffer and the length of the script bound the rounds; for the debugger stub
    one more than the characters on the line, since every round takes one; for the I2S
    driver the length of the script and a buffer of sample periods; for the waveform
    interrupt 1122 rounds, since it runs for 14 us, 1120 cycles, and every round takes
    one; for the square root its 16 rounds.  No result is assumed to have enough fuel:
    either the theorem says that the program returns (with an explicit bound for the
    fuel as a hypothesis, which the witnesses discharge), or it holds for every outcome,
    running out of fuel included ([keeps]), and [Safety.main_fuel] shows that a result
    does not depend on the fuel.

    ** Not modelled

    - Interrupts of the boot loader are taken between accesses to registers and
      volatile variables, not inside of an access; timing is counted in accesses.
    - Code of LUFA that the boot loader does not call or compiles out: host mode, data
      streams, class drivers, other architectures, [GetInternalSerial].
    - umm_malloc's first fit, poisoning (debug builds) and console output.
    - The setters of the two callbacks of the two-wire driver and of the software I2C
      (fields of their classes).  The theorems about I2C transactions assume that the
      timer of the slave does not expire within the transaction ([InTime]: 10 ms,
      against 3 ms for 33 bytes at 100 kHz; Si2cWitness.v shows what happens otherwise);
      a master that is faster than the interrupts of the slave is not modelled.
    - Interrupts of the two-wire bus while a transaction is being set up.
    - Interrupts inside of the four-byte read of the counter in [millis] of the AVR core
      and inside of the masked section in which the I2S driver takes an item off its
      queue: both are one step; the counts of frames of the I2S driver, which are
      bounded by the length of the buffer, are natural numbers.
    - [delayMicroseconds] (assembly) and [init] (register set-up) of [wiring.c], and the
      delays of the ESP8266 core, which are calls of its operating system.
    - Waves: the processor runs at 80 MHz.  Durations of 26.9 s and more, which the
      signed 32-bit differences of the handler do not cover, are outside of the theorems.
      [digitalRead] and the attachment of pin interrupts.
    - [pinMode], the GDB stub and the interrupt controller behind the serial port
      driver: its calls are recorded.
    - The set-up of the serial port and of the exception vectors by the GDB stub, its
      variants for FreeRTOS and the setters of its callbacks (parameters of the
      handlers); the watchdog registers that it feeds while it waits.
    - The set-up of the registers and pins of the I2S driver, and the choice of its
      clock dividers, which computes in floating point.
    - The pins, PWM and timers of the AVR core in C, which only access hardware, C++
      libraries, SPIFFS, the vendor's SDK, the firmware of the Wi-Fi shield and the
      tools: third-party code, glue to closed libraries, or not C. *)

From stdpp Require Export base numbers list gmap.
From Stdlib Require Export ZArith Lia ZifyBool.

#[export] Set Default Goal Selector "!".

(** ** Machine integers

    Every C integer of the firmware is a [Z]; the conversion that C performs
    when a value is stored in an object of a given width is written out with
    [u8], [u16] and [u32]. *)

Declare Scope fw_scope.
Delimit Scope fw_scope with fw.

Open Scope Z_scope.

(** Linear arithmetic with [/] and [mod] by constants. *)
Ltac mlia := Z.to_euclidean_division_equations; lia.

Definition wrap (w v : Z) : Z := v mod 2 ^ w.
Definition u8 (v : Z) : Z := v mod 256.
Definition u16 (v : Z) : Z := v mod 65536.
Definition u32 (v : Z) : Z := v mod 4294967296.

(** The AVR has a 16-bit [int]: the value of an [int] expression whose
    mathematical result is [v], as the two's complement arithmetic of the
    compiler delivers it. *)
Definition s16 (v : Z) : Z := (v + 32768) mod 65536 - 32768.

Definition is_u8 (v : Z) : Prop := 0 <= v < 256.
Definition is_u16 (v : Z) : Prop := 0 <= v < 65536.
Definition is_u32 (v : Z) : Prop := 0 <= v < 4294967296.

(** [_BV(n)], also written [(1 << n)] in the sources. *)
Definition bv (n : Z) : Z := Z.shiftl 1 n.

(** C truth value of an integer and of a masked register. *)
Definition truth (v : Z) : bool := negb (v =? 0).
Definition bit_set (v m : Z) : bool := truth (Z.land v m).
Definition b2z (b : bool) : Z := if b then 1 else 0.

Lemma u8_range v : is_u8 (u8 v).
Proof. unfold is_u8, u8. mlia. Qed.
Lemma u16_range v : is_u16 (u16 v).
Proof. unfold is_u16, u16. mlia. Qed.
Lemma u32_range v : is_u32 (u32 v).
Proof. unfold is_u32, u32. mlia. Qed.

Lemma u8_id v : is_u8 v -> u8 v = v.
Proof. unfold is_u8, u8. intros. by apply Z.mod_small. Qed.
Lemma u16_id v : is_u16 v -> u16 v = v.
Proof. unfold is_u16, u16. intros. by apply Z.mod_small. Qed.
Lemma u32_id v : is_u32 v -> u32 v = v.
Proof. unfold is_u32, u32. intros. by apply Z.mod_small. Qed.

Lemma s16_id v : -32768 <= v < 32768 -> s16 v = v.
Proof. unfold s16. intros. rewrite Z.mod_small; lia. Qed.

Create HintDb fw.
#[export] Hint Resolve u8_range u16_range u32_range : fw.

(** ** Bit lemmas *)

Lemma bv_pos n : 0 <= n -> 0 < bv n.
Proof. intros. unfold bv. rewrite Z.shiftl_1_l. lia. Qed.

Lemma testbit_bv n k : 0 <= n -> Z.testbit (bv n) k = bool_decide (n = k).
Proof.
  intros. unfold bv. rewrite Z.shiftl_1_l.
  destruct (decide (n = k)) as [->|Hne].
  - rewrite Z.pow2_bits_true by lia. by rewrite bool_decide_eq_true_2.
  - rewrite Z.pow2_bits_false by lia. by rewrite bool_decide_eq_false_2.
Qed.

(** Two integers that agree on every non-negative bit are equal. *)
Lemma z_ext a b : (forall k, 0 <= k -> Z.testbit a k = Z.testbit b k) -> a = b.
Proof. intros H. apply Z.bits_inj'. exact H. Qed.

Lemma testbit_small b n k : 0 <= b < 2 ^ n -> 0 <= n <= k -> Z.testbit b k = false.
Proof.
  intros Hb Hk. destruct (decide (b = 0)) as [->|]; [apply Z.bits_0 |].
  apply Z.bits_above_log2; [lia |].
  apply Z.lt_le_trans with n; [apply Z.log2_lt_pow2 |]; lia.
Qed.

Lemma u8_bit_high b k : is_u8 b -> 8 <= k -> Z.testbit b k = false.
Proof. intros Hb Hk. apply (testbit_small b 8 k); unfold is_u8 in Hb; lia. Qed.

(** The bits of a value stored in a byte and in a 32-bit word. *)
Lemma testbit_u8 v k : 0 <= k -> Z.testbit (u8 v) k = (k <? 8) && Z.testbit v k.
Proof.
  intros Hk. unfold u8. change 256 with (2 ^ 8). destruct (k <? 8) eqn:E.
  - rewrite Z.mod_pow2_bits_low; [done | lia].
  - by rewrite Z.mod_pow2_bits_high by lia.
Qed.
Lemma testbit_u32 v k : 0 <= k -> Z.testbit (u32 v) k = (k <? 32) && Z.testbit v k.
Proof.
  intros Hk. unfold u32. change 4294967296 with (2 ^ 32). destruct (k <? 32) eqn:E.
  - rewrite Z.mod_pow2_bits_low; [done | lia].
  - by rewrite Z.mod_pow2_bits_high by lia.
Qed.

(** Masking with 255: of a byte, and of a shifted word. *)
Lemma land_255 b : is_u8 b -> Z.land 255 b = b.
Proof.
  intros Hb. rewrite Z.land_comm. change 255 with (Z.ones 8). rewrite Z.land_ones by lia.
  apply Z.mod_small. exact Hb.
Qed.
Lemma byte_of_word v n : 0 <= n -> Z.land (Z.shiftr v n) 255 = u8 (v / 2 ^ n).
Proof.
  intros Hn. change 255 with (Z.ones 8). rewrite Z.land_ones, Z.shiftr_div_pow2 by lia. done.
Qed.

(** The disjoint-or of a shifted high part and a low part is their sum. *)
Lemma lor_disjoint_add a b n :
  0 <= n -> 0 <= b < 2 ^ n -> Z.lor (Z.shiftl a n) b = a * 2 ^ n + b.
Proof.
  intros Hn Hb. rewrite <- Z.shiftl_mul_pow2 by done.
  assert (Z.land (Z.shiftl a n) b = 0) as Hand.
  { apply z_ext. intros k Hk. rewrite Z.land_spec, Z.bits_0, Z.shiftl_spec by done.
    destruct (decide (k < n)); [by rewrite Z.testbit_neg_r by lia |].
    rewrite (testbit_small b n k) by lia. apply andb_false_r. }
  rewrite <- Z.lxor_lor by done. symmetry. by apply Z.add_nocarry_lxor.
Qed.


Lemma bit_set_bv v k : 0 <= k -> bit_set v (bv k) = Z.testbit v k.
Proof.
  intros Hk. unfold bit_set, truth. destruct (Z.testbit v k) eqn:E.
  - apply negb_true_iff, Z.eqb_neq. intros H.
    assert (Z.testbit (Z.land v (bv k)) k = false) as Hf by (rewrite H; apply Z.bits_0).
    rewrite Z.land_spec, E, testbit_bv in Hf by done. by rewrite bool_decide_eq_true_2 in Hf.
  - apply negb_false_iff, Z.eqb_eq. apply z_ext. intros j Hj.
    rewrite Z.land_spec, testbit_bv, Z.bits_0 by done.
    case_bool_decide as Hd; [subst; by rewrite E | apply andb_false_r].
Qed.

(** ** Little-endian byte strings *)

Fixpoint le_value (bs : list Z) : Z :=
  match bs with
  | [] => 0
  | b :: bs' => b + 256 * le_value bs'
  end.

Fixpoint le_bytes (n : nat) (v : Z) : list Z :=
  match n with
  | O => []
  | S n' => u8 v :: le_bytes n' (v / 256)
  end.

Lemma length_le_bytes n v : length (le_bytes n v) = n.
Proof. revert v. induction n; intros; simpl; by f_equal. Qed.

Lemma le_value_bytes n v : 0 <= v < 256 ^ Z.of_nat n -> le_value (le_bytes n v) = v.
Proof.
  revert v. induction n as [|n IH]; intros v Hv; simpl in *; [lia|].
  rewrite IH.
  - unfold u8. mlia.
  - rewrite Nat2Z.inj_succ, Z.pow_succ_r in Hv by lia. mlia.
Qed.

Lemma le_bytes_value bs :
  Forall is_u8 bs -> le_bytes (length bs) (le_value bs) = bs.
Proof.
  induction 1 as [|b bs Hb _ IH]; simpl; [done|]. unfold is_u8 in Hb.
  f_equal.
  - unfold u8. rewrite Z.mul_comm, Z_mod_plus_full. apply Z.mod_small. lia.
  - rewrite Z.mul_comm, Z.div_add, Z.div_small by lia. by rewrite Z.add_0_l.
Qed.

Lemma le_bytes_u8 n v : Forall is_u8 (le_bytes n v).
Proof. revert v. induction n; intros; simpl; constructor; auto with fw. Qed.

#[export] Hint Resolve length_le_bytes le_bytes_u8 : fw.
#[export] Hint Rewrite length_le_bytes : fw.

(** ** Lists *)

Lemma nth_map_seq {A} (g : nat -> A) m n d :
  (n < m)%nat -> nth n (map g (seq 0 m)) d = g n.
Proof.
  intros H. rewrite (nth_indep _ d (g 0%nat)) by (by rewrite length_map, length_seq).
  rewrite (map_nth g). by rewrite seq_nth.
Qed.

Lemma nth_insert_ne (l : list Z) i j v : i <> j -> nth j (<[i := v]> l) 0 = nth j l 0.
Proof.
  intros Hne. destruct (decide (j < length l)%nat) as [Hj|Hj].
  - rewrite !nth_lookup. by rewrite list_lookup_insert_ne.
  - rewrite !nth_overflow; rewrite ?length_insert; [done|lia|lia].
Qed.

Lemma take_insert_next {A} (l : list A) n x : (n < length l)%nat -> take (n + 1) (<[n := x]> l) = take n l ++ [x].
Proof.
  intros Hn. rewrite Nat.add_1_r, (take_S_r _ _ x).
  - by rewrite take_insert_ge.
  - by apply list_lookup_insert_eq.
Qed.

(** ** Tactics *)

(** Case analysis on the innermost [match]/[if] scrutinee of the goal. *)
Ltac split_match :=
  match goal with
  | |- context [match ?x with _ => _ end] =>
      lazymatch x with
      | context [match _ with _ => _ end] => fail
      | _ => destruct x eqn:?
      end
  end.
