(* ===== verification/Machine.v ===== *)
(** * The ATmega32U4 as the firmware sees it

    The hardware and avr-libc are not part of the repository: they are the
    parameter [Board] of the whole development.  A board has an abstract state
    [hw], an arbitrary effect for each access to an I/O register and for each
    avr-libc primitive, and it decides which interrupts are taken at each
    point where the firmware can be interrupted.  The firmware itself is
    written in the monad [M] over the state [state]: the global variables of
    the C files, the memory objects they share, the global interrupt flag, the
    trace of everything done to the hardware, and the state of the board. *)

From S2P Require Import Prelude.

(** ** I/O registers, interrupts, avr-libc primitives *)

Inductive reg :=
  | PORTB | DDRB | PORTC | DDRC | PORTD | DDRD | PIND | PORTE | DDRE
  | UCSR1A | UCSR1B | UCSR1C | UBRR1 | UDR1
  | TIMSK1 | TCCR1B | TCNT1H | TCNT1L | OCR1A
  | MCUCR | MCUSR | WDTCSR | CLKPR
  | UENUM | UECONX | UECFG0X | UECFG1X | UEINTX | UEIENX | UEDATX
  | UEBCLX | UEBCHX | UESTA0X | UERST | UEINT
  | UDCON | UDADDR | UDIEN | UDINT | UDFNUM
  | USBCON | USBINT | USBSTA | UHWCON | PLLCSR | PLLFRQ.

Inductive irq := TIMER1_COMPA | USART1_RX | USB_GEN.

(** Primitives of avr-libc ([avr/boot.h], [avr/eeprom.h], [avr/wdt.h],
    [util/delay.h]) that act on the hardware, and the jump to address 0. *)
Inductive avr_op :=
  | boot_page_erase (a : Z)
  | boot_page_fill (a w : Z)
  | boot_page_write (a : Z)
  | boot_spm_busy_wait
  | boot_rww_enable
  | boot_rww_enable_safe
  | boot_lock_bits_set (b : Z)
  | eeprom_write_byte (a v : Z)
  | wdt_disable
  | delay_ms (n : Z)
  | delay_nop
  | jmp_sketch.

Inductive event :=
  | ERd (r : reg) (v : Z)
  | EWr (r : reg) (v : Z)
  | EIrq (i : irq)
  | EAvr (o : avr_op).

#[export] Instance reg_eq_dec : EqDecision reg.
Proof. solve_decision. Defined.
#[export] Instance irq_eq_dec : EqDecision irq.
Proof. solve_decision. Defined.
#[export] Instance avr_op_eq_dec : EqDecision avr_op.
Proof. solve_decision. Defined.
#[export] Instance event_eq_dec : EqDecision event.
Proof. solve_decision. Defined.

Class Board := {
  hw : Type;
  io_read : reg -> hw -> Z * hw;
  io_write : reg -> Z -> hw -> hw;
  irqs : hw -> list irq * hw;
  pgm_byte : Z -> hw -> Z;
  eeprom_byte : Z -> hw -> Z;
  fuse_byte : Z -> hw -> Z;
  avr : avr_op -> hw -> hw
}.

(** ** Global variables

    The scalar globals of [Adelino.c], of [Descriptors.c] and of the USB stack,
    each with the width of its C type. *)

Inductive var :=
  | Timeout | rts_pulse | boot_mode | CurrAddress
  | led_counter | led_control | leds_enabled
  | buffer_in | buffer_out
  | bootKey | bootKeyMem
  | USB_DeviceState | USB_Device_ConfigurationNumber | USB_IsInitialized
  | DD_Size | DD_VendorID | DD_ProductID.

Definition var_width (x : var) : Z :=
  match x with
  | CurrAddress => 32
  | led_counter | bootKey | bootKeyMem | DD_VendorID | DD_ProductID => 16
  | _ => 8
  end.

(** Memory objects accessed byte by byte. *)
Inductive obj := buffer | LineEncoding | USB_ControlRequest.

#[export] Instance var_eq_dec : EqDecision var.
Proof. solve_decision. Defined.
#[export] Instance obj_eq_dec : EqDecision obj.
Proof. solve_decision. Defined.

Definition all_vars : list var :=
  [Timeout; rts_pulse; boot_mode; CurrAddress; led_counter; led_control;
   leds_enabled; buffer_in; buffer_out; bootKey; bootKeyMem; USB_DeviceState;
   USB_Device_ConfigurationNumber; USB_IsInitialized; DD_Size; DD_VendorID;
   DD_ProductID].

#[export] Program Instance var_finite : finite.Finite var := {| finite.enum := all_vars |}.
Next Obligation. by apply (bool_decide_unpack _). Qed.
Next Obligation. intros []; by apply (bool_decide_unpack _). Qed.

#[export] Program Instance obj_finite : finite.Finite obj :=
  {| finite.enum := [buffer; LineEncoding; USB_ControlRequest] |}.
Next Obligation. by apply (bool_decide_unpack _). Qed.
Next Obligation. intros []; by apply (bool_decide_unpack _). Qed.

(** ** The monad *)

Section Monad.
Context {B : Board}.

Record state := mkState {
  vars : gmap var Z;
  mem : gmap obj (list Z);
  iflag : bool;
  tr : list event;       (** newest first *)
  world : hw
}.

(** A computation returns, or leaves the firmware for the application
    section ([jmp 0x0000]), or exhausts the fuel of one of its loops. *)
Inductive res (A : Type) :=
  | Ok (a : A) (s : state)
  | Jump (s : state)
  | NoFuel.

Definition M (A : Type) : Type := nat -> state -> res A.

Definition ret {A} (a : A) : M A := fun _ s => Ok A a s.
Definition bind {A C} (m : M A) (k : A -> M C) : M C := fun n s =>
  match m n s with
  | Ok _ a s' => k a n s'
  | Jump _ s' => Jump C s'
  | NoFuel _ => NoFuel C
  end.

(** Loops: [iter body x] runs [body] from the local state [x] until it
    returns [inr]; the fuel bounds the number of rounds. *)
Fixpoint iter_aux {S A} (k : nat) (body : S -> M (S + A)) (x : S) : M A := fun n s =>
  match k with
  | O => NoFuel A
  | S k' =>
      match body x n s with
      | Ok _ (inl x') s' => iter_aux k' body x' n s'
      | Ok _ (inr a) s' => Ok A a s'
      | Jump _ s' => Jump A s'
      | NoFuel _ => NoFuel A
      end
  end.
Definition iter {S A} (body : S -> M (S + A)) (x : S) : M A :=
  fun n s => iter_aux n body x n s.

Definition while (c : M bool) (body : M unit) : M unit :=
  iter (fun _ : unit =>
    bind c (fun b : bool =>
      if b then bind body (fun _ => ret (inl tt)) else ret (inr tt))) tt.

(** ** State access *)

Definition set_vars (f : gmap var Z -> gmap var Z) (s : state) : state :=
  mkState (f (vars s)) (mem s) (iflag s) (tr s) (world s).
Definition set_mem (f : gmap obj (list Z) -> gmap obj (list Z)) (s : state) : state :=
  mkState (vars s) (f (mem s)) (iflag s) (tr s) (world s).
Definition set_iflag (b : bool) (s : state) : state :=
  mkState (vars s) (mem s) b (tr s) (world s).
Definition step_hw (e : event) (h : hw) (s : state) : state :=
  mkState (vars s) (mem s) (iflag s) (e :: tr s) h.
Definition set_world (h : hw) (s : state) : state :=
  mkState (vars s) (mem s) (iflag s) (tr s) h.

Definition var_of (x : var) (s : state) : Z := vars s !!! x.
Definition obj_of (o : obj) (s : state) : list Z := mem s !!! o.

(** Value of a variable, and assignment with the conversion to its type. *)
Definition get (x : var) : M Z := fun _ s => Ok Z (var_of x s) s.
Definition upd (x : var) (v : Z) (s : state) : state :=
  set_vars (<[x := wrap (var_width x) v]>) s.
Definition put (x : var) (v : Z) : M unit := fun _ s => Ok unit tt (upd x v s).

Definition get_obj (o : obj) : M (list Z) := fun _ s => Ok _ (obj_of o s) s.
Definition upd_obj (o : obj) (l : list Z) (s : state) : state := set_mem (<[o := l]>) s.
Definition put_obj (o : obj) (l : list Z) : M unit := fun _ s => Ok unit tt (upd_obj o l s).

(** [cli()], [sei()], and the I flag of [SREG] *)
Definition get_iflag : M bool := fun _ s => Ok bool (iflag s) s.
Definition cli : M unit := fun _ s => Ok unit tt (set_iflag false s).
Definition sei : M unit := fun _ s => Ok unit tt (set_iflag true s).

(** Accesses of the CPU to the hardware, without interrupts. *)
Definition rd_raw (r : reg) : M Z := fun _ s =>
  let '(v, h) := io_read r (world s) in Ok Z (u8 v) (step_hw (ERd r (u8 v)) h s).
Definition rd16_raw (r : reg) : M Z := fun _ s =>
  let '(v, h) := io_read r (world s) in Ok Z (u16 v) (step_hw (ERd r (u16 v)) h s).
Definition wr_raw (r : reg) (v : Z) : M unit := fun _ s =>
  Ok unit tt (step_hw (EWr r v) (io_write r v (world s)) s).
Definition avr_raw (o : avr_op) : M unit := fun _ s =>
  Ok unit tt (step_hw (EAvr o) (avr o (world s)) s).

(** [jmp 0x0000]: the firmware ends here. *)
Definition jump : M unit := fun _ s =>
  Jump _ (step_hw (EAvr jmp_sketch) (avr jmp_sketch (world s)) s).

(** [pgm_read_byte], [pgm_read_word], [eeprom_read_byte] and
    [boot_lock_fuse_bits_get] *)
Definition pgm_read_byte (a : Z) : M Z := fun _ s => Ok Z (u8 (pgm_byte a (world s))) s.
Definition pgm_read_word (a : Z) : M Z := fun _ s =>
  Ok Z (u8 (pgm_byte a (world s)) + 256 * u8 (pgm_byte (a + 1) (world s))) s.
Definition eeprom_read_byte (a : Z) : M Z := fun _ s => Ok Z (u8 (eeprom_byte a (world s))) s.
Definition boot_lock_fuse_bits_get (a : Z) : M Z := fun _ s => Ok Z (u8 (fuse_byte a (world s))) s.
End Monad.

Arguments Ok {B A} _ _.
Arguments Jump {B A} _.
Arguments NoFuel {B A}.
Arguments M {B} A.

Notation "x <- m ;; k" := (bind m (fun x => k))
  (at level 100, m at next level, right associativity) : fw_scope.
Notation "m ;; k" := (bind m (fun _ => k))
  (at level 100, right associativity) : fw_scope.
Notation "'If' b 'Then' m" := (if b : bool then m else ret tt)
  (at level 10, m at level 200) : fw_scope.
Open Scope fw_scope.

(** ** Interrupts

    The interrupt vector table maps each interrupt to its handler.  Handlers
    declared [ISR_BLOCK] run with interrupts disabled, so their code is
    instantiated with the empty table [no_vectors]. *)
Class Vectors `{Board} := { isr : irq -> M unit }.

Definition no_vectors `{Board} : Vectors := {| isr := fun _ => ret tt |}.

Section Interrupts.
Context {B : Board} {V : Vectors}.

Definition serve (i : irq) : M unit := fun n s =>
  (isr i ;; sei) n (set_iflag false (step_hw (EIrq i) (world s) s)).

Fixpoint serve_all (l : list irq) : M unit :=
  match l with
  | [] => ret tt
  | i :: l' => serve i ;; serve_all l'
  end.

(** A point where pending interrupts are taken if the I flag is set. *)
Definition poll : M unit := fun n s =>
  if iflag s then
    let '(l, h) := irqs (world s) in serve_all l n (set_world h s)
  else Ok tt s.

Definition rd (r : reg) : M Z := poll ;; rd_raw r.
Definition rd16 (r : reg) : M Z := poll ;; rd16_raw r.
Definition wr (r : reg) (v : Z) : M unit := poll ;; wr_raw r v.
Definition call (o : avr_op) : M unit := poll ;; avr_raw o.

(** [R |= m] and [R &= ~m] *)
Definition or_reg (r : reg) (m : Z) : M unit := v <- rd r ;; wr r (Z.lor v m).
Definition clr_reg (r : reg) (m : Z) : M unit := v <- rd r ;; wr r (Z.land v (Z.lnot m)).
Definition xor_reg (r : reg) (m : Z) : M unit := v <- rd r ;; wr r (Z.lxor v m).

(** Read of a [volatile] variable: the value an interrupt may have changed. *)
Definition vget (x : var) : M Z := poll ;; get x.
End Interrupts.
