(* ===== verification/Logic.v ===== *)
(** * Reasoning about firmware code

    - [keeps R m]: every run of [m] relates its first and its last state by the
      preorder [R] (whether it returns or jumps to the sketch);
    - [within F]: the frame relation of a footprint [F], the modifies clause of
      a function: which registers it may read, which variables, objects and
      registers it may write and which avr-libc primitives it may call;
    - [mono m]: a run that has enough fuel is not changed by more fuel. *)

From S2P Require Import Prelude Machine.

Section Keeps.
Context {B : Board}.

Lemma iter_aux_S {S A} k (body : S -> M (S + A)) x n s :
  iter_aux (Datatypes.S k) body x n s =
  match body x n s with
  | Ok (inl x') s' => iter_aux k body x' n s'
  | Ok (inr a) s' => Ok a s'
  | Jump s' => Jump s'
  | NoFuel => NoFuel
  end.
Proof. reflexivity. Qed.

Definition keeps {A} (R : relation state) (m : M A) : Prop := forall n s,
  match m n s with
  | Ok _ s' | Jump s' => R s s'
  | NoFuel => True
  end.

Section Rules.
Context (R : relation state) `{!PreOrder R}.

Lemma keeps_ret {A} (a : A) : keeps R (ret a).
Proof. intros n s. simpl. reflexivity. Qed.

Lemma keeps_bind {A C} (m : M A) (k : A -> M C) :
  keeps R m -> (forall a, keeps R (k a)) -> keeps R (bind m k).
Proof.
  intros Hm Hk n s. unfold bind. specialize (Hm n s).
  destruct (m n s) as [a s'|s'|]; [|done|done].
  specialize (Hk a n s'). destruct (k a n s'); by try etrans.
Qed.

Lemma keeps_iter_aux {S A} k (body : S -> M (S + A)) :
  (forall x, keeps R (body x)) -> forall x, keeps R (iter_aux k body x).
Proof.
  intros Hb. induction k as [|k IH]; intros x n s; simpl; [done|].
  specialize (Hb x n s). destruct (body x n s) as [[x'|a] s'|s'|]; try done.
  specialize (IH x' n s'). destruct (iter_aux k body x' n s'); by try etrans.
Qed.

Lemma keeps_iter {S A} (body : S -> M (S + A)) x :
  (forall x, keeps R (body x)) -> keeps R (iter body x).
Proof. intros Hb n s. by apply keeps_iter_aux. Qed.

Lemma keeps_while (c : M bool) (body : M unit) :
  keeps R c -> keeps R body -> keeps R (while c body).
Proof.
  intros Hc Hb. apply keeps_iter. intros _. apply keeps_bind; [done|].
  intros []; [|apply keeps_ret].
  apply keeps_bind; [done|]. intros _. apply keeps_ret.
Qed.

Lemma keeps_state {A} (f : state -> A) (g : state -> state) :
  (forall s, R s (g s)) -> keeps R (fun _ s => Ok (f s) (g s)).
Proof. intros Hg n s. apply Hg. Qed.

Lemma keeps_get x : keeps R (get x).
Proof. intros n s. simpl. reflexivity. Qed.
Lemma keeps_get_obj o : keeps R (get_obj o).
Proof. intros n s. simpl. reflexivity. Qed.
Lemma keeps_pgm_read_byte a : keeps R (pgm_read_byte a).
Proof. intros n s. simpl. reflexivity. Qed.
Lemma keeps_pgm_read_word a : keeps R (pgm_read_word a).
Proof. intros n s. simpl. reflexivity. Qed.
Lemma keeps_eeprom_read_byte a : keeps R (eeprom_read_byte a).
Proof. intros n s. simpl. reflexivity. Qed.
Lemma keeps_fuse a : keeps R (boot_lock_fuse_bits_get a).
Proof. intros n s. simpl. reflexivity. Qed.

Lemma keeps_rd_raw r :
  (forall s v h, R s (step_hw (ERd r v) h s)) -> keeps R (rd_raw r).
Proof. intros H n s. unfold rd_raw. destruct (io_read r (world s)). apply H. Qed.

Lemma keeps_rd16_raw r :
  (forall s v h, R s (step_hw (ERd r v) h s)) -> keeps R (rd16_raw r).
Proof. intros H n s. unfold rd16_raw. destruct (io_read r (world s)). apply H. Qed.
End Rules.

(** ** Footprints *)

Record footprint := mkFp {
  fp_rd : reg -> bool;
  fp_var : var -> bool;
  fp_obj : obj -> bool;
  fp_reg : reg -> bool;
  fp_op : avr_op -> bool
}.

Definition allowed (F : footprint) (e : event) : bool :=
  match e with
  | ERd r _ => fp_rd F r
  | EIrq _ => true
  | EWr r _ => fp_reg F r
  | EAvr o => fp_op F o
  end.

Record within (F : footprint) (s s' : state) : Prop := mkWithin {
  within_var x : fp_var F x = false -> var_of x s' = var_of x s;
  within_obj o : fp_obj F o = false -> obj_of o s' = obj_of o s;
  within_tr : exists d, tr s' = d ++ tr s /\ forallb (allowed F) d = true
}.

#[export] Instance within_preorder F : PreOrder (within F).
Proof.
  split.
  - intros s. split; [done|done|]. by exists [].
  - intros s1 s2 s3 [V1 O1 (d1 & T1 & A1)] [V2 O2 (d2 & T2 & A2)]. split.
    + intros x Hx. by rewrite V2, V1.
    + intros o Ho. by rewrite O2, O1.
    + exists (d2 ++ d1). rewrite T2, T1, app_assoc. split; [done|].
      by rewrite forallb_app, A2, A1.
Qed.

Lemma within_upd F x v s : fp_var F x = true -> within F s (upd x v s).
Proof.
  intros Hx. split; [|done|by exists []].
  intros y Hy. unfold var_of, upd. simpl. rewrite lookup_total_insert_ne; [done|].
  intros ->. congruence.
Qed.

Lemma within_upd_obj F o l s : fp_obj F o = true -> within F s (upd_obj o l s).
Proof.
  intros Hx. split; [done| |by exists []].
  intros y Hy. unfold obj_of, upd_obj. simpl. rewrite lookup_total_insert_ne; [done|].
  intros ->. congruence.
Qed.

Lemma within_step F e h s : allowed F e = true -> within F s (step_hw e h s).
Proof. intros He. split; [done|done|]. exists [e]. simpl. by rewrite He. Qed.

Lemma within_iflag F b s : within F s (set_iflag b s).
Proof. split; [done|done|by exists []]. Qed.

Lemma within_world F h s : within F s (set_world h s).
Proof. split; [done|done|by exists []]. Qed.

(** ** Fuel *)

Definition mono {A} (m : M A) : Prop := forall n n' s,
  (n <= n')%nat -> m n s <> NoFuel -> m n' s = m n s.

Lemma mono_ret {A} (a : A) : mono (ret a).
Proof. done. Qed.

Lemma mono_bind {A C} (m : M A) (k : A -> M C) :
  mono m -> (forall a, mono (k a)) -> mono (bind m k).
Proof.
  intros Hm Hk n n' s Hn. unfold bind. intros H.
  rewrite (Hm n n' s Hn) by (by intros E; rewrite E in H).
  destruct (m n s) as [a s'|s'|]; [|done|done]. by apply Hk.
Qed.

Lemma mono_iter_aux {S A} k k' (body : S -> M (S + A)) :
  (forall x, mono (body x)) -> (k <= k')%nat -> forall n n' x s, (n <= n')%nat ->
  iter_aux k body x n s <> NoFuel -> iter_aux k' body x n' s = iter_aux k body x n s.
Proof.
  intros Hb. revert k'. induction k as [|k IH]; intros k' Hk n n' x s Hn; [done|].
  destruct k' as [|k']; [lia|]. simpl. intros H.
  rewrite (Hb x n n' s Hn) by (by intros E; rewrite E in H).
  destruct (body x n s) as [[x'|a] s'|s'|]; try done.
  apply IH; [lia|done|done].
Qed.

Lemma mono_iter {S A} (body : S -> M (S + A)) x :
  (forall x, mono (body x)) -> mono (iter body x).
Proof. intros Hb n n' s Hn. unfold iter. by apply mono_iter_aux. Qed.

Lemma mono_while (c : M bool) (body : M unit) :
  mono c -> mono body -> mono (while c body).
Proof.
  intros Hc Hb. apply mono_iter. intros _. apply mono_bind; [done|].
  intros []; [|apply mono_ret].
  apply mono_bind; [done|]. intros _. apply mono_ret.
Qed.
End Keeps.

(** ** Properties of computations closed under the constructs of the firmware

    [Closed F P]: the property [P] holds of every primitive that the footprint
    [F] allows and is preserved by sequencing and loops, so it holds of every
    function written with them.  Each function of the firmware is traversed
    once; [keeps (within F)] and [mono] are instances. *)

Section Closed.
Context {B : Board} {V : Vectors}.

Class Closed (F : footprint) (P : forall A, M A -> Prop) : Prop := {
  cl_ret A (a : A) : P A (ret a);
  cl_bind A C (m : M A) (k : A -> M C) : P A m -> (forall a, P C (k a)) -> P C (bind m k);
  cl_iter S A (body : S -> M (S + A)) x : (forall x, P _ (body x)) -> P A (iter body x);
  cl_rd r : fp_rd F r = true -> P Z (rd r);
  cl_rd16 r : fp_rd F r = true -> P Z (rd16 r);
  cl_vget x : P Z (vget x);
  cl_get x : P Z (get x);
  cl_get_obj o : P _ (get_obj o);
  cl_get_iflag : P bool get_iflag;
  cl_pgm_read_byte a : P Z (pgm_read_byte a);
  cl_pgm_read_word a : P Z (pgm_read_word a);
  cl_eeprom_read_byte a : P Z (eeprom_read_byte a);
  cl_fuse a : P Z (boot_lock_fuse_bits_get a);
  cl_cli : P unit cli;
  cl_sei : P unit sei;
  cl_put x v : fp_var F x = true -> P unit (put x v);
  cl_put_obj o l : fp_obj F o = true -> P unit (put_obj o l);
  cl_wr r v : fp_reg F r = true -> P unit (wr r v);
  cl_call o : fp_op F o = true -> P unit (call o);
  cl_jump : fp_op F jmp_sketch = true -> P unit jump
}.

Lemma cl_while F P `{!Closed F P} (c : M bool) (body : M unit) :
  P _ c -> P _ body -> P _ (while c body).
Proof.
  intros Hc Hb. apply cl_iter. intros _. apply cl_bind; [done|].
  intros []; [|apply cl_ret].
  apply cl_bind; [done|]. intros _. apply cl_ret.
Qed.

(** ** Interrupts *)

Lemma mono_poll : (forall i, mono (isr i)) -> mono poll.
Proof.
  intros Hi n n' s Hn. unfold poll. destruct (iflag s); [|done].
  destruct (irqs (world s)) as [l h].
  assert (mono (serve_all l)) as Hl; [|by apply Hl].
  clear s h. induction l as [|i l IH]; simpl; [apply mono_ret|].
  apply mono_bind; [|done]. intros k k' s Hk. unfold serve.
  apply mono_bind; [done|done|done].
Qed.

(** A preorder that the board, the interrupt flag and the handlers respect. *)
Class IrqRel (R : relation state) : Prop := {
  irqrel_preorder :: PreOrder R;
  irqrel_irq s i h : R s (step_hw (EIrq i) h s);
  irqrel_flag s b : R s (set_iflag b s);
  irqrel_world s h : R s (set_world h s);
  irqrel_isr i : keeps R (isr i)
}.

Section WithR.
Context (R : relation state) `{!IrqRel R}.

Lemma keeps_serve_all l : keeps R (serve_all l).
Proof.
  induction l as [|i l IH]; simpl; [by apply keeps_ret; exact _|].
  apply keeps_bind; [exact _| |done]. intros n s. unfold serve.
  assert (keeps R (isr i ;; sei)) as Hk.
  { apply keeps_bind; [exact _|apply irqrel_isr|].
    intros _. apply (keeps_state _ (fun _ => tt)). intros. apply irqrel_flag. }
  specialize (Hk n (set_iflag false (step_hw (EIrq i) (world s) s))).
  destruct ((isr i ;; sei) n (set_iflag false (step_hw (EIrq i) (world s) s))); try done;
    (etrans; [|exact Hk]; etrans; [apply irqrel_irq|apply irqrel_flag]).
Qed.

Lemma keeps_poll : keeps R poll.
Proof.
  intros n s. unfold poll. destruct (iflag s); [|reflexivity].
  destruct (irqs (world s)) as [l h].
  pose proof (keeps_serve_all l n (set_world h s)) as Hk.
  destruct (serve_all l n (set_world h s)); try done; (etrans; [apply irqrel_world|exact Hk]).
Qed.

(** [keeps R] is closed once [R] allows the accesses of the footprint. *)
Lemma keeps_closed F :
  (forall r v h s, fp_rd F r = true -> R s (step_hw (ERd r v) h s)) ->
  (forall x v s, fp_var F x = true -> R s (upd x v s)) ->
  (forall o l s, fp_obj F o = true -> R s (upd_obj o l s)) ->
  (forall r v h s, fp_reg F r = true -> R s (step_hw (EWr r v) h s)) ->
  (forall o h s, fp_op F o = true -> R s (step_hw (EAvr o) h s)) ->
  Closed F (fun A => keeps R).
Proof.
  intros Hrd Hv Ho Hr Hop.
  assert (forall A (m : M A), keeps R m -> keeps R (poll ;; m)) as Hpoll.
  { intros A m Hm. apply keeps_bind; [exact _|apply keeps_poll|done]. }
  split; intros;
    try (by apply keeps_ret; exact _);
    try (by intros n s; simpl; auto; reflexivity);
    try (by apply Hpoll; intros n s; simpl; auto; reflexivity);
    try (by intros n s; apply irqrel_flag).
  - by apply keeps_bind; [exact _|..].
  - by apply keeps_iter; [exact _|..].
  - apply Hpoll, keeps_rd_raw. auto.
  - apply Hpoll, keeps_rd16_raw. auto.
Qed.
End WithR.

(** The handlers of the vector table stay within the footprint. *)
Class VecFp (F : footprint) : Prop := vec_fp i : keeps (within F) (isr i).

#[export] Instance within_irqrel F `{!VecFp F} : IrqRel (within F).
Proof.
  split.
  - exact _.
  - intros. by apply within_step.
  - intros. apply within_iflag.
  - intros. apply within_world.
  - apply vec_fp.
Qed.

#[export] Instance within_closed F `{!VecFp F} : Closed F (fun A => keeps (within F)).
Proof.
  apply keeps_closed; [exact _|..]; intros.
  - by apply within_step.
  - by apply within_upd.
  - by apply within_upd_obj.
  - by apply within_step.
  - by apply within_step.
Qed.

Lemma mono_closed F : (forall i, mono (isr i)) -> Closed F (fun A => mono).
Proof.
  intros Hi. apply mono_poll in Hi.
  assert (forall A (m : M A), (forall n n' s, m n' s = m n s) -> mono m) as Hp.
  { intros A m Hm n n' s _ _. apply Hm. }
  split; intros; try (by apply Hp);
    try (by apply mono_bind; [exact Hi|intros; by apply Hp]).
  - by apply mono_bind.
  - by apply mono_iter.
Qed.
End Closed.

(** Weakening: a larger footprint allows more. *)
Definition fp_le (F G : footprint) : Prop :=
  (forall r, fp_rd F r = true -> fp_rd G r = true) /\
  (forall x, fp_var F x = true -> fp_var G x = true) /\
  (forall o, fp_obj F o = true -> fp_obj G o = true) /\
  (forall r, fp_reg F r = true -> fp_reg G r = true) /\
  (forall o, fp_op F o = true -> fp_op G o = true).

Ltac solve_fp_le := repeat split; intros []; simpl; auto.

Lemma closed_weaken {B : Board} {V : Vectors} F G P : fp_le F G -> Closed G P -> Closed F P.
Proof. intros (Hrd & Hv & Ho & Hr & Hop) []. split; intros; auto. Qed.

(** ** Traversal *)

Create HintDb closed_db.
#[export] Hint Constants Opaque : closed_db.

Ltac closed_step :=
  lazymatch goal with
  | |- forall _, _ => intro
  | |- ?P _ (ret _) => apply cl_ret
  | |- ?P _ (bind _ _) => apply cl_bind
  | |- ?P _ (while _ _) => eapply cl_while; [exact _| |]
  | |- ?P _ (iter _ _) => apply cl_iter
  | |- ?P _ (rd _) => apply cl_rd; reflexivity
  | |- ?P _ (rd16 _) => apply cl_rd16; reflexivity
  | |- ?P _ (vget _) => apply cl_vget
  | |- ?P _ (get _) => apply cl_get
  | |- ?P _ (get_obj _) => apply cl_get_obj
  | |- ?P _ get_iflag => apply cl_get_iflag
  | |- ?P _ (pgm_read_byte _) => apply cl_pgm_read_byte
  | |- ?P _ (pgm_read_word _) => apply cl_pgm_read_word
  | |- ?P _ (eeprom_read_byte _) => apply cl_eeprom_read_byte
  | |- ?P _ (boot_lock_fuse_bits_get _) => apply cl_fuse
  | |- ?P _ cli => apply cl_cli
  | |- ?P _ sei => apply cl_sei
  | |- ?P _ (put _ _) => apply cl_put; reflexivity
  | |- ?P _ (put_obj _ _) => apply cl_put_obj; reflexivity
  | |- ?P _ (wr _ _) => apply cl_wr; reflexivity
  | |- ?P _ (call _) => apply cl_call; reflexivity
  | |- ?P _ jump => apply cl_jump; reflexivity
  | |- ?P _ (if ?b then _ else _) => destruct b
  | |- ?P _ (match ?x with _ => _ end) => destruct x
  end.
Ltac solve_closed := repeat first [closed_step | solve [eauto 3 with closed_db nocore]].
