(* ===== verification/Endpoint.v ===== *)
(** * LUFA endpoint layer

    Models [LUFA/Drivers/USB/Core/AVR8/Endpoint_AVR8.h], [Endpoint_AVR8.c] and
    the stream templates [Template_Endpoint_*.c] as the bootloader compiles
    them ([USB_DEVICE_ONLY], [ORDERED_EP_CONFIG],
    [FIXED_CONTROL_ENDPOINT_SIZE = 8], ATmega32U4 = [USB_SERIES_4_AVR]). *)

From S2P Require Import Prelude Machine Logic.

(** ** Bit positions and constants *)

(* UEINTX *)
Definition TXINI := 0.
Definition RXOUTI := 2.
Definition RXSTPI := 3.
Definition RWAL := 5.
Definition FIFOCON := 7.
(* UECONX *)
Definition EPEN := 0.
Definition RSTDT := 3.
Definition STALLRQC := 4.
Definition STALLRQ := 5.
(* UECFG0X, UECFG1X, UESTA0X *)
Definition EPDIR := 0.
Definition EPTYPE0 := 6.
Definition ALLOC := 1.
Definition EPBK0 := 2.
Definition EPSIZE0 := 4.
Definition CFGOK := 7.
Definition NBUSYBK0 := 0.

Definition ENDPOINT_EPNUM_MASK := 0x07.
Definition ENDPOINT_CONTROLEP := 0.
Definition ENDPOINT_DIR_OUT := 0x00.
Definition ENDPOINT_DIR_IN := 0x80.
Definition EP_TYPE_CONTROL := 0x00.
Definition EP_TYPE_BULK := 0x02.
Definition EP_TYPE_INTERRUPT := 0x03.
Definition ENDPOINT_BANK_SINGLE := Z.shiftl 0 EPBK0.
Definition ENDPOINT_TOTAL_ENDPOINTS := 7.
Definition USB_Device_ControlEndpointSize := 8.
Definition USB_STREAM_TIMEOUT_MS := 100.

Definition DEVICE_STATE_Unattached := 0.
Definition DEVICE_STATE_Powered := 1.
Definition DEVICE_STATE_Default := 2.
Definition DEVICE_STATE_Addressed := 3.
Definition DEVICE_STATE_Configured := 4.
Definition DEVICE_STATE_Suspended := 5.

Definition ENDPOINT_READYWAIT_NoError := 0.
Definition ENDPOINT_READYWAIT_EndpointStalled := 1.
Definition ENDPOINT_READYWAIT_DeviceDisconnected := 2.
Definition ENDPOINT_READYWAIT_BusSuspended := 3.
Definition ENDPOINT_READYWAIT_Timeout := 4.
Definition ENDPOINT_RWSTREAM_NoError := 0.
Definition ENDPOINT_RWSTREAM_IncompleteTransfer := 5.
Definition ENDPOINT_RWCSTREAM_NoError := 0.
Definition ENDPOINT_RWCSTREAM_HostAborted := 1.
Definition ENDPOINT_RWCSTREAM_DeviceDisconnected := 2.
Definition ENDPOINT_RWCSTREAM_BusSuspended := 3.

Definition REQDIR_HOSTTODEVICE := Z.shiftl 0 7.
Definition REQDIR_DEVICETOHOST := Z.shiftl 1 7.

(** ** The control request header ([USB_Request_Header_t], 8 bytes) *)

Definition req_byte (i : nat) (r : list Z) : Z := nth i r 0.
Definition bmRequestType (r : list Z) : Z := req_byte 0 r.
Definition bRequest (r : list Z) : Z := req_byte 1 r.
Definition wValue (r : list Z) : Z := req_byte 2 r + 256 * req_byte 3 r.
Definition wIndex (r : list Z) : Z := req_byte 4 r + 256 * req_byte 5 r.
Definition wLength (r : list Z) : Z := req_byte 6 r + 256 * req_byte 7 r.

Section Endpoint.
Context {B : Board} {V : Vectors}.

(** ** Inline functions of Endpoint_AVR8.h *)

Definition Endpoint_BytesToEPSizeMask (Bytes : Z) : M Z :=
  iter (fun '(MaskVal, CheckBytes) =>
    if CheckBytes <? Bytes
    then ret (inl (u8 (MaskVal + 1), u16 (Z.shiftl CheckBytes 1)))
    else ret (inr (u8 (Z.shiftl MaskVal EPSIZE0)))) (0, 8).

Definition Endpoint_BytesInEndpoint : M Z :=
  hi <- rd UEBCHX ;; lo <- rd UEBCLX ;; ret (Z.lor (u16 (Z.shiftl hi 8)) lo).

Definition Endpoint_GetCurrentEndpoint : M Z :=
  v <- rd UENUM ;; ret (Z.land v ENDPOINT_EPNUM_MASK).
Definition Endpoint_SelectEndpoint (EndpointNumber : Z) : M unit := wr UENUM EndpointNumber.
Definition Endpoint_ResetEndpoint (EndpointNumber : Z) : M unit :=
  wr UERST (u8 (bv EndpointNumber)) ;; wr UERST 0.
Definition Endpoint_EnableEndpoint : M unit := or_reg UECONX (bv EPEN).
Definition Endpoint_DisableEndpoint : M unit := clr_reg UECONX (bv EPEN).

Definition test_reg (r : reg) (n : Z) : M bool := v <- rd r ;; ret (bit_set v (bv n)).

Definition Endpoint_IsEnabled : M bool := test_reg UECONX EPEN.
Definition Endpoint_IsReadWriteAllowed : M bool := test_reg UEINTX RWAL.
Definition Endpoint_IsConfigured : M bool := test_reg UESTA0X CFGOK.
Definition Endpoint_IsINReady : M bool := test_reg UEINTX TXINI.
Definition Endpoint_IsOUTReceived : M bool := test_reg UEINTX RXOUTI.
Definition Endpoint_IsSETUPReceived : M bool := test_reg UEINTX RXSTPI.
Definition Endpoint_IsStalled : M bool := test_reg UECONX STALLRQ.

Definition Endpoint_ClearSETUP : M unit := clr_reg UEINTX (bv RXSTPI).
Definition Endpoint_ClearIN : M unit := clr_reg UEINTX (Z.lor (bv TXINI) (bv FIFOCON)).
Definition Endpoint_ClearOUT : M unit := clr_reg UEINTX (Z.lor (bv RXOUTI) (bv FIFOCON)).
Definition Endpoint_StallTransaction : M unit := or_reg UECONX (bv STALLRQ).
Definition Endpoint_ClearStall : M unit := or_reg UECONX (bv STALLRQC).
Definition Endpoint_ResetDataToggle : M unit := or_reg UECONX (bv RSTDT).

Definition Endpoint_GetEndpointDirection : M Z :=
  b <- test_reg UECFG0X EPDIR ;; ret (if b : bool then ENDPOINT_DIR_IN else ENDPOINT_DIR_OUT).

Definition Endpoint_Read_8 : M Z := rd UEDATX.
Definition Endpoint_Write_8 (Data : Z) : M unit := wr UEDATX Data.
Definition Endpoint_Discard_8 : M unit := _ <- rd UEDATX ;; ret tt.
Definition Endpoint_Write_16_LE (Data : Z) : M unit :=
  wr UEDATX (Z.land Data 0xFF) ;; wr UEDATX (Z.shiftr Data 8).

(** ** Endpoint_AVR8.c *)

Definition Endpoint_ConfigureEndpoint_Prv (Number UECFG0XData UECFG1XData : Z) : M bool :=
  Endpoint_SelectEndpoint Number ;;
  Endpoint_EnableEndpoint ;;
  wr UECFG1X 0 ;;
  wr UECFG0X UECFG0XData ;;
  wr UECFG1X UECFG1XData ;;
  Endpoint_IsConfigured.

Definition Endpoint_ConfigureEndpoint (Number Type_ Direction Size Banks : Z) : M bool :=
  mask <- Endpoint_BytesToEPSizeMask Size ;;
  Endpoint_ConfigureEndpoint_Prv Number
    (u8 (Z.lor (Z.shiftl Type_ EPTYPE0) (if truth Direction then bv EPDIR else 0)))
    (Z.lor (Z.lor (bv ALLOC) Banks) mask).

Fixpoint clear_endpoints_from (k : nat) (EPNum : Z) : M unit :=
  match k with
  | O => ret tt
  | S k' =>
      Endpoint_SelectEndpoint EPNum ;;
      wr UEIENX 0 ;; wr UEINTX 0 ;; wr UECFG1X 0 ;;
      Endpoint_DisableEndpoint ;;
      clear_endpoints_from k' (EPNum + 1)
  end.
Definition Endpoint_ClearEndpoints : M unit :=
  wr UEINT 0 ;; clear_endpoints_from (Z.to_nat ENDPOINT_TOTAL_ENDPOINTS) 0.

(** Busy wait of a control transfer: until [ready], or until the device is
    unattached; [true] when it ended because [ready] held. *)
Definition wait_attached (ready : M bool) : M bool :=
  iter (fun _ : unit =>
    b <- ready ;;
    if b : bool then ret (inr true) else
    st <- vget USB_DeviceState ;;
    if st =? DEVICE_STATE_Unattached then ret (inr false) else ret (inl tt)) tt.

Definition Endpoint_ClearStatusStage : M unit :=
  r <- get_obj USB_ControlRequest ;;
  if bit_set (bmRequestType r) REQDIR_DEVICETOHOST then
    ok <- wait_attached Endpoint_IsOUTReceived ;;
    If ok Then Endpoint_ClearOUT
  else
    ok <- wait_attached Endpoint_IsINReady ;;
    If ok Then Endpoint_ClearIN.

Definition Endpoint_WaitUntilReady : M Z :=
  f0 <- rd16 UDFNUM ;;
  iter (fun '(TimeoutMSRem, PreviousFrameNumber) =>
    dir <- Endpoint_GetEndpointDirection ;;
    ready <- (if dir =? ENDPOINT_DIR_IN then Endpoint_IsINReady else Endpoint_IsOUTReceived) ;;
    if ready : bool then ret (inr ENDPOINT_READYWAIT_NoError) else
    USB_DeviceState_LCL <- vget USB_DeviceState ;;
    if USB_DeviceState_LCL =? DEVICE_STATE_Unattached
    then ret (inr ENDPOINT_READYWAIT_DeviceDisconnected)
    else if USB_DeviceState_LCL =? DEVICE_STATE_Suspended
    then ret (inr ENDPOINT_READYWAIT_BusSuspended)
    else
      stalled <- Endpoint_IsStalled ;;
      if stalled : bool then ret (inr ENDPOINT_READYWAIT_EndpointStalled) else
      CurrentFrameNumber <- rd16 UDFNUM ;;
      if CurrentFrameNumber =? PreviousFrameNumber
      then ret (inl (TimeoutMSRem, PreviousFrameNumber))
      else if TimeoutMSRem =? 0
      then ret (inr ENDPOINT_READYWAIT_Timeout)
      else ret (inl (u8 (TimeoutMSRem - 1), CurrentFrameNumber)))
    (USB_STREAM_TIMEOUT_MS, f0).

(** ** Control stream templates *)

(** Wait of the status phase: [ready], disconnection or suspension. *)
Definition wait_status (ready : M bool) : M Z :=
  iter (fun _ : unit =>
    b <- ready ;;
    if b : bool then ret (inr ENDPOINT_RWCSTREAM_NoError) else
    USB_DeviceState_LCL <- vget USB_DeviceState ;;
    if USB_DeviceState_LCL =? DEVICE_STATE_Unattached
    then ret (inr ENDPOINT_RWCSTREAM_DeviceDisconnected)
    else if USB_DeviceState_LCL =? DEVICE_STATE_Suspended
    then ret (inr ENDPOINT_RWCSTREAM_BusSuspended)
    else ret (inl tt)) tt.

(** The inner loop of Template_Endpoint_Control_W.c: copy into the bank until
    the data or the bank is exhausted. *)
Fixpoint fill_bank (DataStream : list Z) (Length BytesInEndpoint : Z) (k : nat)
  : M (list Z * Z * Z) :=
  match k with
  | O => ret (DataStream, Length, BytesInEndpoint)
  | S k' =>
      if truth Length && (BytesInEndpoint <? USB_Device_ControlEndpointSize) then
        Endpoint_Write_8 (hd 0 DataStream) ;;
        fill_bank (tl DataStream) (Length - 1) (BytesInEndpoint + 1) k'
      else ret (DataStream, Length, BytesInEndpoint)
  end.

Definition Endpoint_Write_Control_Stream_LE (Buffer : list Z) (Length : Z) : M Z :=
  r <- get_obj USB_ControlRequest ;;
  Length <- (if wLength r <? Length then ret (wLength r)
             else (If negb (truth Length) Then Endpoint_ClearIN) ;; ret Length) ;;
  e <- iter (fun '(DataStream, Length, LastPacketFull) =>
    if negb (truth Length || LastPacketFull) then ret (inr None) else
    USB_DeviceState_LCL <- vget USB_DeviceState ;;
    if USB_DeviceState_LCL =? DEVICE_STATE_Unattached
    then ret (inr (Some ENDPOINT_RWCSTREAM_DeviceDisconnected))
    else if USB_DeviceState_LCL =? DEVICE_STATE_Suspended
    then ret (inr (Some ENDPOINT_RWCSTREAM_BusSuspended))
    else
      setup <- Endpoint_IsSETUPReceived ;;
      if setup : bool then ret (inr (Some ENDPOINT_RWCSTREAM_HostAborted)) else
      out <- Endpoint_IsOUTReceived ;;
      if out : bool then ret (inr None) else
      ready <- Endpoint_IsINReady ;;
      if ready : bool then
        BytesInEndpoint <- Endpoint_BytesInEndpoint ;;
        x <- fill_bank DataStream Length BytesInEndpoint (Z.to_nat USB_Device_ControlEndpointSize) ;;
        let '(DataStream', Length', BytesInEndpoint') := x in
        Endpoint_ClearIN ;;
        ret (inl (DataStream', Length', BytesInEndpoint' =? USB_Device_ControlEndpointSize))
      else ret (inl (DataStream, Length, LastPacketFull)))
    (Buffer, Length, false) ;;
  match e with
  | Some code => ret code
  | None => wait_status Endpoint_IsOUTReceived
  end.

(** The inner loop of Template_Endpoint_Control_R.c: while data is wanted and
    the bank holds bytes, store the next byte of the object [o]. *)
Definition drain_bank (o : obj) (pos Length : Z) : M (Z * Z) :=
  iter (fun '(pos, Length) =>
    if truth Length then
      n <- Endpoint_BytesInEndpoint ;;
      if truth n then
        b <- Endpoint_Read_8 ;;
        l <- get_obj o ;;
        put_obj o (<[Z.to_nat pos := b]> l) ;;
        ret (inl (pos + 1, Length - 1))
      else ret (inr (pos, Length))
    else ret (inr (pos, Length))) (pos, Length).

Definition Endpoint_Read_Control_Stream_LE (Buffer : obj) (Length : Z) : M Z :=
  (If negb (truth Length) Then Endpoint_ClearOUT) ;;
  e <- iter (fun '(pos, Length) =>
    if negb (truth Length) then ret (inr None) else
    USB_DeviceState_LCL <- vget USB_DeviceState ;;
    if USB_DeviceState_LCL =? DEVICE_STATE_Unattached
    then ret (inr (Some ENDPOINT_RWCSTREAM_DeviceDisconnected))
    else if USB_DeviceState_LCL =? DEVICE_STATE_Suspended
    then ret (inr (Some ENDPOINT_RWCSTREAM_BusSuspended))
    else
      setup <- Endpoint_IsSETUPReceived ;;
      if setup : bool then ret (inr (Some ENDPOINT_RWCSTREAM_HostAborted)) else
      out <- Endpoint_IsOUTReceived ;;
      if out : bool then
        x <- drain_bank Buffer pos Length ;;
        Endpoint_ClearOUT ;;
        ret (inl x)
      else ret (inl (pos, Length))) (0, Length) ;;
  match e with
  | Some code => ret code
  | None => wait_status Endpoint_IsINReady
  end.
End Endpoint.
