(* ===== verification/UsbDevice.v ===== *)
(** * LUFA device stack

    Models the interrupt, controller and device-request parts of LUFA that the
    bootloader links: [USBInterrupt_AVR8], [USBController_AVR8],
    [Device_AVR8.h], [DeviceStandardReq.c] and [USBTask.c], compiled with
    [USB_DEVICE_ONLY], [USE_STATIC_OPTIONS = 0] (full speed, regulator on,
    automatic PLL), [NO_SOF_EVENTS], [NO_INTERNAL_SERIAL],
    [NO_DEVICE_SELF_POWER], [NO_DEVICE_REMOTE_WAKEUP], [USE_RAM_DESCRIPTORS]
    and [FIXED_NUM_CONFIGURATIONS = 1].

    The stack calls back into the application: those callbacks are the class
    [UsbApp], which the bootloader implements. *)

From S2P Require Import Prelude Machine Logic Endpoint.

(** ** Bit positions *)
(* UDINT / UDIEN *)
Definition SUSPI := 0.
Definition EORSTI := 3.
Definition WAKEUPI := 4.
Definition SUSPE := 0.
Definition EORSTE := 3.
Definition WAKEUPE := 4.
(* USBCON, USBINT, USBSTA, UHWCON *)
Definition VBUSTE := 0.
Definition OTGPADE := 4.
Definition FRZCLK := 5.
Definition USBE := 7.
Definition VBUSTI := 0.
Definition VBUS := 0.
Definition UVREGE := 0.
(* UDCON, UDADDR *)
Definition DETACH := 0.
Definition LSM := 2.
Definition ADDEN := 7.
(* PLLCSR, PLLFRQ *)
Definition PLOCK := 0.
Definition PLLE := 1.
Definition PINDIV := 4.
Definition PDIV1 := 1.
Definition PDIV3 := 3.
Definition PLLUSB := 6.
Definition USB_PLL_PSC := bv PINDIV.

(** ** Requests *)
Definition CONTROL_REQTYPE_TYPE := 0x60.
Definition CONTROL_REQTYPE_RECIPIENT := 0x1F.
Definition REQTYPE_STANDARD := Z.shiftl 0 5.
Definition REQTYPE_CLASS := Z.shiftl 1 5.
Definition REQREC_DEVICE := Z.shiftl 0 0.
Definition REQREC_INTERFACE := Z.shiftl 1 0.
Definition REQREC_ENDPOINT := Z.shiftl 2 0.
Definition REQ_GetStatus := 0.
Definition REQ_ClearFeature := 1.
Definition REQ_SetFeature := 3.
Definition REQ_SetAddress := 5.
Definition REQ_GetDescriptor := 6.
Definition REQ_GetConfiguration := 8.
Definition REQ_SetConfiguration := 9.
Definition FEATURE_SEL_EndpointHalt := 0.
Definition FIXED_NUM_CONFIGURATIONS := 1.
Definition NO_DESCRIPTOR := 0.
Definition USB_OPT_REG_DISABLED := bv 1.
Definition USB_OPT_MANUAL_PLL := bv 2.
Definition USB_DEVICE_OPT_LOWSPEED := bv 0.
Definition USB_Options := 0.

Inductive usb_int := USB_INT_VBUSTI | USB_INT_WAKEUPI | USB_INT_SUSPI | USB_INT_EORSTI.

(** What the stack asks of the application.  [CALLBACK_USB_GetDescriptor] gets
    [wValue] and [wIndex] and returns the size of the descriptor with the bytes
    stored at its address; the size is [NO_DESCRIPTOR] when there is none. *)
Class UsbApp `{Board} := {
  EVENT_USB_Device_ControlRequest : M unit;
  EVENT_USB_Device_ConfigurationChanged : M unit;
  CALLBACK_USB_GetDescriptor : Z -> Z -> M (Z * list Z)
}.

Section Controller.
Context {B : Board} {V : Vectors}.

(** ** USBInterrupt_AVR8.h *)
Definition USB_INT_Enable (Interrupt : usb_int) : M unit :=
  match Interrupt with
  | USB_INT_VBUSTI => or_reg USBCON (bv VBUSTE)
  | USB_INT_WAKEUPI => or_reg UDIEN (bv WAKEUPE)
  | USB_INT_SUSPI => or_reg UDIEN (bv SUSPE)
  | USB_INT_EORSTI => or_reg UDIEN (bv EORSTE)
  end.
Definition USB_INT_Disable (Interrupt : usb_int) : M unit :=
  match Interrupt with
  | USB_INT_VBUSTI => clr_reg USBCON (bv VBUSTE)
  | USB_INT_WAKEUPI => clr_reg UDIEN (bv WAKEUPE)
  | USB_INT_SUSPI => clr_reg UDIEN (bv SUSPE)
  | USB_INT_EORSTI => clr_reg UDIEN (bv EORSTE)
  end.
Definition USB_INT_Clear (Interrupt : usb_int) : M unit :=
  match Interrupt with
  | USB_INT_VBUSTI => clr_reg USBINT (bv VBUSTI)
  | USB_INT_WAKEUPI => clr_reg UDINT (bv WAKEUPI)
  | USB_INT_SUSPI => clr_reg UDINT (bv SUSPI)
  | USB_INT_EORSTI => clr_reg UDINT (bv EORSTI)
  end.
Definition USB_INT_IsEnabled (Interrupt : usb_int) : M bool :=
  match Interrupt with
  | USB_INT_VBUSTI => test_reg USBCON VBUSTE
  | USB_INT_WAKEUPI => test_reg UDIEN WAKEUPE
  | USB_INT_SUSPI => test_reg UDIEN SUSPE
  | USB_INT_EORSTI => test_reg UDIEN EORSTE
  end.
Definition USB_INT_HasOccurred (Interrupt : usb_int) : M bool :=
  match Interrupt with
  | USB_INT_VBUSTI => test_reg USBINT VBUSTI
  | USB_INT_WAKEUPI => test_reg UDINT WAKEUPI
  | USB_INT_SUSPI => test_reg UDINT SUSPI
  | USB_INT_EORSTI => test_reg UDINT EORSTI
  end.

(** ** USBInterrupt_AVR8.c *)
Definition USB_INT_DisableAllInterrupts : M unit :=
  clr_reg USBCON (bv VBUSTE) ;; wr UDIEN 0.
Definition USB_INT_ClearAllInterrupts : M unit := wr USBINT 0 ;; wr UDINT 0.

(** ** USBController_AVR8.h, Device_AVR8.h *)
Definition USB_VBUS_GetStatus : M bool := test_reg USBSTA VBUS.
Definition USB_Detach : M unit := or_reg UDCON (bv DETACH).
Definition USB_Attach : M unit := clr_reg UDCON (bv DETACH).
Definition USB_PLL_On : M unit :=
  wr PLLCSR USB_PLL_PSC ;; wr PLLCSR (Z.lor USB_PLL_PSC (bv PLLE)).
Definition USB_PLL_Off : M unit := wr PLLCSR 0.
Definition USB_PLL_IsReady : M bool := test_reg PLLCSR PLOCK.
Definition USB_REG_On : M unit := or_reg UHWCON (bv UVREGE).
Definition USB_REG_Off : M unit := clr_reg UHWCON (bv UVREGE).
Definition USB_OTGPAD_On : M unit := or_reg USBCON (bv OTGPADE).
Definition USB_OTGPAD_Off : M unit := clr_reg USBCON (bv OTGPADE).
Definition USB_CLK_Freeze : M unit := or_reg USBCON (bv FRZCLK).
Definition USB_CLK_Unfreeze : M unit := clr_reg USBCON (bv FRZCLK).
Definition USB_Controller_Disable : M unit := clr_reg USBCON (bv USBE).
Definition USB_Controller_Reset : M unit :=
  clr_reg USBCON (bv USBE) ;; or_reg USBCON (bv USBE).
Definition USB_Device_SetLowSpeed : M unit := or_reg UDCON (bv LSM).
Definition USB_Device_SetFullSpeed : M unit := clr_reg UDCON (bv LSM).
Definition USB_Device_SetDeviceAddress (Address : Z) : M unit :=
  v <- rd UDADDR ;;
  let Temp := Z.lor (Z.land v (bv ADDEN)) (Z.land Address 0x7F) in
  wr UDADDR Temp ;; wr UDADDR (Z.lor Temp (bv ADDEN)).
Definition USB_Device_IsAddressSet : M bool := test_reg UDADDR ADDEN.

Definition USB_PLL_WaitReady : M unit :=
  while (b <- USB_PLL_IsReady ;; ret (negb b)) (ret tt).

(** ** USBController_AVR8.c *)
Definition USB_Init_Device : M unit :=
  put USB_DeviceState DEVICE_STATE_Unattached ;;
  put USB_Device_ConfigurationNumber 0 ;;
  (if bit_set USB_Options USB_DEVICE_OPT_LOWSPEED
   then USB_Device_SetLowSpeed else USB_Device_SetFullSpeed) ;;
  USB_INT_Enable USB_INT_VBUSTI ;;
  _ <- Endpoint_ConfigureEndpoint ENDPOINT_CONTROLEP EP_TYPE_CONTROL ENDPOINT_DIR_OUT
         USB_Device_ControlEndpointSize ENDPOINT_BANK_SINGLE ;;
  USB_INT_Clear USB_INT_SUSPI ;;
  USB_INT_Enable USB_INT_SUSPI ;;
  USB_INT_Enable USB_INT_EORSTI ;;
  USB_Attach.

Definition USB_ResetInterface : M unit :=
  USB_INT_DisableAllInterrupts ;;
  USB_INT_ClearAllInterrupts ;;
  USB_Controller_Reset ;;
  USB_CLK_Unfreeze ;;
  (If negb (bit_set USB_Options USB_OPT_MANUAL_PLL) Then USB_PLL_Off) ;;
  USB_Init_Device ;;
  USB_OTGPAD_On.

Definition USB_Init : M unit :=
  (if negb (bit_set USB_Options USB_OPT_REG_DISABLED) then USB_REG_On else USB_REG_Off) ;;
  (If negb (bit_set USB_Options USB_OPT_MANUAL_PLL) Then
     wr PLLFRQ (Z.lor (Z.lor (bv PLLUSB) (bv PDIV3)) (bv PDIV1))) ;;
  put USB_IsInitialized 1 ;;
  USB_ResetInterface.

Definition USB_Disable : M unit :=
  USB_INT_DisableAllInterrupts ;;
  USB_INT_ClearAllInterrupts ;;
  USB_Detach ;;
  USB_Controller_Disable ;;
  (If negb (bit_set USB_Options USB_OPT_MANUAL_PLL) Then USB_PLL_Off) ;;
  USB_REG_Off ;;
  USB_OTGPAD_Off ;;
  put USB_IsInitialized 0.

(** ** The USB general interrupt *)

(** State after a wake-up or [SetConfiguration(0)]. *)
Definition configured_state : M unit :=
  c <- get USB_Device_ConfigurationNumber ;;
  if truth c then put USB_DeviceState DEVICE_STATE_Configured
  else
    a <- USB_Device_IsAddressSet ;;
    put USB_DeviceState (if a : bool then DEVICE_STATE_Configured else DEVICE_STATE_Powered).

(** [USB_INT_HasOccurred(i) && USB_INT_IsEnabled(i)] *)
Definition int_pending (i : usb_int) : M bool :=
  o <- USB_INT_HasOccurred i ;;
  if o : bool then USB_INT_IsEnabled i else ret false.

Definition usb_gen_vbus : M unit :=
  USB_INT_Clear USB_INT_VBUSTI ;;
  v <- USB_VBUS_GetStatus ;;
  if v : bool then
    (If negb (bit_set USB_Options USB_OPT_MANUAL_PLL) Then
       USB_PLL_On ;; USB_PLL_WaitReady) ;;
    put USB_DeviceState DEVICE_STATE_Powered
  else
    (If negb (bit_set USB_Options USB_OPT_MANUAL_PLL) Then USB_PLL_Off) ;;
    put USB_DeviceState DEVICE_STATE_Unattached.

Definition usb_gen_suspend : M unit :=
  USB_INT_Disable USB_INT_SUSPI ;;
  USB_INT_Enable USB_INT_WAKEUPI ;;
  USB_CLK_Freeze ;;
  (If negb (bit_set USB_Options USB_OPT_MANUAL_PLL) Then USB_PLL_Off) ;;
  put USB_DeviceState DEVICE_STATE_Suspended.

Definition usb_gen_wakeup : M unit :=
  (If negb (bit_set USB_Options USB_OPT_MANUAL_PLL) Then
     USB_PLL_On ;; USB_PLL_WaitReady) ;;
  USB_CLK_Unfreeze ;;
  USB_INT_Clear USB_INT_WAKEUPI ;;
  USB_INT_Disable USB_INT_WAKEUPI ;;
  USB_INT_Enable USB_INT_SUSPI ;;
  configured_state.

Definition usb_gen_reset : M unit :=
  USB_INT_Clear USB_INT_EORSTI ;;
  put USB_DeviceState DEVICE_STATE_Default ;;
  put USB_Device_ConfigurationNumber 0 ;;
  USB_INT_Clear USB_INT_SUSPI ;;
  USB_INT_Disable USB_INT_SUSPI ;;
  USB_INT_Enable USB_INT_WAKEUPI ;;
  _ <- Endpoint_ConfigureEndpoint ENDPOINT_CONTROLEP EP_TYPE_CONTROL ENDPOINT_DIR_OUT
         USB_Device_ControlEndpointSize ENDPOINT_BANK_SINGLE ;;
  ret tt.

Definition USB_GEN_vect : M unit :=
  v <- int_pending USB_INT_VBUSTI ;; (If v Then usb_gen_vbus) ;;
  p <- int_pending USB_INT_SUSPI ;; (If p Then usb_gen_suspend) ;;
  w <- int_pending USB_INT_WAKEUPI ;; (If w Then usb_gen_wakeup) ;;
  r <- int_pending USB_INT_EORSTI ;; (If r Then usb_gen_reset).
End Controller.

Section Requests.
Context {B : Board} {V : Vectors} {App : UsbApp}.

(** ** DeviceStandardReq.c *)

Definition USB_Device_SetAddress : M unit :=
  r <- get_obj USB_ControlRequest ;;
  let DeviceAddress := Z.land (wValue r) 0x7F in
  CurrentGlobalInt <- get_iflag ;;
  cli ;;
  Endpoint_ClearSETUP ;;
  Endpoint_ClearStatusStage ;;
  while (b <- Endpoint_IsINReady ;; ret (negb b)) (ret tt) ;;
  USB_Device_SetDeviceAddress DeviceAddress ;;
  put USB_DeviceState
    (if truth DeviceAddress then DEVICE_STATE_Addressed else DEVICE_STATE_Default) ;;
  if CurrentGlobalInt : bool then sei else cli.

Definition USB_Device_SetConfiguration : M unit :=
  r <- get_obj USB_ControlRequest ;;
  if FIXED_NUM_CONFIGURATIONS <? u8 (wValue r) then ret tt else
  Endpoint_ClearSETUP ;;
  r <- get_obj USB_ControlRequest ;;
  put USB_Device_ConfigurationNumber (u8 (wValue r)) ;;
  Endpoint_ClearStatusStage ;;
  configured_state ;;
  EVENT_USB_Device_ConfigurationChanged.

Definition USB_Device_GetConfiguration : M unit :=
  Endpoint_ClearSETUP ;;
  c <- get USB_Device_ConfigurationNumber ;;
  Endpoint_Write_8 c ;;
  Endpoint_ClearIN ;;
  Endpoint_ClearStatusStage.

Definition USB_Device_GetDescriptor : M unit :=
  r <- get_obj USB_ControlRequest ;;
  d <- CALLBACK_USB_GetDescriptor (wValue r) (u8 (wIndex r)) ;;
  let '(DescriptorSize, DescriptorPointer) := d in
  if DescriptorSize =? NO_DESCRIPTOR then ret tt else
  Endpoint_ClearSETUP ;;
  _ <- Endpoint_Write_Control_Stream_LE DescriptorPointer DescriptorSize ;;
  Endpoint_ClearOUT.

Definition USB_Device_GetStatus : M unit :=
  r <- get_obj USB_ControlRequest ;;
  if bmRequestType r =? Z.lor (Z.lor REQDIR_DEVICETOHOST REQTYPE_STANDARD) REQREC_ENDPOINT then
    Endpoint_SelectEndpoint (Z.land (u8 (wIndex r)) ENDPOINT_EPNUM_MASK) ;;
    CurrentStatus <- Endpoint_IsStalled ;;
    Endpoint_SelectEndpoint ENDPOINT_CONTROLEP ;;
    Endpoint_ClearSETUP ;;
    Endpoint_Write_16_LE (b2z CurrentStatus) ;;
    Endpoint_ClearIN ;;
    Endpoint_ClearStatusStage
  else ret tt.

(** The [REQREC_ENDPOINT] case of [USB_Device_ClearSetFeature]; [false] when
    it returns without acknowledging the request. *)
Definition clear_set_halt (r : list Z) : M bool :=
  if u8 (wValue r) =? FEATURE_SEL_EndpointHalt then
    let EndpointIndex := Z.land (u8 (wIndex r)) ENDPOINT_EPNUM_MASK in
    if EndpointIndex =? ENDPOINT_CONTROLEP then ret false else
    Endpoint_SelectEndpoint EndpointIndex ;;
    en <- Endpoint_IsEnabled ;;
    (If en Then
       (if bRequest r =? REQ_SetFeature then Endpoint_StallTransaction
        else
          Endpoint_ClearStall ;;
          Endpoint_ResetEndpoint EndpointIndex ;;
          Endpoint_ResetDataToggle)) ;;
    ret true
  else ret true.

Definition USB_Device_ClearSetFeature : M unit :=
  r <- get_obj USB_ControlRequest ;;
  if Z.land (bmRequestType r) CONTROL_REQTYPE_RECIPIENT =? REQREC_ENDPOINT then
    ok <- clear_set_halt r ;;
    If ok Then
      Endpoint_SelectEndpoint ENDPOINT_CONTROLEP ;;
      Endpoint_ClearSETUP ;;
      Endpoint_ClearStatusStage
  else ret tt.

(** The loop that copies the SETUP packet into [USB_ControlRequest]. *)
Fixpoint read_request (k : nat) (RequestHeaderByte : nat) : M unit :=
  match k with
  | O => ret tt
  | S k' =>
      b <- Endpoint_Read_8 ;;
      l <- get_obj USB_ControlRequest ;;
      put_obj USB_ControlRequest (<[RequestHeaderByte := b]> l) ;;
      read_request k' (S RequestHeaderByte)
  end.

Definition dispatch_request (bm req : Z) : M unit :=
  let dir_in rec := Z.lor (Z.lor REQDIR_DEVICETOHOST REQTYPE_STANDARD) rec in
  let dir_out rec := Z.lor (Z.lor REQDIR_HOSTTODEVICE REQTYPE_STANDARD) rec in
  if req =? REQ_GetStatus then
    If (bm =? dir_in REQREC_DEVICE) || (bm =? dir_in REQREC_ENDPOINT) Then USB_Device_GetStatus
  else if (req =? REQ_ClearFeature) || (req =? REQ_SetFeature) then
    If (bm =? dir_out REQREC_DEVICE) || (bm =? dir_out REQREC_ENDPOINT)
    Then USB_Device_ClearSetFeature
  else if req =? REQ_SetAddress then
    If bm =? dir_out REQREC_DEVICE Then USB_Device_SetAddress
  else if req =? REQ_GetDescriptor then
    If (bm =? dir_in REQREC_DEVICE) || (bm =? dir_in REQREC_INTERFACE)
    Then USB_Device_GetDescriptor
  else if req =? REQ_GetConfiguration then
    If bm =? dir_in REQREC_DEVICE Then USB_Device_GetConfiguration
  else if req =? REQ_SetConfiguration then
    If bm =? dir_out REQREC_DEVICE Then USB_Device_SetConfiguration
  else ret tt.

Definition USB_Device_ProcessControlRequest : M unit :=
  read_request 8 0 ;;
  EVENT_USB_Device_ControlRequest ;;
  setup <- Endpoint_IsSETUPReceived ;;
  (If setup Then
     r <- get_obj USB_ControlRequest ;;
     dispatch_request (bmRequestType r) (bRequest r)) ;;
  setup <- Endpoint_IsSETUPReceived ;;
  If setup Then (Endpoint_StallTransaction ;; Endpoint_ClearSETUP).

(** ** USBTask.c *)
Definition USB_DeviceTask : M unit :=
  st <- vget USB_DeviceState ;;
  if st =? DEVICE_STATE_Unattached then ret tt else
  PrevEndpoint <- Endpoint_GetCurrentEndpoint ;;
  Endpoint_SelectEndpoint ENDPOINT_CONTROLEP ;;
  setup <- Endpoint_IsSETUPReceived ;;
  (If setup Then USB_Device_ProcessControlRequest) ;;
  Endpoint_SelectEndpoint PrevEndpoint.

Definition USB_USBTask : M unit := USB_DeviceTask.
End Requests.
