(* ===== verification/Descriptors.v ===== *)
(** * USB descriptors of the bootloader

    Models [Firmware/adelino/Descriptors.c] and [Descriptors.h].  The packed C
    structures are records with their serialization to the bytes that the
    address of the object gives the USB stack.  The build parameters
    [DEVICE_VID] and [DEVICE_PID] come from the environment ([setenv.sh]) and
    are the class [BuildIds]. *)

From Stdlib Require Import Strings.Ascii Strings.String.
From S2P Require Import Prelude Machine Logic Endpoint UsbDevice.

(** Build parameters. *)
Class BuildIds := { DEVICE_VID : Z; DEVICE_PID : Z }.

Definition DTYPE_Device := 0x01.
Definition DTYPE_Configuration := 0x02.
Definition DTYPE_String := 0x03.
Definition DTYPE_Interface := 0x04.
Definition DTYPE_Endpoint := 0x05.
Definition DTYPE_CSInterface := 0x24.

Definition CDC_CSCP_CDCClass := 0x02.
Definition CDC_CSCP_NoSpecificSubclass := 0x00.
Definition CDC_CSCP_ACMSubclass := 0x02.
Definition CDC_CSCP_ATCommandProtocol := 0x01.
Definition CDC_CSCP_NoSpecificProtocol := 0x00.
Definition CDC_CSCP_CDCDataClass := 0x0A.
Definition CDC_CSCP_NoDataSubclass := 0x00.
Definition CDC_CSCP_NoDataProtocol := 0x00.

Definition CDC_NOTIFICATION_EPNUM := 2.
Definition CDC_TX_EPNUM := 3.
Definition CDC_RX_EPNUM := 4.
Definition CDC_TXRX_EPSIZE := 16.
Definition CDC_NOTIFICATION_EPSIZE := 8.

Definition AVR_SIGNATURE_1 := 0x1E.
Definition AVR_SIGNATURE_2 := 0x95.
Definition AVR_SIGNATURE_3 := 0x87.

Definition USB_CONFIG_ATTR_BUSPOWERED := 0x80.
Definition USB_CONFIG_ATTR_SELFPOWERED := 0x40.
Definition USB_CONFIG_POWER_MA (mA : Z) := Z.shiftr mA 1.
Definition ENDPOINT_ATTR_NO_SYNC := Z.shiftl 0 2.
Definition ENDPOINT_USAGE_DATA := Z.shiftl 0 4.
Definition LANGUAGE_ID_ENG := 0x0409.
(** sizeof(USB_Descriptor_Header_t) + 2 per character *)
Definition USB_STRING_LEN (UnicodeChars : Z) : Z := 2 + Z.shiftl UnicodeChars 1.

(** ** Structures *)

Record USB_Descriptor_Configuration_Header_t := {
  TotalConfigurationSize : Z; TotalInterfaces : Z; ConfigurationNumber : Z;
  ConfigurationStrIndex : Z; ConfigAttributes : Z; MaxPowerConsumption : Z }.

Record USB_Descriptor_Interface_t := {
  InterfaceNumber : Z; AlternateSetting : Z; TotalEndpoints : Z;
  Class_ : Z; SubClass_ : Z; Protocol_ : Z; InterfaceStrIndex : Z }.

Record USB_Descriptor_Endpoint_t := {
  EndpointAddress : Z; Attributes : Z; EndpointSize : Z; PollingIntervalMS : Z }.

(** Packed layouts: header (size, type) first, 16-bit fields little-endian. *)
Definition config_header_bytes (c : USB_Descriptor_Configuration_Header_t) : list Z :=
  [9; DTYPE_Configuration] ++ le_bytes 2 (TotalConfigurationSize c) ++
  [TotalInterfaces c; ConfigurationNumber c; ConfigurationStrIndex c;
   ConfigAttributes c; MaxPowerConsumption c].
Definition interface_bytes (i : USB_Descriptor_Interface_t) : list Z :=
  [9; DTYPE_Interface; InterfaceNumber i; AlternateSetting i; TotalEndpoints i;
   Class_ i; SubClass_ i; Protocol_ i; InterfaceStrIndex i].
Definition endpoint_bytes (e : USB_Descriptor_Endpoint_t) : list Z :=
  [7; DTYPE_Endpoint; EndpointAddress e; Attributes e] ++ le_bytes 2 (EndpointSize e) ++
  [PollingIntervalMS e].
Definition functional_header_bytes (Subtype CDCSpecification : Z) : list Z :=
  [5; DTYPE_CSInterface; Subtype] ++ le_bytes 2 CDCSpecification.
Definition functional_acm_bytes (Subtype Capabilities : Z) : list Z :=
  [4; DTYPE_CSInterface; Subtype; Capabilities].
Definition functional_union_bytes (Subtype MasterInterfaceNumber SlaveInterfaceNumber : Z) : list Z :=
  [5; DTYPE_CSInterface; Subtype; MasterInterfaceNumber; SlaveInterfaceNumber].

(** sizeof(USB_Descriptor_Configuration_t) and sizeof(USB_Descriptor_Device_t) *)
Definition sizeof_Configuration : Z := 9 + 9 + 5 + 4 + 5 + 7 + 9 + 7 + 7.
Definition sizeof_Device : Z := 18.

(** ** The configuration descriptor *)

Definition Config : USB_Descriptor_Configuration_Header_t := {|
  TotalConfigurationSize := sizeof_Configuration;
  TotalInterfaces := 2;
  ConfigurationNumber := 1;
  ConfigurationStrIndex := NO_DESCRIPTOR;
  ConfigAttributes := Z.lor USB_CONFIG_ATTR_BUSPOWERED USB_CONFIG_ATTR_SELFPOWERED;
  MaxPowerConsumption := USB_CONFIG_POWER_MA 100 |}.

Definition CDC_CCI_Interface : USB_Descriptor_Interface_t := {|
  InterfaceNumber := 0; AlternateSetting := 0; TotalEndpoints := 1;
  Class_ := CDC_CSCP_CDCClass; SubClass_ := CDC_CSCP_ACMSubclass;
  Protocol_ := CDC_CSCP_ATCommandProtocol; InterfaceStrIndex := NO_DESCRIPTOR |}.

Definition CDC_NotificationEndpoint : USB_Descriptor_Endpoint_t := {|
  EndpointAddress := Z.lor ENDPOINT_DIR_IN CDC_NOTIFICATION_EPNUM;
  Attributes := Z.lor (Z.lor EP_TYPE_INTERRUPT ENDPOINT_ATTR_NO_SYNC) ENDPOINT_USAGE_DATA;
  EndpointSize := CDC_NOTIFICATION_EPSIZE; PollingIntervalMS := 0xFF |}.

Definition CDC_DCI_Interface : USB_Descriptor_Interface_t := {|
  InterfaceNumber := 1; AlternateSetting := 0; TotalEndpoints := 2;
  Class_ := CDC_CSCP_CDCDataClass; SubClass_ := CDC_CSCP_NoDataSubclass;
  Protocol_ := CDC_CSCP_NoDataProtocol; InterfaceStrIndex := NO_DESCRIPTOR |}.

Definition CDC_DataOutEndpoint : USB_Descriptor_Endpoint_t := {|
  EndpointAddress := Z.lor ENDPOINT_DIR_OUT CDC_RX_EPNUM;
  Attributes := Z.lor (Z.lor EP_TYPE_BULK ENDPOINT_ATTR_NO_SYNC) ENDPOINT_USAGE_DATA;
  EndpointSize := CDC_TXRX_EPSIZE; PollingIntervalMS := 0x01 |}.

Definition CDC_DataInEndpoint : USB_Descriptor_Endpoint_t := {|
  EndpointAddress := Z.lor ENDPOINT_DIR_IN CDC_TX_EPNUM;
  Attributes := Z.lor (Z.lor EP_TYPE_BULK ENDPOINT_ATTR_NO_SYNC) ENDPOINT_USAGE_DATA;
  EndpointSize := CDC_TXRX_EPSIZE; PollingIntervalMS := 0x01 |}.

Definition ConfigurationDescriptor : list Z :=
  config_header_bytes Config ++
  interface_bytes CDC_CCI_Interface ++
  functional_header_bytes 0x00 0x0110 ++
  functional_acm_bytes 0x02 0x04 ++
  functional_union_bytes 0x06 0 1 ++
  endpoint_bytes CDC_NotificationEndpoint ++
  interface_bytes CDC_DCI_Interface ++
  endpoint_bytes CDC_DataOutEndpoint ++
  endpoint_bytes CDC_DataInEndpoint.

(** ** String descriptors *)

(** The 16-bit code units of a wide string literal. *)
Definition wide (s : string) : list Z :=
  map (fun c => Z.of_nat (nat_of_ascii c)) (list_ascii_of_string s).

Record USB_Descriptor_String_t := { StrSize : Z; UnicodeString : list Z }.
Definition string_bytes (d : USB_Descriptor_String_t) : list Z :=
  [StrSize d; DTYPE_String] ++ flat_map (le_bytes 2) (UnicodeString d).

Definition LanguageString : USB_Descriptor_String_t :=
  {| StrSize := USB_STRING_LEN 1; UnicodeString := [LANGUAGE_ID_ENG] |}.

Section Strings.
Context {I : BuildIds}.

Definition ProductString : USB_Descriptor_String_t :=
  {| StrSize := USB_STRING_LEN 23;
     UnicodeString :=
       if DEVICE_PID =? 0xEDDF then wide "Adelino M1 [Bootloader]"
       else wide "USB IO board           " |}.
Definition ManufNameString : USB_Descriptor_String_t :=
  {| StrSize := USB_STRING_LEN 13;
     UnicodeString :=
       if (DEVICE_VID =? 0x04D8) && (DEVICE_PID =? 0xEDDF) then wide "Neoautus Ltd."
       else wide "Unknown      " |}.
End Strings.

(** ** The device descriptor

    Its [Header.Size], [VendorID] and [ProductID] are variables (they are set
    by [shadow_vid_pid_from_sketch]); the other fields are constant. *)

Definition ManufacturerStrIndex := 0x01.
Definition ProductStrIndex := 0x02.
Definition SerialNumStrIndex := NO_DESCRIPTOR.

Definition DeviceDescriptor (Size VendorID ProductID : Z) : list Z :=
  [Size; DTYPE_Device] ++ le_bytes 2 0x0110 ++
  [CDC_CSCP_CDCClass; CDC_CSCP_NoSpecificSubclass; CDC_CSCP_NoSpecificProtocol;
   USB_Device_ControlEndpointSize] ++
  le_bytes 2 VendorID ++ le_bytes 2 ProductID ++ le_bytes 2 0x0001 ++
  [ManufacturerStrIndex; ProductStrIndex; SerialNumStrIndex; FIXED_NUM_CONFIGURATIONS].

Definition _VECTORS_SIZE := 172.

Section Descriptors.
Context {B : Board} {I : BuildIds}.

(** One round of the search: is there a device descriptor of the Arduino USB
    core (class EF, 02, 01 with a 64-byte endpoint 0) at address [i]? *)
Definition sketch_descriptor_at (i : Z) : M bool :=
  b0 <- pgm_read_byte i ;;
  if negb (b0 =? 0xef) then ret false else
  b1 <- pgm_read_byte (i + 1) ;;
  if negb (b1 =? 0x02) then ret false else
  b2 <- pgm_read_byte (i + 2) ;;
  if negb (b2 =? 0x01) then ret false else
  b3 <- pgm_read_byte (i + 3) ;;
  ret (b3 =? 0x40).

(** The [for] loop, [k] rounds from address [i] on. *)
Fixpoint search_descriptor (k : nat) (i : Z) : M unit :=
  match k with
  | O => ret tt
  | S k' =>
      hit <- sketch_descriptor_at i ;;
      if hit : bool then
        v <- pgm_read_word (i + 4) ;; put DD_VendorID v ;;
        p <- pgm_read_word (i + 6) ;; put DD_ProductID p
      else search_descriptor k' (i + 1)
  end.

Definition shadow_vid_pid_from_sketch : M unit :=
  sz <- get DD_Size ;;
  if truth sz then ret tt else
  put DD_Size sizeof_Device ;;
  search_descriptor (Z.to_nat (0x200 - _VECTORS_SIZE)) _VECTORS_SIZE.

Definition Adelino_GetDescriptor (wValue wIndex : Z) : M (Z * list Z) :=
  let DescriptorType := u8 (Z.shiftr wValue 8) in
  let DescriptorNumber := u8 (Z.land wValue 0xFF) in
  shadow_vid_pid_from_sketch ;;
  if DescriptorType =? DTYPE_Device then
    sz <- get DD_Size ;; v <- get DD_VendorID ;; p <- get DD_ProductID ;;
    ret (sizeof_Device, DeviceDescriptor sz v p)
  else if DescriptorType =? DTYPE_Configuration then
    ret (sizeof_Configuration, ConfigurationDescriptor)
  else if DescriptorType =? DTYPE_String then
    if DescriptorNumber =? 0 then ret (StrSize LanguageString, string_bytes LanguageString)
    else if DescriptorNumber =? ProductStrIndex then
      ret (StrSize ProductString, string_bytes ProductString)
    else if DescriptorNumber =? ManufacturerStrIndex then
      ret (StrSize ManufNameString, string_bytes ManufNameString)
    else ret (NO_DESCRIPTOR, [])
  else ret (NO_DESCRIPTOR, []).
End Descriptors.
