(* ===== verification/Bootloader.v ===== *)
(** * The Adelino bootloader: Firmware/adelino/Adelino.c

    Hardware setup, interrupt handlers, the USB event handlers, the byte link
    over the CDC endpoints, LEDs and the ESP8266 reset lines.  The AVR109
    programmer is in Avr109.v; the ESP8266 programmer, the CDC task and [main]
    are in Boot.v.

    The preprocessor options of the file are the class [BuildOpts]; the
    bootloader that is shipped is [minimal_build]. *)

From Stdlib Require Import Strings.Ascii Strings.String.
From S2P Require Import Prelude Machine Logic Endpoint UsbDevice Descriptors.

Definition ch (c : ascii) : Z := Z.of_nat (nat_of_ascii c).

Class BuildOpts := {
  MINIMAL_AVR109 : bool;
  NO_LOCK_BYTE_WRITE_SUPPORT : bool;
  NO_EEPROM_BYTE_SUPPORT : bool;
  NO_FLASH_BYTE_SUPPORT : bool;
  NO_BLOCK_SUPPORT : bool
}.

Definition minimal_build : BuildOpts := {|
  MINIMAL_AVR109 := true;
  NO_LOCK_BYTE_WRITE_SUPPORT := true;
  NO_EEPROM_BYTE_SUPPORT := true;
  NO_FLASH_BYTE_SUPPORT := true;
  NO_BLOCK_SUPPORT := false |}.

(** ** Constants *)

Definition F_CPU := 16000000.
Definition BOOT_START_ADDR := 0x7000.
Definition SPM_PAGESIZE := 128.
Definition BAUD_RATE := 115200.

Definition TICKS_MS (ms : Z) : Z := ms / 50.
Definition AVR_PROGRAMMER_TIMEOUT := TICKS_MS 3000.
Definition ESP_PROGRAMMER_TIMEOUT := TICKS_MS 3000.
Definition USB_COMM_TIMEOUT := TICKS_MS 250.

Definition ACT_STAY_INTO_BOOTLOADER := TICKS_MS 1000.
Definition ACT_BOOTLOADER_TIMEOUT := TICKS_MS 8000.
Definition ACT_RESET_ESP8266 := TICKS_MS 3000.
Definition ACT_RECONFIGURE_ESP8266 := TICKS_MS 5000.
Definition ACT_FACTORY_DEFAULTS := TICKS_MS 5000.

Definition BM_NORMAL_BOOT := ch "0".
Definition BM_KEEP_BOOTLOADER := ch "1".
Definition BM_ESP_RESET := ch "R".
Definition BM_ESP_RECONFIGURE := ch "E".
Definition BM_ESP_FACTORY := ch "F".

Definition SERIAL_2X_UBBRVAL (Baud : Z) : Z := (F_CPU / 8 + Baud / 2) / Baud - 1.

(** [Adelino.h] *)
Definition BOOTLOADER_VERSION_MAJOR := 0x01.
Definition BOOTLOADER_VERSION_MINOR := 0x00.
Definition SOFTWARE_IDENTIFIER : list Z :=
  [ch "A"; ch "D"; ch "E"; ch "L"; ch "I"; ch "N"; ch "O"].

(* UCSR1A, UCSR1B, UCSR1C *)
Definition UDRE1 := 5.
Definition U2X1 := 1.
Definition RXCIE1 := 7.
Definition RXEN1 := 4.
Definition TXEN1 := 3.
Definition UCSZ11 := 2.
Definition UCSZ10 := 1.
(* timer 1, MCU control and status, watchdog, clock *)
Definition OCIE1A := 1.
Definition CS10 := 0.
Definition CS11 := 1.
Definition WGM12 := 3.
Definition IVCE := 0.
Definition IVSEL := 1.
Definition PORF := 0.
Definition EXTRF := 1.
Definition WDRF := 3.
Definition WDE := 3.
Definition WDCE := 4.
Definition CLKPCE := 7.
Definition clock_div_1 := 0.

Definition CDC_REQ_SetLineEncoding := 0x20.
Definition CDC_REQ_GetLineEncoding := 0x21.
Definition CDC_REQ_SetControlLineState := 0x22.
Definition CDC_CONTROL_LINE_OUT_RTS := Z.shiftl 1 1.
(** sizeof(CDC_LineEncoding_t) *)
Definition sizeof_LineEncoding := 7.

(** Initial contents of the static [LineEncoding]: 0 bps, one stop bit, no
    parity, 8 data bits. *)
Definition LineEncoding_init : list Z := [0; 0; 0; 0; 0; 0; 8].

Definition GET_LOW_FUSE_BITS := 0x0000.
Definition GET_LOCK_BITS := 0x0001.
Definition GET_EXTENDED_FUSE_BITS := 0x0002.
Definition GET_HIGH_FUSE_BITS := 0x0003.

Section Leds.
Context {B : Board} {V : Vectors}.

Definition LED_SETUP : M unit := or_reg DDRC (bv 7) ;; or_reg DDRD (bv 5).
Definition L_LED_OFF : M unit := clr_reg PORTC (bv 7).
Definition L_LED_ON : M unit := or_reg PORTC (bv 7).
Definition L_LED_TOGGLE : M unit := xor_reg PORTC (bv 7).
Definition ACT_LED_OFF : M unit := clr_reg PORTD (bv 5).
Definition ACT_LED_ON : M unit := or_reg PORTD (bv 5).
Definition ACT_LED_TOGGLE : M unit := xor_reg PORTD (bv 5).
End Leds.

(** ** Interrupt handlers *)

Section Isr.
Context {B : Board} {V : Vectors}.

Definition USART1_RX_vect : M unit :=
  c <- rd UDR1 ;;
  i <- get buffer_in ;;
  let next := u8 (i + 1) in
  o <- get buffer_out ;;
  if next =? o then ret tt else
  l <- get_obj buffer ;;
  put_obj buffer (<[Z.to_nat i := c]> l) ;;
  put buffer_in next.

Definition TIMER1_COMPA_vect : M unit :=
  e <- get leds_enabled ;;
  (If truth e Then (c <- get led_counter ;; put led_counter (c + 1))) ;;
  t <- get Timeout ;;
  If truth t Then put Timeout (t - 1).

(** The vector table of the bootloader section. *)
Definition adelino_isr (i : irq) : M unit :=
  match i with
  | TIMER1_COMPA => TIMER1_COMPA_vect
  | USART1_RX => USART1_RX_vect
  | USB_GEN => USB_GEN_vect
  end.
End Isr.

(** Handlers run with interrupts disabled. *)
Definition adelino_vectors {B : Board} : Vectors := {| isr := @adelino_isr B no_vectors |}.

Section Adelino.
Context {B : Board} {V : Vectors} {I : BuildIds} {Opt : BuildOpts}.

(** ** USB event handlers *)

Definition Adelino_ConfigurationChanged : M unit :=
  _ <- Endpoint_ConfigureEndpoint CDC_NOTIFICATION_EPNUM EP_TYPE_INTERRUPT
         ENDPOINT_DIR_IN CDC_NOTIFICATION_EPSIZE ENDPOINT_BANK_SINGLE ;;
  _ <- Endpoint_ConfigureEndpoint CDC_TX_EPNUM EP_TYPE_BULK
         ENDPOINT_DIR_IN CDC_TXRX_EPSIZE ENDPOINT_BANK_SINGLE ;;
  _ <- Endpoint_ConfigureEndpoint CDC_RX_EPNUM EP_TYPE_BULK
         ENDPOINT_DIR_OUT CDC_TXRX_EPSIZE ENDPOINT_BANK_SINGLE ;;
  ret tt.

Definition class_interface (dir : Z) : Z := Z.lor (Z.lor dir REQTYPE_CLASS) REQREC_INTERFACE.

Definition Adelino_ControlRequest : M unit :=
  r <- get_obj USB_ControlRequest ;;
  if negb (Z.land (bmRequestType r) (Z.lor CONTROL_REQTYPE_TYPE CONTROL_REQTYPE_RECIPIENT)
           =? Z.lor REQTYPE_CLASS REQREC_INTERFACE) then ret tt
  else if bRequest r =? CDC_REQ_GetLineEncoding then
    If bmRequestType r =? class_interface REQDIR_DEVICETOHOST Then
      Endpoint_ClearSETUP ;;
      l <- get_obj LineEncoding ;;
      _ <- Endpoint_Write_Control_Stream_LE l sizeof_LineEncoding ;;
      Endpoint_ClearOUT
  else if bRequest r =? CDC_REQ_SetLineEncoding then
    If bmRequestType r =? class_interface REQDIR_HOSTTODEVICE Then
      Endpoint_ClearSETUP ;;
      _ <- Endpoint_Read_Control_Stream_LE LineEncoding sizeof_LineEncoding ;;
      Endpoint_ClearIN
  else if bRequest r =? CDC_REQ_SetControlLineState then
    If bmRequestType r =? class_interface REQDIR_HOSTTODEVICE Then
      Endpoint_ClearSETUP ;;
      Endpoint_ClearStatusStage ;;
      p <- vget rts_pulse ;;
      put rts_pulse (Z.lor p (Z.land (wValue r) CDC_CONTROL_LINE_OUT_RTS))
  else ret tt.

#[local] Instance adelino_app : UsbApp := {|
  EVENT_USB_Device_ControlRequest := Adelino_ControlRequest;
  EVENT_USB_Device_ConfigurationChanged := Adelino_ConfigurationChanged;
  CALLBACK_USB_GetDescriptor := Adelino_GetDescriptor
|}.

(** ** The byte link over the CDC data endpoints *)

Definition usb_byte_available : M bool :=
  USB_USBTask ;;
  Endpoint_SelectEndpoint CDC_RX_EPNUM ;;
  out <- Endpoint_IsOUTReceived ;;
  if out : bool then
    n <- Endpoint_BytesInEndpoint ;;
    if truth n then ret true else Endpoint_ClearOUT ;; ret false
  else ret false.

Definition endpoint_detached : M bool :=
  t <- vget Timeout ;;
  if negb (truth t) then ret true else
  st <- vget USB_DeviceState ;;
  ret (st =? DEVICE_STATE_Unattached).

Definition usb_read_byte : M Z :=
  iter (fun _ : unit =>
    a <- usb_byte_available ;;
    if a : bool then b <- Endpoint_Read_8 ;; ret (inr b)
    else
      d <- endpoint_detached ;;
      if d : bool then ret (inr 0) else ret (inl tt)) tt.

Definition _usb_flush_endpoint : M unit :=
  Endpoint_ClearIN ;;
  iter (fun _ : unit =>
    r <- Endpoint_IsINReady ;;
    if r : bool then ret (inr tt) else
    d <- endpoint_detached ;;
    if d : bool then ret (inr tt) else ret (inl tt)) tt.

Definition usb_flush : M unit :=
  Endpoint_SelectEndpoint CDC_TX_EPNUM ;;
  n <- Endpoint_BytesInEndpoint ;;
  if negb (truth n) then ret tt else
  rw <- Endpoint_IsReadWriteAllowed ;;
  (If negb rw Then _usb_flush_endpoint) ;;
  _usb_flush_endpoint.

Definition usb_write_byte (Response : Z) : M unit :=
  USB_USBTask ;;
  Endpoint_SelectEndpoint CDC_TX_EPNUM ;;
  rw <- Endpoint_IsReadWriteAllowed ;;
  (If negb rw Then _usb_flush_endpoint) ;;
  Endpoint_Write_8 Response.
End Adelino.
