(* ===== verification/Avr109.v ===== *)
(** * The AVR109 programmer of Adelino.c

    The programmer talks to the host only through the byte link
    ([usb_byte_available], [usb_read_byte], [usb_write_byte], [usb_flush]).
    That interface is the class [Link]; [adelino_link] is its implementation
    over the CDC endpoints. *)

From Stdlib Require Import Strings.Ascii Strings.String.
From S2P Require Import Prelude Machine Logic Endpoint UsbDevice Descriptors Bootloader.

Class Link `{Board} := {
  lk_available : M bool;     (** [usb_byte_available] *)
  lk_read : M Z;             (** [usb_read_byte] *)
  lk_write : Z -> M unit;    (** [usb_write_byte] *)
  lk_flush : M unit          (** [usb_flush] *)
}.

Arguments lk_available : simpl never.
Arguments lk_read : simpl never.
Arguments lk_write : simpl never.
Arguments lk_flush : simpl never.

Definition adelino_link {B : Board} {V : Vectors} {I : BuildIds} : Link := {|
  lk_available := usb_byte_available;
  lk_read := usb_read_byte;
  lk_write := usb_write_byte;
  lk_flush := usb_flush
|}.

Section Avr109.
Context {B : Board} {V : Vectors} {L : Link} {Opt : BuildOpts}.

(** ** Block transfers *)

(** The header of a block command: size (big-endian) and memory type. *)
Definition read_block_header : M (Z * Z) :=
  hi <- lk_read ;;
  let BlockSize := u16 (s16 (Z.shiftl hi 8)) in
  lo <- lk_read ;;
  let BlockSize := Z.lor BlockSize lo in
  MemoryType <- lk_read ;;
  ret (BlockSize, MemoryType).

(** [while (BlockSize--)] of the read command, flash. *)
Fixpoint read_flash_block (k : nat) (HighByte : bool) : M unit :=
  match k with
  | O => ret tt
  | S k' =>
      a <- get CurrAddress ;;
      b <- pgm_read_byte (Z.lor a (b2z HighByte)) ;;
      lk_write b ;;
      (If HighByte Then (a <- get CurrAddress ;; put CurrAddress (a + 2))) ;;
      read_flash_block k' (negb HighByte)
  end.

(** [while (BlockSize--)] of the write command, flash. *)
Fixpoint write_flash_block (k : nat) (HighByte : bool) (LowByte : Z) : M unit :=
  match k with
  | O => ret tt
  | S k' =>
      if HighByte then
        hi <- lk_read ;;
        a <- get CurrAddress ;;
        call (boot_page_fill a (u16 (Z.lor (s16 (Z.shiftl hi 8)) LowByte))) ;;
        put CurrAddress (a + 2) ;;
        write_flash_block k' false LowByte
      else
        lo <- lk_read ;;
        write_flash_block k' true lo
  end.

(** EEPROM loops of the full version. *)
Fixpoint read_eeprom_block (k : nat) : M unit :=
  match k with
  | O => ret tt
  | S k' =>
      a <- get CurrAddress ;;
      b <- eeprom_read_byte (Z.shiftr a 1) ;;
      lk_write b ;;
      a <- get CurrAddress ;;
      put CurrAddress (a + 2) ;;
      read_eeprom_block k'
  end.
Fixpoint write_eeprom_block (k : nat) : M unit :=
  match k with
  | O => ret tt
  | S k' =>
      b <- lk_read ;;
      a <- get CurrAddress ;;
      call (eeprom_write_byte (Z.shiftr a 1) b) ;;
      put CurrAddress (a + 2) ;;
      write_eeprom_block k'
  end.

(** Minimal version ([MINIMAL_AVR109]): flash only. *)
Definition ReadWriteMemoryBlock_minimal (Command : Z) : M unit :=
  h <- read_block_header ;;
  let '(BlockSize, MemoryType) := h in
  if negb (MemoryType =? ch "F") then lk_write (ch "?") else
  wr TIMSK1 0 ;;
  (if Command =? ch "g" then
     call boot_rww_enable ;;
     read_flash_block (Z.to_nat BlockSize) false
   else
     PageStartAddress <- get CurrAddress ;;
     call (boot_page_erase PageStartAddress) ;;
     call boot_spm_busy_wait ;;
     write_flash_block (Z.to_nat BlockSize) false 0 ;;
     call (boot_page_write PageStartAddress) ;;
     call boot_spm_busy_wait ;;
     lk_write 13) ;;
  wr TIMSK1 (bv OCIE1A).

(** Full version: flash and EEPROM. *)
Definition ReadWriteMemoryBlock_full (Command : Z) : M unit :=
  h <- read_block_header ;;
  let '(BlockSize, MemoryType) := h in
  if negb (MemoryType =? ch "E") && negb (MemoryType =? ch "F") then lk_write (ch "?") else
  wr TIMSK1 0 ;;
  (if Command =? ch "g" then
     call boot_rww_enable ;;
     (if MemoryType =? ch "F" then read_flash_block (Z.to_nat BlockSize) false
      else read_eeprom_block (Z.to_nat BlockSize))
   else
     PageStartAddress <- get CurrAddress ;;
     (If MemoryType =? ch "F" Then
        (call (boot_page_erase PageStartAddress) ;; call boot_spm_busy_wait)) ;;
     (if MemoryType =? ch "F" then write_flash_block (Z.to_nat BlockSize) false 0
      else write_eeprom_block (Z.to_nat BlockSize)) ;;
     (If MemoryType =? ch "F" Then
        (call (boot_page_write PageStartAddress) ;; call boot_spm_busy_wait)) ;;
     lk_write 13) ;;
  wr TIMSK1 (bv OCIE1A).

Definition ReadWriteMemoryBlock (Command : Z) : M unit :=
  if MINIMAL_AVR109 then ReadWriteMemoryBlock_minimal Command
  else ReadWriteMemoryBlock_full Command.

(** ** Commands *)

Fixpoint write_bytes (l : list Z) : M unit :=
  match l with
  | [] => ret tt
  | b :: l' => lk_write b ;; write_bytes l'
  end.

(** Command ['e']: the loop over the pages of the application section. *)
Fixpoint erase_pages (k : nat) (CurrFlashAddress : Z) : M unit :=
  match k with
  | O => ret tt
  | S k' =>
      call (boot_page_erase CurrFlashAddress) ;;
      call boot_spm_busy_wait ;;
      call (boot_page_write CurrFlashAddress) ;;
      call boot_spm_busy_wait ;;
      erase_pages k' (CurrFlashAddress + SPM_PAGESIZE)
  end.

Definition chip_erase : M unit :=
  erase_pages (Z.to_nat (BOOT_START_ADDR / SPM_PAGESIZE)) 0 ;; lk_write 13.

Definition set_address : M unit :=
  hi <- lk_read ;;
  put CurrAddress (s16 (Z.shiftl hi 9)) ;;
  lo <- lk_read ;;
  a <- get CurrAddress ;;
  put CurrAddress (Z.lor a (Z.shiftl lo 1)) ;;
  lk_write 13.

(** Commands compiled only without [MINIMAL_AVR109] or with the byte-wise
    options; [None] when the command is not one of them. *)
Definition optional_command (Command : Z) : option (M unit) :=
  if negb MINIMAL_AVR109 && (Command =? ch "e") then Some chip_erase
  else if negb NO_LOCK_BYTE_WRITE_SUPPORT && (Command =? ch "l") then Some (
    b <- lk_read ;; call (boot_lock_bits_set b) ;; lk_write 13)
  else if negb MINIMAL_AVR109 && (Command =? ch "r") then Some (
    b <- boot_lock_fuse_bits_get GET_LOCK_BITS ;; lk_write b)
  else if negb MINIMAL_AVR109 && (Command =? ch "F") then Some (
    b <- boot_lock_fuse_bits_get GET_LOW_FUSE_BITS ;; lk_write b)
  else if negb MINIMAL_AVR109 && (Command =? ch "N") then Some (
    b <- boot_lock_fuse_bits_get GET_HIGH_FUSE_BITS ;; lk_write b)
  else if negb MINIMAL_AVR109 && (Command =? ch "Q") then Some (
    b <- boot_lock_fuse_bits_get GET_EXTENDED_FUSE_BITS ;; lk_write b)
  else None.

Definition byte_command (Command : Z) : option (M unit) :=
  if negb NO_FLASH_BYTE_SUPPORT && (Command =? ch "C") then Some (
    b <- lk_read ;; a <- get CurrAddress ;; call (boot_page_fill a b) ;; lk_write 13)
  else if negb NO_FLASH_BYTE_SUPPORT && (Command =? ch "c") then Some (
    b <- lk_read ;; a <- get CurrAddress ;; call (boot_page_fill (Z.lor a 1) b) ;;
    put CurrAddress (a + 2) ;; lk_write 13)
  else if negb NO_FLASH_BYTE_SUPPORT && (Command =? ch "m") then Some (
    a <- get CurrAddress ;; call (boot_page_write a) ;; call boot_spm_busy_wait ;; lk_write 13)
  else if negb NO_FLASH_BYTE_SUPPORT && (Command =? ch "R") then Some (
    a <- get CurrAddress ;; w <- pgm_read_word a ;;
    lk_write (Z.shiftr w 8) ;; lk_write (Z.land w 0xFF))
  else if negb NO_EEPROM_BYTE_SUPPORT && (Command =? ch "D") then Some (
    b <- lk_read ;; a <- get CurrAddress ;; call (eeprom_write_byte (Z.shiftr a 1) b) ;;
    put CurrAddress (a + 2) ;; lk_write 13)
  else if negb NO_EEPROM_BYTE_SUPPORT && (Command =? ch "d") then Some (
    a <- get CurrAddress ;; b <- eeprom_read_byte (Z.shiftr a 1) ;; lk_write b ;;
    put CurrAddress (a + 2))
  else None.

(** The [if]/[else if] chain of the programmer loop. *)
Definition avr109_command (Command : Z) : M unit :=
  if Command =? ch "E" then
    put Timeout (TICKS_MS 500) ;;
    call boot_rww_enable_safe ;;
    lk_write 13
  else if Command =? ch "T" then
    _ <- lk_read ;; lk_write 13
  else if (Command =? ch "L") || (Command =? ch "P") then
    lk_write 13
  else if Command =? ch "t" then
    lk_write 0x44 ;; lk_write 0x00
  else if Command =? ch "a" then
    lk_write (ch "Y")
  else if Command =? ch "A" then
    set_address
  else if Command =? ch "p" then
    lk_write (ch "S")
  else if Command =? ch "S" then
    write_bytes SOFTWARE_IDENTIFIER
  else if Command =? ch "V" then
    lk_write (ch "0" + BOOTLOADER_VERSION_MAJOR) ;;
    lk_write (ch "0" + BOOTLOADER_VERSION_MINOR)
  else if Command =? ch "s" then
    lk_write AVR_SIGNATURE_3 ;; lk_write AVR_SIGNATURE_2 ;; lk_write AVR_SIGNATURE_1
  else match optional_command Command with
  | Some m => m
  | None =>
  if negb NO_BLOCK_SUPPORT && (Command =? ch "b") then
    lk_write (ch "Y") ;;
    lk_write (Z.shiftr SPM_PAGESIZE 8) ;;
    lk_write (Z.land SPM_PAGESIZE 0xFF)
  else if negb NO_BLOCK_SUPPORT && ((Command =? ch "B") || (Command =? ch "g")) then
    put Timeout AVR_PROGRAMMER_TIMEOUT ;;
    put boot_mode BM_NORMAL_BOOT ;;
    ReadWriteMemoryBlock Command
  else match byte_command Command with
  | Some m => m
  | None => If negb (Command =? 27) Then lk_write (ch "?")
  end end.

(** One command: the body of the programmer loop once a byte is available. *)
Definition avr109_step : M unit :=
  Command <- lk_read ;;
  avr109_command Command ;;
  lk_flush.

Definition AVR109_programmer : M unit :=
  put Timeout AVR_PROGRAMMER_TIMEOUT ;;
  while (t <- vget Timeout ;; ret (truth t))
    (a <- lk_available ;; If a Then avr109_step).
End Avr109.
