(* ===== verification/Boot.v ===== *)
(** * Start-up, ESP8266 bridge and main loop of Adelino.c *)

From Stdlib Require Import Strings.Ascii Strings.String.
From S2P Require Import Prelude Machine Logic Endpoint UsbDevice Descriptors Bootloader Avr109.

(** Initial values of the static variables; the word at 0x0800 ([bootKeyMem])
    is not initialized and keeps what the sketch left there. *)
Definition static_vars `{BuildIds} (key_word : Z) : gmap var Z :=
  <[bootKey := 0x7777]> (<[bootKeyMem := key_word]> (<[led_control := 0xff]>
    (<[DD_VendorID := DEVICE_VID]> (<[DD_ProductID := DEVICE_PID]>
       (list_to_map (map (fun x => (x, 0)) all_vars)))))).

Definition static_mem : gmap obj (list Z) :=
  <[buffer := repeat 0 256]> (<[LineEncoding := LineEncoding_init]>
    (<[USB_ControlRequest := repeat 0 8]> ∅)).

Section Boot.
Context {B : Board} {V : Vectors} {I : BuildIds} {L : Link} {Opt : BuildOpts}.
#[local] Existing Instance adelino_app.

(** ** Leaving for the sketch *)

Definition start_sketch : M unit :=
  cli ;;
  wr UCSR1B 0 ;;
  wr TIMSK1 0 ;;
  wr TCCR1B 0 ;;
  wr TCNT1H 0 ;;
  wr TCNT1L 0 ;;
  wr MCUCR (bv IVCE) ;;
  wr MCUCR 0 ;;
  L_LED_OFF ;;
  ACT_LED_OFF ;;
  jump.

(** ** UART, reset switch, ESP8266 reset lines *)

Definition putch (c : Z) : M unit :=
  while (r <- test_reg UCSR1A UDRE1 ;; ret (negb r)) (ret tt) ;;
  wr UDR1 c.

Definition rstat : M bool :=
  cli ;;
  save_PORTD <- rd PORTD ;;
  or_reg PORTD (bv 5) ;;
  save_DDRD <- rd DDRD ;;
  clr_reg DDRD (bv 5) ;;
  call delay_nop ;;
  pin <- test_reg PIND 5 ;;
  let stat := negb pin in
  wr PORTD save_PORTD ;;
  wr DDRD save_DDRD ;;
  sei ;;
  ret stat.

Definition reset_esp (program_mode : bool) : M unit :=
  clr_reg PORTB (bv 0) ;;
  or_reg DDRB (bv 0) ;;
  (if program_mode then clr_reg PORTC (bv 7) else or_reg PORTC (bv 7)) ;;
  or_reg DDRC (bv 7) ;;
  clr_reg PORTE (bv 2) ;;
  or_reg DDRE (bv 2) ;;
  call (delay_ms 1) ;;
  or_reg PORTE (bv 2).

Definition reset_esp_and_wait (program_mode : bool) : M unit :=
  put leds_enabled 0 ;;
  ACT_LED_ON ;;
  L_LED_ON ;;
  reset_esp program_mode ;;
  put Timeout (TICKS_MS 350) ;;
  while (t <- vget Timeout ;; ret (truth t)) USB_USBTask ;;
  put leds_enabled 1 ;;
  put buffer_out 0 ;;
  put buffer_in 0.

(** ** ESP8266 programmer *)

(** [ch = buffer[buffer_out++]] *)
Definition buffer_next : M Z :=
  o <- get buffer_out ;;
  l <- get_obj buffer ;;
  put buffer_out (o + 1) ;;
  ret (nth (Z.to_nat o) l 0).

(** [buffer_in != buffer_out] *)
Definition buffer_nonempty : M bool :=
  i <- vget buffer_in ;;
  o <- get buffer_out ;;
  ret (negb (i =? o)).

(** Body of the bridge loop [for (rts_pulse = 0; !rts_pulse; )]. *)
Definition esp_bridge : M unit :=
  put Timeout USB_COMM_TIMEOUT ;;
  ne <- buffer_nonempty ;;
  c <- (if ne : bool then c <- buffer_next ;; lk_write c ;; ret c else ret 0) ;;
  (If c =? 0xc0 Then lk_flush) ;;
  txe <- test_reg UCSR1A UDRE1 ;;
  If txe Then
    (a <- lk_available ;;
     If a Then (b <- Endpoint_Read_8 ;; wr UDR1 b)).

Definition ESP8266_programmer : M unit :=
  put buffer_out 0 ;;
  reset_esp true ;;
  put Timeout ESP_PROGRAMMER_TIMEOUT ;;
  while (t <- vget Timeout ;; ret (truth t))
    (i <- vget buffer_in ;;
     If truth i Then (put buffer_in 0 ;; put Timeout USB_COMM_TIMEOUT)) ;;
  put rts_pulse 0 ;;
  while (p <- vget rts_pulse ;; ret (negb (truth p))) esp_bridge ;;
  reset_esp_and_wait false.

(** ** CDC task *)

(** What [CDC_Task] does with a byte from the host. *)
Definition cdc_command (c : Z) : M unit :=
  if c =? 0xc0 then ESP8266_programmer
  else if c =? 27 then AVR109_programmer
  else if c =? 4 then
    lk_write (ch "\") ;; lk_write (ch "D") ;; m <- get boot_mode ;; lk_write m
  else putch c.

Definition CDC_Task : M unit :=
  while buffer_nonempty (c <- buffer_next ;; lk_write c) ;;
  lk_flush ;;
  a <- lk_available ;;
  if negb a then ret tt else
  c <- lk_read ;;
  cdc_command c ;;
  put led_control 0xff.

(** ** Tasks and LEDs *)

Definition breathing_level (counter : Z) : Z :=
  let p := u8 (Z.shiftr counter 8) in
  let p := if 127 <? p then u8 (254 - p) else p in
  u8 (p + p).

Definition led_task : M unit :=
  c <- get led_control ;;
  if c =? 0xff then
    k <- get led_counter ;;
    put led_counter (k + 1) ;;
    k <- get led_counter ;;
    if breathing_level k <? u8 k then L_LED_OFF ;; ACT_LED_ON
    else L_LED_ON ;; ACT_LED_OFF
  else
    k <- get led_counter ;;
    If c <? k Then (put led_counter 0 ;; L_LED_TOGGLE ;; ACT_LED_TOGGLE).

Definition run_tasks : M unit :=
  CDC_Task ;;
  e <- get leds_enabled ;;
  If truth e Then led_task.

(** ** Start-up *)

Definition setup_hardware : M unit :=
  clr_reg MCUSR (bv WDRF) ;;
  wr WDTCSR (Z.lor (bv WDE) (bv WDCE)) ;;
  wr WDTCSR 0 ;;
  wr CLKPR (bv CLKPCE) ;;
  wr CLKPR clock_div_1 ;;
  wr MCUCR (bv IVCE) ;;
  wr MCUCR (bv IVSEL) ;;
  LED_SETUP ;;
  L_LED_OFF ;;
  ACT_LED_OFF ;;
  wr UBRR1 (SERIAL_2X_UBBRVAL BAUD_RATE) ;;
  wr UCSR1A (bv U2X1) ;;
  wr UCSR1C (Z.lor (bv UCSZ10) (bv UCSZ11)) ;;
  wr UCSR1B (Z.lor (Z.lor (bv RXEN1) (bv TXEN1)) (bv RXCIE1)) ;;
  wr OCR1A 12499 ;;
  wr TIMSK1 (bv OCIE1A) ;;
  wr TCCR1B (Z.lor (Z.lor (bv CS11) (bv CS10)) (bv WGM12)) ;;
  USB_Init ;;
  sei.

Definition check_reset (ticks : Z) : M bool :=
  put Timeout ticks ;;
  while (t <- vget Timeout ;; if truth t then rstat else ret false) run_tasks ;;
  rstat.

(** The nested [check_reset] questions of [main] once the switch is held. *)
Definition select_boot_mode : M unit :=
  put leds_enabled BM_KEEP_BOOTLOADER ;;
  put boot_mode BM_KEEP_BOOTLOADER ;;
  r <- check_reset ACT_RESET_ESP8266 ;;
  If r Then
    (put boot_mode BM_ESP_RESET ;;
     reset_esp_and_wait false ;;
     r <- check_reset ACT_RECONFIGURE_ESP8266 ;;
     If r Then
       (put boot_mode BM_ESP_RECONFIGURE ;;
        put led_control (TICKS_MS 200) ;;
        r <- check_reset ACT_FACTORY_DEFAULTS ;;
        If r Then
          (put boot_mode BM_ESP_FACTORY ;;
           put led_control 1))).

(** The reset reason decides whether the sketch starts at once. *)
Definition boot_to_sketch (mcusr_state bootKeyPtrVal key : Z) (sketch_available : bool) : bool :=
  if bit_set mcusr_state (bv EXTRF) then false
  else if bit_set mcusr_state (bv PORF) && sketch_available then true
  else bit_set mcusr_state (bv WDRF) && negb (bootKeyPtrVal =? key) && sketch_available.

Definition bootloader_loop : M unit :=
  while (m <- get boot_mode ;;
         if negb (m =? BM_NORMAL_BOOT) then ret true
         else t <- vget Timeout ;; ret (truth t))
    run_tasks.

Definition main : M unit :=
  bootKeyPtrVal <- vget bootKeyMem ;;
  put bootKeyMem 0 ;;
  mcusr_state <- rd MCUSR ;;
  wr MCUSR 0 ;;
  call wdt_disable ;;
  w <- pgm_read_word 0 ;;
  let sketch_available := negb (w =? 0xFFFF) in
  key <- get bootKey ;;
  (If boot_to_sketch mcusr_state bootKeyPtrVal key sketch_available Then start_sketch) ;;
  setup_hardware ;;
  r <- check_reset ACT_STAY_INTO_BOOTLOADER ;;
  (if r || negb sketch_available then select_boot_mode
   else
     put leds_enabled BM_NORMAL_BOOT ;;
     put boot_mode BM_NORMAL_BOOT ;;
     put Timeout ACT_BOOTLOADER_TIMEOUT) ;;
  bootloader_loop ;;
  USB_Detach ;;
  start_sketch.
End Boot.
