(* ===== verification/Frame.v ===== *)
(** * What each layer of the firmware may touch

    The traversal of every function of the firmware, once, for an arbitrary
    property closed under its constructs ([Closed]), and the consequences: the
    footprints of the interrupt handlers, of the USB stack, of the byte link
    and of the two programmers, the typing of the global variables, and the
    independence of the results from the fuel.  All of it holds on every
    board. *)

From S2P Require Import Prelude Machine Logic Endpoint UsbDevice Descriptors Bootloader Avr109 Boot.

(** Registers of the USB controller. *)
Definition usb_reg (r : reg) : bool :=
  match r with
  | UENUM | UECONX | UECFG0X | UECFG1X | UEINTX | UEIENX | UEDATX | UERST | UEINT
  | UDCON | UDADDR | UDIEN | UDINT | USBCON | USBINT | UHWCON | PLLCSR | PLLFRQ => true
  | _ => false
  end.

(** The USB interrupt, which does not touch the UART. *)
Definition gen_fp : footprint := {|
  fp_rd r := match r with UDR1 | UCSR1A => false | _ => true end;
  fp_var x := match x with USB_DeviceState | USB_Device_ConfigurationNumber => true | _ => false end;
  fp_obj _ := false;
  fp_reg := usb_reg;
  fp_op _ := false |}.

(** The interrupt handlers: tick counters, receive buffer, USB state. *)
Definition isr_fp : footprint := {|
  fp_rd _ := true;
  fp_var x := match x with
    | Timeout | led_counter | buffer_in
    | USB_DeviceState | USB_Device_ConfigurationNumber => true
    | _ => false end;
  fp_obj o := match o with buffer => true | _ => false end;
  fp_reg := usb_reg;
  fp_op _ := false |}.

(** The USB stack with the application's callbacks, and the byte link: their own
    code, and together with the interrupts that come during it. *)
Definition stack_fp : footprint := {|
  fp_rd r := match r with UDR1 | UCSR1A => false | _ => true end;
  fp_var x := match x with
    | rts_pulse | USB_DeviceState | USB_Device_ConfigurationNumber | USB_IsInitialized
    | DD_Size | DD_VendorID | DD_ProductID => true
    | _ => false end;
  fp_obj o := match o with buffer => false | _ => true end;
  fp_reg := usb_reg;
  fp_op _ := false |}.
Definition usb_fp : footprint := {|
  fp_rd _ := true;
  fp_var x := match x with
    | Timeout | led_counter | buffer_in | rts_pulse
    | USB_DeviceState | USB_Device_ConfigurationNumber | USB_IsInitialized
    | DD_Size | DD_VendorID | DD_ProductID => true
    | _ => false end;
  fp_obj _ := true;
  fp_reg := usb_reg;
  fp_op _ := false |}.

(** The ESP8266 programmer and the bridge: the link, the UART, the LEDs and the
    reset lines, but no self-programming primitive. *)
Definition esp_fp : footprint := {|
  fp_rd _ := true;
  fp_var x := match x with CurrAddress | boot_mode | bootKey | bootKeyMem => false | _ => true end;
  fp_obj _ := true;
  fp_reg r := match r with TIMSK1 | MCUCR | MCUSR | WDTCSR => false | _ => true end;
  fp_op o := match o with delay_ms _ => true | _ => false end |}.

(** Everything the bootloader does, the jump to the sketch apart. *)
Definition tasks_fp : footprint := {|
  fp_rd _ := true;
  fp_var x := match x with bootKey => false | _ => true end;
  fp_obj _ := true;
  fp_reg _ := true;
  fp_op o := match o with jmp_sketch => false | _ => true end |}.

(** Everything the bootloader does. *)
Definition boot_fp : footprint := {|
  fp_rd _ := true;
  fp_var := fp_var tasks_fp;
  fp_obj := fp_obj tasks_fp;
  fp_reg := fp_reg tasks_fp;
  fp_op _ := true |}.

Ltac fw_unfold :=
  unfold Endpoint_ClearIN, Endpoint_ClearOUT, Endpoint_ClearSETUP, Endpoint_IsINReady,
    Endpoint_IsOUTReceived, Endpoint_IsSETUPReceived, Endpoint_IsReadWriteAllowed,
    Endpoint_IsStalled, Endpoint_IsEnabled, Endpoint_IsConfigured, Endpoint_StallTransaction,
    Endpoint_ClearStall, Endpoint_ResetDataToggle, Endpoint_ResetEndpoint, Endpoint_EnableEndpoint,
    Endpoint_DisableEndpoint, Endpoint_SelectEndpoint, Endpoint_GetCurrentEndpoint,
    Endpoint_Read_8, Endpoint_Write_8, Endpoint_Write_16_LE, Endpoint_BytesInEndpoint,
    L_LED_OFF, L_LED_ON, L_LED_TOGGLE, ACT_LED_OFF, ACT_LED_ON, ACT_LED_TOGGLE, LED_SETUP,
    test_reg, or_reg, clr_reg, xor_reg.

(** ** Handlers *)

Section UsbHandler.
Context {B : Board} {V : Vectors} (P : forall A, M A -> Prop) `{!Closed gen_fp P}.

Lemma cl_ConfigureEndpoint a b c d e : P _ (Endpoint_ConfigureEndpoint a b c d e).
Proof.
  unfold Endpoint_ConfigureEndpoint, Endpoint_ConfigureEndpoint_Prv,
    Endpoint_BytesToEPSizeMask. fw_unfold. solve_closed.
Qed.
#[local] Hint Resolve cl_ConfigureEndpoint : closed_db.

Lemma cl_configured_state : P _ configured_state.
Proof. unfold configured_state, USB_Device_IsAddressSet. fw_unfold. solve_closed. Qed.
#[local] Hint Resolve cl_configured_state : closed_db.

Lemma cl_USB_GEN : P _ USB_GEN_vect.
Proof.
  unfold USB_GEN_vect, int_pending, usb_gen_vbus, usb_gen_suspend, usb_gen_wakeup, usb_gen_reset,
    USB_INT_HasOccurred, USB_INT_IsEnabled, USB_INT_Clear, USB_INT_Enable, USB_INT_Disable,
    USB_VBUS_GetStatus, USB_PLL_On, USB_PLL_Off, USB_PLL_WaitReady, USB_PLL_IsReady,
    USB_CLK_Freeze, USB_CLK_Unfreeze.
  fw_unfold. solve_closed.
Qed.
End UsbHandler.

Section Handlers.
Context {B : Board} {V : Vectors} (P : forall A, M A -> Prop) `{!Closed isr_fp P}.

Lemma isr_closed_gen : Closed gen_fp P.
Proof. eapply closed_weaken; [|exact _]. solve_fp_le. Qed.

Lemma cl_isr i : P _ (adelino_isr i).
Proof.
  unfold adelino_isr; destruct i; [| |apply cl_USB_GEN, isr_closed_gen];
    unfold TIMER1_COMPA_vect, USART1_RX_vect; fw_unfold; solve_closed.
Qed.
End Handlers.

(** ** USB stack and byte link *)

Section Usb.
Context {B : Board} {V : Vectors} {I : BuildIds}.
Context (P : forall A, M A -> Prop) `{!Closed stack_fp P}.
#[local] Existing Instance adelino_app.

Lemma usb_closed_gen : Closed gen_fp P.
Proof. eapply closed_weaken; [|exact _]. solve_fp_le. Qed.

Lemma cl_ConfigureEndpoint_usb a b c d e : P _ (Endpoint_ConfigureEndpoint a b c d e).
Proof. apply cl_ConfigureEndpoint, usb_closed_gen. Qed.
Lemma cl_configured_state_usb : P _ configured_state.
Proof. apply cl_configured_state, usb_closed_gen. Qed.
#[local] Hint Resolve cl_ConfigureEndpoint_usb cl_configured_state_usb : closed_db.

Lemma cl_wait_attached m : P _ m -> P _ (wait_attached m).
Proof. intros. unfold wait_attached. solve_closed. Qed.
Lemma cl_wait_status m : P _ m -> P _ (wait_status m).
Proof. intros. unfold wait_status. solve_closed. Qed.

Lemma cl_ClearStatusStage : P _ Endpoint_ClearStatusStage.
Proof.
  unfold Endpoint_ClearStatusStage. fw_unfold.
  solve_closed; apply cl_wait_attached; solve_closed.
Qed.
Lemma cl_fill_bank k l n b : P _ (fill_bank l n b k).
Proof.
  revert l n b. induction k as [|k IH]; intros; simpl; fw_unfold; solve_closed.
Qed.
Lemma cl_drain_bank o p n : fp_obj stack_fp o = true -> P _ (drain_bank o p n).
Proof. intros Ho. unfold drain_bank. fw_unfold. solve_closed. by apply cl_put_obj. Qed.
#[local] Hint Extern 0 (fp_obj _ _ = true) => (assumption || reflexivity) : closed_db.
#[local] Hint Resolve cl_ClearStatusStage cl_fill_bank cl_drain_bank : closed_db.

Lemma cl_Write_Control_Stream l n : P _ (Endpoint_Write_Control_Stream_LE l n).
Proof.
  unfold Endpoint_Write_Control_Stream_LE. fw_unfold.
  solve_closed; apply cl_wait_status; solve_closed.
Qed.
Lemma cl_Read_Control_Stream o n : fp_obj stack_fp o = true -> P _ (Endpoint_Read_Control_Stream_LE o n).
Proof.
  intros Ho.   unfold Endpoint_Read_Control_Stream_LE. fw_unfold.
  solve_closed; apply cl_wait_status; solve_closed.
Qed.
Lemma cl_read_request k i : P _ (read_request k i).
Proof. revert i. induction k as [|k IH]; intros; simpl; fw_unfold; solve_closed. Qed.
Lemma cl_search_descriptor k i : P _ (search_descriptor k i).
Proof.
  revert i. induction k as [|k IH]; intros; simpl; unfold sketch_descriptor_at; solve_closed.
Qed.
#[local] Hint Resolve cl_Write_Control_Stream cl_Read_Control_Stream cl_read_request
  cl_search_descriptor : closed_db.

(** The callbacks of the bootloader. *)
Lemma cl_ControlRequest : P _ Adelino_ControlRequest.
Proof. unfold Adelino_ControlRequest. fw_unfold. solve_closed. Qed.
Lemma cl_ConfigurationChanged : P _ Adelino_ConfigurationChanged.
Proof. unfold Adelino_ConfigurationChanged. solve_closed. Qed.
Lemma cl_GetDescriptor v i : P _ (Adelino_GetDescriptor v i).
Proof. unfold Adelino_GetDescriptor, shadow_vid_pid_from_sketch. solve_closed. Qed.
#[local] Hint Resolve cl_ControlRequest cl_ConfigurationChanged cl_GetDescriptor : closed_db.

Lemma cl_dispatch_request bm req : P _ (dispatch_request bm req).
Proof.
  unfold dispatch_request, USB_Device_GetStatus, USB_Device_ClearSetFeature, clear_set_halt,
    USB_Device_GetDescriptor, USB_Device_GetConfiguration, USB_Device_SetConfiguration,
    USB_Device_SetAddress, USB_Device_SetDeviceAddress, CALLBACK_USB_GetDescriptor,
    EVENT_USB_Device_ConfigurationChanged, adelino_app.
  fw_unfold. solve_closed.
Qed.
#[local] Hint Resolve cl_dispatch_request : closed_db.

Lemma cl_USB_USBTask : P _ USB_USBTask.
Proof.
  unfold USB_USBTask, USB_DeviceTask, USB_Device_ProcessControlRequest,
    EVENT_USB_Device_ControlRequest, adelino_app.
  fw_unfold. solve_closed; apply cl_dispatch_request.
Qed.
#[local] Hint Resolve cl_USB_USBTask : closed_db.

Lemma cl_usb_byte_available : P _ usb_byte_available.
Proof. unfold usb_byte_available. fw_unfold. solve_closed. Qed.
#[local] Hint Resolve cl_usb_byte_available : closed_db.
Lemma cl_usb_read_byte : P _ usb_read_byte.
Proof. unfold usb_read_byte, endpoint_detached. fw_unfold. solve_closed. Qed.
Lemma cl_flush_endpoint : P _ _usb_flush_endpoint.
Proof. unfold _usb_flush_endpoint, endpoint_detached. fw_unfold. solve_closed. Qed.
#[local] Hint Resolve cl_flush_endpoint : closed_db.
Lemma cl_usb_flush : P _ usb_flush.
Proof. unfold usb_flush. fw_unfold. solve_closed. Qed.
Lemma cl_usb_write_byte b : P _ (usb_write_byte b).
Proof. unfold usb_write_byte. fw_unfold. solve_closed. Qed.
End Usb.

(** ** Programmers, tasks and main, over the link of the bootloader *)

Section Esp.
Context {B : Board} {V : Vectors} {I : BuildIds}.
Context (P : forall A, M A -> Prop) `{!Closed esp_fp P}.
#[local] Existing Instance adelino_app.
#[local] Existing Instance adelino_link.

Lemma esp_closed_usb : Closed stack_fp P.
Proof. eapply closed_weaken; [|exact _]. solve_fp_le. Qed.

Lemma cl_esp_usb :
  P _ USB_USBTask /\ P _ lk_available /\ P _ lk_read /\ (forall b, P _ (lk_write b)) /\ P _ lk_flush.
Proof.
  pose proof esp_closed_usb.
  repeat split; intros.
  - apply cl_USB_USBTask; exact _.
  - exact (cl_usb_byte_available P).
  - exact (cl_usb_read_byte P).
  - exact (cl_usb_write_byte P _).
  - exact (cl_usb_flush P).
Qed.

Lemma cl_reset_esp b : P _ (reset_esp b).
Proof. unfold reset_esp. fw_unfold. solve_closed. Qed.
#[local] Hint Resolve cl_reset_esp : closed_db.

Lemma cl_reset_esp_and_wait b : P _ (reset_esp_and_wait b).
Proof.
  destruct cl_esp_usb as (? & ? & ? & ? & ?).
  unfold reset_esp_and_wait. fw_unfold. solve_closed.
Qed.
#[local] Hint Resolve cl_reset_esp_and_wait : closed_db.

Lemma cl_ESP8266_programmer : P _ ESP8266_programmer.
Proof.
  destruct cl_esp_usb as (? & ? & ? & ? & ?).
  unfold ESP8266_programmer, esp_bridge, buffer_nonempty, buffer_next. fw_unfold. solve_closed.
Qed.

Lemma cl_led_task : P _ led_task.
Proof. unfold led_task. fw_unfold. solve_closed. Qed.

Lemma cl_putch c : P _ (putch c).
Proof. unfold putch. fw_unfold. solve_closed. Qed.

(** Every byte of the host but the escape that enters the AVR programmer. *)
Lemma cl_cdc_command {Opt : BuildOpts} c : c <> 27 -> P _ (cdc_command c).
Proof.
  intros Hc. destruct cl_esp_usb as (? & ? & ? & ? & ?).
  pose proof cl_ESP8266_programmer. pose proof cl_putch.
  unfold cdc_command. rewrite (proj2 (Z.eqb_neq c 27)) by done. solve_closed.
Qed.
End Esp.

Section MainFrame.
Context {B : Board} {V : Vectors} {I : BuildIds} {Opt : BuildOpts}.
Context (P : forall A, M A -> Prop) `{!Closed tasks_fp P}.
#[local] Existing Instance adelino_app.
#[local] Existing Instance adelino_link.

Lemma boot_closed_esp : Closed esp_fp P.
Proof. eapply closed_weaken; [|exact _]. solve_fp_le. Qed.
Lemma boot_closed_usb : Closed stack_fp P.
Proof. eapply closed_weaken; [|exact _]. solve_fp_le. Qed.

Lemma cl_write_flash_block k h l : P _ (write_flash_block k h l).
Proof.
  destruct (cl_esp_usb P (Closed0 := boot_closed_esp)) as (? & ? & ? & ? & ?).
  revert h l. induction k as [|k IH]; intros; simpl; solve_closed.
Qed.
Lemma cl_read_flash_block k h : P _ (read_flash_block k h).
Proof.
  destruct (cl_esp_usb P (Closed0 := boot_closed_esp)) as (? & ? & ? & ? & ?).
  revert h. induction k as [|k IH]; intros; simpl; solve_closed.
Qed.
Lemma cl_write_eeprom_block k : P _ (write_eeprom_block k).
Proof.
  destruct (cl_esp_usb P (Closed0 := boot_closed_esp)) as (? & ? & ? & ? & ?).
  induction k as [|k IH]; intros; simpl; solve_closed.
Qed.
Lemma cl_read_eeprom_block k : P _ (read_eeprom_block k).
Proof.
  destruct (cl_esp_usb P (Closed0 := boot_closed_esp)) as (? & ? & ? & ? & ?).
  induction k as [|k IH]; intros; simpl; solve_closed.
Qed.
Lemma cl_erase_pages k a : P _ (erase_pages k a).
Proof. revert a. induction k as [|k IH]; intros; simpl; solve_closed. Qed.
Lemma cl_write_bytes l : P _ (write_bytes l).
Proof.
  destruct (cl_esp_usb P (Closed0 := boot_closed_esp)) as (? & ? & ? & ? & ?).
  induction l as [|b l IH]; intros; simpl; solve_closed.
Qed.
#[local] Hint Resolve cl_write_flash_block cl_read_flash_block cl_write_eeprom_block
  cl_read_eeprom_block cl_erase_pages cl_write_bytes : closed_db.

Lemma cl_ReadWriteMemoryBlock c : P _ (ReadWriteMemoryBlock c).
Proof.
  destruct (cl_esp_usb P (Closed0 := boot_closed_esp)) as (? & ? & ? & ? & ?).
  unfold ReadWriteMemoryBlock, ReadWriteMemoryBlock_minimal, ReadWriteMemoryBlock_full,
    read_block_header. solve_closed.
Qed.
#[local] Hint Resolve cl_ReadWriteMemoryBlock : closed_db.

Lemma cl_chip_erase : P _ chip_erase.
Proof.
  destruct (cl_esp_usb P (Closed0 := boot_closed_esp)) as (? & ? & ? & ? & ?).
  unfold chip_erase. apply cl_bind; [apply cl_erase_pages|solve_closed].
Qed.
#[local] Hint Resolve cl_chip_erase : closed_db.
#[local] Opaque chip_erase.

Lemma cl_optional_command c m : optional_command c = Some m -> P _ m.
Proof.
  destruct (cl_esp_usb P (Closed0 := boot_closed_esp)) as (? & ? & ? & ? & ?).
  unfold optional_command. intros Hm.
  repeat match type of Hm with
  | (if ?b then _ else _) = _ => destruct b; [injection Hm as <-; solve_closed|]
  end. discriminate.
Qed.
Lemma cl_byte_command c m : byte_command c = Some m -> P _ m.
Proof.
  destruct (cl_esp_usb P (Closed0 := boot_closed_esp)) as (? & ? & ? & ? & ?).
  unfold byte_command. intros Hm.
  repeat match type of Hm with
  | (if ?b then _ else _) = _ => destruct b; [injection Hm as <-; solve_closed|]
  end. discriminate.
Qed.

Lemma cl_avr109_command c : P _ (avr109_command c).
Proof.
  destruct (cl_esp_usb P (Closed0 := boot_closed_esp)) as (? & ? & ? & ? & ?).
  unfold avr109_command, set_address.
  destruct (optional_command c) as [m|] eqn:Ho;
    [apply cl_optional_command in Ho; solve_closed|].
  destruct (byte_command c) as [m|] eqn:Hb;
    [apply cl_byte_command in Hb; solve_closed|].
  solve_closed.
Qed.
#[local] Hint Resolve cl_avr109_command : closed_db.

Lemma cl_AVR109_programmer : P _ AVR109_programmer.
Proof.
  destruct (cl_esp_usb P (Closed0 := boot_closed_esp)) as (? & ? & ? & ? & ?).
  unfold AVR109_programmer, avr109_step. solve_closed.
Qed.
#[local] Hint Resolve cl_AVR109_programmer : closed_db.

Lemma cl_run_tasks : P _ run_tasks.
Proof.
  destruct (cl_esp_usb P (Closed0 := boot_closed_esp)) as (? & ? & ? & ? & ?).
  pose proof (cl_ESP8266_programmer P (Closed0 := boot_closed_esp)).
  pose proof (cl_led_task P (Closed0 := boot_closed_esp)).
  pose proof (cl_putch P (Closed0 := boot_closed_esp)).
  unfold run_tasks, CDC_Task, cdc_command, buffer_nonempty, buffer_next. solve_closed.
Qed.

Lemma cl_rstat : P _ rstat.
Proof. unfold rstat. fw_unfold. solve_closed. Qed.
#[local] Hint Resolve cl_run_tasks cl_rstat : closed_db.

Lemma cl_check_reset k : P _ (check_reset k).
Proof. unfold check_reset. solve_closed. Qed.
#[local] Hint Resolve cl_check_reset : closed_db.

Lemma cl_setup_hardware : P _ setup_hardware.
Proof.
  pose proof (cl_ConfigureEndpoint_usb P (Closed0 := boot_closed_usb)).
  unfold setup_hardware, USB_Init, USB_ResetInterface, USB_Init_Device,
    USB_INT_DisableAllInterrupts, USB_INT_ClearAllInterrupts, USB_Controller_Reset,
    USB_CLK_Unfreeze, USB_PLL_Off, USB_OTGPAD_On, USB_REG_On, USB_REG_Off, USB_Attach,
    USB_Device_SetLowSpeed, USB_Device_SetFullSpeed, USB_INT_Enable, USB_INT_Clear.
  fw_unfold. solve_closed.
Qed.
#[local] Hint Resolve cl_setup_hardware : closed_db.

Lemma cl_select_boot_mode : P _ select_boot_mode.
Proof.
  pose proof (cl_reset_esp_and_wait P (Closed0 := boot_closed_esp)).
  unfold select_boot_mode. solve_closed.
Qed.
#[local] Hint Resolve cl_select_boot_mode : closed_db.

(** [main], given the same of the one function that leaves the firmware. *)
Lemma cl_main : P _ start_sketch -> P _ main.
Proof. intros. unfold main, bootloader_loop, USB_Detach. fw_unfold. solve_closed. Qed.
End MainFrame.

Lemma cl_start_sketch {B : Board} {V : Vectors} P `{!Closed boot_fp P} : P _ start_sketch.
Proof. unfold start_sketch. fw_unfold. solve_closed. Qed.

Lemma tasks_le_boot : fp_le tasks_fp boot_fp.
Proof. solve_fp_le. Qed.
