(* ===== verification/Programming.v ===== *)
(** * Flash programming over the AVR109 protocol

    The programmer is verified against two interfaces:
    - [SpmBoard]: the documented self-programming behaviour of the
      microcontroller (page erase, temporary page buffer, page write, read-while-
      write section);
    - [LinkOk]: the byte link delivers the bytes of the host in order and sends
      the answers in order, and does not touch the programmer's state. *)

From Stdlib Require Import Strings.Ascii.
From S2P Require Import Prelude Machine Logic Endpoint UsbDevice Descriptors Bootloader Avr109.

(** ** Self-programming memory *)

Record spm := mkSpm {
  sp_flash : Z -> Z;   (** flash contents by byte address *)
  sp_tmp : Z -> Z;     (** temporary page buffer by word index *)
  sp_rww : bool        (** the application section can be read *)
}.

Definition page (a : Z) : Z := a / SPM_PAGESIZE.
Definition tmp_word (a : Z) : Z := (a mod SPM_PAGESIZE) / 2.
Definition tmp_byte (t : Z -> Z) (a : Z) : Z :=
  let w := t (tmp_word a) in if a mod 2 =? 0 then w mod 256 else (w / 256) mod 256.

Definition spm_step (o : avr_op) (m : spm) : spm :=
  match o with
  | boot_page_erase a =>
      mkSpm (fun x => if page x =? page a then 255 else sp_flash m x) (sp_tmp m) false
  | boot_page_fill a w =>
      mkSpm (sp_flash m) (fun i => if i =? tmp_word a then w else sp_tmp m i) (sp_rww m)
  | boot_page_write a =>
      mkSpm (fun x => if page x =? page a then Z.land (sp_flash m x) (tmp_byte (sp_tmp m) x)
                      else sp_flash m x) (fun _ => 0xFFFF) false
  | boot_rww_enable | boot_rww_enable_safe => mkSpm (sp_flash m) (fun _ => 0xFFFF) true
  | _ => m
  end.

Class SpmBoard (B : Board) := {
  spm_of : hw -> spm;
  spm_of_read r h : spm_of (io_read r h).2 = spm_of h;
  spm_of_write r v h : spm_of (io_write r v h) = spm_of h;
  spm_of_irqs h : spm_of (irqs h).2 = spm_of h;
  spm_of_avr o h : spm_of (avr o h) = spm_step o (spm_of h);
  spm_pgm a h : sp_rww (spm_of h) = true -> 0 <= a < 32768 -> pgm_byte a h = sp_flash (spm_of h) a
}.

(** ** What the programmer expects of the link *)

(** The variables of the programmers that use the link. *)
Definition client_var (x : var) : bool :=
  match x with CurrAddress | boot_mode | rts_pulse => true | _ => false end.

Section Interface.
Context {B : Board} {V : Vectors} {L : Link} {SP : SpmBoard B}.

Definition spm_at (s : state) : spm := spm_of (world s).

(** The variables of the programmers and the flash are as before. *)
Definition quiet (s s' : state) : Prop :=
  (forall x, client_var x = true -> var_of x s' = var_of x s) /\ spm_at s' = spm_at s.

Class LinkOk := {
  rx : state -> list Z;    (** bytes of the host still to be read *)
  tx : state -> list Z;    (** bytes sent to the host *)
  up : state -> Prop;      (** the link is up *)
  lk_fuel : nat;

  rx_upd x v s : x <> USB_DeviceState -> rx (upd x v s) = rx s;
  tx_upd x v s : x <> USB_DeviceState -> tx (upd x v s) = tx s;
  up_upd x v s : client_var x = true -> up s -> up (upd x v s);
  up_timeout v s : TICKS_MS 500 <= v < 256 -> up s -> up (upd Timeout v s);

  lk_read_ok n s b l : (lk_fuel <= n)%nat -> up s -> rx s = b :: l ->
    exists s', lk_read n s = Ok b s' /\ up s' /\ rx s' = l /\ tx s' = tx s /\ quiet s s';
  lk_write_ok n s b : (lk_fuel <= n)%nat -> up s ->
    exists s', lk_write b n s = Ok tt s' /\
      up s' /\ rx s' = rx s /\ tx s' = tx s ++ [b] /\ quiet s s';
  lk_flush_ok n s : (lk_fuel <= n)%nat -> up s ->
    exists s', lk_flush n s = Ok tt s' /\ up s' /\ rx s' = rx s /\ tx s' = tx s /\ quiet s s';
  lk_timer_ok n s v : (lk_fuel <= n)%nat -> up s ->
    exists s', wr TIMSK1 v n s = Ok tt s' /\
      up s' /\ rx s' = rx s /\ tx s' = tx s /\ quiet s s';
  lk_call_ok n s o : (lk_fuel <= n)%nat -> up s ->
    exists s', call o n s = Ok tt s' /\ up s' /\ rx s' = rx s /\ tx s' = tx s /\
      (forall x, client_var x = true -> var_of x s' = var_of x s) /\
      spm_at s' = spm_step o (spm_at s)
}.
End Interface.

(** ** Specification of a page write *)

(** The word fills issued for a run of data bytes. *)
Fixpoint fills (a : Z) (HighByte : bool) (lo : Z) (data : list Z) : list (Z * Z) :=
  match data with
  | [] => []
  | b :: d =>
      if HighByte then (a, lo + 256 * b) :: fills (a + 2) false lo d
      else fills a true b d
  end.

Definition do_fills (l : list (Z * Z)) (m : spm) : spm :=
  fold_left (fun m p => spm_step (boot_page_fill p.1 p.2) m) l m.

(** Length of the data that ends in flash: a last odd byte is lost. *)
Definition whole (n : nat) : Z := 2 * (Z.of_nat n / 2).

Definition page_with (a : Z) (data : list Z) (f : Z -> Z) (x : Z) : Z :=
  if page x =? page a then
    (if x - a <? whole (length data) then nth (Z.to_nat (x - a)) data 0 else 255)
  else f x.

Lemma word_of_bytes lo hi :
  is_u8 lo -> is_u8 hi -> u16 (Z.lor (s16 (Z.shiftl hi 8)) lo) = lo + 256 * hi.
Proof.
  unfold is_u8. intros Hlo Hhi. unfold u16, s16.
  rewrite Z.shiftl_mul_pow2 by lia. change (2 ^ 8) with 256.
  set (q := if hi <? 128 then hi else hi - 256).
  replace ((hi * 256 + 32768) mod 65536 - 32768) with (q * 256)
    by (unfold q; destruct (Z.ltb_spec hi 128); mlia).
  change 256 with (2 ^ 8) at 1. rewrite <- Z.shiftl_mul_pow2 by lia.
  rewrite (lor_disjoint_add q lo 8) by (simpl; lia). change (2 ^ 8) with 256.
  unfold q. destruct (Z.ltb_spec hi 128); mlia.
Qed.

Section DoFills.
(** The temporary buffer after filling from a page start. *)
Lemma do_fills_flash l m : sp_flash (do_fills l m) = sp_flash m.
Proof. revert m. induction l as [|[a w] l IH]; intros m; simpl; [done|]. by rewrite IH. Qed.

Lemma do_fills_tmp n : forall a lo data m i,
  (length data <= n)%nat ->
  a mod 2 = 0 -> a mod SPM_PAGESIZE + Z.of_nat (length data) <= SPM_PAGESIZE ->
  sp_tmp (do_fills (fills a false lo data) m) i =
  let k := i - tmp_word a in
  if (0 <=? k) && (2 * k + 1 <? Z.of_nat (length data))
  then nth (Z.to_nat (2 * k)) data 0 + 256 * nth (Z.to_nat (2 * k + 1)) data 0
  else sp_tmp m i.
Proof.
  induction n as [|n IH]; intros a lo data m i Hn Ha Hp;
    (destruct data as [|b0 [|b1 d]];
     [cbv zeta; cbn [length fills]; destruct (_ && _) eqn:E; [lia|done]
     |cbv zeta; cbn [length fills]; destruct (_ && _) eqn:E; [lia|done]|]); [simpl in Hn; lia|].
  cbv zeta. simpl fills. unfold do_fills. simpl fold_left. fold (do_fills (fills (a + 2) false b0 d)).
  destruct d as [|b2 d].
  { cbn [fills fold_left length sp_tmp spm_step fst snd].
    destruct (Z.eqb_spec i (tmp_word a)) as [->|Hne].
    - rewrite Z.sub_diag. reflexivity.
    - destruct ((0 <=? _) && _) eqn:E; [lia|done]. }
  unfold do_fills in *.
  rewrite IH; [|simpl in *; lia|mlia|unfold SPM_PAGESIZE in *; simpl length in *; mlia].
  cbv zeta. simpl sp_tmp.
  assert (tmp_word (a + 2) = tmp_word a + 1) as ->.
  { unfold tmp_word, SPM_PAGESIZE in *. simpl length in *. mlia. }
  set (k := i - tmp_word a). replace (i - (tmp_word a + 1)) with (k - 1) by lia.
  set (d' := b2 :: d) in *.
  assert (Z.of_nat (length (b0 :: b1 :: d')) = Z.of_nat (length d') + 2) as -> by (simpl; lia).
  destruct (decide (k = 0)) as [Hk|Hk].
  - replace i with (tmp_word a) by lia. rewrite Z.eqb_refl, Hk.
    rewrite !(proj2 (Z.ltb_lt _ _)) by (simpl length; lia). reflexivity.
  - destruct (Z.eqb_spec i (tmp_word a)); [lia|].
    destruct ((0 <=? k - 1) && _) eqn:E1.
    + rewrite (proj2 (andb_true_iff _ _)) by lia.
      replace (Z.to_nat (2 * k)) with (S (S (Z.to_nat (2 * (k - 1))))) by lia.
      replace (Z.to_nat (2 * k + 1)) with (S (S (Z.to_nat (2 * (k - 1) + 1)))) by lia.
      reflexivity.
    + destruct ((0 <=? k) && _) eqn:E2; [lia|done].
Qed.

Lemma nth_u8 i (l : list Z) : Forall is_u8 l -> is_u8 (nth i l 0).
Proof.
  intros Hl. revert i. induction Hl as [|b l Hb _ IH]; intros [|i]; simpl; try done;
    unfold is_u8; lia.
Qed.

(** Erase, fill and write of one page leave exactly the data in flash. *)
Lemma spm_write_page a data m x :
  a mod SPM_PAGESIZE = 0 -> Z.of_nat (length data) <= SPM_PAGESIZE -> Forall is_u8 data ->
  (forall i, sp_tmp m i = 0xFFFF) ->
  sp_flash (spm_step (boot_page_write a)
              (do_fills (fills a false 0 data) (spm_step (boot_page_erase a) m))) x =
  page_with a data (sp_flash m) x.
Proof.
  intros Ha Hl Hd Ht. unfold page_with. cbn [spm_step sp_flash].
  rewrite do_fills_flash. cbn [spm_step sp_flash].
  destruct (Z.eqb_spec (page x) (page a)) as [Hp|]; [|done].
  unfold tmp_byte.
  rewrite (do_fills_tmp (length data)) by (unfold SPM_PAGESIZE in *; mlia || done).
  cbn [spm_step sp_tmp]. rewrite Ht. cbv zeta. unfold page, tmp_word, whole, SPM_PAGESIZE in *.
  set (k := (x mod 128) / 2 - a mod 128 / 2).
  assert (0 <= x - a < 128 /\ k = (x - a) / 2) as [Hx Hk] by (unfold k; mlia).
  destruct ((0 <=? k) && (2 * k + 1 <? Z.of_nat (length data))) eqn:E.
  - rewrite (proj2 (Z.ltb_lt (x - a) _)) by mlia.
    pose proof (nth_u8 (Z.to_nat (2 * k)) data Hd) as H0.
    pose proof (nth_u8 (Z.to_nat (2 * k + 1)) data Hd) as H1.
    unfold is_u8 in H0, H1.
    destruct (Z.eqb_spec (x mod 2) 0) as [Hm|Hm].
    + replace (x - a) with (2 * k) by mlia.
      rewrite land_255; unfold is_u8; [|mlia]. mlia.
    + replace (x - a) with (2 * k + 1) by mlia.
      rewrite land_255; unfold is_u8; [|mlia]. mlia.
  - rewrite (proj2 (Z.ltb_ge (x - a) _)) by mlia.
    by destruct (x mod 2 =? 0).
Qed.
End DoFills.

(** ** The block commands *)

Section Blocks.
Context {B : Board} {V : Vectors} {L : Link} {SP : SpmBoard B} {LK : LinkOk}.

(** Outcome of a run of the programmer: the link is still up, these bytes are
    left, these were sent, the address and the memory are these. *)
Record after (r t : list Z) (a bm : Z) (m : spm) (s : state) : Prop := mkAfter {
  af_up : up s;
  af_rx : rx s = r;
  af_tx : tx s = t;
  af_addr : var_of CurrAddress s = a;
  af_mode : var_of boot_mode s = bm;
  af_spm : spm_at s = m
}.

Lemma after_start s :
  up s -> after (rx s) (tx s) (var_of CurrAddress s) (var_of boot_mode s) (spm_at s) s.
Proof. by split. Qed.

Lemma after_quiet r t a bm m s r' t' s' :
  after r t a bm m s -> up s' -> rx s' = r' -> tx s' = t' -> quiet s s' ->
  after r' t' a bm m s'.
Proof.
  intros [] Hu Hr Ht [Hv Hs]. split; try done.
  - by rewrite Hv.
  - by rewrite Hv.
  - by rewrite Hs.
Qed.

Lemma run_read n r t a bm m s b :
  (lk_fuel <= n)%nat -> after (b :: r) t a bm m s ->
  exists s', lk_read n s = Ok b s' /\ after r t a bm m s'.
Proof.
  intros Hn Ha. destruct (lk_read_ok n s b r Hn (af_up _ _ _ _ _ _ Ha) (af_rx _ _ _ _ _ _ Ha))
    as (s' & Hr & Hu & Hrx & Htx & Hq).
  exists s'. split; [done|]. eapply after_quiet; eauto. rewrite Htx. apply Ha.
Qed.

Lemma run_write n r t a bm m s b :
  (lk_fuel <= n)%nat -> after r t a bm m s ->
  exists s', lk_write b n s = Ok tt s' /\ after r (t ++ [b]) a bm m s'.
Proof.
  intros Hn Ha. destruct (lk_write_ok n s b Hn (af_up _ _ _ _ _ _ Ha))
    as (s' & Hr & Hu & Hrx & Htx & Hq).
  exists s'. split; [done|]. eapply after_quiet; eauto.
  - rewrite Hrx. apply Ha.
  - rewrite Htx. f_equal. apply Ha.
Qed.

Lemma run_flush n r t a bm m s :
  (lk_fuel <= n)%nat -> after r t a bm m s ->
  exists s', lk_flush n s = Ok tt s' /\ after r t a bm m s'.
Proof.
  intros Hn Ha. destruct (lk_flush_ok n s Hn (af_up _ _ _ _ _ _ Ha))
    as (s' & Hr & Hu & Hrx & Htx & Hq).
  exists s'. split; [done|].
  eapply after_quiet; eauto; [rewrite Hrx|rewrite Htx]; apply Ha.
Qed.

Lemma run_timer n r t a bm m s v :
  (lk_fuel <= n)%nat -> after r t a bm m s ->
  exists s', wr TIMSK1 v n s = Ok tt s' /\ after r t a bm m s'.
Proof.
  intros Hn Ha. destruct (lk_timer_ok n s v Hn (af_up _ _ _ _ _ _ Ha))
    as (s' & Hr & Hu & Hrx & Htx & Hq).
  exists s'. split; [done|].
  eapply after_quiet; eauto; [rewrite Hrx|rewrite Htx]; apply Ha.
Qed.

Lemma run_call n r t a bm m s o :
  (lk_fuel <= n)%nat -> after r t a bm m s ->
  exists s', call o n s = Ok tt s' /\ after r t a bm (spm_step o m) s'.
Proof.
  intros Hn Ha. destruct (lk_call_ok n s o Hn (af_up _ _ _ _ _ _ Ha))
    as (s' & Hr & Hu & Hrx & Htx & Hv & Hs).
  exists s'. split; [done|]. destruct Ha as [_ H1 H2 H3 H4 H5].
  split; rewrite ?Hrx, ?Htx, ?Hs, ?Hv by done; by rewrite ?H5.
Qed.

Lemma run_get_addr n r t a bm m s :
  after r t a bm m s -> get CurrAddress n s = Ok a s.
Proof. intros Ha. unfold get. by rewrite (af_addr _ _ _ _ _ _ Ha). Qed.

Lemma var_of_upd_eq x v s : var_of x (upd x v s) = wrap (var_width x) v.
Proof. unfold var_of, upd. simpl. by rewrite lookup_total_insert_eq. Qed.
Lemma var_of_upd_ne x y v s : x <> y -> var_of y (upd x v s) = var_of y s.
Proof. intros. unfold var_of, upd. simpl. by rewrite lookup_total_insert_ne. Qed.

Lemma run_put_addr r t a bm m s v :
  is_u32 v -> after r t a bm m s -> after r t v bm m (upd CurrAddress v s).
Proof.
  intros Hv []. split; rewrite ?rx_upd, ?tx_upd by done; try done.
  - by apply up_upd.
  - rewrite var_of_upd_eq. by apply u32_id.
  - by rewrite var_of_upd_ne.
Qed.
Lemma run_put_mode r t a bm m s v :
  is_u8 v -> after r t a bm m s -> after r t a v m (upd boot_mode v s).
Proof.
  intros Hv []. split; rewrite ?rx_upd, ?tx_upd by done; try done.
  - by apply up_upd.
  - by rewrite var_of_upd_ne.
  - rewrite var_of_upd_eq. by apply u8_id.
Qed.
Lemma run_put_timeout r t a bm m s v :
  TICKS_MS 500 <= v < 256 -> after r t a bm m s -> after r t a bm m (upd Timeout v s).
Proof.
  intros Hv []. split; rewrite ?rx_upd, ?tx_upd by done; try done.
  - by apply up_timeout.
  - by rewrite var_of_upd_ne.
  - by rewrite var_of_upd_ne.
Qed.

(** One step of a run: execute the first statement of the sequence. *)
Ltac run H :=
  unfold bind at 1;
  lazymatch goal with
  | |- context [match lk_read ?n ?s with _ => _ end] =>
      let s' := fresh "s" in let E := fresh "E" in let H' := fresh H in
      edestruct (run_read n) as (s' & E & H'); [eassumption|exact H|];
      rewrite E; clear E H; rename H' into H
  | |- context [match lk_write ?b ?n ?s with _ => _ end] =>
      let s' := fresh "s" in let E := fresh "E" in let H' := fresh H in
      edestruct (run_write n) as (s' & E & H'); [eassumption|exact H|];
      rewrite E; clear E H; rename H' into H
  | |- context [match call ?o ?n ?s with _ => _ end] =>
      let s' := fresh "s" in let E := fresh "E" in let H' := fresh H in
      edestruct (run_call n) as (s' & E & H'); [eassumption|exact H|];
      rewrite E; clear E H; rename H' into H
  | |- context [match wr TIMSK1 ?v ?n ?s with _ => _ end] =>
      let s' := fresh "s" in let E := fresh "E" in let H' := fresh H in
      edestruct (run_timer n) as (s' & E & H'); [eassumption|exact H|];
      rewrite E; clear E H; rename H' into H
  | |- context [match get CurrAddress ?n ?s with _ => _ end] =>
      rewrite (run_get_addr n _ _ _ _ _ _ H)
  end.

Lemma run_header n hi lo ty r t a bm m s :
  (lk_fuel <= n)%nat -> is_u8 hi -> is_u8 lo ->
  after (hi :: lo :: ty :: r) t a bm m s ->
  exists s', read_block_header n s = Ok (lo + 256 * hi, ty) s' /\ after r t a bm m s'.
Proof.
  intros Hn Hhi Hlo H. unfold read_block_header.
  run H. run H. run H. eexists. split; [|exact H]. unfold ret. f_equal. f_equal.
  unfold is_u8, u16, s16 in *.
  replace (((Z.shiftl hi 8 + 32768) mod 65536 - 32768) mod 65536) with (Z.shiftl hi 8)
    by (rewrite Z.shiftl_mul_pow2 by lia; change (2 ^ 8) with 256; mlia).
  rewrite (lor_disjoint_add hi lo 8) by (simpl; lia). change (2 ^ 8) with 256. lia.
Qed.

Lemma run_write_flash n data : forall h lo r t a bm m s,
  (lk_fuel <= n)%nat -> Forall is_u8 data -> is_u8 lo ->
  0 <= a -> a + 2 * Z.of_nat (length data) < 4294967296 ->
  after (data ++ r) t a bm m s ->
  exists s', write_flash_block (length data) h lo n s = Ok tt s' /\
    after r t (a + 2 * ((Z.of_nat (length data) + b2z h) / 2)) bm
      (do_fills (fills a h lo data) m) s'.
Proof.
  induction data as [|b data IH]; intros h lo r t a bm m s Hn Hd Hlo Ha Hl H.
  { exists s. split; [done|]. simpl. replace (a + 2 * _) with a by (destruct h; simpl; mlia).
    exact H. }
  inversion_clear Hd as [|? ? Hb Hd']. simpl length in *. simpl app in H.
  destruct h; simpl write_flash_block.
  - run H. run H. run H.
    rewrite word_of_bytes in H by done.
    unfold bind at 1, put at 1.
    apply (run_put_addr _ _ _ _ _ _ (a + 2)) in H; [|unfold is_u32; lia].
    edestruct (IH false lo) as (s' & Hs & Haf); [done|done|done| | |exact H|]; [lia|lia|].
    exists s'. split; [exact Hs|].
    replace (a + 2 * ((Z.of_nat (S (length data)) + b2z true) / 2))
      with (a + 2 + 2 * ((Z.of_nat (length data) + b2z false) / 2)) by (simpl; mlia).
    exact Haf.
  - run H.
    edestruct (IH true b) as (s' & Hs & Haf); [done|done|done| | |exact H|]; [lia|lia|].
    exists s'. split; [exact Hs|].
    replace (Z.of_nat (S (length data)) + b2z false)
      with (Z.of_nat (length data) + b2z true) by (simpl; lia).
    exact Haf.
Qed.

Lemma run_write_block n hi lo data r t a bm m s :
  (lk_fuel <= n)%nat -> is_u8 hi -> is_u8 lo -> Forall is_u8 data ->
  Z.of_nat (length data) = lo + 256 * hi -> 0 <= a < 32768 ->
  after (hi :: lo :: ch "F" :: data ++ r) t a bm m s ->
  exists s', ReadWriteMemoryBlock_minimal (ch "B") n s = Ok tt s' /\
    after r (t ++ [13]) (a + whole (length data)) bm
      (spm_step (boot_page_write a)
         (do_fills (fills a false 0 data) (spm_step (boot_page_erase a) m))) s'.
Proof.
  intros Hn Hhi Hlo Hd Hlen Ha H. unfold ReadWriteMemoryBlock_minimal.
  destruct (run_header n hi lo (ch "F") (data ++ r) t a bm m s Hn Hhi Hlo H) as (st1 & E & H1).
  unfold bind at 1. rewrite E. cbn [negb Z.eqb]. rewrite Z.eqb_refl. cbn [negb].
  run H1. change (ch "B" =? ch "g") with false. cbv iota.
  rewrite <- Hlen, Nat2Z.id. unfold is_u8 in Hhi, Hlo.
  unfold bind at 1. run H1. run H1. run H1.
  edestruct (run_write_flash n data false 0) as (st2 & E2 & H2);
    [done|done|by unfold is_u8| | |exact H1|]; [lia|lia|].
  unfold bind at 1. rewrite E2. clear H1 E2. cbn [b2z] in H2. rewrite Z.add_0_r in H2.
  run H2. run H2.
  destruct (run_write n _ _ _ _ _ _ 13 Hn H2) as (st3 & E3 & H3).
  rewrite E3. clear H2. destruct (run_timer n _ _ _ _ _ _ (bv OCIE1A) Hn H3) as (st4 & E4 & H4).
  rewrite E4. exists st4. split; [done|]. exact H4.
Qed.

Definition flash_bytes (f : Z -> Z) (a : Z) (k : nat) : list Z :=
  map (fun i => u8 (f (a + Z.of_nat i))) (seq 0 k).

Lemma flash_bytes_S f a k : flash_bytes f a (S k) = u8 (f a) :: flash_bytes f (a + 1) k.
Proof.
  unfold flash_bytes. simpl. rewrite Z.add_0_r. f_equal.
  rewrite <- seq_shift, map_map. apply map_ext. intros i. do 2 f_equal. lia.
Qed.

Lemma lor_even_1 a : a mod 2 = 0 -> Z.lor a 1 = a + 1.
Proof.
  intros Ha. replace a with (Z.shiftl (a / 2) 1) at 1.
  - rewrite lor_disjoint_add by (simpl; lia). change (2 ^ 1) with 2. mlia.
  - rewrite Z.shiftl_mul_pow2 by lia. change (2 ^ 1) with 2. mlia.
Qed.

Lemma run_read_flash n k : forall h r t a bm m s,
  (lk_fuel <= n)%nat -> sp_rww m = true -> a mod 2 = 0 ->
  0 <= a -> a + b2z h + Z.of_nat k <= 32768 ->
  after r t a bm m s ->
  exists s', read_flash_block k h n s = Ok tt s' /\
    after r (t ++ flash_bytes (sp_flash m) (a + b2z h) k)
      (a + 2 * ((Z.of_nat k + b2z h) / 2)) bm m s'.
Proof.
  induction k as [|k IH]; intros h r t a bm m s Hn Hw Ha H0 Hk H.
  { exists s. split; [done|]. unfold flash_bytes. simpl. rewrite app_nil_r.
    replace (a + 2 * _) with a by (destruct h; simpl; mlia). exact H. }
  simpl read_flash_block. run H.
  unfold bind at 1, pgm_read_byte at 1.
  assert (Z.lor a (b2z h) = a + b2z h) as ->
    by (destruct h; simpl; [by apply lor_even_1|by rewrite Z.lor_0_r, Z.add_0_r]).
  rewrite spm_pgm; [|fold (spm_at s); by rewrite (af_spm _ _ _ _ _ _ H)|destruct h; simpl in *; lia].
  change (spm_of (world s)) with (spm_at s). rewrite (af_spm _ _ _ _ _ _ H).
  run H. rewrite flash_bytes_S. destruct h; simpl negb; cbn [b2z] in *.
  - unfold bind at 1. run H. unfold put at 1.
    apply (run_put_addr _ _ _ _ _ _ (a + 2)) in H; [|unfold is_u32; lia].
    edestruct (IH false) as (s' & E & H'); [done|exact Hw| | | |exact H|];
      [mlia|lia|simpl; lia|].
    exists s'. split; [exact E|]. rewrite <- app_assoc in H'. simpl in H'.
    replace (a + 2 + 0) with (a + 1 + 1) in H' by lia.
    replace (a + 2 * _) with (a + 2 + 2 * ((Z.of_nat k + 0) / 2)) by mlia. exact H'.
  - unfold bind at 1, ret at 1.
    edestruct (IH true) as (s' & E & H'); [done|exact Hw| | | |exact H|];
      [done|lia|simpl; lia|].
    exists s'. split; [exact E|]. rewrite <- app_assoc in H'. simpl in H'.
    rewrite Z.add_0_r in H' |- *.
    replace (a + 2 * _) with (a + 2 * ((Z.of_nat k + 1) / 2)) by mlia. exact H'.
Qed.

Lemma run_read_block n hi lo r t a bm m s :
  (lk_fuel <= n)%nat -> is_u8 hi -> is_u8 lo -> a mod 2 = 0 -> 0 <= a ->
  a + (lo + 256 * hi) <= 32768 ->
  after (hi :: lo :: ch "F" :: r) t a bm m s ->
  exists s', ReadWriteMemoryBlock_minimal (ch "g") n s = Ok tt s' /\
    after r (t ++ flash_bytes (sp_flash m) a (Z.to_nat (lo + 256 * hi)))
      (a + whole (Z.to_nat (lo + 256 * hi))) bm (spm_step boot_rww_enable m) s'.
Proof.
  intros Hn Hhi Hlo Ha H0 Hk H. unfold ReadWriteMemoryBlock_minimal.
  destruct (run_header n hi lo (ch "F") r t a bm m s Hn Hhi Hlo H) as (st1 & E & H1).
  unfold bind at 1. rewrite E. rewrite Z.eqb_refl. cbn [negb].
  run H1. change (ch "g" =? ch "g") with true. cbv iota. unfold is_u8 in Hhi, Hlo.
  unfold bind at 1. run H1.
  edestruct (run_read_flash n (Z.to_nat (lo + 256 * hi)) false) as (st2 & E2 & H2);
    [done| | | | |exact H1|]; [done|done|done|simpl; lia|].
  rewrite E2. cbn [b2z] in H2. rewrite !Z.add_0_r in H2.
  destruct (run_timer n _ _ _ _ _ _ (bv OCIE1A) Hn H2) as (st4 & E4 & H4).
  rewrite E4. exists st4. split; [done|]. exact H4.
Qed.
End Blocks.
