(* ===== verification/CdcLink.v ===== *)
(** * The byte link over the CDC endpoints

    [CdcBoard] states what the USB controller of the microcontroller does with
    the two CDC data endpoints of a configured device: the host has queued
    packets for the OUT endpoint, the IN endpoint collects bytes in its bank
    and a released bank is taken by the host after some polls: until then it is
    not ready, and what is written to it is lost.  Timer and UART interrupts may
    come at any access ([TickBudget] bounds the timer interrupts of a session, or
    of a round of the bridge, so that [Timeout] does not expire in the middle of
    it); the bus is quiet otherwise (no USB interrupt, no SETUP packet).  Against it, [adelino_link] is proved to implement the interface
    [LinkOk] that the programmer relies on. *)

From Stdlib Require Import Strings.Ascii.
From S2P Require Import Prelude Machine Logic Endpoint UsbDevice Descriptors Bootloader Avr109 Programming.

(** ** The endpoints *)

Record cdc := mkCdc {
  c_sel : Z;                 (** selected endpoint *)
  c_out : list (list Z);     (** packets of the host; the first one is in the bank *)
  c_in : list Z;             (** bank of the IN endpoint *)
  c_sent : list (list Z);    (** packets taken by the host *)
  c_timer : Z;               (** timer 1 interrupt mask *)
  c_busy : nat;              (** polls until the host has taken the bank of the IN endpoint *)
  c_lat : list nat           (** the same for the banks to come; 0 behind the end *)
}.

(** Value read from a register of the endpoints. *)
Definition cdc_val (r : reg) (c : cdc) : option Z :=
  match r with
  | UENUM => Some (c_sel c)
  | UEINTX =>
      Some (if c_sel c =? CDC_RX_EPNUM then
              match c_out c with [] => 0 | _ => Z.lor (bv RXOUTI) (bv FIFOCON) end
            else if c_sel c =? CDC_TX_EPNUM then
              match c_busy c with
              | S _ => 0
              | O => Z.lor (Z.lor (bv TXINI) (bv FIFOCON))
                       (if (length (c_in c) <? Z.to_nat CDC_TXRX_EPSIZE)%nat then bv RWAL else 0)
              end
            else 0)
  | UEBCHX => Some 0
  | UEBCLX =>
      Some (if c_sel c =? CDC_RX_EPNUM then Z.of_nat (length (hd [] (c_out c)))
            else if c_sel c =? CDC_TX_EPNUM then Z.of_nat (length (c_in c)) else 0)
  | UEDATX =>
      Some (if c_sel c =? CDC_RX_EPNUM then hd 0 (hd [] (c_out c)) else 0)
  | _ => None
  end.

(** A poll of the status lets time pass for the IN endpoint. *)
Definition poll_in (c : cdc) : cdc :=
  match c_busy c with
  | S k => if c_sel c =? CDC_TX_EPNUM
           then mkCdc (c_sel c) (c_out c) (c_in c) (c_sent c) (c_timer c) k (c_lat c) else c
  | O => c
  end.
(** Effect of a read: the data register pops the bank of the OUT endpoint. *)
Definition cdc_rd (r : reg) (c : cdc) : cdc :=
  match r with
  | UEDATX =>
      match c_out c with
      | p :: q =>
          if c_sel c =? CDC_RX_EPNUM
          then mkCdc (c_sel c) (tl p :: q) (c_in c) (c_sent c) (c_timer c) (c_busy c) (c_lat c) else c
      | [] => c
      end
  | UEINTX => poll_in c
  | _ => c
  end.
Lemma poll_in_free c : c_busy c = 0%nat -> poll_in c = c.
Proof. unfold poll_in. by intros ->. Qed.
Lemma poll_in_other c : c_sel c <> CDC_TX_EPNUM -> poll_in c = c.
Proof. intros H. unfold poll_in. destruct (c_busy c); [done|]. by rewrite (proj2 (Z.eqb_neq _ _)). Qed.

(** Effect of a write: [FIFOCON] written 0 releases the selected bank. *)
Definition cdc_wr (r : reg) (v : Z) (c : cdc) : cdc :=
  match r with
  | UENUM => mkCdc v (c_out c) (c_in c) (c_sent c) (c_timer c) (c_busy c) (c_lat c)
  | UEINTX =>
      if Z.testbit v FIFOCON then c
      else if c_sel c =? CDC_RX_EPNUM
      then mkCdc (c_sel c) (tl (c_out c)) (c_in c) (c_sent c) (c_timer c) (c_busy c) (c_lat c)
      else if c_sel c =? CDC_TX_EPNUM
      then match c_busy c with
           | O => mkCdc (c_sel c) (c_out c) [] (c_sent c ++ [c_in c]) (c_timer c) (hd 0%nat (c_lat c)) (tl (c_lat c))
           | S _ => c
           end
      else c
  | UEDATX =>
      if c_sel c =? CDC_TX_EPNUM
      then match c_busy c with
           | O => mkCdc (c_sel c) (c_out c) (c_in c ++ [v]) (c_sent c) (c_timer c) 0 (c_lat c)
           | S _ => c
           end
      else c
  | TIMSK1 => mkCdc (c_sel c) (c_out c) (c_in c) (c_sent c) v (c_busy c) (c_lat c)
  | _ => c
  end.

Lemma c_timer_rd r c : c_timer (cdc_rd r c) = c_timer c.
Proof. destruct r; try reflexivity; simpl; unfold poll_in; repeat case_match; reflexivity. Qed.
Lemma c_timer_wr r v c : r <> TIMSK1 -> c_timer (cdc_wr r v c) = c_timer c.
Proof.
  intros Hr. destruct r; try reflexivity; try congruence; simpl;
    repeat case_match; reflexivity.
Qed.

Fixpoint timer_irqs (l : list irq) : Z :=
  match l with
  | [] => 0
  | i :: l' => b2z (bool_decide (i = TIMER1_COMPA)) + timer_irqs l'
  end.

Class CdcBoard (B : Board) := {
  cdc_of : hw -> cdc;
  cdc_latency : nat;   (** polls that the host takes at most to fetch a packet *)
  cdc_of_val r h v : cdc_val r (cdc_of h) = Some v -> (io_read r h).1 = v;
  cdc_of_read r h : cdc_of (io_read r h).2 = cdc_rd r (cdc_of h);
  cdc_of_write r v h : cdc_of (io_write r v h) = cdc_wr r v (cdc_of h);
  cdc_of_avr o h : cdc_of (avr o h) = cdc_of h;
  cdc_of_irqs h : cdc_of (irqs h).2 = cdc_of h;
  cdc_no_usb h : USB_GEN ∉ (irqs h).1;
  cdc_masked h : c_timer (cdc_of h) = 0 -> TIMER1_COMPA ∉ (irqs h).1
}.

(** Only so many timer interrupts are still to come, in a session, or until the status
    of the UART is polled the next time (once in each round of the bridge).  Without
    [budget] nothing is promised. *)
Class TickBudget (B : Board) := {
  budget : Prop;
  ticks_of : hw -> Z;
  ticks_nonneg h : 0 <= ticks_of h;
  ticks_read r h : budget -> r <> UCSR1A -> ticks_of (io_read r h).2 <= ticks_of h;
  ticks_poll h : budget -> ticks_of (io_read UCSR1A h).2 <= Z.max (ticks_of h) (USB_COMM_TIMEOUT - 1);
  ticks_write r v h : budget -> ticks_of (io_write r v h) <= ticks_of h;
  ticks_avr o h : budget -> ticks_of (avr o h) <= ticks_of h;
  ticks_irqs h : budget -> timer_irqs (irqs h).1 + ticks_of (irqs h).2 <= ticks_of h
}.
Definition no_budget (B : Board) : TickBudget B.
Proof. refine {| budget := False; ticks_of := fun _ => 0 |}; done. Defined.

Section CdcLink.
Context {B : Board} {SP : SpmBoard B} {CB : CdcBoard B} {TK : TickBudget B} {I : BuildIds}.
#[local] Existing Instance adelino_vectors.
#[local] Existing Instance adelino_link.
#[local] Existing Instance adelino_app.

Definition cdc_at (s : state) : cdc := cdc_of (world s).

Definition ticks_at (s : state) : Z := ticks_of (world s).

(** The host is served before [Timeout] can run out. *)
Definition live (k : Z) (s : state) : Prop := budget /\ k + ticks_at s < var_of Timeout s < 256.

(** State [s] in a run that started in [s0], with [k] timer interrupts about
    to be served: endpoints [c], the variables of the programmer, the USB
    state and the flash as in [s0].  When [frozen], the timer is masked and
    [Timeout] is as in [s0] too. *)
Record lkst_k (frozen : bool) (k : Z) (s0 : state) (c : cdc) (s : state) : Prop := mkLkst {
  lk_cdc : cdc_at s = c;
  lk_quiet : quiet s0 s;
  lk_state : var_of USB_DeviceState s = var_of USB_DeviceState s0;
  lk_frozen : frozen = true -> c_timer c = 0 /\ var_of Timeout s = var_of Timeout s0;
  lk_ticks : budget -> k + ticks_at s <= ticks_at s0;
  lk_live : live 0 s0 -> live k s
}.
Abbreviation lkst fz := (lkst_k fz 0).

Lemma lkst_start s : lkst false s (cdc_at s) s.
Proof. by split. Qed.

Lemma lkst_start_frozen s : c_timer (cdc_at s) = 0 -> lkst true s (cdc_at s) s.
Proof. by split. Qed.

Lemma lkst_iflag fz k s0 c s b : lkst_k fz k s0 c s -> lkst_k fz k s0 c (set_iflag b s).
Proof. intros [? [? ?] ? ? ? ?]. by split. Qed.

Lemma lkst_step fz k s0 c s e h :
  cdc_of h = cdc_at s -> spm_of h = spm_at s -> (budget -> ticks_of h <= ticks_at s) ->
  lkst_k fz k s0 c s -> lkst_k fz k s0 c (step_hw e h s).
Proof.
  intros Hc Hs Ht [? [? ?] ? ? Hk Hl]. split; [|split| | | |]; try done.
  - etrans; [exact Hc|done].
  - etrans; [exact Hs|done].
  - intros Hb. specialize (Ht Hb). specialize (Hk Hb). unfold ticks_at in *. simpl. lia.
  - intros Hz. specialize (Hl Hz). destruct Hl as [Hb Hl]. specialize (Ht Hb). split; [done|]. unfold ticks_at, var_of in *. simpl. lia.
Qed.

Lemma lkst_upd fz k s0 c s x v :
  client_var x = false -> x <> USB_DeviceState -> x <> Timeout ->
  lkst_k fz k s0 c s -> lkst_k fz k s0 c (upd x v s).
Proof.
  intros Hx Hd Ht [H1 [H2 H3] H4 H5 H6 H7]. split; [done|split| | | |]; try done.
  - intros y Hy. rewrite var_of_upd_ne; [by apply H2|]. intros ->. congruence.
  - by rewrite var_of_upd_ne.
  - intros Hf. destruct (H5 Hf). split; [done|]. by rewrite var_of_upd_ne.
  - intros H0. unfold live. rewrite var_of_upd_ne by done. by apply H7.
Qed.

Lemma lkst_upd_obj fz k s0 c s o l : lkst_k fz k s0 c s -> lkst_k fz k s0 c (upd_obj o l s).
Proof. intros [? [? ?] ? ? ? ?]. by split. Qed.

(** The tick of the timer interrupt. *)
Lemma lkst_tick k s0 c s :
  lkst_k false (1 + k) s0 c s -> 0 <= k -> var_of Timeout s <> 0 ->
  lkst_k false k s0 c (upd Timeout (var_of Timeout s - 1) s).
Proof.
  intros [H1 [H2 H3] H4 H5 H6 H7] Hk Hz. split; [done|split| | | |]; try done.
  - intros y Hy. rewrite var_of_upd_ne; [by apply H2|]. by intros <-.
  - by rewrite var_of_upd_ne.
  - intros Hb. specialize (H6 Hb). unfold ticks_at in *. simpl. lia.
  - intros H0. specialize (H7 H0). unfold live in *. destruct H7 as [Hb H7]. split; [done|]. rewrite var_of_upd_eq.
    pose proof (ticks_nonneg (world s)).
    change (ticks_at (upd _ _ s)) with (ticks_at s). unfold ticks_at, wrap, var_width in *.
    rewrite Z.mod_small by lia. lia.
Qed.

Lemma lkst_slack fz k k' s0 c s : k <= k' -> lkst_k fz k' s0 c s -> lkst_k fz k s0 c s.
Proof.
  intros Hk [H1 H2 H4 H5 H6 H7]. split; try done; [intros Hb; specialize (H6 Hb); lia|].
  intros H0. specialize (H7 H0). unfold live in *. split; [apply H7|lia].
Qed.

(** ** Interrupts *)

Lemma run_isr fz k s0 c n s i :
  i <> USB_GEN -> (i = TIMER1_COMPA -> fz = false) -> 0 <= k ->
  lkst_k fz (b2z (bool_decide (i = TIMER1_COMPA)) + k) s0 c s ->
  exists s', serve i n s = Ok tt s' /\ lkst_k fz k s0 c s'.
Proof.
  intros Hu Ht Hk Hs. unfold serve, bind, isr, adelino_vectors, adelino_isr.
  assert (forall e b, lkst_k fz (b2z (bool_decide (i = TIMER1_COMPA)) + k) s0 c
                        (set_iflag b (step_hw e (world s) s))) as H0.
  { intros. by apply lkst_iflag, lkst_step. }
  destruct i; [| |done].
  - specialize (Ht eq_refl). subst fz.
    unfold TIMER1_COMPA_vect, bind, get, put, ret.
    generalize (H0 (EIrq TIMER1_COMPA) false). clear Hs H0.
    generalize (set_iflag false (step_hw (EIrq TIMER1_COMPA) (world s) s)) as s1.
    rewrite bool_decide_eq_true_2 by done. cbn [b2z]. intros s1 H1.
    destruct (truth (var_of leds_enabled _)).
    + set (s2 := upd led_counter _ s1).
      assert (lkst_k false (1 + k) s0 c s2) as H2 by (by apply lkst_upd). clearbody s2.
      destruct (truth (var_of Timeout s2)) eqn:Et; eexists; (split; [reflexivity|]);
        apply lkst_iflag; [apply lkst_tick; [done|done|]|eapply lkst_slack; [|exact H2]; lia].
      intros E. by rewrite E in Et.
    + destruct (truth (var_of Timeout s1)) eqn:Et; eexists; (split; [reflexivity|]);
        apply lkst_iflag; [apply lkst_tick; [done|done|]|eapply lkst_slack; [|exact H1]; lia].
      intros E. by rewrite E in Et.
  - unfold USART1_RX_vect, rd, poll, bind, rd_raw, get, get_obj, put_obj, put, ret.
    cbn [iflag set_iflag world step_hw].
    rewrite bool_decide_eq_false_2 in H0 by done. cbn [b2z] in H0. rewrite Z.add_0_l in H0.
    pose proof (cdc_of_read UDR1 (world s)) as Hc. pose proof (spm_of_read UDR1 (world s)) as Hp.
    pose proof (fun Hb => ticks_read UDR1 (world s) Hb ltac:(discriminate)) as Hk'.
    destruct (io_read UDR1 (world s)) as [v h]; cbn [snd] in *.
    set (s1 := step_hw (ERd UDR1 (u8 v)) h _).
    assert (lkst_k fz k s0 c s1) as H1.
    { apply lkst_step; [exact Hc|exact Hp|exact Hk'|apply H0]. }
    clearbody s1. destruct (_ =? _); (eexists; split; [reflexivity|]); apply lkst_iflag; [done|].
    apply lkst_upd; [done|done|done|]. by apply lkst_upd_obj.
Qed.

Lemma timer_irqs_nonneg l : 0 <= timer_irqs l.
Proof. induction l as [|i l IH]; simpl; [done|]. destruct (bool_decide _); simpl; lia. Qed.

Lemma run_poll fz s0 c n s :
  lkst fz s0 c s -> exists s', poll n s = Ok tt s' /\ lkst fz s0 c s'.
Proof.
  intros Hs. unfold poll. destruct (iflag s); [|by exists s].
  pose proof (cdc_of_irqs (world s)) as Hc. pose proof (spm_of_irqs (world s)) as Hp.
  pose proof (cdc_no_usb (world s)) as Hu. pose proof (cdc_masked (world s)) as Hm.
  pose proof (ticks_irqs (world s)) as Hk.
  destruct (irqs (world s)) as [l h]; cbn [fst snd] in *.
  assert (fz = true -> TIMER1_COMPA ∉ l) as Ht.
  { intros Hf. apply Hm. destruct (lk_frozen _ _ _ _ _ Hs Hf) as [Hz _].
    by rewrite <- (lk_cdc _ _ _ _ _ Hs) in Hz. }
  assert (lkst_k fz (timer_irqs l) s0 c (set_world h s)) as H1.
  { destruct Hs as [H1 [H2 H3] H4 H5 H6 H7]. split; [|split| | | |]; try done.
    - etrans; [exact Hc|done].
    - etrans; [exact Hp|done].
    - intros Hb. specialize (H6 Hb). specialize (Hk Hb). unfold ticks_at in *. simpl. lia.
    - intros H0. destruct (H7 H0) as [Hb H7']. specialize (Hk Hb). split; [done|]. unfold ticks_at, var_of in *. simpl. lia. }
  clear Hs Hm Hc Hp Hk. revert H1. generalize (set_world h s) as s1. clear s h.
  induction l as [|i l IH]; intros s Hs; simpl; [by eexists|].
  rewrite not_elem_of_cons in Hu. destruct Hu as [Hi Hu].
  destruct (run_isr fz (timer_irqs l) s0 c n s i) as (s1 & E & H1);
    [congruence| |apply timer_irqs_nonneg|done|].
  { intros ->. destruct fz; [|done]. destruct (Ht eq_refl). apply elem_of_cons. by left. }
  unfold bind. rewrite E. apply IH; [done| |done].
  intros Hf Hin. apply (Ht Hf). apply elem_of_cons. by right.
Qed.

(** ** Accesses *)

Lemma run_rd fz s0 c n s r v :
  lkst fz s0 c s -> cdc_val r c = Some v ->
  exists s', rd r n s = Ok (u8 v) s' /\ lkst fz s0 (cdc_rd r c) s'.
Proof.
  intros Hs Hv. destruct (run_poll fz s0 c n s Hs) as (s1 & E & H1).
  unfold rd, bind. rewrite E. unfold rd_raw.
  pose proof (cdc_of_val r (world s1) v) as Hval.
  pose proof (cdc_of_read r (world s1)) as Hc. pose proof (spm_of_read r (world s1)) as Hp.
  assert (Hr : r <> UCSR1A) by (by intros ->). pose proof (fun Hb => ticks_read r (world s1) Hb Hr) as Hk.
  destruct H1 as [H1 [H2 H3] H4 H5 H6 H7]. unfold cdc_at in H1. rewrite H1 in Hval, Hc.
  destruct (io_read r (world s1)) as [w h]; cbn [fst snd] in *. rewrite (Hval Hv).
  eexists. split; [reflexivity|]. split; [|split| | | |]; try done.
  - etrans; [exact Hp|done].
  - intros Hf. destruct (H5 Hf). by rewrite c_timer_rd.
  - intros Hb. specialize (H6 Hb). specialize (Hk Hb). unfold ticks_at in *. simpl. lia.
  - intros H0. destruct (H7 H0) as [Hb H7']. specialize (Hk Hb). split; [done|]. unfold ticks_at, var_of in *. simpl. lia.
Qed.

Lemma run_wr fz s0 c n s r v :
  lkst fz s0 c s -> (r = TIMSK1 -> fz = true -> v = 0) ->
  exists s', wr r v n s = Ok tt s' /\ lkst fz s0 (cdc_wr r v c) s'.
Proof.
  intros Hs Hr. destruct (run_poll fz s0 c n s Hs) as (s1 & E & H1).
  unfold wr, bind. rewrite E. unfold wr_raw. eexists. split; [reflexivity|].
  pose proof (ticks_write r v (world s1)) as Hk.
  destruct H1 as [H1 [H2 H3] H4 H5 H6 H7]. unfold cdc_at in H1. split; [|split| | | |]; try done.
  - unfold cdc_at. simpl. by rewrite cdc_of_write, H1.
  - unfold spm_at. simpl. rewrite spm_of_write. exact H3.
  - intros Hf. destruct (H5 Hf). split; [|done].
    destruct (decide (r = TIMSK1)) as [->|Hne]; [by apply Hr|by rewrite c_timer_wr].
  - intros Hb. specialize (H6 Hb). specialize (Hk Hb). unfold ticks_at in *. simpl. lia.
  - intros H0. destruct (H7 H0) as [Hb H7']. specialize (Hk Hb). split; [done|]. unfold ticks_at, var_of in *. simpl. lia.
Qed.

Lemma run_vget fz s0 c n s x :
  lkst fz s0 c s -> client_var x = true \/ x = USB_DeviceState \/ (fz = true /\ x = Timeout) ->
  exists s', vget x n s = Ok (var_of x s0) s' /\ lkst fz s0 c s'.
Proof.
  intros Hs Hx. destruct (run_poll fz s0 c n s Hs) as (s1 & E & H1).
  unfold vget, bind. rewrite E. unfold get. exists s1. split; [|done]. f_equal.
  destruct H1 as [H1 [H2 H3] H4 H5 H6 H7]. destruct Hx as [?|[->|[Hf ->]]]; [by apply H2|done|].
  by apply H5.
Qed.

Lemma run_vget_timeout fz s0 c n s :
  lkst fz s0 c s -> live 0 s0 ->
  exists s' t, vget Timeout n s = Ok t s' /\ t <> 0 /\ lkst fz s0 c s'.
Proof.
  intros Hs Hl. destruct (run_poll fz s0 c n s Hs) as (s1 & E & H1).
  unfold vget, bind. rewrite E. unfold get. exists s1, (var_of Timeout s1). split; [done|].
  split; [|done]. pose proof (lk_live _ _ _ _ _ H1 Hl) as [_ H2].
  pose proof (ticks_nonneg (world s1)). unfold ticks_at in H2. lia.
Qed.

(** One step of a run of the link: the access at the head of the sequence. *)
Ltac lk_access H :=
  let s' := fresh "s" in let E := fresh "E" in let H' := fresh H in
  lazymatch goal with
  | |- context [match rd ?r ?n ?s with _ => _ end] =>
      destruct (run_rd _ _ _ n s r _ H eq_refl) as (s' & E & H');
      rewrite E; clear E H; rename H' into H; cbn [cdc_rd c_sel c_out c_in c_sent c_timer c_busy c_lat] in H;
      try rewrite poll_in_other in H by discriminate
  | |- context [match wr ?r ?v ?n ?s with _ => _ end] =>
      destruct (run_wr _ _ _ n s r v H ltac:(discriminate)) as (s' & E & H');
      rewrite E; clear E H; rename H' into H; cbn [cdc_wr c_sel c_out c_in c_sent c_timer c_busy c_lat] in H
  | |- context [match vget ?x ?n ?s with _ => _ end] =>
      destruct (run_vget _ _ _ n s x H ltac:(by auto)) as (s' & E & H');
      rewrite E; clear E H; rename H' into H
  end.
Ltac lk_run H := first [lk_access H | unfold bind at 1; lk_run H | unfold ret at 1; lk_run H].

Definition sel (e : Z) (c : cdc) : cdc :=
  mkCdc e (c_out c) (c_in c) (c_sent c) (c_timer c) (c_busy c) (c_lat c).

Lemma sel_sel e e' c : sel e (sel e' c) = sel e c.
Proof. done. Qed.

Lemma run_task fz s0 c n s :
  var_of USB_DeviceState s0 <> DEVICE_STATE_Unattached -> lkst fz s0 c s ->
  exists s' e, USB_USBTask n s = Ok tt s' /\ lkst fz s0 (sel e c) s'.
Proof.
  intros Hd H. unfold USB_USBTask, USB_DeviceTask.
  lk_run H. rewrite (proj2 (Z.eqb_neq _ _)) by done. cbv iota.
  unfold Endpoint_GetCurrentEndpoint, Endpoint_SelectEndpoint, Endpoint_IsSETUPReceived,
    test_reg. unfold bind at 1. lk_run H. unfold ret at 1. lk_run H.
  lk_run H. unfold ret at 1. cbv iota. unfold bind at 1.
  replace (bit_set _ _) with false by reflexivity. unfold ret at 1.
  destruct (run_wr _ _ _ n _ UENUM (Z.land (u8 (c_sel c)) ENDPOINT_EPNUM_MASK) H
    ltac:(discriminate)) as (s' & E & H').
  rewrite E. by exists s', (Z.land (u8 (c_sel c)) ENDPOINT_EPNUM_MASK).
Qed.

(** Availability: [true] iff the bank has bytes; an empty bank is released. *)
Definition avail (c : cdc) : bool :=
  match c_out c with (_ :: _) :: _ => true | _ => false end.
Definition release (c : cdc) : cdc :=
  match c_out c with
  | [] :: q => mkCdc (c_sel c) q (c_in c) (c_sent c) (c_timer c) (c_busy c) (c_lat c)
  | _ => c
  end.

Lemma bytes_in hi lo :
  u8 hi = 0 -> Z.lor (u16 (Z.shiftl (u8 hi) 8)) (u8 lo) = u8 lo.
Proof. by intros ->. Qed.

Lemma run_available fz s0 c n s :
  var_of USB_DeviceState s0 <> DEVICE_STATE_Unattached ->
  (length (hd [] (c_out c)) <= 16)%nat -> lkst fz s0 c s ->
  exists s', usb_byte_available n s = Ok (avail c) s' /\
    lkst fz s0 (sel CDC_RX_EPNUM (release c)) s'.
Proof.
  intros Hd Hl H. unfold usb_byte_available.
  destruct (run_task fz s0 c n s Hd H) as (s1 & e & E1 & H1).
  unfold bind at 1. rewrite E1. clear E1 H s.
  destruct c as [e0 out inb sent tm bz lt]. cbn in Hl, H1. unfold avail, release. cbn [c_out].
  unfold Endpoint_SelectEndpoint, Endpoint_IsOUTReceived, Endpoint_BytesInEndpoint,
    Endpoint_ClearOUT, test_reg, clr_reg.
  lk_run H1. lk_run H1. unfold ret at 1. cbn in H1.
  destruct out as [|p q]; [eexists; split; [reflexivity|exact H1]|].
  replace (bit_set _ _) with true by reflexivity. cbv iota.
  lk_run H1. lk_run H1. unfold ret at 1.
  rewrite bytes_in by done.
  destruct p as [|b p].
  - replace (truth _) with false by reflexivity. cbv iota.
    lk_run H1. lk_run H1. eexists. split; [reflexivity|exact H1].
  - cbn [c_sel c_out hd]. rewrite u8_id by (unfold is_u8; cbn [hd length] in *; lia).
    replace (truth _) with true by (unfold truth; cbn [length]; lia).
    eexists. split; [reflexivity|exact H1].
Qed.

(** ** The operations of the link *)

(** The packets of the host fit the endpoint and are not empty (the one in
    the bank may have been read out). *)
Record cdc_ok (c : cdc) : Prop := mkCdcOk {
  ok_size : Forall (fun p => (length p <= 16)%nat) (c_out c);
  ok_full : Forall (fun p => p <> []) (tl (c_out c));
  ok_u8 : Forall (Forall is_u8) (c_out c);
  ok_in : (length (c_in c) <= 16)%nat;
  ok_free : c_busy c = 0%nat;
  ok_lat : Forall (fun k => (k <= cdc_latency)%nat) (c_lat c)
}.

Lemma cdc_ok_sel e c : cdc_ok c -> cdc_ok (sel e c).
Proof. by intros []. Qed.

Lemma cdc_ok_hd c : cdc_ok c -> (length (hd [] (c_out c)) <= 16)%nat.
Proof. intros [Hs _ _ _ _ _]. destruct (c_out c); simpl; [lia|]. by inversion Hs. Qed.

(** The loop of [usb_read_byte]. *)
Definition read_body (_ : unit) : M (unit + Z) :=
  a <- usb_byte_available ;;
  if a : bool then b <- Endpoint_Read_8 ;; ret (inr b)
  else
    d <- endpoint_detached ;;
    if d : bool then ret (inr 0) else ret (inl tt).

Lemma read_body_ready fz s0 c n s b p q :
  var_of USB_DeviceState s0 <> DEVICE_STATE_Unattached ->
  cdc_ok c -> c_out c = (b :: p) :: q -> lkst fz s0 c s ->
  exists s' c', read_body tt n s = Ok (inr b) s' /\ lkst fz s0 c' s' /\ cdc_ok c' /\
    concat (c_out c') = p ++ concat q /\ c_in c' = c_in c /\ c_sent c' = c_sent c.
Proof.
  intros Hd Hc Eo Hs. unfold read_body.
  destruct (run_available fz s0 c n s Hd (cdc_ok_hd c Hc) Hs) as (s1 & E1 & H1).
  unfold bind at 1. rewrite E1. destruct Hc as [Hz Hf Hu Hi].
  destruct c as [e out inb sent tm bz lt]. cbn in Eo, Hz, Hf, Hu, Hi. subst out.
  cbn in H1 |- *. unfold Endpoint_Read_8. lk_run H1. unfold ret. cbn.
  apply Forall_cons in Hu as [[Hb Hu]%Forall_cons Hu']. apply Forall_cons in Hz as [Hz1 Hz2].
  simpl in Hz1.
  eexists _, _. split; [by rewrite u8_id|]. split; [exact H1|].
  repeat split; simpl; try done; constructor; [lia|done|done|done].
Qed.

(** An empty bank costs one more round. *)
Lemma read_body_release fz s0 c n s q :
  var_of USB_DeviceState s0 <> DEVICE_STATE_Unattached -> live 0 s0 ->
  c_out c = [] :: q -> lkst fz s0 c s ->
  exists s', read_body tt n s = Ok (inl tt) s' /\ lkst fz s0 (sel CDC_RX_EPNUM (release c)) s'.
Proof.
  intros Hd Hl Eo Hs. unfold read_body.
  destruct (run_available fz s0 c n s Hd) as (s1 & E1 & H1); [rewrite Eo; simpl; lia|done|].
  unfold bind at 1. rewrite E1. unfold avail. rewrite Eo.
  unfold endpoint_detached. unfold bind at 1.
  destruct (run_vget_timeout _ _ _ n s1 H1 Hl) as (s2 & t & E2 & Ht & H2).
  unfold bind at 1. rewrite E2. replace (negb (truth t)) with false by (unfold truth; lia).
  lk_run H2. unfold ret at 1. rewrite (proj2 (Z.eqb_neq _ _)) by done. by eexists.
Qed.

Lemma run_read_byte fz s0 c n s b l :
  (2 <= n)%nat -> var_of USB_DeviceState s0 <> DEVICE_STATE_Unattached -> live 0 s0 ->
  cdc_ok c -> concat (c_out c) = b :: l -> lkst fz s0 c s ->
  exists s' c', usb_read_byte n s = Ok b s' /\ lkst fz s0 c' s' /\ cdc_ok c' /\
    concat (c_out c') = l /\ c_in c' = c_in c /\ c_sent c' = c_sent c.
Proof.
  intros Hn Hd Hl Hc Hr Hs. change usb_read_byte with (iter read_body tt). unfold iter.
  destruct n as [|[|n]]; [lia|lia|]. rewrite iter_aux_S.
  destruct (c_out c) as [|[|b0 p] q] eqn:Eo; [done| |].
  - destruct (read_body_release fz s0 c (S (S n)) s q Hd Hl Eo Hs) as (s1 & E1 & H1).
    rewrite E1, iter_aux_S. unfold release in H1. rewrite Eo in H1.
    destruct Hc as [Hz Hf Hu Hi]. rewrite Eo in *. simpl in Hr, Hf.
    apply Forall_cons in Hz as [_ Hz]. apply Forall_cons in Hu as [_ Hu].
    destruct q as [|[|b1 p1] q1]; [done|by inversion Hf|].
    simpl in Hr. injection Hr as -> <-. apply Forall_cons in Hf as [_ Hf].
    edestruct read_body_ready as (s2 & c2 & E2 & H2 & Hrest); [done| | |exact H1|].
    + by split.
    + reflexivity.
    + rewrite E2. eauto 10.
  - simpl in Hr. injection Hr as -> <-.
    destruct (read_body_ready fz s0 c (S (S n)) s b p q Hd Hc Eo Hs)
      as (s2 & c2 & E2 & H2 & Hrest).
    rewrite E2. eauto 10.
Qed.

Lemma clear_fifo v m : Z.testbit (Z.land v (Z.lnot (Z.lor m (bv FIFOCON)))) FIFOCON = false.
Proof.
  rewrite Z.land_spec, Z.lnot_spec, Z.lor_spec by done.
  replace (Z.testbit (bv FIFOCON) FIFOCON) with true by reflexivity.
  by rewrite orb_true_r, andb_false_r.
Qed.

(** The wait for the IN endpoint. *)
Definition wait_body (_ : unit) : M (unit + unit) :=
  r <- Endpoint_IsINReady ;;
  if r : bool then ret (inr tt) else
  d <- endpoint_detached ;;
  if d : bool then ret (inr tt) else ret (inl tt).

Definition with_busy (k : nat) (c : cdc) : cdc :=
  mkCdc (c_sel c) (c_out c) (c_in c) (c_sent c) (c_timer c) k (c_lat c).

Lemma wait_in fz s0 k : var_of USB_DeviceState s0 <> DEVICE_STATE_Unattached -> live 0 s0 ->
  forall c m n s, lkst fz s0 (with_busy k c) s -> c_sel c = CDC_TX_EPNUM -> (k < m)%nat ->
  exists s', iter_aux m wait_body tt n s = Ok tt s' /\ lkst fz s0 (with_busy 0 c) s'.
Proof.
  intros Hd Hl. induction k as [|k IH]; intros c m n s Hs He Hm; (destruct m as [|m]; [lia|]); rewrite iter_aux_S;
    destruct c as [e out inb sent tm bz lt]; cbn in He, Hs; subst e; unfold wait_body at 1, Endpoint_IsINReady, test_reg; lk_run Hs.
  - rewrite poll_in_free in Hs by done. destruct (_ <? _)%nat; cbn; by eexists.
  - cbn in Hs. unfold ret at 1. replace (bit_set _ _) with false by reflexivity. cbv iota beta. unfold endpoint_detached. unfold bind at 1.
    destruct (run_vget_timeout _ _ _ n _ Hs Hl) as (s2 & t & E2 & Ht & H2).
    unfold bind at 1. rewrite E2. replace (negb (truth t)) with false by (unfold truth; lia).
    lk_run H2. unfold ret at 1. rewrite (proj2 (Z.eqb_neq _ _)) by done.
    apply (IH (mkCdc CDC_TX_EPNUM out inb sent tm bz lt) m n); [exact H2|done|lia].
Qed.

(** [_usb_flush_endpoint] hands the bank to the host and waits until it is free again. *)
Definition handed (c : cdc) : cdc :=
  mkCdc CDC_TX_EPNUM (c_out c) [] (c_sent c ++ [c_in c]) (c_timer c) 0 (tl (c_lat c)).
Lemma run_flush_endpoint fz s0 c n s :
  (cdc_latency < n)%nat -> var_of USB_DeviceState s0 <> DEVICE_STATE_Unattached -> live 0 s0 ->
  lkst fz s0 c s -> c_sel c = CDC_TX_EPNUM -> c_busy c = 0%nat -> Forall (fun k => (k <= cdc_latency)%nat) (c_lat c) ->
  exists s', _usb_flush_endpoint n s = Ok tt s' /\ lkst fz s0 (handed c) s'.
Proof.
  intros Hn Hd Hl Hs He Hb Hlat. destruct c as [e out inb sent tm bz lt]. cbn in He, Hb, Hlat |- *. subst e bz.
  unfold _usb_flush_endpoint, Endpoint_ClearIN, clr_reg.
  lk_run Hs. rewrite poll_in_free in Hs by done. lk_run Hs. rewrite clear_fifo in Hs. cbn in Hs.
  change (iter _ tt n ?s) with (iter_aux n wait_body tt n s).
  apply (wait_in fz s0 (hd 0%nat lt) Hd Hl (mkCdc CDC_TX_EPNUM out [] (sent ++ [inb]) tm 0 (tl lt)) n n); [exact Hs|done|].
  destruct lt as [|k lt]; cbn; [lia|]. apply Forall_cons in Hlat as [Hk _]. lia.
Qed.

(** Bytes handed over or collected for the host. *)
Definition sent_bytes (c : cdc) : list Z := concat (c_sent c) ++ c_in c.

(** [RWAL] of the IN endpoint: the bank has room. *)
Lemma rwal_bit (b : bool) :
  bit_set (u8 (Z.lor (Z.lor (bv TXINI) (bv FIFOCON)) (if b then bv RWAL else 0))) (bv RWAL) = b.
Proof. by destruct b. Qed.

Lemma run_write_byte fz s0 c n s b :
  (cdc_latency < n)%nat -> var_of USB_DeviceState s0 <> DEVICE_STATE_Unattached -> live 0 s0 ->
  cdc_ok c -> lkst fz s0 c s ->
  exists s' c', usb_write_byte b n s = Ok tt s' /\ lkst fz s0 c' s' /\ cdc_ok c' /\
    c_out c' = c_out c /\ sent_bytes c' = sent_bytes c ++ [b].
Proof.
  intros Hn Hd Hv Hc Hs. unfold usb_write_byte.
  destruct (run_task fz s0 c n s Hd Hs) as (s1 & e & E1 & H1).
  unfold bind at 1. rewrite E1. clear E1 Hs s.
  destruct Hc as [Hz Hf Hu Hi Hb Ht]. destruct c as [e0 out inb sent tm bz lt].
  cbn in Hz, Hf, Hu, Hi, Hb, Ht. subst bz. unfold sel in H1. cbn in H1. unfold sent_bytes. cbn [c_sent c_in c_out].
  unfold Endpoint_SelectEndpoint, Endpoint_IsReadWriteAllowed, Endpoint_Write_8, test_reg.
  lk_run H1. lk_run H1. rewrite poll_in_free in H1 by done. unfold ret at 1. rewrite rwal_bit. cbn [c_in].
  destruct (Nat.ltb_spec (length inb) (Z.to_nat CDC_TXRX_EPSIZE)) as [Hlt|Hge]; cbn [negb].
  - unfold bind at 1, ret at 1. cbv beta iota.
    destruct (run_wr _ _ _ n _ UEDATX b H1 ltac:(discriminate)) as (st2 & E2 & H2).
    rewrite E2. eexists _, _. split; [done|]. split; [exact H2|].
    cbn. change (Z.to_nat CDC_TXRX_EPSIZE) with 16%nat in Hlt.
    split; [split; cbn; try done; rewrite length_app; simpl; lia|].
    split; [done|]. by rewrite app_assoc.
  - unfold bind at 1.
    destruct (run_flush_endpoint _ _ _ n _ Hn Hd Hv H1 eq_refl eq_refl Ht) as (st2 & E2 & H2).
    rewrite E2. clear H1. cbn in H2.
    destruct (run_wr _ _ _ n _ UEDATX b H2 ltac:(discriminate)) as (st3 & E3 & H3).
    rewrite E3. eexists _, _. split; [done|]. split; [exact H3|].
    cbn. split; [split; cbn; try done; try lia; by destruct lt; [|apply Forall_cons in Ht as [_ Ht]]|]. split; [done|].
    by rewrite concat_app; simpl; rewrite app_nil_r.
Qed.

(** Packets sent by a flush: the bank, followed by an empty packet when the
    bank was full, so that the transfer ends with a short packet. *)
Definition flush_packets (l : list Z) : list (list Z) :=
  match l with
  | [] => []
  | _ => if (length l <? Z.to_nat CDC_TXRX_EPSIZE)%nat then [l] else [l; []]
  end.
Definition flushed (c : cdc) : cdc :=
  mkCdc CDC_TX_EPNUM (c_out c) [] (c_sent c ++ flush_packets (c_in c)) (c_timer c) 0
    (drop (length (flush_packets (c_in c))) (c_lat c)).

Lemma flushed_bytes c : sent_bytes (flushed c) = sent_bytes c.
Proof.
  unfold sent_bytes, flushed, flush_packets. simpl. destruct (c_in c) as [|b l]; [by rewrite !app_nil_r|].
  destruct (_ <? _)%nat; rewrite concat_app; simpl; by rewrite !app_nil_r.
Qed.

Lemma run_usb_flush fz s0 c n s :
  (cdc_latency < n)%nat -> var_of USB_DeviceState s0 <> DEVICE_STATE_Unattached -> live 0 s0 -> cdc_ok c -> lkst fz s0 c s ->
  exists s', usb_flush n s = Ok tt s' /\ lkst fz s0 (flushed c) s'.
Proof.
  intros Hn Hd Hv [Hz Hf Hu Hi Hb Ht] Hs. unfold usb_flush.
  destruct c as [e0 out inb sent tm bz lt]. cbn in Hz, Hf, Hu, Hi, Hb, Ht. subst bz.
  unfold flushed. cbn [c_sent c_in c_out c_timer c_lat].
  unfold Endpoint_SelectEndpoint, Endpoint_IsReadWriteAllowed, Endpoint_BytesInEndpoint, test_reg.
  lk_run Hs. lk_run Hs. lk_run Hs. unfold ret at 1. rewrite bytes_in by done. cbn [c_sel c_in].
  rewrite u8_id by (unfold is_u8; lia).
  destruct inb as [|b inb].
  { cbn. eexists. split; [done|]. by rewrite app_nil_r. }
  replace (negb (truth _)) with false by (unfold truth; cbn [length]; lia).
  lk_run Hs. rewrite poll_in_free in Hs by done. unfold ret at 1. rewrite rwal_bit. cbn [c_in flush_packets].
  destruct (Nat.ltb (length (b :: inb)) _); cbn [negb].
  - unfold bind at 1, ret at 1. cbv beta iota.
    destruct (run_flush_endpoint _ _ _ n _ Hn Hd Hv Hs eq_refl eq_refl Ht) as (st2 & E2 & H2). rewrite E2.
    exists st2. split; [done|]. destruct lt; exact H2.
  - unfold bind at 1.
    destruct (run_flush_endpoint _ _ _ n _ Hn Hd Hv Hs eq_refl eq_refl Ht) as (st2 & E2 & H2). rewrite E2.
    destruct (run_flush_endpoint _ _ _ n _ Hn Hd Hv H2 eq_refl eq_refl) as (st3 & E3 & H3).
    { cbn. by destruct lt; [|apply Forall_cons in Ht as [_ Ht]]. }
    rewrite E3. exists st3. split; [done|]. unfold handed in H3. cbn in H3. rewrite <- app_assoc in H3. by destruct lt as [|? [|]].
Qed.

Lemma cdc_ok_flushed c : cdc_ok c -> cdc_ok (flushed c).
Proof. intros []. split; try done; [simpl; lia|]. cbn. by apply Forall_drop. Qed.

Lemma run_avr fz s0 c n s o :
  lkst fz s0 c s ->
  exists s', call o n s = Ok tt s' /\ cdc_at s' = c /\
    (forall x, client_var x = true -> var_of x s' = var_of x s0) /\
    spm_at s' = spm_step o (spm_at s0) /\
    var_of USB_DeviceState s' = var_of USB_DeviceState s0 /\
    (budget -> ticks_at s' <= ticks_at s0) /\ (live 0 s0 -> live 0 s') /\
    (fz = true -> var_of Timeout s' = var_of Timeout s0).
Proof.
  intros Hs. destruct (run_poll fz s0 c n s Hs) as (s1 & E & H1).
  unfold call, bind. rewrite E. unfold avr_raw. eexists. split; [reflexivity|].
  pose proof (ticks_avr o (world s1)) as Hk.
  destruct H1 as [H1 [H2 H3] H4 H5 H6 H7]. unfold cdc_at, spm_at, live, ticks_at in *. simpl.
  rewrite cdc_of_avr, spm_of_avr. split; [done|]. split; [done|]. split; [by rewrite H3|].
  split; [done|]. unfold var_of in *. simpl. split; [intros Hb; specialize (H6 Hb); specialize (Hk Hb); lia|].
  split; [|intros Hf; by apply H5]. intros H0. destruct (H7 H0) as [Hb H7']. specialize (Hk Hb). split; [done|lia].
Qed.

(** ** The link is up *)

Record link_up (s : state) : Prop := mkLinkUp {
  lu_state : var_of USB_DeviceState s <> DEVICE_STATE_Unattached;
  lu_live : live 0 s;
  lu_ticks : ticks_at s < TICKS_MS 500;
  lu_ok : cdc_ok (cdc_at s)
}.

Lemma link_up_after s0 c s : link_up s0 -> cdc_ok c -> lkst false s0 c s -> link_up s.
Proof.
  intros [H1 H2 H3 H4] Hc [E1 _ E2 _ E3 E4]. split.
  - by rewrite E2.
  - by apply E4.
  - specialize (E3 (proj1 H2)). lia.
  - by rewrite E1.
Qed.

(** A byte takes a round, an empty bank another one; a packet is taken in so many polls. *)
Definition link_fuel : nat := S (S cdc_latency).
Definition cdc_rx (s : state) : list Z := concat (c_out (cdc_at s)).
Definition cdc_tx (s : state) : list Z := sent_bytes (cdc_at s).

Lemma link_up_upd x v s : client_var x = true -> link_up s -> link_up (upd x v s).
Proof.
  intros Hx [H1 H2 H3 H4]. split; try done.
  - rewrite var_of_upd_ne; [done|]. by intros ->.
  - unfold live in *. rewrite var_of_upd_ne; [exact H2|]. by intros ->.
Qed.

Lemma link_up_timeout v s : TICKS_MS 500 <= v < 256 -> link_up s -> link_up (upd Timeout v s).
Proof.
  intros Hv [H1 H2 H3 H4]. split; try done; [by rewrite var_of_upd_ne|].
  unfold live. split; [apply H2|]. rewrite var_of_upd_eq. unfold wrap, var_width.
  change (ticks_at (upd Timeout v s)) with (ticks_at s).
  change (TICKS_MS 500) with 10 in *. rewrite Z.mod_small by (simpl; lia). lia.
Qed.

Lemma usb_read_ok n s b l :
  (link_fuel <= n)%nat -> link_up s -> cdc_rx s = b :: l ->
  exists s', usb_read_byte n s = Ok b s' /\ link_up s' /\ cdc_rx s' = l /\ cdc_tx s' = cdc_tx s /\
    quiet s s'.
Proof.
  intros Hn Hu Hr. pose proof Hu as [H1 H2 H3 H4].
  destruct (run_read_byte false s (cdc_at s) n s b l ltac:(unfold link_fuel in Hn; lia) H1 H2 H4 Hr (lkst_start s))
    as (s' & c' & E & Hs & Hc & Hl & Hi & Ht).
  exists s'. split; [exact E|]. unfold cdc_rx, cdc_tx. rewrite (lk_cdc _ _ _ _ _ Hs).
  split; [by eapply link_up_after|]. split; [done|]. split; [by unfold sent_bytes; rewrite Hi, Ht|].
  apply Hs.
Qed.

Lemma usb_write_ok n s b :
  (link_fuel <= n)%nat -> link_up s ->
  exists s', usb_write_byte b n s = Ok tt s' /\ link_up s' /\ cdc_rx s' = cdc_rx s /\
    cdc_tx s' = cdc_tx s ++ [b] /\ quiet s s'.
Proof.
  intros Hn Hu. pose proof Hu as [H1 H2 H3 H4].
  destruct (run_write_byte false s (cdc_at s) n s b ltac:(unfold link_fuel in Hn; lia) H1 H2 H4 (lkst_start s))
    as (s' & c' & E & Hs & Hc & Ho & Ht).
  exists s'. split; [exact E|]. unfold cdc_rx, cdc_tx. rewrite (lk_cdc _ _ _ _ _ Hs), Ho.
  split; [by eapply link_up_after|]. split; [done|]. split; [done|]. apply Hs.
Qed.

Lemma usb_flush_ok n s :
  (link_fuel <= n)%nat -> link_up s ->
  exists s', usb_flush n s = Ok tt s' /\ link_up s' /\ cdc_rx s' = cdc_rx s /\
    cdc_tx s' = cdc_tx s /\ quiet s s'.
Proof.
  intros Hn Hu. pose proof Hu as [H1 H2 H3 H4].
  destruct (run_usb_flush false s (cdc_at s) n s ltac:(unfold link_fuel in Hn; lia) H1 H2 H4 (lkst_start s))
    as (s' & E & Hs).
  exists s'. split; [exact E|]. unfold cdc_rx, cdc_tx. rewrite (lk_cdc _ _ _ _ _ Hs), flushed_bytes.
  split; [by eapply link_up_after, Hs; [|apply cdc_ok_flushed]|].
  split; [done|]. split; [done|]. apply Hs.
Qed.

Lemma usb_timer_ok n s v :
  (link_fuel <= n)%nat -> link_up s ->
  exists s', wr TIMSK1 v n s = Ok tt s' /\ link_up s' /\ cdc_rx s' = cdc_rx s /\
    cdc_tx s' = cdc_tx s /\ quiet s s'.
Proof.
  intros Hn Hu. pose proof Hu as [H1 H2 H3 H4].
  destruct (run_wr false s (cdc_at s) n s TIMSK1 v (lkst_start s) ltac:(discriminate))
    as (s' & E & Hs).
  exists s'. split; [exact E|]. unfold cdc_rx, cdc_tx. rewrite (lk_cdc _ _ _ _ _ Hs).
  split; [|split; [done|split; [done|apply Hs]]].
  eapply link_up_after; [done| |exact Hs]. destruct H4. by split.
Qed.

Lemma usb_call_ok n s o :
  (link_fuel <= n)%nat -> link_up s ->
  exists s', call o n s = Ok tt s' /\ link_up s' /\ cdc_rx s' = cdc_rx s /\ cdc_tx s' = cdc_tx s /\
    (forall x, client_var x = true -> var_of x s' = var_of x s) /\
    spm_at s' = spm_step o (spm_at s).
Proof.
  intros Hn [H1 H2 H3 H4].
  destruct (run_avr false s (cdc_at s) n s o (lkst_start s))
    as (s' & E & Hc & Hv & Hp & Hd & Hk & Hl & _).
  exists s'. split; [exact E|]. unfold cdc_rx, cdc_tx. rewrite Hc. split; [|done].
  split; [by rewrite Hd|by apply Hl|specialize (Hk (proj1 H2)); lia|by rewrite Hc].
Qed.

#[export] Instance adelino_link_ok : LinkOk := {|
  rx := cdc_rx;
  tx := cdc_tx;
  up := link_up;
  lk_fuel := link_fuel;
  rx_upd _ _ _ _ := eq_refl;
  tx_upd _ _ _ _ := eq_refl;
  up_upd := link_up_upd;
  up_timeout := link_up_timeout;
  lk_read_ok := usb_read_ok;
  lk_write_ok := usb_write_ok;
  lk_flush_ok := usb_flush_ok;
  lk_timer_ok := usb_timer_ok;
  lk_call_ok := usb_call_ok
|}.

(** ** A silent host *)

Lemma avail_silent c : concat (c_out c) = [] ->
  avail c = false /\ concat (c_out (release c)) = [] /\
  (length (hd [] (c_out c)) <= 16)%nat.
Proof.
  unfold avail, release. destruct c as [e [|[|b p] q] inb sent tm bz lt]; simpl; try done; intros;
    repeat split; done || lia.
Qed.

Lemma read_body_silent s0 c n s :
  var_of USB_DeviceState s0 <> DEVICE_STATE_Unattached -> var_of Timeout s0 <> 0 ->
  concat (c_out c) = [] -> lkst true s0 c s ->
  exists s' c', read_body tt n s = Ok (inl tt) s' /\ concat (c_out c') = [] /\ lkst true s0 c' s'.
Proof.
  intros Hd Ht Hc Hs. destruct (avail_silent c Hc) as (Ha & Hr & Hl). unfold read_body.
  destruct (run_available true s0 c n s Hd Hl Hs) as (s1 & E1 & H1).
  unfold bind at 1. rewrite E1, Ha. unfold endpoint_detached. unfold bind at 1.
  lk_run H1. replace (negb (truth (var_of Timeout s0))) with false by (unfold truth; lia).
  lk_run H1. unfold ret at 1. rewrite (proj2 (Z.eqb_neq _ _)) by done.
  eexists _, _. split; [reflexivity|]. split; [|exact H1]. exact Hr.
Qed.

Lemma read_byte_hangs s0 c n s :
  var_of USB_DeviceState s0 <> DEVICE_STATE_Unattached -> var_of Timeout s0 <> 0 ->
  concat (c_out c) = [] -> lkst true s0 c s -> usb_read_byte n s = NoFuel.
Proof.
  intros Hd Ht Hc Hs. change usb_read_byte with (iter read_body tt). unfold iter.
  generalize n at 1 as k. intros k. revert c s Hc Hs.
  induction k as [|k IH]; intros c s Hc Hs; [done|]. rewrite iter_aux_S.
  destruct (read_body_silent s0 c n s Hd Ht Hc Hs) as (s1 & c1 & -> & Hc1 & H1).
  by apply (IH c1).
Qed.

(** ** Theorems *)

(** C3: The byte link implements an ordered byte channel.  While the device
    is attached and the host is served before the timeout, reading returns
    the next byte of the host's packets whatever their boundaries, writing
    appends one byte to what the host gets, flushing hands over everything
    and ends with a short packet.  The host takes each packet only some polls
    after it was handed over; until then the bank is busy and a byte written to
    it would be lost, so that the waits of the driver are needed.  Timer and UART
    interrupts at any access do not disturb it, and the flash and the programmer's
    variables are kept. *)
Theorem usb_link_fifo n s :
  (link_fuel <= n)%nat -> link_up s ->
  (forall b l, cdc_rx s = b :: l ->
     exists s', usb_read_byte n s = Ok b s' /\ link_up s' /\ cdc_rx s' = l /\
       cdc_tx s' = cdc_tx s /\ quiet s s') /\
  (forall b, exists s', usb_write_byte b n s = Ok tt s' /\ link_up s' /\ cdc_rx s' = cdc_rx s /\
       cdc_tx s' = cdc_tx s ++ [b] /\ quiet s s') /\
  (exists s', usb_flush n s = Ok tt s' /\ link_up s' /\ cdc_rx s' = cdc_rx s /\
       cdc_tx s' = cdc_tx s /\ c_in (cdc_at s') = [] /\
       c_sent (cdc_at s') = c_sent (cdc_at s) ++ flush_packets (c_in (cdc_at s)) /\ quiet s s').
Proof.
  intros Hn Hu. split; [by intros; apply usb_read_ok|]. split; [by intros; apply usb_write_ok|].
  pose proof Hu as [H1 H2 H3 H4].
  destruct (run_usb_flush false s (cdc_at s) n s ltac:(unfold link_fuel in Hn; lia) H1 H2 H4 (lkst_start s)) as (s' & E & Hs).
  exists s'. split; [exact E|]. unfold cdc_rx, cdc_tx. rewrite (lk_cdc _ _ _ _ _ Hs), flushed_bytes.
  split; [by eapply link_up_after, Hs; [|apply cdc_ok_flushed]|].
  split; [done|]. split; [done|]. split; [done|]. split; [done|]. apply Hs.
Qed.

(** When the timeout has run out and the host has sent nothing,
    [usb_read_byte] gives up at once and returns 0. *)
Theorem read_byte_timeout n s :
  (1 <= n)%nat -> var_of USB_DeviceState s <> DEVICE_STATE_Unattached ->
  c_timer (cdc_at s) = 0 -> var_of Timeout s = 0 -> cdc_rx s = [] ->
  exists s', usb_read_byte n s = Ok 0 s' /\ quiet s s'.
Proof.
  intros Hn Hd Hm Ht Hc. change usb_read_byte with (iter read_body tt). unfold iter.
  destruct n as [|n]; [lia|]. rewrite iter_aux_S. destruct (avail_silent _ Hc) as (Ha & Hr & Hl).
  unfold read_body. destruct (run_available true s _ (S n) s Hd Hl (lkst_start_frozen s Hm))
    as (s1 & E1 & H1).
  unfold bind at 1. rewrite E1, Ha. unfold endpoint_detached. unfold bind at 1.
  lk_run H1. rewrite Ht. unfold ret. cbn. eexists. split; [reflexivity|]. apply H1.
Qed.
End CdcLink.

(** ** A masked timer *)

Section Masked.
Context {B : Board} {SP : SpmBoard B} {CB : CdcBoard B} {I : BuildIds}.
#[local] Existing Instance adelino_vectors.
#[local] Existing Instance adelino_link.
#[local] Existing Instance adelino_app.
#[local] Existing Instance no_budget.

(** On any board, however its timer ticks: when the timer is masked with time left and
    the host is silent, the data of a block write never come to an end. *)
Lemma masked_write_hangs n size s1 s2 : wr TIMSK1 0 n s1 = Ok tt s2 -> 0 < size ->
  var_of Timeout s2 <> 0 -> var_of USB_DeviceState s2 <> DEVICE_STATE_Unattached -> cdc_rx s2 = [] ->
  (PageStartAddress <- get CurrAddress ;;
   call (boot_page_erase PageStartAddress) ;;
   call boot_spm_busy_wait ;;
   write_flash_block (Z.to_nat size) false 0)%fw n s2 = NoFuel.
Proof.
  intros E2 Hz Ht2 Hd2 Hs2.
  destruct (run_wr false s1 _ n s1 TIMSK1 0 (lkst_start s1) ltac:(discriminate)) as (s2' & E2' & H2).
  rewrite E2 in E2'. injection E2' as <-.
  assert (c_timer (cdc_at s2) = 0) as Hm by (by rewrite (lk_cdc _ _ _ _ _ H2)).
  unfold bind at 1, get at 1.
  destruct (run_avr true s2 _ n s2 (boot_page_erase (var_of CurrAddress s2))
    (lkst_start_frozen s2 Hm)) as (s3 & E3 & H3 & _ & _ & Hd3 & _ & _ & Ht3).
  unfold bind at 1. rewrite E3.
  destruct (run_avr true s3 _ n s3 boot_spm_busy_wait
    (lkst_start_frozen s3 ltac:(by rewrite H3))) as (s4 & E4 & H4 & _ & _ & Hd4 & _ & _ & Ht4).
  unfold bind at 1. rewrite E4.
  destruct (Z.to_nat size) as [|k] eqn:Ek; [lia|].
  cbn [write_flash_block]. unfold bind at 1. change lk_read with usb_read_byte.
  rewrite (read_byte_hangs s4 (cdc_at s4)); [done|..].
  - by rewrite Hd4, Hd3.
  - by rewrite Ht4, Ht3.
  - by rewrite H4, H3.
  - apply lkst_start_frozen. by rewrite H4, H3.
Qed.
End Masked.
