(* ===== verification/Session.v ===== *)
(** * Programming sessions

    What a host that speaks AVR109 observes of the shipped bootloader
    ([minimal_build]): uploading an image page by page, reading it back, and
    the answers to every other command.  The theorems hold over any link that
    satisfies [LinkOk] and any board that satisfies [SpmBoard]; [CdcLink]
    shows that the link of the bootloader is one, [Sim] that such boards exist. *)

From Stdlib Require Import Strings.Ascii.
From S2P Require Import Prelude Machine Logic Endpoint UsbDevice Descriptors Bootloader Avr109 Programming.

Section Session.
Context {B : Board} {V : Vectors} {L : Link} {SP : SpmBoard B} {LK : LinkOk}.
#[local] Existing Instance minimal_build.

(** [k] turns of the programmer loop. *)
Fixpoint avr109_steps (k : nat) : M unit :=
  match k with
  | O => ret tt
  | S k' => avr109_step ;; avr109_steps k'
  end.

(** The host's command to write one flash page. *)
Definition page_command (p : list Z) : list Z := [ch "B"; 0; SPM_PAGESIZE; ch "F"] ++ p.

(** Flash after the image [l] has been stored from address [a] on. *)
Definition flash_with (a : Z) (l : list Z) (f : Z -> Z) (x : Z) : Z :=
  if (a <=? x) && (x <? a + Z.of_nat (length l)) then nth (Z.to_nat (x - a)) l 0 else f x.

Definition erased_buffer (m : spm) : Prop := forall i, sp_tmp m i = 0xFFFF.

(** A step that executes the command [c]. *)
Lemma run_step n c r t a bm m r' t' a' bm' m' s :
  (lk_fuel <= n)%nat -> after (c :: r) t a bm m s ->
  (forall s, after r t a bm m s ->
     exists s', avr109_command c n s = Ok tt s' /\ after r' t' a' bm' m' s') ->
  exists s', avr109_step n s = Ok tt s' /\ after r' t' a' bm' m' s'.
Proof.
  intros Hn H Hc. destruct (run_read n _ _ _ _ _ _ _ Hn H) as (s1 & E1 & H1).
  destruct (Hc s1 H1) as (s2 & E2 & H2).
  destruct (run_flush n _ _ _ _ _ _ Hn H2) as (s3 & E3 & H3).
  exists s3. unfold avr109_step, bind. by rewrite E1, E2, E3.
Qed.

(** The block commands restart the timeout and leave the special boot modes. *)
Lemma run_block_prologue n c r t a bm m s :
  c = ch "B" \/ c = ch "g" -> after r t a bm m s ->
  exists s', avr109_command c n s = ReadWriteMemoryBlock_minimal c n s' /\
    after r t a BM_NORMAL_BOOT m s'.
Proof.
  intros Hc H.
  exists (upd boot_mode BM_NORMAL_BOOT (upd Timeout AVR_PROGRAMMER_TIMEOUT s)).
  split; [by destruct Hc as [-> | ->]|].
  eapply run_put_mode; [done|]. by eapply run_put_timeout.
Qed.

Lemma page_with_flash a p f x :
  a mod SPM_PAGESIZE = 0 -> Z.of_nat (length p) = SPM_PAGESIZE ->
  page_with a p f x = flash_with a p f x.
Proof.
  intros Ha Hp. unfold page_with, flash_with, page, whole, SPM_PAGESIZE in *.
  destruct (Z.eqb_spec (x / 128) (a / 128)) as [E|E].
  - rewrite (proj2 (andb_true_iff _ _)) by mlia.
    rewrite (proj2 (Z.ltb_lt (x - a) _)) by mlia. done.
  - destruct (_ && _) eqn:E'; [mlia|done].
Qed.

Lemma run_page n p r t a bm m s :
  (lk_fuel <= n)%nat -> Forall is_u8 p -> Z.of_nat (length p) = SPM_PAGESIZE ->
  a mod SPM_PAGESIZE = 0 -> 0 <= a < 32768 -> erased_buffer m ->
  after (page_command p ++ r) t a bm m s ->
  exists s' m', avr109_step n s = Ok tt s' /\
    after r (t ++ [13]) (a + SPM_PAGESIZE) BM_NORMAL_BOOT m' s' /\ erased_buffer m' /\
    forall x, sp_flash m' x = flash_with a p (sp_flash m) x.
Proof.
  intros Hn Hp Hl Ha Hr Ht H.
  set (m' := spm_step (boot_page_write a)
    (do_fills (fills a false 0 p) (spm_step (boot_page_erase a) m))).
  destruct (run_step n (ch "B") ([0; SPM_PAGESIZE; ch "F"] ++ p ++ r) t a bm m
    r (t ++ [13]) (a + whole (length p)) BM_NORMAL_BOOT m' s Hn H) as (s' & E & H').
  { intros s1 H1.
    destruct (run_block_prologue n (ch "B") _ _ _ _ _ _ (or_introl eq_refl) H1) as (s2 & E2 & H2).
    rewrite E2. by apply (run_write_block n 0 SPM_PAGESIZE). }
  exists s', m'. split; [done|].
  replace (whole (length p)) with SPM_PAGESIZE in H' by (unfold whole, SPM_PAGESIZE in *; mlia).
  split; [done|]. split; [done|]. intros x. unfold m'.
  rewrite spm_write_page by (unfold SPM_PAGESIZE in *; done || lia).
  by apply page_with_flash.
Qed.

Lemma flash_with_in a l f x :
  a <= x < a + Z.of_nat (length l) -> flash_with a l f x = nth (Z.to_nat (x - a)) l 0.
Proof. intros. unfold flash_with. by rewrite (proj2 (andb_true_iff _ _)) by lia. Qed.
Lemma flash_with_out a l f x :
  ~ (a <= x < a + Z.of_nat (length l)) -> flash_with a l f x = f x.
Proof. intros. unfold flash_with. by destruct (_ && _) eqn:E; [lia|]. Qed.

Lemma flash_with_app a p q f x :
  flash_with (a + Z.of_nat (length p)) q (flash_with a p f) x = flash_with a (p ++ q) f x.
Proof.
  pose proof (length_app p q) as Hl.
  destruct (decide (a <= x < a + Z.of_nat (length p))) as [Hp|Hp].
  - rewrite flash_with_out, !flash_with_in by lia. by rewrite app_nth1 by lia.
  - destruct (decide (a <= x < a + Z.of_nat (length (p ++ q)))) as [Hq|Hq].
    + rewrite !flash_with_in by lia. rewrite app_nth2 by lia. f_equal. lia.
    + by rewrite !flash_with_out by lia.
Qed.

Lemma run_upload n pages : forall r t a bm m s,
  (lk_fuel <= n)%nat ->
  Forall (fun p => Forall is_u8 p /\ Z.of_nat (length p) = SPM_PAGESIZE) pages ->
  a mod SPM_PAGESIZE = 0 -> 0 <= a -> a + SPM_PAGESIZE * Z.of_nat (length pages) <= 32768 ->
  erased_buffer m ->
  after (concat (map page_command pages) ++ r) t a bm m s ->
  exists s' m' bm', avr109_steps (length pages) n s = Ok tt s' /\
    after r (t ++ repeat 13 (length pages)) (a + SPM_PAGESIZE * Z.of_nat (length pages)) bm' m' s' /\
    erased_buffer m' /\ (forall x, sp_flash m' x = flash_with a (concat pages) (sp_flash m) x) /\
    (pages <> [] -> bm' = BM_NORMAL_BOOT).
Proof.
  induction pages as [|p pages IH]; intros r t a bm m s Hn Hp Ha H0 Hl Ht H.
  { exists s, m, bm. split; [done|]. simpl. rewrite Z.mul_0_r, Z.add_0_r, app_nil_r.
    split; [done|]. split; [done|]. split; [|done].
    intros x. rewrite flash_with_out; [done|simpl; lia]. }
  apply Forall_cons in Hp as [[Hu Hlen] Hp]. cbn [map concat] in H.
  rewrite <- app_assoc in H. cbn [length] in Hl.
  assert (a + SPM_PAGESIZE <= 32768) by (unfold SPM_PAGESIZE in *; lia).
  destruct (run_page n p _ t a bm m s Hn Hu Hlen Ha ltac:(unfold SPM_PAGESIZE in *; lia) Ht H)
    as (s1 & m1 & E1 & H1' & Ht1 & Hf1).
  destruct (IH r (t ++ [13]) (a + SPM_PAGESIZE) BM_NORMAL_BOOT m1 s1)
    as (s2 & m2 & bm2 & E2 & H2 & Ht2 & Hf2 & Hb2); try done;
    try (unfold SPM_PAGESIZE in *; mlia).
  exists s2, m2, bm2. split; [simpl; unfold bind; by rewrite E1|].
  rewrite <- app_assoc in H2. cbn [length]. split.
  - replace (a + SPM_PAGESIZE * _) with
      (a + SPM_PAGESIZE + SPM_PAGESIZE * Z.of_nat (length pages)) by lia. exact H2.
  - split; [done|]. split.
    + intros x. rewrite Hf2. cbn [concat].
      rewrite <- flash_with_app, Hlen. unfold flash_with. by rewrite Hf1.
    + intros _. destruct pages; [|by apply Hb2]. simpl in E2. injection E2 as <-.
      rewrite <- (af_mode _ _ _ _ _ _ H2). by apply H1'.
Qed.

(** Command ['A']: the word address of the host. *)
Lemma run_set_address n hi lo r t a bm m s :
  (lk_fuel <= n)%nat -> is_u8 hi -> is_u8 lo ->
  after (hi :: lo :: r) t a bm m s ->
  exists s', set_address n s = Ok tt s' /\
    after r (t ++ [13])
      (2 * (256 * hi + lo) mod 65536 + (if 64 <=? hi mod 128 then 0xFFFF0000 else 0)) bm m s'.
Proof.
  intros Hn Hhi Hlo H. unfold set_address, is_u8 in *.
  destruct (run_read n _ _ _ _ _ _ _ Hn H) as (s1 & E1 & H1).
  unfold bind at 1. rewrite E1. clear H E1.
  unfold bind at 1, put at 1.
  set (v := wrap 32 (s16 (Z.shiftl hi 9))).
  assert (after (lo :: r) t v bm m (upd CurrAddress (s16 (Z.shiftl hi 9)) s1)) as H2.
  { destruct H1. split; rewrite ?rx_upd, ?tx_upd by done; try done.
    - by apply up_upd.
    - by rewrite var_of_upd_eq.
    - by rewrite var_of_upd_ne. }
  destruct (run_read n _ _ _ _ _ _ _ Hn H2) as (s2 & E2 & H3).
  unfold bind at 1. rewrite E2. clear H1 H2 E2.
  unfold bind at 1. rewrite (run_get_addr n _ _ _ _ _ _ H3).
  unfold bind at 1, put at 1.
  assert (Z.lor v (Z.shiftl lo 1) =
    2 * (256 * hi + lo) mod 65536 + (if 64 <=? hi mod 128 then 0xFFFF0000 else 0)) as ->.
  { unfold v, s16, wrap. rewrite !Z.shiftl_mul_pow2 by lia.
    set (w := if 64 <=? hi mod 128 then hi mod 128 - 128 else hi mod 128).
    replace (((hi * 2 ^ 9 + 32768) mod 65536 - 32768) mod 2 ^ 32)
      with (Z.shiftl (w mod 2 ^ 23) 9).
    - change (lo * 2 ^ 1) with (lo * 2). rewrite lor_disjoint_add by (simpl; lia).
      unfold w. change (2 ^ 23) with 8388608. change (2 ^ 9) with 512.
      destruct (Z.leb_spec 64 (hi mod 128)); mlia.
    - rewrite Z.shiftl_mul_pow2 by lia. unfold w.
      change (2 ^ 23) with 8388608. change (2 ^ 9) with 512. change (2 ^ 32) with 4294967296.
      destruct (Z.leb_spec 64 (hi mod 128)); mlia. }
  apply run_write; [done|]. eapply run_put_addr; [|exact H3].
  unfold is_u32. destruct (_ <=? _); mlia.
Qed.

Lemma run_read_back n hi lo r t a bm m s :
  (lk_fuel <= n)%nat -> is_u8 hi -> is_u8 lo -> a mod 2 = 0 -> 0 <= a ->
  a + (lo + 256 * hi) <= 32768 ->
  after (ch "g" :: hi :: lo :: ch "F" :: r) t a bm m s ->
  exists s', avr109_step n s = Ok tt s' /\
    after r (t ++ flash_bytes (sp_flash m) a (Z.to_nat (lo + 256 * hi)))
      (a + whole (Z.to_nat (lo + 256 * hi))) BM_NORMAL_BOOT (spm_step boot_rww_enable m) s'.
Proof.
  intros Hn Hhi Hlo Ha H0 Hl H. eapply run_step; [done|exact H|]. intros s1 H1.
  destruct (run_block_prologue n (ch "g") _ _ _ _ _ _ (or_intror eq_refl) H1) as (s2 & E2 & H2).
  rewrite E2. by apply run_read_block.
Qed.

Lemma run_address n hi lo r t a bm m s :
  (lk_fuel <= n)%nat -> 0 <= hi < 64 -> is_u8 lo ->
  after (ch "A" :: hi :: lo :: r) t a bm m s ->
  exists s', avr109_step n s = Ok tt s' /\
    after r (t ++ [13]) (2 * (256 * hi + lo)) bm m s'.
Proof.
  intros Hn Hhi Hlo H. eapply run_step; [done|exact H|]. intros s1 H1.
  destruct (run_set_address n hi lo r t a bm m s1) as (s2 & E2 & H2);
    [done|unfold is_u8; lia|done|done|].
  exists s2. split; [exact E2|]. unfold is_u8 in *.
  replace (2 * (256 * hi + lo) mod 65536 + _) with (2 * (256 * hi + lo)) in H2; [done|].
  rewrite (proj2 (Z.leb_gt 64 (hi mod 128))) by mlia. rewrite Z.mod_small; lia.
Qed.

Lemma flash_bytes_with a l f :
  Forall is_u8 l -> flash_bytes (flash_with a l f) a (length l) = l.
Proof.
  intros Hl. apply (nth_ext _ _ 0 0).
  { unfold flash_bytes. by rewrite length_map, length_seq. }
  intros i Hi. unfold flash_bytes in *. rewrite length_map, length_seq in Hi.
  rewrite (nth_indep _ 0 (u8 (flash_with a l f (a + Z.of_nat 0))))
    by (rewrite length_map, length_seq; lia).
  rewrite (map_nth (fun i => u8 (flash_with a l f (a + Z.of_nat i)))), seq_nth by lia.
  rewrite Nat.add_0_l, flash_with_in by lia. replace (Z.to_nat _) with i by lia.
  apply u8_id. by apply nth_u8.
Qed.

Lemma avr109_steps_app j k n s :
  avr109_steps (j + k) n s =
  match avr109_steps j n s with
  | Ok _ s' => avr109_steps k n s'
  | Jump s' => Jump s'
  | NoFuel => NoFuel
  end.
Proof.
  revert s. induction j as [|j IH]; intros s; simpl; [done|]. unfold bind.
  by destruct (avr109_step n s); [apply IH|..].
Qed.

Lemma concat_u8 (l : list (list Z)) (P : list Z -> Prop) :
  Forall (fun p => Forall is_u8 p /\ P p) l -> Forall is_u8 (concat l).
Proof. induction 1 as [|p l [Hp _] _ IH]; simpl; [done|]. by apply Forall_app. Qed.

Lemma length_concat_pages pages :
  Forall (fun p => Forall is_u8 p /\ Z.of_nat (length p) = SPM_PAGESIZE) pages ->
  Z.of_nat (length (concat pages)) = SPM_PAGESIZE * Z.of_nat (length pages).
Proof.
  unfold SPM_PAGESIZE. induction 1 as [|p l [_ Hp] _ IH]; cbn [concat length]; [done|].
  rewrite length_app. lia.
Qed.

(** ** Simple commands of the shipped build *)

(** Answer to a command without parameters; the rest is answered [?]. *)
Definition answer (c : Z) : list Z :=
  if (c =? ch "E") || (c =? ch "L") || (c =? ch "P") then [13]
  else if c =? ch "t" then [0x44; 0]
  else if c =? ch "a" then [ch "Y"]
  else if c =? ch "p" then [ch "S"]
  else if c =? ch "S" then SOFTWARE_IDENTIFIER
  else if c =? ch "V" then [ch "1"; ch "0"]
  else if c =? ch "s" then [0x87; 0x95; 0x1E]
  else if c =? ch "b" then [ch "Y"; 0; 128]
  else if c =? 27 then []
  else [ch "?"].

(** Commands that read parameters: ['T'], ['A'], ['B'] and ['g']. *)
Definition has_params (c : Z) : bool :=
  (c =? ch "T") || (c =? ch "A") || (c =? ch "B") || (c =? ch "g").

Lemma run_write_bytes n l : forall r t a bm m s,
  (lk_fuel <= n)%nat -> after r t a bm m s ->
  exists s', write_bytes l n s = Ok tt s' /\ after r (t ++ l) a bm m s'.
Proof.
  induction l as [|b l IH]; intros r t a bm m s Hn H.
  { exists s. by rewrite app_nil_r. }
  destruct (run_write n _ _ _ _ _ _ b Hn H) as (s1 & E1 & H1).
  destruct (IH _ _ _ _ _ _ Hn H1) as (s2 & E2 & H2). exists s2.
  simpl. unfold bind. rewrite E1. split; [done|]. by rewrite <- app_assoc in H2.
Qed.

(** A command that only sends bytes. *)
Lemma run_sends n (k : M unit) l r t a bm m s :
  (lk_fuel <= n)%nat -> k n s = write_bytes l n s -> after r t a bm m s ->
  exists s', k n s = Ok tt s' /\ after r (t ++ l) a bm m s'.
Proof. intros Hn -> H. by apply run_write_bytes. Qed.

Lemma bind_ret_unit (k : M unit) n s : (k ;; ret tt) n s = k n s.
Proof. unfold bind, ret. by destruct (k n s) as [[] ?|?|]. Qed.

Lemma bind_ext {A} (k : M unit) (f g : M A) n s :
  (forall s', f n s' = g n s') -> (k ;; f) n s = (k ;; g) n s.
Proof. intros H. unfold bind. by destruct (k n s). Qed.

(** Without parameters and without side effect, a command just sends its answer. *)
Lemma command_answer c n s :
  has_params c = false -> c <> ch "E" -> avr109_command c n s = write_bytes (answer c) n s.
Proof.
  intros Hp He. unfold avr109_command, answer.
  change (optional_command c) with (@None (M unit)). change (byte_command c) with (@None (M unit)).
  rewrite (proj2 (Z.eqb_neq _ _) He). unfold has_params in Hp.
  repeat match type of Hp with (_ || _ = false) => apply orb_false_iff in Hp as [Hp ?] end.
  repeat match goal with H : (c =? _) = false |- _ => rewrite H; clear H end.
  cbn [orb negb andb NO_BLOCK_SUPPORT minimal_build].
  repeat match goal with
  | |- context [c =? ?x] => destruct (c =? x); cbn [orb andb negb]; [try reflexivity|]
  end; symmetry; cbn [write_bytes]; try apply bind_ret_unit;
    apply bind_ext; intros; try apply bind_ret_unit; apply bind_ext; intros; apply bind_ret_unit.
Qed.

(** ** Theorems *)

(** C1: Uploading an image.  When the host sends one page-write command per
    page of an image, starting at a page-aligned address that the image
    fits, the programmer answers each with a carriage return, consumes
    exactly these commands, and afterwards the flash holds the image at that
    address and is unchanged everywhere else; the address counter stands
    after the image and the programmer has left the special boot modes. *)
Theorem upload_correct n pages r s :
  (lk_fuel <= n)%nat -> up s -> pages <> [] ->
  Forall (fun p => Forall is_u8 p /\ Z.of_nat (length p) = SPM_PAGESIZE) pages ->
  let a := var_of CurrAddress s in
  a mod SPM_PAGESIZE = 0 -> 0 <= a ->
  a + SPM_PAGESIZE * Z.of_nat (length pages) <= 32768 ->
  erased_buffer (spm_at s) ->
  rx s = concat (map page_command pages) ++ r ->
  exists s', avr109_steps (length pages) n s = Ok tt s' /\
    rx s' = r /\ tx s' = tx s ++ repeat 13 (length pages) /\
    var_of CurrAddress s' = a + SPM_PAGESIZE * Z.of_nat (length pages) /\
    var_of boot_mode s' = BM_NORMAL_BOOT /\
    forall x, sp_flash (spm_at s') x = flash_with a (concat pages) (sp_flash (spm_at s)) x.
Proof.
  intros Hn Hu Hne Hp a Ha H0 Hl Ht Hr.
  pose proof (after_start s Hu) as H. rewrite Hr in H.
  destruct (run_upload n pages _ _ _ _ _ s Hn Hp Ha H0 Hl Ht H)
    as (s' & m' & bm' & E & H' & _ & Hf & Hb).
  exists s'. destruct H' as [_ H1 H2 H3 H4 H5]. rewrite H1, H2, H3, H4, H5.
  split; [exact E|]. repeat split; try done. by apply Hb.
Qed.

(** C2: Verifying an upload.  Setting the address, uploading the pages of an
    image, setting the address again and reading the block back returns to
    the host exactly the bytes of the image. *)
Theorem upload_read_back n ahi alo pages shi slo r s :
  (lk_fuel <= n)%nat -> up s ->
  Forall (fun p => Forall is_u8 p /\ Z.of_nat (length p) = SPM_PAGESIZE) pages ->
  0 <= ahi < 64 -> is_u8 alo -> is_u8 shi -> is_u8 slo ->
  let a := 2 * (256 * ahi + alo) in
  a mod SPM_PAGESIZE = 0 ->
  SPM_PAGESIZE * Z.of_nat (length pages) = slo + 256 * shi ->
  a + SPM_PAGESIZE * Z.of_nat (length pages) <= 32768 ->
  erased_buffer (spm_at s) ->
  rx s = [ch "A"; ahi; alo] ++ concat (map page_command pages) ++
         [ch "A"; ahi; alo] ++ [ch "g"; shi; slo; ch "F"] ++ r ->
  exists s', avr109_steps (1 + (length pages + 2)) n s = Ok tt s' /\
    rx s' = r /\ tx s' = tx s ++ 13 :: repeat 13 (length pages) ++ 13 :: concat pages.
Proof.
  intros Hn Hu Hp Hah Hal Hsh Hsl a Ha Hs Hl Ht Hr.
  pose proof (after_start s Hu) as H. rewrite Hr in H.
  destruct (run_address n ahi alo _ _ _ _ _ s Hn Hah Hal H) as (s1 & E1 & H1). fold a in H1.
  assert (0 <= a) by (unfold a, is_u8 in *; lia).
  destruct (run_upload n pages _ _ _ _ _ s1 Hn Hp Ha ltac:(done) Hl Ht H1)
    as (s2 & m2 & bm2 & E2 & H2 & _ & Hf & _).
  destruct (run_address n ahi alo _ _ _ _ _ s2 Hn Hah Hal H2) as (s3 & E3 & H3). fold a in H3.
  destruct (run_read_back n shi slo r _ a _ _ s3 Hn Hsh Hsl
    ltac:(unfold SPM_PAGESIZE in *; mlia) ltac:(done) ltac:(lia) H3) as (s4 & E4 & H4).
  exists s4. rewrite avr109_steps_app. cbn [avr109_steps]. unfold bind, ret.
  rewrite E1, avr109_steps_app, E2. cbn [avr109_steps]. unfold bind, ret.
  rewrite E3, E4. split; [done|]. split; [apply H4|]. rewrite (af_tx _ _ _ _ _ _ H4).
  rewrite <- !app_assoc. simpl. do 4 f_equal.
  pose proof (length_concat_pages pages Hp).
  replace (Z.to_nat (slo + 256 * shi)) with (length (concat pages)) by lia.
  etrans; [|eapply (flash_bytes_with a), concat_u8, Hp].
  apply map_ext. intros i. by rewrite Hf.
Qed.

(** A block write of any length up to a page: the bytes at even offset
    pairs are stored, the rest of the page is erased, other pages keep their
    contents.  In particular the last byte of a block of odd length is read
    from the host and acknowledged but not stored. *)
Theorem write_block_correct n hi lo data r s :
  (lk_fuel <= n)%nat -> up s -> is_u8 hi -> is_u8 lo -> Forall is_u8 data ->
  Z.of_nat (length data) = lo + 256 * hi -> lo + 256 * hi <= SPM_PAGESIZE ->
  let a := var_of CurrAddress s in
  a mod SPM_PAGESIZE = 0 -> 0 <= a < 32768 -> erased_buffer (spm_at s) ->
  rx s = hi :: lo :: ch "F" :: data ++ r ->
  exists s', ReadWriteMemoryBlock (ch "B") n s = Ok tt s' /\
    rx s' = r /\ tx s' = tx s ++ [13] /\
    var_of CurrAddress s' = a + whole (length data) /\
    forall x, sp_flash (spm_at s') x = page_with a data (sp_flash (spm_at s)) x.
Proof.
  intros Hn Hu Hhi Hlo Hd Hl Hp a Ha H0 Ht Hr.
  pose proof (after_start s Hu) as H. rewrite Hr in H.
  destruct (run_write_block n hi lo data _ _ _ _ _ s Hn Hhi Hlo Hd Hl H0 H)
    as (s' & E & [_ H1 H2 H3 _ H5]).
  exists s'. rewrite H1, H2, H3, H5. split; [exact E|]. repeat split; try done.
  intros x. apply spm_write_page; [done|lia|done|done].
Qed.

(** A block command for any memory other than the flash is refused with
    a question mark: nothing is programmed or erased and the address is kept. *)
Theorem wrong_memory_type n c hi lo ty r s :
  (lk_fuel <= n)%nat -> up s -> is_u8 hi -> is_u8 lo -> ty <> ch "F" ->
  rx s = hi :: lo :: ty :: r ->
  exists s', ReadWriteMemoryBlock c n s = Ok tt s' /\
    rx s' = r /\ tx s' = tx s ++ [ch "?"] /\ spm_at s' = spm_at s /\
    var_of CurrAddress s' = var_of CurrAddress s.
Proof.
  intros Hn Hu Hhi Hlo Ht Hr. pose proof (after_start s Hu) as H. rewrite Hr in H.
  destruct (run_header n hi lo ty _ _ _ _ _ s Hn Hhi Hlo H) as (s1 & E1 & H1).
  destruct (run_write n _ _ _ _ _ _ (ch "?") Hn H1) as (s2 & E2 & H2).
  exists s2. split; [|split; [apply H2|split; [apply H2|split; apply H2]]].
  unfold ReadWriteMemoryBlock, minimal_build, MINIMAL_AVR109, ReadWriteMemoryBlock_minimal, bind.
  rewrite E1, (proj2 (Z.eqb_neq _ _)) by done. exact E2.
Qed.

(** C13: Every command without parameters gets exactly its documented answer
    and every unknown one a question mark (a synchronizing escape gets none);
    none of them reads further bytes or changes the flash or the address. *)
Theorem command_answers n c r s :
  (lk_fuel <= n)%nat -> up s -> has_params c = false -> rx s = c :: r ->
  exists s', avr109_step n s = Ok tt s' /\
    rx s' = r /\ tx s' = tx s ++ answer c /\
    (forall x, sp_flash (spm_at s') x = sp_flash (spm_at s) x) /\
    var_of CurrAddress s' = var_of CurrAddress s /\ var_of boot_mode s' = var_of boot_mode s.
Proof.
  intros Hn Hu Hp Hr. pose proof (after_start s Hu) as H. rewrite Hr in H.
  set (m' := if c =? ch "E" then spm_step boot_rww_enable_safe (spm_at s) else spm_at s).
  destruct (run_step n c r (tx s) (var_of CurrAddress s) (var_of boot_mode s) (spm_at s)
    r (tx s ++ answer c) (var_of CurrAddress s) (var_of boot_mode s) m' s Hn H)
    as (s' & E & [_ H1 H2 H3 H4 H5]).
  { intros s1 H1. unfold m'. destruct (Z.eqb_spec c (ch "E")) as [->|Hne].
    - unfold avr109_command. rewrite Z.eqb_refl. unfold bind, put.
      apply (run_put_timeout _ _ _ _ _ _ (TICKS_MS 500)) in H1; [|done].
      destruct (run_call n _ _ _ _ _ _ boot_rww_enable_safe Hn H1) as (s2 & E2 & H2).
      rewrite E2. by apply run_write.
    - eapply run_sends; [done|by apply command_answer|exact H1]. }
  exists s'. rewrite H1, H2, H3, H4, H5. split; [exact E|]. repeat split; try done.
  intros x. unfold m'. by destruct (_ =? _).
Qed.

(** Command ['A'] sets the byte address to twice the word address of the
    host for every word address of the device (high byte below 0x40), and
    the 16-bit shift of the source sign-extends into the 32-bit counter when
    bit 6 of the high byte is set. *)
Theorem set_address_correct n hi lo r s :
  (lk_fuel <= n)%nat -> up s -> is_u8 hi -> is_u8 lo -> rx s = hi :: lo :: r ->
  exists s', set_address n s = Ok tt s' /\ rx s' = r /\ tx s' = tx s ++ [13] /\
    (hi < 64 -> var_of CurrAddress s' = 2 * (256 * hi + lo)) /\
    (64 <= hi < 128 -> var_of CurrAddress s' = 2 * (256 * hi + lo) + 0xFFFF0000).
Proof.
  intros Hn Hu Hhi Hlo Hr. pose proof (after_start s Hu) as H. rewrite Hr in H.
  destruct (run_set_address n hi lo _ _ _ _ _ s Hn Hhi Hlo H) as (s' & E & [_ H1 H2 H3 _ _]).
  exists s'. rewrite H1, H2, H3. split; [exact E|]. unfold is_u8 in *. repeat split; intros Hi.
  - rewrite (proj2 (Z.leb_gt 64 (hi mod 128))) by mlia. rewrite Z.mod_small; lia.
  - rewrite (proj2 (Z.leb_le 64 (hi mod 128))) by mlia. rewrite Z.mod_small; lia.
Qed.
End Session.

Section FullBuild.
Context {B : Board} {V : Vectors} {L : Link} {SP : SpmBoard B} {LK : LinkOk}.

(** On flash blocks the full version of [ReadWriteMemoryBlock] and the
    minimal one that is shipped are the same program. *)
Theorem full_minimal_equivalent c n s size s1 :
  read_block_header n s = Ok (size, ch "F") s1 ->
  ReadWriteMemoryBlock_full c n s = ReadWriteMemoryBlock_minimal c n s.
Proof.
  intros E. unfold ReadWriteMemoryBlock_full, ReadWriteMemoryBlock_minimal, bind.
  rewrite E. change (ch "F" =? ch "E") with false. rewrite Z.eqb_refl. cbn [negb andb].
  destruct (wr TIMSK1 0 n s1) as [[] s2|s2|]; [|done|done].
  destruct (c =? ch "g"); [done|]. unfold get.
  destruct (call (boot_page_erase _) n s2) as [[] s3|s3|]; [|done|done].
  destruct (call boot_spm_busy_wait n s3) as [[] s4|s4|]; [|done|done].
  destruct (write_flash_block _ _ _ n s4) as [[] s5|s5|]; [|done|done].
  destruct (call (boot_page_write _) n s5) as [[] s6|s6|]; [|done|done].
  by destruct (call boot_spm_busy_wait n s6) as [[] s7|s7|].
Qed.

Lemma run_erase_pages n k : forall c r t a bm m s,
  (lk_fuel <= n)%nat -> 0 <= c -> c mod SPM_PAGESIZE = 0 -> erased_buffer m ->
  after r t a bm m s ->
  exists s' m', erase_pages k c n s = Ok tt s' /\ after r t a bm m' s' /\ erased_buffer m' /\
    forall x, sp_flash m' x =
      if (c <=? x) && (x <? c + SPM_PAGESIZE * Z.of_nat k) then 255 else sp_flash m x.
Proof.
  induction k as [|k IH]; intros c r t a bm m s Hn Hc Hm Ht H.
  { exists s, m. repeat split; try done; try apply H. intros x.
    destruct (_ && _) eqn:E; [lia|done]. }
  simpl. unfold bind.
  destruct (run_call n _ _ _ _ _ _ (boot_page_erase c) Hn H) as (s1 & -> & H1).
  destruct (run_call n _ _ _ _ _ _ boot_spm_busy_wait Hn H1) as (s2 & -> & H2).
  destruct (run_call n _ _ _ _ _ _ (boot_page_write c) Hn H2) as (s3 & -> & H3).
  destruct (run_call n _ _ _ _ _ _ boot_spm_busy_wait Hn H3) as (s4 & -> & H4).
  edestruct (IH (c + SPM_PAGESIZE)) as (s' & m' & E & H' & Ht' & Hf);
    [done| | | |exact H4|]; [unfold SPM_PAGESIZE; lia|unfold SPM_PAGESIZE in *; mlia|done|].
  exists s', m'. split; [exact E|]. split; [done|]. split; [done|]. intros x. rewrite Hf.
  cbn [spm_step sp_flash sp_tmp]. unfold page, tmp_byte, SPM_PAGESIZE in *.
  rewrite Ht. change (0xFFFF mod 256) with 255. change ((0xFFFF / 256) mod 256) with 255.
  destruct (Z.eqb_spec (x / 128) (c / 128)) as [Ex|Ex].
  - destruct ((c + 128 <=? x) && _) eqn:E1; [mlia|].
    rewrite (proj2 (andb_true_iff _ _)) by mlia. by destruct (_ =? _).
  - destruct ((c + 128 <=? x) && _) eqn:E1, ((c <=? x) && _) eqn:E2; try done; mlia.
Qed.

(** Chip erase (full build) erases exactly the application section, page
    by page, and leaves the bootloader section alone. *)
Theorem chip_erase_correct n s :
  (lk_fuel <= n)%nat -> up s -> erased_buffer (spm_at s) ->
  exists s', chip_erase n s = Ok tt s' /\ rx s' = rx s /\ tx s' = tx s ++ [13] /\
    (forall x, 0 <= x < BOOT_START_ADDR -> sp_flash (spm_at s') x = 255) /\
    (forall x, BOOT_START_ADDR <= x -> sp_flash (spm_at s') x = sp_flash (spm_at s) x).
Proof.
  intros Hn Hu Ht. pose proof (after_start s Hu) as H. unfold chip_erase, bind.
  destruct (run_erase_pages n (Z.to_nat (BOOT_START_ADDR / SPM_PAGESIZE)) 0 _ _ _ _ _ s Hn
    ltac:(done) ltac:(done) Ht H) as (s1 & m1 & -> & H1 & _ & Hf).
  destruct (run_write n _ _ _ _ _ _ 13 Hn H1) as (s2 & -> & [_ H2 H3 _ _ H5]).
  exists s2. split; [done|]. split; [done|]. split; [done|]. rewrite H5.
  assert (SPM_PAGESIZE * Z.of_nat (Z.to_nat (BOOT_START_ADDR / SPM_PAGESIZE)) = BOOT_START_ADDR)
    as E by reflexivity.
  rewrite E in Hf. split; intros x Hx; rewrite Hf; destruct (_ && _) eqn:E'; done || lia.
Qed.
End FullBuild.
