(* ===== verification/Safety.v ===== *)
(** * Safety of the whole firmware, on every board

    Consequences of the traversal in [Frame] for the firmware with its own
    interrupt vectors and its own link: modifies clauses and
    independence from the fuel.  No assumption is made on the
    hardware: registers may read anything and interrupts may come at any
    access. *)

From Stdlib Require Import Strings.Ascii.
From S2P Require Import Prelude Machine Logic Endpoint UsbDevice Descriptors Bootloader Avr109 Boot Frame.

Section Safety.
Context {B : Board} {I : BuildIds} {Opt : BuildOpts}.
#[local] Existing Instance adelino_vectors.
#[local] Existing Instance adelino_app.
#[local] Existing Instance adelino_link.

(** Handlers run with interrupts disabled: nothing nests. *)
Lemma no_vectors_fp F : @VecFp B no_vectors F.
Proof. intros i n s. simpl. reflexivity. Qed.

Lemma handlers_within F : fp_le isr_fp F -> VecFp F.
Proof.
  intros HF i.
  assert (@Closed B no_vectors isr_fp (fun A => keeps (within F))) as Hc.
  { eapply closed_weaken; [exact HF|]. apply (@within_closed B no_vectors F (no_vectors_fp F)). }
  exact (cl_isr (V := no_vectors) (fun A => keeps (within F)) i).
Qed.

Lemma usb_vec : VecFp usb_fp.
Proof. apply handlers_within. solve_fp_le. Qed.
Lemma esp_vec : VecFp esp_fp.
Proof. apply handlers_within. solve_fp_le. Qed.

Lemma esp_closed : Closed esp_fp (fun A => keeps (within esp_fp)).
Proof. pose proof esp_vec. apply within_closed, _. Qed.

Lemma handlers_mono i : mono (isr i).
Proof.
  assert (@Closed B no_vectors isr_fp (fun A => mono)) as Hc.
  { apply (mono_closed (V := no_vectors)). intros j. apply mono_ret. }
  exact (cl_isr (V := no_vectors) (fun A => mono) i).
Qed.

(** ** Theorems *)

(** An interrupt handler changes nothing but the tick counters, the
    receive buffer and its input index, the USB state and registers of the
    USB controller; it calls no self-programming primitive.  The variables of
    the programmers and of the main loop are never changed behind their
    back. *)
Theorem handlers_frame i : keeps (within isr_fp) (isr i).
Proof. apply handlers_within. solve_fp_le. Qed.

(** The USB stack with the callbacks of the bootloader, and every
    operation of the byte link, write only USB registers and USB state (and
    what the handlers write); they never program flash or EEPROM. *)
Theorem usb_frame :
  keeps (within usb_fp) USB_USBTask /\ keeps (within usb_fp) usb_byte_available /\
  keeps (within usb_fp) usb_read_byte /\ (forall b, keeps (within usb_fp) (usb_write_byte b)) /\
  keeps (within usb_fp) usb_flush.
Proof.
  pose proof usb_vec. assert (Closed stack_fp (fun A => keeps (within usb_fp)))
    by (eapply closed_weaken; [|apply (within_closed usb_fp)]; solve_fp_le). repeat split; intros.
  - by apply (cl_USB_USBTask (fun A => keeps (within usb_fp))).
  - by apply (cl_usb_byte_available (fun A => keeps (within usb_fp))).
  - by apply (cl_usb_read_byte (fun A => keeps (within usb_fp))).
  - by apply (cl_usb_write_byte (fun A => keeps (within usb_fp))).
  - by apply (cl_usb_flush (fun A => keeps (within usb_fp))).
Qed.

(** C7: Only an escape character from the host can lead to programming:
    handling any other byte (the ESP8266 programmer included) issues no
    self-programming primitive, does not mask the timer, and keeps the
    programmer's address, the boot mode and the boot keys. *)
Theorem only_escape_programs c : c <> 27 -> keeps (within esp_fp) (cdc_command c).
Proof.
  intros Hc. pose proof esp_closed.
  exact (cl_cdc_command (fun A => keeps (within esp_fp)) c Hc).
Qed.

(** The fuel only bounds loops: when the firmware, started in any state,
    reaches the jump to the sketch with some fuel, it reaches it in the same
    state with any larger one. *)
Theorem main_fuel n n' s s' : (n <= n')%nat -> main n s = Jump s' -> main n' s = Jump s'.
Proof.
  intros Hn E. assert (mono main) as Hm.
  { pose proof (mono_closed boot_fp handlers_mono). pose proof (mono_closed tasks_fp handlers_mono).
    apply (cl_main (fun A => mono)), (cl_start_sketch (fun A => mono)). }
  rewrite (Hm n n' s Hn); [exact E|]. by rewrite E.
Qed.
End Safety.
