(* ===== verification/BootProps.v ===== *)
(** * Start-up and leaving for the sketch

    The reset reason, the way the firmware hands over to the sketch, and the
    ESP8266 reset lines, on every board. *)

From Stdlib Require Import Strings.Ascii.
From S2P Require Import Prelude Machine Logic Endpoint UsbDevice Descriptors Bootloader Avr109 Boot Frame Safety.

(** ** Handing over to the sketch *)

(** The hardware accesses before the jump, newest first: UART, timer and
    interrupt vectors back to their reset state, LEDs off. *)
Definition quiesced (v w : Z) : list event :=
  [EAvr jmp_sketch;
   EWr PORTD (Z.land w (Z.lnot (bv 5))); ERd PORTD w;
   EWr PORTC (Z.land v (Z.lnot (bv 7))); ERd PORTC v;
   EWr MCUCR 0; EWr MCUCR (bv IVCE);
   EWr TCNT1L 0; EWr TCNT1H 0; EWr TCCR1B 0; EWr TIMSK1 0; EWr UCSR1B 0].

Section Jumps.
Context {B : Board} {V : Vectors}.

Definition clean (s' : state) : Prop :=
  iflag s' = false /\ exists v w d, tr s' = quiesced v w ++ d.

Definition jumps_clean {A} (m : M A) : Prop := forall n s s', m n s = Jump s' -> clean s'.

Lemma jumps_bind {A C} (m : M A) (k : A -> M C) :
  jumps_clean m -> (forall a, jumps_clean (k a)) -> jumps_clean (bind m k).
Proof.
  intros Hm Hk n s s'. unfold bind. destruct (m n s) as [a s1|s1|] eqn:E; [apply Hk| |done].
  intros [= <-]. by eapply Hm.
Qed.

Lemma jumps_iter {S A} (body : S -> M (S + A)) x :
  (forall x, jumps_clean (body x)) -> jumps_clean (iter body x).
Proof.
  intros Hb n. unfold iter. generalize n at 1 as k. intros k. revert x.
  induction k as [|k IH]; intros x s s'; [done|]. rewrite iter_aux_S.
  destruct (body x n s) as [[x'|a] s1|s1|] eqn:E; [apply IH|done| |done].
  intros [= <-]. by eapply Hb.
Qed.

Lemma jumps_serve_all l : (forall i, jumps_clean (isr i)) -> jumps_clean (serve_all l).
Proof.
  intros Hi. induction l as [|i l IH]; [done|]. apply jumps_bind; [|done].
  intros n s s'. unfold serve. by apply jumps_bind.
Qed.

Lemma jumps_poll {A} (m : M A) :
  (forall i, jumps_clean (isr i)) -> jumps_clean m -> jumps_clean (poll ;; m).
Proof.
  intros Hi Hm. apply jumps_bind; [|done]. intros n s s'. unfold poll.
  destruct (iflag s); [|done]. destruct (irqs (world s)) as [l h]. by apply jumps_serve_all.
Qed.

Lemma jumps_closed :
  (forall i, jumps_clean (isr i)) -> Closed tasks_fp (fun A => jumps_clean).
Proof.
  intros Hi. split; intros; try done; try (by apply jumps_poll).
  - by apply jumps_bind.
  - by apply jumps_iter.
  - apply jumps_poll; [done|]. intros n s s'. unfold rd_raw. by destruct (io_read r (world s)).
  - apply jumps_poll; [done|]. intros n s s'. unfold rd16_raw. by destruct (io_read r (world s)).
Qed.

(** With interrupts disabled, accesses are not interleaved with anything. *)
Lemma rd_cli r n s : iflag s = false ->
  exists v h, rd r n s = Ok (u8 v) (step_hw (ERd r (u8 v)) h s).
Proof.
  intros Hf. unfold rd, poll, bind, rd_raw. rewrite Hf. destruct (io_read r (world s)). eauto.
Qed.
Lemma wr_cli r v n s : iflag s = false ->
  wr r v n s = Ok tt (step_hw (EWr r v) (io_write r v (world s)) s).
Proof. intros Hf. unfold wr, poll, bind, wr_raw. by rewrite Hf. Qed.
Lemma call_cli o n s : iflag s = false ->
  call o n s = Ok tt (step_hw (EAvr o) (avr o (world s)) s).
Proof. intros Hf. unfold call, poll, bind, avr_raw. by rewrite Hf. Qed.

Ltac cli_step :=
  unfold bind at 1;
  first
  [ rewrite wr_cli by done
  | rewrite call_cli by done
  | match goal with |- context [rd ?r ?n ?s] =>
      let v := fresh "v" in let h := fresh "h" in let E := fresh "E" in
      destruct (rd_cli r n s eq_refl) as (v & h & E); rewrite E; clear E
    end ].

Lemma start_sketch_jumps n s :
  exists s' v w, start_sketch n s = Jump s' /\ iflag s' = false /\
    tr s' = quiesced v w ++ tr s /\ vars s' = vars s.
Proof.
  unfold start_sketch, L_LED_OFF, ACT_LED_OFF, clr_reg.
  unfold bind at 1, cli at 1. do 7 cli_step. unfold bind at 1.
  cli_step. rewrite wr_cli by done. unfold bind at 1.
  cli_step. rewrite wr_cli by done. unfold jump. eexists _, _, _. split; [reflexivity|].
  split; [done|]. split; [|done]. reflexivity.
Qed.
End Jumps.

Lemma bit_set_testbit v n : 0 <= n -> bit_set v (bv n) = Z.testbit v n.
Proof.
  intros Hn. unfold bit_set, truth, bv. rewrite Z.shiftl_1_l.
  destruct (Z.testbit v n) eqn:E.
  - apply negb_true_iff, Z.eqb_neq. intros H.
    assert (Z.testbit (Z.land v (2 ^ n)) n = false) as H' by (rewrite H; apply Z.bits_0).
    by rewrite Z.land_spec, E, Z.pow2_bits_true in H' by done.
  - apply negb_false_iff, Z.eqb_eq, z_ext. intros k Hk. rewrite Z.land_spec, Z.bits_0.
    destruct (decide (n = k)) as [->|Hne]; [by rewrite E|].
    by rewrite Z.pow2_bits_false, andb_false_r by lia.
Qed.

Section BootProps.
Context {B : Board} {I : BuildIds} {Opt : BuildOpts}.
#[local] Existing Instance adelino_vectors.
#[local] Existing Instance adelino_app.
#[local] Existing Instance adelino_link.

Lemma handlers_jump i : jumps_clean (isr i).
Proof.
  assert (@Closed B no_vectors isr_fp (fun A => jumps_clean)) as Hc.
  { apply (closed_weaken isr_fp tasks_fp); [solve_fp_le|]. by apply (jumps_closed (V := no_vectors)). }
  exact (cl_isr (V := no_vectors) (fun A => jumps_clean) i).
Qed.

Definition noreturn {A} (m : M A) : Prop := forall n s a s', m n s <> Ok a s'.

Lemma noreturn_bind {A C} (m : M A) (k : A -> M C) : (forall a, noreturn (k a)) -> noreturn (bind m k).
Proof. intros Hk n s a s'. unfold bind. destruct (m n s); [apply Hk|done|done]. Qed.

Lemma noreturn_start : noreturn start_sketch.
Proof.
  intros n s a s' E. destruct (start_sketch_jumps n s) as (? & ? & ? & E' & _). congruence.
Qed.

(** ** Theorems *)

(** C6: The firmware never returns from [main], and whenever it leaves for
    the sketch, from any state, on any board and through any path, the
    interrupts are off and the last thing it did to the hardware was to put
    UART, timer and interrupt vectors back and to switch the LEDs off. *)
Theorem main_leaves_clean n s :
  (forall a s', main n s <> Ok a s') /\
  (forall s', main n s = Jump s' -> iflag s' = false /\ exists v w d, tr s' = quiesced v w ++ d).
Proof.
  split.
  - intros a s'. assert (noreturn main) as H; [|apply H].
    unfold main. repeat first [exact noreturn_start | apply noreturn_bind; intros ?].
  - intros s'. pose proof (jumps_closed handlers_jump).
    apply (cl_main (fun A => jumps_clean)). intros k t t' E.
    destruct (start_sketch_jumps k t) as (t1 & v & w & E' & Hf & Ht & _).
    rewrite E' in E. injection E as <-. split; [done|]. eauto.
Qed.

(** After a power-on reset, or a watchdog reset without the boot key, a
    board that holds a sketch runs it at once: the firmware only clears the
    boot key and the reset flags, disables the watchdog and hands over; in
    particular it does not touch the USB controller. *)
Theorem reset_starts_sketch n s :
  iflag s = false ->
  let '(mc, h1) := io_read MCUSR (world s) in
  let h2 := avr wdt_disable (io_write MCUSR 0 h1) in
  u8 (pgm_byte 0 h2) + 256 * u8 (pgm_byte 1 h2) <> 0xFFFF ->
  Z.testbit mc EXTRF = false ->
  Z.testbit mc PORF = true \/
    (Z.testbit mc WDRF = true /\ var_of bootKeyMem s <> var_of bootKey s) ->
  exists s' v w, main n s = Jump s' /\
    tr s' = quiesced v w ++ [EAvr wdt_disable; EWr MCUSR 0; ERd MCUSR (u8 mc)] ++ tr s /\
    var_of bootKeyMem s' = 0.
Proof.
  intros Hf. destruct (io_read MCUSR (world s)) as [mc h1] eqn:Er. cbv zeta.
  intros Hw He Hp. unfold main, vget, rd, poll. unfold bind at 1 2. rewrite Hf.
  unfold get at 1. unfold bind at 1, put at 1. unfold bind at 1 2. cbn [iflag upd set_vars].
  rewrite Hf. unfold rd_raw at 1. cbn [world upd set_vars]. rewrite Er.
  unfold bind at 1. rewrite wr_cli by done. unfold bind at 1. rewrite call_cli by done.
  unfold bind at 1, pgm_read_word at 1. cbn [world step_hw upd set_vars].
  change (0 + 1) with 1. rewrite (proj2 (Z.eqb_neq _ _) Hw). cbn [negb].
  unfold bind at 1, get at 1. unfold bind at 1.
  assert (forall k, 0 <= k < 8 -> Z.testbit (u8 mc) k = Z.testbit mc k) as Hb.
  { intros k Hk. unfold u8. change 256 with (2 ^ 8). by rewrite Z.mod_pow2_bits_low by lia. }
  set (st := step_hw _ _ _).
  assert (boot_to_sketch (u8 mc) (var_of bootKeyMem s) (var_of bootKey st) true = true) as ->.
  { unfold boot_to_sketch. rewrite !bit_set_testbit, !Hb by done. rewrite He.
    replace (var_of bootKey st) with (var_of bootKey s).
    - destruct Hp as [->|[-> Hne]]; [done|]. rewrite (proj2 (Z.eqb_neq _ _)) by done.
      by destruct (Z.testbit mc PORF).
    - unfold st, var_of, upd. simpl. by rewrite lookup_total_insert_ne. }
  destruct (start_sketch_jumps n st) as (s' & v & w & E & _ & Ht & Hv). rewrite E.
  exists s', v, w. split; [done|]. split; [by rewrite Ht|].
  unfold var_of. rewrite Hv. unfold st, upd. simpl. by rewrite lookup_total_insert_eq.
Qed.
End BootProps.

(** ** The reset lines of the ESP8266 *)

(** Accesses to the port pins of the ESP8266 (GPIO15 on PB0, GPIO0 on PC7,
    CHIP_EN on PE2) and delays. *)
Definition line_event (e : event) : bool :=
  match e with
  | EWr (PORTB | DDRB | PORTC | DDRC | PORTE | DDRE) _ => true
  | EAvr (delay_ms _) => true
  | _ => false
  end.

Section Lines.
Context {B : Board}.
#[local] Existing Instance adelino_vectors.

(** The line events between two states, oldest first. *)
Definition logged (l : list event) (s s' : state) : Prop :=
  exists d, tr s' = d ++ tr s /\ List.filter line_event (rev d) = l.

Lemma logged_trans l1 l2 s1 s2 s3 : logged l1 s1 s2 -> logged l2 s2 s3 -> logged (l1 ++ l2) s1 s3.
Proof.
  intros (d1 & E1 & F1) (d2 & E2 & F2). exists (d2 ++ d1). rewrite E2, E1, app_assoc.
  split; [done|]. by rewrite rev_app_distr, List.filter_app, F1, F2.
Qed.

(** Interrupt handlers leave the lines alone. *)
Lemma within_isr_logged s s' : within isr_fp s s' -> logged [] s s'.
Proof.
  intros [_ _ (d & E & Hd)]. exists d. split; [done|].
  assert (forall l, forallb (allowed isr_fp) l = true -> List.filter line_event (rev l) = []) as H.
  { induction l as [|e l IH]; simpl; [done|]. intros [He Hl]%andb_true_iff.
    rewrite List.filter_app, (IH Hl). destruct e as [| r ? | |]; simpl in *; try done. by destruct r. }
  by apply H.
Qed.

(** The timer and UART handlers always return. *)
Lemma serve_returns i n s : i <> USB_GEN -> exists s', serve i n s = Ok tt s'.
Proof.
  intros Hi. unfold serve, bind, isr, adelino_vectors, adelino_isr.
  destruct i; [unfold TIMER1_COMPA_vect|unfold USART1_RX_vect|done].
  - unfold bind, get, put, ret.
    destruct (truth (var_of leds_enabled _)); (destruct (truth (var_of Timeout _)); by eexists).
  - unfold rd, poll, bind, rd_raw, get, get_obj, put_obj, put, ret. cbn [iflag set_iflag].
    destruct (io_read _ _). destruct (_ =? _); by eexists.
Qed.

(** No USB interrupt is pending. *)
Context (Hquiet : forall h : hw, USB_GEN ∉ (irqs h).1).

Lemma poll_returns n s : exists s', poll n s = Ok tt s'.
Proof.
  unfold poll. destruct (iflag s); [|by exists s]. pose proof (Hquiet (world s)) as Hl.
  destruct (irqs (world s)) as [l h]. cbn [fst] in Hl. generalize (set_world h s) as s1.
  induction l as [|i l IH]; intros s1; [by exists s1|].
  rewrite not_elem_of_cons in Hl. destruct Hl as [Hi Hl]. cbn [serve_all]. unfold bind at 1.
  destruct (serve_returns i n s1) as [s2 ->]; [congruence|]. by apply IH.
Qed.

Lemma poll_logged n s : exists s', poll n s = Ok tt s' /\ logged [] s s'.
Proof.
  destruct (poll_returns n s) as [s' E]. exists s'. split; [done|]. apply within_isr_logged.
  assert (keeps (within isr_fp) poll) as H.
  { apply keeps_poll, within_irqrel. intros i. apply handlers_within. solve_fp_le. }
  specialize (H n s). by rewrite E in H.
Qed.

Lemma rd_logged r n s : exists v s', rd r n s = Ok v s' /\ logged [] s s'.
Proof.
  destruct (poll_logged n s) as (s1 & E & H). unfold rd, bind. rewrite E. unfold rd_raw.
  destruct (io_read r (world s1)) as [v h]. eexists _, _. split; [reflexivity|].
  eapply (logged_trans [] []); [exact H|]. by exists [ERd r (u8 v)].
Qed.
Lemma wr_logged r v n s : line_event (EWr r v) = true ->
  exists s', wr r v n s = Ok tt s' /\ logged [EWr r v] s s'.
Proof.
  intros He. destruct (poll_logged n s) as (s1 & E & H). unfold wr, bind. rewrite E.
  eexists. split; [reflexivity|]. eapply (logged_trans [] [_]); [exact H|].
  exists [EWr r v]. cbn -[line_event]. by rewrite He.
Qed.
Lemma call_logged o n s : line_event (EAvr o) = true ->
  exists s', call o n s = Ok tt s' /\ logged [EAvr o] s s'.
Proof.
  intros He. destruct (poll_logged n s) as (s1 & E & H). unfold call, bind. rewrite E.
  eexists. split; [reflexivity|]. eapply (logged_trans [] [_]); [exact H|].
  exists [EAvr o]. cbn -[line_event]. by rewrite He.
Qed.

(** Read, modify, write of a line register. *)
Lemma modify_logged r f n s : line_event (EWr r 0) = true ->
  exists v s', (v <- rd r ;; wr r (f v)) n s = Ok tt s' /\ logged [EWr r (f v)] s s'.
Proof.
  intros He. destruct (rd_logged r n s) as (v & s1 & E1 & H1). unfold bind. rewrite E1.
  destruct (wr_logged r (f v) n s1) as (s2 & E2 & H2); [by destruct r|].
  exists v, s2. split; [done|]. exact (logged_trans [] _ _ _ _ H1 H2).
Qed.

(** Resetting the ESP8266 drives its lines in a glitch-free order:
    GPIO15 is low and GPIO0 has the level of the requested boot mode before
    their pins become outputs, both before CHIP_EN goes low; CHIP_EN stays
    low for a millisecond and is then released, and nothing else, no timer
    or UART handler included, touches the lines in between. *)
Theorem reset_esp_sequence program_mode n s :
  exists s' b0 b1 c0 c1 e0 e1 e2, reset_esp program_mode n s = Ok tt s' /\
    logged
      [EWr PORTB (Z.land b0 (Z.lnot (bv 0))); EWr DDRB (Z.lor b1 (bv 0));
       EWr PORTC (if program_mode : bool then Z.land c0 (Z.lnot (bv 7)) else Z.lor c0 (bv 7));
       EWr DDRC (Z.lor c1 (bv 7));
       EWr PORTE (Z.land e0 (Z.lnot (bv 2))); EWr DDRE (Z.lor e1 (bv 2));
       EAvr (delay_ms 1); EWr PORTE (Z.lor e2 (bv 2))] s s'.
Proof.
  unfold reset_esp, clr_reg, or_reg. unfold bind at 1.
  destruct (modify_logged PORTB (fun v => Z.land v (Z.lnot (bv 0))) n s eq_refl) as (b0 & s1 & -> & H1).
  unfold bind at 1.
  destruct (modify_logged DDRB (fun v => Z.lor v (bv 0)) n s1 eq_refl) as (b1 & s2 & -> & H2).
  unfold bind at 1.
  assert (exists c0 s3, (if program_mode then v <- rd PORTC;; wr PORTC (Z.land v (Z.lnot (bv 7)))
      else v <- rd PORTC;; wr PORTC (Z.lor v (bv 7))) n s2 = Ok tt s3 /\
    logged [EWr PORTC (if program_mode then Z.land c0 (Z.lnot (bv 7)) else Z.lor c0 (bv 7))] s2 s3)
    as (c0 & s3 & -> & H3).
  { destruct program_mode.
    - exact (modify_logged PORTC (fun v => Z.land v (Z.lnot (bv 7))) n s2 eq_refl).
    - exact (modify_logged PORTC (fun v => Z.lor v (bv 7)) n s2 eq_refl). }
  unfold bind at 1.
  destruct (modify_logged DDRC (fun v => Z.lor v (bv 7)) n s3 eq_refl) as (c1 & s4 & -> & H4).
  unfold bind at 1.
  destruct (modify_logged PORTE (fun v => Z.land v (Z.lnot (bv 2))) n s4 eq_refl) as (e0 & s5 & -> & H5).
  unfold bind at 1.
  destruct (modify_logged DDRE (fun v => Z.lor v (bv 2)) n s5 eq_refl) as (e1 & s6 & -> & H6).
  unfold bind at 1. destruct (call_logged (delay_ms 1) n s6 eq_refl) as (s7 & -> & H7).
  destruct (modify_logged PORTE (fun v => Z.lor v (bv 2)) n s7 eq_refl) as (e2 & s8 & -> & H8).
  exists s8, b0, b1, c0, c1, e0, e1, e2. split; [done|].
  apply (logged_trans [_] _ _ _ _ H1), (logged_trans [_] _ _ _ _ H2),
    (logged_trans [_] _ _ _ _ H3), (logged_trans [_] _ _ _ _ H4), (logged_trans [_] _ _ _ _ H5),
    (logged_trans [_] _ _ _ _ H6), (logged_trans [_] _ _ _ _ H7), H8.
Qed.
End Lines.
