(* ===== verification/Liveness.v ===== *)
(** * The bootloader times out

    With a silent host the main loop of a normal boot ends: the timer
    interrupt keeps coming, [Timeout] reaches zero, and the firmware starts the
    sketch.  The board promises that, while the timer is unmasked, a tick is
    taken at the latest after [tick_period] accesses. *)

From Stdlib Require Import Strings.Ascii.
From S2P Require Import Prelude Machine Logic Endpoint UsbDevice Descriptors Bootloader Avr109 Boot Programming CdcLink BootProps.

Class TickBoard (B : Board) {CB : CdcBoard B} := {
  tick_period : Z;
  next_tick : hw -> Z;
  next_tick_range h : 0 <= next_tick h < tick_period;
  next_tick_read r h : next_tick (io_read r h).2 = next_tick h;
  next_tick_write r v h : next_tick (io_write r v h) = next_tick h;
  tick_irqs h : c_timer (cdc_of h) <> 0 ->
    TIMER1_COMPA ∈ (irqs h).1 \/ next_tick (irqs h).2 < next_tick h;
  tick_silent h : USART1_RX ∉ (irqs h).1   (** the ESP8266 is silent *)
}.

Section Liveness.
Context {B : Board} {CB : CdcBoard B} {TB : TickBoard B} {I : BuildIds} {Opt : BuildOpts}.
#[local] Existing Instance adelino_vectors.
#[local] Existing Instance adelino_app.
#[local] Existing Instance adelino_link.

(** Accesses left before [Timeout] is zero. *)
Definition time_left (s : state) : Z :=
  var_of Timeout s * tick_period + next_tick (world s).

(** A normal boot with nothing to do, endpoints [c]. *)
Record idle (c : cdc) (s : state) : Prop := mkIdle {
  id_cdc : cdc_of (world s) = c;
  id_out : c_out c = [];
  id_in : c_in c = [];
  id_timer : c_timer c <> 0;
  id_iflag : iflag s = true;
  id_mode : var_of boot_mode s = BM_NORMAL_BOOT;
  id_state : var_of USB_DeviceState s <> DEVICE_STATE_Unattached;
  id_buffer : var_of buffer_in s = var_of buffer_out s;
  id_timeout : 0 <= var_of Timeout s < 256
}.

(** Time passes: not backwards, and strictly at each access until it is up. *)
Definition older (s s' : state) : Prop :=
  var_of Timeout s' <= var_of Timeout s /\
  (var_of Timeout s' = 0 \/ time_left s' <= time_left s).
Definition strictly_older (s s' : state) : Prop :=
  var_of Timeout s' <= var_of Timeout s /\
  (var_of Timeout s' = 0 \/ time_left s' < time_left s).

Lemma strictly_older_trans s1 s2 s3 c : idle c s3 ->
  strictly_older s1 s2 -> older s2 s3 -> strictly_older s1 s3.
Proof.
  intros Hi [H1 H2] [H4 H5]. pose proof (id_timeout _ _ Hi).
  unfold strictly_older. split; [lia|]. destruct H2, H5; (left; lia) || (right; lia).
Qed.

Lemma older_refl s : older s s.
Proof. unfold older. lia. Qed.
Lemma strictly_older_older s s' : strictly_older s s' -> older s s'.
Proof. unfold strictly_older, older. lia. Qed.
Lemma older_trans s1 s2 s3 c : idle c s3 -> older s1 s2 -> older s2 s3 -> older s1 s3.
Proof.
  intros Hi [H1 H2] [H4 H5]. pose proof (id_timeout _ _ Hi).
  unfold older. split; [lia|]. destruct H2, H5; (left; lia) || (right; lia).
Qed.

(** Updates of variables that the invariant does not mention. *)
Definition free_var (x : var) : bool :=
  match x with led_counter | led_control => true | _ => false end.
Lemma idle_upd c s x v : free_var x = true -> idle c s ->
  idle c (upd x v s) /\ older s (upd x v s).
Proof.
  intros Hx []. split.
  - split; try done; by rewrite ?var_of_upd_ne by (by intros ->).
  - unfold older, time_left. rewrite !var_of_upd_ne by (by intros ->). simpl. lia.
Qed.

(** ** The tick *)

(** One timer interrupt. *)
Lemma tick_serve c n s : idle c s ->
  exists s', serve TIMER1_COMPA n s = Ok tt s' /\ idle c s' /\ world s' = world s /\
    var_of Timeout s' = Z.max 0 (var_of Timeout s - 1).
Proof.
  intros Hi. unfold serve, bind, isr, adelino_vectors, adelino_isr, TIMER1_COMPA_vect.
  unfold bind, get, put, ret.
  set (s1 := set_iflag false _). assert (forall x, var_of x s1 = var_of x s) as H1 by done.
  set (s2 := if truth (var_of leds_enabled s1) then
               upd led_counter (var_of led_counter s1 + 1) s1 else s1).
  assert (forall x, x <> led_counter -> var_of x s2 = var_of x s) as H2.
  { intros x Hx. unfold s2. destruct (truth _); [by rewrite var_of_upd_ne|done]. }
  assert (world s2 = world s) as Hw2 by (unfold s2; by destruct (truth _)).
  set (s3 := if truth (var_of Timeout s2) then
               upd Timeout (var_of Timeout s2 - 1) s2 else s2).
  exists (set_iflag true s3). split.
  { unfold s3, s2. by destruct (truth (var_of leds_enabled s1)), (truth (var_of Timeout _)). }
  clearbody s2.
  assert (forall x, x <> led_counter -> x <> Timeout -> var_of x s3 = var_of x s) as H3.
  { intros x Hx Ht. unfold s3. destruct (truth (var_of Timeout s2)); [|by apply H2].
    rewrite var_of_upd_ne by done. by apply H2. }
  assert (world s3 = world s) as Hw3 by (unfold s3; by destruct (truth (var_of Timeout s2))).
  assert (var_of Timeout s3 = Z.max 0 (var_of Timeout s - 1)) as Ht.
  { pose proof (id_timeout _ _ Hi). unfold s3. rewrite H2 by done.
    destruct (truth (var_of Timeout s)) eqn:E; unfold truth in E.
    - rewrite var_of_upd_eq. unfold wrap, var_width. rewrite Z.mod_small; lia.
    - rewrite H2 by done. lia. }
  split; [|done]. destruct Hi.
  assert (forall x, var_of x (set_iflag true s3) = var_of x s3) as H4 by done.
  split; try done.
  - by rewrite <- Hw3 in id_cdc0.
  - by rewrite H4, H3.
  - by rewrite H4, H3.
  - by rewrite !H4, !H3.
  - rewrite H4, Ht. lia.
Qed.

Lemma tick_serve_all c n l : forall s, idle c s -> (forall i, i ∈ l -> i = TIMER1_COMPA) ->
  exists s', serve_all l n s = Ok tt s' /\ idle c s' /\ world s' = world s /\
    var_of Timeout s' = Z.max 0 (var_of Timeout s - Z.of_nat (length l)).
Proof.
  induction l as [|i l IH]; intros s Hi Hl.
  { exists s. pose proof (id_timeout _ _ Hi). repeat split; try done; try apply Hi. simpl. lia. }
  rewrite (Hl i) by (apply elem_of_cons; by left).
  destruct (tick_serve c n s Hi) as (s1 & E1 & H1 & Hw1 & Ht1).
  destruct (IH s1 H1) as (s2 & E2 & H2 & Hw2 & Ht2).
  { intros j Hj. apply Hl, elem_of_cons. by right. }
  exists s2. cbn [serve_all]. unfold bind. rewrite E1, E2, Hw2, Hw1, Ht2, Ht1.
  repeat split; try done; try apply H2. simpl length. lia.
Qed.

Lemma idle_poll c n s : idle c s ->
  exists s', poll n s = Ok tt s' /\ idle c s' /\ strictly_older s s'.
Proof.
  intros Hi. unfold poll. rewrite (id_iflag _ _ Hi).
  pose proof (cdc_of_irqs (world s)) as Hc. pose proof (cdc_no_usb (world s)) as Hu.
  pose proof (tick_silent (world s)) as Hx.
  pose proof (tick_irqs (world s)) as Ht. rewrite (id_cdc _ _ Hi) in Ht.
  specialize (Ht (id_timer _ _ Hi)).
  destruct (irqs (world s)) as [l h]; cbn [fst snd] in *.
  assert (idle c (set_world h s)) as H1.
  { destruct Hi. split; try done. etrans; [exact Hc|done]. }
  destruct (tick_serve_all c n l (set_world h s) H1) as (s' & E & H2 & Hw & Hm).
  { intros [] Hin; [done|by destruct (Hx Hin)|by destruct (Hu Hin)]. }
  exists s'. split; [done|]. split; [done|].
  change (var_of Timeout (set_world h s)) with (var_of Timeout s) in Hm.
  pose proof (id_timeout _ _ Hi). unfold strictly_older, time_left. rewrite Hw. cbn [world set_world].
  pose proof (next_tick_range h). pose proof (next_tick_range (world s)).
  split; [lia|]. destruct Ht as [Ht|Ht].
  - destruct l as [|i l]; [by apply not_elem_of_nil in Ht|]. simpl length in Hm.
    destruct (decide (var_of Timeout s' = 0)) as [|Hz]; [by left|right]. nia.
  - destruct (decide (var_of Timeout s' = 0)) as [|Hz]; [by left|right]. nia.
Qed.

(** ** Accesses *)

Lemma idle_step c c' s e h :
  idle c s -> cdc_of h = c' -> c_out c' = [] -> c_in c' = [] -> c_timer c' <> 0 ->
  next_tick h = next_tick (world s) -> idle c' (step_hw e h s) /\ older s (step_hw e h s).
Proof.
  intros [] Hc Ho Hn Ht Hk. split; [by split|].
  unfold older, time_left, var_of. simpl. lia.
Qed.

(** (The IN endpoint is not polled while there is nothing to do.) *)
Lemma idle_rd c n s r : (r = UEINTX -> c_sel c <> CDC_TX_EPNUM) -> idle c s ->
  exists v s', rd r n s = Ok (u8 v) s' /\ idle c s' /\ strictly_older s s' /\
    (forall w, cdc_val r c = Some w -> v = w).
Proof.
  intros Hr Hi. destruct (idle_poll c n s Hi) as (s1 & E & H1 & Ho). unfold rd, bind. rewrite E.
  unfold rd_raw. pose proof (cdc_of_read r (world s1)) as Hc.
  pose proof (cdc_of_val r (world s1)) as Hv. pose proof (next_tick_read r (world s1)) as Hk.
  rewrite (id_cdc _ _ H1) in Hc, Hv.
  destruct (io_read r (world s1)) as [v h]; cbn [fst snd] in *.
  replace (cdc_rd r c) with c in Hc by (unfold cdc_rd; rewrite (id_out _ _ H1); destruct r; try done; by rewrite poll_in_other by auto).
  destruct (idle_step c c s1 (ERd r (u8 v)) h H1 Hc) as [H2 Ho2]; try apply H1; [done|].
  exists v, (step_hw (ERd r (u8 v)) h s1). split; [done|]. split; [done|].
  split; [by eapply strictly_older_trans|]. by auto.
Qed.

(** Writes that keep the endpoints idle and the timer running. *)
Definition idle_write (r : reg) : bool :=
  match r with UEINTX | UEDATX | TIMSK1 => false | _ => true end.

Lemma idle_wr c n s r v : idle_write r = true -> idle c s ->
  exists s', wr r v n s = Ok tt s' /\ idle (cdc_wr r v c) s' /\ strictly_older s s'.
Proof.
  intros Hr Hi. destruct (idle_poll c n s Hi) as (s1 & E & H1 & Ho). unfold wr, bind. rewrite E.
  unfold wr_raw. pose proof (cdc_of_write r v (world s1)) as Hc. rewrite (id_cdc _ _ H1) in Hc.
  destruct (idle_step c _ s1 (EWr r v) (io_write r v (world s1)) H1 Hc) as [H2 Ho2];
    try (destruct r; try done; apply H1); [apply next_tick_write|].
  eexists. split; [reflexivity|]. split; [done|]. by eapply strictly_older_trans.
Qed.

Lemma idle_vget c n s x : idle c s ->
  exists s', vget x n s = Ok (var_of x s') s' /\ idle c s' /\ strictly_older s s'.
Proof.
  intros Hi. destruct (idle_poll c n s Hi) as (s1 & E & H1 & Ho). unfold vget, bind.
  rewrite E. by exists s1.
Qed.

Lemma older_then s1 s2 s3 c : idle c s3 ->
  older s1 s2 -> strictly_older s2 s3 -> strictly_older s1 s3.
Proof.
  intros Hi [H1 H2] [H4 H5]. pose proof (id_timeout _ _ Hi).
  unfold strictly_older. split; [lia|]. destruct H2, H5; (left; lia) || (right; lia).
Qed.

(** One access of a run, with [H : idle c s] and [O : older s0 s]. *)
Ltac idle_access H O :=
  let s' := fresh "s" in let v := fresh "v" in let E := fresh "E" in let H' := fresh H in
  let P := fresh "P" in let V := fresh "V" in
  lazymatch goal with
  | |- context [match rd ?r ?n ?s with _ => _ end] =>
      let T := type of H in
      lazymatch T with
      | idle ?c _ =>
          destruct (idle_rd c n s r ltac:(first [discriminate | intros _; cbn; discriminate]) H)
            as (v & s' & E & H' & P & V)
      end
  | |- context [match wr ?r ?x ?n ?s with _ => _ end] =>
      destruct (idle_wr _ n s r x eq_refl H) as (s' & E & H' & P)
  | |- context [match vget ?x ?n ?s with _ => _ end] =>
      destruct (idle_vget _ n s x H) as (s' & E & H' & P)
  end;
  rewrite E; clear E;
  apply (older_then _ _ _ _ H' O), strictly_older_older in P; clear O H;
  rename H' into H; rename P into O; cbn [cdc_wr] in H.
Ltac idle_run H O := first [idle_access H O | unfold bind at 1; idle_run H O | unfold ret at 1; idle_run H O].

Lemma idle_task c n s : idle c s ->
  exists s' e, USB_USBTask n s = Ok tt s' /\ idle (sel e c) s' /\ older s s'.
Proof.
  intros H. pose proof (older_refl s) as O. unfold USB_USBTask, USB_DeviceTask.
  idle_run H O. rewrite (proj2 (Z.eqb_neq _ _) (id_state _ _ H)).
  unfold Endpoint_GetCurrentEndpoint, Endpoint_SelectEndpoint, Endpoint_IsSETUPReceived, test_reg.
  idle_run H O. idle_run H O. idle_run H O. specialize (V0 _ eq_refl). cbn in V0. subst v0.
  unfold ret at 1. replace (bit_set _ _) with false by reflexivity. unfold ret at 1.
  destruct (idle_wr _ n _ UENUM (Z.land (u8 v) ENDPOINT_EPNUM_MASK) eq_refl H) as (s' & E & H' & P).
  rewrite E. exists s', (Z.land (u8 v) ENDPOINT_EPNUM_MASK). split; [done|]. split; [exact H'|].
  eapply strictly_older_older, older_then; eauto.
Qed.

Lemma idle_available c n s : idle c s ->
  exists s', usb_byte_available n s = Ok false s' /\ idle (sel CDC_RX_EPNUM c) s' /\ older s s'.
Proof.
  intros H. unfold usb_byte_available. destruct (idle_task c n s H) as (s1 & e & E1 & H1 & O).
  unfold bind at 1. rewrite E1.
  unfold Endpoint_SelectEndpoint, Endpoint_IsOUTReceived, test_reg.
  idle_run H1 O. idle_run H1 O. specialize (V _ eq_refl). cbn in V.
  rewrite (id_out _ _ H) in V. subst v. unfold ret. cbn. by eexists.
Qed.

Lemma idle_flush c n s : idle c s ->
  exists s', usb_flush n s = Ok tt s' /\ idle (sel CDC_TX_EPNUM c) s' /\ older s s'.
Proof.
  intros H. pose proof (older_refl s) as O. pose proof (id_in _ _ H) as Hc. unfold usb_flush.
  unfold Endpoint_SelectEndpoint, Endpoint_BytesInEndpoint.
  idle_run H O. idle_run H O. idle_run H O.
  specialize (V _ eq_refl). specialize (V0 _ eq_refl). cbn in V, V0. rewrite Hc in V0. subst v v0.
  unfold ret. cbn. by eexists.
Qed.

Lemma idle_drain c n s : idle c s -> (1 <= n)%nat ->
  exists s', while buffer_nonempty (c <- buffer_next ;; lk_write c) n s = Ok tt s' /\
    idle c s' /\ strictly_older s s'.
Proof.
  intros H Hn. unfold while, iter. destruct n as [|n]; [lia|]. rewrite iter_aux_S.
  unfold buffer_nonempty. unfold bind at 1 2.
  destruct (idle_vget _ (S n) s buffer_in H) as (s1 & E & H1 & P).
  rewrite E. unfold bind at 1, get at 1, ret at 1.
  rewrite (id_buffer _ _ H1), Z.eqb_refl. unfold ret. cbn. by eexists.
Qed.

Lemma idle_cdc_task c n s : idle c s -> (1 <= n)%nat ->
  exists s' c', CDC_Task n s = Ok tt s' /\ idle c' s' /\ strictly_older s s'.
Proof.
  intros H Hn. unfold CDC_Task.
  destruct (idle_drain c n s H Hn) as (s1 & E1 & H1 & P1). unfold bind at 1. rewrite E1.
  destruct (idle_flush c n s1 H1) as (s2 & E2 & H2 & P2). unfold bind at 1.
  change lk_flush with usb_flush. rewrite E2.
  destruct (idle_available _ n s2 H2) as (s3 & E3 & H3 & P3). unfold bind at 1.
  change lk_available with usb_byte_available. rewrite E3.
  eexists _, _. split; [reflexivity|]. split; [exact H3|].
  eapply strictly_older_trans; [exact H3| |exact P3].
  eapply strictly_older_trans; [exact H2|exact P1|exact P2].
Qed.

(** A read-modify-write of a LED. *)
Lemma idle_modify c n s r f : idle_write r = true -> (forall v c, cdc_wr r v c = c) -> idle c s ->
  exists s', (v <- rd r ;; wr r (f v)) n s = Ok tt s' /\ idle c s' /\ older s s'.
Proof.
  intros Hr Hw H. destruct (idle_rd c n s r ltac:(by intros ->) H) as (v & s1 & E1 & H1 & P1 & _).
  destruct (idle_wr c n s1 r (f (u8 v)) Hr H1) as (s2 & E2 & H2 & P2). rewrite Hw in H2.
  exists s2. unfold bind. rewrite E1, E2. split; [done|]. split; [done|].
  eapply strictly_older_older, older_then; [exact H2| |exact P2]. by apply strictly_older_older.
Qed.

Lemma idle_leds c n s r1 f1 r2 f2 : r1 = PORTC -> r2 = PORTD -> idle c s ->
  exists s', (bind (v <- rd r1 ;; wr r1 (f1 v)) (fun _ => v <- rd r2 ;; wr r2 (f2 v))) n s = Ok tt s' /\
    idle c s' /\ older s s'.
Proof.
  intros -> -> H.
  destruct (idle_modify c n s PORTC f1) as (s1 & E1 & H1 & P1); [done|done|done|].
  destruct (idle_modify c n s1 PORTD f2) as (s2 & E2 & H2 & P2); [done|done|done|].
  exists s2. unfold bind at 1. rewrite E1, E2. split; [done|]. split; [done|].
  by eapply older_trans.
Qed.

Lemma idle_led_task c n s : idle c s ->
  exists s', led_task n s = Ok tt s' /\ idle c s' /\ older s s'.
Proof.
  intros H. unfold led_task, L_LED_OFF, L_LED_ON, L_LED_TOGGLE, ACT_LED_OFF, ACT_LED_ON,
    ACT_LED_TOGGLE, clr_reg, or_reg, xor_reg. unfold bind at 1, get at 1.
  destruct (_ =? 0xff).
  - unfold bind at 1, get at 1. unfold bind at 1, put at 1. unfold bind at 1, get at 1.
    destruct (idle_upd c s led_counter (var_of led_counter s + 1) eq_refl H) as [H1 P1].
    destruct (_ <? _).
    + edestruct (idle_leds c n) as (s2 & E2 & H2 & P2); [reflexivity|reflexivity|exact H1|].
      exists s2. split; [exact E2|]. split; [done|]. by eapply older_trans.
    + edestruct (idle_leds c n) as (s2 & E2 & H2 & P2); [reflexivity|reflexivity|exact H1|].
      exists s2. split; [exact E2|]. split; [done|]. by eapply older_trans.
  - unfold bind at 1, get at 1. destruct (_ <? _); [|by exists s; split; [|split; [|apply older_refl]]].
    unfold bind at 1, put at 1.
    destruct (idle_upd c s led_counter 0 eq_refl H) as [H1 P1].
    edestruct (idle_leds c n) as (s2 & E2 & H2 & P2); [reflexivity|reflexivity|exact H1|].
    exists s2. split; [exact E2|]. split; [done|]. by eapply older_trans.
Qed.

Lemma idle_run_tasks c n s : idle c s -> (1 <= n)%nat ->
  exists s' c', run_tasks n s = Ok tt s' /\ idle c' s' /\ strictly_older s s'.
Proof.
  intros H Hn. unfold run_tasks.
  destruct (idle_cdc_task c n s H Hn) as (s1 & c1 & E1 & H1 & P1). unfold bind at 1. rewrite E1.
  unfold bind at 1, get at 1. destruct (truth _); [|by exists s1, c1].
  destruct (idle_led_task c1 n s1 H1) as (s2 & E2 & H2 & P2). exists s2, c1.
  split; [done|]. split; [done|]. by eapply strictly_older_trans.
Qed.

(** ** The loop *)

Definition loop_body (_ : unit) : M (unit + unit) :=
  b <- (m <- get boot_mode ;;
        if negb (m =? BM_NORMAL_BOOT) then ret true
        else t <- vget Timeout ;; ret (truth t)) ;;
  if b : bool then run_tasks ;; ret (inl tt) else ret (inr tt).

(** A round with time left runs the tasks. *)
Lemma loop_round c n s : idle c s -> (1 <= n)%nat ->
  exists s' c', idle c' s' /\
    ((loop_body tt n s = Ok (inr tt) s' /\ var_of Timeout s' = 0) \/
     (loop_body tt n s = Ok (inl tt) s' /\ var_of Timeout s <> 0 /\ strictly_older s s')).
Proof.
  intros H Hn. destruct (idle_vget _ n s Timeout H) as (s1 & E1 & H1 & P1).
  assert (loop_body tt n s = (if truth (var_of Timeout s1) then run_tasks ;; ret (inl tt)
                              else ret (inr tt)) n s1) as ->.
  { unfold loop_body. unfold bind at 1 2, get at 1. rewrite (id_mode _ _ H), Z.eqb_refl.
    cbn [negb]. unfold bind at 1. by rewrite E1. }
  destruct (truth (var_of Timeout s1)) eqn:Et; unfold truth in Et.
  - destruct (idle_run_tasks c n s1 H1 Hn) as (s2 & c2 & E2 & H2 & P2).
    exists s2, c2. split; [done|]. right. unfold bind. rewrite E2. split; [done|].
    split.
    + pose proof (id_timeout _ _ H1). destruct P1 as [P1 _]. pose proof (id_timeout _ _ H). lia.
    + eapply strictly_older_trans; [exact H2|exact P1|]. by apply strictly_older_older.
  - exists s1, c. split; [done|]. left. split; [done|]. lia.
Qed.

Lemma loop_ends n k : forall c s, idle c s -> (1 <= n)%nat ->
  var_of Timeout s = 0 \/ time_left s < Z.of_nat k ->
  exists s' c', iter_aux (S k) loop_body tt n s = Ok tt s' /\ idle c' s'.
Proof.
  induction k as [|k IH]; intros c s H Hn Hk; rewrite iter_aux_S;
    destruct (loop_round c n s H Hn) as (s1 & c1 & H1 & [[E1 _]|(E1 & Hz & [P1 P2])]);
    rewrite E1; try (by exists s1, c1).
  - pose proof (id_timeout _ _ H). pose proof (next_tick_range (world s)).
    unfold time_left in Hk. nia.
  - apply (IH c1 s1 H1 Hn). destruct P2; [by left|right]. lia.
Qed.

(** C9: A normal boot with a silent host ends.  From any state in which the
    bootloader has nothing to do, the main loop ends as soon as the timeout
    has run out (within as many rounds as there are accesses left), and the
    firmware detaches from the bus and starts the sketch. *)
Theorem silent_boot_starts_sketch c n s :
  idle c s -> (Z.to_nat (time_left s) + 2 <= n)%nat ->
  exists s', (bootloader_loop ;; USB_Detach ;; start_sketch) n s = Jump s' /\ clean s'.
Proof.
  intros H Hn. pose proof (next_tick_range (world s)).
  assert (0 <= time_left s) by (pose proof (id_timeout _ _ H); unfold time_left; nia).
  destruct n as [|k]; [lia|].
  destruct (loop_ends (S k) k c s H ltac:(lia)) as (s1 & c1 & E1 & Hi1).
  { right. lia. }
  change bootloader_loop with (iter loop_body tt). unfold bind at 1, iter at 1. rewrite E1.
  destruct (idle_modify c1 (S k) s1 UDCON (fun v => Z.lor v (bv DETACH)) eq_refl)
    as (s2 & E2 & Hi2 & _); [done|exact Hi1|].
  unfold bind at 1, USB_Detach, or_reg. rewrite E2.
  destruct (start_sketch_jumps (S k) s2) as (s3 & v & w & E3 & Hf & Ht & _).
  exists s3. split; [done|]. split; [done|]. by exists v, w, (tr s2).
Qed.

(** ** The timeout of the link *)

Lemma silent_round c n s : idle c s ->
  exists s' c', idle c' s' /\
    ((read_body tt n s = Ok (inr 0) s') \/
     (read_body tt n s = Ok (inl tt) s' /\ var_of Timeout s <> 0 /\ strictly_older s s')).
Proof.
  intros H. destruct (idle_available c n s H) as (s1 & E1 & H1 & P1).
  destruct (idle_vget _ n s1 Timeout H1) as (s2 & E2 & H2 & P2).
  destruct (idle_vget _ n s2 USB_DeviceState H2) as (s3 & E3 & H3 & P3).
  assert (P : strictly_older s s2) by (by eapply older_then).
  assert (read_body tt n s = if truth (var_of Timeout s2) then Ok (inl tt) s3 else Ok (inr 0) s2) as ->.
  { unfold read_body, endpoint_detached. unfold bind. rewrite E1, E2.
    destruct (truth (var_of Timeout s2)); cbn [negb]; [|done]. rewrite E3. unfold ret.
    by rewrite (proj2 (Z.eqb_neq _ _) (id_state _ _ H3)). }
  destruct (truth (var_of Timeout s2)) eqn:Et.
  - exists s3, (sel CDC_RX_EPNUM c). split; [done|]. right. split; [done|]. split.
    + pose proof (id_timeout _ _ H2). destruct P as [P _]. unfold truth in Et. pose proof (id_timeout _ _ H). lia.
    + eapply strictly_older_trans; [exact H3|exact P|]. by apply strictly_older_older.
  - exists s2, (sel CDC_RX_EPNUM c). split; [done|]. by left.
Qed.
Lemma read_gives_up n k : forall c s, idle c s -> var_of Timeout s = 0 \/ time_left s < Z.of_nat k ->
  exists s', iter_aux (S k) read_body tt n s = Ok 0 s'.
Proof.
  induction k as [|k IH]; intros c s H Hk; rewrite iter_aux_S;
    destruct (silent_round c n s H) as (s1 & c1 & H1 & [E1|(E1 & Hz & [P1 P2])]); rewrite E1; try (by exists s1).
  - pose proof (id_timeout _ _ H). pose proof (next_tick_range (world s)). unfold time_left in Hk. nia.
  - apply (IH c1 s1 H1). destruct P2; [by left|right]. lia.
Qed.

Context {SP : SpmBoard B}.

(** C12: A block write masks the timer, and with it the timeout of the link.  On a board
    whose timer keeps ticking while it is not masked, [usb_read_byte] gives up and
    returns 0 when the host is silent; but if the host stops sending after the header of
    a block write while the device stays attached and there is time left when the
    timer gets masked, the command never returns, however long it runs. *)
Theorem block_write_hangs :
  (forall c n s, idle c s -> (Z.to_nat (time_left s) + 2 <= n)%nat -> exists s', usb_read_byte n s = Ok 0 s') /\
  (forall n size s s1 s2, read_block_header n s = Ok (size, ch "F") s1 -> wr TIMSK1 0 n s1 = Ok tt s2 -> 0 < size ->
     var_of Timeout s2 <> 0 -> var_of USB_DeviceState s2 <> DEVICE_STATE_Unattached -> cdc_rx s2 = [] ->
     ReadWriteMemoryBlock_minimal (ch "B") n s = NoFuel).
Proof.
  split.
  - intros c n s H Hn. pose proof (next_tick_range (world s)).
    assert (0 <= time_left s) by (pose proof (id_timeout _ _ H); unfold time_left; nia).
    destruct n as [|k]; [lia|]. change usb_read_byte with (iter read_body tt). unfold iter.
    apply (read_gives_up (S k) k c s H). right. lia.
  - intros n size s s1 s2 E1 E2 Hz Ht Hd Hr. unfold ReadWriteMemoryBlock_minimal. unfold bind at 1. rewrite E1.
    rewrite Z.eqb_refl. cbn [negb]. unfold bind at 1. rewrite E2. change (ch "B" =? ch "g") with false. cbv iota.
    pose proof (masked_write_hangs n size s1 s2 E2 Hz Ht Hd Hr) as E.
    unfold bind, get in E |- *. repeat case_match; congruence.
Qed.
End Liveness.
