(* ===== verification/RingBuffer.v ===== *)
(** * The UART receive buffer

    [buffer], [buffer_in] and [buffer_out] of Adelino.c: a circular buffer of
    256 bytes with byte indexes, filled by the UART interrupt and emptied by
    the main program without any lock.  Specification: a FIFO queue of at most
    255 bytes.  The interleaving of the interrupt with the accesses of the main
    program is a step relation: the steps of [ch = buffer[buffer_out++]] (whose read
    and increment are unsequenced in C) and the resets, [buffer_out = 0] and
    [buffer_in = 0], of [reset_esp_and_wait] and [ESP8266_programmer]. *)

From S2P Require Import Prelude Machine Logic Endpoint UsbDevice Descriptors Bootloader Avr109 Boot Programming.

Record ring := mkRing { r_buf : list Z; r_in : Z; r_out : Z }.

Definition ring_ok (r : ring) : Prop :=
  length (r_buf r) = 256%nat /\ is_u8 (r_in r) /\ is_u8 (r_out r).

Definition cell (r : ring) (i : Z) : Z := nth (Z.to_nat i) (r_buf r) 0.
Definition count (r : ring) : nat := Z.to_nat ((r_in r - r_out r) mod 256).

(** The queue a ring stands for, oldest byte first. *)
Definition contents (r : ring) : list Z :=
  map (fun k => cell r ((r_out r + Z.of_nat k) mod 256)) (seq 0 (count r)).

(** What the interrupt does with the byte [c], and what taking a byte does. *)
Definition ring_push (c : Z) (r : ring) : ring :=
  let next := u8 (r_in r + 1) in
  if next =? r_out r then r
  else mkRing (<[Z.to_nat (r_in r) := c]> (r_buf r)) next (r_out r).
Definition ring_bump (r : ring) : ring := mkRing (r_buf r) (r_in r) (u8 (r_out r + 1)).

(** The two stores of a reset. *)
Definition ring_out0 (r : ring) : ring := mkRing (r_buf r) (r_in r) 0.
Definition ring_in0 (r : ring) : ring := mkRing (r_buf r) 0 (r_out r).

Lemma length_contents r : length (contents r) = count r.
Proof. unfold contents. by rewrite length_map, length_seq. Qed.

Lemma count_bound r : (count r < 256)%nat.
Proof. unfold count. pose proof (Z.mod_pos_bound (r_in r - r_out r) 256). lia. Qed.

Lemma ring_push_ok c r : ring_ok r -> ring_ok (ring_push c r).
Proof.
  intros (Hl & Hi & Ho). unfold ring_push. destruct (_ =? _); [done|].
  split; simpl; [by rewrite length_insert|]. auto with fw.
Qed.
Lemma ring_bump_ok r : ring_ok r -> ring_ok (ring_bump r).
Proof. intros (Hl & Hi & Ho). split; simpl; auto with fw. Qed.

Lemma nth_insert_eq (l : list Z) i v : (i < length l)%nat -> nth i (<[i := v]> l) 0 = v.
Proof. intros Hi. rewrite nth_lookup, list_lookup_insert_eq by done. done. Qed.

(** A push appends unless 255 bytes are stored, in which case it changes nothing. *)
Lemma contents_push c r : ring_ok r ->
  contents (ring_push c r) =
  if (length (contents r) <? 255)%nat then contents r ++ [c] else contents r.
Proof.
  intros (Hl & Hi & Ho). rewrite length_contents. unfold ring_push, is_u8, u8 in *.
  destruct (Z.eqb_spec ((r_in r + 1) mod 256) (r_out r)) as [E|E].
  - replace (count r <? 255)%nat with false; [done|]. symmetry. apply Nat.ltb_ge.
    unfold count. rewrite <- E. mlia.
  - assert (count r < 255)%nat as Hc by (unfold count; mlia).
    rewrite (proj2 (Nat.ltb_lt _ _) Hc). unfold contents, count at 1. cbn [r_in r_out].
    replace (Z.to_nat (((r_in r + 1) mod 256 - r_out r) mod 256)) with (S (count r))
      by (unfold count in *; mlia).
    rewrite seq_S, map_app. cbn [map]. unfold cell. cbn [r_buf]. f_equal.
    + apply map_ext_in. intros k Hk%in_seq. apply nth_insert_ne. unfold count in *. mlia.
    + f_equal. replace ((r_out r + Z.of_nat (0 + count r)) mod 256) with (r_in r)
        by (unfold count; mlia).
      apply nth_insert_eq. rewrite Hl. lia.
Qed.

(** With bytes stored, the cell at the output index is the oldest byte and
    incrementing the index removes it. *)
Lemma contents_pop r : ring_ok r -> r_in r <> r_out r ->
  contents r = cell r (r_out r) :: contents (ring_bump r).
Proof.
  intros (Hl & Hi & Ho) Hne. unfold contents, is_u8 in *.
  assert (count r = S (count (ring_bump r))) as ->.
  { unfold count, ring_bump, u8. cbn [r_in r_out]. mlia. }
  simpl. f_equal.
  - f_equal. rewrite Z.add_0_r. apply Z.mod_small. lia.
  - rewrite <- seq_shift, map_map. apply map_ext. intros k. unfold cell, u8. simpl. f_equal. f_equal. mlia.
Qed.

Lemma contents_nil r : ring_ok r -> r_in r = r_out r <-> contents r = [].
Proof.
  intros (Hl & Hi & Ho). unfold is_u8 in *. rewrite <- length_zero_iff_nil, length_contents.
  unfold count. split; intros; mlia.
Qed.

(** ** The firmware on the ring *)

Section Firmware.
Context {B : Board}.

Definition ring_of (s : state) : ring :=
  mkRing (obj_of buffer s) (var_of buffer_in s) (var_of buffer_out s).

Lemma obj_of_upd_obj o l (s : state) : obj_of o (upd_obj o l s) = l.
Proof. unfold obj_of, upd_obj. simpl. by rewrite lookup_total_insert_eq. Qed.

Lemma isr_push n s :
  exists s', @USART1_RX_vect B no_vectors n (set_iflag false s) = Ok tt s' /\
    let '(c, h) := io_read UDR1 (world s) in ring_of s' = ring_push (u8 c) (ring_of s).
Proof.
  unfold USART1_RX_vect, rd, poll, bind, rd_raw, get, get_obj, put_obj, put, ret.
  cbn [iflag set_iflag world]. destruct (io_read UDR1 (world s)) as [c h].
  unfold ring_push, ring_of. cbn [r_in r_out r_buf].
  change (var_of buffer_in (step_hw _ _ _)) with (var_of buffer_in s).
  change (var_of buffer_out (step_hw _ _ _)) with (var_of buffer_out s).
  change (obj_of buffer (step_hw _ _ _)) with (obj_of buffer s).
  destruct (_ =? _); eexists; (split; [reflexivity|]); [done|].
  set (st := step_hw _ _ _). f_equal.
  - change (obj_of buffer (upd buffer_in ?v (upd_obj buffer ?l st)))
      with (obj_of buffer (upd_obj buffer l st)). apply obj_of_upd_obj.
  - rewrite var_of_upd_eq. unfold wrap, u8. simpl. by rewrite Z.mod_mod.
  - by rewrite var_of_upd_ne.
Qed.

Lemma next_pop n s :
  exists s', buffer_next n s = Ok (cell (ring_of s) (r_out (ring_of s))) s' /\
    ring_of s' = ring_bump (ring_of s).
Proof.
  unfold buffer_next, bind, get, get_obj, put, ret. eexists. split; [reflexivity|].
  unfold ring_of, ring_bump. cbn [r_buf r_in r_out]. f_equal.
  - by rewrite var_of_upd_ne.
  - by rewrite var_of_upd_eq.
Qed.

Lemma ring_of_out0 (s : state) : ring_of (upd buffer_out 0 s) = ring_out0 (ring_of s).
Proof. unfold ring_of, ring_out0. cbn [r_buf r_in r_out]. by rewrite var_of_upd_eq, var_of_upd_ne. Qed.
Lemma ring_of_in0 (s : state) : ring_of (upd buffer_in 0 s) = ring_in0 (ring_of s).
Proof. unfold ring_of, ring_in0. cbn [r_buf r_in r_out]. by rewrite var_of_upd_eq, var_of_upd_ne. Qed.

(** The last two stores of [reset_esp_and_wait]. *)
Lemma reset_esp_empties {V : Vectors} {I : BuildIds} pm n s s' : reset_esp_and_wait pm n s = Ok tt s' ->
  exists s1, s' = upd buffer_in 0 (upd buffer_out 0 s1).
Proof.
  unfold reset_esp_and_wait.
  match goal with |- context [while ?c ?b] => generalize (while c b) end. intros w.
  unfold bind, put. intros E. repeat (case_match; try done). injection E as <-. by eexists.
Qed.
End Firmware.

(** ** Interleavings

    [Loaded v]: the byte [v] has been read, the index not yet incremented.
    [Bumped o]: the index has been incremented, cell [o] not yet read.
    [Resetting seen]: [buffer_out] has been set to 0; [seen] when [buffer_in] has been
    set to 0 too, or has been found to be 0, since. *)

Inductive pc := Idle | Loaded (v : Z) | Bumped (o : Z) | Resetting (seen : bool).

(** The bytes accepted and taken are counted from the last reset on. *)
Record sys := mkSys { sy_ring : ring; sy_pc : pc; sy_accepted : list Z; sy_consumed : list Z }.

(** Did the interrupt store the byte? *)
Definition stored (r : ring) : bool := negb (u8 (r_in r + 1) =? r_out r).

Inductive step : sys -> sys -> Prop :=
  | step_isr r p a c b :
      step (mkSys r p a c) (mkSys (ring_push b r) p (if stored r then a ++ [b] else a) c)
  | step_load r a c : r_in r <> r_out r ->
      step (mkSys r Idle a c) (mkSys r (Loaded (cell r (r_out r))) a c)
  | step_then_bump r v a c :
      step (mkSys r (Loaded v) a c) (mkSys (ring_bump r) Idle a (c ++ [v]))
  | step_bump r a c : r_in r <> r_out r ->
      step (mkSys r Idle a c) (mkSys (ring_bump r) (Bumped (r_out r)) a c)
  | step_then_load r o a c :
      step (mkSys r (Bumped o) a c) (mkSys r Idle a (c ++ [cell r o]))
  | step_out0 r a c :
      step (mkSys r Idle a c) (mkSys (ring_out0 r) (Resetting false) a c)
  | step_in0 r b a c :
      step (mkSys r (Resetting b) a c) (mkSys (ring_in0 r) (Resetting true) [] [])
  | step_seen0 r a c : r_in r = 0 ->
      step (mkSys r (Resetting false) a c) (mkSys r (Resetting true) [] [])
  | step_ready r a c :
      step (mkSys r (Resetting true) a c) (mkSys r Idle a c).

Definition empty_ring : ring := mkRing (repeat 0 256) 0 0.
Definition start : sys := mkSys empty_ring Idle [] [].

(** The byte that the main program is about to take. *)
Definition in_flight (y : sys) : list Z :=
  match sy_pc y with Bumped o => [cell (sy_ring y) o] | _ => [] end.

Record inv (y : sys) : Prop := mkInv {
  inv_ok : ring_ok (sy_ring y);
  inv_fifo : sy_pc y <> Resetting false ->
    sy_accepted y = sy_consumed y ++ in_flight y ++ contents (sy_ring y);
  inv_pc :
    match sy_pc y with
    | Idle => True
    | Loaded v => r_in (sy_ring y) <> r_out (sy_ring y) /\ v = cell (sy_ring y) (r_out (sy_ring y))
    | Bumped o => is_u8 o /\ r_out (sy_ring y) = u8 (o + 1)
    | Resetting _ => r_out (sy_ring y) = 0
    end
}.

Lemma stored_count r : ring_ok r -> stored r = (length (contents r) <? 255)%nat.
Proof.
  intros (Hl & Hi & Ho). rewrite length_contents. unfold stored, count, is_u8, u8 in *.
  destruct (Z.eqb_spec ((r_in r + 1) mod 256) (r_out r)); simpl; symmetry;
    [apply Nat.ltb_ge|apply Nat.ltb_lt]; mlia.
Qed.

(** The interrupt does not overwrite a cell the main program still reads. *)
Lemma push_cell c r o : ring_ok r -> is_u8 o ->
  r_out r = o /\ r_in r <> o \/ r_out r = u8 (o + 1) -> cell (ring_push c r) o = cell r o.
Proof.
  intros (Hl & Hi & Ho) Hu Hx. unfold ring_push, cell. destruct (Z.eqb_spec (u8 (r_in r + 1)) (r_out r)); [done|].
  simpl. apply nth_insert_ne. unfold is_u8, u8 in *.
  destruct Hx as [[Hx1 Hx2]|Hx]; [lia|]. intros E. apply n. rewrite Hx. f_equal. lia.
Qed.

Lemma push_out c r : r_out (ring_push c r) = r_out r.
Proof. unfold ring_push. by destruct (_ =? _). Qed.
Lemma push_in c r : ring_ok r -> r_in r <> r_out r -> r_in (ring_push c r) <> r_out (ring_push c r).
Proof.
  intros (Hl & Hi & Ho) Hne. unfold ring_push. by destruct (Z.eqb_spec (u8 (r_in r + 1)) (r_out r)).
Qed.

Lemma push_flight p b r : ring_ok r ->
  match p with Bumped o => is_u8 o /\ r_out r = u8 (o + 1) | _ => True end ->
  match p with Bumped o => [cell (ring_push b r) o] | _ => [] end =
  match p with Bumped o => [cell r o] | _ => [] end.
Proof. intros Hok Hp. destruct p as [| |o|]; try done. destruct Hp as [Hu Hr]. by rewrite push_cell by auto. Qed.

Lemma ring_out0_ok r : ring_ok r -> ring_ok (ring_out0 r).
Proof. intros (Hl & Hi & Ho). split; simpl; [done|]. split; [done|]. unfold is_u8. lia. Qed.
Lemma ring_in0_ok r : ring_ok r -> ring_ok (ring_in0 r).
Proof. intros (Hl & Hi & Ho). split; simpl; [done|]. split; [|done]. unfold is_u8. lia. Qed.

Lemma inv_isr r p a c b : inv (mkSys r p a c) ->
  inv (mkSys (ring_push b r) p (if stored r then a ++ [b] else a) c).
Proof.
  intros [Hok Hf Hp]. cbn in *. split; cbn; [by apply ring_push_ok| |].
  - intros Hn. specialize (Hf Hn). rewrite stored_count, contents_push by done.
    generalize (length (contents r) <? 255)%nat as room. intros room.
    unfold in_flight in *. cbn in *. rewrite push_flight by (done || by destruct p).
    destruct room; [|done]. by rewrite Hf, <- !app_assoc.
  - destruct p as [|v|o|]; [done| |by rewrite push_out|by rewrite push_out].
    destruct Hp as [Hne ->]. split; [by apply push_in|]. rewrite push_out.
    symmetry. apply push_cell; [done|apply Hok|by left].
Qed.

Lemma inv_step y y' : step y y' -> inv y -> inv y'.
Proof.
  intros Hs Hi. destruct Hs; [by apply inv_isr| | | | | | | |]; destruct Hi as [Hok Hf Hp]; cbn in *;
    unfold in_flight in Hf; cbn in Hf.
  - split; cbn; [done|intros _; by apply Hf|done].
  - destruct Hp as [Hne ->]. split; cbn; [by apply ring_bump_ok| |done].
    unfold in_flight. cbn. by rewrite Hf, (contents_pop r), <- app_assoc by done.
  - split; cbn; [by apply ring_bump_ok| |split; [apply Hok|done]].
    unfold in_flight. cbn. by rewrite Hf, (contents_pop r) by done.
  - destruct Hp as [Hu Hr]. split; cbn; [done| |done].
    unfold in_flight. cbn. by rewrite Hf, <- app_assoc.
  - split; cbn; [by apply ring_out0_ok|done|done].
  - split; cbn; [by apply ring_in0_ok| |done]. intros _. unfold in_flight. cbn. symmetry.
    apply contents_nil; [by apply ring_in0_ok|done].
  - split; cbn; [done| |done]. intros _. unfold in_flight. cbn. symmetry. apply contents_nil; congruence.
  - split; cbn; [done|intros _; by apply Hf|done].
Qed.

Lemma inv_start : inv start.
Proof. split; cbn; [split; [done|split; unfold is_u8; simpl; lia]|done|done]. Qed.

Lemma inv_reachable y : rtc step start y -> inv y.
Proof.
  assert (forall x, rtc step x y -> inv x -> inv y) as H.
  { induction 1 as [|x1 x2 x3 Hs _ IH]; [done|]. intros Hi. by eapply IH, inv_step. }
  intros Hr. by eapply H, inv_start.
Qed.

(** ** Theorems *)

Section Theorems.
Context {B : Board}.

(** The receive buffer refines a queue of at most 255 bytes: the UART
    interrupt appends the received byte, or drops it when 255 bytes are
    stored; taking a byte returns the oldest one and removes it; and the
    index comparison of the main program decides emptiness. *)
Theorem uart_buffer_refines_queue n s :
  ring_ok (ring_of s) ->
  (exists s', @USART1_RX_vect B no_vectors n (set_iflag false s) = Ok tt s' /\
     ring_ok (ring_of s') /\
     contents (ring_of s') =
       (if (length (contents (ring_of s)) <? 255)%nat
        then contents (ring_of s) ++ [u8 (io_read UDR1 (world s)).1]
        else contents (ring_of s))) /\
  (forall b q, contents (ring_of s) = b :: q ->
     exists s', buffer_next n s = Ok b s' /\ ring_ok (ring_of s') /\ contents (ring_of s') = q) /\
  (@buffer_nonempty B no_vectors n (set_iflag false s) =
     Ok (negb (bool_decide (contents (ring_of s) = []))) (set_iflag false s)).
Proof.
  intros Hok. split; [|split].
  - destruct (isr_push n s) as (s' & E & Hr). exists s'. split; [done|].
    destruct (io_read UDR1 (world s)) as [c h]. rewrite Hr. cbn [fst].
    split; [by apply ring_push_ok|by apply contents_push].
  - intros b q Hc. destruct (next_pop n s) as (s' & E & Hr). exists s'. rewrite E, Hr.
    assert (r_in (ring_of s) <> r_out (ring_of s)) as Hne.
    { intros Eq%contents_nil; [|done]. by rewrite Eq in Hc. }
    rewrite (contents_pop _ Hok Hne) in Hc. injection Hc as <- <-.
    split; [done|]. split; [by apply ring_bump_ok|done].
  - unfold buffer_nonempty, vget, poll, bind, get, ret. cbn [iflag set_iflag].
    do 2 f_equal. change (var_of buffer_in (set_iflag false s)) with (r_in (ring_of s)).
    change (var_of buffer_out (set_iflag false s)) with (r_out (ring_of s)).
    pose proof (contents_nil (ring_of s) Hok) as Hn.
    destruct (Z.eqb_spec (r_in (ring_of s)) (r_out (ring_of s)));
      case_bool_decide; tauto.
Qed.

(** C5: Lock-free sharing is safe.  In every interleaving of the interrupt with the
    accesses of the main program to the buffer - taking a byte, in either order of reading
    the cell and incrementing the index, and the resets of [reset_esp_and_wait] and
    [ESP8266_programmer] - the bytes taken since the last reset are a prefix of the
    bytes accepted since then, in order, none lost or duplicated: what has been accepted is
    what was taken, followed by the byte in flight and the stored bytes (a reset that
    has not come to [buffer_in] yet apart).  The
    steps are those of the code: the handler is a push, [buffer_next] reads the
    cell and increments the index, [reset_esp_and_wait] ends with a whole reset. *)
Theorem uart_buffer_interleavings y :
  rtc step start y ->
  (sy_pc y <> Resetting false -> sy_accepted y = sy_consumed y ++ in_flight y ++ contents (sy_ring y)) /\
  (length (contents (sy_ring y)) <= 255)%nat /\
  (forall n s, ring_of s = sy_ring y ->
    (exists s', @USART1_RX_vect B no_vectors n (set_iflag false s) = Ok tt s' /\
       ring_of s' = ring_push (u8 (io_read UDR1 (world s)).1) (sy_ring y)) /\
    (exists s', buffer_next n s = Ok (cell (sy_ring y) (r_out (sy_ring y))) s' /\ ring_of s' = ring_bump (sy_ring y)))  /\
  (forall (V : Vectors) (I : BuildIds) pm n s s', reset_esp_and_wait pm n s = Ok tt s' ->
     exists s1, ring_of s' = ring_in0 (ring_out0 (ring_of s1)) /\ contents (ring_of s') = []).
Proof.
  intros Hr. destruct (inv_reachable y Hr) as [_ Hf _]. split; [done|]. split; [|split].
  - rewrite length_contents. pose proof (count_bound (sy_ring y)). lia.
  - intros n s <-. split; [|apply next_pop]. destruct (isr_push n s) as (s' & E & H). exists s'. split; [done|].
    by destruct (io_read UDR1 (world s)).
  - intros V I pm n s s' E. destruct (reset_esp_empties pm n s s' E) as (s1 & ->). exists s1.
    rewrite ring_of_in0, ring_of_out0. done.
Qed.
End Theorems.
