(* ===== verification/Bridge.v ===== *)
(** * The bridge between the host and the ESP8266

    While the ESP8266 is programmed, the loop of [ESP8266_programmer] passes the
    bytes of the host to the UART and the bytes of the UART to the host.  Its
    specification is a pair of channels; each round of the loop, with the
    interrupts that come during it, is a sequence of steps of that specification. *)

From S2P Require Import Prelude Machine Logic Endpoint UsbDevice Descriptors Bootloader Avr109 Boot Frame Programming CdcLink Safety RingBuffer.

(** ** The specification *)

(** Received by the UART so far; received, not dropped and not yet passed on;
    passed on to the host; bytes of the host still to be passed on; sent by the
    UART so far. *)
Record chan := mkChan {
  ch_heard : list Z; up_queue : list Z; up_done : list Z; down_queue : list Z; down_done : list Z
}.

(** A received byte is stored unless 255 are stored. *)
Definition enqueue (q : list Z) (b : Z) : list Z := if (length q <? 255)%nat then q ++ [b] else q.

Inductive bstep : chan -> chan -> Prop :=
  | b_hear h q u d e b : bstep (mkChan h q u d e) (mkChan (h ++ [b]) (enqueue q b) u d e)
  | b_up h q u d e b : bstep (mkChan h (b :: q) u d e) (mkChan h q (u ++ [b]) d e)
  | b_down h q u d e b : bstep (mkChan h q u (b :: d) e) (mkChan h q u d (e ++ [b])).

(** Towards the ESP8266 nothing is lost, added or reordered.  Towards the host the
    bytes are a subsequence of those received, in order, and all of them unless the
    buffer overflows. *)
Record transfers (c c' : chan) : Prop := {
  tf_down : down_done c' ++ down_queue c' = down_done c ++ down_queue c;
  tf_prefix : up_done c `prefix_of` up_done c' /\ down_done c `prefix_of` down_done c';
  tf_up : exists new acc, ch_heard c' = ch_heard c ++ new /\ acc `sublist_of` new /\
    up_done c' ++ up_queue c' = up_done c ++ up_queue c ++ acc /\
    (length (up_queue c) + length new <= 255 -> acc = new)%nat
}.

Lemma transfers_refl c : transfers c c.
Proof. split; [done | done |]. exists [], []. by rewrite !app_nil_r. Qed.

Lemma bstep_transfers c0 c c' : transfers c0 c -> bstep c c' -> transfers c0 c'.
Proof.
  intros [Hd [Hp1 Hp2] (new & acc & Hh & Hs & Hu & Hn)] Hb.
  destruct Hb as [h q u d e b | h q u d e b | h q u d e b]; cbn in *.
  - split; cbn; [done | done |]. unfold enqueue. destruct (Nat.ltb_spec (length q) 255) as [Hlt | Hge].
    + exists (new ++ [b]), (acc ++ [b]). rewrite Hh, !app_assoc, Hu, <- !app_assoc. split_and!; [done | | done |].
      * by apply sublist_app.
      * rewrite length_app. simpl. intros Hl. by rewrite Hn by lia.
    + exists (new ++ [b]), acc. rewrite Hh, <- app_assoc. split_and!; [done | | done |].
      * etrans; [exact Hs | by apply sublist_inserts_r].
      * rewrite length_app. simpl. intros Hl. exfalso. rewrite Hn in Hu by lia.
        apply (f_equal length) in Hu. rewrite !length_app in Hu. apply prefix_length in Hp1. lia.
  - split; cbn; [done | split; [by apply prefix_app_r | done] |]. exists new, acc. by rewrite <- app_assoc.
  - split; cbn; [by rewrite <- Hd, <- app_assoc | split; [done | by apply prefix_app_r] |]. by exists new, acc.
Qed.

Lemma steps_transfers c c' : rtc bstep c c' -> transfers c c'.
Proof.
  intros Hr. assert (H : forall x, transfers c x -> rtc bstep x c' -> transfers c c').
  { intros x Hx Hxc. revert Hx. induction Hxc as [| x y z Hs _ IH]; [done |]. intros Hx. by eapply IH, bstep_transfers. }
  exact (H c (transfers_refl c) Hr).
Qed.

(** ** The UART in the trace *)

Fixpoint heard (t : list event) : list Z :=
  match t with
  | [] => []
  | ERd UDR1 v :: t' => heard t' ++ [v]
  | _ :: t' => heard t'
  end.
(** The transmitter has been found free, by a read of [UDRE1], since the last byte was
    given to it: only then is it sure to take another one. *)
Fixpoint tx_ready (t : list event) : bool :=
  match t with
  | [] => false
  | EWr UDR1 _ :: _ => false
  | ERd UCSR1A v :: _ => bit_set v (bv UDRE1)
  | _ :: t' => tx_ready t'
  end.
(** A byte that is written while the transmitter may be busy is lost. *)
Fixpoint spoken (t : list event) : list Z :=
  match t with
  | [] => []
  | EWr UDR1 v :: t' => if tx_ready t' then spoken t' ++ [v] else spoken t'
  | _ :: t' => spoken t'
  end.

(** The polls of the UART that found it ready for a byte. *)
Fixpoint polls (t : list event) : nat :=
  match t with
  | [] => 0%nat
  | ERd UCSR1A v :: t' => if bit_set v (bv UDRE1) then S (polls t') else polls t'
  | _ :: t' => polls t'
  end.

Lemma heard_app d t : heard (d ++ t) = heard t ++ heard d.
Proof.
  induction d as [| e d IH]; simpl; [by rewrite app_nil_r |].
  destruct e as [[] v | | |]; simpl; try done. by rewrite IH, app_assoc.
Qed.
(** The transmitter is neither used nor polled. *)
Definition tx_quiet (e : event) : bool :=
  match e with EWr UDR1 _ | ERd UCSR1A _ => false | _ => true end.
Lemma tx_quiet_app d t : Forall (fun e => tx_quiet e = true) d ->
  spoken (d ++ t) = spoken t /\ tx_ready (d ++ t) = tx_ready t /\ polls (d ++ t) = polls t.
Proof. induction 1 as [| e d He _ (H1 & H2 & H3)]; [done |]. by destruct e as [[] | [] | |]. Qed.

Definition push_all (bs : list Z) (r : ring) : ring := fold_left (fun r b => ring_push b r) bs r.

Section Fed.
Context {B : Board}.

(** The receive buffer changes only by the bytes that the UART receives, and
    nothing is sent. *)
Definition fed (s s' : state) : Prop :=
  exists d, tr s' = d ++ tr s /\ Forall (fun e => tx_quiet e = true) d /\ ring_of s' = push_all (heard d) (ring_of s).

#[export] Instance fed_preorder : PreOrder fed.
Proof.
  split.
  - intros s. by exists [].
  - intros s1 s2 s3 (d1 & T1 & S1 & R1) (d2 & T2 & S2 & R2). exists (d2 ++ d1).
    rewrite T2, T1, app_assoc, heard_app. split_and!; [done | by apply Forall_app |].
    unfold push_all in *. by rewrite R2, R1, fold_left_app.
Qed.

Definition uart_event (e : event) : bool :=
  match e with ERd UDR1 _ | EWr UDR1 _ | ERd UCSR1A _ => true | _ => false end.

Lemma fed_step e h s : uart_event e = false -> fed s (step_hw e h s).
Proof. intros He. exists [e]. destruct e as [[] | [] | |]; try done; split_and!; try done; by repeat constructor. Qed.
Lemma ring_of_upd x v s : x <> buffer_in -> x <> buffer_out -> ring_of (upd x v s) = ring_of s.
Proof. intros Hi Ho. unfold ring_of. by rewrite !var_of_upd_ne by done. Qed.
Lemma fed_upd x v s : x <> buffer_in -> x <> buffer_out -> fed s (upd x v s).
Proof. intros Hi Ho. exists []. split_and!; [done | done |]. by apply ring_of_upd. Qed.
Lemma fed_same s s' : tr s' = tr s -> vars s' = vars s -> mem s' = mem s -> fed s s'.
Proof. intros E1 E2 E3. exists []. unfold ring_of, var_of, obj_of. by rewrite E1, E2, E3. Qed.
Lemma fed_upd_obj o l s : o <> buffer -> fed s (upd_obj o l s).
Proof.
  intros Ho. exists []. split_and!; [done | done |]. unfold ring_of. f_equal.
  unfold obj_of, upd_obj. simpl. by rewrite lookup_total_insert_ne.
Qed.

Lemma fed_closed {V : Vectors} F : IrqRel fed -> fp_le F stack_fp -> Closed F (fun A => keeps fed).
Proof.
  intros HR (H1 & H2 & H3 & H4 & H5). apply keeps_closed; [done | ..].
  - intros r v h s Hr. apply fed_step. apply H1 in Hr. by destruct r.
  - intros x v s Hx. apply fed_upd; apply H2 in Hx; by destruct x.
  - intros o l s Ho. apply fed_upd_obj. apply H3 in Ho. by destruct o.
  - intros r v h s Hr. apply fed_step. apply H4 in Hr. by destruct r.
  - intros o h s Ho. by apply H5 in Ho.
Qed.

Lemma fed_no_vectors : IrqRel (V := no_vectors) fed.
Proof.
  split; [exact _ | intros; by apply fed_step | intros; by apply fed_same | intros; by apply fed_same |].
  intros i n s. simpl. reflexivity.
Qed.
End Fed.

Section Bridge.
Context {B : Board} {SP : SpmBoard B} {CB : CdcBoard B} {TK : TickBudget B} {I : BuildIds}.
#[local] Existing Instance adelino_vectors.
#[local] Existing Instance adelino_link.
#[local] Existing Instance adelino_app.

(** *** Interrupts *)

(** The rest of the receive interrupt, after the byte has been read. *)
Lemma fed_store n s c h :
  match (i <- get buffer_in ;; o <- get buffer_out ;;
         if u8 (i + 1) =? o then ret tt
         else l <- get_obj buffer ;; put_obj buffer (<[Z.to_nat i := c]> l) ;; put buffer_in (u8 (i + 1)))%fw
        n (step_hw (ERd UDR1 c) h s) with
  | Ok _ s' | Jump s' => fed s s'
  | NoFuel => True
  end.
Proof.
  set (s1 := step_hw (ERd UDR1 c) h s).
  assert (R1 : ring_of s1 = ring_of s) by done. assert (T1 : tr s1 = [ERd UDR1 c] ++ tr s) by done.
  clearbody s1. unfold bind, get, get_obj, put_obj, put, ret.
  destruct (u8 (var_of buffer_in s1 + 1) =? var_of buffer_out s1) eqn:E; exists [ERd UDR1 c]; (split; [exact T1 |]); (split; [by repeat constructor |]);
    cbn [heard push_all fold_left app]; rewrite <- R1; unfold ring_push, ring_of; cbn [r_in r_out r_buf]; rewrite E; [done |].
  f_equal.
  - apply (obj_of_upd_obj buffer).
  - rewrite var_of_upd_eq. unfold wrap, u8. simpl. by rewrite Z.mod_mod.
  - by rewrite var_of_upd_ne.
Qed.

Lemma fed_isr i : keeps fed (isr i).
Proof.
  pose proof fed_no_vectors as HN. unfold isr, adelino_vectors, adelino_isr. destruct i.
  - intros n s. unfold TIMER1_COMPA_vect, bind, get, put, ret.
    destruct (truth (var_of leds_enabled s)); destruct (truth _);
      repeat first [reflexivity | apply fed_upd; discriminate | etrans; [| apply fed_upd; discriminate]].
  - intros n s. pose proof (keeps_poll (V := no_vectors) fed n s) as Hp. unfold USART1_RX_vect, rd. unfold bind at 1 2.
    destruct (@poll B no_vectors n s) as [[] s1 | s1 |]; [| done | done].
    unfold rd_raw. destruct (io_read UDR1 (world s1)) as [v h].
    pose proof (fed_store n s1 (u8 v) h) as Hs. cbv beta iota zeta in Hs |- *.
    destruct (bind _ _ n _); try done; (etrans; [exact Hp | exact Hs]).
  - assert (Closed (V := no_vectors) gen_fp (fun A => keeps fed)) as Hc by (apply (fed_closed (V := no_vectors)); [done | solve_fp_le]).
    exact (cl_USB_GEN (V := no_vectors) (fun A => keeps fed)).
Qed.

#[local] Instance fed_irq : IrqRel fed.
Proof.
  split; [exact _ | intros; by apply fed_step | intros; by apply fed_same | intros; by apply fed_same | exact fed_isr].
Qed.

Lemma fed_stack : Closed stack_fp (fun A => keeps fed).
Proof. apply fed_closed; [exact _ | solve_fp_le]. Qed.

Lemma fed_run {A} (m : M A) n s a s' : keeps fed m -> m n s = Ok a s' -> fed s s'.
Proof. intros Hk E. specialize (Hk n s). by rewrite E in Hk. Qed.

(** ** One round *)

Abbreviation lkst fz := (lkst_k fz 0).

Definition abs (s : state) : chan :=
  mkChan (heard (tr s)) (contents (ring_of s)) (cdc_tx s) (cdc_rx s) (spoken (tr s)).

(** The bridge works: the device is attached, the buffer and the endpoints are in
    order, and a round takes less than [USB_COMM_TIMEOUT]. *)
Record bridging (s : state) : Prop := {
  br_ring : ring_ok (ring_of s);
  br_cdc : cdc_ok (cdc_at s);
  br_state : var_of USB_DeviceState s <> DEVICE_STATE_Unattached;
  br_rts : var_of rts_pulse s = 0;
  br_budget : budget;
  br_ticks : ticks_at s < USB_COMM_TIMEOUT
}.

Lemma bridging_lk s c s' :
  bridging s -> lkst false s c s' -> cdc_ok c -> ring_ok (ring_of s') -> bridging s'.
Proof.
  intros [H1 H2 H3 H4 H5 H6] [E1 [Hq _] E2 _ E5 _] Hc Hr. split; [done | by rewrite E1 | by rewrite E2 | by rewrite Hq | done |].
  specialize (E5 H5). lia.
Qed.

Lemma push_all_ok bs r : ring_ok r -> ring_ok (push_all bs r).
Proof. revert r. induction bs as [| b bs IH]; intros r Hr; [done |]. apply IH. by apply ring_push_ok. Qed.

Lemma contents_push_all bs r : ring_ok r -> contents (push_all bs r) = fold_left enqueue bs (contents r).
Proof.
  revert r. induction bs as [| b bs IH]; intros r Hr; [done |]. cbn [push_all fold_left].
  rewrite IH by (by apply ring_push_ok). unfold enqueue at 3. by rewrite contents_push.
Qed.

Lemma hear_steps bs h q u d e :
  rtc bstep (mkChan h q u d e) (mkChan (h ++ bs) (fold_left enqueue bs q) u d e).
Proof.
  revert h q. induction bs as [| b bs IH]; intros h q; [by rewrite app_nil_r |].
  eapply rtc_l; [apply b_hear |]. specialize (IH (h ++ [b]) (enqueue q b)). by rewrite <- app_assoc in IH.
Qed.

(** Bytes that arrive while nothing else happens to the channels. *)
Lemma fed_abs s s' : fed s s' -> ring_ok (ring_of s) ->
  exists bs, ring_ok (ring_of s') /\ contents (ring_of s') = fold_left enqueue bs (contents (ring_of s)) /\
    heard (tr s') = heard (tr s) ++ bs /\ spoken (tr s') = spoken (tr s) /\ polls (tr s') = polls (tr s) /\ tx_ready (tr s') = tx_ready (tr s).
Proof.
  intros (d & T & S & R) Hr. exists (heard d). destruct (tx_quiet_app d (tr s) S) as (E1 & E2 & E3).
  rewrite T, R, heard_app, E1, E2, E3. split; [by apply push_all_ok |]. split; [by apply contents_push_all | done].
Qed.

Lemma fed_steps s s' : fed s s' -> ring_ok (ring_of s) -> cdc_tx s' = cdc_tx s -> cdc_rx s' = cdc_rx s ->
  rtc bstep (abs s) (abs s') /\ ring_ok (ring_of s').
Proof.
  intros Hf Hr Ht Hx. destruct (fed_abs s s' Hf Hr) as (bs & Hr' & Hc & Hh & Hs & _). split; [| done].
  unfold abs. rewrite Hc, Hh, Hs, Ht, Hx. apply hear_steps.
Qed.

Lemma bind_run {A C} (m : M A) (k : A -> M C) n s a s' : m n s = Ok a s' -> bind m k n s = k a n s'.
Proof. unfold bind. by intros ->. Qed.

(** What a part of the round leaves: steps of the specification towards the host
    only, except for the bytes of [down] that are passed on; the UART was found
    ready [k] times. *)
Record part (down : list Z) (k : nat) (s s' : state) : Prop := {
  pt_steps : rtc bstep (abs s) (abs s');
  pt_bridging : bridging s';
  pt_spoken : spoken (tr s') = spoken (tr s) ++ down;
  pt_polls : polls (tr s') = (k + polls (tr s))%nat
}.

Lemma part_trans d1 d2 k1 k2 s1 s2 s3 :
  part d1 k1 s1 s2 -> part d2 k2 s2 s3 -> part (d1 ++ d2) (k1 + k2) s1 s3.
Proof.
  intros [H1 H2 H3 H4] [G1 G2 G3 G4]. split; [by etrans | done | by rewrite G3, H3, app_assoc | lia].
Qed.

(** A part that only lets bytes arrive. *)
Lemma part_fed s s' c : bridging s -> fed s s' -> lkst false s c s' -> cdc_ok c ->
  sent_bytes c = sent_bytes (cdc_at s) -> concat (c_out c) = concat (c_out (cdc_at s)) -> part [] 0 s s'.
Proof.
  intros Hb Hf Hl Hc Ht Hx. pose proof (lk_cdc _ _ _ _ _ Hl) as Ec. pose proof (br_ring _ Hb) as H1.
  destruct (fed_steps s s' Hf H1) as [Hs Hr]; [unfold cdc_tx; by rewrite Ec | unfold cdc_rx; by rewrite Ec |].
  destruct (fed_abs s s' Hf H1) as (_ & _ & _ & _ & ES & EP & _).
  split; [done | | | done].
  - by eapply bridging_lk.
  - by rewrite ES, app_nil_r.
Qed.

Lemma part_poll n s : bridging s -> exists s', poll n s = Ok tt s' /\ part [] 0 s s' /\ cdc_at s' = cdc_at s /\ (live 0 s -> live 0 s') /\
  exists bs, contents (ring_of s') = fold_left enqueue bs (contents (ring_of s)).
Proof.
  intros Hb. destruct (run_poll false s (cdc_at s) n s (lkst_start s)) as (s' & E & Hl). exists s'.
  assert (Hf : fed s s') by (eapply fed_run; [apply keeps_poll; exact _ | exact E]).
  split; [done |]. split; [by eapply part_fed; [| | exact Hl | apply Hb | |] |]. split; [apply Hl |]. split; [apply Hl |].
  destruct (fed_abs s s' Hf (br_ring _ Hb)) as (bs & _ & Hc & _). by exists bs.
Qed.

Lemma enqueue_all_head bs b q : exists q', fold_left enqueue bs (b :: q) = b :: q'.
Proof.
  revert q. induction bs as [| x bs IH]; intros q; [by exists q |]. cbn [fold_left]. unfold enqueue at 2.
  destruct (_ <? _)%nat; apply IH.
Qed.

(** The oldest stored byte goes to the host. *)
Lemma bridge_up n s : (cdc_latency < n)%nat -> bridging s -> live 0 s ->
  exists c s', (ne <- buffer_nonempty ;; if ne : bool then c <- buffer_next ;; lk_write c ;; ret c else ret 0)%fw n s = Ok c s' /\
    part [] 0 s s' /\ live 0 s' /\ c_out (cdc_at s') = c_out (cdc_at s) /\
    (forall b q, contents (ring_of s) = b :: q -> cdc_tx s' = cdc_tx s ++ [b]).
Proof.
  intros Hn Hb Hv. destruct (part_poll n s Hb) as (s1 & E1 & P1 & C1 & V1 & bs & Q1). pose proof (pt_bridging _ _ _ _ P1) as B1.
  specialize (V1 Hv). rewrite (bind_run _ _ n s (negb (r_in (ring_of s1) =? r_out (ring_of s1))) s1)
    by (unfold buffer_nonempty, vget, bind, get, ret; by rewrite E1).
  destruct (Z.eqb_spec (r_in (ring_of s1)) (r_out (ring_of s1))) as [Eq | Hne]; cbn [negb].
  - exists 0, s1. split; [done |]. split; [done |]. split; [done |]. split; [by rewrite C1 |]. intros b q Hq. exfalso.
    apply contents_nil in Eq; [| apply B1]. rewrite Q1, Hq in Eq. destruct (enqueue_all_head bs b q) as (q' & E). by rewrite E in Eq.
  - set (b0 := cell (ring_of s1) (r_out (ring_of s1))). set (s2 := upd buffer_out (var_of buffer_out s1 + 1) s1).
    assert (Hp : buffer_next n s1 = Ok b0 s2) by done. rewrite (bind_run _ _ _ _ _ _ Hp).
    assert (R2 : ring_of s2 = ring_bump (ring_of s1)).
    { destruct (next_pop n s1) as (s' & E & HR). rewrite Hp in E. by injection E as <-. }
    pose proof (contents_pop _ (br_ring _ B1) Hne) as Hpop. fold b0 in Hpop. rewrite <- R2 in Hpop.
    assert (B2 : bridging s2).
    { destruct B1. split; [rewrite R2; by apply ring_bump_ok | done | unfold s2; by rewrite var_of_upd_ne .. | done | done]. }
    assert (V2 : live 0 s2) by (unfold live, s2; by rewrite var_of_upd_ne).
    destruct (run_write_byte false s2 (cdc_at s2) n s2 b0 Hn (br_state _ B2) V2 (br_cdc _ B2) (lkst_start s2))
      as (s3 & c3 & E3 & L3 & K3 & O3 & T3).
    rewrite (bind_run _ _ _ _ _ _ E3). pose proof fed_stack.
    assert (F3 : fed s2 s3) by (eapply fed_run; [apply (cl_usb_write_byte (fun A => keeps fed)) | exact E3]).
    destruct (fed_abs s2 s3 F3 (br_ring _ B2)) as (bs3 & R3 & Q3 & H3 & S3 & N3 & _). pose proof (lk_cdc _ _ _ _ _ L3) as C3.
    assert (Htx : cdc_tx s3 = cdc_tx s1 ++ [b0]) by (unfold cdc_tx; rewrite C3, T3; done).
    exists b0, s3. split; [done |]. split; [| split; [by apply (lk_live _ _ _ _ _ L3) | split]].
    + apply (part_trans [] [] 0 0 s s1 s3 P1). split.
      * unfold abs. rewrite Hpop, H3, S3, Htx, Q3. unfold cdc_rx at 2. rewrite C3, O3.
        eapply rtc_l; [apply b_up |]. apply hear_steps.
      * by eapply bridging_lk.
      * by rewrite S3, app_nil_r.
      * done.
    + by rewrite C3, O3, <- C1.
    + intros b q Hq. destruct (enqueue_all_head bs b q) as (q' & E). rewrite Q1, Hq, E in Hpop. injection Hpop as <- _.
      rewrite Htx. unfold cdc_tx. by rewrite C1.
Qed.

(** The end of a SLIP frame is handed over at once. *)
Lemma bridge_flush (b : bool) n s : (cdc_latency < n)%nat -> bridging s -> live 0 s ->
  exists s', (If b Then lk_flush)%fw n s = Ok tt s' /\ part [] 0 s s' /\
    c_out (cdc_at s') = c_out (cdc_at s) /\ cdc_tx s' = cdc_tx s.
Proof.
  intros Hn Hb Hv. destruct b; [| exists s; split; [done |]; split; [| done]; by eapply part_fed; [| | apply lkst_start | apply Hb | |]].
  destruct (run_usb_flush false s (cdc_at s) n s Hn (br_state _ Hb) Hv (br_cdc _ Hb) (lkst_start s)) as (s' & E & L). exists s'. split; [done |].
  pose proof fed_stack. assert (F : fed s s') by (eapply fed_run; [apply (cl_usb_flush (fun A => keeps fed)) | exact E]).
  pose proof (lk_cdc _ _ _ _ _ L) as C. split; [| split].
  - eapply part_fed; [done | done | exact L | apply cdc_ok_flushed, Hb | apply flushed_bytes | done].
  - by rewrite C.
  - unfold cdc_tx. rewrite C. apply flushed_bytes.
Qed.

(** Reading the status of the UART. *)
Lemma status_ok n s : bridging s ->
  exists v s', rd UCSR1A n s = Ok v s' /\ part [] (if bit_set v (bv UDRE1) then 1 else 0) s s' /\ cdc_at s' = cdc_at s /\
    tx_ready (tr s') = bit_set v (bv UDRE1).
Proof.
  intros Hb. destruct (part_poll n s Hb) as (s1 & E1 & P1 & C1 & _). unfold rd, bind. rewrite E1.
  pose proof (ticks_poll (world s1)) as Hk. unfold rd_raw.
  pose proof (cdc_of_read UCSR1A (world s1)) as Hc. destruct (io_read UCSR1A (world s1)) as [v h]. cbn [snd cdc_rd] in Hc, Hk.
  eexists _, _. split; [done |]. destruct P1 as [H1 H2 H3 H4]. split.
  - split.
    + etrans; [exact H1 |]. unfold abs, cdc_tx, cdc_rx, cdc_at. cbn. rewrite Hc. reflexivity.
    + destruct H2 as [? ? ? ? Hg Ht]. split; [done | unfold cdc_at; cbn; by rewrite Hc | done.. |].
      specialize (Hk Hg). unfold ticks_at in *. cbn. lia.
    + done.
    + cbn [tr step_hw polls]. destruct (bit_set _ _); rewrite H4; done.
  - split; [unfold cdc_at; cbn; rewrite Hc; exact C1 | done].
Qed.

(** The byte at the head of the bank of the OUT endpoint. *)
Definition ready_byte (c : cdc) : list Z :=
  match c_out c with (b :: _) :: _ => [b] | _ => [] end.

Lemma cdc_ok_release c : cdc_ok c -> cdc_ok (release c).
Proof.
  intros [H1 H2 H3 H4 H5 H6]. unfold release. destruct (c_out c) as [| [| b p] q] eqn:E; rewrite ?E in *; try by split; rewrite ?E.
  apply Forall_cons in H1 as [_ H1], H3 as [_ H3]. split; cbn in *; try done. destruct q; [done |]. by apply Forall_cons in H2 as [_ H2].
Qed.
Lemma release_bytes c : concat (c_out (release c)) = concat (c_out c).
Proof. unfold release. by destruct (c_out c) as [| [|]] eqn:E; rewrite ?E. Qed.

Lemma pass_ok n s b p q : bridging s -> tx_ready (tr s) = true -> c_sel (cdc_at s) = CDC_RX_EPNUM -> c_out (cdc_at s) = (b :: p) :: q ->
  exists s', (b <- Endpoint_Read_8 ;; wr UDR1 b)%fw n s = Ok tt s' /\
    part [b] 0 s s' /\ cdc_tx s' = cdc_tx s /\ c_out (cdc_at s') = p :: q.
Proof.
  intros Hb Hx Hs Ho. pose proof (br_cdc _ Hb) as [Hz Hf Hu Hi Hfree Hlat]. pose proof fed_stack. rewrite Ho in Hz, Hf, Hu.
  destruct (run_rd false s (cdc_at s) n s UEDATX b (lkst_start s)) as (s1 & E1 & L1); [cbn; by rewrite Hs, Ho |].
  assert (Eb : u8 b = b) by (apply u8_id; apply Forall_cons in Hu as [[Hb' _]%Forall_cons _]; exact Hb'). rewrite Eb in E1.
  rewrite (bind_run _ _ _ _ b s1) by exact E1.
  destruct (run_poll false s _ n s1 L1) as (s2 & E2 & L2). unfold wr. rewrite (bind_run _ _ _ _ _ _ E2).
  assert (F : fed s s2).
  { etrans; [eapply fed_run; [apply (cl_rd (P := fun A => keeps fed) UEDATX); done | exact E1] |].
    eapply fed_run; [apply keeps_poll; exact _ | exact E2]. }
  destruct (fed_abs s s2 F (br_ring _ Hb)) as (bs & R2 & Q2 & H2 & S2 & N2 & X2). rewrite Hx in X2. clear Hx. pose proof (lk_cdc _ _ _ _ _ L2) as C2.
  set (c := cdc_at s) in *. cbn [cdc_rd] in L2, C2. rewrite Ho, Hs in L2, C2. cbn in L2, C2.
  assert (Hok : cdc_ok (cdc_at s2)).
  { rewrite C2. apply Forall_cons in Hz as [Hz1 Hz], Hu as [Hu1 Hu]. cbn in Hz1. split; cbn; try done; constructor; try done; [lia |].
    by apply Forall_cons in Hu1 as [_ Hu1]. }
  assert (B2 : bridging s2) by (rewrite C2 in Hok; by eapply bridging_lk).
  unfold wr_raw. set (s3 := step_hw _ _ s2). exists s3. split; [done |].
  assert (C3 : cdc_at s3 = cdc_at s2) by (unfold cdc_at, s3; cbn; by rewrite cdc_of_write).
  assert (Hx : cdc_rx s = b :: cdc_rx s3) by (unfold cdc_rx; rewrite C3, C2; fold c; by rewrite Ho).
  assert (Ht : cdc_tx s3 = cdc_tx s) by (unfold cdc_tx; rewrite C3, C2; done).
  split; [| split; [done | by rewrite C3, C2]]. split.
  - eapply rtc_r; [unfold abs at 1; rewrite Hx; apply (hear_steps bs) |].
    unfold abs. rewrite Ht. cbn [tr s3 step_hw heard spoken]. rewrite H2, X2, S2.
    change (ring_of s3) with (ring_of s2). rewrite Q2. apply b_down.
  - destruct B2 as [? ? ? ? Hg Hti]. split; [done | by rewrite C3 | done.. |].
    pose proof (ticks_write UDR1 b (world s2) Hg). unfold ticks_at in *. cbn. lia.
  - cbn. by rewrite X2, S2.
  - done.
Qed.

(** A byte of the host goes to the UART. *)
Lemma down_ok n s : bridging s -> tx_ready (tr s) = true ->
  exists s', (a <- lk_available ;; If a Then (b <- Endpoint_Read_8 ;; wr UDR1 b))%fw n s = Ok tt s' /\
    part (ready_byte (cdc_at s)) 0 s s' /\ cdc_tx s' = cdc_tx s /\
    c_out (cdc_at s') = match c_out (cdc_at s) with [] => [] | [] :: q => q | (_ :: p) :: q => p :: q end.
Proof.
  intros Hb Hx. pose proof (br_cdc _ Hb) as Hc.
  destruct (run_available false s (cdc_at s) n s (br_state _ Hb) (cdc_ok_hd _ Hc) (lkst_start s)) as (s1 & E1 & L1).
  rewrite (bind_run _ _ _ _ _ _ E1). pose proof fed_stack.
  assert (F1 : fed s s1) by (eapply fed_run; [apply (cl_usb_byte_available (fun A => keeps fed)) | exact E1]).
  pose proof (lk_cdc _ _ _ _ _ L1) as C1.
  assert (P1 : part [] 0 s s1).
  { eapply part_fed; [done | done | exact L1 | apply cdc_ok_sel, cdc_ok_release, Hc | |].
    - unfold sel, release, sent_bytes. by destruct (c_out (cdc_at s)) as [| []].
    - cbn. apply release_bytes. }
  unfold avail, ready_byte. destruct (c_out (cdc_at s)) as [| [| b p] q] eqn:Eo.
  - exists s1. split; [done |]. split; [done |]. unfold cdc_tx. rewrite C1. unfold release. rewrite Eo. done.
  - exists s1. split; [done |]. split; [done |]. unfold cdc_tx. rewrite C1. unfold release. rewrite Eo. done.
  - cbn [andb]. destruct (pass_ok n s1 b p q (pt_bridging _ _ _ _ P1)) as (s2 & E2 & P2 & T2 & O2).
    + by destruct (fed_abs s s1 F1 (br_ring _ Hb)) as (_ & _ & _ & _ & _ & _ & ->).
    + by rewrite C1.
    + rewrite C1. unfold release. by rewrite Eo.
    + exists s2. split; [exact E2 |]. split; [exact (part_trans _ _ _ _ _ _ _ P1 P2) |]. split; [| done].
      rewrite T2. unfold cdc_tx. rewrite C1. unfold release. by rewrite Eo.
Qed.

(** What a ready poll leaves of the packets of the host: one byte less, or one
    empty packet less. *)
Definition advance (out : list (list Z)) : list (list Z) :=
  match out with [] => [] | [] :: q => q | (_ :: p) :: q => p :: q end.

Lemma bridging_timeout v s : bridging s -> bridging (upd Timeout v s).
Proof. intros []. by split; rewrite ?var_of_upd_ne, ?ring_of_upd. Qed.

Lemma bridge_round n s : (cdc_latency < n)%nat -> bridging s ->
  exists s' r down, esp_bridge n s = Ok tt s' /\ part down (if r : bool then 1 else 0) s s' /\
    c_out (cdc_at s') = (if r then advance (c_out (cdc_at s)) else c_out (cdc_at s)) /\
    (forall b q, contents (ring_of s) = b :: q -> cdc_tx s' = cdc_tx s ++ [b]).
Proof.
  intros Hn Hb. unfold esp_bridge. rewrite (bind_run _ _ _ _ tt (upd Timeout USB_COMM_TIMEOUT s)) by done.
  set (s0 := upd Timeout USB_COMM_TIMEOUT s). assert (B0 : bridging s0) by (by apply bridging_timeout).
  assert (R0 : ring_of s0 = ring_of s) by (by apply ring_of_upd).
  assert (P0 : part [] 0 s s0) by (split; [unfold abs; by rewrite R0 | done | by rewrite app_nil_r | done]).
  assert (V0 : live 0 s0).
  { destruct B0 as [_ _ _ _ Hg Ht]. split; [done |]. unfold s0 at 2 3. rewrite var_of_upd_eq. change (wrap _ _) with 5. change USB_COMM_TIMEOUT with 5 in Ht. lia. }
  destruct (bridge_up n s0 Hn B0 V0) as (c & s1 & E1 & P1 & V1 & O1 & U1).
  set (k := fun c : Z => bind (if c =? 0xc0 then lk_flush else ret tt)
    (fun _ => bind (test_reg UCSR1A UDRE1) (fun txe : bool =>
      if txe then bind lk_available (fun a : bool => if a then bind Endpoint_Read_8 (wr UDR1) else ret tt) else ret tt))).
  assert (Hk : forall m, bind buffer_nonempty (fun ne : bool => bind (if ne then m else ret 0) k) n s0 =
    bind (bind buffer_nonempty (fun ne : bool => if ne then m else ret 0)) k n s0).
  { intros m. unfold bind. by destruct (buffer_nonempty n s0). }
  rewrite Hk, (bind_run _ _ _ _ _ _ E1). unfold k at 1.
  destruct (bridge_flush (c =? 0xc0) n s1 Hn (pt_bridging _ _ _ _ P1) V1) as (s2 & E2 & P2 & O2 & T2). rewrite (bind_run _ _ _ _ _ _ E2).
  destruct (status_ok n s2 (pt_bridging _ _ _ _ P2)) as (v & s3 & E3 & P3 & C3 & X3). set (r := bit_set v (bv UDRE1)) in *.
  rewrite (bind_run _ _ _ _ r s3) by (unfold test_reg; by rewrite (bind_run _ _ _ _ _ _ E3)).
  assert (P03 := part_trans _ _ _ _ _ _ _ P0 (part_trans _ _ _ _ _ _ _ P1 (part_trans _ _ _ _ _ _ _ P2 P3))).
  assert (O3 : c_out (cdc_at s3) = c_out (cdc_at s)) by (by rewrite C3, O2, O1).
  assert (U3 : forall b q, contents (ring_of s) = b :: q -> cdc_tx s3 = cdc_tx s ++ [b]).
  { intros b q Hq. unfold cdc_tx. rewrite C3. change (cdc_tx s2 = cdc_tx s0 ++ [b]). rewrite T2. rewrite <- R0 in Hq. by eapply U1. }
  destruct r.
  - destruct (down_ok n s3 (pt_bridging _ _ _ _ P3) X3) as (s4 & E4 & P4 & T4 & O4).
    exists s4, true, (ready_byte (cdc_at s3)). split; [exact E4 |]. split; [exact (part_trans _ _ _ _ _ _ _ P03 P4) |].
    split; [by rewrite O4, O3 |]. intros b q Hq. rewrite T4. by eapply U3.
  - exists s3, false, []. done.
Qed.

(** One round of the loop [while (!rts_pulse)] of the bridge. *)
Definition bridge_body (_ : unit) : M (unit + unit) :=
  bind (p <- vget rts_pulse ;; ret (negb (truth p)))%fw
    (fun b : bool => if b then bind esp_bridge (fun _ => ret (inl tt)) else ret (inr tt)).

Lemma bridge_loop : while (p <- vget rts_pulse ;; ret (negb (truth p)))%fw esp_bridge = iter bridge_body tt.
Proof. reflexivity. Qed.

Lemma body_round n s : (cdc_latency < n)%nat -> bridging s ->
  exists s' r down, bridge_body tt n s = Ok (inl tt) s' /\ part down (if r : bool then 1 else 0) s s' /\
    c_out (cdc_at s') = (if r then advance (c_out (cdc_at s)) else c_out (cdc_at s)) /\
    (contents (ring_of s) <> [] -> (length (cdc_tx s) < length (cdc_tx s'))%nat).
Proof.
  intros Hn Hb. unfold bridge_body, vget. destruct (part_poll n s Hb) as (s1 & E1 & P1 & C1 & _ & bs & Q1).
  pose proof (pt_bridging _ _ _ _ P1) as B1. rewrite (bind_run _ _ _ _ true s1).
  2: { unfold bind, get, ret. rewrite E1, (br_rts _ B1). done. }
  destruct (bridge_round n s1 Hn B1) as (s2 & r & down & E2 & P2 & O2 & U2).
  exists s2, r, down. rewrite (bind_run _ _ _ _ _ _ E2). split; [done |]. split; [exact (part_trans _ _ _ _ _ _ _ P1 P2) |].
  split; [by rewrite O2, C1 |]. intros Hne. destruct (contents (ring_of s)) as [| b q]; [done |].
  destruct (enqueue_all_head bs b q) as (q' & Eq). rewrite (U2 b q') by (by rewrite Q1).
  unfold cdc_tx. rewrite C1, length_app. simpl. lia.
Qed.

(** Ready polls needed to pass on the packets of the host: one for each byte and
    one to release each packet. *)
Definition pending (out : list (list Z)) : nat := list_sum (map (fun p => S (length p)) out).

Lemma pending_advance out : pending (advance out) = (pending out - 1)%nat.
Proof. unfold pending. destruct out as [| [| b p] q]; simpl; lia. Qed.

Lemma pending_nil out : pending out = 0%nat -> concat out = [].
Proof. by destruct out. Qed.

(** A round that takes at least one byte of a queue that is not empty. *)
Lemma take_progress {A} k (X Q X1 Q1 acc : list A) :
  X `prefix_of` X1 -> X1 ++ Q1 = X ++ Q ++ acc -> (Q <> [] -> length X < length X1)%nat ->
  X ++ take (S k) Q `prefix_of` X1 ++ take k Q1.
Proof.
  intros [e ->] Heq Hlen. rewrite <- app_assoc in Heq |- *. apply app_inv_head in Heq. apply prefix_app.
  destruct Q as [| x Q]; [apply prefix_nil |]. rewrite length_app in Hlen. assert (0 < length e)%nat by (specialize (Hlen ltac:(done)); lia).
  replace (e ++ take k Q1) with (take (length e + k) (e ++ Q1)) by (by rewrite take_app_add).
  rewrite Heq, take_app. apply prefix_app_r.
  replace (S k) with (S k `min` (length e + k))%nat by lia. rewrite <- take_take. apply prefix_take.
Qed.

Lemma bridge_rounds n k s : (cdc_latency < n)%nat -> bridging s ->
  exists s', nsteps (fun s s' => bridge_body tt n s = Ok (inl tt) s') k s s' /\ bridging s' /\
    rtc bstep (abs s) (abs s') /\ (cdc_tx s ++ take k (contents (ring_of s))) `prefix_of` cdc_tx s' /\
    (polls (tr s) <= polls (tr s'))%nat /\
    pending (c_out (cdc_at s')) = (pending (c_out (cdc_at s)) - (polls (tr s') - polls (tr s)))%nat.
Proof.
  intros Hn. revert s. induction k as [| k IH]; intros s Hb.
  { exists s. rewrite app_nil_r. split_and!; [constructor | done | done | done | done | lia]. }
  destruct (body_round n s Hn Hb) as (s1 & r & down & E1 & [Q1 B1 S1 N1] & O1 & U1).
  destruct (IH s1 B1) as (s' & R' & B' & Q' & U' & N' & W'). exists s'.
  destruct (steps_transfers _ _ Q1) as [_ [Hp _] (new & acc & _ & _ & Hacc & _)]. cbn in Hp, Hacc.
  split; [by econstructor |]. split; [done |]. split; [by etrans |]. split.
  { etrans; [| exact U']. by eapply take_progress. }
  split; [lia |]. rewrite W', O1, N1. destruct r; [rewrite pending_advance |]; lia.
Qed.

(** C4: The bridge between the host and the ESP8266 refines a pair of channels.
    As long as no RTS pulse is asked for, the device stays attached and a round takes less
    than [USB_COMM_TIMEOUT] (250 ms), any number [k] of rounds of the loop of
    [ESP8266_programmer] completes, whatever timer and UART interrupts come and however
    many polls the host takes for each packet, and
    is a sequence of steps of the specification: towards the ESP8266 no byte is
    lost (each is written after a poll that has found the transmitter free), added or
    reordered; towards the host go the received bytes in order,
    all of them unless 255 are waiting.  Each round hands over a waiting byte, and
    each poll that finds the UART ready takes a byte (or releases a packet) of the
    host. *)
Theorem bridge_refines_channels n k s : (cdc_latency < n)%nat -> bridging s ->
  exists s', nsteps (fun s s' => bridge_body tt n s = Ok (inl tt) s') k s s' /\ bridging s' /\
    rtc bstep (abs s) (abs s') /\ transfers (abs s) (abs s') /\
    (cdc_tx s ++ take k (contents (ring_of s))) `prefix_of` cdc_tx s' /\
    (pending (c_out (cdc_at s)) <= polls (tr s') - polls (tr s) -> cdc_rx s' = [])%nat.
Proof.
  intros Hn Hb. destruct (bridge_rounds n k s Hn Hb) as (s' & H1 & H2 & H3 & H4 & H5 & H6). exists s'.
  split_and!; [done | done | done | by apply steps_transfers | done |]. intros Hp. apply pending_nil. lia.
Qed.
End Bridge.
