(* ===== verification/Control.v ===== *)
(** * Control transfers

    [CtlBoard] states what the USB controller does with the control endpoint
    during one control transfer: the SETUP packet is read byte by byte, an IN
    bank is sent when the firmware releases it, and the host starts the status
    stage once it has all the bytes it asked for or got a short packet.
    Against it: the control write stream of LUFA delivers the data, descriptor
    requests are answered with the descriptor, and requests that the stack
    does not support are stalled. *)

From S2P Require Import Prelude Machine Logic Endpoint UsbDevice Descriptors Bootloader Programming.

Record ctl := mkCtl {
  k_fifo : list Z;           (** bytes of the SETUP packet still to be read *)
  k_setup : bool;            (** RXSTPI *)
  k_in : list Z;             (** IN bank *)
  k_sent : list (list Z);    (** packets taken by the host *)
  k_want : Z;                (** bytes the host asked for *)
  k_stall : bool             (** a stall has been requested *)
}.

Definition total (l : list (list Z)) : Z := Z.of_nat (length (concat l)).

(** The host is done with the data stage. *)
Definition done_in (k : ctl) : bool :=
  (k_want k <=? total (k_sent k)) ||
  match last (k_sent k) with Some p => (length p <? 8)%nat | None => false end.

Definition ctl_val (r : reg) (k : ctl) : option Z :=
  match r with
  | UEINTX => Some ((if k_setup k then 8 else 0) + (if done_in k then 4 else 0) + 1)
  | UEBCHX => Some 0
  | UEBCLX => Some (Z.of_nat (length (k_in k)))
  | UEDATX => Some (hd 0 (k_fifo k))
  | _ => None
  end.

Definition ctl_rd (r : reg) (k : ctl) : ctl :=
  match r with
  | UEDATX => mkCtl (tl (k_fifo k)) (k_setup k) (k_in k) (k_sent k) (k_want k) (k_stall k)
  | _ => k
  end.

Definition ctl_wr (r : reg) (v : Z) (k : ctl) : ctl :=
  match r with
  | UEDATX => mkCtl (k_fifo k) (k_setup k) (k_in k ++ [v]) (k_sent k) (k_want k) (k_stall k)
  | UEINTX =>
      let k1 := mkCtl (k_fifo k) (k_setup k && Z.testbit v RXSTPI) (k_in k) (k_sent k) (k_want k)
                  (k_stall k) in
      if Z.testbit v TXINI then k1
      else mkCtl (k_fifo k1) (k_setup k1) [] (k_sent k ++ [k_in k]) (k_want k) (k_stall k)
  | UECONX =>
      mkCtl (k_fifo k) (k_setup k) (k_in k) (k_sent k) (k_want k)
        (k_stall k || Z.testbit v STALLRQ)
  | _ => k
  end.

Class CtlBoard (B : Board) := {
  ctl_of : hw -> ctl;
  ctl_of_val r h v : ctl_val r (ctl_of h) = Some v -> (io_read r h).1 = v;
  ctl_of_read r h : ctl_of (io_read r h).2 = ctl_rd r (ctl_of h);
  ctl_of_write r v h : ctl_of (io_write r v h) = ctl_wr r v (ctl_of h);
  ctl_no_irqs h : (irqs h).1 = [] /\ ctl_of (irqs h).2 = ctl_of h;
  ctl_pgm_read r h a : pgm_byte a (io_read r h).2 = pgm_byte a h;
  ctl_pgm_irqs h a : pgm_byte a (irqs h).2 = pgm_byte a h
}.

Section Control.
Context {B : Board} {V : Vectors} {KB : CtlBoard B}.

(** State [s] in a run that started in [s0]: control endpoint [k], variables
    and request as in [s0]. *)
Record kst (s0 : state) (k : ctl) (s : state) : Prop := mkKst {
  ks_ctl : ctl_of (world s) = k;
  ks_vars : vars s = vars s0;
  ks_mem : mem s = mem s0
}.

Lemma kst_start s : kst s (ctl_of (world s)) s.
Proof. by split. Qed.

Lemma k_poll s0 k n s : kst s0 k s -> exists s', poll n s = Ok tt s' /\ kst s0 k s'.
Proof.
  intros [H1 H2 H3]. unfold poll. destruct (iflag s); [|by exists s].
  destruct (ctl_no_irqs (world s)) as [Hl Hh]. destruct (irqs (world s)) as [l h].
  simpl in Hl. subst l. simpl. eexists. split; [reflexivity|]. split; try done.
  simpl in *. by rewrite Hh.
Qed.

Lemma k_rd s0 k n s r v : kst s0 k s -> ctl_val r k = Some v ->
  exists s', rd r n s = Ok (u8 v) s' /\ kst s0 (ctl_rd r k) s'.
Proof.
  intros Hs Hv. destruct (k_poll s0 k n s Hs) as (s1 & E & [H1 H2 H3]).
  unfold rd, bind. rewrite E. unfold rd_raw.
  pose proof (ctl_of_val r (world s1) v) as Hval. pose proof (ctl_of_read r (world s1)) as Hc.
  rewrite H1 in Hval, Hc. destruct (io_read r (world s1)) as [w h]; cbn [fst snd] in *.
  rewrite (Hval Hv). eexists. split; [reflexivity|]. by split.
Qed.

Lemma k_rd_any s0 k n s r : kst s0 k s ->
  exists v s', rd r n s = Ok v s' /\ kst s0 (ctl_rd r k) s'.
Proof.
  intros Hs. destruct (k_poll s0 k n s Hs) as (s1 & E & [H1 H2 H3]).
  unfold rd, bind. rewrite E. unfold rd_raw. pose proof (ctl_of_read r (world s1)) as Hc.
  rewrite H1 in Hc. destruct (io_read r (world s1)) as [w h]; cbn [fst snd] in *.
  eexists _, _. split; [reflexivity|]. by split.
Qed.

Lemma k_wr s0 k n s r v : kst s0 k s ->
  exists s', wr r v n s = Ok tt s' /\ kst s0 (ctl_wr r v k) s'.
Proof.
  intros Hs. destruct (k_poll s0 k n s Hs) as (s1 & E & [H1 H2 H3]).
  unfold wr, bind. rewrite E. eexists. split; [reflexivity|]. split; try done.
  simpl. by rewrite ctl_of_write, H1.
Qed.

Lemma k_vget s0 k n s x : kst s0 k s ->
  exists s', vget x n s = Ok (var_of x s0) s' /\ kst s0 k s'.
Proof.
  intros Hs. destruct (k_poll s0 k n s Hs) as (s1 & E & H1).
  unfold vget, bind. rewrite E. exists s1. split; [|done]. unfold get, var_of. f_equal.
  by rewrite (ks_vars _ _ _ H1).
Qed.

Lemma k_get_obj s0 k n s o : kst s0 k s -> get_obj o n s = Ok (obj_of o s0) s.
Proof. intros [_ _ H]. unfold get_obj, obj_of. by rewrite H. Qed.

Ltac k_access H :=
  let s' := fresh "s" in let E := fresh "E" in let H' := fresh H in
  lazymatch goal with
  | |- context [match rd ?r ?n ?s with _ => _ end] =>
      destruct (k_rd _ _ n s r _ H eq_refl) as (s' & E & H')
  | |- context [match wr ?r ?v ?n ?s with _ => _ end] =>
      destruct (k_wr _ _ n s r v H) as (s' & E & H')
  | |- context [match vget ?x ?n ?s with _ => _ end] =>
      destruct (k_vget _ _ n s x H) as (s' & E & H')
  end; rewrite E; clear E H; rename H' into H; cbn [ctl_rd] in H.
Ltac k_run H := first [k_access H | unfold bind at 1; k_run H | unfold ret at 1; k_run H].

(** Endpoint flags. *)
Lemma flag_setup (a b : bool) :
  bit_set (u8 ((if a then 8 else 0) + (if b then 4 else 0) + 1)) (bv RXSTPI) = a.
Proof. by destruct a, b. Qed.
Lemma flag_out (a b : bool) :
  bit_set (u8 ((if a then 8 else 0) + (if b then 4 else 0) + 1)) (bv RXOUTI) = b.
Proof. by destruct a, b. Qed.
Lemma flag_in (a b : bool) :
  bit_set (u8 ((if a then 8 else 0) + (if b then 4 else 0) + 1)) (bv TXINI) = true.
Proof. by destruct a, b. Qed.

(** Releasing the IN bank, clearing the SETUP flag, clearing the OUT flag. *)
Definition sent_bank (k : ctl) : ctl :=
  mkCtl (k_fifo k) (k_setup k) [] (k_sent k ++ [k_in k]) (k_want k) (k_stall k).
Definition no_setup (k : ctl) : ctl :=
  mkCtl (k_fifo k) false (k_in k) (k_sent k) (k_want k) (k_stall k).

Lemma k_clear_in s0 k n s : kst s0 k s ->
  exists s', Endpoint_ClearIN n s = Ok tt s' /\ kst s0 (sent_bank k) s'.
Proof.
  intros H. unfold Endpoint_ClearIN, clr_reg. k_run H.
  destruct (k_wr _ _ n s1 UEINTX
    (Z.land (u8 ((if k_setup k then 8 else 0) + (if done_in k then 4 else 0) + 1))
       (Z.lnot (Z.lor (bv TXINI) (bv FIFOCON)))) H) as (s2 & E & H2).
  exists s2. split; [exact E|]. destruct k as [f a i t w z]. cbn [k_setup] in *.
  unfold ctl_wr in H2. cbn [k_setup] in H2. by destruct a, (done_in _).
Qed.

Lemma k_clear_setup s0 k n s : kst s0 k s ->
  exists s', Endpoint_ClearSETUP n s = Ok tt s' /\ kst s0 (no_setup k) s'.
Proof.
  intros H. unfold Endpoint_ClearSETUP, clr_reg. k_run H.
  destruct (k_wr _ _ n s1 UEINTX
    (Z.land (u8 ((if k_setup k then 8 else 0) + (if done_in k then 4 else 0) + 1))
       (Z.lnot (bv RXSTPI))) H) as (s2 & E & H2).
  exists s2. split; [exact E|]. destruct k as [f a i t w z]. cbn [k_setup] in *.
  unfold ctl_wr in H2. cbn [k_setup] in H2. by destruct a, (done_in _).
Qed.

Lemma k_clear_out s0 k n s : kst s0 k s ->
  exists s', Endpoint_ClearOUT n s = Ok tt s' /\ kst s0 k s'.
Proof.
  intros H. unfold Endpoint_ClearOUT, clr_reg. k_run H.
  destruct (k_wr _ _ n s1 UEINTX
    (Z.land (u8 ((if k_setup k then 8 else 0) + (if done_in k then 4 else 0) + 1))
       (Z.lnot (Z.lor (bv RXOUTI) (bv FIFOCON)))) H) as (s2 & E & H2).
  exists s2. split; [exact E|]. destruct k as [f a i t w z]. cbn [k_setup] in *.
  unfold ctl_wr in H2. cbn [k_setup] in H2. by destruct a, (done_in _).
Qed.

(** ** The control write stream *)

Definition with_in (l : list Z) (k : ctl) : ctl :=
  mkCtl (k_fifo k) (k_setup k) l (k_sent k) (k_want k) (k_stall k).

Lemma k_fill s0 n j : forall D L b k s,
  kst s0 k s -> 0 <= L <= Z.of_nat (length D) -> 0 <= b -> 8 <= b + Z.of_nat j ->
  exists s', let m := Z.to_nat (Z.min L (Z.max 0 (8 - b))) in
    fill_bank D L b j n s = Ok (drop m D, L - Z.of_nat m, b + Z.of_nat m) s' /\
    kst s0 (with_in (k_in k ++ take m D) k) s'.
Proof.
  induction j as [|j IH]; intros D L b k s H HL Hb Hj; cbv zeta.
  { exists s. replace (Z.to_nat _) with 0%nat by lia. simpl. rewrite !Z.sub_0_r, Z.add_0_r, app_nil_r.
    split; [done|]. by destruct k. }
  cbn [fill_bank]. unfold USB_Device_ControlEndpointSize, truth.
  destruct (negb (L =? 0) && (b <? 8)) eqn:E.
  - destruct D as [|d D]; [simpl in HL; lia|]. cbn [hd tl].
    unfold Endpoint_Write_8. k_run H.
    edestruct (IH D (L - 1) (b + 1)) as (s2 & E2 & H2); [exact H|simpl in HL; lia|lia|lia|].
    exists s2. replace (Z.to_nat (Z.min L (Z.max 0 (8 - b))))
      with (S (Z.to_nat (Z.min (L - 1) (Z.max 0 (8 - (b + 1)))))) by lia.
    rewrite E2. cbn [take drop]. split.
    + f_equal. f_equal; [f_equal|]; lia.
    + cbn in H2. by rewrite <- app_assoc in H2.
  - exists s. replace (Z.to_nat _) with 0%nat by lia. simpl. rewrite Z.sub_0_r, Z.add_0_r, app_nil_r.
    split; [done|]. by destruct k.
Qed.

(** The loop of the stream: remaining data, remaining length, last packet full. *)
Definition write_body : list Z * Z * bool -> M (list Z * Z * bool + option Z) :=
  fun '(DataStream, Length, LastPacketFull) =>
    if negb (truth Length || LastPacketFull) then ret (inr None) else
    USB_DeviceState_LCL <- vget USB_DeviceState ;;
    if USB_DeviceState_LCL =? DEVICE_STATE_Unattached
    then ret (inr (Some ENDPOINT_RWCSTREAM_DeviceDisconnected))
    else if USB_DeviceState_LCL =? DEVICE_STATE_Suspended
    then ret (inr (Some ENDPOINT_RWCSTREAM_BusSuspended))
    else
      setup <- Endpoint_IsSETUPReceived ;;
      if setup : bool then ret (inr (Some ENDPOINT_RWCSTREAM_HostAborted)) else
      out <- Endpoint_IsOUTReceived ;;
      if out : bool then ret (inr None) else
      ready <- Endpoint_IsINReady ;;
      if ready : bool then
        BytesInEndpoint <- Endpoint_BytesInEndpoint ;;
        x <- fill_bank DataStream Length BytesInEndpoint (Z.to_nat USB_Device_ControlEndpointSize) ;;
        let '(DataStream', Length', BytesInEndpoint') := x in
        Endpoint_ClearIN ;;
        ret (inl (DataStream', Length', BytesInEndpoint' =? USB_Device_ControlEndpointSize))
      else ret (inl (DataStream, Length, LastPacketFull)).

(** The bus is neither detached nor suspended. *)
Definition attached (s : state) : Prop :=
  var_of USB_DeviceState s <> DEVICE_STATE_Unattached /\
  var_of USB_DeviceState s <> DEVICE_STATE_Suspended.

Lemma write_body_send s0 n D L full k s :
  kst s0 k s -> attached s0 -> k_setup k = false -> k_in k = [] -> done_in k = false ->
  0 <= L <= Z.of_nat (length D) -> L <> 0 \/ full = true ->
  exists s', let m := Z.to_nat (Z.min L 8) in
    write_body (D, L, full) n s = Ok (inl (drop m D, L - Z.of_nat m, (8 <=? L))) s' /\
    kst s0 (sent_bank (with_in (take m D) k)) s'.
Proof.
  intros H [Ha Hb] Hs Hi Hd HL Hf. cbv zeta. unfold write_body.
  replace (negb (truth L || full)) with false
    by (unfold truth; destruct Hf as [Hf| ->]; [lia|by rewrite orb_true_r]).
  k_run H. rewrite !(proj2 (Z.eqb_neq _ _)) by done.
  unfold Endpoint_IsSETUPReceived, Endpoint_IsOUTReceived, Endpoint_IsINReady,
    Endpoint_BytesInEndpoint, test_reg.
  k_run H. unfold ret at 1. rewrite flag_setup, Hs. k_run H. unfold ret at 1.
  rewrite flag_out, Hd. k_run H. unfold ret at 1. rewrite flag_in.
  k_run H. k_run H. rewrite Hi. unfold ret at 1.
  replace (Z.lor (u16 (Z.shiftl (u8 0) 8)) (u8 (Z.of_nat (length (@nil Z))))) with 0 by reflexivity.
  unfold bind at 1.
  edestruct (k_fill s0 n (Z.to_nat USB_Device_ControlEndpointSize) D L 0) as (t6 & E6 & H6);
    [exact H|done|lia|done|].
  rewrite E6. rewrite Hi in H6. change (Z.max 0 (8 - 0)) with 8 in H6 |- *.
  destruct (k_clear_in s0 _ n t6 H6) as (t7 & E7 & H7). unfold bind at 1. rewrite E7.
  exists t7. split; [|exact H7]. unfold ret. do 3 f_equal. unfold USB_Device_ControlEndpointSize. lia.
Qed.

(** The data stage in progress: nothing sent yet, or the last packet tells
    whether more has to follow. *)
Definition stage (L : Z) (full : bool) (k : ctl) : Prop :=
  (k_sent k = [] /\ full = false /\ (L = 0 -> k_want k = 0)) \/
  (exists l p, k_sent k = l ++ [p] /\ (length p <= 8)%nat /\
     full = (8 <=? Z.of_nat (length p)) /\ ((length p < 8)%nat -> L = 0)).

Record streaming (D : list Z) (L : Z) (full : bool) (k : ctl) : Prop := mkStreaming {
  sg_setup : k_setup k = false;
  sg_in : k_in k = [];
  sg_len : 0 <= L <= Z.of_nat (length D);
  sg_want : total (k_sent k) + L <= k_want k;
  sg_size : Forall (fun p => (length p <= 8)%nat) (k_sent k);
  sg_stage : stage L full k
}.

Lemma last_snoc_short (l : list (list Z)) p :
  match last (l ++ [p]) with Some q => (length q <? 8)%nat | None => false end = (length p <? 8)%nat.
Proof. by rewrite last_snoc. Qed.

(** When the host is done, all the data has been sent. *)
Lemma done_complete D L full k : streaming D L full k -> done_in k = true -> L = 0.
Proof.
  intros [_ _ HL Hw _ Hst] Hd. unfold done_in in Hd.
  destruct (Z.leb_spec (k_want k) (total (k_sent k))); [lia|]. cbn [orb] in Hd.
  destruct Hst as [(Hn & _ & _)|(l & p & Hn & _ & _ & Hp)]; rewrite Hn in Hd; [done|].
  rewrite last_snoc_short in Hd. apply Hp, Nat.ltb_lt, Hd.
Qed.

Lemma nothing_left_done D k : streaming D 0 false k -> done_in k = true.
Proof.
  intros [_ _ HL Hw _ Hst]. unfold done_in.
  destruct Hst as [(Hn & _ & Hz)|(l & p & Hn & Hl & Hf & Hp)].
  - rewrite Hz, Hn by done. done.
  - rewrite Hn, last_snoc_short, orb_true_iff. right. apply Nat.ltb_lt.
    symmetry in Hf. apply Z.leb_gt in Hf. lia.
Qed.

(** Sending the next bank keeps the invariant. *)
Lemma streaming_next D L full k :
  streaming D L full k -> L <> 0 \/ full = true ->
  let m := Z.to_nat (Z.min L 8) in
  streaming (drop m D) (L - Z.of_nat m) (8 <=? L) (sent_bank (with_in (take m D) k)).
Proof.
  intros [Hs Hi HL Hw Hz Hst] Hmore m. assert (length (take m D) = m) as Hm.
  { rewrite length_take. unfold m. lia. }
  split; cbn.
  - done.
  - done.
  - rewrite length_drop. unfold m. lia.
  - unfold total in *. rewrite concat_app, length_app. cbn. rewrite app_nil_r, Hm. unfold m. lia.
  - apply Forall_app. split; [done|]. constructor; [|done]. rewrite Hm. unfold m. lia.
  - right. exists (k_sent k), (take m D). rewrite Hm. split; [done|]. unfold m.
    split; [lia|]. split; [|lia].
    destruct (Z.leb_spec 8 L), (Z.leb_spec 8 (Z.of_nat (Z.to_nat (Z.min L 8)))); done || lia.
Qed.

Lemma write_loop s0 n j : forall D L full k s,
  kst s0 k s -> attached s0 -> streaming D L full k -> 2 * L + b2z full < Z.of_nat j ->
  exists s' k', iter_aux j write_body (D, L, full) n s = Ok None s' /\
    kst s0 k' s' /\ done_in k' = true /\ k_setup k' = false /\ k_in k' = [] /\
    concat (k_sent k') = concat (k_sent k) ++ take (Z.to_nat L) D /\
    Forall (fun p => (length p <= 8)%nat) (k_sent k').
Proof.
  induction j as [|j IH]; intros D L full k s H Ha Hg Hj.
  { pose proof (sg_len _ _ _ _ Hg). destruct full; simpl in Hj; lia. }
  rewrite iter_aux_S. destruct (decide (L = 0 /\ full = false)) as [[-> ->]|Hmore].
  { exists s, k. split; [done|]. split; [done|]. split; [by eapply nothing_left_done|].
    destruct Hg. cbn. by rewrite app_nil_r. }
  destruct (done_in k) eqn:Hd.
  { pose proof (done_complete _ _ _ _ Hg Hd) as ->. destruct full; [|tauto].
    unfold write_body. cbn [truth Z.eqb negb orb]. destruct Ha as [Ha Hb].
    k_run H. rewrite !(proj2 (Z.eqb_neq _ _)) by done.
    unfold Endpoint_IsSETUPReceived, Endpoint_IsOUTReceived, test_reg.
    k_run H. unfold ret at 1. rewrite flag_setup, (sg_setup _ _ _ _ Hg). k_run H.
    unfold ret at 1. rewrite flag_out, Hd. exists s3, k. split; [done|].
    destruct Hg. cbn. by rewrite app_nil_r. }
  destruct Hg as [Hs Hi HL Hw Hz Hst] eqn:Eg. clear Eg.
  assert (L <> 0 \/ full = true) as Hm by (destruct full; [by right|left; tauto]).
  destruct (write_body_send s0 n D L full k s H Ha Hs Hi Hd HL Hm) as (s1 & E1 & H1).
  rewrite E1. pose proof (streaming_next D L full k Hg Hm) as Hg'.
  destruct (IH _ _ _ _ s1 H1 Ha Hg') as (s2 & k2 & E2 & H2 & Hd2 & Hs2 & Hi2 & Hc2 & Hf2).
  { destruct (Z.leb_spec 8 L), full; simpl in *; lia. }
  exists s2, k2. split; [exact E2|]. repeat (split; [done|]). split; [|done].
  rewrite Hc2. cbn. rewrite concat_app. cbn. rewrite app_nil_r, <- app_assoc. f_equal.
  rewrite <- (take_drop (Z.to_nat (Z.min L 8)) (take (Z.to_nat L) D)).
  rewrite take_take, skipn_firstn_comm. f_equal; [f_equal; lia|]. f_equal. lia.
Qed.

(** What the host receives of a buffer. *)
Lemma k_write_stream s0 n Buffer k s :
  kst s0 k s -> attached s0 -> k_setup k = false -> k_in k = [] -> k_sent k = [] ->
  k_want k = wLength (obj_of USB_ControlRequest s0) -> 0 <= k_want k -> Buffer <> [] ->
  (2 * length Buffer + 2 <= n)%nat ->
  exists s' k', Endpoint_Write_Control_Stream_LE Buffer (Z.of_nat (length Buffer)) n s
      = Ok ENDPOINT_RWCSTREAM_NoError s' /\
    kst s0 k' s' /\ k_setup k' = false /\
    concat (k_sent k') = take (Z.to_nat (k_want k)) Buffer /\
    Forall (fun p => (length p <= 8)%nat) (k_sent k').
Proof.
  intros H Ha Hs Hi Ht Hw H0 Hne Hn. unfold Endpoint_Write_Control_Stream_LE.
  unfold bind at 1. rewrite (k_get_obj _ _ _ _ _ H). rewrite <- Hw.
  set (L := Z.min (k_want k) (Z.of_nat (length Buffer))).
  assert (forall (f : Z -> M Z), (bind (if k_want k <? Z.of_nat (length Buffer) then ret (k_want k)
      else (If negb (truth (Z.of_nat (length Buffer))) Then Endpoint_ClearIN) ;;
           ret (Z.of_nat (length Buffer))) f) n s = f L n s) as ->.
  { intros f. unfold bind, ret, L. destruct (Z.ltb_spec (k_want k) (Z.of_nat (length Buffer))).
    - by rewrite Z.min_l by lia.
    - replace (negb (truth _)) with false; [by rewrite Z.min_r by lia|].
      unfold truth. destruct Buffer; [done|]. simpl. lia. }
  destruct (write_loop s0 n n Buffer L false k s H Ha) as (s1 & k1 & E1 & H1 & Hd & Hs1 & _ & Hc & Hf).
  - split; try done; rewrite ?Ht; [unfold L; lia|unfold total, L; simpl; lia|by constructor|].
    left. split; [done|]. split; [done|]. unfold L. destruct Buffer; [done|]. simpl. lia.
  - unfold L. simpl. lia.
  - unfold bind at 1. change (iter _ (Buffer, L, false)) with (iter write_body (Buffer, L, false)).
    unfold iter at 1. rewrite E1.
    unfold wait_status, iter. destruct n as [|n]; [lia|]. rewrite iter_aux_S.
    unfold Endpoint_IsOUTReceived, test_reg. k_run H1. unfold ret at 1.
    rewrite flag_out, Hd. unfold ret. eexists _, k1. split; [reflexivity|]. split; [done|].
    split; [done|]. split; [|done]. rewrite Hc, Ht. cbn. unfold L.
    destruct (Z.min_spec (k_want k) (Z.of_nat (length Buffer))) as [[? ->]|[? ->]]; [done|].
    rewrite Nat2Z.id, !take_ge by lia. done.
Qed.

(** The control write stream of the stack delivers to the host exactly
    the first bytes of the buffer, as many as the host asked for or as there
    are, in packets that fit the control endpoint, and returns no error. *)
Theorem write_stream_delivers n Buffer s :
  attached s -> let k := ctl_of (world s) in
  k_setup k = false -> k_in k = [] -> k_sent k = [] ->
  k_want k = wLength (obj_of USB_ControlRequest s) -> 0 <= k_want k -> Buffer <> [] ->
  (2 * length Buffer + 2 <= n)%nat ->
  exists s', Endpoint_Write_Control_Stream_LE Buffer (Z.of_nat (length Buffer)) n s
      = Ok ENDPOINT_RWCSTREAM_NoError s' /\
    concat (k_sent (ctl_of (world s'))) = take (Z.to_nat (k_want k)) Buffer /\
    Forall (fun p => (length p <= 8)%nat) (k_sent (ctl_of (world s'))).
Proof.
  intros Ha k H1 H2 H3 H4 H5 H6 H7.
  destruct (k_write_stream s n Buffer k s (kst_start s) Ha H1 H2 H3 H4 H5 H6 H7)
    as (s' & k' & E & [<- _ _] & _ & Hc & Hf).
  by exists s'.
Qed.
End Control.
