(* ===== verification/DescriptorProps.v ===== *)
(** * The descriptors the device reports

    The search for the identifiers of the sketch, the sizes and layout of every
    descriptor, the agreement of the configuration descriptor with the endpoints
    the firmware configures, and the transfer of a descriptor to the host. *)

From Stdlib Require Import Strings.Ascii Strings.String.
From S2P Require Import Prelude Machine Logic Endpoint UsbDevice Descriptors Bootloader Programming BootProps Control.

(** ** Identifiers of the sketch *)

(** Word and descriptor pattern in program memory [f]. *)
Definition word_at (f : Z -> Z) (a : Z) : Z := u8 (f a) + 256 * u8 (f (a + 1)).
Definition sketch_at (f : Z -> Z) (i : Z) : bool :=
  (u8 (f i) =? 0xef) && (u8 (f (i + 1)) =? 0x02) && (u8 (f (i + 2)) =? 0x01) &&
  (u8 (f (i + 3)) =? 0x40).

(** First match among [k] addresses from [i] on. *)
Fixpoint find_sketch (f : Z -> Z) (k : nat) (i : Z) : option Z :=
  match k with
  | O => None
  | S k' => if sketch_at f i then Some i else find_sketch f k' (i + 1)
  end.

Lemma find_sketch_spec f k : forall i,
  match find_sketch f k i with
  | Some j => i <= j < i + Z.of_nat k /\ sketch_at f j = true /\
              forall x, i <= x < j -> sketch_at f x = false
  | None => forall x, i <= x < i + Z.of_nat k -> sketch_at f x = false
  end.
Proof.
  induction k as [|k IH]; intros i; simpl find_sketch; [intros x Hx; exfalso; clear -Hx; lia|].
  destruct (sketch_at f i) eqn:E; [repeat split; [lia|lia|done|lia]|].
  specialize (IH (i + 1)). destruct (find_sketch f k (i + 1)) as [j|].
  - destruct IH as (H1 & H2 & H3). split; [lia|]. split; [done|].
    intros x Hx. destruct (decide (x = i)) as [->|]; [done|]. apply H3. lia.
  - intros x Hx. destruct (decide (x = i)) as [->|]; [done|]. apply IH. lia.
Qed.

Section Shadow.
Context {B : Board} {I : BuildIds}.

Definition shadowed (s : state) (m : option Z) : state :=
  match m with
  | Some j => upd DD_ProductID (word_at (fun a => pgm_byte a (world s)) (j + 6))
                (upd DD_VendorID (word_at (fun a => pgm_byte a (world s)) (j + 4)) s)
  | None => s
  end.

Lemma sketch_descriptor_at_ok n s i :
  sketch_descriptor_at i n s = Ok (sketch_at (fun a => pgm_byte a (world s)) i) s.
Proof.
  unfold sketch_descriptor_at, sketch_at, bind, pgm_read_byte, ret.
  repeat (destruct (_ =? _); simpl; try done).
Qed.

Lemma search_descriptor_ok n k : forall i s,
  search_descriptor k i n s =
  Ok tt (shadowed s (find_sketch (fun a => pgm_byte a (world s)) k i)).
Proof.
  induction k as [|k IH]; intros i s; cbn [search_descriptor find_sketch]; [done|].
  unfold bind at 1. rewrite sketch_descriptor_at_ok.
  destruct (sketch_at _ i); [|apply IH].
  unfold bind, pgm_read_word, put, shadowed, word_at. simpl.
  by rewrite <- !Z.add_assoc.
Qed.

Definition search_rounds : nat := Z.to_nat (0x200 - _VECTORS_SIZE).

Lemma shadow_ok n s :
  shadow_vid_pid_from_sketch n s =
  Ok tt (if truth (var_of DD_Size s) then s
         else let s1 := upd DD_Size sizeof_Device s in
              shadowed s1 (find_sketch (fun a => pgm_byte a (world s)) search_rounds _VECTORS_SIZE)).
Proof.
  unfold shadow_vid_pid_from_sketch, bind, get. destruct (truth _); [done|].
  unfold put. by rewrite search_descriptor_ok.
Qed.

Lemma shadowed_other s m x : x <> DD_VendorID -> x <> DD_ProductID ->
  var_of x (shadowed s m) = var_of x s.
Proof. intros H1 H2. destruct m; [|done]. unfold shadowed. by rewrite !var_of_upd_ne by done. Qed.
Lemma shadowed_frame s m : world (shadowed s m) = world s /\ mem (shadowed s m) = mem s.
Proof. by destruct m. Qed.

(** The device reports the identifiers of the sketch.  The first call
    looks for the device descriptor of the Arduino core in the program memory
    behind the interrupt vectors and takes vendor and product identifier from
    its first occurrence; without one the identifiers of the bootloader stay.
    Later calls change nothing. *)
Theorem shadow_first_match n s :
  let f := fun a => pgm_byte a (world s) in
  var_of DD_Size s = 0 ->
  exists s', shadow_vid_pid_from_sketch n s = Ok tt s' /\
    var_of DD_Size s' = sizeof_Device /\ shadow_vid_pid_from_sketch n s' = Ok tt s' /\
    ((exists j, _VECTORS_SIZE <= j < 0x200 /\ sketch_at f j = true /\
        (forall x, _VECTORS_SIZE <= x < j -> sketch_at f x = false) /\
        var_of DD_VendorID s' = word_at f (j + 4) /\ var_of DD_ProductID s' = word_at f (j + 6)) \/
     ((forall x, _VECTORS_SIZE <= x < 0x200 -> sketch_at f x = false) /\
        var_of DD_VendorID s' = var_of DD_VendorID s /\
        var_of DD_ProductID s' = var_of DD_ProductID s)).
Proof.
  intros f Hz. rewrite shadow_ok, Hz. cbn [truth Z.eqb negb]. cbv zeta. fold f.
  set (s1 := upd DD_Size sizeof_Device s).
  pose proof (find_sketch_spec f search_rounds _VECTORS_SIZE) as Hf.
  change (_VECTORS_SIZE + Z.of_nat search_rounds) with 0x200 in Hf.
  assert (forall a, is_u8 (u8 (f a))) as Hu by (intros; apply u8_range). unfold is_u8 in Hu.
  eexists. split; [reflexivity|].
  assert (forall m, var_of DD_Size (shadowed s1 m) = sizeof_Device) as Hd.
  { intros m. rewrite shadowed_other by done. unfold s1. by rewrite var_of_upd_eq. }
  split; [apply Hd|]. split; [by rewrite shadow_ok, Hd|].
  destruct (find_sketch f search_rounds _VECTORS_SIZE) as [j|].
  - left. exists j. destruct Hf as (H1 & H2 & H3). repeat (split; [done || lia|]).
    unfold shadowed. change (fun a => pgm_byte a (world s1)) with f.
    rewrite var_of_upd_ne, !var_of_upd_eq by done. unfold wrap, var_width, word_at.
    pose proof (Hu (j + 4)). pose proof (Hu (j + 4 + 1)).
    pose proof (Hu (j + 6)). pose proof (Hu (j + 6 + 1)).
    split; apply Z.mod_small; lia.
  - right. split; [done|]. unfold shadowed, s1. by rewrite !var_of_upd_ne.
Qed.
End Shadow.

(** ** Sizes and layout *)

(** Splitting a descriptor block at the length bytes: (type, body) of each. *)
Fixpoint split_descriptors (k : nat) (l : list Z) : option (list (Z * list Z)) :=
  match k, l with
  | _, [] => Some []
  | O, _ => None
  | S k', len :: ty :: _ =>
      if (2 <=? len) && (len <=? Z.of_nat (List.length l)) then
        match split_descriptors k' (drop (Z.to_nat len) l) with
        | Some r => Some ((ty, take (Z.to_nat len) l) :: r)
        | None => None
        end
      else None
  | _, _ => None
  end.

Definition descriptor_types (l : list (Z * list Z)) : list Z := map fst l.
Definition bodies_of (ty : Z) (l : list (Z * list Z)) : list (list Z) :=
  map snd (List.filter (fun d => d.1 =? ty) l).

(** Endpoint number, UECFG0X and size of an endpoint descriptor. *)
Definition ep_of_descriptor (b : list Z) : Z * Z * Z :=
  (Z.land (nth 2 b 0) ENDPOINT_EPNUM_MASK,
   Z.lor (Z.shiftl (Z.land (nth 3 b 0) 3) EPTYPE0) (if truth (Z.land (nth 2 b 0) ENDPOINT_DIR_IN) then bv EPDIR else 0),
   nth 4 b 0 + 256 * nth 5 b 0).

(** What the firmware writes to configure an endpoint: the configuration with
    the size code of UECFG1X decoded. *)
Fixpoint configured_endpoints (l : list event) : list (Z * Z * Z) :=
  match l with
  | EWr UENUM e :: l' =>
      match List.filter (fun x => match x with EWr _ _ => true | _ => false end) l' with
      | EWr UECONX _ :: EWr UECFG1X 0 :: EWr UECFG0X c0 :: EWr UECFG1X c1 :: _ =>
          (e, c0, Z.shiftl 8 (Z.land (Z.shiftr c1 EPSIZE0) 7)) :: configured_endpoints l'
      | _ => configured_endpoints l'
      end
  | _ :: l' => configured_endpoints l'
  | [] => []
  end.

(** Accesses of one endpoint configuration, newest first. *)
Definition configure_trace (e c0 c1 v st : Z) : list event :=
  [ERd UESTA0X st; EWr UECFG1X c1; EWr UECFG0X c0; EWr UECFG1X 0;
   EWr UECONX (Z.lor v (bv EPEN)); ERd UECONX v; EWr UENUM e].

Lemma configure_run `{B : Board} (V := no_vectors) e ty dir size mask n (s : state) :
  iflag s = false -> Endpoint_BytesToEPSizeMask size n s = Ok mask s ->
  exists b v st s', Endpoint_ConfigureEndpoint e ty dir size ENDPOINT_BANK_SINGLE n s = Ok b s' /\
    iflag s' = false /\
    tr s' = configure_trace e (u8 (Z.lor (Z.shiftl ty EPTYPE0) (if truth dir then bv EPDIR else 0)))
              (Z.lor (Z.lor (bv ALLOC) ENDPOINT_BANK_SINGLE) mask) v st ++ tr s.
Proof.
  intros Hf Hm. unfold Endpoint_ConfigureEndpoint, Endpoint_ConfigureEndpoint_Prv,
    Endpoint_SelectEndpoint, Endpoint_EnableEndpoint, Endpoint_IsConfigured, or_reg, test_reg.
  unfold bind at 1. rewrite Hm. unfold bind at 1. rewrite wr_cli by done.
  unfold bind at 1 2.
  match goal with |- context [rd UECONX n ?t] =>
    destruct (rd_cli UECONX n t Hf) as (v & h & E); rewrite E; clear E end.
  rewrite wr_cli by done. unfold bind at 1. rewrite wr_cli by done.
  unfold bind at 1. rewrite wr_cli by done. unfold bind at 1. rewrite wr_cli by done. unfold bind at 1.
  match goal with |- context [rd UESTA0X n ?t] =>
    destruct (rd_cli UESTA0X n t Hf) as (st & h' & E); rewrite E; clear E end.
  unfold ret. eexists _, _, _, _. split; [reflexivity|]. split; [done|]. reflexivity.
Qed.

Section Layout.
Context {B : Board} {I : BuildIds}.

(** After the search, the state a descriptor request leaves. *)
Definition searched (s : state) : state :=
  if truth (var_of DD_Size s) then s
  else shadowed (upd DD_Size sizeof_Device s)
         (find_sketch (fun a => pgm_byte a (world s)) search_rounds _VECTORS_SIZE).

Lemma searched_frame s : world (searched s) = world s /\ mem (searched s) = mem s /\
  var_of USB_DeviceState (searched s) = var_of USB_DeviceState s.
Proof.
  unfold searched. destruct (truth _); [done|].
  destruct (shadowed_frame (upd DD_Size sizeof_Device s)
    (find_sketch (fun a => pgm_byte a (world s)) search_rounds _VECTORS_SIZE)) as [-> ->].
  rewrite shadowed_other by done. by rewrite var_of_upd_ne.
Qed.

Lemma searched_size s :
  var_of DD_Size s = 0 \/ var_of DD_Size s = sizeof_Device ->
  var_of DD_Size (searched s) = sizeof_Device.
Proof.
  unfold searched. intros [-> | Hd]; [|by rewrite Hd]. cbn [truth Z.eqb negb].
  rewrite shadowed_other by done. by rewrite var_of_upd_eq.
Qed.

Lemma get_descriptor_run n wValue wIndex s :
  var_of DD_Size s = 0 \/ var_of DD_Size s = sizeof_Device ->
  exists size bytes, Adelino_GetDescriptor wValue wIndex n s = Ok (size, bytes) (searched s) /\
    (List.length bytes <= 62)%nat /\
    size = Z.of_nat (List.length bytes) /\
    (size = NO_DESCRIPTOR \/
     (nth 1 bytes 0 = u8 (Z.shiftr wValue 8) /\
      nth 0 bytes 0 = (if u8 (Z.shiftr wValue 8) =? DTYPE_Configuration then 9 else size))) /\
    (size <> NO_DESCRIPTOR <->
      u8 (Z.shiftr wValue 8) = DTYPE_Device \/ u8 (Z.shiftr wValue 8) = DTYPE_Configuration \/
      (u8 (Z.shiftr wValue 8) = DTYPE_String /\ 0 <= u8 (Z.land wValue 0xFF) <= 2)).
Proof.
  intros Hd. unfold Adelino_GetDescriptor. unfold bind at 1. rewrite shadow_ok.
  pose proof (searched_size s Hd) as Hd1. cbv zeta. fold (searched s).
  generalize dependent (searched s). intros s1 Hd1. set (ty := u8 (Z.shiftr wValue 8)). set (nb := u8 (Z.land wValue 0xFF)).
  assert (is_u8 nb) as Hnb by (apply u8_range). unfold is_u8 in Hnb.
  destruct (Z.eqb_spec ty DTYPE_Device) as [Et|Et].
  { unfold bind, get, ret. rewrite Hd1, Et. eexists _, _. split; [reflexivity|]. split; [simpl; lia|].
    split; [reflexivity|]. split; [by right|]. split; [by left|done]. }
  destruct (Z.eqb_spec ty DTYPE_Configuration) as [Ec|Ec].
  { unfold ret. eexists _, _. split; [reflexivity|]. split; [simpl; lia|]. split; [reflexivity|].
    split; [right; by rewrite Ec|]. split; [by right; left|done]. }
  destruct (Z.eqb_spec ty DTYPE_String) as [Es|Es].
  - assert (forall d : USB_Descriptor_String_t, StrSize d = Z.of_nat (List.length (string_bytes d)) ->
      StrSize d <> 0 -> StrSize d <= 62 -> nb <= 2 ->
      exists size bytes, Ok (StrSize d, string_bytes d) s1 = Ok (size, bytes) s1 /\
      (List.length bytes <= 62)%nat /\
      size = Z.of_nat (List.length bytes) /\
      (size = NO_DESCRIPTOR \/ (nth 1 bytes 0 = ty /\ nth 0 bytes 0 = size)) /\
      (size <> NO_DESCRIPTOR <-> ty = DTYPE_Device \/ ty = DTYPE_Configuration \/
        (ty = DTYPE_String /\ 0 <= nb <= 2))) as Hstr.
    { intros d Hl Hz Hm Hb. eexists _, _. split; [reflexivity|]. split; [lia|]. split; [done|].
      split; [right; by rewrite Es|]. split; [|done]. intros _. right. right. split; [done|lia]. }
    destruct (Z.eqb_spec nb 0) as [E0|E0]; [apply Hstr; [done|done|done|lia]|].
    destruct (Z.eqb_spec nb ProductStrIndex) as [E2|E2].
    { apply Hstr; [|done|done|unfold ProductStrIndex in E2; lia]. unfold ProductString. simpl.
      by destruct (_ =? _). }
    destruct (Z.eqb_spec nb ManufacturerStrIndex) as [E1|E1].
    { apply Hstr; [|done|done|unfold ManufacturerStrIndex in E1; lia]. unfold ManufNameString. simpl.
      by destruct (_ && _). }
    unfold ret. eexists _, _. split; [reflexivity|]. split; [simpl; lia|]. split; [done|]. split; [by left|].
    unfold ManufacturerStrIndex, ProductStrIndex, DTYPE_Device, DTYPE_Configuration, DTYPE_String in *.
    split; [done|lia].
  - unfold ret. eexists _, _. split; [reflexivity|]. split; [simpl; lia|]. split; [done|]. split; [by left|].
    split; [done|tauto].
Qed.

(** Every descriptor the device returns has the size it reports, its
    second byte is the type that was asked for, and its first byte is its
    length (of the leading header, for the configuration); any other request
    is refused with no descriptor. *)
Theorem get_descriptor_sizes n wValue wIndex s :
  var_of DD_Size s = 0 \/ var_of DD_Size s = sizeof_Device ->
  exists size bytes s', Adelino_GetDescriptor wValue wIndex n s = Ok (size, bytes) s' /\
    size = Z.of_nat (List.length bytes) /\
    (size = NO_DESCRIPTOR \/
     (nth 1 bytes 0 = u8 (Z.shiftr wValue 8) /\
      nth 0 bytes 0 = (if u8 (Z.shiftr wValue 8) =? DTYPE_Configuration then 9 else size))) /\
    (size <> NO_DESCRIPTOR <->
      u8 (Z.shiftr wValue 8) = DTYPE_Device \/ u8 (Z.shiftr wValue 8) = DTYPE_Configuration \/
      (u8 (Z.shiftr wValue 8) = DTYPE_String /\ 0 <= u8 (Z.land wValue 0xFF) <= 2)).
Proof.
  intros Hd. destruct (get_descriptor_run n wValue wIndex s Hd) as (size & bytes & E & _ & H).
  by exists size, bytes, (searched s).
Qed.

(** C8: The configuration descriptor is well formed and truthful.  It splits
    into the descriptors of a two-interface CDC device, its total length is
    the number of bytes sent, each interface declares as many endpoints as
    follow it, and the endpoints it announces are exactly those, with type,
    direction and size, that the firmware configures on
    [ConfigurationChanged], in ascending order as the controller requires. *)
Theorem configuration_truthful n (s : state) :
  iflag s = false -> (3 <= n)%nat ->
  exists l s', split_descriptors 9 ConfigurationDescriptor = Some l /\
    descriptor_types l = [2; 4; 0x24; 0x24; 0x24; 5; 4; 5; 5] /\
    le_value (take 2 (drop 2 ConfigurationDescriptor)) = Z.of_nat (List.length ConfigurationDescriptor) /\
    map (fun b => nth 4 b 0) (bodies_of DTYPE_Interface l) = [1; 2] /\
    @Adelino_ConfigurationChanged B no_vectors n s = Ok tt s' /\
    exists d, tr s' = d ++ tr s /\
      Permutation (configured_endpoints (rev d)) (map ep_of_descriptor (bodies_of DTYPE_Endpoint l)) /\
      map (fun x => x.1.1) (configured_endpoints (rev d)) = [2; 3; 4].
Proof.
  intros Hf Hn. unfold Adelino_ConfigurationChanged.
  destruct n as [|[|[|n]]]; [lia|lia|lia|]. set (N := S (S (S n))).
  edestruct (configure_run CDC_NOTIFICATION_EPNUM EP_TYPE_INTERRUPT ENDPOINT_DIR_IN
    CDC_NOTIFICATION_EPSIZE 0 N) as (b1 & v1 & t1 & s1 & E1 & F1 & T1); [exact Hf|reflexivity|].
  edestruct (configure_run CDC_TX_EPNUM EP_TYPE_BULK ENDPOINT_DIR_IN CDC_TXRX_EPSIZE 16 N)
    as (b2 & v2 & t2 & s2 & E2 & F2 & T2); [exact F1|reflexivity|].
  edestruct (configure_run CDC_RX_EPNUM EP_TYPE_BULK ENDPOINT_DIR_OUT CDC_TXRX_EPSIZE 16 N)
    as (b3 & v3 & t3 & s3 & E3 & F3 & T3); [exact F2|reflexivity|].
  eexists _, s3. split; [reflexivity|]. split; [reflexivity|]. split; [reflexivity|].
  split; [reflexivity|]. split.
  { unfold bind. by rewrite E1, E2, E3. }
  eexists. split; [rewrite T3, T2, T1, !app_assoc; reflexivity|]. split; [|reflexivity].
  cbn. apply perm_skip, perm_swap.
Qed.
End Layout.

(** ** Transfer of a descriptor *)

Section Transfer.
Context {B : Board} {V : Vectors} {KB : CtlBoard B} {I : BuildIds}.
#[local] Existing Instance adelino_app.

(** C10: A GetDescriptor request for a descriptor the device has is answered
    with that descriptor, truncated to the length the host asked for. *)
Theorem get_descriptor_transfer n s :
  let r := obj_of USB_ControlRequest s in
  let k := ctl_of (world s) in
  attached s -> k_in k = [] -> k_sent k = [] -> k_want k = wLength r -> 0 <= k_want k ->
  var_of DD_Size s = 0 \/ var_of DD_Size s = sizeof_Device ->
  u8 (Z.shiftr (wValue r) 8) = DTYPE_Device \/ u8 (Z.shiftr (wValue r) 8) = DTYPE_Configuration \/
    (u8 (Z.shiftr (wValue r) 8) = DTYPE_String /\ 0 <= u8 (Z.land (wValue r) 0xFF) <= 2) ->
  (126 <= n)%nat ->
  exists size bytes s1 s', Adelino_GetDescriptor (wValue r) (u8 (wIndex r)) n s = Ok (size, bytes) s1 /\
    USB_Device_GetDescriptor n s = Ok tt s' /\
    k_setup (ctl_of (world s')) = false /\
    concat (k_sent (ctl_of (world s'))) = take (Z.to_nat (wLength r)) bytes.
Proof.
  intros r k Ha Hi Ht Hw H0 Hd Hty Hn.
  destruct (get_descriptor_run n (wValue r) (u8 (wIndex r)) s Hd)
    as (size & bytes & E & Hlen & Hsz & _ & Hx).
  apply Hx in Hty. exists size, bytes, (searched s).
  destruct (searched_frame s) as (Fw & Fm & Fs).
  unfold USB_Device_GetDescriptor. unfold bind at 1, get_obj at 1. unfold bind at 1.
  fold r. change (CALLBACK_USB_GetDescriptor (wValue r) (u8 (wIndex r)))
    with (Adelino_GetDescriptor (wValue r) (u8 (wIndex r))).
  rewrite E. rewrite (proj2 (Z.eqb_neq _ _) Hty).
  assert (kst (searched s) k (searched s)) as H by (split; [by rewrite Fw|done|done]).
  destruct (k_clear_setup _ _ n _ H) as (s1 & E1 & H1). unfold bind at 1. rewrite E1.
  destruct (k_write_stream (searched s) n bytes _ s1 H1) as (s2 & k2 & E2 & H2 & Hs2 & Hc2 & _);
    try done.
  - destruct Ha. split; by rewrite Fs.
  - unfold obj_of. by rewrite Fm.
  - intros ->. simpl in Hsz. by subst.
  - lia.
  - unfold bind at 1. rewrite Hsz, E2.
    destruct (k_clear_out _ _ n _ H2) as (s3 & E3 & [H3 _ _]).
    exists s3. rewrite E3, H3, Hc2. split; [done|]. split; [done|]. split; [done|].
    cbn. by rewrite Hw.
Qed.
End Transfer.
