(* ===== verification/Requests.v ===== *)
(** * Requests that the device does not support

    [USB_Device_ProcessControlRequest] with the application's handlers: reading
    the SETUP packet, and the stall of every request nobody acknowledged. *)

From S2P Require Import Prelude Machine Logic Endpoint UsbDevice Descriptors Bootloader Programming Control DescriptorProps.

(** A descriptor request the device can answer. *)
Definition known_descriptor (v : Z) : bool :=
  let ty := u8 (Z.shiftr v 8) in
  (ty =? DTYPE_Device) || (ty =? DTYPE_Configuration) ||
  ((ty =? DTYPE_String) && (u8 (Z.land v 0xFF) <=? 2)).

(** The requests the device acknowledges. *)
Definition supported (r : list Z) : bool :=
  let bm := bmRequestType r in
  let req := bRequest r in
  ((bm =? 0xA1) && (req =? CDC_REQ_GetLineEncoding)) ||
  ((bm =? 0x21) && ((req =? CDC_REQ_SetLineEncoding) || (req =? CDC_REQ_SetControlLineState))) ||
  ((bm =? 0x82) && (req =? REQ_GetStatus)) ||
  ((bm =? 0x02) && ((req =? REQ_ClearFeature) || (req =? REQ_SetFeature)) &&
   negb ((u8 (wValue r) =? FEATURE_SEL_EndpointHalt) && (Z.land (u8 (wIndex r)) ENDPOINT_EPNUM_MASK =? 0))) ||
  ((bm =? 0x00) && (req =? REQ_SetAddress)) ||
  (((bm =? 0x80) || (bm =? 0x81)) && (req =? REQ_GetDescriptor) && known_descriptor (wValue r)) ||
  ((bm =? 0x80) && (req =? REQ_GetConfiguration)) ||
  ((bm =? 0x00) && (req =? REQ_SetConfiguration) && (u8 (wValue r) <=? FIXED_NUM_CONFIGURATIONS)).

Section Requests.
Context {B : Board} {V : Vectors} {KB : CtlBoard B} {I : BuildIds}.
#[local] Existing Instance adelino_app.

(** ** Reading the SETUP packet *)

Definition with_fifo (l : list Z) (k : ctl) : ctl :=
  mkCtl l (k_setup k) (k_in k) (k_sent k) (k_want k) (k_stall k).

Lemma read_request_ok n j : forall pre old fifo s k,
  ctl_of (world s) = k -> k_fifo k = fifo -> Forall is_u8 fifo ->
  length old = j -> (j <= length fifo)%nat -> obj_of USB_ControlRequest s = pre ++ old ->
  exists s', read_request j (length pre) n s = Ok tt s' /\
    ctl_of (world s') = with_fifo (drop j fifo) k /\ vars s' = vars s /\
    obj_of USB_ControlRequest s' = pre ++ take j fifo.
Proof.
  induction j as [|j IH]; intros pre old fifo s k Hk Hf Hu Ho Hj Hm.
  { exists s. destruct old; [|done]. rewrite app_nil_r in *. split; [done|]. split; [|done].
    subst. by destruct (ctl_of (world s)). }
  destruct old as [|o old]; [done|]. destruct fifo as [|b fifo]; [simpl in Hj; lia|].
  apply Forall_cons in Hu as [Hb Hu]. cbn [read_request]. unfold Endpoint_Read_8. unfold bind at 1.
  destruct (k_rd s k n s UEDATX b) as (s1 & E1 & [H1 H2 H3]); [by split|simpl; by rewrite Hf|].
  rewrite E1, u8_id by done. unfold bind at 1, get_obj at 1. unfold bind at 1, put_obj at 1.
  assert (obj_of USB_ControlRequest s1 = pre ++ o :: old) as Hm1
    by (unfold obj_of; rewrite H3; exact Hm).
  rewrite Hm1. replace (<[length pre := b]> (pre ++ o :: old)) with ((pre ++ [b]) ++ old)
    by (rewrite insert_app_r_alt, Nat.sub_diag by lia; simpl; by rewrite <- app_assoc).
  set (s2 := upd_obj _ _ s1).
  destruct (IH (pre ++ [b]) old fifo s2 (ctl_rd UEDATX k)) as (s' & E & Hc & Hv & Hr).
  - exact H1.
  - simpl. by rewrite Hf.
  - done.
  - simpl in Ho. lia.
  - simpl in Hj. lia.
  - unfold s2, obj_of, upd_obj. simpl. by rewrite lookup_total_insert_eq.
  - exists s'. rewrite length_app, Nat.add_1_r in E. split; [exact E|].
    rewrite Hc, Hv, Hr, <- app_assoc. split; [done|]. split; [exact H2|done].
Qed.

(** ** Requests nobody handles *)

Lemma class_unhandled n s : supported (obj_of USB_ControlRequest s) = false ->
  Adelino_ControlRequest n s = Ok tt s.
Proof.
  intros Hs. unfold Adelino_ControlRequest, bind at 1, get_obj at 1.
  set (r := obj_of USB_ControlRequest s) in *.
  destruct (negb _); [done|]. unfold supported in Hs.
  change (class_interface REQDIR_DEVICETOHOST) with 0xA1.
  change (class_interface REQDIR_HOSTTODEVICE) with 0x21.
  destruct (bRequest r =? CDC_REQ_GetLineEncoding) eqn:E1.
  { destruct (bmRequestType r =? 0xA1); [done|done]. }
  destruct (bRequest r =? CDC_REQ_SetLineEncoding) eqn:E2.
  { destruct (bmRequestType r =? 0x21); [|done]. by rewrite !orb_true_r in Hs. }
  destruct (bRequest r =? CDC_REQ_SetControlLineState) eqn:E3; [|done].
  destruct (bmRequestType r =? 0x21); [|done]. by rewrite !orb_true_r in Hs.
Qed.

(** The hypothesis on the size field of the device descriptor. *)
Definition dd_ok (s : state) : Prop :=
  var_of DD_Size s = 0 \/ var_of DD_Size s = sizeof_Device.

Lemma unknown_descriptor n s : dd_ok s ->
  known_descriptor (wValue (obj_of USB_ControlRequest s)) = false ->
  USB_Device_GetDescriptor n s = Ok tt (searched s).
Proof.
  intros Hd Hk. unfold USB_Device_GetDescriptor. unfold bind at 1, get_obj at 1.
  set (r := obj_of USB_ControlRequest s) in *.
  destruct (get_descriptor_run n (wValue r) (u8 (wIndex r)) s Hd)
    as (size & bytes & E & _ & _ & _ & Hx).
  unfold bind at 1. change (CALLBACK_USB_GetDescriptor (wValue r) (u8 (wIndex r)))
    with (Adelino_GetDescriptor (wValue r) (u8 (wIndex r))). rewrite E.
  destruct (Z.eqb_spec size NO_DESCRIPTOR) as [|Hne]; [done|].
  apply Hx in Hne. unfold known_descriptor in Hk. lia.
Qed.

Lemma dispatch_unhandled n s : dd_ok s ->
  let r := obj_of USB_ControlRequest s in
  supported r = false ->
  dispatch_request (bmRequestType r) (bRequest r) n s = Ok tt s \/
  dispatch_request (bmRequestType r) (bRequest r) n s = Ok tt (searched s).
Proof.
  intros Hd r Hs. unfold dispatch_request, supported in *. cbv zeta in Hs.
  assert (forall m : M unit, m n s = Ok tt s \/ m n s = Ok tt (searched s) ->
    forall b : bool, (If b Then m) n s = Ok tt s \/ (If b Then m) n s = Ok tt (searched s)) as Hif.
  { intros m Hm []; [done|by left]. }
  change (Z.lor (Z.lor REQDIR_DEVICETOHOST REQTYPE_STANDARD) REQREC_DEVICE) with 0x80.
  change (Z.lor (Z.lor REQDIR_DEVICETOHOST REQTYPE_STANDARD) REQREC_ENDPOINT) with 0x82.
  change (Z.lor (Z.lor REQDIR_DEVICETOHOST REQTYPE_STANDARD) REQREC_INTERFACE) with 0x81.
  change (Z.lor (Z.lor REQDIR_HOSTTODEVICE REQTYPE_STANDARD) REQREC_DEVICE) with 0x00.
  change (Z.lor (Z.lor REQDIR_HOSTTODEVICE REQTYPE_STANDARD) REQREC_ENDPOINT) with 0x02.
  destruct (bRequest r =? REQ_GetStatus) eqn:E1.
  { apply Hif. left. unfold USB_Device_GetStatus, bind at 1, get_obj at 1. fold r.
    change (Z.lor (Z.lor REQDIR_DEVICETOHOST REQTYPE_STANDARD) REQREC_ENDPOINT) with 0x82.
    destruct (bmRequestType r =? 0x82) eqn:E; [|done]. exfalso. lia. }
  destruct ((bRequest r =? REQ_ClearFeature) || (bRequest r =? REQ_SetFeature)) eqn:E2.
  { destruct (bmRequestType r =? 0) eqn:E0, (bmRequestType r =? 2) eqn:E3; try lia; [| |by left].
    - left. cbn [orb]. unfold USB_Device_ClearSetFeature, bind at 1, get_obj at 1. fold r.
      apply Z.eqb_eq in E0. by rewrite E0.
    - left. cbn [orb]. unfold USB_Device_ClearSetFeature, bind at 1, get_obj at 1. fold r.
      apply Z.eqb_eq in E3. rewrite E3.
      replace (Z.land 2 CONTROL_REQTYPE_RECIPIENT =? REQREC_ENDPOINT) with true by reflexivity.
      unfold clear_set_halt. destruct (u8 (wValue r) =? FEATURE_SEL_EndpointHalt) eqn:E4; [|lia].
      destruct (Z.land (u8 (wIndex r)) ENDPOINT_EPNUM_MASK =? 0) eqn:E5; [|lia].
      unfold ENDPOINT_CONTROLEP. by rewrite E5. }
  destruct (bRequest r =? REQ_SetAddress) eqn:E6.
  { destruct (bmRequestType r =? 0) eqn:E0; [lia|by left]. }
  destruct (bRequest r =? REQ_GetDescriptor) eqn:E7.
  { destruct ((bmRequestType r =? 128) || (bmRequestType r =? 129)) eqn:E0; [|by left].
    right. apply unknown_descriptor; [done|]. fold r. lia. }
  destruct (bRequest r =? REQ_GetConfiguration) eqn:E8.
  { destruct (bmRequestType r =? 128) eqn:E0; [lia|by left]. }
  destruct (bRequest r =? REQ_SetConfiguration) eqn:E9; [|by left].
  destruct (bmRequestType r =? 0) eqn:E0; [|by left].
  left. unfold USB_Device_SetConfiguration, bind at 1, get_obj at 1. fold r.
  replace (FIXED_NUM_CONFIGURATIONS <? u8 (wValue r)) with true by lia. done.
Qed.

Lemma stall_ok s0 k n s : kst s0 k s ->
  exists s', (Endpoint_StallTransaction ;; Endpoint_ClearSETUP) n s = Ok tt s' /\
    kst s0 (mkCtl (k_fifo k) false (k_in k) (k_sent k) (k_want k) true) s'.
Proof.
  intros H. unfold Endpoint_StallTransaction, or_reg. unfold bind at 1 2.
  destruct (k_rd_any _ _ n s UECONX H) as (v & s1 & E1 & H1). rewrite E1.
  destruct (k_wr _ _ n s1 UECONX (Z.lor v (bv STALLRQ)) H1) as (s2 & E2 & H2). rewrite E2.
  destruct (k_clear_setup _ _ n s2 H2) as (s3 & E3 & H3). exists s3. split; [exact E3|].
  cbn -[Z.testbit] in H3. rewrite Z.lor_spec in H3.
  replace (Z.testbit (bv STALLRQ) STALLRQ) with true in H3 by reflexivity.
  unfold no_setup in H3. cbn -[Z.testbit] in H3. by rewrite !orb_true_r in H3.
Qed.

(** A state in which nobody handles the request: only descriptor variables change. *)
Lemma dispatch_idle n s : dd_ok s -> supported (obj_of USB_ControlRequest s) = false ->
  exists s', dispatch_request (bmRequestType (obj_of USB_ControlRequest s))
      (bRequest (obj_of USB_ControlRequest s)) n s = Ok tt s' /\ world s' = world s /\
    var_of USB_DeviceState s' = var_of USB_DeviceState s /\
    var_of USB_Device_ConfigurationNumber s' = var_of USB_Device_ConfigurationNumber s.
Proof.
  intros Hd Hx. destruct (searched_frame s) as (F1 & F2 & F3).
  destruct (dispatch_unhandled n s Hd Hx) as [E|E]; rewrite E; [by exists s|].
  exists (searched s). repeat split; try done. unfold searched. destruct (truth _); [done|].
  rewrite shadowed_other by done. by rewrite var_of_upd_ne.
Qed.

(** C11: A request that the device does not support is stalled: the SETUP
    packet is consumed, the stall handshake is requested, no data is sent and
    the state of the device and its configuration do not change.  This
    includes unknown descriptors, configuration values above 1, halting the
    control endpoint, feature requests to the device, and device status. *)
Theorem unsupported_request_stalled n s :
  let k := ctl_of (world s) in
  length (k_fifo k) = 8%nat -> Forall is_u8 (k_fifo k) -> k_setup k = true ->
  length (obj_of USB_ControlRequest s) = 8%nat -> dd_ok s -> supported (k_fifo k) = false ->
  exists s', USB_Device_ProcessControlRequest n s = Ok tt s' /\
    k_stall (ctl_of (world s')) = true /\ k_setup (ctl_of (world s')) = false /\
    k_sent (ctl_of (world s')) = k_sent k /\
    var_of USB_DeviceState s' = var_of USB_DeviceState s /\
    var_of USB_Device_ConfigurationNumber s' = var_of USB_Device_ConfigurationNumber s.
Proof.
  intros k Hl Hu Hs Ho Hd Hx. unfold USB_Device_ProcessControlRequest.
  destruct (read_request_ok n 8 [] (obj_of USB_ControlRequest s) (k_fifo k) s k)
    as (s1 & E1 & Hk1 & Hv1 & Hr1); try done; [by rewrite Hl|].
  rewrite take_ge in Hr1 by lia. cbn [app] in Hr1.
  unfold bind at 1. cbn [length] in E1. rewrite E1.
  assert (supported (obj_of USB_ControlRequest s1) = false) as Hx1 by (by rewrite Hr1).
  assert (dd_ok s1) as Hd1 by (unfold dd_ok, var_of in *; by rewrite Hv1).
  unfold bind at 1. change EVENT_USB_Device_ControlRequest with Adelino_ControlRequest.
  rewrite class_unhandled by done.
  set (k1 := with_fifo (drop 8 (k_fifo k)) k) in *.
  assert (kst s1 k1 s1) as H by (by split).
  unfold Endpoint_IsSETUPReceived, test_reg. unfold bind at 1 2.
  destruct (k_rd _ _ n s1 UEINTX _ H eq_refl) as (s2 & E2 & H2). rewrite E2.
  unfold ret at 1. rewrite flag_setup. change (k_setup k1) with (k_setup k). rewrite Hs.
  unfold bind at 1. unfold bind at 1.
  rewrite (k_get_obj _ _ n _ USB_ControlRequest H2). cbn [ctl_rd] in H2.
  assert (obj_of USB_ControlRequest s2 = obj_of USB_ControlRequest s1) as Ho2
    by (unfold obj_of; by rewrite (ks_mem _ _ _ H2)).
  assert (dd_ok s2) as Hd2
    by (unfold dd_ok, var_of in *; by rewrite (ks_vars _ _ _ H2)).
  rewrite <- Ho2 in Hx1 |- *.
  destruct (dispatch_idle n s2 Hd2 Hx1) as (s3 & E3 & Hw3 & Hv3 & Hc3).
  rewrite E3.
  assert (kst s3 k1 s3) as H3 by (split; [by rewrite Hw3; apply H2|done|done]).
  destruct (k_rd _ _ n s3 UEINTX _ H3 eq_refl) as (s4 & E4 & H4). unfold bind at 1 2. rewrite E4.
  unfold ret at 1. rewrite flag_setup. change (k_setup k1) with (k_setup k). rewrite Hs.
  destruct (stall_ok _ _ n s4 H4) as (s7 & E7 & [H7 H8 _]). rewrite E7.
  exists s7. rewrite H7. repeat (split; [done|]).
  assert (forall x, var_of x s7 = var_of x s3) as Hv7 by (intros; unfold var_of; by rewrite H8).
  assert (forall x, var_of x s2 = var_of x s) as Hv2
    by (intros; unfold var_of; by rewrite (ks_vars _ _ _ H2), Hv1).
  by rewrite !Hv7, Hv3, Hc3, !Hv2.
Qed.
End Requests.
