(* ===== verification/Sim.v ===== *)
(** * A concrete board

    An executable board that satisfies the hypotheses of the development: the
    CDC endpoints, the self-programming memory, plain registers, and a script
    of interrupt requests.  It shows that the hypotheses can be met together
    and gives the witnesses their concrete states. *)

From Stdlib Require Import Strings.Ascii.
From S2P Require Import Prelude Machine Logic Endpoint UsbDevice Descriptors Bootloader Avr109 Boot Programming CdcLink Liveness Control.

Record sim_hw := mkSim {
  h_cdc : cdc;
  h_spm : spm;
  h_irqs : list (list irq);   (** requests at the next accesses *)
  h_regs : reg -> Z           (** the other registers *)
}.

(** Requests that the masks let through. *)
Definition enabled (c : cdc) (i : irq) : bool :=
  match i with
  | TIMER1_COMPA => truth (c_timer c)
  | USART1_RX => true
  | USB_GEN => false
  end.

Definition sim_irqs (h : sim_hw) : list irq * sim_hw :=
  match h_irqs h with
  | [] => ([], h)
  | l :: ls => (List.filter (enabled (h_cdc h)) l, mkSim (h_cdc h) (h_spm h) ls (h_regs h))
  end.

Definition sim_read (r : reg) (h : sim_hw) : Z * sim_hw :=
  match cdc_val r (h_cdc h) with
  | Some v => (v, mkSim (cdc_rd r (h_cdc h)) (h_spm h) (h_irqs h) (h_regs h))
  | None => (h_regs h r, h)
  end.

Definition sim_write (r : reg) (v : Z) (h : sim_hw) : sim_hw :=
  mkSim (cdc_wr r v (h_cdc h)) (h_spm h) (h_irqs h)
    (fun r' => if decide (r' = r) then v else h_regs h r').

#[export] Instance sim : Board := {|
  hw := sim_hw;
  io_read := sim_read;
  io_write := sim_write;
  irqs := sim_irqs;
  pgm_byte a h := sp_flash (h_spm h) a;
  eeprom_byte _ _ := 255;
  fuse_byte _ _ := 0;
  avr o h := mkSim (h_cdc h) (spm_step o (h_spm h)) (h_irqs h) (h_regs h)
|}.

#[export] Instance sim_spm : SpmBoard sim.
Proof.
  refine {| spm_of := h_spm : @hw sim -> spm |}.
  - intros r h. simpl. unfold sim_read. by destruct (cdc_val _ _).
  - done.
  - intros h. simpl. unfold sim_irqs. by destruct (h_irqs h).
  - done.
  - done.
Defined.

Definition sim_ticks (h : sim_hw) : Z := timer_irqs (concat (h_irqs h)).

Lemma timer_irqs_app l l' : timer_irqs (l ++ l') = timer_irqs l + timer_irqs l'.
Proof. induction l as [|i l IH]; simpl; [done|]. rewrite IH. lia. Qed.

Lemma timer_irqs_filter f l : timer_irqs (List.filter f l) <= timer_irqs l.
Proof.
  induction l as [|i l IH]; simpl; [done|]. destruct (f i); simpl; [lia|].
  destruct (bool_decide _); simpl; lia.
Qed.

#[export] Instance sim_cdc : CdcBoard sim.
Proof.
  refine {| cdc_of := h_cdc : @hw sim -> cdc; cdc_latency := 2 |}.
  - intros r h v Hv. simpl in *. unfold sim_read. by rewrite Hv.
  - intros r h. simpl. unfold sim_read. destruct (cdc_val r (h_cdc h)) as [v|] eqn:E; [done|].
    simpl. destruct r; simpl in *; done.
  - done.
  - done.
  - intros h. simpl. unfold sim_irqs. by destruct (h_irqs h).
  - intros h. simpl. unfold sim_irqs. destruct (h_irqs h) as [|l ls]; simpl; [set_solver|].
    rewrite list_elem_of_In, filter_In. by intros [_ ?].
  - intros h Hm. simpl in *. unfold sim_irqs. destruct (h_irqs h) as [|l ls]; simpl; [set_solver|].
    rewrite list_elem_of_In, filter_In. intros [_ He]. simpl in He. by rewrite Hm in He.
Defined.

#[export] Instance sim_budget : TickBudget sim.
Proof.
  refine {| budget := True; ticks_of := sim_ticks : @hw sim -> Z |}.
  - intros h. apply timer_irqs_nonneg.
  - intros r h _ _. simpl. unfold sim_read. by destruct (cdc_val _ _).
  - intros h _. apply Z.le_max_l.
  - done.
  - done.
  - intros h _. simpl. unfold sim_irqs, sim_ticks. destruct (h_irqs h) as [|l ls] eqn:E; simpl.
    + by rewrite E.
    + rewrite timer_irqs_app. pose proof (timer_irqs_filter (enabled (h_cdc h)) l). lia.
Defined.

(** The vendor and product identifiers of the release. *)
#[export] Instance adelino_ids : BuildIds := {| DEVICE_VID := 0x04D8; DEVICE_PID := 0xEDDF |}.

(** A state of the bootloader on this board: attached and configured, the
    timeout running, [packets] sent by the host, the interrupt script [script]; the host
    takes the first packet after one more poll, the third after two. *)
Definition sim_state (packets : list (list Z)) (script : list (list irq)) : @state sim :=
  mkState
    (<[USB_DeviceState := DEVICE_STATE_Configured]> (<[Timeout := 60]>
       (<[boot_mode := BM_KEEP_BOOTLOADER]> (static_vars 0))))
    static_mem true []
    (mkSim (mkCdc 0 packets [] [] (bv OCIE1A) 0 [1; 0; 2]%nat) (mkSpm (fun _ => 0x55) (fun _ => 0xFFFF) true)
       script (fun _ => 0)).

(** Two timer ticks and one received character. *)
Definition some_irqs : list (list irq) := [[TIMER1_COMPA; USART1_RX]; []; [TIMER1_COMPA]].

Lemma sim_up packets :
  forallb (fun p => (length p <=? 16)%nat && forallb (fun b => (0 <=? b) && (b <? 256)) p) packets = true ->
  forallb (fun p => negb (bool_decide (p = []))) (tl packets) = true ->
  link_up (sim_state packets some_irqs).
Proof.
  intros H1 H2. rewrite forallb_forall in H1. rewrite forallb_forall in H2.
  split; [done|done|done|]. split; cbn.
  - apply Forall_forall. intros p Hp%list_elem_of_In. specialize (H1 p Hp). lia.
  - apply Forall_forall. intros p Hp%list_elem_of_In. specialize (H2 p Hp).
    by case_bool_decide.
  - apply Forall_forall. intros p Hp%list_elem_of_In. specialize (H1 p Hp).
    apply andb_true_iff in H1 as [_ H1]. rewrite forallb_forall in H1.
    apply Forall_forall. intros b Hb%list_elem_of_In. specialize (H1 b Hb). unfold is_u8. lia.
  - lia.
  - done.
  - repeat constructor.
Qed.

(** The packets of 16 bytes in which the host sends a byte string. *)
Fixpoint packets_of (k : nat) (l : list Z) : list (list Z) :=
  match k, l with
  | _, [] => []
  | O, _ => [l]
  | S k', _ => take 16 l :: packets_of k' (drop 16 l)
  end.
Definition host (l : list Z) : @state sim := sim_state (packets_of 64 l) some_irqs.

(** ** A board with a running timer: a tick at every fourth access *)

Record clock_hw := mkClock { k_cdc : cdc; k_count : nat; k_spm : spm }.

Definition clock_irqs (h : clock_hw) : list irq * clock_hw :=
  match (k_count h mod 4)%nat with
  | O => (List.filter (enabled (k_cdc h)) [TIMER1_COMPA], mkClock (k_cdc h) 3 (k_spm h))
  | S k => ([], mkClock (k_cdc h) k (k_spm h))
  end.

(** The counter has four values. *)
Definition counter (h : clock_hw) : Z := Z.of_nat (k_count h) mod 4.

Definition clock_read (r : reg) (h : clock_hw) : Z * clock_hw :=
  match cdc_val r (k_cdc h) with
  | Some v => (v, mkClock (cdc_rd r (k_cdc h)) (k_count h) (k_spm h))
  | None => (0, h)
  end.

Definition clock : Board := {|
  hw := clock_hw;
  io_read := clock_read;
  io_write r v h := mkClock (cdc_wr r v (k_cdc h)) (k_count h) (k_spm h);
  irqs := clock_irqs;
  pgm_byte a h := sp_flash (k_spm h) a;
  eeprom_byte _ _ := 255;
  fuse_byte _ _ := 0;
  avr o h := mkClock (k_cdc h) (k_count h) (spm_step o (k_spm h))
|}.

#[export] Instance clock_spm : SpmBoard clock.
Proof.
  refine {| spm_of := k_spm : @hw clock -> spm |}.
  - intros r h. simpl. unfold clock_read. by destruct (cdc_val _ _).
  - done.
  - intros h. cbn -[Nat.modulo]. unfold clock_irqs. by destruct (k_count h mod 4)%nat.
  - done.
  - done.
Defined.

#[export] Instance clock_cdc : CdcBoard clock.
Proof.
  refine {| cdc_of := k_cdc : @hw clock -> cdc; cdc_latency := 2 |}.
  - intros r h v Hv. simpl in *. unfold clock_read. by rewrite Hv.
  - intros r h. simpl. unfold clock_read. destruct (cdc_val r (k_cdc h)) as [v|] eqn:E; [done|].
    destruct r; simpl in *; done.
  - done.
  - done.
  - intros h. cbn -[Nat.modulo]. unfold clock_irqs. by destruct (k_count h mod 4)%nat.
  - intros h. cbn -[Nat.modulo]. unfold clock_irqs.
    destruct (k_count h mod 4)%nat; simpl; [destruct (truth _)|];
      rewrite list_elem_of_In; simpl; intuition congruence.
  - intros h Hm. cbn -[Nat.modulo] in *. unfold clock_irqs.
    destruct (k_count h mod 4)%nat; simpl; [rewrite Hm; simpl|];
      rewrite list_elem_of_In; simpl; intuition congruence.
Defined.

#[export] Instance clock_ticks : TickBoard clock.
Proof.
  refine {| tick_period := 4; next_tick := counter : @hw clock -> Z |}.
  - intros h. unfold counter. apply Z.mod_pos_bound. lia.
  - intros r h. simpl. unfold clock_read. by destruct (cdc_val r (k_cdc h)).
  - done.
  - intros h Hm. cbn -[Nat.modulo] in *. unfold clock_irqs, counter.
    assert (k_count h mod 4 < 4)%nat by (apply Nat.mod_upper_bound; lia).
    pose proof (Nat2Z.inj_mod (k_count h) 4) as Hz. change (Z.of_nat 4) with 4 in Hz. rewrite <- Hz.
    destruct (k_count h mod 4)%nat as [|k] eqn:E; simpl.
    + left. unfold truth. rewrite (proj2 (Z.eqb_neq _ _)) by done. simpl. by left.
    + right. rewrite Z.mod_small by lia. lia.
  - intros h. cbn -[Nat.modulo]. unfold clock_irqs.
    destruct (k_count h mod 4)%nat; simpl; [destruct (truth _)|];
      rewrite list_elem_of_In; simpl; intuition congruence.
Defined.

(** A normal boot, [packets] sent by the host. *)
Definition clock_cdc_at (packets : list (list Z)) : cdc := mkCdc 0 packets [] [] (bv OCIE1A) 0 [].
Definition clock_state (packets : list (list Z)) : @state clock :=
  @mkState clock
    (<[USB_DeviceState := DEVICE_STATE_Configured]> (<[Timeout := ACT_BOOTLOADER_TIMEOUT]>
       (<[boot_mode := BM_NORMAL_BOOT]> (<[leds_enabled := BM_NORMAL_BOOT]> (static_vars 0)))))
    static_mem true [] (mkClock (clock_cdc_at packets) 0 (mkSpm (fun _ => 0x55) (fun _ => 0xFFFF) true)).

(** Nothing to do. *)
Definition idle_cdc : cdc := clock_cdc_at [].
Definition idle_state : @state clock := clock_state [].

Lemma idle_start : @idle clock _ idle_cdc idle_state.
Proof. split; try done. Qed.

(** ** A board in a control transfer *)

Definition ctl_board : Board := {|
  hw := ctl * (Z -> Z);
  io_read r h := match ctl_val r h.1 with Some v => (v, (ctl_rd r h.1, h.2)) | None => (0, h) end;
  io_write r v h := (ctl_wr r v h.1, h.2);
  irqs h := ([], h);
  pgm_byte a h := h.2 a;
  eeprom_byte _ _ := 255;
  fuse_byte _ _ := 0;
  avr _ h := h
|}.

#[export] Instance ctl_board_ok : CtlBoard ctl_board.
Proof.
  refine {| ctl_of := (fun h => h.1) : @hw ctl_board -> ctl |}.
  - intros r h v Hv. simpl in *. by rewrite Hv.
  - intros r h. simpl. destruct (ctl_val r h.1) as [v|] eqn:E; [done|].
    destruct r; simpl in *; done.
  - done.
  - done.
  - intros r h a. simpl. by destruct (ctl_val r h.1).
  - done.
Defined.

(** The host has sent the request [r]; [f] is the program memory. *)
Definition ctl_state (fifo r : list Z) (setup : bool) (f : Z -> Z) : @state ctl_board :=
  @mkState ctl_board
    (<[USB_DeviceState := DEVICE_STATE_Addressed]> (static_vars 0))
    (<[USB_ControlRequest := r]> static_mem) true []
    (mkCtl fifo setup [] [] (wLength r) false, f).

(** Program memory with the descriptor of a sketch at 0x100. *)
Definition sketch_memory (a : Z) : Z :=
  nth (Z.to_nat (a - 0x100)) (if a <? 0x100 then [] else [0xef; 0x02; 0x01; 0x40; 0x41; 0x23; 0x36; 0x80]) 0xFF.
