(* ===== verification/Eboot.v ===== *)
(** * eboot, the second-stage bootloader of the ESP8266

    Models [ESP/bootloaders/eboot/eboot.c], [eboot_command.c], [flash.c] and the
    sketch's side of the command protocol,
    [ESP/cores/esp8266/core_esp8266_eboot_command.c].  The SPI flash routines
    are in the mask ROM of the chip and are the operations of the class [Rom];
    what they do is stated in EbootProps.v. *)

From S2P Require Import Prelude.

(** ** Constants ([eboot_command.h], [spi_flash_geometry.h]) *)

Definition ACTION_COPY_RAW := 0x00000001.
Definition ACTION_LOAD_APP := 0xffffffff.
Definition EBOOT_MAGIC := 0xeb001000.
Definition EBOOT_MAGIC_MASK := 0xfffff000.
Definition FLASH_SECTOR_SIZE := 0x1000.
Definition FLASH_BLOCK_SIZE := 0x10000.
Definition APP_START_OFFSET := 0x1000.
Definition sizeof_image_header := 8.
Definition sizeof_section_header := 8.

(** ** The command structure

    [struct eboot_command] is 32 words: magic, action, 29 arguments and the
    checksum.  The code copies it word by word from and to the RTC memory, and
    computes the checksum over its bytes (little-endian). *)

Record eboot_command := mkCommand {
  magic : Z; action : Z; args : list Z; crc32 : Z
}.

Definition words (cmd : eboot_command) : list Z :=
  magic cmd :: action cmd :: args cmd ++ [crc32 cmd].
Definition of_words (l : list Z) : eboot_command :=
  mkCommand (nth 0 l 0) (nth 1 l 0) (take 29 (drop 2 l)) (nth 31 l 0).
Definition word_bytes (l : list Z) : list Z := concat (map (le_bytes 4) l).

(** ** Checksum *)

(** Body of the bit loop. *)
Definition crc_bit (c i crc : Z) : Z :=
  let bit := bit_set crc 0x80000000 in
  let bit := if bit_set c i then negb bit else bit in
  let crc := u32 (Z.shiftl crc 1) in
  if bit then Z.lxor crc 0x04c11db7 else crc.

(** [for (i = 0x80; i > 0; i >>= 1)]: [i] is positive eight times. *)
Fixpoint crc_bits (k : nat) (i c crc : Z) : Z :=
  match k with
  | O => crc
  | S k' => if 0 <? i then crc_bits k' (Z.shiftr i 1) c (crc_bit c i crc) else crc
  end.
Definition crc_byte (crc c : Z) : Z := crc_bits 9 0x80 c crc.

Fixpoint crc_update (crc : Z) (data : list Z) : Z :=
  match data with
  | [] => crc
  | c :: data' => crc_update (crc_byte crc c) data'
  end.

(** The bytes before [offsetof(struct eboot_command, crc32)]. *)
Definition eboot_command_calculate_crc32 (cmd : eboot_command) : Z :=
  crc_update 0xffffffff (word_bytes (magic cmd :: action cmd :: args cmd)).

(** ** The flash routines of the mask ROM

    Each returns 0 on success.  [SPIRead] also returns the bytes it stored at
    its destination. *)
Class Rom := {
  flash : Type;
  SPIEraseBlock : Z -> flash -> Z * flash;
  SPIEraseSector : Z -> flash -> Z * flash;
  SPIRead : Z -> Z -> flash -> Z * list Z;
  SPIWrite : Z -> list Z -> flash -> Z * flash
}.

(** Console output, watchdog control and software reset, in order. *)
Inductive msg :=
  | ets_putc (c : Z)
  | ets_printf (ver : Z)
  | ets_wdt_disable
  | ets_wdt_enable
  | SWRST.

Section Eboot.
Context {R : Rom}.

(** The chip as eboot sees it: flash, RTC memory (words), what has been loaded
    into memory (address and bytes, oldest first) and the output. *)
Record esp := mkEsp {
  fl : flash; RTC_MEM : list Z; ram : list (Z * list Z); out : list msg
}.

(** How the code can stop without returning: the jump to the application, the
    endless loop at the end of [main], or a loop that used up its fuel. *)
Inductive stop := Jx (pc : Z) | Spin | NoFuel.

Definition E (A : Type) : Type := esp -> (A + stop) * esp.
Definition ret {A} (a : A) : E A := fun e => (inl a, e).
Definition halt {A} (s : stop) : E A := fun e => (inr s, e).
Definition bind {A C} (m : E A) (k : A -> E C) : E C := fun e =>
  match m e with
  | (inl a, e') => k a e'
  | (inr s, e') => (inr s, e')
  end.

#[local] Notation "x <- m ;; k" := (bind m (fun x => k))
  (at level 100, m at next level, right associativity).
#[local] Notation "m ;; k" := (bind m (fun _ => k))
  (at level 100, right associativity).

Definition set_fl (f : flash) (e : esp) : esp := mkEsp f (RTC_MEM e) (ram e) (out e).
Definition set_rtc (l : list Z) (e : esp) : esp := mkEsp (fl e) l (ram e) (out e).

Definition say (m : msg) : E unit := fun e =>
  (inl tt, mkEsp (fl e) (RTC_MEM e) (ram e) (out e ++ [m])).
Fixpoint say_all (l : list msg) : E unit :=
  match l with
  | [] => ret tt
  | m :: l' => say m ;; say_all l'
  end.

Definition erase_sector (n : Z) : E Z := fun e =>
  let '(r, f) := SPIEraseSector n (fl e) in (inl r, set_fl f e).
Definition erase_block (n : Z) : E Z := fun e =>
  let '(r, f) := SPIEraseBlock n (fl e) in (inl r, set_fl f e).
Definition write_flash (a : Z) (l : list Z) : E Z := fun e =>
  let '(r, f) := SPIWrite a l (fl e) in (inl r, set_fl f e).

(** [SPIRead] into a local object of the caller ... *)
Definition read_flash (a n : Z) : E (Z * list Z) := fun e => (inl (SPIRead a n (fl e)), e).
(** ... and to an absolute address. *)
Definition load_flash (a dest n : Z) : E Z := fun e =>
  let '(r, l) := SPIRead a n (fl e) in
  (inl r, mkEsp (fl e) (RTC_MEM e) (ram e ++ [(dest, l)]) (out e)).

(** ** eboot_command.c *)

Definition eboot_command_read : E (Z * eboot_command) := fun e =>
  let cmd := of_words (RTC_MEM e) in
  let crc := eboot_command_calculate_crc32 cmd in
  (* [cmd->magic & EBOOT_MAGIC_MASK != EBOOT_MAGIC]: [!=] binds tighter than [&] *)
  if bit_set (magic cmd) (b2z (negb (EBOOT_MAGIC_MASK =? EBOOT_MAGIC))) || negb (crc32 cmd =? crc)
  then (inl (1, cmd), e) else (inl (0, cmd), e).

(** Stores the 32 words; later words of the RTC memory keep their value. *)
Definition eboot_command_write (cmd : eboot_command) : E eboot_command := fun e =>
  let cmd := mkCommand EBOOT_MAGIC (action cmd) (args cmd) (crc32 cmd) in
  let cmd := mkCommand (magic cmd) (action cmd) (args cmd) (eboot_command_calculate_crc32 cmd) in
  (inl cmd, set_rtc (words cmd ++ drop 32 (RTC_MEM e)) e).

Definition eboot_command_clear : E unit := fun e =>
  (inl tt, set_rtc (<[31%nat := 0]> (<[0%nat := 0]> (RTC_MEM e))) e).

(** ** core_esp8266_eboot_command.c *)

(** The copy in the Arduino core differs in the parentheses of the test. *)
Definition core_eboot_command_read : E (Z * eboot_command) := fun e =>
  let cmd := of_words (RTC_MEM e) in
  let crc := eboot_command_calculate_crc32 cmd in
  if negb (Z.land (magic cmd) EBOOT_MAGIC_MASK =? EBOOT_MAGIC) || negb (crc32 cmd =? crc)
  then (inl (1, cmd), e) else (inl (0, cmd), e).

Definition core_eboot_command_write (cmd : eboot_command) : E eboot_command := fun e =>
  let cmd := mkCommand EBOOT_MAGIC (action cmd) (args cmd) (crc32 cmd) in
  let cmd := mkCommand (magic cmd) (action cmd) (args cmd) (eboot_command_calculate_crc32 cmd) in
  (inl cmd, set_rtc (words cmd ++ drop 32 (RTC_MEM e)) e).

Definition core_eboot_command_clear : E unit := fun e =>
  (inl tt, set_rtc (<[31%nat := 0]> (<[0%nat := 0]> (RTC_MEM e))) e).

(** ** flash.c *)

Definition sectors_per_block := FLASH_BLOCK_SIZE / FLASH_SECTOR_SIZE.

(** First and last loop: single sectors, [more] is the loop condition and [err]
    the code returned on a failure; the result is an error code or the sector
    at which the loop stopped. *)
Fixpoint erase_sectors (k : nat) (more : Z -> bool) (err current_sector : Z) : E (Z + Z) :=
  if more current_sector then
    match k with
    | O => halt NoFuel
    | S k' =>
        r <- erase_sector current_sector ;;
        if truth r then ret (inl err)
        else erase_sectors k' more err (u32 (current_sector + 1))
    end
  else ret (inr current_sector).

(** Middle loop: whole blocks. *)
Fixpoint erase_blocks (k : nat) (end_ current_sector : Z) : E (Z + Z) :=
  if u32 (current_sector + sectors_per_block) <=? end_ then
    match k with
    | O => halt NoFuel
    | S k' =>
        r <- erase_block (current_sector / sectors_per_block) ;;
        if truth r then ret (inl 3)
        else erase_blocks k' end_ (u32 (current_sector + sectors_per_block))
    end
  else ret (inr current_sector).

Definition SPIEraseAreaEx (fuel : nat) (start size : Z) : E Z :=
  (* [start & (FLASH_SECTOR_SIZE - 1) != 0]: [!=] binds tighter than [&] *)
  if bit_set start (b2z (negb (FLASH_SECTOR_SIZE - 1 =? 0))) then ret 1 else
  let current_sector := start / FLASH_SECTOR_SIZE in
  let sector_count := u32 (size + FLASH_SECTOR_SIZE - 1) / FLASH_SECTOR_SIZE in
  let end_ := u32 (current_sector + sector_count) in
  a <- erase_sectors fuel
         (fun c => (c <? end_) && bit_set c (sectors_per_block - 1)) 2 current_sector ;;
  match a with
  | inl err => ret err
  | inr c =>
      b <- erase_blocks fuel end_ c ;;
      match b with
      | inl err => ret err
      | inr c =>
          d <- erase_sectors fuel (fun c => c <? end_) 4 c ;;
          match d with
          | inl err => ret err
          | inr _ => ret 0
          end
      end
  end.

(** ** eboot.c *)

Definition print_version (flash_addr : Z) : E Z :=
  x <- read_flash (u32 (flash_addr + APP_START_OFFSET + sizeof_image_header + sizeof_section_header)) 4 ;;
  if truth x.1 then ret 1 else
  say (ets_printf (le_value (take 4 x.2))) ;;
  ret 0.

(** [image_header_t] and [section_header_t] as read from flash. *)
Definition num_segments (h : list Z) : Z := nth 1 h 0.
Definition entry (h : list Z) : Z := le_value (take 4 (drop 4 h)).
Definition sh_address (h : list Z) : Z := le_value (take 4 h).
Definition sh_size (h : list Z) : Z := le_value (take 4 (drop 4 h)).

(** The test whether a section is copied to memory. *)
Definition loadable (address : Z) : bool :=
  (address <? 0x40000000) || ((0x40100000 <=? address) && (address <? 0x40108000)) ||
  (0x60000000 <=? address).

(** The loop over the sections; 0 when it ran to its end. *)
Fixpoint load_sections (k : nat) (pos : Z) : E Z :=
  match k with
  | O => ret 0
  | S k' =>
      x <- read_flash pos sizeof_section_header ;;
      if truth x.1 then ret 2 else
      let pos := u32 (pos + sizeof_section_header) in
      let address := sh_address x.2 in
      if negb (loadable address) then load_sections k' (u32 (pos + sh_size x.2)) else
      r <- load_flash pos address (sh_size x.2) ;;
      if truth r then ret 3 else load_sections k' (u32 (pos + sh_size x.2))
  end.

Definition load_app_from_flash_raw (flash_addr : Z) : E Z :=
  let pos := u32 (flash_addr + APP_START_OFFSET) in
  x <- read_flash pos sizeof_image_header ;;
  if truth x.1 then ret 1 else
  r <- load_sections (Z.to_nat (num_segments x.2)) (u32 (pos + sizeof_image_header)) ;;
  if truth r then ret r else halt (Jx (entry x.2)).

Fixpoint copy_loop (k : nat) (saddr daddr left : Z) : E Z :=
  if negb (truth left) then ret 0 else
  match k with
  | O => halt NoFuel
  | S k' =>
      r <- erase_sector (daddr / FLASH_SECTOR_SIZE) ;;
      if truth r then ret 2 else
      x <- read_flash saddr FLASH_SECTOR_SIZE ;;
      if truth x.1 then ret 3 else
      r <- write_flash daddr x.2 ;;
      if truth r then ret 4 else
      copy_loop k' (u32 (saddr + FLASH_SECTOR_SIZE)) (u32 (daddr + FLASH_SECTOR_SIZE))
        (u32 (left - FLASH_SECTOR_SIZE))
  end.

Definition copy_raw (fuel : nat) (src_addr dst_addr size : Z) : E Z :=
  (* [src_addr & 0xfff != 0 || dst_addr & 0xfff != 0]: [!=] binds tighter than [&] *)
  if bit_set src_addr (b2z (negb (0xfff =? 0))) || bit_set dst_addr (b2z (negb (0xfff =? 0)))
  then ret 1 else
  let left := Z.land (u32 (size + FLASH_SECTOR_SIZE - 1)) (u32 (Z.lnot (FLASH_SECTOR_SIZE - 1))) in
  copy_loop fuel src_addr dst_addr left.

Definition arg (i : nat) (cmd : eboot_command) : Z := nth i (args cmd) 0.

(** [cmd.action = ACTION_LOAD_APP; cmd.args[0] = a] *)
Definition load_command (a : Z) (cmd : eboot_command) : eboot_command :=
  mkCommand (magic cmd) ACTION_LOAD_APP (<[0%nat := a]> (args cmd)) (crc32 cmd).

(** The command that is carried out: the one in the RTC memory, which is
    cleared, or loading the application at address 0. *)
Definition fetch_command : E eboot_command :=
  x <- eboot_command_read ;;
  if x.1 =? 0 then
    eboot_command_clear ;; say (ets_putc 64) ;; ret x.2
  else
    say (ets_putc 126) ;; ret (load_command 0 x.2).

(** The [ACTION_COPY_RAW] part; a successful copy turns the command into
    loading what was copied. *)
Definition do_copy (fuel : nat) (cmd : eboot_command) : E (Z * eboot_command) :=
  if action cmd =? ACTION_COPY_RAW then
    say_all [ets_putc 99; ets_putc 112; ets_putc 58; ets_wdt_disable] ;;
    res <- copy_raw fuel (arg 0 cmd) (arg 1 cmd) (arg 2 cmd) ;;
    say_all [ets_wdt_enable; ets_putc (48 + res); ets_putc 10] ;;
    ret (res, if res =? 0 then load_command (arg 1 cmd) cmd else cmd)
  else ret (9, cmd).

Definition do_load (res : Z) (cmd : eboot_command) : E Z :=
  if action cmd =? ACTION_LOAD_APP then
    say_all [ets_putc 108; ets_putc 100; ets_putc 10] ;;
    res <- load_app_from_flash_raw (arg 0 cmd) ;;
    say_all [ets_putc 101; ets_putc 58; ets_putc (48 + res); ets_putc 10] ;;
    ret res
  else ret res.

Definition main (fuel : nat) : E unit :=
  _ <- print_version 0 ;;
  cmd <- fetch_command ;;
  x <- do_copy fuel cmd ;;
  res <- do_load x.1 x.2 ;;
  (if truth res then say SWRST else ret tt) ;;
  halt Spin.
Lemma bind_inl {A C} (m : E A) (k : A -> E C) a e e' :
  m e = (inl a, e') -> bind m k e = k a e'.
Proof. unfold bind. by intros ->. Qed.

End Eboot.

(** Execute the first statement of a sequence, given its result. *)
Ltac estep H :=
  rewrite (bind_inl _ _ _ _ _ H); cbn [fst snd]; change (truth 0) with false; cbn [negb].
