(* ===== verification/EbootProps.v ===== *)
(** * Properties of eboot

    The laws of the flash routines ([NorRom]) and the correctness of copying and
    erasing. *)

From S2P Require Import Prelude Eboot.

(** ** What the mask ROM promises

    NOR flash: reading returns the stored bytes, programming can only clear
    bits, erasing sets a whole sector (4 KiB) or block (64 KiB) to ones.
    Addresses and sizes of reads and writes are multiples of four. *)
Class NorRom `{Rom} := {
  chip : Z;
  byte_at : flash -> Z -> Z;
  chip_small : chip < 4294967296;
  byte_at_u8 f a : is_u8 (byte_at f a);
  read_law f a n :
    a mod 4 = 0 -> n mod 4 = 0 -> 0 <= a -> 0 <= n -> a + n <= chip ->
    SPIRead a n f = (0, map (fun i => byte_at f (a + Z.of_nat i)) (seq 0 (Z.to_nat n)));
  write_law f a l :
    a mod 4 = 0 -> Z.of_nat (length l) mod 4 = 0 -> 0 <= a -> a + Z.of_nat (length l) <= chip ->
    Forall is_u8 l ->
    exists f', SPIWrite a l f = (0, f') /\
      forall x, byte_at f' x =
        if (a <=? x) && (x <? a + Z.of_nat (length l))
        then Z.land (byte_at f x) (nth (Z.to_nat (x - a)) l 0) else byte_at f x;
  sector_law f n :
    0 <= n -> FLASH_SECTOR_SIZE * (n + 1) <= chip ->
    exists f', SPIEraseSector n f = (0, f') /\
      forall x, byte_at f' x =
        if (FLASH_SECTOR_SIZE * n <=? x) && (x <? FLASH_SECTOR_SIZE * (n + 1))
        then 255 else byte_at f x;
  block_law f n :
    0 <= n -> FLASH_BLOCK_SIZE * (n + 1) <= chip ->
    exists f', SPIEraseBlock n f = (0, f') /\
      forall x, byte_at f' x =
        if (FLASH_BLOCK_SIZE * n <=? x) && (x <? FLASH_BLOCK_SIZE * (n + 1))
        then 255 else byte_at f x
}.

Lemma bit_set_1 v : bit_set v 1 = Z.odd v.
Proof.
  unfold bit_set, truth. change 1 with (Z.ones 1). rewrite Z.land_ones by lia.
  change (2 ^ 1) with 2. rewrite Zmod_odd. by destruct (Z.odd v).
Qed.

Lemma aligned_even a : a mod FLASH_SECTOR_SIZE = 0 -> Z.odd a = false.
Proof. intros H. rewrite Zodd_mod. unfold FLASH_SECTOR_SIZE in H. apply Z.eqb_neq. mlia. Qed.

(** [(size + 4095) & ~4095] *)
Definition round_up (size : Z) : Z := (size + 4095) / 4096 * 4096.

(** Masking with [~(FLASH_SECTOR_SIZE - 1)] rounds down to a sector. *)
Lemma sector_mask v :
  Z.land (u32 v) (u32 (Z.lnot (FLASH_SECTOR_SIZE - 1))) = u32 v / 4096 * 4096.
Proof.
  pose proof (u32_range v) as Hv. unfold is_u32 in Hv. set (w := u32 v) in *.
  change (u32 (Z.lnot (FLASH_SECTOR_SIZE - 1))) with (Z.shiftl (Z.ones 20) 12).
  change 4096 with (2 ^ 12). rewrite <- Z.shiftr_div_pow2, <- Z.shiftl_mul_pow2 by lia.
  apply z_ext. intros k Hk. rewrite Z.land_spec, !Z.shiftl_spec by done.
  destruct (decide (k < 12)).
  { rewrite (Z.testbit_neg_r (Z.ones 20)), (Z.testbit_neg_r (Z.shiftr w 12)) by lia. apply andb_false_r. }
  rewrite Z.shiftr_spec by lia. replace (k - 12 + 12) with k by lia.
  destruct (decide (k < 32)).
  - rewrite Z.ones_spec_low by lia. apply andb_true_r.
  - rewrite (testbit_small w 32 k) by lia. done.
Qed.

Lemma round_up_mask size :
  0 <= size -> size + 4095 < 4294967296 ->
  Z.land (u32 (size + FLASH_SECTOR_SIZE - 1)) (u32 (Z.lnot (FLASH_SECTOR_SIZE - 1))) = round_up size.
Proof.
  intros H0 H1. rewrite sector_mask. unfold FLASH_SECTOR_SIZE, round_up.
  replace (size + 0x1000 - 1) with (size + 4095) by lia. by rewrite u32_id by (unfold is_u32; lia).
Qed.

Section Flash.
Context {R : Rom} {N : NorRom}.

(** Two states of the chip that differ at most in the flash. *)
Definition same_but_flash (e e' : esp) : Prop :=
  RTC_MEM e' = RTC_MEM e /\ ram e' = ram e /\ out e' = out e.

Lemma erase_sector_ok n e :
  0 <= n -> FLASH_SECTOR_SIZE * (n + 1) <= chip ->
  exists f, erase_sector n e = (inl 0, set_fl f e) /\
    forall x, byte_at f x =
      if (FLASH_SECTOR_SIZE * n <=? x) && (x <? FLASH_SECTOR_SIZE * (n + 1))
      then 255 else byte_at (fl e) x.
Proof.
  intros H1 H2. destruct (sector_law (fl e) n H1 H2) as (f & Hf & Hx).
  exists f. unfold erase_sector. by rewrite Hf.
Qed.

Lemma erase_block_ok n e :
  0 <= n -> FLASH_BLOCK_SIZE * (n + 1) <= chip ->
  exists f, erase_block n e = (inl 0, set_fl f e) /\
    forall x, byte_at f x =
      if (FLASH_BLOCK_SIZE * n <=? x) && (x <? FLASH_BLOCK_SIZE * (n + 1))
      then 255 else byte_at (fl e) x.
Proof.
  intros H1 H2. destruct (block_law (fl e) n H1 H2) as (f & Hf & Hx).
  exists f. unfold erase_block. by rewrite Hf.
Qed.

(** Reading one sector. *)
Lemma read_sector f i :
  0 <= i -> 4096 * (i + 1) <= chip ->
  exists l, SPIRead (4096 * i) 4096 f = (0, l) /\ Z.of_nat (length l) = 4096 /\
    Forall is_u8 l /\
    forall x, 0 <= x < 4096 -> nth (Z.to_nat x) l 0 = byte_at f (4096 * i + x).
Proof.
  intros Hi Hc. rewrite (read_law f (4096 * i) 4096) by mlia.
  eexists. split; [done |]. split; [rewrite length_map, length_seq; by rewrite Z2Nat.id |].
  split; [apply List.Forall_map, List.Forall_forall; intros; apply byte_at_u8 |].
  intros x Hx. rewrite nth_map_seq by (apply Z2Nat.inj_lt; lia). by rewrite Z2Nat.id by lia.
Qed.

(** ** Copying *)

(** One turn of the copy loop on aligned sectors: sector [j] becomes a copy of
    sector [i]. *)
Lemma copy_sector k i j left e :
  0 <= i -> 0 <= j -> i <> j -> 4096 * (i + 1) <= chip -> 4096 * (j + 1) <= chip ->
  0 < left < 4294967296 ->
  exists f, copy_loop (S k) (4096 * i) (4096 * j) left e =
      copy_loop k (4096 * (i + 1)) (4096 * (j + 1)) (u32 (left - 4096)) (set_fl f e) /\
    forall x, byte_at f x =
      if (4096 * j <=? x) && (x <? 4096 * (j + 1))
      then byte_at (fl e) (x - 4096 * j + 4096 * i) else byte_at (fl e) x.
Proof.
  intros Hi Hj Hne Hci Hcj Hl. pose proof chip_small as Hchip.
  destruct (erase_sector_ok j e) as (f1 & He & Hf1); [lia | unfold FLASH_SECTOR_SIZE; lia |].
  destruct (read_sector f1 i) as (l & Hr & Hlen & Hu & Hl2); [lia | lia |].
  destruct (write_law f1 (4096 * j) l) as (f2 & Hw & Hf2); [mlia | by rewrite Hlen | lia | lia | done |].
  exists f2. split.
  - cbn [copy_loop]. unfold truth at 1. rewrite (proj2 (Z.eqb_neq left 0)) by lia. cbn [negb].
    unfold FLASH_SECTOR_SIZE. replace (4096 * j / 4096) with j by mlia.
    estep He.
    assert (read_flash (4096 * i) 4096 (set_fl f1 e) = (inl (0, l), set_fl f1 e)) as Hr'
      by (unfold read_flash; cbn [set_fl fl]; by rewrite Hr).
    assert (write_flash (4096 * j) l (set_fl f1 e) = (inl 0, set_fl f2 e)) as Hw'
      by (unfold write_flash; cbn [set_fl fl]; by rewrite Hw).
    estep Hr'. estep Hw'.
    f_equal; rewrite u32_id by (unfold is_u32; lia); lia.
  - intros x. rewrite Hf2, Hlen. unfold FLASH_SECTOR_SIZE in Hf1.
    destruct (_ && _) eqn:E.
    + apply andb_true_iff in E as [E1 E2]. apply Z.leb_le in E1. apply Z.ltb_lt in E2.
      rewrite Hf1. rewrite (proj2 (Z.leb_le (4096 * j) x)), (proj2 (Z.ltb_lt x (4096 * (j + 1)))) by lia.
      simpl andb. cbv iota. rewrite Hl2 by lia. rewrite land_255 by apply byte_at_u8. rewrite Hf1.
      replace (4096 * i + (x - 4096 * j)) with (x - 4096 * j + 4096 * i) by lia.
      destruct (_ && _) eqn:E; [lia | done].
    + rewrite Hf1. replace (4096 * (j + 1)) with (4096 * j + 4096) by lia. by rewrite E.
Qed.

Lemma copy_loop_ok k : forall i j fuel e,
  0 <= i -> 0 <= j -> 4096 * (i + Z.of_nat k) <= chip -> 4096 * (j + Z.of_nat k) <= chip ->
  j < i \/ i + Z.of_nat k <= j -> (k <= fuel)%nat ->
  exists f, copy_loop fuel (4096 * i) (4096 * j) (4096 * Z.of_nat k) e = (inl 0, set_fl f e) /\
    forall x, byte_at f x =
      if (4096 * j <=? x) && (x <? 4096 * (j + Z.of_nat k))
      then byte_at (fl e) (x - 4096 * j + 4096 * i) else byte_at (fl e) x.
Proof.
  pose proof chip_small as Hchip.
  induction k as [|k IH]; intros i j fuel e Hi Hj Hci Hcj Hd Hf.
  { exists (fl e). split; [by destruct fuel, e |].
    intros x. destruct (_ && _) eqn:E; [lia | done]. }
  destruct fuel as [|fuel]; [lia |].
  destruct (copy_sector fuel i j (4096 * Z.of_nat (S k)) e) as (f1 & -> & Hf1); try lia.
  rewrite u32_id by (unfold is_u32; lia).
  replace (4096 * Z.of_nat (S k) - 4096) with (4096 * Z.of_nat k) by lia.
  destruct (IH (i + 1) (j + 1) fuel (set_fl f1 e)) as (f2 & -> & Hf2); try lia.
  exists f2. split; [done |]. intros x. rewrite Hf2. simpl fl. rewrite !Hf1.
  destruct (4096 * j <=? x) eqn:E1, (x <? 4096 * (j + Z.of_nat (S k))) eqn:E2,
    (4096 * (j + 1) <=? x) eqn:E3, (x <? 4096 * (j + 1 + Z.of_nat k)) eqn:E4,
    (x <? 4096 * (j + 1)) eqn:E5; simpl; try lia.
  all: try done.
  replace (x - 4096 * (j + 1) + 4096 * (i + 1)) with (x - 4096 * j + 4096 * i) by lia.
  destruct (_ && _) eqn:E6; [lia | done].
Qed.
Lemma copy_loop_codes k : forall s d l e, (copy_loop k s d l e).1 <> inl 1.
Proof.
  induction k as [|k IH]; intros s d l e; cbn [copy_loop]; destruct (negb (truth l)); try done.
  unfold bind, ret, erase_sector, read_flash, write_flash.
  destruct (SPIEraseSector _ _) as [r1 f1]. destruct (truth r1); [done |]. cbn [fl set_fl].
  destruct (SPIRead _ _ _) as [r2 b]. cbn [fst snd]. destruct (truth r2); [done |]. cbn [fl set_fl].
  destruct (SPIWrite _ _ _) as [r3 f3]. destruct (truth r3); [done |]. apply IH.
Qed.

Lemma copy_raw_check fuel src dst size e :
  copy_raw fuel src dst size e =
    (if Z.odd src || Z.odd dst then ret 1
     else copy_loop fuel src dst
       (Z.land (u32 (size + FLASH_SECTOR_SIZE - 1)) (u32 (Z.lnot (FLASH_SECTOR_SIZE - 1))))) e.
Proof. unfold copy_raw. change (b2z (negb (0xfff =? 0))) with 1. by rewrite !bit_set_1. Qed.

Lemma copy_raw_run fuel src dst size e :
  src mod FLASH_SECTOR_SIZE = 0 -> dst mod FLASH_SECTOR_SIZE = 0 -> 0 <= src -> 0 <= dst -> 0 <= size ->
  src + round_up size <= chip -> dst + round_up size <= chip ->
  dst < src \/ src + round_up size <= dst ->
  (Z.to_nat (round_up size / FLASH_SECTOR_SIZE) <= fuel)%nat ->
  exists f, copy_raw fuel src dst size e = (inl 0, set_fl f e) /\
    forall x, byte_at f x =
      if (dst <=? x) && (x <? dst + round_up size)
      then byte_at (fl e) (x - dst + src) else byte_at (fl e) x.
Proof.
  intros Ha Hb Hs Hd Hn Hcs Hcd Hov Hf. pose proof chip_small as Hchip.
  assert (size <= round_up size) by (unfold round_up; mlia).
  assert (size + 4095 < 4294967296 + 4095) by lia.
  rewrite copy_raw_check, !aligned_even by done. cbn [orb].
  assert (size + 4095 < 4294967296) as Hsz by (unfold round_up, FLASH_SECTOR_SIZE in *; mlia).
  rewrite round_up_mask by done. unfold FLASH_SECTOR_SIZE in *.
  set (k := Z.to_nat (round_up size / 4096)) in *.
  assert (round_up size = 4096 * Z.of_nat k) as Hk by (unfold k, round_up; mlia).
  assert (src = 4096 * (src / 4096)) as Es by mlia. assert (dst = 4096 * (dst / 4096)) as Ed by mlia.
  set (i := src / 4096) in *. set (j := dst / 4096) in *.
  destruct (copy_loop_ok k i j fuel e) as (f & Hl & Hx); try lia.
  rewrite Hk, Es, Ed. exists f. split; [exact Hl |].
  intros x. rewrite Hx. by replace (4096 * (j + Z.of_nat k)) with (4096 * j + 4096 * Z.of_nat k) by lia.
Qed.

(** ** Erasing *)

Definition erased (a b : Z) (f f' : flash) : Prop :=
  forall x, byte_at f' x = if (a <=? x) && (x <? b) then 255 else byte_at f x.

Lemma erased_none a f : erased a a f f.
Proof. intros x. destruct (_ && _) eqn:E; [lia | done]. Qed.

Lemma erased_trans a b c f g h :
  a <= b -> b <= c -> erased a b f g -> erased b c g h -> erased a c f h.
Proof.
  intros Hab Hbc H1 H2 x. rewrite H2, H1.
  destruct (a <=? x) eqn:?, (x <? b) eqn:?, (b <=? x) eqn:?, (x <? c) eqn:?; simpl; lia || done.
Qed.

Lemma erase_sectors_ok k : forall fuel more err c e,
  (forall i, 0 <= i < Z.of_nat k -> more (c + i) = true) -> more (c + Z.of_nat k) = false ->
  (k <= fuel)%nat -> 0 <= c -> 4096 * (c + Z.of_nat k) <= chip ->
  exists f, erase_sectors fuel more err c e = (inl (inr (c + Z.of_nat k)), set_fl f e) /\
    erased (4096 * c) (4096 * (c + Z.of_nat k)) (fl e) f.
Proof.
  pose proof chip_small as Hchip.
  induction k as [|k IH]; intros fuel more err c e Hm Hn Hf Hc Hk.
  { exists (fl e). split; [| rewrite Z.add_0_r; apply erased_none].
    rewrite Z.add_0_r in *. destruct fuel; cbn [erase_sectors]; rewrite Hn; by destruct e. }
  destruct fuel as [|fuel]; [lia |]. cbn [erase_sectors].
  assert (more c = true) as -> by (rewrite <- (Z.add_0_r c); apply Hm; lia).
  destruct (erase_sector_ok c e) as (f1 & He & Hf1); [lia | unfold FLASH_SECTOR_SIZE; lia |].
  estep He. rewrite u32_id by (unfold is_u32; lia).
  destruct (IH fuel more err (c + 1) (set_fl f1 e)) as (f2 & -> & Hf2); try lia.
  { intros i Hi. replace (c + 1 + i) with (c + (i + 1)) by lia. apply Hm. lia. }
  { by replace (c + 1 + Z.of_nat k) with (c + Z.of_nat (S k)) by lia. }
  replace (c + 1 + Z.of_nat k) with (c + Z.of_nat (S k)) in * by lia.
  exists f2. split; [done |]. eapply erased_trans; [| | exact Hf1 | exact Hf2]; unfold FLASH_SECTOR_SIZE; lia.
Qed.

Lemma erase_blocks_ok k : forall fuel end_ b e,
  16 * (b + Z.of_nat k) <= end_ < 16 * (b + Z.of_nat k) + 16 ->
  (k <= fuel)%nat -> 0 <= b -> 4096 * end_ <= chip ->
  exists f, erase_blocks fuel end_ (16 * b) e = (inl (inr (16 * (b + Z.of_nat k))), set_fl f e) /\
    erased (4096 * (16 * b)) (4096 * (16 * (b + Z.of_nat k))) (fl e) f.
Proof.
  pose proof chip_small as Hchip.
  induction k as [|k IH]; intros fuel end_ b e He Hf Hb Hk;
    assert (u32 (16 * b + sectors_per_block) = 16 * (b + 1)) as Hu
      by (change sectors_per_block with 16; rewrite u32_id by (unfold is_u32; lia); lia).
  { exists (fl e). rewrite Z.add_0_r in *. split; [| apply erased_none].
    destruct fuel; cbn [erase_blocks]; rewrite Hu, (proj2 (Z.leb_gt _ _)) by lia; by destruct e. }
  destruct fuel as [|fuel]; [lia |]. cbn [erase_blocks]. rewrite Hu, (proj2 (Z.leb_le _ _)) by lia.
  change sectors_per_block with 16. replace (16 * b / 16) with b by mlia.
  destruct (erase_block_ok b e) as (f1 & H1 & Hf1); [lia | unfold FLASH_BLOCK_SIZE; lia |].
  estep H1.
  destruct (IH fuel end_ (b + 1) (set_fl f1 e)) as (f2 & -> & Hf2); try lia.
  replace (b + 1 + Z.of_nat k) with (b + Z.of_nat (S k)) in * by lia.
  exists f2. split; [done |]. eapply erased_trans; [| | | exact Hf2]; try lia.
  intros x. specialize (Hf1 x). unfold FLASH_BLOCK_SIZE in Hf1. cbn [fl set_fl]. rewrite Hf1.
  by replace (4096 * (16 * b)) with (0x10000 * b) by lia; replace (4096 * (16 * (b + 1))) with (0x10000 * (b + 1)) by lia.
Qed.
Lemma bit_set_15 c : bit_set c (sectors_per_block - 1) = negb (c mod 16 =? 0).
Proof. unfold bit_set, truth. change (sectors_per_block - 1) with (Z.ones 4). by rewrite Z.land_ones by lia. Qed.

(** Number of sectors before the first block boundary. *)
Definition head_sectors (c end_ : Z) : Z := Z.min (end_ - c) ((16 - c mod 16) mod 16).

Lemma head_sectors_more c end_ i :
  0 <= c <= end_ -> 0 <= i ->
  (i < head_sectors c end_ -> (c + i <? end_) && negb ((c + i) mod 16 =? 0) = true) /\
  (i = head_sectors c end_ -> (c + i <? end_) && negb ((c + i) mod 16 =? 0) = false).
Proof. unfold head_sectors. intros. split; mlia. Qed.

Lemma erase_middle fuel end_ c e :
  0 <= c <= end_ -> c mod 16 = 0 \/ c = end_ -> 4096 * end_ <= chip ->
  (Z.to_nat (end_ - c) <= fuel)%nat -> 0 <= end_ ->
  exists c' f, erase_blocks fuel end_ c e = (inl (inr c'), set_fl f e) /\ c <= c' <= end_ /\
    erased (4096 * c) (4096 * c') (fl e) f.
Proof.
  intros Hc Hal Hchip Hf _. pose proof chip_small as Hsmall.
  destruct (decide (c mod 16 = 0)) as [Ha|Ha].
  - destruct (erase_blocks_ok (Z.to_nat ((end_ - c) / 16)) fuel end_ (c / 16) e) as (f & He & Hx);
      try mlia.
    replace (16 * (c / 16)) with c in He, Hx by mlia.
    eexists _, f. split; [exact He |]. split; [mlia | exact Hx].
  - destruct Hal as [? | ->]; [done |]. exists end_, (fl e). split; [| split; [lia | apply erased_none]].
    destruct fuel; cbn [erase_blocks]; change sectors_per_block with 16;
      rewrite (u32_id (end_ + 16)) by (unfold is_u32; lia); rewrite (proj2 (Z.leb_gt _ _)) by lia;
      by destruct e.
Qed.

Lemma erase_area_run fuel start size e :
  start mod FLASH_SECTOR_SIZE = 0 -> 0 <= start -> 0 <= size -> start + round_up size <= chip ->
  (Z.to_nat (round_up size / FLASH_SECTOR_SIZE) <= fuel)%nat ->
  exists f, SPIEraseAreaEx fuel start size e = (inl 0, set_fl f e) /\
    erased start (start + round_up size) (fl e) f.
Proof.
  intros Ha Hs Hn Hc Hf. pose proof chip_small as Hchip.
  assert (size <= round_up size) by (unfold round_up; mlia).
  assert (size + 4095 < 4294967296) as Hsz by (unfold round_up, FLASH_SECTOR_SIZE in *; mlia).
  unfold SPIEraseAreaEx. change (b2z (negb (FLASH_SECTOR_SIZE - 1 =? 0))) with 1.
  rewrite bit_set_1, aligned_even by done. unfold FLASH_SECTOR_SIZE in *.
  replace (size + 0x1000 - 1) with (size + 4095) by lia. rewrite (u32_id (size + 4095)) by (unfold is_u32; lia).
  set (c := start / 0x1000) in *. set (end_ := c + (size + 4095) / 0x1000).
  assert (start = 4096 * c) as Es by (unfold c; mlia).
  assert (start + round_up size = 4096 * end_) as Ee by (unfold end_, round_up; lia).
  assert (Z.to_nat (end_ - c) <= fuel)%nat as Hf'
    by (unfold end_; replace (c + (size + 4095) / 0x1000 - c) with (round_up size / 0x1000)
          by (unfold round_up; mlia); exact Hf).
  assert (0 <= c <= end_) by (unfold end_; mlia).
  rewrite (u32_id end_) by (unfold is_u32; lia). rewrite Es, Ee in *.
  set (k1 := Z.to_nat (head_sectors c end_)).
  assert (0 <= head_sectors c end_ <= end_ - c) by (unfold head_sectors; mlia).
  destruct (erase_sectors_ok k1 fuel (fun c => (c <? end_) && bit_set c (sectors_per_block - 1)) 2 c e)
    as (f1 & He1 & Hf1); try lia.
  { intros i Hi. rewrite bit_set_15. apply head_sectors_more; lia. }
  { rewrite bit_set_15. apply head_sectors_more; lia. }
  estep He1. set (c1 := c + Z.of_nat k1) in *.
  destruct (erase_middle fuel end_ c1 (set_fl f1 e)) as (c2 & f2 & He2 & Hc2 & Hf2);
    [lia | | lia | lia | lia |]; [unfold c1, k1, head_sectors in *; mlia |].
  estep He2.
  destruct (erase_sectors_ok (Z.to_nat (end_ - c2)) fuel (fun c => c <? end_) 4 c2 (set_fl f2 (set_fl f1 e)))
    as (f3 & He3 & Hf3); try lia.
  replace (c2 + Z.of_nat (Z.to_nat (end_ - c2))) with end_ in * by lia.
  estep He3. exists f3. split; [done |].
  eapply erased_trans; [| | exact Hf1 | eapply erased_trans; [| | exact Hf2 | exact Hf3]]; lia.
Qed.

(** Copying a firmware image.  For a destination and a source on sector
    boundaries whose regions do not overlap, or with the destination below the
    source, [copy_raw] succeeds: the destination holds what the source held,
    rounded up to whole sectors, and every other byte of the flash, the
    memories and the output are unchanged. *)
Theorem copy_raw_correct fuel src dst size e :
  src mod FLASH_SECTOR_SIZE = 0 -> dst mod FLASH_SECTOR_SIZE = 0 -> 0 <= src -> 0 <= dst -> 0 <= size ->
  src + round_up size <= chip -> dst + round_up size <= chip ->
  dst < src \/ src + round_up size <= dst ->
  (Z.to_nat (round_up size / FLASH_SECTOR_SIZE) <= fuel)%nat ->
  exists e', copy_raw fuel src dst size e = (inl 0, e') /\ same_but_flash e e' /\
    (forall x, dst <= x < dst + round_up size -> byte_at (fl e') x = byte_at (fl e) (x - dst + src)) /\
    (forall x, ~ (dst <= x < dst + round_up size) -> byte_at (fl e') x = byte_at (fl e) x).
Proof.
  intros. destruct (copy_raw_run fuel src dst size e) as (f & -> & Hx); try done.
  exists (set_fl f e). split; [done |]. split; [done |].
  split; intros x Hr; cbn [fl set_fl]; rewrite Hx; destruct (_ && _) eqn:?; lia || done.
Qed.

(** The alignment test of [copy_raw] only rejects odd addresses (the
    comparison binds tighter than the mask).  A copy to an address inside a
    sector is carried out and reports success although it erases the bytes in
    front of the destination and combines the end of the copy with the old
    contents of the next sector. *)
Theorem copy_raw_alignment_check fuel src dst size e :
  ((copy_raw fuel src dst size e).1 = inl 1 <-> Z.odd src = true \/ Z.odd dst = true) /\
  (forall i j o, 0 <= i -> 0 <= j -> i <> j -> 4096 * (i + 1) <= chip -> 4096 * (j + 2) <= chip ->
    0 < o < 4096 -> o mod 4 = 0 -> (1 <= fuel)%nat ->
    exists e', copy_raw fuel (4096 * i) (4096 * j + o) 4096 e = (inl 0, e') /\
      (forall x, 4096 * j <= x < 4096 * j + o -> byte_at (fl e') x = 255) /\
      (forall x, 0 <= x < o -> byte_at (fl e') (4096 * (j + 1) + x) =
         Z.land (byte_at (fl e) (4096 * (j + 1) + x)) (byte_at (fl e) (4096 * i + (4096 - o + x))))).
Proof.
  split.
  { rewrite copy_raw_check. rewrite <- orb_true_iff. destruct (_ || _) eqn:E; [done |].
    split; [intros H; by apply copy_loop_codes in H | done]. }
  intros i j o Hi Hj Hne Hci Hcj Ho Ho4 Hf. pose proof chip_small as Hchip.
  rewrite copy_raw_check.
  assert (Z.odd (4096 * i) = false) as -> by (rewrite Zodd_mod; apply Z.eqb_neq; mlia).
  assert (Z.odd (4096 * j + o) = false) as -> by (rewrite Zodd_mod; apply Z.eqb_neq; mlia).
  cbn [orb]. rewrite round_up_mask by lia. change (round_up 4096) with 4096.
  destruct fuel as [|k]; [lia |]. cbn [copy_loop]. change (negb (truth 4096)) with false. cbv iota.
  unfold FLASH_SECTOR_SIZE. replace ((4096 * j + o) / 0x1000) with j by mlia.
  destruct (erase_sector_ok j e) as (f1 & He & Hf1); [lia | unfold FLASH_SECTOR_SIZE; lia |].
  unfold FLASH_SECTOR_SIZE in Hf1. estep He.
  destruct (read_sector f1 i) as (l & Hr & Hlen & Hu & Hl); [lia | lia |].
  assert (read_flash (4096 * i) 4096 (set_fl f1 e) = (inl (0, l), set_fl f1 e)) as Hr'
    by (unfold read_flash; cbn [set_fl fl]; by rewrite Hr).
  estep Hr'.
  destruct (write_law f1 (4096 * j + o) l) as (f2 & Hw & Hf2); [mlia | mlia | lia | lia | done |].
  assert (write_flash (4096 * j + o) l (set_fl f1 e) = (inl 0, set_fl f2 e)) as Hw'
    by (unfold write_flash; cbn [set_fl fl]; by rewrite Hw).
  estep Hw'. change (u32 (4096 - 4096)) with 0. exists (set_fl f2 e).
  split; [by destruct k |]. cbn [fl set_fl]. rewrite Hlen in Hf2.
  split; intros x Hx; rewrite Hf2, Hf1.
  { rewrite (proj2 (andb_false_iff _ _)) by lia. by rewrite (proj2 (andb_true_iff _ _)) by lia. }
  rewrite (proj2 (andb_true_iff _ _)) by lia. rewrite (proj2 (andb_false_iff _ _)) by lia.
  rewrite Hl by lia. rewrite Hf1, (proj2 (andb_false_iff _ _)) by lia.
  by replace (4096 * i + (4096 * (j + 1) + x - (4096 * j + o))) with (4096 * i + (4096 - o + x)) by lia.
Qed.

(** [SPIEraseAreaEx] erases exactly the sectors of the area: for an area
    that starts on a sector boundary it returns 0, every byte of the area
    (rounded up to whole sectors) reads as 0xFF and no other byte changes,
    however the work is split between sector and block erases. *)
Theorem erase_area_correct fuel start size e :
  start mod FLASH_SECTOR_SIZE = 0 -> 0 <= start -> 0 <= size -> start + round_up size <= chip ->
  (Z.to_nat (round_up size / FLASH_SECTOR_SIZE) <= fuel)%nat ->
  exists e', SPIEraseAreaEx fuel start size e = (inl 0, e') /\ same_but_flash e e' /\
    (forall x, start <= x < start + round_up size -> byte_at (fl e') x = 255) /\
    (forall x, ~ (start <= x < start + round_up size) -> byte_at (fl e') x = byte_at (fl e) x).
Proof.
  intros. destruct (erase_area_run fuel start size e) as (f & -> & Hx); try done.
  exists (set_fl f e). split; [done |]. split; [done |].
  split; intros x Hr; cbn [fl set_fl]; rewrite Hx; destruct (_ && _) eqn:?; lia || done.
Qed.
End Flash.
