(* ===== verification/EbootCommand.v ===== *)
(** * The command protocol of eboot and its checksum

    The checksum is linear over exclusive or, so that it can be compared with
    the plain shift register [shift1]; this gives the detection of every error
    burst of up to four bytes.  Then the protocol: writing, reading, clearing. *)

From S2P Require Import Prelude Eboot.

(** ** The shift register *)

Definition poly : Z := 0x04c11db7.
Definition shift1 (x : Z) : Z := Z.lxor (u32 (Z.shiftl x 1)) (if Z.testbit x 31 then poly else 0).
Definition shiftn (n : nat) (x : Z) : Z := Nat.iter n shift1 x.

Lemma testbit_shift1 x k : 0 <= k ->
  Z.testbit (shift1 x) k =
    xorb ((k <? 32) && Z.testbit x (k - 1)) (Z.testbit x 31 && Z.testbit poly k).
Proof.
  intros Hk. unfold shift1. rewrite Z.lxor_spec, testbit_u32, Z.shiftl_spec by done.
  f_equal. by destruct (Z.testbit x 31); [| rewrite Z.bits_0].
Qed.

Lemma shift1_lxor x y : shift1 (Z.lxor x y) = Z.lxor (shift1 x) (shift1 y).
Proof.
  apply z_ext. intros k Hk. rewrite Z.lxor_spec, !testbit_shift1, !Z.lxor_spec by done.
  destruct (k <? 32), (Z.testbit x (k - 1)), (Z.testbit y (k - 1)), (Z.testbit x 31), (Z.testbit y 31),
    (Z.testbit poly k); done.
Qed.

Lemma shiftn_lxor n x y : shiftn n (Z.lxor x y) = Z.lxor (shiftn n x) (shiftn n y).
Proof. induction n as [|n IH]; [done |]. simpl. fold (shiftn n). rewrite IH. apply shift1_lxor. Qed.

Lemma shiftn_add n m x : shiftn (n + m) x = shiftn n (shiftn m x).
Proof. unfold shiftn. apply Nat.iter_add. Qed.

Lemma shift1_eq_0 z : is_u32 z -> shift1 z = 0 -> z = 0.
Proof.
  intros Hz H.
  assert (forall k, 0 <= k -> Z.testbit (shift1 z) k = false) as Hb by (intros; rewrite H; apply Z.bits_0).
  assert (Z.testbit z 31 = false) as H31.
  { specialize (Hb 0 ltac:(lia)). rewrite testbit_shift1 in Hb by lia.
    rewrite (Z.testbit_neg_r z) in Hb by lia. by destruct (Z.testbit z 31). }
  apply z_ext. intros k Hk. rewrite Z.bits_0.
  destruct (decide (k < 31)) as [Hlt|].
  - specialize (Hb (k + 1) ltac:(lia)). rewrite testbit_shift1, H31 in Hb by lia.
    rewrite (proj2 (Z.ltb_lt (k + 1) 32)) in Hb by lia.
    replace (k + 1 - 1) with k in Hb by lia. by destruct (Z.testbit z k).
  - destruct (decide (k = 31)) as [->|]; [done |]. apply (testbit_small z 32 k); [exact Hz | lia].
Qed.

Lemma u32_lxor x y : is_u32 x -> is_u32 y -> is_u32 (Z.lxor x y).
Proof.
  intros Hx Hy. unfold is_u32 in *.
  assert (Z.lxor x y = u32 (Z.lxor x y)) as ->; [| apply u32_range].
  apply z_ext. intros k Hk. rewrite testbit_u32, Z.lxor_spec by done.
  destruct (k <? 32) eqn:E; [done |]. by rewrite !(testbit_small _ 32 k) by lia.
Qed.

Lemma shift1_u32 x : is_u32 (shift1 x).
Proof. apply u32_lxor; [apply u32_range |]. destruct (Z.testbit x 31); unfold is_u32; vm_compute; split; congruence. Qed.

Lemma shiftn_u32 n x : is_u32 x -> is_u32 (shiftn n x).
Proof. destruct n; [done |]. intros. apply shift1_u32. Qed.

Lemma shiftn_eq_0 n z : is_u32 z -> shiftn n z = 0 -> z = 0.
Proof.
  revert z. induction n as [|n IH]; intros z Hz H; [done |].
  apply IH; [done |]. apply shift1_eq_0; [by apply shiftn_u32 | done].
Qed.

(** Without a bit to shift out, the register just shifts. *)
Lemma shiftn_small n x : 0 <= x < 2 ^ (32 - Z.of_nat n) -> (n <= 32)%nat ->
  shiftn n x = x * 2 ^ Z.of_nat n.
Proof.
  revert x. induction n as [|n IH]; intros x Hx Hn; [unfold shiftn; simpl; lia |].
  assert (2 ^ (32 - Z.of_nat n) = 2 * 2 ^ (32 - Z.of_nat (S n))) as E.
  { rewrite <- Z.pow_succ_r by lia. f_equal. lia. }
  change (shift1 (shiftn n x) = x * 2 ^ Z.of_nat (S n)). rewrite IH by lia.
  assert (0 < 2 ^ Z.of_nat n) by lia.
  assert (2 ^ (32 - Z.of_nat (S n)) * 2 ^ Z.of_nat n = 2 ^ 31) as E2.
  { rewrite <- Z.pow_add_r by lia. f_equal. lia. }
  assert (0 <= x * 2 ^ Z.of_nat n < 2 ^ 31) as Hb by nia.
  unfold shift1. rewrite (testbit_small _ 31 31) by lia. rewrite Z.lxor_0_r, Z.shiftl_mul_pow2 by lia.
  rewrite u32_id by (unfold is_u32; lia). rewrite Nat2Z.inj_succ, Z.pow_succ_r by lia. lia.
Qed.

(** ** The checksum as a shift register *)

Lemma crc_bit_shift c i crc :
  crc_bit c i crc = Z.lxor (shift1 crc) (if bit_set c i then poly else 0).
Proof.
  unfold crc_bit, shift1. change 0x80000000 with (bv 31). rewrite bit_set_bv by lia.
  destruct (Z.testbit crc 31), (bit_set c i); simpl;
    rewrite ?Z.lxor_0_r, ?Z.lxor_assoc, ?Z.lxor_nilpotent, ?Z.lxor_0_r; done.
Qed.

Lemma shiftn_0 n : shiftn n 0 = 0.
Proof. induction n as [|n IH]; [done |]. unfold shiftn in *. simpl. by rewrite IH. Qed.

Lemma crc_fold_linear l c crc :
  fold_left (fun x i => crc_bit c i x) l crc =
    Z.lxor (shiftn (length l) crc) (fold_left (fun x i => crc_bit c i x) l 0).
Proof.
  revert crc. induction l as [|i l IH]; intros crc; [symmetry; apply Z.lxor_0_r |].
  simpl fold_left. rewrite IH, (IH (crc_bit c i 0)), !crc_bit_shift, !shiftn_lxor.
  change (length (i :: l)) with (S (length l)). rewrite <- Nat.add_1_r, shiftn_add.
  change (shift1 0) with 0. rewrite shiftn_0, Z.lxor_0_l. by rewrite Z.lxor_assoc.
Qed.

Lemma crc_byte_0 c : is_u8 c -> crc_byte 0 c = shiftn 8 (c * 2 ^ 24).
Proof.
  intros Hc.
  assert (forallb (fun n => crc_byte 0 (Z.of_nat n) =? shiftn 8 (Z.of_nat n * 2 ^ 24)) (seq 0 256) = true)
    as H by (vm_compute; reflexivity).
  rewrite forallb_forall in H. specialize (H (Z.to_nat c)).
  rewrite Z2Nat.id in H by (unfold is_u8 in Hc; lia).
  apply Z.eqb_eq, H, in_seq. unfold is_u8 in Hc. lia.
Qed.

(** One byte: exclusive or into the top of the register, then eight shifts. *)
Lemma crc_byte_shift crc c : is_u8 c -> crc_byte crc c = shiftn 8 (Z.lxor crc (c * 2 ^ 24)).
Proof.
  intros Hc. rewrite shiftn_lxor, <- crc_byte_0 by done.
  change (crc_byte crc c) with (fold_left (fun x i => crc_bit c i x) [128; 64; 32; 16; 8; 4; 2; 1] crc).
  change (crc_byte 0 c) with (fold_left (fun x i => crc_bit c i x) [128; 64; 32; 16; 8; 4; 2; 1] 0).
  apply crc_fold_linear.
Qed.

Lemma crc_update_linear l : forall crc, Forall is_u8 l ->
  crc_update crc l = Z.lxor (shiftn (8 * length l) crc) (crc_update 0 l).
Proof.
  induction l as [|c l IH]; intros crc Hl; [symmetry; apply Z.lxor_0_r |].
  apply Forall_cons in Hl as [Hc Hl]. cbn [crc_update]. rewrite IH, (IH (crc_byte 0 c)) by done.
  rewrite !crc_byte_shift, Z.lxor_0_l, !shiftn_lxor by done.
  replace (8 * length (c :: l))%nat with (8 * length l + 8)%nat by (simpl; lia).
  by rewrite !shiftn_add, Z.lxor_assoc.
Qed.

(** Up to four bytes as the top of a register. *)
Fixpoint top_bytes (s : Z) (l : list Z) : Z :=
  match l with
  | [] => 0
  | b :: l' => b * 2 ^ s + top_bytes (s - 8) l'
  end.

Lemma top_bytes_bound l s : Forall is_u8 l -> 8 * Z.of_nat (length l) <= s + 8 ->
  0 <= top_bytes s l < 2 ^ (s + 8).
Proof.
  revert s. induction l as [|b l IH]; intros s Hl Hs; simpl in *; [lia |].
  apply Forall_cons in Hl as [Hb Hl]. unfold is_u8 in Hb. specialize (IH (s - 8) Hl ltac:(lia)).
  replace (s - 8 + 8) with s in IH by lia. rewrite Z.pow_add_r by lia. nia.
Qed.

Lemma top_bytes_inj l1 : forall l2 s, length l1 = length l2 -> Forall is_u8 l1 -> Forall is_u8 l2 ->
  8 * Z.of_nat (length l1) <= s + 8 -> top_bytes s l1 = top_bytes s l2 -> l1 = l2.
Proof.
  induction l1 as [|b l1 IH]; intros [|b2 l2] s Hlen H1 H2 Hs H; try done.
  apply Forall_cons in H1 as [Hb H1], H2 as [Hb2 H2]. simpl in *.
  injection Hlen as Hlen.
  pose proof (top_bytes_bound l1 (s - 8) H1 ltac:(lia)) as B1.
  pose proof (top_bytes_bound l2 (s - 8) H2 ltac:(lia)) as B2.
  replace (s - 8 + 8) with s in * by lia.
  assert (b = b2) as -> by nia. f_equal. apply (IH l2 (s - 8)); try done; lia.
Qed.

Lemma top_bytes_shift l s : 8 * Z.of_nat (length l) <= s + 8 -> top_bytes (s + 8) l = top_bytes s l * 2 ^ 8.
Proof.
  revert s. induction l as [|b l IH]; intros s Hs; simpl in *; [lia |].
  replace (s + 8 - 8) with (s - 8 + 8) by lia. rewrite IH by lia. rewrite Z.pow_add_r by lia. lia.
Qed.

Lemma lxor_add_disjoint a b n : 0 <= n -> 0 <= b < 2 ^ n -> Z.lxor (a * 2 ^ n) b = a * 2 ^ n + b.
Proof.
  intros Hn Hb. rewrite <- lor_disjoint_add, Z.shiftl_mul_pow2 by done.
  apply Z.lxor_lor. apply z_ext. intros k Hk. rewrite Z.land_spec, Z.bits_0.
  destruct (decide (k < n)); [by rewrite Z.mul_pow2_bits_low by lia |].
  rewrite (testbit_small b n k) by lia. apply andb_false_r.
Qed.

Lemma crc_update_top l : Forall is_u8 l -> (length l <= 4)%nat ->
  crc_update 0 l = shiftn (8 * length l) (top_bytes 24 l).
Proof.
  induction l as [|b l IH]; intros Hl Hn; [done |].
  apply Forall_cons in Hl as [Hb Hl]. simpl length in Hn. cbn [crc_update].
  rewrite crc_byte_shift, Z.lxor_0_l, crc_update_linear, IH by (done || lia).
  cbn [top_bytes]. change (24 - 8) with 16.
  pose proof (top_bytes_bound l 16 Hl ltac:(lia)) as B.
  assert (top_bytes 24 l = shiftn 8 (top_bytes 16 l)) as ->.
  { rewrite shiftn_small by lia. apply (top_bytes_shift l 16). lia. }
  rewrite <- !shiftn_add, <- shiftn_lxor, lxor_add_disjoint by lia. f_equal. simpl length. lia.
Qed.

Lemma lxor_cancel a b c d : Z.lxor (Z.lxor a b) d = Z.lxor (Z.lxor a c) d -> b = c.
Proof.
  intros E. apply z_ext. intros k Hk. apply (f_equal (fun v => Z.testbit v k)) in E.
  rewrite !Z.lxor_spec in E.
  by destruct (Z.testbit a k), (Z.testbit b k), (Z.testbit c k), (Z.testbit d k).
Qed.

(** Two streams that differ in a burst of up to four bytes have different
    checksums. *)
Lemma crc_burst crc pre b1 b2 post :
  Forall is_u8 pre -> Forall is_u8 b1 -> Forall is_u8 b2 -> Forall is_u8 post ->
  length b1 = length b2 -> (length b1 <= 4)%nat -> b1 <> b2 ->
  crc_update crc (pre ++ b1 ++ post) <> crc_update crc (pre ++ b2 ++ post).
Proof.
  intros Hp H1 H2 Hq Hlen H4 Hne E.
  assert (forall c l l', crc_update c (l ++ l') = crc_update (crc_update c l) l') as app
    by (intros c l; revert c; induction l; intros; [done | simpl; auto]).
  rewrite !app in E. set (c := crc_update crc pre) in E.
  rewrite (crc_update_linear post (crc_update c b1)), (crc_update_linear post (crc_update c b2)) in E by done.
  rewrite (crc_update_linear b1 c), (crc_update_linear b2 c) in E by done.
  rewrite (crc_update_top b1), (crc_update_top b2), Hlen in E by (done || lia).
  assert (shiftn (8 * length post + 8 * length b2) (Z.lxor (top_bytes 24 b1) (top_bytes 24 b2)) = 0) as H0.
  { rewrite shiftn_add, !shiftn_lxor. rewrite !shiftn_lxor in E. apply Z.lxor_eq_0_iff.
    exact (lxor_cancel _ _ _ _ E). }
  pose proof (top_bytes_bound b1 24 H1 ltac:(lia)). pose proof (top_bytes_bound b2 24 H2 ltac:(lia)).
  apply shiftn_eq_0 in H0; [| apply u32_lxor; unfold is_u32; lia].
  apply Z.lxor_eq in H0. apply Hne, (top_bytes_inj b1 b2 24); try done; lia.
Qed.

(** ** The protocol *)

(** A command as the sketch fills it in: 29 words of arguments. *)
Definition command_ok (cmd : eboot_command) : Prop :=
  is_u32 (action cmd) /\ Forall is_u32 (args cmd) /\ length (args cmd) = 29%nat.

(** The command with magic number and checksum, as it is stored. *)
Definition sealed (cmd : eboot_command) : eboot_command :=
  let cmd' := mkCommand EBOOT_MAGIC (action cmd) (args cmd) 0 in
  mkCommand EBOOT_MAGIC (action cmd) (args cmd) (eboot_command_calculate_crc32 cmd').

Lemma of_words_words cmd l : length (args cmd) = 29%nat -> of_words (words cmd ++ l) = cmd.
Proof.
  intros H. destruct cmd as [m a ar c]. unfold of_words, words. cbn [magic action args crc32] in *.
  cbn [app nth drop]. rewrite <- app_assoc. f_equal.
  - rewrite drop_0. by apply take_app_length'.
  - rewrite app_nth2 by lia. by rewrite H.
Qed.

Lemma word_bytes_app l l' : word_bytes (l ++ l') = word_bytes l ++ word_bytes l'.
Proof. unfold word_bytes. by rewrite map_app, concat_app. Qed.

Lemma word_bytes_u8 l : Forall is_u8 (word_bytes l).
Proof. induction l; simpl; [constructor |]. apply Forall_app. split; [apply le_bytes_u8 | done]. Qed.

Lemma le_bytes_inj v w : is_u32 v -> is_u32 w -> le_bytes 4 v = le_bytes 4 w -> v = w.
Proof.
  intros Hv Hw E. apply (f_equal le_value) in E.
  rewrite !le_value_bytes in E by (unfold is_u32 in *; lia). done.
Qed.

(** Changing one covered word changes the checksum. *)
Lemma crc_word_change crc pre v w post :
  is_u32 v -> is_u32 w -> v <> w ->
  crc_update crc (word_bytes (pre ++ v :: post)) <> crc_update crc (word_bytes (pre ++ w :: post)).
Proof.
  intros Hv Hw Hne. rewrite !word_bytes_app.
  change (word_bytes (v :: post)) with (le_bytes 4 v ++ word_bytes post).
  change (word_bytes (w :: post)) with (le_bytes 4 w ++ word_bytes post).
  apply crc_burst; try apply word_bytes_u8; try apply le_bytes_u8; rewrite ?length_le_bytes; try done.
  intros E. by apply Hne, le_bytes_inj.
Qed.

(** Reading, in terms of the words: the first 31 are covered by the word 31. *)
Lemma covered_words l : (32 <= length l)%nat ->
  magic (of_words l) :: action (of_words l) :: args (of_words l) = take 31 l.
Proof. intros H. destruct l as [|a [|b l]]; simpl in H; [lia | lia |]. unfold of_words. simpl. by rewrite drop_0. Qed.

Definition crc_valid (l : list Z) : bool := nth 31 l 0 =? crc_update 0xffffffff (word_bytes (take 31 l)).

Section Protocol.
Context {R : Rom}.

Lemma eboot_read_words e : (32 <= length (RTC_MEM e))%nat ->
  eboot_command_read e =
    (inl (if Z.odd (nth 0 (RTC_MEM e) 0) || negb (crc_valid (RTC_MEM e)) then 1 else 0,
          of_words (RTC_MEM e)), e).
Proof.
  intros H. unfold eboot_command_read, eboot_command_calculate_crc32, crc_valid.
  rewrite covered_words by done. change (b2z (negb (EBOOT_MAGIC_MASK =? EBOOT_MAGIC))) with (bv 0).
  rewrite bit_set_bv, Z.bit0_odd by lia.
  change (magic (of_words (RTC_MEM e))) with (nth 0 (RTC_MEM e) 0).
  change (crc32 (of_words (RTC_MEM e))) with (nth 31 (RTC_MEM e) 0). by destruct (_ || _).
Qed.

Lemma core_read_words e : (32 <= length (RTC_MEM e))%nat ->
  core_eboot_command_read e =
    (inl (if negb (Z.land (nth 0 (RTC_MEM e) 0) EBOOT_MAGIC_MASK =? EBOOT_MAGIC)
             || negb (crc_valid (RTC_MEM e)) then 1 else 0,
          of_words (RTC_MEM e)), e).
Proof.
  intros H. unfold core_eboot_command_read, eboot_command_calculate_crc32, crc_valid.
  rewrite covered_words by done.
  change (magic (of_words (RTC_MEM e))) with (nth 0 (RTC_MEM e) 0).
  change (crc32 (of_words (RTC_MEM e))) with (nth 31 (RTC_MEM e) 0). by destruct (_ || _).
Qed.

Lemma length_words cmd : command_ok cmd -> length (words cmd) = 32%nat.
Proof. intros (_ & _ & H). unfold words. simpl. rewrite length_app, H. done. Qed.

(** The RTC memory after a command was written. *)
Lemma core_write_run cmd e :
  core_eboot_command_write cmd e = (inl (sealed cmd), set_rtc (words (sealed cmd) ++ drop 32 (RTC_MEM e)) e).
Proof. done. Qed.

Lemma sealed_valid cmd l : command_ok cmd ->
  crc_valid (words (sealed cmd) ++ l) = true /\ nth 0 (words (sealed cmd) ++ l) 0 = EBOOT_MAGIC.
Proof.
  intros (Ha & Hr & Hl). split; [| done]. unfold crc_valid.
  rewrite <- covered_words by (rewrite length_app, length_words by done; lia).
  rewrite of_words_words by done. apply Z.eqb_eq.
  change (nth 31 (words (sealed cmd) ++ l) 0) with (crc32 (of_words (words (sealed cmd) ++ l))).
  by rewrite of_words_words by done.
Qed.

Lemma sealed_run cmd l e : command_ok cmd -> RTC_MEM e = words (sealed cmd) ++ l ->
  eboot_command_read e = (inl (0, sealed cmd), e).
Proof.
  intros Hc He. assert (command_ok (sealed cmd)) as Hs by done.
  rewrite eboot_read_words by (rewrite He, length_app, length_words by done; lia).
  destruct (sealed_valid cmd l Hc) as [Hv Hm]. rewrite He, Hm, Hv.
  destruct Hc as (_ & _ & Hl). by rewrite of_words_words.
Qed.

(** Changing one word of a valid block makes it invalid. *)
Lemma crc_valid_change l i w :
  (32 <= length l)%nat -> crc_valid l = true -> (i < 32)%nat -> Forall is_u32 (take 31 l) ->
  is_u32 w -> w <> nth i l 0 -> crc_valid (<[i := w]> l) = false.
Proof.
  intros Hlen Hv Hi Hu Hw Hne. unfold crc_valid in *. apply Z.eqb_eq in Hv. apply Z.eqb_neq. intros E.
  destruct (decide (i = 31%nat)) as [->|Hi31].
  - rewrite take_insert_ge in E by lia. apply Hne. rewrite Hv, <- E.
    rewrite nth_lookup, list_lookup_insert_eq by lia. done.
  - rewrite nth_lookup, list_lookup_insert_ne, <- nth_lookup, Hv in E by done.
    destruct (lookup_lt_is_Some_2 (take 31 l) i) as [v Hvi]; [rewrite length_take; lia |].
    assert (v = nth i l 0) as Ev.
    { rewrite lookup_take_lt in Hvi by lia. by rewrite nth_lookup, Hvi. }
    rewrite take_insert_lt in E by lia.
    rewrite (insert_take_drop (take 31 l) i w) in E by (by eapply lookup_lt_Some).
    rewrite <- (take_drop_middle (take 31 l) i v Hvi) in E at 1.
    revert E. apply crc_word_change; [| done | congruence].
    eapply Forall_lookup_1; [exact Hu | exact Hvi].
Qed.

(** C16: The command survives the reset intact or is rejected.  A command the
    sketch writes to the RTC memory is read back unchanged by the bootloader
    and by the core; the flash and the rest of the RTC memory are untouched;
    and if any one of its 32 words is altered in any way, both refuse it. *)
Theorem command_protected cmd e :
  command_ok cmd ->
  exists e', core_eboot_command_write cmd e = (inl (sealed cmd), e') /\
    fl e' = fl e /\ drop 32 (RTC_MEM e') = drop 32 (RTC_MEM e) /\
    eboot_command_read e' = (inl (0, sealed cmd), e') /\
    core_eboot_command_read e' = (inl (0, sealed cmd), e') /\
    forall i w, (i < 32)%nat -> is_u32 w -> w <> nth i (words (sealed cmd)) 0 ->
      let e2 := set_rtc (<[i := w]> (RTC_MEM e')) e' in
      exists c, eboot_command_read e2 = (inl (1, c), e2) /\ core_eboot_command_read e2 = (inl (1, c), e2).
Proof.
  intros Hc. rewrite core_write_run. eexists. split; [done |].
  assert (length (words (sealed cmd)) = 32%nat) as Hlen by (by apply length_words).
  set (rest := drop 32 (RTC_MEM e)). set (l := words (sealed cmd) ++ rest).
  assert (32 <= length l)%nat as H32 by (unfold l; rewrite length_app; lia).
  destruct (sealed_valid cmd rest Hc) as [Hv Hm]. fold l in Hv, Hm.
  split; [done |]. split; [cbn [RTC_MEM set_rtc]; unfold l; by rewrite drop_app_length' |].
  split; [by apply (sealed_run cmd rest) |].
  split.
  { rewrite core_read_words by done. cbn [RTC_MEM set_rtc]. rewrite Hm, Hv.
    destruct Hc as (_ & _ & Hl). unfold l. by rewrite of_words_words. }
  intros i w Hi Hw Hne e2.
  assert (crc_valid (<[i := w]> l) = false) as Hbad.
  { apply crc_valid_change; try done.
    - rewrite <- covered_words by done. unfold l. destruct Hc as (Ha & Hr & Hl).
      rewrite of_words_words by done. constructor; [by vm_compute | by constructor].
    - unfold l. rewrite app_nth1 by lia. done. }
  exists (of_words (<[i := w]> l)).
  rewrite eboot_read_words, core_read_words by (cbn [RTC_MEM set_rtc e2]; by rewrite length_insert).
  cbn [RTC_MEM set_rtc e2]. fold l. rewrite Hbad, !orb_true_r. done.
Qed.

(** A copy command whose checksum is zero once its magic number is cleared. *)
Definition replayed : eboot_command :=
  mkCommand 0 ACTION_COPY_RAW ([0x100000; 0; 0x40000] ++ repeat 0 25 ++ [2831884]) 0.

Lemma replayed_valid l :
  let l2 := <[31%nat := 0]> (<[0%nat := 0]> (words (sealed replayed) ++ l)) in
  nth 0 l2 0 = 0 /\ crc_valid l2 = true /\
  of_words l2 = mkCommand 0 ACTION_COPY_RAW (args replayed) 0.
Proof. split; [done |]. split; [vm_compute; reflexivity | vm_compute; reflexivity]. Qed.

(** Clearing a command.  A cleared command is never accepted by the
    reader of the Arduino core.  The reader in the bootloader only tests bit 0
    of the magic number ([!=] binds tighter than [&]) and relies on the
    checksum alone: there is a well-formed copy command that it still accepts
    after it has been cleared, so that the bootloader carries it out again at
    every reset. *)
Theorem cleared_command e :
  (32 <= length (RTC_MEM e))%nat ->
  (exists e1 c, core_eboot_command_clear e = (inl tt, e1) /\ core_eboot_command_read e1 = (inl (1, c), e1)) /\
  (exists cmd c e1 e2, command_ok cmd /\ action cmd = ACTION_COPY_RAW /\
     core_eboot_command_write cmd e = (inl (sealed cmd), e1) /\
     eboot_command_clear e1 = (inl tt, e2) /\
     eboot_command_read e2 = (inl (0, c), e2) /\ action c = ACTION_COPY_RAW /\ args c = args cmd).
Proof.
  intros H. split.
  - eexists _, _. split; [done |].
    rewrite core_read_words by (cbn [RTC_MEM set_rtc]; by rewrite !length_insert).
    cbn [RTC_MEM set_rtc]. rewrite nth_lookup, list_lookup_insert_ne, list_lookup_insert_eq by lia. done.
  - assert (command_ok replayed) as Hc.
    { split; [by vm_compute |]. split; [| done].
      apply (bool_decide_unpack (Forall (fun v => 0 <= v < 4294967296) (args replayed))). by vm_compute. }
    set (l := words (sealed replayed) ++ drop 32 (RTC_MEM e)).
    set (l2 := <[31%nat := 0]> (<[0%nat := 0]> l)).
    exists replayed, (of_words l2), (set_rtc l e), (set_rtc l2 e).
    do 4 (split; [first [exact Hc | reflexivity] |]).
    rewrite eboot_read_words by (cbn [RTC_MEM set_rtc]; unfold l2, l; rewrite !length_insert, length_app, length_words by done; lia).
    cbn [RTC_MEM set_rtc]. destruct (replayed_valid (drop 32 (RTC_MEM e))) as (H0 & Hv & Hw).
    fold l l2 in H0, Hv, Hw. rewrite H0, Hv, Hw. clearbody l2. clear.
    split; [reflexivity |]. split; reflexivity.
Qed.
End Protocol.
