(* ===== verification/EbootMain.v ===== *)
(** * The loader and the main program of eboot

    Images as they are stored in flash, what loading one does, and the whole
    path of an update: command, copy, load, jump. *)

From S2P Require Import Prelude Eboot EbootProps EbootCommand.

(** ** Images *)

Record segment := mkSegment { seg_address : Z; seg_data : list Z }.
Record image := mkImage {
  im_magic : Z; im_mode : Z; im_size_freq : Z; im_entry : Z; im_segments : list segment
}.

Definition segment_bytes (s : segment) : list Z :=
  le_bytes 4 (seg_address s) ++ le_bytes 4 (Z.of_nat (length (seg_data s))) ++ seg_data s.
Definition image_header_bytes (i : image) : list Z :=
  [im_magic i; Z.of_nat (length (im_segments i)); im_mode i; im_size_freq i] ++ le_bytes 4 (im_entry i).
Definition image_bytes (i : image) : list Z :=
  image_header_bytes i ++ concat (map segment_bytes (im_segments i)).

Definition segment_ok (s : segment) : Prop :=
  is_u32 (seg_address s) /\ is_u32 (Z.of_nat (length (seg_data s))) /\
  Z.of_nat (length (seg_data s)) mod 4 = 0.
Definition image_ok (i : image) : Prop :=
  is_u32 (im_entry i) /\ Forall segment_ok (im_segments i).

(** What ends up in memory. *)
Definition loads (l : list segment) : list (Z * list Z) :=
  map (fun s => (seg_address s, seg_data s)) (List.filter (fun s => loadable (seg_address s)) l).

Lemma length_segment_bytes s : length (segment_bytes s) = (8 + length (seg_data s))%nat.
Proof. unfold segment_bytes. rewrite !length_app, !length_le_bytes. lia. Qed.

Section Loader.
Context {R : Rom} {N : NorRom}.

(** The flash holds the bytes [l] from address [a] on. *)
Definition holds (f : flash) (a : Z) (l : list Z) : Prop :=
  forall i, (i < length l)%nat -> byte_at f (a + Z.of_nat i) = nth i l 0.

Lemma holds_app f a l l' :
  holds f a (l ++ l') <-> holds f a l /\ holds f (a + Z.of_nat (length l)) l'.
Proof.
  unfold holds. split.
  - intros H. split; intros i Hi.
    + rewrite H by (rewrite length_app; lia). by rewrite app_nth1.
    + rewrite <- Z.add_assoc, <- Nat2Z.inj_add, H by (rewrite length_app; lia).
      rewrite app_nth2 by lia. f_equal. lia.
  - intros [H1 H2] i Hi. rewrite length_app in Hi. destruct (decide (i < length l)%nat).
    + rewrite H1 by lia. by rewrite app_nth1.
    + rewrite app_nth2 by lia. rewrite <- H2 by lia. f_equal. lia.
Qed.

(** Reading what the flash holds. *)
Lemma read_holds f a l :
  holds f a l -> a mod 4 = 0 -> Z.of_nat (length l) mod 4 = 0 -> 0 <= a ->
  a + Z.of_nat (length l) <= chip -> SPIRead a (Z.of_nat (length l)) f = (0, l).
Proof.
  intros H Ha Hl H0 Hc. rewrite read_law by (done || lia). f_equal. rewrite Nat2Z.id.
  apply (nth_ext _ _ 0 0); [by rewrite length_map, length_seq |].
  intros i Hi. rewrite length_map, length_seq in Hi. rewrite nth_map_seq by done. by apply H.
Qed.

Lemma read_flash_holds e a n l :
  holds (fl e) a l -> Z.of_nat (length l) = n -> a mod 4 = 0 -> n mod 4 = 0 -> 0 <= a -> a + n <= chip ->
  read_flash a n e = (inl (0, l), e).
Proof. intros H <- ? ? ? ?. unfold read_flash. by rewrite read_holds. Qed.

Definition add_ram (l : list (Z * list Z)) (e : esp) : esp :=
  mkEsp (fl e) (RTC_MEM e) (ram e ++ l) (out e).

Lemma load_flash_holds e a dest n l :
  holds (fl e) a l -> Z.of_nat (length l) = n -> a mod 4 = 0 -> n mod 4 = 0 -> 0 <= a -> a + n <= chip ->
  load_flash a dest n e = (inl 0, add_ram [(dest, l)] e).
Proof. intros H <- ? ? ? ?. unfold load_flash. by rewrite read_holds. Qed.

Lemma load_sections_ok l : forall pos e,
  Forall segment_ok l -> holds (fl e) pos (concat (map segment_bytes l)) ->
  pos mod 4 = 0 -> 0 <= pos -> pos + Z.of_nat (length (concat (map segment_bytes l))) <= chip ->
  load_sections (length l) pos e = (inl 0, add_ram (loads l) e).
Proof.
  pose proof chip_small as Hchip.
  induction l as [|s l IH]; intros pos e Hok Hh Hp H0 Hc.
  { unfold add_ram, loads. simpl. rewrite app_nil_r. by destruct e. }
  apply Forall_cons in Hok as [(Ha & Hl & H4) Hok]. cbn [map concat length load_sections] in *.
  rewrite length_app, length_segment_bytes in Hc.
  apply holds_app in Hh as [Hs Hh]. rewrite length_segment_bytes in Hh.
  unfold segment_bytes in Hs. rewrite app_assoc in Hs. apply holds_app in Hs as [Hhd Hd].
  rewrite length_app, !length_le_bytes in Hd. unfold is_u32 in Ha, Hl.
  set (h := le_bytes 4 (seg_address s) ++ le_bytes 4 (Z.of_nat (length (seg_data s)))) in *.
  assert (sh_address h = seg_address s) as Ea.
  { unfold sh_address, h. rewrite take_app_length' by (by rewrite length_le_bytes). apply le_value_bytes. lia. }
  assert (sh_size h = Z.of_nat (length (seg_data s))) as Es.
  { unfold sh_size, h. rewrite drop_app_length' by (by rewrite length_le_bytes).
    rewrite take_ge by (rewrite length_le_bytes; lia). apply le_value_bytes. lia. }
  assert (length h = 8%nat) as Lh by (unfold h; by rewrite length_app, !length_le_bytes).
  pose proof (read_flash_holds e pos sizeof_section_header h Hhd ltac:(rewrite Lh; done) Hp ltac:(done) H0
                ltac:(unfold sizeof_section_header; lia)) as Hr.
  estep Hr. unfold sizeof_section_header. rewrite Ea, Es.
  rewrite (u32_id (pos + 8)) by (unfold is_u32; lia).
  rewrite (u32_id (pos + 8 + _)) by (unfold is_u32; lia).
  replace (pos + Z.of_nat (8 + length (seg_data s))) with (pos + 8 + Z.of_nat (length (seg_data s))) in Hh by lia.
  unfold loads. cbn [List.filter]. destruct (loadable (seg_address s)) eqn:El; cbn [negb].
  - pose proof (load_flash_holds e (pos + 8) (seg_address s) _ (seg_data s) Hd eq_refl
                  ltac:(mlia) H4 ltac:(lia) ltac:(lia)) as Hld.
    estep Hld. rewrite IH; try done; try mlia.
    unfold add_ram, loads. cbn [ram fl RTC_MEM out map]. by rewrite <- app_assoc.
  - apply IH; try done; mlia.
Qed.

Lemma load_app_ok i a e :
  image_ok i -> (length (im_segments i) < 256)%nat ->
  holds (fl e) (a + APP_START_OFFSET) (image_bytes i) -> a mod 4 = 0 -> 0 <= a ->
  a + APP_START_OFFSET + Z.of_nat (length (image_bytes i)) <= chip ->
  load_app_from_flash_raw a e = (inr (Jx (im_entry i)), add_ram (loads (im_segments i)) e).
Proof.
  intros (He & Hs) Hn Hh Ha H0 Hc. pose proof chip_small as Hchip. unfold APP_START_OFFSET in *.
  unfold image_bytes in Hh, Hc. apply holds_app in Hh as [Hhd Hh]. rewrite length_app in Hc.
  assert (length (image_header_bytes i) = 8%nat) as Lh by done. rewrite Lh in Hh, Hc.
  unfold load_app_from_flash_raw, APP_START_OFFSET, sizeof_image_header.
  rewrite (u32_id (a + 0x1000)) by (unfold is_u32; lia).
  pose proof (read_flash_holds e (a + 0x1000) 8 (image_header_bytes i) Hhd ltac:(by rewrite Lh) ltac:(mlia)
                ltac:(done) ltac:(lia) ltac:(lia)) as Hr.
  estep Hr. rewrite (u32_id (a + 0x1000 + 8)) by (unfold is_u32; lia).
  change (num_segments (image_header_bytes i)) with (Z.of_nat (length (im_segments i))). rewrite Nat2Z.id.
  pose proof (load_sections_ok (im_segments i) (a + 0x1000 + 8) e Hs Hh ltac:(mlia) ltac:(lia) ltac:(lia)) as Hl.
  estep Hl. unfold halt.
  assert (entry (image_header_bytes i) = im_entry i) as ->; [| done].
  unfold entry. cbn [image_header_bytes app drop]. rewrite drop_0, take_ge by (rewrite length_le_bytes; lia).
  apply le_value_bytes. unfold is_u32 in He. lia.
Qed.
End Loader.

(** ** The main program *)

Section Main.
Context {R : Rom}.

(** Two states with the same flash, RTC memory and loaded memory. *)
Definition quiet_step (e e' : esp) : Prop :=
  fl e' = fl e /\ RTC_MEM e' = RTC_MEM e /\ ram e' = ram e.

#[export] Instance quiet_step_preorder : PreOrder quiet_step.
Proof. split; [done |]. intros a b c (? & ? & ?) (? & ? & ?). repeat split; congruence. Qed.

Lemma say_all_run l : forall e, exists e', say_all l e = (inl tt, e') /\ quiet_step e e'.
Proof.
  induction l as [|m l IH]; intros e; [by exists e |]. cbn [say_all]. unfold bind, say.
  destruct (IH (mkEsp (fl e) (RTC_MEM e) (ram e) (out e ++ [m]))) as (e' & -> & H). by exists e'.
Qed.

Lemma print_version_run a e : exists r e', print_version a e = (inl r, e') /\ quiet_step e e'.
Proof.
  unfold print_version, bind, read_flash, say, ret.
  destruct (SPIRead _ _ _) as [r l]. cbn [fst snd]. destruct (truth r); by eexists _, _.
Qed.

(** Results of the parts of [main], for any behaviour of the flash routines. *)

Lemma load_sections_results k : forall pos e,
  exists r e', load_sections k pos e = (inl r, e').
Proof.
  induction k as [|k IH]; intros pos e; cbn [load_sections]; [by eexists _, _ |].
  unfold bind, read_flash, load_flash, ret.
  destruct (SPIRead pos _ _) as [r l]. cbn [fst snd]. destruct (truth r); [by eexists _, _ |].
  destruct (negb _); [apply IH |]. destruct (SPIRead _ _ _) as [r2 l2].
  destruct (truth r2); [by eexists _, _ | apply IH].
Qed.

Lemma load_app_results a e :
  (exists r e', load_app_from_flash_raw a e = (inl r, e') /\ truth r = true) \/
  (exists pc e', load_app_from_flash_raw a e = (inr (Jx pc), e')).
Proof.
  unfold load_app_from_flash_raw, bind, read_flash, ret, halt.
  destruct (SPIRead _ _ _) as [r l]. cbn [fst snd]. destruct (truth r); [left; by eexists _, _ |].
  destruct (load_sections_results (Z.to_nat (num_segments l))
              (u32 (u32 (a + APP_START_OFFSET) + sizeof_image_header)) e) as (q & e' & ->).
  destruct (truth q) eqn:E; [left | right]; by eexists _, _.
Qed.

(** A copy whose remaining length is a multiple of the sector size ends. *)
Lemma copy_loop_results k : forall fuel s d e,
  (k <= fuel)%nat -> Z.of_nat k <= 1048575 ->
  exists r e', copy_loop fuel s d (4096 * Z.of_nat k) e = (inl r, e').
Proof.
  induction k as [|k IH]; intros fuel s d e Hf Hk; [destruct fuel; by eexists _, _ |].
  destruct fuel as [|fuel]; [lia |]. cbn [copy_loop].
  unfold truth at 1. rewrite (proj2 (Z.eqb_neq _ 0)) by lia. cbn [negb].
  unfold bind, erase_sector, read_flash, write_flash, ret.
  destruct (SPIEraseSector _ _) as [r f]. destruct (truth r); [by eexists _, _ |]. cbn [fl set_fl].
  destruct (SPIRead _ _ _) as [r1 l1]. cbn [fst snd]. destruct (truth r1); [by eexists _, _ |]. cbn [fl set_fl].
  destruct (SPIWrite _ _ _) as [r2 f2]. destruct (truth r2); [by eexists _, _ |].
  unfold FLASH_SECTOR_SIZE. rewrite (u32_id (_ - 0x1000)) by (unfold is_u32; lia).
  replace (4096 * Z.of_nat (S k) - 0x1000) with (4096 * Z.of_nat k) by lia. apply IH; lia.
Qed.

Lemma copy_raw_results fuel s d n e :
  (Z.to_nat 1048575 <= fuel)%nat -> exists r e', copy_raw fuel s d n e = (inl r, e').
Proof.
  intros Hf. rewrite copy_raw_check. destruct (_ || _); [by eexists _, _ |].
  rewrite sector_mask. pose proof (u32_range (n + FLASH_SECTOR_SIZE - 1)) as Hv. unfold is_u32 in Hv.
  set (v := u32 (n + FLASH_SECTOR_SIZE - 1)) in *.
  replace (v / 4096 * 4096) with (4096 * Z.of_nat (Z.to_nat (v / 4096))) by mlia.
  apply copy_loop_results; mlia.
Qed.

Lemma fetch_command_results e : exists c e', fetch_command e = (inl c, e').
Proof.
  unfold fetch_command, bind, eboot_command_read. destruct (_ || _); cbn [fst snd]; by eexists _, _.
Qed.

Lemma do_copy_results fuel cmd e :
  (Z.to_nat 1048575 <= fuel)%nat ->
  exists res c e', do_copy fuel cmd e = (inl (res, c), e') /\
    (truth res = true \/ action c = ACTION_LOAD_APP).
Proof.
  intros Hf. unfold do_copy. destruct (action cmd =? ACTION_COPY_RAW); [| by eexists _, _, _; split; [| left]].
  destruct (say_all_run [ets_putc 99; ets_putc 112; ets_putc 58; ets_wdt_disable] e) as (e1 & H1 & _).
  estep H1. destruct (copy_raw_results fuel (arg 0 cmd) (arg 1 cmd) (arg 2 cmd) e1 Hf) as (r & e2 & H2).
  estep H2. destruct (say_all_run [ets_wdt_enable; ets_putc (48 + r); ets_putc 10] e2) as (e3 & H3 & _).
  estep H3. eexists _, _, _. split; [done |]. unfold truth.
  destruct (r =? 0) eqn:E; [by right | by left].
Qed.

Lemma do_load_results res cmd e :
  truth res = true \/ action cmd = ACTION_LOAD_APP ->
  (exists r e', do_load res cmd e = (inl r, e') /\ truth r = true) \/
  (exists pc e', do_load res cmd e = (inr (Jx pc), e')).
Proof.
  intros H. unfold do_load. destruct (action cmd =? ACTION_LOAD_APP) eqn:E.
  - destruct (say_all_run [ets_putc 108; ets_putc 100; ets_putc 10] e) as (e1 & H1 & _). estep H1.
    destruct (load_app_results (arg 0 cmd) e1) as [(r & e2 & H2 & Hr)|(pc & e2 & H2)].
    + estep H2. destruct (say_all_run [ets_putc 101; ets_putc 58; ets_putc (48 + r); ets_putc 10] e2) as (e3 & H3 & _).
      estep H3. left. by eexists _, _.
    + right. unfold bind at 1. rewrite H2. by eexists _, _.
  - apply Z.eqb_neq in E. left. eexists _, _. split; [done |]. by destruct H.
Qed.

(** C17: The bootloader always makes progress.  Whatever the flash routines
    return and whatever the RTC memory holds, [main] either jumps to an
    application or ends by triggering a software reset; it never returns and
    never waits without having asked for the reset. *)
Theorem main_never_hangs fuel e :
  (Z.to_nat 1048575 <= fuel)%nat ->
  (exists pc e', main fuel e = (inr (Jx pc), e')) \/
  (exists e', main fuel e = (inr Spin, e') /\ exists l, out e' = l ++ [SWRST]).
Proof.
  intros Hf. unfold main.
  destruct (print_version_run 0 e) as (v & e1 & H1 & _). estep H1.
  destruct (fetch_command_results e1) as (c & e2 & H2). estep H2.
  destruct (do_copy_results fuel c e2 Hf) as (res & c' & e3 & H3 & Hor). estep H3.
  destruct (do_load_results res c' e3 Hor) as [(r & e4 & H4 & Hr)|(pc & e4 & H4)].
  - right. estep H4. rewrite Hr. unfold bind, say, halt. eexists. split; [done |]. by eexists.
  - left. exists pc, e4. unfold bind at 1. by rewrite H4.
Qed.
End Main.

Section Update.
Context {R : Rom} {N : NorRom}.

Lemma fetch_sealed cmd l e :
  command_ok cmd -> RTC_MEM e = words (sealed cmd) ++ l ->
  exists e', fetch_command e = (inl (sealed cmd), e') /\ fl e' = fl e /\ ram e' = ram e /\
    RTC_MEM e' = <[31%nat := 0]> (<[0%nat := 0]> (RTC_MEM e)).
Proof.
  intros Hc He. unfold fetch_command. estep (sealed_run cmd l e Hc He).
  eexists. split; [done |]. done.
Qed.

Lemma do_copy_ok fuel cmd e :
  let '(src, dst, size) := (arg 0 cmd, arg 1 cmd, arg 2 cmd) in
  action cmd = ACTION_COPY_RAW ->
  src mod FLASH_SECTOR_SIZE = 0 -> dst mod FLASH_SECTOR_SIZE = 0 -> 0 <= src -> 0 <= dst -> 0 <= size ->
  src + round_up size <= chip -> dst + round_up size <= chip ->
  dst < src \/ src + round_up size <= dst ->
  (Z.to_nat (round_up size / FLASH_SECTOR_SIZE) <= fuel)%nat ->
  exists e', do_copy fuel cmd e = (inl (0, load_command dst cmd), e') /\
    RTC_MEM e' = RTC_MEM e /\ ram e' = ram e /\
    forall x, byte_at (fl e') x =
      if (dst <=? x) && (x <? dst + round_up size)
      then byte_at (fl e) (x - dst + src) else byte_at (fl e) x.
Proof.
  cbv zeta. intros Ha H1 H2 H3 H4 H5 H6 H7 H8 H9. unfold do_copy. rewrite (proj2 (Z.eqb_eq _ _) Ha).
  destruct (say_all_run [ets_putc 99; ets_putc 112; ets_putc 58; ets_wdt_disable] e) as (e1 & E1 & Q1).
  destruct (copy_raw_run fuel (arg 0 cmd) (arg 1 cmd) (arg 2 cmd) e1) as (f & E2 & Hx); try done.
  destruct (say_all_run [ets_wdt_enable; ets_putc 48; ets_putc 10] (set_fl f e1)) as (e3 & E3 & Q3).
  estep E1. estep E2. change (48 + 0) with 48. estep E3. exists e3. split; [done |].
  destruct Q1 as (F1 & R1 & M1), Q3 as (F3 & R3 & M3). cbn [fl RTC_MEM ram set_fl] in *.
  split; [congruence |]. split; [congruence |]. intros x. by rewrite F3, Hx, F1.
Qed.

Lemma do_load_ok res cmd i e :
  action cmd = ACTION_LOAD_APP -> image_ok i -> (length (im_segments i) < 256)%nat ->
  holds (fl e) (arg 0 cmd + APP_START_OFFSET) (image_bytes i) -> arg 0 cmd mod 4 = 0 -> 0 <= arg 0 cmd ->
  arg 0 cmd + APP_START_OFFSET + Z.of_nat (length (image_bytes i)) <= chip ->
  exists e', do_load res cmd e = (inr (Jx (im_entry i)), e') /\
    fl e' = fl e /\ RTC_MEM e' = RTC_MEM e /\ ram e' = ram e ++ loads (im_segments i).
Proof.
  intros Ha Hi Hn Hh Hal H0 Hc. unfold do_load. rewrite (proj2 (Z.eqb_eq _ _) Ha).
  destruct (say_all_run [ets_putc 108; ets_putc 100; ets_putc 10] e) as (e1 & E1 & F1 & R1 & M1).
  estep E1. unfold bind at 1. rewrite (load_app_ok i (arg 0 cmd) e1) by (try done; by rewrite F1).
  eexists. split; [done |]. cbn [fl RTC_MEM ram add_ram]. by rewrite M1.
Qed.

(** C15: A firmware update is carried out.  The sketch stores a new image,
    behind the application offset of a sector-aligned region, and leaves a copy
    command; after the reset eboot accepts the command, clears it, copies the
    region to its destination (leaving the rest of the flash alone), loads
    exactly the loadable segments of the new image into memory and jumps to its
    entry point. *)
Theorem update_boots fuel src dst size more i e :
  let cmd := mkCommand 0 ACTION_COPY_RAW ([src; dst; size] ++ more) 0 in
  command_ok cmd ->
  src mod FLASH_SECTOR_SIZE = 0 -> dst mod FLASH_SECTOR_SIZE = 0 ->
  src + round_up size <= chip -> dst + round_up size <= chip ->
  dst < src \/ src + round_up size <= dst ->
  (Z.to_nat (round_up size / FLASH_SECTOR_SIZE) <= fuel)%nat ->
  image_ok i -> (length (im_segments i) < 256)%nat ->
  holds (fl e) (src + APP_START_OFFSET) (image_bytes i) ->
  APP_START_OFFSET + Z.of_nat (length (image_bytes i)) <= size ->
  exists e1 e2, core_eboot_command_write cmd e = (inl (sealed cmd), e1) /\
    main fuel e1 = (inr (Jx (im_entry i)), e2) /\
    ram e2 = ram e ++ loads (im_segments i) /\
    nth 0 (RTC_MEM e2) 1 = 0 /\ nth 31 (RTC_MEM e2) 1 = 0 /\
    forall x, byte_at (fl e2) x =
      if (dst <=? x) && (x <? dst + round_up size)
      then byte_at (fl e) (x - dst + src) else byte_at (fl e) x.
Proof.
  intros cmd Hc Hsa Hda Hsc Hdc Hov Hf Hi Hn Hh Hsz.
  assert (is_u32 src /\ is_u32 dst /\ is_u32 size) as (Hus & Hud & Huz).
  { destruct Hc as (_ & Hr & _). cbn [args cmd app] in Hr. rewrite !Forall_cons in Hr.
    destruct Hr as (? & ? & ? & _). done. }
  unfold is_u32 in Hus, Hud, Huz.
  set (l := words (sealed cmd) ++ drop 32 (RTC_MEM e)). set (e1 := set_rtc l e). exists e1.
  assert (length l = (32 + length (drop 32 (RTC_MEM e)))%nat) as Hl
    by (unfold l; by rewrite length_app, length_words).
  destruct (print_version_run 0 e1) as (v & e2 & H2 & Hf2 & Hr2 & Hm2).
  destruct (fetch_sealed cmd (drop 32 (RTC_MEM e)) e2 Hc ltac:(by rewrite Hr2)) as (e3 & H3 & Hf3 & Hm3 & Hr3).
  destruct (do_copy_ok fuel (sealed cmd) e3) as (e4 & H4 & Hr4 & Hm4 & Hx); try (done || cbn; lia).
  assert (fl e3 = fl e) as Ef by (rewrite Hf3, Hf2; done). rewrite Ef in Hx.
  assert (size <= round_up size) as Hru by (unfold round_up; mlia).
  destruct (do_load_ok 0 (load_command dst (sealed cmd)) i e4) as (e5 & H5 & Hf5 & Hr5 & Hm5);
    [done | done | done | | | exact (proj1 Hud) | |]; change (arg 0 (load_command dst (sealed cmd))) with dst.
  { intros j Hj. rewrite Hx. change (arg 1 (sealed cmd)) with dst. change (arg 2 (sealed cmd)) with size.
    unfold APP_START_OFFSET in *. rewrite (proj2 (andb_true_iff _ _)) by lia.
    rewrite <- Hh by done. f_equal. change (arg 0 (sealed cmd)) with src. lia. }
  { unfold FLASH_SECTOR_SIZE in *. mlia. }
  { unfold APP_START_OFFSET in *. lia. }
  exists e5. split; [done |]. split.
  { unfold main. estep H2. estep H3. estep H4. change (arg 1 (sealed cmd)) with dst.
    unfold bind at 1. by rewrite H5. }
  split; [by rewrite Hm5, Hm4, Hm3, Hm2 |].
  rewrite Hr5, Hr4, Hr3, Hr2. change (RTC_MEM e1) with l. rewrite Hf5.
  split; [rewrite nth_lookup, list_lookup_insert_ne, list_lookup_insert_eq by lia; done |].
  split; [rewrite nth_lookup, list_lookup_insert_eq by (rewrite length_insert; lia); done |].
  intros x. by rewrite Hx.
Qed.
End Update.
