(* ===== verification/EbootSim.v ===== *)
(** * A simulated flash chip and concrete runs of eboot *)

From S2P Require Import Prelude Eboot EbootProps EbootCommand EbootMain.

Definition sim_chip : Z := 0x100000.

(** The flash as a function of the address; accesses outside the chip fail. *)
Definition sim_within (a n : Z) : bool := (0 <=? a) && (0 <=? n) && (a + n <=? sim_chip).
Definition sim_fill (a n : Z) (f : Z -> Z) : Z -> Z :=
  fun x => if (a <=? x) && (x <? a + n) then 255 else f x.

#[export] Instance sim_rom : Rom := {|
  flash := Z -> Z;
  SPIEraseBlock n f :=
    if sim_within (FLASH_BLOCK_SIZE * n) FLASH_BLOCK_SIZE
    then (0, sim_fill (FLASH_BLOCK_SIZE * n) FLASH_BLOCK_SIZE f) else (1, f);
  SPIEraseSector n f :=
    if sim_within (FLASH_SECTOR_SIZE * n) FLASH_SECTOR_SIZE
    then (0, sim_fill (FLASH_SECTOR_SIZE * n) FLASH_SECTOR_SIZE f) else (1, f);
  SPIRead a n f :=
    if sim_within a n then (0, map (fun i => u8 (f (a + Z.of_nat i))) (seq 0 (Z.to_nat n))) else (1, []);
  SPIWrite a l f :=
    if sim_within a (Z.of_nat (length l))
    then (0, fun x => if (a <=? x) && (x <? a + Z.of_nat (length l))
                      then Z.land (u8 (f x)) (nth (Z.to_nat (x - a)) l 0) else f x)
    else (1, f)
|}.

Lemma sim_within_true a n : 0 <= a -> 0 <= n -> a + n <= sim_chip -> sim_within a n = true.
Proof. unfold sim_within. lia. Qed.

Lemma u8_land a b : is_u8 a -> is_u8 (Z.land a b).
Proof.
  unfold is_u8. intros H. split; [apply Z.land_nonneg; lia |].
  destruct (decide (Z.land a b = 0)) as [->|]; [lia |].
  assert (0 <= Z.land a b) by (apply Z.land_nonneg; lia).
  apply (Z.log2_lt_cancel _ 256). change (Z.log2 256) with 8.
  destruct (decide (Z.log2 (Z.land a b) < 8)) as [|Hge]; [done | exfalso].
  pose proof (Z.bit_log2 (Z.land a b) ltac:(lia)) as Hb. rewrite Z.land_spec in Hb.
  rewrite (testbit_small a 8) in Hb by lia. done.
Qed.

#[export] Program Instance sim_nor : NorRom := {|
  chip := sim_chip; byte_at := fun f x => u8 (f x)
|}.
Next Obligation. done. Qed.
Next Obligation. intros. apply u8_range. Qed.
Next Obligation. intros. simpl. by rewrite sim_within_true by done. Qed.
Next Obligation.
  intros f a l _ _ H0 Hc Hl. simpl. rewrite sim_within_true by lia. eexists. split; [done |]. intros x.
  cbv beta. destruct (_ && _); [| done]. apply u8_id, u8_land, u8_range.
Qed.
Next Obligation.
  intros f n H0 Hc. simpl. rewrite sim_within_true by (unfold FLASH_SECTOR_SIZE in *; lia).
  eexists. split; [done |]. intros x. unfold sim_fill.
  replace (FLASH_SECTOR_SIZE * (n + 1)) with (FLASH_SECTOR_SIZE * n + FLASH_SECTOR_SIZE) by lia.
  by destruct (_ && _).
Qed.
Next Obligation.
  intros f n H0 Hc. simpl. rewrite sim_within_true by (unfold FLASH_BLOCK_SIZE in *; lia).
  eexists. split; [done |]. intros x. unfold sim_fill.
  replace (FLASH_BLOCK_SIZE * (n + 1)) with (FLASH_BLOCK_SIZE * n + FLASH_BLOCK_SIZE) by lia.
  by destruct (_ && _).
Qed.

(** ** Concrete runs *)

Definition sim_image : image :=
  mkImage 0xE9 0 0 0x40100004
    [mkSegment 0x40100000 [1; 2; 3; 4]; mkSegment 0x40210000 [5; 6; 7; 8; 9; 10; 11; 12]].

Definition stored (a : Z) (l : list Z) : Z -> Z :=
  fun x => if (a <=? x) && (x <? a + Z.of_nat (length l)) then nth (Z.to_nat (x - a)) l 0 else 255.

Definition sim_esp : esp :=
  mkEsp (stored 0x81000 (image_bytes sim_image) : @flash sim_rom) (repeat 7 40) [] [].

Lemma sim_holds : holds (fl sim_esp) (0x80000 + APP_START_OFFSET) (image_bytes sim_image).
Proof.
  intros i Hi. unfold APP_START_OFFSET. cbn [fl sim_esp byte_at sim_nor]. unfold stored.
  rewrite (proj2 (andb_true_iff _ _)) by lia.
  replace (Z.to_nat _) with i by lia. apply u8_id.
  assert (Forall is_u8 (image_bytes sim_image)) as H.
  { apply (bool_decide_unpack (Forall (fun v => 0 <= v < 256) (image_bytes sim_image))). by vm_compute. }
  rewrite Forall_forall in H. apply H, list_elem_of_In, nth_In. done.
Qed.

Lemma sim_image_ok : image_ok sim_image.
Proof. repeat (split || constructor); by vm_compute. Qed.

Lemma copy_raw_correct_witness :
  exists e', copy_raw 2 0x80000 0 0x1100 sim_esp = (inl 0, e') /\ same_but_flash sim_esp e' /\
    (forall x, 0 <= x < 0 + round_up 0x1100 -> byte_at (fl e') x = byte_at (fl sim_esp) (x - 0 + 0x80000)) /\
    (forall x, ~ (0 <= x < 0 + round_up 0x1100) -> byte_at (fl e') x = byte_at (fl sim_esp) x).
Proof. apply (copy_raw_correct 2 0x80000 0 0x1100 sim_esp); try (vm_compute; congruence); [left; done | vm_compute; lia]. Defined.

Lemma copy_raw_alignment_check_witness :
  exists e', copy_raw 1 0x80000 0x1800 4096 sim_esp = (inl 0, e') /\
    (forall x, 0x1000 <= x < 0x1800 -> byte_at (fl e') x = 255).
Proof.
  destruct (copy_raw_alignment_check 1 0 0 0 sim_esp) as [_ H].
  destruct (H 128 1 0x800 ltac:(lia) ltac:(lia) ltac:(lia) ltac:(vm_compute; congruence)
    ltac:(vm_compute; congruence) ltac:(lia) eq_refl ltac:(lia)) as (e' & H1 & H2 & _).
  exists e'. split; [exact H1 | exact H2].
Defined.

Lemma erase_area_correct_witness :
  exists e', SPIEraseAreaEx 40 0xE000 0x21234 sim_esp = (inl 0, e') /\ same_but_flash sim_esp e' /\
    (forall x, 0xE000 <= x < 0xE000 + round_up 0x21234 -> byte_at (fl e') x = 255) /\
    (forall x, ~ (0xE000 <= x < 0xE000 + round_up 0x21234) -> byte_at (fl e') x = byte_at (fl sim_esp) x).
Proof. apply (erase_area_correct 40 0xE000 0x21234 sim_esp); try (vm_compute; congruence). vm_compute. lia. Defined.

Definition sim_command : eboot_command :=
  mkCommand 0 ACTION_COPY_RAW ([0x80000; 0; 0x1100] ++ repeat 0 26) 0.

Lemma sim_command_ok : command_ok sim_command.
Proof.
  split; [by vm_compute |]. split; [| done].
  apply (bool_decide_unpack (Forall (fun v => 0 <= v < 4294967296) (args sim_command))). by vm_compute.
Qed.

Lemma command_protected_witness :
  exists e', core_eboot_command_write sim_command sim_esp = (inl (sealed sim_command), e') /\
    eboot_command_read e' = (inl (0, sealed sim_command), e').
Proof.
  destruct (command_protected sim_command sim_esp sim_command_ok) as (e' & H1 & _ & _ & H2 & _).
  exists e'. split; [exact H1 | exact H2].
Defined.

Lemma cleared_command_witness :
  exists e1 c, core_eboot_command_clear sim_esp = (inl tt, e1) /\
    core_eboot_command_read e1 = (inl (1, c), e1).
Proof. destruct (cleared_command sim_esp) as [H _]; [vm_compute; lia | exact H]. Defined.

Lemma main_never_hangs_witness :
  (exists pc e', main (Z.to_nat 1048575) sim_esp = (inr (Jx pc), e')) \/
  (exists e', main (Z.to_nat 1048575) sim_esp = (inr Spin, e') /\ exists l, out e' = l ++ [SWRST]).
Proof. apply (main_never_hangs (Z.to_nat 1048575) sim_esp). apply le_n. Defined.

Lemma update_boots_witness :
  exists e1 e2, core_eboot_command_write sim_command sim_esp = (inl (sealed sim_command), e1) /\
    main 2 e1 = (inr (Jx 0x40100004), e2) /\ ram e2 = [(0x40100000, [1; 2; 3; 4])].
Proof.
  destruct (update_boots 2 0x80000 0 0x1100 (repeat 0 26) sim_image sim_esp) as (e1 & e2 & H1 & H2 & H3 & _);
    [exact sim_command_ok | reflexivity | reflexivity | vm_compute; congruence | vm_compute; congruence
    | left; reflexivity | vm_compute; lia | exact sim_image_ok | vm_compute; lia | exact sim_holds
    | vm_compute; congruence |].
  exists e1, e2. split; [exact H1 |]. split; [exact H2 | exact H3].
Defined.
