(* ===== verification/Base64.v ===== *)
(** * libb64, the base64 codec of the ESP8266 core

    Models [ESP/cores/esp8266/libb64/cencode.c] and [cdecode.c].  A [char] is
    unsigned on this processor.  The C functions are coroutines: a [switch] on
    the saved step jumps into the loop body; one call of the Rocq functions
    below per input character keeps the step explicit. *)

From S2P Require Import Prelude.

Definition BASE64_CHARS_PER_LINE := 72.

(** [base64_encode_expected_len(n)], bytes needed for the code of [n] bytes. *)
Definition base64_encode_expected_len_nonewlines (n : Z) : Z := Z.land (4 * n / 3 + 3) (Z.lnot 3).
Definition base64_encode_expected_len (n : Z) : Z :=
  base64_encode_expected_len_nonewlines n + (n / (BASE64_CHARS_PER_LINE * 3 / 4) + 1).
Definition base64_decode_expected_len (n : Z) : Z := n * 3 / 4.

(** ** Encoder *)

Inductive base64_encodestep := step_A | step_B | step_C.

Record base64_encodestate := mkEnc {
  step : base64_encodestep; result : Z; stepcount : Z; stepsnewline : Z
}.

Definition base64_init_encodestate : base64_encodestate := mkEnc step_A 0 0 BASE64_CHARS_PER_LINE.
Definition base64_init_encodestate_nonewlines : base64_encodestate :=
  let state_in := base64_init_encodestate in
  mkEnc (step state_in) (result state_in) (stepcount state_in) (-1).

(** [A-Z], [a-z], [0-9], [+], [/] *)
Definition encoding : list Z :=
  map Z.of_nat (seq 65 26) ++ map Z.of_nat (seq 97 26) ++ map Z.of_nat (seq 48 10) ++ [43; 47].

Definition base64_encode_value (value_in : Z) : Z :=
  if 63 <? value_in then 61 else nth (Z.to_nat value_in) encoding 0.

(** One turn: the code characters produced for one character of plain text. *)
Definition encode_char (fragment : Z) (st : base64_encodestate) : list Z * base64_encodestate :=
  match step st with
  | step_A =>
      let r := Z.shiftr (Z.land fragment 0x0fc) 2 in
      ([base64_encode_value r],
       mkEnc step_B (Z.shiftl (Z.land fragment 0x003) 4) (stepcount st) (stepsnewline st))
  | step_B =>
      let r := Z.lor (result st) (Z.shiftr (Z.land fragment 0x0f0) 4) in
      ([base64_encode_value r],
       mkEnc step_C (Z.shiftl (Z.land fragment 0x00f) 2) (stepcount st) (stepsnewline st))
  | step_C =>
      let r := Z.lor (result st) (Z.shiftr (Z.land fragment 0x0c0) 6) in
      let r2 := Z.shiftr (Z.land fragment 0x03f) 0 in
      let count := stepcount st + 1 in
      if (count =? BASE64_CHARS_PER_LINE / 4) && (0 <? stepsnewline st)
      then ([base64_encode_value r; base64_encode_value r2; 10], mkEnc step_A r2 0 (stepsnewline st))
      else ([base64_encode_value r; base64_encode_value r2], mkEnc step_A r2 count (stepsnewline st))
  end.

Fixpoint base64_encode_block (plaintext_in : list Z) (st : base64_encodestate)
  : list Z * base64_encodestate :=
  match plaintext_in with
  | [] => ([], st)
  | c :: l =>
      let '(o, st) := encode_char c st in
      let '(o', st) := base64_encode_block l st in
      (o ++ o', st)
  end.

(** Without the terminating NUL, which is not counted either. *)
Definition base64_encode_blockend (st : base64_encodestate) : list Z :=
  match step st with
  | step_B => [base64_encode_value (result st); 61; 61]
  | step_C => [base64_encode_value (result st); 61]
  | step_A => []
  end.

Definition base64_encode_chars (plaintext_in : list Z) : list Z :=
  let '(o, st) := base64_encode_block plaintext_in base64_init_encodestate in
  o ++ base64_encode_blockend st.

(** ** Decoder *)

Definition decoding : list Z :=
  [62; -1; -1; -1; 63; 52; 53; 54; 55; 56; 57; 58; 59; 60; 61; -1; -1; -1; -2; -1; -1; -1;
   0; 1; 2; 3; 4; 5; 6; 7; 8; 9; 10; 11; 12; 13; 14; 15; 16; 17; 18; 19; 20; 21; 22; 23; 24; 25;
   -1; -1; -1; -1; -1; -1; 26; 27; 28; 29; 30; 31; 32; 33; 34; 35; 36; 37; 38; 39; 40; 41; 42;
   43; 44; 45; 46; 47; 48; 49; 50; 51].
Definition decoding_size : Z := Z.of_nat (length decoding).

(** Conversion to [int8_t]. *)
Definition s8 (v : Z) : Z := (v + 128) mod 256 - 128.

(** [past] is the byte that happens to follow the table in memory: the test
    lets the index [decoding_size] through. *)
Definition base64_decode_value_signed (past value_in : Z) : Z :=
  let value_in := s8 (value_in - 43) in
  if (value_in <? 0) || (decoding_size <? value_in) then -1
  else nth (Z.to_nat value_in) decoding past.

Inductive base64_decodestep := step_a | step_b | step_c | step_d.

(** Access to the output buffer; [None] is an access outside of it. *)
Definition load (i : nat) (m : list Z) : option Z := m !! i.
Definition store (i : nat) (v : Z) (m : list Z) : option (list Z) :=
  if (i <? length m)%nat then Some (<[i := u8 v]> m) else None.

(** The body of the loop for a fragment that is not skipped; [p] is the index
    of [plainchar] in the output. *)
Definition decode_fragment (f : Z) (st : base64_decodestep) (m : list Z) (p : nat)
  : option (base64_decodestep * list Z * nat) :=
  match st with
  | step_a =>
      m ← store p (Z.shiftl (Z.land f 0x03f) 2) m; Some (step_b, m, p)
  | step_b =>
      v ← load p m; m ← store p (Z.lor v (Z.shiftr (Z.land f 0x030) 4)) m;
      m ← store (p + 1) (Z.shiftl (Z.land f 0x00f) 4) m; Some (step_c, m, p + 1)%nat
  | step_c =>
      v ← load p m; m ← store p (Z.lor v (Z.shiftr (Z.land f 0x03c) 2)) m;
      m ← store (p + 1) (Z.shiftl (Z.land f 0x003) 6) m; Some (step_d, m, p + 1)%nat
  | step_d =>
      v ← load p m; m ← store p (Z.lor v (Z.land f 0x03f)) m; Some (step_a, m, p + 1)%nat
  end.

Fixpoint decode_loop (past : Z) (code_in : list Z) (st : base64_decodestep) (m : list Z) (p : nat)
  : option (base64_decodestep * list Z * nat) :=
  match code_in with
  | [] => Some (st, m, p)
  | c :: l =>
      let fragment := base64_decode_value_signed past (s8 c) in
      if fragment <? 0 then decode_loop past l st m p
      else '(st, m, p) ← decode_fragment fragment st m p; decode_loop past l st m p
  end.

(** The state between calls: step and the partial character. *)
Definition base64_decodestate : Type := base64_decodestep * Z.
Definition base64_init_decodestate : base64_decodestate := (step_a, 0).

(** Length, output buffer and next state. *)
Definition base64_decode_block_signed (past : Z) (code_in m : list Z) (state_in : base64_decodestate)
  : option (nat * list Z * base64_decodestate) :=
  m ← store 0 state_in.2 m;
  '(st, m, p) ← decode_loop past code_in state_in.1 m 0;
  plainchar ← load p m;
  Some (p, m, (st, plainchar)).

Definition base64_decode_chars_signed (past : Z) (code_in plaintext_out : list Z)
  : option (nat * list Z) :=
  '(len, m, _) ← base64_decode_block_signed past code_in plaintext_out base64_init_decodestate;
  if (0 <? len)%nat then m ← store len 0 m; Some (len, m) else Some (len, m).
