(* ===== verification/Base64Props.v ===== *)
(** * Properties of the base64 codec *)

From S2P Require Import Prelude Base64.

(** Checking a property of all bytes (of all pairs of bytes) by evaluation. *)
Lemma forall_u8 (P : Z -> bool) :
  forallb (fun n => P (Z.of_nat n)) (seq 0 256) = true -> forall v, is_u8 v -> P v = true.
Proof.
  intros H v Hv. rewrite forallb_forall in H. unfold is_u8 in Hv.
  rewrite <- (Z2Nat.id v) by lia. apply H, in_seq. lia.
Qed.

(** Bits at a concrete position: push [testbit] to the variables. *)
Ltac bit_at :=
  repeat first
    [ rewrite Z.land_spec | rewrite Z.lor_spec | rewrite Z.shiftr_spec by lia | rewrite Z.shiftl_spec by lia
    | rewrite testbit_u8 by lia
    | match goal with |- context [Z.testbit ?x ?e] => rewrite (Z.testbit_neg_r x e) by lia end ];
  repeat match goal with
  | |- context [Z.testbit ?x ?e] =>
      first [ match x with Zpos _ => idtac end; let v := eval vm_compute in (Z.testbit x e) in change (Z.testbit x e) with v
            | let e' := eval vm_compute in e in progress change (Z.testbit x e) with (Z.testbit x e') ]
  | |- context [?i <? 8] => let v := eval vm_compute in (i <? 8) in change (i <? 8) with v
  end;
  cbn [andb orb];
  repeat match goal with |- context [Z.testbit ?x ?e] => destruct (Z.testbit x e) end; try reflexivity.

(** Two integers below 2^8 are equal when their eight bits are. *)
Lemma byte_ext a b : is_u8 a -> is_u8 b ->
  (forall k, In k [0; 1; 2; 3; 4; 5; 6; 7] -> Z.testbit a k = Z.testbit b k) -> a = b.
Proof.
  intros Ha Hb H. apply z_ext. intros k Hk. destruct (decide (k < 8)).
  - apply H. simpl. lia.
  - unfold is_u8 in *. by rewrite !(testbit_small _ 8 k) by lia.
Qed.

Ltac bytes := apply byte_ext; auto with fw; intros k Hk; simpl in Hk; decompose [or] Hk; subst; try done; bit_at.

(** ** Values *)

(** The alphabet is decoded to its positions, padding and line ends are skipped. *)
Lemma decode_encode_value past v : 0 <= v < 64 ->
  base64_decode_value_signed past (s8 (base64_encode_value v)) = v.
Proof.
  intros Hv.
  assert (forallb (fun n => base64_decode_value_signed past (s8 (base64_encode_value (Z.of_nat n))) =? Z.of_nat n)
            (seq 0 64) = true) as H by (vm_compute; reflexivity).
  rewrite forallb_forall in H. specialize (H (Z.to_nat v)). rewrite Z2Nat.id in H by lia.
  apply Z.eqb_eq, H, in_seq. lia.
Qed.

Lemma decode_value_range past v :
  is_u8 v -> v <> 123 -> -2 <= base64_decode_value_signed past (s8 v) < 64.
Proof.
  intros Hv Hne.
  assert (forall n, is_u8 n -> (n =? 123) || ((-2 <=? base64_decode_value_signed past (s8 n))
            && (base64_decode_value_signed past (s8 n) <? 64)) = true) as H
    by (apply forall_u8; vm_compute; reflexivity).
  specialize (H v Hv). lia.
Qed.

(** ** The output buffer *)

Lemma store_ok i v m : (i < length m)%nat -> store i v m = Some (<[i := u8 v]> m).
Proof. intros H. unfold store. by rewrite (proj2 (Nat.ltb_lt _ _)). Qed.

Lemma store_at pre x post v : store (length pre) v (pre ++ x :: post) = Some (pre ++ u8 v :: post).
Proof. rewrite store_ok by (rewrite length_app; simpl; lia).
  by rewrite insert_app_r_alt, Nat.sub_diag by lia. Qed.

Lemma store_next pre x y post v : store (length pre + 1) v (pre ++ x :: y :: post) = Some (pre ++ x :: u8 v :: post).
Proof.
  replace (length pre + 1)%nat with (length (pre ++ [x])) by (rewrite length_app; done).
  change (x :: y :: post) with ([x] ++ y :: post). rewrite app_assoc, store_at. by rewrite <- app_assoc.
Qed.

Lemma load_at pre x post : load (length pre) (pre ++ x :: post) = Some x.
Proof. unfold load. apply list_lookup_middle. done. Qed.

(** One fragment at the end of the part [pre] that is already decoded. *)
Lemma fragment_a f pre x post :
  decode_fragment f step_a (pre ++ x :: post) (length pre) =
    Some (step_b, pre ++ u8 (Z.shiftl (Z.land f 0x3f) 2) :: post, length pre).
Proof. unfold decode_fragment. by rewrite store_at. Qed.

Lemma fragment_b f pre x y post :
  decode_fragment f step_b (pre ++ x :: y :: post) (length pre) =
    Some (step_c, pre ++ u8 (Z.lor x (Z.shiftr (Z.land f 0x30) 4))
                      :: u8 (Z.shiftl (Z.land f 0xf) 4) :: post, length pre + 1)%nat.
Proof. unfold decode_fragment. rewrite load_at. simpl. rewrite store_at. simpl. by rewrite store_next. Qed.

Lemma fragment_c f pre x y post :
  decode_fragment f step_c (pre ++ x :: y :: post) (length pre) =
    Some (step_d, pre ++ u8 (Z.lor x (Z.shiftr (Z.land f 0x3c) 2))
                      :: u8 (Z.shiftl (Z.land f 0x3) 6) :: post, length pre + 1)%nat.
Proof. unfold decode_fragment. rewrite load_at. simpl. rewrite store_at. simpl. by rewrite store_next. Qed.

Lemma fragment_d f pre x post :
  decode_fragment f step_d (pre ++ x :: post) (length pre) =
    Some (step_a, pre ++ u8 (Z.lor x (Z.land f 0x3f)) :: post, length pre + 1)%nat.
Proof. unfold decode_fragment. rewrite load_at. simpl. by rewrite store_at. Qed.

(** Reading a character of the alphabet. *)
Lemma loop_value past v l st m p : 0 <= v < 64 ->
  decode_loop past (base64_encode_value v :: l) st m p =
    ('(st, m, p) ← decode_fragment v st m p; decode_loop past l st m p).
Proof.
  intros Hv. cbn [decode_loop]. rewrite decode_encode_value by done.
  by rewrite (proj2 (Z.ltb_ge v 0)) by lia.
Qed.

Lemma loop_skip past l st m p :
  decode_loop past (10 :: l) st m p = decode_loop past l st m p /\
  decode_loop past (61 :: l) st m p = decode_loop past l st m p.
Proof. done. Qed.

(** ** The four sextets of three bytes *)

Definition sx0 (a : Z) : Z := Z.shiftr (Z.land a 0x0fc) 2.
Definition sx1 (a b : Z) : Z := Z.lor (Z.shiftl (Z.land a 0x003) 4) (Z.shiftr (Z.land b 0x0f0) 4).
Definition sx2 (b c : Z) : Z := Z.lor (Z.shiftl (Z.land b 0x00f) 2) (Z.shiftr (Z.land c 0x0c0) 6).
Definition sx3 (c : Z) : Z := Z.shiftr (Z.land c 0x03f) 0.

(** A value with only the low six bits is a sextet. *)
Lemma six_bits v : 0 <= v -> (forall k, 6 <= k -> Z.testbit v k = false) -> 0 <= v < 64.
Proof.
  intros H0 H. split; [done |]. destruct (decide (v = 0)) as [->|]; [lia |].
  change 64 with (2 ^ 6). apply Z.log2_lt_pow2; [lia |].
  destruct (decide (Z.log2 v < 6)) as [|Hge]; [done | exfalso].
  pose proof (Z.bit_log2 v ltac:(lia)) as Hb. rewrite H in Hb by lia. done.
Qed.

Lemma mask_range a m n : 0 <= a -> 0 <= m -> 0 <= Z.shiftr (Z.land a m) n.
Proof. intros. apply Z.shiftr_nonneg, Z.land_nonneg. lia. Qed.

Lemma sx0_range a : is_u8 a -> 0 <= sx0 a < 64.
Proof.
  intros Ha. unfold is_u8 in Ha. apply six_bits; [apply mask_range; lia |].
  intros k Hk. unfold sx0. rewrite Z.shiftr_spec, Z.land_spec by lia.
  by rewrite (testbit_small a 8) by lia.
Qed.

Lemma sx3_range a : is_u8 a -> 0 <= sx3 a < 64.
Proof.
  intros Ha. unfold is_u8 in Ha. apply six_bits; [apply mask_range; lia |].
  intros k Hk. unfold sx3. rewrite Z.shiftr_spec, Z.land_spec by lia.
  rewrite (testbit_small 0x3f 6) by lia. apply andb_false_r.
Qed.

Lemma lor_range a b m n p q :
  0 <= m < 2 ^ (6 - p) -> 0 <= p <= 6 -> 0 <= n < 2 ^ (6 + q) -> 0 <= q -> 0 <= a -> 0 <= b ->
  0 <= Z.lor (Z.shiftl (Z.land a m) p) (Z.shiftr (Z.land b n) q) < 64.
Proof.
  intros Hm Hp Hn Hq Ha Hb. apply six_bits.
  - apply Z.lor_nonneg. split; [apply Z.shiftl_nonneg, Z.land_nonneg; lia | apply mask_range; lia].
  - intros k Hk. rewrite Z.lor_spec, Z.shiftl_spec, Z.shiftr_spec, !Z.land_spec by lia.
    rewrite (testbit_small m (6 - p)), (testbit_small n (6 + q)) by lia. by rewrite !andb_false_r.
Qed.

Lemma sx1_range a b : is_u8 a -> is_u8 b -> 0 <= sx1 a b < 64.
Proof. unfold is_u8. intros. apply lor_range; lia. Qed.
Lemma sx2_range a b : is_u8 a -> is_u8 b -> 0 <= sx2 a b < 64.
Proof. unfold is_u8. intros. apply lor_range; lia. Qed.

Lemma join_ab a b : is_u8 a ->
  u8 (Z.lor (u8 (Z.shiftl (Z.land (sx0 a) 0x3f) 2)) (Z.shiftr (Z.land (sx1 a b) 0x30) 4)) = a.
Proof. intros Ha. unfold sx0, sx1. bytes. Qed.

(** The low half of the second sextet does not depend on the first byte. *)
Lemma sx1_low a b :
  u8 (Z.shiftl (Z.land (sx1 a b) 0xf) 4) = u8 (Z.shiftl (Z.shiftr (Z.land b 0xf0) 4) 4).
Proof. unfold sx1. bytes. Qed.

Lemma join_bc b c : is_u8 b ->
  u8 (Z.lor (u8 (Z.shiftl (Z.shiftr (Z.land b 0xf0) 4) 4)) (Z.shiftr (Z.land (sx2 b c) 0x3c) 2)) = b.
Proof. intros Hb. unfold sx2. bytes. Qed.

Lemma join_c b c : is_u8 c ->
  u8 (Z.lor (u8 (Z.shiftl (Z.land (sx2 b c) 0x3) 6)) (Z.land (sx3 c) 0x3f)) = c.
Proof. intros Hc. unfold sx2, sx3. bytes. Qed.

(** ** Decoding what was encoded *)

Lemma decode_two past a b l pre x y post : is_u8 a -> is_u8 b ->
  decode_loop past (base64_encode_value (sx0 a) :: base64_encode_value (sx1 a b) :: l)
      step_a (pre ++ x :: y :: post) (length pre) =
    decode_loop past l step_c
      ((pre ++ [a]) ++ u8 (Z.shiftl (Z.shiftr (Z.land b 0xf0) 4) 4) :: post) (length (pre ++ [a])).
Proof.
  intros Ha Hb. rewrite loop_value, fragment_a by (by apply sx0_range). cbn [mbind option_bind].
  rewrite loop_value, fragment_b by (by apply sx1_range). cbn [mbind option_bind].
  rewrite join_ab, sx1_low by done. rewrite length_app. by rewrite <- app_assoc.
Qed.

Lemma decode_third past b c l pre y post : is_u8 b -> is_u8 c ->
  decode_loop past (base64_encode_value (sx2 b c) :: l) step_c
      (pre ++ u8 (Z.shiftl (Z.shiftr (Z.land b 0xf0) 4) 4) :: y :: post) (length pre) =
    decode_loop past l step_d
      ((pre ++ [b]) ++ u8 (Z.shiftl (Z.land (sx2 b c) 0x3) 6) :: post) (length (pre ++ [b])).
Proof.
  intros Hb Hc. rewrite loop_value, fragment_c by (by apply sx2_range). cbn [mbind option_bind].
  rewrite join_bc by done. rewrite length_app. by rewrite <- app_assoc.
Qed.

Lemma decode_last past b c l pre post : is_u8 b -> is_u8 c ->
  decode_loop past (base64_encode_value (sx3 c) :: l) step_d
      (pre ++ u8 (Z.shiftl (Z.land (sx2 b c) 0x3) 6) :: post) (length pre) =
    decode_loop past l step_a ((pre ++ [c]) ++ post) (length (pre ++ [c])).
Proof.
  intros Hb Hc. rewrite loop_value, fragment_d by (by apply sx3_range). cbn [mbind option_bind].
  rewrite join_c by done. rewrite length_app. by rewrite <- app_assoc.
Qed.

Lemma triple_ind (P : list Z -> Prop) :
  P [] -> (forall a, P [a]) -> (forall a b, P [a; b]) -> (forall a b c l, P l -> P (a :: b :: c :: l)) ->
  forall l, P l.
Proof.
  intros H0 H1 H2 H3 l. enough (P l /\ (forall a, P (a :: l)) /\ (forall a b, P (a :: b :: l))) as H by apply H.
  induction l as [|c l (IH & IH1 & IH2)]; [auto |]. split; [apply IH1 |].
  split; [intros a; apply IH2 | auto].
Qed.

(** The code of a text, from a given state on. *)
Definition encode_all (l : list Z) (st : base64_encodestate) : list Z :=
  let '(o, st) := base64_encode_block l st in o ++ base64_encode_blockend st.

(** A line end after 18 groups. *)
Definition line_end (count newline : Z) : bool := (count =? 18) && (0 <? newline).

Lemma encode_triple a b c l r sc n :
  encode_all (a :: b :: c :: l) (mkEnc step_A r sc n) =
    [base64_encode_value (sx0 a); base64_encode_value (sx1 a b); base64_encode_value (sx2 b c);
     base64_encode_value (sx3 c)] ++ (if line_end (sc + 1) n then [10] else []) ++
    encode_all l (mkEnc step_A (sx3 c) (if line_end (sc + 1) n then 0 else sc + 1) n).
Proof.
  unfold encode_all. cbn [base64_encode_block encode_char step result stepcount stepsnewline].
  change (BASE64_CHARS_PER_LINE / 4) with 18. unfold line_end.
  destruct (_ && _); fold (sx3 c); destruct (base64_encode_block l _) as [o st]; by rewrite <- ?app_assoc.
Qed.

Lemma encode_one a r sc n :
  encode_all [a] (mkEnc step_A r sc n) =
    [base64_encode_value (sx0 a); base64_encode_value (sx1 a 0); 61; 61].
Proof. unfold sx1. rewrite Z.lor_0_r. done. Qed.

Lemma encode_two a b r sc n :
  encode_all [a; b] (mkEnc step_A r sc n) =
    [base64_encode_value (sx0 a); base64_encode_value (sx1 a b); base64_encode_value (sx2 b 0); 61].
Proof. unfold sx2. rewrite Z.lor_0_r. done. Qed.

Lemma decode_encoded past l : Forall is_u8 l -> forall r sc n pre x post,
  (length l <= length post)%nat ->
  exists st y rest,
    decode_loop past (encode_all l (mkEnc step_A r sc n)) step_a (pre ++ x :: post) (length pre) =
      Some (st, (pre ++ l) ++ y :: rest, length (pre ++ l)) /\
    (length l + length rest = length post)%nat.
Proof.
  assert (is_u8 0) as Hz by done.
  induction l as [|a|a b|a b c l IH] using triple_ind; intros Hl r sc n pre x post Hp;
    rewrite ?Forall_cons in Hl; simpl in Hp.
  - exists step_a, x, post. by rewrite app_nil_r.
  - destruct post as [|y post]; [simpl in Hp; lia |]. destruct Hl as [Ha _].
    rewrite encode_one, decode_two by done. by eexists _, _, post.
  - destruct post as [|y [|z post]]; simpl in Hp; [lia | lia |]. destruct Hl as (Ha & Hb & _).
    rewrite encode_two, decode_two, decode_third by done.
    eexists _, _, post. rewrite <- (app_assoc pre [a] [b]). done.
  - destruct post as [|y [|z [|w post]]]; simpl in Hp; [lia | lia | lia |]. destruct Hl as (Ha & Hb & Hc & Hl).
    rewrite encode_triple. cbn [app]. rewrite decode_two, decode_third, decode_last by done.
    assert (forall k, decode_loop past ((if line_end (sc + 1) n then [10] else []) ++ k) step_a =
      decode_loop past k step_a) as -> by (intros k; by destruct (line_end _ _)).
    destruct (IH Hl (sx3 c) (if line_end (sc + 1) n then 0 else sc + 1) n (((pre ++ [a]) ++ [b]) ++ [c]) w post)
      as (st & v & rest & -> & Hr); [lia |].
    exists st, v, rest. rewrite <- !app_assoc. simpl. split; [done | lia].
Qed.

(** C27: Decoding inverts encoding.  For every byte string and every output
    buffer with room for it and the terminating NUL, decoding its code (line
    ends and padding included) returns its length and stores exactly the string,
    followed by NUL; the rest of the buffer size is kept. *)
Theorem base64_roundtrip past l m :
  Forall is_u8 l -> (length l < length m)%nat ->
  exists y rest, base64_decode_chars_signed past (base64_encode_chars l) m = Some (length l, l ++ y :: rest) /\
    (l <> [] -> y = 0) /\ length (l ++ y :: rest) = length m.
Proof.
  intros Hl Hm. destruct m as [|x m]; [simpl in Hm; lia |].
  unfold base64_decode_chars_signed, base64_decode_block_signed.
  rewrite (store_at [] x m). cbn [mbind option_bind fst snd base64_init_decodestate app].
  destruct (decode_encoded past l Hl 0 0 72 [] (u8 0) m) as (st & y & rest & Hd & Hr); [simpl in Hm; lia |].
  change (base64_encode_chars l) with (encode_all l (mkEnc step_A 0 0 72)). cbn [app length] in Hd.
  rewrite Hd. cbn [mbind option_bind]. rewrite load_at. cbn [mbind option_bind].
  destruct (0 <? length l)%nat eqn:E.
  - exists 0, rest. rewrite store_at. split; [done |]. rewrite length_app. simpl in *. split; [done | lia].
  - exists y, rest. apply Nat.ltb_ge in E. destruct l; [| simpl in E; lia].
    split; [done |]. split; [done | simpl in *; lia].
Qed.

Lemma encode_all_length l : forall r sc n, 0 <= sc < 18 -> 0 < n ->
  Z.of_nat (length (encode_all l (mkEnc step_A r sc n))) =
    4 * ((Z.of_nat (length l) + 2) / 3) + (sc + Z.of_nat (length l) / 3) / 18.
Proof.
  induction l as [|a|a b|a b c l IH] using triple_ind; intros r sc n Hsc Hn;
    rewrite ?encode_one, ?encode_two, ?encode_triple; rewrite ?length_app; simpl length.
  - change (Z.of_nat 0) with 0. mlia.
  - mlia.
  - mlia.
  - unfold line_end. rewrite (proj2 (Z.ltb_lt 0 n)) by done. rewrite andb_true_r.
    destruct (sc + 1 =? 18) eqn:E; rewrite !Nat2Z.inj_add, IH by lia; simpl length; mlia.
Qed.

(** The encoder's output and its terminating NUL fill exactly the
    [base64_encode_expected_len] bytes that callers allocate, line ends
    included: one after every 72 code characters. *)
Theorem base64_encode_length l :
  Z.of_nat (length (base64_encode_chars l)) + 1 = base64_encode_expected_len (Z.of_nat (length l)).
Proof.
  change (base64_encode_chars l) with (encode_all l (mkEnc step_A 0 0 72)).
  rewrite encode_all_length by lia.
  unfold base64_encode_expected_len, base64_encode_expected_len_nonewlines.
  change (BASE64_CHARS_PER_LINE * 3 / 4) with 54. set (n := Z.of_nat (length l)). assert (0 <= n) by lia.
  assert (Z.land (4 * n / 3 + 3) (Z.lnot 3) = (4 * n / 3 + 3) / 4 * 4) as ->; [| mlia].
  rewrite <- Z.ldiff_land. set (v := 4 * n / 3 + 3). change 3 with (Z.ones 2). rewrite Z.ldiff_ones_r by lia.
  rewrite Z.shiftl_mul_pow2, Z.shiftr_div_pow2 by lia. done.
Qed.

(** ** Arbitrary input *)

(** After [4 * q + step_index st] fragments, the output index is
    [3 * q + out_index st]. *)
Definition step_index (st : base64_decodestep) : nat :=
  match st with step_a => 0 | step_b => 1 | step_c => 2 | step_d => 3 end.
Definition out_index (st : base64_decodestep) : nat :=
  match st with step_a => 0 | step_b => 0 | step_c => 1 | step_d => 2 end.

Lemma load_ok i m : (i < length m)%nat -> exists v, load i m = Some v.
Proof. intros H. unfold load. by apply lookup_lt_is_Some_2 in H as [v Hv]; exists v. Qed.

Lemma fragment_bounds f st m q :
  (3 * (4 * q + step_index st + 1) < 4 * length m)%nat ->
  exists st' m' q', decode_fragment f st m (3 * q + out_index st) = Some (st', m', 3 * q' + out_index st')%nat /\
    length m' = length m /\ (4 * q' + step_index st' = 4 * q + step_index st + 1)%nat.
Proof.
  intros H. set (p := (3 * q + out_index st)%nat).
  assert (p < length m)%nat as Hp by (unfold p; destruct st; simpl in *; lia).
  destruct (load_ok p m Hp) as [v Hv].
  destruct st; unfold decode_fragment; rewrite ?Hv; cbn [mbind option_bind]; rewrite store_ok by done;
    cbn [mbind option_bind]; rewrite ?store_ok by (rewrite length_insert; simpl in *; lia); cbn [mbind option_bind].
  - exists step_b, (<[p := u8 (Z.shiftl (Z.land f 63) 2)]> m), q. rewrite length_insert. simpl. repeat split; lia.
  - eexists step_c, _, q. split; [f_equal; f_equal; unfold p; simpl; lia |]. rewrite !length_insert. simpl. lia.
  - eexists step_d, _, q. split; [f_equal; f_equal; unfold p; simpl; lia |]. rewrite !length_insert. simpl. lia.
  - eexists step_a, _, (S q). split; [f_equal; f_equal; unfold p; simpl; lia |]. rewrite !length_insert. simpl. lia.
Qed.

Lemma decode_loop_bounds past code : forall st m q,
  (3 * (4 * q + step_index st + length code) < 4 * length m)%nat ->
  exists st' m' q', decode_loop past code st m (3 * q + out_index st) = Some (st', m', 3 * q' + out_index st')%nat /\
    length m' = length m /\
    (4 * q' + step_index st' <= 4 * q + step_index st + length code)%nat.
Proof.
  induction code as [|c code IH]; intros st m q H.
  { eexists st, m, q. simpl. repeat split; lia. }
  cbn [decode_loop]. cbn [length] in H. destruct (_ <? 0).
  - destruct (IH st m q) as (st' & m' & q' & -> & Hl & Hq); [lia |]. exists st', m', q'. cbn [length]. repeat split; lia.
  - destruct (fragment_bounds (base64_decode_value_signed past (s8 c)) st m q) as (st1 & m1 & q1 & -> & Hl1 & Hq1); [lia |].
    cbn [mbind option_bind]. destruct (IH st1 m1 q1) as (st' & m' & q' & -> & Hl & Hq); [lia |].
    exists st', m', q'. cbn [length]. repeat split; lia.
Qed.

(** The decoder is memory safe in its output for every input.  With a
    buffer of [base64_decode_expected_len + 1] bytes no access leaves the
    buffer, whatever the code characters are, and the length returned is within
    the expected one.  The table look-up is not: its range test is off by one,
    so the character after [z] (123) reads the byte behind the table, while
    every other character is decoded independently of it. *)
Theorem base64_decode_bounds past code m :
  base64_decode_expected_len (Z.of_nat (length code)) + 1 <= Z.of_nat (length m) ->
  (exists len m', base64_decode_chars_signed past code m = Some (len, m') /\
     length m' = length m /\ Z.of_nat len <= base64_decode_expected_len (Z.of_nat (length code))) /\
  base64_decode_value_signed past (s8 123) = past /\
  (forall v past', is_u8 v -> v <> 123 ->
     base64_decode_value_signed past (s8 v) = base64_decode_value_signed past' (s8 v) /\
     -2 <= base64_decode_value_signed past (s8 v) < 64).
Proof.
  intros H. unfold base64_decode_expected_len in *.
  assert (3 * length code < 4 * length m)%nat as Hb by mlia.
  split; [| split; [done |]].
  - unfold base64_decode_chars_signed, base64_decode_block_signed.
    rewrite store_ok by lia. cbn [mbind option_bind fst snd base64_init_decodestate].
    destruct (decode_loop_bounds past code step_a (<[0%nat := u8 0]> m) 0) as (st & m' & q & Hd & Hl & Hq);
      [rewrite length_insert; simpl; lia |].
    change (3 * 0 + out_index step_a)%nat with 0%nat in Hd. rewrite Hd. cbn [mbind option_bind].
    rewrite length_insert in Hl. set (p := (3 * q + out_index st)%nat).
    assert (p < length m' /\ 4 * p <= 3 * length code)%nat as [Hp Hp4]
      by (unfold p; destruct st; simpl in *; lia).
    destruct (load_ok p m' Hp) as [v Hv]. fold p. rewrite Hv. cbn [mbind option_bind].
    destruct (0 <? p)%nat.
    + rewrite store_ok by done. eexists _, _. split; [done |]. rewrite length_insert. split; [done | mlia].
    + eexists _, _. split; [done |]. split; [done | mlia].
  - intros v past' Hv Hne. split; [| by apply decode_value_range].
    assert (forall n, is_u8 n -> (n =? 123) ||
        (base64_decode_value_signed past (s8 n) =? base64_decode_value_signed past' (s8 n)) = true) as Hall
      by (apply forall_u8; vm_compute; reflexivity).
    specialize (Hall v Hv). lia.
Qed.

(** ** Concrete runs *)

(** The encoding of "Adelino" and back. *)
Lemma base64_roundtrip_witness :
  exists y rest, base64_decode_chars_signed 7 (base64_encode_chars [65; 100; 101; 108; 105; 110; 111]) (repeat 1 9)
    = Some (7%nat, [65; 100; 101; 108; 105; 110; 111] ++ y :: rest) /\
    ([65; 100; 101; 108; 105; 110; 111] <> [] -> y = 0) /\
    length ([65; 100; 101; 108; 105; 110; 111] ++ y :: rest) = length (repeat 1 9).
Proof.
  apply (base64_roundtrip 7 [65; 100; 101; 108; 105; 110; 111] (repeat 1 9)).
  - apply (bool_decide_unpack (Forall (fun v => 0 <= v < 256) [65; 100; 101; 108; 105; 110; 111])). reflexivity.
  - simpl. lia.
Defined.

Lemma base64_decode_bounds_witness :
  exists len m', base64_decode_chars_signed 7 [123; 123; 255; 61; 65] (repeat 1 4) = Some (len, m') /\
    length m' = 4%nat /\ Z.of_nat len <= 3.
Proof. destruct (base64_decode_bounds 7 [123; 123; 255; 61; 65] (repeat 1 4)) as [H _]; [vm_compute; congruence | exact H]. Defined.
