(* ===== verification/Twi.v ===== *)
(** * The two-wire (I2C) driver of the AVR core

    Models [AVR/libraries/Wire/src/utility/twi.c]: the interrupt handler
    [TWI_vect], which is the state machine of the bus, and the functions that
    start transactions and wait for the handler to finish them.

    The bus is outside: it enters as a stream with one entry per point at which
    the foreground code can be interrupted, [None] for no interrupt and
    [Some (status, data)] for an interrupt with the given status and the given
    contents of the data register.  What the driver does to the bus is the
    sequence of its writes to the registers.  An access outside of one of the
    static buffers is a fault. *)

From S2P Require Import Prelude.

(** ** Constants ([twi.h], [compat/twi.h], bit positions) *)

Definition TWI_FREQ := 100000.
Definition TWI_F_CPU := 16000000.
Definition TWI_BUFFER_LENGTH := 32.
Definition TWI_READY := 0.
Definition TWI_MRX := 1.
Definition TWI_MTX := 2.
Definition TWI_SRX := 3.
Definition TWI_STX := 4.

Definition TW_START := 0x08.
Definition TW_REP_START := 0x10.
Definition TW_MT_SLA_ACK := 0x18.
Definition TW_MT_SLA_NACK := 0x20.
Definition TW_MT_DATA_ACK := 0x28.
Definition TW_MT_DATA_NACK := 0x30.
Definition TW_MT_ARB_LOST := 0x38.
Definition TW_MR_SLA_ACK := 0x40.
Definition TW_MR_SLA_NACK := 0x48.
Definition TW_MR_DATA_ACK := 0x50.
Definition TW_MR_DATA_NACK := 0x58.
Definition TW_SR_SLA_ACK := 0x60.
Definition TW_SR_ARB_LOST_SLA_ACK := 0x68.
Definition TW_SR_GCALL_ACK := 0x70.
Definition TW_SR_ARB_LOST_GCALL_ACK := 0x78.
Definition TW_SR_DATA_ACK := 0x80.
Definition TW_SR_DATA_NACK := 0x88.
Definition TW_SR_GCALL_DATA_ACK := 0x90.
Definition TW_SR_GCALL_DATA_NACK := 0x98.
Definition TW_SR_STOP := 0xA0.
Definition TW_ST_SLA_ACK := 0xA8.
Definition TW_ST_ARB_LOST_SLA_ACK := 0xB0.
Definition TW_ST_DATA_ACK := 0xB8.
Definition TW_ST_DATA_NACK := 0xC0.
Definition TW_ST_LAST_DATA := 0xC8.
Definition TW_NO_INFO := 0xF8.
Definition TW_BUS_ERROR := 0x00.
Definition TW_WRITE := 0.
Definition TW_READ := 1.

Definition TWINT := bv 7.
Definition TWEA := bv 6.
Definition TWSTA := bv 5.
Definition TWSTO := bv 4.
Definition TWWC := bv 3.
Definition TWEN := bv 2.
Definition TWIE := bv 0.
Definition TWPS0 := 0.
Definition TWPS1 := 1.

(** The values written to TWCR. *)
Definition ors (l : list Z) : Z := fold_left Z.lor l 0.
Definition CR_ENABLE := ors [TWEN; TWIE; TWEA].
Definition CR_START := ors [TWEN; TWIE; TWEA; TWINT; TWSTA].
Definition CR_ACK := ors [TWEN; TWIE; TWINT; TWEA].
Definition CR_NACK := ors [TWEN; TWIE; TWINT].
Definition CR_STOP := ors [TWEN; TWIE; TWEA; TWINT; TWSTO].
Definition CR_REP_START := ors [TWINT; TWSTA; TWEN].

(** ** State *)

(** The static variables of the driver. *)
Record twi := mkTwi {
  twi_state : Z; twi_slarw : Z; twi_sendStop : Z; twi_inRepStart : bool;
  twi_masterBuffer : list Z; twi_masterBufferIndex : Z; twi_masterBufferLength : Z;
  twi_txBuffer : list Z; twi_txBufferIndex : Z; twi_txBufferLength : Z;
  twi_rxBuffer : list Z; twi_rxBufferIndex : Z;
  twi_error : Z
}.

(** Static storage before [twi_init]. *)
Definition twi_statics : twi :=
  mkTwi 0 0 0 false (repeat 0 32) 0 0 (repeat 0 32) 0 0 (repeat 0 32) 0 0.

(** What the driver does to the outside, in order. *)
Inductive act :=
  | AWrite_TWCR (v : Z)
  | AWrite_TWDR (v : Z)
  | AWrite_TWBR (v : Z)
  | AWrite_TWAR (v : Z)
  | AClear_TWSR (bit : Z)
  | ADigitalWrite (pin v : Z).

Definition irq_event : Type := option (Z * Z).

Record tstate := mkT { drv : twi; acts : list act; events : list irq_event }.

Inductive tres (A : Type) :=
  | TOk (a : A) (s : tstate)
  | TFault (s : tstate)
  | TWaiting (s : tstate).
Arguments TOk {A}. Arguments TFault {A}. Arguments TWaiting {A}.

Definition T (A : Type) : Type := tstate -> tres A.
Definition ret {A} (a : A) : T A := fun s => TOk a s.
Definition bind {A C} (m : T A) (k : A -> T C) : T C := fun s =>
  match m s with
  | TOk a s' => k a s'
  | TFault s' => TFault s'
  | TWaiting s' => TWaiting s'
  end.

Declare Scope twi_scope.
Delimit Scope twi_scope with twi.
Notation "x <- m ;; k" := (bind m (fun x => k))
  (at level 100, m at next level, right associativity) : twi_scope.
Notation "m ;; k" := (bind m (fun _ => k))
  (at level 100, right associativity) : twi_scope.
Open Scope twi_scope.

Definition get {A} (f : twi -> A) : T A := fun s => TOk (f (drv s)) s.
Definition put (f : twi -> twi) : T unit := fun s => TOk tt (mkT (f (drv s)) (acts s) (events s)).
Definition do_act (a : act) : T unit := fun s => TOk tt (mkT (drv s) (acts s ++ [a]) (events s)).
Definition fault {A} : T A := fun s => TFault s.

(** Assignments to the static variables. *)
Definition set_state (v : Z) (d : twi) : twi :=
  mkTwi v (twi_slarw d) (twi_sendStop d) (twi_inRepStart d) (twi_masterBuffer d) (twi_masterBufferIndex d)
    (twi_masterBufferLength d) (twi_txBuffer d) (twi_txBufferIndex d) (twi_txBufferLength d)
    (twi_rxBuffer d) (twi_rxBufferIndex d) (twi_error d).
Definition set_slarw (v : Z) (d : twi) : twi :=
  mkTwi (twi_state d) (u8 v) (twi_sendStop d) (twi_inRepStart d) (twi_masterBuffer d) (twi_masterBufferIndex d)
    (twi_masterBufferLength d) (twi_txBuffer d) (twi_txBufferIndex d) (twi_txBufferLength d)
    (twi_rxBuffer d) (twi_rxBufferIndex d) (twi_error d).
Definition set_stop (v : Z) (r : bool) (d : twi) : twi :=
  mkTwi (twi_state d) (twi_slarw d) v r (twi_masterBuffer d) (twi_masterBufferIndex d)
    (twi_masterBufferLength d) (twi_txBuffer d) (twi_txBufferIndex d) (twi_txBufferLength d)
    (twi_rxBuffer d) (twi_rxBufferIndex d) (twi_error d).
Definition set_master (b : list Z) (i n : Z) (d : twi) : twi :=
  mkTwi (twi_state d) (twi_slarw d) (twi_sendStop d) (twi_inRepStart d) b (u8 i) (u8 n)
    (twi_txBuffer d) (twi_txBufferIndex d) (twi_txBufferLength d)
    (twi_rxBuffer d) (twi_rxBufferIndex d) (twi_error d).
Definition set_tx (b : list Z) (i n : Z) (d : twi) : twi :=
  mkTwi (twi_state d) (twi_slarw d) (twi_sendStop d) (twi_inRepStart d) (twi_masterBuffer d)
    (twi_masterBufferIndex d) (twi_masterBufferLength d) b (u8 i) (u8 n)
    (twi_rxBuffer d) (twi_rxBufferIndex d) (twi_error d).
Definition set_rx (b : list Z) (i : Z) (d : twi) : twi :=
  mkTwi (twi_state d) (twi_slarw d) (twi_sendStop d) (twi_inRepStart d) (twi_masterBuffer d)
    (twi_masterBufferIndex d) (twi_masterBufferLength d) (twi_txBuffer d) (twi_txBufferIndex d)
    (twi_txBufferLength d) b (u8 i) (twi_error d).
Definition set_error (v : Z) (d : twi) : twi :=
  mkTwi (twi_state d) (twi_slarw d) (twi_sendStop d) (twi_inRepStart d) (twi_masterBuffer d)
    (twi_masterBufferIndex d) (twi_masterBufferLength d) (twi_txBuffer d) (twi_txBufferIndex d)
    (twi_txBufferLength d) (twi_rxBuffer d) (twi_rxBufferIndex d) v.

(** Array accesses of the static buffers. *)
Definition arr_get (b : list Z) (i : Z) : T Z :=
  if i <? Z.of_nat (length b) then ret (nth (Z.to_nat i) b 0) else fault.
Definition arr_set (b : list Z) (i v : Z) : T (list Z) :=
  if i <? Z.of_nat (length b) then ret (<[Z.to_nat i := v]> b) else fault.

(** ** What the driver needs from outside

    [twcr_poll v i] is what the [i]-th read of TWCR after writing [v] returns;
    the callbacks are the functions installed by [twi_attachSlaveRxEvent] and
    [twi_attachSlaveTxEvent]. *)
Class TwiEnv := {
  twcr_poll : Z -> nat -> Z;
  poll_limit : nat;
  twi_onSlaveTransmit : T unit;
  twi_onSlaveReceive : list Z -> Z -> T unit
}.

Section Twi.
Context {Env : TwiEnv}.

(** ** Replies *)

Definition twi_reply (ack : bool) : T unit :=
  if ack then do_act (AWrite_TWCR CR_ACK) else do_act (AWrite_TWCR CR_NACK).

(** [while (TWCR & mask) continue;], the [i]-th poll after writing [v]. *)
Fixpoint wait_clear (k : nat) (mask v : Z) (i : nat) : T unit :=
  match k with
  | O => fun s => TWaiting s
  | S k' => if bit_set (twcr_poll v i) mask then wait_clear k' mask v (S i) else ret tt
  end.

Definition twi_stop : T unit :=
  do_act (AWrite_TWCR CR_STOP) ;;
  wait_clear poll_limit TWSTO CR_STOP 0 ;;
  put (set_state TWI_READY).

Definition twi_releaseBus : T unit :=
  do_act (AWrite_TWCR CR_ACK) ;;
  put (set_state TWI_READY).

(** End of a master transaction: stop, or start the next one at once. *)
Definition finish_master : T unit :=
  stop <- get twi_sendStop ;;
  if truth stop then twi_stop
  else
    put (fun d => set_stop (twi_sendStop d) true d) ;;
    do_act (AWrite_TWCR CR_REP_START) ;;
    put (set_state TWI_READY).

(** ** The interrupt handler *)

(** [twi_masterBuffer[twi_masterBufferIndex++] = TWDR] *)
Definition store_master (data : Z) : T unit :=
  d <- get id ;;
  b <- arr_set (twi_masterBuffer d) (twi_masterBufferIndex d) data ;;
  put (set_master b (twi_masterBufferIndex d + 1) (twi_masterBufferLength d)).

(** [TW_MR_SLA_ACK]: ack if more bytes are expected, otherwise nack *)
Definition reply_master : T unit :=
  i <- get twi_masterBufferIndex ;;
  n <- get twi_masterBufferLength ;;
  twi_reply (i <? n).

Definition send_master : T unit :=
  i <- get twi_masterBufferIndex ;;
  n <- get twi_masterBufferLength ;;
  if i <? n then
    b <- get twi_masterBuffer ;;
    v <- arr_get b i ;;
    put (set_master b (i + 1) n) ;;
    do_act (AWrite_TWDR v) ;;
    twi_reply true
  else finish_master.

Definition receive_slave (data : Z) : T unit :=
  b <- get twi_rxBuffer ;;
  i <- get twi_rxBufferIndex ;;
  if i <? TWI_BUFFER_LENGTH then
    b' <- arr_set b i data ;;
    put (set_rx b' (i + 1)) ;;
    twi_reply true
  else twi_reply false.

Definition stop_slave : T unit :=
  twi_releaseBus ;;
  b <- get twi_rxBuffer ;;
  i <- get twi_rxBufferIndex ;;
  (if i <? TWI_BUFFER_LENGTH then
     b' <- arr_set b i 0 ;; put (set_rx b' i)
   else ret tt) ;;
  b <- get twi_rxBuffer ;;
  i <- get twi_rxBufferIndex ;;
  twi_onSlaveReceive b i ;;
  b <- get twi_rxBuffer ;;
  put (set_rx b 0).

Definition start_slave_transmit : T unit :=
  put (set_state TWI_STX) ;;
  b <- get twi_txBuffer ;;
  put (set_tx b 0 0) ;;
  twi_onSlaveTransmit ;;
  d <- get id ;;
  if twi_txBufferLength d =? 0 then
    b <- arr_set (twi_txBuffer d) 0 0x00 ;;
    put (set_tx b (twi_txBufferIndex d) 1)
  else ret tt.

(** [TW_ST_DATA_ACK] *)
Definition transmit_slave : T unit :=
  d <- get id ;;
  v <- arr_get (twi_txBuffer d) (twi_txBufferIndex d) ;;
  put (set_tx (twi_txBuffer d) (twi_txBufferIndex d + 1) (twi_txBufferLength d)) ;;
  do_act (AWrite_TWDR v) ;;
  i <- get twi_txBufferIndex ;;
  n <- get twi_txBufferLength ;;
  twi_reply (i <? n).

Definition one_of (s : Z) (l : list Z) : bool := existsb (Z.eqb s) l.

Definition TWI_vect (status data : Z) : T unit :=
  if one_of status [TW_START; TW_REP_START] then
    w <- get twi_slarw ;; do_act (AWrite_TWDR w) ;; twi_reply true
  else if one_of status [TW_MT_SLA_ACK; TW_MT_DATA_ACK] then send_master
  else if status =? TW_MT_SLA_NACK then put (set_error TW_MT_SLA_NACK) ;; twi_stop
  else if status =? TW_MT_DATA_NACK then put (set_error TW_MT_DATA_NACK) ;; twi_stop
  else if status =? TW_MT_ARB_LOST then put (set_error TW_MT_ARB_LOST) ;; twi_releaseBus
  else if status =? TW_MR_DATA_ACK then store_master data ;; reply_master
  else if status =? TW_MR_SLA_ACK then reply_master
  else if status =? TW_MR_DATA_NACK then store_master data ;; finish_master
  else if status =? TW_MR_SLA_NACK then twi_stop
  else if one_of status [TW_SR_SLA_ACK; TW_SR_GCALL_ACK; TW_SR_ARB_LOST_SLA_ACK; TW_SR_ARB_LOST_GCALL_ACK] then
    put (set_state TWI_SRX) ;;
    b <- get twi_rxBuffer ;; put (set_rx b 0) ;;
    twi_reply true
  else if one_of status [TW_SR_DATA_ACK; TW_SR_GCALL_DATA_ACK] then receive_slave data
  else if status =? TW_SR_STOP then stop_slave
  else if one_of status [TW_SR_DATA_NACK; TW_SR_GCALL_DATA_NACK] then twi_reply false
  else if one_of status [TW_ST_SLA_ACK; TW_ST_ARB_LOST_SLA_ACK] then
    start_slave_transmit ;; transmit_slave
  else if status =? TW_ST_DATA_ACK then transmit_slave
  else if one_of status [TW_ST_DATA_NACK; TW_ST_LAST_DATA] then
    twi_reply true ;; put (set_state TWI_READY)
  else if status =? TW_NO_INFO then ret tt
  else if status =? TW_BUS_ERROR then put (set_error TW_BUS_ERROR) ;; twi_stop
  else ret tt.

(** ** The foreground *)

(** A point at which an interrupt can be served. *)
Definition interruptible : T unit := fun s =>
  match events s with
  | [] => TOk tt s
  | None :: l => TOk tt (mkT (drv s) (acts s) l)
  | Some (status, data) :: l => TWI_vect status data (mkT (drv s) (acts s) l)
  end.

(** Volatile accesses of the foreground, each preceded by such a point. *)
Definition vget {A} (f : twi -> A) : T A := interruptible ;; get f.
Definition vput (f : twi -> twi) : T unit := interruptible ;; put f.
Definition vact (a : act) : T unit := interruptible ;; do_act a.

(** [while (cond(twi_state)) continue;]: one turn per entry of the stream; when
    the stream ends and the condition still holds, the code is waiting. *)
Fixpoint wait_while (k : nat) (cond : Z -> bool) : T unit :=
  match k with
  | O => fun s => TWaiting s
  | S k' =>
      st <- vget twi_state ;;
      if cond st then wait_while k' cond else ret tt
  end.
Definition wait_state (cond : Z -> bool) : T unit := fun s =>
  wait_while (S (length (events s))) cond s.

Definition twi_init (SDA SCL : Z) : T unit :=
  vput (set_state TWI_READY) ;;
  vput (set_stop 1 false) ;;
  vact (ADigitalWrite SDA 1) ;;
  vact (ADigitalWrite SCL 1) ;;
  vact (AClear_TWSR TWPS0) ;;
  vact (AClear_TWSR TWPS1) ;;
  vact (AWrite_TWBR (u8 ((TWI_F_CPU / TWI_FREQ - 16) / 2))) ;;
  vact (AWrite_TWCR CR_ENABLE).

(** [TWCR &= ~(...)]: [v] is what the read of TWCR returns. *)
Definition twi_disable (v SDA SCL : Z) : T unit :=
  vact (AWrite_TWCR (Z.land v (Z.lnot CR_ENABLE))) ;;
  vact (ADigitalWrite SDA 0) ;;
  vact (ADigitalWrite SCL 0).

Definition twi_setAddress (address : Z) : T unit := vact (AWrite_TWAR (u8 (Z.shiftl address 1))).

(** The arithmetic is unsigned, 32 bits wide. *)
Definition twi_setFrequency (frequency : Z) : T unit :=
  vact (AWrite_TWBR (u8 (u32 (TWI_F_CPU / frequency - 16) / 2))).

(** Start condition, or the address at once after a repeated start; [polls]
    turns of the write-collision loop. *)
Fixpoint write_address (k : nat) (i : nat) : T unit :=
  match k with
  | O => fun s => TWaiting s
  | S k' =>
      w <- vget twi_slarw ;;
      vact (AWrite_TWDR w) ;;
      if bit_set (twcr_poll CR_REP_START i) TWWC then write_address k' (S i) else ret tt
  end.

Definition start_transaction : T unit :=
  rep <- vget twi_inRepStart ;;
  if rep : bool then
    vput (fun d => set_stop (twi_sendStop d) false d) ;;
    write_address poll_limit 0 ;;
    vact (AWrite_TWCR CR_ACK)
  else vact (AWrite_TWCR CR_START).

(** [twi_slarw = rw; twi_slarw |= address << 1] *)
Definition set_target (rw address : Z) : T unit :=
  vput (set_slarw rw) ;;
  vput (fun d => set_slarw (Z.lor (twi_slarw d) (Z.shiftl address 1)) d).

(** [twi_readFrom] from the end of the first wait to the start of the second. *)
Definition begin_read (address length sendStop : Z) : T unit :=
  vput (set_state TWI_MRX) ;;
  vput (fun d => set_stop sendStop (twi_inRepStart d) d) ;;
  vput (set_error 0xFF) ;;
  vput (fun d => set_master (twi_masterBuffer d) 0 (twi_masterBufferLength d) d) ;;
  vput (fun d => set_master (twi_masterBuffer d) (twi_masterBufferIndex d) (length - 1) d) ;;
  set_target TW_READ address ;;
  start_transaction.

(** Number of bytes read, and the bytes stored in [data]. *)
Definition twi_readFrom (address length sendStop : Z) : T (Z * list Z) :=
  if TWI_BUFFER_LENGTH <? length then ret (0, []) else
  wait_state (fun st => negb (TWI_READY =? st)) ;;
  begin_read address length sendStop ;;
  wait_state (fun st => TWI_MRX =? st) ;;
  i <- vget twi_masterBufferIndex ;;
  length <- (if i <? length then vget twi_masterBufferIndex else ret length) ;;
  b <- vget twi_masterBuffer ;;
  ret (length, take (Z.to_nat length) b).

(** The copy loop of [twi_writeTo]. *)
Fixpoint copy_master (data : list Z) (i : Z) : T unit :=
  match data with
  | [] => ret tt
  | v :: data' =>
      b <- vget twi_masterBuffer ;;
      b' <- arr_set b i v ;;
      put (fun d => set_master b' (twi_masterBufferIndex d) (twi_masterBufferLength d) d) ;;
      copy_master data' (i + 1)
  end.

(** [twi_writeTo] from the end of the first wait to the start of the second. *)
Definition begin_write (address : Z) (data : list Z) (sendStop : Z) : T unit :=
  vput (set_state TWI_MTX) ;;
  vput (fun d => set_stop sendStop (twi_inRepStart d) d) ;;
  vput (set_error 0xFF) ;;
  vput (fun d => set_master (twi_masterBuffer d) 0 (twi_masterBufferLength d) d) ;;
  vput (fun d => set_master (twi_masterBuffer d) (twi_masterBufferIndex d) (Z.of_nat (List.length data)) d) ;;
  copy_master data 0 ;;
  set_target TW_WRITE address ;;
  start_transaction.

Definition twi_writeTo (address : Z) (data : list Z) (wait : bool) (sendStop : Z) : T Z :=
  if TWI_BUFFER_LENGTH <? Z.of_nat (List.length data) then ret 1 else
  wait_state (fun st => negb (TWI_READY =? st)) ;;
  begin_write address data sendStop ;;
  (if wait then wait_state (fun st => TWI_MTX =? st) else ret tt) ;;
  e <- vget twi_error ;;
  if e =? 0xFF then ret 0 else
  e <- vget twi_error ;;
  if e =? TW_MT_SLA_NACK then ret 2 else
  e <- vget twi_error ;;
  ret (if e =? TW_MT_DATA_NACK then 3 else 4).

(** Called from the transmit callback, with interrupts off. *)
Definition twi_transmit (data : list Z) : T Z :=
  d <- get id ;;
  let length := Z.of_nat (List.length data) in
  if TWI_BUFFER_LENGTH <? twi_txBufferLength d + length then ret 1 else
  if negb (TWI_STX =? twi_state d) then ret 2 else
  let n := Z.to_nat (twi_txBufferLength d) in
  put (set_tx (take n (twi_txBuffer d) ++ data ++ drop (n + List.length data) (twi_txBuffer d))
         (twi_txBufferIndex d) (twi_txBufferLength d + length)) ;;
  ret 0.
End Twi.
