(* ===== verification/TwiProps.v ===== *)
(** * Properties of the two-wire driver

    Master transactions, with every way in which they can end, and the read of zero
    bytes. *)

From S2P Require Import Prelude Twi.

(** ** Assumptions about the outside *)

Class TwiEnvOk `{TwiEnv} := {
  (** The hardware clears TWSTO once the stop condition is on the bus. *)
  stop_executes : exists i, (i < poll_limit)%nat /\ bit_set (twcr_poll CR_STOP i) TWSTO = false;
  (** After a repeated start the data register takes the address at the
      [address_polls]-th attempt; the ones before it collide. *)
  address_polls : nat;
  address_limit : (1 <= address_polls <= poll_limit)%nat;
  address_taken i : (i < address_polls)%nat ->
    bit_set (twcr_poll CR_REP_START i) TWWC = (S i <? address_polls)%nat
}.

Section Master.
Context {Env : TwiEnv} {Ok : TwiEnvOk}.

Definition add_acts (l : list act) (s : tstate) : tstate := mkT (drv s) (acts s ++ l) (events s).
Definition upd (f : twi -> twi) (s : tstate) : tstate := mkT (f (drv s)) (acts s) (events s).

Lemma bind_ok {A C} (m : T A) (k : A -> T C) a s s' : m s = TOk a s' -> bind m k s = k a s'.
Proof. unfold bind. by intros ->. Qed.

Lemma wait_clear_ok v mask i s : forall k j,
  (j <= i < j + k)%nat -> bit_set (twcr_poll v i) mask = false -> wait_clear k mask v j s = TOk tt s.
Proof.
  intros k. induction k as [|k IH]; intros j Hj Hc; [lia |]. cbn [wait_clear].
  destruct (bit_set (twcr_poll v j) mask) eqn:E; [| done].
  apply IH; [| done]. destruct (decide (i = j)) as [->|]; [congruence | lia].
Qed.

Lemma twi_stop_ok s :
  twi_stop s = TOk tt (upd (set_state TWI_READY) (add_acts [AWrite_TWCR CR_STOP] s)).
Proof.
  unfold twi_stop. unfold bind at 1, do_act. destruct stop_executes as (i & Hi & Hc).
  rewrite (bind_ok _ _ tt _ (add_acts [AWrite_TWCR CR_STOP] s)); [done |].
  apply (wait_clear_ok _ _ i); [lia | done].
Qed.

(** ** Foreground steps without an interrupt *)

Lemma vget_none {A} (f : twi -> A) d a l : vget f (mkT d a (None :: l)) = TOk (f d) (mkT d a l).
Proof. done. Qed.

Lemma vput_none f d a l : vput f (mkT d a (None :: l)) = TOk tt (mkT (f d) a l).
Proof. done. Qed.

Lemma lookup_nth (b : list Z) k : (k < length b)%nat -> b !! k = Some (nth k b 0).
Proof. intros H. rewrite nth_lookup. apply lookup_lt_is_Some_2 in H as [v ->]. done. Qed.

Lemma vget_irq {A} (f : twi -> A) d a l st dat s' :
  TWI_vect st dat (mkT d a l) = TOk tt s' -> vget f (mkT d a (Some (st, dat) :: l)) = TOk (f (drv s')) s'.
Proof. intros H. unfold vget, interruptible, bind. cbn [events drv acts]. by rewrite H. Qed.

Lemma copy_master_ok data : forall i b m n d a l,
  twi_masterBuffer d = b -> twi_masterBufferIndex d = m -> twi_masterBufferLength d = n -> is_u8 m -> is_u8 n ->
  0 <= i -> i + Z.of_nat (length data) <= Z.of_nat (length b) ->
  copy_master data i (mkT d a (repeat None (length data) ++ l)) =
    TOk tt (mkT (set_master (take (Z.to_nat i) b ++ data ++ drop (Z.to_nat i + length data) b) m n d) a l).
Proof.
  induction data as [|v data IH]; intros i b m n d a l Hb Hm Hn Um Un Hi Hl.
  { cbn [copy_master length repeat app]. unfold ret. do 2 f_equal. rewrite Nat.add_0_r, take_drop.
    unfold set_master. rewrite !u8_id by done. subst. by destruct d. }
  cbn [copy_master length repeat app]. rewrite (bind_ok _ _ _ _ _ (vget_none _ _ _ _)). rewrite Hb.
  unfold arr_set. rewrite (proj2 (Z.ltb_lt i _)) by (simpl length in Hl; lia).
  unfold bind at 1, ret. unfold bind at 1, put. cbn [drv acts events].
  rewrite (IH (i + 1) (<[Z.to_nat i := v]> b) m n);
    try (done || lia || (simpl; rewrite ?Hm, ?Hn, ?u8_id by done; done)).
  2: { rewrite length_insert. simpl length in Hl. lia. }
  do 2 f_equal. unfold set_master. cbn. rewrite Z2Nat.inj_add by lia. change (Z.to_nat 1) with 1%nat.
  rewrite Nat.add_1_r. assert (Z.to_nat i < length b)%nat by (simpl length in Hl; lia).
  rewrite drop_insert_lt by lia.
  rewrite (take_S_r _ _ v) by (by rewrite list_lookup_insert_eq).
  rewrite take_insert_ge, <- app_assoc by lia. simpl. by rewrite Nat.add_succ_r.
Qed.

(** ** Setting up a transaction while no other is in progress *)

(** What is written for one byte. *)
Definition sent (v : Z) : list act := [AWrite_TWDR v; AWrite_TWCR CR_ACK].

(** The writes up to the address byte [w]: behind a repeated start ([rep]) the start condition is
    on the bus already. *)
Definition opening (rep : bool) (w : Z) : list act :=
  if rep then repeat (AWrite_TWDR w) address_polls ++ [AWrite_TWCR CR_ACK] else AWrite_TWCR CR_START :: sent w.
(** The part of it that the foreground writes, and its points of interruption. *)
Definition set_off (rep : bool) (w : Z) : list act := if rep then opening true w else [AWrite_TWCR CR_START].
Definition start_points (rep : bool) : nat := if rep then (3 + 2 * address_polls)%nat else 2%nat.

Lemma write_address_ok d a l : forall k j, (j + k = address_polls)%nat -> (k <> 0)%nat -> forall f, (k <= f)%nat ->
  write_address f j (mkT d a (repeat None (2 * k) ++ l)) = TOk tt (mkT d (a ++ repeat (AWrite_TWDR (twi_slarw d)) k) l).
Proof.
  intros k. revert a. induction k as [|k IH]; intros a j Hj Hk f Hf; [done |]. destruct f as [|f]; [lia |].
  cbn [write_address]. replace (2 * S k)%nat with (S (S (2 * k))) by lia. cbn [repeat app].
  rewrite (bind_ok _ _ _ _ _ (vget_none _ _ _ _)). unfold vact. unfold bind at 1 2. unfold interruptible at 1, do_act at 1. cbn [events drv acts].
  rewrite address_taken by lia. destruct (Nat.ltb_spec (S j) address_polls).
  - rewrite (IH _ (S j)) by lia. by rewrite <- app_assoc.
  - assert (k = 0%nat) as -> by lia. done.
Qed.

Lemma start_ok d a l :
  start_transaction (mkT d a (repeat None (start_points (twi_inRepStart d)) ++ l)) =
    TOk tt (mkT (set_stop (twi_sendStop d) false d) (a ++ set_off (twi_inRepStart d) (twi_slarw d)) l).
Proof.
  pose proof address_limit. unfold start_transaction, start_points, set_off, opening. destruct (twi_inRepStart d) eqn:E.
  - change (3 + 2 * address_polls)%nat with (S (S (S (2 * address_polls)))). cbn [repeat app].
    rewrite (bind_ok _ _ _ _ _ (vget_none _ _ _ _)), E. rewrite (bind_ok _ _ _ _ _ (vput_none _ _ _ _)).
    replace (None :: repeat None (2 * address_polls) ++ l) with (repeat None (2 * address_polls) ++ None :: l)
      by (rewrite app_comm_cons, repeat_cons, <- app_assoc; done).
    rewrite (bind_ok _ _ _ _ _ (write_address_ok _ _ _ address_polls 0 eq_refl ltac:(lia) poll_limit ltac:(lia))).
    unfold vact, bind, interruptible, do_act. cbn [events drv acts]. by rewrite <- app_assoc.
  - cbn [repeat app]. rewrite (bind_ok _ _ _ _ _ (vget_none _ _ _ _)), E. unfold vact, bind, interruptible, do_act. cbn [events drv acts].
    rewrite <- E. by destruct d.
Qed.

Definition slarw_of (rw address : Z) : Z := u8 (Z.lor (u8 rw) (Z.shiftl address 1)).

Lemma begin_write_ok address data stop d a l :
  length (twi_masterBuffer d) = 32%nat -> is_u8 (twi_masterBufferLength d) -> (length data <= 32)%nat ->
  begin_write address data stop
      (mkT d a (repeat None (7 + length data + start_points (twi_inRepStart d)) ++ l)) =
    TOk tt (mkT (mkTwi TWI_MTX (slarw_of TW_WRITE address) stop false
                   (data ++ drop (length data) (twi_masterBuffer d)) 0 (Z.of_nat (length data))
                   (twi_txBuffer d) (twi_txBufferIndex d) (twi_txBufferLength d)
                   (twi_rxBuffer d) (twi_rxBufferIndex d) 0xFF)
                (a ++ set_off (twi_inRepStart d) (slarw_of TW_WRITE address)) l).
Proof.
  intros Hb Hn Hd. destruct d as [st sl sp rp mb mi mn tb ti tn rb ri er]. cbn in Hb, Hn. cbn [twi_inRepStart].
  replace (7 + length data + start_points rp)%nat with (5 + (length data + (2 + start_points rp)))%nat by lia.
  rewrite !repeat_app, <- !app_assoc. cbn [repeat app]. unfold begin_write.
  do 5 (rewrite (bind_ok _ _ _ _ _ (vput_none _ _ _ _))). cbn [drv acts events set_state set_stop set_error set_master].
  assert (is_u8 (Z.of_nat (length data))) as Hu by (unfold is_u8; lia).
  erewrite (bind_ok (copy_master data 0));
    [| apply (copy_master_ok data 0 mb 0 (Z.of_nat (length data)));
       [done | done | exact (u8_id _ Hu) | done | exact Hu | lia | rewrite Hb; lia]].
  unfold set_master. cbn [twi_state twi_slarw twi_sendStop twi_inRepStart twi_txBuffer twi_txBufferIndex
    twi_txBufferLength twi_rxBuffer twi_rxBufferIndex twi_error]. rewrite (u8_id (Z.of_nat (length data))) by done.
  set (d1 := mkTwi TWI_MTX (slarw_of TW_WRITE address) stop rp (take (Z.to_nat 0) mb ++ data ++ drop (Z.to_nat 0 + length data) mb)
    (u8 0) (Z.of_nat (length data)) tb ti tn rb ri 255).
  etransitivity; [| exact (start_ok d1 a l)]. reflexivity.
Qed.

Lemma begin_read_ok address n stop d a l : 1 <= n <= 32 ->
  begin_read address n stop (mkT d a (repeat None (7 + start_points (twi_inRepStart d)) ++ l)) =
    TOk tt (mkT (mkTwi TWI_MRX (slarw_of TW_READ address) stop false
                   (twi_masterBuffer d) 0 (n - 1)
                   (twi_txBuffer d) (twi_txBufferIndex d) (twi_txBufferLength d)
                   (twi_rxBuffer d) (twi_rxBufferIndex d) 0xFF)
                (a ++ set_off (twi_inRepStart d) (slarw_of TW_READ address)) l).
Proof.
  intros Hn. destruct d as [st sl sp rp mb mi mn tb ti tn rb ri er].
  assert (u8 (n - 1) = n - 1) as E by (apply u8_id; unfold is_u8; lia). cbn [twi_inRepStart].
  rewrite repeat_app, <- app_assoc.
  set (d1 := mkTwi TWI_MRX (slarw_of TW_READ address) stop rp mb 0 (u8 (n - 1)) tb ti tn rb ri 0xFF).
  transitivity (start_transaction (mkT d1 a (repeat None (start_points rp) ++ l))); [reflexivity |].
  etransitivity; [exact (start_ok d1 a l) |]. unfold d1, set_stop. cbn. by rewrite E.
Qed.

(** ** Waiting for the handler *)

(** The interrupts [evs] are handled while the foreground waits for [cond] to fail, which
    it does with the last one. *)
Inductive serves (cond : Z -> bool) : list (Z * Z) -> twi -> list act -> twi -> list act -> Prop :=
  | sv_last st dat d a d' a' : cond (twi_state d) = true ->
      (forall l, TWI_vect st dat (mkT d a l) = TOk tt (mkT d' a' l)) -> cond (twi_state d') = false ->
      serves cond [(st, dat)] d a d' a'
  | sv_more st dat evs d a d1 a1 d' a' : cond (twi_state d) = true ->
      (forall l, TWI_vect st dat (mkT d a l) = TOk tt (mkT d1 a1 l)) -> serves cond evs d1 a1 d' a' ->
      serves cond ((st, dat) :: evs) d a d' a'.

Lemma serves_cond cond evs d a d' a' : serves cond evs d a d' a' -> cond (twi_state d) = true.
Proof. by destruct 1. Qed.

(** However many polls there are between the interrupts. *)
Lemma wait_served cond l : forall evs d a d' a' k, serves cond evs d a d' a' -> omap id l = evs -> (length l < k)%nat ->
  exists l', wait_while k cond (mkT d a l) = TOk tt (mkT d' a' l') /\ omap id l' = [].
Proof.
  induction l as [|[[st dat]|] l IH]; intros evs d a d' a' k Hs Hl Hk; (destruct k as [|k]; [simpl in Hk; lia |]); simpl in Hl; subst evs;
    cbn [wait_while].
  - inversion Hs.
  - inversion Hs as [? ? ? ? ? ? Hc Hv Hend | ? ? ? ? ? d1 a1 ? ? Hc Hv Hrest]; subst.
    + exists l. rewrite (bind_ok _ _ _ _ _ (vget_irq twi_state d a l _ dat _ (Hv l))). cbn [drv]. by rewrite Hend.
    + rewrite (bind_ok _ _ _ _ _ (vget_irq twi_state d a l _ dat _ (Hv l))). cbn [drv].
      rewrite (serves_cond _ _ _ _ _ _ Hrest). eapply IH; [exact Hrest | done | simpl in Hk; lia].
  - rewrite (bind_ok _ _ _ _ _ (vget_none _ _ _ _)). rewrite (serves_cond _ _ _ _ _ _ Hs). eapply IH; [exact Hs | done | simpl in Hk; lia].
Qed.

Lemma vget_quiet {A} (f : twi -> A) d a l : omap id l = [] -> exists l', vget f (mkT d a l) = TOk (f d) (mkT d a l') /\ omap id l' = [].
Proof. destruct l as [|[[st dat]|] l]; intros H; [by exists [] | done | by exists l]. Qed.

(** The start condition is on the bus (not an interrupt behind a repeated start). *)
Definition opening_irqs (rep : bool) (dat : Z) : list (Z * Z) := if rep then [] else [(TW_START, dat)].

Lemma start_irq d a l dat :
  TWI_vect TW_START dat (mkT d a l) =
    TOk tt (mkT d (a ++ [AWrite_TWDR (twi_slarw d); AWrite_TWCR CR_ACK]) l).
Proof.
  change (TWI_vect TW_START dat (mkT d a l)) with
    (TOk tt (mkT d ((a ++ [AWrite_TWDR (twi_slarw d)]) ++ [AWrite_TWCR CR_ACK]) l)).
  by rewrite <- app_assoc.
Qed.

Lemma serves_opening cond rep dat evs d a d' a' : cond (twi_state d) = true ->
  serves cond evs d (a ++ opening rep (twi_slarw d)) d' a' ->
  serves cond (opening_irqs rep dat ++ evs) d (a ++ set_off rep (twi_slarw d)) d' a'.
Proof.
  intros Hc Hs. destruct rep; [exact Hs |]. eapply sv_more; [done | intros l; apply start_irq |].
  unfold set_off. rewrite <- app_assoc. exact Hs.
Qed.

(** A transaction ends with stop, or with the start condition of the next one. *)
Definition closing (stop : Z) : act := AWrite_TWCR (if truth stop then CR_STOP else CR_REP_START).
Definition finished (d : twi) : twi :=
  if truth (twi_sendStop d) then set_state TWI_READY d else set_state TWI_READY (set_stop (twi_sendStop d) true d).

Lemma finish_master_ok d a l :
  finish_master (mkT d a l) = TOk tt (mkT (finished d) (a ++ [closing (twi_sendStop d)]) l).
Proof.
  unfold finish_master, finished, closing, bind, get. cbn [drv]. destruct (truth (twi_sendStop d)); [apply twi_stop_ok | done].
Qed.

(** ** Transmitting *)

Definition mt_ack (e : Z * Z) : Prop := e.1 = TW_MT_SLA_ACK \/ e.1 = TW_MT_DATA_ACK.

Lemma vect_mt st dat s : st = TW_MT_SLA_ACK \/ st = TW_MT_DATA_ACK -> TWI_vect st dat s = send_master s.
Proof. by intros [-> | ->]. Qed.

Lemma send_master_more d a l i n :
  twi_masterBufferIndex d = i -> twi_masterBufferLength d = n -> 0 <= i < n -> n <= Z.of_nat (length (twi_masterBuffer d)) ->
  send_master (mkT d a l) =
    TOk tt (mkT (set_master (twi_masterBuffer d) (i + 1) n d)
                (a ++ [AWrite_TWDR (nth (Z.to_nat i) (twi_masterBuffer d) 0); AWrite_TWCR CR_ACK]) l).
Proof.
  intros Hi Hn Hlt Hl. unfold send_master, bind, get. cbn [drv]. rewrite Hi, Hn.
  rewrite (proj2 (Z.ltb_lt i n)) by lia. unfold arr_get. cbn [drv]. rewrite (proj2 (Z.ltb_lt i (Z.of_nat (length (twi_masterBuffer d))))) by lia.
  unfold ret, put, do_act, twi_reply, do_act. cbn [drv acts events]. by rewrite <- app_assoc.
Qed.

Lemma send_master_done d a l : twi_masterBufferLength d <= twi_masterBufferIndex d -> send_master (mkT d a l) = finish_master (mkT d a l).
Proof. intros H. unfold send_master, bind, get. cbn [drv]. by rewrite (proj2 (Z.ltb_ge _ _)). Qed.

(** A transaction in progress: [i] bytes of [n] have been sent or received. *)
Definition at_byte (i n : Z) (b : list Z) (d : twi) : twi :=
  mkTwi (twi_state d) (twi_slarw d) (twi_sendStop d) (twi_inRepStart d) b i n (twi_txBuffer d) (twi_txBufferIndex d)
    (twi_txBufferLength d) (twi_rxBuffer d) (twi_rxBufferIndex d) (twi_error d).

Lemma at_byte_set i n b b' j m d : is_u8 j -> is_u8 m -> set_master b' j m (at_byte i n b d) = at_byte j m b' d.
Proof. intros. unfold set_master, at_byte. cbn. by rewrite !u8_id. Qed.

(** Each acknowledgement makes the handler send the next byte. *)
Lemma serve_acks acks fin b n d d' a' : length b = 32%nat -> n <= 32 -> twi_state d = TWI_MTX -> forall i a,
  Forall mt_ack acks -> 0 <= i -> i + Z.of_nat (length acks) <= n ->
  serves (fun st => TWI_MTX =? st) fin (at_byte (i + Z.of_nat (length acks)) n b d)
    (a ++ concat (map sent (take (length acks) (drop (Z.to_nat i) b)))) d' a' ->
  serves (fun st => TWI_MTX =? st) (acks ++ fin) (at_byte i n b d) a d' a'.
Proof.
  intros Hb Hn Hst. induction acks as [|[st dat] acks IH]; intros i a Ha Hi Hl Hs.
  { cbn [length take map concat] in Hs. by rewrite Z.add_0_r, app_nil_r in Hs. }
  apply Forall_cons in Ha as [Hk Ha]. cbn [length] in Hl.
  eapply (sv_more _ _ _ _ _ _ (at_byte (i + 1) n b d) (a ++ sent (nth (Z.to_nat i) b 0))); [by cbn; rewrite Hst | |].
  { intros l. rewrite vect_mt by done. rewrite (send_master_more _ _ _ i n) by (done || cbn; lia).
    cbn [twi_masterBuffer at_byte]. by rewrite at_byte_set by (unfold is_u8; lia). }
  apply IH; [done | lia | lia |].
  replace (i + 1 + Z.of_nat (length acks)) with (i + Z.of_nat (length ((st, dat) :: acks))) by (cbn [length]; lia).
  cbn [length] in Hs. rewrite (drop_S b (nth (Z.to_nat i) b 0)) in Hs by (apply lookup_nth; lia).
  cbn [take map concat] in Hs. rewrite app_assoc in Hs. by replace (Z.to_nat (i + 1)) with (S (Z.to_nat i)) by lia.
Qed.

(** How a write of which [k] of the [n] bytes have been sent can end: status, code
    returned, last write to the bus, repeated start. *)
Inductive write_ends (stop : Z) (n k : nat) : Z -> Z -> act -> bool -> Prop :=
  | we_ack st : st = TW_MT_SLA_ACK \/ st = TW_MT_DATA_ACK -> k = n -> write_ends stop n k st 0 (closing stop) (negb (truth stop))
  | we_address : write_ends stop n k TW_MT_SLA_NACK 2 (AWrite_TWCR CR_STOP) false
  | we_data : write_ends stop n k TW_MT_DATA_NACK 3 (AWrite_TWCR CR_STOP) false
  | we_lost : write_ends stop n k TW_MT_ARB_LOST 4 (AWrite_TWCR CR_ACK) false
  | we_error : write_ends stop n k TW_BUS_ERROR 4 (AWrite_TWCR CR_STOP) false.

(** A driver between two transactions. *)
Definition ready (d : twi) : Prop :=
  twi_state d = TWI_READY /\ length (twi_masterBuffer d) = 32%nat /\ is_u8 (twi_masterBufferLength d).

(** What [twi_writeTo] makes of [twi_error]. *)
Definition code_of (e : Z) : Z := if e =? 0xFF then 0 else if e =? TW_MT_SLA_NACK then 2 else if e =? TW_MT_DATA_NACK then 3 else 4.

Lemma serve_end stop n k st dat code last rep d a : write_ends stop n k st code last rep ->
  twi_state d = TWI_MTX -> twi_sendStop d = stop -> twi_inRepStart d = false -> twi_error d = 0xFF ->
  twi_masterBufferIndex d = Z.of_nat k -> twi_masterBufferLength d = Z.of_nat n -> length (twi_masterBuffer d) = 32%nat -> (n <= 32)%nat ->
  exists d', serves (fun st => TWI_MTX =? st) [(st, dat)] d a d' (a ++ [last]) /\ ready d' /\ twi_inRepStart d' = rep /\ code_of (twi_error d') = code.
Proof.
  intros He Hst Hsp Hrp Her Hi Hl Hb Hn.
  assert (forall d', (forall l, TWI_vect st dat (mkT d a l) = TOk tt (mkT d' (a ++ [last]) l)) -> twi_state d' = TWI_READY ->
    serves (fun st => TWI_MTX =? st) [(st, dat)] d a d' (a ++ [last])) as Hd.
  { intros d' Hv Hr. apply sv_last; [by rewrite Hst | done | by rewrite Hr]. }
  assert (is_u8 (twi_masterBufferLength d)) as Hu by (rewrite Hl; unfold is_u8; lia).
  destruct He as [st Hk -> | | | |].
  - exists (finished d). assert (twi_state (finished d) = TWI_READY) as Hr by (unfold finished; by destruct (truth _)).
    split; [apply Hd; [| done] |].
    + intros l. rewrite vect_mt, send_master_done by (done || lia). rewrite finish_master_ok. by rewrite Hsp.
    + unfold finished. rewrite Hsp. destruct (truth stop); split_and!; try done; cbn; by rewrite Her.
  - exists (set_state TWI_READY (set_error TW_MT_SLA_NACK d)). split; [apply Hd; [| done] | by split_and!].
    intros l. exact (twi_stop_ok (mkT (set_error TW_MT_SLA_NACK d) a l)).
  - exists (set_state TWI_READY (set_error TW_MT_DATA_NACK d)). split; [apply Hd; [| done] | by split_and!].
    intros l. exact (twi_stop_ok (mkT (set_error TW_MT_DATA_NACK d) a l)).
  - exists (set_state TWI_READY (set_error TW_MT_ARB_LOST d)). split; [apply Hd; [| done] | by split_and!]. done.
  - exists (set_state TWI_READY (set_error TW_BUS_ERROR d)). split; [apply Hd; [| done] | by split_and!].
    intros l. exact (twi_stop_ok (mkT (set_error TW_BUS_ERROR d) a l)).
Qed.

(** ** Receiving *)

(** The replies to [k] bytes: all but the last are acknowledged. *)
Fixpoint replies (k : nat) : list act :=
  match k with
  | O => []
  | S O => [AWrite_TWCR CR_NACK]
  | S k' => AWrite_TWCR CR_ACK :: replies k'
  end.

Lemma store_master_ok v d a l i m :
  twi_masterBufferIndex d = i -> twi_masterBufferLength d = m -> 0 <= i -> i < Z.of_nat (length (twi_masterBuffer d)) ->
  store_master v (mkT d a l) =
    TOk tt (mkT (set_master (<[Z.to_nat i := v]> (twi_masterBuffer d)) (i + 1) m d) a l).
Proof.
  intros Hi Hm H0 Hl. unfold store_master, bind, get, id. cbn [drv]. rewrite Hi. unfold arr_set. cbn [drv].
  rewrite (proj2 (Z.ltb_lt i _)) by lia. unfold ret, put. cbn [drv acts events]. by rewrite Hm.
Qed.

(** The reply while [i] of [n] bytes are stored. *)
Definition reply_at (i n : Z) : act := AWrite_TWCR (if i <? n - 1 then CR_ACK else CR_NACK).
Lemma reply_master_ok d a l i n : twi_masterBufferIndex d = i -> twi_masterBufferLength d = n - 1 ->
  reply_master (mkT d a l) = TOk tt (mkT d (a ++ [reply_at i n]) l).
Proof. intros Hi Hn. unfold reply_master, bind, get, reply_at. cbn [drv]. rewrite Hi, Hn. by destruct (i <? n - 1). Qed.

(** The buffer when the bytes [vs] have been stored from [i] on. *)
Definition filled (i : Z) (vs b : list Z) : list Z := take (Z.to_nat i) b ++ vs ++ drop (Z.to_nat i + length vs) b.
Lemma filled_nil i b : filled i [] b = b.
Proof. unfold filled. cbn [length app]. by rewrite Nat.add_0_r, take_drop. Qed.
Lemma filled_cons i v vs b : 0 <= i -> (Z.to_nat i < length b)%nat -> filled (i + 1) vs (<[Z.to_nat i := v]> b) = filled i (v :: vs) b.
Proof.
  intros H0 Hi. unfold filled. replace (Z.to_nat (i + 1)) with (S (Z.to_nat i)) by lia.
  rewrite drop_insert_lt by lia. rewrite (take_S_r _ _ v) by (by rewrite list_lookup_insert_eq).
  rewrite take_insert_ge, <- app_assoc by lia. cbn [app length]. by rewrite Nat.add_succ_r.
Qed.
Lemma length_filled i vs b : 0 <= i -> (Z.to_nat i + length vs <= length b)%nat -> length (filled i vs b) = length b.
Proof. intros H0 H. unfold filled. rewrite !length_app, length_take, length_drop. lia. Qed.

(** Bytes that are acknowledged. *)
Definition mr_acked (v : Z) : Z * Z := (TW_MR_DATA_ACK, v).

Lemma serve_bytes vs fin n d d' a' : n <= 32 -> twi_state d = TWI_MRX -> forall i a b,
  length b = 32%nat -> 0 <= i -> i + Z.of_nat (length vs) < n ->
  serves (fun st => TWI_MRX =? st) fin (at_byte (i + Z.of_nat (length vs)) (n - 1) (filled i vs b) d)
    (a ++ map (fun k => reply_at (i + Z.of_nat k) n) (seq 1 (length vs))) d' a' ->
  serves (fun st => TWI_MRX =? st) (map mr_acked vs ++ fin) (at_byte i (n - 1) b d) a d' a'.
Proof.
  intros Hn Hst. induction vs as [|v vs IH]; intros i a b Hb Hi Hl Hs.
  { cbn [length seq map] in Hs. by rewrite Z.add_0_r, app_nil_r, filled_nil in Hs. }
  cbn [length] in Hl.
  eapply (sv_more _ _ _ _ _ _ (at_byte (i + 1) (n - 1) (<[Z.to_nat i := v]> b) d) (a ++ [reply_at (i + 1) n])); [by cbn; rewrite Hst | |].
  { intros l. change (TWI_vect TW_MR_DATA_ACK v) with (bind (store_master v) (fun _ => reply_master)).
    rewrite (bind_ok _ _ _ _ _ (store_master_ok v (at_byte i (n - 1) b d) a l i (n - 1) eq_refl eq_refl Hi ltac:(cbn; lia))).
    cbn [twi_masterBuffer at_byte]. rewrite at_byte_set by (unfold is_u8; lia). by apply reply_master_ok. }
  apply IH; [by rewrite length_insert | lia | lia |].
  replace (i + 1 + Z.of_nat (length vs)) with (i + Z.of_nat (length (v :: vs))) by (cbn [length]; lia).
  rewrite filled_cons by lia. rewrite <- app_assoc. cbn [app]. cbn [length seq map] in Hs.
  replace (i + Z.of_nat 1) with (i + 1) in Hs by lia.
  erewrite map_ext; [rewrite <- (map_map S (fun k => reply_at (i + Z.of_nat k) n)), seq_shift; exact Hs |].
  intros k. cbv beta. f_equal. lia.
Qed.

Lemma reply_list n k : (k < n)%nat ->
  map (fun k => reply_at (Z.of_nat k) (Z.of_nat n)) (seq 0 (S k)) = take (S k) (replies n).
Proof.
  enough (forall m i, (i + m = n)%nat -> (k < m)%nat ->
    map (fun k => reply_at (Z.of_nat k) (Z.of_nat n)) (seq i (S k)) = take (S k) (replies m)) as H by (intros; by apply H).
  induction k as [|k IH]; intros m i Hm Hk; (destruct m as [|m]; [lia |]).
  - cbn [seq map]. unfold reply_at. destruct m as [|m]; cbn; destruct (Z.ltb_spec (Z.of_nat i) (Z.of_nat n - 1)); done || lia.
  - destruct m as [|m]; [lia |]. specialize (IH (S m) (S i) ltac:(lia) ltac:(lia)).
    change (seq i (S (S k))) with (i :: seq (S i) (S k)). cbn [map].
    change (take (S (S k)) (replies (S (S m)))) with (AWrite_TWCR CR_ACK :: take (S k) (replies (S m))).
    rewrite <- IH. f_equal. unfold reply_at. by rewrite (proj2 (Z.ltb_lt _ _)) by lia.
Qed.

(** How a read of [n] bytes can end: the interrupts behind the address, the bytes, the
    writes to the bus, repeated start. *)
Inductive read_ends (stop : Z) (n : nat) : list (Z * Z) -> list Z -> list act -> bool -> Prop :=
  | re_all vs v dat : S (length vs) = n ->
      read_ends stop n ((TW_MR_SLA_ACK, dat) :: map mr_acked vs ++ [(TW_MR_DATA_NACK, v)]) (vs ++ [v])
        (replies n ++ [closing stop]) (negb (truth stop))
  | re_address dat : read_ends stop n [(TW_MR_SLA_NACK, dat)] [] [AWrite_TWCR CR_STOP] false
  | re_lost vs dat dat' : (length vs < n)%nat ->
      read_ends stop n ((TW_MR_SLA_ACK, dat) :: map mr_acked vs ++ [(TW_MT_ARB_LOST, dat')]) vs
        (take (S (length vs)) (replies n) ++ [AWrite_TWCR CR_ACK]) false
  | re_error vs dat dat' : (length vs < n)%nat ->
      read_ends stop n ((TW_MR_SLA_ACK, dat) :: map mr_acked vs ++ [(TW_BUS_ERROR, dat')]) vs
        (take (S (length vs)) (replies n) ++ [AWrite_TWCR CR_STOP]) false.

Lemma serve_read n vs fin dat b d a d' last : (1 <= n <= 32)%nat -> (length vs < n)%nat -> length b = 32%nat ->
  twi_state d = TWI_MRX ->
  serves (fun st => TWI_MRX =? st) fin (at_byte (Z.of_nat (length vs)) (Z.of_nat n - 1) (filled 0 vs b) d)
    (a ++ take (S (length vs)) (replies n)) d' ((a ++ take (S (length vs)) (replies n)) ++ [last]) ->
  serves (fun st => TWI_MRX =? st) ((TW_MR_SLA_ACK, dat) :: map mr_acked vs ++ fin) (at_byte 0 (Z.of_nat n - 1) b d) a
    d' (a ++ take (S (length vs)) (replies n) ++ [last]).
Proof.
  intros Hn Hl Hb Hst Hs. rewrite <- reply_list in * by done.
  eapply (sv_more _ _ _ _ _ _ (at_byte 0 (Z.of_nat n - 1) b d) (a ++ [reply_at 0 (Z.of_nat n)])); [by cbn; rewrite Hst | |].
  { intros l. change (TWI_vect TW_MR_SLA_ACK dat) with reply_master. by apply reply_master_ok. }
  apply serve_bytes; [lia | done | done | lia | lia |]. rewrite Z.add_0_l.
  change (seq 0 (S (length vs))) with (0%nat :: seq 1 (length vs)) in Hs. cbn [map] in Hs.
  rewrite <- !app_assoc in Hs. rewrite <- !app_assoc. exact Hs.
Qed.

Lemma serve_read_end stop n evs vs l rep b d a : read_ends stop n evs vs l rep -> (1 <= n <= 32)%nat -> length b = 32%nat ->
  twi_state d = TWI_MRX -> twi_sendStop d = stop -> twi_inRepStart d = false ->
  exists d', serves (fun st => TWI_MRX =? st) evs (at_byte 0 (Z.of_nat n - 1) b d) a d' (a ++ l) /\ ready d' /\
    twi_inRepStart d' = rep /\ twi_masterBufferIndex d' = Z.of_nat (length vs) /\ take (length vs) (twi_masterBuffer d') = vs /\ (length vs <= n)%nat.
Proof.
  intros He Hn Hb Hst Hsp Hrp.
  assert (forall vs, (length vs <= n)%nat -> length (filled 0 vs b) = 32%nat) as Hf by (intros w Hw; rewrite length_filled; cbn; lia).
  assert (forall vs, take (length vs) (filled 0 vs b) = vs) as Ht by (intros w; unfold filled; change (Z.to_nat 0) with 0%nat; rewrite take_0; cbn [app]; apply take_app_length).
  assert (is_u8 (Z.of_nat n - 1)) as Hu by (unfold is_u8; lia).
  destruct He as [vs v dat Hl | dat | vs dat dat' Hl | vs dat dat' Hl].
  - set (d1 := at_byte (Z.of_nat (length vs)) (Z.of_nat n - 1) (filled 0 vs b) d).
    set (d2 := at_byte (Z.of_nat (length vs) + 1) (Z.of_nat n - 1) (filled 0 (vs ++ [v]) b) d).
    assert (filled 0 (vs ++ [v]) b = <[length vs := v]> (filled 0 vs b)) as Ev.
    { unfold filled. change (Z.to_nat 0) with 0%nat. rewrite !take_0, length_app. cbn [length Nat.add app]. rewrite <- app_assoc. cbn [app].
      rewrite insert_app_r_alt, Nat.sub_diag by lia. f_equal. rewrite Nat.add_1_r. rewrite (drop_S b (nth (length vs) b 0) (length vs)) by (apply lookup_nth; lia). done. }
    assert (twi_state (finished d2) = TWI_READY) as Hr by (unfold finished; by destruct (truth _)).
    exists (finished d2). split_and!.
    + rewrite <- (firstn_all2 (n := S (length vs)) (replies n)).
      2: { rewrite <- Hl. clear. induction (S (length vs)) as [|[|k] IH]; [done | done |]. cbn [replies length] in *. lia. }
      apply serve_read; [done | lia | done | done |]. apply sv_last; [by cbn; rewrite Hst | | by rewrite Hr].
      intros l. change (TWI_vect TW_MR_DATA_NACK v) with (bind (store_master v) (fun _ => finish_master)).
      rewrite (bind_ok _ _ _ _ _ (store_master_ok v d1 _ l (Z.of_nat (length vs)) (Z.of_nat n - 1) eq_refl eq_refl ltac:(lia)
        ltac:(cbn [d1 at_byte twi_masterBuffer]; rewrite Hf by lia; lia))).
      cbn [twi_masterBuffer d1 at_byte]. fold d1. unfold d1. rewrite at_byte_set by (unfold is_u8; lia). rewrite Nat2Z.id, <- Ev. fold d2.
      rewrite finish_master_ok. change (twi_sendStop d2) with (twi_sendStop d). by rewrite Hsp.
    + unfold ready. rewrite Hr. split; [done |]. unfold finished. destruct (truth _); cbn; rewrite Hf by (rewrite length_app; simpl; lia); done.
    + unfold finished. change (twi_sendStop d2) with (twi_sendStop d). rewrite Hsp. by destruct (truth stop).
    + unfold finished. rewrite length_app. destruct (truth _); cbn; lia.
    + unfold finished. destruct (truth _); cbn [set_state set_stop twi_masterBuffer d2 at_byte]; apply Ht.
    + rewrite length_app. simpl. lia.
  - exists (set_state TWI_READY (at_byte 0 (Z.of_nat n - 1) b d)). split; [| split_and!; try done; cbn; lia].
    apply sv_last; [by cbn; rewrite Hst | | done]. intros l. exact (twi_stop_ok (mkT (at_byte 0 (Z.of_nat n - 1) b d) a l)).
  - set (d1 := at_byte (Z.of_nat (length vs)) (Z.of_nat n - 1) (filled 0 vs b) d).
    exists (set_state TWI_READY (set_error TW_MT_ARB_LOST d1)). split;
      [| split; [split_and!; [done | apply Hf; lia | done] | split_and!; [done | done | apply Ht | lia]]].
    apply serve_read; [done | lia | done | done |]. apply sv_last; [by cbn; rewrite Hst | done | done].
  - set (d1 := at_byte (Z.of_nat (length vs)) (Z.of_nat n - 1) (filled 0 vs b) d).
    exists (set_state TWI_READY (set_error TW_BUS_ERROR d1)). split;
      [| split; [split_and!; [done | apply Hf; lia | done] | split_and!; [done | done | apply Ht | lia]]].
    apply serve_read; [done | lia | done | done |]. apply sv_last; [by cbn; rewrite Hst | | done].
    intros l. exact (twi_stop_ok (mkT (set_error TW_BUS_ERROR d1) _ l)).
Qed.

(** ** The transactions *)

Lemma wait_ready d a l : twi_state d = TWI_READY ->
  wait_state (fun st => negb (TWI_READY =? st)) (mkT d a (None :: l)) = TOk tt (mkT d a l).
Proof. intros H. unfold wait_state. cbn [length wait_while events]. unfold bind. rewrite vget_none, H. done. Qed.

(** No interrupt comes while a transaction of [n] bytes is set up. *)
Definition set_up_points (n : nat) : nat := (11 + n + 2 * poll_limit)%nat.

Lemma points_split N k (l : list irq_event) : (S k <= N)%nat ->
  exists r, repeat None N ++ l = None :: repeat None k ++ repeat None r ++ l /\ omap id (repeat None r ++ l) = omap id l.
Proof.
  intros H. exists (N - S k)%nat. split.
  - replace N with (S (k + (N - S k))) at 1 by lia. cbn [repeat app]. by rewrite repeat_app, <- app_assoc.
  - induction (N - S k)%nat as [|r IH]; [done | exact IH].
Qed.

Lemma start_points_bound rep : (start_points rep <= 3 + 2 * poll_limit)%nat.
Proof. pose proof address_limit. unfold start_points. destruct rep; lia. Qed.

Lemma error_code d a l : omap id l = [] -> exists s',
  (e <- vget twi_error ;;
   if e =? 0xFF then ret 0 else
   e <- vget twi_error ;;
   if e =? TW_MT_SLA_NACK then ret 2 else
   e <- vget twi_error ;;
   ret (if e =? TW_MT_DATA_NACK then 3 else 4)) (mkT d a l) = TOk (code_of (twi_error d)) s' /\ drv s' = d /\ acts s' = a.
Proof.
  intros H. destruct (vget_quiet twi_error d a l H) as (l1 & E1 & H1). destruct (vget_quiet twi_error d a l1 H1) as (l2 & E2 & H2).
  destruct (vget_quiet twi_error d a l2 H2) as (l3 & E3 & H3). rewrite (bind_ok _ _ _ _ _ E1). unfold code_of.
  destruct (_ =? 0xFF); [by eexists |]. rewrite (bind_ok _ _ _ _ _ E2). destruct (_ =? TW_MT_SLA_NACK); [by eexists |].
  rewrite (bind_ok _ _ _ _ _ E3). by eexists.
Qed.

Lemma write_run address data acks st dat dat0 code last rep stop N l d a :
  ready d -> (length data <= 32)%nat -> Forall mt_ack acks -> (length acks <= length data)%nat ->
  write_ends stop (length data) (length acks) st code last rep -> (set_up_points (length data) <= N)%nat ->
  omap id l = opening_irqs (twi_inRepStart d) dat0 ++ acks ++ [(st, dat)] ->
  exists s', twi_writeTo address data true stop (mkT d a (repeat None N ++ l)) = TOk code s' /\
    acts s' = a ++ opening (twi_inRepStart d) (slarw_of TW_WRITE address)
                ++ concat (map sent (take (length acks) data)) ++ [last] /\
    ready (drv s') /\ twi_inRepStart (drv s') = rep.
Proof.
  intros (Hst & Hb & Hu) Hd Ha Hk He HN Hl. unfold twi_writeTo. pose proof (start_points_bound (twi_inRepStart d)). unfold set_up_points in HN.
  rewrite (proj2 (Z.ltb_ge _ _)) by (unfold TWI_BUFFER_LENGTH; lia).
  destruct (points_split N (7 + length data + start_points (twi_inRepStart d)) l ltac:(lia)) as (r & -> & Er).
  rewrite (bind_ok _ _ _ _ _ (wait_ready d a _ Hst)). rewrite (bind_ok _ _ _ _ _ (begin_write_ok address data stop d a _ Hb Hu Hd)).
  set (d1 := mkTwi TWI_MTX (slarw_of TW_WRITE address) stop false (data ++ drop (length data) (twi_masterBuffer d)) 0 _ _ _ _ _ _ 0xFF).
  set (b := data ++ drop (length data) (twi_masterBuffer d)) in d1.
  assert (length b = 32%nat) as Hlb by (unfold b; rewrite length_app, length_drop; lia).
  set (a1 := a ++ opening (twi_inRepStart d) (slarw_of TW_WRITE address)).
  set (a2 := a1 ++ concat (map sent (take (length acks) data))).
  destruct (serve_end stop (length data) (length acks) st dat code last rep (at_byte (Z.of_nat (length acks)) (Z.of_nat (length data)) b d1) a2 He)
    as (d' & Hs & Hr' & Hrep & Hc); try done.
  assert (serves (fun st => TWI_MTX =? st) (acks ++ [(st, dat)]) (at_byte 0 (Z.of_nat (length data)) b d1) a1 d' (a2 ++ [last])) as Hs1.
  { apply serve_acks; [done | lia | done | done | lia | lia |]. change (Z.to_nat 0) with 0%nat. rewrite drop_0, Z.add_0_l.
    replace (take (length acks) b) with (take (length acks) data) by (unfold b; by rewrite take_app_le). exact Hs. }
  destruct (wait_served _ _ _ _ _ _ _ (S (length (repeat None r ++ l))) (serves_opening _ _ dat0 _ d1 a _ _ eq_refl Hs1)
    ltac:(rewrite Er; exact Hl) (Nat.lt_succ_diag_r _)) as (l' & Hw & Hq).
  cbv iota. rewrite (bind_ok (wait_state _) _ _ _ _ Hw). destruct (error_code d' (a2 ++ [last]) l' Hq) as (s' & Ec & Ed & Ea).
  exists s'. rewrite Ec, Hc, Ed, Ea. split; [done |]. split; [unfold a2, a1; by rewrite <- !app_assoc | done].
Qed.

Lemma read_run address n evs vs last rep dat0 stop N l d a :
  ready d -> (1 <= n <= 32)%nat -> read_ends stop n evs vs last rep -> (set_up_points 0 <= N)%nat ->
  omap id l = opening_irqs (twi_inRepStart d) dat0 ++ evs ->
  exists s', twi_readFrom address (Z.of_nat n) stop (mkT d a (repeat None N ++ l)) = TOk (Z.of_nat (length vs), vs) s' /\
    acts s' = a ++ opening (twi_inRepStart d) (slarw_of TW_READ address) ++ last /\ ready (drv s') /\ twi_inRepStart (drv s') = rep.
Proof.
  intros (Hst & Hb & Hu) Hn He HN Hl. unfold twi_readFrom. pose proof (start_points_bound (twi_inRepStart d)). unfold set_up_points in HN.
  rewrite (proj2 (Z.ltb_ge _ _)) by (unfold TWI_BUFFER_LENGTH; lia).
  destruct (points_split N (7 + start_points (twi_inRepStart d)) l ltac:(lia)) as (r & -> & Er).
  rewrite (bind_ok _ _ _ _ _ (wait_ready d a _ Hst)).
  rewrite (bind_ok _ _ _ _ _ (begin_read_ok address (Z.of_nat n) stop d a _ ltac:(lia))).
  set (d1 := mkTwi TWI_MRX (slarw_of TW_READ address) stop false (twi_masterBuffer d) 0 _ _ _ _ _ _ 0xFF).
  set (a1 := a ++ opening (twi_inRepStart d) (slarw_of TW_READ address)).
  destruct (serve_read_end stop n evs vs last rep (twi_masterBuffer d) d1 a1 He Hn Hb eq_refl eq_refl eq_refl)
    as (d' & Hs & Hr' & Hrep & Hi & Ht & Hle).
  destruct (wait_served _ _ _ _ _ _ _ (S (length (repeat None r ++ l))) (serves_opening _ _ dat0 _ d1 a _ _ eq_refl Hs)
    ltac:(rewrite Er; exact Hl) (Nat.lt_succ_diag_r _)) as (l' & Hw & Hq).
  rewrite (bind_ok (wait_state _) _ _ _ _ Hw). destruct (vget_quiet twi_masterBufferIndex d' (a1 ++ last) l' Hq) as (l1 & E1 & H1).
  rewrite (bind_ok _ _ _ _ _ E1), Hi.
  assert (exists l2, (if Z.of_nat (length vs) <? Z.of_nat n then vget twi_masterBufferIndex else ret (Z.of_nat n)) (mkT d' (a1 ++ last) l1) =
    TOk (Z.of_nat (length vs)) (mkT d' (a1 ++ last) l2) /\ omap id l2 = []) as (l2 & E2 & H2).
  { destruct (Z.ltb_spec (Z.of_nat (length vs)) (Z.of_nat n)).
    - rewrite <- Hi. by apply vget_quiet.
    - exists l1. replace (length vs) with n by lia. done. }
  rewrite (bind_ok _ _ _ _ _ E2). destruct (vget_quiet twi_masterBuffer d' (a1 ++ last) l2 H2) as (l3 & E3 & H3).
  rewrite (bind_ok _ _ _ _ _ E3). eexists. unfold ret. rewrite Nat2Z.id, Ht. split; [done |]. cbn [acts drv].
  split; [unfold a1; by rewrite <- app_assoc | done].
Qed.

(** C29: Master transactions do what they promise, however they end.  From a driver
    between two transactions, also one that holds the bus for a repeated start, with no
    interrupt during the set-up and any number of polls between the interrupts of the bus:
    a write that waits puts the start condition (unless it is there already), the write address
    and the bytes in order on the bus, as long as they are acknowledged, and returns 0
    when all of them are, 2 when the address is refused, 3 when a byte is refused, 4
    when the arbitration is lost or the bus fails; more than 32 bytes are refused with 1 and nothing
    happens.  A read of 1 to 32 bytes acknowledges all bytes but the last and returns exactly the
    bytes that the slave sent, none from an absent slave.  The transaction ends with stop, or
    with a repeated start when that was asked for and everything went well (and without either when the
    arbitration is lost), and leaves the driver ready for the next one. *)
Theorem twi_master_transactions address stop d a :
  ready d ->
  (forall data acks st dat dat0 code last rep N l,
    (length data <= 32)%nat -> Forall mt_ack acks -> (length acks <= length data)%nat ->
    write_ends stop (length data) (length acks) st code last rep -> (set_up_points (length data) <= N)%nat ->
    omap id l = opening_irqs (twi_inRepStart d) dat0 ++ acks ++ [(st, dat)] ->
    exists s', twi_writeTo address data true stop (mkT d a (repeat None N ++ l)) = TOk code s' /\
      acts s' = a ++ opening (twi_inRepStart d) (slarw_of TW_WRITE address)
                  ++ concat (map sent (take (length acks) data)) ++ [last] /\
      ready (drv s') /\ twi_inRepStart (drv s') = rep) /\
  (forall data wait l, (32 < length data)%nat -> twi_writeTo address data wait stop (mkT d a l) = TOk 1 (mkT d a l)) /\
  (forall n evs vs last rep dat0 N l,
    (1 <= n <= 32)%nat -> read_ends stop n evs vs last rep -> (set_up_points 0 <= N)%nat ->
    omap id l = opening_irqs (twi_inRepStart d) dat0 ++ evs ->
    exists s', twi_readFrom address (Z.of_nat n) stop (mkT d a (repeat None N ++ l)) = TOk (Z.of_nat (length vs), vs) s' /\
      acts s' = a ++ opening (twi_inRepStart d) (slarw_of TW_READ address) ++ last /\
      ready (drv s') /\ twi_inRepStart (drv s') = rep).
Proof.
  intros Hr. split; [| split]; intros.
  - by eapply write_run.
  - unfold twi_writeTo. by rewrite (proj2 (Z.ltb_lt _ _)) by (unfold TWI_BUFFER_LENGTH; lia).
  - by eapply read_run.
Qed.

(** A read of zero bytes overruns the master buffer.  The expected length
    is stored as [length - 1] in an unsigned byte, so that the driver
    acknowledges every byte; a slave that keeps sending makes the handler store
    its 33rd byte outside of the buffer. *)
Theorem read_zero_overruns address :
  let evs := repeat None 10 ++ Some (TW_START, 0) :: Some (TW_MR_SLA_ACK, 0)
               :: repeat (Some (TW_MR_DATA_ACK, 1)) 33 in
  exists s', twi_readFrom address 0 1 (mkT twi_statics [] evs) = TFault s' /\
    twi_masterBufferIndex (drv s') = 32 /\
    acts s' = AWrite_TWCR CR_START :: sent (u8 (Z.lor (u8 TW_READ) (Z.shiftl address 1)))
                ++ repeat (AWrite_TWCR CR_ACK) 33.
Proof. eexists. split; [vm_compute; reflexivity |]. split; vm_compute; reflexivity. Qed.
End Master.
