(* ===== verification/TwiSafety.v ===== *)
(** * Safety of the two-wire driver's buffers

    The bus as a transition system: transactions are started by the foreground,
    interrupts are raised by the hardware.  The hardware may raise anything that
    is consistent with what it was told: it reports a received or sent byte as
    acknowledged exactly if the last write to TWCR had the acknowledge bit set,
    it reports an acknowledged read only after an address with the read bit, and
    a start condition only when one was requested. *)

From S2P Require Import Prelude Twi TwiProps.

(** What the callbacks of the sketch may do: the receive callback does not touch
    the driver, the transmit callback fills the transmit buffer. *)
Class TwiCallbacksOk `{TwiEnv} := {
  receive_callback b i s : twi_onSlaveReceive b i s = TOk tt s;
  transmit_callback d a l :
    length (twi_txBuffer d) = 32%nat -> twi_txBufferLength d = 0 -> twi_state d = TWI_STX ->
    exists b n, twi_onSlaveTransmit (mkT d a l) = TOk tt (mkT (set_tx b (twi_txBufferIndex d) n d) a l) /\
      length b = 32%nat /\ 0 <= n <= 32
}.

(** Driver, status of the last interrupt (-1: a transaction was just started)
    and acknowledge bit of the last write to TWCR. *)
Record bus := mkBus { b_drv : twi; b_prev : Z; b_ack : bool }.

Definition ack_after (l : list act) (old : bool) : bool :=
  fold_left (fun k a => match a with AWrite_TWCR v => bit_set v TWEA | _ => k end) l old.

Definition receiving (prev : Z) : bool := one_of prev [TW_MR_SLA_ACK; TW_MR_DATA_ACK].
Definition transmitting (prev : Z) : bool :=
  one_of prev [TW_ST_SLA_ACK; TW_ST_ARB_LOST_SLA_ACK; TW_ST_DATA_ACK].
Definition started (prev : Z) : bool := one_of prev [-1; TW_START; TW_REP_START].

Definition allowed (y : bus) (status : Z) : bool :=
  if status <? 0 then false
  else if one_of status [TW_START; TW_REP_START] then b_prev y =? -1
  else if status =? TW_MR_SLA_ACK then started (b_prev y) && Z.odd (twi_slarw (b_drv y))
  else if status =? TW_MR_DATA_ACK then receiving (b_prev y) && b_ack y
  else if status =? TW_MR_DATA_NACK then receiving (b_prev y) && negb (b_ack y)
  else if status =? TW_ST_DATA_ACK then transmitting (b_prev y) && b_ack y
  else true.

Section Safety.
Context {Env : TwiEnv} {Ok : TwiEnvOk} {Cb : TwiCallbacksOk}.

Inductive bus_step : bus -> bus -> Prop :=
  | bus_irq y status data s' :
      allowed y status = true -> TWI_vect status data (mkT (b_drv y) [] []) = TOk tt s' ->
      bus_step y (mkBus (drv s') status (ack_after (acts s') (b_ack y)))
  | bus_read y address n stop s' :
      twi_state (b_drv y) = TWI_READY -> 1 <= n <= 32 ->
      begin_read address n stop (mkT (b_drv y) [] []) = TOk tt s' ->
      bus_step y (mkBus (drv s') (-1) (ack_after (acts s') (b_ack y)))
  | bus_write y address data stop s' :
      twi_state (b_drv y) = TWI_READY -> (length data <= 32)%nat ->
      begin_write address data stop (mkT (b_drv y) [] []) = TOk tt s' ->
      bus_step y (mkBus (drv s') (-1) (ack_after (acts s') (b_ack y))).

(** ** The invariant *)

(** Sizes and indices of the buffers. *)
Record sizes (d : twi) : Prop := mkSizes {
  sz_master : length (twi_masterBuffer d) = 32%nat;
  sz_tx : length (twi_txBuffer d) = 32%nat;
  sz_rx : length (twi_rxBuffer d) = 32%nat;
  sz_mi : 0 <= twi_masterBufferIndex d <= 32;
  sz_mn : 0 <= twi_masterBufferLength d <= 32;
  sz_ti : 0 <= twi_txBufferIndex d <= 32;
  sz_tn : 0 <= twi_txBufferLength d <= 32;
  sz_ri : 0 <= twi_rxBufferIndex d <= 32;
  sz_read : Z.odd (twi_slarw d) = true -> twi_masterBufferLength d <= 31
}.

Record bus_inv (y : bus) : Prop := mkBusInv {
  bi_sizes : sizes (b_drv y);
  bi_started : started (b_prev y) = true -> twi_masterBufferIndex (b_drv y) = 0;
  bi_receiving : receiving (b_prev y) = true ->
    twi_masterBufferIndex (b_drv y) <= twi_masterBufferLength (b_drv y) <= 31 /\
    b_ack y = (twi_masterBufferIndex (b_drv y) <? twi_masterBufferLength (b_drv y));
  bi_transmitting : transmitting (b_prev y) = true ->
    b_ack y = (twi_txBufferIndex (b_drv y) <? twi_txBufferLength (b_drv y))
}.

(** The invariant after an interrupt that starts nothing. *)
Lemma inv_plain d st k :
  sizes d -> started st = false -> receiving st = false -> transmitting st = false ->
  bus_inv (mkBus d st k).
Proof. intros H H1 H2 H3. constructor; cbn [b_drv b_prev b_ack]; congruence || done. Qed.

Lemma sizes_state v d : sizes d -> sizes (set_state v d).
Proof. by intros []. Qed.
Lemma sizes_error v d : sizes d -> sizes (set_error v d).
Proof. by intros []. Qed.
Lemma sizes_stop v r d : sizes d -> sizes (set_stop v r d).
Proof. by intros []. Qed.
Lemma sizes_rx b i d : sizes d -> length b = 32%nat -> 0 <= i <= 32 -> sizes (set_rx b i d).
Proof. intros [] Hb Hi. split; cbn; try done. rewrite u8_id; unfold is_u8; lia. Qed.
Lemma sizes_tx b i n d : sizes d -> length b = 32%nat -> 0 <= i <= 32 -> 0 <= n <= 32 -> sizes (set_tx b i n d).
Proof. intros [] Hb Hi Hn. split; cbn; try done; rewrite u8_id; unfold is_u8; lia. Qed.
Lemma sizes_master b i d : sizes d -> length b = 32%nat -> 0 <= i <= 32 ->
  sizes (set_master b i (twi_masterBufferLength d) d).
Proof.
  intros [] Hb Hi. split; cbn; try done; rewrite u8_id; try (unfold is_u8; lia); done.
Qed.

(** ** The branches of the handler *)

(** A run that returns without a fault, in a state whose driver and
    acknowledge bit satisfy [P]. *)
Definition runs (m : T unit) (d : twi) (k : bool) (P : twi -> bool -> Prop) : Prop :=
  exists s', m (mkT d [] []) = TOk tt s' /\ P (drv s') (ack_after (acts s') k).

Lemma finish_runs d k : sizes d -> runs finish_master d k (fun d' _ => sizes d').
Proof.
  intros H. unfold runs, finish_master, bind, get. cbn [drv]. destruct (truth _).
  - rewrite twi_stop_ok. eexists. split; [done |]. by apply sizes_state.
  - eexists. split; [done |]. by apply sizes_state, sizes_stop.
Qed.

Lemma stop_runs d k : sizes d -> runs twi_stop d k (fun d' _ => sizes d').
Proof. intros H. unfold runs. rewrite twi_stop_ok. eexists. split; [done |]. by apply sizes_state. Qed.

Lemma send_runs d k : sizes d -> runs send_master d k (fun d' _ => sizes d').
Proof.
  intros H. destruct (twi_masterBufferIndex d <? twi_masterBufferLength d) eqn:E.
  - unfold runs. rewrite (send_master_more d [] [] _ _ eq_refl eq_refl) by (destruct H; lia).
    eexists. split; [done |]. destruct H. apply sizes_master; [done | done | lia].
  - destruct (finish_runs d k H) as (s' & Hr & Hs). exists s'. split; [| done].
    unfold send_master, bind, get. cbn [drv]. by rewrite E.
Qed.

Lemma store_runs v d : sizes d -> twi_masterBufferIndex d < 32 ->
  store_master v (mkT d [] []) =
    TOk tt (mkT (set_master (<[Z.to_nat (twi_masterBufferIndex d) := v]> (twi_masterBuffer d))
                   (twi_masterBufferIndex d + 1) (twi_masterBufferLength d) d) [] []) /\
  sizes (set_master (<[Z.to_nat (twi_masterBufferIndex d) := v]> (twi_masterBuffer d))
           (twi_masterBufferIndex d + 1) (twi_masterBufferLength d) d).
Proof.
  intros H Hi. split; [apply store_master_ok; destruct H; lia |].
  destruct H. apply sizes_master; [done | by rewrite length_insert | lia].
Qed.

Lemma reply_runs d k :
  runs reply_master d k
    (fun d' k' => d' = d /\ k' = (twi_masterBufferIndex d <? twi_masterBufferLength d)).
Proof. unfold runs, reply_master, bind, get, twi_reply. cbn [drv]. destruct (_ <? _); by eexists. Qed.

Lemma receive_slave_runs v d k : sizes d -> runs (receive_slave v) d k (fun d' _ => sizes d').
Proof.
  intros H. unfold runs, receive_slave, bind, get. cbn [drv].
  destruct (_ <? TWI_BUFFER_LENGTH) eqn:E; [| by eexists].
  unfold arr_set. cbn [drv]. pose proof H as [? ? Hrx ? ? ? ? Hri ?]. rewrite Hrx. change (Z.of_nat 32) with TWI_BUFFER_LENGTH. rewrite E.
  eexists. split; [done |]. apply sizes_rx; [done | by rewrite length_insert | unfold TWI_BUFFER_LENGTH in E; lia].
Qed.

Lemma stop_slave_runs d k : sizes d -> runs stop_slave d k (fun d' _ => sizes d').
Proof.
  intros H. unfold runs, stop_slave, bind, get. cbn [drv].
  change (twi_releaseBus (mkT d [] [])) with (TOk tt (mkT (set_state TWI_READY d) [AWrite_TWCR CR_ACK] [])).
  cbn [drv set_state twi_rxBuffer twi_rxBufferIndex].
  pose proof (sizes_state TWI_READY d H) as H1. pose proof H as [? ? Hrx ? ? ? ? Hri ?].
  destruct (_ <? TWI_BUFFER_LENGTH) eqn:E.
  - unfold arr_set. rewrite Hrx. change (Z.of_nat 32) with TWI_BUFFER_LENGTH. rewrite E. unfold ret, put. cbn [drv acts events]. rewrite receive_callback.
    eexists. split; [done |]. cbn [drv set_rx twi_rxBuffer]. apply sizes_rx; [| by rewrite length_insert | lia].
    apply sizes_rx; [done | by rewrite length_insert | lia].
  - unfold ret. rewrite receive_callback. eexists. split; [done |]. cbn [drv].
    apply sizes_rx; [done | done | lia].
Qed.

Lemma transmit_slave_runs d k : sizes d -> twi_txBufferIndex d < 32 ->
  runs transmit_slave d k (fun d' k' => sizes d' /\ k' = (twi_txBufferIndex d' <? twi_txBufferLength d')).
Proof.
  intros H Hi. unfold runs, transmit_slave, bind, get, id. cbn [drv]. unfold arr_get. cbn [drv].
  pose proof H as [? Htx ? ? ? Hti Htn ? ?]. rewrite Htx. rewrite (proj2 (Z.ltb_lt _ _)) by lia.
  unfold ret, put, do_act. cbn [drv acts events]. unfold twi_reply, do_act.
  assert (sizes (set_tx (twi_txBuffer d) (twi_txBufferIndex d + 1) (twi_txBufferLength d) d)) as Hs
    by (apply sizes_tx; done || lia).
  destruct (_ <? _) eqn:E; eexists; (split; [done |]); cbn [drv acts]; (split; [done |]); by rewrite E.
Qed.

Lemma start_transmit_runs d : sizes d ->
  exists d', start_slave_transmit (mkT d [] []) = TOk tt (mkT d' [] []) /\ sizes d' /\ twi_txBufferIndex d' = 0.
Proof.
  intros H. unfold start_slave_transmit, bind, put, get. cbn [drv acts events].
  set (d1 := set_tx (twi_txBuffer (set_state TWI_STX d)) 0 0 (set_state TWI_STX d)).
  assert (sizes d1) as H1 by (apply sizes_tx; [by apply sizes_state | apply H | lia | lia]).
  destruct (transmit_callback d1 [] []) as (b & n & -> & Hb & Hn); [apply H | done | done |].
  cbn [drv]. assert (u8 n = n) as Eu by (apply u8_id; unfold is_u8; lia).
  assert (sizes (set_tx b 0 n d1)) as H2 by (apply sizes_tx; done || lia).
  unfold id. change (twi_txBufferLength (set_tx b (twi_txBufferIndex d1) n d1)) with (u8 n). rewrite Eu.
  change (twi_txBufferIndex d1) with 0.
  destruct (n =? 0) eqn:E; [| by eexists].
  unfold arr_set. change (twi_txBuffer (set_tx b 0 n d1)) with b. rewrite Hb. cbn [drv].
  eexists. split; [done |]. split; [| done]. apply sizes_tx; [done | by rewrite length_insert | done | lia].
Qed.

(** ** Preservation *)

Lemma runs_then m d k P y : runs m d k P -> (forall d' k', P d' k' -> bus_inv (mkBus d' y k')) ->
  exists s', m (mkT d [] []) = TOk tt s' /\ bus_inv (mkBus (drv s') y (ack_after (acts s') k)).
Proof. intros (s' & Hm & HP) H. exists s'. split; [done |]. by apply H. Qed.

(** The interrupts of a master receiver. *)
Lemma master_receive_ok y status data :
  bus_inv y -> allowed y status = true -> In status [TW_MR_SLA_ACK; TW_MR_DATA_ACK; TW_MR_DATA_NACK] ->
  exists s', TWI_vect status data (mkT (b_drv y) [] []) = TOk tt s' /\
    bus_inv (mkBus (drv s') status (ack_after (acts s') (b_ack y))).
Proof.
  destruct y as [d p k]. intros [Hs Hst Hr _] Ha Hin. cbn [b_drv b_prev b_ack] in *.
  destruct Hin as [<- | [<- | [<- | []]]].
  - apply andb_true_iff in Ha as [Hp Ho]. cbn [b_prev b_drv] in *.
    apply (runs_then reply_master _ _ _ _ (reply_runs d k)). intros d' k' [-> ->].
    constructor; cbn [b_drv b_prev b_ack]; [done | done | | done]. intros _.
    rewrite Hst by done. pose proof (sz_read d Hs Ho). destruct Hs. split; [lia | done].
  - apply andb_true_iff in Ha as [Hp Hk]. cbn [b_prev b_ack] in *. destruct (Hr Hp) as [Hle Hka].
    rewrite Hk in Hka. symmetry in Hka. apply Z.ltb_lt in Hka.
    destruct (store_runs data d Hs) as [Hrun Hs']; [lia |]. set (d1 := set_master _ _ _ d) in *.
    change (TWI_vect TW_MR_DATA_ACK data) with (bind (store_master data) (fun _ => reply_master)).
    rewrite (bind_ok _ _ _ _ _ Hrun).
    apply (runs_then reply_master _ _ _ _ (reply_runs d1 k)). intros d' k' [-> ->].
    constructor; cbn [b_drv b_prev b_ack]; [done | done | | done]. intros _. split; [| done].
    cbn [d1 set_master twi_masterBufferIndex twi_masterBufferLength]. destruct Hs.
    rewrite !u8_id by (unfold is_u8; lia). lia.
  - apply andb_true_iff in Ha as [Hp Hk]. cbn [b_prev] in *. destruct (Hr Hp) as [Hle _].
    destruct (store_runs data d Hs) as [Hrun Hs']; [lia |].
    change (TWI_vect TW_MR_DATA_NACK data) with (bind (store_master data) (fun _ => finish_master)).
    rewrite (bind_ok _ _ _ _ _ Hrun).
    apply (runs_then finish_master _ _ _ _ (finish_runs _ k Hs')). intros d' k' H. by apply inv_plain.
Qed.

(** The interrupts of a slave transmitter. *)
Lemma slave_transmit_ok y status data :
  bus_inv y -> allowed y status = true -> transmitting status = true ->
  exists s', TWI_vect status data (mkT (b_drv y) [] []) = TOk tt s' /\
    bus_inv (mkBus (drv s') status (ack_after (acts s') (b_ack y))).
Proof.
  destruct y as [d p k]. intros [Hs Hst _ Ht] Ha Hin. cbn [b_drv b_prev b_ack] in *.
  assert (forall d, sizes d -> twi_txBufferIndex d < 32 ->
    exists s', transmit_slave (mkT d [] []) = TOk tt s' /\
      bus_inv (mkBus (drv s') status (ack_after (acts s') k))) as Htx.
  { intros d0 H0 Hi. apply (runs_then transmit_slave _ _ _ _ (transmit_slave_runs d0 k H0 Hi)).
    intros d' k' [Hs' ->]. constructor; cbn [b_drv b_prev b_ack]; try done;
      unfold transmitting, one_of in Hin; cbn in Hin; intros Hx;
      (destruct (status =? TW_ST_SLA_ACK) eqn:E1; [apply Z.eqb_eq in E1; by subst |]);
      (destruct (status =? TW_ST_ARB_LOST_SLA_ACK) eqn:E2; [apply Z.eqb_eq in E2; by subst |]);
      (destruct (status =? TW_ST_DATA_ACK) eqn:E3; [apply Z.eqb_eq in E3; by subst | done]). }
  unfold transmitting, one_of in Hin. cbn [existsb] in Hin. rewrite !orb_true_iff, !Z.eqb_eq in Hin.
  destruct (start_transmit_runs d Hs) as (d1 & Hrun & Hs1 & Hi1).
  destruct Hin as [-> | [-> | [-> | ]]]; [| | | done].
  - change (TWI_vect TW_ST_SLA_ACK data) with (bind start_slave_transmit (fun _ => transmit_slave)).
    rewrite (bind_ok _ _ _ _ _ Hrun). apply Htx; [done | lia].
  - change (TWI_vect TW_ST_ARB_LOST_SLA_ACK data) with (bind start_slave_transmit (fun _ => transmit_slave)).
    rewrite (bind_ok _ _ _ _ _ Hrun). apply Htx; [done | lia].
  - apply andb_true_iff in Ha as [Hp Hk]. cbn [b_prev b_ack] in *. rewrite (Ht Hp) in Hk.
    apply Z.ltb_lt in Hk. apply Htx; [done | destruct Hs; lia].
Qed.

(** The interrupts that are always possible. *)
Lemma other_irqs status data d k :
  sizes d -> one_of status [TW_START; TW_REP_START] = false ->
  one_of status [TW_MR_SLA_ACK; TW_MR_DATA_ACK; TW_MR_DATA_NACK] = false -> transmitting status = false ->
  runs (TWI_vect status data) d k (fun d' _ => sizes d').
Proof.
  intros Hs H1 H2 H3. unfold TWI_vect. rewrite H1. unfold transmitting in H3.
  unfold one_of in H2, H3. cbn [existsb] in H2, H3. rewrite !orb_false_iff in H2, H3.
  destruct H2 as (E1 & E2 & E3 & _), H3 as (E4 & E5 & E6 & _).
  rewrite E1, E2, E3, E6.
  replace (one_of status [TW_ST_SLA_ACK; TW_ST_ARB_LOST_SLA_ACK]) with false
    by (unfold one_of; cbn [existsb]; by rewrite E4, E5).
  repeat match goal with
  | |- runs (if ?b then _ else _) _ _ _ => destruct b
  end;
  first
    [ by apply send_runs | by apply receive_slave_runs | by apply stop_slave_runs
    | by apply stop_runs
    | apply (stop_runs _ k); by apply sizes_error
    | eexists; split; [reflexivity |]; cbn [drv];
      first [done | by apply sizes_state | by apply sizes_state, sizes_error
            | apply sizes_rx; [by apply sizes_state | apply Hs | lia]] ].
Qed.

(** Every interrupt the bus may raise is handled and keeps the invariant. *)
Lemma isr_ok y status data :
  bus_inv y -> allowed y status = true ->
  exists s', TWI_vect status data (mkT (b_drv y) [] []) = TOk tt s' /\
    bus_inv (mkBus (drv s') status (ack_after (acts s') (b_ack y))).
Proof.
  intros Hi Ha.
  destruct (decide (In status [TW_MR_SLA_ACK; TW_MR_DATA_ACK; TW_MR_DATA_NACK])) as [Hin|Hmr];
    [by apply master_receive_ok |].
  destruct (transmitting status) eqn:Htr; [by apply slave_transmit_ok |].
  destruct (decide (In status [TW_START; TW_REP_START])) as [Hin|Hns].
  { destruct y as [d p k]. destruct Hi as [Hs Hst _ _]. cbn [b_drv b_prev b_ack] in *.
    assert (p = -1) as ->.
    { unfold allowed in Ha. destruct Hin as [<- | [<- | []]]; cbn [b_prev] in Ha; by apply Z.eqb_eq in Ha. }
    assert (twi_masterBufferIndex d = 0) as H0 by (by apply Hst).
    destruct Hin as [<- | [<- | []]]; (eexists; split; [reflexivity |]; constructor; done). }
  assert (0 <= status) as H0.
  { unfold allowed in Ha. destruct (status <? 0) eqn:E; [done | lia]. }
  assert (started status = false) as Hstart.
  { unfold started, one_of. cbn [existsb In] in *. lia. }
  assert (receiving status = false) as Hrec by (unfold receiving, one_of; cbn [existsb In] in *; lia).
  destruct Hi as [Hs _ _ _]. destruct y as [d p k]. cbn [b_drv b_ack] in *.
  apply (runs_then _ _ _ (fun d' _ => sizes d')); [| intros d' k' H; by apply inv_plain].
  apply other_irqs; [done | | | done]; unfold one_of; cbn [existsb In] in *; lia.
Qed.

(** ** Starting transactions *)

Lemma vput_nil f d a : vput f (mkT d a []) = TOk tt (mkT (f d) a []).
Proof. done. Qed.

Lemma write_address_drv k : forall i d a s',
  write_address k i (mkT d a []) = TOk tt s' -> exists a', s' = mkT d a' [].
Proof.
  induction k as [|k IH]; intros i d a s' H; [done |]. cbn [write_address] in H.
  unfold bind, vget, vact, interruptible, bind, get, do_act in H. cbn [events drv acts] in H.
  destruct (bit_set _ _); [by eapply IH | injection H as <-; by eexists].
Qed.

Lemma start_transaction_drv d a s' :
  start_transaction (mkT d a []) = TOk tt s' -> drv s' = set_stop (twi_sendStop d) false d.
Proof.
  unfold start_transaction. rewrite (bind_ok (vget twi_inRepStart) _ (twi_inRepStart d) _ (mkT d a [])) by done.
  destruct (twi_inRepStart d) eqn:E.
  - rewrite (bind_ok (vput _) _ tt _ (mkT (set_stop (twi_sendStop d) false d) a [])) by done.
    unfold bind. destruct (write_address _ _ _) as [u s1|s1|s1] eqn:Ew; try done. destruct u.
    apply write_address_drv in Ew as [a' ->]. intros H. by injection H as <-.
  - intros H. injection H as <-. cbn [drv]. rewrite <- E. by destruct d.
Qed.

(** The buffer after the copy loop; the rest of the driver is unchanged. *)
Lemma copy_master_drv data : forall i d a s',
  length (twi_masterBuffer d) = 32%nat -> is_u8 (twi_masterBufferIndex d) -> is_u8 (twi_masterBufferLength d) ->
  copy_master data i (mkT d a []) = TOk tt s' ->
  exists b, s' = mkT (set_master b (twi_masterBufferIndex d) (twi_masterBufferLength d) d) a [] /\ length b = 32%nat.
Proof.
  induction data as [|v data IH]; intros i d a s' Hb Hi Hn H.
  { injection H as <-. exists (twi_masterBuffer d). split; [| done].
    unfold set_master. rewrite !u8_id by done. by destruct d. }
  cbn [copy_master] in H. rewrite (bind_ok (vget twi_masterBuffer) _ (twi_masterBuffer d) _ (mkT d a [])) in H by done.
  unfold arr_set in H. destruct (_ <? _); [| done]. unfold bind at 1, ret in H. unfold bind at 1, put in H.
  cbn [drv acts events] in H. apply IH in H.
  - destruct H as (b & -> & Hl). exists b. split; [| done]. unfold set_master. cbn.
    by rewrite !(u8_id (u8 _)), !u8_id by (done || apply u8_range).
  - cbn. by rewrite length_insert.
  - cbn. apply u8_range.
  - cbn. apply u8_range.
Qed.

Lemma target_odd rw address : Z.odd (u8 (Z.lor (u8 rw) (Z.shiftl address 1))) = Z.odd rw.
Proof.
  rewrite <- !Z.bit0_odd. unfold u8. change 256 with (2 ^ 8).
  rewrite Z.mod_pow2_bits_low, Z.lor_spec, Z.mod_pow2_bits_low, Z.shiftl_spec_low by lia. apply orb_false_r.
Qed.

(** Buffers, indices and target address of a fresh transaction. *)
Lemma fresh_inv d st slarw stop b n er k :
  sizes d -> length b = 32%nat -> 0 <= n <= 32 -> (Z.odd slarw = true -> n <= 31) ->
  bus_inv (mkBus (mkTwi st slarw stop false b 0 n (twi_txBuffer d) (twi_txBufferIndex d) (twi_txBufferLength d)
                    (twi_rxBuffer d) (twi_rxBufferIndex d) er) (-1) k).
Proof.
  intros [] Hb Hn Ho. constructor; cbn [b_drv b_prev b_ack]; try done.
Qed.

Lemma begin_read_inv y address n stop s' :
  bus_inv y -> 1 <= n <= 32 -> begin_read address n stop (mkT (b_drv y) [] []) = TOk tt s' ->
  bus_inv (mkBus (drv s') (-1) (ack_after (acts s') (b_ack y))).
Proof.
  intros [Hs _ _ _] Hn H. destruct y as [d p k]. cbn [b_drv b_ack] in *.
  apply start_transaction_drv in H. rewrite H. clear H.
  assert (u8 (n - 1) = n - 1) as Eu by (apply u8_id; unfold is_u8; lia).
  apply (fresh_inv d); [done | apply Hs | | intros _]; cbn -[u8]; rewrite Eu; lia.
Qed.

Lemma begin_write_inv y address data stop s' :
  bus_inv y -> (length data <= 32)%nat -> begin_write address data stop (mkT (b_drv y) [] []) = TOk tt s' ->
  bus_inv (mkBus (drv s') (-1) (ack_after (acts s') (b_ack y))).
Proof.
  intros [Hs _ _ _] Hn H. destruct y as [d p k]. cbn [b_drv b_ack] in *. unfold begin_write in H.
  do 5 (rewrite (bind_ok _ _ _ _ _ (vput_nil _ _ _)) in H).
  match type of H with bind (copy_master _ _) _ (mkT ?x _ _) = _ => set (d1 := x) in H end.
  unfold bind at 1 in H. destruct (copy_master data 0 (mkT d1 [] [])) as [u s1|s1|s1] eqn:Ec; try done. destruct u.
  apply copy_master_drv in Ec as (b & -> & Hb); [| apply Hs | done | apply u8_range].
  apply start_transaction_drv in H. rewrite H. clear H.
  assert (u8 (u8 (Z.of_nat (length data))) = Z.of_nat (length data)) as Eu
    by (rewrite !u8_id; unfold is_u8; lia || (rewrite u8_id; unfold is_u8; lia)).
  apply (fresh_inv d); [done | done | |].
  - cbn. rewrite Eu. lia.
  - cbn -[Z.odd u8 Z.lor Z.shiftl]. rewrite target_odd. done.
Qed.

Lemma bus_reachable y0 y : bus_inv y0 -> rtc bus_step y0 y -> bus_inv y.
Proof.
  intros H0 Hr. induction Hr as [|y1 y2 y3 Hstep Hr IH]; [done |]. apply IH.
  destruct Hstep as [y1 st dat s' Ha Hv|y1 ad n sp s' _ Hn Hv|y1 ad l sp s' _ Hn Hv].
  - destruct (isr_ok y1 st dat H0 Ha) as (s2 & Hv2 & Hi). congruence.
  - by eapply begin_read_inv.
  - by eapply begin_write_inv.
Qed.

Definition start_bus : bus := mkBus (set_stop 1 false twi_statics) (-1) false.

Lemma start_bus_inv : bus_inv start_bus.
Proof. constructor; try done. Qed.

(** C28: The buffers of the driver are never overrun.  Started from its initial
    state, after any sequence of reads of 1 to 32 bytes, of writes of up to 32
    bytes and of interrupts that the bus can raise, as master, slave receiver or
    slave transmitter, with each transaction set up while no interrupt is pending, indices and lengths are within the buffers,
    and every interrupt that can follow is handled without an access outside of
    them. *)
Theorem twi_buffers_safe y :
  rtc bus_step start_bus y ->
  sizes (b_drv y) /\
  forall status data, allowed y status = true ->
    exists s', TWI_vect status data (mkT (b_drv y) [] []) = TOk tt s' /\ sizes (drv s').
Proof.
  intros Hr. pose proof (bus_reachable _ _ start_bus_inv Hr) as Hi. split; [apply Hi |].
  intros st dat Ha. destruct (isr_ok y st dat Hi Ha) as (s' & Hv & Hi'). exists s'. split; [done | apply Hi'].
Qed.
End Safety.

(** ** A concrete environment *)

(** TWSTO clears and write collisions end after two polls; the transmit callback sends two bytes. *)
#[export] Instance sim_twi : TwiEnv := {|
  twcr_poll := fun _ i => if (i <? 2)%nat then Z.lor TWSTO TWWC else 0;
  poll_limit := 5;
  twi_onSlaveTransmit := (_ <- twi_transmit [1; 2] ;; ret tt)%twi;
  twi_onSlaveReceive := fun _ _ => ret tt
|}.

#[export] Instance sim_twi_ok : TwiEnvOk.
Proof.
  refine {| address_polls := 3 |}.
  - exists 2%nat. split; [simpl; lia | reflexivity].
  - simpl. lia.
  - intros [|[|[|i]]] Hi; [reflexivity.. | lia].
Defined.

#[export] Instance sim_twi_callbacks : TwiCallbacksOk.
Proof.
  constructor; [done |]. intros d a l Hb Hn Hs.
  cbn [twi_onSlaveTransmit sim_twi]. unfold twi_transmit, bind, get, id. cbn [drv length].
  rewrite Hn, Hs. cbn [TWI_BUFFER_LENGTH].
  eexists _, 2. split; [reflexivity |]. split; [| lia]. cbn [Z.to_nat take]. rewrite !length_app, length_drop, Hb. done.
Qed.

(** After the start of a three byte read and its first two interrupts. *)
Definition sim_bus : bus :=
  mkBus (mkTwi TWI_MRX 0xA1 1 false (repeat 0 32) 0 2 (repeat 0 32) 0 0 (repeat 0 32) 0 0xFF) TW_MR_SLA_ACK true.

Lemma sim_bus_reachable : rtc bus_step start_bus sim_bus.
Proof.
  set (d := b_drv sim_bus).
  apply (rtc_l _ _ (mkBus d (-1) true)).
  { exact (bus_read start_bus 0x50 3 1 (mkT d [AWrite_TWCR CR_START] []) eq_refl ltac:(lia) eq_refl). }
  apply (rtc_l _ _ (mkBus d TW_START true)).
  { exact (bus_irq (mkBus d (-1) true) TW_START 0 (mkT d [AWrite_TWDR 0xA1; AWrite_TWCR CR_ACK] []) eq_refl eq_refl). }
  apply rtc_once.
  exact (bus_irq (mkBus d TW_START true) TW_MR_SLA_ACK 0 (mkT d [AWrite_TWCR CR_ACK] []) eq_refl eq_refl).
Qed.

Lemma twi_buffers_safe_witness :
  sizes (b_drv sim_bus) /\
  exists s', TWI_vect TW_MR_DATA_ACK 7 (mkT (b_drv sim_bus) [] []) = TOk tt s' /\ sizes (drv s').
Proof.
  destruct (twi_buffers_safe sim_bus sim_bus_reachable) as [Hs Hn].
  split; [exact Hs |]. apply Hn. reflexivity.
Defined.

(** The second byte of a write is refused; then a register is read behind a repeated
    start. *)
Lemma twi_master_transactions_witness :
  (exists s', twi_writeTo 0x50 [1; 2; 3] true 1
      (mkT twi_statics [] (repeat None 24 ++ [Some (TW_START, 0); None; Some (TW_MT_SLA_ACK, 0); None; None;
         Some (TW_MT_DATA_ACK, 0); Some (TW_MT_DATA_NACK, 0)])) = TOk 3 s' /\
    acts s' = AWrite_TWCR CR_START :: sent 0xA0 ++ sent 1 ++ sent 2 ++ [AWrite_TWCR CR_STOP]) /\
  (exists s1, twi_writeTo 0x50 [7] true 0
      (mkT twi_statics [] (repeat None 22 ++ [Some (TW_START, 0); Some (TW_MT_SLA_ACK, 0); Some (TW_MT_DATA_ACK, 0)])) = TOk 0 s1 /\
    exists s2, twi_readFrom 0x50 2 1 (mkT (drv s1) (acts s1) (repeat None 21 ++ [Some (TW_MR_SLA_ACK, 0);
        Some (TW_MR_DATA_ACK, 8); Some (TW_MR_DATA_NACK, 9)])) = TOk (2, [8; 9]) s2 /\
      acts s2 = (AWrite_TWCR CR_START :: sent 0xA0 ++ sent 7 ++ [AWrite_TWCR CR_REP_START]) ++
        repeat (AWrite_TWDR 0xA1) 3 ++ [AWrite_TWCR CR_ACK; AWrite_TWCR CR_ACK; AWrite_TWCR CR_NACK; AWrite_TWCR CR_STOP]).
Proof.
  assert (ready twi_statics) as Hr by (repeat split; vm_compute; congruence).
  assert (forall x : Z * Z, x.1 = TW_MT_SLA_ACK \/ x.1 = TW_MT_DATA_ACK -> mt_ack x) as Hk by done. split.
  - destruct (twi_master_transactions 0x50 1 twi_statics [] Hr) as [Hw _].
    destruct (Hw [1; 2; 3] [(TW_MT_SLA_ACK, 0); (TW_MT_DATA_ACK, 0)] TW_MT_DATA_NACK 0 0 3 (AWrite_TWCR CR_STOP) false 24%nat
      [Some (TW_START, 0); None; Some (TW_MT_SLA_ACK, 0); None; None; Some (TW_MT_DATA_ACK, 0); Some (TW_MT_DATA_NACK, 0)])
      as (s' & H1 & H2 & _); [simpl; lia | | simpl; lia | constructor | vm_compute; lia | reflexivity |].
    { repeat constructor; apply Hk; by (left; reflexivity) || (right; reflexivity). }
    exists s'. split; [exact H1 | exact H2].
  - destruct (twi_master_transactions 0x50 0 twi_statics [] Hr) as [Hw _].
    destruct (Hw [7] [(TW_MT_SLA_ACK, 0)] TW_MT_DATA_ACK 0 0 0 (AWrite_TWCR CR_REP_START) true 22%nat
      [Some (TW_START, 0); Some (TW_MT_SLA_ACK, 0); Some (TW_MT_DATA_ACK, 0)])
      as (s1 & H1 & H2 & Hr1 & Hrep); [simpl; lia | | simpl; lia | | vm_compute; lia | reflexivity |].
    { repeat constructor; apply Hk; by left. }
    { exact (we_ack 0 1 1 TW_MT_DATA_ACK (or_intror eq_refl) eq_refl). }
    exists s1. split; [exact H1 |]. destruct (twi_master_transactions 0x50 1 (drv s1) (acts s1) Hr1) as (_ & _ & Hrd).
    destruct (Hrd 2%nat [(TW_MR_SLA_ACK, 0); (TW_MR_DATA_ACK, 8); (TW_MR_DATA_NACK, 9)] [8; 9] (replies 2 ++ [closing 1]) false 0 21%nat
      [Some (TW_MR_SLA_ACK, 0); Some (TW_MR_DATA_ACK, 8); Some (TW_MR_DATA_NACK, 9)]) as (s2 & E1 & E2 & _).
    + lia.
    + exact (re_all 1 2 [8] 9 0 eq_refl).
    + vm_compute. lia.
    + rewrite Hrep. reflexivity.
    + exists s2. split; [exact E1 |]. rewrite E2, Hrep, H2. reflexivity.
Defined.
