(* ===== verification/Sha1.v ===== *)
(** * SHA-1 of the ESP8266 Hash library

    Models [ESP/libraries/Hash/src/sha1/sha1.c] (the processor is
    little-endian, [SHA1HANDSOFF] is defined), and the definition of SHA-1 in
    FIPS 180-4 as its specification. *)

From S2P Require Import Prelude.

(** ** 32-bit words *)

Definition add32 (a b : Z) : Z := u32 (a + b).
Definition rol (value bits : Z) : Z := Z.lor (u32 (Z.shiftl value bits)) (Z.shiftr value (32 - bits)).

(** ** The transform *)

Definition word (l : list Z) (i : Z) : Z := nth (Z.to_nat i) l 0.
Definition set_word (l : list Z) (i v : Z) : list Z := <[Z.to_nat i := v]> l.

(** [blk0(i)] and [blk(i)]: the value, and the block with the value stored. *)
Definition blk0 (block : list Z) (i : Z) : Z * list Z :=
  let w := word block i in
  let v := Z.lor (Z.land (rol w 24) 0xFF00FF00) (Z.land (rol w 8) 0x00FF00FF) in
  (v, set_word block i v).
Definition blk (block : list Z) (i : Z) : Z * list Z :=
  let v := rol (Z.lxor (Z.lxor (Z.lxor (word block (Z.land (i + 13) 15)) (word block (Z.land (i + 8) 15)))
                              (word block (Z.land (i + 2) 15))) (word block (Z.land i 15))) 1 in
  (v, set_word block (Z.land i 15) v).

(** The mixing function and the constant of the macros R0/R1, R2, R3, R4. *)
Definition mix (i w x y : Z) : Z :=
  if i <? 20 then Z.lxor (Z.land w (Z.lxor x y)) y
  else if i <? 40 then Z.lxor (Z.lxor w x) y
  else if i <? 60 then Z.lor (Z.land (Z.lor w x) y) (Z.land w x)
  else Z.lxor (Z.lxor w x) y.
Definition konst (i : Z) : Z :=
  if i <? 20 then 0x5A827999 else if i <? 40 then 0x6ED9EBA1
  else if i <? 60 then 0x8F1BBCDC else 0xCA62C1D6.

(** The macro call number [i].  [vars] holds the variables a, b, c, d, e; the
    macros are called with their names rotated by one place per call:
    [R0(a,b,c,d,e, 0); R0(e,a,b,c,d, 1); ...]. *)
Definition arg (i j : Z) : Z := (j - i) mod 5.
Definition round (i : Z) (s : list Z * list Z) : list Z * list Z :=
  let '(vars, block) := s in
  let '(v, w, x, y, z) := (arg i 0, arg i 1, arg i 2, arg i 3, arg i 4) in
  let '(m, block) := if i <? 16 then blk0 block i else blk block i in
  let t := mix i (word vars w) (word vars x) (word vars y) in
  let vars := set_word vars z
    (add32 (word vars z) (add32 (add32 (add32 t m) (konst i)) (rol (word vars v) 5))) in
  let vars := set_word vars w (rol (word vars w) 30) in
  (vars, block).

Fixpoint rounds (k : nat) (i : Z) (s : list Z * list Z) : list Z * list Z :=
  match k with
  | O => s
  | S k' => rounds k' (i + 1) (round i s)
  end.

(** The sixteen words of the union, read from the bytes of the buffer. *)
Fixpoint words_le (k : nat) (l : list Z) : list Z :=
  match k with
  | O => []
  | S k' => le_value (take 4 l) :: words_le k' (drop 4 l)
  end.

Definition SHA1Transform (state : list Z) (buffer : list Z) : list Z :=
  let '(vars, _) := rounds 80 0 (state, words_le 16 buffer) in
  map (fun i => add32 (word state i) (word vars i)) [0; 1; 2; 3; 4].

(** ** The context *)

Record SHA1_CTX := mkCtx { state : list Z; count0 : Z; count1 : Z; buffer : list Z }.

(** The buffer is not initialized; [b] is what it holds. *)
Definition SHA1Init (b : list Z) : SHA1_CTX :=
  mkCtx [0x67452301; 0xEFCDAB89; 0x98BADCFE; 0x10325476; 0xC3D2E1F0] 0 0 b.

(** [memcpy(&buffer[j], src, n)] within the buffer *)
Definition memcpy (b : list Z) (j : Z) (src : list Z) : list Z :=
  take (Z.to_nat j) b ++ src ++ drop (Z.to_nat j + length src) b.

(** [for ( ; i + 63 < len; i += 64)], with at most [k] iterations: the state
    and the final index. *)
Fixpoint transform_blocks (k : nat) (state data : list Z) (i : Z) : list Z * Z :=
  if u32 (i + 63) <? Z.of_nat (length data) then
    match k with
    | O => (state, i)
    | S k' => transform_blocks k' (SHA1Transform state (take 64 (drop (Z.to_nat i) data))) data (u32 (i + 64))
    end
  else (state, i).

(** [data] is the array of [len] bytes; the loop runs at most [len] times
    when [len + 64] does not wrap. *)
Definition SHA1Update (context : SHA1_CTX) (data : list Z) : SHA1_CTX :=
  let len := Z.of_nat (length data) in
  let j := count0 context in
  let c0 := u32 (count0 context + u32 (Z.shiftl len 3)) in
  let c1 := if c0 <? j then u32 (count1 context + 1) else count1 context in
  let c1 := u32 (c1 + Z.shiftr len 29) in
  let j := Z.land (Z.shiftr j 3) 63 in
  if 63 <? u32 (j + len) then
    let i := 64 - j in
    let b := memcpy (buffer context) j (take (Z.to_nat i) data) in
    let st := SHA1Transform (state context) b in
    let '(st, i) := transform_blocks (length data) st data i in
    mkCtx st c0 c1 (memcpy b 0 (drop (Z.to_nat i) data))
  else mkCtx (state context) c0 c1 (memcpy (buffer context) j data).

(** [while ((context->count[0] & 504) != 448) SHA1Update(context, "\0", 1)] *)
Fixpoint pad_zeros (k : nat) (context : SHA1_CTX) : option SHA1_CTX :=
  if Z.land (count0 context) 504 =? 448 then Some context
  else match k with
       | O => None
       | S k' => pad_zeros k' (SHA1Update context [0])
       end.

Definition finalcount (context : SHA1_CTX) : list Z :=
  map (fun i => Z.land (Z.shiftr (if 4 <=? i then count0 context else count1 context)
                          ((3 - Z.land i 3) * 8)) 255) [0; 1; 2; 3; 4; 5; 6; 7].

(** [memset(context, '\0', sizeof( *context))] *)
Definition wiped : SHA1_CTX := mkCtx (repeat 0 5) 0 0 (repeat 0 64).

(** The digest and the wiped context; [None] when the loop used up its fuel. *)
Definition SHA1Final (fuel : nat) (context : SHA1_CTX) : option (list Z * SHA1_CTX) :=
  let fc := finalcount context in
  let context := SHA1Update context [128] in
  match pad_zeros fuel context with
  | None => None
  | Some context =>
      let context := SHA1Update context fc in
      Some (map (fun i => Z.land (Z.shiftr (word (state context) (Z.shiftr i 2)) ((3 - Z.land i 3) * 8)) 255)
              (map Z.of_nat (seq 0 20)), wiped)
  end.

(** ** FIPS 180-4 *)

(** Big-endian words. *)
Definition be_value (l : list Z) : Z := le_value (rev l).
Definition be_bytes (n : nat) (v : Z) : list Z := rev (le_bytes n v).

(** 5.1.1: a one bit, zeros up to 448 bits modulo 512, the length in bits. *)
Definition pad_length (n : Z) : Z := (55 - n) mod 64.
Definition padding (m : list Z) : list Z :=
  let n := Z.of_nat (length m) in
  128 :: repeat 0 (Z.to_nat (pad_length n)) ++ be_bytes 8 ((8 * n) mod 2 ^ 64).

(** 4.1.1 *)
Definition Ch (x y z : Z) : Z := Z.lxor (Z.land x y) (Z.land (Z.lnot x) z).
Definition Parity (x y z : Z) : Z := Z.lxor (Z.lxor x y) z.
Definition Maj (x y z : Z) : Z := Z.lxor (Z.lxor (Z.land x y) (Z.land x z)) (Z.land y z).
Definition ft (t x y z : Z) : Z :=
  if t <? 20 then Ch x y z else if t <? 40 then Parity x y z
  else if t <? 60 then Maj x y z else Parity x y z.

(** 6.1.2, the message schedule: W extended up to [t] words. *)
Definition ROTL (n x : Z) : Z := Z.lor (u32 (Z.shiftl x n)) (Z.shiftr x (32 - n)).
Fixpoint schedule (k : nat) (W : list Z) : list Z :=
  match k with
  | O => W
  | S k' =>
      let t := length W in
      schedule k' (W ++ [ROTL 1 (Z.lxor (Z.lxor (Z.lxor (nth (t - 3) W 0) (nth (t - 8) W 0))
                                              (nth (t - 14) W 0)) (nth (t - 16) W 0))])
  end.

Fixpoint words_be (k : nat) (l : list Z) : list Z :=
  match k with
  | O => []
  | S k' => be_value (take 4 l) :: words_be k' (drop 4 l)
  end.

(** 6.1.2, the 80 steps on the working variables. *)
Definition step (W : list Z) (t : Z) (v : Z * Z * Z * Z * Z) : Z * Z * Z * Z * Z :=
  let '(a, b, c, d, e) := v in
  (u32 (ROTL 5 a + ft t b c d + e + konst t + word W t), a, ROTL 30 b, c, d).
Fixpoint steps (k : nat) (W : list Z) (t : Z) (v : Z * Z * Z * Z * Z) : Z * Z * Z * Z * Z :=
  match k with
  | O => v
  | S k' => steps k' W (t + 1) (step W t v)
  end.

Definition compress (H block : list Z) : list Z :=
  let W := schedule 64 (words_be 16 block) in
  let '(a, b, c, d, e) := steps 80 W 0 (word H 0, word H 1, word H 2, word H 3, word H 4) in
  [u32 (word H 0 + a); u32 (word H 1 + b); u32 (word H 2 + c); u32 (word H 3 + d); u32 (word H 4 + e)].

(** The blocks of a message, in order. *)
Fixpoint hash_blocks (k : nat) (H m : list Z) : list Z :=
  match k with
  | O => H
  | S k' => hash_blocks k' (compress H (take 64 m)) (drop 64 m)
  end.

Definition IV : list Z := [0x67452301; 0xEFCDAB89; 0x98BADCFE; 0x10325476; 0xC3D2E1F0].

Definition SHA1 (m : list Z) : list Z :=
  let p := m ++ padding m in
  concat (map (be_bytes 4) (hash_blocks (length p / 64) IV p)).
