(* ===== verification/Sha1Props.v ===== *)
(** * SHA-1: the transform computes the compression function

    The unrolled macros of [SHA1Transform], with the rotated variable names and
    the circular block of sixteen words, against the 80-word schedule and the
    five working variables of FIPS 180-4. *)

From S2P Require Import Prelude Sha1.

(** ** Words *)

Lemma word_set_eq l i v : 0 <= i < Z.of_nat (length l) -> word (set_word l i v) i = v.
Proof.
  intros H. unfold word, set_word. apply nth_lookup_Some.
  apply list_lookup_insert_eq. lia.
Qed.
Lemma word_set_ne l i k v : 0 <= i -> 0 <= k -> i <> k -> word (set_word l i v) k = word l k.
Proof.
  intros Hi Hk Hn. unfold word, set_word. rewrite !nth_lookup.
  rewrite list_lookup_insert_ne by lia. done.
Qed.
Lemma length_set_word l i v : length (set_word l i v) = length l.
Proof. apply length_insert. Qed.

(** ** The mixing functions *)

Lemma choose_bits w x y : Z.lxor (Z.land w (Z.lxor x y)) y = Ch w x y.
Proof.
  unfold Ch. apply z_ext. intros k Hk.
  rewrite !Z.lxor_spec, !Z.land_spec, Z.lxor_spec, Z.lnot_spec by done.
  by destruct (Z.testbit w k), (Z.testbit x k), (Z.testbit y k).
Qed.
Lemma majority_bits w x y : Z.lor (Z.land (Z.lor w x) y) (Z.land w x) = Maj w x y.
Proof.
  unfold Maj. apply z_ext. intros k Hk.
  rewrite !Z.lxor_spec, !Z.lor_spec, !Z.land_spec, !Z.lor_spec by done.
  by destruct (Z.testbit w k), (Z.testbit x k), (Z.testbit y k).
Qed.
Lemma mix_ft i w x y : mix i w x y = ft i w x y.
Proof. unfold mix, ft, Parity. by rewrite choose_bits, majority_bits. Qed.

(** ** The byte swap of [blk0] *)

Definition bswap (w : Z) : Z := Z.lor (Z.land (rol w 24) 0xFF00FF00) (Z.land (rol w 8) 0x00FF00FF).

Lemma le_value_bits b0 b1 b2 b3 :
  is_u8 b0 -> is_u8 b1 -> is_u8 b2 -> is_u8 b3 ->
  le_value [b0; b1; b2; b3]
  = Z.lor (Z.shiftl (Z.lor (Z.shiftl (Z.lor (Z.shiftl b3 8) b2) 8) b1) 8) b0.
Proof.
  unfold is_u8. intros. rewrite !lor_disjoint_add by lia. simpl. lia.
Qed.

Lemma testbit_rol w n k : 0 <= k -> 0 <= n <= 32 ->
  Z.testbit (rol w n) k = (k <? 32) && Z.testbit w (k - n) || Z.testbit w (k + (32 - n)).
Proof.
  intros. unfold rol. rewrite Z.lor_spec, testbit_u32, Z.shiftl_spec, Z.shiftr_spec by lia. done.
Qed.

Lemma u32_bits a b : is_u32 a -> is_u32 b ->
  (forall k, 0 <= k < 32 -> Z.testbit a k = Z.testbit b k) -> a = b.
Proof.
  unfold is_u32. intros Ha Hb H. apply z_ext. intros k Hk.
  destruct (decide (k < 32)); [apply H; lia |].
  by rewrite !(testbit_small _ 32) by lia.
Qed.

Lemma nat32_cases (P : Z -> Prop) :
  Forall P (map Z.of_nat (seq 0 32)) -> forall k, 0 <= k < 32 -> P k.
Proof.
  intros H k Hk. rewrite Forall_forall in H. apply H.
  apply list_elem_of_In, in_map_iff. exists (Z.to_nat k). split; [lia |]. apply in_seq. lia.
Qed.

Lemma testbit_le4 b0 b1 b2 b3 k :
  is_u8 b0 -> is_u8 b1 -> is_u8 b2 -> is_u8 b3 ->
  Z.testbit (le_value [b0; b1; b2; b3]) k
  = if k <? 8 then Z.testbit b0 k else if k <? 16 then Z.testbit b1 (k - 8)
    else if k <? 24 then Z.testbit b2 (k - 16) else Z.testbit b3 (k - 24).
Proof.
  intros H0 H1 H2 H3. destruct (decide (0 <= k)) as [Hk |].
  2:{ rewrite Z.testbit_neg_r by lia. replace (k <? 8) with true by lia.
      by rewrite Z.testbit_neg_r by lia. }
  rewrite le_value_bits by done.
  assert (Hsh : forall hi lo n, is_u8 lo -> 0 <= n ->
            Z.testbit (Z.lor (Z.shiftl hi 8) lo) n = if n <? 8 then Z.testbit lo n else Z.testbit hi (n - 8)).
  { intros hi lo n Hlo Hn. rewrite Z.lor_spec, Z.shiftl_spec by lia.
    destruct (Z.ltb_spec n 8); [by rewrite Z.testbit_neg_r by lia |].
    rewrite (u8_bit_high lo) by (done || lia). apply orb_false_r. }
  repeat match goal with |- context [?a <? ?b] => destruct (Z.ltb_spec a b) end;
    repeat (rewrite Hsh by (done || lia);
            match goal with |- context [?a <? ?b] => destruct (Z.ltb_spec a b) end; try lia);
    f_equal; lia.
Qed.

Lemma le4_range b0 b1 b2 b3 :
  is_u8 b0 -> is_u8 b1 -> is_u8 b2 -> is_u8 b3 -> is_u32 (le_value [b0; b1; b2; b3]).
Proof. unfold is_u8, is_u32. simpl. lia. Qed.

Lemma land_u32 a m : is_u32 m -> is_u32 (Z.land a m).
Proof.
  unfold is_u32. intros Hm. split; [apply Z.land_nonneg; lia |].
  destruct (Z.eq_dec (Z.land a m) 0) as [-> |]; [lia |].
  apply (Z.log2_lt_cancel _ (2 ^ 32)). change (Z.log2 (2 ^ 32)) with 32.
  assert (0 < Z.land a m) by (pose proof (Z.land_nonneg a m); lia).
  destruct (Z.lt_ge_cases (Z.log2 (Z.land a m)) 32) as [| Hge]; [done |].
  pose proof (Z.bit_log2 (Z.land a m)) as Hb. rewrite Z.land_spec in Hb.
  rewrite (testbit_small m 32) in Hb by lia. rewrite andb_false_r in Hb. specialize (Hb ltac:(lia)). done.
Qed.

Lemma lor_u32 a b : is_u32 a -> is_u32 b -> is_u32 (Z.lor a b).
Proof.
  unfold is_u32. intros Ha Hb. split; [apply Z.lor_nonneg; lia |].
  destruct (Z.eq_dec (Z.lor a b) 0) as [-> |]; [lia |].
  assert (0 <= Z.lor a b) by (apply Z.lor_nonneg; lia).
  apply (Z.log2_lt_cancel _ (2 ^ 32)). change (Z.log2 (2 ^ 32)) with 32.
  rewrite Z.log2_lor by lia.
  destruct (Z.eq_dec a 0) as [-> |], (Z.eq_dec b 0) as [-> |]; simpl Z.max;
    repeat match goal with |- context [Z.log2 ?x] =>
      let H := fresh in assert (H : x = 0 \/ Z.log2 x < 32) by (destruct (Z.eq_dec x 0); [by left |];
         right; apply Z.log2_lt_pow2; lia); generalize dependent (Z.log2 x); intros end; lia.
Qed.

(** Evaluate the comparisons and the bits of literals. *)
Ltac eval_closed :=
  repeat match goal with
  | |- context [?a <? ?b] => let v := eval vm_compute in (a <? b) in change (a <? b) with v; cbv iota
  | |- context [Z.testbit (Z.pos ?p) ?k] =>
      let v := eval vm_compute in (Z.testbit (Z.pos p) k) in change (Z.testbit (Z.pos p) k) with v
  end.

(** Reading a word little-endian and swapping its bytes reads it big-endian. *)
Lemma bswap_le b0 b1 b2 b3 :
  is_u8 b0 -> is_u8 b1 -> is_u8 b2 -> is_u8 b3 ->
  bswap (le_value [b0; b1; b2; b3]) = le_value [b3; b2; b1; b0].
Proof.
  intros H0 H1 H2 H3. apply u32_bits.
  - apply lor_u32; apply land_u32; unfold is_u32; lia.
  - by apply le4_range.
  - unfold bswap. apply nat32_cases.
    let l := eval vm_compute in (map Z.of_nat (seq 0 32)) in change (map Z.of_nat (seq 0 32)) with l.
    repeat apply Forall_cons_2; [.. | apply Forall_nil_2];
      rewrite Z.lor_spec, !Z.land_spec, !testbit_rol, !testbit_le4 by (done || lia);
      eval_closed; cbn [andb]; rewrite ?andb_false_r, ?andb_true_r, ?orb_false_r, ?orb_false_l;
      rewrite ?(u8_bit_high b3) by (done || lia); rewrite ?orb_false_r; done.
Qed.

Lemma words_be_le k l : Forall is_u8 l -> (4 * k <= length l)%nat ->
  words_be k l = map bswap (words_le k l).
Proof.
  revert l. induction k as [| k IH]; intros l Hl Hk; [done |].
  destruct l as [| b0 [| b1 [| b2 [| b3 l]]]]; cbn [length] in Hk; try lia.
  repeat match goal with H : Forall _ (_ :: _) |- _ => inversion H; subst; clear H end.
  change (be_value [b0; b1; b2; b3] :: words_be k l = bswap (le_value [b0; b1; b2; b3]) :: map bswap (words_le k l)).
  rewrite (IH l) by (done || lia).
  f_equal. unfold be_value. simpl rev. by rewrite bswap_le.
Qed.

Lemma length_words_le k l : length (words_le k l) = k.
Proof. revert l. induction k; intros; simpl; auto. Qed.

(** ** The message schedule *)

Definition expand (W : list Z) (t : Z) : Z :=
  ROTL 1 (Z.lxor (Z.lxor (Z.lxor (word W (t - 3)) (word W (t - 8))) (word W (t - 14))) (word W (t - 16))).

Lemma word_app_l W W' t : 0 <= t < Z.of_nat (length W) -> word (W ++ W') t = word W t.
Proof. intros H. unfold word. rewrite app_nth1 by lia. done. Qed.

Lemma schedule_old k W t : 0 <= t < Z.of_nat (length W) -> word (schedule k W) t = word W t.
Proof.
  revert W. induction k as [| k IH]; intros W Ht; [done |]. simpl.
  rewrite IH; [by apply word_app_l | rewrite length_app; simpl; lia].
Qed.

(** The words of the schedule obey the recurrence of the standard. *)
Lemma schedule_new k W t :
  16 <= Z.of_nat (length W) -> Z.of_nat (length W) <= t < Z.of_nat (length W + k) ->
  word (schedule k W) t = expand (schedule k W) t.
Proof.
  revert W. induction k as [| k IH]; intros W Hl Ht; [lia |].
  destruct (decide (t = Z.of_nat (length W))) as [-> |].
  - unfold expand.
    set (l := length W) in *. simpl schedule.
    set (v := ROTL 1 _). rewrite !(schedule_old k (W ++ [v])) by (rewrite length_app; simpl; fold l; lia).
    rewrite !(word_app_l W [v] (_ - _)) by (fold l; lia).
    unfold word at 1. rewrite Nat2Z.id, app_nth2, Nat.sub_diag by (unfold l; lia). simpl nth.
    unfold v, word. fold l. do 4 f_equal; f_equal; lia.
  - simpl schedule. apply IH; rewrite length_app; simpl; lia.
Qed.

(** ** The circular block *)

Lemma land_15 x : Z.land x 15 = x mod 16.
Proof. change 15 with (Z.ones 4). by rewrite Z.land_ones by lia. Qed.

Section Transform.
(** The words read from the buffer and the schedule made of them. *)
Context (raw W : list Z).
Hypothesis W_first : forall t, 0 <= t < 16 -> word W t = bswap (word raw t).
Hypothesis W_next : forall t, 16 <= t < 80 -> word W t = expand W t.

(** Before call [i] the block holds the last sixteen words of the schedule in
    circular order, and behind them the words not yet swapped. *)
Definition block_inv (i : Z) (block : list Z) : Prop :=
  length block = 16%nat /\
  (forall t, 0 <= t -> i - 16 <= t < i -> word block (t mod 16) = word W t) /\
  (forall t, i <= t < 16 -> word block t = word raw t).

Lemma block_inv_set i block : 0 <= i -> block_inv i block ->
  block_inv (i + 1) (set_word block (i mod 16) (word W i)).
Proof.
  intros Hi (Hl & Hold & Hraw). split_and!.
  - by rewrite length_set_word.
  - intros t H0 Ht. destruct (decide (t = i)) as [-> |].
    + rewrite word_set_eq; [done |]. rewrite Hl. mlia.
    + rewrite word_set_ne; [apply Hold; lia | mlia ..].
  - intros t Ht. rewrite word_set_ne; [apply Hraw; lia | mlia ..].
Qed.

Lemma block_step i block : 0 <= i < 80 -> block_inv i block ->
  (if i <? 16 then blk0 block i else blk block i)
  = (word W i, set_word block (i mod 16) (word W i)).
Proof.
  intros Hi (Hl & Hold & Hraw). destruct (Z.ltb_spec i 16) as [Hlt | Hge].
  - unfold blk0. fold (bswap (word block i)). rewrite Hraw, <- W_first by lia.
    by rewrite Z.mod_small by lia.
  - unfold blk. rewrite !land_15.
    replace ((i + 13) mod 16) with ((i - 3) mod 16) by mlia.
    replace ((i + 8) mod 16) with ((i - 8) mod 16) by mlia.
    replace ((i + 2) mod 16) with ((i - 14) mod 16) by mlia.
    replace (word block (i mod 16)) with (word block ((i - 16) mod 16)) by (f_equal; mlia).
    rewrite !Hold by lia. rewrite (W_next i) by lia. done.
Qed.

(** ** The rotating variables *)

(** The working variables of the standard, found under the names that call [i]
    passes. *)
Definition view (i : Z) (vars : list Z) : Z * Z * Z * Z * Z :=
  (word vars (arg i 0), word vars (arg i 1), word vars (arg i 2), word vars (arg i 3), word vars (arg i 4)).

Lemma arg_range i j : 0 <= arg i j < 5.
Proof. unfold arg. mlia. Qed.
Lemma arg_next i j : arg (i + 1) j = arg i ((j - 1) mod 5).
Proof. unfold arg. mlia. Qed.
Lemma arg_inj i j k : 0 <= j < 5 -> 0 <= k < 5 -> arg i j = arg i k -> j = k.
Proof. unfold arg. intros. mlia. Qed.

Lemma view_set i j k vars v : 0 <= j < 5 -> 0 <= k < 5 -> length vars = 5%nat ->
  word (set_word vars (arg i j) v) (arg i k) = if j =? k then v else word vars (arg i k).
Proof.
  intros Hj Hk Hl. pose proof (arg_range i j). pose proof (arg_range i k).
  destruct (Z.eqb_spec j k) as [-> | Hn].
  - apply word_set_eq. rewrite Hl. lia.
  - apply word_set_ne; [lia | lia |]. intros E. by apply Hn, (arg_inj i).
Qed.

Lemma add32_chain z t m k r :
  add32 z (add32 (add32 (add32 t m) k) r) = u32 (r + t + z + k + m).
Proof. unfold add32, u32. mlia. Qed.

Lemma round_step i vars block : 0 <= i < 80 -> length vars = 5%nat -> block_inv i block ->
  exists vars' block', round i (vars, block) = (vars', block') /\
    length vars' = 5%nat /\ block_inv (i + 1) block' /\ view (i + 1) vars' = step W i (view i vars).
Proof.
  intros Hi Hl Hb. unfold round. rewrite block_step by done.
  do 2 eexists. split; [done |]. split; [by rewrite !length_set_word |].
  split; [apply block_inv_set; [lia | done] |].
  unfold view. rewrite !arg_next. change (arg i ((0 - 1) mod 5)) with (arg i 4).
  change (arg i ((1 - 1) mod 5)) with (arg i 0). change (arg i ((2 - 1) mod 5)) with (arg i 1).
  change (arg i ((3 - 1) mod 5)) with (arg i 2). change (arg i ((4 - 1) mod 5)) with (arg i 3).
  rewrite !view_set by (rewrite ?length_set_word; done || lia). cbn [Z.eqb Pos.eqb]. unfold step.
  by rewrite mix_ft, add32_chain.
Qed.

Lemma rounds_steps k i vars block :
  0 <= i -> i + Z.of_nat k <= 80 -> length vars = 5%nat -> block_inv i block ->
  exists vars' block', rounds k i (vars, block) = (vars', block') /\
    length vars' = 5%nat /\ view (i + Z.of_nat k) vars' = steps k W i (view i vars).
Proof.
  revert i vars block. induction k as [| k IH]; intros i vars block Hi Hk Hl Hb.
  - exists vars, block. rewrite Z.add_0_r. done.
  - destruct (round_step i vars block) as (vars1 & block1 & Hr & Hl1 & Hb1 & Hv); [lia | done | done |].
    destruct (IH (i + 1) vars1 block1) as (vars2 & block2 & Hr2 & Hl2 & Hv2); [lia | lia | done | done |].
    exists vars2, block2. cbn [rounds steps]. rewrite Hr, Hr2. split_and!; [done | done |].
    rewrite <- Hv, <- Hv2. f_equal. lia.
Qed.
End Transform.

(** The optimised transform computes the compression function of FIPS 180-4. *)
Lemma SHA1Transform_compress st b :
  length st = 5%nat -> Forall is_u8 b -> length b = 64%nat -> SHA1Transform st b = compress st b.
Proof.
  intros Hst Hb Hlen. unfold SHA1Transform, compress.
  set (raw := words_le 16 b).
  assert (Hraw : length raw = 16%nat) by apply length_words_le.
  rewrite words_be_le by (done || (rewrite Hlen; lia)). fold raw.
  set (W := schedule 64 (map bswap raw)).
  assert (W_first : forall t, 0 <= t < 16 -> word W t = bswap (word raw t)).
  { intros t Ht. unfold W. rewrite schedule_old by (rewrite length_map, Hraw; lia).
    unfold word. rewrite <- (map_nth bswap). apply nth_indep. rewrite length_map, Hraw. lia. }
  assert (W_next : forall t, 16 <= t < 80 -> word W t = expand W t).
  { intros t Ht. apply schedule_new; rewrite length_map, Hraw; lia. }
  assert (Hinit : block_inv raw W 0 raw) by (split_and!; [done | lia | done]).
  clearbody W raw.
  destruct (rounds_steps raw W W_first W_next 80 0 st raw) as (vars & block & Hr & _ & Hv); [lia | lia | done | done |].
  rewrite Hr.
  assert (H0 : view 0 st = (word st 0, word st 1, word st 2, word st 3, word st 4)) by reflexivity.
  assert (H80 : view (0 + Z.of_nat 80) vars = (word vars 0, word vars 1, word vars 2, word vars 3, word vars 4))
    by reflexivity.
  by rewrite H0, H80 in Hv; rewrite <- Hv.
Qed.
