(* ===== verification/Sha1Hash.v ===== *)
(** * SHA-1: hashing a message in pieces

    The context of [sha1.c] after any sequence of updates represents the bytes
    absorbed so far; [SHA1Final] then delivers the SHA-1 digest of FIPS 180-4. *)

From S2P Require Import Prelude Sha1 Sha1Props.

(** ** Blocks of a message *)

Lemma hash_blocks_add k k' H m :
  hash_blocks (k + k') H m = hash_blocks k' (hash_blocks k H m) (drop (64 * k) m).
Proof.
  revert H m. induction k as [| k IH]; intros H m; [done |].
  cbn [Nat.add hash_blocks]. rewrite IH, drop_drop. do 2 f_equal. lia.
Qed.

Lemma hash_blocks_app k H m d : (64 * k <= length m)%nat -> hash_blocks k H (m ++ d) = hash_blocks k H m.
Proof.
  revert H m. induction k as [| k IH]; intros H m Hk; [done |]. cbn [hash_blocks].
  rewrite take_app_le, drop_app_le by lia. apply IH. rewrite length_drop. lia.
Qed.

Lemma hash_blocks_length k H m : length H = 5%nat -> length (hash_blocks k H m) = 5%nat.
Proof.
  revert H m. induction k as [| k IH]; intros H m HH; [done |]. apply IH.
  unfold compress. by destruct (steps _ _ _ _) as [[[[? ?] ?] ?] ?].
Qed.

Lemma length_compress st b : length (compress st b) = 5%nat.
Proof. unfold compress. by destruct (steps _ _ _ _) as [[[[? ?] ?] ?] ?]. Qed.

Lemma length_SHA1Transform st b : length (SHA1Transform st b) = 5%nat.
Proof. unfold SHA1Transform. by destruct (rounds _ _ _). Qed.

(** The loop over the whole blocks of the data. *)
Lemma transform_blocks_spec k st data i :
  length st = 5%nat -> Forall is_u8 data -> Z.of_nat (length data) + 64 < 2 ^ 32 ->
  (i <= length data)%nat -> (length data - i <= 64 * k)%nat ->
  transform_blocks k st data (Z.of_nat i)
  = (hash_blocks ((length data - i) / 64) st (drop i data), Z.of_nat (i + 64 * ((length data - i) / 64))).
Proof.
  intros Hst Hd Hlen. change (2 ^ 32) with 4294967296 in Hlen.
  revert st i Hst. induction k as [| k IH]; intros st i Hst Hi Hk;
    cbn [transform_blocks]; rewrite (u32_id (_ + 63)) by (unfold is_u32; lia).
  - replace (length data - i)%nat with 0%nat by lia.
    replace (_ <? _) with false by lia. by rewrite Nat.add_0_r.
  - destruct (Z.ltb_spec (Z.of_nat i + 63) (Z.of_nat (length data))) as [Hlt | Hge].
    + rewrite Nat2Z.id, u32_id by (unfold is_u32; lia).
      replace (Z.of_nat i + 64) with (Z.of_nat (i + 64)) by lia.
      rewrite SHA1Transform_compress; [| done | by apply Forall_take, Forall_drop | rewrite length_take, length_drop; lia].
      rewrite IH by (apply length_compress || lia).
      replace (length data - i)%nat with (length data - (i + 64) + 1 * 64)%nat by lia.
      rewrite Nat.div_add by lia. rewrite Nat.add_1_r. cbn [hash_blocks]. rewrite drop_drop.
      do 2 f_equal. lia.
    + rewrite Nat.div_small by lia. by rewrite Nat.add_0_r.
Qed.

(** ** The representation *)

(** The context after the bytes [m]: the state has absorbed the whole blocks,
    the buffer starts with the rest, and the 64-bit counter counts the bits. *)
Record absorbed (m : list Z) (c : SHA1_CTX) : Prop := {
  abs_state : state c = hash_blocks (length m / 64) IV m;
  abs_buffer : take (length m mod 64) (buffer c) = drop (64 * (length m / 64)) m;
  abs_room : length (buffer c) = 64%nat;
  abs_count0 : count0 c = (8 * Z.of_nat (length m)) mod 2 ^ 32;
  abs_count1 : count1 c = (8 * Z.of_nat (length m)) / 2 ^ 32 mod 2 ^ 32;
  abs_bytes : Forall is_u8 m
}.

Lemma absorbed_init b : length b = 64%nat -> absorbed [] (SHA1Init b).
Proof. intros Hb. constructor; done. Qed.

(** The index into the buffer that the code gets from the counter. *)
Lemma buffer_index n : Z.land (Z.shiftr ((8 * n) mod 2 ^ 32) 3) 63 = n mod 64.
Proof.
  change 63 with (Z.ones 6). rewrite Z.land_ones, Z.shiftr_div_pow2 by lia.
  change (2 ^ 32) with 4294967296. change (2 ^ 3) with 8. change (2 ^ 6) with 64. mlia.
Qed.

(** The two 32-bit counters with their carry are one 64-bit counter. *)
Lemma counter_update n len : 0 <= n -> 0 <= len ->
  let j := (8 * n) mod 2 ^ 32 in
  let c1 := (8 * n) / 2 ^ 32 mod 2 ^ 32 in
  let c0 := u32 (j + u32 (Z.shiftl len 3)) in
  c0 = (8 * (n + len)) mod 2 ^ 32 /\
  u32 ((if c0 <? j then u32 (c1 + 1) else c1) + Z.shiftr len 29) = (8 * (n + len)) / 2 ^ 32 mod 2 ^ 32.
Proof.
  intros Hn Hlen j c1 c0. subst j c1 c0. unfold u32.
  rewrite Z.shiftl_mul_pow2, Z.shiftr_div_pow2 by lia. change (2 ^ 3) with 8.
  change (2 ^ 32) with 4294967296. change (2 ^ 29) with 536870912.
  split; [mlia |]. destruct (Z.ltb_spec (((8 * n) mod 4294967296 + (len * 8) mod 4294967296) mod 4294967296)
                            ((8 * n) mod 4294967296)); mlia.
Qed.

Lemma take_memcpy b j src : (j + length src <= length b)%nat ->
  take (j + length src) (memcpy b (Z.of_nat j) src) = take j b ++ src.
Proof.
  intros H. unfold memcpy. rewrite Nat2Z.id, app_assoc.
  apply take_app_length'. rewrite length_app, length_take. lia.
Qed.

Lemma length_memcpy b j src : (j + length src <= length b)%nat ->
  length (memcpy b (Z.of_nat j) src) = length b.
Proof.
  intros H. unfold memcpy. rewrite Nat2Z.id, !length_app, length_take, length_drop. lia.
Qed.

Section Update.
Context (m : list Z) (c : SHA1_CTX) (d : list Z).
Hypothesis Habs : absorbed m c.
Hypothesis Hd : Forall is_u8 d.
Hypothesis Hlen : Z.of_nat (length d) + 64 < 2 ^ 32.

(** Whole blocks absorbed, and bytes in the buffer. *)
Let q := (length m / 64)%nat.
Let r := (length m mod 64)%nat.

Lemma length_split : length m = (64 * q + r)%nat /\ (r < 64)%nat.
Proof. unfold q, r. split; [apply Nat.div_mod_eq | by apply Nat.mod_upper_bound]. Qed.

(** The data fits into the buffer. *)
Lemma update_small : (r + length d <= 63)%nat ->
  ((length m + length d) / 64 = q /\ (length m + length d) mod 64 = r + length d)%nat /\
  hash_blocks q IV (m ++ d) = state c /\
  take (r + length d) (memcpy (buffer c) (Z.of_nat r) d) = drop (64 * q) (m ++ d) /\
  length (memcpy (buffer c) (Z.of_nat r) d) = 64%nat.
Proof.
  intros Hs. destruct length_split as [Hm Hr]. destruct Habs as [Hst Hbuf Hroom _ _ _].
  split_and!.
  - symmetry. apply (Nat.div_unique _ _ _ (r + length d)); lia.
  - symmetry. apply (Nat.mod_unique _ _ q); lia.
  - rewrite hash_blocks_app by lia. by rewrite Hst.
  - rewrite take_memcpy by lia. fold r q in Hbuf. rewrite Hbuf, drop_app_le by lia. done.
  - rewrite length_memcpy; lia.
Qed.

(** The data completes the block in the buffer. *)
Lemma update_full : (63 < r + length d)%nat ->
  let i := (64 - r)%nat in
  let b := memcpy (buffer c) (Z.of_nat r) (take i d) in
  let k := ((length d - i) / 64)%nat in
  let rest := drop (i + 64 * k) d in
  ((length m + length d) / 64 = q + 1 + k)%nat /\
  ((length m + length d) mod 64 = length rest)%nat /\
  length b = 64%nat /\
  hash_blocks k (SHA1Transform (state c) b) (drop i d) = hash_blocks (q + 1 + k) IV (m ++ d) /\
  rest = drop (64 * (q + 1 + k)) (m ++ d).
Proof.
  intros Hs i b k rest. destruct length_split as [Hm Hr]. destruct Habs as [Hst Hbuf Hroom _ _ Hmb].
  fold r q in Hbuf, Hst.
  assert (Hdm : (length d - i = 64 * k + (length d - i) mod 64)%nat) by apply Nat.div_mod_eq.
  pose proof (Nat.mod_upper_bound (length d - i) 64 ltac:(lia)) as Hub.
  assert (Hrest : length rest = ((length d - i) mod 64)%nat) by (unfold rest; rewrite length_drop; lia).
  assert (Hti : length (take i d) = i) by (rewrite length_take; lia).
  assert (Hb64 : length b = 64%nat) by (unfold b; rewrite length_memcpy; lia).
  assert (Hb : b = take 64 (drop (64 * q) (m ++ d))).
  { rewrite <- (take_ge b 64) by lia. replace 64%nat with (r + length (take i d))%nat at 1 by lia.
    unfold b. rewrite take_memcpy, Hbuf, drop_app_le, take_app_ge by (rewrite ?length_drop; lia).
    do 2 f_equal. rewrite length_drop. lia. }
  assert (Hdrop : drop (64 * (q + 1)) (m ++ d) = drop i d).
  { rewrite drop_app_ge by lia. f_equal. lia. }
  split_and!.
  - symmetry. apply (Nat.div_unique _ _ _ (length rest)); lia.
  - symmetry. apply (Nat.mod_unique _ _ (q + 1 + k)); lia.
  - done.
  - rewrite SHA1Transform_compress; [| by rewrite Hst; apply hash_blocks_length | | done].
    + rewrite hash_blocks_add, Hdrop. f_equal. rewrite hash_blocks_add. cbn [hash_blocks].
      rewrite hash_blocks_app, <- Hst, <- Hb by lia. done.
    + rewrite Hb. apply Forall_take, Forall_drop. by apply Forall_app.
  - replace (64 * (q + 1 + k))%nat with (64 * (q + 1) + 64 * k)%nat by lia.
    rewrite <- drop_drop, Hdrop, drop_drop. done.
Qed.

(** Updating the context absorbs the data. *)
Lemma absorbed_update : absorbed (m ++ d) (SHA1Update c d).
Proof.
  destruct length_split as [Hm Hr]. pose proof (abs_room _ _ Habs) as Hroom.
  pose proof (abs_bytes _ _ Habs) as Hmb.
  assert (Hj : Z.land (Z.shiftr (count0 c) 3) 63 = Z.of_nat r)
    by (rewrite (abs_count0 _ _ Habs), buffer_index; unfold r; by rewrite Nat2Z.inj_mod).
  destruct (counter_update (Z.of_nat (length m)) (Z.of_nat (length d))) as [Hc0 Hc1]; [lia | lia |].
  rewrite <- (abs_count0 _ _ Habs), <- (abs_count1 _ _ Habs) in Hc1.
  rewrite <- (abs_count0 _ _ Habs) in Hc0.
  rewrite <- Nat2Z.inj_add, <- length_app in Hc0, Hc1.
  assert (Hb : Forall is_u8 (m ++ d)) by (by apply Forall_app).
  unfold SHA1Update. rewrite Hj. change (2 ^ 32) with 4294967296 in Hlen.
  rewrite u32_id with (v := Z.of_nat r + _) by (unfold is_u32; lia).
  destruct (Z.ltb_spec 63 (Z.of_nat r + Z.of_nat (length d))) as [Hf | Hs].
  - destruct update_full as (Hq & Hmod & Hbl & Hst & Hrest); [lia |].
    replace (64 - Z.of_nat r) with (Z.of_nat (64 - r)) by lia. rewrite Nat2Z.id.
    rewrite transform_blocks_spec by (apply length_SHA1Transform || done || (change (2 ^ 32) with 4294967296; lia) || lia).
    rewrite Nat2Z.id. set (rest := drop _ d) in *.
    assert (Hrl : (length rest < 64)%nat) by (rewrite <- Hmod; by apply Nat.mod_upper_bound).
    constructor; cbn [state buffer count0 count1]; try rewrite length_app, ?Hq, ?Hmod; try done.
    + rewrite <- Hrest. apply (take_memcpy _ 0). simpl. lia.
    + rewrite (length_memcpy _ 0); simpl; lia.
    + by rewrite <- length_app.
    + by rewrite <- length_app.
  - destruct update_small as ((Hq & Hmod) & Hst & Hbuf & Hbl); [lia |].
    constructor; cbn [state buffer count0 count1]; try rewrite length_app, ?Hq, ?Hmod; try done.
    + by rewrite <- length_app.
    + by rewrite <- length_app.
Qed.
End Update.

(** ** Padding and digest *)

Lemma land_504 n : 0 <= n -> Z.land ((8 * n) mod 2 ^ 32) 504 = 8 * (n mod 64).
Proof.
  intros Hn. replace ((8 * n) mod 2 ^ 32) with (Z.shiftl (n mod 2 ^ 29) 3).
  - change 504 with (Z.shiftl 63 3). rewrite <- Z.shiftl_land. change 63 with (Z.ones 6).
    rewrite Z.land_ones, Z.shiftl_mul_pow2 by lia. change (2 ^ 3) with 8.
    change (2 ^ 6) with 64. change (2 ^ 29) with 536870912. mlia.
  - rewrite Z.shiftl_mul_pow2 by lia. change (2 ^ 3) with 8.
    change (2 ^ 32) with 4294967296. change (2 ^ 29) with 536870912. mlia.
Qed.

Lemma absorbed_byte m c b : absorbed m c -> is_u8 b -> absorbed (m ++ [b]) (SHA1Update c [b]).
Proof.
  intros Hc Hb. apply absorbed_update; [done | by constructor |].
  change (2 ^ 32) with 4294967296. simpl. lia.
Qed.

(** The padding loop ends after the zeros of the standard. *)
Lemma pad_zeros_spec p k m c :
  absorbed m c -> Z.of_nat p = (56 - Z.of_nat (length m)) mod 64 -> (p <= k)%nat ->
  exists c', pad_zeros k c = Some c' /\ absorbed (m ++ repeat 0 p) c'.
Proof.
  revert k m c. induction p as [| p IH]; intros k m c Hc Hp Hk.
  - exists c. rewrite app_nil_r. split; [| done].
    destruct k; cbn [pad_zeros]; rewrite (abs_count0 _ _ Hc), land_504 by lia;
      replace (_ =? 448) with true by mlia; done.
  - destruct k as [| k]; [lia |]. cbn [pad_zeros]. rewrite (abs_count0 _ _ Hc), land_504 by lia.
    replace (_ =? 448) with false by mlia.
    destruct (IH k (m ++ [0]) (SHA1Update c [0])) as (c' & Hpad & Hc').
    + apply absorbed_byte; [done | unfold is_u8; lia].
    + rewrite length_app, Nat2Z.inj_add. simpl (Z.of_nat (length [0])). mlia.
    + lia.
    + exists c'. rewrite <- app_assoc in Hc'. done.
Qed.

Ltac eval_literals :=
  repeat match goal with
  | |- context [?a <=? ?b] => let v := eval vm_compute in (a <=? b) in change (a <=? b) with v; cbv iota
  | |- context [2 ^ ?e] => let v := eval vm_compute in (2 ^ e) in change (2 ^ e) with v
  | H : context [2 ^ ?e] |- _ => let v := eval vm_compute in (2 ^ e) in change (2 ^ e) with v in H
  | |- context [256 * ?e] => let v := eval vm_compute in (256 * e) in change (256 * e) with v
  end.

Lemma finalcount_spec m c : absorbed m c ->
  finalcount c = be_bytes 8 ((8 * Z.of_nat (length m)) mod 2 ^ 64).
Proof.
  intros Hc. unfold finalcount, be_bytes. rewrite (abs_count0 _ _ Hc), (abs_count1 _ _ Hc).
  generalize (8 * Z.of_nat (length m)). intros v.
  replace (v mod 2 ^ 64) with (v mod 2 ^ 32 + 2 ^ 32 * (v / 2 ^ 32 mod 2 ^ 32))
    by (change (2 ^ 32) with 4294967296; change (2 ^ 64) with 18446744073709551616; mlia).
  pose proof (Z.mod_pos_bound v (2 ^ 32) ltac:(lia)) as Hlo. revert Hlo.
  generalize (v mod 2 ^ 32), (v / 2 ^ 32 mod 2 ^ 32). intros lo hi Hlo.
  cbn [map]. rewrite !byte_of_word by (cbv; discriminate).
  cbn [rev app le_bytes]. rewrite !Z.div_div by lia.
  repeat apply (f_equal2 cons); [.. | done]; unfold u8; eval_literals; mlia.
Qed.

(** The bytes of the state words, most significant first. *)
Lemma digest_bytes st : length st = 5%nat ->
  map (fun i => Z.land (Z.shiftr (word st (Z.shiftr i 2)) ((3 - Z.land i 3) * 8)) 255)
    (map Z.of_nat (seq 0 20)) = concat (map (be_bytes 4) st).
Proof.
  intros H. destruct st as [| a [| b [| c [| d [| e [| ? ?]]]]]]; try discriminate H.
  cbn [map seq concat app]. unfold be_bytes. cbn [le_bytes rev app].
  rewrite !byte_of_word by (cbv; discriminate). rewrite !Z.div_div by lia.
  repeat apply (f_equal2 cons); [.. | done];
    match goal with |- u8 (?x / 2 ^ ?k) = _ =>
      let v := eval vm_compute in (2 ^ k) in change (2 ^ k) with v end; rewrite ?Z.div_1_r; reflexivity.
Qed.

(** Finishing a context that has absorbed [m] gives the digest of [m]; the
    padding loop needs at most 63 iterations. *)
Lemma final_digest fuel m c :
  absorbed m c -> (63 <= fuel)%nat -> SHA1Final fuel c = Some (SHA1 m, wiped).
Proof.
  intros Hc Hf. unfold SHA1Final. rewrite (finalcount_spec m c Hc).
  set (lenbytes := be_bytes 8 _).
  pose proof (absorbed_byte m c 128 Hc ltac:(unfold is_u8; lia)) as H1.
  set (p := Z.to_nat (pad_length (Z.of_nat (length m)))).
  assert (Hp : 0 <= pad_length (Z.of_nat (length m)) < 64) by (unfold pad_length; mlia).
  destruct (pad_zeros_spec p fuel _ _ H1) as (c2 & Hpad & H2).
  { unfold p. rewrite Z2Nat.id by lia. rewrite length_app, Nat2Z.inj_add. unfold pad_length.
    simpl (Z.of_nat (length [128])). f_equal. lia. }
  { lia. }
  rewrite Hpad.
  assert (Hlb : length lenbytes = 8%nat) by (unfold lenbytes, be_bytes; rewrite length_rev; apply length_le_bytes).
  assert (H3 : absorbed (m ++ padding m) (SHA1Update c2 lenbytes)).
  { replace (m ++ padding m) with (((m ++ [128]) ++ repeat 0 p) ++ lenbytes)
      by (unfold padding; rewrite <- !app_assoc; done).
    apply absorbed_update; [done | | rewrite Hlb; done].
    unfold lenbytes, be_bytes. apply Forall_rev, le_bytes_u8. }
  rewrite digest_bytes; rewrite (abs_state _ _ H3); [done |]. by apply hash_blocks_length.
Qed.

(** C22: Hashing a message in any pieces — [SHA1Init], one [SHA1Update] per
    piece, [SHA1Final] — ends, delivers the SHA-1 digest of FIPS 180-4 of the
    concatenated pieces, and leaves the context wiped, whatever the buffer held
    at the start; each piece is shorter than 2^32 - 64 bytes. *)
Theorem sha1_correct (pieces : list (list Z)) (b : list Z) (fuel : nat)
    (Hb : length b = 64%nat) (Hfuel : (63 <= fuel)%nat)
    (Hpieces : Forall (fun d => Forall is_u8 d /\ Z.of_nat (length d) + 64 < 2 ^ 32) pieces) :
  SHA1Final fuel (foldl SHA1Update (SHA1Init b) pieces) = Some (SHA1 (concat pieces), wiped).
Proof.
  apply final_digest; [| done].
  pose proof (absorbed_init b Hb) as H. change (concat pieces) with ([] ++ concat pieces).
  revert H. generalize (@nil Z) as m, (SHA1Init b) as c.
  induction Hpieces as [| d pieces [Hd Hl] _ IH]; intros m c Hc; [by rewrite app_nil_r |].
  cbn [foldl concat]. rewrite app_assoc. apply IH. by apply absorbed_update.
Qed.

(** Two pieces of "abc" and the digest of "abc" of the standard. *)
Lemma sha1_correct_witness :
  SHA1Final 63 (foldl SHA1Update (SHA1Init (repeat 7 64)) [[97]; [98; 99]])
  = Some ([0xA9; 0x99; 0x3E; 0x36; 0x47; 0x06; 0x81; 0x6A; 0xBA; 0x3E;
           0x25; 0x71; 0x78; 0x50; 0xC2; 0x6C; 0x9C; 0xD0; 0xD8; 0x9D], wiped).
Proof.
  rewrite (sha1_correct [[97]; [98; 99]] (repeat 7 64) 63 eq_refl (le_n 63)
    ltac:(repeat constructor; unfold is_u8; simpl; lia)).
  vm_compute. reflexivity.
Defined.
