(* ===== verification/Umm.v ===== *)
(** * umm_malloc, the heap allocator of the ESP8266 core

    Models [ESP/cores/esp8266/umm_malloc/umm_malloc.c] in its default
    configuration (best fit; integrity check and poisoning are compiled out of
    the allocation functions, the check itself is modelled).

    The heap is the byte memory that the C code overlays with an array of
    8-byte blocks: two 16-bit block links, then two 16-bit free links that share
    their bytes with the user's data.  An access to a block outside of the array
    is a fault ([None]), as is a loop that does not end within as many turns as
    there are blocks. *)

From S2P Require Import Prelude.

(** ** Configuration and state *)

(** The address of [_heap_start] comes from the linker. *)
Class HeapCfg := { heap_addr : Z }.

Definition UMM_FREELIST_MASK : Z := 0x8000.
Definition UMM_BLOCKNO_MASK : Z := 0x7FFF.
Definition sizeof_umm_block : Z := 8.
Definition sizeof_body : Z := 4.
Definition sizeof_header : Z := 4.
Definition NULL : Z := 0.

(** [UMM_HEAP_INFO] *)
Record heap_info := mkInfo {
  totalEntries : Z; usedEntries : Z; freeEntries : Z;
  totalBlocks : Z; usedBlocks : Z; freeBlocks : Z;
  maxFreeContiguousBlocks : Z; freeSize2 : Z
}.

(** The variables of the allocator, the memory, the depth of the critical
    section and the record of the last failure. *)
Record ustate := mkU {
  umm_heap : Z; umm_numblocks : Z; mem : Z -> Z; depth : Z;
  umm_last_fail_alloc_addr : Z; umm_last_fail_alloc_size : Z; ummHeapInfo : heap_info
}.

Definition set_mem (m : Z -> Z) (s : ustate) : ustate :=
  mkU (umm_heap s) (umm_numblocks s) m (depth s) (umm_last_fail_alloc_addr s)
    (umm_last_fail_alloc_size s) (ummHeapInfo s).
Definition set_depth (d : Z) (s : ustate) : ustate :=
  mkU (umm_heap s) (umm_numblocks s) (mem s) d (umm_last_fail_alloc_addr s)
    (umm_last_fail_alloc_size s) (ummHeapInfo s).
Definition set_array (p n : Z) (s : ustate) : ustate :=
  mkU p n (mem s) (depth s) (umm_last_fail_alloc_addr s) (umm_last_fail_alloc_size s) (ummHeapInfo s).
Definition set_failure (a n : Z) (s : ustate) : ustate :=
  mkU (umm_heap s) (umm_numblocks s) (mem s) (depth s) a n (ummHeapInfo s).
Definition set_info (i : heap_info) (s : ustate) : ustate :=
  mkU (umm_heap s) (umm_numblocks s) (mem s) (depth s) (umm_last_fail_alloc_addr s)
    (umm_last_fail_alloc_size s) i.

(** ** Programs *)

Definition U (A : Type) : Type := ustate -> option (A * ustate).
Definition uret {A} (a : A) : U A := fun s => Some (a, s).
Definition ubind {A B} (m : U A) (k : A -> U B) : U B := fun s =>
  match m s with Some (a, s') => k a s' | None => None end.
Definition ufault {A} : U A := fun _ => None.
Definition uget {A} (f : ustate -> A) : U A := fun s => Some (f s, s).
Definition uput (f : ustate -> ustate) : U unit := fun s => Some (tt, f s).

Declare Scope umm_scope.
Delimit Scope umm_scope with umm.
Notation "x <- m ;; k" := (ubind m (fun x => k))
  (at level 100, m at next level, right associativity) : umm_scope.
Notation "m ;; k" := (ubind m (fun _ => k))
  (at level 100, right associativity) : umm_scope.
Open Scope umm_scope.

Definition UMM_CRITICAL_ENTRY : U unit := uput (fun s => set_depth (depth s + 1) s).
Definition UMM_CRITICAL_EXIT : U unit := uput (fun s => set_depth (depth s - 1) s).

(** ** The array of blocks *)

(** [header.used.next], [header.used.prev], [body.free.next], [body.free.prev] *)
Inductive field := NBLOCK | PBLOCK | NFREE | PFREE.
Definition offset (f : field) : Z :=
  match f with NBLOCK => 0 | PBLOCK => 2 | NFREE => 4 | PFREE => 6 end.

Definition load16 (m : Z -> Z) (a : Z) : Z := m a + 256 * m (a + 1).
Definition store16 (m : Z -> Z) (a v : Z) : Z -> Z :=
  fun x => if x =? a then u8 v else if x =? a + 1 then u8 (v / 256) else m x.

Definition block_addr (s : ustate) (b : Z) : Z := umm_heap s + sizeof_umm_block * b.
Definition in_array (s : ustate) (b : Z) : bool := (0 <=? b) && (b <? umm_numblocks s).

(** The value of a field and the memory after an assignment to it. *)
Definition fld (s : ustate) (f : field) (b : Z) : Z := load16 (mem s) (block_addr s b + offset f).
Definition set_fld (f : field) (b v : Z) (s : ustate) : ustate :=
  set_mem (store16 (mem s) (block_addr s b + offset f) v) s.

(** [UMM_NBLOCK(b)] and the like, read and assigned *)
Definition rd (f : field) (b : Z) : U Z := fun s =>
  if in_array s b then Some (fld s f b, s) else None.
Definition wr (f : field) (b v : Z) : U unit := fun s =>
  if in_array s b then Some (tt, set_fld f b (u16 v) s) else None.

(** [&UMM_DATA(b)] *)
Definition UMM_DATA (b : Z) : U Z := uget (fun s => block_addr s b + sizeof_header).

(** Blocks of memory; they must be in the array.  [memcpy] is [memmove]. *)
Definition in_heap (s : ustate) (a n : Z) : bool :=
  (umm_heap s <=? a) && (a + n <=? umm_heap s + sizeof_umm_block * umm_numblocks s).
Definition memmove (dst src n : Z) : U unit := fun s =>
  if in_heap s dst n && in_heap s src n
  then Some (tt, set_mem (fun a => if (dst <=? a) && (a <? dst + n) then mem s (a - dst + src) else mem s a) s)
  else None.
Definition memset (dst v n : Z) : U unit := fun s =>
  if in_heap s dst n
  then Some (tt, set_mem (fun a => if (dst <=? a) && (a <? dst + n) then v else mem s a) s)
  else None.

Section Umm.
Context {Cfg : HeapCfg}.

(** ** Helpers *)

Definition umm_blocks (size : Z) : Z :=
  if size <=? sizeof_body then 1
  else u16 (2 + (size - (1 + sizeof_body)) / sizeof_umm_block).

Definition umm_make_new_block (c blocks cur_freemask new_freemask : Z) : U unit :=
  n <- rd NBLOCK c ;;
  wr NBLOCK (c + blocks) (Z.lor (Z.land n UMM_BLOCKNO_MASK) new_freemask) ;;
  wr PBLOCK (c + blocks) c ;;
  n <- rd NBLOCK c ;;
  wr PBLOCK (Z.land n UMM_BLOCKNO_MASK) (c + blocks) ;;
  wr NBLOCK c (Z.lor (c + blocks) cur_freemask).

Definition umm_disconnect_from_free_list (c : Z) : U unit :=
  p <- rd PFREE c ;; n <- rd NFREE c ;; wr NFREE p n ;;
  n <- rd NFREE c ;; p <- rd PFREE c ;; wr PFREE n p ;;
  n <- rd NBLOCK c ;; wr NBLOCK c (Z.land n (Z.lnot UMM_FREELIST_MASK)).

Definition umm_assimilate_up (c : Z) : U unit :=
  n <- rd NBLOCK c ;;
  nn <- rd NBLOCK n ;;
  if bit_set nn UMM_FREELIST_MASK then
    umm_disconnect_from_free_list n ;;
    n <- rd NBLOCK c ;; nn <- rd NBLOCK n ;;
    wr PBLOCK (Z.land nn UMM_BLOCKNO_MASK) c ;;
    n <- rd NBLOCK c ;; nn <- rd NBLOCK n ;;
    wr NBLOCK c (Z.land nn UMM_BLOCKNO_MASK)
  else uret tt.

Definition umm_assimilate_down (c freemask : Z) : U Z :=
  p <- rd PBLOCK c ;; n <- rd NBLOCK c ;;
  wr NBLOCK p (Z.lor n freemask) ;;
  n <- rd NBLOCK c ;; p <- rd PBLOCK c ;;
  wr PBLOCK n p ;;
  rd PBLOCK c.

(** ** Initialisation *)

Definition umm_init : U unit :=
  let size := u32 (0x3fffc000 - heap_addr) in
  uput (set_array heap_addr (u16 (size / sizeof_umm_block))) ;;
  uput (fun s => set_mem (fun a => if (heap_addr <=? a) && (a <? heap_addr + size) then 0 else mem s a) s) ;;
  n <- uget umm_numblocks ;;
  let block_last := u16 (n - 1) in
  wr NBLOCK 0 1 ;;
  wr NFREE 0 1 ;;
  wr NBLOCK 1 (Z.lor block_last UMM_FREELIST_MASK) ;;
  wr NFREE 1 0 ;;
  wr PBLOCK 1 0 ;;
  wr PFREE 1 0 ;;
  wr NBLOCK block_last 0 ;;
  wr PBLOCK block_last 1.

Definition ensure_init : U unit :=
  h <- uget umm_heap ;; if h =? NULL then umm_init else uret tt.

(** ** Free *)

(** The block of a pointer: [(((char * )ptr)-(char * )(&(umm_heap[0])))/sizeof(umm_block)] *)
Definition block_of (ptr : Z) : U Z :=
  h <- uget umm_heap ;; uret (u16 (u32 (ptr - h) / sizeof_umm_block)).

(** The block is added to the head of the free list. *)
Definition push_free (c : Z) : U unit :=
  h <- rd NFREE 0 ;; wr PFREE h c ;;
  h <- rd NFREE 0 ;; wr NFREE c h ;;
  wr PFREE c 0 ;;
  wr NFREE 0 c ;;
  n <- rd NBLOCK c ;; wr NBLOCK c (Z.lor n UMM_FREELIST_MASK).

Definition _umm_free (ptr : Z) : U unit :=
  if ptr =? NULL then uret tt else
  UMM_CRITICAL_ENTRY ;;
  c <- block_of ptr ;;
  umm_assimilate_up c ;;
  p <- rd PBLOCK c ;;
  np <- rd NBLOCK p ;;
  (if bit_set np UMM_FREELIST_MASK then
     _ <- umm_assimilate_down c UMM_FREELIST_MASK ;; uret tt
   else push_free c) ;;
  UMM_CRITICAL_EXIT.

(** ** Malloc *)

(** The search, [while (cf)], for the smallest free block of at least [blocks]:
    the final [cf], [blockSize], [bestBlock] and [bestSize]. *)
Fixpoint scan (k : nat) (blocks cf blockSize bestBlock bestSize : Z) : U (Z * Z * Z * Z) :=
  if cf =? 0 then uret (cf, blockSize, bestBlock, bestSize) else
  match k with
  | O => ufault
  | S k' =>
      n <- rd NBLOCK cf ;;
      let blockSize := u16 (Z.land n UMM_BLOCKNO_MASK - cf) in
      let better := (blocks <=? blockSize) && (blockSize <? bestSize) in
      next <- rd NFREE cf ;;
      scan k' blocks next blockSize (if better then cf else bestBlock) (if better then blockSize else bestSize)
  end.

(** Splitting a free block that is too large. *)
Definition split_free (cf blocks : Z) : U unit :=
  umm_make_new_block cf blocks 0 UMM_FREELIST_MASK ;;
  p <- rd PFREE cf ;; wr NFREE p (cf + blocks) ;;
  p <- rd PFREE cf ;; wr PFREE (cf + blocks) p ;;
  n <- rd NFREE cf ;; wr PFREE n (cf + blocks) ;;
  n <- rd NFREE cf ;; wr NFREE (cf + blocks) n.

Definition _umm_malloc (size : Z) : U Z :=
  ensure_init ;;
  if size =? 0 then uret NULL else
  UMM_CRITICAL_ENTRY ;;
  let blocks := umm_blocks size in
  cf <- rd NFREE 0 ;;
  bestBlock <- rd NFREE 0 ;;
  fuel <- uget umm_numblocks ;;
  r <- scan (Z.to_nat fuel) blocks cf 0 bestBlock 0x7FFF ;;
  let '(cf, blockSize, bestBlock, bestSize) := r in
  let found := negb (0x7FFF =? bestSize) in
  let cf := if found then bestBlock else cf in
  let blockSize := if found then bestSize else blockSize in
  n <- rd NBLOCK cf ;;
  if truth (Z.land n UMM_BLOCKNO_MASK) && (blocks <=? blockSize) then
    (if blockSize =? blocks then umm_disconnect_from_free_list cf else split_free cf blocks) ;;
    UMM_CRITICAL_EXIT ;;
    UMM_DATA cf
  else
    UMM_CRITICAL_EXIT ;;
    uret NULL.

(** ** Realloc *)

(** The block in front is taken too if it is free and the request then fits; the
    data moves down.  The new block and its pointer. *)
Definition realloc_down (c ptr blocks curSize : Z) : U (Z * Z) :=
  p <- rd PBLOCK c ;;
  np <- rd NBLOCK p ;;
  n <- rd NBLOCK c ;;
  if bit_set np UMM_FREELIST_MASK && (blocks <=? n - p) then
    umm_disconnect_from_free_list p ;;
    c <- umm_assimilate_down c 0 ;;
    d <- UMM_DATA c ;;
    memmove d ptr curSize ;;
    uret (c, d)
  else uret (c, ptr).

(** "Make a new block at the end of this one and put it up on the free list" *)
Definition shrink (c blocks : Z) : U unit :=
  umm_make_new_block c blocks 0 0 ;;
  d <- UMM_DATA (c + blocks) ;;
  _umm_free d.

(** The three cases by the size that the block has now. *)
Definition realloc_resize (c ptr size blocks curSize : Z) : U Z :=
  n <- rd NBLOCK c ;;
  let blockSize := u16 (n - c) in
  if blockSize =? blocks then uret ptr
  else if blocks <? blockSize then shrink c blocks ;; uret ptr
  else
    new <- _umm_malloc size ;;
    if new =? NULL then uret NULL else
    memmove new ptr curSize ;;
    _umm_free ptr ;;
    uret new.

Definition _umm_realloc (ptr size : Z) : U Z :=
  ensure_init ;;
  if ptr =? NULL then _umm_malloc size else
  if size =? 0 then _umm_free ptr ;; uret NULL else
  UMM_CRITICAL_ENTRY ;;
  let blocks := umm_blocks size in
  c <- block_of ptr ;;
  n <- rd NBLOCK c ;;
  let blockSize := u16 (n - c) in
  let curSize := u32 (blockSize * sizeof_umm_block - sizeof_header) in
  if blockSize =? blocks then UMM_CRITICAL_EXIT ;; uret ptr else
  umm_assimilate_up c ;;
  r <- realloc_down c ptr blocks curSize ;;
  ptr <- realloc_resize (fst r) (snd r) size blocks curSize ;;
  UMM_CRITICAL_EXIT ;;
  uret ptr.

(** ** The functions of the interface

    [caller] is [__builtin_return_address(0)]. *)

Definition record_failure (caller size ret : Z) : U unit :=
  if negb (0 =? size) && (0 =? ret) then uput (set_failure caller size) else uret tt.

Definition umm_malloc (caller size : Z) : U Z :=
  ret <- _umm_malloc size ;;
  record_failure caller size ret ;;
  uret ret.

Definition umm_calloc (caller num item_size : Z) : U Z :=
  let size := u32 (item_size * num) in
  ret <- _umm_malloc size ;;
  (if ret =? NULL then uret tt else memset ret 0 size) ;;
  record_failure caller size ret ;;
  uret ret.

Definition umm_realloc (caller ptr size : Z) : U Z :=
  ret <- _umm_realloc ptr size ;;
  record_failure caller size ret ;;
  uret ret.

Definition umm_free (ptr : Z) : U unit := _umm_free ptr.

(** ** Integrity check *)

(** The first loop: follow the free list and mark its blocks.  The result tells
    whether the list is intact. *)
Fixpoint check_free_list (k : nat) (prev : Z) : U bool :=
  cur <- rd NFREE prev ;;
  n <- uget umm_numblocks ;;
  if n <=? cur then uret false else
  if cur =? 0 then uret true else
  p <- rd PFREE cur ;;
  if negb (p =? prev) then uret false else
  v <- rd PBLOCK cur ;; wr PBLOCK cur (Z.lor v UMM_FREELIST_MASK) ;;
  match k with
  | O => ufault
  | S k' => check_free_list k' cur
  end.

(** The second loop: follow the blocks, compare and remove the marks. *)
Fixpoint check_blocks (k : nat) (prev : Z) : U bool :=
  v <- rd NBLOCK prev ;;
  let cur := Z.land v UMM_BLOCKNO_MASK in
  n <- uget umm_numblocks ;;
  if n <=? cur then uret false else
  if cur =? 0 then uret true else
  nb <- rd NBLOCK cur ;;
  pb <- rd PBLOCK cur ;;
  if negb (Z.land nb UMM_FREELIST_MASK =? Z.land pb UMM_FREELIST_MASK) then uret false else
  pb <- rd PBLOCK cur ;; wr PBLOCK cur (Z.land pb UMM_BLOCKNO_MASK) ;;
  pb <- rd PBLOCK cur ;;
  if negb (pb =? prev) then uret false else
  match k with
  | O => ufault
  | S k' => check_blocks k' cur
  end.

(** The messages on the console and the call of [UMM_HEAP_CORRUPTION_CB] when
    the result is false are left out. *)
Definition integrity_check : U bool :=
  ensure_init ;;
  fuel <- uget umm_numblocks ;;
  ok <- check_free_list (Z.to_nat fuel) 0 ;;
  if ok : bool then check_blocks (Z.to_nat fuel) 0 else uret false.

(** ** Statistics *)

Definition info_zero : heap_info := mkInfo 0 0 0 0 0 0 0 0.

Definition count_free (n : Z) (i : heap_info) : heap_info :=
  mkInfo (u16 (totalEntries i + 1)) (usedEntries i) (u16 (freeEntries i + 1))
    (u16 (totalBlocks i + n)) (usedBlocks i) (u16 (freeBlocks i + n))
    (if maxFreeContiguousBlocks i <? n then u16 n else maxFreeContiguousBlocks i)
    (u32 (freeSize2 i + n * 8 * n * 8)).
Definition count_used (n : Z) (i : heap_info) : heap_info :=
  mkInfo (u16 (totalEntries i + 1)) (u16 (usedEntries i + 1)) (freeEntries i)
    (u16 (totalBlocks i + n)) (u16 (usedBlocks i + n)) (freeBlocks i)
    (maxFreeContiguousBlocks i) (freeSize2 i).
(** The last block: "the rest must be free". *)
Definition count_last (n : Z) (i : heap_info) : heap_info :=
  mkInfo (totalEntries i) (usedEntries i) (freeEntries i)
    (u16 (totalBlocks i + n)) (usedBlocks i) (u16 (freeBlocks i + n))
    (if maxFreeContiguousBlocks i <? n then u16 n else maxFreeContiguousBlocks i) (freeSize2 i).

(** [while (UMM_NBLOCK(blockNo) & UMM_BLOCKNO_MASK)]; a free block at the address
    [ptr] ends the function, which then returns [ptr]. *)
Fixpoint info_loop (k : nat) (ptr blockNo : Z) : U Z :=
  v <- rd NBLOCK blockNo ;;
  let next := Z.land v UMM_BLOCKNO_MASK in
  if next =? 0 then
    n <- uget umm_numblocks ;;
    uput (fun s => set_info (count_last (u32 (n - blockNo)) (ummHeapInfo s)) s) ;;
    UMM_CRITICAL_EXIT ;; uret NULL
  else
    let curBlocks := u32 (next - blockNo) in
    a <- uget (fun s => block_addr s blockNo) ;;
    let free := bit_set v UMM_FREELIST_MASK in
    uput (fun s => set_info ((if free then count_free else count_used) curBlocks (ummHeapInfo s)) s) ;;
    if free && (ptr =? a) then UMM_CRITICAL_EXIT ;; uret ptr
    else match k with
         | O => ufault
         | S k' => info_loop k' ptr next
         end.

Definition umm_info (ptr : Z) : U Z :=
  ensure_init ;;
  UMM_CRITICAL_ENTRY ;;
  uput (set_info info_zero) ;;
  v <- rd NBLOCK 0 ;;
  fuel <- uget umm_numblocks ;;
  info_loop (Z.to_nat fuel) ptr (Z.land v UMM_BLOCKNO_MASK).

Definition umm_free_heap_size : U Z :=
  umm_info NULL ;; i <- uget ummHeapInfo ;; uret (u32 (freeBlocks i * sizeof_umm_block)).
Definition umm_max_block_size : U Z :=
  umm_info NULL ;; i <- uget ummHeapInfo ;; uret (u32 (maxFreeContiguousBlocks i * sizeof_umm_block)).
End Umm.
