(* ===== verification/UmmHeap.v ===== *)
(** * umm_malloc: the shape of the heap

    The heap as a sequence of segments (size in blocks, free or used) with the
    two chains that the allocator keeps in the headers, and what the elementary
    operations on the chains do to them. *)

From stdpp Require Import sorting.
From S2P Require Import Prelude Umm.

(** ** Fields *)

#[export] Instance field_eq : EqDecision field.
Proof. solve_decision. Defined.

(** Case analysis on the first equality test of the goal. *)
Ltac eqb_case := match goal with |- context [?a =? ?b] => destruct (Z.eqb_spec a b) end.

Lemma load_store16 m a v : is_u16 v -> load16 (store16 m a v) a = v.
Proof.
  intros H. unfold is_u16 in H. unfold load16, store16.
  rewrite Z.eqb_refl, Z.eqb_refl. replace (a + 1 =? a) with false by lia. unfold u8. mlia.
Qed.

Lemma load_store16_ne m a b v : a + 1 < b \/ b + 1 < a -> load16 (store16 m a v) b = load16 m b.
Proof.
  intros H. unfold load16, store16. by repeat (eqb_case; [lia |]).
Qed.

Lemma offset_range f : 0 <= offset f <= 6.
Proof. destruct f; simpl; lia. Qed.

Lemma offset_apart f g : f <> g -> offset f + 1 < offset g \/ offset g + 1 < offset f.
Proof. destruct f, g; simpl; intros; congruence || lia. Qed.

(** Reading a field after an assignment. *)
Lemma fld_set_eq s f b v : is_u16 v -> fld (set_fld f b v s) f b = v.
Proof. intros H. unfold fld, set_fld. by apply load_store16. Qed.

Lemma fld_set_ne s f b v g c : f <> g \/ b <> c -> fld (set_fld f b v s) g c = fld s g c.
Proof.
  intros H. unfold fld, set_fld, block_addr, sizeof_umm_block. simpl.
  pose proof (offset_range f). pose proof (offset_range g). apply load_store16_ne.
  destruct (decide (b = c)) as [-> |]; [| lia].
  destruct (offset_apart f g) as [? | ?]; [by destruct H | lia | lia].
Qed.

Lemma fld_set s f b v g c : is_u16 v ->
  fld (set_fld f b v s) g c = if decide (f = g /\ b = c) then v else fld s g c.
Proof.
  intros Hv. destruct (decide _) as [[-> ->] | Hn]; [by apply fld_set_eq |].
  apply fld_set_ne. destruct (decide (f = g)); naive_solver.
Qed.

(** An assignment touches the two bytes of its field. *)
Lemma mem_set_fld s f b v a :
  ~ (block_addr s b + offset f <= a < block_addr s b + offset f + 2) ->
  mem (set_fld f b v s) a = mem s a.
Proof.
  intros H. unfold set_fld, store16. simpl. by repeat (eqb_case; [lia |]).
Qed.

(** A state in which only fields were assigned. *)
Definition same_frame (s s' : ustate) : Prop :=
  umm_heap s' = umm_heap s /\ umm_numblocks s' = umm_numblocks s /\ depth s' = depth s /\
  umm_last_fail_alloc_addr s' = umm_last_fail_alloc_addr s /\
  umm_last_fail_alloc_size s' = umm_last_fail_alloc_size s /\ ummHeapInfo s' = ummHeapInfo s.

(** A sequence of assignments. *)
Fixpoint writes (l : list (field * Z * Z)) (s : ustate) : ustate :=
  match l with
  | [] => s
  | (f, b, v) :: l' => writes l' (set_fld f b v s)
  end.

Lemma writes_frame l s : same_frame s (writes l s).
Proof.
  revert s. induction l as [| [[f b] v] l IH]; intros s; [by repeat split |].
  destruct (IH (set_fld f b v s)) as (H1 & H2 & H3 & H4 & H5 & H6). by repeat split.
Qed.

Lemma writes_mem l s a :
  Forall (fun w => ~ (block_addr s w.1.2 + offset w.1.1 <= a < block_addr s w.1.2 + offset w.1.1 + 2)) l ->
  mem (writes l s) a = mem s a.
Proof.
  revert s. induction l as [| [[f b] v] l IH]; intros s Hl; [done |].
  inversion Hl as [| ? ? H1 H2]; subst. simpl in *.
  rewrite IH by exact H2. by apply mem_set_fld.
Qed.

Lemma writes_app l l' s : writes (l ++ l') s = writes l' (writes l s).
Proof. revert s. induction l as [| [[f b] v] l IH]; intros s; [done |]. apply IH. Qed.

(** ** Running *)

Lemma ubind_ok {A B} (m : U A) (k : A -> U B) s a s' :
  m s = Some (a, s') -> ubind m k s = k a s'.
Proof. intros H. unfold ubind. by rewrite H. Qed.

Lemma rd_ok f b s : 0 <= b < umm_numblocks s -> rd f b s = Some (fld s f b, s).
Proof. intros H. unfold rd, in_array. by replace (_ && _) with true by lia. Qed.

Lemma wr_ok f b v s : 0 <= b < umm_numblocks s -> is_u16 v -> wr f b v s = Some (tt, set_fld f b v s).
Proof.
  intros H Hv. unfold wr, in_array. replace (_ && _) with true by lia. by rewrite u16_id.
Qed.

(** ** Flags *)

Definition flag (free : bool) : Z := if free then 0x8000 else 0.

Lemma link_mask x free : 0 <= x < 0x8000 -> Z.land (x + flag free) UMM_BLOCKNO_MASK = x.
Proof.
  intros H. unfold UMM_BLOCKNO_MASK, flag. change 0x7FFF with (Z.ones 15). rewrite Z.land_ones by lia.
  change (2 ^ 15) with 32768. destruct free; mlia.
Qed.

Lemma link_bit x free : 0 <= x < 0x8000 -> Z.land (x + flag free) UMM_FREELIST_MASK = flag free.
Proof.
  intros H. unfold UMM_FREELIST_MASK, flag. apply z_ext. intros k Hk. rewrite Z.land_spec. change 0x8000 with (2 ^ 15).
  rewrite Z.pow2_bits_eqb by lia. destruct (Z.eqb_spec 15 k) as [<- | Hn].
  - rewrite andb_true_r. destruct free.
    + rewrite Z.pow2_bits_true by lia.
      replace (x + 2 ^ 15) with (Z.lor (Z.shiftl 1 15) x) by (rewrite lor_disjoint_add; lia).
      rewrite Z.lor_spec, Z.shiftl_spec by lia. done.
    + rewrite Z.add_0_r, Z.bits_0. apply (testbit_small x 15); lia.
  - rewrite andb_false_r. destruct free; [by rewrite Z.pow2_bits_false by lia | by rewrite Z.bits_0].
Qed.

Lemma link_flag x free : 0 <= x < 0x8000 -> bit_set (x + flag free) UMM_FREELIST_MASK = free.
Proof. intros H. unfold bit_set, truth. rewrite link_bit by done. by destruct free. Qed.

Lemma link_or x : 0 <= x < 0x8000 -> Z.lor x UMM_FREELIST_MASK = x + flag true.
Proof.
  intros H. unfold UMM_FREELIST_MASK, flag. rewrite Z.lor_comm.
  change 0x8000 with (Z.shiftl 1 15) at 1. rewrite lor_disjoint_add by lia. lia.
Qed.

Lemma link_clear x free : 0 <= x < 0x8000 -> Z.land (x + flag free) (Z.lnot UMM_FREELIST_MASK) = x.
Proof.
  intros H. rewrite <- Z.ldiff_land.
  assert (Hx : Z.ldiff x UMM_FREELIST_MASK = x).
  { apply z_ext. intros k Hk. rewrite Z.ldiff_spec. unfold UMM_FREELIST_MASK. change 0x8000 with (2 ^ 15).
    rewrite Z.pow2_bits_eqb by lia. destruct (Z.eqb_spec 15 k) as [<- | Hn]; [| by rewrite andb_true_r].
    rewrite (testbit_small x 15) by lia. done. }
  destruct free; unfold flag; [| by rewrite Z.add_0_r].
  replace (x + 0x8000) with (Z.lor x UMM_FREELIST_MASK) by (rewrite link_or by done; done).
  apply z_ext. intros k Hk. rewrite Z.ldiff_spec, Z.lor_spec.
  rewrite <- Hx at 2. rewrite Z.ldiff_spec. by destruct (Z.testbit x k), (Z.testbit UMM_FREELIST_MASK k).
Qed.

Lemma flag_u16 x free : 0 <= x < 0x8000 -> is_u16 (x + flag free).
Proof. unfold is_u16, flag. destruct free; lia. Qed.

(** ** Segments and the chain of blocks *)

(** Size in blocks, and whether it is free. *)
Definition seg : Type := Z * bool.

Fixpoint total (l : list seg) : Z :=
  match l with
  | [] => 0
  | (n, _) :: l' => n + total l'
  end.

(** Start of the last segment of [l], [prev] if there is none. *)
Fixpoint last_start (prev p : Z) (l : list seg) : Z :=
  match l with
  | [] => prev
  | (n, _) :: l' => last_start p (p + n) l'
  end.

(** The starts of the free segments; starts and sizes of the used ones. *)
Fixpoint free_starts (p : Z) (l : list seg) : list Z :=
  match l with
  | [] => []
  | (n, free) :: l' => if free : bool then p :: free_starts (p + n) l' else free_starts (p + n) l'
  end.
Fixpoint used (p : Z) (l : list seg) : list (Z * Z) :=
  match l with
  | [] => []
  | (n, free) :: l' => if free : bool then used (p + n) l' else (p, n) :: used (p + n) l'
  end.

(** The block links from [p] on, up to the block that ends the heap. *)
Fixpoint chain (h : field -> Z -> Z) (prev p : Z) (l : list seg) : Prop :=
  h PBLOCK p = prev /\
  match l with
  | [] => h NBLOCK p = 0
  | (n, free) :: l' => 0 < n /\ h NBLOCK p = p + n + flag free /\ chain h p (p + n) l'
  end.

Definition positive (l : list seg) : Prop := Forall (fun x => 0 < x.1) l.

Lemma total_app l r : total (l ++ r) = total l + total r.
Proof. induction l as [| [n f] l IH]; simpl; lia. Qed.
Lemma total_nonneg l : positive l -> 0 <= total l.
Proof. induction 1 as [| [n f] l Hn _ IH]; simpl in *; lia. Qed.

Lemma chain_positive h prev p l : chain h prev p l -> positive l.
Proof.
  revert prev p. induction l as [| [n f] l IH]; intros prev p H; [constructor |].
  destruct H as (_ & Hn & _ & H). constructor; [done | by eapply IH].
Qed.

Lemma free_starts_app p l r : free_starts p (l ++ r) = free_starts p l ++ free_starts (p + total l) r.
Proof.
  revert p. induction l as [| [n f] l IH]; intros p; simpl; [by rewrite Z.add_0_r |].
  rewrite IH, Z.add_assoc. by destruct f.
Qed.
Lemma used_app p l r : used p (l ++ r) = used p l ++ used (p + total l) r.
Proof.
  revert p. induction l as [| [n f] l IH]; intros p; simpl; [by rewrite Z.add_0_r |].
  rewrite IH, Z.add_assoc. by destruct f.
Qed.
Lemma last_start_snoc prev p l n f : last_start prev p (l ++ [(n, f)]) = p + total l.
Proof.
  revert prev p. induction l as [| [m g] l IH]; intros prev p; simpl; [lia |]. rewrite IH. lia.
Qed.

(** Free starts and used segments are where their list is. *)
Lemma free_starts_range p l x : positive l -> x ∈ free_starts p l -> p <= x < p + total l.
Proof.
  intros Hl. revert p. induction Hl as [| [n f] l Hn Hl IH]; intros p Hx; [by apply elem_of_nil in Hx |].
  pose proof (total_nonneg l Hl). simpl in *. destruct f.
  - apply elem_of_cons in Hx as [-> | Hx]; [lia |]. specialize (IH _ Hx). lia.
  - specialize (IH _ Hx). lia.
Qed.
Lemma used_range p l b m : positive l -> (b, m) ∈ used p l -> 0 < m /\ p <= b /\ b + m <= p + total l.
Proof.
  intros Hl. revert p. induction Hl as [| [n f] l Hn Hl IH]; intros p Hx; [by apply elem_of_nil in Hx |].
  pose proof (total_nonneg l Hl). simpl in *. destruct f.
  - specialize (IH _ Hx). lia.
  - apply elem_of_cons in Hx as [[= -> ->] | Hx]; [lia |]. specialize (IH _ Hx). lia.
Qed.
(** A free segment does not start in a used one. *)
Lemma free_used_apart p l x b m :
  positive l -> x ∈ free_starts p l -> (b, m) ∈ used p l -> x < b \/ b + m <= x.
Proof.
  intros Hl. revert p. induction Hl as [| [n f] l Hn Hl IH]; intros p Hx Hb; [by apply elem_of_nil in Hx |].
  simpl in *. destruct f.
  - apply elem_of_cons in Hx as [-> | Hx]; [| by eapply IH].
    apply used_range in Hb; [lia | done].
  - apply elem_of_cons in Hb as [[= -> ->] | Hb]; [| by eapply IH].
    apply free_starts_range in Hx; [lia | done].
Qed.
Lemma free_starts_NoDup p l : positive l -> NoDup (free_starts p l).
Proof.
  intros Hl. revert p. induction Hl as [| [n f] l Hn Hl IH]; intros p; simpl; [constructor |].
  destruct f; [| apply IH]. constructor; [| apply IH].
  intros Hx. apply free_starts_range in Hx; [simpl in *; lia | done].
Qed.

(** A used segment and the segments around it. *)
Lemma used_split p l b m : (b, m) ∈ used p l ->
  exists l1 l2, l = l1 ++ (m, false) :: l2 /\ b = p + total l1.
Proof.
  revert p. induction l as [| [n f] l IH]; intros p H; [by apply elem_of_nil in H |].
  simpl in H. destruct f.
  - destruct (IH _ H) as (l1 & l2 & -> & ->). exists ((n, true) :: l1), l2. simpl. split; [done | lia].
  - apply elem_of_cons in H as [[= -> ->] | H].
    + exists [], l. simpl. split; [done | lia].
    + destruct (IH _ H) as (l1 & l2 & -> & ->). exists ((n, false) :: l1), l2. simpl. split; [done | lia].
Qed.
Lemma free_split p l x : x ∈ free_starts p l ->
  exists l1 m l2, l = l1 ++ (m, true) :: l2 /\ x = p + total l1.
Proof.
  revert p. induction l as [| [n f] l IH]; intros p H; [by apply elem_of_nil in H |].
  simpl in H. destruct f.
  - apply elem_of_cons in H as [-> | H].
    + exists [], n, l. simpl. split; [done | lia].
    + destruct (IH _ H) as (l1 & m & l2 & -> & ->). exists ((n, true) :: l1), m, l2. simpl. split; [done | lia].
  - destruct (IH _ H) as (l1 & m & l2 & -> & ->). exists ((n, false) :: l1), m, l2. simpl. split; [done | lia].
Qed.

(** ** Local changes of the chain *)

Lemma chain_split h prev p l r :
  chain h prev p (l ++ r) -> chain h (last_start prev p l) (p + total l) r.
Proof.
  revert prev p. induction l as [| [n f] l IH]; intros prev p H; simpl in *; [by rewrite Z.add_0_r |].
  destruct H as (_ & _ & _ & H). apply IH in H. by rewrite Z.add_assoc.
Qed.

(** What lies in front of a change is kept ... *)
Lemma chain_prefix h h' prev p l r r' :
  chain h prev p (l ++ r) ->
  (forall b, p <= b < p + total l -> h' NBLOCK b = h NBLOCK b /\ h' PBLOCK b = h PBLOCK b) ->
  chain h' (last_start prev p l) (p + total l) r' ->
  chain h' prev p (l ++ r').
Proof.
  revert prev p. induction l as [| [n f] l IH]; intros prev p H Hh Hr; simpl in *.
  - by rewrite Z.add_0_r in Hr.
  - destruct H as (H1 & Hn & H2 & H). pose proof (total_nonneg l) as Ht.
    assert (positive l) by (apply chain_positive in H; unfold positive in *; by apply Forall_app in H as [? _]).
    destruct (Hh p) as [E1 E2]; [specialize (Ht ltac:(done)); lia |].
    rewrite E1, E2. split_and!; [done | done | done |]. apply IH; [done | |].
    + intros b Hb. apply Hh. lia.
    + by rewrite <- Z.add_assoc.
Qed.

(** ... and what lies behind it, when the first link back is set. *)
Lemma chain_suffix h h' prev prev' p r :
  chain h prev p r ->
  (forall b, p <= b -> h' NBLOCK b = h NBLOCK b) -> (forall b, p < b -> h' PBLOCK b = h PBLOCK b) ->
  h' PBLOCK p = prev' -> chain h' prev' p r.
Proof.
  intros H Hn Hp E. destruct r as [| [n f] r]; simpl in *.
  - destruct H as [_ H]. split; [done |]. by rewrite Hn by lia.
  - destruct H as (_ & H0 & H1 & H). split_and!; [done | done | by rewrite Hn by lia |].
    clear E H1. revert p n H H0 Hn Hp. induction r as [| [m g] r IH]; intros p n H H0 Hn Hp; simpl in *.
    + destruct H as [H2 H3]. rewrite Hn, Hp by lia. done.
    + destruct H as (H2 & H3 & H4 & H). rewrite Hn, Hp by lia. split_and!; [done | done | done |].
      apply (IH (p + n) m); [done | done | |]; intros b Hb; [apply Hn | apply Hp]; lia.
Qed.

(** ** The free list *)

Fixpoint dll (h : field -> Z -> Z) (prev : Z) (l : list Z) : Prop :=
  match l with
  | [] => h NFREE prev = 0
  | x :: l' => h NFREE prev = x /\ h PFREE x = prev /\ dll h x l'
  end.

Lemma dll_ext h h' prev l : dll h prev l ->
  (forall x, x ∈ prev :: l -> h' NFREE x = h NFREE x) -> (forall x, x ∈ l -> h' PFREE x = h PFREE x) ->
  dll h' prev l.
Proof.
  revert prev. induction l as [| x l IH]; intros prev H Hn Hp; simpl in *.
  - rewrite Hn; [done | left].
  - destruct H as (H1 & H2 & H). rewrite Hn by left. rewrite Hp by left. split_and!; [done | done |].
    apply IH; [done | |]; intros y Hy; [apply Hn | apply Hp]; by right.
Qed.

Lemma last_indep {A} (l : list A) (d e y : A) : List.last (y :: l) d = List.last (y :: l) e.
Proof. revert y. induction l as [| z l IH]; intros y; [done |]. apply IH. Qed.

(** The neighbours of an element. *)
Lemma dll_around h prev l1 c l2 : dll h prev (l1 ++ c :: l2) ->
  h PFREE c = List.last l1 prev /\ h NFREE c = hd 0 l2.
Proof.
  revert prev. induction l1 as [| x l1 IH]; intros prev H; simpl in H.
  - destruct H as (_ & H & H'). split; [done |]. destruct l2; simpl in *; [done | tauto].
  - destruct H as (_ & _ & H). apply IH in H as [H1 H2]. split; [| done]. rewrite H1.
    destruct l1 as [| z l1]; [done |]. change (List.last (x :: z :: l1) prev) with (List.last (z :: l1) prev).
    apply last_indep.
Qed.

Lemma last_elem_of {A} (l : list A) d : List.last l d ∈ d :: l.
Proof.
  revert d. induction l as [| x l IH]; intros d; [left |].
  destruct l as [| y l]; [right; left |]. specialize (IH d). simpl in *.
  apply elem_of_cons in IH as [-> | IH]; [left |]. by right; right.
Qed.
Lemma hd_elem_of (l : list Z) : hd 0 l ∈ 0 :: l.
Proof. destruct l; [left | right; left]. Qed.

(** Replacing an element by another list, linked to the same neighbours. *)
Lemma dll_remove h h' prev l1 c l2 :
  dll h prev (l1 ++ c :: l2) -> NoDup (prev :: l1 ++ c :: l2) -> 0 ∉ l1 ++ c :: l2 ->
  h' NFREE (h PFREE c) = h NFREE c -> h' PFREE (h NFREE c) = h PFREE c ->
  (forall x, x ∈ prev :: l1 ++ l2 -> x <> h PFREE c -> h' NFREE x = h NFREE x) ->
  (forall x, x ∈ l1 ++ l2 -> x <> h NFREE c -> h' PFREE x = h PFREE x) ->
  dll h' prev (l1 ++ l2).
Proof.
  revert prev. induction l1 as [| a l1 IH]; intros prev H Hd H0 E1 E2 Hn Hp; simpl in *.
  - destruct H as (_ & H2 & H). rewrite H2 in *. apply NoDup_cons in Hd as [Hd Hd2].
    apply NoDup_cons in Hd2 as [Hd2 Hd3].
    destruct l2 as [| y l3]; simpl in *; [by rewrite E1 |]. destruct H as (H3 & H4 & H5).
    rewrite E1, <- H3. split_and!; [done | done |]. rewrite H3. rewrite H3 in *.
    apply NoDup_cons in Hd3 as [Hd4 _].
    apply (dll_ext h); [done | |].
    + intros x Hx. apply Hn; [by right |]. intros ->. apply Hd. by right.
    + intros x Hx. apply Hp; [by right |]. by intros ->.
  - pose proof (dll_around h a l1 c l2 ltac:(tauto)) as [A1 A2].
    destruct H as (H1 & H2 & H3). apply NoDup_cons in Hd as [Hd Hd2].
    rewrite Hn; [| left |].
    2:{ intros E. apply Hd. rewrite E, A1. pose proof (last_elem_of l1 a) as Hl.
        apply elem_of_cons in Hl as [-> | Hl]; [left |]. right. apply elem_of_app. by left. }
    rewrite Hp; [| left |].
    2:{ intros E. rewrite A2 in E. pose proof (hd_elem_of l2) as Hh. rewrite <- E in Hh.
        apply elem_of_cons in Hh as [-> | Hh]; [apply H0; left |].
        apply NoDup_cons in Hd2 as [Hd2 _]. apply Hd2. apply elem_of_app. right. by right. }
    split_and!; [done | done |]. apply IH; try done.
    + intros Hx. apply H0. by right.
    + intros x Hx. apply Hn. by right.
    + intros x Hx. apply Hp. by right.
Qed.

Lemma dll_replace h h' prev l1 c l2 c' :
  dll h prev (l1 ++ c :: l2) -> NoDup (prev :: l1 ++ c :: l2) -> 0 ∉ l1 ++ c :: l2 ->
  c' ∉ prev :: l1 ++ c :: l2 ->
  h' NFREE (h PFREE c) = c' -> h' PFREE c' = h PFREE c ->
  h' PFREE (h NFREE c) = c' -> h' NFREE c' = h NFREE c ->
  (forall x, x ∈ prev :: l1 ++ l2 -> x <> h PFREE c -> h' NFREE x = h NFREE x) ->
  (forall x, x ∈ l1 ++ l2 -> x <> h NFREE c -> h' PFREE x = h PFREE x) ->
  dll h' prev (l1 ++ c' :: l2).
Proof.
  revert prev. induction l1 as [| a l1 IH]; intros prev H Hd H0 Hc E1 E2 E3 E4 Hn Hp; simpl in *.
  - destruct H as (_ & H2 & H). rewrite H2 in *. apply NoDup_cons in Hd as [Hd Hd2].
    apply NoDup_cons in Hd2 as [Hd2 Hd3]. split_and!; [done | done |].
    destruct l2 as [| y l3]; simpl in *; [by rewrite E4 |]. destruct H as (H3 & H4 & H5). rewrite H3 in *.
    apply NoDup_cons in Hd3 as [Hd4 _]. split_and!; [done | done |]. apply (dll_ext h); [done | |].
    + intros x Hx. apply Hn; [by right |]. intros ->. apply Hd. by right.
    + intros x Hx. apply Hp; [by right |]. by intros ->.
  - pose proof (dll_around h a l1 c l2 ltac:(tauto)) as [A1 A2].
    destruct H as (H1 & H2 & H3). apply NoDup_cons in Hd as [Hd Hd2].
    rewrite Hn; [| left |].
    2:{ intros E. apply Hd. rewrite E, A1. pose proof (last_elem_of l1 a) as Hl.
        apply elem_of_cons in Hl as [-> | Hl]; [left |]. right. apply elem_of_app. by left. }
    rewrite Hp; [| left |].
    2:{ intros E. rewrite A2 in E. pose proof (hd_elem_of l2) as Hh. rewrite <- E in Hh.
        apply elem_of_cons in Hh as [-> | Hh]; [apply H0; left |].
        apply NoDup_cons in Hd2 as [Hd2 _]. apply Hd2. apply elem_of_app. right. by right. }
    split_and!; [done | done |]. apply IH; try done.
    + intros Hx. apply H0. by right.
    + intros Hx. apply Hc. by right.
    + intros x Hx. apply Hn. by right.
    + intros x Hx. apply Hp. by right.
Qed.

Lemma dll_push h h' c l :
  dll h 0 l -> NoDup (c :: l) -> 0 ∉ c :: l ->
  h' NFREE 0 = c -> h' PFREE c = 0 -> h' NFREE c = h NFREE 0 -> h' PFREE (h NFREE 0) = c ->
  (forall x, x ∈ l -> h' NFREE x = h NFREE x) ->
  (forall x, x ∈ l -> x <> h NFREE 0 -> h' PFREE x = h PFREE x) ->
  dll h' 0 (c :: l).
Proof.
  intros H Hd H0 E1 E2 E3 E4 Hn Hp. simpl. split_and!; [done | done |].
  apply NoDup_cons in Hd as [_ Hd].
  destruct l as [| y l]; simpl in *; [by rewrite E3 |]. destruct H as (H1 & H2 & H). rewrite H1 in *.
  split_and!; [done | done |]. apply NoDup_cons in Hd as [Hd _]. apply (dll_ext h); [done | |].
  - intros x Hx. by apply Hn.
  - intros x Hx. apply Hp; [by right |]. by intros ->.
Qed.

(** ** The elementary operations as assignments *)

Ltac uside := first [assumption | cbn [umm_numblocks set_fld set_mem writes]; unfold is_u16; lia].
Ltac fld_simpl :=
  repeat first [rewrite fld_set_ne by (first [left; discriminate | right; lia])
               | rewrite fld_set_eq by uside].
Ltac ustep :=
  lazymatch goal with
  | |- context [ubind (rd ?f ?b) ?k ?s] =>
      rewrite (ubind_ok (rd f b) k s _ _ (rd_ok f b s ltac:(uside))); cbv beta; fld_simpl
  | |- context [ubind (wr ?f ?b ?v) ?k ?s] =>
      rewrite (ubind_ok (wr f b v) k s _ _ (wr_ok f b v s ltac:(uside) ltac:(uside))); cbv beta
  end.

Section Ops.
Context (s : ustate).
Hypothesis Hn : umm_numblocks s <= 0x7FFF.

Lemma disconnect_run c x free :
  0 <= c < umm_numblocks s -> 0 <= fld s PFREE c < umm_numblocks s -> 0 <= fld s NFREE c < umm_numblocks s ->
  fld s NBLOCK c = x + flag free -> 0 <= x < 0x8000 ->
  umm_disconnect_from_free_list c s
  = Some (tt, writes [(NFREE, fld s PFREE c, fld s NFREE c); (PFREE, fld s NFREE c, fld s PFREE c);
                      (NBLOCK, c, x)] s).
Proof.
  intros Hc Hp Hf Hb Hx. unfold umm_disconnect_from_free_list.
  set (p := fld s PFREE c) in *. set (n := fld s NFREE c) in *.
  ustep. fold p. ustep. fold n. ustep. ustep.
  replace (fld (set_fld NFREE p n s) NFREE c) with n.
  2:{ destruct (decide (p = c)) as [-> |]; [by rewrite fld_set_eq by uside | by rewrite fld_set_ne by (by right)]. }
  ustep. fold p. ustep. ustep. rewrite Hb, link_clear by done.
  apply wr_ok; uside.
Qed.

Lemma assimilate_up_used c n y :
  0 <= c -> 0 < n -> c + n < umm_numblocks s -> fld s NBLOCK c = c + n ->
  fld s NBLOCK (c + n) = y -> 0 <= y < 0x8000 ->
  umm_assimilate_up c s = Some (tt, s).
Proof.
  intros Hc H0 Hcn Hb Hy Hr. unfold umm_assimilate_up. ustep. rewrite Hb. ustep. rewrite Hy.
  pose proof (link_flag y false Hr) as Hf. unfold flag in Hf. rewrite Z.add_0_r in Hf. by rewrite Hf.
Qed.

Lemma assimilate_up_free c n m :
  0 <= c -> 0 < n -> 0 < m -> c + n + m < umm_numblocks s -> fld s NBLOCK c = c + n ->
  fld s NBLOCK (c + n) = c + n + m + flag true ->
  0 <= fld s PFREE (c + n) < umm_numblocks s -> 0 <= fld s NFREE (c + n) < umm_numblocks s ->
  umm_assimilate_up c s
  = Some (tt, writes [(NFREE, fld s PFREE (c + n), fld s NFREE (c + n));
                      (PFREE, fld s NFREE (c + n), fld s PFREE (c + n)); (NBLOCK, c + n, c + n + m);
                      (PBLOCK, c + n + m, c); (NBLOCK, c, c + n + m)] s).
Proof.
  intros Hc H0 Hm Hcn Hb Hy Hp Hf. unfold umm_assimilate_up. ustep. rewrite Hb. ustep. rewrite Hy.
  rewrite link_flag by lia.
  rewrite (ubind_ok _ _ _ _ _ (disconnect_run (c + n) (c + n + m) true ltac:(lia) Hp Hf Hy ltac:(lia))).
  cbn [writes]. set (s3 := set_fld NBLOCK (c + n) _ _).
  assert (Ec : fld s3 NBLOCK c = c + n) by (unfold s3; fld_simpl; done).
  assert (En : fld s3 NBLOCK (c + n) = c + n + m + flag false).
  { unfold s3. fld_simpl. unfold flag. lia. }
  assert (H3 : umm_numblocks s3 = umm_numblocks s) by done. clearbody s3.
  ustep. rewrite Ec. ustep. rewrite En, link_mask by lia. ustep.
  ustep. rewrite Ec. ustep. rewrite En, link_mask by lia. apply wr_ok; uside.
Qed.

Lemma assimilate_down_run c free :
  0 <= fld s PBLOCK c -> fld s PBLOCK c < c -> c < fld s NBLOCK c -> fld s NBLOCK c < umm_numblocks s ->
  umm_assimilate_down c (flag free) s
  = Some (fld s PBLOCK c, writes [(NBLOCK, fld s PBLOCK c, fld s NBLOCK c + flag free);
                                  (PBLOCK, fld s NBLOCK c, fld s PBLOCK c)] s).
Proof.
  intros H0 H1 H2 H3. unfold umm_assimilate_down. ustep. ustep.
  assert (Hl : Z.lor (fld s NBLOCK c) (flag free) = fld s NBLOCK c + flag free).
  { destruct free; [apply link_or; lia |]. unfold flag. by rewrite Z.lor_0_r, Z.add_0_r. }
  rewrite Hl. pose proof (flag_u16 (fld s NBLOCK c) free ltac:(lia)).
  ustep. ustep. ustep. ustep. rewrite rd_ok by uside. cbn [writes]. fld_simpl. done.
Qed.

Lemma make_new_block_run c k x f0 cur new :
  0 <= c -> 0 < k -> c + k < x -> x < umm_numblocks s -> fld s NBLOCK c = x + flag f0 ->
  umm_make_new_block c k (flag cur) (flag new) s
  = Some (tt, writes [(NBLOCK, c + k, x + flag new); (PBLOCK, c + k, c); (PBLOCK, x, c + k);
                      (NBLOCK, c, c + k + flag cur)] s).
Proof.
  intros H0 H1 H2 H3 Hb. unfold umm_make_new_block.
  assert (Hl : forall y g, 0 <= y < 0x8000 -> Z.lor y (flag g) = y + flag g).
  { intros y g Hy. destruct g; [by apply link_or |]. unfold flag. by rewrite Z.lor_0_r, Z.add_0_r. }
  pose proof (flag_u16 x new ltac:(lia)). pose proof (flag_u16 (c + k) cur ltac:(lia)).
  ustep. rewrite Hb, link_mask, Hl by lia. ustep. ustep. ustep. rewrite Hb, link_mask by lia. ustep.
  rewrite Hl by lia. apply wr_ok; uside.
Qed.
End Ops.
