(* ===== verification/UmmOps.v ===== *)
(** * umm_malloc: the invariant of the heap and its operations

    [heap_ok] describes a heap as a sequence of segments together with the order
    of the free list.  Each operation on the chains takes such a heap to such a
    heap and keeps the data of the used segments. *)

From S2P Require Import Prelude Umm UmmHeap.

(** ** Fully coalesced heaps *)

Definition starts_free (l : list seg) : bool := match l with (_, f) :: _ => f | [] => false end.
Definition ends_free (l : list seg) : bool := starts_free (rev l).

(** No two free segments are neighbours. *)
Fixpoint coalesced (l : list seg) : Prop :=
  match l with
  | [] => True
  | (_, f) :: l' => (f = true -> starts_free l' = false) /\ coalesced l'
  end.

Lemma ends_free_snoc l n f : ends_free (l ++ [(n, f)]) = f.
Proof. unfold ends_free. by rewrite rev_app_distr. Qed.
Lemma ends_free_cons x y l : ends_free (x :: y :: l) = ends_free (y :: l).
Proof.
  unfold ends_free. simpl. by destruct (rev l) as [| z r].
Qed.

Lemma coalesced_app l r :
  coalesced (l ++ r) <-> coalesced l /\ coalesced r /\ (ends_free l = true -> starts_free r = false).
Proof.
  induction l as [| [n f] l IH]; simpl; [unfold ends_free; simpl; intuition congruence |].
  rewrite IH. destruct l as [| [m g] l]; simpl.
  - unfold ends_free. simpl. intuition congruence.
  - rewrite ends_free_cons. intuition congruence.
Qed.

(** The assignments of a list one by one. *)
Ltac each_write :=
  repeat apply Forall_cons_2; [.. | apply Forall_nil_2]; cbn [fst snd]; (split; [lia |]).

(** ** The invariant *)

Section Inv.
Context {Cfg : HeapCfg}.

(** The heap lies below 0x3fffc000 and has 3 to 32767 blocks. *)
Class HeapCfgOk : Prop := heap_range : 0x3fffc000 - 8 * 0x7FFF <= heap_addr <= 0x3fffc000 - 24.
Context {CfgOk : HeapCfgOk}.

Definition num_blocks : Z := (0x3fffc000 - heap_addr) / 8.

Lemma num_blocks_range : 3 <= num_blocks <= 0x7FFF.
Proof. pose proof heap_range. unfold num_blocks. mlia. Qed.

Record heap_ok (s : ustate) (segs : list seg) (fl : list Z) : Prop := {
  ok_addr : umm_heap s = heap_addr;
  ok_size : umm_numblocks s = 2 + total segs;
  ok_num : umm_numblocks s = num_blocks;
  ok_head : fld s NBLOCK 0 = 1;
  ok_chain : chain (fld s) 0 1 segs;
  ok_list : dll (fld s) 0 fl;
  ok_free : fl ≡ₚ free_starts 1 segs;
  ok_coalesced : coalesced segs
}.

Lemma ok_small s segs fl : heap_ok s segs fl -> umm_numblocks s <= 0x7FFF.
Proof. intros H. rewrite (ok_num _ _ _ H). apply num_blocks_range. Qed.

(** The data of the used segments [us], and everything outside of the heap, is
    the same in both states. *)
Definition keeps (us : list (Z * Z)) (s s' : ustate) : Prop :=
  (forall b m a, (b, m) ∈ us -> block_addr s b + 4 <= a < block_addr s (b + m) -> mem s' a = mem s a) /\
  (forall a, ~ (umm_heap s <= a < umm_heap s + 8 * umm_numblocks s) -> mem s' a = mem s a).

Lemma keeps_refl us s : keeps us s s.
Proof. done. Qed.
Lemma keeps_trans us s1 s2 s3 :
  same_frame s1 s2 -> keeps us s1 s2 -> keeps us s2 s3 -> keeps us s1 s3.
Proof.
  intros (E1 & E2 & _) [H1 H2] [H3 H4]. unfold block_addr in *. rewrite E1 in H3, H4. rewrite E2 in H4. split.
  - intros b m a Hb Ha. rewrite (H3 b m a Hb Ha). by apply (H1 b m).
  - intros a Ha. rewrite (H4 a Ha). by apply H2.
Qed.
Lemma keeps_subset us us' s s' : (forall x, x ∈ us' -> x ∈ us) -> keeps us s s' -> keeps us' s s'.
Proof. intros Hs [H1 H2]. split; [| done]. intros b m a Hb. apply (H1 b m). by apply Hs. Qed.

(** Where an assignment does not touch the data of the used segments. *)
Definition is_header (f : field) : bool := match f with NBLOCK | PBLOCK => true | _ => false end.
Definition apart (us : list (Z * Z)) (f : field) (x : Z) : Prop :=
  forall b m, (b, m) ∈ us -> x < b \/ b + m <= x \/ (x = b /\ is_header f = true).

Lemma writes_keeps us l s :
  Forall (fun w => 0 <= w.1.2 < umm_numblocks s /\ apart us w.1.1 w.1.2) l -> keeps us s (writes l s).
Proof.
  intros Hl. split.
  - intros b m a Hb Ha. apply writes_mem. eapply Forall_impl; [exact Hl |].
    intros [[f x] v] [Hx Hap]. simpl in *. destruct (Hap b m Hb) as [H | [H | [-> H]]];
      unfold block_addr, sizeof_umm_block in *; pose proof (offset_range f); [lia | lia |].
    destruct f; simpl in *; congruence || lia.
  - intros a Ha. apply writes_mem. eapply Forall_impl; [exact Hl |].
    intros [[f x] v] [Hx _]. simpl in *. unfold block_addr, sizeof_umm_block. pose proof (offset_range f). lia.
Qed.

(** *** Consequences *)

Section Facts.
Context (s : ustate) (segs : list seg) (fl : list Z).
Hypothesis Hok : heap_ok s segs fl.

Lemma ok_positive : positive segs.
Proof. eapply chain_positive, ok_chain, Hok. Qed.
Lemma ok_total : 0 <= total segs.
Proof. apply total_nonneg, ok_positive. Qed.
Lemma fl_range x : x ∈ fl -> 1 <= x < umm_numblocks s - 1.
Proof.
  intros Hx. rewrite (ok_free _ _ _ Hok) in Hx. apply free_starts_range in Hx; [| apply ok_positive].
  rewrite (ok_size _ _ _ Hok). lia.
Qed.
Lemma fl_zero : 0 ∉ fl.
Proof. intros H. apply fl_range in H. lia. Qed.
Lemma fl_NoDup : NoDup fl.
Proof. rewrite (ok_free _ _ _ Hok). apply free_starts_NoDup, ok_positive. Qed.
Lemma fl_apart x b m : x ∈ fl -> (b, m) ∈ used 1 segs -> x < b \/ b + m <= x.
Proof.
  intros Hx Hb. rewrite (ok_free _ _ _ Hok) in Hx. by eapply free_used_apart; [apply ok_positive | |].
Qed.

(** The free neighbours of a free segment. *)
Lemma neighbours l1 c l2 : fl = l1 ++ c :: l2 ->
  fld s PFREE c = List.last l1 0 /\ fld s NFREE c = hd 0 l2 /\
  (fld s PFREE c = 0 \/ fld s PFREE c ∈ l1) /\ (fld s NFREE c = 0 \/ fld s NFREE c ∈ l2) /\
  0 <= fld s PFREE c < umm_numblocks s /\ 0 <= fld s NFREE c < umm_numblocks s.
Proof.
  intros E. pose proof (ok_list _ _ _ Hok) as Hd. rewrite E in Hd.
  apply dll_around in Hd as [H1 H2]. rewrite H1, H2.
  pose proof (last_elem_of l1 0) as Hl. pose proof (hd_elem_of l2) as Hh.
  apply elem_of_cons in Hl, Hh. pose proof ok_total. pose proof (ok_size _ _ _ Hok).
  assert (Hr : forall x, x = 0 \/ x ∈ l1 \/ x ∈ l2 -> 0 <= x < umm_numblocks s).
  { intros x [-> | Hx]; [lia |]. assert (1 <= x < umm_numblocks s - 1); [| lia]. apply fl_range. rewrite E.
    apply elem_of_app. destruct Hx; [by left |]. right. by right. }
  split_and!; try done; apply Hr; tauto.
Qed.
End Facts.

(** The links of a segment. *)
Lemma ok_links s l n f r fl : heap_ok s (l ++ (n, f) :: r) fl ->
  let c := 1 + total l in
  0 < n /\ 1 <= c /\ c + n < umm_numblocks s /\ 0 <= total r /\ 0 <= total l /\ positive l /\ positive r /\
  umm_numblocks s = 2 + (total l + (n + total r)) /\
  fld s NBLOCK c = c + n + flag f /\ fld s PBLOCK c = last_start 0 1 l /\ fld s PBLOCK (c + n) = c /\
  chain (fld s) c (c + n) r.
Proof.
  intros Hok c. pose proof (ok_chain _ _ _ Hok) as Hc. pose proof (chain_positive _ _ _ _ Hc) as Hp.
  apply Forall_app in Hp as [Hl Hr]. apply Forall_cons in Hr as [Hn Hr].
  pose proof (total_nonneg l Hl). pose proof (total_nonneg r Hr).
  pose proof (ok_size _ _ _ Hok) as Hs. rewrite total_app in Hs. simpl in Hs, Hn.
  apply chain_split in Hc. simpl in Hc. fold c in Hc. destruct Hc as (H1 & _ & H2 & H3).
  assert (fld s PBLOCK (c + n) = c) by (by destruct r; destruct H3).
  split_and!; try done; unfold c; lia.
Qed.

(** *** Data that an assignment cannot reach *)

Lemma apart_zero s segs fl f : heap_ok s segs fl -> apart (used 1 segs) f 0.
Proof. intros Hok b m Hb. apply used_range in Hb; [lia | by eapply ok_positive]. Qed.
Lemma apart_free s segs fl f x : heap_ok s segs fl -> x ∈ fl -> apart (used 1 segs) f x.
Proof. intros Hok Hx b m Hb. destruct (fl_apart _ _ _ Hok x b m Hx Hb); tauto. Qed.
Lemma apart_free_zero s segs fl f x :
  heap_ok s segs fl -> x = 0 \/ x ∈ fl -> apart (used 1 segs) f x.
Proof. intros Hok [-> | Hx]; [by eapply apart_zero | by eapply apart_free]. Qed.

(** A header between the segments [l] and [r], or inside of what lies between
    them. *)
Lemma apart_between s l m r fl f x : heap_ok s (l ++ m ++ r) fl ->
  1 + total l <= x < 1 + total l + total m \/ (x = 1 + total l + total m /\ is_header f = true) ->
  apart (used 1 l ++ used (1 + total l + total m) r) f x.
Proof.
  intros Hok Hx b k Hb. pose proof (ok_positive _ _ _ Hok) as Hp. unfold positive in Hp.
  rewrite !Forall_app in Hp. destruct Hp as (Hl & Hm & Hr). pose proof (total_nonneg m Hm).
  apply elem_of_app in Hb as [Hb | Hb]; apply used_range in Hb; [lia | done | | done].
  destruct (decide (x = b)); [| lia]. right. right. split; [done |]. destruct Hx; [lia | tauto].
Qed.

(** ** The operations on the chains *)

(** The rest of the heap is kept and the chains describe [segs'] and [fl']. *)
Definition becomes (us : list (Z * Z)) (s s' : ustate) (segs' : list seg) (fl' : list Z) : Prop :=
  heap_ok s' segs' fl' /\ same_frame s s' /\ keeps us s s'.

Lemma becomes_trans us s1 s2 s3 g2 f2 g3 f3 :
  becomes us s1 s2 g2 f2 -> becomes us s2 s3 g3 f3 -> becomes us s1 s3 g3 f3.
Proof.
  intros (H1 & H2 & H3) (H4 & H5 & H6). split_and!; [done | | by eapply keeps_trans].
  unfold same_frame in *. intuition congruence.
Qed.

Lemma becomes_subset us us' s s' g f :
  (forall x, x ∈ us' -> x ∈ us) -> becomes us s s' g f -> becomes us' s s' g f.
Proof. intros Hs (H1 & H2 & H3). split_and!; [done | done | by eapply keeps_subset]. Qed.

(** Assignments that take the chains to another heap of the same size. *)
Lemma becomes_writes us l s segs fl segs' fl' :
  heap_ok s segs fl -> total segs' = total segs ->
  Forall (fun w => 0 <= w.1.2 < umm_numblocks s /\ apart us w.1.1 w.1.2) l ->
  fld (writes l s) NBLOCK 0 = 1 -> chain (fld (writes l s)) 0 1 segs' -> dll (fld (writes l s)) 0 fl' ->
  fl' ≡ₚ free_starts 1 segs' -> coalesced segs' ->
  becomes us s (writes l s) segs' fl'.
Proof.
  intros Hok Ht Hw H0 Hc Hd Hf Hco. destruct (writes_frame l s) as (E1 & E2 & E3).
  split_and!; [| by apply writes_frame | by apply writes_keeps].
  destruct Hok. split; try done; rewrite ?E1, ?E2, ?Ht; done.
Qed.

(** The position of a free segment in the free list. *)
Lemma free_in_list s l n r fl : heap_ok s (l ++ (n, true) :: r) fl ->
  exists fl1 fl2, fl = fl1 ++ (1 + total l) :: fl2 /\
    fl1 ++ fl2 ≡ₚ free_starts 1 l ++ free_starts (1 + total l + n) r.
Proof.
  intros Hok. pose proof (ok_free _ _ _ Hok) as Hf. rewrite free_starts_app in Hf. simpl in Hf.
  assert (1 + total l ∈ fl) as Hin by (rewrite Hf; apply elem_of_app; right; left).
  apply list_elem_of_split in Hin as (fl1 & fl2 & ->). exists fl1, fl2. split; [done |].
  apply (Permutation_cons_inv (a := 1 + total l)). by rewrite !Permutation_middle.
Qed.

Lemma disconnect_ok s l n r fl : heap_ok s (l ++ (n, true) :: r) fl ->
  let c := 1 + total l in
  exists s' fl', umm_disconnect_from_free_list c s = Some (tt, s') /\
    becomes (used 1 (l ++ (n, true) :: r)) s s' (l ++ (n, false) :: r) fl'.
Proof.
  intros Hok c. destruct (ok_links _ _ _ _ _ _ Hok) as (H0 & H1 & H2 & Hr & Hl & Pl & Pr & Hs & Hb & Hp & Hpn & Hch).
  fold c in H1, H2, Hb, Hp, Hpn, Hch. destruct (free_in_list _ _ _ _ _ Hok) as (fl1 & fl2 & E & Hperm). fold c in E, Hperm.
  destruct (neighbours _ _ _ Hok fl1 c fl2 E) as (_ & _ & Ip & In & Rp & Rn).
  pose proof (ok_small _ _ _ Hok) as Hsm.
  eexists. exists (fl1 ++ fl2). split; [apply (disconnect_run s Hsm c (c + n) true); lia || done |].
  set (p := fld s PFREE c) in *. set (nx := fld s NFREE c) in *.
  pose proof (fl_NoDup _ _ _ Hok) as Hnd. pose proof (fl_zero _ _ _ Hok) as Hz.
  assert (Ap : forall f x, x = 0 \/ x ∈ fl -> apart (used 1 (l ++ (n, true) :: r)) f x)
    by (intros; by eapply apart_free_zero).
  assert (Hmem : forall x, x ∈ fl1 \/ x ∈ fl2 -> x ∈ fl)
    by (intros x Hx; rewrite E; apply elem_of_app; destruct Hx; [by left | right; by right]).
  apply (becomes_writes _ _ s (l ++ (n, true) :: r) fl).
  - done.
  - by rewrite !total_app.
  - each_write; apply Ap.
    + destruct Ip; [tauto |]. right. apply Hmem. tauto.
    + destruct In; [tauto |]. right. apply Hmem. tauto.
    + right. rewrite E. apply elem_of_app. right. left.
  - cbn [writes]. fld_simpl. apply Hok.
  - eapply chain_prefix; [apply Hok | |].
    + intros b Hbb. fold c in Hbb. cbn [writes]. fld_simpl. done.
    + fold c. cbn [writes]. split; [fld_simpl; done |]. split; [done |].
      split; [fld_simpl; unfold flag; lia |]. eapply chain_suffix; [exact Hch | | |].
      * intros b Hbb. fld_simpl. done.
      * intros b Hbb. fld_simpl. done.
      * fld_simpl. done.
  - cbn [writes]. pose proof (ok_list _ _ _ Hok) as Hd. rewrite E in Hd, Hnd, Hz.
    apply (dll_remove (fld s) _ 0 fl1 c fl2); try done.
    + by constructor.
    + fold p nx. fld_simpl. done.
    + fold p nx. fld_simpl. done.
    + fold p. intros x _ Hx. fld_simpl. done.
    + fold nx. intros x _ Hx. fld_simpl. done.
  - rewrite Hperm, free_starts_app. simpl. done.
  - pose proof (ok_coalesced _ _ _ Hok) as Hco. rewrite coalesced_app in *. simpl in *. tauto.
Qed.

(** Assignments to headers between two lists of segments: what is in front and
    behind keeps its links. *)
Lemma chain_between h h' l m r m' n :
  chain h 0 1 (l ++ m ++ r) -> total m = n -> total m' = n -> 0 < n ->
  (forall b, b < 1 + total l -> h' NBLOCK b = h NBLOCK b /\ h' PBLOCK b = h PBLOCK b) ->
  (forall b, 1 + total l + n <= b -> h' NBLOCK b = h NBLOCK b) ->
  (forall b, 1 + total l + n < b -> h' PBLOCK b = h PBLOCK b) ->
  (forall R, (forall prev', h' PBLOCK (1 + total l + n) = prev' -> chain h' prev' (1 + total l + n) R) ->
     chain h' (last_start 0 1 l) (1 + total l) (m' ++ R)) ->
  chain h' 0 1 (l ++ m' ++ r).
Proof.
  intros Hc Hm Hm' Hn Hpre Hnb Hpb Hmid. eapply chain_prefix; [exact Hc | |].
  - intros b Hb. apply Hpre. lia.
  - apply Hmid. intros prev' Hprev.
    apply chain_split in Hc. apply chain_split in Hc. rewrite Hm in Hc.
    eapply chain_suffix; [exact Hc | done | done | done].
Qed.

(** The links of two neighbours. *)
Lemma ok_links2 s l m g n f r fl : heap_ok s (l ++ (m, g) :: (n, f) :: r) fl ->
  let p := 1 + total l in
  0 < m /\ 0 < n /\ 1 <= p /\ p + m + n < umm_numblocks s /\ umm_numblocks s <= 0x7FFF /\
  fld s NBLOCK p = p + m + flag g /\ fld s PBLOCK p = last_start 0 1 l /\
  fld s NBLOCK (p + m) = p + m + n + flag f /\ fld s PBLOCK (p + m) = p.
Proof.
  intros Hok p. destruct (ok_links _ _ _ _ _ _ Hok) as (H0 & H1 & _ & _ & _ & _ & _ & _ & Hb & Hp & Hpn & _).
  fold p in H1, Hb, Hp, Hpn. pose proof Hok as Hok2.
  change (l ++ (m, g) :: (n, f) :: r) with (l ++ [(m, g)] ++ (n, f) :: r) in Hok2. rewrite app_assoc in Hok2.
  apply ok_links in Hok2. rewrite total_app in Hok2. cbn [total] in Hok2.
  replace (1 + (total l + (m + 0))) with (p + m) in Hok2 by (unfold p; lia).
  destruct Hok2 as (G0 & _ & G2 & _ & _ & _ & _ & _ & Gb & _). pose proof (ok_small _ _ _ Hok).
  split_and!; lia || done.
Qed.

(** Two neighbours become one segment, whatever the order of the assignments. *)
Lemma merge_becomes s l m g n r fl ws : heap_ok s (l ++ (m, g) :: (n, false) :: r) fl ->
  (g = true -> starts_free r = false) ->
  let p := 1 + total l in
  ws = [(NBLOCK, p, p + m + n + flag g); (PBLOCK, p + m + n, p)] \/
  ws = [(PBLOCK, p + m + n, p); (NBLOCK, p, p + m + n + flag g)] ->
  becomes (used 1 (l ++ (m, g) :: (n, false) :: r)) s (writes ws s) (l ++ (m + n, g) :: r) fl.
Proof.
  intros Hok Hco p Hws. destruct (ok_links2 _ _ _ _ _ _ _ _ Hok) as (H0 & G0 & H1 & H2 & Hsm & Hb & Hp & Gb & Hpn).
  fold p in H1, H2, Hb, Hp, Gb, Hpn. pose proof (flag_u16 (p + m + n) g ltac:(lia)) as Hu.
  assert (Ap : forall f x, (x = p /\ is_header f = true \/ x = p + m + n /\ is_header f = true) ->
    apart (used 1 (l ++ (m, g) :: (n, false) :: r)) f x).
  { intros f x Hx b k Hin. rewrite used_app in Hin. fold p in Hin. cbn [used] in Hin.
    assert (HA : apart (used 1 l ++ used (1 + total l + total [(m, g); (n, false)]) r) f x).
    { apply (apart_between s l [(m, g); (n, false)] r fl); [exact Hok |]. cbn [total]. fold p.
      destruct Hx as [[-> ?] | [-> ?]]; [left | right]; (split; [lia | done]) || lia. }
    apply elem_of_app in Hin as [Hin | Hin]; [apply HA, elem_of_app; by left |].
    destruct g; repeat (apply elem_of_cons in Hin as [[= -> ->] | Hin]; [lia |]);
      apply HA, elem_of_app; right; cbn [total]; by rewrite Z.add_0_r, Z.add_assoc. }
  assert (Hfld : forall f b, fld (writes ws s) f b =
     if decide (f = NBLOCK /\ b = p) then p + m + n + flag g
     else if decide (f = PBLOCK /\ b = p + m + n) then p else fld s f b).
  { intros f b. destruct Hws as [-> | ->]; cbn [writes]; rewrite !fld_set by uside;
      repeat destruct (decide _) as [[? ?] | ?]; subst; first [done | tauto | exfalso; congruence || lia]. }
  assert (Hother : forall f b, f <> NBLOCK \/ b <> p -> f <> PBLOCK \/ b <> p + m + n ->
     fld (writes ws s) f b = fld s f b).
  { intros f b X Y. rewrite Hfld. destruct (decide _) as [[-> ->] |]; [by destruct X |].
    destruct (decide _) as [[-> ->] |]; [by destruct Y | done]. }
  apply (becomes_writes _ _ s (l ++ (m, g) :: (n, false) :: r) fl).
  - done.
  - rewrite !total_app. simpl. lia.
  - destruct Hws as [-> | ->]; each_write; apply Ap; tauto.
  - rewrite Hother by (right; lia). apply Hok.
  - apply (chain_between (fld s) _ l [(m, g); (n, false)] r [(m + n, g)] (m + n)); try (simpl; lia).
    + apply Hok.
    + intros b Hbb. fold p in Hbb. rewrite !Hother by (right; lia). done.
    + intros b Hbb. fold p in Hbb. rewrite Hother by (first [left; discriminate | right; lia]). done.
    + intros b Hbb. fold p in Hbb. rewrite Hother by (right; lia). done.
    + intros R HR. fold p in HR |- *. cbn [app chain].
      split; [rewrite Hother by (first [left; discriminate | right; lia]); done |]. split; [lia |].
      split; [rewrite Hfld, decide_True by done; lia |]. apply HR. rewrite Hfld.
      rewrite decide_False by (intros [? ?]; discriminate). rewrite decide_True by (split; [done | lia]). done.
  - eapply dll_ext; [apply Hok | |]; intros x Hx; rewrite Hother by (left; discriminate); done.
  - rewrite (ok_free _ _ _ Hok), !free_starts_app. cbn [free_starts]. rewrite Z.add_assoc. by destruct g.
  - pose proof (ok_coalesced _ _ _ Hok) as Hc. rewrite coalesced_app in *. cbn [coalesced starts_free] in *. tauto.
Qed.

(** Assimilating a segment with the one in front of it. *)
Lemma merge_down_ok s l m g n r fl : heap_ok s (l ++ (m, g) :: (n, false) :: r) fl ->
  (g = true -> starts_free r = false) ->
  let p := 1 + total l in
  exists s', umm_assimilate_down (p + m) (flag g) s = Some (p, s') /\
    becomes (used 1 (l ++ (m, g) :: (n, false) :: r)) s s' (l ++ (m + n, g) :: r) fl.
Proof.
  intros Hok Hco p. destruct (ok_links2 _ _ _ _ _ _ _ _ Hok) as (H0 & G0 & H1 & H2 & Hsm & Hb & Hp & Gb & Hpn).
  fold p in H1, H2, Hb, Hp, Gb, Hpn. unfold flag in Gb. rewrite Z.add_0_r in Gb.
  eexists. split.
  - rewrite <- Hpn at 2. apply (assimilate_down_run s Hsm); rewrite ?Hpn, ?Gb; lia.
  - rewrite Hpn, Gb. apply merge_becomes; [done | done | by left].
Qed.

(** Assimilating a used segment with a free one behind it, if there is one. *)
Lemma up_ok s l n r fl : heap_ok s (l ++ (n, false) :: r) fl ->
  let c := 1 + total l in
  exists s' n' r' fl', umm_assimilate_up c s = Some (tt, s') /\
    n <= n' /\ starts_free r' = false /\ used (c + n') r' = used (c + n) r /\ n' + total r' = n + total r /\
    becomes (used 1 (l ++ (n, false) :: r)) s s' (l ++ (n', false) :: r') fl'.
Proof.
  intros Hok c. destruct (ok_links _ _ _ _ _ _ Hok) as (H0 & H1 & H2 & Hr & Hl & _ & _ & Hs & Hb & Hp & Hpn & Hch).
  fold c in H1, H2, Hb, Hp, Hpn, Hch. unfold flag in Hb. rewrite Z.add_0_r in Hb. pose proof (ok_small _ _ _ Hok) as Hsm.
  assert (Hself : becomes (used 1 (l ++ (n, false) :: r)) s s (l ++ (n, false) :: r) fl)
    by (split_and!; [done | by repeat split | apply keeps_refl]).
  destruct r as [| [m [|]] r2].
  2:{ destruct (ok_links2 _ _ _ _ _ _ _ _ Hok) as (_ & G0 & _ & G2 & _ & _ & _ & Gb & _). fold c in G2, Gb.
      pose proof Hok as Hok1.
      change (l ++ (n, false) :: (m, true) :: r2) with (l ++ [(n, false)] ++ (m, true) :: r2) in Hok1. rewrite app_assoc in Hok1.
      destruct (disconnect_ok s (l ++ [(n, false)]) m r2 fl Hok1) as (s1 & fl' & Hd & Hbe).
      rewrite total_app in Hd. cbn [total] in Hd. replace (1 + (total l + (n + 0))) with (c + n) in Hd by (unfold c; lia).
      rewrite <- !app_assoc in Hbe. cbn [app] in Hbe. pose proof Hbe as (Hok2 & Hfr & _).
      destruct (ok_links2 _ _ _ _ _ _ _ _ Hok2) as (_ & _ & _ & K2 & Ksm & Kb & _ & Kn & _). fold c in K2, Kb, Kn.
      unfold flag in Kb. rewrite Z.add_0_r in Kb.
      exists (writes [(PBLOCK, c + n + m, c); (NBLOCK, c, c + n + m + flag false)] s1), (n + m), r2, fl'. split.
      - unfold umm_assimilate_up. ustep. rewrite Hb. ustep. rewrite Gb, link_flag by lia.
        rewrite (ubind_ok _ _ _ _ _ Hd). ustep. rewrite Kb. ustep. rewrite Kn, link_mask by lia. ustep.
        ustep. rewrite Kb. ustep. rewrite Kn, link_mask by lia. cbn [writes].
        rewrite wr_ok by uside. unfold flag. by rewrite Z.add_0_r.
      - pose proof (ok_coalesced _ _ _ Hok) as Hco. rewrite coalesced_app in Hco. cbn [coalesced] in Hco.
        split_and!; [lia | tauto | cbn [used]; by rewrite Z.add_assoc | cbn [total]; lia |].
        eapply becomes_trans; [exact Hbe |].
        eapply becomes_subset; [| apply merge_becomes; [exact Hok2 | done | by right]].
        intros x. rewrite !used_app. cbn [used]. intros Hx. apply elem_of_app in Hx as [Hx | Hx]; apply elem_of_app; [by left | right].
        apply elem_of_cons in Hx as [-> | Hx]; [left |]. by right; right. }
  - exists s, n, [], fl. split; [| split_and!; lia || done]. destruct Hch as [_ Hch].
    apply (assimilate_up_used s c n 0); lia || done.
  - destruct (ok_links2 _ _ _ _ _ _ _ _ Hok) as (_ & G0 & _ & G2 & _ & _ & _ & Gb & _). fold c in G2, Gb.
    unfold flag in Gb. rewrite Z.add_0_r in Gb.
    exists s, n, ((m, false) :: r2), fl. split; [| split_and!; lia || done].
    apply (assimilate_up_used s c n (c + n + m)); lia || done.
Qed.
End Inv.
