(* ===== verification/UmmAlloc.v ===== *)
(** * umm_malloc: allocation and release

    Adding a segment to the free list, splitting a segment, and the whole of
    free, on heaps that satisfy the invariant of [UmmOps]. *)

From S2P Require Import Prelude Umm UmmHeap UmmOps.

Section Alloc.
Context {Cfg : HeapCfg} {CfgOk : HeapCfgOk}.

Lemma apart_subset us us' f x : (forall y, y ∈ us' -> y ∈ us) -> apart us f x -> apart us' f x.
Proof. intros Hs H b m Hb. apply H. by apply Hs. Qed.

(** ** Splitting and releasing a segment *)

(** Assignments inside of one segment, or to the header behind it, do not touch
    the data of the others. *)
Lemma apart_segment s l n f r fl g x : heap_ok s (l ++ (n, f) :: r) fl ->
  let c := 1 + total l in
  c <= x < c + n \/ (x = c + n /\ is_header g = true) -> apart (used 1 l ++ used (c + n) r) g x.
Proof.
  intros Hok c Hx. pose proof (apart_between s l [(n, f)] r fl g x Hok) as A. cbn [total] in A.
  rewrite Z.add_0_r in A. by apply A.
Qed.

(** A free segment does not start inside of another segment. *)
Lemma free_not_inside s l n f r fl x : heap_ok s (l ++ (n, f) :: r) fl -> x ∈ fl ->
  ~ (1 + total l < x < 1 + total l + n).
Proof.
  intros Hok Hx Hin. destruct (ok_links _ _ _ _ _ _ Hok) as (_ & _ & _ & _ & _ & Pl & Pr & _).
  rewrite (ok_free _ _ _ Hok), free_starts_app in Hx. cbn [free_starts] in Hx.
  apply elem_of_app in Hx as [Hx | Hx]; [apply free_starts_range in Hx; [lia | done] |].
  destruct f; [apply elem_of_cons in Hx as [-> | Hx]; [lia |] |]; (apply free_starts_range in Hx; [lia | done]).
Qed.
Lemma used_not_free s l n r fl : heap_ok s (l ++ (n, false) :: r) fl -> 1 + total l ∉ fl.
Proof.
  intros Hok Hx. destruct (ok_links _ _ _ _ _ _ Hok) as (Hn & _ & _ & _ & _ & Pl & Pr & _).
  rewrite (ok_free _ _ _ Hok), free_starts_app in Hx. cbn [free_starts] in Hx.
  apply elem_of_app in Hx as [Hx | Hx]; apply free_starts_range in Hx; try done; lia.
Qed.

(** The links away from the assignments are those of before. *)
Ltac links_kept c := intros b Hbb; fold c in Hbb; cbn [writes]; fld_simpl; done.

Lemma push_ok s l n r fl : heap_ok s (l ++ (n, false) :: r) fl ->
  ends_free l = false -> starts_free r = false ->
  let c := 1 + total l in
  exists s', push_free c s = Some (tt, s') /\
    becomes (used 1 l ++ used (c + n) r) s s' (l ++ (n, true) :: r) (c :: fl).
Proof.
  intros Hok He Hst c. destruct (ok_links _ _ _ _ _ _ Hok) as (H0 & H1 & H2 & Hr & Hl & Pl & Pr & Hs & Hb & Hp & Hpn & Hch).
  fold c in H1, H2, Hb, Hp, Hpn, Hch. pose proof (ok_small _ _ _ Hok) as Hsm.
  pose proof (ok_list _ _ _ Hok) as Hd. set (h0 := fld s NFREE 0) in *.
  assert (Hh : h0 = 0 \/ h0 ∈ fl) by (destruct fl as [| y fl']; [by left | right; destruct Hd as [E _]; fold h0 in E; rewrite E; left]).
  assert (Hcn : c ∉ fl) by (by eapply used_not_free).
  assert (Rh : 0 <= h0 < umm_numblocks s) by (destruct Hh as [-> | Hh]; [lia | apply (fl_range _ _ _ Hok) in Hh; lia]).
  assert (Nh : h0 <> c) by (destruct Hh as [-> | Hh]; [lia | by intros ->]).
  exists (writes [(PFREE, h0, c); (NFREE, c, h0); (PFREE, c, 0); (NFREE, 0, c); (NBLOCK, c, c + n + flag true)] s).
  split.
  { unfold push_free. ustep. fold h0. ustep. ustep. fold h0. ustep. ustep. ustep. ustep.
    rewrite Hb. unfold flag at 1. rewrite Z.add_0_r, link_or by lia.
    apply wr_ok; [uside | apply flag_u16; lia]. }
  pose proof (flag_u16 (c + n) true ltac:(lia)) as Hu.
  assert (Hsub : forall y, y ∈ used 1 l ++ used (c + n) r -> y ∈ used 1 (l ++ (n, false) :: r)).
  { intros y Hy. rewrite used_app. cbn [used]. fold c. apply elem_of_app in Hy as [Hy | Hy]; apply elem_of_app; [by left |].
    right. by right. }
  assert (Ac : forall f, apart (used 1 l ++ used (c + n) r) f c)
    by (intros f; eapply apart_segment; [exact Hok | left; fold c; lia]).
  assert (Af : forall f x, x = 0 \/ x ∈ fl -> apart (used 1 l ++ used (c + n) r) f x).
  { intros f x Hx. eapply apart_subset; [exact Hsub |]. by eapply apart_free_zero. }
  apply (becomes_writes _ _ s (l ++ (n, false) :: r) fl).
  - done.
  - by rewrite !total_app.
  - each_write; try apply Ac; apply Af; tauto.
  - cbn [writes]. fld_simpl. apply Hok.
  - apply (chain_between (fld s) _ l [(n, false)] r [(n, true)] n); try (simpl; lia).
    + apply Hok.
    + links_kept c.
    + links_kept c.
    + links_kept c.
    + intros R HR. fold c in HR |- *. cbn [app chain writes].
      split; [fld_simpl; done |]. split; [lia |]. split; [fld_simpl; lia |]. apply HR. cbn [writes]. fld_simpl. done.
  - cbn [writes]. apply (dll_push (fld s)); try done.
    + constructor; [done | by eapply fl_NoDup].
    + intros Hz. apply elem_of_cons in Hz as [Hz | Hz]; [lia | by eapply fl_zero].
    + fld_simpl. done.
    + fld_simpl. done.
    + fold h0. fld_simpl. done.
    + fold h0. fld_simpl. done.
    + intros x Hx. pose proof (fl_range _ _ _ Hok x Hx). assert (x <> c) by (by intros ->). fld_simpl. done.
    + fold h0. intros x Hx Hne. assert (x <> c) by (by intros ->). fld_simpl. done.
  - rewrite (ok_free _ _ _ Hok), !free_starts_app. cbn [free_starts]. fold c. by rewrite Permutation_middle.
  - pose proof (ok_coalesced _ _ _ Hok) as Hco. rewrite coalesced_app in *. cbn [coalesced starts_free] in *.
    rewrite He. intuition congruence.
Qed.

Lemma split_used_ok s l n r fl k : heap_ok s (l ++ (n, false) :: r) fl -> 0 < k < n ->
  let c := 1 + total l in
  exists s', umm_make_new_block c k 0 0 s = Some (tt, s') /\
    becomes (used 1 l ++ (c, k) :: used (c + n) r) s s' (l ++ (k, false) :: (n - k, false) :: r) fl.
Proof.
  intros Hok Hk c. destruct (ok_links _ _ _ _ _ _ Hok) as (H0 & H1 & H2 & Hr & Hl & Pl & Pr & Hs & Hb & Hp & Hpn & Hch).
  fold c in H1, H2, Hb, Hp, Hpn, Hch. pose proof (ok_small _ _ _ Hok) as Hsm.
  eexists. split; [apply (make_new_block_run s Hsm c k (c + n) false false false); lia || done |].
  unfold flag. rewrite !Z.add_0_r.
  assert (A : forall f x, is_header f = true -> x = c \/ x = c + k \/ x = c + n ->
    apart (used 1 l ++ (c, k) :: used (c + n) r) f x).
  { intros f x Hf Hx b j Hin.
    assert (Hap : apart (used 1 l ++ used (c + n) r) f x).
    { eapply apart_segment; [exact Hok |]. fold c. destruct Hx as [-> | [-> | ->]]; [left; lia | left; lia | by right]. }
    apply elem_of_app in Hin as [Hin | Hin]; [apply Hap, elem_of_app; by left |].
    apply elem_of_cons in Hin as [[= -> ->] | Hin]; [lia |]. apply Hap, elem_of_app. by right. }
  apply (becomes_writes _ _ s (l ++ (n, false) :: r) fl).
  - done.
  - rewrite !total_app. simpl. lia.
  - each_write; apply A; tauto.
  - cbn [writes]. fld_simpl. apply Hok.
  - apply (chain_between (fld s) _ l [(n, false)] r [(k, false); (n - k, false)] n); try (simpl; lia).
    + apply Hok.
    + links_kept c.
    + links_kept c.
    + links_kept c.
    + intros R HR. fold c in HR |- *. cbn [app chain writes]. unfold flag.
      split; [fld_simpl; done |]. split; [lia |]. split; [fld_simpl; lia |].
      split; [fld_simpl; done |]. split; [lia |]. split; [fld_simpl; lia |].
      replace (c + k + (n - k)) with (c + n) by lia. apply HR. cbn [writes]. fld_simpl. done.
  - cbn [writes]. eapply dll_ext; [apply Hok | |]; intros x Hx; fld_simpl; done.
  - rewrite (ok_free _ _ _ Hok), !free_starts_app. cbn [free_starts].
    by replace (1 + total l + k + (n - k)) with (1 + total l + n) by lia.
  - pose proof (ok_coalesced _ _ _ Hok) as Hco. rewrite coalesced_app in *. cbn [coalesced starts_free] in *.
    intuition congruence.
Qed.

(** The assignments of [split_free]. *)
Definition split_writes (c k n p nx : Z) : list (field * Z * Z) :=
  [(NBLOCK, c + k, c + n + flag true); (PBLOCK, c + k, c); (PBLOCK, c + n, c + k); (NBLOCK, c, c + k + flag false);
   (NFREE, p, c + k); (PFREE, c + k, p); (PFREE, nx, c + k); (NFREE, c + k, nx)].

Lemma split_free_run s c k n : umm_numblocks s <= 0x7FFF -> 1 <= c -> 0 < k < n -> c + n < umm_numblocks s ->
  fld s NBLOCK c = c + n + flag true -> let p := fld s PFREE c in let nx := fld s NFREE c in
  0 <= p < umm_numblocks s -> 0 <= nx < umm_numblocks s -> p <> c -> p <> c + k -> nx <> c -> nx <> c + k ->
  split_free c k s = Some (tt, writes (split_writes c k n p nx) s).
Proof.
  intros Hsm Hc Hk Hn Hb p nx Rp Rn Np Np2 Nn Nn2.
  set (s1 := writes [(NBLOCK, c + k, c + n + flag true); (PBLOCK, c + k, c); (PBLOCK, c + n, c + k);
                     (NBLOCK, c, c + k + flag false)] s).
  assert (Hmk : umm_make_new_block c k 0 UMM_FREELIST_MASK s = Some (tt, s1))
    by (apply (make_new_block_run s Hsm c k (c + n) true false true); lia || done).
  pose proof (flag_u16 (c + n) true ltac:(lia)) as Hu. pose proof (flag_u16 (c + k) false ltac:(lia)) as Hu2.
  unfold split_free. rewrite (ubind_ok _ _ _ _ _ Hmk).
  assert (F1 : fld s1 PFREE c = p) by (unfold s1; cbn [writes]; fld_simpl; done).
  assert (F2 : fld s1 NFREE c = nx) by (unfold s1; cbn [writes]; fld_simpl; done).
  assert (F3 : umm_numblocks s1 = umm_numblocks s) by done.
  change (writes (split_writes c k n p nx) s)
    with (writes [(NFREE, p, c + k); (PFREE, c + k, p); (PFREE, nx, c + k); (NFREE, c + k, nx)] s1).
  clearbody s1. ustep. rewrite F1. ustep. ustep. rewrite F1. ustep. ustep. rewrite F2. ustep. ustep. rewrite F2.
  apply wr_ok; uside.
Qed.

(** The free list with the segment [c] replaced by its rest at [c + k]. *)
Lemma split_list_ok s fl1 c fl2 k n : dll (fld s) 0 (fl1 ++ c :: fl2) -> NoDup (fl1 ++ c :: fl2) -> 0 ∉ fl1 ++ c :: fl2 ->
  1 <= c -> 0 < k -> c + k < 0x8000 -> is_u16 (c + n + flag true) -> is_u16 (c + k + flag false) ->
  let p := fld s PFREE c in let nx := fld s NFREE c in is_u16 p -> is_u16 nx ->
  p <> c -> p <> c + k -> nx <> c -> nx <> c + k -> (c + k ∉ fl1 ++ fl2) ->
  dll (fld (writes (split_writes c k n p nx) s)) 0 (fl1 ++ (c + k) :: fl2).
Proof.
  intros Hd Hnd Hz Hc Hk Hck Hu Hu2 p nx Up Un Np Np2 Nn Nn2 Hnew. unfold split_writes. cbn [writes].
  assert (Hne : forall x, x = 0 \/ x ∈ fl1 ++ fl2 -> x <> c + k) by (intros x [-> | Hx] Heq; [lia | by rewrite Heq in Hx]).
  apply (dll_replace (fld s) _ 0 fl1 c fl2); try done.
  - by constructor.
  - intros Hin. apply elem_of_cons in Hin as [Hin | Hin]; [lia |]. apply elem_of_app in Hin as [Hin | Hin].
    + apply Hnew, elem_of_app. by left.
    + apply elem_of_cons in Hin as [Hin | Hin]; [lia |]. apply Hnew, elem_of_app. by right.
  - fold p. fld_simpl. done.
  - fold p. fld_simpl. done.
  - fold nx. fld_simpl. done.
  - fold nx. fld_simpl. done.
  - fold p. intros x Hx Hxp. assert (x <> c + k) by (apply Hne; by apply elem_of_cons in Hx). fld_simpl. done.
  - fold nx. intros x Hx Hxp. assert (x <> c + k) by (apply Hne; by right). fld_simpl. done.
Qed.

Lemma split_free_ok s l n r fl k : heap_ok s (l ++ (n, true) :: r) fl -> 0 < k < n ->
  let c := 1 + total l in
  exists s' fl', split_free c k s = Some (tt, s') /\
    becomes (used 1 (l ++ (n, true) :: r)) s s' (l ++ (k, false) :: (n - k, true) :: r) fl'.
Proof.
  intros Hok Hk c. destruct (ok_links _ _ _ _ _ _ Hok) as (H0 & H1 & H2 & Hr & Hl & Pl & Pr & Hs & Hb & Hp & Hpn & Hch).
  fold c in H1, H2, Hb, Hp, Hpn, Hch. pose proof (ok_small _ _ _ Hok) as Hsm.
  destruct (free_in_list _ _ _ _ _ Hok) as (fl1 & fl2 & E & Hperm). fold c in E, Hperm.
  destruct (neighbours _ _ _ Hok fl1 c fl2 E) as (_ & _ & Ip & In & Rp & Rn).
  set (p := fld s PFREE c) in *. set (nx := fld s NFREE c) in *.
  pose proof (fl_NoDup _ _ _ Hok) as Hnd. pose proof (fl_zero _ _ _ Hok) as Hz.
  assert (Hmem : forall x, x ∈ fl1 \/ x ∈ fl2 -> x ∈ fl)
    by (intros x Hx; rewrite E; apply elem_of_app; destruct Hx; [by left | right; by right]).
  assert (Hne : forall x, x = 0 \/ x ∈ fl1 \/ x ∈ fl2 -> x <> c /\ x <> c + k).
  { intros x Hx. destruct Hx as [-> | Hx]; [lia |]. split.
    - intros ->. rewrite E in Hnd. apply NoDup_app in Hnd as (_ & Hd1 & Hd2). destruct Hx as [Hx | Hx].
      + apply (Hd1 c Hx). left.
      + by apply NoDup_cons in Hd2 as [Hd2 _].
    - intros ->. eapply free_not_inside; [exact Hok | by apply Hmem | fold c; lia]. }
  destruct (Hne p) as [Np Np2]; [tauto |]. destruct (Hne nx) as [Nn Nn2]; [tauto |].
  exists (writes (split_writes c k n p nx) s), (fl1 ++ (c + k) :: fl2).
  split; [apply split_free_run; lia || done |]. unfold split_writes.
  pose proof (flag_u16 (c + n) true ltac:(lia)) as Hu. pose proof (flag_u16 (c + k) false ltac:(lia)) as Hu2.
  assert (Hus : used 1 (l ++ (n, true) :: r) = used 1 l ++ used (c + n) r) by (by rewrite used_app).
  assert (Af : forall f x, x = 0 \/ x ∈ fl -> apart (used 1 (l ++ (n, true) :: r)) f x)
    by (intros; by eapply apart_free_zero).
  assert (Ac : forall f x, c <= x < c + n \/ x = c + n /\ is_header f = true -> apart (used 1 (l ++ (n, true) :: r)) f x).
  { intros f x Hx. rewrite Hus. by eapply apart_segment. }
  apply (becomes_writes _ _ s (l ++ (n, true) :: r) fl).
  - done.
  - rewrite !total_app. simpl. lia.
  - each_write; first [apply Ac; first [left; lia | right; split; [lia | done]] | apply Af].
    + destruct Ip; [tauto |]. right. apply Hmem. tauto.
    + destruct In; [tauto |]. right. apply Hmem. tauto.
  - cbn [writes]. fld_simpl. apply Hok.
  - apply (chain_between (fld s) _ l [(n, true)] r [(k, false); (n - k, true)] n); try (simpl; lia).
    + apply Hok.
    + links_kept c.
    + links_kept c.
    + links_kept c.
    + intros R HR. fold c in HR |- *. cbn [app chain writes].
      split; [fld_simpl; done |]. split; [lia |]. split; [fld_simpl; lia |].
      split; [fld_simpl; done |]. split; [lia |]. split; [fld_simpl; lia |].
      replace (c + k + (n - k)) with (c + n) by lia. apply HR. cbn [writes]. fld_simpl. done.
  - pose proof (ok_list _ _ _ Hok) as Hd. rewrite E in Hd, Hnd, Hz.
    apply (split_list_ok s fl1 c fl2 k n); try done; try (unfold is_u16; lia).
    intros Hin. by apply (proj2 (Hne (c + k) (or_intror (proj1 (elem_of_app _ _ _) Hin)))).
  - rewrite <- Permutation_middle, Hperm, free_starts_app. cbn [free_starts]. fold c.
    replace (c + k + (n - k)) with (c + n) by lia. by rewrite Permutation_middle.
  - pose proof (ok_coalesced _ _ _ Hok) as Hco. rewrite coalesced_app in *. cbn [coalesced starts_free] in *.
    intuition congruence.
Qed.

(** ** The critical section *)

Lemma heap_ok_depth s d segs fl : heap_ok s segs fl -> heap_ok (set_depth d s) segs fl.
Proof. intros [? ? ? ? ? ? ? ?]. by split. Qed.

Lemma becomes_critical us s s2 g f :
  becomes us (set_depth (depth s + 1) s) s2 g f -> becomes us s (set_depth (depth s2 - 1) s2) g f.
Proof.
  intros (H1 & (E1 & E2 & E3 & E4 & E5 & E6) & H3). split_and!.
  - by apply heap_ok_depth.
  - unfold same_frame. cbn in *. split_and!; try done. lia.
  - exact H3.
Qed.

(** The pointer to the data of a block, and the way back. *)
Definition data_of (b : Z) : Z := heap_addr + 8 * b + 4.

Lemma data_not_null b : 0 <= b -> data_of b <> NULL.
Proof. intros H. pose proof heap_range. unfold data_of, NULL. lia. Qed.

Lemma block_of_data s b : umm_heap s = heap_addr -> 0 <= b < 0x8000 ->
  block_of (data_of b) s = Some (b, s).
Proof.
  intros Hh Hb. unfold block_of, ubind, uget, uret. rewrite Hh. unfold data_of, sizeof_umm_block, u16, u32.
  do 2 f_equal. mlia.
Qed.

Lemma data_of_run s b : umm_heap s = heap_addr -> UMM_DATA b s = Some (data_of b, s).
Proof. intros H. unfold UMM_DATA, uget, block_addr. by rewrite H. Qed.

(** ** Free *)

Lemma used_around (l : list seg) n r x :
  x ∈ used 1 l ++ used (1 + total l + n) r -> x ∈ used 1 (l ++ (n, false) :: r).
Proof.
  intros Hx. rewrite used_app. cbn [used].
  apply elem_of_app in Hx as [Hx | Hx]; apply elem_of_app; [by left | right; by right].
Qed.

(** The end of a list of segments. *)
Lemma ends_cases (l : list seg) : l = [] \/ exists l' m g, l = l' ++ [(m, g)].
Proof.
  induction l as [| [m g] l _] using rev_ind; [by left | right]. by exists l, m, g.
Qed.

(** Releasing a block that has taken over the free block behind it. *)
Lemma push_after s s1 l n n' r r' fl' : let c := 1 + total l in
  becomes (used 1 (l ++ (n, false) :: r)) s s1 (l ++ (n', false) :: r') fl' ->
  ends_free l = false -> starts_free r' = false -> used (c + n') r' = used (c + n) r ->
  exists s2, push_free c s1 = Some (tt, s2) /\ becomes (used 1 l ++ used (c + n) r) s s2 (l ++ (n', true) :: r') (c :: fl').
Proof.
  intros c Hbe He Hst Hus. destruct (push_ok s1 l n' r' fl' (proj1 Hbe) He Hst) as (s2 & Hpush & Hbe2). exists s2. split; [done |].
  eapply becomes_trans; [eapply becomes_subset; [apply used_around | exact Hbe] |].
  eapply becomes_subset; [| exact Hbe2]. intros x Hx. fold c. by rewrite Hus.
Qed.

(** Releasing a used segment gives its blocks to the free neighbours or to a
    free segment of its own; every other used segment stays where it is. *)
Lemma free_ok s l n r fl : heap_ok s (l ++ (n, false) :: r) fl ->
  let c := 1 + total l in
  exists s' segs' fl', _umm_free (data_of c) s = Some (tt, s') /\
    used 1 segs' = used 1 l ++ used (c + n) r /\ total segs' = total (l ++ (n, false) :: r) /\
    becomes (used 1 l ++ used (c + n) r) s s' segs' fl'.
Proof.
  intros Hok c. destruct (ok_links _ _ _ _ _ _ Hok) as (H0 & H1 & H2 & _). fold c in H1, H2.
  unfold _umm_free. rewrite (proj2 (Z.eqb_neq _ _)) by (apply data_not_null; lia).
  set (s0 := set_depth (depth s + 1) s).
  assert (Hok0 : heap_ok s0 (l ++ (n, false) :: r) fl) by (by apply heap_ok_depth).
  pose proof (ok_small _ _ _ Hok) as Hsm.
  change (UMM_CRITICAL_ENTRY) with (uput (fun s => set_depth (depth s + 1) s)).
  rewrite (ubind_ok (uput _) _ s tt s0) by done.
  rewrite (ubind_ok _ _ _ _ _ (block_of_data s0 c (ok_addr _ _ _ Hok0) ltac:(lia))).
  destruct (up_ok s0 l n r fl Hok0) as (s1 & n' & r' & fl' & Hup & Hn' & Hst & Hus & Htot & Hbe1). fold c in Hup, Hus.
  rewrite (ubind_ok _ _ _ _ _ Hup). pose proof Hbe1 as (Hok1 & _ & _).
  destruct (ok_links _ _ _ _ _ _ Hok1) as (G0 & _ & G2 & _ & _ & _ & _ & _ & Gb & Gp & _). fold c in G2, Gb, Gp.
  pose proof (ok_small _ _ _ Hok1) as Gsm.
  assert (Hsub : forall x, x ∈ used 1 l ++ used (c + n) r -> x ∈ used 1 (l ++ (n, false) :: r)) by apply used_around.
  assert (Hsub1 : forall x, x ∈ used 1 l ++ used (c + n) r -> x ∈ used 1 (l ++ (n', false) :: r')).
  { intros x. rewrite <- Hus. apply used_around. }
  destruct (ends_cases l) as [-> | (l' & m & g & ->)].
  - (* the first segment *)
    cbn [last_start] in Gp. ustep. rewrite Gp. ustep. rewrite (ok_head _ _ _ Hok1).
    change (bit_set 1 UMM_FREELIST_MASK) with false. cbv iota.
    destruct (push_after s0 s1 [] n n' r r' fl' Hbe1 eq_refl Hst Hus) as (s2 & Hpush & Hbe2). fold c in Hpush.
    rewrite (ubind_ok _ _ _ _ _ Hpush). eexists _, ([] ++ (n', true) :: r'), _. split; [done |]. split; [exact Hus |].
    split; [cbn [total app]; lia |]. by apply becomes_critical.
  - rewrite last_start_snoc in Gp. rewrite <- !app_assoc in Hok1. cbn [app] in Hok1.
    destruct (ok_links2 _ _ _ _ _ _ _ _ Hok1) as (K0 & _ & K1 & _ & _ & Kb & _).
    assert (Ec : c = 1 + total l' + m) by (unfold c; rewrite total_app; cbn [total]; lia).
    ustep. rewrite Gp. ustep. rewrite Kb, link_flag by lia. destruct g.
    + (* the segment in front is free *)
      destruct (merge_down_ok s1 l' m true n' r' fl' Hok1 (fun _ => Hst)) as (s2 & Hdn & Hbe2). rewrite <- Ec in Hdn.
      change UMM_FREELIST_MASK with (flag true).
      rewrite (ubind_ok _ _ s1 tt s2) by (by rewrite (ubind_ok _ _ _ _ _ Hdn)).
      eexists _, (l' ++ (m + n', true) :: r'), _. split; [done |].
      split; [| split; [| apply becomes_critical; eapply becomes_trans;
        [eapply becomes_subset; [exact Hsub | exact Hbe1] | eapply becomes_subset; [| exact Hbe2]]]].
      * rewrite !used_app. cbn [used]. rewrite app_nil_r, <- Hus. f_equal. f_equal. lia.
      * rewrite !total_app. cbn [total] in *. lia.
      * intros x Hx. specialize (Hsub1 x Hx). by rewrite <- app_assoc in Hsub1.
    + destruct (push_after s0 s1 (l' ++ [(m, false)]) n n' r r' fl' Hbe1 (ends_free_snoc _ _ _) Hst Hus) as (s2 & Hpush & Hbe2).
      fold c in Hpush, Hbe2. rewrite (ubind_ok _ _ _ _ _ Hpush).
      eexists _, ((l' ++ [(m, false)]) ++ (n', true) :: r'), _. split; [done |].
      split; [by rewrite used_app; cbn [used]; fold c; rewrite <- Hus |].
      split; [rewrite !total_app; cbn [total]; lia |]. by apply becomes_critical.
Qed.
End Alloc.
