(* ===== verification/UmmMalloc.v ===== *)
(** * umm_malloc: the search for a block, and malloc *)

From S2P Require Import Prelude Umm UmmHeap UmmOps UmmAlloc.

Section Malloc.
Context {Cfg : HeapCfg} {CfgOk : HeapCfgOk}.

(** ** The search *)

(** The size of a free block as the search computes it. *)
Definition block_size (s : ustate) (x : Z) : Z := Z.land (fld s NBLOCK x) UMM_BLOCKNO_MASK - x.

(** The search ends after one turn per free block, with the first of the
    smallest blocks that are large enough and smaller than the best so far. *)
Lemma scan_ok s blocks rest : forall k prev bs bb bsz,
  dll (fld s) prev rest -> (length rest <= k)%nat ->
  (forall x, x ∈ rest -> 0 < x < umm_numblocks s /\ 0 < block_size s x < 0x7FFF) ->
  exists bs' bb' bsz', scan k blocks (fld s NFREE prev) bs bb bsz s = Some ((0, bs', bb', bsz'), s) /\
    ((rest = [] /\ bs' = bs) \/ exists x, x ∈ rest /\ bs' = block_size s x) /\
    ((bb' = bb /\ bsz' = bsz /\ forall x, x ∈ rest -> blocks <= block_size s x -> bsz <= block_size s x) \/
     (bb' ∈ rest /\ bsz' = block_size s bb' /\ blocks <= bsz' < bsz /\
      forall x, x ∈ rest -> blocks <= block_size s x -> bsz' <= block_size s x)).
Proof.
  induction rest as [| x rest IH]; intros k prev bs bb bsz Hd Hk Hr.
  - simpl in Hd. exists bs, bb, bsz. rewrite Hd. split; [by destruct k |]. split; [by left |]. left.
    split_and!; try done. intros x Hx. by apply elem_of_nil in Hx.
  - destruct Hd as (H1 & _ & Hd). destruct k as [| k]; [simpl in Hk; lia |].
    destruct (Hr x) as [Hx Hsz]; [left |]. rewrite H1. cbn [scan].
    rewrite (proj2 (Z.eqb_neq x 0)) by lia.
    rewrite (ubind_ok _ _ _ _ _ (rd_ok NBLOCK x s ltac:(lia))). cbv beta zeta.
    fold (block_size s x). rewrite u16_id by (unfold is_u16; lia).
    rewrite (ubind_ok _ _ _ _ _ (rd_ok NFREE x s ltac:(lia))). cbv beta.
    set (better := (blocks <=? block_size s x) && (block_size s x <? bsz)).
    destruct (IH k x (block_size s x) (if better then x else bb) (if better then block_size s x else bsz))
      as (bs' & bb' & bsz' & E & Hbs & Hb); [done | simpl in Hk; lia | intros y Hy; apply Hr; by right |].
    exists bs', bb', bsz'. split; [exact E |]. split.
    { right. destruct Hbs as [[-> ->] | (y & Hy & ->)]; [exists x; split; [left | done] |].
      exists y. split; [by right | done]. }
    destruct better eqn:Eb; unfold better in Eb.
    + right. destruct Hb as [(-> & -> & Hb) | (Hin & Hs & Hlt & Hb)].
      * split_and!; [left | done | lia | lia |]. intros y Hy Hys. apply elem_of_cons in Hy as [-> | Hy]; [lia |].
        by apply Hb.
      * split_and!; [by right | done | lia | lia |]. intros y Hy Hys. apply elem_of_cons in Hy as [-> | Hy]; [lia |].
        by apply Hb.
    + destruct Hb as [(-> & -> & Hb) | (Hin & Hs & Hlt & Hb)]; [left | right].
      * split_and!; try done. intros y Hy Hys. apply elem_of_cons in Hy as [-> | Hy]; [lia |]. by apply Hb.
      * split_and!; [by right | done | lia | lia |]. intros y Hy Hys. apply elem_of_cons in Hy as [-> | Hy]; [lia |].
        by apply Hb.
Qed.

(** The sizes of the blocks in the free list are those of the free segments. *)
Lemma size_of_free s segs fl x : heap_ok s segs fl -> x ∈ fl ->
  exists l n r, segs = l ++ (n, true) :: r /\ x = 1 + total l /\ block_size s x = n /\ 0 < n < 0x7FFF /\
    0 < x < umm_numblocks s.
Proof.
  intros Hok Hx. rewrite (ok_free _ _ _ Hok) in Hx. destruct (free_split _ _ _ Hx) as (l & n & r & -> & ->).
  exists l, n, r. destruct (ok_links _ _ _ _ _ _ Hok) as (H0 & H1 & H2 & Hr & Hl & _ & _ & Hs & Hb & _).
  pose proof (ok_small _ _ _ Hok). split; [done |]. split; [done |].
  unfold block_size. rewrite Hb, link_mask by lia. lia.
Qed.
Lemma free_in_segs s segs fl n : heap_ok s segs fl -> (n, true) ∈ segs ->
  exists x, x ∈ fl /\ block_size s x = n.
Proof.
  intros Hok Hin. apply list_elem_of_split in Hin as (l & r & ->). exists (1 + total l). split.
  - rewrite (ok_free _ _ _ Hok), free_starts_app. apply elem_of_app. right. left.
  - destruct (ok_links _ _ _ _ _ _ Hok) as (H0 & H1 & H2 & _ & _ & _ & _ & _ & Hb & _).
    pose proof (ok_small _ _ _ Hok). unfold block_size. rewrite Hb, link_mask; lia.
Qed.

(** The free list is not longer than the heap. *)
Lemma length_free_starts p l : positive l -> (length (free_starts p l) <= Z.to_nat (total l))%nat.
Proof.
  intros Hl. revert p. induction Hl as [| [n f] l Hn Hl IH]; intros p; simpl; [lia |].
  pose proof (total_nonneg l Hl). specialize (IH (p + n)). simpl in Hn. destruct f; simpl; lia.
Qed.

(** ** Malloc *)

(** Largest request whose number of blocks is a 16-bit number. *)
Definition max_request : Z := 524276.

Lemma umm_blocks_exact size : 0 < size <= max_request ->
  umm_blocks size = (size + 4 + 7) / 8 /\ 1 <= umm_blocks size < 65536 /\ size <= 8 * umm_blocks size - 4.
Proof.
  unfold max_request. intros H. unfold umm_blocks, sizeof_body, sizeof_umm_block, u16.
  destruct (Z.leb_spec size 4); mlia.
Qed.

Lemma ensure_init_done s segs fl : heap_ok s segs fl -> ensure_init s = Some (tt, s).
Proof.
  intros Hok. unfold ensure_init, ubind, uget. rewrite (ok_addr _ _ _ Hok).
  pose proof heap_range. rewrite (proj2 (Z.eqb_neq _ _)) by (unfold NULL; lia). done.
Qed.

(** The outcome of the search in a heap that satisfies the invariant. *)
Lemma search_ok s segs fl k : heap_ok s segs fl -> 1 <= k ->
  exists cf bs bb bsz,
    scan (Z.to_nat (umm_numblocks s)) k (fld s NFREE 0) 0 (fld s NFREE 0) 0x7FFF s = Some ((0, bs, bb, bsz), s) /\
    cf = (if negb (0x7FFF =? bsz) then bb else 0) /\
    (((forall m, (m, true) ∈ segs -> m < k) /\ bsz = 0x7FFF /\ bs < k) \/
     (exists l r, segs = l ++ (bsz, true) :: r /\ cf = 1 + total l /\ k <= bsz < 0x7FFF /\
        forall m, (m, true) ∈ segs -> k <= m -> bsz <= m)).
Proof.
  intros Hok Hk.
  assert (Hr : forall x, x ∈ fl -> 0 < x < umm_numblocks s /\ 0 < block_size s x < 0x7FFF).
  { intros x Hx. destruct (size_of_free _ _ _ _ Hok Hx) as (l & n & r & _ & _ & -> & ? & ?). lia. }
  destruct (scan_ok s k fl (Z.to_nat (umm_numblocks s)) 0 0 (fld s NFREE 0) 0x7FFF) as (bs & bb & bsz & E & Hbs & Hb).
  - apply Hok.
  - rewrite (ok_free _ _ _ Hok). pose proof (length_free_starts 1 segs (ok_positive _ _ _ Hok)).
    rewrite (ok_size _ _ _ Hok). pose proof (ok_total _ _ _ Hok). lia.
  - exact Hr.
  - eexists _, bs, bb, bsz. split; [exact E |]. split; [done |]. destruct Hb as [(-> & -> & Hb) | (Hin & Hs & Hlt & Hb)].
    + left. split_and!; [| done |].
      * intros m Hm. destruct (free_in_segs _ _ _ _ Hok Hm) as (x & Hx & <-).
        destruct (Z.lt_ge_cases (block_size s x) k) as [| Hge]; [done |]. specialize (Hb x Hx Hge).
        destruct (Hr x Hx). lia.
      * destruct Hbs as [[-> ->] | (x & Hx & ->)]; [lia |].
        destruct (Z.lt_ge_cases (block_size s x) k) as [| Hge]; [done |]. specialize (Hb x Hx Hge).
        destruct (Hr x Hx). lia.
    + right. destruct (size_of_free _ _ _ _ Hok Hin) as (l & n & r & -> & -> & Hn & Hnr & _).
      exists l, r. rewrite <- Hn, <- Hs in *. split; [done |].
      replace (negb (0x7FFF =? bsz)) with true by lia. split_and!; [done | lia | lia |].
      intros m Hm Hkm. destruct (free_in_segs _ _ _ _ Hok Hm) as (x & Hx & <-). by apply Hb.
Qed.

(** A request is served from the smallest free segment that is large enough, if
    there is one; otherwise NULL is returned and the heap stays as it is.  The
    data of every used segment is kept. *)
Lemma malloc_ok s segs fl size : heap_ok s segs fl -> 0 < size -> 1 <= umm_blocks size ->
  let k := umm_blocks size in
  (exists l n r s' t fl', segs = l ++ (n, true) :: r /\ k <= n /\
     (forall m, (m, true) ∈ segs -> k <= m -> n <= m) /\
     _umm_malloc size s = Some (data_of (1 + total l), s') /\
     used (1 + total l + k) t = used (1 + total l + n) r /\ k + total t = n + total r /\
     becomes (used 1 segs) s s' (l ++ (k, false) :: t) fl') \/
  ((forall m, (m, true) ∈ segs -> m < k) /\
   exists s', _umm_malloc size s = Some (NULL, s') /\ becomes (used 1 segs) s s' segs fl).
Proof.
  intros Hok Hsize Hk k. fold k in Hk.
  set (s0 := set_depth (depth s + 1) s).
  assert (Hok0 : heap_ok s0 segs fl) by (by apply heap_ok_depth).
  destruct (search_ok s0 segs fl k Hok0 ltac:(lia)) as (cf & bs & bb & bsz & E & Ecf & Hc).
  pose proof (ok_size _ _ _ Hok0) as Hsz0. pose proof (ok_total _ _ _ Hok0) as Ht0.
  pose proof (ok_small _ _ _ Hok0) as Hsm0.
  assert (Hrun : _umm_malloc size s =
    (n <- rd NBLOCK cf ;;
     let blockSize := if negb (0x7FFF =? bsz) then bsz else bs in
     if truth (Z.land n UMM_BLOCKNO_MASK) && (k <=? blockSize) then
       (if blockSize =? k then umm_disconnect_from_free_list cf else split_free cf k) ;;
       UMM_CRITICAL_EXIT ;; UMM_DATA cf
     else UMM_CRITICAL_EXIT ;; uret NULL)%umm s0).
  { unfold _umm_malloc. rewrite (ubind_ok _ _ _ _ _ (ensure_init_done _ _ _ Hok)).
    rewrite (proj2 (Z.eqb_neq size 0)) by lia. fold k.
    rewrite (ubind_ok UMM_CRITICAL_ENTRY _ s tt s0) by done.
    ustep. ustep. rewrite (ubind_ok (uget umm_numblocks) _ s0 _ s0) by done.
    rewrite (ubind_ok _ _ _ _ _ E). cbv beta iota. by rewrite <- Ecf. }
  rewrite Hrun. destruct Hc as [(Hno & -> & Hbs) | (l & r & -> & -> & Hkb & Hbest)].
  - right. split; [done |]. cbn in Ecf. subst cf. ustep. rewrite (ok_head _ _ _ Hok0). cbv zeta.
    change (negb (0x7FFF =? 0x7FFF)) with false. cbv iota. rewrite (proj2 (Z.leb_gt k bs)) by lia. rewrite andb_false_r.
    eexists. split; [done |]. apply becomes_critical.
    split_and!; [done | by repeat split | apply keeps_refl].
  - left. destruct (ok_links _ _ _ _ _ _ Hok0) as (H0 & H1 & H2 & _ & _ & _ & _ & _ & Hb & _).
    ustep. rewrite Hb, link_mask by lia. cbv zeta. replace (negb (0x7FFF =? bsz)) with true by lia. cbv iota.
    rewrite (proj2 (Z.leb_le k bsz)) by lia.
    replace (truth (1 + total l + bsz)) with true by (unfold truth; lia). cbn [andb].
    destruct (Z.eqb_spec bsz k) as [-> | Hne].
    + destruct (disconnect_ok s0 l k r fl Hok0) as (s2 & fl' & Hd & Hbe).
      exists l, k, r. eexists _, r, fl'. split; [done |]. split; [lia |]. split; [done |].
      split; [| split; [done |]; split; [done |]; apply becomes_critical; exact Hbe].
      rewrite (ubind_ok _ _ _ _ _ Hd). rewrite (ubind_ok UMM_CRITICAL_EXIT _ s2 tt (set_depth (depth s2 - 1) s2)) by done.
      apply data_of_run. apply (ok_addr _ _ _ (proj1 Hbe)).
    + destruct (split_free_ok s0 l bsz r fl k Hok0 ltac:(lia)) as (s2 & fl' & Hd & Hbe).
      exists l, bsz, r. eexists _, ((bsz - k, true) :: r), fl'. split; [done |]. split; [lia |]. split; [done |].
      split; [| split; [cbn [used]; f_equal; lia |]; split; [cbn [total]; lia |]; apply becomes_critical; exact Hbe].
      rewrite (ubind_ok _ _ _ _ _ Hd). rewrite (ubind_ok UMM_CRITICAL_EXIT _ s2 tt (set_depth (depth s2 - 1) s2)) by done.
      apply data_of_run. apply (ok_addr _ _ _ (proj1 Hbe)).
Qed.
End Malloc.
