(* ===== verification/UmmRealloc.v ===== *)
(** * umm_malloc: writing to a block, and realloc *)

From S2P Require Import Prelude Umm UmmHeap UmmOps UmmAlloc UmmMalloc.

Section Realloc.
Context {Cfg : HeapCfg} {CfgOk : HeapCfgOk}.

(** ** Writing to the data of a used block *)

Lemma chain_same h h' prev p segs :
  (forall l r, segs = l ++ r -> h' NBLOCK (p + total l) = h NBLOCK (p + total l) /\
     h' PBLOCK (p + total l) = h PBLOCK (p + total l)) ->
  chain h prev p segs -> chain h' prev p segs.
Proof.
  revert prev p. induction segs as [| [n f] segs IH]; intros prev p Hh H; simpl in *;
    destruct (Hh [] _ eq_refl) as [E1 E2]; cbn [total] in E1, E2; rewrite Z.add_0_r in E1, E2; rewrite E1, E2; [done |].
  destruct H as (H1 & H2 & H3 & H). split_and!; try done. apply IH; [| done].
  intros l r ->. destruct (Hh ((n, f) :: l) r eq_refl) as [A B]. cbn [total] in A, B. by rewrite Z.add_assoc in A, B.
Qed.

(** Every field of the invariant lies outside of the data of the used blocks. *)
Lemma heap_ok_data s s' segs fl : heap_ok s segs fl -> same_frame s s' ->
  (forall a, (forall b m, (b, m) ∈ used 1 segs -> ~ (block_addr s b + 4 <= a < block_addr s (b + m))) ->
     mem s' a = mem s a) ->
  heap_ok s' segs fl.
Proof.
  intros Hok (E1 & E2 & _) Hmem.
  assert (Hf : forall f x, apart (used 1 segs) f x -> fld s' f x = fld s f x).
  { intros f x Ha. unfold fld, load16. unfold block_addr at 1 2. rewrite E1. fold (block_addr s x).
    pose proof (offset_range f).
    rewrite !Hmem; [done | |]; intros b m Hb; destruct (Ha b m Hb) as [? | [? | [-> Hh]]];
      unfold block_addr, sizeof_umm_block; try lia; destruct f; simpl in *; congruence || lia. }
  pose proof Hok as [? ? ? ? ? ? ? ?]. split; try done.
  - by rewrite E1.
  - by rewrite E2.
  - by rewrite E2.
  - rewrite Hf; [done |]. by eapply apart_zero.
  - eapply chain_same; [| exact ok_chain]. intros l r E.
    assert (Hap : forall f, is_header f = true -> apart (used 1 segs) f (1 + total l)).
    { intros f Hh. pose proof (apart_between s l [] r fl f (1 + total l)) as A. cbn [total app] in A.
      rewrite Z.add_0_r, <- used_app, <- E in A. apply A; [done |]. right. split; [lia | done]. }
    split; apply Hf; by apply Hap.
  - eapply dll_ext; [exact ok_list | |]; intros x Hx; apply Hf; eapply apart_free_zero; try exact Hok.
    + by apply elem_of_cons in Hx.
    + by right.
Qed.

(** Used blocks do not overlap. *)
Lemma used_disjoint p l b m c n : positive l -> (b, m) ∈ used p l -> (c, n) ∈ used p l ->
  b = c /\ m = n \/ b + m <= c \/ c + n <= b.
Proof.
  intros Hl. revert p. induction Hl as [| [k f] l Hk Hl IH]; intros p Hb Hc; [by apply elem_of_nil in Hb |].
  simpl in *. destruct f; [by eapply IH |].
  apply elem_of_cons in Hb as [[= -> ->] | Hb]; apply elem_of_cons in Hc as [[= -> ->] | Hc].
  - by left.
  - apply used_range in Hc; [lia | done].
  - apply used_range in Hb; [lia | done].
  - by eapply IH.
Qed.

Lemma used_NoDup p l : positive l -> NoDup (used p l).*1.
Proof.
  intros Hl. revert p. induction Hl as [| [k f] l Hk Hl IH]; intros p; simpl; [constructor |].
  destruct f; [apply IH |]. simpl. constructor; [| apply IH]. intros Hx.
  apply list_elem_of_fmap in Hx as ([b m] & E & Hb). apply used_range in Hb; [simpl in *; lia | done].
Qed.

(** A copy into the data of the used block [b], from anywhere in the heap. *)
Lemma memmove_ok s segs fl b m src len us : heap_ok s segs fl -> (b, m) ∈ used 1 segs ->
  0 <= len <= 8 * m - 4 -> in_heap s src len = true ->
  (forall x, x ∈ us -> x ∈ used 1 segs /\ x <> (b, m)) ->
  exists s', memmove (data_of b) src len s = Some (tt, s') /\ becomes us s s' segs fl /\
    (forall i, 0 <= i < len -> mem s' (data_of b + i) = mem s (src + i)).
Proof.
  intros Hok Hb Hlen Hsrc Hus. pose proof (ok_positive _ _ _ Hok) as Hp.
  pose proof (used_range _ _ _ _ Hp Hb) as Hr. pose proof (ok_size _ _ _ Hok) as Hs. pose proof (ok_addr _ _ _ Hok) as Ha.
  unfold memmove. rewrite Hsrc.
  assert (Hd : in_heap s (data_of b) len = true) by (unfold in_heap, data_of, sizeof_umm_block; rewrite Ha; lia).
  rewrite Hd. cbn [andb]. eexists. split; [done |]. set (s' := set_mem _ s).
  assert (Hfr : same_frame s s') by (by repeat split).
  split.
  - split_and!; [| done |].
    + eapply heap_ok_data; [exact Hok | exact Hfr |]. intros a Hout. specialize (Hout b m Hb). cbn.
      unfold block_addr, data_of, sizeof_umm_block in *. rewrite Ha in Hout.
      by replace (_ && _) with false by lia.
    + split; cbn.
      * intros c n a Hc Hin. destruct (Hus _ Hc) as [Hc' Hne].
        destruct (used_disjoint _ _ _ _ _ _ Hp Hb Hc') as [[-> ->] | Hdis]; [done |].
        unfold block_addr, data_of, sizeof_umm_block in *. rewrite Ha in Hin. by replace (_ && _) with false by lia.
      * intros a Hout. unfold data_of, in_heap, sizeof_umm_block in *. rewrite Ha in *. by replace (_ && _) with false by lia.
  - intros i Hi. cbn. replace (_ && _) with true by lia. f_equal. lia.
Qed.

(** ** Shrinking a block *)

Lemma shrink_ok s l n r fl k : heap_ok s (l ++ (n, false) :: r) fl -> 0 < k < n ->
  let c := 1 + total l in
  exists s' segs' fl', shrink c k s = Some (tt, s') /\
    used 1 segs' = used 1 l ++ (c, k) :: used (c + n) r /\
    becomes (used 1 l ++ (c, k) :: used (c + n) r) s s' segs' fl'.
Proof.
  intros Hok Hk c. destruct (split_used_ok s l n r fl k Hok Hk) as (s1 & Hm & Hbe). fold c in Hm, Hbe.
  unfold shrink. rewrite (ubind_ok _ _ _ _ _ Hm). pose proof Hbe as (Hok1 & _ & _).
  rewrite (ubind_ok _ _ _ _ _ (data_of_run s1 (c + k) (ok_addr _ _ _ Hok1))).
  change (l ++ (k, false) :: (n - k, false) :: r) with (l ++ [(k, false)] ++ (n - k, false) :: r) in Hok1.
  rewrite app_assoc in Hok1. destruct (free_ok s1 _ _ _ _ Hok1) as (s' & segs' & fl' & Hf & Hu & _ & Hbe2).
  rewrite total_app in Hf, Hu, Hbe2. cbn [total] in Hf, Hu, Hbe2.
  replace (1 + (total l + (k + 0))) with (c + k) in Hf, Hu, Hbe2 by (unfold c; lia).
  replace (c + k + (n - k)) with (c + n) in Hu, Hbe2 by lia.
  rewrite used_app in Hu, Hbe2. cbn [used] in Hu, Hbe2. fold c in Hu, Hbe2. rewrite <- app_assoc in Hu, Hbe2. cbn [app] in Hu, Hbe2.
  exists s', segs', fl'. split; [exact Hf |]. split; [exact Hu |]. by eapply becomes_trans.
Qed.

(** ** Realloc *)

(** The first [len] bytes of a block are those another block had before. *)
Definition moved (s s' : ustate) (c c' len : Z) : Prop :=
  forall i, 0 <= i < len -> mem s' (data_of c' + i) = mem s (data_of c + i).

Lemma keeps_moved us s s' c n len : umm_heap s = heap_addr -> keeps us s s' -> (c, n) ∈ us ->
  len <= 8 * n - 4 -> moved s s' c c len.
Proof.
  intros Ha [H _] Hin Hl i Hi. apply (H c n _ Hin). unfold block_addr, data_of, sizeof_umm_block. rewrite Ha. lia.
Qed.
Lemma keeps_cons us s s' c n : umm_heap s = heap_addr -> keeps us s s' -> moved s s' c c (8 * n - 4) ->
  keeps ((c, n) :: us) s s'.
Proof.
  intros Ha [H1 H2] Hm. split; [| done]. intros b m a Hb Hin.
  apply elem_of_cons in Hb as [[= -> ->] | Hb]; [| by apply (H1 b m)].
  unfold block_addr, sizeof_umm_block in Hin. rewrite Ha in Hin. replace a with (data_of c + (a - data_of c)) by lia.
  apply Hm. unfold data_of. lia.
Qed.
Lemma moved_trans s1 s2 s3 a b c len : moved s1 s2 a b len -> moved s2 s3 b c len -> moved s1 s3 a c len.
Proof. intros H1 H2 i Hi. by rewrite H2, H1. Qed.
Lemma moved_less s s' a b len len' : len' <= len -> moved s s' a b len -> moved s s' a b len'.
Proof. intros Hl H i Hi. apply H. lia. Qed.

(** Taking the free block in front of the used block [c]: [us] are the other
    used blocks. *)
(** The free segment in front is taken and the data moves down. *)
Lemma merge_move_ok s l m n r fl len : heap_ok s (l ++ (m, true) :: (n, false) :: r) fl -> 0 <= len <= 8 * n - 4 ->
  let p := 1 + total l in let c := p + m in let us := used 1 l ++ used (c + n) r in
  exists s' fl', (umm_disconnect_from_free_list p ;; c' <- umm_assimilate_down c 0 ;; d <- UMM_DATA c' ;;
                  memmove d (data_of c) len ;; uret (c', d))%umm s = Some ((p, data_of p), s') /\
    becomes us s s' (l ++ (m + n, false) :: r) fl' /\ moved s s' c p len.
Proof.
  intros Hok Hlen p c us. destruct (ok_links2 _ _ _ _ _ _ _ _ Hok) as (K0 & Kn & K1 & K2 & _). fold p in K1, K2.
  pose proof (ok_small _ _ _ Hok) as Hsm.
  destruct (disconnect_ok s l m ((n, false) :: r) fl Hok) as (s1 & fl1 & Hd & Hbe1). fold p in Hd.
  pose proof Hbe1 as (Hok2 & Hfr1 & Hk1).
  destruct (merge_down_ok s1 l m false n r fl1 Hok2 ltac:(done)) as (s2 & Hm & Hbe2). fold p c in Hm.
  pose proof Hbe2 as (Hok3 & _ & Hk2).
  assert (Hpos : positive l /\ positive r).
  { pose proof (ok_positive _ _ _ Hok3) as Hpos. apply Forall_app in Hpos as [? Hpos]. by apply Forall_cons in Hpos as [_ ?]. }
  assert (Hin3 : (p, m + n) ∈ used 1 (l ++ (m + n, false) :: r)) by (rewrite used_app; apply elem_of_app; right; left).
  assert (Hsub : forall x, x ∈ us -> x ∈ used 1 (l ++ (m, true) :: (n, false) :: r)).
  { intros x Hx. rewrite used_app. cbn [used]. fold p c.
    apply elem_of_app in Hx as [Hx | Hx]; apply elem_of_app; [by left | right; by right]. }
  assert (Hsub2 : forall x, x ∈ used 1 (l ++ (m, true) :: (n, false) :: r) -> x ∈ used 1 (l ++ (m, false) :: (n, false) :: r)).
  { intros x. rewrite !used_app. cbn [used]. intros Hx. apply elem_of_app in Hx as [Hx | Hx]; apply elem_of_app; [by left | right; by right]. }
  destruct (memmove_ok s2 _ _ p (m + n) (data_of c) len us Hok3 Hin3) as (s3 & Hmv & Hbe3 & Hdat).
  { lia. }
  { unfold in_heap, data_of, sizeof_umm_block. rewrite (ok_addr _ _ _ Hok3).
    destruct Hbe2 as (_ & (_ & F & _) & _). destruct Hfr1 as (_ & F' & _). rewrite F, F'. unfold c. lia. }
  { intros x Hx. rewrite used_app. fold p. cbn [used]. apply elem_of_app in Hx as [Hx | Hx].
    - split; [apply elem_of_app; by left |]. intros ->. apply used_range in Hx; [unfold p in *; lia | by apply Hpos].
    - unfold c in Hx. rewrite <- Z.add_assoc in Hx. split; [apply elem_of_app; right; by right |].
      intros ->. apply used_range in Hx; [lia | by apply Hpos]. }
  exists s3, fl1. split; [| split].
  - rewrite (ubind_ok _ _ _ _ _ Hd). change 0 with (flag false). rewrite (ubind_ok _ _ _ _ _ Hm).
    rewrite (ubind_ok _ _ _ _ _ (data_of_run s2 p (ok_addr _ _ _ Hok3))). by rewrite (ubind_ok _ _ _ _ _ Hmv).
  - eapply becomes_trans; [eapply becomes_subset; [exact Hsub | exact Hbe1] |].
    eapply becomes_trans; [| exact Hbe3]. eapply becomes_subset; [| exact Hbe2]. intros x Hx. by apply Hsub2, Hsub.
  - assert (Hcn : (c, n) ∈ used 1 (l ++ (m, true) :: (n, false) :: r)).
    { rewrite used_app. apply elem_of_app. right. cbn [used]. fold p c. left. }
    intros i Hi. rewrite Hdat by lia.
    assert (moved s s1 c c len) as M1 by (eapply keeps_moved; [by apply (ok_addr _ _ _ Hok) | exact Hk1 | exact Hcn | lia]).
    assert (moved s1 s2 c c len) as M2
      by (eapply keeps_moved; [by apply (ok_addr _ _ _ Hok2) | exact Hk2 | by apply Hsub2 | lia]).
    by rewrite M2, M1.
Qed.

Lemma realloc_down_ok s l n r fl k len : heap_ok s (l ++ (n, false) :: r) fl ->
  0 <= len <= 8 * n - 4 -> starts_free r = false ->
  let c := 1 + total l in let us := used 1 l ++ used (c + n) r in
  exists s' l' n' fl', let c' := 1 + total l' in
    realloc_down c (data_of c) k len s = Some ((c', data_of c'), s') /\
    used 1 l' = used 1 l /\ c' + n' = c + n /\ (c' = c \/ k <= n') /\
    becomes us s s' (l' ++ (n', false) :: r) fl' /\ moved s s' c c' len /\ n <= n'.
Proof.
  intros Hok Hlen Hst c us. destruct (ok_links _ _ _ _ _ _ Hok) as (H0 & H1 & H2 & _ & _ & _ & _ & _ & Hb & Hp & _).
  fold c in H1, H2, Hb, Hp. unfold flag in Hb. rewrite Z.add_0_r in Hb. pose proof (ok_small _ _ _ Hok) as Hsm.
  assert (Hstay : exists s' l' n' fl', let c' := 1 + total l' in
    uret (c, data_of c) s = Some ((c', data_of c'), s') /\
    used 1 l' = used 1 l /\ c' + n' = c + n /\ (c' = c \/ k <= n') /\
    becomes us s s' (l' ++ (n', false) :: r) fl' /\ moved s s' c c' len /\ n <= n').
  { exists s, l, n, fl. cbv zeta. fold c. split; [done |]. split; [done |]. split; [done |]. split; [by left |].
    split; [| split; [done | lia]]. split_and!; [done | by repeat split | apply keeps_refl]. }
  unfold realloc_down. destruct (ends_cases l) as [E | (l' & m & g & E)].
  - rewrite E in Hp. cbn [last_start] in Hp. ustep. rewrite Hp. ustep. rewrite (ok_head _ _ _ Hok). ustep.
    exact Hstay.
  - rewrite E, last_start_snoc in Hp.
    assert (Ec : c = 1 + total l' + m) by (unfold c; rewrite E, total_app; cbn [total]; lia).
    pose proof Hok as Hok1. rewrite E, <- app_assoc in Hok1. cbn [app] in Hok1.
    destruct (ok_links2 _ _ _ _ _ _ _ _ Hok1) as (K0 & _ & K1 & K2 & _ & Kb & _). set (p := 1 + total l') in *.
    ustep. rewrite Hp. ustep. rewrite Kb. ustep. rewrite Hb, link_flag by lia.
    destruct g; [| exact Hstay]. destruct (Z.leb_spec k (c + n - p)) as [Hk | _]; [| exact Hstay]. clear Hstay. cbn [andb].
    destruct (merge_move_ok s l' m n r fl len Hok1 Hlen) as (s3 & fl1 & Hrun & Hbe & Hmv). fold p in Hrun, Hbe, Hmv.
    rewrite <- Ec in Hrun, Hbe, Hmv. exists s3, l', (m + n), fl1. cbv zeta. fold p. split; [exact Hrun |].
    assert (Eu : used 1 l' = used 1 l) by (by rewrite E, used_app; cbn [used]; rewrite app_nil_r).
    split; [done |]. split; [lia |]. split; [right; lia |]. split; [unfold us; by rewrite <- Eu |]. split; [done | lia].
Qed.

(** The block is too small: the data moves to a new block.  Success keeps the
    other used blocks [us]; failure keeps them all. *)
Lemma realloc_grow_ok s l n r fl size len : heap_ok s (l ++ (n, false) :: r) fl ->
  0 < size <= max_request -> 0 <= len <= 8 * n - 4 ->
  let k := umm_blocks size in let c := 1 + total l in let us := used 1 l ++ used (c + n) r in n < k ->
  let grow := (new <- _umm_malloc size ;; if new =? NULL then uret NULL else
               memmove new (data_of c) len ;; _umm_free (data_of c) ;; uret new)%umm in
  (exists c' s' segs' fl', grow s = Some (data_of c', s') /\
     1 <= c' /\ used 1 segs' ≡ₚ (c', k) :: us /\ becomes us s s' segs' fl' /\ moved s s' c c' (Z.min len (8 * k - 4))) \/
  (n < k /\ (forall m, (m, true) ∈ l ++ (n, false) :: r -> m < k) /\
   exists s', grow s = Some (NULL, s') /\
     becomes (used 1 (l ++ (n, false) :: r)) s s' (l ++ (n, false) :: r) fl).
Proof.
  intros Hok Hsize Hlen k c us Hgt grow. destruct (umm_blocks_exact size Hsize) as (_ & Hk & Hks). fold k in Hk, Hks.
  destruct (ok_links _ _ _ _ _ _ Hok) as (H0 & H1 & H2 & _). fold c in H1, H2.
  pose proof (ok_small _ _ _ Hok) as Hsm. pose proof (ok_addr _ _ _ Hok) as Hadr.
  assert (Hus : used 1 (l ++ (n, false) :: r) ≡ₚ (c, n) :: us)
    by (rewrite used_app; cbn [used]; fold c; by rewrite <- Permutation_middle).
  unfold grow.
  destruct (malloc_ok s _ _ size Hok ltac:(lia) ltac:(fold k; lia)) as [(l2 & n2 & r2 & s1 & t & fl1 & E & Hkn & _ & Hm & Hu & Ht & Hbe) | (Hno & s1 & Hm & Hbe)];
    fold k in Hm, Hbe |- *.
  2:{ right. split; [lia |]. split; [done |]. exists s1. rewrite (ubind_ok _ _ _ _ _ Hm). by split. }
  left. fold k in Hkn, Hu, Ht. set (c' := 1 + total l2) in *. pose proof Hbe as (Hok1 & Hfr1 & Hk1).
  rewrite (ubind_ok _ _ _ _ _ Hm).
  destruct (ok_links _ _ _ _ _ _ Hok1) as (G0 & G1 & G2 & _). fold c' in G1, G2.
  rewrite (proj2 (Z.eqb_neq _ _)) by (apply data_not_null; lia).
  assert (Hused1 : used 1 (l2 ++ (k, false) :: t) ≡ₚ (c', k) :: (c, n) :: us).
  { rewrite <- Hus, E, !used_app. cbn [used]. fold c'. rewrite Hu. by rewrite <- Permutation_middle. }
  assert (Hin' : (c', k) ∈ used 1 (l2 ++ (k, false) :: t)) by (rewrite Hused1; left).
  assert (Hcn : (c, n) ∈ used 1 (l ++ (n, false) :: r)) by (rewrite Hus; left).
  assert (Hcn1 : (c, n) ∈ used 1 (l2 ++ (k, false) :: t)) by (rewrite Hused1; right; left).
  assert (Hnd : NoDup ((c', k) :: (c, n) :: us)).
  { rewrite <- Hused1. apply (NoDup_fmap_1 fst). eapply used_NoDup, ok_positive, Hok1. }
  apply NoDup_cons in Hnd as [Hnd1 Hnd2]. apply NoDup_cons in Hnd2 as [Hnd2 _].
  destruct (memmove_ok s1 _ _ c' k (data_of c) len ((c, n) :: us) Hok1 Hin') as (s2 & Hmv & Hbe2 & Hdat).
  { lia. }
  { unfold in_heap, data_of, sizeof_umm_block. rewrite (ok_addr _ _ _ Hok1). destruct Hfr1 as (_ & F & _). rewrite F. lia. }
  { intros x Hx. split; [rewrite Hused1; by right |]. by intros ->. }
  rewrite (ubind_ok _ _ _ _ _ Hmv). pose proof Hbe2 as (Hok2 & _ & _).
  destruct (used_split _ _ _ _ Hcn1) as (la & lb & Eab & Ec). rewrite Eab in Hok2, Hused1.
  destruct (free_ok s2 la n lb _ Hok2) as (s3 & segs' & fl' & Hf & Hu3 & _ & Hbe3). rewrite <- Ec in Hf, Hu3, Hbe3.
  assert (Hu3' : used 1 segs' ≡ₚ (c', k) :: us).
  { rewrite Hu3. apply (Permutation_cons_inv (a := (c, n))). rewrite Permutation_middle.
    rewrite used_app in Hused1. cbn [used] in Hused1. rewrite <- Ec in Hused1. rewrite Hused1. apply perm_swap. }
  exists c', s3, segs', fl'. rewrite (ubind_ok _ _ _ _ _ Hf). split; [done |]. split; [lia |]. split; [done |]. split.
  - eapply becomes_trans; [eapply becomes_subset; [| exact Hbe]; intros x Hx; rewrite Hus; by right |].
    eapply becomes_trans; [eapply becomes_subset; [| exact Hbe2]; intros x Hx; by right |].
    eapply becomes_subset; [| exact Hbe3]. intros x Hx. rewrite <- Hu3, Hu3'. by right.
  - assert (moved s s1 c c len) as M1 by (by eapply keeps_moved; [| exact Hk1 | exact Hcn | lia]).
    assert (moved s2 s3 c' c' len) as M3.
    { eapply keeps_moved; [apply (ok_addr _ _ _ Hok2) | apply Hbe3 | rewrite <- Hu3, Hu3'; left | lia]. }
    intros i Hi. rewrite M3, Hdat, M1 by lia. done.
Qed.

(** The three cases by size. *)
Lemma realloc_resize_ok s l n r fl size len : heap_ok s (l ++ (n, false) :: r) fl ->
  0 < size <= max_request -> 0 <= len <= 8 * n - 4 ->
  let k := umm_blocks size in let c := 1 + total l in let us := used 1 l ++ used (c + n) r in
  (exists c' s' segs' fl', realloc_resize c (data_of c) size k len s = Some (data_of c', s') /\
     1 <= c' /\ used 1 segs' ≡ₚ (c', k) :: us /\ becomes us s s' segs' fl' /\ moved s s' c c' (Z.min len (8 * k - 4))) \/
  (n < k /\ (forall m, (m, true) ∈ l ++ (n, false) :: r -> m < k) /\
   exists s', realloc_resize c (data_of c) size k len s = Some (NULL, s') /\
     becomes (used 1 (l ++ (n, false) :: r)) s s' (l ++ (n, false) :: r) fl).
Proof.
  intros Hok Hsize Hlen k c us. destruct (umm_blocks_exact size Hsize) as (_ & Hk & Hks). fold k in Hk, Hks.
  destruct (ok_links _ _ _ _ _ _ Hok) as (H0 & H1 & H2 & _ & _ & _ & _ & _ & Hb & _). fold c in H1, H2, Hb.
  unfold flag in Hb. rewrite Z.add_0_r in Hb. pose proof (ok_small _ _ _ Hok) as Hsm.
  unfold realloc_resize. ustep. rewrite Hb. cbv zeta. replace (c + n - c) with n by lia.
  rewrite u16_id by (unfold is_u16; lia).
  destruct (Z.eqb_spec n k) as [E | Hne].
  { left. exists c, s, (l ++ (n, false) :: r), fl. rewrite <- E. split; [done |]. split; [lia |].
    split; [rewrite used_app; cbn [used]; fold c; by rewrite <- Permutation_middle |].
    split; [split_and!; [done | by repeat split | apply keeps_refl] | done]. }
  destruct (Z.ltb_spec k n) as [Hlt | Hge].
  { left. destruct (shrink_ok s l n r fl k Hok ltac:(lia)) as (s' & segs' & fl' & Hsh & Hu & Hbe). fold c in Hsh, Hu, Hbe.
    exists c, s', segs', fl'. rewrite (ubind_ok _ _ _ _ _ Hsh). split; [done |]. split; [lia |].
    split; [rewrite Hu; by rewrite <- Permutation_middle |]. split.
    - eapply becomes_subset; [| exact Hbe]. intros x Hx. apply elem_of_app in Hx as [Hx | Hx]; apply elem_of_app; [by left | right; by right].
    - eapply keeps_moved; [apply (ok_addr _ _ _ Hok) | apply Hbe | apply elem_of_app; right; left | lia]. }
  apply realloc_grow_ok; [done | done | done | fold k; lia].
Qed.

(** Reallocating a used block to a size that is not zero. *)
Lemma realloc_ok s l n r fl size : heap_ok s (l ++ (n, false) :: r) fl -> 0 < size <= max_request ->
  let k := umm_blocks size in let c := 1 + total l in let us := used 1 l ++ used (c + n) r in
  (exists c' s' segs' fl', _umm_realloc (data_of c) size s = Some (data_of c', s') /\
     1 <= c' /\ used 1 segs' ≡ₚ (c', k) :: us /\ becomes us s s' segs' fl' /\
     moved s s' c c' (Z.min (8 * n - 4) (8 * k - 4))) \/
  (exists s' segs' fl' n', _umm_realloc (data_of c) size s = Some (NULL, s') /\ n <= n' /\
     used 1 segs' ≡ₚ (c, n') :: us /\ becomes ((c, n) :: us) s s' segs' fl').
Proof.
  intros Hok Hsize k c us. destruct (umm_blocks_exact size Hsize) as (_ & Hk & _). fold k in Hk.
  destruct (ok_links _ _ _ _ _ _ Hok) as (H0 & H1 & H2 & _ & _ & _ & _ & _ & Hb & _). fold c in H1, H2, Hb.
  unfold flag in Hb. rewrite Z.add_0_r in Hb. pose proof (ok_small _ _ _ Hok) as Hsm.
  set (s0 := set_depth (depth s + 1) s).
  assert (Hok0 : heap_ok s0 (l ++ (n, false) :: r) fl) by (by apply heap_ok_depth).
  assert (Hall : forall x, x ∈ (c, n) :: us -> x ∈ used 1 (l ++ (n, false) :: r)).
  { intros x Hx. rewrite used_app. cbn [used]. fold c. by rewrite <- Permutation_middle. }
  unfold _umm_realloc. rewrite (ubind_ok _ _ _ _ _ (ensure_init_done _ _ _ Hok)).
  rewrite (proj2 (Z.eqb_neq (data_of c) NULL)) by (apply data_not_null; lia).
  rewrite (proj2 (Z.eqb_neq size 0)) by lia. rewrite (ubind_ok UMM_CRITICAL_ENTRY _ s tt s0) by done. cbv zeta. fold k.
  rewrite (ubind_ok _ _ _ _ _ (block_of_data s0 c (ok_addr _ _ _ Hok0) ltac:(lia))).
  rewrite (ubind_ok _ _ _ _ _ (rd_ok NBLOCK c s0 ltac:(cbn [umm_numblocks s0 set_depth]; lia))). cbv beta.
  change (fld s0 NBLOCK c) with (fld s NBLOCK c). rewrite Hb. replace (c + n - c) with n by lia.
  rewrite u16_id by (unfold is_u16; lia).
  replace (u32 (n * sizeof_umm_block - sizeof_header)) with (8 * n - 4)
    by (unfold sizeof_umm_block, sizeof_header; rewrite u32_id; [lia | unfold is_u32; lia]).
  destruct (Z.eqb_spec n k) as [E | Hne].
  { left. exists c, (set_depth (depth s0 - 1) s0), (l ++ (n, false) :: r), fl. split; [done |]. split; [lia |].
    split; [rewrite used_app; cbn [used]; fold c; rewrite <- E; by rewrite <- Permutation_middle |].
    split; [apply becomes_critical; split_and!; [done | by repeat split | apply keeps_refl] | done]. }
  destruct (up_ok s0 l n r fl Hok0) as (s1 & n1 & r1 & fl1 & Hup & Hn1 & Hst & Hu1 & Ht1 & Hbe1). fold c in Hup, Hu1.
  rewrite (ubind_ok _ _ _ _ _ Hup). pose proof Hbe1 as (Hok1 & Hfr1 & Hk1).
  destruct (realloc_down_ok s1 l n1 r1 fl1 k (8 * n - 4) Hok1 ltac:(lia) Hst)
    as (s2 & l2 & n2 & fl2 & Hdn & Hu2 & Hcn2 & Hc2 & Hbe2 & Hmv2 & Hn2). fold c in Hdn, Hcn2, Hc2, Hbe2, Hmv2.
  set (c2 := 1 + total l2) in *. rewrite (ubind_ok _ _ _ _ _ Hdn). cbn [fst snd]. pose proof Hbe2 as (Hok2 & Hfr2 & Hk2).
  assert (Hus2 : used 1 l2 ++ used (c2 + n2) r1 = us) by (unfold us; rewrite Hu2, Hcn2; by rewrite Hu1).
  assert (M1 : moved s0 s1 c c (8 * n - 4)).
  { eapply keeps_moved; [apply (ok_addr _ _ _ Hok0) | exact Hk1 | apply Hall; left | lia]. }
  assert (Hbe12 : becomes us s0 s2 (l2 ++ (n2, false) :: r1) fl2).
  { eapply becomes_trans; [eapply becomes_subset; [| exact Hbe1]; intros x Hx; apply Hall; by right |].
    eapply becomes_subset; [| exact Hbe2]. intros x Hx. by rewrite Hu1. }
  destruct (realloc_resize_ok s2 l2 n2 r1 fl2 size (8 * n - 4) Hok2 Hsize ltac:(lia))
    as [(c' & s3 & segs' & fl' & Hre & Hc' & Hu' & Hbe3 & Hmv3) | (Hlt & _ & s3 & Hre & Hbe3)];
    fold k in Hre |- *; fold c2 in Hre, Hbe3; rewrite (ubind_ok _ _ _ _ _ Hre).
  - left. fold k in Hu', Hmv3. fold c2 in Hu', Hmv3. rewrite Hus2 in Hu', Hbe3.
    exists c', (set_depth (depth s3 - 1) s3), segs', fl'. split; [done |]. split; [done |]. split; [done |]. split.
    + apply becomes_critical. by eapply becomes_trans.
    + apply (moved_trans s0 s2 s3 c c2 c'); [| exact Hmv3]. apply (moved_less _ _ _ _ (8 * n - 4)); [lia |].
      by apply (moved_trans s0 s1 s2 c c c2).
  - right. fold k in Hlt. destruct Hc2 as [Ec2 | Hc2]; [| lia]. rewrite Ec2 in *.
    exists (set_depth (depth s3 - 1) s3), (l2 ++ (n2, false) :: r1), fl2, n2. split; [done |]. split; [lia |]. split.
    { rewrite used_app. cbn [used]. fold c2. rewrite Ec2, <- Permutation_middle. by rewrite Hus2. }
    apply becomes_critical.
    assert (Hbe3' : becomes ((c, n2) :: us) s2 s3 (l2 ++ (n2, false) :: r1) fl2).
    { eapply becomes_subset; [| exact Hbe3]. intros x Hx. rewrite used_app. cbn [used]. fold c2. rewrite Ec2.
      rewrite <- Permutation_middle. by rewrite Hus2. }
    assert (Hbe13 : becomes us s0 s3 (l2 ++ (n2, false) :: r1) fl2).
    { eapply becomes_trans; [exact Hbe12 |]. eapply becomes_subset; [| exact Hbe3']. intros x Hx. by right. }
    destruct Hbe13 as (Hok3 & Hfr3 & Hk3). split_and!; [done | done |].
    apply keeps_cons; [apply (ok_addr _ _ _ Hok0) | done |].
    apply (moved_trans s0 s2 s3 c c c); [by apply (moved_trans s0 s1 s2 c c c) |].
    eapply keeps_moved; [apply (ok_addr _ _ _ Hok2) | apply Hbe3' | left | lia].
Qed.
End Realloc.
