(* ===== verification/UmmProps.v ===== *)
(** * umm_malloc implements an allocator

    The interface of the allocator as a specification over the live
    allocations and their contents, and the proof that the functions of
    [umm_malloc.c] refine it. *)

From S2P Require Import Prelude Umm UmmHeap UmmOps UmmAlloc UmmMalloc UmmRealloc.

(** ** The specification *)

(** Live allocations: the pointer and the bytes the client may use. *)
Abbreviation live_map := (gmap Z (list Z)).

Inductive op :=
  | Malloc (n : Z)
  | Calloc (num size : Z)
  | Realloc (p n : Z)
  | Free (p : Z)
  | Store (p i v : Z).

Section Client.
Context {Cfg : HeapCfg}.

(** What the client asks the allocator to do, or does itself. *)
Definition run (caller : Z) (o : op) : U Z :=
  match o with
  | Malloc n => umm_malloc caller n
  | Calloc num size => umm_calloc caller num size
  | Realloc p n => umm_realloc caller p n
  | Free p => (umm_free p ;; uret NULL)%umm
  | Store p i v => fun s => Some (NULL, set_mem (fun a => if a =? p + i then v else mem s a) s)
  end.

(** Pointers are NULL or live, stores stay in their allocation and a request is
    at most 524276 bytes. *)
Definition valid (live : live_map) (o : op) : Prop :=
  match o with
  | Malloc n => 0 <= n <= max_request
  | Calloc num size => 0 <= num /\ 0 <= size /\ size * num <= max_request
  | Realloc p n => (p = NULL \/ is_Some (live !! p)) /\ 0 <= n <= max_request
  | Free p => p = NULL \/ is_Some (live !! p)
  | Store p i v => exists bytes, live !! p = Some bytes /\ 0 <= i < Z.of_nat (length bytes)
  end.

(** A new allocation of [n] bytes whose contents satisfy [P], or NULL. *)
Definition allocated (live : live_map) (n : Z) (P : list Z -> Prop) (ret : Z) (live' : live_map) : Prop :=
  (ret = NULL /\ live' = live) \/
  (ret <> NULL /\ 0 < n /\ live !! ret = None /\
   exists bytes, Z.of_nat (length bytes) = n /\ P bytes /\ live' = <[ret := bytes]> live).

Definition post (live : live_map) (o : op) (ret : Z) (live' : live_map) : Prop :=
  match o with
  | Malloc n => allocated live n (fun _ => True) ret live'
  | Calloc num size => allocated live (size * num) (Forall (eq 0)) ret live'
  | Realloc p n =>
      match live !! p with
      | None => allocated live n (fun _ => True) ret live'
      | Some old =>
          if n =? 0 then ret = NULL /\ live' = delete p live
          else (ret = NULL /\ live' = live) \/
               (ret <> NULL /\ delete p live !! ret = None /\
                exists bytes, Z.of_nat (length bytes) = n /\
                  (forall i v, (i < length bytes)%nat -> old !! i = Some v -> bytes !! i = Some v) /\
                  live' = <[ret := bytes]> (delete p live))
      end
  | Free p => live' = delete p live
  | Store p i v =>
      exists bytes, live !! p = Some bytes /\ live' = <[p := <[Z.to_nat i := v]> bytes]> live
  end.

(** Allocations lie in the heap and do not overlap. *)
Definition separated (live : live_map) : Prop :=
  forall p bytes, live !! p = Some bytes ->
    heap_addr < p /\ p + Z.of_nat (length bytes) <= 0x3fffc000 /\
    forall q bytes', live !! q = Some bytes' -> q <> p ->
      p + Z.of_nat (length bytes) <= q \/ q + Z.of_nat (length bytes') <= p.
End Client.

(** ** Initialisation *)

Section Props.
Context {Cfg : HeapCfg} {CfgOk : HeapCfgOk}.

Lemma init_ok s : exists s', umm_init s = Some (tt, s') /\
  heap_ok s' [(num_blocks - 2, true)] [1] /\ depth s' = depth s.
Proof.
  pose proof num_blocks_range as HN. pose proof heap_range as HR.
  unfold umm_init. rewrite u32_id by (unfold is_u32; lia).
  unfold sizeof_umm_block.
  fold num_blocks. rewrite (u16_id num_blocks) by (unfold is_u16; lia).
  set (s1 := set_array heap_addr num_blocks s). rewrite (ubind_ok (uput _) _ s tt s1) by done.
  match goal with |- context [ubind (uput ?f) _ s1] => set (s2 := f s1) end.
  rewrite (ubind_ok (uput _) _ s1 tt s2) by done. rewrite (ubind_ok (uget umm_numblocks) _ s2 num_blocks s2) by done.
  rewrite (u16_id (num_blocks - 1)) by (unfold is_u16; lia). rewrite link_or by lia.
  assert (Hu : is_u16 (num_blocks - 1 + flag true)) by (apply flag_u16; lia).
  assert (Hn2 : umm_numblocks s2 = num_blocks) by done. assert (Ha2 : umm_heap s2 = heap_addr) by done.
  assert (Hd2 : depth s2 = depth s) by done. clearbody s2.
  do 7 ustep. rewrite wr_ok by uside.
  eexists. split; [done |]. split; [| cbn; by rewrite ?Hd2].
  split; cbn [umm_heap umm_numblocks set_fld set_mem]; try (rewrite ?Ha2, ?Hn2; cbn [total]; lia || done).
  - fld_simpl. done.
  - cbn [chain]. split; [fld_simpl; done |]. split; [lia |]. split; [fld_simpl; lia |].
    replace (1 + (num_blocks - 2)) with (num_blocks - 1) by lia. split; fld_simpl; done.
  - cbn [dll]. split_and!; fld_simpl; done.
Qed.

(** ** The representation of the live allocations *)

(** Each used block belongs to an allocation that fits and whose bytes are in
    memory ... *)
Definition holds (s : ustate) (live : live_map) (us : list (Z * Z)) : Prop :=
  forall b m, (b, m) ∈ us -> exists bytes, live !! data_of b = Some bytes /\
    0 < Z.of_nat (length bytes) <= 8 * m - 4 /\
    forall i v, bytes !! i = Some v -> mem s (data_of b + Z.of_nat i) = v.
(** ... and there are no other allocations. *)
Definition covers (live : live_map) (us : list (Z * Z)) : Prop :=
  forall p, is_Some (live !! p) -> exists b m, (b, m) ∈ us /\ p = data_of b.

Definition represents (s : ustate) (live : live_map) : Prop :=
  (umm_heap s = NULL /\ live = ∅) \/
  (exists segs fl, heap_ok s segs fl /\ holds s live (used 1 segs) /\ covers live (used 1 segs)).

Lemma data_of_inj b c : data_of b = data_of c -> b = c.
Proof. unfold data_of. lia. Qed.

Lemma holds_keeps s s' live us : umm_heap s = heap_addr -> keeps us s s' -> holds s live us -> holds s' live us.
Proof.
  intros Ha [Hk _] Hh b m Hb. destruct (Hh b m Hb) as (bytes & H1 & H2 & H3). exists bytes. split; [done |].
  split; [done |]. intros i v Hi. rewrite <- (H3 i v Hi). apply lookup_lt_Some in Hi. apply (Hk b m); [done |].
  unfold block_addr, data_of, sizeof_umm_block. rewrite Ha. lia.
Qed.
Lemma holds_perm s live us us' : us ≡ₚ us' -> holds s live us -> holds s live us'.
Proof. intros Hp H b m Hb. apply H. by rewrite Hp. Qed.
Lemma covers_perm live us us' : us ≡ₚ us' -> covers live us -> covers live us'.
Proof.
  intros Hp H p Hs. destruct (H p Hs) as (b & m & Hb & E). exists b, m. split; [by rewrite <- Hp | done].
Qed.

(** A block [c] that is not in [us] gets or gives up its allocation. *)
Lemma holds_insert s live us c n bytes : c ∉ us.*1 -> holds s live us ->
  0 < Z.of_nat (length bytes) <= 8 * n - 4 ->
  (forall i v, bytes !! i = Some v -> mem s (data_of c + Z.of_nat i) = v) ->
  holds s (<[data_of c := bytes]> live) ((c, n) :: us).
Proof.
  intros Hc Hh Hl Hb b m Hin. apply elem_of_cons in Hin as [[= -> ->] | Hin].
  - exists bytes. by rewrite lookup_insert_eq.
  - destruct (Hh b m Hin) as (bs & H1 & H2 & H3). exists bs. rewrite lookup_insert_ne; [done |].
    intros E%data_of_inj. apply Hc. rewrite E. by apply (list_elem_of_fmap_2 fst us (b, m)).
Qed.
Lemma covers_insert live us c n bytes : covers live us -> covers (<[data_of c := bytes]> live) ((c, n) :: us).
Proof.
  intros Hc p Hs. destruct (decide (p = data_of c)) as [-> | Hne].
  - exists c, n. split; [left | done].
  - rewrite lookup_insert_ne in Hs by done. destruct (Hc p Hs) as (b & m & Hb & E). exists b, m. split; [by right | done].
Qed.
Lemma holds_delete s live us c n : c ∉ us.*1 -> holds s live ((c, n) :: us) -> holds s (delete (data_of c) live) us.
Proof.
  intros Hc Hh b m Hin. destruct (Hh b m) as (bs & H1 & H2 & H3); [by right |]. exists bs.
  rewrite lookup_delete_ne; [done |]. intros E%data_of_inj. apply Hc. rewrite E. by apply (list_elem_of_fmap_2 fst us (b, m)).
Qed.
Lemma covers_delete live us c n : covers live ((c, n) :: us) -> covers (delete (data_of c) live) us.
Proof.
  intros Hc p Hs. destruct (decide (p = data_of c)) as [-> | Hne].
  - rewrite lookup_delete_eq in Hs. by destruct Hs.
  - rewrite lookup_delete_ne in Hs by done. destruct (Hc p Hs) as (b & m & Hb & E).
    apply elem_of_cons in Hb as [[= -> ->] | Hb]; [done |]. by exists b, m.
Qed.
Lemma covers_fresh live us c : covers live us -> c ∉ us.*1 -> live !! data_of c = None.
Proof.
  intros Hc Hn. destruct (live !! data_of c) eqn:E; [| done].
  destruct (Hc (data_of c)) as (b & m & Hb & Eq); [by rewrite E |]. apply data_of_inj in Eq. subst b.
  exfalso. apply Hn. by apply (list_elem_of_fmap_2 fst us (c, m)).
Qed.

(** The blocks of a heap are different. *)
Lemma used_fresh s segs fl c n us : heap_ok s segs fl -> used 1 segs ≡ₚ (c, n) :: us -> c ∉ us.*1.
Proof.
  intros Hok Hp. pose proof (used_NoDup 1 segs (ok_positive _ _ _ Hok)) as Hnd. rewrite Hp in Hnd.
  by apply NoDup_cons in Hnd as [? _].
Qed.

(** The bytes of memory. *)
Definition bytes_at (s : ustate) (p n : Z) : list Z := map (fun i => mem s (p + Z.of_nat i)) (seq 0 (Z.to_nat n)).

Lemma length_bytes_at s p n : 0 <= n -> Z.of_nat (length (bytes_at s p n)) = n.
Proof. intros H. unfold bytes_at. rewrite length_map, length_seq. lia. Qed.
Lemma lookup_bytes_at s p n i : (i < Z.to_nat n)%nat -> bytes_at s p n !! i = Some (mem s (p + Z.of_nat i)).
Proof. intros H. unfold bytes_at. rewrite list_lookup_fmap, lookup_seq_lt by done. done. Qed.
Lemma bytes_at_mem s p n i v : bytes_at s p n !! i = Some v -> mem s (p + Z.of_nat i) = v.
Proof.
  intros H. pose proof (lookup_lt_Some _ _ _ H) as Hl. unfold bytes_at in Hl. rewrite length_map, length_seq in Hl.
  rewrite lookup_bytes_at in H by done. congruence.
Qed.

(** ** Allocations stay apart *)

Lemma represents_separated s live : represents s live -> separated live.
Proof.
  intros [[_ ->] | (segs & fl & Hok & Hh & Hc)] p bytes Hp; [by rewrite lookup_empty in Hp |].
  pose proof heap_range as HR. pose proof (ok_positive _ _ _ Hok) as Hpos. pose proof (ok_size _ _ _ Hok) as Hs.
  assert (Hlook : forall q bs, live !! q = Some bs -> exists b m, (b, m) ∈ used 1 segs /\ q = data_of b /\
    Z.of_nat (length bs) <= 8 * m - 4).
  { intros q bs Hq. destruct (Hc q) as (b & m & Hb & ->); [by rewrite Hq |]. exists b, m.
    destruct (Hh b m Hb) as (bs' & H1 & H2 & _). rewrite Hq in H1. injection H1 as <-. split_and!; lia || done. }
  destruct (Hlook p bytes Hp) as (b & m & Hb & -> & Hl).
  pose proof (used_range _ _ _ _ Hpos Hb) as Hr. split; [unfold data_of; lia |]. split.
  - pose proof (ok_num _ _ _ Hok) as Hn. unfold num_blocks in Hn. unfold data_of. mlia.
  - intros q bs Hq Hne. destruct (Hlook q bs Hq) as (c & n & Hcn & -> & Hl2).
    destruct (used_disjoint _ _ _ _ _ _ Hpos Hb Hcn) as [[-> ->] | Hd]; [done |]. unfold data_of. lia.
Qed.

(** ** The operations on represented heaps *)

(** An initialised heap with its allocations. *)
Definition serves (s : ustate) (live : live_map) (segs : list seg) (fl : list Z) : Prop :=
  heap_ok s segs fl /\ holds s live (used 1 segs) /\ covers live (used 1 segs).

Lemma serves_failure caller size ret s live segs fl :
  serves s live segs fl ->
  exists s', record_failure caller size ret s = Some (tt, s') /\ serves s' live segs fl /\ depth s' = depth s.
Proof.
  intros (Hok & Hh & Hc). unfold record_failure.
  destruct (negb (0 =? size) && (0 =? ret)); eexists; (split; [done |]); split; try done.
  split_and!; [| exact Hh | exact Hc]. destruct Hok. by split.
Qed.

(** A new block, not yet an allocation of the client. *)
Lemma malloc_serves s live segs fl n : serves s live segs fl -> 0 < n <= max_request ->
  exists s' segs' fl', depth s' = depth s /\
   ((_umm_malloc n s = Some (NULL, s') /\ serves s' live segs' fl') \/
    (exists c, _umm_malloc n s = Some (data_of c, s') /\ 1 <= c /\ heap_ok s' segs' fl' /\
       used 1 segs' ≡ₚ (c, umm_blocks n) :: used 1 segs /\ holds s' live (used 1 segs) /\
       (c ∉ (used 1 segs).*1) /\ covers live (used 1 segs) /\ n <= 8 * umm_blocks n - 4)).
Proof.
  intros (Hok & Hh & Hc) Hn. destruct (umm_blocks_exact n Hn) as (_ & Hk & Hkn). pose proof (ok_addr _ _ _ Hok) as Ha.
  destruct (malloc_ok s segs fl n Hok ltac:(lia) ltac:(lia))
    as [(l & m & r & s' & t & fl' & -> & _ & _ & Hm & Hu & _ & Hbe) | (_ & s' & Hm & Hbe)];
    pose proof Hbe as (Hok' & Hfr & Hkeep); eexists s', _, _; (split; [apply Hfr |]).
  - right. exists (1 + total l). destruct (ok_links _ _ _ _ _ _ Hok') as (_ & H1 & _).
    assert (Hp : used 1 (l ++ (umm_blocks n, false) :: t) ≡ₚ (1 + total l, umm_blocks n) :: used 1 (l ++ (m, true) :: r)).
    { rewrite !used_app. cbn [used]. rewrite Hu. by rewrite <- Permutation_middle. }
    split_and!; [done | lia | exact Hok' | exact Hp | by eapply holds_keeps | by eapply used_fresh | done | lia].
  - left. split; [done |]. split_and!; [exact Hok' | by eapply holds_keeps | done].
Qed.

(** The new block becomes an allocation of [n] bytes with the contents of the
    memory. *)
Lemma serves_insert s live segs fl c k n us : heap_ok s segs fl -> used 1 segs ≡ₚ (c, k) :: us ->
  holds s live us -> covers live us -> 0 < n <= 8 * k - 4 ->
  serves s (<[data_of c := bytes_at s (data_of c) n]> live) segs fl.
Proof.
  intros Hok Hp Hh Hc Hn. pose proof (used_fresh _ _ _ _ _ _ Hok Hp) as Hf. split_and!; [done | |].
  - eapply holds_perm; [symmetry; exact Hp |]. apply holds_insert; [done | done | | apply bytes_at_mem].
    rewrite length_bytes_at; lia.
  - eapply covers_perm; [symmetry; exact Hp |]. by apply covers_insert.
Qed.

(** Writing to the data of a used block. *)
Lemma write_serves s f segs fl b m us live : heap_ok s segs fl -> (b, m) ∈ used 1 segs ->
  (forall a, ~ (data_of b <= a < data_of b + (8 * m - 4)) -> f a = mem s a) ->
  (forall x, x ∈ us -> x ∈ used 1 segs /\ x <> (b, m)) -> holds s live us ->
  heap_ok (set_mem f s) segs fl /\ holds (set_mem f s) live us.
Proof.
  intros Hok Hb Hf Hus Hh. pose proof (ok_positive _ _ _ Hok) as Hp. pose proof (ok_addr _ _ _ Hok) as Ha. split.
  - eapply heap_ok_data; [exact Hok | by repeat split |]. intros a Hout. specialize (Hout b m Hb). apply Hf.
    unfold block_addr, data_of, sizeof_umm_block in *. rewrite Ha in Hout. lia.
  - intros c n Hc. destruct (Hus _ Hc) as [Hc' Hne]. destruct (Hh c n Hc) as (bs & H1 & H2 & H3).
    exists bs. split; [done |]. split; [done |]. intros i v Hi. rewrite <- (H3 i v Hi). apply Hf.
    apply lookup_lt_Some in Hi. destruct (used_disjoint _ _ _ _ _ _ Hp Hb Hc') as [[-> ->] | Hd]; [done |].
    unfold data_of. lia.
Qed.

(** The allocation at a live pointer and its block. *)
Lemma live_block s live segs fl p old : serves s live segs fl -> live !! p = Some old ->
  exists c n l r, p = data_of c /\ c = 1 + total l /\ segs = l ++ (n, false) :: r /\ 1 <= c /\
    let us := used 1 l ++ used (c + n) r in
    used 1 segs ≡ₚ (c, n) :: us /\ (c ∉ us.*1) /\ holds s live us /\ covers (delete p live) us /\
    0 < Z.of_nat (length old) <= 8 * n - 4 /\
    (forall i v, old !! i = Some v -> mem s (data_of c + Z.of_nat i) = v).
Proof.
  intros (Hok & Hh & Hc) Hp. destruct (Hc p) as (c & n & Hin & ->); [by rewrite Hp |].
  destruct (Hh c n Hin) as (bs & H1 & H2 & H3). rewrite Hp in H1. injection H1 as <-.
  destruct (used_split _ _ _ _ Hin) as (l & r & -> & ->). exists (1 + total l), n, l, r.
  destruct (ok_links _ _ _ _ _ _ Hok) as (_ & G & _).
  assert (Hperm : used 1 (l ++ (n, false) :: r) ≡ₚ (1 + total l, n) :: used 1 l ++ used (1 + total l + n) r)
    by (rewrite used_app; cbn [used]; by rewrite <- Permutation_middle).
  pose proof (used_fresh _ _ _ _ _ _ Hok Hperm) as Hfr. cbv zeta. split_and!; try done; try lia.
  - intros b m Hb. apply Hh. rewrite Hperm. by right.
  - apply (covers_delete _ _ _ n). by eapply covers_perm.
Qed.

(** What each operation does to an initialised heap. *)
Definition op_ok (o : op) : Prop := forall caller s live segs fl,
  serves s live segs fl -> valid live o ->
  exists ret s' live' segs' fl', run caller o s = Some (ret, s') /\ post live o ret live' /\
    serves s' live' segs' fl' /\ depth s' = depth s.

Lemma malloc_zero s segs fl : heap_ok s segs fl -> _umm_malloc 0 s = Some (NULL, s).
Proof. intros Hok. unfold _umm_malloc. by rewrite (ubind_ok _ _ _ _ _ (ensure_init_done _ _ _ Hok)). Qed.

Lemma malloc_op n : op_ok (Malloc n).
Proof.
  intros caller s live segs fl Hs Hv. cbn [run valid post] in *. unfold umm_malloc.
  destruct (decide (n = 0)) as [-> | Hn].
  - rewrite (ubind_ok _ _ _ _ _ (malloc_zero s segs fl (proj1 Hs))).
    destruct (serves_failure caller 0 NULL _ _ _ _ Hs) as (s2 & Hf & Hs2 & Hd2). rewrite (ubind_ok _ _ _ _ _ Hf).
    exists NULL, s2, live, segs, fl. split; [done |]. split; [by left | done].
  - destruct (malloc_serves s live segs fl n Hs ltac:(lia)) as (s1 & segs1 & fl1 & Hd & [[Hm Hs1] | (c & Hm & Hc & Hok1 & Hu & Hh & Hfr & Hcov & Hk)]);
      rewrite (ubind_ok _ _ _ _ _ Hm).
    + destruct (serves_failure caller n NULL _ _ _ _ Hs1) as (s2 & Hf & Hs2 & Hd2). rewrite (ubind_ok _ _ _ _ _ Hf).
      exists NULL, s2, live, segs1, fl1. split; [done |]. split; [by left |]. split; [done | congruence].
    + pose proof (serves_insert _ _ _ _ _ _ n _ Hok1 Hu Hh Hcov ltac:(lia)) as Hs1.
      destruct (serves_failure caller n (data_of c) _ _ _ _ Hs1) as (s2 & Hf & Hs2 & Hd2). rewrite (ubind_ok _ _ _ _ _ Hf).
      eexists (data_of c), s2, _, segs1, fl1. split; [done |]. split; [| split; [exact Hs2 | congruence]]. right.
      split; [apply data_not_null; lia |]. split; [lia |]. split; [by eapply covers_fresh |].
      eexists. split; [| split; [| done]]; [apply length_bytes_at; lia | done].
Qed.

Lemma calloc_op num size : op_ok (Calloc num size).
Proof.
  intros caller s live segs fl Hs (Hv1 & Hv2 & Hv3). cbn [run valid post] in *. unfold umm_calloc.
  assert (0 <= size * num) by nia. rewrite u32_id by (unfold is_u32, max_request in *; lia).
  set (n := size * num) in *. destruct (decide (n = 0)) as [-> | Hn].
  - rewrite (ubind_ok _ _ _ _ _ (malloc_zero s segs fl (proj1 Hs))). change (NULL =? NULL) with true. cbv iota.
    rewrite (ubind_ok (uret tt) _ s tt s) by done.
    destruct (serves_failure caller 0 NULL _ _ _ _ Hs) as (s2 & Hf & Hs2 & Hd2). rewrite (ubind_ok _ _ _ _ _ Hf).
    exists NULL, s2, live, segs, fl. split; [done |]. split; [by left | done].
  - destruct (malloc_serves s live segs fl n Hs ltac:(lia)) as (s1 & segs1 & fl1 & Hd & [[Hm Hs1] | (c & Hm & Hc & Hok1 & Hu & Hh & Hfr & Hcov & Hk)]);
      rewrite (ubind_ok _ _ _ _ _ Hm).
    + change (NULL =? NULL) with true. cbv iota. rewrite (ubind_ok (uret tt) _ s1 tt s1) by done.
      destruct (serves_failure caller n NULL _ _ _ _ Hs1) as (s2 & Hf & Hs2 & Hd2). rewrite (ubind_ok _ _ _ _ _ Hf).
      exists NULL, s2, live, segs1, fl1. split; [done |]. split; [by left |]. split; [done | congruence].
    + rewrite (proj2 (Z.eqb_neq (data_of c) NULL)) by (apply data_not_null; lia).
      assert (Hin : (c, umm_blocks n) ∈ used 1 segs1) by (rewrite Hu; left).
      pose proof (used_range _ _ _ _ (ok_positive _ _ _ Hok1) Hin) as Hr. pose proof (ok_size _ _ _ Hok1) as Hsz.
      set (f := fun a => if (data_of c <=? a) && (a <? data_of c + n) then 0 else mem s1 a).
      assert (Hset : memset (data_of c) 0 n s1 = Some (tt, set_mem f s1)).
      { unfold memset, in_heap, sizeof_umm_block. rewrite (ok_addr _ _ _ Hok1).
        by replace (_ && _) with true by (unfold data_of; lia). }
      rewrite (ubind_ok _ _ _ _ _ Hset).
      destruct (write_serves s1 f segs1 fl1 c (umm_blocks n) (used 1 segs) live Hok1 Hin) as [Hok2 Hh2]; [| | done |].
      * intros a Ha. unfold f. by replace (_ && _) with false by lia.
      * intros x Hx. split; [rewrite Hu; by right |]. intros ->. apply Hfr. by apply (list_elem_of_fmap_2 fst _ (c, umm_blocks n)).
      * pose proof (serves_insert _ _ _ _ _ _ n _ Hok2 Hu Hh2 Hcov ltac:(lia)) as Hs1.
        destruct (serves_failure caller n (data_of c) _ _ _ _ Hs1) as (s2 & Hf & Hs2 & Hd2). rewrite (ubind_ok _ _ _ _ _ Hf).
        eexists (data_of c), s2, _, segs1, fl1. split; [done |].
        split; [| split; [exact Hs2 | rewrite Hd2; exact Hd]]. right.
        split; [apply data_not_null; lia |]. split; [lia |]. split; [by eapply covers_fresh |].
        eexists. split; [| split; [| done]]; [apply length_bytes_at; lia |].
        apply Forall_lookup. intros i v Hi. pose proof (lookup_lt_Some _ _ _ Hi) as Hl.
        apply bytes_at_mem in Hi. rewrite <- Hi. cbn. unfold f.
        unfold bytes_at in Hl. rewrite length_map, length_seq in Hl. by replace (_ && _) with true by lia.
Qed.

Lemma free_live s live segs fl p old : serves s live segs fl -> live !! p = Some old ->
  exists s' segs' fl', _umm_free p s = Some (tt, s') /\ serves s' (delete p live) segs' fl' /\ depth s' = depth s.
Proof.
  intros Hs Hp. destruct (live_block _ _ _ _ _ _ Hs Hp) as (c & n & l & r & -> & Ec & -> & Hc & Hu & Hfr & Hh & Hcov & _).
  destruct Hs as (Hok & Hall & _). destruct (free_ok s l n r fl Hok) as (s' & segs' & fl' & Hf & Hu' & _ & (Hok' & Hfr' & Hk)).
  rewrite <- Ec in Hf, Hu', Hk. exists s', segs', fl'. split; [exact Hf |]. split; [| apply Hfr'].
  split_and!; [done | | by rewrite Hu']. rewrite Hu'. apply (holds_keeps s); [by apply (ok_addr _ _ _ Hok) | done |].
  apply (holds_delete _ _ _ _ n); [done |]. by eapply holds_perm.
Qed.

Lemma free_op p : op_ok (Free p).
Proof.
  intros caller s live segs fl Hs Hv. cbn [run valid post] in *. unfold umm_free.
  destruct Hv as [-> | [old Hp]].
  - exists NULL, s, live, segs, fl. split; [done |]. split; [| done].
    rewrite delete_id; [done |]. destruct (live !! NULL) as [old |] eqn:E; [| done].
    destruct (live_block _ _ _ _ _ _ Hs E) as (c & n & l & r & En & _ & _ & Hc & _).
    exfalso. by apply (data_not_null c); [lia |].
  - destruct (free_live _ _ _ _ _ _ Hs Hp) as (s' & segs' & fl' & Hf & Hs' & Hd). rewrite (ubind_ok _ _ _ _ _ Hf).
    by exists NULL, s', (delete p live), segs', fl'.
Qed.

Lemma store_op p i v : op_ok (Store p i v).
Proof.
  intros caller s live segs fl Hs (bytes & Hp & Hi). cbn [run post].
  destruct (live_block _ _ _ _ _ _ Hs Hp) as (c & n & l & r & -> & Ec & Es & Hc & Hu & Hfr & Hh & Hcov & Hl & Hb).
  set (f := fun a => if a =? data_of c + i then v else mem s a). set (us := used 1 l ++ used (c + n) r) in *.
  destruct (write_serves s f segs fl c n us live (proj1 Hs)) as [Hok' Hh']; [rewrite Hu; left | | | done |].
  - intros a Ha. unfold f. by rewrite (proj2 (Z.eqb_neq _ _)) by lia.
  - intros x Hx. split; [rewrite Hu; by right |]. intros ->. apply Hfr. by apply (list_elem_of_fmap_2 fst _ (c, n)).
  - eexists NULL, (set_mem f s), _, segs, fl. split; [done |]. split; [exists bytes; done |]. split; [| done].
    split_and!; [done | |].
    + eapply holds_perm; [symmetry; exact Hu |]. apply holds_insert; [done | done | by rewrite length_insert |].
      intros j w Hj. cbn. unfold f. destruct (decide (j = Z.to_nat i)) as [-> | Hne].
      * rewrite list_lookup_insert_eq in Hj by lia. injection Hj as <-. rewrite Z2Nat.id by lia. by rewrite Z.eqb_refl.
      * rewrite list_lookup_insert_ne in Hj by done. rewrite (proj2 (Z.eqb_neq _ _)) by lia. by apply Hb.
    + eapply covers_perm; [symmetry; exact Hu |]. destruct Hs as (_ & _ & Hcv). intros q Hq.
      destruct (decide (q = data_of c)) as [-> | Hne]; [exists c, n; split; [left | done] |].
      rewrite lookup_insert_ne in Hq by done. destruct (Hcov q) as (b & m & Hin & ->); [by rewrite lookup_delete_ne |].
      exists b, m. split; [by right | done].
Qed.

Lemma null_not_live s live segs fl : serves s live segs fl -> live !! NULL = None.
Proof.
  intros Hs. destruct (live !! NULL) as [old |] eqn:E; [| done].
  destruct (live_block _ _ _ _ _ _ Hs E) as (c & n & l & r & En & _ & _ & Hc & _).
  exfalso. by apply (data_not_null c); [lia |].
Qed.

Lemma realloc_live s live segs fl p old n : serves s live segs fl -> live !! p = Some old -> 0 < n <= max_request ->
  exists ret s' live' segs' fl', _umm_realloc p n s = Some (ret, s') /\ post live (Realloc p n) ret live' /\
    serves s' live' segs' fl' /\ depth s' = depth s.
Proof.
  intros Hs Hp Hn. cbn [post]. rewrite Hp. rewrite (proj2 (Z.eqb_neq n 0)) by lia.
  destruct (umm_blocks_exact n Hn) as (_ & Hk & Hkn).
  destruct (live_block _ _ _ _ _ _ Hs Hp) as (c & m & l & r & -> & Ec & -> & Hc & Hu & Hfr & Hh & Hcov & Hl & Hb).
  destruct Hs as (Hok & Hall & Hcv). pose proof (ok_addr _ _ _ Hok) as Ha.
  assert (Hdel : holds s (delete (data_of c) live) (used 1 l ++ used (c + m) r)).
  { apply (holds_delete _ _ _ _ m); [done |]. by eapply holds_perm. }
  destruct (realloc_ok s l m r fl n Hok Hn)
    as [(c' & s' & segs' & fl' & Hre & Hc' & Hu' & (Hok' & Hfr' & Hk') & Hmv) | (s' & segs' & fl' & m' & Hre & Hm' & Hu' & (Hok' & Hfr' & Hk'))];
    rewrite <- Ec in *.
  - pose proof (serves_insert s' (delete (data_of c) live) segs' fl' c' _ n _ Hok' Hu'
      (holds_keeps _ _ _ _ Ha Hk' Hdel) Hcov ltac:(lia)) as Hs'.
    eexists (data_of c'), s', _, segs', fl'. split; [exact Hre |]. split; [| split; [exact Hs' | apply Hfr']]. right.
    split; [apply data_not_null; lia |]. split; [eapply covers_fresh; [exact Hcov | by eapply used_fresh] |].
    eexists. split; [apply length_bytes_at; lia |]. split; [| done].
    intros i v Hi Hv. unfold bytes_at in Hi. rewrite length_map, length_seq in Hi.
    rewrite lookup_bytes_at by done. f_equal. rewrite <- (Hb i v Hv). apply lookup_lt_Some in Hv. apply Hmv. lia.
  - exists NULL, s', live, segs', fl'. split; [exact Hre |]. split; [by left |]. split; [| apply Hfr'].
    assert (Hin : (c, m) ∈ (c, m) :: used 1 l ++ used (c + m) r) by left.
    split_and!; [done | |].
    + eapply holds_perm; [symmetry; exact Hu' |]. intros b k Hin'.
      apply elem_of_cons in Hin' as [[= -> ->] | Hin'].
      * destruct (holds_keeps s s' live _ Ha Hk' (holds_perm _ _ _ _ Hu Hall) c m Hin) as (bs & H1 & H2 & H3).
        exists bs. split; [done |]. split; [lia | done].
      * apply (holds_keeps s s' live _ Ha Hk' (holds_perm _ _ _ _ Hu Hall)). by right.
    + eapply covers_perm; [symmetry; exact Hu' |]. eapply covers_perm in Hcv; [| exact Hu]. intros q Hq.
      destruct (Hcv q Hq) as (b & k & Hin' & ->). apply elem_of_cons in Hin' as [[= -> ->] | Hin'].
      * exists c, m'. split; [left | done].
      * exists b, k. split; [by right | done].
Qed.

Lemma realloc_op p n : op_ok (Realloc p n).
Proof.
  intros caller s live segs fl Hs [Hp Hn]. pose proof (null_not_live _ _ _ _ Hs) as Hnull.
  destruct (live !! p) as [old |] eqn:E.
  2:{ destruct Hp as [-> | [? ?]]; [| done].
      assert (Hrun : run caller (Realloc NULL n) s = run caller (Malloc n) s).
      { cbn [run]. unfold umm_realloc, umm_malloc, ubind. unfold _umm_realloc.
        by rewrite (ubind_ok _ _ _ _ _ (ensure_init_done _ _ _ (proj1 Hs))). }
      rewrite Hrun. cbn [post]. rewrite Hnull. exact (malloc_op n caller s live segs fl Hs Hn). }
  clear Hp. cbn [run]. unfold umm_realloc. destruct (decide (n = 0)) as [-> | Hn0].
  - destruct (free_live _ _ _ _ _ _ Hs E) as (s1 & segs1 & fl1 & Hf & Hs1 & Hd1).
    assert (Hr : _umm_realloc p 0 s = Some (NULL, s1)).
    { unfold _umm_realloc. rewrite (ubind_ok _ _ _ _ _ (ensure_init_done _ _ _ (proj1 Hs))).
      rewrite (proj2 (Z.eqb_neq p NULL)) by (intros ->; congruence). cbv iota. by rewrite Z.eqb_refl, (ubind_ok _ _ _ _ _ Hf). }
    rewrite (ubind_ok _ _ _ _ _ Hr).
    destruct (serves_failure caller 0 NULL _ _ _ _ Hs1) as (s2 & Hf2 & Hs2 & Hd2). rewrite (ubind_ok _ _ _ _ _ Hf2).
    exists NULL, s2, (delete p live), segs1, fl1. split; [done |]. cbn [post]. rewrite E.
    split; [done |]. split; [done | congruence].
  - destruct (realloc_live _ _ _ _ _ _ n Hs E ltac:(lia)) as (ret & s1 & live1 & segs1 & fl1 & Hr & Hpost & Hs1 & Hd1).
    rewrite (ubind_ok _ _ _ _ _ Hr).
    destruct (serves_failure caller n ret _ _ _ _ Hs1) as (s2 & Hf2 & Hs2 & Hd2). rewrite (ubind_ok _ _ _ _ _ Hf2).
    exists ret, s2, live1, segs1, fl1. split; [done |]. split; [done |]. split; [done | congruence].
Qed.

Lemma every_op o : op_ok o.
Proof. destruct o; [apply malloc_op | apply calloc_op | apply realloc_op | apply free_op | apply store_op]. Qed.

(** The first call initialises the heap. *)
Lemma run_uninitialised caller o s : umm_heap s = NULL -> valid ∅ o ->
  (exists s', run caller o s = run caller o s' /\ (exists segs fl, serves s' ∅ segs fl) /\ depth s' = depth s) \/
  (o = Free NULL).
Proof.
  intros Hs Hv. destruct (init_ok s) as (s' & Hi & Hok & Hd).
  assert (Hserve : exists segs fl, serves s' ∅ segs fl).
  { eexists _, _. split_and!; [exact Hok | |].
    - intros b m Hb. cbn [used] in Hb. by apply elem_of_nil in Hb.
    - intros p [? Hp]. by rewrite lookup_empty in Hp. }
  assert (He : ensure_init s = Some (tt, s')) by (unfold ensure_init, ubind, uget; by rewrite Hs).
  assert (He' : ensure_init s' = Some (tt, s')) by (by eapply ensure_init_done).
  assert (Hm : forall n, _umm_malloc n s = _umm_malloc n s').
  { intros n. unfold _umm_malloc. by rewrite (ubind_ok _ _ _ _ _ He), (ubind_ok _ _ _ _ _ He'). }
  destruct o as [n | num size | p n | p | p i v]; cbn [run valid] in *.
  - left. exists s'. split; [| done]. unfold umm_malloc, ubind. by rewrite Hm.
  - left. exists s'. split; [| done]. unfold umm_calloc, ubind. by rewrite Hm.
  - left. exists s'. split; [| done]. unfold umm_realloc, ubind. unfold _umm_realloc.
    by rewrite (ubind_ok _ _ _ _ _ He), (ubind_ok _ _ _ _ _ He').
  - right. destruct Hv as [-> | [? Hv]]; [done |]. by rewrite lookup_empty in Hv.
  - destruct Hv as (bytes & Hv & _). by rewrite lookup_empty in Hv.
Qed.

(** C18: The functions of umm_malloc implement an allocator.  Whatever valid
    calls and stores a client makes, starting before the heap is initialised,
    each call returns, the result is the one the specification allows (a fresh
    zeroed or arbitrary allocation or NULL; the contents moved by realloc; the
    allocation gone after free), every other allocation keeps its contents, all
    allocations lie in the heap and do not overlap, and the critical section is
    left as it was entered. *)
Theorem umm_implements_allocator caller o s live :
  represents s live -> valid live o ->
  exists ret s' live', run caller o s = Some (ret, s') /\ post live o ret live' /\
    represents s' live' /\ separated live' /\ depth s' = depth s.
Proof.
  intros Hr Hv.
  assert (H : exists ret s' live', run caller o s = Some (ret, s') /\ post live o ret live' /\
    represents s' live' /\ depth s' = depth s).
  { destruct Hr as [[Hn ->] | (segs & fl & Hs)].
    - destruct (run_uninitialised caller o s Hn Hv) as [(s1 & -> & (segs & fl & Hs) & Hd1) | ->].
      + destruct (every_op o caller s1 ∅ segs fl Hs Hv) as (ret & s' & live' & segs' & fl' & H1 & H2 & H3 & H4).
        exists ret, s', live'. split_and!; [done | done | right; by exists segs', fl' | congruence].
      + exists NULL, s, ∅. split; [done |]. split; [cbn [post]; by rewrite delete_empty |]. split; [by left | done].
    - destruct (every_op o caller s live segs fl Hs Hv) as (ret & s' & live' & segs' & fl' & H1 & H2 & H3 & H4).
      exists ret, s', live'. split_and!; [done | done | right; by exists segs', fl' | done]. }
  destruct H as (ret & s' & live' & H1 & H2 & H3 & H4). exists ret, s', live'.
  split_and!; [done | done | done | by eapply represents_separated | done].
Qed.
End Props.
