(* ===== verification/UmmCheck.v ===== *)
(** * umm_malloc: integrity check

    The allocator's own check accepts every heap that its clients can reach, and
    takes back the marks that it writes into the block links. *)

From S2P Require Import Prelude Umm UmmHeap UmmOps UmmAlloc UmmMalloc UmmRealloc UmmProps.

Section Check.
Context {Cfg : HeapCfg} {CfgOk : HeapCfgOk}.

(** The first loop marks the free blocks in their link back. *)
Lemma check_free_list_ok us rest : forall k prev s,
  umm_numblocks s <= 0x7FFF -> dll (fld s) prev rest -> NoDup rest -> 0 <= prev < umm_numblocks s ->
  (forall x, x ∈ rest -> 0 < x < umm_numblocks s /\ 0 <= fld s PBLOCK x < 0x8000 /\ apart us PBLOCK x) ->
  (length rest <= k)%nat ->
  exists s', check_free_list k prev s = Some (true, s') /\ same_frame s s' /\ keeps us s s' /\
    (forall f b, fld s' f b = if decide (f = PBLOCK /\ b ∈ rest) then fld s f b + flag true else fld s f b).
Proof.
  induction rest as [| x rest IH]; intros k prev s Hn Hd Hnd Hp Hr Hk.
  - exists s. simpl in Hd. split.
    + destruct k; cbn [check_free_list]; ustep; rewrite Hd; rewrite (ubind_ok (uget _) _ s _ s) by done;
        rewrite (proj2 (Z.leb_gt (umm_numblocks s) 0)) by lia; done.
    + split; [by repeat split |]. split; [apply keeps_refl |]. intros f b. rewrite decide_False; [done |].
      intros [_ H]. by apply elem_of_nil in H.
  - destruct Hd as (H1 & H2 & Hd). destruct (Hr x) as (Hx & Hpx & Hap); [left |].
    apply NoDup_cons in Hnd as [Hnx Hnd]. destruct k as [| k]; [simpl in Hk; lia |].
    set (s1 := set_fld PBLOCK x (fld s PBLOCK x + flag true) s).
    pose proof (flag_u16 (fld s PBLOCK x) true Hpx) as Hu.
    assert (Hf1 : forall f b, fld s1 f b = if decide (f = PBLOCK /\ b = x) then fld s PBLOCK x + flag true else fld s f b).
    { intros f b. unfold s1. rewrite fld_set by done. destruct (decide (PBLOCK = f /\ x = b)) as [[<- <-] | Hne].
      - by rewrite decide_True.
      - rewrite decide_False; [done |]. intros [-> ->]. by apply Hne. }
    destruct (IH k x s1) as (s' & E & Hfr & Hke & Hf); try done.
    + eapply dll_ext; [exact Hd | |]; intros y Hy; rewrite Hf1, decide_False by (intros [? ?]; discriminate); done.
    + cbn. lia.
    + intros y Hy. destruct (Hr y) as (Hy1 & Hy2 & Hy3); [by right |]. split; [done |]. split; [| done].
      rewrite Hf1, decide_False; [done |]. intros [_ ->]. done.
    + simpl in Hk. lia.
    + exists s'. split; [| split; [| split]].
      * cbn [check_free_list]. ustep. rewrite H1. rewrite (ubind_ok (uget _) _ s _ s) by done.
        rewrite (proj2 (Z.leb_gt (umm_numblocks s) x)) by lia. rewrite (proj2 (Z.eqb_neq x 0)) by lia.
        ustep. rewrite H2, Z.eqb_refl. cbn [negb]. ustep. rewrite link_or by done. ustep. exact E.
      * destruct Hfr as (F1 & F2 & F3 & F4 & F5 & F6). by repeat split.
      * eapply keeps_trans; [| | exact Hke]; [by repeat split |]. apply (writes_keeps us [(PBLOCK, x, fld s PBLOCK x + flag true)]).
        constructor; [| constructor]. simpl. split; [lia | done].
      * intros f b. rewrite Hf, Hf1. destruct (decide (f = PBLOCK /\ b ∈ rest)) as [[-> Hb] | Hnb].
        -- rewrite decide_False by (intros [_ ->]; done). rewrite decide_True; [done |]. split; [done | by right].
        -- destruct (decide (f = PBLOCK /\ b = x)) as [[-> ->] | Hne].
           ++ rewrite decide_True; [done |]. split; [done | left].
           ++ rewrite decide_False; [done |]. intros [-> Hb]. apply elem_of_cons in Hb as [-> | Hb]; [by apply Hne | by apply Hnb].
Qed.

(** The chain with the marks. *)
Fixpoint marked (h : field -> Z -> Z) (prev p : Z) (l : list seg) : Prop :=
  match l with
  | [] => h PBLOCK p = prev /\ h NBLOCK p = 0
  | (n, f) :: l' => 0 < n /\ h PBLOCK p = prev + flag f /\ h NBLOCK p = p + n + flag f /\ marked h p (p + n) l'
  end.

Lemma marked_positive h prev p l : marked h prev p l -> positive l.
Proof.
  revert prev p. induction l as [| [n f] l IH]; intros prev p H; [constructor |].
  destruct H as (? & _ & _ & H). constructor; [done |]. by eapply IH.
Qed.

Lemma marked_ext h h' prev p l : marked h prev p l ->
  (forall b, p <= b -> h' PBLOCK b = h PBLOCK b /\ h' NBLOCK b = h NBLOCK b) -> marked h' prev p l.
Proof.
  revert prev p. induction l as [| [n f] l IH]; intros prev p H Hh; simpl in *; (destruct (Hh p) as [E1 E2]; [lia |]); rewrite E1, E2.
  - done.
  - destruct H as (H1 & H2 & H3 & H). split_and!; try done. apply IH; [done |].
    intros b Hb. apply Hh. lia.
Qed.

(** The second loop removes the marks, and finds them in place. *)
Lemma check_blocks_ok us segs : forall k prev p s f0,
  umm_numblocks s <= 0x7FFF -> 0 <= prev < p -> p + total segs < umm_numblocks s ->
  fld s NBLOCK prev = p + flag f0 -> marked (fld s) prev p segs ->
  (forall l r, segs = l ++ r -> apart us PBLOCK (p + total l)) -> (S (length segs) <= k)%nat ->
  exists s', check_blocks k prev s = Some (true, s') /\ same_frame s s' /\ keeps us s s' /\
    (forall f b, f <> PBLOCK \/ b < p -> fld s' f b = fld s f b) /\ chain (fld s') prev p segs.
Proof.
  induction segs as [| [n f] segs IH]; intros k prev p s f0 Hn Hp Hlt Hnb Hm Hap Hk; destruct k as [| k]; [simpl in Hk; lia | | simpl in Hk; lia |].
  - simpl in Hm, Hlt. destruct Hm as [Hm1 Hm2]. set (s1 := set_fld PBLOCK p prev s). assert (En : umm_numblocks s1 = umm_numblocks s) by done.
    assert (Hu : is_u16 prev) by (unfold is_u16; lia).
    exists s1. split; [| split; [by repeat split | split; [| split]]].
    + cbn [check_blocks]. ustep. rewrite Hnb, link_mask by lia. cbv zeta. rewrite (ubind_ok (uget _) _ s _ s) by done.
      rewrite (proj2 (Z.leb_gt _ p)) by lia. rewrite (proj2 (Z.eqb_neq p 0)) by lia. ustep. ustep. rewrite Hm1, Hm2.
      pose proof (link_bit prev false ltac:(lia)) as Hl. pose proof (link_mask prev false ltac:(lia)) as Hl2.
      unfold flag in Hl, Hl2. rewrite Z.add_0_r in Hl, Hl2. rewrite Hl.
      change (negb (Z.land 0 UMM_FREELIST_MASK =? 0)) with false. cbv iota.
      ustep. rewrite Hm1, Hl2. ustep. fold s1. ustep. unfold s1 at 1. rewrite fld_set_eq by done. rewrite Z.eqb_refl. cbn [negb].
      assert (fld s1 NBLOCK p = 0) as E0 by (unfold s1; fld_simpl; done).
      clearbody s1. destruct k as [| k]; cbn [check_blocks];
        ustep; rewrite E0; change (Z.land 0 UMM_BLOCKNO_MASK) with 0; rewrite (ubind_ok (uget _) _ s1 _ s1) by done;
        rewrite (proj2 (Z.leb_gt _ 0)) by lia; done.
    + apply (writes_keeps us [(PBLOCK, p, prev)]). constructor; [| constructor]. simpl. split; [lia |].
      specialize (Hap [] [] eq_refl). by rewrite Z.add_0_r in Hap.
    + intros g b Hb. unfold s1. destruct Hb; [by rewrite fld_set_ne by (left; congruence) | by rewrite fld_set_ne by (right; lia)].
    + cbn [chain]. unfold s1. split; fld_simpl; done.
  - simpl in Hm, Hlt. destruct Hm as (Hn0 & Hm1 & Hm2 & Hm). pose proof (total_nonneg segs (marked_positive _ _ _ _ Hm)) as Htn.
    set (s1 := set_fld PBLOCK p prev s). assert (En : umm_numblocks s1 = umm_numblocks s) by done. assert (Hu : is_u16 prev) by (unfold is_u16; lia).
    assert (Hf1 : forall g b, g <> PBLOCK \/ b <> p -> fld s1 g b = fld s g b).
    { intros g b Hb. unfold s1. destruct Hb; [by rewrite fld_set_ne by (left; congruence) | by rewrite fld_set_ne by (right; congruence)]. }
    destruct (IH k p (p + n) s1 f) as (s' & E & Hfr & Hke & Hf & Hc).
    + done.
    + lia.
    + cbn. lia.
    + rewrite Hf1 by (left; discriminate). lia.
    + eapply marked_ext; [exact Hm |]. intros b Hb. rewrite !Hf1 by (right; lia). done.
    + intros l r ->. specialize (Hap ((n, f) :: l) r eq_refl). simpl in Hap. by rewrite Z.add_assoc in Hap.
    + simpl in Hk. lia.
    + exists s'. split; [| split; [| split; [| split]]].
      * cbn [check_blocks]. ustep. rewrite Hnb, link_mask by lia. cbv zeta. rewrite (ubind_ok (uget _) _ s _ s) by done.
        rewrite (proj2 (Z.leb_gt _ p)) by lia. rewrite (proj2 (Z.eqb_neq p 0)) by lia. ustep. ustep.
        rewrite Hm1, Hm2, !link_bit by lia. rewrite Z.eqb_refl. cbn [negb]. ustep. rewrite Hm1, link_mask by lia. ustep. fold s1.
        ustep. unfold s1 at 1. rewrite fld_set_eq by done. rewrite Z.eqb_refl. cbn [negb]. exact E.
      * destruct Hfr as (F1 & F2 & F3 & F4 & F5 & F6). by repeat split.
      * eapply keeps_trans; [| | exact Hke]; [by repeat split |]. apply (writes_keeps us [(PBLOCK, p, prev)]).
        constructor; [| constructor]. simpl. split; [lia |]. specialize (Hap [] _ eq_refl). by rewrite Z.add_0_r in Hap.
      * intros g b Hb. rewrite Hf by (destruct Hb; [by left | right; lia]). apply Hf1. destruct Hb; [by left | right; lia].
      * cbn [chain]. split; [rewrite Hf by (right; lia); unfold s1; by rewrite fld_set_eq |]. split; [done |].
        split; [| done]. rewrite Hf, Hf1 by (left; discriminate). done.
Qed.

(** The marks of the first loop are those the second one expects. *)
Lemma chain_marked h h' prev p l : chain h prev p l -> (forall b, h' NBLOCK b = h NBLOCK b) ->
  (forall b, p <= b -> h' PBLOCK b = h PBLOCK b + flag (bool_decide (b ∈ free_starts p l))) -> marked h' prev p l.
Proof.
  revert prev p. induction l as [| [n f] l IH]; intros prev p H HN HP.
  - destruct H as [H1 H2]. cbn [marked]. rewrite HN, HP by lia. rewrite bool_decide_false by (by intros ?%elem_of_nil).
    split; [cbn [flag]; lia | done].
  - destruct H as (H1 & Hn & H2 & Hc). pose proof (chain_positive _ _ _ _ Hc) as Hpos.
    assert (Hfree : forall b, b ∈ free_starts (p + n) l -> p + n <= b) by (intros b Hb; apply free_starts_range in Hb; [lia | done]).
    assert (E : h' PBLOCK p = prev + flag f).
    { rewrite HP, H1 by lia. do 2 f_equal.
      destruct f; cbn [free_starts]; [apply bool_decide_true; left | apply bool_decide_false; intros Hb%Hfree; lia]. }
    cbn [marked]. rewrite HN. split_and!; [done | done | done |]. apply IH; [done | done |].
    intros b Hb. rewrite HP by lia. f_equal. f_equal. apply bool_decide_ext. cbn [free_starts].
    destruct f; [| done]. rewrite elem_of_cons. split; [intros [-> | ?]; [lia | done] | by right].
Qed.

Lemma length_segs l : positive l -> (length l <= Z.to_nat (total l))%nat.
Proof.
  induction 1 as [| [n f] l Hn Hl IH]; simpl; [lia |]. pose proof (total_nonneg l Hl). simpl in Hn. lia.
Qed.

Lemma last_start_range prev p l : positive l -> 0 <= prev < p -> 0 <= last_start prev p l < p + total l.
Proof.
  intros Hl. revert prev p. induction Hl as [| [n f] l Hn Hl IH]; intros prev p Hp; simpl; [lia |].
  simpl in Hn. rewrite Z.add_assoc. apply IH. lia.
Qed.

Lemma check_heap_ok s segs fl : heap_ok s segs fl ->
  exists s', integrity_check s = Some (true, s') /\ becomes (used 1 segs) s s' segs fl.
Proof.
  intros Hok. pose proof (ok_small _ _ _ Hok) as Hsm. pose proof (ok_size _ _ _ Hok) as Hsz.
  pose proof (ok_positive _ _ _ Hok) as Hpos. pose proof (total_nonneg _ Hpos) as Htot.
  destruct (check_free_list_ok (used 1 segs) fl (Z.to_nat (umm_numblocks s)) 0 s) as (s1 & E1 & F1 & K1 & G1).
  - done.
  - apply (ok_list _ _ _ Hok).
  - by eapply fl_NoDup.
  - lia.
  - intros x Hx. destruct (size_of_free _ _ _ _ Hok Hx) as (l & n & r & -> & -> & _ & _ & Hr).
    pose proof (ok_links _ _ _ _ _ _ Hok) as (_ & _ & _ & _ & Ht & Hl & _ & _ & _ & Hp & _).
    pose proof (last_start_range 0 1 l Hl ltac:(lia)). rewrite Hp.
    split; [done |]. split; [lia |]. by eapply apart_free.
  - rewrite (Permutation_length (ok_free _ _ _ Hok)). pose proof (length_free_starts 1 segs Hpos). lia.
  - assert (GN : forall b, fld s1 NBLOCK b = fld s NBLOCK b).
    { intros b. rewrite G1. apply decide_False. by intros [? _]. }
    assert (En1 : umm_numblocks s1 = umm_numblocks s) by apply F1.
    destruct (check_blocks_ok (used 1 segs) segs (Z.to_nat (umm_numblocks s)) 0 1 s1 false) as (s2 & E2 & F2 & K2 & G2 & C2).
    + by rewrite En1.
    + lia.
    + rewrite En1. lia.
    + rewrite GN. rewrite (ok_head _ _ _ Hok). done.
    + eapply chain_marked; [apply (ok_chain _ _ _ Hok) | done |]. intros b Hb. rewrite G1.
      case_bool_decide as Hin; rewrite <- (ok_free _ _ _ Hok) in Hin.
      * by rewrite decide_True.
      * rewrite decide_False by tauto. cbn [flag]. lia.
    + intros l r ->. pose proof (apart_between s l [] r fl PBLOCK (1 + total l) Hok) as H.
      cbn [total] in H. rewrite Z.add_0_r in H. rewrite used_app. apply H. by right.
    + pose proof (length_segs segs Hpos). lia.
    + exists s2. split; [| split].
      * unfold integrity_check. rewrite (ubind_ok _ _ _ _ _ (ensure_init_done _ _ _ Hok)).
        rewrite (ubind_ok (uget _) _ s _ s) by done. by rewrite (ubind_ok _ _ _ _ _ E1).
      * assert (GF : forall f b, f <> PBLOCK -> fld s2 f b = fld s f b).
        { intros f b Hf. rewrite G2 by (by left). rewrite G1. apply decide_False. by intros [? _]. }
        assert (En2 : umm_numblocks s2 = umm_numblocks s) by (rewrite <- En1; apply F2).
        assert (Eh2 : umm_heap s2 = umm_heap s) by (destruct F1 as [<- _]; apply F2).
        destruct Hok. split; try (by rewrite ?En2, ?Eh2); [by rewrite GF |].
        eapply dll_ext; [done | |]; intros x _; by apply GF.
      * split; [unfold same_frame in *; intuition congruence |]. by eapply keeps_trans.
Qed.

(** C23: The integrity check accepts every heap that the clients of the allocator
    can reach, also before the heap is initialised.  It marks the free blocks in
    the links and takes the marks back: the live allocations and their contents
    are the same afterwards. *)
Theorem integrity_check_accepts s live : represents s live ->
  exists s', integrity_check s = Some (true, s') /\ represents s' live /\ depth s' = depth s.
Proof.
  intros [[Hn ->] | (segs & fl & Hok & Hh & Hc)].
  - destruct (init_ok s) as (s1 & Hi & Hok & Hd). destruct (check_heap_ok _ _ _ Hok) as (s' & E & Hb & F & _).
    exists s'. split; [| split].
    + rewrite <- E. unfold integrity_check, ensure_init, ubind, uget. rewrite Hn, Z.eqb_refl, Hi, (ok_addr _ _ _ Hok).
      pose proof heap_range. by rewrite (proj2 (Z.eqb_neq heap_addr NULL)) by (unfold NULL; lia).
    + right. eexists _, _. split; [exact Hb |]. split; [intros b m []%elem_of_nil | intros q [? []%lookup_empty_Some]].
    + destruct F as (_ & _ & F & _). congruence.
  - destruct (check_heap_ok _ _ _ Hok) as (s' & E & Hb & F & K). exists s'. split; [done |]. split; [| apply F].
    right. exists segs, fl. split; [done |]. split; [| done]. eapply holds_keeps; [apply (ok_addr _ _ _ Hok) | done | done].
Qed.
End Check.
