(* ===== verification/UmmDetect.v ===== *)
(** * umm_malloc: what the integrity check detects

    On any contents of the heap, if the check reports success then the free list
    is a doubly linked list from block 0 back to block 0, the blocks are doubly
    linked from block 0 to a block without successor, all links are inside of the
    array, and the blocks with a free flag are those of the free list. *)

From S2P Require Import Prelude Umm UmmHeap UmmOps UmmAlloc UmmMalloc UmmProps.

Definition number (v : Z) : Z := Z.land v UMM_BLOCKNO_MASK.

Lemma number_mod v : number v = v mod 32768.
Proof. unfold number, UMM_BLOCKNO_MASK. change 0x7FFF with (Z.ones 15). by rewrite Z.land_ones. Qed.
Lemma number_range v : 0 <= number v < 32768.
Proof. rewrite number_mod. by apply Z.mod_pos_bound. Qed.
Lemma number_idem v : number (number v) = number v.
Proof. rewrite !number_mod. by rewrite Z.mod_mod. Qed.
Lemma number_mark v : number (u16 (Z.lor v UMM_FREELIST_MASK)) = number v.
Proof.
  transitivity (number (Z.lor v UMM_FREELIST_MASK)); [rewrite !number_mod; unfold u16; mlia |].
  unfold number. rewrite Z.land_lor_distr_l. change (Z.land UMM_FREELIST_MASK UMM_BLOCKNO_MASK) with 0. apply Z.lor_0_r.
Qed.

(** The mark is bit 15. *)
Lemma mark_bit v : bit_set v UMM_FREELIST_MASK = Z.testbit v 15.
Proof. by apply (bit_set_bv v 15). Qed.
Lemma mark_set v : bit_set (u16 (Z.lor v UMM_FREELIST_MASK)) UMM_FREELIST_MASK = true.
Proof.
  rewrite mark_bit. unfold u16. change 65536 with (2 ^ 16). rewrite Z.mod_pow2_bits_low by lia.
  rewrite Z.lor_spec. by rewrite orb_true_r.
Qed.
Lemma mark_again v : u16 (Z.lor (u16 (Z.lor v UMM_FREELIST_MASK)) UMM_FREELIST_MASK) = u16 (Z.lor v UMM_FREELIST_MASK).
Proof.
  apply Z.bits_inj'. intros i Hi. unfold u16. change 65536 with (2 ^ 16). destruct (Z.lt_ge_cases i 16).
  - rewrite !Z.mod_pow2_bits_low, !Z.lor_spec, Z.mod_pow2_bits_low, Z.lor_spec by lia.
    rewrite <- orb_assoc. by rewrite orb_diag.
  - by rewrite !Z.mod_pow2_bits_high by lia.
Qed.

(** Blocks linked both ways by their numbers, from [prev] on. *)
Fixpoint linked (h : field -> Z -> Z) (prev : Z) (l : list Z) : Prop :=
  match l with
  | [] => number (h NBLOCK prev) = 0
  | x :: l' => number (h NBLOCK prev) = x /\ x <> 0 /\ number (h PBLOCK x) = prev /\ linked h x l'
  end.

Section Detect.
Context {Cfg : HeapCfg}.

Lemma rd_inv {A} f b (k : Z -> U A) s r : ubind (rd f b) k s = Some r -> 0 <= b < umm_numblocks s /\ k (fld s f b) s = Some r.
Proof.
  unfold ubind, rd, in_array. destruct (Z.leb_spec 0 b); [| done]. destruct (Z.ltb_spec b (umm_numblocks s)); [| done].
  simpl. intros ?. split; [lia | done].
Qed.
Lemma wr_inv {A} f b v (k : unit -> U A) s r : ubind (wr f b v) k s = Some r -> k tt (set_fld f b (u16 v) s) = Some r.
Proof. unfold ubind, wr. by destruct (in_array s b). Qed.
Lemma fld_set_u16 s f b v g c :
  fld (set_fld f b (u16 v) s) g c = if decide (f = g /\ b = c) then u16 v else fld s g c.
Proof. apply fld_set. unfold u16, is_u16. apply Z.mod_pos_bound. lia. Qed.

(** The first loop: the free list is intact and exactly its blocks get the mark. *)
Lemma check_free_list_sound k : forall prev s s', check_free_list k prev s = Some (true, s') ->
  exists fl, dll (fld s) prev fl /\ Forall (fun x => 0 < x < umm_numblocks s) fl /\ umm_numblocks s' = umm_numblocks s /\
    forall f b, fld s' f b = if decide (f = PBLOCK /\ b ∈ fl) then u16 (Z.lor (fld s f b) UMM_FREELIST_MASK) else fld s f b.
Proof.
  induction k as [| k IH]; intros prev s s' H; cbn [check_free_list] in H.
  all: apply rd_inv in H as [Hp H]; rewrite (ubind_ok (uget _) _ s _ s) in H by done.
  all: destruct (Z.leb_spec (umm_numblocks s) (fld s NFREE prev)) as [| Hlt]; [discriminate |].
  all: destruct (Z.eqb_spec (fld s NFREE prev) 0) as [E0 | E0].
  1,3: injection H as <-; exists []; split_and!; [done | constructor | done |]; intros f b;
    rewrite decide_False; [done |]; intros [_ Hb]; by apply elem_of_nil in Hb.
  all: set (x := fld s NFREE prev) in *; apply rd_inv in H as [Hx H].
  all: destruct (Z.eqb_spec (fld s PFREE x) prev) as [Ep | ]; [| discriminate]; cbn [negb] in H.
  all: apply rd_inv in H as [_ H]; apply wr_inv in H.
  - discriminate.
  - apply IH in H as (fl & Hd & Hr & Hn & Hf). exists (x :: fl). cbn [dll]. split_and!; try done.
    + eapply dll_ext; [exact Hd | |]; intros y _; rewrite fld_set_u16, decide_False; done || by intros [? _].
    + constructor; [lia | done].
    + intros f b. rewrite Hf, fld_set_u16. destruct (decide (PBLOCK = f /\ x = b)) as [[<- <-] | Hne].
      * rewrite (decide_True (P := PBLOCK = PBLOCK /\ x ∈ x :: fl)) by (split; [done | left]).
        destruct (decide _); [apply mark_again | done].
      * destruct (decide (f = PBLOCK /\ b ∈ fl)) as [[-> Hb] | Hnb].
        -- rewrite decide_True; [done |]. split; [done | by right].
        -- rewrite decide_False; [done |]. intros [-> Hb]. apply elem_of_cons in Hb as [-> | Hb]; [by apply Hne | by apply Hnb].
Qed.

(** The second loop, when the marks of the blocks [seen] have been removed
    from the state [s0] in which it started. *)
Lemma check_blocks_sound s0 k : forall prev (seen : list Z) s s', check_blocks k prev s = Some (true, s') ->
  umm_numblocks s = umm_numblocks s0 ->
  (forall f b, fld s f b = if decide (f = PBLOCK /\ b ∈ seen) then number (fld s0 f b) else fld s0 f b) ->
  exists bl, linked (fld s0) prev bl /\ Forall (fun x => 0 < x < umm_numblocks s0) bl /\
    forall x, x ∈ bl -> x ∉ seen -> bit_set (fld s0 NBLOCK x) UMM_FREELIST_MASK = bit_set (fld s0 PBLOCK x) UMM_FREELIST_MASK.
Proof.
  induction k as [| k IH]; intros prev seen s s' H Hn Hf; cbn [check_blocks] in H.
  all: assert (HN : forall b, fld s NBLOCK b = fld s0 NBLOCK b) by (intros b; rewrite Hf; apply decide_False; by intros [? _]).
  all: apply rd_inv in H as [Hp H]; rewrite HN in H; fold (number (fld s0 NBLOCK prev)) in H; cbv zeta in H.
  all: rewrite (ubind_ok (uget _) _ s _ s) in H by done.
  all: pose proof (number_range (fld s0 NBLOCK prev)) as Hr.
  all: destruct (Z.leb_spec (umm_numblocks s) (number (fld s0 NBLOCK prev))) as [| Hlt]; [discriminate |].
  all: destruct (Z.eqb_spec (number (fld s0 NBLOCK prev)) 0) as [E0 | E0].
  1,3: exists []; split_and!; [done | constructor |]; intros x Hx; by apply elem_of_nil in Hx.
  all: set (x := number (fld s0 NBLOCK prev)) in *; apply rd_inv in H as [Hx H]; apply rd_inv in H as [_ H].
  all: rewrite HN in H; destruct (Z.eqb_spec (Z.land (fld s0 NBLOCK x) UMM_FREELIST_MASK) (Z.land (fld s PBLOCK x) UMM_FREELIST_MASK))
    as [Em |]; [| discriminate]; cbn [negb] in H.
  all: apply rd_inv in H as [_ H]; apply wr_inv in H; apply rd_inv in H as [_ H].
  all: fold (number (fld s PBLOCK x)) in H; rewrite (u16_id (number _)) in H by (unfold is_u16; pose proof (number_range (fld s PBLOCK x)); lia).
  all: rewrite fld_set_eq in H by (unfold is_u16; pose proof (number_range (fld s PBLOCK x)); lia).
  all: destruct (Z.eqb_spec (number (fld s PBLOCK x)) prev) as [Ep |]; [| discriminate]; cbn [negb] in H.
  - discriminate.
  - assert (Enum : number (fld s PBLOCK x) = number (fld s0 PBLOCK x)).
    { rewrite Hf. destruct (decide _); [apply number_idem | done]. }
    apply (IH x (x :: seen)) in H as (bl & Hl & Hbr & Hm).
    + exists (x :: bl). cbn [linked]. split_and!; [done | done | congruence | done | constructor; [lia | done] |].
      intros y Hy Hs. destruct (decide (y = x)) as [-> | Hne].
      * unfold bit_set. rewrite Em, Hf, decide_False by tauto. done.
      * apply elem_of_cons in Hy as [-> | Hy]; [done |]. apply Hm; [done |]. intros [-> | ?]%elem_of_cons; done.
    + done.
    + intros f b. rewrite fld_set by (unfold is_u16; pose proof (number_range (fld s PBLOCK x)); lia).
      destruct (decide (PBLOCK = f /\ x = b)) as [[<- <-] | Hne].
      * rewrite Enum, decide_True; [done |]. split; [done | left].
      * rewrite Hf. destruct (decide (f = PBLOCK /\ b ∈ seen)) as [[-> Hb] | Hnb].
        -- rewrite decide_True; [done |]. split; [done | by right].
        -- rewrite decide_False; [done |]. intros [-> Hb]. apply elem_of_cons in Hb as [-> | Hb]; [by apply Hne | by apply Hnb].
Qed.

Lemma linked_ext h h' prev l : (forall b, h' NBLOCK b = h NBLOCK b) -> (forall b, number (h' PBLOCK b) = number (h PBLOCK b)) ->
  linked h' prev l -> linked h prev l.
Proof.
  intros HN HP. revert prev. induction l as [| x l IH]; intros prev; cbn [linked]; rewrite HN; [done |].
  rewrite HP. intros (? & ? & ? & ?). split_and!; try done. by apply IH.
Qed.

Lemma check_sound s s' : umm_heap s <> NULL -> integrity_check s = Some (true, s') ->
  exists fl bl, dll (fld s) 0 fl /\ linked (fld s) 0 bl /\
    Forall (fun x => 0 < x < umm_numblocks s) fl /\ Forall (fun x => 0 < x < umm_numblocks s) bl /\
    forall x, x ∈ bl -> bit_set (fld s NBLOCK x) UMM_FREELIST_MASK =
      bool_decide (x ∈ fl) || bit_set (fld s PBLOCK x) UMM_FREELIST_MASK.
Proof.
  intros Hh H. unfold integrity_check in H. rewrite (ubind_ok _ _ s tt s) in H.
  2:{ unfold ensure_init, ubind, uget. by rewrite (proj2 (Z.eqb_neq _ _) Hh). }
  rewrite (ubind_ok (uget _) _ s _ s) in H by done. unfold ubind in H.
  destruct (check_free_list _ 0 s) as [[[] s1] |] eqn:E1; [| discriminate | discriminate].
  apply check_free_list_sound in E1 as (fl & Hd & Hr & Hn & Hf).
  assert (HN : forall b, fld s1 NBLOCK b = fld s NBLOCK b) by (intros b; rewrite Hf; apply decide_False; by intros [? _]).
  apply (check_blocks_sound s1 _ 0 []) in H as (bl & Hl & Hbr & Hm); [| done |].
  - rewrite Hn in Hbr. exists fl, bl. split_and!; try done.
    + eapply linked_ext; [exact HN | | exact Hl]. intros b. rewrite Hf. destruct (decide _); [apply number_mark | done].
    + intros x Hx. specialize (Hm x Hx). rewrite HN in Hm. rewrite Hm by (by intros ?%elem_of_nil). rewrite Hf.
      destruct (decide (PBLOCK = PBLOCK /\ x ∈ fl)) as [[_ Hin] | Hnin].
      * rewrite bool_decide_true by done. apply mark_set.
      * by rewrite bool_decide_false by tauto.
  - intros f b. rewrite decide_False; [done |]. intros [_ Hb]. by apply elem_of_nil in Hb.
Qed.
(** ** The check ends *)

(** A path back to block 0: each block names the next one by [h]. *)
Fixpoint back (h : Z -> Z) (p : list Z) : Prop :=
  match p with
  | [] => False
  | x :: q => match q with [] => x = 0 | y :: _ => x <> 0 /\ h x = y /\ back h q end
  end.

Lemma back_next h p x : back h p -> x ∈ p -> x <> 0 -> h x ∈ tl p.
Proof.
  induction p as [| y [| z p] IH]; intros Hb Hx H0; [done | |].
  - cbn in Hb. subst y. apply list_elem_of_singleton in Hx. done.
  - destruct Hb as (_ & Hh & Hb). apply elem_of_cons in Hx as [-> | Hx]; [rewrite Hh; left |].
    right. by apply IH.
Qed.

(** A block behind the path is a new one, since it names the last one. *)
Lemma back_fresh h p x y : back h (y :: p) -> NoDup (y :: p) -> x <> 0 -> h x = y -> x ∉ y :: p.
Proof.
  intros Hb Hn H0 Hh Hx. pose proof (back_next h (y :: p) x Hb Hx H0) as H. rewrite Hh in H.
  apply NoDup_cons in Hn as [Hn _]. done.
Qed.

Lemma path_bound n p : p <> [] -> NoDup p -> Forall (fun x => 0 <= x < n) p -> Z.of_nat (length p) <= n.
Proof.
  intros H0 Hn Hp. assert (p ⊆+ seqZ 0 n) as H.
  { apply NoDup_submseteq; [done |]. intros x Hx. apply elem_of_seqZ. rewrite Forall_forall in Hp. specialize (Hp x Hx). lia. }
  apply submseteq_length in H. rewrite length_seqZ in H.
  destruct p; [done |]. apply Forall_cons in Hp as [Hp _]. cbn [length] in *. lia.
Qed.

Definition bytes (s : ustate) : Prop := forall a, is_u8 (mem s a).

Lemma bytes_set s f b v : bytes s -> bytes (set_fld f b v s).
Proof. intros H a. unfold set_fld, store16. cbn. repeat (case_match; [auto with fw |]). apply H. Qed.
Lemma bytes_fld s f b : bytes s -> 0 <= fld s f b.
Proof.
  intros H. unfold fld, load16. pose proof (H (block_addr s b + offset f)). pose proof (H (block_addr s b + offset f + 1)).
  unfold is_u8 in *. lia.
Qed.

Lemma rd_in {A} f b (k : Z -> U A) s : 0 <= b < umm_numblocks s -> ubind (rd f b) k s = k (fld s f b) s.
Proof.
  intros H. unfold ubind, rd, in_array. by rewrite (proj2 (Z.leb_le _ _)), (proj2 (Z.ltb_lt _ _)) by lia.
Qed.
Lemma wr_in {A} f b v (k : unit -> U A) s : 0 <= b < umm_numblocks s -> ubind (wr f b v) k s = k tt (set_fld f b (u16 v) s).
Proof.
  intros H. unfold ubind, wr, in_array. by rewrite (proj2 (Z.leb_le _ _)), (proj2 (Z.ltb_lt _ _)) by lia.
Qed.

(** The path so far in a loop that has [k] turns left. *)
Record walk (h : Z -> Z) (n : Z) (k : nat) (prev : Z) (p : list Z) : Prop := {
  wk_back : back h (prev :: p);
  wk_new : NoDup (prev :: p);
  wk_in : Forall (fun x => 0 <= x < n) (prev :: p);
  wk_turns : n < Z.of_nat k + Z.of_nat (length (prev :: p))
}.

Lemma walk_start h n : 0 < n -> walk h n (Z.to_nat n) 0 [].
Proof. intros Hn. split; [done | apply NoDup_singleton | repeat constructor; lia | cbn; lia]. Qed.

Lemma walk_in h n k prev p : walk h n k prev p -> 0 <= prev < n.
Proof. intros [_ _ H _]. by apply Forall_cons in H as [H _]. Qed.

(** There is a turn left for a block that names the last one. *)
Lemma walk_step h n k prev p x : walk h n k prev p -> 0 < x < n -> h x = prev ->
  exists k', k = S k' /\ walk h n k' x (prev :: p).
Proof.
  intros [Hb Hn Hi Ht] Hx Hh. pose proof (back_fresh h p x prev Hb Hn ltac:(lia) Hh) as Hf.
  assert (Hi' : Forall (fun x => 0 <= x < n) (x :: prev :: p)) by (constructor; [lia | done]).
  assert (Hn' : NoDup (x :: prev :: p)) by (by apply NoDup_cons).
  pose proof (path_bound n (x :: prev :: p) ltac:(done) Hn' Hi'). cbn [length] in *. destruct k as [| k]; [lia |].
  exists k. split; [done |]. split; [cbn [back]; split_and!; [lia | done | exact Hb] | done | done | cbn [length]; lia].
Qed.

Lemma walk_ext h h' n k prev p : (forall x, h' x = h x) -> walk h n k prev p -> walk h' n k prev p.
Proof.
  intros E [Hb Hn Hi Ht]. split; [| done | done | done]. clear Hn Hi Ht. revert prev Hb.
  induction p as [| y p IH]; intros prev Hb; [done |]. cbn [back] in *. rewrite E.
  destruct Hb as (H1 & H2 & H3). split_and!; [done | done |]. by apply IH.
Qed.

Lemma check_free_list_ends k : forall prev p s, bytes s -> walk (fld s PFREE) (umm_numblocks s) k prev p ->
  exists ok s', check_free_list k prev s = Some (ok, s') /\ bytes s' /\ umm_numblocks s' = umm_numblocks s.
Proof.
  induction k as [| k IH]; intros prev p s Hs Hw; cbn [check_free_list]; rewrite rd_in by (by eapply walk_in);
    rewrite (ubind_ok (uget _) _ s _ s) by done; pose proof (bytes_fld s NFREE prev Hs) as H0;
    (destruct (Z.leb_spec (umm_numblocks s) (fld s NFREE prev)) as [| Hlt]; [by exists false, s |]);
    (destruct (Z.eqb_spec (fld s NFREE prev) 0) as [| Hne]; [by exists true, s |]);
    set (x := fld s NFREE prev) in *; rewrite rd_in by lia;
    (destruct (Z.eqb_spec (fld s PFREE x) prev) as [Ep |]; [| by exists false, s]); cbn [negb];
    destruct (walk_step _ _ _ _ _ x Hw ltac:(lia) Ep) as (k' & Ek & Hw'); [done |].
  injection Ek as ->. rewrite rd_in, wr_in by lia.
  destruct (IH x (prev :: p) (set_fld PBLOCK x (u16 (Z.lor (fld s PBLOCK x) UMM_FREELIST_MASK)) s)) as (ok & s' & E & Hs' & Hn').
  - by apply bytes_set.
  - eapply walk_ext; [| exact Hw']. intros y. rewrite fld_set_u16. apply decide_False. by intros [? _].
  - exists ok, s'. done.
Qed.

Lemma check_blocks_ends k : forall prev p s, bytes s -> walk (fun x => number (fld s PBLOCK x)) (umm_numblocks s) k prev p ->
  exists ok s', check_blocks k prev s = Some (ok, s').
Proof.
  induction k as [| k IH]; intros prev p s Hs Hw; cbn [check_blocks]; rewrite rd_in by (by eapply walk_in);
    cbv zeta; fold (number (fld s NBLOCK prev)); rewrite (ubind_ok (uget _) _ s _ s) by done;
    pose proof (number_range (fld s NBLOCK prev)) as H0;
    (destruct (Z.leb_spec (umm_numblocks s) (number (fld s NBLOCK prev))) as [| Hlt]; [by exists false, s |]);
    (destruct (Z.eqb_spec (number (fld s NBLOCK prev)) 0) as [| Hne]; [by exists true, s |]);
    set (x := number (fld s NBLOCK prev)) in *; rewrite !rd_in by lia;
    (destruct (negb _); [by exists false, s |]); rewrite rd_in, wr_in, rd_in by (cbn; lia);
    fold (number (fld s PBLOCK x)); set (s1 := set_fld PBLOCK x (u16 (number (fld s PBLOCK x))) s);
    assert (E1 : fld s1 PBLOCK x = number (fld s PBLOCK x))
      by (unfold s1; pose proof (number_range (fld s PBLOCK x)); rewrite u16_id by (unfold is_u16; lia); apply fld_set_eq; unfold is_u16; lia);
    rewrite E1; (destruct (Z.eqb_spec (number (fld s PBLOCK x)) prev) as [Ep |]; [| by exists false, s1]); cbn [negb];
    destruct (walk_step _ _ _ _ _ x Hw ltac:(lia) Ep) as (k' & Ek & Hw'); [done |].
  injection Ek as ->. apply (IH x (prev :: p) s1).
  - by apply bytes_set.
  - eapply walk_ext; [| exact Hw']. intros y. cbv beta. destruct (decide (y = x)) as [-> | Hy]; [by rewrite E1, number_idem |].
    unfold s1. rewrite fld_set_u16, decide_False; [done |]. by intros [_ ?].
Qed.

(** C24: The integrity check detects broken links, whatever bytes the heap contains.  It
    always returns: it looks at no block outside of the heap, and each block of its walks
    names the one before it, so that no cycle can hold it.  And if it
    reports success, the free list is doubly linked and ends, the block list is
    doubly linked and ends, every link is inside of the heap, and a block of the
    block list carries the free flag exactly if it is on the free list (or if its
    back link already carried the mark that the check itself uses). *)
Theorem integrity_check_detects s : umm_heap s <> NULL -> 0 < umm_numblocks s -> bytes s ->
  exists ok s', integrity_check s = Some (ok, s') /\ (ok = true ->
  exists fl bl, dll (fld s) 0 fl /\ linked (fld s) 0 bl /\
    Forall (fun x => 0 < x < umm_numblocks s) fl /\ Forall (fun x => 0 < x < umm_numblocks s) bl /\
    forall x, x ∈ bl -> bit_set (fld s NBLOCK x) UMM_FREELIST_MASK =
      bool_decide (x ∈ fl) || bit_set (fld s PBLOCK x) UMM_FREELIST_MASK).
Proof.
  intros Hh Hn Hs. assert (exists ok s', integrity_check s = Some (ok, s')) as (ok & s' & E).
  { unfold integrity_check. rewrite (ubind_ok _ _ s tt s).
    2:{ unfold ensure_init, ubind, uget. by rewrite (proj2 (Z.eqb_neq _ _) Hh). }
    rewrite (ubind_ok (uget _) _ s _ s) by done.
    destruct (check_free_list_ends _ 0 [] s Hs (walk_start _ _ Hn)) as (ok & s1 & E1 & Hs1 & Hn1).
    rewrite (ubind_ok _ _ _ _ _ E1). destruct ok; [| by exists false, s1]. apply (check_blocks_ends _ 0 []); [done |].
    rewrite Hn1. by apply walk_start. }
  exists ok, s'. split; [done |]. intros ->. by apply (check_sound s s').
Qed.
End Detect.
