(* ===== verification/UmmInfo.v ===== *)
(** * umm_malloc: statistics and the limits of a request

    [umm_info] counts the blocks of the heap; [umm_malloc] serves a request
    whenever a free block is large enough, but the number of blocks of a very
    large request wraps around. *)

From S2P Require Import Prelude Umm UmmHeap UmmOps UmmAlloc UmmMalloc UmmRealloc UmmProps.

(** ** What there is to count *)

Fixpoint entries (free : bool) (l : list seg) : Z :=
  match l with [] => 0 | (_, f) :: l' => (if eqb f free then 1 else 0) + entries free l' end.
Fixpoint blocks (free : bool) (l : list seg) : Z :=
  match l with [] => 0 | (n, f) :: l' => (if eqb f free then n else 0) + blocks free l' end.
Fixpoint largest (l : list seg) : Z :=
  match l with [] => 0 | (n, f) :: l' => if f : bool then Z.max n (largest l') else largest l' end.
Fixpoint squares (l : list seg) : Z :=
  match l with [] => 0 | (n, f) :: l' => (if f : bool then (8 * n) * (8 * n) else 0) + squares l' end.

Definition tally (l : list seg) : heap_info :=
  mkInfo (entries true l + entries false l) (entries false l) (entries true l)
    (total l) (blocks false l) (blocks true l) (largest l) (u32 (squares l)).

Lemma entries_snoc b l n f : entries b (l ++ [(n, f)]) = entries b l + (if eqb f b then 1 else 0).
Proof. induction l as [| [m g] l IH]; simpl; lia. Qed.
Lemma blocks_snoc b l n f : blocks b (l ++ [(n, f)]) = blocks b l + (if eqb f b then n else 0).
Proof. induction l as [| [m g] l IH]; simpl; lia. Qed.
Lemma squares_snoc l n f : squares (l ++ [(n, f)]) = squares l + (if f : bool then (8 * n) * (8 * n) else 0).
Proof. induction l as [| [m g] l IH]; simpl; [destruct f; lia |]. rewrite IH. lia. Qed.
Lemma largest_nonneg l : positive l -> 0 <= largest l.
Proof. induction 1 as [| [n f] l Hn Hl IH]; simpl in *; [lia |]. destruct f; lia. Qed.
Lemma largest_snoc l n f : positive l -> 0 < n ->
  largest (l ++ [(n, f)]) = if f : bool then Z.max (largest l) n else largest l.
Proof.
  intros Hl Hn. induction Hl as [| [m g] l Hm Hl IH]; simpl; [destruct f; lia |].
  rewrite IH. pose proof (largest_nonneg l Hl). destruct f, g; lia.
Qed.
Lemma tally_bounds l : positive l ->
  0 <= entries true l /\ 0 <= entries false l /\ entries true l + entries false l <= total l /\
  0 <= blocks true l /\ 0 <= blocks false l /\ blocks true l + blocks false l = total l /\ largest l <= blocks true l.
Proof. induction 1 as [| [n f] l Hn Hl IH]; simpl in *; [lia |]. destruct f; simpl; lia. Qed.

(** A turn of the loop counts one segment more. *)
Lemma tally_snoc l n f : positive (l ++ [(n, f)]) -> total (l ++ [(n, f)]) <= 0x7FFF ->
  (if f : bool then count_free else count_used) n (tally l) = tally (l ++ [(n, f)]).
Proof.
  intros Hp Ht. pose proof (tally_bounds _ Hp) as Hb. apply Forall_app in Hp as [Hl Hn]. apply Forall_inv in Hn. simpl in Hn.
  pose proof (tally_bounds _ Hl) as Hb'. unfold tally. rewrite !entries_snoc, !blocks_snoc, squares_snoc, largest_snoc by done.
  rewrite !entries_snoc, !blocks_snoc in Hb. rewrite total_app in *. cbn [total] in *. pose proof (total_nonneg l Hl).
  destruct f; cbn [eqb] in *; unfold count_free, count_used; cbn [totalEntries usedEntries freeEntries totalBlocks usedBlocks freeBlocks maxFreeContiguousBlocks freeSize2];
    rewrite ?u16_id by (unfold is_u16; lia); f_equal; try lia.
  - destruct (Z.ltb_spec (largest l) n); lia.
  - unfold u32. rewrite Zplus_mod_idemp_l. f_equal. lia.
  - f_equal. lia.
Qed.

Section Info.
Context {Cfg : HeapCfg} {CfgOk : HeapCfgOk}.

Lemma heap_ok_info s i segs fl : heap_ok s segs fl -> heap_ok (set_info i s) segs fl.
Proof. intros [? ? ? ? ? ? ? ?]. by split. Qed.

(** The loop from the segment behind [l] on, when [l] has been counted. *)
Lemma info_loop_ok r : forall l s k fl, heap_ok s (l ++ r) fl -> ummHeapInfo s = tally l -> (length r <= k)%nat ->
  info_loop k NULL (1 + total l) s =
  Some (NULL, set_depth (depth s - 1) (set_info (count_last 1 (tally (l ++ r))) s)).
Proof.
  induction r as [| [n f] r IH]; intros l s k fl Hok Hi Hk.
  - rewrite app_nil_r in *. pose proof (ok_size _ _ _ Hok) as Hs. pose proof (ok_total _ _ _ Hok) as Ht.
    pose proof (ok_chain _ _ _ Hok) as Hc. rewrite <- (app_nil_r l) in Hc. apply chain_split in Hc as [_ Hc].
    assert (E : u32 (umm_numblocks s - (1 + total l)) = 1) by (rewrite u32_id; unfold is_u32; lia).
    destruct k; cbn [info_loop]; ustep; rewrite Hc; change (Z.land 0 UMM_BLOCKNO_MASK =? 0) with true; cbv iota;
      rewrite (ubind_ok (uget _) _ s _ s) by done; unfold ubind, uput, uret; rewrite E, Hi; done.
  - destruct k as [| k]; [simpl in Hk; lia |].
    pose proof (ok_links _ _ _ _ _ _ Hok) as (Hn & Hc1 & Hcn & Hr & Hl & _ & _ & Hsz & Hnb & _).
    pose proof (ok_small _ _ _ Hok) as Hsm. pose proof (ok_positive _ _ _ Hok) as Hpos.
    cbn [info_loop]. ustep. rewrite Hnb, link_mask, link_flag by lia. cbv zeta.
    rewrite (proj2 (Z.eqb_neq (1 + total l + n) 0)) by lia.
    replace (1 + total l + n - (1 + total l)) with n by lia. rewrite (u32_id n) by (unfold is_u32; lia).
    rewrite (ubind_ok (uget _) _ s _ s) by done. cbv beta.
    set (s1 := set_info (tally (l ++ [(n, f)])) s).
    rewrite (ubind_ok (uput _) _ s tt s1).
    2:{ unfold uput, s1. rewrite Hi, tally_snoc; [done | |].
        - apply Forall_app in Hpos as [? _]. apply Forall_app. split; [done |]. by repeat constructor.
        - rewrite total_app. cbn [total]. lia. }
    replace (NULL =? block_addr s (1 + total l)) with false.
    2:{ pose proof heap_range. unfold block_addr, sizeof_umm_block, NULL. rewrite (ok_addr _ _ _ Hok). lia. }
    rewrite andb_false_r. replace (1 + total l + n) with (1 + total (l ++ [(n, f)])) by (rewrite total_app; cbn [total]; lia).
    rewrite (IH (l ++ [(n, f)]) s1 k fl); [| | done | simpl in Hk; lia].
    + by rewrite <- app_assoc.
    + rewrite <- app_assoc. by apply heap_ok_info.
Qed.

(** The record that [umm_info] leaves: the segments of the heap, and the block
    that ends it as if it were free. *)
Definition info_of (segs : list seg) : heap_info :=
  mkInfo (entries true segs + entries false segs) (entries false segs) (entries true segs)
    (total segs + 1) (blocks false segs) (blocks true segs + 1) (Z.max 1 (largest segs)) (u32 (squares segs)).

Lemma umm_info_ok s segs fl : heap_ok s segs fl -> umm_info NULL s = Some (NULL, set_info (info_of segs) s).
Proof.
  intros Hok. pose proof (ok_size _ _ _ Hok) as Hsz. pose proof (ok_small _ _ _ Hok) as Hsm.
  pose proof (ok_positive _ _ _ Hok) as Hpos. pose proof (tally_bounds _ Hpos) as Hb.
  pose proof (total_nonneg _ Hpos). pose proof (largest_nonneg _ Hpos).
  unfold umm_info. rewrite (ubind_ok _ _ _ _ _ (ensure_init_done _ _ _ Hok)).
  set (s0 := set_info info_zero (set_depth (depth s + 1) s)).
  rewrite (ubind_ok UMM_CRITICAL_ENTRY _ s tt (set_depth (depth s + 1) s)) by done.
  rewrite (ubind_ok (uput _) _ _ tt s0) by done.
  assert (Hok0 : heap_ok s0 segs fl) by (by apply heap_ok_info, heap_ok_depth).
  assert (En : umm_numblocks s0 = umm_numblocks s) by done.
  ustep. rewrite (ok_head _ _ _ Hok0). rewrite (ubind_ok (uget _) _ s0 _ s0) by done.
  rewrite (info_loop_ok segs [] s0 _ fl Hok0); [| done |].
  - unfold s0. destruct s as [h n m d a z i]. replace (count_last 1 (tally ([] ++ segs))) with (info_of segs).
    { unfold set_depth, set_info. cbn -[info_of]. by replace (d + 1 - 1) with d by lia. }
    cbn [app].     unfold count_last, info_of, tally. cbn [totalEntries usedEntries freeEntries totalBlocks usedBlocks freeBlocks maxFreeContiguousBlocks freeSize2].
    rewrite !u16_id by (unfold is_u16; lia). f_equal. destruct (Z.ltb_spec (largest segs) 1); lia.
  - rewrite En. rewrite Hsz. clear - Hpos. induction Hpos as [| [n f] l Hn Hl IH]; simpl in *; [lia |].
    pose proof (total_nonneg l Hl). lia.
Qed.

(** ** Which requests are served *)

Lemma largest_upper l m : (m, true) ∈ l -> m <= largest l.
Proof.
  induction l as [| [n f] l IH]; intros H; [by apply elem_of_nil in H |].
  apply elem_of_cons in H as [[= <- <-] | H]; simpl; [lia |]. specialize (IH H). destruct f; lia.
Qed.
Lemma largest_in l : positive l -> 0 < largest l -> (largest l, true) ∈ l.
Proof.
  induction 1 as [| [n f] l Hn Hl IH]; simpl in *; [lia |]. intros H. pose proof (largest_nonneg l Hl).
  destruct f; [| right; by apply IH]. destruct (Z.max_spec n (largest l)) as [[? ->] | [? ->]]; [right; apply IH; lia | left].
Qed.

(** A request is served exactly if it fits into the largest free segment, from a
    segment of just as many blocks as it needs. *)
Lemma request_ok caller s segs fl size : heap_ok s segs fl -> 0 < size -> 1 <= umm_blocks size ->
  exists ret s' segs' fl', umm_malloc caller size s = Some (ret, s') /\ heap_ok s' segs' fl' /\
    (if umm_blocks size <=? largest segs
     then exists b, ret = data_of b /\ (b, umm_blocks size) ∈ used 1 segs'
     else ret = NULL /\ segs' = segs /\ umm_last_fail_alloc_addr s' = caller /\ umm_last_fail_alloc_size s' = size).
Proof.
  intros Hok Hs Hk. pose proof (ok_positive _ _ _ Hok) as Hpos. unfold umm_malloc.
  destruct (malloc_ok s segs fl size Hok Hs Hk) as [(l & n & r & s1 & t & fl1 & -> & Hn & _ & E & _ & _ & Hok1 & _) | (Hno & s1 & E & Hok1 & _)];
    rewrite (ubind_ok _ _ _ _ _ E).
  - apply ok_positive in Hok1 as Hp1. apply Forall_app in Hp1 as [Hl _]. pose proof (total_nonneg l Hl).
    unfold record_failure, ubind. rewrite (proj2 (Z.eqb_neq 0 (data_of _))) by (symmetry; intros ?; by eapply data_not_null; [| done]; lia).
    rewrite andb_false_r. eexists _, _, _, _. split; [done |]. split; [exact Hok1 |].
    rewrite (proj2 (Z.leb_le _ _)); [| etrans; [exact Hn |]; apply largest_upper, elem_of_app; right; left].
    exists (1 + total l). split; [done |]. rewrite used_app. apply elem_of_app. right. left.
  - unfold record_failure, ubind. rewrite (proj2 (Z.eqb_neq 0 size)) by lia.
    exists NULL, (set_failure caller size s1), segs, fl. split; [done |]. split; [by destruct Hok1; split |].
    rewrite (proj2 (Z.leb_gt _ _)); [done |]. pose proof (largest_nonneg _ Hpos).
    destruct (Z.eq_dec (largest segs) 0) as [| Hne]; [lia |]. apply Hno, largest_in; [done | lia].
Qed.

(** C21: [umm_malloc] serves every request that fits: a request of 1 to 524276
    bytes (beyond, the count of blocks wraps) succeeds if and only if the largest free block holds the request and
    its 4-byte header, and a failure is recorded with the address of the caller and
    the size. *)
Theorem malloc_succeeds_iff caller s segs fl size : heap_ok s segs fl -> 0 < size <= max_request ->
  exists ret s', umm_malloc caller size s = Some (ret, s') /\
    (ret <> NULL <-> size + 4 <= 8 * largest segs) /\
    (ret = NULL -> umm_last_fail_alloc_addr s' = caller /\ umm_last_fail_alloc_size s' = size).
Proof.
  intros Hok Hs. destruct (umm_blocks_exact size Hs) as (Hb & Hk & _).
  destruct (request_ok caller s segs fl size Hok ltac:(lia) ltac:(lia)) as (ret & s' & segs' & fl' & E & Hok' & H).
  exists ret, s'. split; [done |]. destruct (Z.leb_spec (umm_blocks size) (largest segs)) as [Hle | Hgt].
  - destruct H as (b & -> & Hb'). apply used_range in Hb'; [| by eapply ok_positive].
    assert (data_of b <> NULL) by (apply data_not_null; lia). split; [| done]. split; [intros _; mlia | done].
  - destruct H as (-> & _ & H1 & H2). split; [| done]. split; [done | mlia].
Qed.

(** [umm_free_heap_size] and [umm_max_block_size] report one block (8 bytes)
    more than is free when the heap is full, and [umm_free_heap_size] always: the
    loop of [umm_info] leaves the block that ends the heap to the code for "the
    rest", which counts it as free.  Apart from that the statistics are those of
    the block list; the heap itself does not change. *)
Theorem heap_sizes_reported s segs fl : heap_ok s segs fl ->
  umm_free_heap_size s = Some (8 * (blocks true segs + 1), set_info (info_of segs) s) /\
  umm_max_block_size s = Some (8 * Z.max 1 (largest segs), set_info (info_of segs) s).
Proof.
  intros Hok. pose proof (ok_size _ _ _ Hok) as Hsz. pose proof (ok_small _ _ _ Hok) as Hsm.
  pose proof (tally_bounds _ (ok_positive _ _ _ Hok)) as Hb.
  unfold umm_free_heap_size, umm_max_block_size. rewrite !(ubind_ok _ _ _ _ _ (umm_info_ok _ _ _ Hok)).
  unfold ubind, uget, uret, sizeof_umm_block. cbn [ummHeapInfo set_info info_of freeBlocks maxFreeContiguousBlocks].
  split; (rewrite u32_id; [do 2 f_equal; lia | unfold is_u32; lia]).
Qed.

(** The number of blocks of a request is cut to 16 bits without a check.  A
    request of 524285 to 524292 bytes needs 65537 blocks, more than a heap can have;
    it is computed as one block, and the call succeeds with an allocation of 4
    bytes as soon as any block is free. *)
Theorem huge_request_wraps caller s segs fl size : heap_ok s segs fl -> 524285 <= size <= 524292 -> 0 < largest segs ->
  exists b s' segs' fl', umm_malloc caller size s = Some (data_of b, s') /\ data_of b <> NULL /\
    heap_ok s' segs' fl' /\ (b, 1) ∈ used 1 segs'.
Proof.
  intros Hok Hs Hl. assert (Hk : umm_blocks size = 1).
  { unfold umm_blocks, sizeof_body, sizeof_umm_block, u16. rewrite (proj2 (Z.leb_gt size 4)) by lia. mlia. }
  destruct (request_ok caller s segs fl size Hok ltac:(lia) ltac:(lia)) as (ret & s' & segs' & fl' & E & Hok' & H).
  rewrite Hk, (proj2 (Z.leb_le 1 (largest segs))) in H by lia. destruct H as (b & -> & Hb).
  exists b, s', segs', fl'. split_and!; [done | | done | done].
  apply used_range in Hb; [| by eapply ok_positive]. apply data_not_null. lia.
Qed.
End Info.
