(* ===== verification/UmmWitness.v ===== *)
(** * umm_malloc: the theorems at a concrete heap

    A heap of 50 blocks, before and after its initialisation. *)

From S2P Require Import Prelude Umm UmmHeap UmmOps UmmAlloc UmmMalloc UmmProps UmmCheck UmmDetect UmmInfo.

Definition cfg50 : HeapCfg := {| heap_addr := 0x3fffc000 - 400 |}.
Definition unused_heap : ustate := mkU 0 0 (fun _ => 0) 0 0 0 info_zero.

Lemma cfg50_ok : @HeapCfgOk cfg50.
Proof. unfold HeapCfgOk, heap_addr, cfg50. lia. Qed.
Lemma unused_represents : @represents cfg50 unused_heap ∅.
Proof. by left. Qed.

Lemma umm_implements_allocator_witness : exists ret s' live',
  @run cfg50 7 (Malloc 100) unused_heap = Some (ret, s') /\ post ∅ (Malloc 100) ret live' /\
  @represents cfg50 s' live' /\ @separated cfg50 live' /\ depth s' = 0.
Proof.
  apply (@umm_implements_allocator cfg50 cfg50_ok 7 (Malloc 100) unused_heap ∅ unused_represents).
  unfold valid, max_request. lia.
Defined.

Lemma integrity_check_accepts_witness : exists s',
  @integrity_check cfg50 unused_heap = Some (true, s') /\ @represents cfg50 s' ∅ /\ depth s' = 0.
Proof. exact (@integrity_check_accepts cfg50 cfg50_ok unused_heap ∅ unused_represents). Defined.

(** After the initialisation, 48 blocks are free: 380 bytes can be allocated,
    and 381 bytes cannot. *)
Lemma malloc_succeeds_iff_witness : exists s, @umm_init cfg50 unused_heap = Some (tt, s) /\
  (exists ret s', @umm_malloc cfg50 7 380 s = Some (ret, s') /\ ret <> NULL) /\
  (exists s', @umm_malloc cfg50 7 381 s = Some (NULL, s') /\ umm_last_fail_alloc_addr s' = 7 /\ umm_last_fail_alloc_size s' = 381).
Proof.
  destruct (@init_ok cfg50 cfg50_ok unused_heap) as (s & Hi & Hok & _). exists s. split; [done |]. split.
  - destruct (@malloc_succeeds_iff cfg50 cfg50_ok 7 s _ _ 380 Hok ltac:(unfold max_request; lia)) as (ret & s' & E & H & _).
    exists ret, s'. split; [done |]. apply H. vm_compute. discriminate.
  - destruct (@malloc_succeeds_iff cfg50 cfg50_ok 7 s _ _ 381 Hok ltac:(unfold max_request; lia)) as (ret & s' & E & H & Hf).
    destruct (Z.eq_dec ret NULL) as [-> | Hne]; [exists s'; split; [done | by apply Hf] |].
    exfalso. apply H in Hne. revert Hne. vm_compute. intros Hne. by apply Hne.
Defined.

Lemma heap_sizes_reported_witness : exists s, @umm_init cfg50 unused_heap = Some (tt, s) /\
  (exists s', @umm_free_heap_size cfg50 s = Some (8 * 49, s')) /\
  (exists s', @umm_max_block_size cfg50 s = Some (8 * 48, s')).
Proof.
  destruct (@init_ok cfg50 cfg50_ok unused_heap) as (s & Hi & Hok & _). exists s. split; [done |].
  destruct (@heap_sizes_reported cfg50 cfg50_ok s _ _ Hok) as [H1 H2]. rewrite H1, H2. split; eexists; reflexivity.
Defined.

Lemma huge_request_wraps_witness : exists s, @umm_init cfg50 unused_heap = Some (tt, s) /\
  exists p s', @umm_malloc cfg50 7 524285 s = Some (p, s') /\ p <> NULL.
Proof.
  destruct (@init_ok cfg50 cfg50_ok unused_heap) as (s & Hi & Hok & _). exists s. split; [done |].
  destruct (@huge_request_wraps cfg50 cfg50_ok 7 s _ _ 524285 Hok ltac:(lia)) as (b & s' & segs' & fl' & E & Hne & _).
  - vm_compute. reflexivity.
  - exists (@data_of cfg50 b), s'. done.
Defined.

(** Three blocks; the block on the free list names itself as the next one, and in the
    other heap the list leads out of the array. *)
Definition broken_heap (next : Z) : ustate :=
  mkU 8 3 (fun a => nth (Z.to_nat (a - 8)) [1; 0; 0; 0; 1; 0; 1; 0; 2; 128; 0; 0; next; 0; 0; 0; 0; 0; 1; 0; 0; 0; 0; 0] 0)
    0 0 0 (mkInfo 0 0 0 0 0 0 0 0).

Lemma integrity_check_detects_witness :
  (exists s', @integrity_check cfg50 (broken_heap 1) = Some (false, s')) /\
  (exists s', @integrity_check cfg50 (broken_heap 200) = Some (false, s')) /\
  (exists s' fl bl, @integrity_check cfg50 (broken_heap 0) = Some (true, s') /\
     dll (fld (broken_heap 0)) 0 fl /\ linked (fld (broken_heap 0)) 0 bl).
Proof.
  assert (H : forall next, is_u8 next -> bytes (broken_heap next)).
  { intros next Hn a. cbn [mem broken_heap]. unfold is_u8 in *.
    match goal with |- context [nth ?i ?l 0] => destruct (nth_in_or_default i l 0) as [Hi | ->]; [| lia] end.
    cbn [In] in Hi. intuition lia. }
  split_and!.
  - destruct (@integrity_check_detects cfg50 (broken_heap 1)) as (ok & s' & E & _); [done | done | by apply H |].
    exists s'. pose proof (f_equal (option_map fst) E) as F. vm_compute in F. by injection F as <-.
  - destruct (@integrity_check_detects cfg50 (broken_heap 200)) as (ok & s' & E & _); [done | done | by apply H |].
    exists s'. pose proof (f_equal (option_map fst) E) as F. vm_compute in F. by injection F as <-.
  - destruct (@integrity_check_detects cfg50 (broken_heap 0)) as (ok & s' & E & Hl); [done | done | by apply H |].
    pose proof (f_equal (option_map fst) E) as F. vm_compute in F. injection F as <-.
    destruct (Hl eq_refl) as (fl & bl & H1 & H2 & _). by exists s', fl, bl.
Defined.
