(* ===== verification/Wiring.v ===== *)
(** * The clock of the AVR core

    Models the timekeeping of [AVR/cores/arduino/wiring.c] on a processor at
    16 MHz: the overflow interrupt of timer 0, [millis], [micros] and [delay],
    with the empty [yield] of [hooks.c].

    Time is counted in cycles of the processor.  Timer 0 counts once in 64 cycles
    and wraps after 256 counts; then the flag [TOV0] is set, and the interrupt is
    taken as soon as interrupts are enabled.  How many cycles pass before each
    access to a register or a volatile variable is up to the environment; the
    handler itself is taken to be instantaneous. *)

From S2P Require Import Prelude.

(** How fast the program runs: the cycles up to the next access. *)
Class Pace := { pace : Type; next_cost : pace -> nat * pace }.

Definition F_CPU : Z := 16000000.
Definition clockCyclesPerMicrosecond : Z := F_CPU / 1000000.
Definition clockCyclesToMicroseconds (a : Z) : Z := a / clockCyclesPerMicrosecond.
Definition MICROSECONDS_PER_TIMER0_OVERFLOW : Z := clockCyclesToMicroseconds (64 * 256).
Definition MILLIS_INC : Z := MICROSECONDS_PER_TIMER0_OVERFLOW / 1000.
Definition FRACT_INC : Z := Z.shiftr (MICROSECONDS_PER_TIMER0_OVERFLOW mod 1000) 3.
Definition FRACT_MAX : Z := Z.shiftr 1000 3.

Section Wiring.
Context {P : Pace}.

(** The hardware (cycles since timer 0 was started, [TIFR0 & _BV(TOV0)], the I flag
    of [SREG]) and the variables of [wiring.c]. *)
Record clock := mkClock {
  cycles : Z; tov0 : bool; iflag : bool;
  timer0_overflow_count : Z; timer0_millis : Z; timer0_fract : Z;
  speed : pace
}.

Definition set_iflag (b : bool) (s : clock) : clock :=
  mkClock (cycles s) (tov0 s) b (timer0_overflow_count s) (timer0_millis s) (timer0_fract s) (speed s).
Definition set_time (c : Z) (t : bool) (s : clock) : clock :=
  mkClock c t (iflag s) (timer0_overflow_count s) (timer0_millis s) (timer0_fract s) (speed s).
Definition set_speed (p : pace) (s : clock) : clock :=
  mkClock (cycles s) (tov0 s) (iflag s) (timer0_overflow_count s) (timer0_millis s) (timer0_fract s) p.

Definition TIMER0_OVF_vect (s : clock) : clock :=
  let m := timer0_millis s in
  let f := timer0_fract s in
  let m := u32 (m + MILLIS_INC) in
  let f := u8 (f + FRACT_INC) in
  let '(f, m) := if FRACT_MAX <=? f then (u8 (f - FRACT_MAX), u32 (m + 1)) else (f, m) in
  mkClock (cycles s) (tov0 s) (iflag s) (u32 (timer0_overflow_count s + 1)) m f (speed s).

(** An interrupt that is pending and enabled is taken; this clears its flag. *)
Definition serve_timer0 (s : clock) : clock :=
  if iflag s && tov0 s then TIMER0_OVF_vect (set_time (cycles s) false s) else s.

Definition cycle (s : clock) : clock :=
  let c := cycles s + 1 in
  serve_timer0 (set_time c (tov0 s || (c mod (64 * 256) =? 0)) s).

(** ** Programs *)

Definition W (A : Type) : Type := clock -> A * clock.
Definition wret {A} (a : A) : W A := fun s => (a, s).
Definition wbind {A B} (m : W A) (k : A -> W B) : W B := fun s => let '(a, s') := m s in k a s'.
End Wiring.
Arguments clock P : clear implicits.

Declare Scope wiring_scope.
Delimit Scope wiring_scope with wiring.
Notation "x <- m ;; k" := (wbind m (fun x => k))
  (at level 100, m at next level, right associativity) : wiring_scope.
Notation "m ;; k" := (wbind m (fun _ => k))
  (at level 100, right associativity) : wiring_scope.
Open Scope wiring_scope.

Section Functions.
Context {P : Pace}.

(** The time that passes up to the next access. *)
Definition elapse : W unit := fun s =>
  let '(n, p) := next_cost (speed s) in (tt, Nat.iter n cycle (set_speed p s)).
Definition peek {A} (f : clock P -> A) : W A := elapse ;; fun s => (f s, s).

Definition cli : W unit := fun s => (tt, set_iflag false s).
(** [SREG = oldSREG] *)
Definition restore (old : bool) : W unit := elapse ;; fun s => (tt, set_iflag old s).

Definition TCNT0 (s : clock P) : Z := (cycles s / 64) mod 256.

Definition millis : W Z :=
  oldSREG <- peek iflag ;;
  cli ;;
  m <- peek timer0_millis ;;
  restore oldSREG ;;
  wret m.

Definition micros : W Z :=
  oldSREG <- peek iflag ;;
  cli ;;
  m <- peek timer0_overflow_count ;;
  t <- peek TCNT0 ;;
  tov <- peek tov0 ;;
  let m := if tov && (t <? 255) then u32 (m + 1) else m in
  restore oldSREG ;;
  wret (u32 (u32 (u32 (Z.shiftl m 8) + t) * (64 / clockCyclesPerMicrosecond))).

(** [while (ms > 0 && (micros() - start) >= 1000)]: the new [ms] and [start], [None]
    when the fuel is used up. *)
Fixpoint delay_inner (k : nat) (ms start : Z) : W (option (Z * Z)) :=
  if ms =? 0 then wret (Some (ms, start)) else
  now <- micros ;;
  if 1000 <=? u32 (now - start) then
    match k with
    | O => wret None
    | S k' => delay_inner k' (ms - 1) (u32 (start + 1000))
    end
  else wret (Some (ms, start)).

(** [while (ms > 0)]; [yield()] does nothing. *)
Fixpoint delay_outer (k : nat) (fuel : nat) (ms start : Z) : W (option unit) :=
  if ms =? 0 then wret (Some tt) else
  match k with
  | O => wret None
  | S k' =>
      r <- delay_inner fuel ms start ;;
      match r with
      | None => wret None
      | Some (ms, start) => delay_outer k' fuel ms start
      end
  end.

Definition delay (fuel : nat) (ms : Z) : W (option unit) :=
  start <- micros ;; delay_outer fuel fuel ms start.
End Functions.
