(* ===== verification/WiringProps.v ===== *)
(** * Properties of the clock of the AVR core

    The time that [millis] and [micros] report, against the cycles that have
    passed, and the time that [delay] takes. *)

From S2P Require Import Prelude Wiring.

(** An access takes at least one cycle and at most one count of timer 0. *)
Class PaceOk {P : Pace} : Prop := cost_range : forall p : pace, (1 <= (next_cost p).1 <= 64)%nat.

Section Props.
Context {P : Pace} {Hpace : PaceOk}.

(** The overflows that the handler has counted. *)
Definition served (s : clock P) : Z := cycles s / 16384 - b2z (tov0 s).

(** No overflow is lost: a pending one is at most [g] cycles old. *)
Record in_time (g : Z) (s : clock P) : Prop := {
  it_cycles : 0 <= cycles s;
  it_served : 0 <= served s;
  it_age : tov0 s = true -> cycles s mod 16384 <= g;
  it_count : timer0_overflow_count s = u32 (served s);
  it_millis : timer0_millis s = u32 (served s + 3 * served s / 125);
  it_fract : timer0_fract s = 3 * served s mod 125
}.

Lemma in_time_weaken g g' s : in_time g s -> g <= g' -> in_time g' s.
Proof. intros [? ? H ? ? ?] Hg. split; try done. intros Ht. specialize (H Ht). lia. Qed.
Lemma in_time_served g g' s : in_time g s -> tov0 s = false -> in_time g' s.
Proof. intros [? ? H ? ? ?] Ht. split; try done. by rewrite Ht. Qed.

(** The handler counts one overflow and adds 1.024 ms. *)
Lemma handler_counts n f m : 0 <= n -> f = 3 * n mod 125 -> m = u32 (n + 3 * n / 125) ->
  (if FRACT_MAX <=? u8 (f + FRACT_INC) then (u8 (u8 (f + FRACT_INC) - FRACT_MAX), u32 (u32 (m + MILLIS_INC) + 1))
   else (u8 (f + FRACT_INC), u32 (m + MILLIS_INC))) =
  (3 * (n + 1) mod 125, u32 (n + 1 + 3 * (n + 1) / 125)).
Proof.
  change FRACT_MAX with 125. change FRACT_INC with 3. change MILLIS_INC with 1. intros Hn -> ->.
  assert (0 <= 3 * n mod 125 < 125) by (apply Z.mod_pos_bound; lia).
  rewrite (u8_id (3 * n mod 125 + 3)) by (unfold is_u8; lia).
  destruct (Z.leb_spec 125 (3 * n mod 125 + 3)).
  - rewrite u8_id by (unfold is_u8; lia). unfold u32. f_equal; mlia.
  - unfold u32. f_equal; mlia.
Qed.

Lemma serve_timer0_ok g s : in_time g s -> in_time g (serve_timer0 s) /\ cycles (serve_timer0 s) = cycles s /\
  iflag (serve_timer0 s) = iflag s /\ speed (serve_timer0 s) = speed s /\
  (if iflag s then tov0 (serve_timer0 s) = false else serve_timer0 s = s).
Proof.
  intros Hin. unfold serve_timer0. destruct (iflag s) eqn:Ei; [| done]. destruct (tov0 s) eqn:Et; [| done].
  cbn [andb]. unfold TIMER0_OVF_vect. cbn [timer0_millis timer0_fract set_time].
  destruct Hin as [H1 H2 H3 H4 H5 H6]. unfold served in *. rewrite Et in *. cbn [b2z] in *.
  rewrite (handler_counts (cycles s / 16384 - 1)) by (done || lia). split; [| done].
  replace (cycles s / 16384 - 1 + 1) with (cycles s / 16384) by lia.
  split; unfold served; cbn [cycles tov0 timer0_overflow_count timer0_millis timer0_fract set_time b2z];
    rewrite ?Z.sub_0_r; try done; try lia.
  rewrite H4. unfold u32. rewrite Zplus_mod_idemp_l. f_equal. lia.
Qed.

Lemma cycle_ok g s : in_time g s -> 0 <= g < 16383 ->
  in_time (g + 1) (cycle s) /\ cycles (cycle s) = cycles s + 1 /\ iflag (cycle s) = iflag s /\
  speed (cycle s) = speed s /\ (if iflag s then tov0 (cycle s) = false else served (cycle s) = served s).
Proof.
  intros [H1 H2 H3 H4 H5 H6] Hg. unfold cycle. change (64 * 256) with 16384.
  set (s1 := set_time _ _ s).
  assert (Es : served s1 = served s).
  { unfold served, s1. cbn [cycles tov0 set_time]. destruct (tov0 s); cbn [orb b2z].
    - specialize (H3 eq_refl). mlia.
    - destruct (Z.eqb_spec ((cycles s + 1) mod 16384) 0); cbn [b2z]; mlia. }
  assert (Hin : in_time (g + 1) s1).
  { split; rewrite ?Es; try done; unfold s1; cbn [cycles tov0 set_time]; [lia |].
    destruct (tov0 s); cbn [orb]; [specialize (H3 eq_refl); mlia |].
    destruct (Z.eqb_spec ((cycles s + 1) mod 16384) 0); [lia | done]. }
  destruct (serve_timer0_ok _ _ Hin) as (I1 & I2 & I3 & I4 & I5). rewrite I2, I3, I4. split_and!; try done.
  change (iflag s1) with (iflag s) in I5. destruct (iflag s); [done |]. by rewrite I5.
Qed.

Lemma iter_cycle_ok n : forall g s, in_time g s -> 0 <= g -> g + Z.of_nat n < 16384 ->
  let s' := Nat.iter n cycle s in
  in_time (g + Z.of_nat n) s' /\ cycles s' = cycles s + Z.of_nat n /\ iflag s' = iflag s /\ speed s' = speed s /\
  (if iflag s then (0 < n)%nat -> tov0 s' = false else served s' = served s).
Proof.
  induction n as [| n IH]; intros g s Hin Hg Hn; cbn [Nat.iter nat_rect].
  - split_and!; try done; [eapply in_time_weaken; [done | lia] | lia | destruct (iflag s); [lia | done]].
  - destruct (IH g s Hin Hg ltac:(lia)) as (I1 & I2 & I3 & I4 & I5).
    set (s1 := Nat.iter n cycle s) in *. change (nat_rect _ s (fun _ => cycle) n) with s1.
    destruct (cycle_ok _ _ I1 ltac:(lia)) as (J1 & J2 & J3 & J4 & J5). rewrite I3 in J5.
    split_and!; try congruence; [eapply in_time_weaken; [done | lia] | lia | destruct (iflag s); [done | congruence]].
Qed.

(** ** Accesses *)

(** The age of a pending overflow after an access. *)
Definition age (s : clock P) (g : Z) : Z := if iflag s then 0 else g + 64.

(** [s'] is one access later than [s]. *)
Record later (s s' : clock P) : Prop := {
  la_cycles : cycles s + 1 <= cycles s' <= cycles s + 64;
  la_iflag : iflag s' = iflag s;
  la_served : iflag s = false -> served s' = served s
}.

Lemma elapse_ok g s : in_time g s -> 0 <= g <= 16319 ->
  exists s', elapse s = (tt, s') /\ later s s' /\ in_time (age s g) s'.
Proof.
  intros Hin Hg. unfold elapse. pose proof (cost_range (speed s)) as Hc. destruct (next_cost (speed s)) as [n p]. cbn [fst] in Hc.
  assert (Hin' : in_time g (set_speed p s)) by (by destruct Hin).
  destruct (iter_cycle_ok n g _ Hin' ltac:(lia) ltac:(lia)) as (I1 & I2 & I3 & I4 & I5). eexists. split; [done |].
  cbn [cycles iflag set_speed] in *. unfold age. split.
  - split; [lia | done |]. intros Hi. rewrite Hi in I5. done.
  - destruct (iflag s); [eapply in_time_served; [done | apply I5; lia] | eapply in_time_weaken; [done | lia]].
Qed.

Lemma peek_ok {A} (f : clock P -> A) g s : in_time g s -> 0 <= g <= 16319 ->
  exists s', peek f s = (f s', s') /\ later s s' /\ in_time (age s g) s'.
Proof.
  intros Hin Hg. destruct (elapse_ok g s Hin Hg) as (s' & E & H). exists s'. unfold peek, wbind. by rewrite E.
Qed.

Lemma in_time_iflag g b s : in_time g s -> in_time g (set_iflag b s).
Proof. by intros [? ? ? ? ? ?]. Qed.

Lemma wbind_ok {A B} (m : W A) (k : A -> W B) s a s' : m s = (a, s') -> wbind m k s = k a s'.
Proof. unfold wbind. by intros ->. Qed.

(** The first access and [cli()], which begin [millis] and [micros]. *)
Lemma enter_ok g s : in_time g s -> 0 <= g <= 16319 ->
  exists s', (forall A (k : bool -> W A), (oldSREG <- peek iflag ;; cli ;; k oldSREG)%wiring s = k (iflag s) s') /\ iflag s' = false /\
    in_time (age s g) s' /\ cycles s + 1 <= cycles s' <= cycles s + 64.
Proof.
  intros Hin Hg. destruct (peek_ok iflag g s Hin Hg) as (s1 & E & L & I). exists (set_iflag false s1).
  split; [intros A k; by rewrite (wbind_ok _ _ _ _ _ E), (la_iflag _ _ L) |]. split; [done |].
  split; [by apply in_time_iflag | apply L].
Qed.

(** [SREG = oldSREG], which ends them. *)
Lemma leave_ok {A} (a : A) old g s : in_time g s -> 0 <= g <= 16319 -> iflag s = false ->
  exists s', (restore old ;; wret a)%wiring s = (a, s') /\ iflag s' = old /\ in_time (g + 64) s' /\
    cycles s + 1 <= cycles s' <= cycles s + 64.
Proof.
  intros Hin Hg Hi. destruct (elapse_ok g s Hin Hg) as (s1 & E & L & I). exists (set_iflag old s1).
  unfold restore, wbind. rewrite E. unfold age in I. rewrite Hi in I.
  split; [done |]. split; [done |]. split; [by apply in_time_iflag | apply L].
Qed.

(** The overflows up to the access of TCNT0 in cycle [c3], from the count and the
    flag that is read afterwards in cycle [c4]. *)
Lemma overflows_at c3 c4 t tov g : 0 <= c3 -> c3 < c4 <= c3 + 64 -> t = (c3 / 64) mod 256 ->
  (tov = true -> c4 mod 16384 <= g) -> g < 16320 -> (tov = false -> c4 / 16384 = c3 / 16384) ->
  (c4 / 16384 - b2z tov) + b2z (tov && (t <? 255)) = c3 / 16384.
Proof.
  intros H0 H4 -> Ha Hg Hf. destruct tov; cbn [b2z andb].
  - specialize (Ha eq_refl). destruct (Z.ltb_spec ((c3 / 64) mod 256) 255); cbn [b2z]; mlia.
  - rewrite Hf by done. lia.
Qed.

Lemma micros_value c n m t : 0 <= c -> n = c / 16384 -> m = u32 n -> t = (c / 64) mod 256 ->
  u32 (u32 (u32 (Z.shiftl m 8) + t) * (64 / clockCyclesPerMicrosecond)) = u32 (4 * (c / 64)).
Proof.
  intros Hc -> -> ->. change (64 / clockCyclesPerMicrosecond) with 4. rewrite Z.shiftl_mul_pow2 by lia. change (2 ^ 8) with 256.
  replace (c / 64) with (256 * (c / 16384) + (c / 64) mod 256) at 2 by mlia.
  unfold u32. rewrite (Zmult_mod_idemp_l (c / 16384) 256), Zplus_mod_idemp_l, Zmult_mod_idemp_l. f_equal. lia.
Qed.

(** [micros] reports the time of its access to TCNT0. *)
Lemma micros_ok g s : in_time g s -> 0 <= g <= 16000 ->
  exists a s', micros s = (u32 (4 * (a / 64)), s') /\ cycles s < a <= cycles s + 192 /\ a < cycles s' <= a + 128 /\
    iflag s' = iflag s /\ in_time (age s g + 256) s'.
Proof.
  intros Hin Hg. unfold micros. assert (Ha : 0 <= age s g <= g + 64) by (unfold age; destruct (iflag s); lia).
  destruct (enter_ok g s Hin ltac:(lia)) as (s1 & -> & Hi1 & I1 & C1). set (g1 := age s g) in *.
  destruct (peek_ok timer0_overflow_count g1 s1 I1 ltac:(lia)) as (s2 & E2 & L2 & I2). rewrite (wbind_ok _ _ _ _ _ E2).
  pose proof (la_iflag _ _ L2) as Hi2. rewrite Hi1 in Hi2. unfold age in I2. rewrite Hi1 in I2.
  destruct (peek_ok TCNT0 _ s2 I2 ltac:(lia)) as (s3 & E3 & L3 & I3). rewrite (wbind_ok _ _ _ _ _ E3).
  pose proof (la_iflag _ _ L3) as Hi3. rewrite Hi2 in Hi3. unfold age in I3. rewrite Hi2 in I3.
  destruct (peek_ok tov0 _ s3 I3 ltac:(lia)) as (s4 & E4 & L4 & I4). rewrite (wbind_ok _ _ _ _ _ E4).
  pose proof (la_iflag _ _ L4) as Hi4. rewrite Hi3 in Hi4. unfold age in I4. rewrite Hi3 in I4.
  pose proof (la_served _ _ L3 Hi2) as S3. pose proof (la_served _ _ L4 Hi3) as S4.
  pose proof (la_cycles _ _ L2). pose proof (la_cycles _ _ L3). pose proof (la_cycles _ _ L4). pose proof (it_cycles _ _ Hin).
  assert (Hov := overflows_at (cycles s3) (cycles s4) (TCNT0 s3) (tov0 s4) (g1 + 64 + 64 + 64) ltac:(lia) ltac:(lia) eq_refl
    (it_age _ _ I4) ltac:(lia)). fold (served s4) in Hov.
  cbv zeta. erewrite (micros_value (cycles s3) _ _ (TCNT0 s3)); [| lia | reflexivity | | done].
  2:{ rewrite (it_count _ _ I2), <- S3, <- S4, <- Hov.
      - destruct (tov0 s4 && (TCNT0 s3 <? 255)); cbn [b2z]; [unfold u32; by rewrite Zplus_mod_idemp_l | by rewrite Z.add_0_r].
      - intros Ht. unfold served in S4. rewrite Ht in S4. destruct (tov0 s3); cbn [b2z] in S4; mlia. }
  destruct (leave_ok (u32 (4 * (cycles s3 / 64))) (iflag s) _ s4 I4 ltac:(lia) Hi4) as (s5 & E5 & Hi5 & I5 & C5).
  exists (cycles s3), s5. rewrite E5. split_and!; try done; try lia. eapply in_time_weaken; [done | lia].
Qed.

(** [millis] reports the milliseconds of the overflows counted so far. *)
Lemma millis_ok g s : in_time g s -> 0 <= g <= 16000 ->
  exists m s', millis s = (u32 m, s') /\ 0 <= m /\ 16000 * m <= cycles s' /\ cycles s' <= 16000 * (m + 2) + age s g + 512 /\
    iflag s' = iflag s /\ in_time (age s g + 128) s'.
Proof.
  intros Hin Hg. unfold millis. assert (Ha : 0 <= age s g <= g + 64) by (unfold age; destruct (iflag s); lia).
  destruct (enter_ok g s Hin ltac:(lia)) as (s1 & -> & Hi1 & I1 & C1). set (g1 := age s g) in *.
  destruct (peek_ok timer0_millis g1 s1 I1 ltac:(lia)) as (s2 & E2 & L2 & I2). rewrite (wbind_ok _ _ _ _ _ E2).
  pose proof (la_iflag _ _ L2) as Hi2. rewrite Hi1 in Hi2. unfold age in I2. rewrite Hi1 in I2.
  destruct (leave_ok (timer0_millis s2) (iflag s) _ s2 I2 ltac:(lia) Hi2) as (s5 & E5 & Hi5 & I5 & C5).
  destruct I2 as [J1 J2 J3 J4 J5 J6]. exists (served s2 + 3 * served s2 / 125), s5. rewrite E5, J5.
  assert (Hub : 16384 * served s2 <= cycles s2 <= 16384 * (served s2 + 1) + g1 + 64).
  { unfold served in *. destruct (tov0 s2); cbn [b2z] in *; [specialize (J3 eq_refl); mlia | mlia]. }
  split_and!; try done; try mlia. eapply in_time_weaken; [done | lia].
Qed.

(** ** Delays *)

(** Microseconds of the clock in cycle [a]. *)
Definition micros_at (a : Z) : Z := 4 * (a / 64).

(** Interrupts are on; [a] is the cycle of the last look at the clock, which is
    [start] or less than [b] microseconds later. *)
Record waiting (a start b : Z) (s : clock P) : Prop := {
  wt_in : in_time 256 s;
  wt_iflag : iflag s = true;
  wt_past : 0 <= a <= cycles s;
  wt_recent : cycles s <= a + 128;
  wt_start : start <= micros_at a < start + b
}.

(** While [ms] is left, less than a millisecond has passed since [start]. *)
Definition slack (ms : Z) : Z := if ms =? 0 then 24 else 1000.

Lemma delay_inner_ok k : forall ms start a s, waiting a start (slack ms) s -> 0 <= ms <= Z.of_nat k ->
  exists ms' start' a' s', delay_inner k ms (u32 start) s = (Some (ms', u32 start'), s') /\
    waiting a' start' (slack ms') s' /\ 0 <= ms' <= ms /\ start' + 1000 * ms' = start + 1000 * ms /\
    cycles s <= cycles s' /\ (0 < ms -> cycles s < cycles s').
Proof.
  induction k as [| k IH]; intros ms start a s Hw Hms; cbn [delay_inner].
  - assert (ms = 0) as -> by lia. exists 0, start, a, s. split; [done |]. split; [done |]. lia.
  - destruct (Z.eqb_spec ms 0) as [-> | Hne]; [exists 0, start, a, s; split; [done |]; split; [done |]; lia |].
    destruct Hw as [H1 H2 H3 H4 H5]. unfold slack in H5. rewrite (proj2 (Z.eqb_neq ms 0)) in H5 by done.
    destruct (micros_ok 256 s H1 ltac:(lia)) as (b & s1 & E & Hb & Hc & Hi & I). rewrite (wbind_ok _ _ _ _ _ E).
    fold (micros_at b) in *. unfold age in I. rewrite H2 in I, Hi.
    assert (Hd : u32 (u32 (micros_at b) - u32 start) = micros_at b - start).
    { unfold u32. rewrite <- Zminus_mod. apply Z.mod_small. unfold micros_at in *. mlia. }
    rewrite Hd. destruct (Z.leb_spec 1000 (micros_at b - start)) as [Hle | Hlt].
    + assert (Hw1 : waiting b (start + 1000) (slack (ms - 1)) s1).
      { split; try done; try lia. unfold slack, micros_at in *. destruct (Z.eqb_spec (ms - 1) 0); mlia. }
      replace (u32 (u32 start + 1000)) with (u32 (start + 1000)) by (unfold u32; by rewrite Zplus_mod_idemp_l).
      destruct (IH (ms - 1) (start + 1000) b s1 Hw1 ltac:(lia)) as (ms' & st' & a' & s' & E' & Hw' & Hm & Hsum & Hcy & _).
      exists ms', st', a', s'. split; [done |]. split; [done |]. lia.
    + exists ms, start, b, s1. split; [done |]. split; [| lia]. split; try done; try lia.
      unfold slack, micros_at in *. rewrite (proj2 (Z.eqb_neq ms 0)) by done. mlia.
Qed.

(** The loop of [delay] ends at the deadline. *)
Lemma delay_outer_ok fuel k : forall ms start a s, waiting a start (slack ms) s -> 0 <= ms <= Z.of_nat fuel ->
  16 * (start + 1000 * ms) + 192 - cycles s <= Z.of_nat k ->
  exists a' s', delay_outer k fuel ms (u32 start) s = (Some tt, s') /\ waiting a' (start + 1000 * ms) 24 s'.
Proof.
  induction k as [| k IH]; intros ms start a s Hw Hms Hk; cbn [delay_outer].
  all: destruct (Z.eqb_spec ms 0) as [-> | Hne]; [exists a, s; split; [done |]; by rewrite Z.add_0_r |].
  - destruct Hw as [_ _ H3 H4 H5]. unfold slack, micros_at in H5. rewrite (proj2 (Z.eqb_neq ms 0)) in H5 by done.
    exfalso. mlia.
  - destruct (delay_inner_ok fuel ms start a s Hw Hms) as (ms' & st' & a' & s' & E & Hw' & Hm & Hsum & _ & Hcy).
    rewrite (wbind_ok _ _ _ _ _ E). rewrite <- Hsum. apply (IH ms' st' a' s' Hw'); lia.
Qed.

Lemma delay_ok fuel ms s : in_time 256 s -> iflag s = true -> 0 <= ms -> 16000 * ms + 1024 <= Z.of_nat fuel ->
  exists s', delay fuel ms s = (Some tt, s') /\ in_time 256 s' /\ iflag s' = true /\
    16000 * ms - 64 < cycles s' - cycles s < 16000 * ms + 1024.
Proof.
  intros Hin Hi Hms Hf. unfold delay. destruct (micros_ok 256 s Hin ltac:(lia)) as (a & s1 & E & Ha & Hc & Hi1 & I).
  rewrite (wbind_ok _ _ _ _ _ E). fold (micros_at a). unfold age in I. rewrite Hi in I, Hi1.
  pose proof (it_cycles _ _ Hin).
  assert (Hw : waiting a (micros_at a) (slack ms) s1).
  { split; try done; try lia. unfold slack. destruct (ms =? 0); lia. }
  destruct (delay_outer_ok fuel fuel ms (micros_at a) a s1 Hw) as (b & s' & -> & [W1 W2 W3 W4 W5]).
  - lia.
  - unfold micros_at. mlia.
  - exists s'. split_and!; try done; unfold micros_at in *; mlia.
Qed.

(** ** A running sketch *)

(** After [init]: timer 0 has just been started and interrupts are on. *)
Definition clock_start (p : pace) : clock P := mkClock 0 false true 0 0 0 p.

(** A sketch lets time pass and calls the functions of the clock. *)
Inductive running : clock P -> Prop :=
  | run_start p : running (clock_start p)
  | run_cycle s : running s -> running (cycle s)
  | run_millis s : running s -> running (millis s).2
  | run_micros s : running s -> running (micros s).2
  | run_delay fuel ms s : running s -> 0 <= ms -> 16000 * ms + 1024 <= Z.of_nat fuel -> running (delay fuel ms s).2.

Lemma running_in_time s : running s -> in_time 256 s /\ iflag s = true.
Proof.
  induction 1 as [p | s _ [IH Hi] | s _ [IH Hi] | s _ [IH Hi] | fuel ms s _ [IH Hi] H1 H2].
  - split; [| done]. by split.
  - destruct (cycle_ok 256 s IH ltac:(lia)) as (I & _ & Hi' & _ & Ht). rewrite Hi in Ht.
    split; [by eapply in_time_served | cbn [snd]; congruence].
  - destruct (millis_ok 256 s IH ltac:(lia)) as (m & s' & -> & _ & _ & _ & Hi' & I). unfold age in I. rewrite Hi in I.
    split; [eapply in_time_weaken; [exact I | lia] | cbn [snd]; congruence].
  - destruct (micros_ok 256 s IH ltac:(lia)) as (a & s' & -> & _ & _ & Hi' & I). unfold age in I. rewrite Hi in I.
    split; [exact I | cbn [snd]; congruence].
  - destruct (delay_ok fuel ms s IH Hi H1 H2) as (s' & -> & I & Hi' & _). done.
Qed.

(** C33: The clock never loses time.  Whenever a sketch asks, after any run with
    interrupts enabled, [micros] is the time of one of the cycles of the call in
    steps of 4 microseconds, modulo 2^32, also when the timer overflows during the
    call; [millis] is, modulo 2^32, at most 2.04 ms behind the time and never
    ahead of it. *)
Theorem clock_keeps_time s : running s ->
  (exists a s', micros s = (u32 (4 * (a / 64)), s') /\ cycles s < a <= cycles s') /\
  (exists m s', millis s = (u32 m, s') /\ 0 <= m /\ 16000 * m <= cycles s' <= 16000 * (m + 2) + 512).
Proof.
  intros Hr. destruct (running_in_time s Hr) as [Hin Hi]. split.
  - destruct (micros_ok 256 s Hin ltac:(lia)) as (a & s' & E & Ha & Hc & _). exists a, s'. split; [done | lia].
  - destruct (millis_ok 256 s Hin ltac:(lia)) as (m & s' & E & H0 & H1 & H2 & _). unfold age in H2. rewrite Hi in H2.
    exists m, s'. split; [done |]. lia.
Qed.

(** [delay] returns, and takes the time asked for: not less, up to the 4
    microseconds of the clock, and less than 64 microseconds more, for every number
    of milliseconds and wherever the 32-bit microseconds wrap around. *)
Theorem delay_takes_its_time fuel ms s : running s -> 0 <= ms < 2 ^ 32 -> 16000 * ms + 1024 <= Z.of_nat fuel ->
  exists s', delay fuel ms s = (Some tt, s') /\ 16000 * ms - 64 < cycles s' - cycles s < 16000 * ms + 1024.
Proof.
  intros Hr Hms Hf. destruct (running_in_time s Hr) as [Hin Hi].
  destruct (delay_ok fuel ms s Hin Hi ltac:(lia) Hf) as (s' & E & _ & _ & H). by exists s'.
Qed.
End Props.

(** ** A processor that needs three cycles for each access *)

Definition steady : Pace := {| pace := unit; next_cost := fun p => (3%nat, p) |}.
Lemma steady_ok : @PaceOk steady.
Proof. intros p. cbn. lia. Qed.

Lemma clock_keeps_time_witness :
  (exists a s', micros (clock_start (P := steady) tt) = (u32 (4 * (a / 64)), s') /\ 0 < a <= cycles s') /\
  (exists m s', millis (clock_start (P := steady) tt) = (u32 m, s') /\ 0 <= m /\ 16000 * m <= cycles s' <= 16000 * (m + 2) + 512).
Proof. exact (@clock_keeps_time steady steady_ok (clock_start (P := steady) tt) (@run_start steady tt)). Defined.

Lemma delay_takes_its_time_witness :
  exists s', delay (P := steady) (Z.to_nat 20000) 1 (clock_start (P := steady) tt) = (Some tt, s') /\
    16000 * 1 - 64 < cycles s' - 0 < 16000 * 1 + 1024.
Proof.
  apply (@delay_takes_its_time steady steady_ok (Z.to_nat 20000) 1 (clock_start (P := steady) tt) (@run_start steady tt));
    [lia | rewrite Z2Nat.id by lia; lia].
Defined.
