(* ===== verification/Uart.v ===== *)
(** * The serial port driver of the ESP8266 core

    Models [ESP/cores/esp8266/uart.c]: the receive buffer that the interrupt
    handler fills from the hardware FIFO and the program empties, the transmitter,
    and the configuration of the port.

    The hardware is one UART with its two FIFOs of 128 bytes, its interrupt
    registers and the mask of the interrupt controller.  What happens on the line is
    a script with one entry per access to a register: bytes that arrive, interrupt
    bits that are raised, bytes that leave the transmitter; when the script is used
    up the line is quiet and one byte leaves per access.  [irq] marks the points of
    the foreground code at which an unmasked interrupt is taken.  Calls of other
    parts of the system are recorded. *)

From S2P Require Import Prelude.

(** ** Constants ([esp8266_peri.h], [uart.h], [Arduino.h]) *)

Definition UART0 := 0.
Definition UART1 := 1.
Definition UART_RX_ONLY := 1.
Definition UART_TX_ONLY := 2.
Definition UART_TX_FIFO_SIZE := 0x80.
Definition ESP8266_CLOCK := 80000000.
Definition UITO := 8.
Definition UIOF := 4.
Definition UIFR := 3.
Definition UIPE := 2.
Definition UIFF := 0.
Definition USTXC := 16.
Definition USRXC := 0.
Definition UCTXRST := 18.
Definition UCRXRST := 17.
Definition UCFFT := 0.
Definition INTRIGG := 16.
Definition IOSWAPU0 := 2.
Definition INPUT := 0x00.
Definition SPECIAL := 0xF8.
Definition FUNCTION_0 := 0x08.
Definition FUNCTION_4 := 0x48.

(** [gdbstub_has_uart_isr_control()]: is the GDB stub part of the sketch? *)
Class GdbBuild := { gdbstub_has_uart_isr_control : bool }.

(** ** State *)

Record uart_rx_buffer := mkRx { size : Z; rpos : Z; wpos : Z; buffer : list Z }.

Record uart_t := mkUart {
  uart_nr : Z; baud_rate : Z; rx_enabled : bool; tx_enabled : bool;
  rx_overrun : bool; rx_error : bool; rx_pin : Z; tx_pin : Z;
  rx_buffer : uart_rx_buffer
}.

(** A pointer to the port. *)
Inductive ptr := NULL | PORT.
Definition is_null (p : ptr) : bool := match p with NULL => true | PORT => false end.

(** What happens before an access. *)
Record tick := mkTick { t_rx : list Z; t_raise : Z; t_tx : nat }.

Inductive call :=
  | pinMode (pin mode : Z)
  | gdbstub_set_uart_isr_callback (p : ptr)
  | gdbstub_write_char (c : Z)
  | gdbstub_write (l : list Z)
  | ets_isr_attach (p : ptr)
  | free_port | free_rx_buffer.

Record uhw := mkHw {
  rx_fifo : list Z; tx_fifo : list Z; sent : list Z;
  int_raw : Z; int_ena : Z; clkdiv : Z; conf0 : Z; conf1 : Z; ioswap : Z; levels : Z;
  intr_on : bool; handler : ptr; script : list tick; calls : list call;
  arrived : list Z;   (** bytes that entered the receive FIFO, since the start *)
  missed : bool       (** a byte came when the FIFO was full *)
}.

Record ust := mkU { dev : uart_t; hw : uhw }.

(** *** Updates *)

Definition set_fifo (rx tx snt : list Z) (h : uhw) : uhw :=
  mkHw rx tx snt (int_raw h) (int_ena h) (clkdiv h) (conf0 h) (conf1 h) (ioswap h) (levels h)
    (intr_on h) (handler h) (script h) (calls h) (arrived h) (missed h).
Definition set_int (raw ena : Z) (h : uhw) : uhw :=
  mkHw (rx_fifo h) (tx_fifo h) (sent h) raw ena (clkdiv h) (conf0 h) (conf1 h) (ioswap h) (levels h)
    (intr_on h) (handler h) (script h) (calls h) (arrived h) (missed h).
Definition set_conf (d c0 c1 sw : Z) (h : uhw) : uhw :=
  mkHw (rx_fifo h) (tx_fifo h) (sent h) (int_raw h) (int_ena h) d c0 c1 sw (levels h)
    (intr_on h) (handler h) (script h) (calls h) (arrived h) (missed h).
Definition set_intr (b : bool) (p : ptr) (h : uhw) : uhw :=
  mkHw (rx_fifo h) (tx_fifo h) (sent h) (int_raw h) (int_ena h) (clkdiv h) (conf0 h) (conf1 h) (ioswap h)
    (levels h) b p (script h) (calls h) (arrived h) (missed h).
Definition set_script (l : list tick) (h : uhw) : uhw :=
  mkHw (rx_fifo h) (tx_fifo h) (sent h) (int_raw h) (int_ena h) (clkdiv h) (conf0 h) (conf1 h) (ioswap h)
    (levels h) (intr_on h) (handler h) l (calls h) (arrived h) (missed h).
Definition set_history (l : list Z) (b : bool) (h : uhw) : uhw :=
  mkHw (rx_fifo h) (tx_fifo h) (sent h) (int_raw h) (int_ena h) (clkdiv h) (conf0 h) (conf1 h) (ioswap h)
    (levels h) (intr_on h) (handler h) (script h) (calls h) l b.
Definition add_call (c : call) (h : uhw) : uhw :=
  mkHw (rx_fifo h) (tx_fifo h) (sent h) (int_raw h) (int_ena h) (clkdiv h) (conf0 h) (conf1 h) (ioswap h)
    (levels h) (intr_on h) (handler h) (script h) (calls h ++ [c]) (arrived h) (missed h).

Definition set_rx (b : uart_rx_buffer) (u : uart_t) : uart_t :=
  mkUart (uart_nr u) (baud_rate u) (rx_enabled u) (tx_enabled u) (rx_overrun u) (rx_error u) (rx_pin u) (tx_pin u) b.
Definition set_flags (o e : bool) (u : uart_t) : uart_t :=
  mkUart (uart_nr u) (baud_rate u) (rx_enabled u) (tx_enabled u) o e (rx_pin u) (tx_pin u) (rx_buffer u).
Definition set_pins_of (rx tx : Z) (u : uart_t) : uart_t :=
  mkUart (uart_nr u) (baud_rate u) (rx_enabled u) (tx_enabled u) (rx_overrun u) (rx_error u) rx tx (rx_buffer u).
Definition set_baud (b : Z) (u : uart_t) : uart_t :=
  mkUart (uart_nr u) b (rx_enabled u) (tx_enabled u) (rx_overrun u) (rx_error u) (rx_pin u) (tx_pin u) (rx_buffer u).

(** ** The hardware *)

Definition FIFO_DEPTH : nat := 128.

Definition raise (bits : Z) (h : uhw) : uhw := set_int (Z.lor (int_raw h) bits) (int_ena h) h.

Definition receive (h : uhw) (b : Z) : uhw :=
  if (length (rx_fifo h) <? FIFO_DEPTH)%nat
  then set_history (arrived h ++ [u8 b]) (missed h) (set_fifo (rx_fifo h ++ [u8 b]) (tx_fifo h) (sent h) h)
  else set_history (arrived h) true (raise (bv UIOF) h).

Definition shift_out (n : nat) (h : uhw) : uhw :=
  set_fifo (rx_fifo h) (drop n (tx_fifo h)) (sent h ++ take n (tx_fifo h)) h.

Definition advance (h : uhw) : uhw :=
  match script h with
  | [] => shift_out 1 h
  | t :: ts => raise (t_raise t) (fold_left receive (t_rx t) (shift_out (t_tx t) (set_script ts h)))
  end.

(** The registers. *)
Definition USS (h : uhw) : Z :=
  Z.lor (Z.lor (Z.of_nat (length (rx_fifo h))) (Z.shiftl (Z.of_nat (length (tx_fifo h))) USTXC))
    (Z.land (levels h) 0xFF00FF00).
Definition USIS (h : uhw) : Z := Z.land (int_raw h) (int_ena h).
Definition pop_fifo (h : uhw) : Z * uhw :=
  (hd 0 (rx_fifo h), set_fifo (tl (rx_fifo h)) (tx_fifo h) (sent h) h).
Definition push_fifo (c : Z) (h : uhw) : uhw :=
  set_fifo (rx_fifo h) (tx_fifo h ++ [u8 c]) (sent h) h.
Definition clear_int (bits : Z) (h : uhw) : uhw := set_int (Z.ldiff (int_raw h) bits) (int_ena h) h.
(** Writing CONF0; the reset bits empty the FIFOs. *)
Definition write_conf0 (v : Z) (h : uhw) : uhw :=
  set_conf (clkdiv h) v (conf1 h) (ioswap h)
    (set_fifo (if Z.testbit v UCRXRST then [] else rx_fifo h)
       (if Z.testbit v UCTXRST then [] else tx_fifo h) (sent h) h).

(** ** Programs *)

Definition U (A : Type) : Type := nat -> ust -> option (A * ust).
Definition ret {A} (a : A) : U A := fun _ s => Some (a, s).
Definition bind {A C} (m : U A) (k : A -> U C) : U C := fun n s =>
  match m n s with Some (a, s') => k a n s' | None => None end.

Fixpoint iter_aux {X A} (k : nat) (body : X -> U (X + A)) (x : X) : U A := fun n s =>
  match k with
  | O => None
  | S k' =>
      match body x n s with
      | Some (inl x', s') => iter_aux k' body x' n s'
      | Some (inr a, s') => Some (a, s')
      | None => None
      end
  end.
Definition iter {X A} (body : X -> U (X + A)) (x : X) : U A := fun n s => iter_aux n body x n s.

Declare Scope uart_scope.
Delimit Scope uart_scope with uart.
Notation "x <- m ;; k" := (bind m (fun x => k))
  (at level 100, m at next level, right associativity) : uart_scope.
Notation "m ;; k" := (bind m (fun _ => k))
  (at level 100, right associativity) : uart_scope.
Notation "'If' b 'Then' m" := (if b : bool then m else ret tt)
  (at level 10, m at level 200) : uart_scope.
Open Scope uart_scope.

Definition while (c : U bool) (body : U unit) : U unit :=
  iter (fun _ : unit => b <- c ;; if b : bool then (body ;; ret (inl tt)) else ret (inr tt)) tt.

(** Access to the port structure and to the hardware; [reg] and [set_reg] are
    accesses to a register. *)
Definition field {A} (f : uart_t -> A) : U A := fun _ s => Some (f (dev s), s).
Definition set_field (f : uart_t -> uart_t) : U unit := fun _ s => Some (tt, mkU (f (dev s)) (hw s)).
Definition reg {A} (f : uhw -> A * uhw) : U A := fun _ s =>
  let '(a, h) := f (advance (hw s)) in Some (a, mkU (dev s) h).
Definition set_reg (f : uhw -> uhw) : U unit := fun _ s => Some (tt, mkU (dev s) (f (advance (hw s)))).
Definition effect (f : uhw -> uhw) : U unit := fun _ s => Some (tt, mkU (dev s) (f (hw s))).
Definition log (c : call) : U unit := effect (add_call c).

Definition ETS_UART_INTR_DISABLE : U unit := effect (fun h => set_intr false (handler h) h).
Definition ETS_UART_INTR_ATTACH (p : ptr) : U unit :=
  effect (fun h => add_call (ets_isr_attach p) (set_intr (intr_on h) p h)).

(** ** The receive buffer *)

Definition uart_rx_fifo_available : U Z :=
  reg (fun h => (Z.land (Z.shiftr (USS h) USRXC) 0xFF, h)).

Definition buffer_available (b : uart_rx_buffer) : Z :=
  if wpos b <? rpos b then u32 (u32 (wpos b + size b) - rpos b) else u32 (wpos b - rpos b).
Definition uart_rx_buffer_available_unsafe : U Z := field (fun u => buffer_available (rx_buffer u)).

(** [nextPos == rpos]: the oldest byte is discarded. *)
Definition discard_oldest (b : uart_rx_buffer) : uart_rx_buffer :=
  let r := u32 (rpos b + 1) in mkRx (size b) (if r =? size b then 0 else r) (wpos b) (buffer b).
Definition next_pos (b : uart_rx_buffer) : Z := u32 (wpos b + 1) mod size b.
Definition make_room (u : uart_t) : uart_t :=
  if next_pos (rx_buffer u) =? rpos (rx_buffer u)
  then set_rx (discard_oldest (rx_buffer u)) (set_flags true (rx_error u) u) else u.
(** [buffer[wpos] = data; wpos = nextPos] *)
Definition store (data next : Z) (u : uart_t) : uart_t :=
  let b := rx_buffer u in
  set_rx (mkRx (size b) (rpos b) next (<[Z.to_nat (wpos b) := data]> (buffer b))) u.

(** [point] is what may happen between the accesses: nothing in the interrupt handler, an
    interrupt in the foreground. *)
Definition uart_rx_copy_fifo_to_buffer_unsafe (point : U unit) : U unit :=
  while (point ;; a <- uart_rx_fifo_available ;; ret (truth a))
    (point ;; nextPos <- field (fun u => next_pos (rx_buffer u)) ;;
     point ;; set_field make_room ;;
     point ;; data <- reg pop_fifo ;;
     point ;; set_field (store (u8 data) nextPos)).

Definition cell (i : Z) (b : uart_rx_buffer) : Z := nth (Z.to_nat i) (buffer b) 0.

(** ** Interrupts *)

Definition error_bits : Z := Z.lor (Z.lor (bv UIFR) (bv UIPE)) (bv UITO).

Definition uart_isr (arg : ptr) : U unit :=
  usis <- reg (fun h => (USIS h, h)) ;;
  en <- field rx_enabled ;;
  if is_null arg || negb en then set_reg (clear_int usis) ;; ETS_UART_INTR_DISABLE else
  (If bit_set usis (bv UIFF) Then uart_rx_copy_fifo_to_buffer_unsafe (ret tt)) ;;
  (If bit_set usis (bv UIOF) Then set_field (fun u => set_flags true (rx_error u) u)) ;;
  (If bit_set usis error_bits Then set_field (fun u => set_flags (rx_overrun u) true u)) ;;
  set_reg (clear_int usis).

(** A pending interrupt that is not masked is taken, at each access of the foreground to
    what it shares with the handler; the handler itself is not interrupted. *)
Definition irq : U unit := fun n s =>
  if intr_on (hw s) && negb (is_null (handler (hw s))) && truth (USIS (hw s))
  then uart_isr (handler (hw s)) n s else Some (tt, s).

Definition ETS_UART_INTR_ENABLE : U unit :=
  effect (fun h => set_intr true (handler h) h) ;; irq.

(** ** Reading *)

Definition uart_rx_available_unsafe : U Z :=
  a <- uart_rx_buffer_available_unsafe ;; irq ;; f <- uart_rx_fifo_available ;; ret (u32 (a + f)).

Definition uart_peek_char_unsafe : U Z :=
  irq ;; a <- uart_rx_available_unsafe ;;
  if negb (truth a) then ret (-1) else
  irq ;; b <- uart_rx_buffer_available_unsafe ;;
  (If b =? 0 Then uart_rx_copy_fifo_to_buffer_unsafe irq) ;;
  irq ;; field (fun u => cell (rpos (rx_buffer u)) (rx_buffer u)).

Definition uart_read_char_unsafe : U Z :=
  irq ;; a <- uart_rx_buffer_available_unsafe ;;
  if truth a then
    irq ;; c <- field (fun u => cell (rpos (rx_buffer u)) (rx_buffer u)) ;;
    irq ;; set_field (fun u => let b := rx_buffer u in
      set_rx (mkRx (size b) (u32 (rpos b + 1) mod size b) (wpos b) (buffer b)) u) ;;
    ret c
  else ret (-1).

Definition uart_rx_available (uart : ptr) : U Z :=
  en <- field rx_enabled ;;
  if is_null uart || negb en then ret 0 else
  ETS_UART_INTR_DISABLE ;;
  irq ;; a <- uart_rx_buffer_available_unsafe ;;
  ETS_UART_INTR_ENABLE ;;
  irq ;;
  f <- uart_rx_fifo_available ;;
  ret (u32 (a + f)).

Definition uart_peek_char (uart : ptr) : U Z :=
  en <- field rx_enabled ;;
  if is_null uart || negb en then ret (-1) else
  ETS_UART_INTR_DISABLE ;;
  c <- uart_peek_char_unsafe ;;
  ETS_UART_INTR_ENABLE ;;
  ret c.

(** [memcpy(dst + at, src, length src)] *)
Definition blit (at_ : Z) (src dst : list Z) : list Z :=
  take (Z.to_nat at_) dst ++ src ++ drop (Z.to_nat at_ + length src) dst.

(** [while (ret < usersize && uart_rx_fifo_available(uart->uart_nr))] *)
Definition fifo_to_user (usersize : Z) (x : Z * list Z) : U (Z * list Z) :=
  iter (fun x : Z * list Z =>
    if fst x <? usersize then
      irq ;; f <- uart_rx_fifo_available ;;
      if truth f then
        irq ;; c <- reg pop_fifo ;;
        ret (inl (u32 (fst x + 1), <[Z.to_nat (fst x) := c]> (snd x)))
      else ret (inr x)
    else ret (inr x)) x.

(** The largest linear piece of the buffer, cut to what the user still wants. *)
Definition chunk_of (usersize r : Z) (b : uart_rx_buffer) : Z :=
  let chunk := if rpos b <? wpos b then u32 (wpos b - rpos b) else u32 (size b - rpos b) in
  if usersize <? u32 (r + chunk) then u32 (usersize - r) else chunk.

Definition read_round (usersize : Z) (x : Z * list Z) : U ((Z * list Z) + (Z * list Z)) :=
  let '(r, userbuffer) := x in
  if r <? usersize then
    irq ;; a <- uart_rx_available_unsafe ;;
    if truth a then
      irq ;; sw <- uart_rx_buffer_available_unsafe ;;
      if negb (truth sw) then x' <- fifo_to_user usersize x ;; ret (inr x') else
      irq ;; chunk <- field (fun u => chunk_of usersize r (rx_buffer u)) ;;
      irq ;; src <- field (fun u => take (Z.to_nat chunk) (drop (Z.to_nat (rpos (rx_buffer u))) (buffer (rx_buffer u)))) ;;
      irq ;; set_field (fun u => let b := rx_buffer u in
        set_rx (mkRx (size b) (u32 (rpos b + chunk) mod size b) (wpos b) (buffer b)) u) ;;
      ret (inl (u32 (r + chunk), blit r src userbuffer))
    else ret (inr x)
  else ret (inr x).

(** The number of bytes read and the user's buffer. *)
Definition uart_read (uart : ptr) (userbuffer : list Z) (usersize : Z) : U (Z * list Z) :=
  en <- field rx_enabled ;;
  if is_null uart || negb en then ret (0, userbuffer) else
  ETS_UART_INTR_DISABLE ;;
  x <- iter (read_round usersize) (0, userbuffer) ;;
  ETS_UART_INTR_ENABLE ;;
  ret x.

(** [ret] of the source is not initialised: [junk]. *)
Definition uart_read_char (uart : ptr) (junk : Z) : U Z :=
  x <- uart_read uart [junk] 1 ;;
  ret (if truth (fst x) then nth 0 (snd x) 0 else -1).

(** Called by the GDB stub for each byte. *)
Definition uart_isr_handle_data (arg : ptr) (data : Z) : U unit :=
  en <- field rx_enabled ;;
  if is_null arg || negb en then ret tt else
  nextPos <- field (fun u => next_pos (rx_buffer u)) ;;
  set_field make_room ;;
  set_field (store data nextPos) ;;
  usis <- reg (fun h => (USIS h, h)) ;;
  (If bit_set usis (bv UIOF) Then set_field (fun u => set_flags true (rx_error u) u)) ;;
  (If bit_set usis error_bits Then set_field (fun u => set_flags (rx_overrun u) true u)) ;;
  set_reg (clear_int usis).

(** [while(uart_rx_available_unsafe(uart) && new_wpos < new_size)
        new_buf[new_wpos++] = uart_read_char_unsafe(uart)];
    at most [k = new_size - new_wpos] rounds. *)
Fixpoint resize_copy (k : nat) (new_wpos : Z) (new_buf : list Z) : U (Z * list Z) :=
  a <- uart_rx_available_unsafe ;;
  if negb (truth a) then ret (new_wpos, new_buf) else
  match k with
  | O => ret (new_wpos, new_buf)
  | S k' =>
      c <- uart_read_char_unsafe ;;
      resize_copy k' (new_wpos + 1) (<[Z.to_nat new_wpos := u8 c]> new_buf)
  end.

(** [block] is the result of [malloc(new_size)], [None] for NULL. *)
Definition uart_resize_rx_buffer (uart : ptr) (new_size : Z) (block : option (list Z)) : U Z :=
  en <- field rx_enabled ;;
  if is_null uart || negb en then ret 0 else
  old <- field (fun u => size (rx_buffer u)) ;;
  if old =? new_size then ret old else
  match block with
  | None => field (fun u => size (rx_buffer u))
  | Some new_buf =>
      ETS_UART_INTR_DISABLE ;;
      x <- resize_copy (Z.to_nat new_size) 0 new_buf ;;
      let new_wpos := if fst x =? new_size then 0 else fst x in
      set_field (set_rx (mkRx new_size 0 new_wpos (snd x))) ;;
      ETS_UART_INTR_ENABLE ;;
      log free_rx_buffer ;;
      field (fun u => size (rx_buffer u))
  end.

Definition uart_get_rx_buffer_size (uart : ptr) : U Z :=
  field (fun u => if negb (is_null uart) && rx_enabled u then size (rx_buffer u) else 0).

Section Driver.
Context {G : GdbBuild}.

Definition rx_interrupts : Z :=
  Z.lor (Z.lor (Z.lor (Z.lor (bv UIFF) (bv UIOF)) (bv UIFR)) (bv UIPE)) (bv UITO).

Definition uart_start_isr (uart : ptr) : U unit :=
  en <- field rx_enabled ;;
  if is_null uart || negb en then ret tt else
  if gdbstub_has_uart_isr_control then log (gdbstub_set_uart_isr_callback uart) else
  irq ;; set_reg (fun h => set_conf (clkdiv h) (conf0 h) (Z.shiftl INTRIGG UCFFT) (ioswap h) h) ;;
  irq ;; set_reg (clear_int 0xffff) ;;
  irq ;; set_reg (fun h => set_int (int_raw h) rx_interrupts h) ;;
  ETS_UART_INTR_ATTACH uart ;;
  ETS_UART_INTR_ENABLE.

Definition uart_stop_isr (uart : ptr) : U unit :=
  en <- field rx_enabled ;;
  if is_null uart || negb en then ret tt else
  if gdbstub_has_uart_isr_control then log (gdbstub_set_uart_isr_callback NULL) else
  ETS_UART_INTR_DISABLE ;;
  set_reg (fun h => set_conf (clkdiv h) (conf0 h) 0 (ioswap h) h) ;;
  set_reg (clear_int 0xffff) ;;
  set_reg (fun h => set_int (int_raw h) 0 h) ;;
  ETS_UART_INTR_ATTACH NULL.

(** ** Writing *)

Definition uart_tx_fifo_available : U Z :=
  irq ;; reg (fun h => (Z.land (Z.shiftr (USS h) USTXC) 0xff, h)).
Definition uart_tx_fifo_full : U bool :=
  a <- uart_tx_fifo_available ;; ret (0x7f <=? a).

Definition uart_do_write_char (c : Z) : U unit :=
  while uart_tx_fifo_full (ret tt) ;;
  irq ;; set_reg (push_fifo c).

Definition uart_write_char (uart : ptr) (c : Z) : U Z :=
  en <- field tx_enabled ;;
  if is_null uart || negb en then ret 0 else
  nr <- field uart_nr ;;
  if gdbstub_has_uart_isr_control && (nr =? UART0) then log (gdbstub_write_char c) ;; ret 1 else
  uart_do_write_char c ;; ret 1.

(** [while (size--) uart_do_write_char(uart_nr, *buf++)] *)
Fixpoint write_chars (buf : list Z) : U unit :=
  match buf with
  | [] => ret tt
  | c :: buf' => uart_do_write_char c ;; write_chars buf'
  end.

Definition uart_write (uart : ptr) (buf : list Z) : U Z :=
  en <- field tx_enabled ;;
  if is_null uart || negb en then ret 0 else
  nr <- field uart_nr ;;
  if gdbstub_has_uart_isr_control && (nr =? UART0) then log (gdbstub_write buf) ;; ret 0 else
  write_chars buf ;;
  ret (Z.of_nat (length buf)).

Definition uart_tx_free (uart : ptr) : U Z :=
  en <- field tx_enabled ;;
  if is_null uart || negb en then ret 0 else
  a <- uart_tx_fifo_available ;; ret (u32 (UART_TX_FIFO_SIZE - a)).

(** [delay(0)] lets the system run: an interrupt may come. *)
Definition uart_wait_tx_empty (uart : ptr) : U unit :=
  en <- field tx_enabled ;;
  if is_null uart || negb en then ret tt else
  while (a <- uart_tx_fifo_available ;; ret (0 <? a)) irq.

Definition uart_flush (uart : ptr) : U unit :=
  if is_null uart then ret tt else
  rx <- field rx_enabled ;;
  tx <- field tx_enabled ;;
  (If rx Then
    (ETS_UART_INTR_DISABLE ;;
     set_field (fun u => let b := rx_buffer u in set_rx (mkRx (size b) 0 0 (buffer b)) u) ;;
     ETS_UART_INTR_ENABLE)) ;;
  let tmp := Z.lor (if rx : bool then bv UCRXRST else 0) (if tx : bool then bv UCTXRST else 0) in
  nr <- field uart_nr ;;
  If negb gdbstub_has_uart_isr_control || negb (nr =? UART0) Then
    (irq ;; v <- reg (fun h => (conf0 h, h)) ;; irq ;; set_reg (write_conf0 (Z.lor v tmp)) ;;
     irq ;; v <- reg (fun h => (conf0 h, h)) ;; irq ;; set_reg (write_conf0 (Z.ldiff v tmp))).

Definition uart_set_baudrate (uart : ptr) (baud : Z) : U unit :=
  if is_null uart then ret tt else
  set_field (set_baud baud) ;;
  irq ;; set_reg (fun h => set_conf (ESP8266_CLOCK / u32 baud) (conf0 h) (conf1 h) (ioswap h) h).

Definition uart_get_baudrate (uart : ptr) : U Z :=
  if is_null uart then ret 0 else field baud_rate.

(** ** Setting up *)

Definition ioswap_u0 (on : bool) : U unit :=
  irq ;; v <- reg (fun h => (ioswap h, h)) ;;
  irq ;; set_reg (fun h => set_conf (clkdiv h) (conf0 h) (conf1 h)
    (if on then Z.lor v (bv IOSWAPU0) else Z.ldiff v (bv IOSWAPU0)) h).

(** The results of the three [malloc] calls of [uart_init]. *)
Record init_memory := mkInit { m_port : bool; m_rx : bool; m_buffer : option (list Z) }.

(** [case UART0]: [None] when the memory does not suffice. *)
Definition init_uart0 (mem : init_memory) (mode tx_pin rx_size : Z) : U bool :=
  ETS_UART_INTR_DISABLE ;;
  (If negb gdbstub_has_uart_isr_control Then ETS_UART_INTR_ATTACH NULL) ;;
  let rx := negb (mode =? UART_TX_ONLY) in
  let tx := negb (mode =? UART_RX_ONLY) in
  set_field (fun u => mkUart (uart_nr u) (baud_rate u) rx tx (rx_overrun u) (rx_error u)
    (if rx then 3 else 255) (Uart.tx_pin u) (rx_buffer u)) ;;
  ok <- (if rx then
           if negb (m_rx mem) then log free_port ;; ret false else
           match m_buffer mem with
           | None => log free_rx_buffer ;; log free_port ;; ret false
           | Some b => set_field (set_rx (mkRx rx_size 0 0 b)) ;; log (pinMode 3 SPECIAL) ;; ret true
           end
         else ret true) ;;
  if negb ok then ret false else
  (if tx then
     if tx_pin =? 2
     then set_field (fun u => set_pins_of (rx_pin u) 2 u) ;; log (pinMode 2 FUNCTION_4)
     else set_field (fun u => set_pins_of (rx_pin u) 1 u) ;; log (pinMode 1 FUNCTION_0)
   else set_field (fun u => set_pins_of (rx_pin u) 255 u)) ;;
  ioswap_u0 false ;;
  ret true.

(** [case UART1] *)
Definition init_uart1 (mode : Z) : U bool :=
  let tx := negb (mode =? UART_RX_ONLY) in
  set_field (fun u => mkUart (uart_nr u) (baud_rate u) false tx (rx_overrun u) (rx_error u)
    255 (if tx then 2 else 255) (rx_buffer u)) ;;
  (If tx Then log (pinMode 2 SPECIAL)) ;;
  ret true.

Definition uart_init (nr baudrate config mode tx_pin rx_size : Z) (mem : init_memory) : U ptr :=
  if negb (m_port mem) then ret NULL else
  set_field (fun u => mkUart nr (baud_rate u) (rx_enabled u) (tx_enabled u) false false
    (rx_pin u) (Uart.tx_pin u) (rx_buffer u)) ;;
  ok <- (if nr =? UART0 then init_uart0 mem mode tx_pin rx_size
         else if nr =? UART1 then init_uart1 mode
         else log free_port ;; ret false) ;;
  if negb ok then ret NULL else
  uart_set_baudrate PORT baudrate ;;
  irq ;; set_reg (write_conf0 config) ;;
  (If negb gdbstub_has_uart_isr_control || negb (nr =? UART0) Then
     (uart_flush PORT ;;
      irq ;; set_reg (fun h => set_conf (clkdiv h) (conf0 h) 0 (ioswap h) h) ;;
      irq ;; set_reg (clear_int 0xffff) ;;
      irq ;; set_reg (fun h => set_int (int_raw h) 0 h))) ;;
  (If nr =? UART0 Then
     (rx <- field rx_enabled ;;
      (If rx Then uart_start_isr PORT) ;;
      (If gdbstub_has_uart_isr_control Then ETS_UART_INTR_ENABLE))) ;;
  ret PORT.

Definition uart_uninit (uart : ptr) : U unit :=
  if is_null uart then ret tt else
  uart_stop_isr uart ;;
  u <- field (fun u => u) ;;
  (If tx_enabled u && (negb gdbstub_has_uart_isr_control || negb (uart_nr u =? UART0)) Then
     (If (tx_pin u =? 1) || (tx_pin u =? 2) || (tx_pin u =? 15) Then log (pinMode (tx_pin u) INPUT))) ;;
  (If rx_enabled u Then
     (log free_rx_buffer ;;
      (If negb gdbstub_has_uart_isr_control Then
         (If (rx_pin u =? 3) || (rx_pin u =? 13) Then log (pinMode (rx_pin u) INPUT))))) ;;
  log free_port.

(** ** Pins *)

(** [pinMode] of a pin of the port. *)
Definition tx_mode (mode : Z) : U unit := p <- field tx_pin ;; log (pinMode p mode).
Definition rx_mode (mode : Z) : U unit := p <- field rx_pin ;; log (pinMode p mode).

Definition uart_swap (uart : ptr) (tx : Z) : U unit :=
  if is_null uart then ret tt else
  u <- field (fun u => u) ;;
  If uart_nr u =? UART0 Then
    (if (((tx_pin u =? 1) || (tx_pin u =? 2)) && tx_enabled u) || ((rx_pin u =? 3) && rx_enabled u) then
       (If tx_enabled u Then (tx_mode INPUT ;; set_field (fun u => set_pins_of (rx_pin u) 15 u))) ;;
       (If rx_enabled u Then (rx_mode INPUT ;; set_field (fun u => set_pins_of 13 (tx_pin u) u))) ;;
       (If tx_enabled u Then tx_mode FUNCTION_4) ;;
       (If rx_enabled u Then rx_mode FUNCTION_4) ;;
       ioswap_u0 true
     else
       (If tx_enabled u Then
          (tx_mode INPUT ;; set_field (fun u => set_pins_of (rx_pin u) (if tx =? 2 then 2 else 1) u))) ;;
       (If rx_enabled u Then (rx_mode INPUT ;; set_field (fun u => set_pins_of 3 (tx_pin u) u))) ;;
       (If tx_enabled u Then tx_mode (if tx =? 2 then FUNCTION_4 else SPECIAL)) ;;
       (If rx_enabled u Then log (pinMode 3 SPECIAL)) ;;
       ioswap_u0 false).

Definition uart_set_tx (uart : ptr) (tx : Z) : U unit :=
  if is_null uart then ret tt else
  u <- field (fun u => u) ;;
  If (uart_nr u =? UART0) && tx_enabled u Then
    (if (tx_pin u =? 1) && (tx =? 2) then
       tx_mode INPUT ;; set_field (fun u => set_pins_of (rx_pin u) 2 u) ;; tx_mode FUNCTION_4
     else If (tx_pin u =? 2) && negb (tx =? 2) Then
       (tx_mode INPUT ;; set_field (fun u => set_pins_of (rx_pin u) 1 u) ;; tx_mode SPECIAL)).

Definition uart_set_pins (uart : ptr) (tx rx : Z) : U unit :=
  if is_null uart then ret tt else
  u <- field (fun u => u) ;;
  If uart_nr u =? UART0 Then
    ((If tx_enabled u && negb (tx_pin u =? tx) Then
        (if (rx =? 13) && (tx =? 15) then uart_swap uart 15
         else If (rx =? 3) && ((tx =? 1) || (tx =? 2)) Then
           (if negb (rx_pin u =? rx) then uart_swap uart tx else uart_set_tx uart tx))) ;;
     u <- field (fun u => u) ;;
     If rx_enabled u && negb (rx_pin u =? rx) && (rx =? 13) && (tx =? 15) Then uart_swap uart 15).

(** ** State of the port *)

Definition uart_tx_enabled (uart : ptr) : U bool :=
  if is_null uart then ret false else field tx_enabled.
Definition uart_rx_enabled (uart : ptr) : U bool :=
  if is_null uart then ret false else field rx_enabled.
Definition uart_has_overrun (uart : ptr) : U bool :=
  o <- field rx_overrun ;;
  if is_null uart || negb o then ret false else
  set_field (fun u => set_flags false (rx_error u) u) ;; ret true.
Definition uart_has_rx_error (uart : ptr) : U bool :=
  e <- field rx_error ;;
  if is_null uart || negb e then ret false else
  set_field (fun u => set_flags (rx_overrun u) false u) ;; ret true.
End Driver.

(** ** Baud rate detection *)

Definition UART_CLK_FREQ := 80000000.
Definition default_rates : list Z :=
  [300; 600; 1200; 2400; 4800; 9600; 19200; 38400; 57600; 74880; 115200; 230400; 256000; 460800; 921600;
   1843200; 3686400].

(** [for (i = 1; i < 17 - 1; i++)]: the index at which the loop is left; [k] rounds
    remain. *)
Fixpoint nearest_rate (k : nat) (i : Z) (baudrate : Z) : Z :=
  match k with
  | O => i
  | S k' =>
      let r := nth (Z.to_nat i) default_rates 0 in
      let r' := nth (Z.to_nat (i - 1)) default_rates 0 in
      if baudrate <=? r then (if baudrate - r' <? r - baudrate then i - 1 else i)
      else nearest_rate k' (i + 1) baudrate
  end.
(** The part of [uart_detect_baudrate] after the divisor has been measured. *)
Definition detected_rate (divisor : Z) : Z :=
  nth (Z.to_nat (nearest_rate 15 1 (Z.quot UART_CLK_FREQ divisor))) default_rates 0.

(** The AUTOBAUD register, its writes, and the static variable [doTrigger]. *)
Record detector := mkDetector { autobaud : Z; autobaud_writes : list Z; doTrigger : bool }.

Definition UART_GLITCH_FILT := 0xFF.
Definition UART_GLITCH_FILT_S := 8.
Definition UART_AUTOBAUD_EN := bv 0.
Definition write_autobaud (v : Z) (d : detector) : detector := mkDetector v (autobaud_writes d ++ [v]) (doTrigger d).
Definition uart_start_detect_baudrate (d : detector) : detector :=
  let d := write_autobaud (Z.ldiff (autobaud d) (Z.lor (Z.shiftl UART_GLITCH_FILT UART_GLITCH_FILT_S) UART_AUTOBAUD_EN)) d in
  write_autobaud (Z.lor (Z.shiftl 0x08 UART_GLITCH_FILT_S) UART_AUTOBAUD_EN) d.

(** [measured] is the result of [uart_baudrate_detect] of the ROM, 0 for none yet. *)
Definition uart_detect_baudrate (measured : Z) (d : detector) : Z * detector :=
  let d := if doTrigger d
    then let d := uart_start_detect_baudrate d in mkDetector (autobaud d) (autobaud_writes d) false else d in
  if measured =? 0 then (0, d)
  else (detected_rate measured, mkDetector (autobaud d) (autobaud_writes d) true).

(** ** Debug output *)

(** The function installed for debug output, and the variable [s_uart_debug_nr]. *)
Inductive putc1 := uart0_write_char | uart1_write_char | uart_ignore_char.
Record debug := mkDebug { s_uart_debug_nr : Z; gdb_putc1 : option putc1; os_print : Z; installed : option putc1 }.

Definition uart_set_debug (gdb_has_putc1 : bool) (nr : Z) (d : debug) : debug :=
  let func := if nr =? UART0 then uart0_write_char else if nr =? UART1 then uart1_write_char else uart_ignore_char in
  if gdb_has_putc1 then mkDebug nr (Some func) (os_print d) (installed d)
  else mkDebug nr (gdb_putc1 d) (if (nr =? UART0) || (nr =? UART1) then 1 else 0) (Some func).
Definition uart_get_debug (d : debug) : Z := s_uart_debug_nr d.

(** [uart0_write_char] and [uart1_write_char] on their UART; [delay(0)] lets the
    system run. *)
Definition uart_write_char_delay (c : Z) : U unit :=
  while uart_tx_fifo_full irq ;;
  irq ;; set_reg (push_fifo c).
