(* ===== verification/UartProps.v ===== *)
(** * The receive side of the ESP8266 serial port

    The software buffer with the hardware FIFO behind it is a queue: the interrupt
    handler moves bytes from the FIFO to the buffer and keeps the newest ones when
    the buffer is full, the program takes the oldest ones. *)

From S2P Require Import Prelude Uart.

(** ** The circular buffer *)

Record rx_ok (b : uart_rx_buffer) : Prop := {
  ok_size : 0 < size b < 2147483648;
  ok_rpos : 0 <= rpos b < size b;
  ok_wpos : 0 <= wpos b < size b;
  ok_len : Z.of_nat (length (buffer b)) = size b;
  ok_bytes : Forall is_u8 (buffer b)
}.

Definition count (b : uart_rx_buffer) : nat := Z.to_nat ((wpos b - rpos b) mod size b).

(** The bytes stored, oldest first. *)
Definition contents (b : uart_rx_buffer) : list Z :=
  map (fun k => cell ((rpos b + Z.of_nat k) mod size b) b) (seq 0 (count b)).

Lemma length_rx_contents b : length (contents b) = count b.
Proof. unfold contents. by rewrite length_map, length_seq. Qed.

Lemma nth_contents b k : (k < count b)%nat -> nth k (contents b) 0 = cell ((rpos b + Z.of_nat k) mod size b) b.
Proof. intros Hk. unfold contents. by rewrite nth_map_seq. Qed.

(** [x mod n] for [x] less than one turn off the range. *)
Lemma mod_cases x n : 0 < n -> - n <= x < 2 * n ->
  x mod n = if x <? 0 then x + n else if x <? n then x else x - n.
Proof.
  intros Hn Hx. destruct (Z.ltb_spec x 0); [| destruct (Z.ltb_spec x n)].
  - rewrite <- (Z_mod_plus_full x 1 n), Z.mul_1_l. apply Z.mod_small. lia.
  - apply Z.mod_small. lia.
  - rewrite <- (Z_mod_plus_full x (-1) n). rewrite Z.mod_small; lia.
Qed.

Ltac mods :=
  repeat match goal with
  | |- context [?x mod ?n] => rewrite (mod_cases x n) by lia
  | H : context [?x mod ?n] |- _ => rewrite (mod_cases x n) in H by lia
  end;
  repeat match goal with
  | |- context [?a <? ?b] => destruct (Z.ltb_spec a b)
  | H : context [?a <? ?b] |- _ => destruct (Z.ltb_spec a b)
  end; try lia.

Lemma count_Z b : rx_ok b -> Z.of_nat (count b) = (if wpos b <? rpos b then wpos b + size b - rpos b else wpos b - rpos b).
Proof. intros []. unfold count. mods. Qed.

Lemma rx_count_bound b : rx_ok b -> Z.of_nat (count b) < size b.
Proof. intros Hb. rewrite count_Z by done. destruct Hb. destruct (_ <? _) eqn:?; lia. Qed.

Lemma buffer_available_ok b : rx_ok b -> buffer_available b = Z.of_nat (length (contents b)).
Proof.
  intros Hb. rewrite length_rx_contents, count_Z by done. destruct Hb. unfold buffer_available.
  destruct (Z.ltb_spec (wpos b) (rpos b)); rewrite ?(u32_id (wpos b + size b)) by (unfold is_u32; lia); apply u32_id; unfold is_u32; lia.
Qed.

Lemma rx_contents_nil b : rx_ok b -> rpos b = wpos b <-> contents b = [].
Proof.
  intros Hb. rewrite <- length_zero_iff_nil, length_rx_contents. pose proof (count_Z b Hb). destruct Hb.
  destruct (Z.ltb_spec (wpos b) (rpos b)); lia.
Qed.

Lemma contents_u8 b : rx_ok b -> Forall is_u8 (contents b).
Proof.
  intros Hb. unfold contents. apply Forall_map, Forall_forall. intros k _. unfold cell.
  pose proof (Z.mod_pos_bound (rpos b + Z.of_nat k) (size b)) as Hm. destruct Hb as [Hs _ _ Hl Hu].
  rewrite Forall_forall in Hu. apply Hu, list_elem_of_In, nth_In. lia.
Qed.

(** Two lists of the same length with the same elements. *)
Lemma nth_eq (l l' : list Z) : length l = length l' -> (forall k, (k < length l)%nat -> nth k l 0 = nth k l' 0) -> l = l'.
Proof. intros Hl Hn. apply (nth_ext _ _ 0 0 Hl Hn). Qed.

(** A byte is taken at the front, in a linear piece of [n] bytes. *)
Lemma contents_take b n : rx_ok b -> 0 <= n <= Z.of_nat (count b) -> rpos b + n <= size b ->
  take (Z.to_nat n) (drop (Z.to_nat (rpos b)) (buffer b)) = take (Z.to_nat n) (contents b).
Proof.
  intros [Hs Hr Hw Hl _] Hn Hlin. apply nth_eq.
  - rewrite !length_take, length_drop, length_rx_contents. lia.
  - intros k Hk. rewrite length_take, length_drop in Hk. rewrite !nth_firstn, !(proj2 (Nat.ltb_lt k _)) by lia.
    rewrite nth_skipn, nth_contents by lia. unfold cell. f_equal. mods.
Qed.

Definition skip (n : Z) (b : uart_rx_buffer) : uart_rx_buffer :=
  mkRx (size b) (u32 (rpos b + n) mod size b) (wpos b) (buffer b).

Lemma skip_ok n b : rx_ok b -> rx_ok (skip n b).
Proof.
  intros []. split; cbn; try done. apply Z.mod_pos_bound. lia.
Qed.

Lemma contents_skip b n : rx_ok b -> 0 <= n <= Z.of_nat (count b) -> rpos b + n <= size b ->
  contents (skip n b) = drop (Z.to_nat n) (contents b).
Proof.
  intros Hb Hn Hlin. pose proof (skip_ok n b Hb) as Hb'. pose proof (count_Z b Hb) as Hc. pose proof (count_Z _ Hb') as Hc'.
  destruct Hb as [Hs Hr Hw Hl _]. cbn in Hc'.
  assert (Hp : u32 (rpos b + n) mod size b = (if rpos b + n <? size b then rpos b + n else 0)).
  { rewrite u32_id by (unfold is_u32; lia). mods. }
  rewrite Hp in Hc'.
  assert (Hcount : count (skip n b) = (count b - Z.to_nat n)%nat).
  { mods; destruct (Z.ltb_spec (rpos b + n) (size b)), (Z.ltb_spec (wpos b) (rpos b)); mods. }
  apply nth_eq.
  - by rewrite length_drop, !length_rx_contents.
  - intros k Hk. rewrite length_rx_contents in Hk. rewrite nth_skipn, !nth_contents by lia. unfold cell. cbn. rewrite Hp. f_equal.
    clear Hc Hc'. destruct (Z.ltb_spec (rpos b + n) (size b)); [f_equal; f_equal; lia |].
    assert (rpos b + n = size b) by lia. replace (rpos b + Z.of_nat (Z.to_nat n + k)) with (0 + Z.of_nat k + 1 * size b) by lia.
    by rewrite Z_mod_plus_full.
Qed.

(** The last [n] elements. *)
Definition keep (n : nat) (l : list Z) : list Z := drop (length l - n) l.

Lemma keep_all n l : (length l <= n)%nat -> keep n l = l.
Proof. intros H. unfold keep. by replace (length l - n)%nat with 0%nat by lia. Qed.
Lemma length_keep n l : length (keep n l) = Nat.min n (length l).
Proof. unfold keep. rewrite length_drop. lia. Qed.
Lemma keep_keep n l l' : keep n (keep n l ++ l') = keep n (l ++ l').
Proof.
  unfold keep at 1 3. rewrite !length_app, length_keep. unfold keep. rewrite !drop_app, drop_drop, length_drop.
  f_equal; f_equal; lia.
Qed.
Lemma keep_sublist n l : keep n l `sublist_of` l.
Proof. apply sublist_drop. Qed.

(** One byte into the buffer. *)
Definition push (data : Z) (u : uart_t) : uart_t := store data (next_pos (rx_buffer u)) (make_room u).

Lemma next_pos_ok b : rx_ok b -> next_pos b = if wpos b + 1 <? size b then wpos b + 1 else 0.
Proof. intros []. unfold next_pos. rewrite u32_id by (unfold is_u32; lia). mods. Qed.

(** The buffer is full when the next position is the read position. *)
Lemma full_count b : rx_ok b -> (next_pos b =? rpos b) = (Z.of_nat (count b) =? size b - 1).
Proof.
  intros Hb. rewrite next_pos_ok, count_Z by done. destruct Hb.
  destruct (Z.ltb_spec (wpos b + 1) (size b)), (Z.ltb_spec (wpos b) (rpos b)); lia.
Qed.

Lemma rx_store_ok data u : is_u8 data -> rx_ok (rx_buffer u) -> next_pos (rx_buffer u) <> rpos (rx_buffer u) ->
  let u' := store data (next_pos (rx_buffer u)) u in
  rx_ok (rx_buffer u') /\ contents (rx_buffer u') = contents (rx_buffer u) ++ [data].
Proof.
  intros Hu Hb Hne. destruct u as [? ? ? ? ? ? ? ? b]. cbn in *. set (b' := mkRx _ _ _ _).
  assert (Hb' : rx_ok b').
  { pose proof (next_pos_ok b Hb) as Hn. destruct Hb. split; cbn; try done; [| by rewrite length_insert | by apply Forall_insert].
    rewrite Hn. destruct (_ <? _) eqn:?; lia. }
  split; [done |].
  assert (Hcount : count b' = S (count b)).
  { pose proof (count_Z b Hb) as Hc. pose proof (count_Z b' Hb') as Hc'. cbn in Hc'. rewrite next_pos_ok in Hc', Hne by done.
    destruct Hb. destruct (Z.ltb_spec (wpos b + 1) (size b)), (Z.ltb_spec (wpos b) (rpos b)); mods. }
  pose proof (count_Z b Hb) as Hc. pose proof (rx_count_bound b' Hb') as Hbd. cbn in Hbd. destruct Hb as [Hs Hr Hw Hl _].
  apply nth_eq; [rewrite length_app, !length_rx_contents, Hcount; simpl; lia |].
  intros k Hk. rewrite length_rx_contents in Hk. rewrite nth_contents by done. unfold cell. cbn.
  destruct (Nat.eq_dec k (count b)) as [-> | Hne'].
  - rewrite app_nth2 by (rewrite length_rx_contents; lia). rewrite length_rx_contents, Nat.sub_diag. cbn.
    replace ((rpos b + Z.of_nat (count b)) mod size b) with (wpos b) by (rewrite Hc; mods).
    rewrite nth_lookup, list_lookup_insert_eq by lia. done.
  - rewrite app_nth1 by (rewrite length_rx_contents; lia). rewrite nth_contents by lia. unfold cell.
    apply nth_insert_ne. rewrite Hcount in Hbd. mods.
Qed.

Lemma discard_oldest_ok b : rx_ok b -> rx_ok (discard_oldest b) /\
  ((0 < count b)%nat -> contents (discard_oldest b) = drop 1 (contents b)).
Proof.
  intros Hb. unfold discard_oldest. rewrite u32_id by (destruct Hb; unfold is_u32; lia).
  replace (if rpos b + 1 =? size b then 0 else rpos b + 1) with (u32 (rpos b + 1) mod size b).
  2: { destruct Hb. rewrite u32_id by (unfold is_u32; lia). destruct (Z.eqb_spec (rpos b + 1) (size b)); mods. }
  split; [by apply (skip_ok 1) |]. intros Hc. apply (contents_skip b 1 Hb); destruct Hb; lia.
Qed.

Lemma rx_push_ok data u : is_u8 data -> rx_ok (rx_buffer u) ->
  let u' := push data u in
  rx_ok (rx_buffer u') /\ size (rx_buffer u') = size (rx_buffer u) /\ rx_enabled u' = rx_enabled u /\
  contents (rx_buffer u') = keep (Z.to_nat (size (rx_buffer u) - 1)) (contents (rx_buffer u) ++ [data]) /\
  rx_overrun u' = rx_overrun u || (size (rx_buffer u) - 1 <=? Z.of_nat (length (contents (rx_buffer u)))).
Proof.
  intros Hu Hb. cbv zeta. unfold push, make_room. rewrite (full_count _ Hb).
  pose proof (rx_count_bound _ Hb) as Hbd. rewrite length_rx_contents.
  destruct (Z.eqb_spec (Z.of_nat (count (rx_buffer u))) (size (rx_buffer u) - 1)) as [Hf | Hf].
  2: { destruct (rx_store_ok data u Hu Hb) as [H1 H2].
       { pose proof (full_count _ Hb) as E. rewrite (proj2 (Z.eqb_neq _ _) Hf) in E. by apply Z.eqb_neq in E. }
       split_and!; [done | done | done | | rewrite (proj2 (Z.leb_gt _ _)) by lia; by rewrite orb_false_r].
       rewrite H2, keep_all; [done |]. rewrite length_app, length_rx_contents. simpl. lia. }
  rewrite (proj2 (Z.leb_le _ _)), orb_true_r by lia.
  set (b := rx_buffer u) in *. set (u1 := set_rx (discard_oldest b) _).
  destruct (discard_oldest_ok b Hb) as [Hd Hc]. pose proof (ok_size b Hb) as Hs.
  assert (En : next_pos (rx_buffer u1) = next_pos b) by done.
  destruct (Z.eq_dec (size b) 1) as [E1 | E1].
  - assert (next_pos b = 0) as E0 by (rewrite next_pos_ok by done; destruct Hb; mods).
    assert (rx_ok (rx_buffer (store data (next_pos b) u1))) as Hok.
    { destruct Hd. split; cbn; try done; [rewrite E0; lia | by rewrite length_insert | by apply Forall_insert]. }
    split_and!; [done | done | done | | done]. rewrite E1. cbn [Z.to_nat Z.sub Z.add Z.opp]. unfold keep. rewrite Nat.sub_0_r, drop_all.
    apply length_zero_iff_nil. rewrite length_rx_contents. pose proof (rx_count_bound _ Hok) as Hcb.
    change (size (rx_buffer (store data (next_pos b) u1))) with (size b) in Hcb. lia.
  - destruct (rx_store_ok data u1 Hu) as [H1 H2]; [done | |].
    { cbn. pose proof (full_count b Hb) as E. rewrite (proj2 (Z.eqb_eq _ _) Hf) in E. apply Z.eqb_eq in E.
      change (next_pos b <> rpos (discard_oldest b)). rewrite E. unfold discard_oldest. cbn.
      destruct Hb. rewrite u32_id by (unfold is_u32; lia). destruct (_ =? _) eqn:?; lia. }
    rewrite En in H1, H2. split_and!; [done | done | done | | done]. rewrite H2. cbn. rewrite Hc by lia.
    unfold keep. rewrite length_app, length_rx_contents. simpl length.
    replace (count b + 1 - Z.to_nat (size b - 1))%nat with 1%nat by lia.
    by rewrite drop_app_le by (rewrite length_rx_contents; lia).
Qed.

(** ** The line *)

(** Bytes that are still to come. *)
Definition to_come (h : uhw) : nat := length (concat (map t_rx (script h))).

(** What may happen to the hardware between accesses: [new] arrives;
    [out] is taken from the FIFO. *)
Record line (out new : list Z) (h h' : uhw) : Prop := {
  fl_rx : out ++ rx_fifo h' = rx_fifo h ++ new;
  fl_arrived : arrived h' = arrived h ++ new;
  fl_tx : sent h' ++ tx_fifo h' = sent h ++ tx_fifo h /\ (length (tx_fifo h') <= length (tx_fifo h))%nat;
  fl_ctl : intr_on h' = intr_on h /\ handler h' = handler h /\ int_ena h' = int_ena h /\
    ioswap h' = ioswap h /\ calls h' = calls h;
  fl_missed : missed h' = true -> missed h = true \/ Z.testbit (int_raw h') UIOF = true;
  fl_raw k : Z.testbit (int_raw h) k = true -> Z.testbit (int_raw h') k = true;
  fl_depth : (length (rx_fifo h) <= FIFO_DEPTH -> length (rx_fifo h') <= FIFO_DEPTH)%nat;
  fl_u8 : Forall is_u8 new
}.

Lemma line_trans o1 o2 n1 n2 h1 h2 h3 : line o1 n1 h1 h2 -> line o2 n2 h2 h3 -> line (o1 ++ o2) (n1 ++ n2) h1 h3.
Proof.
  intros [A1 A2 [A3 A3'] (A4 & A5 & A6 & A6' & A6s) A7 A8 A9 A10] [B1 B2 [B3 B3'] (B4 & B5 & B6 & B6' & B6s) B7 B8 B9 B10].
  split; try congruence.
  - by rewrite <- app_assoc, B1, !app_assoc, A1.
  - by rewrite B2, A2, app_assoc.
  - split; [congruence | lia].
  - split_and!; congruence.
  - intros Hm. destruct (B7 Hm) as [Hm' | Hb]; [| by right]. destruct (A7 Hm') as [| Hb]; [by left |]. right. by apply B8.
  - auto.
  - auto.
  - by apply Forall_app.
Qed.

Lemma raise_bit bits h k : Z.testbit (int_raw (raise bits h)) k = Z.testbit (int_raw h) k || Z.testbit bits k.
Proof. apply Z.lor_spec. Qed.

Lemma line_raise bits h : line [] [] h (raise bits h).
Proof. split; rewrite ?app_nil_r; try done; auto. intros k Hk. rewrite raise_bit. by rewrite Hk. Qed.

Lemma line_shift n h : line [] [] h (shift_out n h).
Proof. split; rewrite ?app_nil_r; try done; auto. cbn. rewrite <- app_assoc, take_drop, length_drop. split; [done | lia]. Qed.

Lemma line_refl h : line [] [] h h.
Proof. split; rewrite ?app_nil_r; try done; auto. Qed.

Lemma line_script l h : line [] [] h (set_script l h).
Proof. split; rewrite ?app_nil_r; try done; auto. Qed.

Lemma line_receive b h : exists new, line [] new h (receive h b) /\ (length new <= 1)%nat /\ script (receive h b) = script h.
Proof.
  unfold receive. destruct (Nat.ltb_spec (length (rx_fifo h)) FIFO_DEPTH) as [Hlt | Hge].
  - exists [u8 b]. split; [| done]. split; cbn; try done; auto.
    + intros _. rewrite length_app. simpl. lia.
    + repeat constructor; apply u8_range.
  - exists []. split; [| by split; [simpl; lia |]]. split; rewrite ?app_nil_r; try done; cbn [int_raw set_history].
    + intros _. right. rewrite raise_bit. by rewrite orb_true_r.
    + intros k Hk. rewrite raise_bit. by rewrite Hk.
Qed.

Lemma line_receives bs h : exists new, line [] new h (fold_left receive bs h) /\
  (length new <= length bs)%nat /\ script (fold_left receive bs h) = script h.
Proof.
  revert h. induction bs as [| b bs IH]; intros h; cbn [fold_left].
  { exists []. split; [apply line_refl | done]. }
  destruct (line_receive b h) as (n1 & Hf1 & Hn1 & Hs1). destruct (IH (receive h b)) as (n2 & Hf2 & Hn2 & Hs2).
  exists (n1 ++ n2). split; [by apply (line_trans [] [] _ _ _ (receive h b)) |]. rewrite length_app. simpl. split; [lia | congruence].
Qed.

Definition flows (out new : list Z) (h h' : uhw) : Prop := line out new h h' /\ (length new + to_come h' <= to_come h)%nat /\ (length (script h') <= length (script h))%nat.

Lemma flows_refl h : flows [] [] h h.
Proof. split; [apply line_refl | done]. Qed.
Lemma flows_trans o1 o2 n1 n2 h1 h2 h3 : flows o1 n1 h1 h2 -> flows o2 n2 h2 h3 -> flows (o1 ++ o2) (n1 ++ n2) h1 h3.
Proof. intros [? []] [? []]. split; [by eapply line_trans |]. rewrite length_app. lia. Qed.

Lemma flows_advance h : exists new, flows [] new h (advance h).
Proof.
  unfold advance. destruct (script h) as [| t ts] eqn:Es.
  { exists []. split; [apply line_shift |]. unfold to_come. cbn. done. }
  destruct (line_receives (t_rx t) (shift_out (t_tx t) (set_script ts h))) as (new & Hf & Hn & Hs).
  exists new. split.
  - apply (line_trans [] [] [] new _ (set_script ts h)); [apply line_script |].
    apply (line_trans [] [] [] new _ (shift_out (t_tx t) (set_script ts h))); [apply line_shift |].
    rewrite <- (app_nil_r new). eapply (line_trans [] []); [exact Hf | apply line_raise].
  - unfold to_come. cbn [script raise set_int]. rewrite Hs, Es. cbn [script shift_out set_fifo set_script map concat].
    rewrite length_app. simpl. lia.
Qed.

(** Reading the counts of the FIFOs. *)
Lemma rx_count h : (length (rx_fifo h) <= FIFO_DEPTH)%nat ->
  Z.land (Z.shiftr (USS h) USRXC) 0xFF = Z.of_nat (length (rx_fifo h)).
Proof.
  intros Hl. change FIFO_DEPTH with 128%nat in Hl. apply z_ext. intros k Hk. unfold USS, USRXC, USTXC.
  rewrite Z.land_spec, Z.shiftr_0_r, !Z.lor_spec, Z.land_spec. change 0xFF with (Z.ones 8). rewrite Z.testbit_ones by lia.
  destruct (Z.ltb_spec k 8).
  - rewrite (Z.shiftl_spec_low _ _ k) by lia.
    replace (Z.testbit 0xFF00FF00 k) with false.
    2: { assert (k = 0 \/ k = 1 \/ k = 2 \/ k = 3 \/ k = 4 \/ k = 5 \/ k = 6 \/ k = 7) as Hc by lia.
         by repeat (destruct Hc as [-> | Hc]); subst. }
    rewrite andb_false_r, !orb_false_r. replace (0 <=? k) with true by lia. by rewrite andb_true_r.
  - replace (0 <=? k) with true by lia. cbn. rewrite andb_false_r. symmetry. apply (testbit_small _ 8 k); lia.
Qed.

Lemma flows_pop h b l : rx_fifo h = b :: l -> flows [b] [] h (snd (pop_fifo h)) /\ fst (pop_fifo h) = b.
Proof.
  intros E. unfold pop_fifo. cbn [fst snd]. rewrite E. split; [| done]. split; [| done].
  split; cbn; rewrite ?app_nil_r, ?E; try done; auto. simpl. lia.
Qed.
Lemma flows_length o n h h' : flows o n h h' ->
  (length (rx_fifo h') + to_come h' + length o <= length (rx_fifo h) + to_come h)%nat.
Proof. intros [[H _ _ _ _ _ _ _] Hl]. apply (f_equal length) in H. rewrite !length_app in H. lia. Qed.

(** ** From the FIFO to the buffer *)

(** The bytes [l] have been put into the buffer, the newest have been kept. *)
Record copied (l : list Z) (u u' : uart_t) : Prop := {
  cp_ok : rx_ok (rx_buffer u');
  cp_size : size (rx_buffer u') = size (rx_buffer u);
  cp_contents : contents (rx_buffer u') = keep (Z.to_nat (size (rx_buffer u) - 1)) (contents (rx_buffer u) ++ l);
  cp_overrun : rx_overrun u' =
    rx_overrun u || (Z.to_nat (size (rx_buffer u) - 1) <? length (contents (rx_buffer u) ++ l))%nat;
  cp_frame : u' = set_rx (rx_buffer u') (set_flags (rx_overrun u') (rx_error u) u)
}.

Lemma copied_nil u : rx_ok (rx_buffer u) -> copied [] u u.
Proof.
  intros Hb. pose proof (rx_count_bound _ Hb). pose proof (ok_size _ Hb).
  split; rewrite ?app_nil_r; try done.
  - rewrite keep_all; [done |]. rewrite length_rx_contents. lia.
  - rewrite (proj2 (Nat.ltb_ge _ _)); [by rewrite orb_false_r |]. rewrite length_rx_contents. lia.
  - by destruct u.
Qed.

Lemma copied_trans l1 l2 u1 u2 u3 : copied l1 u1 u2 -> copied l2 u2 u3 -> copied (l1 ++ l2) u1 u3.
Proof.
  intros [A1 A2 A3 A4 A5] [B1 B2 B3 B4 B5]. split; [done | congruence | | |].
  - rewrite B3, A2, A3, keep_keep, app_assoc. done.
  - rewrite B4, A4, A2, A3. rewrite !length_app, length_keep, length_app. rewrite <- orb_assoc. f_equal.
    destruct (Nat.ltb_spec (Z.to_nat (size (rx_buffer u1) - 1)) (length (contents (rx_buffer u1)) + length l1)); cbn [orb].
    + symmetry. apply Nat.ltb_lt. lia.
    + by rewrite Nat.min_r, <- Nat.add_assoc by lia.
  - rewrite B5, A5. by destruct u1.
Qed.

Lemma copied_push d u : is_u8 d -> rx_ok (rx_buffer u) -> copied [d] u (push d u).
Proof.
  intros Hu Hb. destruct (rx_push_ok d u Hu Hb) as (H1 & H2 & H3 & H4 & H5). pose proof (ok_size _ Hb). split; try done.
  - rewrite H5. f_equal. rewrite length_app. simpl.
    destruct (Z.leb_spec (size (rx_buffer u) - 1) (Z.of_nat (length (contents (rx_buffer u))))); symmetry;
      [apply Nat.ltb_lt | apply Nat.ltb_ge]; lia.
  - unfold push, make_room. destruct (_ =? _); by destruct u.
Qed.

Definition work (h : uhw) : nat := (length (rx_fifo h) + to_come h)%nat.

Definition shallow (h : uhw) : Prop := (length (rx_fifo h) <= FIFO_DEPTH)%nat.

Lemma fifo_available_ok n s : shallow (hw s) ->
  exists new h, uart_rx_fifo_available n s = Some (Z.of_nat (length (rx_fifo h)), mkU (dev s) h) /\
    flows [] new (hw s) h /\ shallow h.
Proof.
  intros Hd. destruct (flows_advance (hw s)) as [new Hf]. assert (Hd' : shallow (advance (hw s))) by (by apply Hf).
  exists new, (advance (hw s)). split; [| done]. unfold uart_rx_fifo_available, reg. cbn. by rewrite rx_count.
Qed.

Lemma pop_ok n s b l : rx_fifo (hw s) = b :: l ->
  exists new h, reg pop_fifo n s = Some (b, mkU (dev s) h) /\ flows [b] new (hw s) h.
Proof.
  intros E. destruct (flows_advance (hw s)) as [new Hf]. pose proof (fl_rx _ _ _ _ (proj1 Hf)) as Er. rewrite E in Er. cbn in Er.
  destruct (flows_pop (advance (hw s)) b (l ++ new) Er) as [Hp Hb]. unfold reg.
  rewrite (surjective_pairing (pop_fifo _)), Hb. exists new, (snd (pop_fifo (advance (hw s)))). split; [done |].
  rewrite <- (app_nil_r new). by apply (flows_trans [] [b] _ _ _ _ _ Hf Hp).
Qed.

Lemma truth_len {A} (l : list A) : truth (Z.of_nat (length l)) = match l with [] => false | _ => true end.
Proof. destruct l; [done |]. unfold truth. simpl. done. Qed.

(** One round of the loop. *)
Lemma bind_some {A C} (m : U A) (k : A -> U C) n s a s' : m n s = Some (a, s') -> bind m k n s = k a n s'.
Proof. unfold bind. by intros ->. Qed.

(** A point at which nothing happens while the mask is [on]. *)
Definition calm (point : U unit) (n : nat) (on : bool) : Prop := forall s, intr_on (hw s) = on -> point n s = Some (tt, s).

Lemma calm_ret n on : calm (ret tt) n on.
Proof. done. Qed.
Lemma calm_irq n : calm irq n false.
Proof. intros s E. unfold irq. by rewrite E. Qed.

Lemma calm_bind {A} (point : U unit) (k : unit -> U A) n on s : calm point n on -> intr_on (hw s) = on -> bind point k n s = k tt n s.
Proof. intros Hc E. by rewrite (bind_some _ _ _ _ _ _ (Hc s E)). Qed.

Lemma copy_fifo_loop point on n k s : calm point n on -> intr_on (hw s) = on ->
  shallow (hw s) -> rx_ok (rx_buffer (dev s)) -> (work (hw s) < k)%nat ->
  exists out new s', iter_aux k (fun _ : unit =>
      b <- (point ;; a <- uart_rx_fifo_available ;; ret (truth a)) ;;
      if b : bool then ((point ;; nextPos <- field (fun u => next_pos (rx_buffer u)) ;; point ;; set_field make_room ;;
        point ;; data <- reg pop_fifo ;; point ;; set_field (store (u8 data) nextPos)) ;; ret (inl tt)) else ret (inr tt)) tt n s = Some (tt, s') /\
    flows out new (hw s) (hw s') /\ rx_fifo (hw s') = [] /\ (Forall is_u8 (rx_fifo (hw s)) -> copied out (dev s) (dev s')).
Proof.
  intros Hp. revert s. induction k as [| k IH]; intros s Ho Hd Hb Hw; [lia |]. cbn [iter_aux].
  destruct (fifo_available_ok n s Hd) as (n1 & h1 & E1 & F1 & D1). assert (Ho1 : intr_on h1 = on) by (rewrite <- Ho; apply F1).
  rewrite (bind_some _ _ _ _ (truth (Z.of_nat (length (rx_fifo h1)))) (mkU (dev s) h1))
    by (rewrite (calm_bind _ _ _ _ _ Hp Ho); by rewrite (bind_some _ _ _ _ _ _ E1)).
  rewrite truth_len. destruct (rx_fifo h1) as [| b l] eqn:Er.
  { exists [], n1, (mkU (dev s) h1). split; [done |]. split; [done |]. split; [done |]. intros _. by apply copied_nil. }
  set (u1 := make_room (dev s)).
  assert (E2 : exists n2 h2, reg pop_fifo n (mkU u1 h1) = Some (b, mkU u1 h2) /\ flows [b] n2 h1 h2) by (by apply (pop_ok n (mkU u1 h1) b l)).
  destruct E2 as (n2 & h2 & E2 & F2). set (s2 := mkU (store (u8 b) (next_pos (rx_buffer (dev s))) u1) h2).
  rewrite (bind_some _ _ _ _ tt s2).
  2: { assert (Ho2 : intr_on h2 = on) by (rewrite <- Ho1; apply F2).
       rewrite (calm_bind _ _ _ _ _ Hp) by done. rewrite (bind_some _ _ _ _ _ (mkU (dev s) h1)) by reflexivity.
       rewrite (calm_bind _ _ _ _ _ Hp) by done. rewrite (bind_some _ _ _ _ _ (mkU u1 h1)) by reflexivity.
       rewrite (calm_bind _ _ _ _ _ Hp) by done. rewrite (bind_some _ _ _ _ _ _ E2).
       by rewrite (calm_bind _ _ _ _ _ Hp). }
  assert (F : flows [b] (n1 ++ n2) (hw s) h2) by (by apply (flows_trans [] [b] _ _ _ _ _ F1 F2)).
  pose proof (copied_push (u8 b) (dev s) (u8_range b) Hb) as Cp.
  destruct (IH s2) as (out & new & s' & E3 & F3 & Hnil & C3).
  - rewrite <- Ho. apply F.
  - apply F. done.
  - exact (cp_ok _ _ _ Cp).
  - pose proof (flows_length _ _ _ _ F). unfold work in *. cbn in *. lia.
  - exists (b :: out), ((n1 ++ n2) ++ new), s'. split; [exact E3 |]. split; [by apply (flows_trans [b] out _ _ _ _ _ F F3) |].
    split; [done |]. intros Hu.
    pose proof (fl_rx _ _ _ _ (proj1 F)) as Eq. pose proof (fl_u8 _ _ _ _ (proj1 F)) as Hn.
    assert (Forall is_u8 (b :: rx_fifo h2)) as [Hub Hu2]%Forall_cons by (change (b :: rx_fifo h2) with ([b] ++ rx_fifo h2); rewrite Eq; by apply Forall_app).
    specialize (C3 Hu2). rewrite <- (u8_id b) at 1 by done. by apply (copied_trans [u8 b] out _ _ _ Cp).
Qed.

(** ** The queue of the port *)

Definition queue (s : ust) : list Z := contents (rx_buffer (dev s)) ++ rx_fifo (hw s).

(** The port is open for reading, and a byte that the hardware had to drop has been
    or will be reported as an overrun. *)
Record good (s : ust) : Prop := {
  g_rx : rx_ok (rx_buffer (dev s));
  g_enabled : rx_enabled (dev s) = true;
  g_depth : shallow (hw s);
  g_u8 : Forall is_u8 (rx_fifo (hw s)) /\ Forall is_u8 (arrived (hw s));
  g_missed : missed (hw s) = true -> Z.testbit (int_raw (hw s)) UIOF = true \/ rx_overrun (dev s) = true
}.

(** Only the buffer and the flags have changed. *)
Definition same_port (u u' : uart_t) : Prop :=
  u' = set_rx (rx_buffer u') (set_flags (rx_overrun u') (rx_error u') u).
Lemma same_port_refl u : same_port u u.
Proof. by destruct u. Qed.
Lemma same_port_trans u1 u2 u3 : same_port u1 u2 -> same_port u2 u3 -> same_port u1 u3.
Proof. unfold same_port. intros -> ->. done. Qed.

(** The changes of pin modes, in order. *)
Fixpoint pin_calls (l : list call) : list (Z * Z) :=
  match l with
  | [] => []
  | pinMode p m :: l' => (p, m) :: pin_calls l'
  | _ :: l' => pin_calls l'
  end.
Lemma pin_calls_app l l' : pin_calls (l ++ l') = pin_calls l ++ pin_calls l'.
Proof. induction l as [| c l IH]; [done |]. destruct c; simpl; by rewrite IH. Qed.

(** The parts of the state that receiving does not touch. *)
Definition framed (s s' : ust) : Prop :=
  same_port (dev s) (dev s') /\ ioswap (hw s') = ioswap (hw s) /\ pin_calls (calls (hw s')) = pin_calls (calls (hw s)).
Lemma framed_refl s : framed s s.
Proof. split; [apply same_port_refl | done]. Qed.
#[local] Hint Resolve framed_refl : core.
Lemma framed_trans s1 s2 s3 : framed s1 s2 -> framed s2 s3 -> framed s1 s3.
Proof. intros (A & B & C) (A' & B' & C'). split; [by eapply same_port_trans | split; congruence]. Qed.

(** From [s] to [s'] the bytes [out] have left the queue at its front and bytes from
    the line have entered it; bytes can only have been dropped when an overrun is
    flagged. *)
Record moves (out : list Z) (s s' : ust) : Prop := {
  mv_good : good s';
  mv_queue : exists new, arrived (hw s') = arrived (hw s) ++ new /\
    (out ++ queue s') `sublist_of` (queue s ++ new) /\
    (rx_overrun (dev s') = false -> out ++ queue s' = queue s ++ new);
  mv_buffer : rx_overrun (dev s') = false ->
    (length (contents (rx_buffer (dev s))) <= length (contents (rx_buffer (dev s'))) + length out)%nat;
  mv_overrun : rx_overrun (dev s) = true -> rx_overrun (dev s') = true;
  mv_work : (work (hw s') <= work (hw s))%nat;
  mv_size : size (rx_buffer (dev s')) = size (rx_buffer (dev s));
  mv_frame : framed s s';
  mv_tx : sent (hw s') ++ tx_fifo (hw s') = sent (hw s) ++ tx_fifo (hw s) /\
    (length (tx_fifo (hw s')) <= length (tx_fifo (hw s)))%nat /\ (length (script (hw s')) <= length (script (hw s)))%nat
}.

Lemma moves_refl s : good s -> moves [] s s.
Proof. intros Hg. split; try done; [exists []; by rewrite !app_nil_r | lia]. Qed.

Lemma moves_trans o1 o2 s1 s2 s3 : moves o1 s1 s2 -> moves o2 s2 s3 -> moves (o1 ++ o2) s1 s3.
Proof.
  intros [A1 (n1 & A2 & A3 & A4) A9 A5 A6 A7 A10 (A8 & A8' & A8s)] [B1 (n2 & B2 & B3 & B4) B9 B5 B6 B7 B10 (B8 & B8' & B8s)].
  assert (Hov : rx_overrun (dev s3) = false -> rx_overrun (dev s2) = false).
  { intros Ho. destruct (rx_overrun (dev s2)) eqn:E; [| done]. by rewrite (B5 eq_refl) in Ho. }
  split; try congruence; [| intros Ho; rewrite length_app; specialize (B9 Ho); specialize (A9 (Hov Ho)); lia | auto | lia | by eapply framed_trans | split; [congruence | lia]]. exists (n1 ++ n2). split; [by rewrite B2, A2, app_assoc |]. split.
  - rewrite <- app_assoc. etrans; [by apply sublist_app; [reflexivity |] |]. rewrite !app_assoc.
    apply sublist_app; [| done]. exact A3.
  - intros Ho. rewrite <- app_assoc, B4 by done. rewrite !app_assoc. f_equal. by apply A4, Hov.
Qed.

Lemma good_flows out new s h : good s -> flows out new (hw s) h ->
  shallow h /\ (Forall is_u8 (rx_fifo h) /\ Forall is_u8 (arrived h)) /\
  (missed h = true -> Z.testbit (int_raw h) UIOF = true \/ rx_overrun (dev s) = true).
Proof.
  intros [G1 G2 G3 [G4 G4'] G5] [[F1 F2 F3 F4 F5 F6 F7 F8] Fl]. split; [by apply F7 |]. split.
  - assert (Forall is_u8 (out ++ rx_fifo h)) as [_ ?]%Forall_app by (rewrite F1; by apply Forall_app). split; [done |].
    rewrite F2. by apply Forall_app.
  - intros Hm. destruct (F5 Hm) as [Hm' | Hb]; [| by left]. destruct (G5 Hm') as [Hb | Ho]; [left; by apply F6 | by right].
Qed.

(** The buffer takes over what has been taken from the FIFO. *)
Lemma moves_copied out new s s' : good s -> flows out new (hw s) (hw s') -> copied out (dev s) (dev s') -> moves [] s s'.
Proof.
  intros Hg Hf [C1 C2 C3 C4 C5]. destruct (good_flows _ _ _ _ Hg Hf) as (D1 & D2 & D3).
  pose proof (flows_length _ _ _ _ Hf) as Hw. destruct Hf as [[F1 F2 F3 F4 F5 F6 F7 F8] Fl]. split.
  - split; [done | rewrite C5; apply Hg | done | done |]. intros Hm. destruct (D3 Hm) as [? | Ho]; [by left |]. right. by rewrite C4, Ho.
  - exists new. split; [done |]. unfold queue. rewrite C3. cbn [app]. rewrite <- (app_assoc _ _ new), <- F1, app_assoc. split.
    + apply sublist_app; [apply keep_sublist | done].
    + intros Ho. rewrite C4 in Ho. apply orb_false_iff in Ho as [_ Ho%Nat.ltb_ge]. by rewrite keep_all.
  - intros Ho. rewrite C4 in Ho. apply orb_false_iff in Ho as [_ Ho%Nat.ltb_ge]. rewrite C3, keep_all, length_app by done. lia.
  - intros Ho. by rewrite C4, Ho.
  - unfold work. lia.
  - done.
  - split; [| destruct F4 as (_ & _ & _ & ? & ->); done]. unfold same_port. rewrite C5. by destruct (dev s), (dev s').
  - by destruct F3, Fl.
Qed.

Lemma moves_flows new s h : good s -> flows [] new (hw s) h -> moves [] s (mkU (dev s) h).
Proof. intros Hg Hf. apply (moves_copied [] new s (mkU (dev s) h) Hg Hf). by apply copied_nil, Hg. Qed.

Lemma moves_intr b p s : good s -> moves [] s (mkU (dev s) (set_intr b p (hw s))).
Proof. intros [? ? ? ? ?]. split; try done; [exists []; by rewrite !app_nil_r | cbn; lia | split; [apply same_port_refl | done]]. Qed.

Lemma moves_flags (o e : bool) s : good s -> (rx_overrun (dev s) = true -> o = true) ->
  moves [] s (mkU (set_flags o e (dev s)) (hw s)).
Proof.
  intros [? ? ? ? Hm] Ho. split; try done.
  - split; try done. intros H. destruct (Hm H) as [? | H']; [by left | right; cbn; by apply Ho].
  - exists []. by rewrite !app_nil_r.
  - cbn. lia.
Qed.

Lemma copy_ok point n s : calm point n (intr_on (hw s)) -> good s -> (work (hw s) < n)%nat ->
  exists s', uart_rx_copy_fifo_to_buffer_unsafe point n s = Some (tt, s') /\ moves [] s s' /\ rx_fifo (hw s') = [] /\
    exists out new, flows out new (hw s) (hw s') /\ copied out (dev s) (dev s').
Proof.
  intros Hp Hg Hw. destruct (copy_fifo_loop point _ n n s Hp eq_refl (g_depth _ Hg) (g_rx _ Hg) Hw) as (out & new & s' & E & F & Hn & C).
  specialize (C (proj1 (g_u8 _ Hg))). exists s'. split; [exact E |]. split; [by eapply moves_copied |]. split; [done |]. by exists out, new.
Qed.

(** Clearing interrupts whose overrun bit has been taken into account. *)
Lemma moves_clear bits s : good s -> (Z.testbit bits UIOF = true -> rx_overrun (dev s) = true) ->
  moves [] s (mkU (dev s) (clear_int bits (advance (hw s)))).
Proof.
  intros Hg Hb. destruct (flows_advance (hw s)) as [new Hf]. pose proof (moves_flows new s _ Hg Hf) as Hm.
  destruct Hm as [[G1 G2 G3 G4 G5] A2 A3 A4 A5 A6 A7 A8]. split; try done. split; try done. cbn [dev hw] in G5 |- *.
  intros H. unfold clear_int. cbn [int_raw set_int]. rewrite Z.ldiff_spec. destruct (Z.testbit bits UIOF) eqn:Eb; [right; by apply Hb |].
  destruct (G5 H) as [-> | ?]; [by left | by right].
Qed.

(** ** Interrupts *)

Lemma uart_isr_ok n s p : good s -> (work (hw s) < n)%nat -> p <> NULL ->
  exists s', uart_isr p n s = Some (tt, s') /\ moves [] s s'.
Proof.
  intros Hg Hw Hp. unfold uart_isr. destruct (flows_advance (hw s)) as [n1 F1].
  set (usis := USIS (advance (hw s))). set (s1 := mkU (dev s) (advance (hw s))).
  pose proof (moves_flows n1 s _ Hg F1) as M1. rewrite (bind_some _ _ _ _ usis s1) by done.
  rewrite (bind_some _ _ _ _ true s1) by (unfold field; cbn; by rewrite (g_enabled _ Hg)).
  destruct p; [done |]. cbn [is_null negb orb].
  assert (exists s2, (If bit_set usis (bv UIFF) Then uart_rx_copy_fifo_to_buffer_unsafe (ret tt)) n s1 = Some (tt, s2) /\ moves [] s1 s2)
    as (s2 & E2 & M2).
  { pose proof (mv_good _ _ _ M1) as G1. destruct (bit_set _ _); [| exists s1; split; [done | by apply moves_refl]].
    destruct (copy_ok (ret tt) n s1 (calm_ret _ _) G1) as (s2 & E2 & M2 & _); [eapply Nat.le_lt_trans; [apply (mv_work _ _ _ M1) | done] | by exists s2]. }
  rewrite (bind_some _ _ _ _ _ _ E2). pose proof (mv_good _ _ _ M2) as G2.
  set (o := bit_set usis (bv UIOF)). set (s3 := if o then mkU (set_flags true (rx_error (dev s2)) (dev s2)) (hw s2) else s2).
  rewrite (bind_some _ _ _ _ tt s3) by (unfold s3; by destruct o).
  assert (M3 : moves [] s2 s3) by (unfold s3; destruct o; [by apply moves_flags | by apply moves_refl]).
  set (e := bit_set usis error_bits). set (s4 := if e then mkU (set_flags (rx_overrun (dev s3)) true (dev s3)) (hw s3) else s3).
  rewrite (bind_some _ _ _ _ tt s4) by (unfold s4; by destruct e).
  assert (M4 : moves [] s3 s4) by (pose proof (mv_good _ _ _ M3); unfold s4; destruct e; [by apply moves_flags | by apply moves_refl]).
  eexists. split; [reflexivity |].
  refine (moves_trans [] [] _ _ _ (moves_trans [] [] _ _ _ M1 (moves_trans [] [] _ _ _ M2 (moves_trans [] [] _ _ _ M3 M4))) _).
  apply moves_clear; [apply M4 |]. intros Hb. apply (mv_overrun _ _ _ M4). unfold s3, o. by rewrite bit_set_bv, Hb.
Qed.

Lemma irq_ok n s : good s -> (work (hw s) < n)%nat -> exists s', irq n s = Some (tt, s') /\ moves [] s s'.
Proof.
  intros Hg Hw. unfold irq. destruct (intr_on _ && _ && _) eqn:E; [| exists s; split; [done | by apply moves_refl]].
  apply uart_isr_ok; [done | done |]. intros Hp. by rewrite Hp, andb_false_r in E.
Qed.

Lemma enable_ok n s : good s -> (work (hw s) < n)%nat ->
  exists s', ETS_UART_INTR_ENABLE n s = Some (tt, s') /\ moves [] s s'.
Proof.
  intros Hg Hw. unfold ETS_UART_INTR_ENABLE. set (s1 := mkU (dev s) (set_intr true (handler (hw s)) (hw s))).
  rewrite (bind_some _ _ _ _ tt s1) by done. pose proof (moves_intr true (handler (hw s)) s Hg) as M1.
  destruct (irq_ok n s1) as (s2 & E2 & M2); [apply M1 | done |]. exists s2. split; [done |]. by apply (moves_trans [] [] _ _ _ M1 M2).
Qed.

(** ** With interrupts masked *)

(** As [moves], but nothing is dropped. *)
Record taken (out : list Z) (s s' : ust) : Prop := {
  tk_good : good s';
  tk_queue : exists new, arrived (hw s') = arrived (hw s) ++ new /\ out ++ queue s' = queue s ++ new;
  tk_buffer :
    (length (contents (rx_buffer (dev s))) <= length (contents (rx_buffer (dev s'))) + length out)%nat;
  tk_overrun : rx_overrun (dev s') = rx_overrun (dev s);
  tk_work : (work (hw s') <= work (hw s))%nat;
  tk_size : size (rx_buffer (dev s')) = size (rx_buffer (dev s));
  tk_frame : framed s s';
  tk_tx : sent (hw s') ++ tx_fifo (hw s') = sent (hw s) ++ tx_fifo (hw s) /\
    (length (tx_fifo (hw s')) <= length (tx_fifo (hw s)))%nat /\ (length (script (hw s')) <= length (script (hw s)))%nat
}.

Lemma taken_moves out s s' : taken out s s' -> moves out s s'.
Proof.
  intros [T1 (new & T2 & T3) T8 T4 T5 T6 T9 T7]. split; try done; [| by rewrite T4].
  exists new. split; [done |]. by rewrite T3.
Qed.

Lemma taken_refl s : good s -> taken [] s s.
Proof. intros Hg. split; try done; [exists []; by rewrite !app_nil_r | lia]. Qed.
Lemma taken_trans o1 o2 s1 s2 s3 : taken o1 s1 s2 -> taken o2 s2 s3 -> taken (o1 ++ o2) s1 s3.
Proof.
  intros [A1 (n1 & A2 & A3) A8 A4 A5 A6 A9 (A7 & A7' & A7s)] [B1 (n2 & B2 & B3) B8 B4 B5 B6 B9 (B7 & B7' & B7s)].
  split; try congruence; [| rewrite length_app; lia | lia | by eapply framed_trans | split; [congruence | lia]].
  exists (n1 ++ n2). split; [by rewrite B2, A2, app_assoc |]. by rewrite <- app_assoc, B3, !app_assoc, A3.
Qed.

(** Bytes taken straight from the FIFO. *)
Lemma taken_flows out new s h : good s -> flows out new (hw s) h -> (out = [] \/ contents (rx_buffer (dev s)) = []) ->
  taken out s (mkU (dev s) h).
Proof.
  intros Hg Hf Ho. destruct (good_flows _ _ _ _ Hg Hf) as (D1 & D2 & D3). pose proof (flows_length _ _ _ _ Hf) as Hw.
  destruct Hf as [[F1 F2 F3 F4 F5 F6 F7 F8] Fl]. split; try done.
  - destruct Hg. by split.
  - exists new. split; [done |]. unfold queue. cbn [dev hw]. destruct Ho as [-> | Hc].
    + cbn in F1 |- *. by rewrite F1, app_assoc.
    + rewrite Hc. cbn. exact F1.
  - cbn [dev]. lia.
  - cbn. unfold work. lia.
  - split; [apply same_port_refl | destruct F4 as (_ & _ & _ & ? & F4); cbn; by rewrite F4].
  - by destruct F3, Fl.
Qed.

(** Bytes taken from the buffer. *)
Lemma taken_skip k s : good s -> 0 <= k <= Z.of_nat (count (rx_buffer (dev s))) ->
  rpos (rx_buffer (dev s)) + k <= size (rx_buffer (dev s)) ->
  taken (take (Z.to_nat k) (contents (rx_buffer (dev s)))) s (mkU (set_rx (skip k (rx_buffer (dev s))) (dev s)) (hw s)).
Proof.
  intros [G1 G2 G3 G4 G5] Hk Hl. split; try done.
  - split; try done. by apply skip_ok.
  - exists []. split; [by rewrite app_nil_r |]. unfold queue. cbn [dev hw rx_buffer set_rx].
    by rewrite contents_skip, app_nil_r, app_assoc, take_drop.
  - cbn [dev rx_buffer set_rx]. rewrite contents_skip, length_take, length_drop by done. lia.
Qed.

(** The foreground with the interrupt masked. *)
Definition masked (s : ust) : Prop := intr_on (hw s) = false.
Lemma masked_irq {A} (k : unit -> U A) n s : masked s -> bind irq k n s = k tt n s.
Proof. apply calm_bind, calm_irq. Qed.
Lemma masked_flows out new s u h : masked s -> flows out new (hw s) h -> masked (mkU u h).
Proof. intros H F. unfold masked in *. rewrite <- H. apply F. Qed.

Lemma available_unsafe_ok n s : good s -> masked s ->
  exists new h, uart_rx_available_unsafe n s = Some (Z.of_nat (length (queue (mkU (dev s) h))), mkU (dev s) h) /\
    flows [] new (hw s) h /\ taken [] s (mkU (dev s) h).
Proof.
  intros Hg Hm. destruct (fifo_available_ok n s (g_depth _ Hg)) as (new & h & E & F & D). exists new, h.
  pose proof (taken_flows [] new s h Hg F (or_introl eq_refl)) as T. split; [| by split].
  unfold uart_rx_available_unsafe. rewrite (bind_some _ _ _ _ _ s) by reflexivity. rewrite masked_irq by done.
  rewrite (bind_some _ _ _ _ _ _ E). unfold ret.
  rewrite buffer_available_ok by apply Hg. do 2 f_equal. unfold queue. cbn [dev hw]. rewrite length_app, Nat2Z.inj_add.
  apply u32_id. pose proof (rx_count_bound _ (g_rx _ Hg)). pose proof (ok_size _ (g_rx _ Hg)). rewrite length_rx_contents.
  unfold shallow, FIFO_DEPTH in D. unfold is_u32. lia.
Qed.

(** ** [uart_read] *)

(** The user's buffer after [data] has been written to its front. *)
Definition filled (data ub : list Z) : list Z := data ++ drop (length data) ub.

Lemma filled_insert data ub c : (length data < length ub)%nat ->
  <[length data := c]> (filled data ub) = filled (data ++ [c]) ub.
Proof.
  intros H. unfold filled. rewrite insert_app_r_alt, Nat.sub_diag, length_app by lia. rewrite <- app_assoc. f_equal. cbn [app length].
  replace (length data + 1)%nat with (S (length data)) by lia.
  destruct (drop (length data) ub) as [| x l] eqn:E; [apply (f_equal length) in E; rewrite length_drop in E; simpl in E; lia |].
  cbn. f_equal. change (S (length data)) with (1 + length data)%nat. rewrite Nat.add_comm, <- drop_drop, E. done.
Qed.

Lemma filled_blit data ub src : blit (Z.of_nat (length data)) src (filled data ub) = filled (data ++ src) ub.
Proof.
  unfold blit, filled. rewrite Nat2Z.id, take_app_length, length_app, <- app_assoc. do 2 f_equal.
  rewrite drop_app_ge by lia. rewrite drop_drop. f_equal. lia.
Qed.

(** What the loops of [uart_read] have done: [data] is in the user's buffer. *)
Definition reading (s0 : ust) (ub : list Z) (usersize : Z) (data : list Z) (x : Z * list Z) (s : ust) : Prop :=
  x = (Z.of_nat (length data), filled data ub) /\ taken data s0 s /\ Z.of_nat (length data) <= usersize /\ masked s.

Section Read.
Context (s0 : ust) (ub : list Z) (usersize : Z) (n : nat).
Hypothesis room : usersize <= Z.of_nat (length ub) < 2147483648.

Lemma fifo_loop k x data s : reading s0 ub usersize data x s -> contents (rx_buffer (dev s)) = [] -> (work (hw s) < k)%nat ->
  exists x' data' s', iter_aux k (fun x : Z * list Z =>
      if fst x <? usersize then
        irq ;; f <- uart_rx_fifo_available ;;
        if truth f then irq ;; c <- reg pop_fifo ;; ret (inl (u32 (fst x + 1), <[Z.to_nat (fst x) := c]> (snd x)))
        else ret (inr x)
      else ret (inr x)) x n s = Some (x', s') /\
    reading s0 ub usersize data' x' s' /\ (Z.of_nat (length data') = usersize \/ queue s' = []).
Proof.
  revert x data s. induction k as [| k IH]; intros x data s (-> & T & Hle & Hm) Hc Hw; [lia |]. cbn [iter_aux fst snd].
  pose proof (tk_good _ _ _ T) as Hg.
  destruct (Z.ltb_spec (Z.of_nat (length data)) usersize) as [Hlt | Hge].
  2: { eexists _, data, s. split; [done |]. split; [done |]. left. lia. }
  rewrite masked_irq by done.
  destruct (fifo_available_ok n s (g_depth _ Hg)) as (n1 & h1 & E1 & F1 & D1). rewrite (bind_some _ _ _ _ _ _ E1), truth_len.
  pose proof (masked_flows _ _ _ (dev s) _ Hm F1) as Hm1.
  assert (T1 : taken [] s (mkU (dev s) h1)) by (apply (taken_flows [] n1); [done | done | by left]).
  assert (T01 : taken data s0 (mkU (dev s) h1)) by (rewrite <- (app_nil_r data); by eapply taken_trans).
  destruct (rx_fifo h1) as [| c l] eqn:Er.
  { eexists _, data, _. split; [done |]. split; [done |]. right. unfold queue. cbn [dev hw]. by rewrite Hc, Er. }
  destruct (pop_ok n (mkU (dev s) h1) c l Er) as (n2 & h2 & E2 & F2). rewrite masked_irq by done.
  rewrite (bind_some _ _ _ _ _ _ E2). unfold ret. pose proof (masked_flows _ _ _ (dev s) _ Hm1 F2) as Hm2.
  assert (T2 : taken [c] (mkU (dev s) h1) (mkU (dev s) h2)) by (apply (taken_flows [c] n2 (mkU (dev s) h1)); [apply T1 | done | by right]).
  apply (IH _ (data ++ [c])).
  - split; [| split; [by eapply taken_trans |]]; rewrite length_app; simpl; [| split; [lia | done]].
    cbn [dev]. rewrite Nat2Z.id, filled_insert by lia. f_equal. rewrite u32_id by (unfold is_u32; lia). lia.
  - done.
  - pose proof (tk_work _ _ _ T1). pose proof (flows_length _ _ _ _ F2). cbn [hw] in *. unfold work in *. simpl in *. lia.
Qed.

(** The linear piece is not empty and stays within the buffer. *)
Lemma chunk_ok r b : rx_ok b -> contents b <> [] -> 0 <= r < usersize ->
  let k := chunk_of usersize r b in 0 < k <= Z.of_nat (count b) /\ rpos b + k <= size b /\ r + k <= usersize.
Proof.
  intros Hb Hne Hr. assert (rpos b <> wpos b) by (intros E; by apply rx_contents_nil in E).
  pose proof (count_Z b Hb) as Hc. destruct Hb as [Hs Hp Hw Hl _]. unfold chunk_of. cbv zeta.
  set (lin := if rpos b <? wpos b then u32 (wpos b - rpos b) else u32 (size b - rpos b)).
  assert (El : lin = if rpos b <? wpos b then wpos b - rpos b else size b - rpos b).
  { unfold lin. destruct (rpos b <? wpos b) eqn:?; apply u32_id; unfold is_u32; lia. }
  clearbody lin. rewrite (u32_id (r + lin)) by (unfold is_u32; destruct (rpos b <? wpos b) eqn:?; lia).
  rewrite (u32_id (usersize - r)) by (unfold is_u32; lia).
  destruct (Z.ltb_spec usersize (r + lin)); destruct (Z.ltb_spec (rpos b) (wpos b)); destruct (Z.ltb_spec (wpos b) (rpos b)); lia.
Qed.

Lemma read_loop k x data s : reading s0 ub usersize data x s ->
  (work (hw s) < n)%nat -> (length (contents (rx_buffer (dev s))) < k)%nat ->
  exists x' data' s', iter_aux k (read_round usersize) x n s = Some (x', s') /\
    reading s0 ub usersize data' x' s' /\ (Z.of_nat (length data') = usersize \/ queue s' = []).
Proof.
  revert x data s. induction k as [| k IH]; intros x data s Hx Hw Hk; [lia |]. destruct (Hx) as (-> & T & Hle & Hm).
  cbn [iter_aux]. unfold read_round at 1. pose proof (tk_good _ _ _ T) as Hg.
  destruct (Z.ltb_spec (Z.of_nat (length data)) usersize) as [Hlt | Hge].
  2: { eexists _, data, s. split; [done |]. split; [done |]. left. lia. }
  rewrite masked_irq by done.
  destruct (available_unsafe_ok n s Hg Hm) as (n1 & h1 & E1 & F1 & T1). rewrite (bind_some _ _ _ _ _ _ E1), truth_len.
  pose proof (masked_flows _ _ _ (dev s) _ Hm F1) as Hm1.
  assert (T01 : taken data s0 (mkU (dev s) h1)) by (rewrite <- (app_nil_r data); by eapply taken_trans).
  pose proof (tk_work _ _ _ T1) as W1. set (s1 := mkU (dev s) h1) in *.
  destruct (queue s1) as [| q0 q] eqn:Eq.
  { eexists _, data, s1. split; [done |]. split; [done |]. by right. }
  rewrite masked_irq by done.
  rewrite (bind_some _ _ _ _ _ s1) by reflexivity. rewrite (buffer_available_ok _ (g_rx _ (tk_good _ _ _ T1))), truth_len.
  change (rx_buffer (dev s1)) with (rx_buffer (dev s)).
  destruct (contents (rx_buffer (dev s))) as [| c0 c] eqn:Ec; cbn [negb].
  - destruct (fifo_loop n (Z.of_nat (length data), filled data ub) data s1) as (x' & d' & s' & E' & R' & Q'); [done | done | lia |].
    exists x', d', s'. rewrite (bind_some (fifo_to_user usersize _) _ _ _ x' s') by exact E'. done.
  - rewrite masked_irq by done. set (b := rx_buffer (dev s)) in *.
    rewrite (bind_some _ _ _ _ (chunk_of usersize (Z.of_nat (length data)) b) s1) by done.
    assert (Hne : contents b <> []) by (by rewrite Ec).
    destruct (chunk_ok (Z.of_nat (length data)) b (g_rx _ Hg) Hne) as (Hk1 & Hk2 & Hk3); [lia |].
    set (m := chunk_of usersize (Z.of_nat (length data)) b) in *.
    rewrite masked_irq by done. rewrite (bind_some _ _ _ _ (take (Z.to_nat m) (drop (Z.to_nat (rpos b)) (buffer b))) s1) by done.
    rewrite masked_irq by done. rewrite (contents_take b m (g_rx _ Hg)) by lia. set (s2 := mkU (set_rx (skip m b) (dev s1)) (hw s1)).
    rewrite (bind_some _ _ _ _ tt s2) by done. unfold ret.
    assert (T2 : taken (take (Z.to_nat m) (contents b)) s1 s2) by (apply (taken_skip m s1); [exact (tk_good _ _ _ T1) | change (rx_buffer (dev s1)) with b; lia ..]).
    assert (Hlen : length (take (Z.to_nat m) (contents b)) = Z.to_nat m) by (rewrite length_take, length_rx_contents; lia).
    apply (IH _ (data ++ take (Z.to_nat m) (contents b))).
    + split; [| split; [by eapply taken_trans |]]; rewrite length_app, Hlen; [| split; [lia | done]].
      rewrite filled_blit. f_equal. rewrite u32_id by (unfold is_u32; lia). lia.
    + change (work (hw s1) < n)%nat. lia.
    + change (rx_buffer (dev s2)) with (skip m b). rewrite contents_skip by (try apply Hg; lia). rewrite length_drop, length_rx_contents.
      rewrite <- Ec, length_rx_contents in Hk. lia.
Qed.
End Read.

(** ** The operations of the port *)

(** Fuel that suffices for the loops. *)
Definition enough (n : nat) (s : ust) : Prop := (work (hw s) + Z.to_nat (size (rx_buffer (dev s))) < n)%nat.

Lemma enough_moves n out s s' : moves out s s' -> enough n s -> enough n s'.
Proof. intros [_ _ _ _ Hw Hs _ _]. unfold enough. rewrite Hs. lia. Qed.

Lemma disable_ok n s : good s -> exists s', ETS_UART_INTR_DISABLE n s = Some (tt, s') /\ dev s' = dev s /\
  queue s' = queue s /\ taken [] s s' /\ masked s'.
Proof.
  intros Hg. eexists. split; [reflexivity |]. split; [done |]. split; [done |]. split; [| done]. destruct Hg. split; try done; [exists []; by rewrite !app_nil_r | cbn; lia | split; [apply same_port_refl | done]].
Qed.

(** The guard of the operations: the port is there and open for reading. *)
Lemma guard_ok {A} (k : bool -> U A) n s : good s -> bind (field rx_enabled) k n s = k true n s.
Proof. intros Hg. apply bind_some. unfold field. by rewrite (g_enabled _ Hg). Qed.

Lemma read_ok n s ub usersize : good s -> enough n s -> 0 <= usersize <= Z.of_nat (length ub) -> Z.of_nat (length ub) < 2147483648 ->
  exists data s', uart_read PORT ub usersize n s = Some ((Z.of_nat (length data), filled data ub), s') /\ moves data s s' /\
    Z.min usersize (Z.of_nat (length (queue s))) <= Z.of_nat (length data) <= usersize /\
    (data `prefix_of` queue s \/ queue s `prefix_of` data).
Proof.
  intros Hg He Hu Hl. unfold uart_read. rewrite guard_ok by done. cbn [is_null orb negb].
  destruct (disable_ok n s Hg) as (s1 & E1 & D1 & Q1 & T1 & Hm1). rewrite (bind_some _ _ _ _ _ _ E1).
  pose proof (enough_moves n _ _ _ (taken_moves _ _ _ T1) He) as He1. pose proof (rx_count_bound _ (g_rx _ (tk_good _ _ _ T1))) as Hc.
  unfold enough in He1. destruct (read_loop s1 ub usersize n ltac:(lia) n (0, ub) [] s1) as (x & data & s2 & E2 & (-> & T2 & Hd & Hm2) & Hq).
  - split; [done |]. split; [apply taken_refl, T1 | split; [simpl; lia | done]].
  - lia.
  - rewrite length_rx_contents. lia.
  - rewrite (bind_some (iter (read_round usersize) _) _ _ _ _ s2) by exact E2.
    pose proof (taken_trans [] data _ _ _ T1 T2) as T. cbn in T.
    destruct (enable_ok n s2 (tk_good _ _ _ T2)) as (s3 & E3 & M3); [pose proof (tk_work _ _ _ T2); lia |].
    rewrite (bind_some _ _ _ _ _ _ E3). exists data, s3. split; [done |]. split.
    + rewrite <- (app_nil_r data). eapply moves_trans; [by apply taken_moves | done].
    + destruct (tk_queue _ _ _ T2) as (new & _ & H). rewrite Q1 in H. split.
      * destruct Hq as [Hq | Hq]; [lia |]. rewrite Hq, app_nil_r in H. rewrite H in Hd |- *. rewrite length_app in *. lia.
      * apply (prefix_weak_total _ _ (queue s ++ new)); [by exists (queue s2) | by exists new].
Qed.


(** The bytes that leave the queue are bytes. *)
Lemma moves_u8 out s s' : good s -> moves out s s' -> Forall is_u8 out.
Proof.
  intros Hg [G' (new & Ha & Hs & _) _ _ _ _ _ _]. pose proof (g_u8 _ G') as [_ Hu]. rewrite Ha in Hu. apply Forall_app in Hu as [_ Hn].
  assert (Hq : Forall is_u8 (queue s ++ new)).
  { apply Forall_app. split; [| done]. apply Forall_app. split; [apply contents_u8, Hg | apply Hg]. }
  rewrite Forall_forall in Hq |- *. intros x Hx. apply Hq. eapply elem_of_sublist; [| exact Hs]. apply elem_of_app. by left.
Qed.

Lemma read_char_ok n s junk : good s -> enough n s ->
  exists c s', uart_read_char PORT junk n s = Some (c, s') /\
    ((c = -1 /\ queue s = [] /\ moves [] s s') \/ (is_u8 c /\ moves [c] s s')).
Proof.
  intros Hg He. destruct (read_ok n s [junk] 1 Hg He) as (data & s' & E & M & Hd & _); [simpl; lia | simpl; lia |].
  unfold uart_read_char. rewrite (bind_some _ _ _ _ _ _ E). unfold ret. cbn [fst snd]. eexists _, s'. split; [reflexivity |].
  destruct data as [| c [| c' l]]; [| | simpl in Hd; lia].
  - left. split; [done |]. split; [| done]. destruct (queue s); [done |]. simpl in Hd. lia.
  - right. split; [| done]. cbn. pose proof (moves_u8 _ _ _ Hg M) as Hu. by apply Forall_cons in Hu as [Hu _].
Qed.

Lemma available_ok n s : good s -> enough n s ->
  exists a s', uart_rx_available PORT n s = Some (a, s') /\ moves [] s s' /\ 0 <= a /\
    (rx_overrun (dev s') = false -> a <= Z.of_nat (length (queue s'))).
Proof.
  intros Hg He. unfold uart_rx_available. rewrite guard_ok by done. cbn [is_null orb negb].
  destruct (disable_ok n s Hg) as (s1 & E1 & D1 & Q1 & T1 & Hm1). rewrite (bind_some _ _ _ _ _ _ E1).
  rewrite masked_irq by done.
  rewrite (bind_some _ _ _ _ _ s1) by reflexivity. rewrite D1, (buffer_available_ok _ (g_rx _ Hg)).
  pose proof (tk_work _ _ _ T1) as W1. unfold enough in He.
  destruct (enable_ok n s1 (tk_good _ _ _ T1)) as (s2 & E2 & M2); [lia |]. rewrite (bind_some _ _ _ _ _ _ E2).
  destruct (irq_ok n s2 (mv_good _ _ _ M2)) as (s3 & E3 & M3); [pose proof (mv_work _ _ _ M2); lia |]. rewrite (bind_some _ _ _ _ _ _ E3).
  pose proof (mv_good _ _ _ M3) as G3.
  destruct (fifo_available_ok n s3 (g_depth _ G3)) as (n4 & h4 & E4 & F4 & D4). rewrite (bind_some _ _ _ _ _ _ E4).
  set (s4 := mkU (dev s3) h4). pose proof (moves_flows n4 s3 h4 G3 F4) as M4.
  eexists _, s4. split; [reflexivity |].
  assert (M : moves [] s s4) by (exact (moves_trans [] [] _ _ _ (taken_moves _ _ _ T1) (moves_trans [] [] _ _ _ M2 (moves_trans [] [] _ _ _ M3 M4)))).
  pose proof (rx_count_bound _ (g_rx _ Hg)). pose proof (ok_size _ (g_rx _ Hg)). unfold shallow, FIFO_DEPTH in D4.
  rewrite length_rx_contents, u32_id by (unfold is_u32; lia). split; [done |]. split; [lia |]. intros Ho.
  pose proof (mv_buffer _ _ _ M Ho) as Hbuf. unfold queue. rewrite length_app, !length_rx_contents in *. cbn [hw s4 length] in *. lia.
Qed.
