(* ===== verification/UartPort.v ===== *)
(** * The serial port as a stream

    The operations of a program that reads from the port, in any order and with
    interrupts at any access that is not masked, deliver the bytes of the line in order.
    Resizing the buffer, the transmitter, the pins and the detection of the baud
    rate follow. *)

From S2P Require Import Prelude Uart UartProps.

Lemma cell_contents b c l : contents b = c :: l -> cell (rpos b) b = c \/ ~ rx_ok b.
Proof.
  intros E. destruct (decide (0 <= rpos b < size b)) as [Hr | Hr]; [left | right; by intros []].
  assert (H0 : (0 < count b)%nat) by (rewrite <- length_rx_contents, E; simpl; lia).
  pose proof (nth_contents b 0 H0) as Hn. rewrite E in Hn. cbn [nth] in Hn. rewrite Hn. f_equal. rewrite Z.add_0_r, Z.mod_small; lia.
Qed.

Lemma peek_unsafe_ok n s : good s -> masked s -> enough n s -> 2 <= size (rx_buffer (dev s)) ->
  exists c s', uart_peek_char_unsafe n s = Some (c, s') /\ moves [] s s' /\
    ((c = -1 /\ queue s = []) \/ exists q, queue s' = c :: q).
Proof.
  intros Hg Hm He Hs. unfold uart_peek_char_unsafe. rewrite masked_irq by done.
  destruct (available_unsafe_ok n s Hg Hm) as (n1 & h1 & E1 & F1 & T1). pose proof (masked_flows _ _ _ (dev s) _ Hm F1) as Hm1.
  rewrite (bind_some _ _ _ _ _ _ E1), truth_len. set (s1 := mkU (dev s) h1) in *. pose proof (tk_good _ _ _ T1) as G1.
  destruct (queue s1) as [| q0 q] eqn:Eq; cbn [negb].
  { exists (-1), s1. split; [done |]. split; [by apply taken_moves |]. left. split; [done |].
    destruct (tk_queue _ _ _ T1) as (new & _ & H). rewrite Eq in H. cbn in H. by destruct (queue s). }
  rewrite masked_irq by done. rewrite (bind_some _ _ _ _ _ s1) by reflexivity. rewrite (buffer_available_ok _ (g_rx _ G1)).
  assert (exists s2, (If Z.of_nat (length (contents (rx_buffer (dev s1)))) =? 0 Then uart_rx_copy_fifo_to_buffer_unsafe irq) n s1 = Some (tt, s2) /\
    moves [] s1 s2 /\ masked s2 /\ contents (rx_buffer (dev s2)) <> []) as (s2 & E2 & M2 & Hm2 & Hne).
  { destruct (Z.eqb_spec (Z.of_nat (length (contents (rx_buffer (dev s1))))) 0) as [E0 | E0].
    - assert (Ec : contents (rx_buffer (dev s1)) = []) by (apply length_zero_iff_nil; lia).
      destruct (copy_ok irq n s1) as (s2 & E2 & M2 & Hnil & out & new & F & C); [rewrite Hm1; apply calm_irq | exact G1 | |].
      { pose proof (tk_work _ _ _ T1). unfold enough in He. cbn [hw s1] in *. lia. }
      exists s2. split; [done |]. split; [done |]. split; [transitivity (intr_on (hw s1)); [apply F | exact Hm1] |]. rewrite (cp_contents _ _ _ C), Ec. cbn [app].
      pose proof (fl_rx _ _ _ _ (proj1 F)) as Fr. rewrite Hnil, app_nil_r in Fr.
      unfold queue in Eq. rewrite Ec in Eq. cbn [app] in Eq. rewrite Fr, Eq. intros Hk%(f_equal length). rewrite length_keep in Hk.
      simpl in Hk. change (dev s1) with (dev s) in Hk. lia.
    - exists s1. split; [done |]. split; [by apply moves_refl |]. split; [done |]. intros Hn. rewrite Hn in E0. done. }
  rewrite (bind_some _ _ _ _ _ _ E2), masked_irq by done. eexists _, s2. split; [reflexivity |].
  split; [exact (moves_trans [] [] _ _ _ (taken_moves _ _ _ T1) M2) |]. right. unfold queue.
  destruct (contents (rx_buffer (dev s2))) as [| c l] eqn:Ec; [done |].
  destruct (cell_contents _ _ _ Ec) as [-> | Hx]; [by eexists | destruct Hx; apply M2].
Qed.

Lemma uart_peek_ok n s : good s -> enough n s -> 2 <= size (rx_buffer (dev s)) ->
  exists c s1 s', uart_peek_char PORT n s = Some (c, s') /\ moves [] s s1 /\ moves [] s1 s' /\
    ((c = -1 /\ queue s = []) \/ exists q, queue s1 = c :: q).
Proof.
  intros Hg He Hs. unfold uart_peek_char. rewrite guard_ok by done. cbn [is_null orb negb].
  destruct (disable_ok n s Hg) as (s1 & E1 & D1 & Q1 & T1 & Hm1). rewrite (bind_some _ _ _ _ _ _ E1).
  pose proof (taken_moves _ _ _ T1) as M1.
  destruct (peek_unsafe_ok n s1 (tk_good _ _ _ T1) Hm1) as (c & s2 & E2 & M2 & Hc);
    [by eapply enough_moves | by rewrite D1 |]. rewrite (bind_some _ _ _ _ _ _ E2).
  assert (M12 := moves_trans [] [] _ _ _ M1 M2).
  destruct (enable_ok n s2 (mv_good _ _ _ M2)) as (s3 & E3 & M3).
  { pose proof (enough_moves _ _ _ _ M12 He) as He2. unfold enough in He2. lia. }
  rewrite (bind_some _ _ _ _ _ _ E3). exists c, s2, s3. rewrite Q1 in Hc. done.
Qed.

(** ** A program that reads *)

Inductive rx_op := Read (usersize : nat) | ReadChar | Peek | Available | Idle.

(** An operation and the bytes that it delivers. *)
Definition run_op (op : rx_op) : U (list Z) :=
  match op with
  | Read k => x <- uart_read PORT (repeat 0 k) (Z.of_nat k) ;; ret (take (Z.to_nat (fst x)) (snd x))
  | ReadChar => c <- uart_read_char PORT 0 ;; ret (if c =? -1 then [] else [c])
  | Peek => uart_peek_char PORT ;; ret []
  | Available => uart_rx_available PORT ;; ret []
  | Idle => irq ;; ret []
  end.

Fixpoint run_ops (ops : list rx_op) : U (list Z) :=
  match ops with
  | [] => ret []
  | op :: ops' => l <- run_op op ;; l' <- run_ops ops' ;; ret (l ++ l')
  end.

Definition op_ok (op : rx_op) : Prop := match op with Read k => Z.of_nat k < 2147483648 | _ => True end.

Lemma run_op_ok n op s : good s -> enough n s -> 2 <= size (rx_buffer (dev s)) -> op_ok op ->
  exists out s', run_op op n s = Some (out, s') /\ moves out s s'.
Proof.
  intros Hg He Hs Hop. destruct op as [k | | | |]; cbn [run_op].
  - destruct (read_ok n s (repeat 0 k) (Z.of_nat k) Hg He) as (data & s' & E & M & Hd & _); [rewrite repeat_length; lia | by rewrite repeat_length |].
    rewrite (bind_some _ _ _ _ _ _ E). unfold ret, filled. cbn [fst snd]. rewrite Nat2Z.id, take_app_length. by exists data, s'.
  - destruct (read_char_ok n s 0 Hg He) as (c & s' & E & H). rewrite (bind_some _ _ _ _ _ _ E). unfold ret.
    destruct H as [(-> & _ & M) | [Hc M]]; [by exists [], s' |].
    exists [c], s'. split; [| done]. destruct (Z.eqb_spec c (-1)); [unfold is_u8 in Hc; lia | done].
  - destruct (uart_peek_ok n s Hg He Hs) as (c & s1 & s' & E & M1 & M2 & _). rewrite (bind_some _ _ _ _ _ _ E).
    exists [], s'. split; [done |]. exact (moves_trans [] [] _ _ _ M1 M2).
  - destruct (available_ok n s Hg He) as (a & s' & E & M & _). rewrite (bind_some _ _ _ _ _ _ E). by exists [], s'.
  - destruct (irq_ok n s Hg) as (s' & E & M); [unfold enough in He; lia |]. rewrite (bind_some _ _ _ _ _ _ E). by exists [], s'.
Qed.

Lemma run_ops_ok n ops s : good s -> enough n s -> 2 <= size (rx_buffer (dev s)) -> Forall op_ok ops ->
  exists out s', run_ops ops n s = Some (out, s') /\ moves out s s'.
Proof.
  intros Hg He Hs Hops. revert s Hg He Hs. induction Hops as [| op ops Hop _ IH]; intros s Hg He Hs.
  { exists [], s. split; [done | by apply moves_refl]. }
  destruct (run_op_ok n op s Hg He Hs Hop) as (o1 & s1 & E1 & M1). cbn [run_ops]. rewrite (bind_some _ _ _ _ _ _ E1).
  destruct (IH s1) as (o2 & s2 & E2 & M2); [apply M1 | by eapply enough_moves | by rewrite (mv_size _ _ _ M1) |].
  rewrite (bind_some _ _ _ _ _ _ E2). exists (o1 ++ o2), s2. split; [done | by eapply moves_trans].
Qed.

(** C34: The receive side of the serial port is a stream.  A program that reads,
    peeks and asks for available bytes in any order, with bytes arriving at any
    access to a register and a pending interrupt taken, whenever it is not masked, at
    every access of these calls to what they share with the handler, completes all
    its calls.  What it has read, followed by what the buffer and the FIFO still
    hold, is the bytes of the line in order, without the bytes that an overflow of
    the buffer has discarded; and when [rx_overrun] is clear nothing is missing,
    except bytes that the hardware has just dropped and whose interrupt is still
    pending. *)
Theorem uart_stream n ops s : good s -> enough n s -> 2 <= size (rx_buffer (dev s)) -> Forall op_ok ops ->
  exists out s' new, run_ops ops n s = Some (out, s') /\ good s' /\
    arrived (hw s') = arrived (hw s) ++ new /\
    (out ++ queue s') `sublist_of` (queue s ++ new) /\
    (rx_overrun (dev s') = false ->
       out ++ queue s' = queue s ++ new /\ (missed (hw s') = true -> Z.testbit (int_raw (hw s')) UIOF = true)).
Proof.
  intros Hg He Hs Hops. destruct (run_ops_ok n ops s Hg He Hs Hops) as (out & s' & E & M).
  destruct (mv_queue _ _ _ M) as (new & Ha & Hsub & Heq). exists out, s', new. pose proof (mv_good _ _ _ M) as G'.
  split_and!; [done | done | done | done |]. intros Ho. split; [by apply Heq |]. intros Hm.
  destruct (g_missed _ G' Hm) as [? | Ho']; [done | congruence].
Qed.

(** C35: [uart_read] equals the reference "the oldest bytes of the buffer, then of
    the FIFO": with interrupts masked it copies them to the front of the user's
    buffer, in linear pieces, and leaves the rest of it alone; it returns their
    number, which is the number asked for unless everything that was stored when it
    was called has been read. *)
Theorem uart_read_correct n s ub usersize :
  good s -> enough n s -> 0 <= usersize <= Z.of_nat (length ub) -> Z.of_nat (length ub) < 2147483648 ->
  exists data s', uart_read PORT ub usersize n s = Some ((Z.of_nat (length data), data ++ drop (length data) ub), s') /\
    moves data s s' /\
    Z.min usersize (Z.of_nat (length (queue s))) <= Z.of_nat (length data) <= usersize /\
    (data `prefix_of` queue s \/ queue s `prefix_of` data).
Proof. intros Hg He Hu Hl. exact (read_ok n s ub usersize Hg He Hu Hl). Qed.

(** ** Resizing the buffer *)

Lemma read_char_unsafe_ok n s : good s -> masked s ->
  match contents (rx_buffer (dev s)) with
  | [] => uart_read_char_unsafe n s = Some (-1, s)
  | c :: q => let s' := mkU (set_rx (skip 1 (rx_buffer (dev s))) (dev s)) (hw s) in
      uart_read_char_unsafe n s = Some (c, s') /\ contents (rx_buffer (dev s')) = q /\ good s'
  end.
Proof.
  intros Hg Hm. pose proof (g_rx _ Hg) as Hb. destruct (contents (rx_buffer (dev s))) as [| c q] eqn:Ec; unfold uart_read_char_unsafe;
    rewrite masked_irq by done; rewrite (bind_some _ _ _ _ _ s) by reflexivity; rewrite (buffer_available_ok _ Hb), Ec, truth_len; [done |]. cbv zeta.
  assert (H0 : (0 < count (rx_buffer (dev s)))%nat) by (rewrite <- length_rx_contents, Ec; simpl; lia). pose proof (ok_rpos _ Hb).
  rewrite masked_irq by done. rewrite (bind_some _ _ _ _ c s).
  2: { unfold field. destruct (cell_contents _ _ _ Ec) as [-> | Hx]; [done | destruct Hx; done]. }
  rewrite masked_irq by done. split; [done |]. split.
  - cbn [dev rx_buffer set_rx]. rewrite contents_skip by (try done; lia). by rewrite Ec.
  - exact (tk_good _ _ _ (taken_skip 1 s Hg ltac:(lia) ltac:(lia))).
Qed.

(** The copy: on a quiet line it ends with the contents; with a byte in the FIFO, or
    with more stored than fits, it runs to the end of the new buffer. *)
Lemma resize_copy_ok n k nb dn s : good s -> masked s -> (length dn + k = length nb)%nat ->
  exists data s' new, resize_copy k (Z.of_nat (length dn)) (filled dn nb) n s =
      Some ((Z.of_nat (length (dn ++ data)), filled (dn ++ data) nb), s') /\
    good s' /\ flows [] new (hw s) (hw s') /\ rx_overrun (dev s') = rx_overrun (dev s) /\ Forall is_u8 data /\ (length data <= k)%nat /\
    (work (hw s) = 0%nat -> (length (contents (rx_buffer (dev s))) <= k)%nat -> data = contents (rx_buffer (dev s))) /\
    (rx_fifo (hw s) <> [] \/ (k <= length (contents (rx_buffer (dev s))))%nat -> length data = k).
Proof.
  revert dn s. induction k as [| k IH]; intros dn s Hg Hm Hk; cbn [resize_copy];
    destruct (available_unsafe_ok n s Hg Hm) as (n1 & h1 & E1 & F1 & T1); rewrite (bind_some _ _ _ _ _ _ E1); set (s1 := mkU (dev s) h1) in *.
  { exists [], s1, n1. rewrite app_nil_r. split; [by destruct (negb _) |]. split_and!; try done; [apply T1 |].
    intros _ H. symmetry. apply length_zero_iff_nil. lia. }
  pose proof (tk_good _ _ _ T1) as G1. pose proof (fl_rx _ _ _ _ (proj1 F1)) as Er. cbn [app] in Er.
  assert (Hrx : rx_fifo (hw s) <> [] -> rx_fifo h1 <> []) by (rewrite Er; by destruct (rx_fifo (hw s))).
  assert (Hw1 : work (hw s) = 0%nat -> work h1 = 0%nat) by (pose proof (tk_work _ _ _ T1) as Hw; change (hw s1) with h1 in Hw; lia).
  assert (Hq : queue s1 = contents (rx_buffer (dev s)) ++ rx_fifo h1) by done. rewrite truth_len.
  destruct (queue s1) as [| q0 q] eqn:Eq; cbn [negb].
  { symmetry in Hq. apply app_eq_nil in Hq as [Hc Hr]. exists [], s1, n1. rewrite app_nil_r, Hc.
    split_and!; try done; [simpl; lia |]. intros [H | H]; [by destruct (Hrx H) | simpl in H; lia]. }
  pose proof (masked_flows _ _ _ (dev s) _ Hm F1) as Hm1. pose proof (read_char_unsafe_ok n s1 G1 Hm1) as Hr. change (rx_buffer (dev s1)) with (rx_buffer (dev s)) in Hr.
  assert (exists c s2, uart_read_char_unsafe n s1 = Some (c, s2) /\ good s2 /\ hw s2 = h1 /\ rx_overrun (dev s2) = rx_overrun (dev s) /\
    ((contents (rx_buffer (dev s)) = [] /\ contents (rx_buffer (dev s2)) = []) \/
     (is_u8 c /\ contents (rx_buffer (dev s)) = c :: contents (rx_buffer (dev s2))))) as (c & s2 & E2 & G2 & H2 & O2 & Hc).
  { pose proof (contents_u8 _ (g_rx _ Hg)) as Hu. destruct (contents (rx_buffer (dev s))) as [| c l] eqn:Ec.
    - exists (-1), s1. split_and!; try done. by left.
    - destruct Hr as (E2 & Hc & G2). apply Forall_cons in Hu as [Hu _]. eexists _, _. split; [exact E2 |].
      split_and!; try done. right. by rewrite Hc. }
  rewrite (bind_some _ _ _ _ _ _ E2), Nat2Z.id, filled_insert by lia.
  destruct (IH (dn ++ [u8 c]) s2 G2) as (data & s' & n2 & E' & G' & F' & O' & U' & L' & K1 & K2); [unfold masked; by rewrite H2 | rewrite length_app; simpl; lia |].
  exists (u8 c :: data), s', (n1 ++ n2). rewrite <- app_assoc in E'. cbn [app] in E'. rewrite H2 in *.
  split; [rewrite <- E'; f_equal; rewrite length_app; simpl; lia |]. split; [done |]. split; [by apply (flows_trans [] [] _ _ _ _ _ F1 F') |].
  split; [congruence |]. split; [constructor; [apply u8_range | done] |]. split; [simpl; lia |].
  destruct Hc as [[Hc1 Hc2] | [Hu Hc]]; split.
  - intros Hw _. exfalso. rewrite Hc1 in Hq. specialize (Hw1 Hw). unfold work in Hw1. destruct (rx_fifo h1); [done | simpl in Hw1; lia].
  - intros H. simpl. f_equal. apply K2. left. destruct H as [H | H]; [by apply Hrx | rewrite Hc1 in H; simpl in H; lia].
  - intros Hw Hl. rewrite Hc in Hl |- *. simpl in Hl. by rewrite u8_id, K1 by (auto || lia).
  - intros H. simpl. f_equal. apply K2. rewrite Hc in H. destruct H as [H | H]; [left; by apply Hrx | right; simpl in H; lia].
Qed.

(** The port with a new buffer that holds [c] at its front. *)
Lemma front_ok new_size buf (w : Z) : 0 < new_size < 2147483648 -> Z.of_nat (length buf) = new_size -> Forall is_u8 buf ->
  0 <= w < new_size -> rx_ok (mkRx new_size 0 w buf) /\ contents (mkRx new_size 0 w buf) = take (Z.to_nat w) buf.
Proof.
  intros Hs Hl Hu Hw. assert (Hok : rx_ok (mkRx new_size 0 w buf)) by (split; cbn; try done; lia). split; [done |].
  pose proof (count_Z _ Hok) as Hc. cbn in Hc. rewrite (proj2 (Z.ltb_ge w 0)) in Hc by lia.
  pose proof (contents_take (mkRx new_size 0 w buf) w Hok ltac:(cbn; lia) ltac:(cbn; lia)) as Ht. cbn [rpos buffer] in Ht.
  change (drop (Z.to_nat 0) buf) with buf in Ht. rewrite Ht, take_ge; [done |]. rewrite length_rx_contents. lia.
Qed.

Lemma good_new s b : good s -> rx_ok b -> good (mkU (set_rx b (dev s)) (hw s)).
Proof. intros [? ? ? ? ?] Hb. by split. Qed.

(** The end of the resize: the interrupt may come, the old buffer is freed. *)
Lemma resize_end n s old : good s -> (work (hw s) < n)%nat -> size (rx_buffer (dev s)) = old ->
  exists s', (ETS_UART_INTR_ENABLE ;; log free_rx_buffer ;; field (fun u => size (rx_buffer u))) n s = Some (old, s') /\ moves [] s s'.
Proof.
  intros Hg Hw Ho. destruct (enable_ok n s Hg Hw) as (s1 & E1 & M1). rewrite (bind_some _ _ _ _ _ _ E1).
  set (s2 := mkU (dev s1) (add_call free_rx_buffer (hw s1))). rewrite (bind_some _ _ _ _ tt s2) by done.
  exists s2. split; [unfold field; cbn [dev s2]; by rewrite (mv_size _ _ _ M1), Ho |].
  destruct M1 as [[? ? ? ? ?] ? ? ? ? ? (? & ? & Hp) ?]. split; try done. split; [done |]. split; [done |].
  cbn [hw s2 calls add_call]. by rewrite pin_calls_app, app_nil_r.
Qed.

(** [uart_resize_rx_buffer] keeps what is stored only when nothing is on its
    way: on a quiet line with an empty FIFO and fewer bytes stored than the new size
    the contents are copied.  But with a byte in the FIFO, or with as many bytes
    stored as the new size, the loop runs to the end of the new buffer, filling it
    with 0xFF after the stored bytes, the write position wraps to the read position,
    and when interrupts are enabled again everything that was stored is lost, with
    no overrun flagged. *)
Theorem resize_keeps_or_loses n s new_size nb :
  good s -> (work (hw s) < n)%nat -> 0 < new_size < 2147483648 -> size (rx_buffer (dev s)) <> new_size ->
  Z.of_nat (length nb) = new_size -> Forall is_u8 nb ->
  exists s1 s' new, uart_resize_rx_buffer PORT new_size (Some nb) n s = Some (new_size, s') /\
    rx_fifo (hw s1) = rx_fifo (hw s) ++ new /\ rx_overrun (dev s1) = rx_overrun (dev s) /\ moves [] s1 s' /\
    size (rx_buffer (dev s')) = new_size /\
    (work (hw s) = 0%nat -> (length (contents (rx_buffer (dev s))) < length nb)%nat ->
       contents (rx_buffer (dev s1)) = contents (rx_buffer (dev s))) /\
    (rx_fifo (hw s) <> [] \/ (length nb <= length (contents (rx_buffer (dev s))))%nat ->
       contents (rx_buffer (dev s1)) = []).
Proof.
  intros Hg Hn Hs Hne Hl Hu. assert (En : Z.to_nat new_size = length nb) by lia.
  unfold uart_resize_rx_buffer. rewrite guard_ok by done. cbn [is_null orb negb].
  rewrite (bind_some _ _ _ _ (size (rx_buffer (dev s))) s) by done. rewrite (proj2 (Z.eqb_neq _ _) Hne).
  destruct (disable_ok n s Hg) as (s1 & E1 & D1 & Q1 & T1 & Hm1). rewrite (bind_some _ _ _ _ _ _ E1). pose proof (tk_work _ _ _ T1) as W1.
  pose proof (tk_good _ _ _ T1) as G1. rewrite En. assert (H1 : hw s1 = set_intr false (handler (hw s)) (hw s)) by (by injection E1 as <-).
  destruct (resize_copy_ok n (length nb) nb [] s1 G1 Hm1 eq_refl) as (data & s2 & new & E2 & G2 & F2 & O2 & U2 & L2 & K1 & K2).
  cbn [app length Z.of_nat] in E2. unfold filled at 1 in E2. cbn [length app drop] in E2. rewrite (bind_some _ _ _ _ _ _ E2). cbn [fst snd].
  set (w := if Z.of_nat (length data) =? new_size then 0 else Z.of_nat (length data)).
  set (s3 := mkU (set_rx (mkRx new_size 0 w (filled data nb)) (dev s2)) (hw s2)). rewrite (bind_some _ _ _ _ tt s3) by done.
  destruct (front_ok new_size (filled data nb) w) as [Hok Hcon]; [done | ..].
  { unfold filled. rewrite length_app, length_drop. lia. }
  { unfold filled. apply Forall_app. split; [done | by apply Forall_drop]. }
  { unfold w. destruct (_ =? _) eqn:?; lia. }
  pose proof (flows_length _ _ _ _ F2) as Hwk. pose proof (fl_rx _ _ _ _ (proj1 F2)) as Er. rewrite H1 in Er, K1, K2, Hwk. rewrite D1 in K1, K2, O2.
  destruct (resize_end n s3 new_size) as (s4 & E4 & M4); [by apply good_new | | done |].
  { change (work (hw s2) < n)%nat. unfold work in *. cbn [rx_fifo set_intr to_come script length] in *. unfold to_come in *. cbn [script set_intr] in *. lia. }
  exists s3, s4, new. split; [exact E4 |]. split; [exact Er |]. split; [done |]. split; [done |]. split; [by rewrite (mv_size _ _ _ M4) |].
  cbn [rx_buffer dev s3 set_rx]. rewrite Hcon. unfold w. split.
  - intros Hw Hc. rewrite (K1 Hw) in * by lia. rewrite (proj2 (Z.eqb_neq _ _)), Nat2Z.id by lia. unfold filled. by rewrite take_app_length.
  - intros H. rewrite (K2 H), (proj2 (Z.eqb_eq _ _)) by lia. done.
Qed.

(** ** The transmitter *)

Lemma tx_count h : shallow h -> (length (tx_fifo h) <= 128)%nat ->
  Z.land (Z.shiftr (USS h) USTXC) 0xff = Z.of_nat (length (tx_fifo h)).
Proof.
  unfold shallow, FIFO_DEPTH. intros Hr Hl. apply z_ext. intros k Hk. unfold USS, USTXC.
  rewrite Z.land_spec, Z.shiftr_spec, !Z.lor_spec, Z.land_spec, Z.shiftl_spec by lia. change 0xff with (Z.ones 8). rewrite Z.testbit_ones by lia.
  rewrite (testbit_small (Z.of_nat (length (rx_fifo h))) 16 (k + 16)) by lia. cbn [orb].
  replace (k + 16 - 16) with k by lia. replace (0 <=? k) with true by lia. destruct (Z.ltb_spec k 8); cbn [andb].
  - replace (Z.testbit 0xFF00FF00 (k + 16)) with false.
    2: { assert (k = 0 \/ k = 1 \/ k = 2 \/ k = 3 \/ k = 4 \/ k = 5 \/ k = 6 \/ k = 7) as Hc by lia.
         by repeat (destruct Hc as [-> | Hc]); subst. }
    by rewrite andb_false_r, orb_false_r, andb_true_r.
  - rewrite andb_false_r. symmetry. apply (testbit_small _ 8 k); lia.
Qed.

(** Accesses until the transmitter is empty. *)
Definition pace (h : uhw) : nat := (length (script h) + length (tx_fifo h))%nat.

Lemma pace_advance h : (0 < length (tx_fifo h))%nat -> (pace (advance h) < pace h)%nat.
Proof.
  intros Hp. unfold pace, advance. destruct (script h) as [| t ts] eqn:Es.
  - cbn [script tx_fifo shift_out set_fifo]. rewrite Es, length_drop. simpl. lia.
  - set (h1 := shift_out (t_tx t) (set_script ts h)). destruct (line_receives (t_rx t) h1) as (new & L & _ & Hs).
    cbn [script tx_fifo raise set_int]. rewrite Hs. pose proof (proj2 (fl_tx _ _ _ _ L)) as Ht.
    unfold h1 in *. cbn [script tx_fifo shift_out set_fifo set_script] in *. rewrite length_drop in Ht. simpl. lia.
Qed.

Lemma tx_available_ok n s : good s -> (work (hw s) < n)%nat -> (length (tx_fifo (hw s)) <= 128)%nat ->
  exists s', uart_tx_fifo_available n s = Some (Z.of_nat (length (tx_fifo (hw s'))), s') /\ moves [] s s' /\
    ((0 < length (tx_fifo (hw s')))%nat -> (pace (hw s') < pace (hw s))%nat).
Proof.
  intros Hg Hw Ht. destruct (irq_ok n s Hg Hw) as (s1 & E1 & M1). unfold uart_tx_fifo_available. rewrite (bind_some _ _ _ _ _ _ E1).
  destruct (flows_advance (hw s1)) as [new F]. pose proof (moves_flows new s1 _ (mv_good _ _ _ M1) F) as M2.
  exists (mkU (dev s1) (advance (hw s1))). pose proof (mv_tx _ _ _ M1) as (_ & H1 & H1'). pose proof (mv_tx _ _ _ M2) as (_ & H2 & _). cbn [hw] in *.
  split; [unfold reg; cbn [hw]; rewrite tx_count; [done | apply M2 | lia] |]. split; [exact (moves_trans [] [] _ _ _ M1 M2) |].
  intros Hp. pose proof (pace_advance (hw s1) ltac:(lia)). unfold pace in *. lia.
Qed.

(** Waiting for room. *)
Lemma wait_room n k s : good s -> (work (hw s) < n)%nat -> (length (tx_fifo (hw s)) <= 128)%nat -> (pace (hw s) < k)%nat ->
  exists s', iter_aux k (fun _ : unit => b <- uart_tx_fifo_full ;; if b : bool then (ret tt ;; ret (inl tt)) else ret (inr tt)) tt n s = Some (tt, s') /\
    moves [] s s' /\ (length (tx_fifo (hw s')) < 127)%nat.
Proof.
  revert s. induction k as [| k IH]; intros s Hg Hw Ht Hp; [lia |]. cbn [iter_aux].
  destruct (tx_available_ok n s Hg Hw Ht) as (s1 & E1 & M1 & P1). unfold uart_tx_fifo_full.
  rewrite (bind_some _ _ _ _ (0x7f <=? Z.of_nat (length (tx_fifo (hw s1)))) s1) by (by rewrite (bind_some _ _ _ _ _ _ E1)).
  destruct (Z.leb_spec 0x7f (Z.of_nat (length (tx_fifo (hw s1))))) as [Hf | Hf]; [| exists s1; split; [done |]; split; [done | lia]].
  pose proof (mv_work _ _ _ M1). pose proof (mv_tx _ _ _ M1) as (_ & Hl & _).
  destruct (IH s1) as (s2 & E2 & M2 & H2); [apply M1 | lia | lia | specialize (P1 ltac:(lia)); lia |].
  exists s2. split; [exact E2 |]. split; [exact (moves_trans [] [] _ _ _ M1 M2) | done].
Qed.

(** [out] has been handed to the transmitter. *)
Record writes (out : list Z) (s s' : ust) : Prop := {
  wr_good : good s';
  wr_out : sent (hw s') ++ tx_fifo (hw s') = sent (hw s) ++ tx_fifo (hw s) ++ out;
  wr_depth : (length (tx_fifo (hw s)) <= 127 -> length (tx_fifo (hw s')) <= 127)%nat;
  wr_budget : (work (hw s') <= work (hw s) /\ length (script (hw s')) <= length (script (hw s)))%nat
}.

Lemma writes_trans o1 o2 s1 s2 s3 : writes o1 s1 s2 -> writes o2 s2 s3 -> writes (o1 ++ o2) s1 s3.
Proof.
  intros [A1 A2 A3 [A4 A4']] [B1 B2 B3 [B4 B4']]. split; [done | | auto | lia].
  by rewrite B2, !app_assoc, <- (app_assoc _ (tx_fifo (hw s1))), <- A2.
Qed.

Section Write.
Context {G : GdbBuild}.

Lemma do_write_ok n s c : good s -> (work (hw s) + length (script (hw s)) + 128 < n)%nat -> (length (tx_fifo (hw s)) <= 127)%nat ->
  exists s', uart_do_write_char c n s = Some (tt, s') /\ writes [u8 c] s s'.
Proof.
  intros Hg Hn Ht. unfold uart_do_write_char.
  destruct (wait_room n n s Hg) as (s1 & E1 & M1 & H1); [lia | lia | unfold pace; lia |].
  rewrite (bind_some (while uart_tx_fifo_full (ret tt)) _ _ _ tt s1) by exact E1.
  pose proof (mv_work _ _ _ M1). destruct (irq_ok n s1 (mv_good _ _ _ M1)) as (s2 & E2 & M2); [lia |]. rewrite (bind_some _ _ _ _ _ _ E2).
  destruct (flows_advance (hw s2)) as [new F]. pose proof (moves_flows new s2 _ (mv_good _ _ _ M2) F) as M3.
  pose proof (mv_tx _ _ _ M2) as (_ & H2 & _).
  pose proof (moves_trans [] [] _ _ _ M1 (moves_trans [] [] _ _ _ M2 M3)) as M. cbn [app] in M.
  eexists. split; [reflexivity |]. destruct M as [[G1 G2 G3 G4 G5] _ _ _ Hwk _ _ (Hs & Hl & Hsc)]. pose proof (mv_tx _ _ _ M3) as (_ & H3 & _).
  split; [by split | | | split; [exact Hwk | exact Hsc]]; unfold push_fifo; cbn [hw sent tx_fifo set_fifo] in *.
  - by rewrite !app_assoc, Hs.
  - intros _. rewrite length_app. simpl. lia.
Qed.

Lemma write_chars_ok n buf s : good s -> (work (hw s) + length (script (hw s)) + 128 < n)%nat -> (length (tx_fifo (hw s)) <= 127)%nat ->
  exists s', write_chars buf n s = Some (tt, s') /\ writes (map u8 buf) s s'.
Proof.
  revert s. induction buf as [| c buf IH]; intros s Hg Hn Ht; cbn [write_chars map].
  { exists s. split; [done |]. split; [done | by rewrite app_nil_r | done | done]. }
  destruct (do_write_ok n s c Hg Hn Ht) as (s1 & E1 & W1). rewrite (bind_some _ _ _ _ _ _ E1). pose proof (wr_budget _ _ _ W1) as [Hb1 Hb2].
  destruct (IH s1) as (s2 & E2 & W2); [apply W1 | lia | by apply W1 |].
  exists s2. split; [exact E2 |]. exact (writes_trans [u8 c] _ _ _ _ W1 W2).
Qed.

End Write.
