(* ===== verification/UartConfig.v ===== *)
(** * Configuration of the ESP8266 serial port

    Opening the port, with all the ways in which that fails.  The pins: UART0 can be
    connected to the pins 1 (or 2) and 3, or, swapped, to the pins 15 and 13; the
    port structure, the swap register and the modes of the pins have to agree.  The
    detection of the baud rate. *)

From S2P Require Import Prelude Uart UartProps UartPort.

(** The mode that a pin was set to last. *)
Definition mode_of (l : list (Z * Z)) (p : Z) : option Z :=
  fold_left (fun m e => if fst e =? p then Some (snd e) else m) l None.

Lemma mode_snoc l p m q : mode_of (l ++ [(p, m)]) q = if p =? q then Some m else mode_of l q.
Proof. unfold mode_of. by rewrite fold_left_app. Qed.

Definition modes (s : ust) : list (Z * Z) := pin_calls (calls (hw s)).
Definition used (s : ust) (p : Z) : Prop := exists m, mode_of (modes s) p = Some m /\ m <> INPUT.
Definition unused (s : ust) (p : Z) : Prop := mode_of (modes s) p = None \/ mode_of (modes s) p = Some INPUT.

(** UART0 with both directions, on pins that agree with the hardware. *)
Record routed (s : ust) : Prop := {
  ro_nr : uart_nr (dev s) = UART0;
  ro_tx : tx_enabled (dev s) = true;
  ro_pins : (tx_pin (dev s) = 15 /\ rx_pin (dev s) = 13 /\ Z.testbit (ioswap (hw s)) IOSWAPU0 = true) \/
    ((tx_pin (dev s) = 1 \/ tx_pin (dev s) = 2) /\ rx_pin (dev s) = 3 /\ Z.testbit (ioswap (hw s)) IOSWAPU0 = false);
  ro_used : used s (tx_pin (dev s)) /\ used s (rx_pin (dev s));
  ro_unused p : p ∈ [1; 2; 3; 13; 15] -> p <> tx_pin (dev s) -> p <> rx_pin (dev s) -> unused s p
}.

(** A mode is set. *)
Definition with_mode (p m : Z) (s : ust) : ust := mkU (dev s) (add_call (pinMode p m) (hw s)).
Definition with_pins (rx tx : Z) (s : ust) : ust := mkU (set_pins_of rx tx (dev s)) (hw s).

Lemma modes_with p m s : modes (with_mode p m s) = modes s ++ [(p, m)].
Proof. unfold modes, with_mode. cbn [calls hw add_call]. by rewrite pin_calls_app. Qed.

Lemma good_mode p m s : good s -> good (with_mode p m s).
Proof. intros [? ? ? ? ?]. by split. Qed.
Lemma good_pins rx tx s : good s -> good (with_pins rx tx s).
Proof. intros [? ? ? ? ?]. by split. Qed.

Lemma ioswap_ok on n s : good s -> (work (hw s) < n)%nat ->
  exists s', ioswap_u0 on n s = Some (tt, s') /\ good s' /\ same_port (dev s) (dev s') /\ modes s' = modes s /\
    Z.testbit (ioswap (hw s')) IOSWAPU0 = on /\ (work (hw s') <= work (hw s))%nat.
Proof.
  intros Hg Hw. unfold ioswap_u0. destruct (irq_ok n s Hg Hw) as (s1 & E1 & M1). rewrite (bind_some _ _ _ _ _ _ E1).
  destruct (flows_advance (hw s1)) as [n2 F2]. set (s2 := mkU (dev s1) (advance (hw s1))).
  pose proof (moves_flows n2 s1 _ (mv_good _ _ _ M1) F2 : moves [] s1 s2) as M2. rewrite (bind_some _ _ _ _ (ioswap (hw s2)) s2) by done.
  pose proof (mv_work _ _ _ M1). pose proof (mv_work _ _ _ M2).
  destruct (irq_ok n s2 (mv_good _ _ _ M2)) as (s3 & E3 & M3); [lia |]. rewrite (bind_some _ _ _ _ _ _ E3).
  destruct (flows_advance (hw s3)) as [n4 F4]. set (s4 := mkU (dev s3) (advance (hw s3))).
  pose proof (moves_flows n4 s3 _ (mv_good _ _ _ M3) F4 : moves [] s3 s4) as M4.
  assert (M : moves [] s s4) by (exact (moves_trans [] [] _ _ _ M1 (moves_trans [] [] _ _ _ M2 (moves_trans [] [] _ _ _ M3 M4)))).
  eexists. split; [reflexivity |]. pose proof (mv_frame _ _ _ M) as (Hd & _ & Hc). destruct M as [[? ? ? ? ?] _ _ _ Hwk _ _ _].
  split; [by split |]. split; [exact Hd |]. split; [exact Hc |]. split; [| exact Hwk]. cbn [hw ioswap set_conf].
  destruct on; [rewrite Z.lor_spec | rewrite Z.ldiff_spec]; rewrite testbit_bv by (unfold IOSWAPU0; lia);
    rewrite bool_decide_eq_true_2 by done; [apply orb_true_r | apply andb_false_r].
Qed.

(** The port at the end of a swap. *)
Lemma same_port_pins u u' : same_port u u' ->
  uart_nr u' = uart_nr u /\ tx_enabled u' = tx_enabled u /\ tx_pin u' = tx_pin u /\ rx_pin u' = rx_pin u.
Proof. intros ->. done. Qed.


(** The five steps that move both pins and set their modes. *)
Definition moved (t r : Z) (mt mr : Z) (s : ust) : ust :=
  with_mode r mr (with_mode t mt (with_pins r t (with_mode (rx_pin (dev s)) INPUT
    (with_pins (rx_pin (dev s)) t (with_mode (tx_pin (dev s)) INPUT s))))).

Lemma modes_moved t r mt mr s :
  modes (moved t r mt mr s) = modes s ++ [(tx_pin (dev s), INPUT); (rx_pin (dev s), INPUT); (t, mt); (r, mr)].
Proof.
  unfold moved. rewrite !modes_with. change (modes (with_pins ?a ?b ?x)) with (modes x). rewrite modes_with.
  change (modes (with_pins ?a ?b ?x)) with (modes x). rewrite modes_with. by rewrite <- !app_assoc.
Qed.

Lemma mode_of_app4 l a b c d m n p q x :
  mode_of (l ++ [(a, m); (b, n); (c, p); (d, q)]) x =
  if d =? x then Some q else if c =? x then Some p else if b =? x then Some n else if a =? x then Some m else mode_of l x.
Proof.
  change [(a, m); (b, n); (c, p); (d, q)] with ([(a, m)] ++ [(b, n)] ++ [(c, p)] ++ [(d, q)]). by rewrite !app_assoc, !mode_snoc.
Qed.

(** After both pins have been moved and the swap register has been written. *)
Lemma routed_moved t r mt mr s s' : routed s -> mt <> INPUT -> mr <> INPUT -> t <> r ->
  same_port (dev (moved t r mt mr s)) (dev s') -> modes s' = modes (moved t r mt mr s) ->
  (t = 15 /\ r = 13 /\ Z.testbit (ioswap (hw s')) IOSWAPU0 = true) \/
  ((t = 1 \/ t = 2) /\ r = 3 /\ Z.testbit (ioswap (hw s')) IOSWAPU0 = false) ->
  routed s' /\ tx_pin (dev s') = t /\ rx_pin (dev s') = r.
Proof.
  intros [H1 H2 H3 [H4 H4'] H5] Ht Hr Hne (P1 & P2 & P3 & P4)%same_port_pins Hm Hp. cbn in P1, P2, P3, P4.
  rewrite modes_moved in Hm. split; [| done]. split; [congruence | congruence | by rewrite P3, P4 | |].
  - unfold used. rewrite P3, P4, Hm, !mode_of_app4, !Z.eqb_refl. rewrite (proj2 (Z.eqb_neq r t)) by done. split; by eexists.
  - intros p Hin Hpt Hpr. rewrite P3 in Hpt. rewrite P4 in Hpr. unfold unused. rewrite Hm, mode_of_app4.
    rewrite (proj2 (Z.eqb_neq r p)), (proj2 (Z.eqb_neq t p)) by done.
    destruct (Z.eqb_spec (rx_pin (dev s)) p); [by right |]. destruct (Z.eqb_spec (tx_pin (dev s)) p); [by right |]. by apply H5.
Qed.

Lemma good_moved t r mt mr s : good s -> good (moved t r mt mr s).
Proof. intros Hg. unfold moved. by repeat (apply good_mode || apply good_pins). Qed.

Lemma swap_ok n s t : good s -> routed s -> (work (hw s) < n)%nat ->
  exists s', uart_swap PORT t n s = Some (tt, s') /\ good s' /\ routed s' /\ (work (hw s') <= work (hw s))%nat /\
    (tx_pin (dev s'), rx_pin (dev s')) = if rx_pin (dev s) =? 3 then (15, 13) else (if t =? 2 then 2 else 1, 3).
Proof.
  intros Hg Hr Hw. pose proof (g_enabled _ Hg) as Hrx. pose proof Hr as [H1 H2 H3 _ _]. unfold uart_swap. cbn [is_null].
  rewrite (bind_some _ _ _ _ (dev s) s) by done. rewrite H1, Hrx, H2. cbn [Z.eqb UART0].
  destruct H3 as [(Ht & Hp & Hio) | (Ht & Hp & Hio)].
  - rewrite Hp, Ht. cbn [Z.eqb Pos.eqb orb andb].
    set (t' := if t =? 2 then 2 else 1). set (mt := if t =? 2 then FUNCTION_4 else SPECIAL).
    destruct (ioswap_ok false n (moved t' 3 mt SPECIAL s)) as (s' & E & G' & D' & M' & I' & W'); [by apply good_moved | done |].
    exists s'. split; [exact E |]. split; [done |].
    destruct (routed_moved t' 3 mt SPECIAL s s') as (R' & -> & ->); try done.
    { unfold mt. by destruct (t =? 2). }
    { unfold t'. by destruct (t =? 2). }
    { right. split; [unfold t'; destruct (t =? 2); auto | done]. }
  - replace (((tx_pin (dev s) =? 1) || (tx_pin (dev s) =? 2)) && true || (rx_pin (dev s) =? 3) && true) with true
      by (rewrite Hp; by rewrite orb_true_r).
    rewrite Hp. cbn [Z.eqb Pos.eqb].
    destruct (ioswap_ok true n (moved 15 13 FUNCTION_4 FUNCTION_4 s)) as (s' & E & G' & D' & M' & I' & W'); [by apply good_moved | done |].
    exists s'. split; [exact E |]. split; [done |].
    destruct (routed_moved 15 13 FUNCTION_4 FUNCTION_4 s s') as (R' & -> & ->); try done. by left.
Qed.

(** [uart_set_tx] between the pins 1 and 2. *)
Lemma set_tx_ok n s t : good s -> routed s -> rx_pin (dev s) = 3 -> t = 1 \/ t = 2 ->
  exists s', uart_set_tx PORT t n s = Some (tt, s') /\ good s' /\ routed s' /\ (work (hw s') <= work (hw s))%nat /\
    tx_pin (dev s') = t /\ rx_pin (dev s') = 3.
Proof.
  intros Hg Hr Hrx Ht. pose proof Hr as [H1 H2 H3 [H4 H4'] H5]. destruct H3 as [(_ & E & _) | (Hp & _ & Hio)]; [congruence |].
  unfold uart_set_tx. cbn [is_null]. rewrite (bind_some _ _ _ _ (dev s) s) by done. rewrite H1, H2. cbn [Z.eqb UART0 andb].
  destruct (Z.eq_dec (tx_pin (dev s)) t) as [Eq | Hne].
  { exists s. split; [| by rewrite Eq]. destruct Ht as [-> | ->]; rewrite Eq; done. }
  set (m := if t =? 2 then FUNCTION_4 else SPECIAL).
  set (s' := with_mode t m (with_pins (rx_pin (dev s)) t (with_mode (tx_pin (dev s)) INPUT s))). exists s'. split.
  { assert (tx_pin (dev s) = 1 /\ t = 2 \/ tx_pin (dev s) = 2 /\ t = 1) as [[E ->] | [E ->]] by lia; rewrite E; reflexivity. }
  assert (Hm : modes s' = modes s ++ [(tx_pin (dev s), INPUT)] ++ [(t, m)]).
  { unfold s'. rewrite modes_with. change (modes (with_pins ?a ?b ?x)) with (modes x). by rewrite modes_with, <- app_assoc. }
  split; [by repeat (apply good_mode || apply good_pins) |]. split; [| done].
  split; [done | done | right; cbn; split; [done | done] | |].
  - unfold used. rewrite Hm, !app_assoc, !mode_snoc. cbn [tx_pin rx_pin dev s' with_mode with_pins set_pins_of]. rewrite Z.eqb_refl, Hrx.
    split; [exists m; split; [done | unfold m; by destruct (t =? 2)] |].
    rewrite (proj2 (Z.eqb_neq t 3)), (proj2 (Z.eqb_neq (tx_pin (dev s)) 3)) by lia. by rewrite <- Hrx.
  - cbn [tx_pin rx_pin dev s' with_mode with_pins set_pins_of]. intros p Hin Hpt Hpr. unfold unused. rewrite Hm, !app_assoc, !mode_snoc.
    rewrite (proj2 (Z.eqb_neq t p)) by done. destruct (Z.eqb_spec (tx_pin (dev s)) p); [by right |]. by apply H5.
Qed.

(** The connections that the hardware has. *)
Definition valid_pins (tx rx : Z) : bool :=
  ((tx =? 15) && (rx =? 13)) || (((tx =? 1) || (tx =? 2)) && (rx =? 3)).

(** The first half of [uart_set_pins]. *)
Lemma set_pins_first n s tx rx : good s -> routed s -> (work (hw s) < n)%nat ->
  exists s', (If true && negb (tx_pin (dev s) =? tx) Then
      (if (rx =? 13) && (tx =? 15) then uart_swap PORT 15
       else If (rx =? 3) && ((tx =? 1) || (tx =? 2)) Then
         (if negb (rx_pin (dev s) =? rx) then uart_swap PORT tx else uart_set_tx PORT tx))) n s = Some (tt, s') /\
    good s' /\ routed s' /\
    (tx_pin (dev s'), rx_pin (dev s')) = (if valid_pins tx rx then (tx, rx) else (tx_pin (dev s), rx_pin (dev s))).
Proof.
  intros Hg Hr Hw. pose proof (ro_pins _ Hr) as Hp. unfold valid_pins. cbn [andb].
  destruct (Z.eqb_spec (tx_pin (dev s)) tx) as [<- | Hne]; cbn [negb].
  { exists s. split_and!; [done.. |]. destruct Hp as [(-> & -> & _) | ([-> | ->] & -> & _)]; cbn [Z.eqb Pos.eqb andb orb];
      destruct (Z.eqb_spec rx 13); destruct (Z.eqb_spec rx 3); subst; done || lia. }
  destruct (Z.eqb_spec rx 13) as [-> | H13]; destruct (Z.eqb_spec tx 15) as [-> | H15]; cbn [andb orb Z.eqb Pos.eqb].
  - destruct (swap_ok n s 15 Hg Hr Hw) as (s' & E & G' & R' & _ & P'). exists s'. split_and!; [done.. |]. rewrite P'.
    destruct Hp as [(? & _) | (_ & -> & _)]; [lia | done].
  - exists s. rewrite andb_false_r. done.
  - exists s. rewrite andb_false_r. done.
  - destruct (Z.eqb_spec rx 3) as [-> | H3]; cbn [andb]; [| exists s; by rewrite andb_false_r].
    rewrite andb_true_r. destruct ((tx =? 1) || (tx =? 2)) eqn:Et; [| by exists s].
    assert (tx = 1 \/ tx = 2) as Htx by lia. destruct (Z.eqb_spec (rx_pin (dev s)) 3) as [Hrx | Hrx]; cbn [negb].
    + destruct (set_tx_ok n s tx Hg Hr Hrx Htx) as (s' & E & G' & R' & _ & P1 & P2). exists s'. by rewrite P1, P2.
    + destruct (swap_ok n s tx Hg Hr Hw) as (s' & E & G' & R' & _ & P'). exists s'. split_and!; [done.. |].
      rewrite P', (proj2 (Z.eqb_neq _ _) Hrx). destruct Htx as [-> | ->]; done.
Qed.

(** [uart_set_pins] connects UART0, open in both directions, to any pair of pins
    that the hardware has, from any other one, and ignores the others: afterwards
    the port structure, the swap register and the modes of the pins agree, the two
    pins in use have a UART function and those left behind are inputs. *)
Theorem set_pins_correct n s tx rx : good s -> routed s -> (work (hw s) < n)%nat ->
  exists s', uart_set_pins PORT tx rx n s = Some (tt, s') /\ good s' /\ routed s' /\
    (tx_pin (dev s'), rx_pin (dev s')) = (if valid_pins tx rx then (tx, rx) else (tx_pin (dev s), rx_pin (dev s))).
Proof.
  intros Hg Hr Hw. pose proof Hr as [H1 H2 H3 _ _]. unfold uart_set_pins. cbn [is_null].
  rewrite (bind_some _ _ _ _ (dev s) s) by done. rewrite H1, H2. change (UART0 =? UART0) with true. cbv iota.
  destruct (set_pins_first n s tx rx Hg Hr Hw) as (s1 & E1 & G1 & R1 & P1). rewrite (bind_some _ _ _ _ _ _ E1).
  rewrite (bind_some _ _ _ _ (dev s1) s1) by done. exists s1. split; [| done].
  destruct ((rx =? 13) && (tx =? 15)) eqn:Ev; [| by rewrite <- andb_assoc, Ev, andb_false_r].
  assert (rx = 13 /\ tx = 15) as [-> ->] by lia. cbn in P1. injection P1 as _ ->. by rewrite andb_false_r.
Qed.

(** ** A port without a receiver *)

(** Without a handler there are no interrupts. *)
Lemma irq_null n s : handler (hw s) = NULL -> irq n s = Some (tt, s).
Proof. intros H. unfold irq. rewrite H. cbn. by rewrite andb_false_r. Qed.

Lemma advance_handler h : handler (advance h) = handler h.
Proof. destruct (flows_advance h) as [new [L _]]. apply L. Qed.

Lemma ioswap_null on n s : handler (hw s) = NULL ->
  exists s', ioswap_u0 on n s = Some (tt, s') /\ dev s' = dev s.
Proof.
  intros H. unfold ioswap_u0. rewrite (bind_some _ _ _ _ _ _ (irq_null n s H)).
  set (s1 := mkU (dev s) (advance (hw s))). rewrite (bind_some _ _ _ _ (ioswap (hw s1)) s1) by done.
  assert (H1 : handler (hw s1) = NULL) by (cbn; by rewrite advance_handler).
  rewrite (bind_some _ _ _ _ _ _ (irq_null n s1 H1)). by eexists.
Qed.

(** A port that was opened for sending only cannot be moved from pin 1 to pin 2
    or back by [uart_set_pins]: its receive pin is recorded as 255, which differs
    from every valid one, so that the pins are swapped instead and the port ends on
    pin 15. *)
Theorem set_pins_tx_only n s tx :
  handler (hw s) = NULL -> uart_nr (dev s) = UART0 -> rx_enabled (dev s) = false -> tx_enabled (dev s) = true ->
  rx_pin (dev s) = 255 -> tx_pin (dev s) = 1 /\ tx = 2 \/ tx_pin (dev s) = 2 /\ tx = 1 ->
  exists s', uart_set_pins PORT tx 3 n s = Some (tt, s') /\ tx_pin (dev s') = 15.
Proof.
  intros Hh Hnr Hrx Htx Hp Ht.
  set (s1 := with_mode 15 FUNCTION_4 (with_pins 255 15 (with_mode (tx_pin (dev s)) INPUT s))).
  destruct (ioswap_null true n s1 Hh) as (s' & E & D). exists s'. split; [| by rewrite D].
  assert (Es : uart_swap PORT tx n s = Some (tt, s')).
  { unfold uart_swap. cbn [is_null]. rewrite (bind_some _ _ _ _ (dev s) s) by done. rewrite Hnr, Hrx, Htx.
    replace (((tx_pin (dev s) =? 1) || (tx_pin (dev s) =? 2)) && true || (rx_pin (dev s) =? 3) && false) with true by lia.
    rewrite <- E. unfold s1. rewrite <- Hp. reflexivity. }
  unfold uart_set_pins. cbn [is_null]. rewrite (bind_some _ _ _ _ (dev s) s) by done. rewrite Hnr, Htx, Hp.
  change (UART0 =? UART0) with true. cbv iota. rewrite (bind_some _ _ _ _ tt s').
  2: { destruct Ht as [[-> ->] | [-> ->]]; exact Es. }
  rewrite (bind_some _ _ _ _ (dev s') s') by done. rewrite !andb_false_r. done.
Qed.

(** ** Baud rate detection *)

Definition rate (j : Z) : Z := nth (Z.to_nat j) default_rates 0.

Lemma rate_mono i j : 0 <= i <= j -> j <= 16 -> rate i <= rate j.
Proof.
  intros Hi Hj.
  assert (H : forallb (fun n => forallb (fun m => (m <? n)%nat || (nth n default_rates 0 <=? nth m default_rates 0)) (seq 0 17)) (seq 0 17) = true)
    by reflexivity.
  rewrite forallb_forall in H. specialize (H (Z.to_nat i) ltac:(apply in_seq; lia)). rewrite forallb_forall in H.
  specialize (H (Z.to_nat j) ltac:(apply in_seq; lia)). unfold rate. lia.
Qed.

(** The search from index [i] on, when the rates before it are too small. *)
Lemma nearest_rate_ok k i b : 1 <= i -> i + Z.of_nat k = 16 -> i = 1 \/ rate (i - 1) < b -> b <= rate 15 ->
  let r := nearest_rate k i b in 0 <= r <= 16 /\ forall j, 0 <= j <= 16 -> Z.abs (rate r - b) <= Z.abs (rate j - b).
Proof.
  revert i. induction k as [| k IH]; intros i H1 Hk Hi Hb; cbv zeta.
  { exfalso. replace (i - 1) with 15 in Hi by lia. lia. }
  cbn [nearest_rate]. change (nth (Z.to_nat i) default_rates 0) with (rate i). change (nth (Z.to_nat (i - 1)) default_rates 0) with (rate (i - 1)).
  destruct (Z.leb_spec b (rate i)) as [Hle | Hgt].
  2: { apply IH; try lia. right. by replace (i + 1 - 1) with i by lia. }
  assert (Hfar : forall j, 0 <= j <= 16 -> j <= i - 1 /\ rate j <= rate (i - 1) \/ rate i <= rate j).
  { intros j Hj. destruct (Z.le_gt_cases j (i - 1)); [left; split; [done |] | right]; apply rate_mono; lia. }
  pose proof (rate_mono (i - 1) i ltac:(lia) ltac:(lia)).
  destruct (Z.ltb_spec (b - rate (i - 1)) (rate i - b)); (split; [lia |]); intros j Hj; destruct (Hfar j Hj) as [[Hl Hr] | Hr];
    (destruct Hi as [-> | Hi]; [| lia]); try lia; replace j with (1 - 1) in * by lia; lia.
Qed.

(** [uart_detect_baudrate] waits for a measurement, starting one if none is
    under way, and then returns a standard rate nearest to the measured one, as long
    as that is at most 1843200 baud.  Above, the last comparison of the loop is
    missing: every rate over 1843200 is taken for 3686400. *)
Theorem detect_nearest_rate divisor d : 0 < divisor ->
  uart_detect_baudrate 0 d = (0, mkDetector (if doTrigger d then 0x801 else autobaud d)
    (autobaud_writes d ++ if doTrigger d then [Z.ldiff (autobaud d) 0xff01; 0x801] else []) false) /\
  let b := Z.quot UART_CLK_FREQ divisor in
  let '(res, d') := uart_detect_baudrate divisor d in
  doTrigger d' = true /\
  (b <= 1843200 -> Forall (fun r => Z.abs (res - b) <= Z.abs (r - b)) default_rates) /\
  (1843200 < b -> res = 3686400).
Proof.
  intros Hd. split.
  { unfold uart_detect_baudrate. destruct d as [u w []]; cbn [doTrigger autobaud autobaud_writes uart_start_detect_baudrate write_autobaud];
      [by rewrite <- app_assoc | by rewrite app_nil_r]. }
  intros b. unfold uart_detect_baudrate. rewrite (proj2 (Z.eqb_neq divisor 0)) by lia. split; [done |]. unfold detected_rate. fold b. split; intros Hb.
  - destruct (nearest_rate_ok 15 1 b) as [_ Hn]; [lia | lia | by left | exact Hb |].
    apply Forall_forall. intros r Hr%list_elem_of_In. apply (In_nth _ _ 0) in Hr as (k & Hk & <-). simpl in Hk.
    specialize (Hn (Z.of_nat k) ltac:(lia)). unfold rate in Hn. by rewrite Nat2Z.id in Hn.
  - assert (H : forall k i, 1 <= i -> i + Z.of_nat k = 16 -> nearest_rate k i b = 16).
    { induction k as [| k IH]; intros i H1 Hk; [simpl; lia |]. cbn [nearest_rate].
      change (nth (Z.to_nat i) default_rates 0) with (rate i). pose proof (rate_mono i 15 ltac:(lia) ltac:(lia)).
      change (rate 15) with 1843200 in *. rewrite (proj2 (Z.leb_gt _ _)) by lia. apply IH; lia. }
    rewrite H by lia. done.
Qed.

(** ** Opening the port *)

Definition UART_FULL := 0.

(** The interrupts that the driver enables are not pending after they have been
    cleared. *)
Lemma cleared_int raw : Z.land (Z.ldiff raw 0xffff) rx_interrupts = 0.
Proof.
  apply z_ext. intros k Hk. rewrite Z.land_spec, Z.ldiff_spec, Z.bits_0. change 0xffff with (Z.ones 16). rewrite Z.testbit_ones by lia.
  destruct (Z.ltb_spec k 16).
  - replace (0 <=? k) with true by lia. by rewrite andb_false_r.
  - rewrite (testbit_small rx_interrupts 16 k); [apply andb_false_r | by vm_compute | lia].
Qed.

Lemma bind_eq {A C} (m : U A) (k : A -> U C) n s a s' r : m n s = Some (a, s') -> k a n s' = r -> bind m k n s = r.
Proof. unfold bind. by intros ->. Qed.

Lemma start_isr_ok {G : GdbBuild} n u h : gdbstub_has_uart_isr_control = false -> rx_enabled u = true ->
  script h = [] -> handler h = NULL ->
  exists h', uart_start_isr PORT n (mkU u h) = Some (tt, mkU u h') /\ rx_fifo h' = rx_fifo h /\ arrived h' = arrived h /\
    missed h' = missed h /\ ioswap h' = ioswap h /\ pin_calls (calls h') = pin_calls (calls h) /\ script h' = [] /\
    handler h' = PORT /\ intr_on h' = true /\ int_ena h' = rx_interrupts.
Proof.
  intros Hg Hu Hs Hh. destruct h as [rx tx0 snt raw ena d c0 c1 sw lv on hd scr cl arr mis]. cbn in Hs, Hh. subst scr hd.
  unfold uart_start_isr. rewrite (bind_some _ _ _ _ true (mkU u (mkHw rx tx0 snt raw ena d c0 c1 sw lv on NULL [] cl arr mis)))
    by (unfold field; cbn; by rewrite Hu).
  cbn [is_null orb negb]. rewrite Hg. cbv iota.
  eexists. split.
  { do 3 (eapply bind_eq; [apply irq_null; reflexivity |]; eapply bind_eq; [reflexivity |]).
    eapply bind_eq; [reflexivity |]. eapply bind_eq; [reflexivity |].
    unfold irq. cbn [hw intr_on handler set_intr add_call is_null negb andb].
    match goal with |- context [truth (USIS ?h)] => assert (Hz : USIS h = 0) by apply cleared_int end.
    rewrite Hz. reflexivity. }
  cbn. rewrite pin_calls_app, app_nil_r. done.
Qed.

(** What the configuration of the registers leaves as it is, on a quiet line and
    without a handler; the FIFO may have been reset. *)
Record tuned (h h' : uhw) : Prop := {
  tu_handler : handler h = NULL -> handler h' = NULL;
  tu_script : script h = [] -> script h' = [];
  tu_pins : pin_calls (calls h') = pin_calls (calls h);
  tu_history : arrived h' = arrived h /\ missed h' = missed h;
  tu_rx : rx_fifo h = [] -> rx_fifo h' = [];
  tu_swap : ioswap h' = ioswap h
}.

Lemma tuned_trans h1 h2 h3 : tuned h1 h2 -> tuned h2 h3 -> tuned h1 h3.
Proof. intros [? ? ? [? ?] ? ?] [? ? ? [? ?] ? ?]. split; auto; try congruence. split; congruence. Qed.

Lemma tuned_advance h : script h = [] -> tuned h (advance h).
Proof. intros Hs. unfold advance. rewrite Hs. by split. Qed.

(** A register is written, in the foreground. *)
Lemma tune_reg n u h f : handler h = NULL -> script h = [] -> (forall h, tuned h (f h)) ->
  exists h', (irq ;; set_reg f) n (mkU u h) = Some (tt, mkU u h') /\ tuned h h' /\ h' = f (advance h).
Proof.
  intros Hh Hs Hf. rewrite (bind_some _ _ _ _ _ _ (irq_null n (mkU u h) Hh)). eexists. split; [reflexivity |].
  split; [| done]. eapply tuned_trans; [by apply tuned_advance | apply Hf].
Qed.

Lemma tuned_conf0 v h : tuned h (write_conf0 v h).
Proof. split; try done. unfold write_conf0. cbn [rx_fifo set_conf set_fifo]. intros ->. by destruct (Z.testbit _ _). Qed.
Lemma tuned_div v h : tuned h (set_conf v (conf0 h) (conf1 h) (ioswap h) h).
Proof. by split. Qed.
Lemma tuned_conf1 v h : tuned h (set_conf (clkdiv h) (conf0 h) v (ioswap h) h).
Proof. by split. Qed.
Lemma tuned_clear v h : tuned h (clear_int v h).
Proof. by split. Qed.
Lemma tuned_ena v h : tuned h (set_int (int_raw h) v h).
Proof. by split. Qed.

Lemma assoc {A C D} (m : U A) (k : A -> U C) (k' : C -> U D) n s :
  bind m (fun a => bind (k a) k') n s = bind (bind m k) k' n s.
Proof. unfold bind. by destruct (m n s) as [[]|]. Qed.

(** Two accesses to a register in the foreground. *)
Lemma uart_flush_ok {G : GdbBuild} n u h : gdbstub_has_uart_isr_control = false -> rx_enabled u = true -> tx_enabled u = true ->
  handler h = NULL -> script h = [] ->
  exists h', uart_flush PORT n (mkU u h) =
      Some (tt, mkU (set_rx (mkRx (size (rx_buffer u)) 0 0 (buffer (rx_buffer u))) u) h') /\ tuned h h' /\ rx_fifo h' = [].
Proof.
  intros Hg Hrx Htx Hh Hs. unfold uart_flush. cbn [is_null]. set (u' := set_rx _ u).
  rewrite (bind_some _ _ _ _ true (mkU u h)) by (unfold field; cbn; by rewrite Hrx).
  rewrite (bind_some _ _ _ _ true (mkU u h)) by (unfold field; cbn; by rewrite Htx).
  set (h1 := set_intr true (handler h) (set_intr false (handler h) h)).
  assert (T1 : tuned h h1) by (split; done).
  rewrite (bind_some _ _ _ _ tt (mkU u' h1)).
  2: { unfold ETS_UART_INTR_DISABLE, ETS_UART_INTR_ENABLE. rewrite (bind_some _ _ _ _ tt (mkU u (set_intr false (handler h) h))) by done.
       rewrite (bind_some _ _ _ _ tt (mkU u' (set_intr false (handler h) h))) by done.
       rewrite (bind_some _ _ _ _ tt (mkU u' h1)) by done. by apply irq_null. }
  rewrite (bind_some _ _ _ _ (uart_nr u') (mkU u' h1)) by done. rewrite Hg. cbn [negb orb]. cbv zeta.
  assert (Hh1 : handler h1 = NULL) by done. assert (Hs1 : script h1 = []) by done.
  rewrite (bind_some _ _ _ _ _ _ (irq_null n (mkU u' h1) Hh1)).
  pose proof (tuned_advance h1 Hs1) as T2. set (h2 := advance h1) in *. rewrite (bind_some _ _ _ _ (conf0 h2) (mkU u' h2)) by done.
  set (v := Z.lor (conf0 h2) _). rewrite assoc.
  destruct (tune_reg n u' h2 (write_conf0 v)) as (h3 & E3 & T3 & Q3); [by apply T2 | by apply T2 | apply tuned_conf0 |].
  rewrite (bind_some _ _ _ _ _ _ E3). assert (T03 : tuned h h3) by (eapply tuned_trans; [exact T1 | by eapply tuned_trans]).
  assert (R3 : rx_fifo h3 = []).
  { rewrite Q3. unfold write_conf0. cbn [rx_fifo set_conf set_fifo]. replace (Z.testbit v UCRXRST) with true; [done |].
    unfold v. rewrite Z.lor_spec, Z.lor_spec. by rewrite orb_true_r. }
  assert (Hh3 : handler h3 = NULL) by (by apply T03). assert (Hs3 : script h3 = []) by (by apply T03).
  rewrite (bind_some _ _ _ _ _ _ (irq_null n (mkU u' h3) Hh3)).
  pose proof (tuned_advance h3 Hs3) as T4. set (h4 := advance h3) in *. rewrite (bind_some _ _ _ _ (conf0 h4) (mkU u' h4)) by done.
  destruct (tune_reg n u' h4 (write_conf0 (Z.ldiff (conf0 h4) (Z.lor (bv UCRXRST) (bv UCTXRST))))) as (h5 & E5 & T5 & _);
    [by apply T4 | by apply T4 | apply tuned_conf0 |].
  exists h5. split; [exact E5 |]. split; [eapply tuned_trans; [exact T03 | by eapply tuned_trans] | by apply T5, T4].
Qed.

(** The port after [uart_init]. *)
Definition opened (baud tx size_ : Z) (blk : list Z) : uart_t :=
  mkUart UART0 baud true true false false 3 (if tx =? 2 then 2 else 1) (mkRx size_ 0 0 blk).
Definition opened_modes (tx : Z) : list (Z * Z) :=
  [(3, SPECIAL); if tx =? 2 then (2, FUNCTION_4) else (1, FUNCTION_0)].

Lemma ioswap_tuned on n u h : handler h = NULL -> script h = [] ->
  exists h', ioswap_u0 on n (mkU u h) = Some (tt, mkU u h') /\ handler h' = NULL /\ script h' = [] /\ calls h' = calls h /\
    arrived h' = arrived h /\ missed h' = missed h /\ Z.testbit (ioswap h') IOSWAPU0 = on.
Proof.
  intros Hh Hs. unfold ioswap_u0. rewrite (bind_some _ _ _ _ _ _ (irq_null n (mkU u h) Hh)).
  assert (Ha : forall h, script h = [] -> advance h = shift_out 1 h) by (intros h0 H0; unfold advance; by rewrite H0).
  rewrite (bind_some _ _ _ _ (ioswap h) (mkU u (shift_out 1 h))) by (unfold reg; cbn [hw dev]; by rewrite Ha).
  rewrite (bind_some _ _ _ _ _ _ (irq_null n (mkU u (shift_out 1 h)) Hh)). unfold set_reg. cbn [hw dev]. rewrite Ha by done.
  eexists. split; [reflexivity |]. split_and!; try done. cbn [ioswap set_conf].
  destruct on; [rewrite Z.lor_spec | rewrite Z.ldiff_spec]; rewrite testbit_bv by (unfold IOSWAPU0; lia);
    rewrite bool_decide_eq_true_2 by done; [apply orb_true_r | apply andb_false_r].
Qed.

Lemma init_uart0_ok {G : GdbBuild} n u h baud tx size_ blk : gdbstub_has_uart_isr_control = false -> script h = [] ->
  u = mkUart UART0 baud (rx_enabled u) (tx_enabled u) false false (rx_pin u) (tx_pin u) (rx_buffer u) ->
  exists h', init_uart0 (mkInit true true (Some blk)) UART_FULL tx size_ n (mkU u h) = Some (true, mkU (opened baud tx size_ blk) h') /\
    handler h' = NULL /\ script h' = [] /\ pin_calls (calls h') = pin_calls (calls h) ++ opened_modes tx /\
    arrived h' = arrived h /\ missed h' = missed h /\ Z.testbit (ioswap h') IOSWAPU0 = false.
Proof.
  intros Hg Hs Hu. unfold init_uart0. rewrite Hg. cbn [m_rx m_buffer negb].
  set (u1 := mkUart UART0 baud true true false false 3 (tx_pin u) (mkRx size_ 0 0 blk)).
  set (h0 := add_call (ets_isr_attach NULL) (set_intr false NULL (set_intr false (handler h) h))).
  set (h1 := add_call (pinMode 3 SPECIAL) h0).
  rewrite (bind_some _ _ _ _ tt (mkU u (set_intr false (handler h) h))) by done.
  rewrite (bind_some _ _ _ _ tt (mkU u h0)) by done. cbv zeta.
  rewrite (bind_some _ _ _ _ tt (mkU (set_rx (rx_buffer u) u1) h0)) by (rewrite Hu; done).
  rewrite (bind_some _ _ _ _ true (mkU u1 h1)) by done. cbn [negb].
  set (m := if tx =? 2 then FUNCTION_4 else FUNCTION_0). set (p := if tx =? 2 then 2 else 1).
  set (h2 := add_call (pinMode p m) h1). rewrite (bind_some _ _ _ _ tt (mkU (opened baud tx size_ blk) h2)).
  2: { unfold opened, h2, m, p. by destruct (tx =? 2). }
  destruct (ioswap_tuned false n (opened baud tx size_ blk) h2) as (h' & E & H1 & H2 & H3 & H4 & H5 & H6); [done | done |].
  rewrite (bind_some _ _ _ _ _ _ E). exists h'. split_and!; try done. rewrite H3. unfold h2, h1, h0, m, p. cbn [calls add_call set_intr].
  rewrite !pin_calls_app, <- !app_assoc. unfold opened_modes. by destruct (tx =? 2).
Qed.

(** The registers are set up and the buffer is emptied. *)
Lemma init_registers {G : GdbBuild} n u h config : gdbstub_has_uart_isr_control = false -> rx_enabled u = true -> tx_enabled u = true ->
  rpos (rx_buffer u) = 0 -> wpos (rx_buffer u) = 0 -> handler h = NULL -> script h = [] ->
  exists h', (irq ;; set_reg (write_conf0 config) ;;
      (If negb gdbstub_has_uart_isr_control || negb (UART0 =? UART0) Then
        (uart_flush PORT ;; irq ;; set_reg (fun h => set_conf (clkdiv h) (conf0 h) 0 (ioswap h) h) ;;
         irq ;; set_reg (clear_int 0xffff) ;; irq ;; set_reg (fun h => set_int (int_raw h) 0 h)))) n (mkU u h) = Some (tt, mkU u h') /\
    tuned h h' /\ rx_fifo h' = [].
Proof.
  intros Hg Hrx Htx Hr Hw Hh Hs. rewrite Hg. cbn [negb orb].
  destruct (tune_reg n u h (write_conf0 config) Hh Hs (tuned_conf0 _)) as (h1 & E1 & T1 & _). rewrite assoc, (bind_some _ _ _ _ _ _ E1).
  destruct (uart_flush_ok n u h1 Hg Hrx Htx) as (h2 & E2 & T2 & R2); [by apply T1 | by apply T1 |].
  replace (set_rx _ u) with u in E2 by (destruct u as [? ? ? ? ? ? ? ? []]; cbn in *; by subst). rewrite (bind_some _ _ _ _ _ _ E2).
  assert (T02 : tuned h h2) by (by eapply tuned_trans).
  destruct (tune_reg n u h2 (fun h => set_conf (clkdiv h) (conf0 h) 0 (ioswap h) h)) as (h3 & E3 & T3 & _);
    [by apply T02 | by apply T02 | apply tuned_conf1 |]. rewrite assoc, (bind_some _ _ _ _ _ _ E3). assert (T03 : tuned h h3) by (by eapply tuned_trans).
  destruct (tune_reg n u h3 (clear_int 0xffff)) as (h4 & E4 & T4 & _);
    [by apply T03 | by apply T03 | apply tuned_clear |]. rewrite assoc, (bind_some _ _ _ _ _ _ E4). assert (T04 : tuned h h4) by (by eapply tuned_trans).
  destruct (tune_reg n u h4 (fun h => set_int (int_raw h) 0 h)) as (h5 & E5 & T5 & _);
    [by apply T04 | by apply T04 | apply tuned_ena |]. exists h5. split; [exact E5 |]. split; [by eapply tuned_trans |].
  by apply T5, T4, T3.
Qed.

(** The modes after opening. *)
Lemma opened_routed s h baud tx size_ blk : (forall p, p ∈ [1; 2; 3; 13; 15] -> unused s p) ->
  pin_calls (calls h) = modes s ++ opened_modes tx -> Z.testbit (ioswap h) IOSWAPU0 = false ->
  routed (mkU (opened baud tx size_ blk) h).
Proof.
  intros Hun Hm Hio. set (s' := mkU _ h).
  assert (Hmo : forall p, mode_of (modes s') p =
    if (if tx =? 2 then 2 else 1) =? p then Some (if tx =? 2 then FUNCTION_4 else FUNCTION_0) else if 3 =? p then Some SPECIAL else mode_of (modes s) p).
  { intros p. unfold modes at 1. cbn [hw s']. rewrite Hm. unfold opened_modes.
    change [(3, SPECIAL); ?e] with ([(3, SPECIAL)] ++ [e]). rewrite app_assoc. destruct (tx =? 2); by rewrite !mode_snoc. }
  split; [done | done | right; cbn [tx_pin rx_pin dev s' opened hw]; destruct (tx =? 2); auto | |].
  - unfold used. cbn [tx_pin rx_pin dev s' opened]. rewrite !Hmo. destruct (tx =? 2); cbn; split; by eexists.
  - intros p Hp Ht Hr. cbn [tx_pin rx_pin dev s' opened] in Ht, Hr. unfold unused. rewrite Hmo.
    rewrite (proj2 (Z.eqb_neq _ p)), (proj2 (Z.eqb_neq 3 p)) by done. by apply Hun.
Qed.

(** [uart_init] opens UART0 in both directions: on a quiet line it returns the
    port with an empty buffer of the given size, the interrupts attached and
    enabled, the pins in agreement with the hardware. *)
Theorem uart_init_opens {G : GdbBuild} n s baud config tx size_ blk :
  gdbstub_has_uart_isr_control = false -> script (hw s) = [] -> (forall p, p ∈ [1; 2; 3; 13; 15] -> unused s p) -> missed (hw s) = false ->
  Forall is_u8 (arrived (hw s)) -> 0 < size_ < 2147483648 -> Z.of_nat (length blk) = size_ -> Forall is_u8 blk ->
  exists s', uart_init UART0 baud config UART_FULL tx size_ (mkInit true true (Some blk)) n s = Some (PORT, s') /\
    good s' /\ routed s' /\ queue s' = [] /\ size (rx_buffer (dev s')) = size_ /\
    handler (hw s') = PORT /\ intr_on (hw s') = true /\ int_ena (hw s') = rx_interrupts.
Proof.
  intros Hg Hs Hm Hmi Ha Hsz Hl Hb. unfold uart_init. cbn [m_port negb].
  set (u0 := mkUart UART0 (baud_rate (dev s)) (rx_enabled (dev s)) (tx_enabled (dev s)) false false (rx_pin (dev s)) (tx_pin (dev s)) (rx_buffer (dev s))).
  rewrite (bind_some _ _ _ _ tt (mkU u0 (hw s))) by done. change (UART0 =? UART0) with true. cbv iota.
  destruct (init_uart0_ok n u0 (hw s) (baud_rate (dev s)) tx size_ blk Hg Hs eq_refl) as (h1 & E1 & H1 & S1 & P1 & A1 & M1 & I1).
  rewrite (bind_some _ _ _ _ _ _ E1). cbn [negb]. set (u2 := opened baud tx size_ blk).
  assert (exists h2, uart_set_baudrate PORT baud n (mkU (opened (baud_rate (dev s)) tx size_ blk) h1) = Some (tt, mkU u2 h2) /\ tuned h1 h2)
    as (h2 & E2 & T2).
  { unfold uart_set_baudrate. cbn [is_null]. rewrite (bind_some _ _ _ _ tt (mkU u2 h1)) by done.
    destruct (tune_reg n u2 h1 (fun h => set_conf (ESP8266_CLOCK / u32 baud) (conf0 h) (conf1 h) (ioswap h) h)) as (h2 & E & T & _);
      [done | done | apply tuned_div | by exists h2]. }
  rewrite (bind_some _ _ _ _ _ _ E2).
  destruct (init_registers n u2 h2 config Hg) as (h3 & E3 & T3 & R3); [done | done | done | done | by apply T2 | by apply T2 |].
  assert (T13 : tuned h1 h3) by (by eapply tuned_trans).
  destruct (start_isr_ok n u2 h3 Hg eq_refl) as (h4 & E4 & R4 & A4 & M4 & I4 & P4 & S4 & H4 & O4 & N4); [by apply T13 | by apply T13 |].
  rewrite (assoc irq). rewrite (assoc (bind irq _)). rewrite (bind_some _ _ _ _ tt (mkU u2 h3)) by (rewrite <- assoc; exact E3).
  rewrite (bind_some _ _ _ _ tt (mkU u2 h4)).
  2: { rewrite (bind_some _ _ _ _ true (mkU u2 h3)) by done. rewrite (bind_some _ _ _ _ _ _ E4). by rewrite Hg. }
  destruct T13 as [_ _ Tp [Ta Tm] _ Ti]. exists (mkU u2 h4). split; [done |].
  assert (Hok : rx_ok (mkRx size_ 0 0 blk)) by (split; cbn; try done; lia).
  assert (Hc : contents (mkRx size_ 0 0 blk) = []) by (by apply rx_contents_nil).
  split; [| split; [| split_and!; try done]].
  - split; cbn [dev hw]; [done | done | | | ].
    + unfold shallow. rewrite R4, R3. simpl. lia.
    + rewrite R4, R3, A4, Ta, A1. by split.
    + rewrite M4, Tm, M1, Hmi. done.
  - eapply opened_routed; [done | | by rewrite I4, Ti]. rewrite P4, Tp, P1. done.
  - unfold queue. cbn [dev hw rx_buffer u2 opened]. by rewrite Hc, R4, R3.
Qed.

(** When [uart_init] cannot get its memory, or is asked for a UART that does not
    exist, it returns NULL and has freed exactly what it had allocated.  For UART0
    it then leaves the interrupt of the UART masked, also when the GDB stub, which
    needs it, is present. *)
Theorem uart_init_fails {G : GdbBuild} n s nr baud config mode tx size_ mem :
  (m_port mem = false -> uart_init nr baud config mode tx size_ mem n s = Some (NULL, s)) /\
  (m_port mem = true -> nr <> UART0 -> nr <> UART1 ->
     exists s', uart_init nr baud config mode tx size_ mem n s = Some (NULL, s') /\ calls (hw s') = calls (hw s) ++ [free_port]) /\
  (m_port mem = true -> nr = UART0 -> mode <> UART_TX_ONLY -> m_rx mem = false \/ m_buffer mem = None ->
     exists s', uart_init nr baud config mode tx size_ mem n s = Some (NULL, s') /\ intr_on (hw s') = false /\
       calls (hw s') = calls (hw s) ++ (if gdbstub_has_uart_isr_control then [] else [ets_isr_attach NULL]) ++
         (if m_rx mem then [free_rx_buffer] else []) ++ [free_port]).
Proof.
  unfold uart_init. split_and!.
  - intros ->. done.
  - intros -> H0 H1. cbn [negb]. rewrite (proj2 (Z.eqb_neq _ _) H0), (proj2 (Z.eqb_neq _ _) H1). by eexists.
  - intros -> -> Hm Hmem. cbn [negb]. change (UART0 =? UART0) with true. cbv iota. unfold init_uart0.
    rewrite (proj2 (Z.eqb_neq _ _) Hm). cbn [negb]. destruct gdbstub_has_uart_isr_control, (m_rx mem) eqn:Er; cbn [negb];
      try (destruct Hmem as [Hmem | ->]; [discriminate |]); (eexists; split; [reflexivity |]); (split; [reflexivity |]);
      cbn [calls hw add_call set_intr]; rewrite <- ?app_assoc; reflexivity.
Qed.
