(* ===== verification/UartWitness.v ===== *)
(** * Witnesses for the ESP8266 serial port

    A port with a buffer of eight places, two bytes in it and one in the FIFO, while
    three more arrive. *)

From S2P Require Import Prelude Uart UartProps UartPort UartConfig.

#[local] Instance no_gdb : GdbBuild := {| gdbstub_has_uart_isr_control := false |}.

Definition a_buffer : uart_rx_buffer := mkRx 8 6 0 [0; 0; 0; 0; 0; 0; 65; 66].
Definition a_port : uart_t := mkUart UART0 115200 true true false false 3 1 a_buffer.
Definition a_script : list tick := [mkTick [68] 0 1; mkTick [69; 70] (bv UIFF) 0; mkTick [] 0 2].
Definition an_hw (rx : list Z) (scr : list tick) : uhw :=
  mkHw rx [] [] 0 rx_interrupts 694 0x1c 16 0 0 true PORT scr [pinMode 3 SPECIAL; pinMode 1 FUNCTION_0] rx false.
Definition a_state : ust := mkU a_port (an_hw [67] a_script).

Lemma a_buffer_ok : rx_ok a_buffer.
Proof. split; cbn; try lia. by repeat constructor. Qed.

Lemma good_port rx scr : (length rx <= 128)%nat -> Forall is_u8 rx -> good (mkU a_port (an_hw rx scr)).
Proof. intros Hl Hu. split; cbn; try done. apply a_buffer_ok. Qed.

Lemma a_state_good : good a_state.
Proof. apply good_port; [simpl; lia | by repeat constructor]. Qed.

Example a_queue : queue a_state = [65; 66; 67].
Proof. reflexivity. Qed.

(** Read two bytes, peek, read the rest. *)
Definition some_ops : list rx_op := [Available; Read 2; Peek; Idle; ReadChar; Read 10].

Example some_ops_run : option_map fst (run_ops some_ops 100%nat a_state) = Some [65; 66; 67; 68; 69; 70].
Proof. by vm_compute. Qed.

Lemma uart_stream_witness :
  exists out s' new, run_ops some_ops 100%nat a_state = Some (out, s') /\ good s' /\
    arrived (hw s') = [67] ++ new /\ (out ++ queue s') `sublist_of` ([65; 66; 67] ++ new) /\
    (rx_overrun (dev s') = false ->
       out ++ queue s' = [65; 66; 67] ++ new /\ (missed (hw s') = true -> Z.testbit (int_raw (hw s')) UIOF = true)).
Proof.
  refine (uart_stream 100 some_ops a_state a_state_good _ _ _).
  - unfold enough. cbn. lia.
  - by cbn.
  - repeat constructor; cbn; lia.
Defined.

Lemma uart_read_correct_witness :
  exists data s', uart_read PORT [0; 0; 0; 0] 4 100%nat a_state =
      Some ((Z.of_nat (length data), data ++ drop (length data) [0; 0; 0; 0]), s') /\ moves data a_state s' /\
    3 <= Z.of_nat (length data) <= 4 /\ (data `prefix_of` [65; 66; 67] \/ [65; 66; 67] `prefix_of` data).
Proof.
  refine (uart_read_correct 100 a_state [0; 0; 0; 0] 4 a_state_good _ _ _).
  - unfold enough. cbn. lia.
  - cbn. lia.
  - cbn. lia.
Defined.

(** The buffer is enlarged while the byte 67 is in the FIFO: both stored bytes go. *)
Lemma resize_keeps_or_loses_witness :
  exists s1 s' new, uart_resize_rx_buffer PORT 16 (Some (repeat 0 16)) 100%nat a_state = Some (16, s') /\
    rx_fifo (hw s1) = [67] ++ new /\ rx_overrun (dev s1) = false /\ moves [] s1 s' /\
    size (rx_buffer (dev s')) = 16 /\ contents (rx_buffer (dev s1)) = [].
Proof.
  destruct (resize_keeps_or_loses 100 a_state 16 (repeat 0 16) a_state_good) as (s1 & s' & new & H1 & H2 & H3 & H4 & H5 & _ & H7);
    [cbn; lia | lia | done | done | by repeat constructor |].
  exists s1, s', new. refine (conj H1 (conj H2 (conj H3 (conj H4 (conj H5 (H7 _)))))). by left.
Defined.


Lemma a_state_routed : routed a_state.
Proof.
  split; try done.
  - right. split; [by left | done].
  - split; eexists; by split.
  - intros p Hp H1 H3. cbn in H1, H3. rewrite !elem_of_cons, elem_of_nil in Hp. destruct Hp as [-> | [-> | [-> | [-> | [-> | []]]]]]; try done; by left.
Qed.

Lemma set_pins_correct_witness :
  exists s', uart_set_pins PORT 15 13 100%nat a_state = Some (tt, s') /\ good s' /\ routed s' /\
    (tx_pin (dev s'), rx_pin (dev s')) = (15, 13).
Proof. refine (set_pins_correct 100 a_state 15 13 a_state_good a_state_routed _). cbn. lia. Defined.

(** A port for sending only. *)
Definition tx_only : ust :=
  mkU (mkUart UART0 115200 false true false false 255 1 a_buffer)
    (mkHw [] [] [] 0 0 694 0x1c 0 0 0 true NULL [] [pinMode 1 FUNCTION_0] [] false).
Lemma set_pins_tx_only_witness :
  exists s', uart_set_pins PORT 2 3 100%nat tx_only = Some (tt, s') /\ tx_pin (dev s') = 15.
Proof. refine (set_pins_tx_only 100 tx_only 2 eq_refl eq_refl eq_refl eq_refl eq_refl _). by left. Defined.

(** A divisor of 43, as at 1843200 baud. *)
Lemma detect_nearest_rate_witness : fst (uart_detect_baudrate 43 (mkDetector 0 [] true)) = 3686400.
Proof.
  pose proof (detect_nearest_rate 43 (mkDetector 0 [] true) ltac:(lia)) as [_ H]. cbv zeta in H.
  destruct (uart_detect_baudrate 43 (mkDetector 0 [] true)) as [r d]. apply H. by vm_compute.
Defined.

(** The hardware after a reset. *)
Definition reset_state : ust :=
  mkU a_port (mkHw [] [] [] 0 0 694 0 0 0 0 false NULL [] [] [] false).
Lemma uart_init_opens_witness :
  exists s', uart_init UART0 9600 0x1c UART_FULL 1 8 (mkInit true true (Some (repeat 0 8))) 100%nat reset_state = Some (PORT, s') /\
    good s' /\ routed s' /\ queue s' = [] /\ size (rx_buffer (dev s')) = 8 /\
    handler (hw s') = PORT /\ intr_on (hw s') = true /\ int_ena (hw s') = rx_interrupts.
Proof.
  refine (uart_init_opens 100 reset_state 9600 0x1c 1 8 (repeat 0 8) eq_refl eq_refl _ eq_refl _ _ eq_refl _).
  - intros p _. by left.
  - constructor.
  - lia.
  - by repeat constructor.
Defined.
