(* ===== verification/Si2c.v ===== *)
(** * The software I2C bus of the ESP8266 core

    Models [ESP/cores/esp8266/core_esp8266_si2c.c]: the master that drives the two
    lines from a program, and the slave that follows them with two pin interrupts.
    Both ends of the driver are connected to the same open-drain lines, as on two
    boards: a line is low when either end pulls it low.

    Every change of a line requests the pin interrupt of the slave, which the
    dispatcher of [core_esp8266_wiring_digital.c] serves before the master goes on.
    Time passes with the accesses of the master to the port: the task that runs the
    user's callbacks is started [lag] accesses after its event was posted, and the slave's timer,
    armed by a start condition and disarmed by a stop condition, may expire at an access
    ([expires]). *)

From S2P Require Import Prelude.

(** ** Constants and enumerations *)

Definition TWI_BUFFER_LENGTH := 32.
Definition TW_SR_SLA_ACK := 0x60.
Definition TW_SR_ARB_LOST_SLA_ACK := 0x68.
Definition TW_SR_GCALL_ACK := 0x70.
Definition TW_SR_ARB_LOST_GCALL_ACK := 0x78.
Definition TW_SR_DATA_ACK := 0x80.
Definition TW_SR_DATA_NACK := 0x88.
Definition TW_SR_GCALL_DATA_ACK := 0x90.
Definition TW_SR_GCALL_DATA_NACK := 0x98.
Definition TW_SR_STOP := 0xA0.
Definition TW_ST_SLA_ACK := 0xA8.
Definition TW_ST_ARB_LOST_SLA_ACK := 0xB0.
Definition TW_ST_DATA_ACK := 0xB8.
Definition TW_ST_DATA_NACK := 0xC0.
Definition TW_ST_LAST_DATA := 0xC8.
Definition TW_NO_INFO := 0xF8.
Definition TW_BUS_ERROR := 0x00.

Inductive pmode := TWIPM_UNKNOWN | TWIPM_IDLE | TWIPM_ADDRESSED | TWIPM_WAIT.
Inductive pstate :=
  | TWIP_UNKNOWN | TWIP_IDLE | TWIP_START | TWIP_SEND_ACK | TWIP_WAIT_ACK | TWIP_WAIT_STOP | TWIP_SLA_W | TWIP_SLA_R
  | TWIP_REP_START | TWIP_READ | TWIP_STOP | TWIP_REC_ACK | TWIP_READ_ACK | TWIP_RWAIT_ACK | TWIP_WRITE | TWIP_BUS_ERR.
Inductive tstate := TWI_READY | TWI_MRX | TWI_MTX | TWI_SRX | TWI_STX.

(** [ets_post] with the signals [TWI_SIG_RX] and [TWI_SIG_TX]. *)
Inductive event := SIG_RX (par : Z) | SIG_TX.

(** ** State *)

(** The static variables of the slave (without the prefix [twi_] of its buffers, with
    [sl_state] for [twi_state]), its timer, the posted events and the blocks that the
    receive callback has got; who pulls the lines low; pin interrupts requested; the
    accesses until the task runs. *)
Record bus := mkBus {
  twip_mode : pmode;
  twip_state : pstate;
  twip_status : Z;
  bitCount : Z;
  twi_data : Z;
  twi_ack : bool;
  twi_ack_rec : bool;
  sl_state : tstate;
  twi_error : Z;
  txBuffer : list Z;
  txIndex : Z;
  txLength : Z;
  rxBuffer : list Z;
  rxIndex : Z;
  timer : bool;
  posted : list event;
  received : list (list Z);
  s_sda : bool;
  s_scl : bool;
  m_sda : bool;
  m_scl : bool;
  pend_sda : bool;
  pend_scl : bool;
  countdown : nat
}.

Definition set_twip_mode (v : pmode) (b : bus) : bus :=
  mkBus v (twip_state b) (twip_status b) (bitCount b) (twi_data b) (twi_ack b) (twi_ack_rec b) (sl_state b) (twi_error b) (txBuffer b) (txIndex b) (txLength b) (rxBuffer b) (rxIndex b) (timer b) (posted b) (received b) (s_sda b) (s_scl b) (m_sda b) (m_scl b) (pend_sda b) (pend_scl b) (countdown b).
Definition set_twip_state (v : pstate) (b : bus) : bus :=
  mkBus (twip_mode b) v (twip_status b) (bitCount b) (twi_data b) (twi_ack b) (twi_ack_rec b) (sl_state b) (twi_error b) (txBuffer b) (txIndex b) (txLength b) (rxBuffer b) (rxIndex b) (timer b) (posted b) (received b) (s_sda b) (s_scl b) (m_sda b) (m_scl b) (pend_sda b) (pend_scl b) (countdown b).
Definition set_twip_status (v : Z) (b : bus) : bus :=
  mkBus (twip_mode b) (twip_state b) v (bitCount b) (twi_data b) (twi_ack b) (twi_ack_rec b) (sl_state b) (twi_error b) (txBuffer b) (txIndex b) (txLength b) (rxBuffer b) (rxIndex b) (timer b) (posted b) (received b) (s_sda b) (s_scl b) (m_sda b) (m_scl b) (pend_sda b) (pend_scl b) (countdown b).
Definition set_bitCount (v : Z) (b : bus) : bus :=
  mkBus (twip_mode b) (twip_state b) (twip_status b) v (twi_data b) (twi_ack b) (twi_ack_rec b) (sl_state b) (twi_error b) (txBuffer b) (txIndex b) (txLength b) (rxBuffer b) (rxIndex b) (timer b) (posted b) (received b) (s_sda b) (s_scl b) (m_sda b) (m_scl b) (pend_sda b) (pend_scl b) (countdown b).
Definition set_twi_data (v : Z) (b : bus) : bus :=
  mkBus (twip_mode b) (twip_state b) (twip_status b) (bitCount b) v (twi_ack b) (twi_ack_rec b) (sl_state b) (twi_error b) (txBuffer b) (txIndex b) (txLength b) (rxBuffer b) (rxIndex b) (timer b) (posted b) (received b) (s_sda b) (s_scl b) (m_sda b) (m_scl b) (pend_sda b) (pend_scl b) (countdown b).
Definition set_twi_ack (v : bool) (b : bus) : bus :=
  mkBus (twip_mode b) (twip_state b) (twip_status b) (bitCount b) (twi_data b) v (twi_ack_rec b) (sl_state b) (twi_error b) (txBuffer b) (txIndex b) (txLength b) (rxBuffer b) (rxIndex b) (timer b) (posted b) (received b) (s_sda b) (s_scl b) (m_sda b) (m_scl b) (pend_sda b) (pend_scl b) (countdown b).
Definition set_twi_ack_rec (v : bool) (b : bus) : bus :=
  mkBus (twip_mode b) (twip_state b) (twip_status b) (bitCount b) (twi_data b) (twi_ack b) v (sl_state b) (twi_error b) (txBuffer b) (txIndex b) (txLength b) (rxBuffer b) (rxIndex b) (timer b) (posted b) (received b) (s_sda b) (s_scl b) (m_sda b) (m_scl b) (pend_sda b) (pend_scl b) (countdown b).
Definition set_sl_state (v : tstate) (b : bus) : bus :=
  mkBus (twip_mode b) (twip_state b) (twip_status b) (bitCount b) (twi_data b) (twi_ack b) (twi_ack_rec b) v (twi_error b) (txBuffer b) (txIndex b) (txLength b) (rxBuffer b) (rxIndex b) (timer b) (posted b) (received b) (s_sda b) (s_scl b) (m_sda b) (m_scl b) (pend_sda b) (pend_scl b) (countdown b).
Definition set_twi_error (v : Z) (b : bus) : bus :=
  mkBus (twip_mode b) (twip_state b) (twip_status b) (bitCount b) (twi_data b) (twi_ack b) (twi_ack_rec b) (sl_state b) v (txBuffer b) (txIndex b) (txLength b) (rxBuffer b) (rxIndex b) (timer b) (posted b) (received b) (s_sda b) (s_scl b) (m_sda b) (m_scl b) (pend_sda b) (pend_scl b) (countdown b).
Definition set_txBuffer (v : list Z) (b : bus) : bus :=
  mkBus (twip_mode b) (twip_state b) (twip_status b) (bitCount b) (twi_data b) (twi_ack b) (twi_ack_rec b) (sl_state b) (twi_error b) v (txIndex b) (txLength b) (rxBuffer b) (rxIndex b) (timer b) (posted b) (received b) (s_sda b) (s_scl b) (m_sda b) (m_scl b) (pend_sda b) (pend_scl b) (countdown b).
Definition set_txIndex (v : Z) (b : bus) : bus :=
  mkBus (twip_mode b) (twip_state b) (twip_status b) (bitCount b) (twi_data b) (twi_ack b) (twi_ack_rec b) (sl_state b) (twi_error b) (txBuffer b) v (txLength b) (rxBuffer b) (rxIndex b) (timer b) (posted b) (received b) (s_sda b) (s_scl b) (m_sda b) (m_scl b) (pend_sda b) (pend_scl b) (countdown b).
Definition set_txLength (v : Z) (b : bus) : bus :=
  mkBus (twip_mode b) (twip_state b) (twip_status b) (bitCount b) (twi_data b) (twi_ack b) (twi_ack_rec b) (sl_state b) (twi_error b) (txBuffer b) (txIndex b) v (rxBuffer b) (rxIndex b) (timer b) (posted b) (received b) (s_sda b) (s_scl b) (m_sda b) (m_scl b) (pend_sda b) (pend_scl b) (countdown b).
Definition set_rxBuffer (v : list Z) (b : bus) : bus :=
  mkBus (twip_mode b) (twip_state b) (twip_status b) (bitCount b) (twi_data b) (twi_ack b) (twi_ack_rec b) (sl_state b) (twi_error b) (txBuffer b) (txIndex b) (txLength b) v (rxIndex b) (timer b) (posted b) (received b) (s_sda b) (s_scl b) (m_sda b) (m_scl b) (pend_sda b) (pend_scl b) (countdown b).
Definition set_rxIndex (v : Z) (b : bus) : bus :=
  mkBus (twip_mode b) (twip_state b) (twip_status b) (bitCount b) (twi_data b) (twi_ack b) (twi_ack_rec b) (sl_state b) (twi_error b) (txBuffer b) (txIndex b) (txLength b) (rxBuffer b) v (timer b) (posted b) (received b) (s_sda b) (s_scl b) (m_sda b) (m_scl b) (pend_sda b) (pend_scl b) (countdown b).
Definition set_timer (v : bool) (b : bus) : bus :=
  mkBus (twip_mode b) (twip_state b) (twip_status b) (bitCount b) (twi_data b) (twi_ack b) (twi_ack_rec b) (sl_state b) (twi_error b) (txBuffer b) (txIndex b) (txLength b) (rxBuffer b) (rxIndex b) v (posted b) (received b) (s_sda b) (s_scl b) (m_sda b) (m_scl b) (pend_sda b) (pend_scl b) (countdown b).
Definition set_posted (v : list event) (b : bus) : bus :=
  mkBus (twip_mode b) (twip_state b) (twip_status b) (bitCount b) (twi_data b) (twi_ack b) (twi_ack_rec b) (sl_state b) (twi_error b) (txBuffer b) (txIndex b) (txLength b) (rxBuffer b) (rxIndex b) (timer b) v (received b) (s_sda b) (s_scl b) (m_sda b) (m_scl b) (pend_sda b) (pend_scl b) (countdown b).
Definition set_received (v : list (list Z)) (b : bus) : bus :=
  mkBus (twip_mode b) (twip_state b) (twip_status b) (bitCount b) (twi_data b) (twi_ack b) (twi_ack_rec b) (sl_state b) (twi_error b) (txBuffer b) (txIndex b) (txLength b) (rxBuffer b) (rxIndex b) (timer b) (posted b) v (s_sda b) (s_scl b) (m_sda b) (m_scl b) (pend_sda b) (pend_scl b) (countdown b).
Definition set_s_sda (v : bool) (b : bus) : bus :=
  mkBus (twip_mode b) (twip_state b) (twip_status b) (bitCount b) (twi_data b) (twi_ack b) (twi_ack_rec b) (sl_state b) (twi_error b) (txBuffer b) (txIndex b) (txLength b) (rxBuffer b) (rxIndex b) (timer b) (posted b) (received b) v (s_scl b) (m_sda b) (m_scl b) (pend_sda b) (pend_scl b) (countdown b).
Definition set_s_scl (v : bool) (b : bus) : bus :=
  mkBus (twip_mode b) (twip_state b) (twip_status b) (bitCount b) (twi_data b) (twi_ack b) (twi_ack_rec b) (sl_state b) (twi_error b) (txBuffer b) (txIndex b) (txLength b) (rxBuffer b) (rxIndex b) (timer b) (posted b) (received b) (s_sda b) v (m_sda b) (m_scl b) (pend_sda b) (pend_scl b) (countdown b).
Definition set_m_sda (v : bool) (b : bus) : bus :=
  mkBus (twip_mode b) (twip_state b) (twip_status b) (bitCount b) (twi_data b) (twi_ack b) (twi_ack_rec b) (sl_state b) (twi_error b) (txBuffer b) (txIndex b) (txLength b) (rxBuffer b) (rxIndex b) (timer b) (posted b) (received b) (s_sda b) (s_scl b) v (m_scl b) (pend_sda b) (pend_scl b) (countdown b).
Definition set_m_scl (v : bool) (b : bus) : bus :=
  mkBus (twip_mode b) (twip_state b) (twip_status b) (bitCount b) (twi_data b) (twi_ack b) (twi_ack_rec b) (sl_state b) (twi_error b) (txBuffer b) (txIndex b) (txLength b) (rxBuffer b) (rxIndex b) (timer b) (posted b) (received b) (s_sda b) (s_scl b) (m_sda b) v (pend_sda b) (pend_scl b) (countdown b).
Definition set_pend_sda (v : bool) (b : bus) : bus :=
  mkBus (twip_mode b) (twip_state b) (twip_status b) (bitCount b) (twi_data b) (twi_ack b) (twi_ack_rec b) (sl_state b) (twi_error b) (txBuffer b) (txIndex b) (txLength b) (rxBuffer b) (rxIndex b) (timer b) (posted b) (received b) (s_sda b) (s_scl b) (m_sda b) (m_scl b) v (pend_scl b) (countdown b).
Definition set_pend_scl (v : bool) (b : bus) : bus :=
  mkBus (twip_mode b) (twip_state b) (twip_status b) (bitCount b) (twi_data b) (twi_ack b) (twi_ack_rec b) (sl_state b) (twi_error b) (txBuffer b) (txIndex b) (txLength b) (rxBuffer b) (rxIndex b) (timer b) (posted b) (received b) (s_sda b) (s_scl b) (m_sda b) (m_scl b) (pend_sda b) v (countdown b).
Definition set_countdown (v : nat) (b : bus) : bus :=
  mkBus (twip_mode b) (twip_state b) (twip_status b) (bitCount b) (twi_data b) (twi_ack b) (twi_ack_rec b) (sl_state b) (twi_error b) (txBuffer b) (txIndex b) (txLength b) (rxBuffer b) (rxIndex b) (timer b) (posted b) (received b) (s_sda b) (s_scl b) (m_sda b) (m_scl b) (pend_sda b) (pend_scl b) v.

(** The levels of the lines. *)
Definition sda (b : bus) : bool := negb (m_sda b) && negb (s_sda b).
Definition scl (b : bus) : bool := negb (m_scl b) && negb (s_scl b).

(** A pin is driven; a change of the line requests an interrupt of the slave. *)
Definition drive (f : bus -> bus) (b : bus) : bus :=
  let b' := f b in
  let b' := if eqb (sda b) (sda b') then b' else set_pend_sda true b' in
  if eqb (scl b) (scl b') then b' else set_pend_scl true b'.

Declare Scope si2c_scope.
Delimit Scope si2c_scope with si2c.
Notation "f >> g" := (fun b : bus => g (f b)) (at level 60, right associativity) : si2c_scope.
Open Scope si2c_scope.

Definition skip (b : bus) : bus := b.

(** [x++], and the two ways a shift register of a byte is used. *)
Definition incr8 (x : Z) : Z := u8 (x + 1).
Definition shift_out (d : Z) : Z := u8 (Z.shiftl d 1).
Definition shift_in (d : Z) (bit : bool) : Z := Z.lor (shift_out d) (b2z bit).

(** The configuration of both ends: the slave's address byte [twi_addr], whether its
    SDA pin has the lower number, what its transmit callback hands to
    [twi_transmit], given the blocks received so far ([None]: it does not call it);
    the delay count and the clock stretch limit of the master; the lag of the task;
    whether the armed timer expires in a state. *)
Class BusConfig := {
  twi_addr : Z; sda_first : bool; onSlaveTransmit : list (list Z) -> option (list Z);
  twi_dcount : Z; twi_clockStretchLimit : Z; lag : nat; expires : bus -> bool
}.

(** The timer does not expire: a transaction is over within its 10 ms. *)
Class InTime {C : BusConfig} : Prop := in_time : forall b, expires b = false.

(** ** The slave *)

(** The routines that both an interrupt handler and a task may run: [irq] is what
    happens right after they drive a pin, [skip] with the interrupts masked, the
    pin interrupts in a task. *)
Section Shared.
Context {C : BusConfig}.
Variable irq : bus -> bus.

Definition s_SDA_LOW : bus -> bus := drive (set_s_sda true) >> irq.
Definition s_SDA_HIGH : bus -> bus := drive (set_s_sda false) >> irq.
Definition s_SCL_LOW : bus -> bus := drive (set_s_scl true) >> irq.
Definition s_SCL_HIGH : bus -> bus := drive (set_s_scl false) >> irq.

Definition twi_reply (ack : bool) : bus -> bus := s_SCL_HIGH >> set_twi_ack ack.
(** [twi_stop] also waits between the two lines, with nothing else going on. *)
Definition twi_stop : bus -> bus := s_SCL_HIGH >> set_twi_ack true >> s_SDA_HIGH >> set_sl_state TWI_READY.
Definition twi_releaseBus : bus -> bus := s_SCL_HIGH >> set_twi_ack true >> s_SDA_HIGH >> set_sl_state TWI_READY.

(** The task queue has one place; a post to a full queue is lost. *)
Definition EVENTTASK_QUEUE_SIZE : nat := 1.
Definition ets_post (e : event) (b : bus) : bus :=
  if (length (posted b) <? EVENTTASK_QUEUE_SIZE)%nat then (set_posted (posted b ++ [e]) >> set_countdown lag) b else b.

(** The top bit of the data register goes to the line. *)
Definition shift_bit_out (b : bus) : bus :=
  let b := (if Z.testbit (twi_data b) 7 then s_SDA_HIGH else s_SDA_LOW) b in
  set_twi_data (shift_out (twi_data b)) b.

(** Room in the receive buffer; more to send in the transmit buffer. *)
Definition has_room (i : Z) : bool := i <? TWI_BUFFER_LENGTH.
Definition has_more (i len : Z) : bool := i <? len.

Definition slave_addressed (b : bus) : bus := (set_sl_state TWI_SRX >> set_rxIndex 0 >> twi_reply true) b.
Definition slave_received (b : bus) : bus :=
  if has_room (rxIndex b)
  then (set_rxBuffer (<[Z.to_nat (rxIndex b) := twi_data b]> (rxBuffer b)) >> set_rxIndex (incr8 (rxIndex b)) >> twi_reply true) b
  else twi_reply false b.
Definition slave_stopped (b : bus) : bus :=
  let b := if has_room (rxIndex b) then set_rxBuffer (<[Z.to_nat (rxIndex b) := 0]> (rxBuffer b)) b else b in
  (ets_post (SIG_RX (rxIndex b)) >> set_rxIndex 0) b.
Definition slave_requested (b : bus) : bus :=
  (set_sl_state TWI_STX >> set_txIndex 0 >> set_txLength 0 >> ets_post SIG_TX) b.
Definition slave_transmit (b : bus) : bus :=
  let b := set_twi_data (nth (Z.to_nat (txIndex b)) (txBuffer b) 0) b in
  let b := set_txIndex (incr8 (txIndex b)) b in
  let b := set_bitCount (u8 (8 - 1)) b in
  let b := shift_bit_out b in
  twi_reply (has_more (txIndex b) (txLength b)) b.

Definition twi_onTwipEvent (status : Z) (b : bus) : bus :=
  if (status =? TW_SR_SLA_ACK) || (status =? TW_SR_GCALL_ACK) || (status =? TW_SR_ARB_LOST_SLA_ACK) ||
     (status =? TW_SR_ARB_LOST_GCALL_ACK) then slave_addressed b
  else if (status =? TW_SR_DATA_ACK) || (status =? TW_SR_GCALL_DATA_ACK) then slave_received b
  else if status =? TW_SR_STOP then slave_stopped b
  else if (status =? TW_SR_DATA_NACK) || (status =? TW_SR_GCALL_DATA_NACK) then twi_reply false b
  else if (status =? TW_ST_SLA_ACK) || (status =? TW_ST_ARB_LOST_SLA_ACK) then slave_requested b
  else if status =? TW_ST_DATA_ACK then slave_transmit b
  else if (status =? TW_ST_DATA_NACK) || (status =? TW_ST_LAST_DATA) then twi_releaseBus b
  else if status =? TW_NO_INFO then b
  else if status =? TW_BUS_ERROR then (set_twi_error TW_BUS_ERROR >> twi_stop) b
  else b.

(** [twip_status = status; twi_onTwipEvent(twip_status)] *)
Definition raise_status (status : Z) : bus -> bus := set_twip_status status >> twi_onTwipEvent status.
Definition bus_error : bus -> bus :=
  raise_status TW_BUS_ERROR >> set_twip_mode TWIPM_WAIT >> set_twip_state TWIP_BUS_ERR.

End Shared.

Section Slave.
Context {C : BusConfig}.

(** The length is an argument of type [uint8_t]. *)
Definition twi_transmit (data : list Z) (b : bus) : Z * bus :=
  let len := u8 (Z.of_nat (length data)) in
  if TWI_BUFFER_LENGTH <? len then (1, b)
  else match sl_state b with
       | TWI_STX =>
           (0, (set_txLength len >> set_txBuffer (take (Z.to_nat len) data ++ drop (Z.to_nat len) (txBuffer b))) b)
       | _ => (2, b)
       end.

(** The address byte matches ([twi_data & 0xFE] against [twi_addr]). *)
Definition addressed (d : Z) : bool := Z.land d 0xFE =? twi_addr.

Definition idle_mode (b : bus) : bool := match twip_mode b with TWIPM_IDLE => true | _ => false end.

Definition onSclChange (b : bus) : bus :=
  let d := sda b in
  let c := scl b in
  let b := set_twip_status TW_NO_INFO b in
  match twip_state b with
  | TWIP_IDLE | TWIP_WAIT_STOP | TWIP_BUS_ERR => b
  | TWIP_START | TWIP_REP_START | TWIP_SLA_W | TWIP_READ =>
      if negb c then b else
      let b := set_bitCount (u8 (bitCount b - 1)) b in
      let b := set_twi_data (shift_in (twi_data b) d) b in
      if negb (bitCount b =? 0) then b else set_twip_state TWIP_SEND_ACK b
  | TWIP_SEND_ACK =>
      if c then b else
      let b := if idle_mode b then (if addressed (twi_data b) then s_SDA_LOW skip b else b)
               else (if twi_ack b then s_SDA_LOW skip b else b) in
      set_twip_state TWIP_WAIT_ACK b
  | TWIP_WAIT_ACK =>
      if c then b else
      if idle_mode b then
        if negb (addressed (twi_data b)) then (s_SDA_HIGH skip >> set_twip_state TWIP_WAIT_STOP) b else
        let b := (s_SCL_LOW skip >> s_SDA_HIGH skip >> set_twip_mode TWIPM_ADDRESSED) b in
        if negb (Z.testbit (twi_data b) 0)
        then (raise_status skip TW_SR_SLA_ACK >> set_bitCount 8 >> set_twip_state TWIP_SLA_W) b
        else (raise_status skip TW_ST_SLA_ACK >> set_twip_state TWIP_SLA_R) b
      else
        let b := (s_SCL_LOW skip >> s_SDA_HIGH skip) b in
        if negb (twi_ack b)
        then (raise_status skip TW_SR_DATA_NACK >> set_twip_mode TWIPM_WAIT >> set_twip_state TWIP_WAIT_STOP) b
        else (raise_status skip TW_SR_DATA_ACK >> set_bitCount 8 >> set_twip_state TWIP_READ) b
  | TWIP_SLA_R | TWIP_WRITE =>
      if c then b else
      let b := shift_bit_out skip (set_bitCount (u8 (bitCount b - 1)) b) in
      if negb (bitCount b =? 0) then b else set_twip_state TWIP_REC_ACK b
  | TWIP_REC_ACK => if c then b else (s_SDA_HIGH skip >> set_twip_state TWIP_READ_ACK) b
  | TWIP_READ_ACK => if negb c then b else (set_twi_ack_rec (negb d) >> set_twip_state TWIP_RWAIT_ACK) b
  | TWIP_RWAIT_ACK =>
      if c then b else
      let b := s_SCL_LOW skip b in
      if twi_ack b && twi_ack_rec b
      then (raise_status skip TW_ST_DATA_ACK >> set_twip_state TWIP_WRITE) b
      else (raise_status skip (if twi_ack_rec b then TW_ST_LAST_DATA else TW_ST_DATA_NACK) >>
            set_twip_mode TWIPM_WAIT >> set_twip_state TWIP_WAIT_STOP) b
  | TWIP_UNKNOWN | TWIP_STOP => b
  end.

Definition arm_timer : bus -> bus := set_timer true.
Definition disarm_timer : bus -> bus := set_timer false.

Definition onSdaChange (b : bus) : bus :=
  let d := sda b in
  let c := scl b in
  match twip_state b with
  | TWIP_IDLE =>
      if negb c then b else if d then b else (set_bitCount 8 >> set_twip_state TWIP_START >> arm_timer) b
  | TWIP_START | TWIP_REP_START | TWIP_SEND_ACK | TWIP_WAIT_ACK | TWIP_SLA_R | TWIP_REC_ACK | TWIP_READ_ACK
  | TWIP_RWAIT_ACK | TWIP_WRITE =>
      if negb c then b else (s_SDA_HIGH skip >> bus_error skip) b
  | TWIP_WAIT_STOP =>
      if negb c then b else
      if d then (s_SCL_LOW skip >> disarm_timer >> set_twip_state TWIP_IDLE >> set_twip_mode TWIPM_IDLE >> s_SCL_HIGH skip) b
      else (set_bitCount 8 >> set_twip_state TWIP_REP_START >> arm_timer) b
  | TWIP_BUS_ERR =>
      if negb c then b else
      if d then (s_SCL_LOW skip >> disarm_timer >> set_twip_state TWIP_IDLE >> set_twip_mode TWIPM_IDLE >> s_SCL_HIGH skip) b
      else b
  | TWIP_SLA_W | TWIP_READ =>
      if negb c then b else
      if negb (bitCount b =? 7) then bus_error skip b else
      let b := (s_SCL_LOW skip >> raise_status skip TW_SR_STOP) b in
      if d then (disarm_timer >> set_twip_state TWIP_IDLE >> set_twip_mode TWIPM_IDLE) b
      else (set_bitCount 8 >> arm_timer >> set_twip_state TWIP_REP_START >> set_twip_mode TWIPM_IDLE) b
  | TWIP_UNKNOWN | TWIP_STOP => b
  end.

(** The dispatcher of the pin interrupts: requests are cleared first, then served in
    the order of the pin numbers. *)
Definition interrupt_handler (b : bus) : bus :=
  let d := pend_sda b in
  let c := pend_scl b in
  let b := (set_pend_sda false >> set_pend_scl false) b in
  let on_sda := if d then onSdaChange else skip in
  let on_scl := if c then onSclChange else skip in
  if sda_first then (on_sda >> on_scl) b else (on_scl >> on_sda) b.

(** Interrupts are served until none is requested any more. *)
Fixpoint serve (k : nat) (b : bus) : bus :=
  match k with
  | O => b
  | S k' => if pend_sda b || pend_scl b then serve k' (interrupt_handler b) else b
  end.

(** The handlers cause at most two more changes of the lines. *)
Definition SERVED : nat := 4.

(** A task and the callback of a timer run with the interrupts enabled. *)
Definition task : bus -> bus := serve SERVED.

Definition onTimer : bus -> bus := twi_releaseBus task >> bus_error task.

Definition eventTask (e : event) (b : bus) : bus :=
  match e with
  | SIG_TX =>
      let b := match onSlaveTransmit (received b) with Some data => snd (twi_transmit data b) | None => b end in
      let b := if txLength b =? 0 then set_txBuffer (<[0%nat := 0]> (txBuffer b)) (set_txLength 1 b) else b in
      twi_onTwipEvent task TW_ST_DATA_ACK b
  | SIG_RX par => (twi_releaseBus task >> (fun b => set_received (received b ++ [take (Z.to_nat par) (rxBuffer b)]) b)) b
  end.

(** Time passes for the slave: its timer expires, or the task runs when its lag is over. *)
Definition run_task (b : bus) : bus :=
  match posted b, countdown b with
  | [], _ => b
  | e :: q, O => eventTask e (set_posted q b)
  | _, S n => set_countdown n b
  end.
Definition elapse (b : bus) : bus :=
  if timer b && expires b then onTimer (set_timer false b) else run_task b.

Lemma elapse_in_time {T : InTime} b : elapse b = run_task b.
Proof. unfold elapse. by rewrite in_time, andb_false_r. Qed.
End Slave.

(** ** The master *)

Section Master.
Context {C : BusConfig}.

Definition M (A : Type) : Type := bus -> A * bus.
Definition ret {A} (a : A) : M A := fun b => (a, b).
Definition bind {A D} (m : M A) (k : A -> M D) : M D := fun b => let '(a, b') := m b in k a b'.
End Master.

Notation "x <- m ;; k" := (bind m (fun x => k))
  (at level 100, m at next level, right associativity) : si2c_scope.
Notation "m ;; k" := (bind m (fun _ => k))
  (at level 100, right associativity) : si2c_scope.
Notation "'If' c 'Then' m" := (if c : bool then m else ret tt)
  (at level 10, m at level 200) : si2c_scope.

Section Functions.
Context {C : BusConfig}.

(** A write to the port, with the interrupts of the slave that it causes. *)
Definition pull (f : bus -> bus) : M unit := fun b => (tt, serve SERVED (drive f b)).
Definition SDA_LOW : M unit := pull (set_m_sda true).
Definition SDA_HIGH : M unit := pull (set_m_sda false).
Definition SCL_LOW : M unit := pull (set_m_scl true).
Definition SCL_HIGH : M unit := pull (set_m_scl false).
(** A read of the port takes time. *)
Definition SDA_READ : M bool := fun b => let b := elapse b in (sda b, b).
Definition SCL_READ : M bool := fun b => let b := elapse b in (scl b, b).
Definition GPI : M unit := fun b => (tt, elapse b).

Fixpoint delay_loop (k : nat) : M unit := match k with O => ret tt | S k' => GPI ;; delay_loop k' end.
Definition twi_delay (v : Z) : M unit := delay_loop (Z.to_nat (u8 v)).

(** [while (SCL_READ() == 0 && (i++) < twi_clockStretchLimit)]; [k] rounds remain. *)
Fixpoint stretch_loop (k : nat) : M unit :=
  c <- SCL_READ ;;
  if c : bool then ret tt else match k with O => ret tt | S k' => stretch_loop k' end.
Definition wait_scl : M unit := stretch_loop (Z.to_nat twi_clockStretchLimit).

Definition twi_write_start : M bool :=
  SCL_HIGH ;;
  SDA_HIGH ;;
  d <- SDA_READ ;;
  if negb d then ret false else
  twi_delay twi_dcount ;;
  SDA_LOW ;;
  twi_delay twi_dcount ;;
  ret true.

Definition twi_write_stop : M bool :=
  SCL_LOW ;;
  SDA_LOW ;;
  twi_delay twi_dcount ;;
  SCL_HIGH ;;
  wait_scl ;;
  twi_delay twi_dcount ;;
  SDA_HIGH ;;
  twi_delay twi_dcount ;;
  ret true.

Definition twi_write_bit (bit : bool) : M bool :=
  SCL_LOW ;;
  (if bit then SDA_HIGH else SDA_LOW) ;;
  twi_delay (twi_dcount + 1) ;;
  SCL_HIGH ;;
  wait_scl ;;
  twi_delay twi_dcount ;;
  ret true.

Definition twi_read_bit : M bool :=
  SCL_LOW ;;
  SDA_HIGH ;;
  twi_delay (twi_dcount + 2) ;;
  SCL_HIGH ;;
  wait_scl ;;
  bit <- SDA_READ ;;
  twi_delay twi_dcount ;;
  ret bit.

(** The loops over the bits of a byte; [k] bits remain. *)
Fixpoint write_bits (k : nat) (byte : Z) : M unit :=
  match k with
  | O => ret tt
  | S k' => twi_write_bit (Z.testbit byte 7) ;; write_bits k' (shift_out byte)
  end.
Fixpoint read_bits (k : nat) (byte : Z) : M Z :=
  match k with
  | O => ret byte
  | S k' => bit <- twi_read_bit ;; read_bits k' (shift_in byte bit)
  end.

Definition twi_write_byte (byte : Z) : M bool :=
  write_bits 8 byte ;;
  bit <- twi_read_bit ;;
  ret (negb bit).

Definition twi_read_byte (nack : bool) : M Z :=
  byte <- read_bits 8 0 ;;
  twi_write_bit nack ;;
  ret byte.

(** [i = 0; while(SDA_READ() == 0 && (i++) < 10) ...]: clocks until SDA is released. *)
Fixpoint release_loop (k : nat) : M unit :=
  d <- SDA_READ ;;
  if d : bool then ret tt else
  match k with
  | O => ret tt
  | S k' =>
      SCL_LOW ;; twi_delay twi_dcount ;; SCL_HIGH ;; wait_scl ;; twi_delay twi_dcount ;; release_loop k'
  end.

(** The loop over the data: [false] at the first byte that is not acknowledged. *)
Fixpoint write_data (buf : list Z) : M bool :=
  match buf with
  | [] => ret true
  | x :: buf' => ack <- twi_write_byte x ;; if negb ack then ret false else write_data buf'
  end.

Definition twi_writeTo (address : Z) (buf : list Z) (sendStop : bool) : M Z :=
  s <- twi_write_start ;;
  if negb s then ret 4 else
  a <- twi_write_byte (Z.land (Z.lor (Z.shiftl address 1) 0) 0xFF) ;;
  if negb a then (If sendStop Then (twi_write_stop ;; ret tt)) ;; ret 2 else
  d <- write_data buf ;;
  if negb d then (If sendStop Then (twi_write_stop ;; ret tt)) ;; ret 3 else
  (If sendStop Then (twi_write_stop ;; ret tt)) ;;
  release_loop 10 ;;
  ret 0.

(** [len] bytes, the last one not acknowledged. *)
Fixpoint read_data (k : nat) : M (list Z) :=
  match k with
  | O => x <- twi_read_byte true ;; ret [x]
  | S k' => x <- twi_read_byte false ;; l <- read_data k' ;; ret (x :: l)
  end.

(** The code and the bytes read, for [len] at least 1. *)
Definition twi_readFrom (address : Z) (len : nat) (sendStop : bool) : M (Z * list Z) :=
  s <- twi_write_start ;;
  if negb s then ret (4, []) else
  a <- twi_write_byte (Z.land (Z.lor (Z.shiftl address 1) 1) 0xFF) ;;
  if negb a then (If sendStop Then (twi_write_stop ;; ret tt)) ;; ret (2, []) else
  l <- read_data (len - 1) ;;
  (If sendStop Then (twi_write_stop ;; ret tt)) ;;
  release_loop 10 ;;
  ret (0, l).

Definition I2C_OK := 0.
Definition I2C_SCL_HELD_LOW := 1.
Definition I2C_SCL_HELD_LOW_AFTER_READ := 2.
Definition I2C_SDA_HELD_LOW := 3.
Definition I2C_SDA_HELD_LOW_AFTER_INIT := 4.

(** [while (SDA_READ() == 0 && clockCount-- > 0)]: [true] when the clock is held. *)
Fixpoint free_bus (clockCount : nat) : M bool :=
  d <- SDA_READ ;;
  if d : bool then ret false else
  match clockCount with
  | O => ret false
  | S k => twi_read_bit ;; c <- SCL_READ ;; if negb c then ret true else free_bus k
  end.

Definition twi_status : M Z :=
  c <- SCL_READ ;;
  if negb c then ret I2C_SCL_HELD_LOW else
  held <- free_bus 20 ;;
  if held : bool then ret I2C_SCL_HELD_LOW_AFTER_READ else
  d <- SDA_READ ;;
  if negb d then ret I2C_SDA_HELD_LOW else
  s <- twi_write_start ;;
  if negb s then ret I2C_SDA_HELD_LOW_AFTER_INIT else
  ret I2C_OK.
End Functions.

(** The delay count of [twi_setClock] and the limit of [twi_setClockStretchLimit], for
    a processor at 80 MHz ([f80]) or at another clock; the address byte. *)
Definition setClock_dcount (f80 : bool) (freq : Z) : Z :=
  if f80 then
    if freq <=? 50000 then 38 else if freq <=? 100000 then 19 else if freq <=? 200000 then 8
    else if freq <=? 300000 then 3 else if freq <=? 400000 then 1 else 1
  else
    if freq <=? 50000 then 64 else if freq <=? 100000 then 32 else if freq <=? 200000 then 14
    else if freq <=? 300000 then 8 else if freq <=? 400000 then 5 else if freq <=? 500000 then 3
    else if freq <=? 600000 then 2 else 1.
Definition setClockStretchLimit (f80 : bool) (limit : Z) : Z := u32 (limit * (if f80 then 3 else 6)).
Definition setAddress_addr (address : Z) : Z := u8 (Z.shiftl address 1).

(** [twi_init]: the pins, the timing of the master, and whether the pin interrupts of a
    slave are attached (its timer and task are part of the model). *)
Record setup := mkSetup { twi_sda : Z; twi_scl : Z; init_dcount : Z; init_limit : Z; attached : bool }.
Definition twi_init (f80 : bool) (preferred_si2c_clock addr sda scl : Z) : setup :=
  mkSetup sda scl (setClock_dcount f80 preferred_si2c_clock) (setClockStretchLimit f80 230) (negb (addr =? 0)).

(** The configuration of a slave with the callback [f] and a master that are set up on
    the same pins; [twi_attachSlaveTxEvent] sets [f]. *)
Definition configured (s : setup) (addr : Z) (f : list (list Z) -> option (list Z)) (lg : nat) (ex : bus -> bool) : BusConfig :=
  {| twi_addr := addr; sda_first := twi_sda s <? twi_scl s; onSlaveTransmit := f; twi_dcount := init_dcount s;
     twi_clockStretchLimit := init_limit s; lag := lg; expires := ex |}.

(** The state after [twi_init] of both ends. *)
Definition idle_bus : bus :=
  mkBus TWIPM_IDLE TWIP_IDLE TW_NO_INFO 0 0 false false TWI_READY 0xFF (repeat 0 32) 0 0 (repeat 0 32) 0
    false [] [] false false false false false false 0.
