(* ===== verification/Si2cWrite.v ===== *)
(** * The software I2C bus: a message from the master to the slave

    The lines are followed change by change, then bit by bit and byte by byte: what
    [twi_writeTo] does to a slave that runs [onSclChange] and [onSdaChange]. *)

From S2P Require Import Prelude Si2c.

(** ** Shift registers *)

Lemma testbit_shift_out d k : 0 <= k -> Z.testbit (shift_out d) k = (k <? 8) && (1 <=? k) && Z.testbit d (k - 1).
Proof.
  intros Hk. unfold shift_out. rewrite testbit_u8, Z.shiftl_spec by lia.
  destruct (Z.ltb_spec k 8), (Z.leb_spec 1 k); simpl; try done. apply Z.testbit_neg_r. lia.
Qed.

Lemma testbit_shift_in d x k :
  0 <= k -> Z.testbit (shift_in d x) k = (k <? 8) && (if 1 <=? k then Z.testbit d (k - 1) else x).
Proof.
  intros Hk. unfold shift_in. rewrite Z.lor_spec, testbit_shift_out by lia.
  destruct (Z.leb_spec 1 k).
  - replace (Z.testbit (b2z x) k) with false.
    2: { destruct x; [symmetry; apply (testbit_small 1 1); simpl; lia | symmetry; apply Z.testbit_0_l]. }
    by rewrite orb_false_r, andb_true_r.
  - replace k with 0 by lia. by destruct x.
Qed.

(** Shifting a byte out of one register into another moves it. *)
Fixpoint shift_all (n : nat) (y d : Z) : Z :=
  match n with O => d | S n' => shift_all n' (shift_out y) (shift_in d (Z.testbit y 7)) end.

Lemma testbit_shift_all n y d k :
  (n <= 8)%nat -> 0 <= k < 8 ->
  Z.testbit (shift_all n y d) k =
    if k <? Z.of_nat n then Z.testbit y (8 - Z.of_nat n + k) else Z.testbit d (k - Z.of_nat n).
Proof.
  revert y d. induction n as [|n IH]; intros y d Hn Hk.
  - cbn [shift_all]. change (Z.of_nat 0) with 0. rewrite (Z.sub_0_r k). destruct (Z.ltb_spec k 0); [lia | done].
  - cbn [shift_all]. rewrite IH by lia.
    destruct (Z.ltb_spec k (Z.of_nat n)); destruct (Z.ltb_spec k (Z.of_nat (S n))); try lia.
    + rewrite testbit_shift_out by lia. destruct (Z.ltb_spec (8 - Z.of_nat n + k) 8); [|lia].
      destruct (Z.leb_spec 1 (8 - Z.of_nat n + k)); [|lia]. cbn [andb]. f_equal. lia.
    + rewrite testbit_shift_in by lia. destruct (Z.ltb_spec (k - Z.of_nat n) 8); [|lia].
      destruct (Z.leb_spec 1 (k - Z.of_nat n)); [lia|]. cbn [andb]. f_equal. lia.
    + rewrite testbit_shift_in by lia. destruct (Z.ltb_spec (k - Z.of_nat n) 8); [|lia].
      destruct (Z.leb_spec 1 (k - Z.of_nat n)); [|lia]. cbn [andb]. f_equal. lia.
Qed.

Lemma shift_in_u8 d x : is_u8 (shift_in d x).
Proof.
  enough (E : shift_in d x = u8 (shift_in d x)) by (rewrite E; apply u8_range).
  apply z_ext. intros k Hk. rewrite testbit_u8, !testbit_shift_in by lia. destruct (k <? 8); done.
Qed.

Lemma shift_all_u8 n y d : is_u8 d -> is_u8 (shift_all n y d).
Proof. revert y d. induction n; intros y d Hd; simpl; auto using shift_in_u8. Qed.

Lemma shift_all_byte y d : is_u8 y -> shift_all 8 y d = y.
Proof.
  intros Hy. apply z_ext. intros k Hk. destruct (Z.ltb_spec k 8).
  - rewrite testbit_shift_all by lia. destruct (Z.ltb_spec k (Z.of_nat 8)); [|lia]. f_equal; lia.
  - rewrite !u8_bit_high; try done. change (shift_all 8 y d) with (shift_all 7 (shift_out y) (shift_in d (Z.testbit y 7))).
    apply shift_all_u8, shift_in_u8.
Qed.

(** ** Time *)

Section Time.
Context {C : BusConfig} {T : InTime}.

Lemma delay_loop_quiet n b : posted b = [] -> delay_loop n b = (tt, b).
Proof.
  intros Hq. induction n as [|k IH]; [done|].
  cbn [delay_loop]. unfold bind, GPI. rewrite elapse_in_time. unfold run_task. by rewrite Hq.
Qed.
Lemma delay_quiet v b : posted b = [] -> twi_delay v b = (tt, b).
Proof. apply delay_loop_quiet. Qed.

Lemma wait_quiet b : posted b = [] -> scl b = true -> wait_scl b = (tt, b).
Proof.
  intros Hq Hc. unfold wait_scl. destruct (Z.to_nat twi_clockStretchLimit); cbn [stretch_loop];
    unfold bind, SCL_READ; rewrite elapse_in_time; unfold run_task; rewrite Hq, Hc; done.
Qed.

Lemma read_quiet b : posted b = [] -> SDA_READ b = (sda b, b).
Proof. intros Hq. unfold SDA_READ. rewrite elapse_in_time. unfold run_task. by rewrite Hq. Qed.

End Time.

(** One statement of the master. *)
Lemma step {A D} (m : M A) (k : A -> M D) a b b' r : m b = (a, b') -> k a b' = r -> bind m k b = r.
Proof. intros H1 H2. unfold bind. by rewrite H1. Qed.

Ltac quiet := first [apply delay_quiet | apply wait_quiet | apply read_quiet]; reflexivity.

(** The receive buffer after a message of [ri] bytes. *)
Definition terminated (rb : list Z) (ri : Z) : list Z := if has_room ri then <[Z.to_nat ri := 0]> rb else rb.

Lemma take_terminated rb n : take n (terminated rb (Z.of_nat n)) = take n rb.
Proof. unfold terminated. rewrite Nat2Z.id. destruct (has_room _); [by rewrite take_insert_ge | done]. Qed.

Lemma length_terminated rb ri : length (terminated rb ri) = length rb.
Proof. unfold terminated. destruct (has_room _); [by rewrite length_insert | done]. Qed.

(** Evaluates the interrupt handlers, but not the registers and counters. *)
Ltac handlers :=
  match goal with K : BusConfig |- _ => destruct K as [? [] ? ? ? ?] end;
  cbv -[shift_in shift_out incr8 addressed Z.testbit has_room has_more terminated insert nth Z.to_nat take app Z.land]; reflexivity.

(** ** The handlers *)

Section Handlers.
Context {C : BusConfig} {T : InTime}.

(** Whether the slave pulls the line for the acknowledge bit. *)
Definition takes (md : pmode) (y : Z) (ack : bool) : bool :=
  match md with TWIPM_IDLE => addressed y | _ => ack end.

(** The master's falling clock is seen by the slave's handler. *)
Lemma SCL_LOW_handler b :
  scl b = true -> pend_sda b = false ->
  SCL_LOW b = (tt, serve 3 (onSclChange (set_pend_scl false (set_m_scl true b)))).
Proof.
  intros Hc Hp. unfold SCL_LOW, pull. f_equal. unfold scl in Hc. apply andb_prop in Hc as [Hm Hs].
  destruct b; cbn in Hm, Hs, Hp. subst. destruct m_scl, s_scl; try discriminate.
  change SERVED with 4%nat. generalize 3%nat as k. intros k. cbn [serve].
  replace (Si2c.pend_sda _ || Si2c.pend_scl _) with true by (by destruct s_sda, m_sda).
  f_equal. unfold interrupt_handler. destruct sda_first, s_sda, m_sda; reflexivity.
Qed.

Lemma onScl_send_ack b :
  twip_state b = TWIP_SEND_ACK -> scl b = false ->
  onSclChange b =
    set_twip_state TWIP_WAIT_ACK
      ((if takes (twip_mode b) (twi_data b) (twi_ack b) then s_SDA_LOW skip else skip) (set_twip_status TW_NO_INFO b)).
Proof.
  intros Hs Hc. unfold onSclChange, takes, idle_mode. rewrite Hc. destruct b. cbn in Hs. subst.
  destruct twip_mode; cbn [twip_state set_twip_status Si2c.twip_mode Si2c.twi_data Si2c.twi_ack];
    [destruct twi_ack | destruct (addressed twi_data) | destruct twi_ack | destruct twi_ack]; reflexivity.
Qed.

(** The end of the acknowledge bit, for a byte that addresses the slave or not and
    for a byte of data. *)
Lemma onScl_not_addressed b :
  twip_state b = TWIP_WAIT_ACK -> scl b = false -> twip_mode b = TWIPM_IDLE -> addressed (twi_data b) = false ->
  onSclChange b = (s_SDA_HIGH skip >> set_twip_state TWIP_WAIT_STOP) (set_twip_status TW_NO_INFO b).
Proof.
  intros Hs Hc Hm Ha. unfold onSclChange, idle_mode. rewrite Hc. destruct b. cbn in Hs, Hm, Ha. subst.
  cbn [twip_state set_twip_status Si2c.twip_mode Si2c.twi_data]. rewrite Ha. reflexivity.
Qed.

Lemma onScl_addressed b :
  twip_state b = TWIP_WAIT_ACK -> scl b = false -> twip_mode b = TWIPM_IDLE -> addressed (twi_data b) = true ->
  onSclChange b =
    (s_SCL_LOW skip >> s_SDA_HIGH skip >> set_twip_mode TWIPM_ADDRESSED >>
     (if Z.testbit (twi_data b) 0 then raise_status skip TW_ST_SLA_ACK >> set_twip_state TWIP_SLA_R
      else raise_status skip TW_SR_SLA_ACK >> set_bitCount 8 >> set_twip_state TWIP_SLA_W)) (set_twip_status TW_NO_INFO b).
Proof.
  intros Hs Hc Hm Ha. unfold onSclChange, idle_mode. rewrite Hc. destruct b. cbn in Hs, Hm, Ha. subst.
  cbn [twip_state set_twip_status Si2c.twip_mode Si2c.twi_data]. rewrite Ha. cbn [negb].
  unfold scl in Hc. cbn in Hc.
  replace (Si2c.twi_data (set_twip_mode _ _)) with twi_data by (destruct m_sda, s_sda, m_scl, s_scl; reflexivity).
  destruct (Z.testbit twi_data 0); reflexivity.
Qed.

Lemma onScl_data b :
  twip_state b = TWIP_WAIT_ACK -> scl b = false -> twip_mode b = TWIPM_ADDRESSED ->
  onSclChange b =
    (s_SCL_LOW skip >> s_SDA_HIGH skip >>
     (if twi_ack b then raise_status skip TW_SR_DATA_ACK >> set_bitCount 8 >> set_twip_state TWIP_READ
      else raise_status skip TW_SR_DATA_NACK >> set_twip_mode TWIPM_WAIT >> set_twip_state TWIP_WAIT_STOP))
      (set_twip_status TW_NO_INFO b).
Proof.
  intros Hs Hc Hm. unfold onSclChange, idle_mode. rewrite Hc. destruct b. cbn in Hs, Hm. subst.
  cbn [twip_state set_twip_status Si2c.twip_mode Si2c.twi_data]. unfold scl in Hc. cbn in Hc.
  replace (Si2c.twi_ack (s_SDA_HIGH _ _)) with twi_ack by (destruct m_sda, s_sda, m_scl, s_scl; reflexivity).
  destruct twi_ack; reflexivity.
Qed.

Lemma raise_data_ack b irq :
  raise_status irq TW_SR_DATA_ACK b =
    (if has_room (rxIndex b)
     then set_rxBuffer (<[Z.to_nat (rxIndex b) := twi_data b]> (rxBuffer b)) >> set_rxIndex (incr8 (rxIndex b)) >> twi_reply irq true
     else twi_reply irq false) (set_twip_status TW_SR_DATA_ACK b).
Proof. cbv [raise_status]. change (twi_onTwipEvent irq TW_SR_DATA_ACK) with (slave_received irq). unfold slave_received. destruct b. cbn. destruct (has_room _); reflexivity. Qed.

Lemma raise_stop b irq :
  raise_status irq TW_SR_STOP b =
    (set_rxBuffer (terminated (rxBuffer b) (rxIndex b)) >> ets_post (SIG_RX (rxIndex b)) >> set_rxIndex 0)
      (set_twip_status TW_SR_STOP b).
Proof.
  cbv [raise_status]. change (twi_onTwipEvent irq TW_SR_STOP) with slave_stopped.
  unfold slave_stopped, terminated. destruct b. cbn. destruct (has_room _); reflexivity.
Qed.

(** A change of SDA by the master is seen by the slave's handler. *)
Lemma SDA_HIGH_handler b :
  m_sda b = true -> s_sda b = false -> pend_sda b = false -> pend_scl b = false ->
  SDA_HIGH b = (tt, serve 3 (onSdaChange (set_pend_sda false (set_m_sda false b)))).
Proof.
  intros Hm Hs Hd Hc. unfold SDA_HIGH, pull. f_equal. destruct b; cbn in Hm, Hs, Hd, Hc. subst.
  change SERVED with 4%nat. generalize 3%nat as k. intros k. cbn [serve].
  replace (Si2c.pend_sda _ || Si2c.pend_scl _) with true by (by destruct s_scl, m_scl).
  f_equal. unfold interrupt_handler. destruct sda_first, s_scl, m_scl; reflexivity.
Qed.

Lemma SDA_LOW_handler b :
  m_sda b = false -> s_sda b = false -> pend_sda b = false -> pend_scl b = false ->
  SDA_LOW b = (tt, serve 3 (onSdaChange (set_pend_sda false (set_m_sda true b)))).
Proof.
  intros Hm Hs Hd Hc. unfold SDA_LOW, pull. f_equal. destruct b; cbn in Hm, Hs, Hd, Hc. subst.
  change SERVED with 4%nat. generalize 3%nat as k. intros k. cbn [serve].
  replace (Si2c.pend_sda _ || Si2c.pend_scl _) with true by (by destruct s_scl, m_scl).
  f_equal. unfold interrupt_handler. destruct sda_first, s_scl, m_scl; reflexivity.
Qed.

Lemma onSda_restart b :
  twip_state b = TWIP_SLA_W \/ twip_state b = TWIP_READ -> scl b = true -> sda b = false -> bitCount b = 7 ->
  onSdaChange b =
    (s_SCL_LOW skip >> raise_status skip TW_SR_STOP >> set_bitCount 8 >> arm_timer >> set_twip_state TWIP_REP_START >>
     set_twip_mode TWIPM_IDLE) b.
Proof. intros [Hs | Hs] Hc Hd Hb; unfold onSdaChange; by rewrite Hs, Hc, Hd, Hb. Qed.

Lemma onSda_stop b :
  twip_state b = TWIP_SLA_W \/ twip_state b = TWIP_READ -> scl b = true -> sda b = true -> bitCount b = 7 ->
  onSdaChange b =
    (s_SCL_LOW skip >> raise_status skip TW_SR_STOP >> disarm_timer >> set_twip_state TWIP_IDLE >>
     set_twip_mode TWIPM_IDLE) b.
Proof. intros [Hs | Hs] Hc Hd Hb; unfold onSdaChange; by rewrite Hs, Hc, Hd, Hb. Qed.
End Handlers.

(** ** A slave that receives *)

(** The fields that change while a message is received. *)
Section Receive.
Context {C : BusConfig} {T : InTime}.
Variables (ar : bool) (er : Z) (tb : list Z) (ti tl : Z) (recd : list (list Z)) (cd : nat).

Definition rx md st ts bc d ack ss rb ri tm s_d m_d m_c : bus :=
  mkBus md st ts bc d ack ar ss er tb ti tl rb ri tm [] recd s_d false m_d m_c false false cd.

(** The states in which the slave shifts bits in. *)
Definition shifting (st : pstate) : bool :=
  match st with TWIP_START | TWIP_REP_START | TWIP_SLA_W | TWIP_READ => true | _ => false end.

Lemma start_idle ts bc d ack ss rb ri tm :
  twi_write_start (rx TWIPM_IDLE TWIP_IDLE ts bc d ack ss rb ri tm false false false) =
    (true, rx TWIPM_IDLE TWIP_START ts 8 d ack ss rb ri true false true false).
Proof.
  unfold twi_write_start. eapply step; [handlers|]. eapply step; [handlers|]. eapply step; [quiet|].
  cbv beta iota delta [sda rx negb andb m_sda s_sda].
  eapply step; [quiet|]. eapply step; [handlers|]. eapply step; [quiet|]. reflexivity.
Qed.

Lemma low_shifting md st ts bc d ack ss rb ri tm m_d :
  shifting st = true ->
  SCL_LOW (rx md st ts bc d ack ss rb ri tm false m_d false) =
    (tt, rx md st TW_NO_INFO bc d ack ss rb ri tm false m_d true).
Proof. destruct st, m_d; try discriminate; intros _; handlers. Qed.

(** The master's half of a bit, from the low clock on. *)
Definition bit_out (x : bool) : M bool :=
  (if x then SDA_HIGH else SDA_LOW) ;; twi_delay (twi_dcount + 1) ;; SCL_HIGH ;; wait_scl ;; twi_delay twi_dcount ;; ret true.

Definition after_bit (st : pstate) (bc : Z) : pstate := if bc =? 1 then TWIP_SEND_ACK else st.

Lemma put_shifting md st ts bc d ack ss rb ri tm m_d (x : bool) :
  shifting st = true ->
  (if x then SDA_HIGH else SDA_LOW) (rx md st ts bc d ack ss rb ri tm false m_d true) =
    (tt, rx md st ts bc d ack ss rb ri tm false (negb x) true).
Proof. destruct st, m_d, x; try discriminate; intros _; handlers. Qed.

Lemma high_shifting md st ts bc d ack ss rb ri tm m_d :
  shifting st = true -> 1 <= bc <= 8 ->
  SCL_HIGH (rx md st ts bc d ack ss rb ri tm false m_d true) =
    (tt, rx md (after_bit st bc) TW_NO_INFO (bc - 1) (shift_in d (negb m_d)) ack ss rb ri tm false m_d false).
Proof.
  intros Hs Hb. rewrite <- (Z2Nat.id bc) by lia. assert (1 <= Z.to_nat bc <= 8)%nat as Hn by lia.
  revert Hn. generalize (Z.to_nat bc) as n. intros n Hn. clear Hb.
  destruct st; try discriminate; destruct m_d; clear Hs;
    (destruct n as [|n]; [lia|]; do 8 (destruct n as [|n]; [handlers|]); lia).
Qed.

Lemma bit_out_shifting md st ts bc d ack ss rb ri tm m_d x :
  shifting st = true -> 1 <= bc <= 8 ->
  bit_out x (rx md st ts bc d ack ss rb ri tm false m_d true) =
    (true, rx md (after_bit st bc) TW_NO_INFO (bc - 1) (shift_in d x) ack ss rb ri tm false (negb x) false).
Proof.
  intros Hs Hb. unfold bit_out. eapply step; [by apply put_shifting|]. eapply step; [quiet|].
  eapply step; [by apply high_shifting|]. eapply step; [quiet|]. eapply step; [quiet|].
  by rewrite negb_involutive.
Qed.

Lemma write_bit_unfold x b r : SCL_LOW b = (tt, r) -> twi_write_bit x b = bit_out x r.
Proof. intros H. unfold twi_write_bit, bind at 1. by rewrite H. Qed.

(** The bits of a byte, from the low clock of the first one on. *)
Lemma write_bits_shifting n md st ts d ack ss rb ri tm m_d y b :
  shifting st = true -> (n < 8)%nat ->
  SCL_LOW b = (tt, rx md st ts (Z.of_nat (S n)) d ack ss rb ri tm false m_d true) ->
  write_bits (S n) y b =
    (tt, rx md TWIP_SEND_ACK TW_NO_INFO 0 (shift_all (S n) y d) ack ss rb ri tm false
           (negb (Z.testbit y (7 - Z.of_nat n))) false).
Proof.
  revert ts d m_d y b. induction n as [|n IH]; intros ts d m_d y b Hs Hn Hb; cbn [write_bits];
    (eapply step; [rewrite (write_bit_unfold _ _ _ Hb); apply bit_out_shifting; [done | lia]|]).
  - done.
  - replace (Z.of_nat (S (S n)) - 1) with (Z.of_nat (S n)) by lia.
    replace (after_bit st (Z.of_nat (S (S n)))) with st.
    2: { unfold after_bit. destruct (Z.eqb_spec (Z.of_nat (S (S n))) 1); [lia | done]. }
    etrans; [exact (IH _ _ _ _ _ Hs ltac:(lia) (low_shifting _ _ _ _ _ _ _ _ _ _ _ Hs))|].
    change (shift_all (S (S n)) y d) with (shift_all (S n) (shift_out y) (shift_in d (Z.testbit y 7))).
    rewrite (testbit_shift_out _ (7 - Z.of_nat n)) by lia.
    destruct (Z.ltb_spec (7 - Z.of_nat n) 8); [|lia]. destruct (Z.leb_spec 1 (7 - Z.of_nat n)); [|lia].
    replace (7 - Z.of_nat n - 1) with (7 - Z.of_nat (S n)) by lia. reflexivity.
Qed.

Lemma write_bits_byte md st ts d ack ss rb ri tm m_d y b :
  shifting st = true -> is_u8 y ->
  SCL_LOW b = (tt, rx md st ts 8 d ack ss rb ri tm false m_d true) ->
  write_bits 8 y b =
    (tt, rx md TWIP_SEND_ACK TW_NO_INFO 0 y ack ss rb ri tm false (negb (Z.testbit y 0)) false).
Proof.
  intros Hs Hy Hb. rewrite (write_bits_shifting 7 md st ts d ack ss rb ri tm m_d y b Hs) by (done || lia).
  by rewrite shift_all_byte.
Qed.

(** The acknowledge bit: the slave pulls the line when it takes the byte. *)
Lemma low_send_ack md ts y ack ss rb ri tm m_d :
  SCL_LOW (rx md TWIP_SEND_ACK ts 0 y ack ss rb ri tm false m_d false) =
    (tt, rx md TWIP_WAIT_ACK TW_NO_INFO 0 y ack ss rb ri tm (takes md y ack) m_d true).
Proof.
  rewrite SCL_LOW_handler by (destruct m_d; reflexivity). rewrite onScl_send_ack by reflexivity.
  change (takes (twip_mode _) (twi_data _) (twi_ack _)) with (takes md y ack).
  generalize (takes md y ack) as k. intros k. destruct m_d, k; handlers.
Qed.

Lemma ack_bit md ts y ack ss rb ri tm m_d :
  twi_read_bit (rx md TWIP_SEND_ACK ts 0 y ack ss rb ri tm false m_d false) =
    (negb (takes md y ack), rx md TWIP_WAIT_ACK TW_NO_INFO 0 y ack ss rb ri tm (takes md y ack) false false).
Proof.
  unfold twi_read_bit. eapply step; [apply low_send_ack|]. generalize (takes md y ack) as k. intros k.
  eapply step. { instantiate (1 := rx md TWIP_WAIT_ACK TW_NO_INFO 0 y ack ss rb ri tm k false true). destruct m_d, k; handlers. }
  eapply step; [quiet|].
  eapply step. { instantiate (1 := rx md TWIP_WAIT_ACK TW_NO_INFO 0 y ack ss rb ri tm k false false). destruct k; handlers. }
  eapply step; [quiet|]. eapply step; [quiet|]. eapply step; [quiet|]. by destruct k.
Qed.

Lemma write_byte_sent md st ts d ack ss rb ri tm m_d y b :
  shifting st = true -> is_u8 y ->
  SCL_LOW b = (tt, rx md st ts 8 d ack ss rb ri tm false m_d true) ->
  twi_write_byte y b =
    (takes md y ack, rx md TWIP_WAIT_ACK TW_NO_INFO 0 y ack ss rb ri tm (takes md y ack) false false).
Proof.
  intros Hs Hy Hb. unfold twi_write_byte. eapply step; [by eapply write_bits_byte|].
  eapply step; [apply ack_bit|]. unfold ret. by rewrite negb_involutive.
Qed.

(** After the acknowledge bit of a byte. *)
Lemma low_not_addressed ts y ack ss rb ri tm :
  addressed y = false ->
  SCL_LOW (rx TWIPM_IDLE TWIP_WAIT_ACK ts 0 y ack ss rb ri tm false false false) =
    (tt, rx TWIPM_IDLE TWIP_WAIT_STOP TW_NO_INFO 0 y ack ss rb ri tm false false true).
Proof.
  intros Ha. rewrite SCL_LOW_handler by reflexivity. rewrite onScl_not_addressed by (reflexivity || exact Ha). handlers.
Qed.

Lemma low_addressed ts y ack ss rb ri tm :
  addressed y = true -> Z.testbit y 0 = false ->
  SCL_LOW (rx TWIPM_IDLE TWIP_WAIT_ACK ts 0 y ack ss rb ri tm true false false) =
    (tt, rx TWIPM_ADDRESSED TWIP_SLA_W TW_SR_SLA_ACK 8 y true TWI_SRX rb 0 tm false false true).
Proof.
  intros Ha Hb. rewrite SCL_LOW_handler by reflexivity. rewrite onScl_addressed by (reflexivity || exact Ha).
  change (twi_data _) with y. rewrite Hb. handlers.
Qed.

Lemma low_data_taken ts y ss rb ri tm :
  SCL_LOW (rx TWIPM_ADDRESSED TWIP_WAIT_ACK ts 0 y true ss rb ri tm true false false) =
    (tt, if has_room ri
         then rx TWIPM_ADDRESSED TWIP_READ TW_SR_DATA_ACK 8 y true ss (<[Z.to_nat ri := y]> rb) (incr8 ri) tm false false true
         else rx TWIPM_ADDRESSED TWIP_READ TW_SR_DATA_ACK 8 y false ss rb ri tm false false true).
Proof.
  rewrite SCL_LOW_handler by reflexivity. rewrite onScl_data by reflexivity. change (twi_ack _) with true. cbv beta iota.
  rewrite raise_data_ack. change (rxIndex _) with ri. destruct (has_room ri); handlers.
Qed.

Lemma low_data_refused ts y ss rb ri tm :
  SCL_LOW (rx TWIPM_ADDRESSED TWIP_WAIT_ACK ts 0 y false ss rb ri tm false false false) =
    (tt, rx TWIPM_WAIT TWIP_WAIT_STOP TW_SR_DATA_NACK 0 y false ss rb ri tm false false true).
Proof. handlers. Qed.

(** The stop condition, from the low clock on. *)
Lemma write_stop_unfold b r :
  SCL_LOW b = (tt, r) ->
  twi_write_stop b =
    (SDA_LOW ;; twi_delay twi_dcount ;; SCL_HIGH ;; wait_scl ;; twi_delay twi_dcount ;; SDA_HIGH ;;
     twi_delay twi_dcount ;; ret true) r.
Proof. intros H. unfold twi_write_stop, bind at 1. by rewrite H. Qed.

Lemma stop_ignored md ts y ack ss rb ri tm b :
  SCL_LOW b = (tt, rx md TWIP_WAIT_STOP ts 0 y ack ss rb ri tm false false true) ->
  twi_write_stop b = (true, rx TWIPM_IDLE TWIP_IDLE TW_NO_INFO 0 y ack ss rb ri false false false false).
Proof.
  intros Hb. rewrite (write_stop_unfold _ _ Hb). eapply step; [handlers|]. eapply step; [quiet|].
  eapply step; [handlers|]. eapply step; [quiet|]. eapply step; [quiet|]. eapply step; [handlers|].
  eapply step; [quiet|]. reflexivity.
Qed.

(** The slave holds the clock until its task has handed over the message. *)
Definition holding d ack ss rb n k : bus :=
  mkBus TWIPM_IDLE TWIP_IDLE TW_NO_INFO 7 d ack ar ss er tb ti tl rb 0 false [SIG_RX n] recd false true false false
    false false k.

Lemma stop_change st ts d ack ss rb ri tm :
  st = TWIP_SLA_W \/ st = TWIP_READ ->
  SDA_HIGH (rx TWIPM_ADDRESSED st ts 7 d ack ss rb ri tm false true false) =
    (tt, holding d ack ss (terminated rb ri) ri lag).
Proof.
  intros Hs. rewrite SDA_HIGH_handler by reflexivity. rewrite onSda_stop by (exact Hs || reflexivity).
  cbv beta. rewrite raise_stop. destruct Hs as [-> | ->]; handlers.
Qed.

Lemma stop_message st ts d ack ss rb ri tm m_d b :
  st = TWIP_SLA_W \/ st = TWIP_READ ->
  SCL_LOW b = (tt, rx TWIPM_ADDRESSED st ts 8 d ack ss rb ri tm false m_d true) ->
  twi_write_stop b = (twi_delay twi_dcount ;; ret true) (holding (shift_in d false) ack ss (terminated rb ri) ri lag).
Proof.
  intros Hs Hb. assert (shifting st = true) as Hh by (by destruct Hs as [-> | ->]).
  rewrite (write_stop_unfold _ _ Hb). eapply step; [apply (put_shifting _ _ _ _ _ _ _ _ _ _ _ false Hh)|].
  eapply step; [quiet|]. eapply step; [by apply high_shifting|]. eapply step; [quiet|]. eapply step; [quiet|].
  eapply step; [|reflexivity]. replace (after_bit st 8) with st by done. by apply stop_change.
Qed.

(** The slave has been addressed and has got the bytes [all]: it keeps the first 32 and
    goes on acknowledging until one did not fit. *)
Definition receiving (all : list Z) (b : bus) : Prop :=
  exists st ts d rb tm,
    SCL_LOW b = (tt, rx TWIPM_ADDRESSED st ts 8 d (bool_decide (length all <= 32)%nat) TWI_SRX rb
                       (Z.of_nat (length (take 32 all))) tm false false true) /\
    (st = TWIP_SLA_W \/ st = TWIP_READ) /\ length rb = 32%nat /\ take (length (take 32 all)) rb = take 32 all /\
    (length all <= 33)%nat /\ sda b = false /\ posted b = [].

(** A byte was refused: the slave waits for the stop condition. *)
Definition refused (b : bus) : Prop :=
  exists ts y ack rb ri tm, length rb = 32%nat /\
    SCL_LOW b = (tt, rx TWIPM_WAIT TWIP_WAIT_STOP ts 0 y ack TWI_SRX rb ri tm false false true).

Lemma receive_byte all x b :
  receiving all b -> is_u8 x ->
  exists b', twi_write_byte x b = (bool_decide (length all <= 32)%nat, b') /\
    if bool_decide (length all <= 32)%nat then receiving (all ++ [x]) b' else refused b'.
Proof.
  intros (st & ts & d & rb & tm & Hb & Hs & Hl & Ht & H33 & _) Hx.
  assert (shifting st = true) as Hh by (by destruct Hs as [-> | ->]).
  pose proof (write_byte_sent TWIPM_ADDRESSED st ts d _ TWI_SRX rb _ tm false x b Hh Hx Hb) as E. cbn [takes] in E.
  eexists. split; [exact E|]. destruct (bool_decide_reflect (length all <= 32)%nat) as [Hle|Hgt].
  - unfold receiving. rewrite low_data_taken. unfold has_room, TWI_BUFFER_LENGTH. rewrite length_take.
    rewrite length_app. cbn [length]. rewrite length_take in Ht.
    destruct (Z.ltb_spec (Z.of_nat (min 32 (length all))) 32) as [Hr|Hr].
    + rewrite bool_decide_true by lia. rewrite !(take_ge _ 32) in * by (rewrite ?length_app; simpl; lia).
      rewrite Nat.min_r in * by lia. do 5 eexists. rewrite length_app. cbn [length]. split; [|repeat split].
      * unfold incr8. rewrite u8_id by (unfold is_u8; lia). replace (Z.of_nat (length all) + 1) with (Z.of_nat (length all + 1)) by lia. reflexivity.
      * by right.
      * by rewrite length_insert.
      * rewrite Nat2Z.id, take_insert_next by lia. by rewrite Ht.
      * lia.
    + rewrite bool_decide_false by lia. rewrite take_app_le by lia. do 5 eexists.
      rewrite length_take. split_and!; [reflexivity | by right | done | done | lia | done | done].
  - do 6 eexists. split; [|apply low_data_refused]. done.
Qed.

Lemma receive_data data all b :
  receiving all b -> Forall is_u8 data ->
  exists b', write_data data b = (bool_decide (length (all ++ data) <= 33)%nat, b') /\
    if bool_decide (length (all ++ data) <= 33)%nat then receiving (all ++ data) b' else refused b'.
Proof.
  revert all b. induction data as [|x data IH]; intros all b Hr Hd.
  - exists b. rewrite app_nil_r. destruct Hr as (st & ts & d & rb & tm & ? & ? & ? & ? & H33 & ?).
    rewrite bool_decide_true by done. split; [done|]. by exists st, ts, d, rb, tm.
  - inversion_clear Hd as [|? ? Hx Hd']. destruct (receive_byte all x b Hr Hx) as (b1 & Hw & H1).
    cbn [write_data]. unfold bind at 1. rewrite Hw.
    destruct (bool_decide_reflect (length all <= 32)%nat) as [Hle|Hgt]; cbn [negb].
    + destruct (IH _ _ H1 Hd') as (b2 & Hb2 & H2). exists b2. rewrite <- app_assoc in Hb2, H2. done.
    + exists b1. rewrite bool_decide_false by (rewrite length_app; simpl; lia). done.
Qed.
End Receive.

(** ** The whole transaction *)

(** Nobody drives the lines and the slave waits for a start condition. *)
Definition at_rest (b : bus) : Prop :=
  twip_mode b = TWIPM_IDLE /\ twip_state b = TWIP_IDLE /\ s_sda b = false /\ s_scl b = false /\ m_sda b = false /\
  m_scl b = false /\ pend_sda b = false /\ pend_scl b = false /\ posted b = [] /\
  length (rxBuffer b) = 32%nat /\ length (txBuffer b) = 32%nat.

Section Transaction.
Context {C : BusConfig} {T : InTime}.
Variables (ar : bool) (er : Z) (tb : list Z) (ti tl : Z) (recd : list (list Z)).
Hypothesis Htb : length tb = 32%nat.

Abbreviation holding' := (holding ar er tb ti tl recd).

(** The message is handed over, or will be when the task runs. *)
Definition settling (blk : list Z) (b : bus) : Prop :=
  (at_rest b /\ received b = recd ++ [blk]) \/
  exists d ack ss rb n k, b = holding' d ack ss rb n k /\ (k <= lag)%nat /\ take (Z.to_nat n) rb = blk /\ length rb = 32%nat.

Lemma elapse_holding d ack ss rb n :
  elapse (holding' d ack ss rb n 0) =
    rx ar er tb ti tl (recd ++ [take (Z.to_nat n) rb]) 0 TWIPM_IDLE TWIP_IDLE TW_NO_INFO 7 d true TWI_READY rb 0 false
      false false false.
Proof. handlers. Qed.

Lemma settling_elapse blk b : settling blk b -> settling blk (elapse b).
Proof.
  intros [[Hr Hb] | (d & ack & ss & rb & n & k & -> & Hk & Ht & Hl)].
  - left. rewrite elapse_in_time. unfold run_task. by replace (posted b) with (@nil event) by (symmetry; apply Hr).
  - destruct k as [|k].
    + left. rewrite elapse_holding. split; [|by rewrite <- Ht]. by repeat split.
    + right. exists d, ack, ss, rb, n, k. split_and!; [done | lia | done | done].
Qed.

Lemma settling_delay blk k b : settling blk b -> exists b', delay_loop k b = (tt, b') /\ settling blk b'.
Proof.
  revert b. induction k as [|k IH]; intros b Hb; [by exists b|].
  destruct (IH _ (settling_elapse _ _ Hb)) as (b' & E & H). by exists b'.
Qed.

Lemma settling_sda blk b : settling blk b -> sda b = true.
Proof.
  intros [[(? & ? & H1 & ? & H2 & ?) _] | (d & ack & ss & rb & n & k & -> & _)]; [|done].
  unfold sda. by rewrite H1, H2.
Qed.

Lemma settling_released blk n b : settling blk b -> exists b', release_loop n b = (tt, b') /\ settling blk b'.
Proof.
  intros Hb. apply settling_elapse in Hb. exists (elapse b). split; [|done].
  destruct n; cbn [release_loop]; unfold bind at 1, SDA_READ; by rewrite (settling_sda _ _ Hb).
Qed.

(** Long enough for the task to run. *)
Definition settle : M unit := delay_loop (S lag).

Lemma settle_quiet b : posted b = [] -> settle b = (tt, b).
Proof.
  intros Hq. unfold settle. induction (S lag) as [|k IH]; [done|].
  cbn [delay_loop]. unfold bind, GPI. rewrite elapse_in_time. unfold run_task. by rewrite Hq.
Qed.

Lemma holding_delay n k d ack ss rb m :
  (k < n)%nat -> length rb = 32%nat ->
  exists b', delay_loop n (holding' d ack ss rb m k) = (tt, b') /\ at_rest b' /\ received b' = recd ++ [take (Z.to_nat m) rb].
Proof.
  intros Hk Hl. revert n Hk. induction k as [|k IH]; intros [|n] Hk; try lia; cbn [delay_loop]; unfold bind at 1, GPI.
  - rewrite elapse_holding. eexists. split; [|split].
    + clear Hk. induction n as [|n IH]; [reflexivity | exact IH].
    + by repeat split.
    + done.
  - apply IH. lia.
Qed.

Lemma settling_settles blk b :
  settling blk b -> exists b', settle b = (tt, b') /\ at_rest b' /\ received b' = recd ++ [blk].
Proof.
  intros [[Hr Hb] | (d & ack & ss & rb & n & k & -> & Hk & Ht & Hl)].
  - exists b. split; [apply settle_quiet; apply Hr | done].
  - rewrite <- Ht. apply holding_delay; [lia | done].
Qed.
End Transaction.

(** A predicate over the fields that the transaction leaves alone. *)
Abbreviation of_bus P b := (P (twi_ack_rec b) (twi_error b) (txBuffer b) (txIndex b) (txLength b) (received b)).

Section Outcome.
Context {C : BusConfig} {T : InTime}.

Definition rx_of (b : bus) := rx (twi_ack_rec b) (twi_error b) (txBuffer b) (txIndex b) (txLength b) (received b) (countdown b).

Lemma at_rest_rx b :
  at_rest b ->
  b = rx_of b TWIPM_IDLE TWIP_IDLE (twip_status b) (bitCount b) (twi_data b) (twi_ack b) (sl_state b) (rxBuffer b) (rxIndex b)
        (timer b) false false false.
Proof. intros (H1 & H2 & H3 & H4 & H5 & H6 & H7 & H8 & H9 & _). destruct b. cbn in *. by subst. Qed.

(** The address byte, for each of the 128 addresses. *)
Lemma address_bits :
  forallb (fun n => forallb (fun w =>
    let y := Z.land (Z.lor (Z.shiftl (Z.of_nat n) 1) (b2z w)) 0xFF in
    (0 <=? y) && (y <? 256) && eqb (Z.testbit y 0) w && (Z.land y 0xFE =? setAddress_addr (Z.of_nat n)))
    [true; false]) (seq 0 128) = true.
Proof. vm_compute. reflexivity. Qed.

Lemma address_byte a w :
  0 <= a < 128 ->
  let y := Z.land (Z.lor (Z.shiftl a 1) (b2z w)) 0xFF in
  is_u8 y /\ Z.testbit y 0 = w /\ addressed y = (setAddress_addr a =? twi_addr).
Proof.
  intros Ha y. pose proof address_bits as H. rewrite forallb_forall in H.
  specialize (H (Z.to_nat a) ltac:(apply in_seq; lia)). rewrite forallb_forall in H.
  specialize (H w ltac:(destruct w; simpl; auto)). cbv zeta in H. rewrite Z2Nat.id in H by lia. fold y in H.
  rewrite !andb_true_iff, Z.leb_le, Z.ltb_lt, Z.eqb_eq in H. destruct H as [[[H1 H2] H3] H4].
  apply eqb_prop in H3. unfold addressed. by rewrite H4.
Qed.

Lemma stopped_rx b r md ts y ack ss rb ri tm :
  at_rest b ->
  SCL_LOW r = (tt, rx_of b md TWIP_WAIT_STOP ts 0 y ack ss rb ri tm false false true) -> length rb = 32%nat ->
  exists b', (twi_write_stop ;; ret tt) r = (tt, b') /\ at_rest b' /\ received b' = received b.
Proof.
  intros Hb Hr Hl. eexists. split; [|split].
  - eapply step; [exact (stop_ignored _ _ _ _ _ _ _ _ _ _ _ _ _ _ _ _ Hr) | reflexivity].
  - repeat split; try done. apply Hb.
  - done.
Qed.

(** The state after the acknowledge bit of the address byte. *)
Definition answered (b : bus) (y : Z) (k : bool) : bus :=
  rx_of b TWIPM_IDLE TWIP_WAIT_ACK TW_NO_INFO 0 y (twi_ack b) (sl_state b) (rxBuffer b) (rxIndex b) true k false false.

Lemma address_sent b y A (f : bool -> M A) (g : M A) :
  at_rest b -> is_u8 y ->
  (s <- twi_write_start ;; if negb s then g else (k <- twi_write_byte y ;; f k)) b =
    f (addressed y) (answered b y (addressed y)).
Proof.
  intros Hb Hy. rewrite (at_rest_rx b Hb) at 1. eapply step; [apply start_idle|]. cbn [negb].
  eapply step; [|reflexivity]. eapply (write_byte_sent _ _ _ _ _ _ _ TWIPM_IDLE TWIP_START); [done | done |].
  by apply low_shifting.
Qed.

Lemma answered_other b y :
  addressed y = false ->
  SCL_LOW (answered b y false) =
    (tt, rx_of b TWIPM_IDLE TWIP_WAIT_STOP TW_NO_INFO 0 y (twi_ack b) (sl_state b) (rxBuffer b) (rxIndex b) true false false true).
Proof. intros H. by apply low_not_addressed. Qed.

Lemma answered_own b y :
  addressed y = true -> Z.testbit y 0 = false ->
  SCL_LOW (answered b y true) =
    (tt, rx_of b TWIPM_ADDRESSED TWIP_SLA_W TW_SR_SLA_ACK 8 y true TWI_SRX (rxBuffer b) 0 true false false true).
Proof. intros H1 H2. by apply low_addressed. Qed.

(** A message for another slave. *)
Lemma write_other a data b :
  at_rest b -> 0 <= a < 128 -> setAddress_addr a <> twi_addr ->
  exists b', twi_writeTo a data true b = (2, b') /\ at_rest b' /\ received b' = received b.
Proof.
  intros Hb Ha Hn. destruct (address_byte a false Ha) as (Hy & Hw & Hm). apply Z.eqb_neq in Hn.
  unfold twi_writeTo. erewrite address_sent by done. cbn [b2z] in Hm. rewrite Hn in Hm. rewrite Hm. cbn [negb].
  destruct (stopped_rx b _ _ _ _ _ _ _ _ _ Hb (answered_other b _ Hm) ltac:(apply Hb)) as (b' & E & H).
  exists b'. split; [|exact H]. eapply step; [exact E | reflexivity].
Qed.

Lemma answered_receiving b y :
  at_rest b -> addressed y = true -> Z.testbit y 0 = false -> of_bus receiving b (countdown b) [] (answered b y true).
Proof.
  intros Hb H1 H2. do 5 eexists. split; [exact (answered_own b y H1 H2)|].
  split_and!; [by left | apply Hb | done | simpl; lia | done | done].
Qed.

Lemma receiving_stopped b data b1 :
  at_rest b -> of_bus receiving b (countdown b) data b1 ->
  exists b2, (twi_write_stop ;; ret tt) b1 = (tt, b2) /\ of_bus settling b (take 32 data) b2.
Proof.
  intros Hb (st & ts & d & rb & tm & HS & Hs & Hl & Ht & _).
  assert (Htb : length (txBuffer b) = 32%nat) by apply Hb.
  pose proof (stop_message _ _ _ _ _ _ _ _ _ _ _ _ _ _ _ _ _ Hs HS) as E.
  assert (H : of_bus settling b (take 32 data)
                (of_bus holding b (shift_in d false) (bool_decide (length data <= 32)%nat) TWI_SRX
                   (terminated rb (Z.of_nat (length (take 32 data)))) (Z.of_nat (length (take 32 data))) lag)).
  { right. do 6 eexists. split; [reflexivity|]. rewrite Nat2Z.id. split_and!; [lia| |].
    - by rewrite take_terminated.
    - by rewrite length_terminated. }
  destruct (settling_delay _ _ _ _ _ _ Htb _ (Z.to_nat (u8 twi_dcount)) _ H) as (b2 & E2 & H2).
  exists b2. split; [|exact H2]. eapply step; [|reflexivity]. rewrite E. eapply step; [exact E2 | reflexivity].
Qed.

(** A message for the slave. *)
Lemma write_own a data b :
  at_rest b -> 0 <= a < 128 -> setAddress_addr a = twi_addr -> Forall is_u8 data ->
  exists b',
    twi_writeTo a data true b = (if bool_decide (length data <= 33)%nat then 0 else 3, b') /\
    if bool_decide (length data <= 33)%nat
    then settling (twi_ack_rec b) (twi_error b) (txBuffer b) (txIndex b) (txLength b) (received b) (take 32 data) b'
    else at_rest b' /\ received b' = received b.
Proof.
  intros Hb Ha Hn Hd. destruct (address_byte a false Ha) as (Hy & Hw & Hm). apply Z.eqb_eq in Hn.
  unfold twi_writeTo. erewrite address_sent by done. cbn [b2z] in Hm, Hw. rewrite Hn in Hm. rewrite Hm. cbn [negb].
  destruct (receive_data _ _ _ _ _ _ _ data [] _ (answered_receiving b _ Hb Hm Hw) Hd) as (b1 & E1 & H1).
  cbn [app] in E1, H1. destruct (bool_decide_reflect (length data <= 33)%nat) as [Hle|Hgt].
  - destruct (receiving_stopped b data b1 Hb H1) as (b2 & E2 & H2).
    destruct (settling_released _ _ _ _ _ _ ltac:(apply Hb) _ 10 _ H2) as (b3 & E3 & H3).
    exists b3. split; [|exact H3]. eapply step; [exact E1|]. eapply step; [exact E2|]. eapply step; [exact E3|reflexivity].
  - destruct H1 as (ts & y & ack & rb & ri & tm & Hl & HS).
    destruct (stopped_rx b _ _ _ _ _ _ _ _ _ Hb HS Hl) as (b2 & E2 & H2).
    exists b2. split; [|exact H2]. eapply step; [exact E1|]. eapply step; [exact E2|reflexivity].
Qed.

(** C30: what becomes of a message that the master sends to the address [a], when the
    bus is at rest: the slave with that address gets the bytes through its callback
    and the master 0, as long as there are at most 33 of them, but only the first 32
    are handed over; a longer message is refused with code 3 and lost; any other
    address gives code 2.  The bus comes to rest again, whatever the delay of the
    task that runs the callback.  (The slave's timer does not expire within the
    transaction.) *)
Theorem i2c_write_outcome a data b :
  at_rest b -> 0 <= a < 128 -> Forall is_u8 data ->
  exists code b',
    (code <- twi_writeTo a data true ;; settle ;; ret code) b = (code, b') /\ at_rest b' /\
    (code, received b') =
      if setAddress_addr a =? twi_addr
      then if bool_decide (length data <= 33)%nat then (0, received b ++ [take 32 data]) else (3, received b)
      else (2, received b).
Proof.
  intros Hb Ha Hd. destruct (Z.eqb_spec (setAddress_addr a) twi_addr) as [Hm|Hm].
  - destruct (write_own a data b Hb Ha Hm Hd) as (b1 & E1 & H1). destruct (bool_decide _).
    + destruct (settling_settles _ _ _ _ _ _ ltac:(apply Hb) _ _ H1) as (b2 & E2 & H2 & H3).
      exists 0, b2. rewrite H3. split; [|done]. eapply step; [exact E1|]. eapply step; [exact E2 | reflexivity].
    + destruct H1 as [H2 H3]. exists 3, b1. rewrite H3. split; [|done].
      eapply step; [exact E1|]. eapply step; [apply settle_quiet, H2 | reflexivity].
  - destruct (write_other a data b Hb Ha Hm) as (b1 & E1 & H2 & H3). exists 2, b1. rewrite H3. split; [|done].
    eapply step; [exact E1|]. eapply step; [apply settle_quiet, H2 | reflexivity].
Qed.

(** ** The timer *)

(** The states in which the slave may pull SDA low. *)
Definition pulling (st : pstate) : bool :=
  match st with TWIP_WAIT_ACK | TWIP_SLA_R | TWIP_WRITE | TWIP_REC_ACK => true | _ => false end.

(** A transaction that the master gave up, with its lines released. *)
Definition abandoned (b : bus) : Prop :=
  (s_sda b = true -> pulling (twip_state b) = true) /\ s_scl b = false /\ m_sda b = false /\ m_scl b = false /\
  pend_sda b = false /\ pend_scl b = false /\ posted b = [] /\ length (rxBuffer b) = 32%nat /\ length (txBuffer b) = 32%nat.

(** What the timer leaves. *)
Definition timed_out (b : bus) (ts bc d : Z) : bus :=
  mkBus TWIPM_WAIT TWIP_BUS_ERR ts bc d true (twi_ack_rec b) TWI_READY TW_BUS_ERROR (txBuffer b) (txIndex b) (txLength b)
    (rxBuffer b) (rxIndex b) (timer b) [] (received b) false false false false false false (countdown b).

Lemma onTimer_releases b : abandoned b -> onTimer b = timed_out b TW_BUS_ERROR (bitCount b) (twi_data b).
Proof.
  intros (Hp & H1 & H2 & H3 & H4 & H5 & H6 & _). destruct b as [md st ts bc d ack ar ss er tb ti tl rb ri tm q recd sd sc mS mC pd pc cd].
  cbn in Hp, H1, H2, H3, H4, H5, H6. subst. destruct sd.
  - specialize (Hp eq_refl). destruct st; try discriminate; clear Hp; handlers.
  - clear Hp. destruct st; handlers.
Qed.

Lemma stop_after_timeout b ts bc d :
  twi_write_stop (timed_out b ts bc d) =
    (true, set_timer false (set_twip_state TWIP_IDLE (set_twip_mode TWIPM_IDLE (timed_out b TW_NO_INFO bc d)))).
Proof.
  erewrite write_stop_unfold by handlers. eapply step; [handlers|]. eapply step; [quiet|].
  eapply step; [handlers|]. eapply step; [quiet|]. eapply step; [quiet|]. eapply step; [handlers|].
  eapply step; [quiet|]. reflexivity.
Qed.

(** A transaction that the master gave up does not block the bus for good: whatever
    the slave was doing, short of holding the clock for a callback, its timer releases
    both lines and reports the error, and the next stop condition of a master brings it back to rest, with nothing handed over
    and its buffers as they were. *)
Theorem i2c_timeout_recovers b :
  abandoned b ->
  let b1 := onTimer b in
  sda b1 = true /\ scl b1 = true /\ twi_error b1 = TW_BUS_ERROR /\
  exists b2, twi_write_stop b1 = (true, b2) /\ at_rest b2 /\ received b2 = received b /\ rxBuffer b2 = rxBuffer b /\
    timer b2 = false.
Proof.
  intros Hb b1. unfold b1. rewrite (onTimer_releases b Hb). split_and!; try reflexivity.
  eexists. split; [apply stop_after_timeout|]. split_and!; try reflexivity. repeat split; apply Hb.
Qed.
End Outcome.
