(* ===== verification/Si2cRead.v ===== *)
(** * The software I2C bus: bytes from the slave to the master

    What [twi_readFrom] gets from a slave that runs [onSclChange], [onSdaChange] and,
    after some delay during which it holds the clock, [eventTask]. *)

From S2P Require Import Prelude Si2c Si2cWrite.

Section Send.
Context {C : BusConfig} {T : InTime}.
Variables (er : Z) (rb : list Z) (ri : Z) (recd : list (list Z)).

(** The fields that change while the slave sends. *)
Definition tx ar tb ti tl cd md st ts bc d ack ss tm s_d m_d m_c : bus :=
  rx ar er tb ti tl recd cd md st ts bc d ack ss rb ri tm s_d m_d m_c.

(** The states in which the slave only watches a rising clock. *)
Definition watching (st : pstate) : bool :=
  match st with TWIP_SLA_R | TWIP_WRITE | TWIP_REC_ACK | TWIP_WAIT_STOP => true | _ => false end.
Definition sending (st : pstate) : bool :=
  match st with TWIP_SLA_R | TWIP_WRITE => true | _ => false end.

(** The master's half of a bit that it reads, from the low clock on. *)
Definition bit_in : M bool :=
  SDA_HIGH ;; twi_delay (twi_dcount + 2) ;; SCL_HIGH ;; wait_scl ;; bit <- SDA_READ ;; twi_delay twi_dcount ;; ret bit.

Lemma read_bit_unfold b r : SCL_LOW b = (tt, r) -> twi_read_bit b = bit_in r.
Proof. intros H. unfold twi_read_bit, bind at 1. by rewrite H. Qed.

Lemma bit_in_watching ar tb ti tl cd md st ts bc d ack ss tm s_d m_d :
  watching st = true ->
  bit_in (tx ar tb ti tl cd md st ts bc d ack ss tm s_d m_d true) =
    (negb s_d, tx ar tb ti tl cd md st TW_NO_INFO bc d ack ss tm s_d false false).
Proof.
  intros Hs. unfold bit_in.
  eapply step. { instantiate (1 := tx ar tb ti tl cd md st ts bc d ack ss tm s_d false true). destruct st, s_d, m_d; try discriminate; clear Hs; handlers. }
  eapply step; [quiet|].
  eapply step. { instantiate (1 := tx ar tb ti tl cd md st TW_NO_INFO bc d ack ss tm s_d false false). destruct st, s_d; try discriminate; clear Hs; handlers. }
  eapply step; [quiet|]. eapply step; [quiet|]. eapply step; [quiet|]. reflexivity.
Qed.

Definition after_out (st : pstate) (n : nat) : pstate := match n with O => TWIP_REC_ACK | _ => st end.

(** A falling clock: the next bit. *)
Lemma onScl_sending st b :
  twip_state b = st -> sending st = true -> scl b = false ->
  onSclChange b =
    let b1 := set_bitCount (u8 (bitCount b - 1)) (set_twip_status TW_NO_INFO b) in
    let b2 := set_twi_data (shift_out (twi_data b)) ((if Z.testbit (twi_data b) 7 then s_SDA_HIGH skip else s_SDA_LOW skip) b1) in
    if negb (u8 (bitCount b - 1) =? 0) then b2 else set_twip_state TWIP_REC_ACK b2.
Proof.
  intros <- Hs Hc. unfold onSclChange, shift_bit_out. rewrite Hc. destruct b. cbn in Hs.
  destruct twip_state; try discriminate; cbn [Si2c.twip_state set_twip_status set_bitCount Si2c.twi_data];
    destruct (Z.testbit twi_data 7), s_sda, m_sda, s_scl, m_scl; reflexivity.
Qed.

Lemma low_sending n ar tb ti tl cd md st ts d ack ss tm s_d :
  sending st = true -> (n < 7)%nat ->
  SCL_LOW (tx ar tb ti tl cd md st ts (Z.of_nat (S n)) d ack ss tm s_d false false) =
    (tt, tx ar tb ti tl cd md (after_out st n) TW_NO_INFO (Z.of_nat n) (shift_out d) ack ss tm
           (negb (Z.testbit d 7)) false true).
Proof.
  intros Hs Hn. rewrite SCL_LOW_handler by reflexivity. rewrite (onScl_sending st) by (done || reflexivity).
  change (twi_data _) with d. change (bitCount _) with (Z.of_nat (S n)). destruct (Z.testbit d 7).
  all: destruct st; try discriminate; clear Hs.
  all: do 7 (destruct n as [|n]; [destruct s_d; handlers|]); lia.
Qed.

(** The bits after the first. *)
Lemma read_bits_sending n ar tb ti tl cd md st ts d ack ss tm s_d acc :
  sending st = true -> (n < 7)%nat ->
  exists d' s_d',
  read_bits (S n) acc (tx ar tb ti tl cd md st ts (Z.of_nat (S n)) d ack ss tm s_d false false) =
    (shift_all (S n) d acc, tx ar tb ti tl cd md TWIP_REC_ACK TW_NO_INFO 0 d' ack ss tm s_d' false false).
Proof.
  intros Hs. revert ts d s_d acc. induction n as [|n IH]; intros ts d s_d acc Hn.
  - do 2 eexists. eapply step.
    { rewrite (read_bit_unfold _ _ (low_sending 0 _ _ _ _ _ _ _ _ _ _ _ _ _ Hs Hn)). by apply bit_in_watching. }
    cbn [read_bits]. rewrite negb_involutive. reflexivity.
  - destruct (IH TW_NO_INFO (shift_out d) (negb (Z.testbit d 7)) (shift_in acc (Z.testbit d 7)) ltac:(lia)) as (d' & s_d' & E).
    exists d', s_d'. eapply step.
    { rewrite (read_bit_unfold _ _ (low_sending (S n) _ _ _ _ _ _ _ _ _ _ _ _ _ Hs Hn)). apply bit_in_watching. by destruct st. }
    rewrite negb_involutive. exact E.
Qed.

(** The acknowledge bit of the master. *)
Lemma ack_sent ar tb ti tl cd md ts d ack ss tm s_d nack :
  twi_write_bit nack (tx ar tb ti tl cd md TWIP_REC_ACK ts 0 d ack ss tm s_d false false) =
    (true, tx (negb nack) tb ti tl cd md TWIP_RWAIT_ACK TW_NO_INFO 0 d ack ss tm false (negb nack) false).
Proof.
  unfold twi_write_bit.
  eapply step. { instantiate (1 := tx ar tb ti tl cd md TWIP_READ_ACK TW_NO_INFO 0 d ack ss tm false false true). destruct s_d; handlers. }
  eapply step. { instantiate (1 := tx ar tb ti tl cd md TWIP_READ_ACK TW_NO_INFO 0 d ack ss tm false (negb nack) true). destruct nack; handlers. }
  eapply step; [quiet|].
  eapply step. { instantiate (1 := tx (negb nack) tb ti tl cd md TWIP_RWAIT_ACK TW_NO_INFO 0 d ack ss tm false (negb nack) false). destruct nack; handlers. }
  eapply step; [quiet|]. eapply step; [quiet|]. reflexivity.
Qed.

(** ** Between two bytes *)

(** Shows the bit that [slave_transmit] is about to send. *)
Ltac expose :=
  cbv [slave_transmit shift_bit_out rx tx set_twi_data set_txIndex set_bitCount set_twip_status set_posted set_txBuffer
       set_txLength twip_mode twip_state twip_status bitCount twi_data twi_ack twi_ack_rec sl_state twi_error txBuffer
       txIndex txLength rxBuffer rxIndex timer posted received s_sda s_scl m_sda m_scl pend_sda pend_scl countdown].

Lemma low_more tb ti tl cd ts d ss tm m_d :
  let x := nth (Z.to_nat ti) tb 0 in
  SCL_LOW (tx true tb ti tl cd TWIPM_ADDRESSED TWIP_RWAIT_ACK ts 0 d true ss tm false m_d false) =
    (tt, tx true tb (incr8 ti) tl cd TWIPM_ADDRESSED TWIP_WRITE TW_ST_DATA_ACK 7 (shift_out x) (has_more (incr8 ti) tl) ss tm
           (negb (Z.testbit x 7)) m_d true).
Proof.
  intros x. destruct m_d; (rewrite SCL_LOW_handler by reflexivity;
  change (onSclChange ?b) with
    (set_twip_state TWIP_WRITE (raise_status skip TW_ST_DATA_ACK (s_SCL_LOW skip (set_twip_status TW_NO_INFO b))));
  unfold raise_status; change (twi_onTwipEvent skip TW_ST_DATA_ACK) with (slave_transmit skip);
  change (s_SCL_LOW skip ?b) with (set_s_scl true b); unfold set_pend_scl, set_m_scl, set_s_scl; expose;
  fold x; destruct (Z.testbit x 7); handlers).
Qed.

(** Nothing more to send, or the master does not want more. *)
Lemma low_last ar tb ti tl cd md ts d ack ss tm m_d :
  ack && ar = false ->
  SCL_LOW (tx ar tb ti tl cd md TWIP_RWAIT_ACK ts 0 d ack ss tm false m_d false) =
    (tt, tx ar tb ti tl cd TWIPM_WAIT TWIP_WAIT_STOP (if ar then TW_ST_LAST_DATA else TW_ST_DATA_NACK) 0 d true TWI_READY tm
           false m_d true).
Proof. destruct ar, ack, m_d; intros H; try discriminate; clear H; handlers. Qed.

(** ** A slave that has nothing to send *)

Fixpoint ones (n : nat) (acc : Z) : Z := match n with O => acc | S n' => ones n' (shift_in acc true) end.

Lemma low_waiting_stop ar tb ti tl cd ts bc d ack ss tm m_d :
  SCL_LOW (tx ar tb ti tl cd TWIPM_WAIT TWIP_WAIT_STOP ts bc d ack ss tm false m_d false) =
    (tt, tx ar tb ti tl cd TWIPM_WAIT TWIP_WAIT_STOP TW_NO_INFO bc d ack ss tm false m_d true).
Proof. destruct m_d; handlers. Qed.

Lemma read_bits_ones n ar tb ti tl cd ts bc d ack ss tm m_d acc b :
  SCL_LOW b = (tt, tx ar tb ti tl cd TWIPM_WAIT TWIP_WAIT_STOP ts bc d ack ss tm false m_d true) ->
  read_bits (S n) acc b =
    (ones (S n) acc,
     tx ar tb ti tl cd TWIPM_WAIT TWIP_WAIT_STOP TW_NO_INFO bc d ack ss tm false false false).
Proof.
  revert ts m_d acc b. induction n as [|n IH]; intros ts m_d acc b Hb;
    (eapply step; [rewrite (read_bit_unfold _ _ Hb); by apply bit_in_watching|]).
  - reflexivity.
  - exact (IH _ _ _ _ (low_waiting_stop _ _ _ _ _ _ _ _ _ _ _ _)).
Qed.

Lemma ack_unseen ar tb ti tl cd ts bc d ack ss tm nack :
  twi_write_bit nack (tx ar tb ti tl cd TWIPM_WAIT TWIP_WAIT_STOP ts bc d ack ss tm false false false) =
    (true, tx ar tb ti tl cd TWIPM_WAIT TWIP_WAIT_STOP TW_NO_INFO bc d ack ss tm false (negb nack) false).
Proof.
  unfold twi_write_bit. eapply step; [apply low_waiting_stop|].
  eapply step. { instantiate (1 := tx ar tb ti tl cd TWIPM_WAIT TWIP_WAIT_STOP TW_NO_INFO bc d ack ss tm false (negb nack) true). destruct nack; handlers. }
  eapply step; [quiet|].
  eapply step. { instantiate (1 := tx ar tb ti tl cd TWIPM_WAIT TWIP_WAIT_STOP TW_NO_INFO bc d ack ss tm false (negb nack) false). destruct nack; handlers. }
  eapply step; [quiet|]. eapply step; [quiet|]. reflexivity.
Qed.

(** ** The clock is held until the callback has been asked *)

Definition waiting ar tb y ack tm k m_c : bus :=
  mkBus TWIPM_ADDRESSED TWIP_SLA_R TW_ST_SLA_ACK 0 y ack ar TWI_STX er tb 0 0 rb ri tm [SIG_TX] recd false true false m_c
    false false k.

Lemma low_requested ar tb ti tl cd ts y ack ss tm :
  addressed y = true -> Z.testbit y 0 = true ->
  SCL_LOW (tx ar tb ti tl cd TWIPM_IDLE TWIP_WAIT_ACK ts 0 y ack ss tm true false false) =
    (tt, waiting ar tb y ack tm lag true).
Proof.
  intros Ha Hb. rewrite SCL_LOW_handler by reflexivity. rewrite onScl_addressed by (reflexivity || exact Ha).
  change (twi_data _) with y. rewrite Hb. handlers.
Qed.

(** The transmit buffer and its length when the task has asked the callback. *)
Definition filled (tb : list Z) : list Z * Z :=
  let '(tb', tl') :=
    match onSlaveTransmit recd with
    | Some data =>
        let len := u8 (Z.of_nat (length data)) in
        if TWI_BUFFER_LENGTH <? len then (tb, 0) else (take (Z.to_nat len) data ++ drop (Z.to_nat len) tb, len)
    | None => (tb, 0)
    end in
  if tl' =? 0 then (<[0%nat := 0]> tb', 1) else (tb', tl').

(** The slave sends the first bit of [x]. *)
Definition sent ar tb tl x tm (m_c : bool) : bus :=
  tx ar tb 1 tl 0 TWIPM_ADDRESSED TWIP_SLA_R (if m_c then TW_ST_SLA_ACK else TW_NO_INFO) 7 (shift_out x) (has_more 1 tl)
    TWI_STX tm (negb (Z.testbit x 7)) false m_c.

Lemma eventTask_tx ar tb y ack tm m_c :
  elapse (waiting ar tb y ack tm 0 m_c) =
    slave_transmit task
      (set_txBuffer (filled tb).1 (set_txLength (filled tb).2 (set_posted [] (waiting ar tb y ack tm 0 m_c)))).
Proof.
  rewrite elapse_in_time. unfold run_task, filled. change (posted _) with [SIG_TX]. change (countdown _) with O. cbv iota. unfold eventTask.
  change (received _) with recd. change (twi_onTwipEvent task TW_ST_DATA_ACK) with (slave_transmit task).
  destruct (onSlaveTransmit recd) as [data|]; [|reflexivity]. unfold twi_transmit. cbv zeta.
  destruct (TWI_BUFFER_LENGTH <? u8 (Z.of_nat (length data))); [reflexivity|].
  change (sl_state _) with TWI_STX. cbv iota beta. cbn [snd].
  change (txLength (set_txBuffer _ _)) with (u8 (Z.of_nat (length data))).
  destruct (u8 (Z.of_nat (length data)) =? 0); reflexivity.
Qed.

Lemma transmit_first ar tb0 tb tl y ack tm m_c :
  slave_transmit task (set_txBuffer tb (set_txLength tl (set_posted [] (waiting ar tb0 y ack tm 0 m_c)))) =
    sent ar tb tl (nth 0 tb 0) tm m_c.
Proof.
  unfold waiting, sent. expose. change (Z.to_nat 0) with 0%nat. change (u8 (8 - 1)) with 7. change (incr8 0) with 1.
  destruct (Z.testbit (nth 0 tb 0) 7), m_c; handlers.
Qed.

Section Wait.
Variables (ar : bool) (tb : list Z) (y : Z) (ack tm : bool).
Let tb' := (filled tb).1.
Let tl' := (filled tb).2.
Let x := nth 0 tb' 0.

Lemma elapse_waiting m_c : elapse (waiting ar tb y ack tm 0 m_c) = sent ar tb' tl' x tm m_c.
Proof. rewrite eventTask_tx. apply transmit_first. Qed.

Lemma elapse_hold k m_c : elapse (waiting ar tb y ack tm (S k) m_c) = waiting ar tb y ack tm k m_c.
Proof. by rewrite elapse_in_time. Qed.

Lemma delay_waiting n k :
  (exists k', (k' <= k)%nat /\ delay_loop n (waiting ar tb y ack tm k true) = (tt, waiting ar tb y ack tm k' true)) \/
  delay_loop n (waiting ar tb y ack tm k true) = (tt, sent ar tb' tl' x tm true).
Proof.
  revert k. induction n as [|n IH]; intros k; [left; by exists k|].
  destruct k as [|k].
  - right. cbn [delay_loop]. unfold bind at 1, GPI. rewrite elapse_waiting.
    by apply delay_loop_quiet.
  - cbn [delay_loop]. unfold bind, GPI. rewrite elapse_hold.
    destruct (IH k) as [(k' & H & E) | E]; [left; exists k'; split; [lia | exact E] | right; exact E].
Qed.

Lemma stretch_waiting n k :
  (k <= n)%nat -> stretch_loop n (waiting ar tb y ack tm k false) = (tt, sent ar tb' tl' x tm false).
Proof.
  revert k. induction n as [|n IH]; intros k Hk.
  - destruct k; [|lia]. cbn [stretch_loop]. unfold bind at 1, SCL_READ. by rewrite elapse_waiting.
  - destruct k as [|k]; cbn [stretch_loop]; unfold bind at 1, SCL_READ; [by rewrite elapse_waiting|].
    rewrite elapse_hold. apply IH. lia.
Qed.

(** The first bit, with the clock held for less than the limit. *)
Lemma bit_in_waiting :
  Z.of_nat lag <= twi_clockStretchLimit ->
  bit_in (waiting ar tb y ack tm lag true) = (Z.testbit x 7, sent ar tb' tl' x tm false).
Proof.
  intros Hlim. unfold bit_in.
  eapply step. { instantiate (1 := waiting ar tb y ack tm lag true). handlers. }
  destruct (delay_waiting (Z.to_nat (u8 (twi_dcount + 2))) lag) as [(k & Hk & E) | E]; (eapply step; [exact E|]).
  - eapply step. { instantiate (1 := waiting ar tb y ack tm k false). handlers. }
    eapply step; [apply stretch_waiting; lia|]. eapply step; [quiet|]. eapply step; [quiet|].
    unfold ret. f_equal. apply negb_involutive.
  - eapply step. { instantiate (1 := sent ar tb' tl' x tm false). unfold sent. destruct (negb _); handlers. }
    eapply step; [quiet|]. eapply step; [quiet|]. eapply step; [quiet|].
    unfold ret. f_equal. apply negb_involutive.
Qed.
End Wait.

(** ** Bytes *)

Lemma take_app_repeat (l : list Z) v m k : (m <= k)%nat -> take m (l ++ replicate k v) = take m (l ++ replicate m v).
Proof.
  intros H. rewrite !take_app. f_equal. rewrite !take_replicate. f_equal. lia.
Qed.

Lemma read_byte_from ar tb ti tl cd st ts x ack ss tm s_d nack b r :
  SCL_LOW b = (tt, r) -> sending st = true -> is_u8 x ->
  bit_in r = (Z.testbit x 7, tx ar tb ti tl cd TWIPM_ADDRESSED st ts 7 (shift_out x) ack ss tm s_d false false) ->
  exists d', twi_read_byte nack b =
    (x, tx (negb nack) tb ti tl cd TWIPM_ADDRESSED TWIP_RWAIT_ACK TW_NO_INFO 0 d' ack ss tm false (negb nack) false).
Proof.
  intros Hb Hs Hx Hr.
  destruct (read_bits_sending 6 ar tb ti tl cd TWIPM_ADDRESSED st ts (shift_out x) ack ss tm s_d
              (shift_in 0 (Z.testbit x 7)) Hs ltac:(lia)) as (d' & s_d' & E).
  exists d'. unfold twi_read_byte. eapply step.
  { eapply step; [rewrite (read_bit_unfold _ _ Hb); exact Hr | exact E]. }
  eapply step; [apply ack_sent|]. unfold ret. f_equal. exact (shift_all_byte x 0 Hx).
Qed.

(** What is left to send. *)
Definition pending (tb : list Z) (ti tl : Z) (rest : list Z) : Prop :=
  0 <= ti <= tl /\ tl <= 32 /\ length tb = 32%nat /\ rest = drop (Z.to_nat ti) (take (Z.to_nat tl) tb) /\ Forall is_u8 rest.

Lemma pending_more tb ti tl rest : pending tb ti tl rest -> has_more ti tl = bool_decide (rest <> []).
Proof.
  intros (H1 & H2 & H3 & -> & _). unfold has_more.
  assert (E : length (drop (Z.to_nat ti) (take (Z.to_nat tl) tb)) = (Z.to_nat tl - Z.to_nat ti)%nat)
    by (rewrite length_drop, length_take; lia).
  destruct (Z.ltb_spec ti tl).
  - rewrite bool_decide_true; [done|]. intros E0. rewrite E0 in E. simpl in E. lia.
  - rewrite bool_decide_false; [done|]. intros E0. apply E0, length_zero_iff_nil. rewrite length_drop, length_take. lia.
Qed.

Lemma pending_next tb ti tl x rest :
  pending tb ti tl (x :: rest) -> nth (Z.to_nat ti) tb 0 = x /\ is_u8 x /\ pending tb (incr8 ti) tl rest.
Proof.
  intros (H1 & H2 & H3 & H4 & H5). inversion_clear H5 as [|? ? Hx Hr].
  assert (Hlt : (Z.to_nat ti < Z.to_nat tl)%nat).
  { pose proof (f_equal length H4) as E. rewrite length_drop, length_take in E. simpl in E. lia. }
  assert (Ht : take (Z.to_nat tl) tb !! Z.to_nat ti = Some x).
  { rewrite <- (Nat.add_0_r (Z.to_nat ti)), <- lookup_drop, <- H4. done. }
  split_and!; [|done|].
  - rewrite lookup_take_lt in Ht by done. by apply nth_lookup_Some.
  - unfold pending, incr8. rewrite u8_id by (unfold is_u8; lia). split_and!; try (lia || done).
    rewrite Z2Nat.inj_add, Nat.add_1_r by lia. apply (drop_S _ x) in Ht as E. rewrite <- H4 in E. congruence.
Qed.

(** The slave goes on with [rest], after a byte that the master has acknowledged. *)
Definition serving (rest : list Z) (b : bus) : Prop :=
  (exists tb ti tl cd d tm, pending tb ti tl rest /\
     b = tx true tb ti tl cd TWIPM_ADDRESSED TWIP_RWAIT_ACK TW_NO_INFO 0 d (has_more ti tl) TWI_STX tm false true false) \/
  (rest = [] /\ exists ar tb ti tl cd ts d ack ss tm, length tb = 32%nat /\
     b = tx ar tb ti tl cd TWIPM_WAIT TWIP_WAIT_STOP ts 0 d ack ss tm false true false).

(** It waits for the stop condition. *)
Definition finished (b : bus) : Prop :=
  exists ar tb ti tl cd ts d ack ss tm, length tb = 32%nat /\
    SCL_LOW b = (tt, tx ar tb ti tl cd TWIPM_WAIT TWIP_WAIT_STOP ts 0 d ack ss tm false false true).

(** The state after a byte, acknowledged or not. *)
Definition served (nack : bool) (rest : list Z) (b : bus) : Prop := if nack then finished b else serving rest b.

Lemma served_byte nack tb ti tl cd d tm rest :
  pending tb ti tl rest ->
  served nack rest
    (tx (negb nack) tb ti tl cd TWIPM_ADDRESSED TWIP_RWAIT_ACK TW_NO_INFO 0 d (has_more ti tl) TWI_STX tm false (negb nack) false).
Proof.
  intros Hp. destruct nack; cbn [served negb].
  - do 10 eexists. split; [|apply low_last; apply andb_false_r]. apply Hp.
  - left. by exists tb, ti, tl, cd, d, tm.
Qed.

Lemma read_nothing nack ar tb ti tl cd ts d ack ss tm m_d b :
  length tb = 32%nat ->
  SCL_LOW b = (tt, tx ar tb ti tl cd TWIPM_WAIT TWIP_WAIT_STOP ts 0 d ack ss tm false m_d true) ->
  exists b', twi_read_byte nack b = (255, b') /\ served nack [] b'.
Proof.
  intros Hl Hb. eexists. split.
  - unfold twi_read_byte. eapply step; [exact (read_bits_ones 7 _ _ _ _ _ _ _ _ _ _ _ _ 0 _ Hb)|].
    eapply step; [apply ack_unseen | reflexivity].
  - destruct nack; cbn [served negb].
    + do 10 eexists. split; [exact Hl | apply low_waiting_stop].
    + right. split; [done|]. by do 10 eexists.
Qed.

Lemma serve_byte nack rest b :
  serving rest b -> exists b', twi_read_byte nack b = (nth 0 rest 255, b') /\ served nack (tail rest) b'.
Proof.
  intros [(tb & ti & tl & cd & d & tm & Hp & ->) | (-> & ar & tb & ti & tl & cd & ts & d & ack & ss & tm & Hl & ->)].
  - pose proof (pending_more _ _ _ _ Hp) as Hm. destruct rest as [|x rest].
    + rewrite Hm, bool_decide_false by (intros H; by apply H). eapply read_nothing; [apply Hp | by apply low_last].
    + rewrite Hm, bool_decide_true by done. destruct (pending_next _ _ _ _ _ Hp) as (Hx & Hu & Hp').
      pose proof (low_more tb ti tl cd TW_NO_INFO d TWI_STX tm true) as Hl. cbv zeta in Hl. rewrite Hx in Hl.
      edestruct (read_byte_from true tb (incr8 ti) tl cd TWIP_WRITE TW_NO_INFO x (has_more (incr8 ti) tl) TWI_STX tm
                  (negb (Z.testbit x 7)) nack _ _ Hl) as (d' & E); [done | done | |].
      { etrans; [by apply bit_in_watching | by rewrite negb_involutive]. }
      eexists. split; [exact E | by apply served_byte].
  - eapply read_nothing; [exact Hl | apply low_waiting_stop].
Qed.

Lemma read_data_serving n rest b :
  serving rest b ->
  exists b', read_data n b = (take (S n) (rest ++ replicate (S n) 255), b') /\ finished b'.
Proof.
  revert rest b. induction n as [|n IH]; intros rest b Hb.
  - destruct (serve_byte true rest b Hb) as (b' & E & H). exists b'. split; [|exact H].
    eapply step; [exact E|]. by destruct rest.
  - destruct (serve_byte false rest b Hb) as (b1 & E1 & H1). destruct (IH _ _ H1) as (b2 & E2 & H2).
    exists b2. split; [|exact H2]. eapply step; [exact E1|]. eapply step; [exact E2|]. unfold ret. f_equal.
    destruct rest as [|x rest]; cbn [tail nth app take]; f_equal.
    rewrite (take_app_repeat _ _ (S n) (S (S n))) by lia. reflexivity.
Qed.
End Send.

(** ** The whole transaction *)

Section Outcome.
Context {C : BusConfig} {T : InTime}.

(** The bytes that the callback offers: a single 0 when it gives none or too many. *)
Definition offered (recd : list (list Z)) : list Z :=
  match onSlaveTransmit recd with
  | Some data => if bool_decide (1 <= length data <= 32)%nat then data else [0]
  | None => [0]
  end.

(** The callback gives bytes, and their number in a byte. *)
Definition callback_typed (recd : list (list Z)) : Prop :=
  match onSlaveTransmit recd with Some data => Forall is_u8 data /\ (length data < 256)%nat | None => True end.

Lemma filled_offered recd tb :
  length tb = 32%nat -> callback_typed recd ->
  exists x rest, offered recd = x :: rest /\ nth 0 (filled recd tb).1 0 = x /\ is_u8 x /\
    pending (filled recd tb).1 1 (filled recd tb).2 rest.
Proof.
  intros Hl Hc. unfold filled, offered, callback_typed in *.
  assert (Hnone : forall tb0, length tb0 = 32%nat ->
            nth 0 (<[0%nat := 0]> tb0) 0 = 0 /\ is_u8 0 /\ pending (<[0%nat := 0]> tb0) 1 1 []).
  { intros tb0 H0. destruct tb0 as [|v tb0]; [discriminate|]. split_and!; [done | done |].
    unfold pending. split_and!; try (done || lia). }
  destruct (onSlaveTransmit recd) as [data|]; [|exists 0, []; split; [done|]; by apply Hnone].
  destruct Hc as [Hu Hn]. rewrite u8_id by (unfold is_u8; lia). unfold TWI_BUFFER_LENGTH.
  destruct (Z.ltb_spec 32 (Z.of_nat (length data))) as [Hgt|Hle].
  - rewrite bool_decide_false by lia. exists 0, []. split; [done|]. by apply Hnone.
  - destruct data as [|x rest].
    + exists 0, []. split; [done|]. by apply Hnone.
    + rewrite bool_decide_true by (cbn [length] in *; lia). exists x, rest.
      rewrite Nat2Z.id, firstn_all. destruct (Z.eqb_spec (Z.of_nat (length (x :: rest))) 0); [done|].
      inversion_clear Hu as [|? ? Hx Hr]. split_and!; try done. unfold pending. cbn [fst snd].
      cbn [length] in *. split_and!; try (done || lia).
      * rewrite length_app, length_drop. cbn [length]. lia.
      * rewrite Nat2Z.id. cbn [app take]. change (Z.to_nat 1) with 1%nat. cbn [drop]. by rewrite take_app_length.
Qed.

Lemma first_byte nack b y x rest :
  at_rest b -> addressed y = true -> Z.testbit y 0 = true -> Z.of_nat lag <= twi_clockStretchLimit ->
  nth 0 (filled (received b) (txBuffer b)).1 0 = x -> is_u8 x ->
  pending (filled (received b) (txBuffer b)).1 1 (filled (received b) (txBuffer b)).2 rest ->
  exists b', twi_read_byte nack (answered b y true) = (x, b') /\
    served (twi_error b) (rxBuffer b) (rxIndex b) (received b) nack rest b'.
Proof.
  intros Hb H1 H2 Hlim Hx Hu Hp.
  pose proof (low_requested (twi_error b) (rxBuffer b) (rxIndex b) (received b) (twi_ack_rec b) (txBuffer b) (txIndex b)
                (txLength b) (countdown b) TW_NO_INFO y (twi_ack b) (sl_state b) true H1 H2) as Hl.
  pose proof (bit_in_waiting (twi_error b) (rxBuffer b) (rxIndex b) (received b) (twi_ack_rec b) (txBuffer b) y (twi_ack b)
                true Hlim) as Hw.
  rewrite Hx in Hw. edestruct read_byte_from as (d' & E); [exact Hl | | exact Hu | exact Hw |]; [done|].
  eexists. split; [exact E | by apply served_byte].
Qed.

Lemma read_data_first n b y :
  at_rest b -> addressed y = true -> Z.testbit y 0 = true -> Z.of_nat lag <= twi_clockStretchLimit ->
  callback_typed (received b) ->
  exists b', read_data n (answered b y true) = (take (S n) (offered (received b) ++ replicate (S n) 255), b') /\
    finished (twi_error b) (rxBuffer b) (rxIndex b) (received b) b'.
Proof.
  intros Hb H1 H2 Hlim Hc. destruct (filled_offered (received b) (txBuffer b) ltac:(apply Hb) Hc) as (x & rest & -> & Hx & Hu & Hp).
  destruct n as [|n].
  - destruct (first_byte true b y x rest) as (b' & E & H); try done. exists b'. split; [|exact H].
    eapply step; [exact E | reflexivity].
  - destruct (first_byte false b y x rest) as (b1 & E1 & H); try done.
    destruct (read_data_serving _ _ _ _ n rest b1 H) as (b2 & E2 & H2'). exists b2. split; [|exact H2'].
    eapply step; [exact E1|]. eapply step; [exact E2|]. unfold ret. cbn [app take]. do 2 f_equal.
    rewrite (take_app_repeat _ _ (S n) (S (S n))) by lia. reflexivity.
Qed.

Lemma finished_stops er rb ri recd b :
  finished er rb ri recd b -> length rb = 32%nat ->
  exists b', (twi_write_stop ;; ret tt) b = (tt, b') /\ at_rest b' /\ received b' = recd.
Proof.
  intros (ar & tb & ti & tl & cd & ts & d & ack & ss & tm & Hl & Hb) Hr. eexists. split; [|split].
  - eapply step; [exact (stop_ignored _ _ _ _ _ _ _ _ _ _ _ _ _ _ _ _ Hb) | reflexivity].
  - by repeat split.
  - done.
Qed.

Lemma release_at_rest n b : at_rest b -> release_loop n b = (tt, b).
Proof.
  intros (_ & _ & H1 & _ & H2 & _ & _ & _ & H3 & _).
  destruct n; cbn [release_loop]; (eapply step; [by apply read_quiet|]); unfold sda; by rewrite H1, H2.
Qed.

(** A read, from the acknowledge bit of the address on. *)
Lemma read_answered n b y :
  at_rest b -> addressed y = true -> Z.testbit y 0 = true -> Z.of_nat lag <= twi_clockStretchLimit ->
  callback_typed (received b) ->
  exists b',
    (l <- read_data n ;; (twi_write_stop ;; ret tt) ;; release_loop 10 ;; ret (0, l)) (answered b y true) =
      ((0, take (S n) (offered (received b) ++ replicate (S n) 0xFF)), b') /\
    at_rest b' /\ received b' = received b.
Proof.
  intros Hb Hm Hw Hlim Hc. destruct (read_data_first n b _ Hb Hm Hw Hlim Hc) as (b1 & E1 & H1).
  destruct (finished_stops _ _ _ _ _ H1 ltac:(apply Hb)) as (b2 & E2 & H2 & H3).
  exists b2. split; [|done]. eapply step; [exact E1|]. eapply step; [exact E2|].
  eapply step; [by apply release_at_rest | reflexivity].
Qed.

(** C31: what the master gets from the slave at the address [a], when the bus is at
    rest and the task that asks the callback is not later than the clock stretch
    limit, nor so late that the slave's timer expires within the transaction
    ([InTime]): the bytes that the callback offers, then [0xFF]; from another address,
    code 2.  The bus comes to rest again and the slave has received nothing. *)
Theorem i2c_read_outcome a n b :
  at_rest b -> 0 <= a < 128 -> callback_typed (received b) -> Z.of_nat lag <= twi_clockStretchLimit ->
  exists b',
    twi_readFrom a (S n) true b =
      (if setAddress_addr a =? twi_addr then (0, take (S n) (offered (received b) ++ replicate (S n) 0xFF)) else (2, []), b') /\
    at_rest b' /\ received b' = received b.
Proof.
  intros Hb Ha Hc Hlim. destruct (address_byte a true Ha) as (Hy & Hw & Hm). cbn [b2z] in Hy, Hw, Hm.
  unfold twi_readFrom. erewrite address_sent by done. rewrite Hm. 
  destruct (setAddress_addr a =? twi_addr); cbn [negb].
  - replace (S n - 1)%nat with n by lia. by apply read_answered.
  - destruct (stopped_rx b _ _ _ _ _ _ _ _ _ Hb (answered_other b _ Hm) ltac:(apply Hb)) as (b' & E & H).
    exists b'. split; [|exact H]. eapply step; [exact E | reflexivity].
Qed.
End Outcome.
