(* ===== verification/Si2cRepeat.v ===== *)
(** * The software I2C bus: a register read

    A master that writes without a stop condition and then reads: the slave gets the
    message at the repeated start, and its callback can answer it. *)

From S2P Require Import Prelude Si2c Si2cWrite Si2cRead.

Section Restart.
Context {C : BusConfig} {T : InTime}.
Variables (ar : bool) (er : Z) (tb : list Z) (ti tl : Z) (recd : list (list Z)) (rb : list Z) (ri d : Z).

(** The repeated start: the slave holds the clock for [k] more accesses, and the task
    has run. *)
Definition restarting (k : nat) (m_d m_c : bool) : bus :=
  mkBus TWIPM_IDLE TWIP_REP_START TW_NO_INFO 8 d true ar TWI_SRX er tb ti tl rb 0 true [SIG_RX ri] recd false true m_d m_c
    false false k.
Definition restarted bc d' (m_d m_c : bool) : bus :=
  rx ar er tb ti tl (recd ++ [take (Z.to_nat ri) rb]) 0 TWIPM_IDLE TWIP_REP_START TW_NO_INFO bc d' true TWI_READY rb 0 true
    false m_d m_c.

Lemma elapse_low m_d : elapse (restarting 0 m_d true) = restarted 8 d m_d true.
Proof. rewrite elapse_in_time. destruct m_d; handlers. Qed.

Lemma elapse_high m_d : elapse (restarting 0 m_d false) = restarted 7 (shift_in d (negb m_d)) m_d false.
Proof. rewrite elapse_in_time. destruct m_d; handlers. Qed.

Lemma elapse_held k m_d m_c : elapse (restarting (S k) m_d m_c) = restarting k m_d m_c.
Proof. by rewrite elapse_in_time. Qed.

Lemma delay_held n k m_d m_c :
  (n <= k)%nat -> delay_loop n (restarting k m_d m_c) = (tt, restarting (k - n) m_d m_c).
Proof.
  revert k. induction n as [|n IH]; intros k Hk; [by rewrite Nat.sub_0_r|].
  destruct k as [|k]; [lia|]. cbn [delay_loop]. unfold bind, GPI. rewrite elapse_held. exact (IH k ltac:(lia)).
Qed.

Lemma delay_low n k m_d :
  (exists k', (k' <= k)%nat /\ delay_loop n (restarting k m_d true) = (tt, restarting k' m_d true)) \/
  delay_loop n (restarting k m_d true) = (tt, restarted 8 d m_d true).
Proof.
  destruct (decide (n <= k)%nat) as [H|H]; [left; exists (k - n)%nat; split; [lia | by apply delay_held]|]. right.
  revert n H. induction k as [|k IH]; intros n H; (destruct n as [|n]; [lia|]); cbn [delay_loop]; unfold bind at 1, GPI.
  - rewrite elapse_low. by apply delay_loop_quiet.
  - rewrite elapse_held. apply IH. lia.
Qed.

Lemma stretch_held n k m_d :
  (k <= n)%nat -> stretch_loop n (restarting k m_d false) = (tt, restarted 7 (shift_in d (negb m_d)) m_d false).
Proof.
  revert k. induction n as [|n IH]; intros k Hk.
  - destruct k; [|lia]. cbn [stretch_loop]. unfold bind at 1, SCL_READ. by rewrite elapse_high.
  - destruct k as [|k]; cbn [stretch_loop]; unfold bind at 1, SCL_READ; [by rewrite elapse_high|].
    rewrite elapse_held. apply IH. lia.
Qed.

(** The first bit after the repeated start. *)
Lemma first_bit k x :
  Z.of_nat k <= twi_clockStretchLimit ->
  twi_write_bit x (restarting k true false) = (true, restarted 7 (shift_in d x) (negb x) false).
Proof.
  intros Hk. unfold twi_write_bit.
  eapply step. { instantiate (1 := restarting k true true). handlers. }
  eapply step. { instantiate (1 := restarting k (negb x) true). destruct x; handlers. }
  destruct (delay_low (Z.to_nat (u8 (twi_dcount + 1))) k (negb x)) as [(k' & Hk' & E) | E]; (eapply step; [exact E|]).
  - eapply step. { instantiate (1 := restarting k' (negb x) false). destruct x; handlers. }
    eapply step; [apply stretch_held; lia|]. eapply step; [quiet|]. by rewrite negb_involutive.
  - eapply step; [apply high_shifting; done|]. eapply step; [quiet|]. eapply step; [quiet|].
    by rewrite negb_involutive.
Qed.

Lemma restart_byte k y :
  Z.of_nat k <= twi_clockStretchLimit -> is_u8 y ->
  twi_write_byte y (restarting k true false) =
    (addressed y,
     rx ar er tb ti tl (recd ++ [take (Z.to_nat ri) rb]) 0 TWIPM_IDLE TWIP_WAIT_ACK TW_NO_INFO 0 y true TWI_READY rb 0 true
       (addressed y) false false).
Proof.
  intros Hk Hy. unfold twi_write_byte. eapply step.
  { eapply step; [by apply first_bit|].
    eapply (write_bits_shifting _ _ _ _ _ _ _ 6 TWIPM_IDLE TWIP_REP_START TW_NO_INFO); [done | lia | by apply low_shifting]. }
  eapply step; [apply ack_bit|]. unfold ret. rewrite negb_involutive. cbn [takes].
  change (shift_all 7 (shift_out y) (shift_in d (Z.testbit y 7))) with (shift_all 8 y d). by rewrite shift_all_byte.
Qed.
End Restart.

Section Register.
Context {C : BusConfig} {T : InTime}.

(** A message without a stop condition: the slave still waits for more. *)
Lemma release_receiving all b b1 :
  of_bus receiving b (countdown b) all b1 -> (length all <= 32)%nat ->
  exists st d rb tm,
    release_loop 10 b1 =
      (tt, rx_of b TWIPM_ADDRESSED st TW_NO_INFO 7 d true TWI_SRX rb (Z.of_nat (length all)) tm false false false) /\
    (st = TWIP_SLA_W \/ st = TWIP_READ) /\ length rb = 32%nat /\ take (length all) rb = all.
Proof.
  intros (st & ts & d & rb & tm & HS & Hs & Hl & Ht & _ & Hd & Hq) Hle.
  rewrite bool_decide_true in HS by done. rewrite (take_ge all 32) in HS, Ht by done.
  exists st, (shift_in d true), rb, tm. split; [|done].
  cbn [release_loop]. eapply step; [by apply read_quiet|]. rewrite Hd.
  eapply step; [exact HS|]. eapply step; [quiet|].
  eapply step; [apply high_shifting; [by destruct Hs as [-> | ->] | lia]|].
  eapply step; [quiet|]. eapply step; [quiet|]. eapply step; [quiet|].
  by destruct Hs as [-> | ->].
Qed.

(** The repeated start hands the message over. *)
Lemma restart_change ar er tb ti tl recd cd st d rb ri tm :
  st = TWIP_SLA_W \/ st = TWIP_READ ->
  SDA_LOW (rx ar er tb ti tl recd cd TWIPM_ADDRESSED st TW_NO_INFO 7 d true TWI_SRX rb ri tm false false false) =
    (tt, restarting ar er tb ti tl recd (terminated rb ri) ri d lag true false).
Proof.
  intros Hs. rewrite SDA_LOW_handler by reflexivity. rewrite onSda_restart by (exact Hs || reflexivity).
  cbv beta. rewrite raise_stop. destruct Hs as [-> | ->]; handlers.
Qed.

Lemma restart_held ar er tb ti tl recd cd st d rb ri tm :
  st = TWIP_SLA_W \/ st = TWIP_READ -> u8 twi_dcount <= Z.of_nat lag ->
  exists k, (k <= lag)%nat /\
  twi_write_start (rx ar er tb ti tl recd cd TWIPM_ADDRESSED st TW_NO_INFO 7 d true TWI_SRX rb ri tm false false false) =
    (true, restarting ar er tb ti tl recd (terminated rb ri) ri d k true false).
Proof.
  intros Hs Hlag. pose proof (u8_range twi_dcount) as Hr. unfold is_u8 in Hr.
  exists (lag - Z.to_nat (u8 twi_dcount))%nat. split; [lia|]. unfold twi_write_start.
  eapply step. { instantiate (1 := rx ar er tb ti tl recd cd TWIPM_ADDRESSED st TW_NO_INFO 7 d true TWI_SRX rb ri tm false false false).
    destruct Hs as [-> | ->]; handlers. }
  eapply step. { instantiate (1 := rx ar er tb ti tl recd cd TWIPM_ADDRESSED st TW_NO_INFO 7 d true TWI_SRX rb ri tm false false false).
    destruct Hs as [-> | ->]; handlers. }
  eapply step; [quiet|]. cbv beta iota delta [sda rx negb andb m_sda s_sda]. eapply step; [quiet|].
  eapply step; [by apply restart_change|]. eapply step; [apply delay_held; lia | reflexivity].
Qed.

Lemma write_register a reg b :
  at_rest b -> 0 <= a < 128 -> setAddress_addr a = twi_addr -> Forall is_u8 reg -> (length reg <= 32)%nat ->
  exists st d rb tm,
    twi_writeTo a reg false b =
      (0, rx_of b TWIPM_ADDRESSED st TW_NO_INFO 7 d true TWI_SRX rb (Z.of_nat (length reg)) tm false false false) /\
    (st = TWIP_SLA_W \/ st = TWIP_READ) /\ length rb = 32%nat /\ take (length reg) rb = reg.
Proof.
  intros Hb Ha Hm Hu Hl. destruct (address_byte a false Ha) as (Hy & Hw & Hm'). apply Z.eqb_eq in Hm.
  unfold twi_writeTo. erewrite address_sent by done. cbn [b2z] in Hm', Hw. rewrite Hm in Hm'. rewrite Hm'. cbn [negb].
  destruct (receive_data _ _ _ _ _ _ _ reg [] _ (answered_receiving b _ Hb Hm' Hw) Hu) as (b1 & E1 & H1).
  cbn [app] in E1, H1. rewrite bool_decide_true in E1, H1 by lia.
  destruct (release_receiving reg b b1 H1 Hl) as (st & d & rb & tm & E2 & H2).
  exists st, d, rb, tm. split; [|exact H2]. eapply step; [exact E1|]. eapply step; [reflexivity|].
  eapply step; [exact E2 | reflexivity].
Qed.

(** C32: reading a register of the slave: a message of at most 32 bytes without a stop
    condition, then a read with a repeated start.  The master gets 0 twice and the
    bytes that the callback offers after the slave got the message, as long as the
    slave's task comes after the hold time of the start condition, within the
    clock stretch limit and before the slave's timer expires ([InTime]).  The bus comes to rest. *)
Theorem i2c_register_read a reg n b :
  at_rest b -> 0 <= a < 128 -> setAddress_addr a = twi_addr -> Forall is_u8 reg -> (length reg <= 32)%nat ->
  callback_typed (received b ++ [reg]) -> u8 twi_dcount <= Z.of_nat lag <= twi_clockStretchLimit ->
  exists b',
    (c <- twi_writeTo a reg false ;; r <- twi_readFrom a (S n) true ;; ret (c, r)) b =
      ((0, (0, take (S n) (offered (received b ++ [reg]) ++ replicate (S n) 0xFF))), b') /\
    at_rest b' /\ received b' = received b ++ [reg].
Proof.
  intros Hb Ha Hm Hu Hl Hc [Hlag Hlim].
  destruct (write_register a reg b Hb Ha Hm Hu Hl) as (st & d & rb & tm & E & Hs & Hlr & Ht).
  destruct (restart_held (twi_ack_rec b) (twi_error b) (txBuffer b) (txIndex b) (txLength b) (received b) (countdown b)
              st d rb (Z.of_nat (length reg)) tm Hs Hlag) as (k & Hk & E1).
  destruct (address_byte a true Ha) as (Hy & Hw & Ha'). cbn [b2z] in Hy, Hw, Ha'. rewrite Hm, Z.eqb_refl in Ha'.
  pose proof (restart_byte (twi_ack_rec b) (twi_error b) (txBuffer b) (txIndex b) (txLength b) (received b)
                (terminated rb (Z.of_nat (length reg))) (Z.of_nat (length reg)) d k _ ltac:(lia) Hy) as E2.
  rewrite Ha' in E2. rewrite Nat2Z.id, take_terminated, Ht in E2.
  set (b0 := rx (twi_ack_rec b) (twi_error b) (txBuffer b) (txIndex b) (txLength b) (received b ++ [reg]) 0 TWIPM_IDLE TWIP_IDLE
               TW_NO_INFO 0 0 true TWI_READY (terminated rb (Z.of_nat (length reg))) 0 true false false false).
  assert (Hr0 : at_rest b0). { repeat split; [etrans; [apply length_terminated | exact Hlr] | apply Hb]. }
  destruct (read_answered n b0 _ Hr0 Ha' Hw Hlim Hc) as (b' & E3 & H3).
  exists b'. split; [|exact H3]. eapply step; [exact E|]. eapply step; [|reflexivity].
  unfold twi_readFrom. eapply step; [exact E1|]. cbn [negb]. eapply step; [exact E2|]. cbn [negb].
  replace (S n - 1)%nat with n by lia. exact E3.
Qed.
End Register.
