(* ===== verification/Si2cWitness.v ===== *)
(** * The software I2C bus: concrete runs

    A slave at the address 0x28 whose callback offers three bytes, with the timing of
    a bus at 100 kHz on a processor at 80 MHz. *)

From S2P Require Import Prelude Si2c Si2cWrite Si2cRead Si2cRepeat.

Definition example_config (lg : nat) : BusConfig :=
  let addr := setAddress_addr 0x28 in
  configured (twi_init true 100000 addr 4 5) addr (fun _ => Some [1; 2; 0xA5]) lg (fun _ => false).
#[export] Instance example_in_time lg : InTime (C := example_config lg).
Proof. done. Qed.

Lemma idle_bus_at_rest : at_rest idle_bus.
Proof. repeat split. Qed.

(** A message of three bytes, whose callback runs 30 accesses after the stop condition. *)
Lemma i2c_write_outcome_witness :
  exists code b',
    (code <- twi_writeTo (C := example_config 30) 0x28 [0x10; 0; 0xFF] true ;; settle (C := example_config 30) ;; ret code)
      idle_bus = (code, b') /\ at_rest b' /\ (code, received b') = (0, [[0x10; 0; 0xFF]]).
Proof.
  apply (i2c_write_outcome (C := example_config 30) 0x28 [0x10; 0; 0xFF] idle_bus).
  - exact idle_bus_at_rest.
  - lia.
  - repeat constructor; vm_compute; congruence.
Defined.

(** Five bytes from a callback that offers three. *)
Lemma i2c_read_outcome_witness :
  exists b',
    twi_readFrom (C := example_config 30) 0x28 5 true idle_bus = ((0, [1; 2; 0xA5; 0xFF; 0xFF]), b') /\
    at_rest b' /\ received b' = [].
Proof.
  apply (i2c_read_outcome (C := example_config 30) 0x28 4 idle_bus).
  - exact idle_bus_at_rest.
  - lia.
  - split; [repeat constructor; vm_compute; congruence | simpl; lia].
  - vm_compute. congruence.
Defined.

(** Register 7, two bytes. *)
Lemma i2c_register_read_witness :
  exists b',
    (c <- twi_writeTo (C := example_config 30) 0x28 [7] false ;; r <- twi_readFrom (C := example_config 30) 0x28 2 true ;;
     ret (c, r)) idle_bus = ((0, (0, [1; 2])), b') /\ at_rest b' /\ received b' = [[7]].
Proof.
  apply (i2c_register_read (C := example_config 30) 0x28 [7] 1 idle_bus).
  - exact idle_bus_at_rest.
  - lia.
  - reflexivity.
  - repeat constructor; vm_compute; congruence.
  - simpl; lia.
  - split; [repeat constructor; vm_compute; congruence | simpl; lia].
  - vm_compute. split; congruence.
Defined.

(** A master that stops in the acknowledge bit of the address byte. *)
Definition given_up : bus :=
  snd ((twi_write_start (C := example_config 30) ;; twi_write_byte (C := example_config 30) 0x50) idle_bus).

Lemma i2c_timeout_recovers_witness :
  let b1 := onTimer (C := example_config 30) given_up in
  sda b1 = true /\ scl b1 = true /\ twi_error b1 = TW_BUS_ERROR /\
  exists b2, twi_write_stop (C := example_config 30) b1 = (true, b2) /\ at_rest b2 /\ received b2 = received given_up /\
    rxBuffer b2 = rxBuffer given_up /\ timer b2 = false.
Proof.
  apply (i2c_timeout_recovers (C := example_config 30) given_up).
  split; [intros _; vm_compute; reflexivity|]. repeat split; vm_compute; reflexivity.
Defined.

(** A second message right after the first: the slave still holds the clock for its
    callback, [twi_write_start] does not wait for it, and the start condition is not
    seen.  The address is not acknowledged and the message is lost; with a callback
    that starts in time both arrive. *)
Definition two_messages (lg : nat) : (Z * Z) * list (list Z) :=
  let '(codes, b) :=
    (c1 <- twi_writeTo (C := example_config lg) 0x28 [1] true ;; c2 <- twi_writeTo (C := example_config lg) 0x28 [2] true ;;
     settle (C := example_config lg) ;; ret (c1, c2)) idle_bus in
  (codes, received b).

Lemma start_ignores_held_clock :
  two_messages 30 = ((0, 0), [[1]; [2]]) /\ two_messages 60 = ((0, 2), [[1]]).
Proof. vm_compute. split; reflexivity. Qed.

(** A task that runs before the master has pulled the clock low for the first bit after
    a repeated start: the slave takes its own release of the clock for a bit of the
    address, and the read is not acknowledged. *)
Definition register_read (lg : nat) : Z * (Z * list Z) :=
  fst ((c <- twi_writeTo (C := example_config lg) 0x28 [7] false ;; r <- twi_readFrom (C := example_config lg) 0x28 2 true ;;
        ret (c, r)) idle_bus).

Lemma repeated_start_race : register_read 19 = (0, (0, [1; 2])) /\ register_read 18 = (0, (2, [])).
Proof. vm_compute. split; reflexivity. Qed.

(** A task that is later than the slave's timer: the timer lets go of the clock, the master
    reads the released line as ones, and the task comes into the middle of a byte. *)
Definition late_config : BusConfig :=
  let addr := setAddress_addr 0x28 in
  configured (twi_init true 100000 addr 4 5) addr (fun _ => Some [1; 2; 0xA5]) 600
    (fun b => (countdown b <? 500)%nat && negb (bool_decide (length (posted b) = 0%nat))).

Lemma expired_timer_aborts : fst (twi_readFrom (C := late_config) 0x28 2 true idle_bus) = (0, [0xFF; 0xE0]).
Proof. vm_compute. reflexivity. Qed.
