(* ===== verification/Gdb.v ===== *)
(** * The GDB stub of the ESP8266 core

    Models [ESP/libraries/GDBStub/src/internal/gdbstub.c] in the configuration of
    [gdbstub-cfg.h] (no FreeRTOS, break on exceptions and on Ctrl-C, console output
    redirected): the packet layer over the serial port, the command interpreter and
    the entry points that the exception and interrupt handlers call.

    The characters that gdb will send are the list [rx]; a routine that waits for a
    character when there are none left waits for ever ([Waiting]).  Memory is an
    array of 32-bit words.  The routines in assembly ([gdbstub-entry.S]) are the class
    [Target], with the fill level of the transmit FIFO, which drains as time passes. *)

From Stdlib Require Import Ascii String.
From S2P Require Import Prelude.

#[local] Abbreviation length := Datatypes.length.

(** ** Characters and integers *)

Definition code (a : ascii) : Z := Z.of_N (N_of_ascii a).
Fixpoint text (s : string) : list Z :=
  match s with EmptyString => [] | String a s' => code a :: text s' end.

(** The value of type [int] (32 bits) that is congruent to [v]. *)
Definition s32 (v : Z) : Z := (v + 2147483648) mod 4294967296 - 2147483648.

(** ** State *)

Record XTensa_exception_frame_s := mkFrame {
  pc : Z; ps : Z; sar : Z; vpri : Z; a : list Z; litbase : Z; sr176 : Z; sr208 : Z; reason : Z
}.

(** The hardware breakpoints and what else the assembly routines keep; the bytes that
    lie behind the command buffer and the value of an uninitialised variable. *)
Class Target := {
  hw : Type;
  gdbstub_set_hw_breakpoint : Z -> Z -> hw -> Z * hw;
  gdbstub_set_hw_watchpoint : Z -> Z -> Z -> hw -> Z * hw;
  gdbstub_del_hw_breakpoint : Z -> hw -> Z * hw;
  gdbstub_del_hw_watchpoint : Z -> hw -> Z * hw;
  gdbstub_icount_ena_single_step : hw -> hw;
  gdbstub_save_extra_sfrs_for_exception : hw -> Z * Z * Z * Z;
  behind : Z -> Z;
  undefined : Z;
  (** the count of the transmit FIFO at the [k]-th poll after the characters [t] have been
      written; the FIFO has room after [tx_patience] polls at the latest *)
  tx_fifo_cnt : list Z -> nat -> Z;
  tx_patience : nat;
  tx_drains t : exists k, (k <= tx_patience)%nat /\ tx_fifo_cnt t k < 126
}.
Definition TX_FIFO_SIZE := 128.

Definition PBUFLEN : nat := 256.
Definition ST_ENDPACKET := -1.
Definition ST_ERR := -2.
Definition ST_OK := -3.
Definition ST_CONT := -4.
Definition ST_DETACH := -5.
Definition EXCEPTION_GDB_SP_OFFSET := 0x100.
Definition XCHAL_DEBUGLEVEL := 2.

Section Stub.
Context {T : Target}.

Record stub := mkStub {
  regs : XTensa_exception_frame_s;
  gdb_attached : bool;
  cmd : list Z;
  chsum : Z;
  singleStepPs : Z;
  mem : Z -> Z;
  rx : list Z;
  tx : list Z;
  uart_intr : bool;
  wdt : bool;
  isr_chars : list Z;
  console : list Z;
  dbg : hw
}.

Definition set_regs r s := mkStub r (gdb_attached s) (cmd s) (chsum s) (singleStepPs s) (mem s) (rx s) (tx s) (uart_intr s) (wdt s) (isr_chars s) (console s) (dbg s).
Definition set_attached v s := mkStub (regs s) v (cmd s) (chsum s) (singleStepPs s) (mem s) (rx s) (tx s) (uart_intr s) (wdt s) (isr_chars s) (console s) (dbg s).
Definition set_cmd v s := mkStub (regs s) (gdb_attached s) v (chsum s) (singleStepPs s) (mem s) (rx s) (tx s) (uart_intr s) (wdt s) (isr_chars s) (console s) (dbg s).
Definition set_chsum v s := mkStub (regs s) (gdb_attached s) (cmd s) v (singleStepPs s) (mem s) (rx s) (tx s) (uart_intr s) (wdt s) (isr_chars s) (console s) (dbg s).
Definition set_singleStepPs v s := mkStub (regs s) (gdb_attached s) (cmd s) (chsum s) v (mem s) (rx s) (tx s) (uart_intr s) (wdt s) (isr_chars s) (console s) (dbg s).
Definition set_mem v s := mkStub (regs s) (gdb_attached s) (cmd s) (chsum s) (singleStepPs s) v (rx s) (tx s) (uart_intr s) (wdt s) (isr_chars s) (console s) (dbg s).
Definition set_rx v s := mkStub (regs s) (gdb_attached s) (cmd s) (chsum s) (singleStepPs s) (mem s) v (tx s) (uart_intr s) (wdt s) (isr_chars s) (console s) (dbg s).
Definition set_tx v s := mkStub (regs s) (gdb_attached s) (cmd s) (chsum s) (singleStepPs s) (mem s) (rx s) v (uart_intr s) (wdt s) (isr_chars s) (console s) (dbg s).
Definition set_uart_intr v s := mkStub (regs s) (gdb_attached s) (cmd s) (chsum s) (singleStepPs s) (mem s) (rx s) (tx s) v (wdt s) (isr_chars s) (console s) (dbg s).
Definition set_wdt v s := mkStub (regs s) (gdb_attached s) (cmd s) (chsum s) (singleStepPs s) (mem s) (rx s) (tx s) (uart_intr s) v (isr_chars s) (console s) (dbg s).
Definition set_isr_chars v s := mkStub (regs s) (gdb_attached s) (cmd s) (chsum s) (singleStepPs s) (mem s) (rx s) (tx s) (uart_intr s) (wdt s) v (console s) (dbg s).
Definition set_console v s := mkStub (regs s) (gdb_attached s) (cmd s) (chsum s) (singleStepPs s) (mem s) (rx s) (tx s) (uart_intr s) (wdt s) (isr_chars s) v (dbg s).
Definition set_dbg v s := mkStub (regs s) (gdb_attached s) (cmd s) (chsum s) (singleStepPs s) (mem s) (rx s) (tx s) (uart_intr s) (wdt s) (isr_chars s) (console s) v.

(** A routine returns, waits for a character for ever, restarts the processor, or writes
    behind the command buffer. *)
Inductive outcome (A : Type) :=
  | Done (x : A) (s : stub) | Waiting (s : stub) | Restarted (s : stub) | Overrun | NoFuel.
Arguments Done {A}. Arguments Waiting {A}. Arguments Restarted {A}. Arguments Overrun {A}. Arguments NoFuel {A}.

Definition M (A : Type) := stub -> outcome A.
Definition ret {A} (x : A) : M A := Done x.
Definition bind {A B} (m : M A) (k : A -> M B) : M B :=
  fun s =>
    match m s with
    | Done x s' => k x s'
    | Waiting s' => Waiting s'
    | Restarted s' => Restarted s'
    | Overrun => Overrun
    | NoFuel => NoFuel
    end.
Definition upd (f : stub -> stub) : M unit := fun s => Done tt (f s).
Definition get {A} (f : stub -> A) : M A := fun s => Done (f s) s.
End Stub.

Arguments Done {T A}. Arguments Waiting {T A}. Arguments Restarted {T A}. Arguments Overrun {T A}.
Arguments NoFuel {T A}.

Declare Scope gdb_scope.
Delimit Scope gdb_scope with gdb.
Notation "x <- m ;; k" := (bind m (fun x => k)) (at level 100, m at next level, right associativity) : gdb_scope.
Notation "'Let' x , y <- m ;; k" := (bind m (fun p => match p with (x, y) => k end))
  (at level 100, x at level 0, y at level 0, m at next level, right associativity) : gdb_scope.
Notation "m ;; k" := (bind m (fun _ => k)) (at level 100, right associativity) : gdb_scope.
Open Scope gdb_scope.

(** ** Numbers in packets *)

Definition hex_digit (c : Z) : option Z :=
  if (48 <=? c) && (c <=? 57) then Some (c - 48)
  else if (65 <=? c) && (c <=? 70) then Some (c - 65 + 10)
  else if (97 <=? c) && (c <=? 102) then Some (c - 97 + 10)
  else None.

(** The loop of [gdbGetHexVal] over the characters [at_ ptr], [at_ (ptr + 1)], ...; [open]
    stands for [bits == -1]. *)
Fixpoint hex_loop (at_ : Z -> Z) (open : bool) (n : nat) (ptr v : Z) : Z * Z :=
  match n with
  | O => (s32 v, ptr)
  | S n' =>
      match hex_digit (at_ ptr) with
      | Some d => hex_loop at_ open n' (ptr + 1) (Z.lor (u32 (Z.shiftl v 4)) d)
      | None =>
          if open then (s32 v, ptr)
          else (if at_ ptr =? code "#" then ST_ENDPACKET else ST_ERR, ptr + 1)
      end
  end.
Definition gdbGetHexVal (at_ : Z -> Z) (ptr bits : Z) : Z * Z :=
  let open := bits =? -1 in
  hex_loop at_ open (if open then 64 else Z.to_nat (Z.quot bits 4)) ptr 0.

Definition iswap (i : Z) : Z :=
  s32 (Z.lor (Z.lor (Z.lor (Z.land (Z.shiftr i 24) 0xff) (Z.shiftl (Z.land (Z.shiftr i 16) 0xff) 8))
               (Z.shiftl (Z.land (Z.shiftr i 8) 0xff) 16))
         (Z.shiftl (Z.land i 0xff) 24)).

(** ** Memory *)

Section Functions.
Context {T : Target}.

Definition mapped (p : Z) : bool := negb ((p <? 0x20000000) || (0x60000000 <=? p)).
Definition word_of (p : Z) : Z := Z.land p (Z.lnot 3).
Definition readbyte (m : Z -> Z) (p : Z) : Z :=
  if mapped p then u8 (Z.shiftr (m (word_of p)) (Z.land p 3 * 8)) else 255.
Definition put_byte (w k d : Z) : Z :=
  if k =? 0 then Z.lor (Z.land w 0xffffff00) d
  else if k =? 1 then Z.lor (Z.land w 0xffff00ff) (Z.shiftl d 8)
  else if k =? 2 then Z.lor (Z.land w 0xff00ffff) (Z.shiftl d 16)
  else Z.lor (Z.land w 0x00ffffff) (Z.shiftl d 24).
Definition writeByte (p d : Z) (m : Z -> Z) : Z -> Z :=
  if mapped p then fun q => if q =? word_of p then put_byte (m (word_of p)) (Z.land p 3) d else m q else m.

Definition validWrAddr (p : Z) : bool :=
  ((0x3ff00000 <=? p) && (p <? 0x40000000)) || ((0x40100000 <=? p) && (p <? 0x40140000)) ||
  ((0x60000000 <=? p) && (p <? 0x60002000)).

(** ** The packet layer *)

Definition gdbRecvChar : M Z := fun s => match rx s with c :: q => Done c (set_rx q s) | [] => Waiting s end.
Definition gdbTxFifoIsFull (s : stub) (k : nat) : bool := 126 <=? tx_fifo_cnt (tx s) k.
(** A character that is written into a full FIFO is lost. *)
Definition write_fifo (c : Z) (k : nat) (s : stub) : stub :=
  if tx_fifo_cnt (tx s) k <? TX_FIFO_SIZE then set_tx (tx s ++ [c]) s else s.
(** The poll that finds room. *)
Fixpoint wait_tx (fuel k : nat) (s : stub) : option nat :=
  match fuel with
  | O => None
  | S fuel' => if gdbTxFifoIsFull s k then wait_tx fuel' (S k) s else Some k
  end.
Definition gdbSendChar (c : Z) : M unit :=
  fun s =>
    match wait_tx (S tx_patience) 0 s with
    | Some k => Done tt (write_fifo c k s)
    | None => NoFuel
    end.

Lemma wait_tx_ends s n k0 k : (k0 <= k < k0 + n)%nat -> tx_fifo_cnt (tx s) k < 126 ->
  exists j, wait_tx n k0 s = Some j /\ gdbTxFifoIsFull s j = false.
Proof.
  revert k0. induction n as [|n IH]; intros k0 Hk Hc; [lia|]. cbn [wait_tx].
  destruct (gdbTxFifoIsFull s k0) eqn:E; [|by exists k0].
  apply IH; [|done]. destruct (decide (k = k0)) as [->|]; [|lia]. unfold gdbTxFifoIsFull in E. lia.
Qed.

(** The wait ends and the character is not lost. *)
Lemma sent c s : gdbSendChar c s = Done tt (set_tx (tx s ++ [c]) s).
Proof.
  destruct (tx_drains (tx s)) as (k & Hk & Hc).
  destruct (wait_tx_ends s (S tx_patience) 0 k ltac:(lia) Hc) as (j & E & F). unfold gdbSendChar. rewrite E.
  unfold gdbTxFifoIsFull in F. unfold write_fifo, TX_FIFO_SIZE. by rewrite (proj2 (Z.ltb_lt _ _)) by lia.
Qed.
Lemma then_send {A} c (k : unit -> M A) s : bind (gdbSendChar c) k s = k tt (set_tx (tx s ++ [c]) s).
Proof. unfold bind. by rewrite sent. Qed.

Definition gdbPacketStart : M unit := upd (set_chsum 0) ;; gdbSendChar (code "$").

Definition add_chsum (c : Z) : M unit := upd (fun s => set_chsum (u8 (chsum s + c)) s).
Definition escaped (c : Z) : bool := (c =? code "#") || (c =? code "$") || (c =? code "}") || (c =? code "*").
Definition gdbPacketChar (c : Z) : M unit :=
  if escaped c then
    gdbSendChar (code "}") ;; add_chsum (code "}") ;;
    gdbSendChar (Z.lxor c 0x20) ;; add_chsum (Z.lxor c 0x20)
  else gdbSendChar c ;; add_chsum c.

Definition hexChars (d : Z) : Z := nth (Z.to_nat d) (text "0123456789abcdef") 0.
(** [n] digits are left. *)
Fixpoint gdbPacketHex (val : Z) (n : nat) : M unit :=
  match n with
  | O => ret tt
  | S n' => gdbPacketChar (hexChars (Z.land (Z.shiftr val (4 * Z.of_nat n')) 0xf)) ;; gdbPacketHex val n'
  end.
Definition gdbPacketSwappedHexInt (val : Z) : M unit := gdbPacketHex (iswap val) 8.

Fixpoint repeat_ (n : nat) (m : M unit) : M unit := match n with O => ret tt | S n' => m ;; repeat_ n' m end.
Definition gdbPacketXXXXInt : M unit := repeat_ 8 (gdbPacketChar (code "x")).

Definition gdbPacketEnd : M unit := gdbSendChar (code "#") ;; c <- get chsum ;; gdbPacketHex c 2.

Fixpoint gdbPacketChars (l : list Z) : M unit :=
  match l with [] => ret tt | c :: l' => gdbPacketChar c ;; gdbPacketChars l' end.
Definition gdbSendPacketStr (s : string) : M unit := gdbPacketStart ;; gdbPacketChars (text s) ;; gdbPacketEnd.

Fixpoint packet_bytes (buf : list Z) : M unit :=
  match buf with [] => ret tt | c :: buf' => gdbPacketHex c 2 ;; packet_bytes buf' end.
Definition gdbSendOutputPacketStr (buf : list Z) : M unit :=
  gdbPacketStart ;; gdbPacketChar (code "O") ;; packet_bytes buf ;; gdbPacketEnd.
Definition gdbSendOutputPacketChar (c : Z) : M unit :=
  gdbPacketStart ;; gdbPacketChar (code "O") ;; gdbPacketHex c 2 ;; gdbPacketEnd.

Definition exceptionSignal : list Z := [4; 31; 11; 11; 2; 6; 8; 0; 6; 7; 0; 0; 7; 7; 7; 7].
Definition signal_of (why : Z) : Z :=
  if why =? 0xff then 2
  else if truth (Z.land why 0x80) then
    let i := Z.land why 0x7f in
    if i <? Z.of_nat (length exceptionSignal) then nth (Z.to_nat i) exceptionSignal 0 else 11
  else 5.
Definition sendReason : M unit :=
  gdbPacketStart ;; gdbPacketChar (code "T") ;;
  r <- get regs ;; gdbPacketHex (signal_of (reason r)) 2 ;;
  gdbPacketEnd.

Definition gdbSendPacketOK : M unit := gdbSendPacketStr "OK".
Definition gdbSendPacketE01 : M unit := gdbSendPacketStr "E01".
Definition gdbSendEmptyPacket : M unit := gdbPacketStart ;; gdbPacketEnd.

Definition gdbstub_write_char (c : Z) : M unit :=
  att <- get gdb_attached ;;
  if att : bool then
    upd (set_uart_intr false) ;; gdbSendOutputPacketChar c ;; upd (set_uart_intr true)
  else gdbSendChar c.
Fixpoint send_chars (buf : list Z) : M unit :=
  match buf with [] => ret tt | c :: buf' => gdbSendChar c ;; send_chars buf' end.
Definition gdbstub_write (buf : list Z) : M unit :=
  att <- get gdb_attached ;;
  if att : bool then
    upd (set_uart_intr false) ;; gdbSendOutputPacketStr buf ;; upd (set_uart_intr true)
  else send_chars buf.

(** ** Commands *)

Definition cmd_at (s : stub) (i : Z) : Z :=
  if i <? Z.of_nat PBUFLEN then nth (Z.to_nat i) (cmd s) 0 else behind i.
Definition getHex (data bits : Z) : M (Z * Z) := get (fun s => gdbGetHexVal (cmd_at s) data bits).
Definition gdbGetSwappedHexInt (data : Z) : M (Z * Z) := Let v, data <- getHex data 32 ;; ret (iswap v, data).
Fixpoint skip_regs (n : nat) (data : Z) : M Z :=
  match n with O => ret data | S n' => Let _, data <- getHex data 32 ;; skip_regs n' data end.

Definition set_pc v r := mkFrame v (ps r) (sar r) (vpri r) (a r) (litbase r) (sr176 r) (sr208 r) (reason r).
Definition set_ps v r := mkFrame (pc r) v (sar r) (vpri r) (a r) (litbase r) (sr176 r) (sr208 r) (reason r).
Definition set_sar v r := mkFrame (pc r) (ps r) v (vpri r) (a r) (litbase r) (sr176 r) (sr208 r) (reason r).
Definition set_vpri v r := mkFrame (pc r) (ps r) (sar r) v (a r) (litbase r) (sr176 r) (sr208 r) (reason r).
Definition set_a v r := mkFrame (pc r) (ps r) (sar r) (vpri r) v (litbase r) (sr176 r) (sr208 r) (reason r).
Definition set_litbase v r := mkFrame (pc r) (ps r) (sar r) (vpri r) (a r) v (sr176 r) (sr208 r) (reason r).
Definition set_sr176 v r := mkFrame (pc r) (ps r) (sar r) (vpri r) (a r) (litbase r) v (sr208 r) (reason r).
Definition set_sr208 v r := mkFrame (pc r) (ps r) (sar r) (vpri r) (a r) (litbase r) (sr176 r) v (reason r).
Definition set_reason v r := mkFrame (pc r) (ps r) (sar r) (vpri r) (a r) (litbase r) (sr176 r) (sr208 r) v.
Definition reg_upd (f : XTensa_exception_frame_s -> XTensa_exception_frame_s) : M unit := upd (fun s => set_regs (f (regs s)) s).

(** [for (i=0; i<16; i++)] over the registers [a]. *)
Fixpoint send_a (l : list Z) : M unit :=
  match l with [] => ret tt | v :: l' => gdbPacketSwappedHexInt v ;; send_a l' end.
Fixpoint receive_a (n : nat) (i : nat) (data : Z) : M Z :=
  match n with
  | O => ret data
  | S n' => Let v, data <- gdbGetSwappedHexInt data ;; reg_upd (fun r => set_a (<[i := u32 v]> (a r)) r) ;; receive_a n' (S i) data
  end.

(** Command [g]. *)
Definition send_registers : M unit :=
  gdbPacketStart ;;
  r <- get regs ;;
  gdbPacketSwappedHexInt (pc r) ;;
  repeat_ 35 gdbPacketXXXXInt ;;
  gdbPacketSwappedHexInt (sar r) ;;
  gdbPacketSwappedHexInt (litbase r) ;;
  repeat_ 2 gdbPacketXXXXInt ;;
  gdbPacketSwappedHexInt (sr176 r) ;;
  repeat_ 1 gdbPacketXXXXInt ;;
  gdbPacketSwappedHexInt (ps r) ;;
  repeat_ 54 gdbPacketXXXXInt ;;
  send_a (a r) ;;
  gdbPacketEnd.

(** Command [G]. *)
Definition receive_registers : M unit :=
  Let v, data <- gdbGetSwappedHexInt 1 ;; reg_upd (set_pc (u32 v)) ;;
  data <- skip_regs 35 data ;;
  Let v, data <- gdbGetSwappedHexInt data ;; reg_upd (set_sar (u32 v)) ;;
  Let v, data <- gdbGetSwappedHexInt data ;; reg_upd (set_litbase (u32 v)) ;;
  data <- skip_regs 2 data ;;
  Let v, data <- gdbGetSwappedHexInt data ;; reg_upd (set_sr176 (u32 v)) ;;
  data <- skip_regs 1 data ;;
  Let v, data <- gdbGetSwappedHexInt data ;; reg_upd (set_ps (u32 v)) ;;
  data <- skip_regs 54 data ;;
  receive_a 16 0 data ;;
  gdbSendPacketOK.

(** The loops of the commands [m] and [M]; [n] bytes are left, [i] is an [int]. *)
Fixpoint send_memory (n : nat) (i : Z) : M unit :=
  match n with
  | O => ret tt
  | S n' => m <- get mem ;; gdbPacketHex (readbyte m (u32 i)) 2 ;; send_memory n' (s32 (i + 1))
  end.
Fixpoint write_memory (n : nat) (i data : Z) : M unit :=
  match n with
  | O => ret tt
  | S n' =>
      Let v, data <- getHex data 8 ;;
      upd (fun s => set_mem (writeByte (u32 i) (u8 v) (mem s)) s) ;;
      write_memory n' (s32 (i + 1)) data
  end.
Definition memory_command (c0 : Z) : M unit :=
  Let i, data <- getHex 1 (-1) ;;
  Let j, data <- getHex (data + 1) (-1) ;;
  if c0 =? code "m" then gdbPacketStart ;; send_memory (Z.to_nat j) i ;; gdbPacketEnd
  else if validWrAddr i && validWrAddr (s32 (i + j)) then write_memory (Z.to_nat j) i (data + 1) ;; gdbSendPacketOK
  else gdbSendPacketE01.

(** [os_strncmp(&cmd[1], s, strlen(s)) == 0] *)
Definition cmd_is (str : string) (s : stub) : bool :=
  bool_decide (map (fun k => cmd_at s (1 + Z.of_nat k)) (seq 0 (length (text str))) = text str).

Definition watch_mask (j : Z) : Z :=
  if j =? 1 then 0x3F else if j =? 2 then 0x3E else if j =? 4 then 0x3C else if j =? 8 then 0x38
  else if j =? 16 then 0x30 else if j =? 32 then 0x20 else 0.
Definition watch_access (c1 : Z) : Z :=
  if c1 =? code "2" then 2 else if c1 =? code "3" then 1 else if c1 =? code "4" then 3 else undefined.
Definition call_hw (f : hw -> Z * hw) : M Z := fun s => let '(v, h) := f (dbg s) in Done v (set_dbg h s).
Definition breakpoint_command (c0 c1 : Z) : M unit :=
  Let i, data <- getHex 3 (-1) ;;
  Let j, data <- getHex (data + 1) (-1) ;;
  result <-
    (if c0 =? code "Z" then
       if c1 =? code "1" then call_hw (gdbstub_set_hw_breakpoint i j)
       else if watch_mask j =? 0 then ret 0
       else (v <- call_hw (gdbstub_set_hw_watchpoint i (watch_mask j) (watch_access c1)) ;; ret (b2z (truth v)))
     else if c1 =? code "1" then call_hw (gdbstub_del_hw_breakpoint i)
     else call_hw (gdbstub_del_hw_watchpoint i)) ;;
  if truth result then gdbSendPacketOK else gdbSendPacketE01.

Definition system_restart_core : M unit := fun s => Restarted s.

Definition gdbHandleCommand : M Z :=
  s0 <- get (fun s => s) ;;
  let c0 := cmd_at s0 0 in
  let c1 := cmd_at s0 1 in
  let c2 := cmd_at s0 2 in
  if c0 =? code "g" then send_registers ;; ret ST_OK
  else if c0 =? code "G" then receive_registers ;; ret ST_OK
  else if Z.lor c0 0x20 =? code "m" then memory_command c0 ;; ret ST_OK
  else if c0 =? code "?" then sendReason ;; ret ST_OK
  else if c0 =? code "c" then ret ST_CONT
  else if c0 =? code "s" then
    upd (fun s => set_singleStepPs (s32 (ps (regs s))) s) ;;
    reg_upd (fun r => set_ps (Z.lor (Z.land (ps r) (Z.lnot 0xf)) (XCHAL_DEBUGLEVEL - 1)) r) ;;
    upd (fun s => set_dbg (gdbstub_icount_ena_single_step (dbg s)) s) ;;
    ret ST_CONT
  else if c0 =? code "D" then gdbSendPacketOK ;; ret ST_DETACH
  else if c0 =? code "k" then system_restart_core ;; ret ST_OK
  else if c0 =? code "q" then
    (if cmd_is "Supported" s0 then gdbSendPacketStr "swbreak+;hwbreak+;PacketSize=FF"
     else if cmd_is "Attached" s0 then gdbSendPacketStr "1"
     else gdbSendEmptyPacket) ;; ret ST_OK
  else if (Z.lor c0 0x20 =? code "z") && (code "1" <=? c1) && (c2 <=? code "4") then breakpoint_command c0 c1 ;; ret ST_OK
  else gdbSendEmptyPacket ;; ret ST_OK.

(** ** The command loop *)

(** The three places where the scanner of packets can be: before a packet
    ([gdbReadCommand_start]), in a packet ([gdbReadCommand_packetBegin] with the sum
    and the number of characters so far), behind an escape character. *)
Inductive scan_place := Start | Body (sum : Z) (p : nat) | Escape (sum : Z) (p : nat).
Definition poke (p : nat) (c : Z) : M unit :=
  fun s => if (p <? PBUFLEN)%nat then Done tt (set_cmd (<[p := c]> (cmd s)) s) else Overrun.
Definition keep_char (c sum : Z) (p : nat) : M scan_place :=
  poke p c ;;
  ret (if (PBUFLEN <=? S p)%nat then Start else Body (u8 (sum + c)) (S p)).
(** Reads until a packet is complete: the sum and the length.  Every round takes a
    character. *)
Fixpoint read_packet (fuel : nat) (at_ : scan_place) : M (Z * nat) :=
  match fuel with
  | O => fun _ => NoFuel
  | S fuel' =>
      c <- gdbRecvChar ;;
      match at_ with
      | Start => read_packet fuel' (if c =? code "$" then Body 0 0 else Start)
      | Body sum p =>
          if c =? code "#" then ret (sum, p)
          else if c =? code "$" then read_packet fuel' (Body 0 0)
          else if c =? code "}" then read_packet fuel' (Escape sum p)
          else (at' <- keep_char c sum p ;; read_packet fuel' at')
      | Escape sum p => at' <- keep_char (Z.lxor c 0x20) sum p ;; read_packet fuel' at'
      end
  end.

Fixpoint command_loop (fuel : nat) : M Z :=
  match fuel with
  | O => fun _ => NoFuel
  | S fuel' =>
      n <- get (fun s => S (length (rx s))) ;;
      Let sum, p <- read_packet n Start ;;
      poke p 0 ;;
      c0 <- gdbRecvChar ;;
      c1 <- gdbRecvChar ;;
      if fst (gdbGetHexVal (fun i => nth (Z.to_nat i) [c0; c1] 0) 0 8) =? sum then
        upd (set_attached true) ;;
        gdbSendChar (code "+") ;;
        result <- gdbHandleCommand ;;
        if negb (result =? ST_OK) then ret result else command_loop fuel'
      else gdbSendChar (code "-") ;; command_loop fuel'
  end.

Definition gdbReadCommand : M Z :=
  upd (set_uart_intr false) ;;
  upd (set_wdt false) ;;
  sendReason ;;
  n <- get (fun s => S (length (rx s))) ;;
  result <- command_loop n ;;
  (if result =? ST_DETACH then upd (set_attached false) else ret tt) ;;
  upd (set_wdt true) ;;
  upd (set_uart_intr true) ;;
  ret result.

(** ** Exceptions and interrupts *)

Definition getaregval (r : XTensa_exception_frame_s) (reg : Z) : Z := nth (Z.to_nat reg) (a r) 0.
Definition setaregval (reg val : Z) : M unit := reg_upd (fun r => set_a (<[Z.to_nat reg := val]> (a r)) r).

(** [p] is a pointer to [int], so that the index counts words. *)
Definition access_word (base idx : Z) : Z := u32 (base + 4 * idx).
Definition store_word (p v : Z) : M unit := upd (fun s => set_mem (fun q => if q =? p then v else mem s q) s).

Definition emulLdSt : M unit :=
  s <- get (fun s => s) ;;
  let r := regs s in
  let i0 := readbyte (mem s) (pc r) in
  let i1 := readbyte (mem s) (u32 (pc r + 1)) in
  if (Z.land i0 0xf =? 2) && (Z.land i1 0xb0 =? 0x20) then
    let i2 := readbyte (mem s) (u32 (pc r + 2)) in
    let p := access_word (getaregval r (Z.land i1 0xf)) (i2 * 4) in
    let t := Z.shiftr i0 4 in
    (if Z.land i1 0xf0 =? 0x20 then setaregval t (mem s p) else store_word p (getaregval r t)) ;;
    reg_upd (fun r => set_pc (u32 (pc r + 3)) r)
  else if Z.land i0 0xe =? 0x8 then
    let p := access_word (getaregval r (Z.land i1 0xf)) (Z.shiftr i1 4 * 4) in
    (if Z.land i0 0xf =? 0x8 then setaregval (Z.shiftr i0 4) (mem s p) else store_word p (getaregval r (Z.shiftr i0 4))) ;;
    reg_upd (fun r => set_pc (u32 (pc r + 2)) r)
  else ret tt.

(** A BREAK or BREAK.N instruction at the program counter, for these reasons. *)
Definition at_break (m : Z -> Z) (r : XTensa_exception_frame_s) : bool :=
  (truth (Z.land (reason r) 0x8) && (readbyte m (u32 (pc r + 2)) =? 0) &&
   (Z.land (readbyte m (u32 (pc r + 1))) 0xf0 =? 0x40) && (Z.land (readbyte m (pc r)) 0x0f =? 0)) ||
  (truth (Z.land (reason r) 0x10) && (Z.land (readbyte m (u32 (pc r + 1))) 0xf0 =? 0xf0) && (readbyte m (pc r) =? 0x2d)).

Definition gdbstub_handle_debug_exception_flash : M unit :=
  s <- get (fun s => s) ;;
  (if negb (singleStepPs s =? -1) then
     reg_upd (fun r => set_ps (Z.lor (Z.land (ps r) (Z.lnot 0xf)) (Z.land (singleStepPs s) 0xf)) r) ;;
     upd (set_singleStepPs (-1))
   else ret tt) ;;
  gdbReadCommand ;;
  s <- get (fun s => s) ;;
  let r := regs s in
  if Z.land (reason r) 0x80 =? 0 then
    if truth (Z.land (reason r) 0x4) then emulLdSt
    else if at_break (mem s) r then reg_upd (fun r => set_pc (u32 (pc r + 3)) r)
    else ret tt
  else ret tt.

(** The frame of the HAL at the address [addr]: [pc], [ps], [sar], [vpri], [a0], [a2] to
    [a15]. *)
Definition frame_in (addr : Z) (frame : list Z) (r : XTensa_exception_frame_s) : XTensa_exception_frame_s :=
  let w k := nth k frame 0 in
  set_a (w 4%nat :: u32 (addr + EXCEPTION_GDB_SP_OFFSET) :: take 14 (drop 5 frame))
    (set_vpri (w 3%nat) (set_sar (w 2%nat) (set_ps (w 1%nat) (set_pc (w 0%nat) r)))).
Definition frame_out (r : XTensa_exception_frame_s) : list Z :=
  [pc r; ps r; sar r; vpri r; nth 0 (a r) 0] ++ take 14 (drop 2 (a r)).
Definition gdbReadCommandWithFrame (addr : Z) (frame : list Z) : M (Z * list Z) :=
  reg_upd (frame_in addr frame) ;;
  result <- gdbReadCommand ;;
  r <- get regs ;;
  ret (result, frame_out r).

Fixpoint exception_loop (fuel : nat) (addr : Z) (frame : list Z) : M (list Z) :=
  match fuel with
  | O => fun _ => NoFuel
  | S fuel' =>
      Let result, frame <- gdbReadCommandWithFrame addr frame ;;
      if result =? ST_CONT then ret frame else exception_loop fuel' addr frame
  end.
Definition save_extra : M unit :=
  upd (fun s => let '(l, x, y, cause) := gdbstub_save_extra_sfrs_for_exception (dbg s) in
                set_regs (set_reason cause (set_sr208 y (set_sr176 x (set_litbase l (regs s))))) s).
Definition gdbstub_exception_handler (addr : Z) (frame : list Z) : M (list Z) :=
  save_extra ;;
  reg_upd (fun r => set_reason (Z.lor (reason r) 0x80) r) ;;
  n <- get (fun s => S (length (rx s))) ;;
  exception_loop n addr frame.

(** A read of the FIFO does not wait; the characters of the FIFO up to a Ctrl-C go to the serial port driver ([cb]: it has
    installed its callback); [fifolen] are left. *)
Definition fifo_char : M Z :=
  fun s => match rx s with c :: q => Done (Z.land c 0xff) (set_rx q s) | [] => Done (Z.land undefined 0xff) s end.
Fixpoint uart_chars (cb : bool) (fifolen : nat) : M bool :=
  match fifolen with
  | O => ret false
  | S n =>
      c <- fifo_char ;;
      if c =? 3 then ret true else
      att <- get gdb_attached ;;
      (if negb att && cb then upd (fun s => set_isr_chars (isr_chars s ++ [c]) s) else ret tt) ;;
      uart_chars cb n
  end.
Definition gdbstub_uart_hdlr (cb : bool) (fifolen : nat) (addr : Z) (frame : list Z) : M (list Z) :=
  save_extra ;;
  upd (set_uart_intr false) ;;
  brk <- uart_chars cb fifolen ;;
  if brk : bool then
    reg_upd (set_reason 0xff) ;;
    Let _, frame <- gdbReadCommandWithFrame addr frame ;; ret frame
  else upd (set_uart_intr true) ;; ret frame.

(** [cb]: the serial port driver has installed its console callback. *)
Definition gdbstub_semihost_putchar1 (cb : bool) (c : Z) : M unit :=
  att <- get gdb_attached ;;
  if negb att && cb then upd (fun s => set_console (console s ++ [c]) s) else gdbstub_write_char c.
End Functions.
