(* ===== verification/GdbPacket.v ===== *)
(** * The GDB stub: packets

    The format of the remote serial protocol as gdb defines it, and what the packet
    layer of the stub sends in terms of it. *)

From Stdlib Require Import Ascii String.
From S2P Require Import Prelude Gdb.

#[local] Abbreviation length := Datatypes.length.

(** ** The protocol *)

Definition total (l : list Z) : Z := foldr Z.add 0 l.
Definition checksum (l : list Z) : Z := u8 (total l).

(** A hexadecimal number of [n] digits. *)
Fixpoint hexs (n : nat) (v : Z) : list Z :=
  match n with O => [] | S n' => hexChars (Z.land (Z.shiftr v (4 * Z.of_nat n')) 0xf) :: hexs n' v end.
Definition escape (c : Z) : list Z := if escaped c then [code "}"; Z.lxor c 0x20] else [c].
Definition escape_all (l : list Z) : list Z := List.concat (List.map escape l).
(** A packet with the characters [body] between the delimiters. *)
Definition frame (body : list Z) : list Z := code "$" :: body ++ code "#" :: hexs 2 (checksum body).

(** The receiver of the protocol: takes a packet off a stream, checks it against the sum
    of the characters as they were sent and removes the escapes. *)
Fixpoint split_body (l : list Z) : option (list Z * list Z) :=
  match l with
  | [] => None
  | c :: l' => if c =? code "#" then Some ([], l')
               else match split_body l' with Some (b, r) => Some (c :: b, r) | None => None end
  end.
Fixpoint unescape (l : list Z) : list Z :=
  match l with
  | [] => []
  | c :: l' => if c =? code "}" then match l' with d :: l'' => Z.lxor d 0x20 :: unescape l'' | [] => [] end else c :: unescape l'
  end.
Definition receive (l : list Z) : option (list Z * list Z) :=
  match l with
  | c :: l' =>
      if c =? code "$" then
        match split_body l' with
        | Some (b, h1 :: h2 :: r) => if bool_decide ([h1; h2] = hexs 2 (checksum b)) then Some (unescape b, r) else None
        | _ => None
        end
      else None
  | [] => None
  end.

(** ** Digits *)

Lemma checksum_u8 l : is_u8 (checksum l).
Proof. apply u8_range. Qed.

Lemma nibble v k : 0 <= Z.land (Z.shiftr v k) 0xf < 16.
Proof. change 0xf with (Z.ones 4). rewrite Z.land_ones by lia. apply Z.mod_pos_bound. lia. Qed.

(** A property of all digits is checked on the sixteen of them. *)
Lemma digits_all (P : Z -> Prop) :
  Forall (fun n => P (hexChars (Z.of_nat n))) (seq 0 16) -> forall d, 0 <= d < 16 -> P (hexChars d).
Proof.
  rewrite Forall_forall. intros H d Hd. rewrite <- (Z2Nat.id d) by lia. apply H.
  apply elem_of_seq. lia.
Qed.

Lemma hexChars_plain d : 0 <= d < 16 -> escaped (hexChars d) = false.
Proof. revert d. apply (digits_all (fun c => escaped c = false)). by repeat constructor. Qed.

Lemma hexs_plain n v : Forall (fun c => escaped c = false) (hexs n v).
Proof. induction n as [|n IH]; constructor; [apply hexChars_plain, nibble | done]. Qed.

Lemma length_hexs n v : length (hexs n v) = n.
Proof. induction n; simpl; by f_equal. Qed.

Lemma escape_plain l : Forall (fun c => escaped c = false) l -> escape_all l = l.
Proof.
  induction 1 as [|c l Hc _ IH]; [done|]. unfold escape_all in *. simpl. unfold escape at 1. rewrite Hc. by rewrite IH.
Qed.

Lemma escape_app l1 l2 : escape_all (l1 ++ l2) = escape_all l1 ++ escape_all l2.
Proof. unfold escape_all. by rewrite List.map_app, concat_app. Qed.

(** ** The receiver gets what is sent *)

Lemma escaped_cases c : escaped c = true -> c = code "#" \/ c = code "$" \/ c = code "}" \/ c = code "*".
Proof. unfold escaped. rewrite !orb_true_iff, !Z.eqb_eq. tauto. Qed.

Lemma split_escape p r : split_body (escape_all p ++ code "#" :: r) = Some (escape_all p, r).
Proof.
  induction p as [|c p IH]; [done|]. change (escape_all (c :: p)) with (escape c ++ escape_all p).
  rewrite <- app_assoc. unfold escape. destruct (escaped c) eqn:E.
  - destruct (escaped_cases c E) as [-> | [-> | [-> | ->]]]; cbn [app split_body]; rewrite IH; reflexivity.
  - cbn [app split_body]. destruct (Z.eqb_spec c (code "#")) as [->|]; [done|]. by rewrite IH.
Qed.

Lemma unescape_escape p : unescape (escape_all p) = p.
Proof.
  induction p as [|c p IH]; [done|]. change (escape_all (c :: p)) with (escape c ++ escape_all p).
  unfold escape. destruct (escaped c) eqn:E.
  - destruct (escaped_cases c E) as [-> | [-> | [-> | ->]]]; cbn [app unescape]; rewrite IH; reflexivity.
  - cbn [app unescape]. destruct (Z.eqb_spec c (code "}")) as [->|]; [done|]. by rewrite IH.
Qed.

Lemma receive_frame p r : receive (frame (escape_all p) ++ r) = Some (p, r).
Proof.
  unfold frame. cbn [app receive]. rewrite <- app_assoc. cbn [app]. rewrite split_escape.
  cbn [hexs app]. rewrite bool_decide_true by done. by rewrite unescape_escape.
Qed.

(** ** What the stub sends *)

Section Send.
Context {T : Target}.

(** The state after the characters [l] of a packet. *)
Definition pushed (l : list Z) (s : stub) : stub := set_chsum (u8 (chsum s + total l)) (set_tx (tx s ++ l) s).

(** [m] sends the characters [f], which depend on the registers and the memory, as part
    of a packet. *)
Definition emits (m : M unit) (f : XTensa_exception_frame_s -> (Z -> Z) -> list Z) : Prop :=
  forall s, is_u8 (chsum s) -> m s = Done tt (pushed (escape_all (f (regs s) (mem s))) s).

Lemma total_concat l1 l2 : total (l1 ++ l2) = total l1 + total l2.
Proof. induction l1; simpl; [done|]. rewrite IHl1. lia. Qed.

Lemma u8_add x y : u8 (u8 x + y) = u8 (x + y).
Proof. unfold u8. apply Zplus_mod_idemp_l. Qed.

Lemma pushed_app l1 l2 s : pushed l2 (pushed l1 s) = pushed (l1 ++ l2) s.
Proof.
  unfold pushed. destruct s. cbn. rewrite total_concat, app_assoc. by rewrite u8_add, Z.add_assoc.
Qed.

Lemma pushed_nil s : is_u8 (chsum s) -> pushed [] s = s.
Proof. intros H. unfold pushed. destruct s. cbn in *. rewrite app_nil_r, Z.add_0_r, u8_id by done. done. Qed.

Lemma emits_ret : emits (ret tt) (fun _ _ => []).
Proof. intros s Hs. unfold ret. by rewrite pushed_nil. Qed.

Lemma emits_bind m1 m2 f1 f2 : emits m1 f1 -> emits m2 f2 -> emits (m1 ;; m2) (fun r m => f1 r m ++ f2 r m).
Proof.
  intros H1 H2 s Hs. unfold bind. rewrite H1 by done. rewrite H2 by apply u8_range.
  by rewrite pushed_app, escape_app.
Qed.

Lemma emits_regs (k : XTensa_exception_frame_s -> M unit) f :
  (forall r, emits (k r) (f r)) -> emits (r <- get regs ;; k r) (fun r m => f r r m).
Proof. intros H s Hs. unfold bind, get. by apply H. Qed.

Lemma emits_char c : emits (gdbPacketChar c) (fun _ _ => [c]).
Proof.
  intros s Hs. unfold gdbPacketChar, escape_all, escape. cbn [List.map List.concat]. rewrite app_nil_r.
  destruct (escaped c); unfold bind; rewrite ?sent; cbv [add_chsum upd pushed total foldr]; rewrite ?sent; destruct s; cbn.
  - by rewrite u8_add, <- app_assoc, Z.add_0_r, Z.add_assoc.
  - by rewrite Z.add_0_r.
Qed.

Lemma emits_chars l : emits (gdbPacketChars l) (fun _ _ => l).
Proof.
  induction l as [|c l IH]; [apply emits_ret|]. exact (emits_bind _ _ _ _ (emits_char c) IH).
Qed.

Lemma emits_hex v n : emits (gdbPacketHex v n) (fun _ _ => hexs n v).
Proof. induction n as [|n IH]; [apply emits_ret|]. exact (emits_bind _ _ _ _ (emits_char _) IH). Qed.

Lemma emits_repeat n m l : emits m (fun _ _ => l) -> emits (repeat_ n m) (fun _ _ => List.concat (repeat l n)).
Proof. intros H. induction n as [|n IH]; [apply emits_ret|]. exact (emits_bind _ _ _ _ H IH). Qed.

Lemma emits_bytes buf : emits (packet_bytes buf) (fun _ _ => List.concat (List.map (hexs 2) buf)).
Proof. induction buf as [|c buf IH]; [apply emits_ret|]. exact (emits_bind _ _ _ _ (emits_hex _ _) IH). Qed.

(** The rest of a packet with its end. *)
Definition ends (m : M unit) (f : XTensa_exception_frame_s -> (Z -> Z) -> list Z) : Prop :=
  forall s, is_u8 (chsum s) -> m s = gdbPacketEnd (pushed (escape_all (f (regs s) (mem s))) s).

Lemma ends_end : ends gdbPacketEnd (fun _ _ => []).
Proof. intros s Hs. by rewrite pushed_nil. Qed.

Lemma ends_bind m1 m2 f1 f2 : emits m1 f1 -> ends m2 f2 -> ends (m1 ;; m2) (fun r m => f1 r m ++ f2 r m).
Proof.
  intros H1 H2 s Hs. unfold bind. rewrite H1 by done. rewrite H2 by apply u8_range.
  by rewrite pushed_app, escape_app.
Qed.

Lemma ends_ext m f g : (forall r mm, f r mm = g r mm) -> ends m f -> ends m g.
Proof. intros E H s Hs. rewrite H by done. by rewrite E. Qed.

Lemma ends_regs (k : XTensa_exception_frame_s -> M unit) f :
  (forall r, ends (k r) (f r)) -> ends (r <- get regs ;; k r) (fun r m => f r r m).
Proof. intros H s Hs. unfold bind, get. by apply H. Qed.

(** A whole packet: its characters and the checksum variable afterwards. *)
Definition sends (m : M unit) (f : XTensa_exception_frame_s -> (Z -> Z) -> list Z) : Prop :=
  forall s, exists c, is_u8 c /\ m s = Done tt (set_chsum c (set_tx (tx s ++ frame (escape_all (f (regs s) (mem s)))) s)).

(** The routine behind the start of a packet finds the registers as they were. *)
Lemma started (m : M unit) s : (gdbPacketStart ;; m) s = m (set_tx (tx s ++ [code "$"]) (set_chsum 0 s)).
Proof. unfold gdbPacketStart, bind, upd. by rewrite sent. Qed.

Lemma sends_packet m f : ends m f -> sends (gdbPacketStart ;; m) f.
Proof.
  intros H s. set (p := escape_all (f (regs s) (mem s))). exists (u8 (checksum p + total (hexs 2 (checksum p)))).
  split; [apply u8_range|].
  rewrite started, H by done. cbn [regs mem set_tx set_chsum]. fold p.
  unfold gdbPacketEnd. cbv [bind get]. rewrite sent. rewrite emits_hex by apply u8_range.
  rewrite escape_plain by apply hexs_plain. destruct s. cbn. unfold pushed, frame, checksum. cbn. f_equal.
  rewrite <- !app_assoc. reflexivity.
Qed.

Lemma sends_ext m f g : (forall r mm, f r mm = g r mm) -> sends m f -> sends m g.
Proof. intros E H s. destruct (H s) as (c & Hc & Hm). exists c. by rewrite <- E. Qed.

Lemma sends_str str : sends (gdbSendPacketStr str) (fun _ _ => text str).
Proof.
  eapply sends_ext; [|apply sends_packet, ends_bind; [apply emits_chars | apply ends_end]].
  intros. apply app_nil_r.
Qed.

Lemma sends_empty : sends gdbSendEmptyPacket (fun _ _ => []).
Proof. apply sends_packet, ends_end. Qed.

Lemma sends_reason : sends sendReason (fun r _ => code "T" :: hexs 2 (signal_of (reason r))).
Proof.
  eapply sends_ext; [|apply sends_packet, ends_bind; [apply emits_char | apply ends_regs; intros r; apply ends_bind;
    [apply emits_hex | apply ends_end]]].
  intros. cbn [app]. by rewrite app_nil_r.
Qed.

Lemma sends_output buf :
  sends (gdbSendOutputPacketStr buf) (fun _ _ => code "O" :: List.concat (List.map (hexs 2) buf)).
Proof.
  eapply sends_ext; [|apply sends_packet, ends_bind; [apply emits_char | apply ends_bind; [apply emits_bytes | apply ends_end]]].
  intros. cbn [app]. by rewrite app_nil_r.
Qed.
End Send.
