(* ===== verification/GdbReceive.v ===== *)
(** * The GDB stub: receiving packets

    Numbers in the command buffer, and the scanner of packets as a function of the
    characters that arrive. *)

From Stdlib Require Import Ascii String.
From S2P Require Import Prelude Gdb GdbPacket.

#[local] Abbreviation length := Datatypes.length.

(** ** Numbers *)

Lemma hex_digit_chars d : 0 <= d < 16 -> hex_digit (hexChars d) = Some d.
Proof.
  intros Hd. assert (H : Forall (fun n => hex_digit (hexChars (Z.of_nat n)) = Some (Z.of_nat n)) (seq 0 16)) by (by repeat constructor).
  rewrite Forall_forall in H. specialize (H (Z.to_nat d)). rewrite Z2Nat.id in H by lia. apply H, elem_of_seq. lia.
Qed.

Lemma append_digit v d : 0 <= d < 16 -> Z.lor (u32 (Z.shiftl v 4)) d = u32 (16 * v + d).
Proof.
  intros Hd. unfold u32. rewrite Z.shiftl_mul_pow2 by lia. change (2 ^ 4) with 16.
  change 4294967296 with (268435456 * 16). rewrite Z.mul_mod_distr_r by lia.
  replace (v mod 268435456 * 16) with (Z.shiftl (v mod 268435456) 4) by (by rewrite Z.shiftl_mul_pow2 by lia).
  rewrite lor_disjoint_add by lia. change (2 ^ 4) with 16. mlia.
Qed.

Lemma nibble_mod v n : Z.land (Z.shiftr v (4 * Z.of_nat n)) 0xf = (v / 16 ^ Z.of_nat n) mod 16.
Proof.
  change 0xf with (Z.ones 4). rewrite Z.land_ones, Z.shiftr_div_pow2 by lia.
  by rewrite Z.pow_mul_r by lia.
Qed.

Lemma digits_step v n : (v / 16 ^ Z.of_nat n) mod 16 * 16 ^ Z.of_nat n + v mod 16 ^ Z.of_nat n = v mod 16 ^ Z.of_nat (S n).
Proof.
  assert (0 < 16 ^ Z.of_nat n) by (apply Z.pow_pos_nonneg; lia).
  rewrite Nat2Z.inj_succ, Z.pow_succ_r by lia. rewrite (Z.mul_comm 16).
  rewrite Z.rem_mul_r by lia. lia.
Qed.

Lemma u32_affine x k y : u32 (u32 x * k + y) = u32 (x * k + y).
Proof. unfold u32. rewrite <- Zplus_mod_idemp_l, Zmult_mod_idemp_l, Zplus_mod_idemp_l. done. Qed.

(** The loop reads [n] digits. *)
Lemma hex_loop_digits at_ open n m v ptr acc :
  (forall k, (k < n)%nat -> at_ (ptr + Z.of_nat k) = nth k (hexs n v) 0) ->
  is_u32 acc ->
  hex_loop at_ open (n + m) ptr acc = hex_loop at_ open m (ptr + Z.of_nat n) (u32 (acc * 16 ^ Z.of_nat n + v mod 16 ^ Z.of_nat n)).
Proof.
  revert ptr acc. induction n as [|n IH]; intros ptr acc Hat Hacc.
  - cbn [plus]. change (16 ^ Z.of_nat 0) with 1. rewrite Z.mod_1_r, Z.mul_1_r, !Z.add_0_r, u32_id by done. done.
  - cbn [plus hex_loop]. pose proof (Hat 0%nat ltac:(lia)) as H0. rewrite Z.add_0_r in H0. rewrite H0. cbn [hexs nth].
    pose proof (nibble v (4 * Z.of_nat n)) as Hd. rewrite hex_digit_chars, append_digit by done.
    rewrite IH; [|intros k Hk|apply u32_range].
    + f_equal; [lia|]. rewrite u32_affine. f_equal. rewrite nibble_mod, <- digits_step.
      rewrite Nat2Z.inj_succ, Z.pow_succ_r by lia. lia.
    + replace (ptr + 1 + Z.of_nat k) with (ptr + Z.of_nat (S k)) by lia. rewrite Hat by lia. done.
Qed.

(** The buffer [at_] begins with the characters [l]. *)
Definition reads (at_ : Z -> Z) (l : list Z) : Prop :=
  forall k, (k < length l)%nat -> at_ (Z.of_nat k) = nth k l 0.

Lemma reads_digits at_ pre n v post k :
  reads at_ (pre ++ hexs n v ++ post) -> (k < n)%nat -> at_ (Z.of_nat (length pre) + Z.of_nat k) = nth k (hexs n v) 0.
Proof.
  intros H Hk. rewrite <- Nat2Z.inj_add, H by (rewrite !length_app, length_hexs; lia).
  rewrite app_nth2_plus, app_nth1 by (by rewrite length_hexs). done.
Qed.

Lemma get_number at_ pre n v c post :
  reads at_ (pre ++ hexs n v ++ c :: post) -> hex_digit c = None -> (n <= 8)%nat -> 0 <= v < 16 ^ Z.of_nat n ->
  gdbGetHexVal at_ (Z.of_nat (length pre)) (-1) = (s32 v, Z.of_nat (length pre + n)).
Proof.
  intros H Hc Hn Hv. unfold gdbGetHexVal. cbv zeta. change (-1 =? -1) with true. cbv iota.
  replace 64%nat with (n + S (63 - n))%nat by lia.
  rewrite (hex_loop_digits _ _ _ _ v) by (done || by intros; eapply reads_digits). cbn [hex_loop].
  rewrite <- Nat2Z.inj_add, H by (rewrite !length_app, length_hexs; simpl; lia).
  rewrite app_nth2_plus, app_nth2, length_hexs, Nat.sub_diag by (rewrite length_hexs; lia). cbn [nth]. rewrite Hc.
  rewrite Z.mul_0_l, Z.add_0_l, Z.mod_small by done. rewrite u32_id; [done|].
  unfold is_u32. assert (16 ^ Z.of_nat n <= 16 ^ 8) by (apply Z.pow_le_mono_r; lia). change (16 ^ 8) with 4294967296 in *. lia.
Qed.

Lemma s32_small v : -2147483648 <= v < 2147483648 -> s32 v = v.
Proof. unfold s32. mlia. Qed.

Lemma u32_s32 v : is_u32 v -> u32 (s32 v) = v.
Proof. unfold u32, s32, is_u32. mlia. Qed.

Lemma get_byte at_ pre v post :
  reads at_ (pre ++ hexs 2 v ++ post) -> is_u8 v ->
  gdbGetHexVal at_ (Z.of_nat (length pre)) 8 = (v, Z.of_nat (length pre + 2)).
Proof.
  intros H Hv. unfold is_u8 in Hv. unfold gdbGetHexVal. cbv zeta. change (8 =? -1) with false. cbv iota.
  change (Z.to_nat (Z.quot 8 4)) with (2 + 0)%nat.
  rewrite (hex_loop_digits _ _ _ _ v) by (done || by intros; eapply reads_digits). cbn [hex_loop].
  rewrite Z.mul_0_l, Z.add_0_l, Z.mod_small by (change (16 ^ Z.of_nat 2) with 256; lia).
  rewrite u32_id, s32_small by (unfold is_u32; lia). by rewrite <- Nat2Z.inj_add.
Qed.

(** ** The scanner *)

Section Scan.
Context {T : Target}.

Lemma bind_done {A B} (m : M A) (k : A -> M B) x s s' : m s = Done x s' -> bind m k s = k x s'.
Proof. intros H. unfold bind. by rewrite H. Qed.

Lemma recv_done c q s : rx s = c :: q -> gdbRecvChar s = Done c (set_rx q s).
Proof. intros H. unfold gdbRecvChar. by rewrite H. Qed.

(** More fuel than characters does not matter. *)
Lemma read_fuel f f' at_ s :
  (length (rx s) < f)%nat -> (length (rx s) < f')%nat -> read_packet f at_ s = read_packet f' at_ s.
Proof.
  revert f' at_ s. induction f as [|f IH]; intros f' at_ s Hf Hf'; [lia|]. destruct f' as [|f']; [lia|].
  cbn [read_packet]. unfold bind at 1 4. unfold gdbRecvChar. destruct (rx s) as [|c q] eqn:E; [done|].
  cbn [length] in Hf, Hf'.
  assert (Hstore : forall x sum p, (at' <- keep_char x sum p ;; read_packet f at') (set_rx q s) = (at' <- keep_char x sum p ;; read_packet f' at') (set_rx q s)).
  { intros x sum p. unfold keep_char, poke, bind. destruct (p <? PBUFLEN)%nat; [|done]. cbn. apply IH; cbn; lia. }
  destruct at_ as [|sum p|sum p].
  - apply IH; cbn; lia.
  - destruct (c =? code "#"); [done|]. destruct (c =? code "$"); [apply IH; cbn; lia|].
    destruct (c =? code "}"); [apply IH; cbn; lia | apply Hstore].
  - apply Hstore.
Qed.

(** The scanner with enough fuel. *)
Definition scanner (at_ : scan_place) : M (Z * nat) := fun s => read_packet (S (length (rx s))) at_ s.

Lemma scanner_eq f at_ s : (length (rx s) < f)%nat -> read_packet f at_ s = scanner at_ s.
Proof. intros H. apply read_fuel; lia. Qed.

(** One character. *)
Lemma scanner_step c q at_ s :
  rx s = c :: q ->
  scanner at_ s =
    match at_ with
    | Start => scanner (if c =? code "$" then Body 0 0 else Start)
    | Body sum p =>
        if c =? code "#" then ret (sum, p)
        else if c =? code "$" then scanner (Body 0 0)
        else if c =? code "}" then scanner (Escape sum p)
        else (at' <- keep_char c sum p ;; scanner at')
    | Escape sum p => at' <- keep_char (Z.lxor c 0x20) sum p ;; scanner at'
    end (set_rx q s).
Proof.
  intros H. unfold scanner at 1. remember (length (rx s)) as n eqn:En. rewrite H in En. cbn [read_packet].
  erewrite bind_done by (by apply recv_done).
  assert (Hstore : forall x sum p, (at' <- keep_char x sum p ;; read_packet n at') (set_rx q s) = (at' <- keep_char x sum p ;; scanner at') (set_rx q s)).
  { intros x sum p. unfold keep_char, poke, bind. destruct (p <? PBUFLEN)%nat; [|done]. apply scanner_eq. cbn in *. lia. }
  destruct at_ as [|sum p|sum p].
  - apply scanner_eq. cbn in *. lia.
  - destruct (c =? code "#"); [done|]. destruct (c =? code "$"); [apply scanner_eq; cbn in *; lia|].
    destruct (c =? code "}"); [apply scanner_eq; cbn in *; lia | apply Hstore].
  - apply Hstore.
Qed.

Lemma scanner_noise c q s : rx s = c :: q -> c <> code "$" -> scanner Start s = scanner Start (set_rx q s).
Proof. intros H Hc. rewrite (scanner_step _ _ _ _ H). by apply Z.eqb_neq in Hc as ->. Qed.

Lemma scanner_begin q s : rx s = code "$" :: q -> scanner Start s = scanner (Body 0 0) (set_rx q s).
Proof. intros H. by rewrite (scanner_step _ _ _ _ H). Qed.

(** Characters that stand for themselves in a packet. *)
Definition plain (c : Z) : Prop := c <> code "#" /\ c <> code "$" /\ c <> code "}".

Lemma scanner_char c q s sum p :
  rx s = c :: q -> plain c -> (p < PBUFLEN)%nat ->
  scanner (Body sum p) s =
    scanner (if (PBUFLEN <=? S p)%nat then Start else Body (u8 (sum + c)) (S p)) (set_cmd (<[p := c]> (cmd s)) (set_rx q s)).
Proof.
  intros H (H1 & H2 & H3) Hp. rewrite (scanner_step _ _ _ _ H).
  apply Z.eqb_neq in H1, H2, H3. rewrite H1, H2, H3. unfold keep_char, poke, bind.
  by replace (p <? PBUFLEN)%nat with true by (symmetry; by apply Nat.ltb_lt).
Qed.

Lemma scanner_end q s sum p : rx s = code "#" :: q -> scanner (Body sum p) s = Done (sum, p) (set_rx q s).
Proof. intros H. by rewrite (scanner_step _ _ _ _ H). Qed.

(** Characters before a packet are skipped. *)
Lemma scanner_skip noise q s :
  rx s = noise ++ q -> Forall (fun c => c <> code "$") noise -> scanner Start s = scanner Start (set_rx q s).
Proof.
  intros H Hn. revert s H. induction Hn as [|c noise Hc _ IH]; intros s H.
  - cbn in H. rewrite <- H. by destruct s.
  - etrans; [exact (scanner_noise c (noise ++ q) s H Hc)|]. etrans; [exact (IH (set_rx (noise ++ q) s) eq_refl)|]. done.
Qed.

(** Storing a character of a packet and then the rest of it. *)
Lemma poke_body p c (body l : list Z) :
  (p < length l)%nat ->
  take (S p) (<[p := c]> l) ++ body ++ drop (S p + length body) (<[p := c]> l) = take p l ++ (c :: body) ++ drop (S p + length body) l.
Proof.
  intros H. rewrite drop_insert_lt by lia. replace (S p) with (p + 1)%nat at 1 by lia.
  by rewrite take_insert_next, <- app_assoc.
Qed.

(** A packet that fits is in the buffer, from [p] on. *)
Lemma scanner_body body q s sum p :
  rx s = body ++ code "#" :: q -> Forall plain body -> (p + length body < PBUFLEN)%nat -> length (cmd s) = PBUFLEN -> is_u8 sum ->
  scanner (Body sum p) s =
    Done (u8 (sum + total body), p + length body)%nat
      (set_cmd (take p (cmd s) ++ body ++ drop (p + length body) (cmd s)) (set_rx q s)).
Proof.
  intros H Hb. revert s sum p H. induction Hb as [|c body Hc _ IH]; intros s sum p H Hp Hl Hs.
  - cbn in H. rewrite (scanner_end _ _ _ _ H). cbn [length total foldr]. rewrite Nat.add_0_r, Z.add_0_r, u8_id by done.
    cbn [app]. rewrite take_drop. by destruct s.
  - cbn [length] in Hp. rewrite (scanner_char _ _ _ _ _ H Hc) by lia.
    replace (PBUFLEN <=? S p)%nat with false by (symmetry; apply Nat.leb_gt; lia).
    rewrite (IH _ _ (S p)); [|done|lia|cbn; by rewrite length_insert|apply u8_range].
    cbn [length cmd set_cmd set_rx total foldr]. rewrite u8_add, Z.add_assoc, poke_body by lia.
    by rewrite Nat.add_succ_comm.
Qed.

(** A character behind an escape. *)
Lemma scanner_escape c q s sum p :
  rx s = code "}" :: c :: q -> (p < PBUFLEN)%nat ->
  scanner (Body sum p) s =
    scanner (if (PBUFLEN <=? S p)%nat then Start else Body (u8 (sum + Z.lxor c 0x20)) (S p))
      (set_cmd (<[p := Z.lxor c 0x20]> (cmd s)) (set_rx q s)).
Proof.
  intros H Hp. rewrite (scanner_step _ _ _ _ H). change (code "}" =? code "#") with false. change (code "}" =? code "$") with false.
  rewrite Z.eqb_refl. rewrite (scanner_step c q) by done. unfold keep_char, poke, bind.
  by replace (p <? PBUFLEN)%nat with true by (symmetry; by apply Nat.ltb_lt).
Qed.

(** The scanner takes the escapes out, and sums up what is left. *)
Lemma scanner_escaped body q s sum p :
  rx s = escape_all body ++ code "#" :: q -> (p + length body < PBUFLEN)%nat -> length (cmd s) = PBUFLEN -> is_u8 sum ->
  scanner (Body sum p) s =
    Done (u8 (sum + total body), p + length body)%nat
      (set_cmd (take p (cmd s) ++ body ++ drop (p + length body) (cmd s)) (set_rx q s)).
Proof.
  revert s sum p. induction body as [|c body IH]; intros s sum p H Hp Hl Hs.
  - by apply scanner_body.
  - cbn [length] in Hp. change (escape_all (c :: body)) with (escape c ++ escape_all body) in H.
    assert (E : scanner (Body sum p) s =
      scanner (Body (u8 (sum + c)) (S p)) (set_cmd (<[p := c]> (cmd s)) (set_rx (escape_all body ++ code "#" :: q) s))).
    { replace (Body (u8 (sum + c)) (S p)) with (if (PBUFLEN <=? S p)%nat then Start else Body (u8 (sum + c)) (S p))
        by (by replace (PBUFLEN <=? S p)%nat with false by (symmetry; apply Nat.leb_gt; lia)).
      unfold escape in H. destruct (escaped c) eqn:Ec; rewrite <- app_assoc in H; cbn [app] in H.
      - rewrite (scanner_escape _ _ _ _ _ H) by lia. by rewrite Z.lxor_assoc, Z.lxor_nilpotent, Z.lxor_0_r.
      - apply scanner_char; [done | | lia]. unfold escaped in Ec. unfold plain. rewrite !orb_false_iff, !Z.eqb_neq in Ec. tauto. }
    rewrite E, (IH _ _ (S p)); [|done|lia|cbn; by rewrite length_insert|apply u8_range].
    cbn [length cmd set_cmd set_rx total foldr]. rewrite u8_add, Z.add_assoc, poke_body by lia.
    by rewrite Nat.add_succ_comm.
Qed.

(** A packet that does not fit is dropped without an answer. *)
Lemma scanner_too_long body q s sum p :
  rx s = body ++ q -> Forall plain body -> (p < PBUFLEN)%nat -> (PBUFLEN <= p + length body)%nat -> length (cmd s) = PBUFLEN ->
  exists rest buf, scanner (Body sum p) s = scanner Start (set_cmd buf (set_rx (rest ++ q) s)) /\
    Forall plain rest /\ length buf = PBUFLEN.
Proof.
  intros H Hb. revert s sum p H. induction Hb as [|c body Hc Hb IH]; intros s sum p H Hp Hle Hl.
  - cbn in Hle. lia.
  - cbn [length] in Hle. rewrite (scanner_char c (body ++ q) s sum p H Hc) by lia. destruct (Nat.leb_spec PBUFLEN (S p)).
    + exists body, (<[p := c]> (cmd s)). split; [done|]. split; [done|]. by rewrite length_insert.
    + destruct (IH (set_cmd (<[p := c]> (cmd s)) (set_rx (body ++ q) s)) (u8 (sum + c)) (S p)) as (rest & buf & E & Hr);
        [done | lia | lia | cbn; by rewrite length_insert |].
      exists rest, buf. rewrite E. done.
Qed.
End Scan.
