(* ===== verification/GdbMemory.v ===== *)
(** * The GDB stub: memory and registers in packets

    The memory of the target as bytes, and the fields of the replies of the stub. *)

From Stdlib Require Import Ascii String.
From S2P Require Import Prelude Gdb GdbPacket GdbReceive.

#[local] Abbreviation length := Datatypes.length.

(** ** Bytes of the memory *)

Section Bytes.
Context {T : Target}.

(** The memory as gdb sees it: a byte is stored where the stub reaches. *)
Definition put1 (p d : Z) (B : Z -> Z) : Z -> Z := if mapped p then fun q => if q =? p then d else B q else B.
Fixpoint put_list (i : Z) (bs : list Z) (B : Z -> Z) : Z -> Z :=
  match bs with [] => B | b :: bs' => put_list (i + 1) bs' (put1 (u32 i) b B) end.
Fixpoint write_list (i : Z) (bs : list Z) (m : Z -> Z) : Z -> Z :=
  match bs with [] => m | b :: bs' => write_list (i + 1) bs' (writeByte (u32 i) b m) end.

(** A bit of a constant mask. *)
Ltac mask_bit :=
  match goal with
  | |- context [Z.testbit (Zpos ?c) (Z.of_nat ?n)] =>
      let b := eval vm_compute in (Z.testbit (Zpos c) (Z.of_nat n)) in change (Z.testbit (Zpos c) (Z.of_nat n)) with b
  end.

Ltac const_eqb :=
  match goal with
  | |- context [Z.of_nat ?n =? ?c] =>
      let b := eval vm_compute in (Z.of_nat n =? c) in lazymatch b with true => idtac | false => idtac end;
      change (Z.of_nat n =? c) with b
  end.

Lemma put_byte_bit w k d n :
  (k < 4)%nat -> (n < 32)%nat -> is_u8 d ->
  Z.testbit (put_byte w (Z.of_nat k) d) (Z.of_nat n) =
    if (8 * k <=? n)%nat && (n <? 8 * k + 8)%nat then Z.testbit d (Z.of_nat n - 8 * Z.of_nat k) else Z.testbit w (Z.of_nat n).
Proof.
  intros Hk Hn Hd.
  assert (Hout : forall t, t < 0 \/ 8 <= t -> Z.testbit d t = false)
    by (intros t [H|H]; [by apply Z.testbit_neg_r | by apply u8_bit_high]).
  destruct (Nat.leb_spec (8 * k) n), (Nat.ltb_spec n (8 * k + 8)); cbn [andb];
    do 4 (destruct k as [|k];
          [unfold put_byte; repeat const_eqb; cbv iota;
           rewrite Z.lor_spec, Z.land_spec, ?Z.shiftl_spec by lia;
           do 32 (destruct n as [|n]; [try lia; mask_bit; rewrite ?andb_false_r, ?andb_true_r, ?orb_false_l;
                                       first [reflexivity | rewrite Hout by lia; apply orb_false_r]|]); lia|]); lia.
Qed.

Lemma byte_of_put w k j d :
  (k < 4)%nat -> (j < 4)%nat -> is_u8 d ->
  u8 (Z.shiftr (put_byte w (Z.of_nat k) d) (Z.of_nat j * 8)) =
    if (j =? k)%nat then d else u8 (Z.shiftr w (Z.of_nat j * 8)).
Proof.
  intros Hk Hj Hd. apply z_ext. intros t Ht. rewrite testbit_u8, Z.shiftr_spec by done.
  destruct (Z.ltb_spec t 8) as [H8|H8]; cbn [andb].
  - replace (t + Z.of_nat j * 8) with (Z.of_nat (Z.to_nat t + j * 8)) by lia.
    rewrite put_byte_bit by (done || lia). destruct (Nat.eqb_spec j k) as [->|Hne].
    + replace (8 * k <=? Z.to_nat t + k * 8)%nat with true by (symmetry; apply Nat.leb_le; lia).
      replace (Z.to_nat t + k * 8 <? 8 * k + 8)%nat with true by (symmetry; apply Nat.ltb_lt; lia).
      cbn [andb]. f_equal. lia.
    + replace ((8 * k <=? Z.to_nat t + j * 8)%nat && (Z.to_nat t + j * 8 <? 8 * k + 8)%nat) with false
        by (destruct (Nat.leb_spec (8 * k) (Z.to_nat t + j * 8)), (Nat.ltb_spec (Z.to_nat t + j * 8) (8 * k + 8)); try done; lia).
      rewrite testbit_u8, Z.shiftr_spec by done. replace (t <? 8) with true by (symmetry; by apply Z.ltb_lt). cbn [andb].
      f_equal. lia.
  - destruct (j =? k)%nat; [by rewrite u8_bit_high by done|]. rewrite testbit_u8 by done.
    by replace (t <? 8) with false by (symmetry; by apply Z.ltb_ge).
Qed.

Lemma word_of_eq p : word_of p = p - p mod 4.
Proof.
  unfold word_of. rewrite <- Z.ldiff_land. change 3 with (Z.ones 2). rewrite Z.ldiff_ones_r by lia.
  rewrite Z.shiftl_mul_pow2, Z.shiftr_div_pow2 by lia. change (2 ^ 2) with 4. mlia.
Qed.

Lemma readbyte_writeByte m p d q :
  is_u8 d -> readbyte (writeByte p d m) q = put1 p d (readbyte m) q.
Proof.
  intros Hd. unfold readbyte, writeByte, put1. destruct (mapped p) eqn:Mp; [|done].
  destruct (Z.eqb_spec q p) as [->|Hne].
  - rewrite Mp, Z.eqb_refl. change 3 with (Z.ones 2). rewrite Z.land_ones by lia. change (2 ^ 2) with 4.
    replace (p mod 4) with (Z.of_nat (Z.to_nat (p mod 4))) by mlia. rewrite byte_of_put by (done || mlia). by rewrite Nat.eqb_refl.
  - destruct (mapped q); [|done]. destruct (Z.eqb_spec (word_of q) (word_of p)) as [E|]; [|done].
    rewrite <- E. change 3 with (Z.ones 2). rewrite !Z.land_ones by lia. change (2 ^ 2) with 4.
    rewrite !word_of_eq in E. replace (p mod 4) with (Z.of_nat (Z.to_nat (p mod 4))) by mlia.
    replace (q mod 4) with (Z.of_nat (Z.to_nat (q mod 4))) by mlia. rewrite byte_of_put by (done || mlia).
    destruct (Nat.eqb_spec (Z.to_nat (q mod 4)) (Z.to_nat (p mod 4))); [|done]. exfalso. mlia.
Qed.

Lemma put_list_ext i bs B B' : (forall q, B q = B' q) -> forall q, put_list i bs B q = put_list i bs B' q.
Proof.
  revert i B B'. induction bs as [|b bs IH]; intros i B B' H q; [apply H|]. apply IH. intros q'.
  unfold put1. destruct (mapped _); [|apply H]. destruct (q' =? u32 i); [done | apply H].
Qed.

Lemma readbyte_write_list i bs m q : Forall is_u8 bs -> readbyte (write_list i bs m) q = put_list i bs (readbyte m) q.
Proof.
  intros Hb. revert i m q. induction Hb as [|b bs Hb _ IH]; intros i m q; [done|]. cbn [write_list put_list]. rewrite IH.
  apply put_list_ext. intros q'. by apply readbyte_writeByte.
Qed.

(** ** Replies *)

(** [n] bytes from the address [i] on. *)
Fixpoint bytes_text (B : Z -> Z) (n : nat) (i : Z) : list Z :=
  match n with O => [] | S n' => hexs 2 (B (u32 i)) ++ bytes_text B n' (i + 1) end.

Lemma bytes_text_ext B B' n i : (forall q, B q = B' q) -> bytes_text B n i = bytes_text B' n i.
Proof. intros H. revert i. induction n as [|n IH]; intros i; [done|]. cbn [bytes_text]. by rewrite H, IH. Qed.

Lemma u32_next i i' : u32 i = u32 i' -> u32 (s32 (i + 1)) = u32 (i' + 1).
Proof. unfold u32, s32. intros H. mlia. Qed.

Lemma emits_memory n i i' :
  u32 i = u32 i' -> emits (send_memory n i) (fun _ m => bytes_text (readbyte m) n i').
Proof.
  revert i i'. induction n as [|n IH]; intros i i' Hi; [apply emits_ret|]. intros s Hs. cbn [send_memory].
  unfold bind at 1, get. rewrite Hi. cbn [bytes_text].
  exact (emits_bind _ _ _ _ (emits_hex (readbyte (mem s) (u32 i')) 2) (IH _ _ (u32_next _ _ Hi)) s Hs).
Qed.

(** The register file of the protocol: 113 registers, of which the stub knows 22. *)
Definition regfile (r : XTensa_exception_frame_s) : list (option Z) :=
  [Some (pc r)] ++ repeat None 35 ++ [Some (sar r); Some (litbase r)] ++ repeat None 2 ++ [Some (sr176 r)] ++
  repeat None 1 ++ [Some (ps r)] ++ repeat None 54 ++ List.map Some (a r).
Definition reg_text (v : option Z) : list Z :=
  match v with Some v => List.concat (List.map (hexs 2) (le_bytes 4 v)) | None => repeat (code "x") 8 end.
Definition regs_text (r : XTensa_exception_frame_s) : list Z := List.concat (List.map reg_text (regfile r)).

Definition regs_typed (r : XTensa_exception_frame_s) : Prop :=
  is_u32 (pc r) /\ is_u32 (sar r) /\ is_u32 (litbase r) /\ is_u32 (sr176 r) /\ is_u32 (ps r) /\ Forall is_u32 (a r).

Lemma lor_bytes b0 b1 b2 b3 :
  is_u8 b0 -> is_u8 b1 -> is_u8 b2 ->
  Z.lor (Z.lor (Z.lor b0 (Z.shiftl b1 8)) (Z.shiftl b2 16)) (Z.shiftl b3 24) = b0 + 256 * b1 + 65536 * b2 + 16777216 * b3.
Proof.
  unfold is_u8. intros H0 H1 H2.
  assert (E1 : Z.lor b0 (Z.shiftl b1 8) = b0 + 256 * b1)
    by (rewrite Z.lor_comm, lor_disjoint_add by lia; change (2 ^ 8) with 256; lia).
  assert (E2 : Z.lor (b0 + 256 * b1) (Z.shiftl b2 16) = b0 + 256 * b1 + 65536 * b2)
    by (rewrite Z.lor_comm, lor_disjoint_add by (change (2 ^ 16) with 65536; lia); change (2 ^ 16) with 65536; lia).
  rewrite E1, E2, Z.lor_comm, lor_disjoint_add by (change (2 ^ 24) with 16777216; lia). change (2 ^ 24) with 16777216. lia.
Qed.

Lemma iswap_value v :
  iswap v = s32 (v / 16777216 mod 256 + 256 * (v / 65536 mod 256) + 65536 * (v / 256 mod 256) + 16777216 * (v mod 256)).
Proof.
  unfold iswap. change 0xff with (Z.ones 8). rewrite !Z.land_ones, !Z.shiftr_div_pow2 by lia.
  change (2 ^ 8) with 256. change (2 ^ 24) with 16777216. change (2 ^ 16) with 65536.
  by rewrite lor_bytes by (unfold is_u8; mlia).
Qed.

Lemma hexs_byte v : hexs 2 v = [hexChars (v / 16 mod 16); hexChars (v mod 16)].
Proof.
  cbn [hexs]. rewrite !nibble_mod. change (16 ^ Z.of_nat 1) with 16. change (16 ^ Z.of_nat 0) with 1. by rewrite Z.div_1_r.
Qed.

Lemma hexs_word x :
  hexs 8 (s32 x) =
    hexs 2 (x / 16777216 mod 256) ++ hexs 2 (x / 65536 mod 256) ++ hexs 2 (x / 256 mod 256) ++ hexs 2 (x mod 256).
Proof.
  rewrite !hexs_byte. cbn [hexs app]. rewrite !nibble_mod.
  change (16 ^ Z.of_nat 7) with 268435456. change (16 ^ Z.of_nat 6) with 16777216. change (16 ^ Z.of_nat 5) with 1048576.
  change (16 ^ Z.of_nat 4) with 65536. change (16 ^ Z.of_nat 3) with 4096. change (16 ^ Z.of_nat 2) with 256.
  change (16 ^ Z.of_nat 1) with 16. change (16 ^ Z.of_nat 0) with 1.
  repeat (apply (f_equal2 (@cons Z)); [apply f_equal; unfold s32; mlia|]). reflexivity.
Qed.

Lemma swapped_text v : is_u32 v -> hexs 8 (iswap v) = reg_text (Some v).
Proof.
  intros Hv. unfold is_u32 in Hv. rewrite iswap_value, hexs_word. cbn [reg_text le_bytes List.map List.concat]. unfold u8.
  rewrite app_nil_r. repeat (apply (f_equal2 (@app Z)); [apply f_equal; mlia|]). apply f_equal. mlia.
Qed.

Lemma emits_swapped v : is_u32 v -> emits (gdbPacketSwappedHexInt v) (fun _ _ => reg_text (Some v)).
Proof. intros Hv. rewrite <- swapped_text by done. apply emits_hex. Qed.

Lemma emits_unknown n : emits (repeat_ n gdbPacketXXXXInt) (fun _ _ => List.concat (List.map reg_text (repeat None n))).
Proof.
  replace (List.map reg_text (repeat None n)) with (repeat (repeat (code "x") 8) n) by (induction n; cbn; by f_equal).
  apply emits_repeat. exact (emits_repeat 8 _ _ (emits_char _)).
Qed.

Lemma emits_a l : Forall is_u32 l -> emits (send_a l) (fun _ _ => List.concat (List.map reg_text (List.map Some l))).
Proof.
  induction 1 as [|v l Hv _ IH]; [apply emits_ret|]. exact (emits_bind _ _ _ _ (emits_swapped v Hv) IH).
Qed.

(** The fields of the reply, for the registers [r]. *)
Lemma ends_registers r :
  regs_typed r ->
  ends (gdbPacketSwappedHexInt (pc r) ;; repeat_ 35 gdbPacketXXXXInt ;; gdbPacketSwappedHexInt (sar r) ;;
        gdbPacketSwappedHexInt (litbase r) ;; repeat_ 2 gdbPacketXXXXInt ;; gdbPacketSwappedHexInt (sr176 r) ;;
        repeat_ 1 gdbPacketXXXXInt ;; gdbPacketSwappedHexInt (ps r) ;; repeat_ 54 gdbPacketXXXXInt ;; send_a (a r) ;;
        gdbPacketEnd) (fun _ _ => regs_text r).
Proof.
  intros (H1 & H2 & H3 & H4 & H5 & H6). unfold regs_text, regfile. rewrite !List.map_app, !concat_app.
  cbn [List.map List.concat]. rewrite !app_nil_r, <- !app_assoc.
  pose proof (ends_bind _ _ _ _ (emits_a _ H6) ends_end) as E.
  pose proof (ends_bind _ _ _ _ (emits_unknown 54) E) as E54.
  pose proof (ends_bind _ _ _ _ (emits_swapped _ H5) E54) as E5.
  pose proof (ends_bind _ _ _ _ (emits_unknown 1) E5) as E1.
  pose proof (ends_bind _ _ _ _ (emits_swapped _ H4) E1) as E4.
  pose proof (ends_bind _ _ _ _ (emits_unknown 2) E4) as E2.
  pose proof (ends_bind _ _ _ _ (emits_swapped _ H2) (ends_bind _ _ _ _ (emits_swapped _ H3) E2)) as E3.
  pose proof (ends_bind _ _ _ _ (emits_swapped _ H1) (ends_bind _ _ _ _ (emits_unknown 35) E3)) as E35.
  refine (ends_ext _ _ _ _ E35). intros. cbv beta. by rewrite app_nil_r.
Qed.

Lemma sends_registers s :
  regs_typed (regs s) ->
  exists c, is_u8 c /\ send_registers s = Done tt (set_chsum c (set_tx (tx s ++ frame (escape_all (regs_text (regs s)))) s)).
Proof.
  intros H. destruct (sends_packet _ _ (ends_registers (regs s) H) s) as (c & Hc & E). exists c. split; [done|].
  rewrite <- E. unfold send_registers. by rewrite !started.
Qed.
End Bytes.
