(* ===== verification/GdbSession.v ===== *)
(** * The GDB stub: sessions

    What gdb asks and what it is told: requests, the answers that they deserve, and the
    conversation while the target is stopped, with noise, garbled packets and packets
    that do not fit in between. *)

From Stdlib Require Import Ascii String.
From S2P Require Import Prelude Gdb GdbPacket GdbReceive GdbMemory.

#[local] Abbreviation length := Datatypes.length.

(** ** Requests *)

(** A number without leading zeros. *)
Definition hexnum (v : Z) : list Z := hexs (S (Z.to_nat (Z.log2 v / 4))) v.
Definition bytes_of (bs : list Z) : list Z := List.concat (List.map (hexs 2) bs).

Inductive request :=
  | ReadRegs
  | ReadMem (addr n : Z)
  | WriteMem (addr : Z) (bs : list Z)
  | AskReason
  | Insert (kind addr n : Z)
  | Remove (kind addr n : Z)
  | AskSupported (rest : list Z)
  | AskAttached (rest : list Z)
  | SoftBreak (insert : bool) (rest : list Z)
  | Other (body : list Z).

Definition payload (q : request) : list Z :=
  match q with
  | ReadRegs => text "g"
  | ReadMem i n => code "m" :: hexnum i ++ code "," :: hexnum n
  | WriteMem i bs => code "M" :: hexnum i ++ code "," :: hexnum (Z.of_nat (length bs)) ++ code ":" :: bytes_of bs
  | AskReason => text "?"
  | Insert k i n => code "Z" :: code "0" + k :: code "," :: hexnum i ++ code "," :: hexnum n
  | Remove k i n => code "z" :: code "0" + k :: code "," :: hexnum i ++ code "," :: hexnum n
  | AskSupported rest => text "qSupported" ++ rest
  | AskAttached rest => text "qAttached" ++ rest
  | SoftBreak ins rest => (if ins then code "Z" else code "z") :: code "0" :: rest
  | Other body => body
  end.

(** The commands that the stub knows by their first character. *)
Definition known (c : Z) : Prop := In c (text "gGmM?csDkqzZ").
Definition well_formed (q : request) : Prop :=
  match q with
  | ReadMem i n => is_u32 i /\ 0 <= n < 2147483648
  | WriteMem i bs => is_u32 i /\ Forall is_u8 bs
  | Insert k i n | Remove k i n => 1 <= k <= 4 /\ is_u32 i /\ is_u32 n
  | AskSupported rest | AskAttached rest | SoftBreak _ rest => Forall plain rest
  | Other body => Forall plain body /\ forall c, head body = Some c -> ~ known c
  | ReadRegs | AskReason => True
  end.

(** Evaluates the tests of the interpreter on a known command. *)
Ltac pick :=
  repeat match goal with
  | |- context [if ?b then _ else _] =>
      let v := eval vm_compute in b in
      lazymatch v with true => change b with true | false => change b with false end; cbv iota
  end.
Ltac dispatch :=
  unfold gdbHandleCommand; unfold bind at 1, get;
  repeat match goal with H : cmd_at _ _ = _ |- _ => rewrite H end; cbv zeta; pick.

Section Session.
Context {T : Target}.

(** What the debugger can observe of the target. *)
Record world := mkWorld { bytes : Z -> Z; breaks : hw }.

(** The mask of a watched region, whose size is a power of two up to 32. *)
Definition watch_bits (n : Z) : option Z := if bool_decide (n ∈ [1; 2; 4; 8; 16; 32]) then Some (64 - n) else None.
Definition watch_kind (k : Z) : Z := match k with 2 => 2 | 3 => 1 | _ => 3 end.
Definition done_or_error (v : Z) : list Z := if v =? 0 then text "E01" else text "OK".

(** The answer to a request, and the world after it. *)
Definition answer (r : XTensa_exception_frame_s) (w : world) (q : request) : list Z * world :=
  match q with
  | ReadRegs => (regs_text r, w)
  | ReadMem i n => (bytes_text (bytes w) (Z.to_nat n) i, w)
  | WriteMem i bs =>
      if validWrAddr i && validWrAddr (i + Z.of_nat (length bs)) then (text "OK", mkWorld (put_list i bs (bytes w)) (breaks w))
      else (text "E01", w)
  | AskReason => (code "T" :: hexs 2 (signal_of (reason r)), w)
  | Insert 1 i n => let '(v, h) := gdbstub_set_hw_breakpoint (s32 i) (s32 n) (breaks w) in (done_or_error v, mkWorld (bytes w) h)
  | Insert k i n =>
      match watch_bits n with
      | Some mask => let '(v, h) := gdbstub_set_hw_watchpoint (s32 i) mask (watch_kind k) (breaks w) in (done_or_error v, mkWorld (bytes w) h)
      | None => (text "E01", w)
      end
  | Remove 1 i n => let '(v, h) := gdbstub_del_hw_breakpoint (s32 i) (breaks w) in (done_or_error v, mkWorld (bytes w) h)
  | Remove _ i n => let '(v, h) := gdbstub_del_hw_watchpoint (s32 i) (breaks w) in (done_or_error v, mkWorld (bytes w) h)
  | AskSupported _ => (text "swbreak+;hwbreak+;PacketSize=FF", w)
  | AskAttached _ => (text "1", w)
  | SoftBreak _ _ | Other _ => ([], w)
  end.

(** ** Reading the command buffer *)

Lemma hexnum_fits v : is_u32 v -> (S (Z.to_nat (Z.log2 v / 4)) <= 8)%nat /\ 0 <= v < 16 ^ Z.of_nat (S (Z.to_nat (Z.log2 v / 4))).
Proof.
  unfold is_u32. intros Hv. pose proof (Z.log2_nonneg v). split.
  - assert (Z.log2 v < 32); [|pose proof (Z.div_lt_upper_bound (Z.log2 v) 4 8); lia]. destruct (Z.eq_dec v 0) as [->|]; [done|]. apply Z.log2_lt_pow2; [lia|].
    change (2 ^ 32) with 4294967296. lia.
  - split; [lia|]. destruct (Z.eq_dec v 0) as [->|]; [done|]. change 16 with (2 ^ 4). rewrite <- Z.pow_mul_r by lia.
    apply Z.log2_lt_pow2; [lia|]. pose proof (Z.mul_succ_div_gt (Z.log2 v) 4). pose proof (Z.div_pos (Z.log2 v) 4). lia.
Qed.

Lemma get_hexnum at_ pre v c post :
  reads at_ (pre ++ hexnum v ++ c :: post) -> hex_digit c = None -> is_u32 v ->
  gdbGetHexVal at_ (Z.of_nat (length pre)) (-1) = (s32 v, Z.of_nat (length (pre ++ hexnum v))).
Proof.
  intros H Hc Hv. destruct (hexnum_fits v Hv) as [Lv Vv]. rewrite (get_number _ _ _ _ _ _ H Hc Lv Vv).
  unfold hexnum. by rewrite length_app, length_hexs.
Qed.

(** The two numbers of a memory or breakpoint command. *)
Lemma get_two at_ pre i n c post :
  reads at_ (pre ++ hexnum i ++ code "," :: hexnum n ++ c :: post) -> hex_digit c = None -> is_u32 i -> is_u32 n ->
  gdbGetHexVal at_ (Z.of_nat (length pre)) (-1) = (s32 i, Z.of_nat (length (pre ++ hexnum i))) /\
  gdbGetHexVal at_ (Z.of_nat (length (pre ++ hexnum i)) + 1) (-1) =
    (s32 n, Z.of_nat (length (pre ++ hexnum i ++ code "," :: hexnum n))).
Proof.
  intros H Hc Hi Hn. split; [by eapply get_hexnum|].
  replace (Z.of_nat (length (pre ++ hexnum i)) + 1) with (Z.of_nat (length (pre ++ hexnum i ++ [code ","])))
    by (rewrite !length_app; cbn [length]; lia).
  rewrite (get_hexnum _ _ n c post); [by rewrite <- !app_assoc | by rewrite <- !app_assoc | done | done].
Qed.

Lemma write_memory_list bs s i i' pre post :
  reads (cmd_at s) (pre ++ bytes_of bs ++ post) -> Forall is_u8 bs -> u32 i = u32 i' ->
  write_memory (length bs) i (Z.of_nat (length pre)) s = Done tt (set_mem (write_list i' bs (mem s)) s).
Proof.
  intros H Hb. revert s i i' pre H. induction Hb as [|b bs Hb _ IH]; intros s i i' pre H Hi; [by destruct s|].
  cbn [length write_memory write_list]. unfold bytes_of in H. cbn [List.map List.concat] in H. rewrite <- app_assoc in H.
  unfold bind at 1, getHex, get. rewrite (get_byte _ _ _ _ H Hb).
  unfold bind, upd. rewrite u8_id, Hi by done.
  replace (length pre + 2)%nat with (length (pre ++ hexs 2 b)) by (by rewrite length_app, length_hexs).
  rewrite (IH _ _ (i' + 1)); [done | | by apply u32_next]. by rewrite <- app_assoc.
Qed.
(** ** Handling a request *)

Lemma cmd_is_prefix str c rest s : reads (cmd_at s) (c :: text str ++ rest) -> cmd_is str s = true.
Proof.
  intros H. unfold cmd_is. apply bool_decide_true. apply nth_ext with (d := cmd_at s 1) (d' := 0).
  - by rewrite length_map, length_seq.
  - rewrite length_map, length_seq. intros k Hk. change (cmd_at s 1) with ((fun k => cmd_at s (1 + Z.of_nat k)) 0%nat).
    rewrite map_nth, seq_nth by done. replace (1 + Z.of_nat (0 + k)) with (Z.of_nat (S k)) by lia.
    rewrite H by (cbn; rewrite length_app; lia). cbn [nth]. by rewrite app_nth1.
Qed.

Lemma cmd_is_first c str s : cmd_at s 1 <> code c -> cmd_is (String c str) s = false.
Proof. intros H. unfold cmd_is. apply bool_decide_false. intros E. by injection E as E _. Qed.

(** The state after an answer. *)
Definition after (c : Z) (p : list Z) (m : Z -> Z) (h : hw) (s : stub) : stub :=
  set_chsum c (set_tx (tx s ++ frame (escape_all p)) (set_mem m (set_dbg h s))).
Definition shows (s : stub) (w : world) : Prop := (forall q, readbyte (mem s) q = bytes w q) /\ dbg s = breaks w.

(** [o] has answered as the world [w] demands. *)
Definition answers (o : outcome Z) (s : stub) (pw : list Z * world) : Prop :=
  exists c m, o = Done ST_OK (after c (fst pw) m (breaks (snd pw)) s) /\ forall q, readbyte m q = bytes (snd pw) q.

Lemma answers_sends m f s s1 p w :
  sends m f -> s1 = set_mem (mem s1) (set_dbg (breaks w) s) -> (forall q, readbyte (mem s1) q = bytes w q) -> f (regs s1) (mem s1) = p ->
  answers ((m ;; ret ST_OK) s1) s (p, w).
Proof.
  intros H E V P. destruct (H s1) as (c & _ & Hm). exists c, (mem s1). split; [|done].
  rewrite (bind_done _ _ _ _ _ Hm). unfold ret. rewrite P, E. by destruct s.
Qed.

Lemma answers_plain m f s p w :
  sends m f -> shows s w -> f (regs s) (mem s) = p -> answers ((m ;; ret ST_OK) s) s (p, w).
Proof. intros H [V D] P. eapply answers_sends; [exact H | | done | done]. rewrite <- D. by destruct s. Qed.

Lemma first_char s c l : reads (cmd_at s) (c :: l) -> cmd_at s 0 = c.
Proof. intros H. apply (H 0%nat). cbn. lia. Qed.
Lemma second_char s c d l : reads (cmd_at s) (c :: d :: l) -> cmd_at s 1 = d.
Proof. intros H. apply (H 1%nat). cbn. lia. Qed.
Lemma third_char s c d e l : reads (cmd_at s) (c :: d :: e :: l) -> cmd_at s 2 = e.
Proof. intros H. apply (H 2%nat). cbn. lia. Qed.

Lemma handle_regs s w :
  reads (cmd_at s) (text "g" ++ [0]) -> regs_typed (regs s) -> shows s w -> answers (gdbHandleCommand s) s (regs_text (regs s), w).
Proof.
  intros R%first_char Hr [V D]. dispatch. destruct (sends_registers s Hr) as (c & _ & E). exists c, (mem s).
  split; [|done]. rewrite (bind_done _ _ _ _ _ E). unfold ret. cbn [fst snd]. rewrite <- D. by destruct s.
Qed.

Lemma handle_reason s w :
  reads (cmd_at s) (text "?" ++ [0]) -> shows s w ->
  answers (gdbHandleCommand s) s (code "T" :: hexs 2 (signal_of (reason (regs s))), w).
Proof. intros R%first_char V. dispatch. by eapply answers_plain; [apply sends_reason|..]. Qed.

Lemma handle_supported s w rest :
  reads (cmd_at s) (text "qSupported" ++ rest) -> shows s w ->
  answers (gdbHandleCommand s) s (text "swbreak+;hwbreak+;PacketSize=FF", w).
Proof.
  intros R V. pose proof (cmd_is_prefix "Supported" _ _ s R) as E. apply first_char in R. dispatch. rewrite E.
  by eapply answers_plain; [apply sends_str|..].
Qed.

Lemma handle_attached s w rest :
  reads (cmd_at s) (text "qAttached" ++ rest) -> shows s w -> answers (gdbHandleCommand s) s (text "1", w).
Proof.
  intros R V. pose proof (cmd_is_prefix "Attached" _ _ s R) as E.
  pose proof (second_char _ _ _ _ R) as R1. apply first_char in R.
  assert (E' : cmd_is "Supported" s = false) by (apply cmd_is_first; rewrite R1; done).
  dispatch. rewrite E', E. by eapply answers_plain; [apply sends_str|..].
Qed.

(** The tests that ignore the case. *)
Lemma lor_case c v : Z.lor c 0x20 = v -> c = v \/ c = Z.ldiff v 0x20.
Proof.
  intros <-. change 0x20 with (2 ^ 5). destruct (Z.testbit c 5) eqn:E; [left | right]; apply Z.bits_inj'; intros n Hn.
  - rewrite Z.lor_spec, Z.pow2_bits_eqb by lia. destruct (Z.eqb_spec 5 n) as [<-|]; [by rewrite E | by rewrite orb_false_r].
  - rewrite Z.ldiff_spec, Z.lor_spec, Z.pow2_bits_eqb by lia.
    destruct (Z.eqb_spec 5 n) as [<-|]; [rewrite E | rewrite orb_false_r]; by rewrite ?andb_true_r.
Qed.

Lemma handle_unknown s w c l :
  reads (cmd_at s) (c :: l) -> ~ known c -> shows s w -> answers (gdbHandleCommand s) s ([], w).
Proof.
  intros R%first_char K V. unfold gdbHandleCommand. unfold bind at 1, get. rewrite R. cbv zeta.
  assert (N : forall d, known d -> (c =? d) = false) by (intros d Hd; apply Z.eqb_neq; congruence).
  assert (L : forall d, known d -> known (Z.ldiff d 0x20) -> (Z.lor c 0x20 =? d) = false)
    by (intros d H1 H2; apply Z.eqb_neq; intros [E|E]%lor_case; congruence).
  rewrite !N, !L by (unfold known; cbn; tauto). cbn [andb].
  by eapply answers_plain; [apply sends_empty|..].
Qed.

Lemma handle_empty s w : reads (cmd_at s) [0] -> shows s w -> answers (gdbHandleCommand s) s ([], w).
Proof. intros R V. apply (handle_unknown _ _ _ _ R); [|done]. intros K. vm_compute in K. intuition discriminate. Qed.

Lemma handle_soft s w (ins : bool) rest :
  reads (cmd_at s) ((if ins then code "Z" else code "z") :: code "0" :: rest) -> shows s w -> answers (gdbHandleCommand s) s ([], w).
Proof.
  intros R V. pose proof (second_char _ _ _ _ R) as R1. apply first_char in R.
  destruct ins; dispatch; rewrite ?andb_false_r; cbn [andb]; (by eapply answers_plain; [apply sends_empty|..]).
Qed.

(** ** Memory *)

Lemma get_hex_done s data bits v data' :
  gdbGetHexVal (cmd_at s) data bits = (v, data') -> getHex data bits s = Done (v, data') s.
Proof. intros H. unfold getHex, get. by rewrite H. Qed.

Lemma bind_same {A B} (m m' : M A) (k : A -> M B) s s' : m s = m' s' -> bind m k s = bind m' k s'.
Proof. intros H. unfold bind. by rewrite H. Qed.

Lemma answers_error s w : shows s w -> answers ((gdbSendPacketE01 ;; ret ST_OK) s) s (text "E01", w).
Proof. intros V. exact (answers_plain _ _ s _ w (sends_str "E01") V eq_refl). Qed.

Lemma answers_ok s s1 w :
  s1 = set_mem (mem s1) (set_dbg (breaks w) s) -> (forall q, readbyte (mem s1) q = bytes w q) ->
  answers ((gdbSendPacketOK ;; ret ST_OK) s1) s (text "OK", w).
Proof. intros E V. exact (answers_sends _ _ s s1 _ w (sends_str "OK") E V eq_refl). Qed.

(** Both commands begin with the address and the length. *)
Lemma memory_numbers s c0 i n c post :
  reads (cmd_at s) ([c0] ++ hexnum i ++ code "," :: hexnum n ++ c :: post) -> hex_digit c = None -> is_u32 i -> is_u32 n ->
  memory_command c0 s =
    (if c0 =? code "m" then gdbPacketStart ;; send_memory (Z.to_nat (s32 n)) (s32 i) ;; gdbPacketEnd
     else if validWrAddr (s32 i) && validWrAddr (s32 (s32 i + s32 n))
     then write_memory (Z.to_nat (s32 n)) (s32 i) (Z.of_nat (length ([c0] ++ hexnum i ++ code "," :: hexnum n)) + 1) ;; gdbSendPacketOK
     else gdbSendPacketE01) s.
Proof.
  intros R Hc Hi Hn. destruct (get_two _ _ _ _ _ _ R Hc Hi Hn) as [G1 G2].
  unfold memory_command. rewrite (bind_done _ _ _ _ _ (get_hex_done _ _ _ _ _ G1)).
  by rewrite (bind_done _ _ _ _ _ (get_hex_done _ _ _ _ _ G2)).
Qed.

Lemma handle_read s w i n :
  reads (cmd_at s) (payload (ReadMem i n) ++ [0]) -> is_u32 i -> 0 <= n < 2147483648 -> shows s w ->
  answers (gdbHandleCommand s) s (bytes_text (bytes w) (Z.to_nat n) i, w).
Proof.
  intros R Hi Hn [V D]. pose proof (first_char _ _ _ R) as R0. dispatch.
  replace (payload (ReadMem i n) ++ [0]) with ([code "m"] ++ hexnum i ++ code "," :: hexnum n ++ [0]) in R
    by (cbn [payload app]; by rewrite <- app_assoc).
  assert (Hn' : is_u32 n) by (unfold is_u32; lia).
  rewrite (bind_same _ _ _ _ _ (memory_numbers _ _ _ _ _ _ R eq_refl Hi Hn')). pick.
  rewrite s32_small by lia.
  pose proof (sends_packet _ _ (ends_bind _ _ _ _ (emits_memory (Z.to_nat n) (s32 i) i ltac:(rewrite u32_s32, u32_id; done)) ends_end)) as S.
  refine (answers_plain _ _ s _ w S (conj V D) _). cbv beta. rewrite app_nil_r. by apply bytes_text_ext.
Qed.

Lemma valid_s32 i : is_u32 i -> validWrAddr (s32 i) = validWrAddr i.
Proof.
  unfold is_u32. intros Hi. destruct (Z.lt_ge_cases i 2147483648); [by rewrite s32_small by lia|].
  replace (s32 i) with (i - 4294967296) by (unfold s32; mlia). unfold validWrAddr.
  lia.
Qed.

Lemma valid_range i : validWrAddr i = true -> 0 <= i < 0x60002000.
Proof. unfold validWrAddr. lia. Qed.

Lemma handle_write s w i bs :
  reads (cmd_at s) (payload (WriteMem i bs) ++ [0]) -> is_u32 i -> Forall is_u8 bs -> (length bs < 256)%nat -> shows s w ->
  answers (gdbHandleCommand s) s (answer (regs s) w (WriteMem i bs)).
Proof.
  intros R Hi Hb Hl [V D]. pose proof (first_char _ _ _ R) as R0. dispatch.
  set (n := Z.of_nat (length bs)) in *.
  replace (payload (WriteMem i bs) ++ [0]) with ([code "M"] ++ hexnum i ++ code "," :: hexnum n ++ code ":" :: bytes_of bs ++ [0]) in R
    by (cbn [payload app]; rewrite <- app_assoc; cbn [app]; rewrite <- app_assoc; reflexivity).
  assert (Hn : is_u32 n) by (unfold is_u32; lia).
  rewrite (bind_same _ _ _ _ _ (memory_numbers _ _ _ _ _ _ R eq_refl Hi Hn)). change (code "M" =? code "m") with false. cbv iota.
  rewrite (valid_s32 i Hi), (s32_small n) by lia. cbn [answer]. fold n.
  destruct (validWrAddr i) eqn:Ei; cbn [andb]; [|by apply answers_error].
  apply valid_range in Ei. rewrite !(s32_small i), (s32_small (i + n)) by lia.
  destruct (validWrAddr (i + n)); [|by apply answers_error].
  replace (Z.of_nat (length ([code "M"] ++ hexnum i ++ code "," :: hexnum n)) + 1)
    with (Z.of_nat (length ([code "M"] ++ hexnum i ++ code "," :: hexnum n ++ [code ":"])))
    by (rewrite !length_app; cbn [length]; rewrite !length_app; cbn [length]; lia).
  set (pre := [code "M"] ++ hexnum i ++ code "," :: hexnum n ++ [code ":"]).
  replace (Z.to_nat n) with (length bs) by lia.
  assert (W : write_memory (length bs) i (Z.of_nat (length pre)) s = Done tt (set_mem (write_list i bs (mem s)) s)).
  { refine (write_memory_list bs s i i pre [0] _ Hb eq_refl). subst pre. rewrite <- app_assoc. cbn [app].
    rewrite <- app_assoc. cbn [app]. rewrite <- app_assoc. exact R. }
  set (s1 := set_mem (write_list i bs (mem s)) s) in *.
  rewrite (bind_same _ gdbSendPacketOK _ s s1 (bind_done _ (fun _ => gdbSendPacketOK) _ _ _ W)).
  apply answers_ok.
  - unfold s1. cbn [breaks]. rewrite <- D. by destruct s.
  - intros q. unfold s1. cbn [mem set_mem bytes]. rewrite readbyte_write_list by done. by apply put_list_ext.
Qed.

(** ** Breakpoints *)

Lemma breakpoint_numbers s c0 c1 i n :
  reads (cmd_at s) ([c0; c1; code ","] ++ hexnum i ++ code "," :: hexnum n ++ [0]) -> is_u32 i -> is_u32 n ->
  breakpoint_command c0 c1 s =
    (result <-
       (if c0 =? code "Z" then
          if c1 =? code "1" then call_hw (gdbstub_set_hw_breakpoint (s32 i) (s32 n))
          else if watch_mask (s32 n) =? 0 then ret 0
          else (v <- call_hw (gdbstub_set_hw_watchpoint (s32 i) (watch_mask (s32 n)) (watch_access c1)) ;; ret (b2z (truth v)))
        else if c1 =? code "1" then call_hw (gdbstub_del_hw_breakpoint (s32 i))
        else call_hw (gdbstub_del_hw_watchpoint (s32 i))) ;;
     if truth result then gdbSendPacketOK else gdbSendPacketE01) s.
Proof.
  intros R Hi Hn. destruct (get_two _ _ _ _ _ _ R eq_refl Hi Hn) as [G1 G2].
  unfold breakpoint_command. rewrite (bind_done _ _ _ _ _ (get_hex_done _ _ _ _ _ G1)).
  by rewrite (bind_done _ _ _ _ _ (get_hex_done _ _ _ _ _ G2)).
Qed.

Lemma answers_result (f : M Z) v h s w :
  f s = Done v (set_dbg h s) -> shows s w ->
  answers (((result <- f ;; if truth result then gdbSendPacketOK else gdbSendPacketE01) ;; ret ST_OK) s) s
    (done_or_error v, mkWorld (bytes w) h).
Proof.
  intros F [V D].
  rewrite (bind_same _ (if truth v then gdbSendPacketOK else gdbSendPacketE01) _ s (set_dbg h s)) by (by rewrite (bind_done _ _ _ _ _ F)).
  assert (E : set_dbg h s = set_mem (mem (set_dbg h s)) (set_dbg h s)) by (by destruct s).
  unfold truth, done_or_error. destruct (v =? 0); cbn [negb].
  - exact (answers_sends _ _ s (set_dbg h s) _ (mkWorld (bytes w) h) (sends_str "E01") E V eq_refl).
  - exact (answers_sends _ _ s (set_dbg h s) _ (mkWorld (bytes w) h) (sends_str "OK") E V eq_refl).
Qed.

Lemma watch_mask_bits n : is_u32 n -> watch_mask (s32 n) = match watch_bits n with Some m => m | None => 0 end.
Proof.
  intros Hn. unfold is_u32 in Hn. unfold watch_bits. case_bool_decide as E.
  - by repeat (apply elem_of_cons in E as [-> | E]; [done|]); apply elem_of_nil in E.
  - unfold watch_mask. rewrite !not_elem_of_cons in E.
    assert (H : forall k, 0 < k < 2147483648 -> n <> k -> (s32 n =? k) = false)
      by (intros k Hk Hnk; apply Z.eqb_neq; unfold s32; mlia).
    rewrite !H by lia. done.
Qed.

Lemma call_done (f : hw -> Z * hw) s v h : f (dbg s) = (v, h) -> call_hw f s = Done v (set_dbg h s).
Proof. intros E. unfold call_hw. by rewrite E. Qed.

Lemma four k : 1 <= k <= 4 -> k = 1 \/ k = 2 \/ k = 3 \/ k = 4.
Proof. lia. Qed.

(** The interpreter takes the branch of breakpoints. *)
Lemma handle_break s c0 k i n :
  reads (cmd_at s) (c0 :: code "0" + k :: code "," :: hexnum i ++ code "," :: hexnum n ++ [0]) ->
  c0 = code "Z" \/ c0 = code "z" -> 1 <= k <= 4 ->
  gdbHandleCommand s = (breakpoint_command c0 (code "0" + k) ;; ret ST_OK) s.
Proof.
  intros R Hc Hk. pose proof (third_char _ _ _ _ _ R) as R2. pose proof (second_char _ _ _ _ R) as R1.
  apply first_char in R. destruct Hc as [-> | ->], (four k Hk) as [-> | [-> | [-> | ->]]]; by dispatch.
Qed.

(** Setting a watchpoint. *)
Lemma watch_call s w k i n :
  is_u32 n -> 2 <= k <= 4 -> dbg s = breaks w ->
  exists v h,
    (if watch_mask (s32 n) =? 0 then ret 0
     else (v <- call_hw (gdbstub_set_hw_watchpoint (s32 i) (watch_mask (s32 n)) (watch_access (code "0" + k))) ;; ret (b2z (truth v)))) s
      = Done v (set_dbg h s) /\
    match watch_bits n with
    | Some mask => let '(v, h) := gdbstub_set_hw_watchpoint (s32 i) mask (watch_kind k) (breaks w) in (done_or_error v, mkWorld (bytes w) h)
    | None => (text "E01", w)
    end = (done_or_error v, mkWorld (bytes w) h).
Proof.
  intros Hn Hk D. rewrite (watch_mask_bits n Hn). destruct (watch_bits n) as [mask|] eqn:E.
  - assert (Hm : (mask =? 0) = false).
    { unfold watch_bits in E. case_bool_decide as M; [|done]. injection E as <-. apply Z.eqb_neq.
      rewrite !elem_of_cons, elem_of_nil in M. lia. }
    rewrite Hm. destruct (gdbstub_set_hw_watchpoint (s32 i) mask (watch_kind k) (breaks w)) as [v h] eqn:F.
    exists (b2z (truth v)), h. split; [|unfold done_or_error, truth; by destruct (v =? 0)].
    replace (watch_access (code "0" + k)) with (watch_kind k)
      by (destruct (four k ltac:(lia)) as [-> | [-> | [-> | ->]]]; [lia|done..]).
    rewrite <- D in F. by rewrite (bind_done _ _ _ _ _ (call_done _ _ _ _ F)).
  - exists 0, (breaks w). split; [rewrite <- D; by destruct s | by destruct w].
Qed.

Lemma handle_insert s w k i n :
  reads (cmd_at s) (payload (Insert k i n) ++ [0]) -> well_formed (Insert k i n) -> shows s w ->
  answers (gdbHandleCommand s) s (answer (regs s) w (Insert k i n)).
Proof.
  intros R (Hk & Hi & Hn) V. cbn [payload app] in R. rewrite <- app_assoc in R. cbn [app] in R.
  rewrite (handle_break _ _ _ _ _ R (or_introl eq_refl) Hk), (bind_same _ _ _ _ _ (breakpoint_numbers s _ _ i n R Hi Hn)).
  change (code "Z" =? code "Z") with true. cbv iota. pose proof V as [_ D].
  destruct (Z.eq_dec k 1) as [->|Hk1].
  - cbn [answer]. pick. destruct (gdbstub_set_hw_breakpoint (s32 i) (s32 n) (breaks w)) as [v h] eqn:F.
    apply answers_result; [|done]. rewrite <- D in F. exact (call_done _ _ _ _ F).
  - destruct (watch_call s w k i n Hn ltac:(lia) D) as (v & h & F & A).
    replace (code "0" + k =? code "1") with false by (symmetry; apply Z.eqb_neq; change (code "1") with (code "0" + 1); lia).
    replace (answer (regs s) w (Insert k i n)) with (done_or_error v, mkWorld (bytes w) h)
      by (rewrite <- A; by destruct (four k Hk) as [-> | [-> | [-> | ->]]]).
    by apply answers_result.
Qed.

Lemma handle_remove s w k i n :
  reads (cmd_at s) (payload (Remove k i n) ++ [0]) -> well_formed (Remove k i n) -> shows s w ->
  answers (gdbHandleCommand s) s (answer (regs s) w (Remove k i n)).
Proof.
  intros R (Hk & Hi & Hn) V. cbn [payload app] in R. rewrite <- app_assoc in R. cbn [app] in R.
  rewrite (handle_break _ _ _ _ _ R (or_intror eq_refl) Hk), (bind_same _ _ _ _ _ (breakpoint_numbers s _ _ i n R Hi Hn)).
  change (code "z" =? code "Z") with false. cbv iota. destruct V as [V D].
  destruct (gdbstub_del_hw_breakpoint (s32 i) (breaks w)) as [v h] eqn:F.
  destruct (gdbstub_del_hw_watchpoint (s32 i) (breaks w)) as [v' h'] eqn:F'.
  destruct (four k Hk) as [-> | [-> | [-> | ->]]]; cbn [answer]; pick; rewrite ?F, ?F';
    (apply answers_result; [rewrite <- D in *; by apply call_done | done]).
Qed.

(** ** Every request *)

Lemma bytes_of_plain bs : Forall (fun c => escaped c = false) (bytes_of bs).
Proof. induction bs as [|b bs IH]; [constructor|]. apply Forall_app. split; [apply hexs_plain | exact IH]. Qed.

Lemma escaped_plain l : Forall (fun c => escaped c = false) l -> Forall plain l.
Proof.
  intros H. eapply Forall_impl; [exact H|]. intros c. unfold escaped, plain. rewrite !orb_false_iff, !Z.eqb_neq. tauto.
Qed.

Lemma payload_plain q : well_formed q -> Forall plain (payload q).
Proof.
  pose proof (fun v => escaped_plain _ (hexs_plain (S (Z.to_nat (Z.log2 v / 4))) v)) as N.
  pose proof (fun bs => escaped_plain _ (bytes_of_plain bs)) as Bs.
  assert (D : forall k, 1 <= k <= 4 -> plain (code "0" + k)) by (intros k Hk; by destruct (four k Hk) as [-> | [-> | [-> | ->]]]).
  destruct q as [| |i bs| | | | | |ins rest|body]; cbn [payload well_formed]; intros W.
  all: repeat match goal with
    | |- Forall plain (_ ++ _) => apply Forall_app; split
    | |- Forall plain (_ :: _) => constructor
    | |- Forall plain (text _) => by repeat constructor
    | |- Forall plain (hexnum _) => apply N
    end; try done; try apply Bs.
  - apply D. tauto.
  - apply D. tauto.
  - by destruct ins.
  - tauto.
Qed.

Lemma length_bytes_of bs : length (bytes_of bs) = (2 * length bs)%nat.
Proof. induction bs as [|b bs IH]; [done|]. unfold bytes_of in *. cbn [List.map List.concat]. rewrite length_app, IH, length_hexs. cbn. lia. Qed.

Lemma handle_request s w q :
  reads (cmd_at s) (payload q ++ [0]) -> well_formed q -> (length (payload q) < PBUFLEN)%nat -> regs_typed (regs s) -> shows s w ->
  answers (gdbHandleCommand s) s (answer (regs s) w q).
Proof.
  intros R W L Hr V. destruct q as [|i n|i bs| |k i n|k i n|rest|rest|ins rest|body]; cbn [well_formed] in W.
  - by apply handle_regs.
  - apply handle_read; tauto.
  - apply handle_write; try tauto. cbn [payload length] in L. rewrite !length_app in L. cbn [length] in L.
    rewrite length_app in L. cbn [length] in L. rewrite length_bytes_of in L. unfold PBUFLEN in L. lia.
  - by apply handle_reason.
  - by apply handle_insert.
  - by apply handle_remove.
  - apply handle_supported with (rest := rest ++ [0]); [|done]. by rewrite app_assoc.
  - apply handle_attached with (rest := rest ++ [0]); [|done]. by rewrite app_assoc.
  - by apply handle_soft with (ins := ins) (rest := rest ++ [0]).
  - cbn [answer]. destruct body as [|c body]; [by apply handle_empty|]. apply (handle_unknown _ _ _ _ R); [|done]. by apply W.
Qed.
End Session.
