(* ===== verification/GdbScript.v ===== *)
(** * The GDB stub: conversations

    The command loop against the protocol: requests are answered in order, garbled
    packets are refused, packets that do not fit are dropped, noise between packets is
    ignored, and the target runs again when gdb says so. *)

From Stdlib Require Import Ascii String.
From S2P Require Import Prelude Gdb GdbPacket GdbReceive GdbMemory GdbSession.

#[local] Abbreviation length := Datatypes.length.

(** ** What gdb sends and hears *)

Inductive item := Asks (q : request) | Garbled (body : list Z) (h1 h2 : Z) | TooLong (body : list Z).
Definition wire (i : item) : list Z :=
  match i with
  | Asks q => frame (payload q)
  | Garbled body h1 h2 => code "$" :: body ++ [code "#"; h1; h2]
  | TooLong body => frame body
  end.
(** The value of two digits. *)
Definition two_digits (h1 h2 : Z) : option Z :=
  match hex_digit h1, hex_digit h2 with Some x, Some y => Some (16 * x + y) | _, _ => None end.
Definition sendable (i : item) : Prop :=
  match i with
  | Asks q => well_formed q /\ (length (payload q) < PBUFLEN)%nat
  | Garbled body h1 h2 => Forall plain body /\ (length body < PBUFLEN)%nat /\ two_digits h1 h2 <> Some (checksum body)
  | TooLong body => Forall plain body /\ (PBUFLEN <= length body)%nat
  end.
Definition noise (l : list Z) : Prop := Forall (fun c => c <> code "$") l.
Definition script := list (list Z * item).
Definition script_ok (l : script) : Prop := Forall (fun p => noise (fst p) /\ sendable (snd p)) l.
Definition script_wire (l : script) : list Z := List.concat (List.map (fun p => fst p ++ wire (snd p)) l).

(** How the target is left. *)
Inductive leave := Continue | StepOne | Detach.
Definition leave_text (v : leave) : list Z := match v with Continue => text "c" | StepOne => text "s" | Detach => text "D" end.
Definition leave_status (v : leave) : Z := match v with Detach => ST_DETACH | _ => ST_CONT end.

Inductive event := Ack | Nak | Reply (p : list Z).
Definition encode (e : event) : list Z :=
  match e with Ack => text "+" | Nak => text "-" | Reply p => frame (escape_all p) end.
(** What gdb makes of the characters; [None] when it would ask for a repetition. *)
Fixpoint hear (n : nat) (l : list Z) : option (list event) :=
  match n, l with
  | _, [] => Some []
  | O, _ => None
  | S n', c :: l' =>
      if c =? code "+" then match hear n' l' with Some e => Some (Ack :: e) | None => None end
      else if c =? code "-" then match hear n' l' with Some e => Some (Nak :: e) | None => None end
      else match receive l with
           | Some (p, r) => match hear n' r with Some e => Some (Reply p :: e) | None => None end
           | None => None
           end
  end.

Lemma hear_events es n : (length es <= n)%nat -> hear n (List.concat (List.map encode es)) = Some es.
Proof.
  revert n. induction es as [|e es IH]; intros n Hn; [by destruct n|]. destruct n as [|n]; [cbn in Hn; lia|].
  cbn [length] in Hn. specialize (IH n ltac:(lia)). cbn [List.map List.concat]. destruct e as [| |p].
  - cbn [encode text app hear]. by rewrite Z.eqb_refl, IH.
  - cbn [encode text app hear]. change (code "-" =? code "+") with false. by rewrite Z.eqb_refl, IH.
  - cbn [encode]. pose proof (receive_frame p (List.concat (List.map encode es))) as R. revert R.
    unfold frame. cbn [app]. intros R. cbn [hear]. change (code "$" =? code "+") with false.
    change (code "$" =? code "-") with false. cbv iota. by rewrite R, IH.
Qed.

Lemma events_length es : (length es <= length (List.concat (List.map encode es)))%nat.
Proof.
  induction es as [|e es IH]; [done|]. cbn [List.map List.concat length]. rewrite length_app.
  destruct e; cbn [encode text length frame]; cbn; lia.
Qed.

Section Script.
Context {T : Target}.

(** The conversation as it should be. *)
Fixpoint talk (r : XTensa_exception_frame_s) (w : world) (l : script) : list event * world :=
  match l with
  | [] => ([], w)
  | (_, Asks q) :: l' => let '(p, w') := answer r w q in let '(es, w'') := talk r w' l' in (Ack :: Reply p :: es, w'')
  | (_, Garbled _ _ _) :: l' => let '(es, w') := talk r w l' in (Nak :: es, w')
  | (_, TooLong _) :: l' => talk r w l'
  end.
Definition leave_events (v : leave) : list event := Ack :: match v with Detach => [Reply (text "OK")] | _ => [] end.
Definition leave_regs (v : leave) (r : XTensa_exception_frame_s) : XTensa_exception_frame_s :=
  match v with StepOne => set_ps (Z.lor (Z.land (ps r) (Z.lnot 0xf)) 1) r | _ => r end.
Definition leave_world (v : leave) (w : world) : world :=
  match v with StepOne => mkWorld (bytes w) (gdbstub_icount_ena_single_step (breaks w)) | _ => w end.

(** ** Receiving one packet *)

(** The loop depends on the characters through the scanner only. *)
Lemma loop_scanner f s s' : scanner Start s = scanner Start s' -> command_loop (S f) s = command_loop (S f) s'.
Proof.
  intros H. cbn [command_loop]. unfold bind at 1 8, get. unfold bind at 1 7.
  change (read_packet (S (length (rx s))) Start s) with (scanner Start s).
  change (read_packet (S (length (rx s'))) Start s') with (scanner Start s'). by rewrite H.
Qed.

Lemma loop_noise f pre q s : rx s = pre ++ q -> noise pre -> command_loop (S f) s = command_loop (S f) (set_rx q s).
Proof. intros H N. apply loop_scanner. by apply scanner_skip with pre. Qed.

(** The command buffer with the packet in it. *)
Definition loaded (body q : list Z) (s : stub) : stub :=
  set_cmd (body ++ 0 :: drop (S (length body)) (cmd s)) (set_rx q s).

Lemma terminate (body l : list Z) :
  (length body < length l)%nat ->
  <[length body := 0]> (body ++ drop (length body) l) = body ++ 0 :: drop (S (length body)) l.
Proof.
  intros H. rewrite insert_app_r_alt, Nat.sub_diag by lia. f_equal.
  destruct (lookup_lt_is_Some_2 l (length body) H) as [x Hx]. by rewrite (drop_S _ _ _ Hx).
Qed.

(** What is done with the packet [body], whose sum is [sum] and which came as [l]. *)
Lemma loop_scanned f pre l body sum h1 h2 q s :
  rx s = pre ++ code "$" :: l ++ code "#" :: h1 :: h2 :: q -> noise pre ->
  scanner (Body 0 0) (set_rx (l ++ code "#" :: h1 :: h2 :: q) s) =
    Done (sum, length body) (set_cmd (body ++ drop (length body) (cmd s)) (set_rx (h1 :: h2 :: q) s)) ->
  (length body < PBUFLEN)%nat -> length (cmd s) = PBUFLEN ->
  command_loop (S f) s =
    (if fst (gdbGetHexVal (fun i => nth (Z.to_nat i) [h1; h2] 0) 0 8) =? sum then
       upd (set_attached true) ;; gdbSendChar (code "+") ;; result <- gdbHandleCommand ;;
       if negb (result =? ST_OK) then ret result else command_loop f
     else gdbSendChar (code "-") ;; command_loop f) (loaded body q s).
Proof.
  intros H N E Hl Hc. rewrite (loop_noise f pre _ s H N).
  set (s1 := set_rx (code "$" :: l ++ code "#" :: h1 :: h2 :: q) s).
  cbn [command_loop]. unfold bind at 1, get.
  erewrite bind_done by (etrans; [exact (scanner_begin _ s1 eq_refl) | exact E]). cbv beta iota.
  erewrite bind_done.
  2: { unfold poke. replace (length body <? PBUFLEN)%nat with true by (symmetry; by apply Nat.ltb_lt). reflexivity. }
  erewrite bind_done by (by apply recv_done). erewrite bind_done by (by apply recv_done).
  cbn [cmd set_cmd]. rewrite terminate by lia. by destruct s.
Qed.

Lemma loop_packet f pre body h1 h2 q s :
  rx s = pre ++ code "$" :: body ++ code "#" :: h1 :: h2 :: q ->
  noise pre -> Forall plain body -> (length body < PBUFLEN)%nat -> length (cmd s) = PBUFLEN ->
  command_loop (S f) s =
    (if fst (gdbGetHexVal (fun i => nth (Z.to_nat i) [h1; h2] 0) 0 8) =? checksum body then
       upd (set_attached true) ;; gdbSendChar (code "+") ;; result <- gdbHandleCommand ;;
       if negb (result =? ST_OK) then ret result else command_loop f
     else gdbSendChar (code "-") ;; command_loop f) (loaded body q s).
Proof.
  intros H N Hb Hl Hc. eapply loop_scanned; [done | done | | done | done]. by rewrite (scanner_body body (h1 :: h2 :: q)).
Qed.

(** The buffer holds a packet that has been received. *)
Lemma loaded_reads body q s :
  (length body < PBUFLEN)%nat -> length (cmd s) = PBUFLEN -> reads (cmd_at (loaded body q s)) (body ++ [0]) /\ length (cmd (loaded body q s)) = PBUFLEN.
Proof.
  intros Hl Hc. unfold loaded. split.
  - intros k Hk. rewrite length_app in Hk. cbn [length] in Hk. unfold cmd_at. cbn [cmd set_cmd set_rx].
    replace (Z.of_nat k <? Z.of_nat PBUFLEN) with true by (symmetry; apply Z.ltb_lt; lia). rewrite Nat2Z.id.
    change (0 :: drop (S (length body)) (cmd s)) with ([0] ++ drop (S (length body)) (cmd s)). rewrite app_assoc.
    apply app_nth1. rewrite length_app. done.
  - cbn [cmd set_cmd set_rx]. rewrite length_app. cbn [length]. rewrite length_drop. lia.
Qed.

Lemma sum_read l : fst (gdbGetHexVal (fun i => nth (Z.to_nat i) (hexs 2 (checksum l)) 0) 0 8) = checksum l.
Proof.
  rewrite (get_byte _ [] (checksum l) []); [done | | apply checksum_u8]. intros k Hk. by rewrite Nat2Z.id, app_nil_r.
Qed.

Lemma sum_refused h1 h2 l :
  two_digits h1 h2 <> Some (checksum l) -> fst (gdbGetHexVal (fun i => nth (Z.to_nat i) [h1; h2] 0) 0 8) <> checksum l.
Proof.
  intros H. pose proof (checksum_u8 l) as [H0 _].
  assert (Bad : forall c, (if c =? code "#" then ST_ENDPACKET else ST_ERR) < 0) by (intros c; by destruct (c =? code "#")).
  unfold gdbGetHexVal. change (8 =? -1) with false. cbv zeta iota. change (Z.to_nat (Z.quot 8 4)) with 2%nat.
  unfold two_digits in H. cbn [hex_loop]. change (Z.to_nat 0) with 0%nat. change (Z.to_nat (0 + 1)) with 1%nat. cbn [nth].
  destruct (hex_digit h1) as [x|] eqn:E1; [|cbn [fst]; specialize (Bad h1); lia].
  destruct (hex_digit h2) as [y|] eqn:E2; [|cbn [fst]; specialize (Bad h2); lia].
  assert (R : forall c d, hex_digit c = Some d -> 0 <= d < 16) by (intros c d; unfold hex_digit; intros; repeat case_match; simplify_eq; lia).
  pose proof (R _ _ E1). pose proof (R _ _ E2). cbn [fst]. rewrite !append_digit by lia.
  rewrite Z.mul_0_r, Z.add_0_l, (u32_id x), u32_id, s32_small by (unfold is_u32; lia). congruence.
Qed.

(** What the loop leaves alone. *)
Definition kept (s s' : stub) : Prop :=
  regs s' = regs s /\ singleStepPs s' = singleStepPs s /\ isr_chars s' = isr_chars s /\ console s' = console s /\
  length (cmd s') = PBUFLEN.

(** ** A conversation *)

(** A packet with the right sum is acknowledged and handled. *)
Lemma loop_good f pre b q s :
  rx s = pre ++ frame b ++ q -> noise pre -> Forall plain b -> (length b < PBUFLEN)%nat -> length (cmd s) = PBUFLEN ->
  command_loop (S f) s =
    (result <- gdbHandleCommand ;; if negb (result =? ST_OK) then ret result else command_loop f)
      (set_tx (tx s ++ text "+") (set_attached true (loaded b q s))).
Proof.
  intros H N Hb Hl Hc. unfold frame in H. cbn [app] in H. rewrite <- app_assoc in H. cbn [app] in H. pose proof (sum_read b) as E.
  destruct (hexs 2 (checksum b)) as [|h1 [|h2 [|]]] eqn:Eh; try (apply (f_equal length) in Eh; by rewrite length_hexs in Eh).
  rewrite (loop_packet f pre b h1 h2 q s H N Hb Hl Hc), E, Z.eqb_refl.
  unfold bind at 1, upd. by rewrite then_send.
Qed.

Lemma loop_asks f pre q0 q s w :
  rx s = pre ++ wire (Asks q) ++ q0 -> noise pre -> sendable (Asks q) -> length (cmd s) = PBUFLEN -> regs_typed (regs s) -> shows s w ->
  exists s', command_loop (S f) s = command_loop f s' /\ kept s s' /\ rx s' = q0 /\
    shows s' (snd (answer (regs s) w q)) /\ tx s' = tx s ++ encode Ack ++ encode (Reply (fst (answer (regs s) w q))).
Proof.
  intros H N [W L] Hc Hr V. rewrite (loop_good f pre _ q0 s H N (payload_plain q W) L Hc).
  set (s1 := set_tx (tx s ++ text "+") (set_attached true (loaded (payload q) q0 s))).
  destruct (loaded_reads (payload q) q0 s L Hc) as [R C].
  destruct (handle_request s1 w q R W L Hr V) as (c & m & E & M). rewrite (bind_done _ _ _ _ _ E).
  change (negb (ST_OK =? ST_OK)) with false. cbv iota.
  eexists. split; [reflexivity|]. change (regs s1) with (regs s) in *. split_and!; try done.
  cbn [after tx set_tx set_chsum s1]. by rewrite <- app_assoc.
Qed.

Lemma loop_garbled f pre q0 body h1 h2 s w :
  rx s = pre ++ wire (Garbled body h1 h2) ++ q0 -> noise pre -> sendable (Garbled body h1 h2) -> length (cmd s) = PBUFLEN -> shows s w ->
  exists s', command_loop (S f) s = command_loop f s' /\ kept s s' /\ rx s' = q0 /\ shows s' w /\ tx s' = tx s ++ encode Nak.
Proof.
  intros H N (P & L & D) Hc V. cbn [wire app] in H. rewrite <- app_assoc in H. cbn [app] in H.
  rewrite (loop_packet f pre body h1 h2 q0 s H N P L Hc).
  replace (fst _ =? _) with false by (symmetry; apply Z.eqb_neq; by apply sum_refused).
  destruct (loaded_reads body q0 s L Hc) as [_ C]. rewrite then_send. eexists. split; [reflexivity|]. by split_and!.
Qed.

Lemma loop_too_long f pre q0 body s w :
  rx s = pre ++ wire (TooLong body) ++ q0 -> noise pre -> sendable (TooLong body) -> length (cmd s) = PBUFLEN -> shows s w ->
  exists s' pre', command_loop (S f) s = command_loop (S f) s' /\ kept s s' /\ rx s' = pre' ++ q0 /\ noise pre' /\ shows s' w /\ tx s' = tx s.
Proof.
  intros H N (P & L) Hc V. rewrite (loop_noise f pre _ s H N). cbn [wire frame app]. rewrite <- app_assoc.
  set (tl := code "#" :: hexs 2 (checksum body)). set (s1 := set_rx (code "$" :: body ++ tl ++ q0) s).
  destruct (scanner_too_long body (tl ++ q0) (set_rx (body ++ tl ++ q0) s) 0 0) as (rest & buf & E & Hr & Hb);
    [done | done | unfold PBUFLEN; lia | done | done |].
  eexists (set_cmd buf (set_rx (rest ++ tl ++ q0) s)), (rest ++ tl). split_and!; try done.
  - apply loop_scanner. rewrite (scanner_begin _ s1 eq_refl). exact E.
  - cbn. by rewrite <- app_assoc.
  - apply Forall_app. split; [eapply Forall_impl; [exact Hr|]; by intros c (_ & Hd & _)|].
    constructor; [done|]. eapply Forall_impl; [apply escaped_plain, hexs_plain|]. by intros c (_ & Hd & _).
Qed.

Lemma kept_trans s1 s2 s3 : kept s1 s2 -> kept s2 s3 -> kept s1 s3.
Proof. unfold kept. intros (A1 & A2 & A3 & A4 & A5) (B1 & B2 & B3 & B4 & B5). split_and!; congruence. Qed.

(** The conversation up to the packet that ends it. *)
Lemma loop_script l f pre tail s w :
  (length l < f)%nat -> rx s = pre ++ script_wire l ++ tail -> noise pre -> script_ok l ->
  length (cmd s) = PBUFLEN -> regs_typed (regs s) -> shows s w ->
  exists f' s' pre', command_loop f s = command_loop (S f') s' /\ kept s s' /\ rx s' = pre' ++ tail /\ noise pre' /\
    shows s' (snd (talk (regs s) w l)) /\ tx s' = tx s ++ List.concat (List.map encode (fst (talk (regs s) w l))).
Proof.
  revert f pre s w. induction l as [|[n i] l IH]; intros f pre s w Hf H N Ok Hc Hr V.
  { destruct f as [|f]; [lia|]. exists f, s, pre. cbn. rewrite app_nil_r. by split_and!. }
  destruct f as [|f]; [cbn in Hf; lia|]. cbn [length] in Hf. apply Forall_cons in Ok as [[N' Sd] Ok]. cbn [fst snd] in N', Sd.
  cbn [script_wire List.map List.concat fst snd] in H. fold (script_wire l) in H. rewrite <- !app_assoc, app_assoc in H.
  assert (Np : noise (pre ++ n)) by (apply Forall_app; by split).
  destruct i as [q|body h1 h2|body]; cbn [talk].
  - destruct (loop_asks f _ _ q s w H Np Sd Hc Hr V) as (s1 & E & K & R & V1 & X). pose proof K as (Kr & _ & _ & _ & Kc).
    destruct (answer (regs s) w q) as [p w1] eqn:A. cbn [fst snd] in V1, X.
    destruct (IH f [] s1 w1 ltac:(lia) R ltac:(constructor) Ok Kc ltac:(by rewrite Kr) V1) as (f' & s2 & pre' & E2 & K2 & R2 & N2 & V2 & X2).
    exists f', s2, pre'. rewrite Kr in *. destruct (talk (regs s) w1 l) as [es w2]. cbn [fst snd List.map List.concat] in *.
    split_and!; try done; [congruence | by eapply kept_trans |]. rewrite X2, X, <- !app_assoc. done.
  - destruct (loop_garbled f _ _ body h1 h2 s w H Np Sd Hc V) as (s1 & E & K & R & V1 & X). pose proof K as (Kr & _ & _ & _ & Kc).
    destruct (IH f [] s1 w ltac:(lia) R ltac:(constructor) Ok Kc ltac:(by rewrite Kr) V1) as (f' & s2 & pre' & E2 & K2 & R2 & N2 & V2 & X2).
    exists f', s2, pre'. rewrite Kr in *. destruct (talk (regs s) w l) as [es w2]. cbn [fst snd List.map List.concat] in *.
    split_and!; try done; [congruence | by eapply kept_trans |]. rewrite X2, X, <- !app_assoc. done.
  - destruct (loop_too_long f _ _ body s w H Np Sd Hc V) as (s1 & pre1 & E & K & R & N1 & V1 & X). pose proof K as (Kr & _ & _ & _ & Kc).
    destruct (IH (S f) pre1 s1 w ltac:(lia) R N1 Ok Kc ltac:(by rewrite Kr) V1) as (f' & s2 & pre' & E2 & K2 & R2 & N2 & V2 & X2).
    exists f', s2, pre'. rewrite Kr in *. split_and!; try done; [congruence | by eapply kept_trans | congruence].
Qed.

(** The state when the target runs again. *)
Record left_as (v : leave) (s s' : stub) (w : world) : Prop := {
  left_regs : regs s' = leave_regs v (regs s);
  left_step : singleStepPs s' = (if v is StepOne then s32 (ps (regs s)) else singleStepPs s);
  left_isr : isr_chars s' = isr_chars s;
  left_console : console s' = console s;
  left_shows : shows s' (leave_world v w)
}.

Lemma leave_handled v s w :
  cmd_at s 0 = match v with Continue => code "c" | StepOne => code "s" | Detach => code "D" end -> shows s w ->
  exists s', gdbHandleCommand s = Done (leave_status v) s' /\ left_as v s s' w /\ rx s' = rx s /\ gdb_attached s' = gdb_attached s /\
    tx s' = tx s ++ List.concat (List.map encode (tail (leave_events v))).
Proof.
  intros R0 [V D]. destruct v; dispatch.
  - eexists. split; [reflexivity|]. split; [by constructor|]. cbn. by rewrite app_nil_r.
  - eexists. split; [reflexivity|]. split; [constructor; try done; split; [done | cbn; by rewrite D]|]. cbn. by rewrite app_nil_r.
  - destruct (sends_str "OK" s) as (c & _ & E). eexists. split; [by rewrite (bind_done _ _ _ _ _ E)|].
    split; [by constructor|]. cbn [leave_events tail List.map List.concat encode]. by rewrite app_nil_r.
Qed.

Lemma loop_leave v f pre q s w :
  rx s = pre ++ frame (leave_text v) ++ q -> noise pre -> length (cmd s) = PBUFLEN -> shows s w ->
  exists s', command_loop (S f) s = Done (leave_status v) s' /\ left_as v s s' w /\ rx s' = q /\ gdb_attached s' = true /\
    tx s' = tx s ++ List.concat (List.map encode (leave_events v)).
Proof.
  intros H N Hc V. assert (L : (length (leave_text v) < PBUFLEN)%nat) by (destruct v; cbn; unfold PBUFLEN; lia).
  rewrite (loop_good f pre (leave_text v) q s H N) by (done || destruct v; by repeat constructor).
  destruct (loaded_reads (leave_text v) q s L Hc) as [R _].
  set (s1 := set_tx (tx s ++ text "+") (set_attached true (loaded (leave_text v) q s))).
  destruct (leave_handled v s1 w) as (s' & E & A & R' & At & X);
    [destruct v; exact (R 0%nat ltac:(cbn; lia)) | done |].
  exists s'. rewrite (bind_done _ _ _ _ _ E). split_and!; try done; [by destruct v | by destruct A |].
  rewrite X. cbn [tx set_tx s1]. rewrite <- app_assoc. done.
Qed.

Lemma script_length l : (length l <= length (script_wire l))%nat.
Proof.
  induction l as [|[n i] l IH]; [done|].
  assert (1 <= length (wire i))%nat by (destruct i; cbn; lia).
  change (script_wire ((n, i) :: l)) with ((n ++ wire i) ++ script_wire l). rewrite !length_app. cbn [length]. lia.
Qed.

(** The text of the reason why the target has stopped. *)
Definition stop_text (r : XTensa_exception_frame_s) : list Z := code "T" :: hexs 2 (signal_of (reason r)).

(** C19: while the target is stopped the stub is a faithful server of the remote protocol.
    Whatever gdb sends -- requests for registers and memory, breakpoints and watchpoints,
    queries, commands that the stub does not know, garbled packets, packets that are too
    long for its buffer, with noise in between -- up to the packet that lets the target go
    on: [gdbReadCommand] returns, gdb hears the reason of the stop, then exactly one
    acknowledgement and the right answer for each request in order and one refusal for
    each garbled packet, the bytes of the memory and the hardware breakpoints have changed as the
    requests say and the registers not at all (a step masks the interrupts), what follows the
    last packet is not touched, and the watchdog and the interrupts are on again. *)
Theorem gdb_session_refines (s : stub) (w : world) (l : script) (v : leave) (pre rest : list Z) :
  length (cmd s) = PBUFLEN -> regs_typed (regs s) -> shows s w -> script_ok l -> noise pre ->
  rx s = script_wire l ++ pre ++ frame (leave_text v) ++ rest ->
  exists s' out, gdbReadCommand s = Done (leave_status v) s' /\
    tx s' = tx s ++ out /\
    hear (length out) out = Some (Reply (stop_text (regs s)) :: fst (talk (regs s) w l) ++ leave_events v) /\
    left_as v s s' (snd (talk (regs s) w l)) /\ rx s' = rest /\
    gdb_attached s' = (if v is Detach then false else true) /\ wdt s' = true /\ uart_intr s' = true.
Proof.
  intros Hc Hr V Ok N H. unfold gdbReadCommand.
  erewrite bind_done by reflexivity. erewrite bind_done by reflexivity.
  set (s0 := set_wdt false (set_uart_intr false s)).
  destruct (sends_reason s0) as (c & _ & E0). erewrite bind_done by exact E0.
  set (s1 := set_chsum c (set_tx _ s0)). erewrite bind_done by reflexivity.
  assert (Hl : (length l < S (length (rx s1)))%nat).
  { change (rx s1) with (rx s). rewrite H, length_app. pose proof (script_length l). lia. }
  destruct (loop_script l _ [] (pre ++ frame (leave_text v) ++ rest) s1 w Hl H) as (f & s2 & pre2 & E2 & K & R2 & N2 & V2 & X2);
    try done; [by constructor|].
  rewrite app_assoc in R2. destruct K as (Kr & Ks & Ki & Kc & Kl).
  destruct (loop_leave v f (pre2 ++ pre) rest s2 (snd (talk (regs s) w l))) as (s3 & E3 & A & R3 & At & X3);
    [done | apply Forall_app; by split | done | done |].
  erewrite bind_done by (etrans; [exact E2 | exact E3]).
  set (es := fst (talk (regs s) w l)) in *.
  assert (X : tx s3 = tx s ++ List.concat (List.map encode (Reply (stop_text (regs s)) :: es ++ leave_events v))).
  { rewrite X3, X2. cbn [List.map List.concat]. rewrite List.map_app, concat_app, !app_assoc. done. }
  destruct A as [A1 A2 A3 A4 A5].
  eexists (set_uart_intr true (set_wdt true (if v is Detach then set_attached false s3 else s3))), _. split; [by destruct v|]. split; [|split; [apply hear_events, events_length|]].
  - destruct v; exact X.
  - rewrite Kr, Ks, Ki, Kc in *. destruct v; by split_and!; try constructor.
Qed.

(** ** Escapes *)

Definition escapes (p : list Z) : nat := length (filter (fun c => escaped c = true) p).

Lemma escape_sum c : escaped c = true -> code "}" + Z.lxor c 0x20 = c + 93.
Proof. intros E. by destruct (escaped_cases c E) as [-> | [-> | [-> | ->]]]. Qed.

Lemma total_escaped p : total (escape_all p) = total p + 93 * Z.of_nat (escapes p).
Proof.
  induction p as [|c p IH]; [done|]. change (escape_all (c :: p)) with (escape c ++ escape_all p).
  rewrite total_concat, IH. unfold escapes, escape. rewrite filter_cons. change (total (c :: p)) with (c + total p).
  destruct (escaped c) eqn:E; [rewrite decide_True by done | rewrite decide_False by done]; cbn [length].
  - change (total [code "}"; Z.lxor c 0x20]) with (code "}" + (Z.lxor c 0x20 + 0)). pose proof (escape_sum c E). lia.
  - change (total [c]) with (c + 0). lia.
Qed.

(** The stub never accepts a packet with an escaped character.  It sums up the
    characters after taking the escapes out, while the protocol defines the checksum over
    the characters as they were sent; the two differ by 93 for each escape, which is odd,
    so that they never agree for a packet that fits into the buffer: gdb hears a refusal each
    time it repeats the packet. *)
Theorem escaped_packets_refused (s : stub) (f : nat) (pre p q : list Z) :
  rx s = pre ++ frame (escape_all p) ++ q -> noise pre -> length (cmd s) = PBUFLEN -> (length p < PBUFLEN)%nat -> (0 < escapes p)%nat ->
  command_loop (S f) s = command_loop f (set_tx (tx s ++ encode Nak) (loaded p q s)).
Proof.
  intros H N Hc L E. unfold frame in H. cbn [app] in H. rewrite <- app_assoc in H. cbn [app] in H.
  pose proof (sum_read (escape_all p)) as Sum.
  destruct (hexs 2 (checksum (escape_all p))) as [|h1 [|h2 [|]]] eqn:Eh; try (apply (f_equal length) in Eh; by rewrite length_hexs in Eh).
  rewrite (loop_scanned f pre (escape_all p) p (u8 (0 + total p)) h1 h2 q s H N) by (done || by rewrite (scanner_escaped p (h1 :: h2 :: q))).
  rewrite Sum. replace (checksum (escape_all p) =? u8 (0 + total p)) with false; [by rewrite then_send|].
  symmetry. apply Z.eqb_neq. unfold checksum, u8. rewrite total_escaped.
  assert (escapes p <= length p)%nat by apply length_filter. unfold PBUFLEN in L. mlia.
Qed.

(** ** Console output *)

(** Pairs of digits as gdb reads them. *)
Fixpoint unhex (l : list Z) : option (list Z) :=
  match l with
  | [] => Some []
  | h1 :: h2 :: l' => match two_digits h1 h2, unhex l' with Some v, Some r => Some (v :: r) | _, _ => None end
  | [_] => None
  end.

Lemma unhex_bytes buf : Forall is_u8 buf -> unhex (bytes_of buf) = Some buf.
Proof.
  induction 1 as [|b buf Hb _ IH]; [done|]. change (bytes_of (b :: buf)) with (hexs 2 b ++ bytes_of buf).
  unfold is_u8 in Hb. rewrite hexs_byte. cbn [app unhex]. unfold two_digits. rewrite !hex_digit_chars by mlia. rewrite IH.
  do 2 f_equal. mlia.
Qed.

Lemma send_chars_done buf s : send_chars buf s = Done tt (set_tx (tx s ++ buf) s).
Proof.
  revert s. induction buf as [|c buf IH]; intros s; cbn [send_chars].
  - rewrite app_nil_r. by destruct s.
  - rewrite then_send, IH. cbn. by rewrite <- app_assoc.
Qed.

(** What the program prints reaches the terminal whether or not a debugger is there.
    While gdb is attached it hears one console packet that decodes to exactly the bytes written, even
    if they look like the delimiters of packets; otherwise the bytes go out as they are.
    Nothing else changes, and the interrupts of the port are on after the packet. *)
Theorem console_redirected (s : stub) (buf : list Z) :
  Forall is_u8 buf ->
  exists s' out, gdbstub_write buf s = Done tt s' /\ tx s' = tx s ++ out /\
    (if gdb_attached s
     then uart_intr s' = true /\ exists t, hear (length out) out = Some [Reply (code "O" :: t)] /\ unhex t = Some buf
     else out = buf /\ uart_intr s' = uart_intr s) /\
    regs s' = regs s /\ mem s' = mem s /\ rx s' = rx s /\ cmd s' = cmd s /\ gdb_attached s' = gdb_attached s.
Proof.
  intros Hb. unfold gdbstub_write. unfold bind at 1, get. destruct (gdb_attached s) eqn:At.
  - erewrite bind_done by reflexivity. destruct (sends_output buf (set_uart_intr false s)) as (c & _ & E).
    erewrite bind_done by exact E. eexists _, _. split; [reflexivity|]. split; [reflexivity|]. split; [|by split_and!].
    split; [done|]. exists (bytes_of buf). split; [|by apply unhex_bytes].
    pose proof (hear_events [Reply (code "O" :: bytes_of buf)] _ (events_length _)) as H.
    cbn [List.map List.concat encode] in H. rewrite app_nil_r in H. exact H.
  - rewrite send_chars_done. eexists _, _. split; [reflexivity|]. by split_and!.
Qed.
End Script.
