(* ===== verification/GdbSafety.v ===== *)
(** * The GDB stub: safety

    Whatever arrives on the serial line, the stub stays within its buffer, its loops
    end, it waits only when there is nothing left to read, and it lets the program go on
    only when gdb has said so. *)

From Stdlib Require Import Ascii String.
From S2P Require Import Prelude Gdb GdbPacket GdbReceive GdbMemory GdbSession GdbScript.

#[local] Abbreviation length := Datatypes.length.

Create HintDb gdb discriminated.
#[export] Hint Constants Opaque : gdb.

Section Safety.
Context {T : Target}.

(** A routine returns with [Q], has used up the characters, or has restarted the
    processor. *)
Definition fine {A} (o : outcome A) (Q : A -> stub -> Prop) : Prop :=
  match o with Done x s' => Q x s' | Waiting s' => rx s' = [] | Restarted _ => True | Overrun | NoFuel => False end.

Lemma fine_bind {A B} (m : M A) (k : A -> M B) s Q R :
  fine (m s) Q -> (forall x s', Q x s' -> fine (k x s') R) -> fine (bind m k s) R.
Proof. unfold bind. intros H K. by destruct (m s); [apply K|..]. Qed.

Lemma fine_weaken {A} (o : outcome A) (Q R : A -> stub -> Prop) : fine o Q -> (forall x s', Q x s' -> R x s') -> fine o R.
Proof. intros H W. destruct o; try done. by apply W. Qed.

(** What the interpreter does not touch. *)
Definition beside (s s' : stub) : Prop := rx s' = rx s /\ cmd s' = cmd s /\ gdb_attached s' = gdb_attached s /\ wdt s' = wdt s /\ uart_intr s' = uart_intr s.
Definition steady {A} (m : M A) (P : A -> Prop) : Prop := forall s, fine (m s) (fun x s' => P x /\ beside s s').

Lemma beside_trans s1 s2 s3 : beside s1 s2 -> beside s2 s3 -> beside s1 s3.
Proof. unfold beside. intros (A & B & C & W & U) (D & E & F & W' & U'). split_and!; congruence. Qed.

Lemma steady_bind {A B} (m : M A) (k : A -> M B) P : steady m (fun _ => True) -> (forall x, steady (k x) P) -> steady (bind m k) P.
Proof.
  intros H K s. eapply fine_bind; [apply H|]. intros x s1 [_ B1]. eapply fine_weaken; [apply K|].
  intros y s2 [Py B2]. split; [done|]. by eapply beside_trans.
Qed.

Lemma steady_ret {A} (x : A) (P : A -> Prop) : P x -> steady (ret x) P.
Proof. intros H s. by split. Qed.
Lemma steady_upd (f : stub -> stub) : (forall s, beside s (f s)) -> steady (upd f) (fun _ => True).
Proof. intros H s. split; [done | apply H]. Qed.
Lemma steady_get {A} (f : stub -> A) : steady (get f) (fun _ => True).
Proof. intros s. by split. Qed.
Lemma steady_if {A} (b : bool) (m1 m2 : M A) P : steady m1 P -> steady m2 P -> steady (if b then m1 else m2) P.
Proof. by destruct b. Qed.
Lemma steady_hw f : steady (call_hw f) (fun _ => True).
Proof. intros s. unfold call_hw. destruct (f (dbg s)). by split. Qed.
Lemma steady_pair {A B C} (p : A * B) (k : A -> B -> M C) P : (forall x y, steady (k x y) P) -> steady (match p with (x, y) => k x y end) P.
Proof. destruct p. auto. Qed.
End Safety.

(** Goes through the statements of a routine. *)
Ltac steadily :=
  cbv zeta; try assumption;
  lazymatch goal with
  | |- steady (bind _ _) _ => apply steady_bind; [|intros]; steadily
  | |- steady (if _ then _ else _) _ => apply steady_if; steadily
  | |- steady (match _ with (_, _) => _ end) _ => apply steady_pair; intros; steadily
  | |- steady (get _) _ => apply steady_get
  | |- steady (call_hw _) _ => apply steady_hw
  | |- steady (upd _) _ => apply steady_upd; by intros
  | |- steady (ret _) _ => apply steady_ret; auto
  | |- steady _ _ => auto with gdb nocore
  | |- _ => idtac
  end.

Section Interpreter.
Context {T : Target}.

(** ** The interpreter *)

Abbreviation calm m := (steady m (fun _ => True)).

Lemma calm_send c : calm (gdbSendChar c).
Proof. intros s. rewrite sent. by split. Qed.
#[local] Hint Resolve calm_send : gdb.

Lemma calm_char c : calm (gdbPacketChar c).
Proof. unfold gdbPacketChar, add_chsum. steadily. Qed.
#[local] Hint Resolve calm_char : gdb.

Lemma calm_hex v n : calm (gdbPacketHex v n).
Proof. induction n; cbn [gdbPacketHex]; steadily. Qed.
#[local] Hint Resolve calm_hex : gdb.

Lemma calm_start : calm gdbPacketStart.
Proof. unfold gdbPacketStart. steadily. Qed.
Lemma calm_end : calm gdbPacketEnd.
Proof. unfold gdbPacketEnd. steadily. Qed.
#[local] Hint Resolve calm_start calm_end : gdb.

Lemma calm_chars l : calm (gdbPacketChars l).
Proof. induction l; cbn [gdbPacketChars]; steadily. Qed.
#[local] Hint Resolve calm_chars : gdb.

Lemma calm_str str : calm (gdbSendPacketStr str).
Proof. unfold gdbSendPacketStr. steadily. Qed.
Lemma calm_empty : calm gdbSendEmptyPacket.
Proof. unfold gdbSendEmptyPacket. steadily. Qed.
Lemma calm_reason : calm sendReason.
Proof. unfold sendReason. steadily. Qed.
#[local] Hint Resolve calm_str calm_empty calm_reason : gdb.

Lemma calm_repeat n m : calm m -> calm (repeat_ n m).
Proof. intros H. induction n; cbn [repeat_]; steadily. Qed.
Lemma calm_unknown : calm gdbPacketXXXXInt.
Proof. apply calm_repeat. steadily. Qed.
Lemma calm_swapped v : calm (gdbPacketSwappedHexInt v).
Proof. apply calm_hex. Qed.
#[local] Hint Resolve calm_repeat calm_unknown calm_swapped : gdb.

Lemma calm_a l : calm (send_a l).
Proof. induction l; cbn [send_a]; steadily. Qed.
Lemma calm_get_hex data bits : calm (getHex data bits).
Proof. apply steady_get. Qed.
#[local] Hint Resolve calm_a calm_get_hex : gdb.
Lemma calm_get_swapped data : calm (gdbGetSwappedHexInt data).
Proof. unfold gdbGetSwappedHexInt. steadily. Qed.
Lemma calm_regs f : calm (reg_upd f).
Proof. unfold reg_upd. steadily. Qed.
#[local] Hint Resolve calm_get_swapped calm_regs : gdb.
Lemma calm_skip n data : calm (skip_regs n data).
Proof. revert data. induction n; intros; cbn [skip_regs]; steadily. Qed.
Lemma calm_receive_a n i data : calm (receive_a n i data).
Proof. revert i data. induction n; intros; cbn [receive_a]; steadily. Qed.
#[local] Hint Resolve calm_skip calm_receive_a : gdb.

Lemma calm_send_registers : calm send_registers.
Proof. unfold send_registers. steadily. Qed.
Lemma calm_receive_registers : calm receive_registers.
Proof. unfold receive_registers, gdbSendPacketOK. steadily. Qed.
Lemma calm_send_memory n i : calm (send_memory n i).
Proof. revert i. induction n; intros; cbn [send_memory]; steadily. Qed.
Lemma calm_write_memory n i data : calm (write_memory n i data).
Proof. revert i data. induction n; intros; cbn [write_memory]; steadily. Qed.
#[local] Hint Resolve calm_send_registers calm_receive_registers calm_send_memory calm_write_memory : gdb.

Lemma calm_memory c0 : calm (memory_command c0).
Proof. unfold memory_command, gdbSendPacketOK, gdbSendPacketE01. steadily. Qed.
Lemma calm_breakpoint c0 c1 : calm (breakpoint_command c0 c1).
Proof. unfold breakpoint_command, gdbSendPacketOK, gdbSendPacketE01. steadily. Qed.
Lemma calm_restart : calm system_restart_core.
Proof. done. Qed.
#[local] Hint Resolve calm_memory calm_breakpoint calm_restart : gdb.

Definition status (v : Z) : Prop := v = ST_OK \/ v = ST_CONT \/ v = ST_DETACH.

Lemma handle_steady : steady gdbHandleCommand status.
Proof. unfold gdbHandleCommand, gdbSendPacketOK, status. steadily. Qed.
End Interpreter.

(** ** The command loop *)

Section Loop.
Context {T : Target}.

Definition idle (s : stub) : Prop := length (cmd s) = PBUFLEN.
Definition within (at_ : scan_place) : Prop := match at_ with Start => True | Body _ p | Escape _ p => (p < PBUFLEN)%nat end.
(** Characters have been read. *)
Definition advanced (s s' : stub) : Prop := idle s' /\ suffix (rx s') (rx s) /\ (length (rx s') < length (rx s))%nat.

Lemma advanced_trans s1 s2 s3 : advanced s1 s2 -> advanced s2 s3 -> advanced s1 s3.
Proof. intros (A & B & C) (D & E & F). split_and!; [done | by etrans | lia]. Qed.

Lemma fine_recv s : idle s -> fine (gdbRecvChar s) (fun c s' => rx s = c :: rx s' /\ s' = set_rx (rx s') s).
Proof. intros H. unfold gdbRecvChar. destruct (rx s) eqn:E; [done|]. by split. Qed.

Lemma recv_advanced s : idle s -> fine (gdbRecvChar s) (fun _ s' => advanced s s').
Proof.
  intros H. eapply fine_weaken; [by apply fine_recv|]. intros c s' [E ->]. cbn [rx set_rx] in E.
  split_and!; [done | by exists [c] | rewrite E; cbn; lia].
Qed.

Lemma store_fine c sum p s :
  idle s -> (p < PBUFLEN)%nat -> fine (keep_char c sum p s) (fun at_ s' => within at_ /\ idle s' /\ rx s' = rx s).
Proof.
  intros H Hp. unfold keep_char, poke, bind. replace (p <? PBUFLEN)%nat with true by (symmetry; by apply Nat.ltb_lt).
  assert (I : idle (set_cmd (<[p := c]> (cmd s)) s)) by (unfold idle; cbn; by rewrite length_insert).
  unfold ret, fine. destruct (Nat.leb_spec PBUFLEN (S p)); by split_and!.
Qed.

Lemma read_fine f at_ s :
  (length (rx s) < f)%nat -> idle s -> within at_ ->
  fine (read_packet f at_ s) (fun r s' => (snd r < PBUFLEN)%nat /\ advanced s s').
Proof.
  revert at_ s. induction f as [|f IH]; intros at_ s Hf H W; [lia|]. cbn [read_packet].
  eapply fine_bind; [by apply fine_recv|]. intros c s1 [E S1]. rewrite E in Hf. cbn [length] in Hf.
  assert (H1 : idle s1) by (by rewrite S1).
  assert (Go : forall at' s2, within at' -> idle s2 -> rx s2 = rx s1 ->
    fine (read_packet f at' s2) (fun r s' => (snd r < PBUFLEN)%nat /\ advanced s s')).
  { intros at' s2 W2 H2 R2. eapply fine_weaken; [apply IH; [rewrite R2; lia | done | done]|].
    intros r s3 (P & I & X & L). split; [done|]. rewrite R2 in X, L.
    split_and!; [done | rewrite E; by apply suffix_cons_r | rewrite E; cbn; lia]. }
  assert (St : forall x sum p, (p < PBUFLEN)%nat ->
    fine ((at' <- keep_char x sum p ;; read_packet f at') s1) (fun r s' => (snd r < PBUFLEN)%nat /\ advanced s s')).
  { intros x sum p Hp. eapply fine_bind; [by apply store_fine|]. intros at' s2 (W2 & H2 & R2). by apply Go. }
  assert (W0 : within (Body 0 0)) by (unfold within, PBUFLEN; lia).
  destruct at_ as [|sum p|sum p]; [apply Go; try done; by destruct (c =? code "$") | | by apply St].
  destruct (c =? code "#"); [|destruct (c =? code "$"); [by apply Go|]; destruct (c =? code "}"); [by apply Go | by apply St]].
  split; [done|]. split_and!; [done | rewrite E; by exists [c] | rewrite E; cbn; lia].
Qed.

Lemma poke_fine p c s : idle s -> (p < PBUFLEN)%nat -> fine (poke p c s) (fun _ s' => idle s' /\ rx s' = rx s).
Proof.
  intros H Hp. unfold poke. replace (p <? PBUFLEN)%nat with true by (symmetry; by apply Nat.ltb_lt).
  split; [|done]. unfold idle. cbn. by rewrite length_insert.
Qed.

(** The loop ends only with a command that lets the program go on, from a debugger that
    is attached. *)
Lemma loop_fine f s :
  (length (rx s) < f)%nat -> idle s ->
  fine (command_loop f s) (fun v s' => (v = ST_CONT \/ v = ST_DETACH) /\ gdb_attached s' = true /\ advanced s s').
Proof.
  revert s. induction f as [|f IH]; intros s Hf H; [lia|]. cbn [command_loop]. unfold bind at 1, get.
  eapply fine_bind; [apply read_fine; [lia | done | done]|]. intros [sum p] s1 [Hp A1]. cbn [snd] in Hp.
  eapply fine_bind; [by apply poke_fine; [apply A1|]|]. intros _ s2 [H2 R2].
  eapply fine_bind; [by apply recv_advanced|]. intros c0 s3 A3.
  eapply fine_bind; [apply recv_advanced, A3|]. intros c1 s4 A4.
  assert (A : advanced s s4).
  { eapply advanced_trans; [|exact A4]. eapply advanced_trans; [|exact A3]. destruct A1 as (I1 & X1 & L1). by split_and!; rewrite ?R2. }
  assert (Again : forall s5, rx s5 = rx s4 -> cmd s5 = cmd s4 -> fine (command_loop f s5)
            (fun v s' => (v = ST_CONT \/ v = ST_DETACH) /\ gdb_attached s' = true /\ advanced s s')).
  { intros s5 R5 C5. assert (A5 : advanced s s5) by (destruct A as (I & X & L); unfold advanced, idle in *; by rewrite R5, C5).
    eapply fine_weaken; [apply IH; [destruct A5 as (_ & _ & L); lia | apply A5]|].
    intros v s6 (V & At & A6). split_and!; [done | done | by eapply advanced_trans]. }
  destruct (_ =? sum); [|rewrite then_send; by apply Again].
  unfold bind at 1, upd. rewrite then_send.
  eapply fine_bind; [apply handle_steady|]. intros v s5 [V (R5 & C5 & At5 & _)]. cbn in R5, C5, At5.
  destruct V as [-> | V]; [by apply Again|].
  replace (negb (v =? ST_OK)) with true by (by destruct V as [-> | ->]).
  destruct A as (I & X & L). split_and!; [done | done |]. unfold advanced, idle. by rewrite R5, C5.
Qed.

(** The program may go on. *)
Definition released (s : stub) (v : Z) (s' : stub) : Prop :=
  (v = ST_CONT /\ gdb_attached s' = true \/ v = ST_DETACH /\ gdb_attached s' = false) /\
  wdt s' = true /\ uart_intr s' = true /\ advanced s s'.

Lemma command_fine s : idle s -> fine (gdbReadCommand s) (released s).
Proof.
  intros H. unfold gdbReadCommand. unfold bind at 1, upd. unfold bind at 1, upd.
  eapply fine_bind; [apply calm_reason|]. intros _ s1 [_ (R1 & C1 & _)]. cbn in R1, C1. unfold bind at 1, get.
  assert (I1 : idle s1) by (unfold idle in *; congruence).
  eapply fine_bind; [apply loop_fine; [lia | done]|]. intros v s2 (V & At & A2).
  assert (A : advanced s s2) by (unfold advanced in *; by rewrite <- R1).
  destruct V as [-> | ->]; (split; [|by split_and!]); [by left | by right].
Qed.

(** ** The ways in *)

Lemma frame_fine addr fr s : idle s -> fine (gdbReadCommandWithFrame addr fr s) (fun r s' => released s (fst r) s').
Proof.
  intros H. unfold gdbReadCommandWithFrame, reg_upd. unfold bind at 1, upd.
  eapply fine_bind; [by apply command_fine|]. by intros v s' R.
Qed.

Lemma exception_fine f addr fr s :
  (length (rx s) < f)%nat -> idle s ->
  fine (exception_loop f addr fr s) (fun _ s' => gdb_attached s' = true /\ wdt s' = true /\ uart_intr s' = true /\ advanced s s').
Proof.
  revert fr s. induction f as [|f IH]; intros fr s Hf H; [lia|]. cbn [exception_loop].
  eapply fine_bind; [by apply frame_fine|]. intros [v fr'] s1 (V & W & U & A). cbn [fst] in V.
  destruct V as [[-> At] | [-> At]]; [by split_and!|]. change (ST_DETACH =? ST_CONT) with false. cbv iota.
  eapply fine_weaken; [apply IH; [destruct A as (_ & _ & L); lia | apply A]|].
  intros _ s2 (At2 & W2 & U2 & A2). split_and!; try done. by eapply advanced_trans.
Qed.

Lemma steady_emul : steady emulLdSt (fun _ => True).
Proof. unfold emulLdSt, setaregval, store_word, reg_upd. steadily. Qed.

Lemma uart_chars_fine cb n s : idle s -> fine (uart_chars cb n s) (fun _ s' => idle s' /\ wdt s' = wdt s /\ suffix (rx s') (rx s)).
Proof.
  revert s. induction n as [|n IH]; intros s H; [by split|]. cbn [uart_chars].
  eapply (fine_bind _ _ _ (fun _ s1 => idle s1 /\ wdt s1 = wdt s /\ suffix (rx s1) (rx s))).
  { unfold fifo_char. destruct (rx s) as [|c q] eqn:E; cbn; [by rewrite E|]. split_and!; [done | done | by exists [c]]. }
  intros c s1 (I1 & W1 & X1). destruct (c =? 3); [by split_and!|]. unfold bind at 1, get.
  eapply (fine_bind _ _ _ (fun _ s2 => idle s2 /\ wdt s2 = wdt s1 /\ rx s2 = rx s1)); [by destruct (_ && _)|]. intros _ s2 (I2 & W2 & R2).
  eapply fine_weaken; [by apply IH|]. intros b s3 (I3 & W3 & X3). rewrite R2 in X3. split_and!; [done | congruence | by etrans].
Qed.

(** C20: no input can make the stub misbehave.  For the exception handler, the handler of debug
    exceptions and the interrupt handler of the serial port alike, with any characters on the line: no write
    leaves the command buffer, every loop ends (also the one that waits for room in the
    transmit FIFO), the stub waits for good only when all characters
    have been read, and otherwise it restarts the processor on request or returns with the
    watchdog and the interrupts on (the handler of the serial port leaves the watchdog as
    it was when there is no Ctrl-C).  The exception handler returns only while gdb is
    attached, since a program that has faulted goes on only on its command. *)
Theorem gdb_entries_safe (s : stub) (addr : Z) (fr : list Z) (cb : bool) (fifolen : nat) :
  idle s ->
  fine (gdbstub_exception_handler addr fr s) (fun _ s' => gdb_attached s' = true /\ wdt s' = true /\ uart_intr s' = true /\ advanced s s') /\
  fine (gdbstub_handle_debug_exception_flash s) (fun _ s' => wdt s' = true /\ uart_intr s' = true /\ advanced s s') /\
  fine (gdbstub_uart_hdlr cb fifolen addr fr s) (fun _ s' =>
    uart_intr s' = true /\ (wdt s = true -> wdt s' = true) /\ idle s' /\ suffix (rx s') (rx s)).
Proof.
  intros H. split_and!.
  - unfold gdbstub_exception_handler, save_extra, reg_upd. unfold bind at 1, upd. unfold bind at 1, get.
    destruct (gdbstub_save_extra_sfrs_for_exception (dbg s)) as [[[l x] y] cause]. unfold bind at 1.
    eapply fine_weaken; [apply exception_fine; [cbn; lia | done] | done].
  - unfold gdbstub_handle_debug_exception_flash. unfold bind at 1, get.
    eapply (fine_bind _ _ _ (fun _ s1 => beside s s1)); [by destruct (negb _)|]. intros _ s1 (R1 & C1 & _).
    eapply fine_bind; [apply command_fine; unfold idle in *; congruence|]. intros v s2 (_ & W & U & A). unfold bind at 1.
    assert (A' : advanced s s2) by (unfold advanced in *; by rewrite <- R1).
    eapply (fine_weaken _ (fun _ s3 => True /\ beside s2 s3)).
    { eapply steady_if; [eapply steady_if; [apply steady_emul | eapply steady_if; [apply calm_regs | by apply steady_ret]] | by apply steady_ret]. }
    intros _ s3 [_ (R3 & C3 & _ & W3 & U3)]. split_and!; try congruence. unfold advanced, idle. by rewrite R3, C3.
  - unfold gdbstub_uart_hdlr, save_extra, reg_upd. unfold bind at 1, upd.
    destruct (gdbstub_save_extra_sfrs_for_exception (dbg s)) as [[[l x] y] cause]. unfold bind at 1.
    eapply fine_bind; [by apply uart_chars_fine|]. intros b s1 (I1 & W1 & X1). destruct b; [|cbn in *; split_and!; [done | by rewrite W1 | done | done]].
    unfold bind at 1. eapply fine_bind; [by apply frame_fine|]. intros [v fr'] s2 (_ & W & U & (I2 & X2 & _)).
    split_and!; try done. by etrans.
Qed.
End Loop.
