(* ===== verification/GdbWitness.v ===== *)
(** * The GDB stub: concrete runs

    A target with one hardware breakpoint and one watchpoint, on which the theorems about
    the stub are applied, and behaviours of the code that runs show. *)

From Stdlib Require Import Ascii String.
From S2P Require Import Prelude Gdb GdbPacket GdbReceive GdbMemory GdbSession GdbScript GdbSafety.

#[local] Abbreviation length := Datatypes.length.

(** The breakpoint and the watchpoint that are set. *)
#[local] Instance probe : Target := {|
  hw := option Z * option (Z * Z * Z);
  gdbstub_set_hw_breakpoint := fun i _ h => match fst h with None => (1, (Some i, snd h)) | Some _ => (0, h) end;
  gdbstub_set_hw_watchpoint := fun i mask access h => match snd h with None => (1, (fst h, Some (i, mask, access))) | Some _ => (0, h) end;
  gdbstub_del_hw_breakpoint := fun i h => if bool_decide (fst h = Some i) then (1, (None, snd h)) else (0, h);
  gdbstub_del_hw_watchpoint := fun i h => match snd h with Some _ => (1, (fst h, None)) | None => (0, h) end;
  gdbstub_icount_ena_single_step := fun h => h;
  gdbstub_save_extra_sfrs_for_exception := fun _ => (0, 0, 0, 28);
  behind := fun _ => 0;
  undefined := 77;
  tx_fifo_cnt := fun _ k => 127 - Z.of_nat k;   (** nearly full, one character leaves at each poll *)
  tx_patience := 2;
  tx_drains := fun _ => ex_intro _ 2%nat (conj (le_n 2) eq_refl)
|}.

Definition probe_regs : XTensa_exception_frame_s := mkFrame 0x40100010 0x30 0 0 (repeat 7 16) 1 2 3 0xff.
Definition probe_state (l : list Z) : stub :=
  mkStub probe_regs false (repeat 0 256) 0 (-1) (fun _ => 0x64636261) l [] true true [] [] (None, None).

Definition probe_script : script :=
  [(text "xx", Asks (ReadMem 0x3fff0001 3)); ([], Garbled (text "g") (code "0") (code "0"));
   ([], Asks (WriteMem 0x3fff0002 [7; 8; 9])); (text "+", Asks (ReadMem 0x3fff0000 6));
   ([], TooLong (repeat (code "G") 300)); ([], Asks (WriteMem 0x40200000 [1]));
   ([], Asks (Insert 1 0x40201000 3)); ([], Asks (Insert 2 0x3fff0010 4)); ([], Asks (Remove 1 0x40209999 3));
   ([], Asks (SoftBreak true (text ",40100000,3"))); ([], Asks (AskSupported (text ":xmlRegisters=i386"))); ([], Asks (Other (text "vMustReplyEmpty")))].

(** The session of [probe_script], then a detach. *)
Lemma gdb_session_refines_witness :
  let s := probe_state (script_wire probe_script ++ frame (leave_text Detach) ++ [3]) in
  exists s' out, gdbReadCommand s = Done ST_DETACH s' /\ rx s' = [3] /\ gdb_attached s' = false /\
    hear (length out) out =
      Some [Reply (text "T02"); Ack; Reply (text "626364"); Nak; Ack; Reply (text "OK"); Ack; Reply (text "616207080962");
            Ack; Reply (text "E01"); Ack; Reply (text "OK"); Ack; Reply (text "OK"); Ack; Reply (text "E01");
            Ack; Reply []; Ack; Reply (text "swbreak+;hwbreak+;PacketSize=FF"); Ack; Reply []; Ack; Reply (text "OK")] /\
    dbg s' = (Some 0x40201000, Some (0x3fff0010, 0x3c, 2)).
Proof.
  intros s. pose (w := mkWorld (readbyte (mem s)) (None, None) : world).
  assert (K : forall c, bool_decide (In c (text "gGmM?csDkqzZ")) = false -> ~ known c) by (intros c H; by apply bool_decide_eq_false in H).
  destruct (gdb_session_refines s w probe_script Detach [] [3]) as (s' & out & E & X & H & A & R & At & _).
  - reflexivity.
  - unfold regs_typed, is_u32. cbn. split_and!; try lia. repeat constructor; lia.
  - by split.
  - repeat (apply Forall_cons; split; [split; [by repeat constructor | cbn [snd]]|]); [..|constructor].
    all: cbn [sendable well_formed]; unfold is_u32; split_and!; try lia; try (by vm_compute); try (by repeat constructor).
    all: try (vm_compute; lia).
    intros c [= <-]. by apply K.
  - constructor.
  - reflexivity.
  - exists s', out. split_and!; [exact E | exact R | exact At | rewrite H; vm_compute; reflexivity | ].
    destruct A as [_ _ _ _ [_ D]]. rewrite D. by vm_compute.
Defined.

(** The exception handler on a detach that is followed by a packet without end and by
    nothing else. *)
Lemma gdb_entries_safe_witness :
  let s := probe_state (frame (text "D") ++ text "$m40") in
  idle s /\ fine (gdbstub_exception_handler 0x3ffffb00 (repeat 1 19) s)
    (fun _ s' => gdb_attached s' = true /\ wdt s' = true /\ uart_intr s' = true /\ advanced s s').
Proof. intros s. split; [reflexivity|]. exact (proj1 (gdb_entries_safe s 0x3ffffb00 (repeat 1 19) true 0 eq_refl)). Defined.

Lemma console_redirected_witness :
  exists s' out, gdbstub_write (text "$#}*") (set_attached true (probe_state [])) = Done tt s' /\
    exists t, hear (length out) out = Some [Reply (code "O" :: t)] /\ unhex t = Some (text "$#}*").
Proof.
  destruct (console_redirected (set_attached true (probe_state [])) (text "$#}*")) as (s' & out & E & _ & H & _).
  - repeat constructor; vm_compute; intuition discriminate.
  - exists s', out. split; [exact E|]. exact (proj2 H).
Defined.

(** gdb writes the byte 0x23 in binary. *)
Lemma escaped_packets_refused_witness :
  let p := text "X3fff0000,1:#" in
  let s := probe_state (frame (escape_all p) ++ text "rest") in
  command_loop 1 s = command_loop 0 (set_tx (text "-") (loaded p (text "rest") s)).
Proof.
  intros p s. apply (escaped_packets_refused s 0 [] p (text "rest")); [reflexivity | constructor | reflexivity | vm_compute; lia | vm_compute; lia].
Defined.

(** ** Behaviours of the code *)

(** A watchpoint of a kind that does not exist is set with an access that the stub has
    never chosen. *)
Example unknown_watchpoint_set :
  exists s', gdbReadCommand (probe_state (frame (text "Z7,3fff0010,4") ++ frame (text "c"))) = Done ST_CONT s' /\
    dbg s' = (None, Some (0x3fff0010, 0x3c, undefined)).
Proof. eexists. split; vm_compute; reflexivity. Qed.

(** The command that sets all registers is longer than the command buffer, so that it is
    never answered. *)
Example write_registers_unanswered :
  match gdbReadCommand (probe_state (frame (code "G" :: regs_text probe_regs))) with
  | Waiting s' => hear (length (tx s')) (tx s') = Some [Reply (text "T02")]
  | _ => False
  end.
Proof. vm_compute. reflexivity. Qed.

(** A write to the registers of the peripherals is acknowledged but not done. *)
Example peripheral_write_lost :
  match gdbReadCommand (probe_state (wire (Asks (WriteMem 0x60000300 [1])) ++ frame (text "c"))) with
  | Done _ s' => hear (length (tx s')) (tx s') = Some [Reply (text "T02"); Ack; Reply (text "OK"); Ack] /\
      mem s' 0x60000300 = mem (probe_state []) 0x60000300
  | _ => False
  end.
Proof. vm_compute. by split. Qed.

(** The instruction [l32i.n a5, a3, 4] at the program counter with [a3] = 0x3fff0000 loads from offset 16. *)
Example emulated_load_offset :
  let m := fun p => if p =? 0x40100010 then 0x00001358 else p in
  let r := set_a (<[3%nat := 0x3fff0000]> (repeat 0 16)) probe_regs in
  match emulLdSt (set_mem m (set_regs r (probe_state []))) with
  | Done _ s' => nth 5 (a (regs s')) 0 = 0x3fff0000 + 16
  | _ => False
  end.
Proof. vm_compute. reflexivity. Qed.

(** A BREAK.N instruction, of two bytes, is skipped by three. *)
Example narrow_break_skipped :
  let m := fun p => if p =? 0x40100010 then 0x0000f02d else p in
  match gdbstub_handle_debug_exception_flash (set_mem m (set_regs (set_reason 0x10 probe_regs) (probe_state (frame (text "c"))))) with
  | Done _ s' => pc (regs s') = 0x40100010 + 3
  | _ => False
  end.
Proof. vm_compute. reflexivity. Qed.
