(* ===== verification/Sqrt32.v ===== *)
(** * The integer square root of the ESP8266 core

    Models [cores/esp8266/sqrt32.c]: a square root of 32-bit numbers, one bit of the
    result per round, and its equivalence with the mathematical square root. *)

From S2P Require Import Prelude.

(** The loop [for (;;)]; [None] when the rounds are used up. *)
Fixpoint sqrt_loop (fuel : nat) (n c g : Z) : option Z :=
  match fuel with
  | O => None
  | S fuel' =>
      let g := if n <? u32 (g * g) then Z.lxor g c else g in
      let c := Z.shiftr c 1 in
      if c =? 0 then Some g else sqrt_loop fuel' n c (Z.lor g c)
  end.
Definition sqrt32 (n : Z) : option Z := sqrt_loop 16 n 0x8000 0x8000.

Lemma sqrt_step f n c g :
  sqrt_loop (S f) n c g =
    let g := if n <? u32 (g * g) then Z.lxor g c else g in
    let c := Z.shiftr c 1 in
    if c =? 0 then Some g else sqrt_loop f n c (Z.lor g c).
Proof. reflexivity. Qed.

(** A bit above the ones that are set. *)
Lemma set_bit h k : 0 <= k -> Z.lor (2 * h * 2 ^ k) (2 ^ k) = (2 * h + 1) * 2 ^ k.
Proof.
  intros Hk. assert (0 < 2 ^ k) by (apply Z.pow_pos_nonneg; lia).
  replace (2 * h * 2 ^ k) with (Z.shiftl h (Z.succ k)) by (rewrite Z.shiftl_mul_pow2, Z.pow_succ_r by lia; lia).
  rewrite lor_disjoint_add by (rewrite ?Z.pow_succ_r; lia). rewrite Z.pow_succ_r by lia. lia.
Qed.

Lemma clear_bit h k : 0 <= k -> Z.lxor ((2 * h + 1) * 2 ^ k) (2 ^ k) = 2 * h * 2 ^ k.
Proof.
  intros Hk. rewrite <- set_bit by done.
  replace (2 * h * 2 ^ k) with (Z.shiftl h (Z.succ k)) by (rewrite Z.shiftl_mul_pow2, Z.pow_succ_r by lia; lia).
  apply Z.bits_inj'. intros m Hm. rewrite Z.lxor_spec, Z.lor_spec, Z.pow2_bits_eqb by lia.
  destruct (Z.eqb_spec k m) as [->|]; [|by rewrite orb_false_r, xorb_false_r].
  rewrite Z.shiftl_spec_low by lia. done.
Qed.

Lemma square_fits x : 0 <= x < 65536 -> is_u32 (x * x).
Proof. unfold is_u32. nia. Qed.

(** With the [k] + 1 lowest bits to be decided, the candidate is the middle of the interval
    that holds the root. *)
Lemma sqrt_loop_correct k n h :
  0 <= h -> (2 * h + 2) * 2 ^ Z.of_nat k <= 65536 -> (2 * h * 2 ^ Z.of_nat k) * (2 * h * 2 ^ Z.of_nat k) <= n ->
  n < ((2 * h + 2) * 2 ^ Z.of_nat k) * ((2 * h + 2) * 2 ^ Z.of_nat k) ->
  sqrt_loop (S k) n (2 ^ Z.of_nat k) ((2 * h + 1) * 2 ^ Z.of_nat k) = Some (Z.sqrt n).
Proof.
  revert h. induction k as [|k IH]; intros h Hh Hb Hl Hu; rewrite sqrt_step; cbv zeta.
  - change (2 ^ Z.of_nat 0) with 1 in *. rewrite u32_id by (apply square_fits; lia).
    destruct (Z.ltb_spec n ((2 * h + 1) * 1 * ((2 * h + 1) * 1))) as [Hn|Hn].
    + pose proof (clear_bit h 0) as E. change (2 ^ 0) with 1 in E. rewrite E by lia.
      change (Z.shiftr 1 1 =? 0) with true. cbv iota. f_equal. symmetry. apply Z.sqrt_unique. lia.
    + change (Z.shiftr 1 1 =? 0) with true. cbv iota. f_equal. symmetry. apply Z.sqrt_unique. lia.
  - assert (P : 0 < 2 ^ Z.of_nat k) by (apply Z.pow_pos_nonneg; lia).
    assert (E2 : 2 ^ Z.of_nat (S k) = 2 * 2 ^ Z.of_nat k) by (rewrite Nat2Z.inj_succ, Z.pow_succ_r by lia; done).
    rewrite E2 in Hb, Hl, Hu |- *. set (p := 2 ^ Z.of_nat k) in *.
    assert (Hs : Z.shiftr (2 * p) 1 = p) by (rewrite Z.shiftr_div_pow2 by lia; change (2 ^ 1) with 2; mlia).
    rewrite Hs. replace (p =? 0) with false by (symmetry; apply Z.eqb_neq; lia).
    assert (0 <= h * p) by (apply Z.mul_nonneg_nonneg; lia). rewrite u32_id by (apply square_fits; lia).
    destruct (Z.ltb_spec n ((2 * h + 1) * (2 * p) * ((2 * h + 1) * (2 * p)))) as [Hn|Hn].
    + pose proof (clear_bit h (Z.succ (Z.of_nat k))) as E. rewrite Z.pow_succ_r in E by lia. fold p in E. rewrite E by lia.
      replace (2 * h * (2 * p)) with (2 * (2 * h) * p) by lia. unfold p. rewrite set_bit by lia. fold p. apply IH; lia.
    + replace ((2 * h + 1) * (2 * p)) with (2 * (2 * h + 1) * p) by lia. unfold p. rewrite set_bit by lia. fold p. apply IH; lia.
Qed.

(** C36: for every 32-bit number [sqrt32] returns its integer square root; the product in
    the loop never wraps around, and the loop ends after 16 rounds. *)
Theorem sqrt32_correct (n : Z) : is_u32 n -> sqrt32 n = Some (Z.sqrt n).
Proof.
  unfold is_u32, sqrt32. intros Hn. apply (sqrt_loop_correct 15 n 0); change (2 ^ Z.of_nat 15) with 32768; lia.
Qed.

Lemma sqrt32_correct_witness : sqrt32 4294967295 = Some 65535.
Proof. apply (sqrt32_correct 4294967295). unfold is_u32. lia. Defined.
