(* ===== verification/I2s.v ===== *)
(** * The I2S driver of the ESP8266 core

    Models the data path of [cores/esp8266/core_esp8266_i2s.c]: the circular chain of
    DMA buffers of each direction, the queue of buffers, the interrupt handler and the
    calls that write and read samples.

    The hardware is the DMA engine: it walks through the chain of descriptors, takes a word of the
    current buffer (or stores one) in every sample period and raises an interrupt at
    the end of a buffer.  The sample periods that pass are a script with one entry for
    each place where the program looks at what the interrupt handler and the engine share: the words
    that come in during these periods; when the script has ended, one period passes at
    each place.  Interrupts are served at once.  In the sections of the program in which
    they are masked no period passes, since neither the engine nor the handler can tell
    the difference: what would be served in the section is served behind it. *)

From S2P Require Import Prelude.

Definition SLC_BUF_CNT : nat := 8.
Definition SLC_BUF_LEN : nat := 64.

(** ** Data *)

(** Pointers to buffers and to descriptors are their indices. *)
Record slc_queue_item := mkItem {
  blocksize : Z; datalen : Z; unused : Z; sub_sof : Z; eof : Z; owner : Z; buf_ptr : nat; next_link_ptr : nat
}.
#[global] Instance item_inhabited : Inhabited slc_queue_item := populate (mkItem 0 0 0 0 0 0 0 0).

Record i2s_state := mkState {
  slc_queue : list nat;
  slc_queue_len : Z;
  slc_buf_pntr : list (list Z);
  slc_items : list slc_queue_item;
  curr_slc_buf : option nat;
  curr_slc_buf_pos : nat;
  callback : bool
}.

Definition set_queue q n ch := mkState q n (slc_buf_pntr ch) (slc_items ch) (curr_slc_buf ch) (curr_slc_buf_pos ch) (callback ch).
Definition set_bufs b ch := mkState (slc_queue ch) (slc_queue_len ch) b (slc_items ch) (curr_slc_buf ch) (curr_slc_buf_pos ch) (callback ch).
Definition set_items i ch := mkState (slc_queue ch) (slc_queue_len ch) (slc_buf_pntr ch) i (curr_slc_buf ch) (curr_slc_buf_pos ch) (callback ch).
Definition set_curr c p ch := mkState (slc_queue ch) (slc_queue_len ch) (slc_buf_pntr ch) (slc_items ch) c p (callback ch).

(** The engine of a channel: descriptor and word, what has gone over the line, whether it has reached a
    buffer that the program was still using, whether it has stopped. *)
Record engine := mkEngine { at_item : nat; at_word : nat; line : list Z; overtaken : bool; stopped : bool }.

Record i2s := mkI2s {
  tx : option i2s_state; rx : option i2s_state;
  tx_dma : engine; rx_dma : engine;
  script : list (list Z);
  tx_calls : nat; rx_calls : nat
}.
Definition set_tx v s := mkI2s v (rx s) (tx_dma s) (rx_dma s) (script s) (tx_calls s) (rx_calls s).
Definition set_rx v s := mkI2s (tx s) v (tx_dma s) (rx_dma s) (script s) (tx_calls s) (rx_calls s).
Definition set_script v s := mkI2s (tx s) (rx s) (tx_dma s) (rx_dma s) v (tx_calls s) (rx_calls s).

(** ** Status *)

Definition need_buffer (ch : i2s_state) : bool :=
  (curr_slc_buf_pos ch =? SLC_BUF_LEN)%nat || (if curr_slc_buf ch is None then true else false).
Definition _i2s_is_full (ch : option i2s_state) : bool :=
  match ch with None => false | Some ch => need_buffer ch && (slc_queue_len ch =? 0) end.
Definition _i2s_is_empty (ch : option i2s_state) : bool :=
  match ch with None => false | Some ch => Z.of_nat SLC_BUF_CNT - 1 <=? slc_queue_len ch end.
Definition _i2s_available (ch : option i2s_state) : Z :=
  match ch with None => 0 | Some ch => u16 ((Z.of_nat SLC_BUF_CNT - slc_queue_len ch) * Z.of_nat SLC_BUF_LEN) end.

Definition i2s_is_full (s : i2s) : bool := _i2s_is_full (tx s).
Definition i2s_rx_is_full (s : i2s) : bool := _i2s_is_full (rx s).
Definition i2s_is_empty (s : i2s) : bool := _i2s_is_empty (tx s).
Definition i2s_rx_is_empty (s : i2s) : bool := _i2s_is_empty (rx s).
Definition i2s_available (s : i2s) : Z := _i2s_available (tx s).
Definition i2s_rx_available (s : i2s) : Z := _i2s_available (rx s).

(** ** The queue *)

Fixpoint shift_down (n i : nat) (q : list nat) : list nat :=
  match n with O => q | S n' => shift_down n' (S i) (<[i := q !!! S i]> q) end.
Definition i2s_slc_queue_next_item (ch : i2s_state) : nat * i2s_state :=
  let item := slc_queue ch !!! 0%nat in
  let len := u8 (slc_queue_len ch - 1) in
  (item, set_queue (shift_down (Z.to_nat len) 0 (slc_queue ch)) len ch).

(** [n] entries are left from [i] on. *)
Fixpoint shift_up (n i dest item : nat) (q : list nat) : list nat :=
  match n with
  | O => q
  | S n' => if (q !!! i =? item)%nat then shift_up n' (S i) dest item q else shift_up n' (S i) (S dest) item (<[dest := q !!! i]> q)
  end.
Definition i2s_slc_queue_append_item (item : nat) (ch : i2s_state) : i2s_state :=
  let q := shift_up (Z.to_nat (slc_queue_len ch)) 0 0 item (slc_queue ch) in
  let q := <[Z.to_nat (slc_queue_len ch) := item]> q in
  if slc_queue_len ch <? Z.of_nat SLC_BUF_CNT - 1 then set_queue q (u8 (slc_queue_len ch + 1)) ch else set_queue q (slc_queue_len ch) ch.

(** ** The interrupt handler *)

Definition isr_transmitted (finished_item : slc_queue_item) (ch : i2s_state) : i2s_state :=
  let ch := set_bufs (<[buf_ptr finished_item := repeat 0 SLC_BUF_LEN]> (slc_buf_pntr ch)) ch in
  let ch := if Z.of_nat SLC_BUF_CNT - 1 <=? slc_queue_len ch then snd (i2s_slc_queue_next_item ch) else ch in
  set_queue (<[Z.to_nat (slc_queue_len ch) := buf_ptr finished_item]> (slc_queue ch)) (u8 (slc_queue_len ch + 1)) ch.
Definition set_owner (i : slc_queue_item) : slc_queue_item :=
  mkItem (blocksize i) (datalen i) (unused i) (sub_sof i) (eof i) 1 (buf_ptr i) (next_link_ptr i).
Definition isr_received (k : nat) (ch : i2s_state) : i2s_state :=
  let ch := set_items (<[k := set_owner (slc_items ch !!! k)]> (slc_items ch)) ch in
  i2s_slc_queue_append_item (buf_ptr (slc_items ch !!! k)) ch.

(** [rxeof], [txeof]: the descriptors in [SLCRXEDA] and [SLCTXEDA] when the bits of the
    interrupts are set.  (The transmitter of the I2S interface is the receiver of the
    SLC.) *)
Definition i2s_slc_isr (rxeof txeof : option nat) (s : i2s) : i2s :=
  let s :=
    match rxeof, tx s with
    | Some k, Some ch =>
        mkI2s (Some (isr_transmitted (slc_items ch !!! k) ch)) (rx s) (tx_dma s) (rx_dma s) (script s)
          (if callback ch then S (tx_calls s) else tx_calls s) (rx_calls s)
    | _, _ => s
    end in
  match txeof, rx s with
  | Some k, Some ch =>
      mkI2s (tx s) (Some (isr_received k ch)) (tx_dma s) (rx_dma s) (script s)
        (tx_calls s) (if callback ch then S (rx_calls s) else rx_calls s)
  | _, _ => s
  end.

Definition set_tx_callback (b : bool) (ch : i2s_state) : i2s_state :=
  mkState (slc_queue ch) (slc_queue_len ch) (slc_buf_pntr ch) (slc_items ch) (curr_slc_buf ch) (curr_slc_buf_pos ch) b.
Definition i2s_set_callback (b : bool) (s : i2s) : option i2s := ch ← tx s; Some (set_tx (Some (set_tx_callback b ch)) s).
Definition i2s_rx_set_callback (b : bool) (s : i2s) : option i2s := ch ← rx s; Some (set_rx (Some (set_tx_callback b ch)) s).

(** ** The engine *)

(** The program is still using the buffer [b]. *)
Definition in_use (ch : i2s_state) (b : nat) : bool :=
  match curr_slc_buf ch with Some c => (c =? b)%nat && (curr_slc_buf_pos ch <? SLC_BUF_LEN)%nat | None => false end.
Definition waiting (ch : i2s_state) (b : nat) : bool :=
  bool_decide (b ∈ take (Z.to_nat (slc_queue_len ch)) (slc_queue ch)).

(** One word is sent: the descriptor that this has finished. *)
Definition dma_send (ch : i2s_state) (e : engine) : option nat * engine :=
  let d := slc_items ch !!! at_item e in
  let out := line e ++ [(slc_buf_pntr ch !!! buf_ptr d) !!! at_word e] in
  if Z.of_nat (S (at_word e)) * 4 <? datalen d then (None, mkEngine (at_item e) (S (at_word e)) out (overtaken e) (stopped e))
  else
    let d' := slc_items ch !!! next_link_ptr d in
    (Some (at_item e), mkEngine (next_link_ptr d) 0 out (overtaken e || in_use ch (buf_ptr d')) (stopped e)).

Definition clear_owner (i : slc_queue_item) : slc_queue_item :=
  mkItem (blocksize i) (datalen i) (unused i) (sub_sof i) (eof i) 0 (buf_ptr i) (next_link_ptr i).
(** One word comes in.  The engine clears the owner bit of a descriptor that it has filled, and
    stops at a descriptor whose bit has not been set again. *)
Definition dma_receive (w : Z) (ch : i2s_state) (e : engine) : option nat * i2s_state * engine :=
  let d := slc_items ch !!! at_item e in
  if stopped e || (owner d =? 0) then (None, ch, mkEngine (at_item e) (at_word e) (line e) (overtaken e) true)
  else
    let b := slc_buf_pntr ch !!! buf_ptr d in
    let ch' := set_bufs (<[buf_ptr d := <[at_word e := w]> b]> (slc_buf_pntr ch)) ch in
    let got := line e ++ [w] in
    if Z.of_nat (S (at_word e)) * 4 <? datalen d then (None, ch', mkEngine (at_item e) (S (at_word e)) got (overtaken e) false)
    else
      let d' := slc_items ch !!! next_link_ptr d in
      (Some (at_item e), set_items (<[at_item e := clear_owner d]> (slc_items ch')) ch',
       mkEngine (next_link_ptr d) 0 got (overtaken e || in_use ch (buf_ptr d') || waiting ch (buf_ptr d')) false).

(** A sample period. *)
Definition tick (w : Z) (s : i2s) : i2s :=
  let '(rxeof, s) :=
    match tx s with
    | Some ch => let '(r, e) := dma_send ch (tx_dma s) in (r, mkI2s (tx s) (rx s) e (rx_dma s) (script s) (tx_calls s) (rx_calls s))
    | None => (None, s)
    end in
  let '(txeof, s) :=
    match rx s with
    | Some ch => let '(r, ch', e) := dma_receive w ch (rx_dma s) in (r, mkI2s (tx s) (Some ch') (tx_dma s) e (script s) (tx_calls s) (rx_calls s))
    | None => (None, s)
    end in
  i2s_slc_isr rxeof txeof s.
Fixpoint ticks (ws : list Z) (s : i2s) : i2s := match ws with [] => s | w :: ws' => ticks ws' (tick w s) end.

(** ** Programs *)

(** A call returns, uses a null pointer, or has waited for as many rounds as there is fuel. *)
Inductive outcome (A : Type) := Done (x : A) (s : i2s) | Fault | Spins.
Arguments Done {A}. Arguments Fault {A}. Arguments Spins {A}.
Definition M (A : Type) := i2s -> outcome A.
Definition ret {A} (x : A) : M A := Done x.
Definition bind {A B} (m : M A) (k : A -> M B) : M B :=
  fun s => match m s with Done x s' => k x s' | Fault => Fault | Spins => Spins end.

Declare Scope i2s_scope.
Delimit Scope i2s_scope with i2s.
Notation "x <- m ;; k" := (bind m (fun x => k)) (at level 100, m at next level, right associativity) : i2s_scope.
Notation "m ;; k" := (bind m (fun _ => k)) (at level 100, right associativity) : i2s_scope.
Open Scope i2s_scope.

(** Time passes. *)
Definition access : M unit :=
  fun s => match script s with
           | [] => Done tt (tick 0 s)
           | ws :: l => Done tt (ticks ws (set_script l s))
           end.

(** The state of the channel that is sent on or received from. *)
Inductive dir := Tx | Rx.
Definition chan (d : dir) (s : i2s) : option i2s_state := match d with Tx => tx s | Rx => rx s end.
Definition set_chan (d : dir) (ch : i2s_state) (s : i2s) : i2s := match d with Tx => set_tx (Some ch) s | Rx => set_rx (Some ch) s end.
Definition look {A} (d : dir) (f : i2s_state -> A) : M A :=
  fun s => match chan d s with Some ch => Done (f ch) s | None => Fault end.
Definition change (d : dir) (f : i2s_state -> i2s_state) : M unit :=
  fun s => match chan d s with Some ch => Done tt (set_chan d (f ch) s) | None => Fault end.

(** [while (1)]: until there is a buffer in the queue. *)
Fixpoint await (d : dir) (fuel : nat) : M unit :=
  match fuel with
  | O => fun _ => Spins
  | S fuel' =>
      access ;; n <- look d slc_queue_len ;;
      if 0 <? n then ret tt else await d fuel'
  end.
Definition take_item (ch : i2s_state) : i2s_state :=
  let '(item, ch) := i2s_slc_queue_next_item ch in set_curr (Some item) 0 ch.
(** A buffer for the next samples if one is needed; [false] when there is none and the
    call shall not block. *)
Definition get_buffer (d : dir) (fuel : nat) (nb : bool) : M bool :=
  full <- look d need_buffer ;;
  if full : bool then
    access ;; n <- look d slc_queue_len ;;
    if (n =? 0) && nb then ret false
    else (if n =? 0 then await d fuel else ret tt) ;; access ;; change d take_item ;; ret true
  else ret true.

Definition write_word (v : Z) (ch : i2s_state) : i2s_state :=
  match curr_slc_buf ch with
  | Some b => set_curr (Some b) (S (curr_slc_buf_pos ch))
                (set_bufs (<[b := <[curr_slc_buf_pos ch := v]> (slc_buf_pntr ch !!! b)]> (slc_buf_pntr ch)) ch)
  | None => ch
  end.
Definition _i2s_write_sample (fuel : nat) (sample : Z) (nb : bool) : M bool :=
  fun s => match tx s with
           | None => Done false s
           | Some _ =>
               (ok <- get_buffer Tx fuel nb ;;
                if ok : bool then access ;; change Tx (write_word sample) ;; ret true else ret false) s
           end.
Definition i2s_write_sample fuel sample := _i2s_write_sample fuel sample false.
Definition i2s_write_sample_nb fuel sample := _i2s_write_sample fuel sample true.
Definition lr_sample (left right : Z) : Z := u32 (Z.lor (Z.shiftl (Z.land right 0xFFFF) 16) (Z.land left 0xFFFF)).
Definition i2s_write_lr fuel left right := i2s_write_sample fuel (lr_sample left right).

(** A frame and the rest of the samples. *)
Definition frame_word (mono : bool) (frames : list Z) : Z * list Z :=
  let v1 := u16 (frames !!! 0%nat) in
  if mono then (u32 (Z.lor (Z.shiftl v1 16) v1), drop 1 frames)
  else (u32 (Z.lor (Z.shiftl v1 16) (u16 (frames !!! 1%nat))), drop 2 frames).
Fixpoint write_frames (fc : nat) (mono : bool) (frames : list Z) : M (list Z) :=
  match fc with
  | O => ret frames
  | S fc' =>
      let '(v, frames) := frame_word mono frames in
      access ;; change Tx (write_word v) ;; write_frames fc' mono frames
  end.
(** [n]: at most so many rounds, since each writes a frame. *)
Fixpoint write_rounds (n fuel : nat) (mono nb : bool) (frames : list Z) (frame_count written : nat) : M nat :=
  match n with
  | O => ret written
  | S n' =>
      if (frame_count =? 0)%nat then ret written else
      ok <- get_buffer Tx fuel nb ;;
      if ok : bool then
        pos <- look Tx curr_slc_buf_pos ;;
        let available := (SLC_BUF_LEN - pos)%nat in
        let fc := if (available <? frame_count)%nat then available else frame_count in
        frames <- write_frames fc mono frames ;;
        write_rounds n' fuel mono nb frames (frame_count - fc) (written + fc)
      else ret written
  end.
Definition _i2s_write_buffer (fuel : nat) (frames : list Z) (frame_count : nat) (mono nb : bool) : M nat :=
  write_rounds (S frame_count) fuel mono nb frames frame_count 0.

Definition i2s_write_buffer_mono_nb fuel frames frame_count := _i2s_write_buffer fuel frames frame_count true true.
Definition i2s_write_buffer_mono fuel frames frame_count := _i2s_write_buffer fuel frames frame_count true false.
Definition i2s_write_buffer_nb fuel frames frame_count := _i2s_write_buffer fuel frames frame_count false true.
Definition i2s_write_buffer fuel frames frame_count := _i2s_write_buffer fuel frames frame_count false false.

Definition fetch_word (ch : i2s_state) : i2s_state := set_curr (curr_slc_buf ch) (S (curr_slc_buf_pos ch)) ch.
Definition sample_at (ch : i2s_state) : Z :=
  match curr_slc_buf ch with Some b => (slc_buf_pntr ch !!! b) !!! curr_slc_buf_pos ch | None => 0 end.
(** The sample that was read as [left] and [right]. *)
Definition i2s_read_sample (fuel : nat) (blocking : bool) : M (option (Z * Z)) :=
  fun s => match rx s with
           | None => Done None s
           | Some _ =>
               (ok <- get_buffer Rx fuel (negb blocking) ;;
                if ok : bool then
                  access ;; sample <- look Rx sample_at ;; change Rx fetch_word ;;
                  ret (Some (s16 (Z.land sample 0xffff), s16 (Z.shiftr sample 16)))
                else ret None) s
           end.

(** ** Opening a channel *)

(** [ok]: which allocations succeed.  The state comes zeroed from [calloc]. *)
Definition zeroed : i2s_state :=
  mkState (repeat 0%nat SLC_BUF_CNT) 0 [] (repeat inhabitant SLC_BUF_CNT) None 0 false.
Definition linked_item (x : nat) : slc_queue_item :=
  mkItem (Z.of_nat SLC_BUF_LEN * 4) (Z.of_nat SLC_BUF_LEN * 4) 0 0 1 1 x (if (x <? SLC_BUF_CNT - 1)%nat then S x else 0%nat).
Fixpoint alloc_bufs (n x : nat) (ok : nat -> bool) (ch : i2s_state) : bool * i2s_state :=
  match n with
  | O => (true, ch)
  | S n' =>
      if ok x then
        alloc_bufs n' (S x) ok
          (set_items (<[x := linked_item x]> (slc_items ch)) (set_bufs (slc_buf_pntr ch ++ [repeat 0 SLC_BUF_LEN]) ch))
      else (false, ch)
  end.
Definition _alloc_channel (ok : nat -> bool) (ch : i2s_state) : bool * i2s_state :=
  alloc_bufs SLC_BUF_CNT 0 ok (set_queue (slc_queue ch) 0 ch).
