(* ===== verification/I2sRing.v ===== *)
(** * The I2S driver: the chain of buffers

    The queue as a list, the order of the buffers in the chain, and what holds of a
    channel at all times. *)

From S2P Require Import Prelude I2s.

(** ** The queue *)

(** The entries of the queue. *)
Definition queue_is (ch : i2s_state) (Q : list nat) : Prop :=
  slc_queue_len ch = Z.of_nat (length Q) /\ length (slc_queue ch) = SLC_BUF_CNT /\ take (length Q) (slc_queue ch) = Q.

Lemma length_shift_down n i q : length (shift_down n i q) = length q.
Proof. revert i q. induction n as [|n IH]; intros i q; [done|]. cbn [shift_down]. by rewrite IH, length_insert. Qed.

Lemma shift_down_take n i q :
  (i + n < length q)%nat -> take (i + n) (shift_down n i q) = take i q ++ take n (drop (S i) q).
Proof.
  revert i q. induction n as [|n IH]; intros i q H; cbn [shift_down].
  - by rewrite Nat.add_0_r, take_0, app_nil_r.
  - rewrite Nat.add_succ_r, <- Nat.add_succ_l. rewrite IH by (rewrite length_insert; lia).
    replace (S i) with (i + 1)%nat at 1 by lia. rewrite take_insert_next by lia. rewrite <- app_assoc. f_equal.
    rewrite drop_insert_lt by lia.
    destruct (lookup_lt_is_Some_2 q (S i)) as [x Hx]; [lia|]. rewrite (drop_S q _ (S i) Hx), (list_lookup_total_correct _ _ _ Hx). done.
Qed.

Lemma next_item_ok ch x Q :
  queue_is ch (x :: Q) -> (length Q < SLC_BUF_CNT)%nat ->
  exists q, i2s_slc_queue_next_item ch = (x, set_queue q (Z.of_nat (length Q)) ch) /\
    queue_is (set_queue q (Z.of_nat (length Q)) ch) Q.
Proof.
  intros (Hn & Hl & Ht) Hq. unfold SLC_BUF_CNT in *. cbn [length] in Hn, Ht.
  destruct (slc_queue ch) as [|y q] eqn:Eq; [done|]. cbn [take] in Ht. injection Ht as -> Ht. cbn [length] in Hl.
  eexists. unfold i2s_slc_queue_next_item. cbv zeta. rewrite Eq.
  replace (u8 (slc_queue_len ch - 1)) with (Z.of_nat (length Q)) by (rewrite u8_id; unfold is_u8; lia).
  rewrite Nat2Z.id. split; [reflexivity|]. split_and!; [done | cbn [set_queue slc_queue]; by rewrite length_shift_down |].
  cbn [set_queue slc_queue]. change (length Q) with (0 + length Q)%nat at 1.
  rewrite shift_down_take by (cbn; lia). done.
Qed.

Lemma queue_push ch Q b :
  queue_is ch Q -> (length Q < SLC_BUF_CNT)%nat ->
  queue_is (set_queue (<[Z.to_nat (slc_queue_len ch) := b]> (slc_queue ch)) (u8 (slc_queue_len ch + 1)) ch) (Q ++ [b]).
Proof.
  intros (Hn & Hl & Ht) Hq. unfold SLC_BUF_CNT in *. rewrite Hn, Nat2Z.id. unfold queue_is. cbn [slc_queue_len slc_queue set_queue].
  rewrite length_insert, length_app. cbn [length]. split_and!; [rewrite u8_id; unfold is_u8; lia | done |].
  rewrite take_insert_next by lia. by rewrite Ht.
Qed.

Lemma shift_up_same n i item q : item ∉ take (i + n) q -> (i + n <= length q)%nat -> shift_up n i i item q = q.
Proof.
  revert i. induction n as [|n IH]; intros i H Hl; [done|]. cbn [shift_up].
  destruct (lookup_lt_is_Some_2 q i) as [x Hx]; [lia|]. rewrite (list_lookup_total_correct _ _ _ Hx).
  destruct (Nat.eqb_spec x item) as [->|Hne].
  - exfalso. apply H. apply list_elem_of_lookup. exists i. rewrite lookup_take_lt by lia. done.
  - rewrite list_insert_id by done. rewrite IH; [done | by rewrite Nat.add_succ_l, <- Nat.add_succ_r | lia].
Qed.

Lemma append_ok ch Q b :
  queue_is ch Q -> b ∉ Q -> (S (length Q) < SLC_BUF_CNT)%nat -> queue_is (i2s_slc_queue_append_item b ch) (Q ++ [b]).
Proof.
  intros HQ Hb Hq. pose proof HQ as (Hn & Hl & Ht). unfold i2s_slc_queue_append_item, SLC_BUF_CNT in *. cbv zeta.
  rewrite shift_up_same; [|rewrite Hn, Nat2Z.id; cbn [plus]; by rewrite Ht|lia].
  replace (slc_queue_len ch <? Z.of_nat 8 - 1) with true by (symmetry; apply Z.ltb_lt; lia). apply queue_push; [done | unfold SLC_BUF_CNT; lia].
Qed.

(** ** The chain *)

Definition nextd (d : nat) : nat := if (d <? SLC_BUF_CNT - 1)%nat then S d else 0%nat.
(** The buffers in the order in which the engine will come to them from [d] on. *)
Definition ring (d : nat) : list nat := map (fun j => (d + j) mod SLC_BUF_CNT)%nat (seq 0 SLC_BUF_CNT).

Ltac all_descriptors d := do 8 (destruct d as [|d]; [by vm_compute|]); exfalso; unfold SLC_BUF_CNT in *; lia.

Lemma nextd_bound d : (nextd d < SLC_BUF_CNT)%nat.
Proof. unfold nextd, SLC_BUF_CNT. destruct (Nat.ltb_spec d (8 - 1)); lia. Qed.
Lemma ring_head d : (d < SLC_BUF_CNT)%nat -> ring d = d :: tail (ring d).
Proof. intros H. all_descriptors d. Qed.
Lemma ring_next d : (d < SLC_BUF_CNT)%nat -> ring (nextd d) = tail (ring d) ++ [d].
Proof. intros H. all_descriptors d. Qed.
Lemma ring_nodup d : (d < SLC_BUF_CNT)%nat -> NoDup (ring d).
Proof.
  intros H. apply (bool_decide_unpack _). revert H. intros H. all_descriptors d.
Qed.
Lemma ring_bound d : Forall (fun b => (b < SLC_BUF_CNT)%nat) (ring d).
Proof. apply Forall_map, Forall_forall. intros j _. apply Nat.mod_upper_bound. done. Qed.
Lemma length_ring d : length (ring d) = SLC_BUF_CNT.
Proof. unfold ring. by rewrite length_map, length_seq. Qed.

(** ** The channels *)

Definition eng (d : dir) (s : i2s) : engine := match d with Tx => tx_dma s | Rx => rx_dma s end.
(** What a sample period does to a channel. *)
Definition next_tx (ch : i2s_state) (e : engine) : i2s_state * engine :=
  let '(r, e') := dma_send ch e in (match r with Some k => isr_transmitted (slc_items ch !!! k) ch | None => ch end, e').
Definition next_rx (w : Z) (ch : i2s_state) (e : engine) : i2s_state * engine :=
  let '(r, ch', e') := dma_receive w ch e in (match r with Some k => isr_received k ch' | None => ch' end, e').
Definition next (d : dir) (w : Z) (ch : i2s_state) (e : engine) : i2s_state * engine :=
  match d with Tx => next_tx ch e | Rx => next_rx w ch e end.

Lemma tick_chan d w s ch :
  chan d s = Some ch ->
  chan d (tick w s) = Some (fst (next d w ch (eng d s))) /\ eng d (tick w s) = snd (next d w ch (eng d s)) /\ script (tick w s) = script s.
Proof.
  intros H. destruct d; cbn [chan eng next] in *; unfold tick, next_tx, next_rx.
  - rewrite H. destruct (dma_send ch (tx_dma s)) as [r e]. cbn [rx].
    destruct (rx s) as [c|]; [destruct (dma_receive w c _) as [[r' c'] e']|]; cbn; unfold i2s_slc_isr;
      destruct r as [k|]; cbn; rewrite ?H; try destruct r' as [k'|]; by cbn.
  - destruct (tx s) as [c|]; [destruct (dma_send c _) as [r e]|]; cbn [rx rx_dma tx tx_dma script]; rewrite H;
      destruct (dma_receive w ch (rx_dma s)) as [[r' ch'] e']; unfold i2s_slc_isr; cbn;
      try destruct r as [k|]; destruct r' as [k'|]; cbn; by split_and!.
Qed.

(** All pointers and indices of a channel are in range. *)
Record safe (ch : i2s_state) (e : engine) : Prop := {
  safe_items : slc_items ch = map linked_item (seq 0 SLC_BUF_CNT);
  safe_queue : length (slc_queue ch) = SLC_BUF_CNT /\ Forall (fun b => (b < SLC_BUF_CNT)%nat) (slc_queue ch) /\
    0 <= slc_queue_len ch < Z.of_nat SLC_BUF_CNT;
  safe_bufs : length (slc_buf_pntr ch) = SLC_BUF_CNT /\ Forall (fun b => length b = SLC_BUF_LEN) (slc_buf_pntr ch);
  safe_at : (at_item e < SLC_BUF_CNT)%nat /\ (at_word e < SLC_BUF_LEN)%nat;
  safe_curr : (if curr_slc_buf ch is Some b then (b < SLC_BUF_CNT)%nat else True) /\ (curr_slc_buf_pos ch <= SLC_BUF_LEN)%nat;
  safe_run : stopped e = false
}.

Lemma linked_lookup k : (k < SLC_BUF_CNT)%nat -> map linked_item (seq 0 SLC_BUF_CNT) !!! k = linked_item k.
Proof. intros H. all_descriptors k. Qed.

Lemma words_left k : (k < SLC_BUF_LEN)%nat -> (Z.of_nat (S k) * 4 <? Z.of_nat SLC_BUF_LEN * 4) = (S k <? SLC_BUF_LEN)%nat.
Proof. unfold SLC_BUF_LEN. destruct (Nat.ltb_spec (S k) 64); [rewrite Z.ltb_lt | rewrite Z.ltb_ge]; lia. Qed.

Definition word_at (ch : i2s_state) (e : engine) : Z := (slc_buf_pntr ch !!! at_item e) !!! at_word e.

Lemma next_tx_eq ch e :
  safe ch e ->
  next_tx ch e =
    if (S (at_word e) <? SLC_BUF_LEN)%nat
    then (ch, mkEngine (at_item e) (S (at_word e)) (line e ++ [word_at ch e]) (overtaken e) (stopped e))
    else (isr_transmitted (linked_item (at_item e)) ch,
          mkEngine (nextd (at_item e)) 0 (line e ++ [word_at ch e]) (overtaken e || in_use ch (nextd (at_item e))) (stopped e)).
Proof.
  intros Sf. destruct (safe_at _ _ Sf) as [Hi Hw]. unfold next_tx, dma_send. cbv zeta.
  rewrite (safe_items _ _ Sf), linked_lookup by done. cbn [datalen linked_item]. rewrite words_left by done.
  destruct (S (at_word e) <? SLC_BUF_LEN)%nat; [done|]. fold (nextd (at_item e)). cbn [next_link_ptr linked_item].
  fold (nextd (at_item e)). rewrite !linked_lookup by (done || apply nextd_bound). done.
Qed.

Lemma next_rx_eq w ch e :
  safe ch e ->
  let ch' := set_bufs (<[at_item e := <[at_word e := w]> (slc_buf_pntr ch !!! at_item e)]> (slc_buf_pntr ch)) ch in
  next_rx w ch e =
    if (S (at_word e) <? SLC_BUF_LEN)%nat
    then (ch', mkEngine (at_item e) (S (at_word e)) (line e ++ [w]) (overtaken e) false)
    else (i2s_slc_queue_append_item (at_item e) ch',
          mkEngine (nextd (at_item e)) 0 (line e ++ [w])
            (overtaken e || in_use ch (nextd (at_item e)) || waiting ch (nextd (at_item e))) false).
Proof.
  intros Sf. destruct (safe_at _ _ Sf) as [Hi Hw]. cbv zeta. unfold next_rx, dma_receive. cbv zeta.
  rewrite (safe_items _ _ Sf), linked_lookup by done. cbn [datalen linked_item owner buf_ptr]. rewrite (safe_run _ _ Sf).
  change (1 =? 0) with false. cbn [orb]. rewrite words_left by done.
  destruct (S (at_word e) <? SLC_BUF_LEN)%nat; [done|]. cbn [next_link_ptr linked_item].
  fold (nextd (at_item e)). rewrite !linked_lookup by (done || apply nextd_bound). cbn [buf_ptr linked_item].
  f_equal. unfold isr_received. cbv zeta. cbn [slc_items set_items set_bufs].
  rewrite (safe_items _ _ Sf).
  rewrite !list_lookup_total_insert_eq by (rewrite ?length_insert, length_map, length_seq; done). cbn [buf_ptr set_owner clear_owner linked_item].
  f_equal. unfold set_items, set_bufs. cbn. f_equal. rewrite (safe_items _ _ Sf).
  rewrite list_insert_insert_eq. apply list_insert_id. by rewrite list_lookup_fmap, lookup_seq_lt.
Qed.

(** ** Every channel stays in range *)

Lemma total_bound q i : Forall (fun b => (b < SLC_BUF_CNT)%nat) q -> (q !!! i < SLC_BUF_CNT)%nat.
Proof.
  intros H. rewrite list_lookup_total_alt. destruct (q !! i) as [x|] eqn:E; cbn; [|unfold SLC_BUF_CNT; lia].
  exact (proj1 (Forall_lookup _ _) H _ _ E).
Qed.

Lemma shift_down_bound n i q : Forall (fun b => (b < SLC_BUF_CNT)%nat) q -> Forall (fun b => (b < SLC_BUF_CNT)%nat) (shift_down n i q).
Proof.
  revert i q. induction n as [|n IH]; intros i q H; [done|]. apply IH. apply Forall_insert; [done | by apply total_bound].
Qed.

Lemma shift_up_bound n i dest item q :
  Forall (fun b => (b < SLC_BUF_CNT)%nat) q ->
  Forall (fun b => (b < SLC_BUF_CNT)%nat) (shift_up n i dest item q) /\ length (shift_up n i dest item q) = length q.
Proof.
  revert i dest q. induction n as [|n IH]; intros i dest q H; [done|]. cbn [shift_up]. destruct (_ =? _)%nat; [by apply IH|].
  edestruct IH as [A B]; [|split; [exact A | rewrite B; by rewrite length_insert]]. apply Forall_insert; [done | by apply total_bound].
Qed.

(** Steps that leave the current buffer and the descriptors alone. *)
Definition same_curr (ch ch' : i2s_state) : Prop :=
  slc_items ch' = slc_items ch /\ curr_slc_buf ch' = curr_slc_buf ch /\ curr_slc_buf_pos ch' = curr_slc_buf_pos ch.

Lemma append_safe k ch :
  length (slc_queue ch) = SLC_BUF_CNT -> Forall (fun b => (b < SLC_BUF_CNT)%nat) (slc_queue ch) ->
  0 <= slc_queue_len ch < Z.of_nat SLC_BUF_CNT -> (k < SLC_BUF_CNT)%nat ->
  let ch' := i2s_slc_queue_append_item k ch in
  same_curr ch ch' /\ slc_buf_pntr ch' = slc_buf_pntr ch /\ length (slc_queue ch') = SLC_BUF_CNT /\
  Forall (fun b => (b < SLC_BUF_CNT)%nat) (slc_queue ch') /\ 0 < slc_queue_len ch' < Z.of_nat SLC_BUF_CNT.
Proof.
  intros Hl Hq Hn Hk. cbv zeta. unfold i2s_slc_queue_append_item. cbv zeta.
  destruct (shift_up_bound (Z.to_nat (slc_queue_len ch)) 0 0 k _ Hq) as [A B].
  assert (F : Forall (fun b => (b < SLC_BUF_CNT)%nat) (<[Z.to_nat (slc_queue_len ch) := k]> (shift_up (Z.to_nat (slc_queue_len ch)) 0 0 k (slc_queue ch))))
    by (by apply Forall_insert).
  unfold SLC_BUF_CNT in *. destruct (Z.ltb_spec (slc_queue_len ch) (Z.of_nat 8 - 1)); cbn [set_queue slc_queue slc_queue_len slc_buf_pntr];
    (split; [done|]); rewrite length_insert, B; (split_and!; try done); rewrite ?u8_id by (unfold is_u8; lia); lia.
Qed.

Lemma transmitted_safe k ch :
  length (slc_queue ch) = SLC_BUF_CNT -> Forall (fun b => (b < SLC_BUF_CNT)%nat) (slc_queue ch) ->
  0 <= slc_queue_len ch < Z.of_nat SLC_BUF_CNT -> (k < SLC_BUF_CNT)%nat ->
  let ch' := isr_transmitted (linked_item k) ch in
  same_curr ch ch' /\ slc_buf_pntr ch' = <[k := repeat 0 SLC_BUF_LEN]> (slc_buf_pntr ch) /\ length (slc_queue ch') = SLC_BUF_CNT /\
  Forall (fun b => (b < SLC_BUF_CNT)%nat) (slc_queue ch') /\ 0 < slc_queue_len ch' < Z.of_nat SLC_BUF_CNT.
Proof.
  intros Hl Hq Hn Hk. cbv zeta. unfold isr_transmitted, i2s_slc_queue_next_item. cbv zeta.
  cbn [slc_queue_len set_bufs buf_ptr linked_item]. unfold SLC_BUF_CNT in *.
  destruct (Z.leb_spec (Z.of_nat 8 - 1) (slc_queue_len ch)); cbn [set_queue slc_queue slc_queue_len slc_buf_pntr snd set_bufs];
    (split; [done|]); rewrite length_insert, ?length_shift_down; (split_and!; try done);
    try (apply Forall_insert; [by (try apply shift_down_bound)|done]); rewrite ?(u8_id (slc_queue_len ch - 1)), u8_id by (unfold is_u8; lia); lia.
Qed.

Lemma bufs_insert (bs : list (list Z)) k b :
  Forall (fun b => length b = SLC_BUF_LEN) bs -> length b = SLC_BUF_LEN -> Forall (fun b => length b = SLC_BUF_LEN) (<[k := b]> bs).
Proof. intros. by apply Forall_insert. Qed.

Lemma buf_length ch e b : safe ch e -> (b < SLC_BUF_CNT)%nat -> length (slc_buf_pntr ch !!! b) = SLC_BUF_LEN.
Proof.
  intros Sf Hb. destruct (safe_bufs _ _ Sf) as [Hl F]. destruct (lookup_lt_is_Some_2 (slc_buf_pntr ch) b) as [x Hx]; [lia|].
  rewrite (list_lookup_total_correct _ _ _ Hx). exact (proj1 (Forall_lookup _ _) F _ _ Hx).
Qed.

(** A sample period keeps a channel in range, leaves the current buffer to the program
    and never empties the queue; at the end of a buffer the queue is not empty. *)
Lemma safe_next d w ch e :
  safe ch e ->
  let ch' := fst (next d w ch e) in
  let e' := snd (next d w ch e) in
  safe ch' e' /\ same_curr ch ch' /\ (0 < slc_queue_len ch -> 0 < slc_queue_len ch') /\
  (at_word e' = S (at_word e) \/ 0 < slc_queue_len ch').
Proof.
  intros Sf. pose proof Sf as [Hi (Hl & Hq & Hn) [Hb Hf] [Ha Hw] [Hc Hp] Hr]. cbv zeta. destruct d; cbn [next].
  - rewrite next_tx_eq by done. destruct (Nat.ltb_spec (S (at_word e)) SLC_BUF_LEN).
    + split_and!; try done; by constructor.
    + destruct (transmitted_safe (at_item e) ch Hl Hq Hn Ha) as ((I & C & P) & B & L & F & N). cbn [fst snd].
      split_and!; try done; try (right; lia); try lia. constructor; rewrite ?I, ?B, ?C, ?P; try done.
      * split_and!; [done | done | lia | lia].
      * rewrite length_insert. split; [done|]. by apply bufs_insert; [|rewrite repeat_length].
      * split; [apply nextd_bound | unfold SLC_BUF_LEN; cbn; lia].
  - rewrite next_rx_eq by done. set (ch1 := set_bufs _ ch).
    assert (B1 : length (slc_buf_pntr ch1) = SLC_BUF_CNT /\ Forall (fun b => length b = SLC_BUF_LEN) (slc_buf_pntr ch1)).
    { cbn. rewrite length_insert. split; [done|]. apply bufs_insert; [done|]. rewrite length_insert. by eapply buf_length. }
    destruct (Nat.ltb_spec (S (at_word e)) SLC_BUF_LEN).
    + split_and!; try done; by constructor.
    + destruct (append_safe (at_item e) ch1 Hl Hq Hn Ha) as ((I & C & P) & B & L & F & N). cbn [fst snd].
      split_and!; try done; try (right; lia); try lia. constructor; rewrite ?I, ?B, ?C, ?P; try done.
      * split_and!; [done | done | lia | lia].
      * split; [apply nextd_bound | unfold SLC_BUF_LEN; cbn; lia].
Qed.
