(* ===== verification/I2sStream.v ===== *)
(** * The I2S driver: the streams of samples

    What is in the buffers: on the way out, blocks of samples in the order in which they
    were written and blocks of silence; on the way in, the samples of the line that have
    not been read. *)

From S2P Require Import Prelude I2s I2sRing.

(** The buffer that the program is using. *)
Definition active (ch : i2s_state) : list nat :=
  match curr_slc_buf ch with Some b => if (curr_slc_buf_pos ch <? SLC_BUF_LEN)%nat then [b] else [] | None => [] end.

Lemma active_in_use ch b : active ch = [b] -> in_use ch b = true.
Proof.
  unfold active, in_use. destruct (curr_slc_buf ch) as [c|]; [|done]. destruct (_ <? _)%nat; [|done]. intros [= ->]. by rewrite Nat.eqb_refl.
Qed.
Lemma active_none ch : need_buffer ch = true -> active ch = [].
Proof.
  unfold need_buffer, active. destruct (curr_slc_buf ch) as [b|]; [|done]. rewrite orb_false_r, Nat.eqb_eq. intros ->. done.
Qed.
Lemma active_some ch e : safe ch e -> need_buffer ch = false ->
  exists b, curr_slc_buf ch = Some b /\ active ch = [b] /\ (b < SLC_BUF_CNT)%nat /\ (curr_slc_buf_pos ch < SLC_BUF_LEN)%nat.
Proof.
  intros Sf H. destruct (safe_curr _ _ Sf) as [Hb Hp]. unfold need_buffer, active in *.
  destruct (curr_slc_buf ch) as [b|]; [|by rewrite orb_true_r in H]. rewrite orb_false_r in H. apply Nat.eqb_neq in H.
  exists b. assert (curr_slc_buf_pos ch < SLC_BUF_LEN)%nat by lia. split_and!; try done.
  by replace (curr_slc_buf_pos ch <? SLC_BUF_LEN)%nat with true by (symmetry; by apply Nat.ltb_lt).
Qed.
Lemma active_same ch ch' : same_curr ch ch' -> active ch' = active ch.
Proof. unfold active. intros (_ & -> & ->). done. Qed.

(** ** Sending *)

(** A buffer on its way: with samples, or silent. *)
Definition block := (bool * list Z)%type.
Definition zeros : list Z := repeat 0 SLC_BUF_LEN.
Definition block_ok (b : block) : Prop := length (snd b) = SLC_BUF_LEN /\ (fst b = false -> snd b = zeros).
Definition all_words (bs : list block) : list Z := List.concat (map snd bs).
Definition samples (bs : list block) : list Z := List.concat (map snd (filter (fun b => fst b = true) bs)).

Lemma all_words_app bs bs' : all_words (bs ++ bs') = all_words bs ++ all_words bs'.
Proof. unfold all_words. by rewrite map_app, concat_app. Qed.
Lemma samples_app bs bs' : samples (bs ++ bs') = samples bs ++ samples bs'.
Proof. unfold samples. by rewrite filter_app, map_app, concat_app. Qed.

Lemma samples_one l : samples [(true, l)] = l.
Proof. apply app_nil_r. Qed.

(** [W] has been written: the blocks [past] have been sent, [cur] is being sent, the
    blocks [fb] in the buffers [filled] follow, then the samples [part] in the current buffer; the
    buffers of the queue are silent. *)
Definition tx_stream (W : list Z) (ch : i2s_state) (e : engine) : Prop :=
  exists (past : list block) (cur : block) (filled : list nat) (fb : list block) (Q : list nat) (part : list Z),
    ring (at_item e) = at_item e :: filled ++ active ch ++ Q /\
    queue_is ch Q /\
    Forall2 (fun b blk => slc_buf_pntr ch !!! b = snd blk) (at_item e :: filled) (cur :: fb) /\
    Forall block_ok (past ++ cur :: fb) /\
    Forall (fun b => slc_buf_pntr ch !!! b = zeros) Q /\
    Forall (fun b => slc_buf_pntr ch !!! b = part ++ repeat 0 (SLC_BUF_LEN - curr_slc_buf_pos ch) /\ length part = curr_slc_buf_pos ch) (active ch) /\
    (active ch = [] -> part = []) /\
    line e = all_words past ++ take (at_word e) (snd cur) /\
    W = samples (past ++ cur :: fb) ++ part.

(** Changing one buffer does not change the others of a list. *)
Lemma bufs_other {B} (P : list Z -> B -> Prop) (bs : list (list Z)) k b l l' :
  k ∉ l -> Forall2 (fun i x => P (bs !!! i) x) l l' -> Forall2 (fun i x => P ((<[k := b]> bs) !!! i) x) l l'.
Proof.
  intros Hk H. induction H as [|i x l l' Hx _ IH]; [constructor|]. apply not_elem_of_cons in Hk as [H1 H2].
  constructor; [|by apply IH]. by rewrite list_lookup_total_insert_ne.
Qed.
Lemma bufs_other1 (P : list Z -> Prop) (bs : list (list Z)) k b l :
  k ∉ l -> Forall (fun i => P (bs !!! i)) l -> Forall (fun i => P ((<[k := b]> bs) !!! i)) l.
Proof.
  intros Hk H. induction H as [|i l Hx _ IH]; [constructor|]. apply not_elem_of_cons in Hk as [H1 H2].
  constructor; [|by apply IH]. by rewrite list_lookup_total_insert_ne.
Qed.

Lemma transmitted_queue k ch Q :
  queue_is ch Q -> (length Q < 7)%nat -> queue_is (isr_transmitted (linked_item k) ch) (Q ++ [k]).
Proof.
  intros HQ Hl. pose proof HQ as (Hn & _ & _). unfold isr_transmitted. cbv zeta. cbn [buf_ptr linked_item slc_queue_len set_bufs].
  replace (Z.of_nat SLC_BUF_CNT - 1 <=? slc_queue_len ch) with false by (symmetry; apply Z.leb_gt; unfold SLC_BUF_CNT; lia).
  apply (queue_push (set_bufs _ ch)); [done | unfold SLC_BUF_CNT; lia].
Qed.

Lemma transmitted_underflow k ch x Q :
  queue_is ch (x :: Q) -> length Q = 6%nat -> queue_is (isr_transmitted (linked_item k) ch) (Q ++ [k]).
Proof.
  intros HQ Hl. pose proof HQ as (Hn & _ & _). cbn [length] in Hn. unfold isr_transmitted. cbv zeta. cbn [buf_ptr linked_item].
  set (ch1 := set_bufs _ ch). change (slc_queue_len ch1) with (slc_queue_len ch).
  replace (Z.of_nat SLC_BUF_CNT - 1 <=? slc_queue_len ch) with true by (symmetry; apply Z.leb_le; unfold SLC_BUF_CNT; lia).
  destruct (next_item_ok ch1 x Q HQ) as (q & E & HQ'); [unfold SLC_BUF_CNT; lia|]. rewrite E. cbn [snd].
  apply queue_push; [done | unfold SLC_BUF_CNT; lia].
Qed.

(** The buffer [k] has been sent and joins the queue. *)
Lemma tx_shift W ch k past cur filled fb Q part ov st :
  length (slc_queue ch) = SLC_BUF_CNT -> Forall (fun b => (b < SLC_BUF_CNT)%nat) (slc_queue ch) ->
  0 <= slc_queue_len ch < Z.of_nat SLC_BUF_CNT -> (k < SLC_BUF_CNT)%nat -> length (slc_buf_pntr ch) = SLC_BUF_CNT ->
  k ∉ nextd k :: filled ++ active ch ++ Q ->
  ring (nextd k) = nextd k :: filled ++ active ch ++ Q ++ [k] ->
  queue_is (isr_transmitted (linked_item k) ch) (Q ++ [k]) ->
  Forall2 (fun b blk => slc_buf_pntr ch !!! b = snd blk) (nextd k :: filled) (cur :: fb) ->
  Forall block_ok (past ++ cur :: fb) ->
  Forall (fun b => slc_buf_pntr ch !!! b = zeros) Q ->
  Forall (fun b => slc_buf_pntr ch !!! b = part ++ repeat 0 (SLC_BUF_LEN - curr_slc_buf_pos ch) /\ length part = curr_slc_buf_pos ch) (active ch) ->
  (active ch = [] -> part = []) -> W = samples (past ++ cur :: fb) ++ part ->
  tx_stream W (isr_transmitted (linked_item k) ch) (mkEngine (nextd k) 0 (all_words past) ov st).
Proof.
  intros Hql Hqf Hqn Hk Hl Hn Hring HQ Hb Hok Hz Ha Hp HW.
  destruct (transmitted_safe k ch Hql Hqf Hqn Hk) as (Hsame & Hbufs & _). pose proof Hsame as (_ & _ & Hpos).
  exists past, cur, filled, fb, (Q ++ [k]), part. cbn [at_item at_word line]. rewrite (active_same _ _ Hsame), Hbufs, Hpos.
  apply not_elem_of_cons in Hn as [Hn0 [Hn1 [Hn2 Hn3]%not_elem_of_app]%not_elem_of_app].
  split_and!; try done.
  - apply bufs_other with (P := fun b blk => b = snd blk); [by apply not_elem_of_cons | done].
  - apply Forall_app. split; [by apply bufs_other1 with (P := fun b => b = zeros)|].
    apply Forall_singleton. by apply list_lookup_total_insert_eq; rewrite Hl.
  - by apply bufs_other1 with (P := fun b => b = part ++ repeat 0 (SLC_BUF_LEN - curr_slc_buf_pos ch) /\ length part = curr_slc_buf_pos ch).
  - rewrite take_0. by rewrite app_nil_r.
Qed.

(** The engine comes to the next buffer: one that is filled, or, when there is none, a silent one. *)
Lemma tx_stream_next W ch e :
  safe ch e -> tx_stream W ch e -> overtaken (snd (next_tx ch e)) = false ->
  tx_stream W (fst (next_tx ch e)) (snd (next_tx ch e)).
Proof.
  intros Sf (past & cur & filled & fb & Q & part & Hring & HQ & Hb & Hok & Hz & Ha & Hp & Hline & HW).
  destruct (safe_at _ _ Sf) as [Hi Hw]. destruct (safe_queue _ _ Sf) as (Hql & Hqf & Hqn). destruct (safe_bufs _ _ Sf) as [Hbl _].
  rewrite next_tx_eq by done. apply Forall2_cons in Hb as [Hcur Hb].
  assert (Lcur : length (snd cur) = SLC_BUF_LEN) by (rewrite <- Hcur; by eapply buf_length).
  assert (Htake : take (S (at_word e)) (snd cur) = take (at_word e) (snd cur) ++ [word_at ch e]).
  { unfold word_at. rewrite Hcur. apply take_S_r. apply list_lookup_lookup_total_lt. lia. }
  destruct (Nat.ltb_spec (S (at_word e)) SLC_BUF_LEN) as [Hlt|Hge]; cbn [fst snd].
  { intros _. exists past, cur, filled, fb, Q, part. split_and!; try done; [by constructor|].
    cbn [line at_word]. by rewrite Hline, Htake, app_assoc. }
  cbn [overtaken]. intros [_ Hu]%orb_false_iff.
  replace (line e ++ [word_at ch e]) with (all_words (past ++ [cur])).
  2: { replace (S (at_word e)) with (length (snd cur)) in Htake by lia. rewrite firstn_all in Htake.
       rewrite Hline, <- app_assoc, <- Htake, all_words_app. unfold all_words at 2. cbn. by rewrite app_nil_r. }
  pose proof (ring_nodup _ Hi) as Hnd. rewrite Hring in Hnd. apply NoDup_cons in Hnd as [Hnd _].
  pose proof (ring_next _ Hi) as Hnext. rewrite Hring in Hnext. cbn [tail] in Hnext. rewrite <- !app_assoc in Hnext.
  pose proof (length_ring (at_item e)) as Hlen. rewrite Hring in Hlen. cbn [length] in Hlen. rewrite !length_app in Hlen.
  pose proof (ring_head _ (nextd_bound (at_item e))) as Hhead. rewrite Hnext in Hhead at 1.
  change (past ++ cur :: fb) with (past ++ [cur] ++ fb) in Hok, HW. rewrite app_assoc in Hok, HW. unfold SLC_BUF_CNT in Hlen.
  destruct Hb as [|x y filled fb Hx Hb].
  - destruct (active ch) as [|b [|]] eqn:Eact.
    + destruct Q as [|x Q]; [cbn in Hlen; lia|]. cbn [app length] in *. assert (x = nextd (at_item e)) by congruence. subst x.
      apply Forall_cons in Hz as [Hx Hz].
      apply (tx_shift W ch (at_item e) (past ++ [cur]) (false, zeros) [] [] Q part); rewrite ?Eact; try done.
      * apply (transmitted_underflow _ _ (nextd (at_item e))); [done | lia].
      * by constructor.
      * rewrite app_nil_r in Hok. apply Forall_app. split; [done|]. by apply Forall_singleton.
      * rewrite HW, !samples_app. done.
    + assert (b = nextd (at_item e)) by (cbn in Hhead; congruence). subst b. by rewrite (active_in_use _ _ Eact) in Hu.
    + unfold active in Eact. destruct (curr_slc_buf ch); [destruct (_ <? _)%nat|]; done.
  - cbn [app length] in *. assert (x = nextd (at_item e)) by congruence. subst x.
    apply (tx_shift W ch (at_item e) (past ++ [cur]) y filled fb Q part); try done.
    + apply transmitted_queue; [done|]. lia.
    + by constructor.
Qed.

Lemma queue_cons ch Q : queue_is ch Q -> 0 < slc_queue_len ch -> exists x Q', Q = x :: Q'.
Proof. intros (Hn & _) H. destruct Q as [|x Q]; [cbn in Hn; lia | by exists x, Q]. Qed.

(** The current buffer is used up and another one is taken off the queue. *)
Lemma take_item_ok ch x Q :
  queue_is ch (x :: Q) -> (length Q < SLC_BUF_CNT)%nat ->
  exists q, take_item ch = set_curr (Some x) 0 (set_queue q (Z.of_nat (length Q)) ch) /\ queue_is (take_item ch) Q /\ active (take_item ch) = [x].
Proof.
  intros HQ Hl. destruct (next_item_ok ch x Q HQ Hl) as (q & E & HQ'). exists q. unfold take_item. rewrite E. by split_and!.
Qed.

Lemma tx_stream_take W ch e :
  safe ch e -> tx_stream W ch e -> need_buffer ch = true -> 0 < slc_queue_len ch -> tx_stream W (take_item ch) e.
Proof.
  intros Sf (past & cur & filled & fb & Q & part & Hring & HQ & Hb & Hok & Hz & Ha & Hp & Hline & HW) Hnb Hn.
  pose proof (active_none _ Hnb) as Hact. rewrite Hact in *. destruct (queue_cons _ _ HQ Hn) as (x & Q' & ->).
  destruct (take_item_ok ch x Q' HQ) as (q & E & HQ' & Hact').
  { pose proof (safe_queue _ _ Sf) as (_ & _ & [_ Hlt]). destruct HQ as (HQn & _). cbn [length] in HQn. unfold SLC_BUF_CNT in *. lia. }
  apply Forall_cons in Hz as [Hx Hz].
  exists past, cur, filled, fb, Q', []. rewrite Hact'. rewrite E. cbn [slc_buf_pntr set_curr set_queue curr_slc_buf_pos].
  rewrite (Hp eq_refl) in HW. split_and!; try done.
  - by rewrite <- E.
  - apply Forall_singleton. by rewrite Hx.
Qed.

(** A sample is written into the current buffer. *)
Lemma tx_stream_store W ch e v :
  safe ch e -> tx_stream W ch e -> need_buffer ch = false -> tx_stream (W ++ [v]) (write_word v ch) e.
Proof.
  intros Sf (past & cur & filled & fb & Q & part & Hring & HQ & Hb & Hok & Hz & Ha & Hp & Hline & HW) Hnb.
  destruct (active_some ch e Sf Hnb) as (b & Hc & Hact & Hbb & Hpos). rewrite Hact in *. destruct (safe_bufs _ _ Sf) as [Hbl _].
  apply Forall_singleton in Ha as [Hbuf Hlp]. unfold write_word. rewrite Hc.
  set (w := <[curr_slc_buf_pos ch := v]> (slc_buf_pntr ch !!! b)).
  assert (Hw : w = (part ++ [v]) ++ repeat 0 (SLC_BUF_LEN - S (curr_slc_buf_pos ch))).
  { unfold w. rewrite Hbuf, <- Hlp, insert_app_r_alt, Nat.sub_diag, <- app_assoc by lia.
    replace (SLC_BUF_LEN - length part)%nat with (S (SLC_BUF_LEN - S (length part))) by lia. done. }
  pose proof (ring_nodup (at_item e) (proj1 (safe_at _ _ Sf))) as Hnd. rewrite Hring in Hnd.
  assert (Hn : (b ∉ at_item e :: filled) /\ (b ∉ Q)).
  { change (at_item e :: filled ++ [b] ++ Q) with ((at_item e :: filled) ++ [b] ++ Q) in Hnd.
    apply NoDup_app in Hnd as (_ & N1 & [N2 _]%NoDup_cons). split; [|done]. intros H. apply (N1 _ H). by left. }
  destruct Hn as [Hn1 Hn2].
  assert (Hb' : Forall2 (fun i blk => (<[b := w]> (slc_buf_pntr ch)) !!! i = snd blk) (at_item e :: filled) (cur :: fb))
    by (by apply bufs_other with (P := fun x blk => x = snd blk)).
  assert (Hz' : Forall (fun i => (<[b := w]> (slc_buf_pntr ch)) !!! i = zeros) Q) by (by apply bufs_other1 with (P := fun x => x = zeros)).
  assert (Hbw : (<[b := w]> (slc_buf_pntr ch)) !!! b = w) by (apply list_lookup_total_insert_eq; lia).
  unfold tx_stream, active. cbn [curr_slc_buf curr_slc_buf_pos set_curr slc_buf_pntr set_bufs].
  destruct (Nat.ltb_spec (S (curr_slc_buf_pos ch)) SLC_BUF_LEN) as [Hlt|Hge].
  - exists past, cur, filled, fb, Q, (part ++ [v]). split_and!; try done.
    + apply Forall_singleton. rewrite Hbw, Hw, length_app. cbn [length]. split; [done | lia].
    + by rewrite HW, app_assoc.
  - exists past, cur, (filled ++ [b]), (fb ++ [(true, part ++ [v])]), Q, [].
    replace (SLC_BUF_LEN - S (curr_slc_buf_pos ch))%nat with 0%nat in Hw by lia. cbn [repeat] in Hw. rewrite app_nil_r in Hw.
    split_and!; try done.
    + rewrite Hring, <- app_assoc. done.
    + change (at_item e :: filled ++ [b]) with ((at_item e :: filled) ++ [b]). change (cur :: fb ++ [(true, part ++ [v])]) with ((cur :: fb) ++ [(true, part ++ [v])]).
      apply Forall2_app; [done|]. constructor; [by rewrite Hbw, Hw | constructor].
    + change (cur :: fb ++ [(true, part ++ [v])]) with ((cur :: fb) ++ [(true, part ++ [v])]). rewrite app_assoc. apply Forall_app. split; [done|].
      apply Forall_singleton. split; [|done]. cbn [snd]. rewrite length_app. cbn [length]. lia.
    + change (cur :: fb ++ [(true, part ++ [v])]) with ((cur :: fb) ++ [(true, part ++ [v])]). rewrite app_assoc, samples_app, HW, samples_one.
      by rewrite app_nil_r, <- app_assoc.
Qed.

(** ** Receiving *)

(** [R] has been read: the rest of the current buffer, the blocks [qb] in the buffers of
    the queue and the beginning of the buffer that is being filled follow on the line. *)
Definition rx_stream (R : list Z) (ch : i2s_state) (e : engine) : Prop :=
  exists (unused : list nat) (Q : list nat) (qb : list (list Z)),
    ring (at_item e) = at_item e :: unused ++ active ch ++ Q /\
    queue_is ch Q /\
    Forall2 (fun b blk => slc_buf_pntr ch !!! b = blk) Q qb /\
    line e = R ++ List.concat (map (fun b => drop (curr_slc_buf_pos ch) (slc_buf_pntr ch !!! b)) (active ch)) ++ List.concat qb ++
      take (at_word e) (slc_buf_pntr ch !!! at_item e).

Lemma active_at_most ch : active ch = [] \/ exists b, active ch = [b].
Proof. unfold active. destruct (curr_slc_buf ch) as [b|]; [destruct (_ <? _)%nat; [right; by exists b | by left] | by left]. Qed.

(** A word comes in: the buffer that the engine fills is not one of the others. *)
Lemma rx_stream_fill R w ch e ov :
  safe ch e -> rx_stream R ch e ->
  rx_stream R (set_bufs (<[at_item e := <[at_word e := w]> (slc_buf_pntr ch !!! at_item e)]> (slc_buf_pntr ch)) ch)
    (mkEngine (at_item e) (S (at_word e)) (line e ++ [w]) ov false).
Proof.
  intros Sf (unused & Q & qb & Hring & HQ & Hb & Hline).
  destruct (safe_at _ _ Sf) as [Hi Hw]. destruct (safe_bufs _ _ Sf) as [Hbl _]. pose proof (buf_length ch e _ Sf Hi) as Hl.
  pose proof (ring_nodup _ Hi) as Hnd. rewrite Hring in Hnd. apply NoDup_cons in Hnd as [Hnd _].
  apply not_elem_of_app in Hnd as [_ [Hn1 Hn2]%not_elem_of_app].
  exists unused, Q, qb. split_and!; try done; [by apply bufs_other with (P := fun x blk => x = blk)|].
  cbn [line at_word at_item slc_buf_pntr set_bufs curr_slc_buf_pos].
  rewrite list_lookup_total_insert_eq by lia. replace (S (at_word e)) with (at_word e + 1)%nat by lia.
  rewrite take_insert_next by lia. rewrite Hline, <- !app_assoc. do 2 f_equal. apply (f_equal (@List.concat Z)).
  apply map_ext_in. intros b Hb0%list_elem_of_In. by rewrite list_lookup_total_insert_ne by (by intros <-).
Qed.

(** The buffer is full and joins the queue. *)
Lemma rx_stream_full R ch e ov :
  rx_stream R ch e -> (at_item e < SLC_BUF_CNT)%nat -> length (slc_buf_pntr ch !!! at_item e) = at_word e ->
  in_use ch (nextd (at_item e)) = false -> waiting ch (nextd (at_item e)) = false ->
  rx_stream R (i2s_slc_queue_append_item (at_item e) ch) (mkEngine (nextd (at_item e)) 0 (line e) ov false).
Proof.
  intros (unused & Q & qb & Hring & HQ & Hb & Hline) Hi Hl Hu Hwait.
  pose proof (ring_nodup _ Hi) as Hnd. rewrite Hring in Hnd. apply NoDup_cons in Hnd as [Hnd _].
  apply not_elem_of_app in Hnd as [_ [_ Hn]%not_elem_of_app].
  pose proof (ring_next _ Hi) as Hnext. rewrite Hring in Hnext. cbn [tail] in Hnext. rewrite <- !app_assoc in Hnext.
  pose proof (length_ring (at_item e)) as Hlen. rewrite Hring in Hlen. cbn [length] in Hlen. rewrite !length_app in Hlen.
  pose proof (ring_head _ (nextd_bound (at_item e))) as Hhead. rewrite Hnext in Hhead at 1.
  pose proof HQ as (HQn & _ & HQt).
  destruct unused as [|x unused].
  { exfalso. destruct (active_at_most ch) as [E | [b E]]; rewrite E in *; cbn [app] in Hhead.
    - destruct Q as [|x Q]; [cbn in Hlen; unfold SLC_BUF_CNT in Hlen; lia|]. assert (x = nextd (at_item e)) by (cbn in Hhead; congruence). subst x.
      unfold waiting in Hwait. apply bool_decide_eq_false in Hwait. apply Hwait. rewrite HQn, Nat2Z.id, HQt. by left.
    - assert (b = nextd (at_item e)) by congruence. subst b. by rewrite (active_in_use _ _ E) in Hu. }
  cbn [app length] in *. assert (x = nextd (at_item e)) by congruence. subst x.
  assert (HQ' : queue_is (i2s_slc_queue_append_item (at_item e) ch) (Q ++ [at_item e]))
    by (apply append_ok; [done | done | unfold SLC_BUF_CNT in *; lia]).
  assert (Hsame : active (i2s_slc_queue_append_item (at_item e) ch) = active ch /\ slc_buf_pntr (i2s_slc_queue_append_item (at_item e) ch) = slc_buf_pntr ch /\
    curr_slc_buf_pos (i2s_slc_queue_append_item (at_item e) ch) = curr_slc_buf_pos ch)
    by (unfold i2s_slc_queue_append_item; cbv zeta; by destruct (_ <? _)).
  destruct Hsame as (Ea & Eb & Ep).
  exists unused, (Q ++ [at_item e]), (qb ++ [slc_buf_pntr ch !!! at_item e]). cbn [at_item at_word line]. rewrite Ea, Eb, Ep.
  split_and!; try done.
  - apply Forall2_app; [done|]. by constructor.
  - rewrite Hline, concat_app, <- Hl, firstn_all. cbn [List.concat]. by rewrite take_0, !app_nil_r.
Qed.

Lemma rx_stream_next R w ch e :
  safe ch e -> rx_stream R ch e -> overtaken (snd (next_rx w ch e)) = false ->
  rx_stream R (fst (next_rx w ch e)) (snd (next_rx w ch e)).
Proof.
  intros Sf HR. pose proof (rx_stream_fill R w ch e (overtaken e) Sf HR) as HF. destruct (safe_at _ _ Sf) as [Hi Hw].
  rewrite next_rx_eq by done. cbv zeta. destruct (Nat.ltb_spec (S (at_word e)) SLC_BUF_LEN) as [Hlt|Hge]; cbn [fst snd]; [done|].
  cbn [overtaken]. intros [[_ Hu]%orb_false_iff Hwait]%orb_false_iff.
  refine (rx_stream_full _ _ _ _ HF Hi _ Hu Hwait). cbn [at_item at_word slc_buf_pntr set_bufs].
  destruct (safe_bufs _ _ Sf) as [Hbl _]. rewrite list_lookup_total_insert_eq, length_insert by lia. rewrite (buf_length ch e) by done. lia.
Qed.

Lemma rx_stream_take R ch e :
  safe ch e -> rx_stream R ch e -> need_buffer ch = true -> 0 < slc_queue_len ch -> rx_stream R (take_item ch) e.
Proof.
  intros Sf (unused & Q & qb & Hring & HQ & Hb & Hline) Hnb Hn.
  pose proof (active_none _ Hnb) as Hact. rewrite Hact in *. destruct (queue_cons _ _ HQ Hn) as (x & Q' & ->).
  destruct (take_item_ok ch x Q' HQ) as (q & E & HQ' & Hact').
  { pose proof (safe_queue _ _ Sf) as (_ & _ & [_ Hlt]). destruct HQ as (HQn & _). cbn [length] in HQn. unfold SLC_BUF_CNT in *. lia. }
  destruct qb as [|y qb]; [by inversion Hb|]. apply Forall2_cons in Hb as [Hy Hb].
  exists unused, Q', qb. rewrite Hact'. rewrite E. cbn [slc_buf_pntr set_curr set_queue curr_slc_buf_pos]. split_and!; try done.
  - by rewrite <- E.
  - rewrite Hline. cbn [map List.concat]. by rewrite drop_0, Hy, app_nil_r, <- !app_assoc.
Qed.

Lemma rx_stream_fetch R ch e :
  safe ch e -> rx_stream R ch e -> need_buffer ch = false -> rx_stream (R ++ [sample_at ch]) (fetch_word ch) e.
Proof.
  intros Sf (unused & Q & qb & Hring & HQ & Hb & Hline) Hnb.
  destruct (active_some ch e Sf Hnb) as (b & Hc & Hact & Hbb & Hpos). rewrite Hact in *.
  pose proof (buf_length ch e b Sf Hbb) as Hl.
  assert (Hd : drop (curr_slc_buf_pos ch) (slc_buf_pntr ch !!! b) = sample_at ch :: drop (S (curr_slc_buf_pos ch)) (slc_buf_pntr ch !!! b)).
  { unfold sample_at. rewrite Hc. apply drop_S. apply list_lookup_lookup_total_lt. lia. }
  cbn [map List.concat] in Hline. rewrite app_nil_r, Hd in Hline.
  unfold rx_stream, fetch_word, active. cbn [curr_slc_buf curr_slc_buf_pos set_curr slc_buf_pntr]. rewrite Hc.
  destruct (Nat.ltb_spec (S (curr_slc_buf_pos ch)) SLC_BUF_LEN) as [Hlt|Hge].
  - exists unused, Q, qb. split_and!; try done. rewrite Hline. cbn [map List.concat]. by rewrite app_nil_r, <- app_assoc.
  - exists (unused ++ [b]), Q, qb. split_and!; try done; [by rewrite Hring, <- app_assoc|].
    rewrite Hline, (drop_ge _ (S (curr_slc_buf_pos ch))) by lia. cbn [map List.concat]. by rewrite <- app_assoc.
Qed.
