(* ===== verification/I2sProps.v ===== *)
(** * The I2S driver: programs that write and read samples *)

From S2P Require Import Prelude I2s I2sRing I2sStream.

(** ** Invariants of a channel *)

Definition stream (d : dir) : list Z -> i2s_state -> engine -> Prop := match d with Tx => tx_stream | Rx => rx_stream end.
(** In range always, and the stream is in order unless the engine has overtaken the
    program. *)
Definition inv (d : dir) (g : list Z) (ch : i2s_state) (e : engine) : Prop :=
  safe ch e /\ (overtaken e = false -> stream d g ch e).

Lemma overtaken_next d w ch e : safe ch e -> overtaken (snd (next d w ch e)) = false -> overtaken e = false.
Proof.
  intros Sf. destruct d; cbn [next]; [rewrite next_tx_eq by done | rewrite next_rx_eq by done; cbv zeta];
    destruct (_ <? _)%nat; cbn [snd overtaken]; rewrite ?orb_false_iff; tauto.
Qed.

Lemma inv_next d w g ch e : inv d g ch e -> inv d g (fst (next d w ch e)) (snd (next d w ch e)).
Proof.
  intros [Sf H]. split; [by apply safe_next|]. intros O. pose proof (overtaken_next _ _ _ _ Sf O) as O'.
  destruct d; [exact (tx_stream_next g ch e Sf (H O') O) | exact (rx_stream_next g w ch e Sf (H O') O)].
Qed.

Lemma take_item_safe ch e : safe ch e -> 0 < slc_queue_len ch -> safe (take_item ch) e.
Proof.
  intros [Hi (Hl & Hq & Hn) Hb Ha [Hc Hp] Hr] H0. unfold take_item, i2s_slc_queue_next_item. cbv zeta.
  constructor; cbn; try done.
  - rewrite length_shift_down, u8_id by (unfold is_u8, SLC_BUF_CNT in *; lia). split_and!; [done | by apply shift_down_bound | lia | lia].
  - split; [by apply total_bound | lia].
Qed.

Lemma inv_take d g ch e :
  inv d g ch e -> need_buffer ch = true -> 0 < slc_queue_len ch -> inv d g (take_item ch) e /\ need_buffer (take_item ch) = false.
Proof.
  intros [Sf H] Hnb Hn. split; [|done]. split; [by apply take_item_safe|]. intros O.
  destruct d; [exact (tx_stream_take g ch e Sf (H O) Hnb Hn) | exact (rx_stream_take g ch e Sf (H O) Hnb Hn)].
Qed.

Lemma inv_store g ch e v :
  inv Tx g ch e -> need_buffer ch = false -> inv Tx (g ++ [v]) (write_word v ch) e.
Proof.
  intros [Sf H] Hnb. split; [|intros O; exact (tx_stream_store g ch e v Sf (H O) Hnb)].
  destruct (active_some ch e Sf Hnb) as (b & Hc & _ & Hbb & Hpos). pose proof Sf as [Hi Hq [Hbl Hbf] Ha _ Hr].
  unfold write_word. rewrite Hc. constructor; cbn; try done.
  rewrite length_insert. split; [done|]. apply bufs_insert; [done|]. rewrite length_insert. by eapply buf_length.
Qed.

Lemma inv_fetch g ch e :
  inv Rx g ch e -> need_buffer ch = false -> inv Rx (g ++ [sample_at ch]) (fetch_word ch) e.
Proof.
  intros [Sf H] Hnb. split; [|intros O; exact (rx_stream_fetch g ch e Sf (H O) Hnb)].
  destruct (active_some ch e Sf Hnb) as (b & Hc & _ & Hbb & Hpos). pose proof Sf as [Hi Hq Hb Ha _ Hr].
  constructor; cbn; try done. by rewrite Hc.
Qed.

(** ** Time passes *)

(** The channel [d] of [s] has the invariant, and its current buffer is as in [ch0]. *)
Record has (d : dir) (g : list Z) (s : i2s) (ch : i2s_state) : Prop := {
  has_chan : chan d s = Some ch;
  has_inv : inv d g ch (eng d s)
}.

Lemma need_same ch ch' : same_curr ch ch' -> need_buffer ch' = need_buffer ch.
Proof. unfold need_buffer. by intros (_ & -> & ->). Qed.
Lemma same_curr_trans c1 c2 c3 : same_curr c1 c2 -> same_curr c2 c3 -> same_curr c1 c3.
Proof. intros (A & B & C) (D & E & F). unfold same_curr. split_and!; congruence. Qed.

Lemma tick_ok d g w s ch :
  has d g s ch ->
  exists ch', has d g (tick w s) ch' /\ same_curr ch ch' /\ (0 < slc_queue_len ch -> 0 < slc_queue_len ch') /\
    (at_word (eng d (tick w s)) = S (at_word (eng d s)) \/ 0 < slc_queue_len ch') /\ script (tick w s) = script s.
Proof.
  intros [Hc Hi]. destruct (tick_chan d w s ch Hc) as (E1 & E2 & E3).
  destruct (safe_next d w ch (eng d s) (proj1 Hi)) as (_ & A & B & C). eexists. rewrite E2. split_and!; try done.
  constructor; [done|]. rewrite E2. by apply inv_next.
Qed.

Lemma ticks_ok d g ws s ch :
  has d g s ch ->
  exists ch', has d g (ticks ws s) ch' /\ same_curr ch ch' /\ (0 < slc_queue_len ch -> 0 < slc_queue_len ch') /\ script (ticks ws s) = script s.
Proof.
  revert s ch. induction ws as [|w ws IH]; intros s ch H; [by exists ch|]. cbn [ticks].
  destruct (tick_ok d g w s ch H) as (c1 & H1 & S1 & N1 & _ & Sc). destruct (IH _ _ H1) as (c2 & H2 & S2 & N2 & Sc2).
  exists c2. split_and!; [done | by eapply same_curr_trans | auto | congruence].
Qed.

Lemma access_ok d g s ch :
  has d g s ch ->
  exists s' ch', access s = Done tt s' /\ has d g s' ch' /\ same_curr ch ch' /\ (0 < slc_queue_len ch -> 0 < slc_queue_len ch') /\
    script s' = tail (script s) /\ (script s = [] -> at_word (eng d s') = S (at_word (eng d s)) \/ 0 < slc_queue_len ch').
Proof.
  intros H. unfold access. destruct (script s) as [|ws l] eqn:E.
  - destruct (tick_ok d g 0 s ch H) as (c1 & H1 & S1 & N1 & P1 & Sc). exists (tick 0 s), c1. rewrite Sc, E. by split_and!.
  - assert (H' : has d g (set_script l s) ch) by (destruct H as [Hc Hi]; by constructor; destruct d).
    destruct (ticks_ok d g ws (set_script l s) ch H') as (c1 & H1 & S1 & N1 & Sc). eexists _, c1. split_and!; try done.
Qed.

Lemma i2s_bind {A B} (m : M A) (k : A -> M B) x s s' : m s = Done x s' -> bind m k s = k x s'.
Proof. intros H. unfold bind. by rewrite H. Qed.
Lemma look_done {A} d (f : i2s_state -> A) s ch : chan d s = Some ch -> look d f s = Done (f ch) s.
Proof. intros H. unfold look. by rewrite H. Qed.

(** As many rounds are enough to wait for a buffer. *)
Definition enough (d : dir) (fuel : nat) (s : i2s) : Prop :=
  if script s is [] then (SLC_BUF_LEN <= fuel + at_word (eng d s))%nat else (length (script s) + SLC_BUF_LEN <= fuel)%nat.

Lemma await_ok d g fuel s ch :
  has d g s ch -> enough d fuel s ->
  exists s' ch', await d fuel s = Done tt s' /\ has d g s' ch' /\ same_curr ch ch' /\ 0 < slc_queue_len ch' /\ (length (script s') <= length (script s))%nat.
Proof.
  revert s ch. induction fuel as [|fuel IH]; intros s ch H Hf.
  { exfalso. destruct H as [_ [Sf _]]. destruct (safe_at _ _ Sf) as [_ Hw]. unfold enough, SLC_BUF_LEN in *. destruct (script s); cbn in Hf; lia. }
  destruct (access_ok d g s ch H) as (s1 & c1 & E1 & H1 & S1 & N1 & Sc & P1).
  cbn [await]. rewrite (i2s_bind _ _ _ _ _ E1), (i2s_bind _ _ _ _ _ (look_done d slc_queue_len s1 c1 (has_chan _ _ _ _ H1))).
  destruct (Z.ltb_spec 0 (slc_queue_len c1)) as [Hp|Hz].
  { exists s1, c1. split_and!; try done. rewrite Sc. by destruct (script s); cbn; lia. }
  destruct (IH s1 c1 H1) as (s2 & c2 & E2 & H2 & S2 & N2 & L2).
  { unfold enough in *. rewrite Sc. destruct (script s) as [|ws l].
    - destruct (P1 eq_refl) as [Ew|]; [|lia]. cbn [tail]. rewrite Ew. lia.
    - cbn [tail length] in *. destruct l; cbn [length] in *; lia. }
  exists s2, c2. split_and!; try done; [by eapply same_curr_trans|]. rewrite Sc in L2. destruct (script s); cbn in *; lia.
Qed.

(** A buffer is there afterwards, or the call would have to block. *)
Lemma get_buffer_ok d g fuel nb s ch :
  has d g s ch -> (length (script s) + SLC_BUF_LEN <= fuel)%nat ->
  exists ok s' ch', get_buffer d fuel nb s = Done ok s' /\ has d g s' ch' /\ (length (script s') <= length (script s))%nat /\
    (if ok : bool then need_buffer ch' = false else nb = true).
Proof.
  intros H Hf. unfold get_buffer. rewrite (i2s_bind _ _ _ _ _ (look_done d need_buffer s ch (has_chan _ _ _ _ H))).
  destruct (need_buffer ch) eqn:Hnb; [|by exists true, s, ch].
  destruct (access_ok d g s ch H) as (s1 & c1 & E1 & H1 & S1 & N1 & Sc & _).
  rewrite (i2s_bind _ _ _ _ _ E1), (i2s_bind _ _ _ _ _ (look_done d slc_queue_len s1 c1 (has_chan _ _ _ _ H1))).
  assert (L1 : (length (script s1) <= length (script s))%nat) by (rewrite Sc; destruct (script s); cbn; lia).
  destruct ((slc_queue_len c1 =? 0) && nb) eqn:Eb.
  { apply andb_prop in Eb as [_ ->]. by exists false, s1, c1. }
  assert (W : exists s2 c2, (if slc_queue_len c1 =? 0 then await d fuel else ret tt) s1 = Done tt s2 /\ has d g s2 c2 /\
            same_curr c1 c2 /\ 0 < slc_queue_len c2 /\ (length (script s2) <= length (script s1))%nat).
  { destruct (Z.eqb_spec (slc_queue_len c1) 0) as [E0|E0].
    - apply await_ok; [done|]. unfold enough. destruct (script s1); lia.
    - exists s1, c1. split_and!; try done. destruct (safe_queue _ _ (proj1 (has_inv _ _ _ _ H1))) as (_ & _ & ?). lia. }
  destruct W as (s2 & c2 & E2 & H2 & S2 & P2 & L2). rewrite (i2s_bind _ _ _ _ _ E2).
  destruct (access_ok d g s2 c2 H2) as (s3 & c3 & E3 & H3 & S3 & N3 & Sc3 & _). rewrite (i2s_bind _ _ _ _ _ E3).
  assert (Hnb3 : need_buffer c3 = true)
    by (rewrite (need_same _ _ S3), (need_same _ _ S2), (need_same _ _ S1); done).
  destruct (inv_take d g c3 (eng d s3) (has_inv _ _ _ _ H3) Hnb3 (N3 P2)) as [Hi4 Hnb4].
  exists true, (set_chan d (take_item c3) s3), (take_item c3). split_and!.
  - unfold bind, change. by rewrite (has_chan _ _ _ _ H3).
  - constructor; [by destruct d|]. by destruct d.
  - destruct d; cbn [set_chan set_tx set_rx script]; rewrite Sc3; destruct (script s2); cbn in *; lia.
  - done.
Qed.

(** ** Writing *)

(** The word is stored when time has passed. *)
Lemma word_stored g v s ch :
  has Tx g s ch -> need_buffer ch = false ->
  exists s' ch', (access ;; change Tx (write_word v)) s = Done tt s' /\ has Tx (g ++ [v]) s' ch' /\
    (length (script s') <= length (script s))%nat /\ curr_slc_buf ch' = curr_slc_buf ch /\ curr_slc_buf_pos ch' = S (curr_slc_buf_pos ch).
Proof.
  intros H Hnb. destruct (access_ok Tx g s ch H) as (s1 & c1 & E1 & H1 & S1 & _ & Sc & _). rewrite (i2s_bind _ _ _ _ _ E1).
  assert (Hnb1 : need_buffer c1 = false) by (by rewrite (need_same _ _ S1)). destruct S1 as (_ & Sb & Sp).
  destruct (active_some c1 _ (proj1 (has_inv _ _ _ _ H1)) Hnb1) as (b & Hb & _).
  exists (set_tx (Some (write_word v c1)) s1), (write_word v c1). split_and!.
  - unfold change. by rewrite (has_chan _ _ _ _ H1).
  - constructor; [done|]. apply inv_store; [apply H1 | done].
  - cbn. rewrite Sc. destruct (script s); cbn; lia.
  - unfold write_word. rewrite Hb. cbn. congruence.
  - unfold write_word. rewrite Hb. cbn. congruence.
Qed.

Lemma bind_assoc {A B C} (m : M A) (k : A -> M B) (h : B -> M C) s : bind (bind m k) h s = bind m (fun x => bind (k x) h) s.
Proof. unfold bind. by destruct (m s). Qed.

Lemma write_sample_ok g fuel v nb s ch :
  has Tx g s ch -> (length (script s) + SLC_BUF_LEN <= fuel)%nat ->
  exists ok s' ch', _i2s_write_sample fuel v nb s = Done ok s' /\ has Tx (g ++ if ok : bool then [v] else []) s' ch' /\
    (length (script s') <= length (script s))%nat /\ (nb = false -> ok = true).
Proof.
  intros H Hf. unfold _i2s_write_sample. pose proof (has_chan _ _ _ _ H) as Hc. cbn [chan] in Hc. rewrite Hc.
  destruct (get_buffer_ok Tx g fuel nb s ch H Hf) as (ok & s1 & c1 & E1 & H1 & L1 & P1). rewrite (i2s_bind _ _ _ _ _ E1).
  destruct ok.
  - destruct (word_stored g v s1 c1 H1 P1) as (s2 & c2 & E2 & H2 & L2 & _).
    exists true, s2, c2. split_and!; try done; [|lia]. rewrite <- bind_assoc. by rewrite (i2s_bind _ _ _ _ _ E2).
  - exists false, s1, c1. split_and!; try done; [by rewrite app_nil_r|]. by rewrite P1.
Qed.

(** The words of [n] frames, and the samples behind them. *)
Fixpoint frame_words (n : nat) (mono : bool) (frames : list Z) : list Z :=
  match n with O => [] | S n' => fst (frame_word mono frames) :: frame_words n' mono (snd (frame_word mono frames)) end.
Fixpoint frames_after (n : nat) (mono : bool) (frames : list Z) : list Z :=
  match n with O => frames | S n' => frames_after n' mono (snd (frame_word mono frames)) end.

Lemma frame_words_app a b mono frames :
  frame_words (a + b) mono frames = frame_words a mono frames ++ frame_words b mono (frames_after a mono frames).
Proof. revert frames. induction a as [|a IH]; intros frames; [done|]. cbn. by rewrite IH. Qed.
Lemma length_frame_words n mono frames : length (frame_words n mono frames) = n.
Proof. revert frames. induction n as [|n IH]; intros frames; [done|]. cbn. by rewrite IH. Qed.

Lemma write_frames_ok fc mono frames g s ch b :
  has Tx g s ch -> curr_slc_buf ch = Some b -> (curr_slc_buf_pos ch + fc <= SLC_BUF_LEN)%nat ->
  exists s' ch', write_frames fc mono frames s = Done (frames_after fc mono frames) s' /\
    has Tx (g ++ frame_words fc mono frames) s' ch' /\ (length (script s') <= length (script s))%nat.
Proof.
  revert frames g s ch. induction fc as [|fc IH]; intros frames g s ch H Hb Hp.
  { exists s, ch. by rewrite app_nil_r. }
  assert (Hnb : need_buffer ch = false).
  { unfold need_buffer. rewrite Hb, orb_false_r. apply Nat.eqb_neq. lia. }
  cbn [write_frames frame_words frames_after]. destruct (frame_word mono frames) as [v rest]. cbn [fst snd].
  destruct (word_stored g v s ch H Hnb) as (s1 & c1 & E1 & H1 & L1 & B1 & P1).
  destruct (IH rest (g ++ [v]) s1 c1 H1) as (s2 & c2 & E2 & H2 & L2); [congruence | lia |].
  exists s2, c2. split_and!; [|by rewrite <- app_assoc in H2|lia].
  rewrite <- bind_assoc. rewrite (i2s_bind _ _ _ _ _ E1). exact E2.
Qed.

(** The rounds write the frames one after the other as far as there is room. *)
Lemma write_rounds_ok n fuel mono nb frames count written g s ch :
  has Tx g s ch -> (length (script s) + SLC_BUF_LEN <= fuel)%nat -> (count < n)%nat ->
  exists k s' ch', write_rounds n fuel mono nb frames count written s = Done (written + k)%nat s' /\ (k <= count)%nat /\
    has Tx (g ++ take k (frame_words count mono frames)) s' ch' /\ (length (script s') <= length (script s))%nat /\ (nb = false -> k = count).
Proof.
  revert frames count written g s ch. induction n as [|n IH]; intros frames count written g s ch H Hf Hn; [lia|].
  cbn [write_rounds]. destruct (Nat.eqb_spec count 0) as [->|Hc0].
  { exists 0%nat, s, ch. rewrite Nat.add_0_r, take_0, app_nil_r. by split_and!. }
  destruct (get_buffer_ok Tx g fuel nb s ch H Hf) as (ok & s1 & c1 & E1 & H1 & L1 & P1). rewrite (i2s_bind _ _ _ _ _ E1).
  destruct ok; [|by exists 0%nat, s1, c1; rewrite Nat.add_0_r, take_0, app_nil_r, P1; split_and!; try done; lia].
  rewrite (i2s_bind _ _ _ _ _ (look_done Tx curr_slc_buf_pos s1 c1 (has_chan _ _ _ _ H1))). cbv zeta.
  destruct (active_some c1 _ (proj1 (has_inv _ _ _ _ H1)) P1) as (b & Hb & _ & _ & Hpos).
  set (fc := if (SLC_BUF_LEN - curr_slc_buf_pos c1 <? count)%nat then (SLC_BUF_LEN - curr_slc_buf_pos c1)%nat else count).
  assert (Hfc : (0 < fc <= count)%nat /\ (curr_slc_buf_pos c1 + fc <= SLC_BUF_LEN)%nat).
  { unfold fc. destruct (Nat.ltb_spec (SLC_BUF_LEN - curr_slc_buf_pos c1) count); lia. }
  destruct (write_frames_ok fc mono frames g s1 c1 b H1 Hb ltac:(lia)) as (s2 & c2 & E2 & H2 & L2). rewrite (i2s_bind _ _ _ _ _ E2).
  destruct (IH (frames_after fc mono frames) (count - fc)%nat (written + fc)%nat _ s2 c2 H2) as (k & s3 & c3 & E3 & K3 & H3 & L3 & F3); [lia | lia |].
  exists (fc + k)%nat, s3, c3. split_and!; [by rewrite E3, Nat.add_assoc | lia | | lia | intros ->; specialize (F3 eq_refl); lia].
  replace count with (fc + (count - fc))%nat at 1 by lia. rewrite frame_words_app, take_app_add' by (by rewrite length_frame_words).
  by rewrite app_assoc.
Qed.

(** ** Programs that write *)

Inductive call := WriteSample (v : Z) (nb : bool) | WriteLR (left right : Z) | WriteBuffer (frames : list Z) (count : nat) (mono nb : bool).
(** The words that a call should write. *)
Definition wanted (c : call) : list Z :=
  match c with
  | WriteSample v _ => [v]
  | WriteLR l r => [lr_sample l r]
  | WriteBuffer frames count mono _ => frame_words count mono frames
  end.
Definition blocking (c : call) : bool :=
  match c with WriteSample _ nb | WriteBuffer _ _ _ nb => negb nb | WriteLR _ _ => true end.
(** The number of words that it reports. *)
Definition exec (fuel : nat) (c : call) : M nat :=
  match c with
  | WriteSample v nb => ok <- (if nb then i2s_write_sample_nb fuel v else i2s_write_sample fuel v) ;; ret (if ok : bool then 1 else 0)%nat
  | WriteLR l r => ok <- i2s_write_lr fuel l r ;; ret (if ok : bool then 1 else 0)%nat
  | WriteBuffer frames count true true => i2s_write_buffer_mono_nb fuel frames count
  | WriteBuffer frames count true false => i2s_write_buffer_mono fuel frames count
  | WriteBuffer frames count false true => i2s_write_buffer_nb fuel frames count
  | WriteBuffer frames count false false => i2s_write_buffer fuel frames count
  end.
Fixpoint run (fuel : nat) (cs : list call) : M (list nat) :=
  match cs with [] => ret [] | c :: cs' => n <- exec fuel c ;; ns <- run fuel cs' ;; ret (n :: ns) end.
Definition accepted (cs : list call) (ns : list nat) : list Z := List.concat (zip_with (fun c n => take n (wanted c)) cs ns).

Lemma one_word (g : list Z) (ok : bool) v : g ++ (if ok then [v] else []) = g ++ take (if ok then 1 else 0) [v].
Proof. by destruct ok. Qed.

Lemma exec_ok g fuel c s ch :
  has Tx g s ch -> (length (script s) + SLC_BUF_LEN <= fuel)%nat ->
  exists n s' ch', exec fuel c s = Done n s' /\ has Tx (g ++ take n (wanted c)) s' ch' /\ (length (script s') <= length (script s))%nat /\
    (n <= length (wanted c))%nat /\ (blocking c = true -> n = length (wanted c)).
Proof.
  intros H Hf. destruct c as [v nb|l r|frames count mono nb]; cbn [exec wanted blocking].
  - destruct (write_sample_ok g fuel v nb s ch H Hf) as (ok & s1 & c1 & E1 & H1 & L1 & P1). rewrite one_word in H1.
    exists (if ok then 1 else 0)%nat, s1, c1. split_and!; try done.
    + by destruct nb; rewrite (i2s_bind _ _ _ _ _ E1).
    + by destruct ok; cbn; lia.
    + intros ->%negb_true_iff. by rewrite P1.
  - destruct (write_sample_ok g fuel (lr_sample l r) false s ch H Hf) as (ok & s1 & c1 & E1 & H1 & L1 & P1). rewrite one_word in H1.
    exists (if ok then 1 else 0)%nat, s1, c1. split_and!; try done.
    + by unfold i2s_write_lr, i2s_write_sample; rewrite (i2s_bind _ _ _ _ _ E1).
    + by destruct ok; cbn; lia.
    + intros _. by rewrite P1.
  - destruct (write_rounds_ok (S count) fuel mono nb frames count 0 g s ch H Hf ltac:(lia)) as (k & s1 & c1 & E1 & K1 & H1 & L1 & P1).
    exists k, s1, c1. rewrite length_frame_words. split_and!; try done; [by destruct mono, nb|]. intros ->%negb_true_iff. auto.
Qed.

Lemma run_ok g fuel cs s ch :
  has Tx g s ch -> (length (script s) + SLC_BUF_LEN <= fuel)%nat ->
  exists ns s' ch', run fuel cs s = Done ns s' /\ has Tx (g ++ accepted cs ns) s' ch' /\
    Forall2 (fun c n => (n <= length (wanted c))%nat /\ (blocking c = true -> n = length (wanted c))) cs ns.
Proof.
  revert g s ch. induction cs as [|c cs IH]; intros g s ch H Hf.
  { exists [], s, ch. unfold accepted. cbn. by rewrite app_nil_r. }
  destruct (exec_ok g fuel c s ch H Hf) as (n & s1 & c1 & E1 & H1 & L1 & P1).
  destruct (IH _ s1 c1 H1 ltac:(lia)) as (ns & s2 & c2 & E2 & H2 & F2).
  exists (n :: ns), s2, c2. split_and!.
  - cbn [run]. by rewrite (i2s_bind _ _ _ _ _ E1), (i2s_bind _ _ _ _ _ E2).
  - unfold accepted in *. cbn. by rewrite app_assoc.
  - by constructor.
Qed.

(** ** A channel that has been opened *)

Definition opened : i2s_state := snd (_alloc_channel (fun _ => true) zeroed).
Definition started : engine := mkEngine 0 0 [] false false.

Lemma opened_safe : safe opened started.
Proof. constructor; try (by vm_compute); split_and!; try (by vm_compute); repeat constructor; try (by vm_compute); vm_compute; lia. Qed.

Lemma opened_tx : tx_stream [] opened started.
Proof.
  exists [], (false, zeros), [1; 2; 3; 4; 5; 6; 7]%nat, (repeat (false, zeros) 7), [], [].
  split_and!; try (by vm_compute); by repeat constructor.
Qed.
Lemma opened_rx : rx_stream [] opened started.
Proof. exists [1; 2; 3; 4; 5; 6; 7]%nat, [], []. by split_and!; try (by vm_compute). Qed.

Lemma opened_has d s : chan d s = Some opened -> eng d s = started -> has d [] s opened.
Proof.
  intros Hc He. constructor; [done|]. rewrite He. split; [apply opened_safe|]. intros _. destruct d; [apply opened_tx | apply opened_rx].
Qed.

Lemma all_words_length bs : Forall block_ok bs -> length (all_words bs) = (SLC_BUF_LEN * length bs)%nat.
Proof.
  induction 1 as [|b bs [Hb _] _ IH]; [done|]. change (all_words (b :: bs)) with (snd b ++ all_words bs).
  rewrite length_app, IH, Hb. cbn [length]. lia.
Qed.

(** What has gone over the line, in terms of blocks. *)
Lemma tx_stream_line W ch e :
  safe ch e -> tx_stream W ch e ->
  exists blocks part, Forall block_ok blocks /\ prefix (line e) (all_words blocks) /\
    (SLC_BUF_LEN * length blocks <= length (line e) + SLC_BUF_CNT * SLC_BUF_LEN)%nat /\
    W = samples blocks ++ part /\ (length part < SLC_BUF_LEN)%nat.
Proof.
  intros Sf (past & cur & filled & fb & Q & part & Hring & _ & Hb & Hok & _ & Ha & Hp & Hline & HW).
  exists (past ++ cur :: fb), part. split_and!; try done.
  - exists (drop (at_word e) (snd cur) ++ all_words fb). rewrite Hline, all_words_app.
    change (all_words (cur :: fb)) with (snd cur ++ all_words fb). rewrite <- app_assoc. f_equal. rewrite app_assoc. by rewrite take_drop.
  - pose proof (length_ring (at_item e)) as Hl. rewrite Hring in Hl. cbn [length] in Hl. rewrite length_app in Hl.
    apply Forall2_length in Hb. cbn [length] in Hb. apply Forall_app in Hok as [Hok _].
    rewrite Hline, !length_app, all_words_length by done. cbn [length]. unfold SLC_BUF_LEN, SLC_BUF_CNT, block in *. lia.
  - destruct (active_at_most ch) as [E | [b E]]; [rewrite (Hp E); unfold SLC_BUF_LEN; cbn; lia|].
    rewrite E in Ha. apply Forall_singleton in Ha as [_ ->].
    unfold active in E. destruct (curr_slc_buf ch); [|done]. destruct (Nat.ltb_spec (curr_slc_buf_pos ch) SLC_BUF_LEN); done.
Qed.

(** C25: the samples that a program writes go over the line in order and complete.  A
    program calls the functions that write single samples, pairs and buffers of frames,
    blocking or not, in any order; sample periods pass and interrupts come at any time.
    Every call returns, the blocking ones after writing everything, no pointer or index
    leaves its range, and as long as the engine never comes to the buffer that the
    program is filling, the line carries whole blocks of samples in the order in which
    they were accepted, with only whole silent blocks in between, and at most eight
    blocks are on their way. *)
Theorem i2s_write_stream (fuel : nat) (cs : list call) (s : i2s) :
  tx s = Some opened -> tx_dma s = started -> (length (script s) + SLC_BUF_LEN <= fuel)%nat ->
  exists ns s' ch', run fuel cs s = Done ns s' /\ tx s' = Some ch' /\ safe ch' (tx_dma s') /\
    Forall2 (fun c n => (n <= length (wanted c))%nat /\ (blocking c = true -> n = length (wanted c))) cs ns /\
    (overtaken (tx_dma s') = false ->
     exists blocks part, Forall block_ok blocks /\ prefix (line (tx_dma s')) (all_words blocks) /\
       (SLC_BUF_LEN * length blocks <= length (line (tx_dma s')) + SLC_BUF_CNT * SLC_BUF_LEN)%nat /\
       accepted cs ns = samples blocks ++ part /\ (length part < SLC_BUF_LEN)%nat).
Proof.
  intros Ht He Hf. destruct (run_ok [] fuel cs s opened (opened_has Tx s Ht He) Hf) as (ns & s' & ch' & E & [Hc [Sf Hs]] & F).
  exists ns, s', ch'. split_and!; try done. intros O. exact (tx_stream_line _ _ _ Sf (Hs O)).
Qed.

(** ** Programs that read *)

(** The two channels of a word. *)
Definition channels (w : Z) : Z * Z := (s16 (Z.land w 0xffff), s16 (Z.shiftr w 16)).
Fixpoint read_all (fuel : nat) (bs : list bool) : M (list (option (Z * Z))) :=
  match bs with [] => ret [] | b :: bs' => r <- i2s_read_sample fuel b ;; rs <- read_all fuel bs' ;; ret (r :: rs) end.

Lemma read_sample_ok g fuel b s ch :
  has Rx g s ch -> (length (script s) + SLC_BUF_LEN <= fuel)%nat ->
  exists ws s' ch', i2s_read_sample fuel b s = Done (head (map channels ws)) s' /\ has Rx (g ++ ws) s' ch' /\
    (length (script s') <= length (script s))%nat /\ (length ws <= 1)%nat /\ (b = true -> ws <> []).
Proof.
  intros H Hf. unfold i2s_read_sample. pose proof (has_chan _ _ _ _ H) as Hc. cbn [chan] in Hc. rewrite Hc.
  destruct (get_buffer_ok Rx g fuel (negb b) s ch H Hf) as (ok & s1 & c1 & E1 & H1 & L1 & P1). rewrite (i2s_bind _ _ _ _ _ E1).
  destruct ok.
  - destruct (access_ok Rx g s1 c1 H1) as (s2 & c2 & E2 & H2 & S2 & _ & Sc & _). rewrite (i2s_bind _ _ _ _ _ E2).
    rewrite (i2s_bind _ _ _ _ _ (look_done Rx sample_at s2 c2 (has_chan _ _ _ _ H2))).
    assert (Hnb : need_buffer c2 = false) by (by rewrite (need_same _ _ S2)).
    exists [sample_at c2], (set_rx (Some (fetch_word c2)) s2), (fetch_word c2). split_and!; try done.
    + unfold bind, change. by rewrite (has_chan _ _ _ _ H2).
    + constructor; [done|]. apply inv_fetch; [apply H2 | done].
    + cbn. rewrite Sc. destruct (script s1); cbn in *; lia.
  - exists [], s1, c1. split_and!; try done; [by rewrite app_nil_r | cbn; lia | intros ->; done].
Qed.

Lemma read_all_ok g fuel bs s ch :
  has Rx g s ch -> (length (script s) + SLC_BUF_LEN <= fuel)%nat ->
  exists rs ws s' ch', read_all fuel bs s = Done rs s' /\ has Rx (g ++ ws) s' ch' /\ omap id rs = map channels ws /\
    Forall2 (fun b r => b = true -> r <> None) bs rs.
Proof.
  revert g s ch. induction bs as [|b bs IH]; intros g s ch H Hf.
  { exists [], [], s, ch. by rewrite app_nil_r. }
  destruct (read_sample_ok g fuel b s ch H Hf) as (w & s1 & c1 & E1 & H1 & L1 & W1 & P1).
  destruct (IH _ s1 c1 H1 ltac:(lia)) as (rs & ws & s2 & c2 & E2 & H2 & M2 & F2).
  exists (head (map channels w) :: rs), (w ++ ws), s2, c2. split_and!.
  - cbn [read_all]. by rewrite (i2s_bind _ _ _ _ _ E1), (i2s_bind _ _ _ _ _ E2).
  - by rewrite app_assoc.
  - rewrite map_app. destruct w as [|v [|]]; cbn in *; [done | by rewrite M2 | lia].
  - constructor; [|done]. intros Hb. destruct w; [by destruct (P1 Hb) | done].
Qed.

Lemma rx_stream_line R ch e :
  safe ch e -> rx_stream R ch e -> exists rest, line e = R ++ rest /\ (length rest < SLC_BUF_CNT * SLC_BUF_LEN)%nat.
Proof.
  intros Sf (unused & Q & qb & Hring & _ & Hb & Hline). eexists. split; [exact Hline|].
  pose proof (length_ring (at_item e)) as Hl. rewrite Hring in Hl. cbn [length] in Hl. rewrite !length_app in Hl.
  pose proof (ring_bound (at_item e)) as HB. rewrite Hring in HB. apply Forall_cons in HB as [_ [_ [HA HQ]%Forall_app]%Forall_app].
  assert (Lq : length (List.concat qb) = (SLC_BUF_LEN * length Q)%nat).
  { clear -Hb HQ Sf. induction Hb as [|b blk Q qb Hx _ IH]; [done|]. apply Forall_cons in HQ as [Hb HQ]. cbn [List.concat length].
    rewrite length_app, IH, <- Hx, (buf_length ch e) by done. lia. }
  assert (La : (length (List.concat (map (fun b => drop (curr_slc_buf_pos ch) (slc_buf_pntr ch !!! b)) (active ch))) <= SLC_BUF_LEN * length (active ch))%nat).
  { destruct (active_at_most ch) as [E | [b E]]; rewrite E in *; [cbn; lia|]. apply Forall_cons in HA as [HA _]. cbn [map List.concat length].
    rewrite app_nil_r, length_drop, (buf_length ch e) by done. lia. }
  destruct (safe_at _ _ Sf) as [Hi Hw]. rewrite !length_app, length_take, Lq, (buf_length ch e) by done.
  unfold SLC_BUF_CNT, SLC_BUF_LEN in *. lia.
Qed.

(** C26: a program reads the samples of the line in order and complete.  Whatever calls it
    makes, blocking or not, and whenever sample periods pass and interrupts come: every call returns, the
    blocking ones with a sample, no pointer or index leaves its range, and as long as
    the engine never comes to a buffer that still holds unread samples, the samples read
    so far are the beginning of what has come in, with less than the size of the buffers
    outstanding. *)
Theorem i2s_read_stream (fuel : nat) (bs : list bool) (s : i2s) :
  rx s = Some opened -> rx_dma s = started -> (length (script s) + SLC_BUF_LEN <= fuel)%nat ->
  exists rs s' ch', read_all fuel bs s = Done rs s' /\ rx s' = Some ch' /\ safe ch' (rx_dma s') /\
    Forall2 (fun b r => b = true -> r <> None) bs rs /\
    (overtaken (rx_dma s') = false ->
     exists ws rest, line (rx_dma s') = ws ++ rest /\ (length rest < SLC_BUF_CNT * SLC_BUF_LEN)%nat /\ omap id rs = map channels ws).
Proof.
  intros Hr He Hf. destruct (read_all_ok [] fuel bs s opened (opened_has Rx s Hr He) Hf) as (rs & ws & s' & ch' & E & [Hc [Sf Hs]] & Hm & F).
  exists rs, s', ch'. split_and!; try done. intros O. destruct (rx_stream_line _ _ _ Sf (Hs O)) as (rest & Hl & Hn).
  by exists ws, rest.
Qed.
