(* ===== verification/I2sWitness.v ===== *)
(** * The I2S driver: concrete runs *)

From S2P Require Import Prelude I2s I2sRing I2sStream I2sProps.

Definition sending (l : list (list Z)) : i2s := mkI2s (Some opened) None started started l 0 0.
Definition receiving (l : list (list Z)) : i2s := mkI2s None (Some opened) started started l 0 0.
Definition upto (a n : nat) : list Z := map Z.of_nat (seq a n).

(** Ten samples, then a buffer of 130 mono frames that does not block, while 70 sample
    periods pass at each of the first places. *)
Definition probe_calls : list call :=
  [WriteSample 5 false; WriteLR (-1) 2; WriteBuffer (upto 1 130) 130 true true; WriteSample 7 true].

Lemma i2s_write_stream_witness :
  exists ns s' ch', run 200 probe_calls (sending (repeat (repeat 0 70) 3)) = Done ns s' /\ tx s' = Some ch' /\ ns = [1; 1; 130; 1]%nat /\
    overtaken (tx_dma s') = false /\
    exists blocks part, prefix (line (tx_dma s')) (all_words blocks) /\ accepted probe_calls [1; 1; 130; 1]%nat = samples blocks ++ part.
Proof.
  destruct (i2s_write_stream 200 probe_calls (sending (repeat (repeat 0 70) 3))) as (ns & s' & ch' & E & T & _ & _ & H);
    [reflexivity | reflexivity | vm_compute; lia |].
  assert (R : exists s0, run 200 probe_calls (sending (repeat (repeat 0 70) 3)) = Done [1; 1; 130; 1]%nat s0 /\ overtaken (tx_dma s0) = false)
    by (eexists; split; vm_compute; reflexivity).
  destruct R as (s0 & E0 & O). rewrite E in E0. injection E0 as -> <-. exists [1; 1; 130; 1]%nat, s', ch'.
  split; [exact E|]. split; [exact T|]. split; [reflexivity|]. split; [exact O|].
  destruct (H O) as (blocks & part & _ & P & _ & A & _). exists blocks, part. split; [exact P | exact A].
Defined.

Lemma i2s_read_stream_witness :
  exists rs s' ch', read_all 300 (repeat true 100) (receiving [upto 1 70; upto 71 100]) = Done rs s' /\ rx s' = Some ch' /\
    overtaken (rx_dma s') = false /\
    exists ws rest, line (rx_dma s') = ws ++ rest /\ omap id rs = map channels ws.
Proof.
  destruct (i2s_read_stream 300 (repeat true 100) (receiving [upto 1 70; upto 71 100])) as (rs & s' & ch' & E & T & _ & _ & H);
    [reflexivity | reflexivity | vm_compute; lia |].
  assert (R : exists rs0 s0, read_all 300 (repeat true 100) (receiving [upto 1 70; upto 71 100]) = Done rs0 s0 /\ overtaken (rx_dma s0) = false)
    by (eexists _, _; split; vm_compute; reflexivity).
  destruct R as (rs0 & s0 & E0 & O). rewrite E in E0. injection E0 as <- <-. exists rs, s', ch'.
  split; [exact E|]. split; [exact T|]. split; [exact O|].
  destruct (H O) as (ws & rest & L & _ & M). exists ws, rest. split; [exact L | exact M].
Defined.

(** ** Behaviours of the code *)

(** When the engine runs into the buffer that is being filled, the program goes on filling
    it behind the engine: later samples overtake earlier ones.  The program has written 1
    to 10 when the engine passes; 65 to 128 are sent before 11 to 64. *)
Example underflow_reorders :
  match run 700 (map (fun v => WriteSample v false) (upto 1 128))
          (sending ([repeat 0 64; []] ++ repeat [] 10 ++ [repeat 0 (64 * 8)] ++ repeat [] 200)) with
  | Done _ s' => List.filter (fun v => negb (v =? 0)) (line (tx_dma (ticks (repeat 0 (64 * 16)) s'))) = upto 1 10 ++ upto 65 64 ++ upto 11 54
  | _ => False
  end.
Proof. vm_compute. reflexivity. Qed.

(** When nothing is read for nine buffers, the queue loses the last two and has the one
    before them twice. *)
Example overflow_repeats :
  match read_all 700 (repeat false (64 * 7)) (receiving (upto 1 (64 * 9) :: repeat [] 1000)) with
  | Done rs _ => omap id rs = map channels (upto 65 (64 * 6) ++ upto 385 64)
  | _ => False
  end.
Proof. vm_compute. reflexivity. Qed.

(** [i2s_available] of a channel that has just been opened, into which nothing can be
    written. *)
Example available_when_full :
  _i2s_available (Some opened) = 512 /\ _i2s_is_full (Some opened) = true /\
  match i2s_write_sample_nb 100 1 (sending [[]; []]) with Done ok _ => ok = false | _ => False end.
Proof. split_and!; vm_compute; reflexivity. Qed.

(** The two ways to write the same stereo frame. *)
Example stereo_order : lr_sample 1 2 = 0x20001 /\ frame_word false [1; 2] = (0x10002, []).
Proof. by vm_compute. Qed.
