(* ===== verification/EspClock.v ===== *)
(** * The clock of the ESP8266 core

    Models the clock of [cores/esp8266/core_esp8266_wiring.c]: [micros], [micros64] and
    [millis], which divides by 1000 with a multiplication, on top of a 32-bit counter of
    microseconds and a timer that counts its overflows.  The counter of the SDK,
    [system_get_time], is the argument [now] of the routines that read it. *)

From S2P Require Import Prelude.

Definition u64 (v : Z) : Z := v mod 18446744073709551616.

Record clock := mkClock { micros_at_last_overflow_tick : Z; micros_overflow_count : Z }.

Definition MAGIC_1E3_wLO := 0x4bc6a7f0.
Definition MAGIC_1E3_wHI := 0x00418937.

(** ** The code *)

(** [micros_overflow_tick]: it reads the counter, counts, and stores what it has read. *)
Definition tick_count (m : Z) (c : clock) : clock :=
  mkClock (micros_at_last_overflow_tick c)
    (if m <? micros_at_last_overflow_tick c then u32 (micros_overflow_count c + 1) else micros_overflow_count c).
Definition tick_store (m : Z) (c : clock) : clock := mkClock m (micros_overflow_count c).
Definition micros_overflow_tick (now : Z) (c : clock) : clock := tick_store now (tick_count now c).

Definition overflows (m : Z) (c : clock) : Z :=
  u32 (micros_overflow_count c + (if m <? micros_at_last_overflow_tick c then 1 else 0)).

(** The accumulator is one 64-bit number; its upper half is added to on its own in the
    last step. *)
Definition millis (now : Z) (c : clock) : Z :=
  let m := now in
  let c := overflows m c in
  let q := Z.shiftr (u64 (m * MAGIC_1E3_wLO)) 32 in
  let q := u64 (q + u64 (m * MAGIC_1E3_wHI)) in
  let q := u64 (q + u64 (c * MAGIC_1E3_wLO)) in
  u32 (Z.shiftr q 32 + u32 (u64 (c * MAGIC_1E3_wHI))).
Definition micros (now : Z) : Z := now.
Definition micros64 (now : Z) (c : clock) : Z :=
  Z.lor (u64 (Z.shiftl (overflows now c) 32)) now.

(** ** The multiplication *)

Lemma millis_sum m c : is_u32 m -> is_u32 c ->
  u64 (u64 (Z.shiftr (u64 (m * MAGIC_1E3_wLO)) 32 + u64 (m * MAGIC_1E3_wHI)) + u64 (c * MAGIC_1E3_wLO)) =
  m * MAGIC_1E3_wLO / 4294967296 + m * MAGIC_1E3_wHI + c * MAGIC_1E3_wLO.
Proof.
  unfold is_u32, MAGIC_1E3_wLO, MAGIC_1E3_wHI. intros Hm Hc. rewrite Z.shiftr_div_pow2 by lia. change (2 ^ 32) with 4294967296.
  assert (D : 0 <= m * 0x4bc6a7f0 / 4294967296 < 4294967296) by mlia.
  unfold u64. rewrite (Z.mod_small (m * 0x4bc6a7f0)), (Z.mod_small (m * 0x00418937)), (Z.mod_small (c * 0x4bc6a7f0)) by lia.
  rewrite (Z.mod_small (m * 0x4bc6a7f0 / 4294967296 + m * 0x00418937)) by lia. apply Z.mod_small. lia.
Qed.

(** For up to 2^22 overflows the product with the reciprocal is the quotient. *)
Lemma millis_quotient m c ck :
  is_u32 m -> 0 <= c < 0x400000 -> overflows m ck = c -> millis m ck = u32 ((4294967296 * c + m) / 1000).
Proof.
  intros Hm Hc Ho. unfold millis. cbv zeta. rewrite Ho. assert (Hc' : is_u32 c) by (unfold is_u32; lia).
  rewrite millis_sum by done. unfold u32, u64, MAGIC_1E3_wLO, MAGIC_1E3_wHI, is_u32 in *. rewrite Z.shiftr_div_pow2 by lia. change (2 ^ 32) with 4294967296.
  rewrite Zplus_mod_idemp_r.
  rewrite (Z.mod_small (c * 0x00418937)) by lia. f_equal. mlia.
Qed.

(** ** The clock while time passes

    The timer routine can be interrupted between its steps, and an interrupt may ask for
    the time: the phases are where it is, with the value that it has read. *)

Inductive phase := Idle | HasRead (m : Z) | HasCounted (m : Z).
(** Microseconds since the start; when the counter was read last and that reading
    stored; when the reading in progress was made. *)
Record run := mkRun { time : Z; stored : Z; reading : Z; at_phase : phase; ck : clock }.

Definition system_get_time (r : run) : Z := u32 (time r).

Inductive step : run -> run -> Prop :=
  | step_time t r : time r <= t -> t < stored r + 4294967296 -> step r (mkRun t (stored r) (reading r) (at_phase r) (ck r))
  | step_read r : at_phase r = Idle -> step r (mkRun (time r) (stored r) (time r) (HasRead (system_get_time r)) (ck r))
  | step_count r m : at_phase r = HasRead m -> step r (mkRun (time r) (stored r) (reading r) (HasCounted m) (tick_count m (ck r)))
  | step_store r m : at_phase r = HasCounted m -> step r (mkRun (time r) (reading r) (reading r) Idle (tick_store m (ck r))).

Definition boot : run := mkRun 0 0 0 Idle (mkClock 0 0).
Definition reachable : run -> Prop := rtc step boot.

(** In the middle of counting an overflow. *)
Definition counting (r : run) : bool :=
  match at_phase r with HasCounted m => m <? micros_at_last_overflow_tick (ck r) | _ => false end.

Definition epoch (t : Z) : Z := t / 4294967296.

Record clock_ok (r : run) : Prop := {
  ok_time : 0 <= stored r <= time r /\ time r < stored r + 4294967296;
  ok_last : micros_at_last_overflow_tick (ck r) = u32 (stored r);
  ok_phase : match at_phase r with
             | Idle => micros_overflow_count (ck r) = u32 (epoch (stored r))
             | HasRead m => m = u32 (reading r) /\ stored r <= reading r <= time r /\ micros_overflow_count (ck r) = u32 (epoch (stored r))
             | HasCounted m => m = u32 (reading r) /\ stored r <= reading r <= time r /\ micros_overflow_count (ck r) = u32 (epoch (reading r))
             end
}.

(** The counter is smaller than at an earlier time, less than a round ago, exactly when
    it has overflowed since. *)
Lemma overflow_seen s t :
  0 <= s <= t -> t < s + 4294967296 -> epoch t = epoch s + (if u32 t <? u32 s then 1 else 0).
Proof. unfold epoch, u32. intros H1 H2. destruct (Z.ltb_spec (t mod 4294967296) (s mod 4294967296)); mlia. Qed.

Lemma clock_ok_step r r' : clock_ok r -> step r r' -> clock_ok r'.
Proof.
  intros [[Ht1 Ht2] Hl Hp] S. destruct S as [t r Hle Hlt|r Ph|r m Ph|r m Ph]; constructor; cbn [time stored reading at_phase ck];
    rewrite ?Ph in Hp; try done; try lia.
  - destruct (at_phase r); [done | split_and!; try tauto; lia..].
  - split_and!; try done; lia.
  - destruct Hp as (-> & Hr & Hc). split_and!; try tauto; try lia. unfold tick_count. cbn [micros_overflow_count]. rewrite Hl, Hc.
    rewrite (overflow_seen (stored r) (reading r)) by lia. destruct (u32 (reading r) <? u32 (stored r)); [|by rewrite Z.add_0_r].
    unfold u32. by rewrite Zplus_mod_idemp_l.
  - unfold tick_store. cbn [micros_at_last_overflow_tick]. tauto.
  - tauto.
Qed.

Lemma reachable_ok r : reachable r -> clock_ok r.
Proof.
  intros H. unfold reachable in H. remember boot as b eqn:Eb. assert (clock_ok b) as Hb by (subst; constructor; cbn; lia || done).
  clear Eb. induction H as [|x y z S _ IH]; [done|]. apply IH. by eapply clock_ok_step.
Qed.

(** The number of overflows as the routines compute it. *)
Lemma overflows_ok r :
  clock_ok r -> overflows (system_get_time r) (ck r) = u32 (epoch (time r) + if counting r then 1 else 0).
Proof.
  intros [[Ht1 Ht2] Hl Hp]. unfold overflows, system_get_time. rewrite Hl.
  assert (E : micros_overflow_count (ck r) = u32 (epoch (stored r) + if counting r then 1 else 0)).
  { unfold counting. destruct (at_phase r) as [|m|m]; rewrite ?Z.add_0_r; try tauto.
    destruct Hp as (-> & Hr & ->). rewrite Hl, (overflow_seen (stored r) (reading r)) by lia. done. }
  rewrite E, (overflow_seen (stored r) (time r)) by lia. unfold u32. rewrite Zplus_mod_idemp_l. f_equal. lia.
Qed.

Lemma micros64_value r o :
  overflows (system_get_time r) (ck r) = u32 (epoch (time r) + o) -> micros64 (system_get_time r) (ck r) = u64 (time r + 4294967296 * o).
Proof.
  intros E. unfold micros64. rewrite E. unfold system_get_time, u64, epoch, u32. rewrite Z.shiftl_mul_pow2 by lia. change (2 ^ 32) with 4294967296.
  set (h := (time r / 4294967296 + o) mod 4294967296). rewrite Z.mod_small by (unfold h; mlia).
  replace (h * 4294967296) with (Z.shiftl h 32) by (rewrite Z.shiftl_mul_pow2 by lia; done).
  rewrite lor_disjoint_add by (change (2 ^ 32) with 4294967296; mlia). change (2 ^ 32) with 4294967296. unfold h. mlia.
Qed.

(** C37: as long as the overflow timer runs at least once in 71 minutes, the clock is exact
    at every moment, also when an interrupt asks for the time in the middle of the timer
    routine: [micros] and [micros64] are the microseconds since the start modulo 2^32
    and 2^64, and [millis], which multiplies with a scaled reciprocal in 64-bit
    arithmetic that never overflows, is the exact quotient by 1000 for 570 years.  The one exception is the
    window in which an overflow has been counted but the reading has not been stored, in
    which [micros64] is one overflow ahead. *)
Theorem esp_clock_exact (r : run) :
  reachable r ->
  micros (system_get_time r) = u32 (time r) /\
  micros64 (system_get_time r) (ck r) = u64 (time r + if counting r then 4294967296 else 0) /\
  (time r < 4294967296 * 0x3fffff -> millis (system_get_time r) (ck r) = u32 ((time r + if counting r then 4294967296 else 0) / 1000)).
Proof.
  intros H%reachable_ok. pose proof (overflows_ok r H) as E. destruct H as [[Ht1 Ht2] _ _]. split_and!.
  - done.
  - rewrite (micros64_value r _ E). f_equal. destruct (counting r); lia.
  - intros Hlt. rewrite (millis_quotient (system_get_time r) (epoch (time r) + if counting r then 1 else 0)).
    + f_equal. unfold system_get_time, epoch, u32. destruct (counting r); mlia.
    + apply u32_range.
    + unfold epoch. destruct (counting r); mlia.
    + rewrite E. apply u32_id. unfold is_u32, epoch. destruct (counting r); mlia.
Qed.

(** A run past the first overflow of the counter, with the timer after one hour and one
    second after the overflow. *)
Definition run_counted : run := mkRun 4295967296 3600000000 4295967296 (HasCounted 1000000) (mkClock 3600000000 1).
Definition run_stored : run := mkRun 4295967296 4295967296 4295967296 Idle (mkClock 1000000 1).

Lemma reach_counted : reachable run_counted.
Proof.
  eapply rtc_l; [apply (step_time 3600000000); cbn; lia|]. eapply rtc_l; [by apply step_read|].
  eapply rtc_l; [by apply (step_count _ 3600000000)|]. eapply rtc_l; [by apply (step_store _ 3600000000)|].
  eapply rtc_l; [apply (step_time 4295967296); cbn; lia|]. eapply rtc_l; [by apply step_read|].
  eapply rtc_l; [by apply (step_count _ 1000000)|]. apply rtc_refl.
Qed.
Lemma reach_stored : reachable run_stored.
Proof. eapply rtc_r; [apply reach_counted|]. by apply (step_store run_counted 1000000). Qed.

Lemma esp_clock_exact_witness : micros64 1000000 (mkClock 1000000 1) = 4295967296 /\ millis 1000000 (mkClock 1000000 1) = 4295967.
Proof.
  destruct (esp_clock_exact run_stored reach_stored) as (_ & A & B). split; [exact A|]. apply B. cbn. lia.
Defined.

(** An interrupt in the window sees a time that is 71 minutes ahead. *)
Example overflow_counted_twice : reachable run_counted /\ micros64 (system_get_time run_counted) (ck run_counted) = time run_counted + 4294967296.
Proof. split; [apply reach_counted | reflexivity]. Qed.
