(* ===== verification/Waveform.v ===== *)
(** * The waveform generator of the ESP8266 core

    Models [cores/esp8266/core_esp8266_waveform.c], with [timer1_write] and its
    neighbours of [core_esp8266_timer.c], at 80 MHz: square waves on any of the pins,
    made by the interrupt handler of timer 1, which the program asks to start and stop
    waves through two words of flags.

    The cycle counter is the function [cyc]: the cycle, counted without overflow, in which the [n]-th
    reading is made.  The interrupt cannot be masked and comes at any point of the
    foreground code at which the timer runs: [startWaveform] and [stopWaveform] have a list
    that says at which of their points, between the stores, it comes.  The handler itself
    runs as a whole.  Changes of the levels of the pins by waves are recorded with their
    times. *)

From S2P Require Import Prelude.

(** The value of type [int32_t] that is congruent to [v]. *)
Definition int32 (v : Z) : Z := (v + 2147483648) mod 4294967296 - 2147483648.

Definition clockCyclesPerMicrosecond : Z := 80.
Definition microsecondsToClockCycles (a : Z) : Z := u32 (a * clockCyclesPerMicrosecond).
Definition MAXIRQUS : Z := 10000.
Definition DELTAIRQ : Z := microsecondsToClockCycles 3.
Definition isFlashInterfacePin (p : Z) : bool := (6 <=? p) && (p <=? 11).

(** ** State *)

Record Waveform := mkWave { nextServiceCycle : Z; expiryCycle : Z; nextTimeHighCycles : Z; nextTimeLowCycles : Z }.
#[global] Instance wave_inhabited : Inhabited Waveform := populate (mkWave 0 0 0 0).
Definition set_next (v : Z) (w : Waveform) : Waveform := mkWave v (expiryCycle w) (nextTimeHighCycles w) (nextTimeLowCycles w).
Definition set_expiry (v : Z) (w : Waveform) : Waveform := mkWave (nextServiceCycle w) v (nextTimeHighCycles w) (nextTimeLowCycles w).
Definition set_high (v : Z) (w : Waveform) : Waveform := mkWave (nextServiceCycle w) (expiryCycle w) v (nextTimeLowCycles w).
Definition set_low (v : Z) (w : Waveform) : Waveform := mkWave (nextServiceCycle w) (expiryCycle w) (nextTimeHighCycles w) v.

(** A change of a pin: the pin, its new level, the cycle, and for how many cycles the
    level is to last. *)
Record edge := mkEdge { e_pin : nat; e_up : bool; e_at : Z; e_len : Z }.
Record gen := mkGen {
  waveform : list Waveform;
  waveformState : Z; waveformEnabled : Z; waveformToEnable : Z; waveformToDisable : Z;
  startPin : Z; endPin : Z;
  timerRunning : bool; timer1CB : bool;
  gpo : Z; gp16o : Z; T1L : Z; T1C : Z; TEIE : Z;
  readings : nat; edges : list edge
}.
Definition set_waveform v s := mkGen v (waveformState s) (waveformEnabled s) (waveformToEnable s) (waveformToDisable s) (startPin s) (endPin s) (timerRunning s) (timer1CB s) (gpo s) (gp16o s) (T1L s) (T1C s) (TEIE s) (readings s) (edges s).
Definition set_waveformState v s := mkGen (waveform s) v (waveformEnabled s) (waveformToEnable s) (waveformToDisable s) (startPin s) (endPin s) (timerRunning s) (timer1CB s) (gpo s) (gp16o s) (T1L s) (T1C s) (TEIE s) (readings s) (edges s).
Definition set_waveformEnabled v s := mkGen (waveform s) (waveformState s) v (waveformToEnable s) (waveformToDisable s) (startPin s) (endPin s) (timerRunning s) (timer1CB s) (gpo s) (gp16o s) (T1L s) (T1C s) (TEIE s) (readings s) (edges s).
Definition set_waveformToEnable v s := mkGen (waveform s) (waveformState s) (waveformEnabled s) v (waveformToDisable s) (startPin s) (endPin s) (timerRunning s) (timer1CB s) (gpo s) (gp16o s) (T1L s) (T1C s) (TEIE s) (readings s) (edges s).
Definition set_waveformToDisable v s := mkGen (waveform s) (waveformState s) (waveformEnabled s) (waveformToEnable s) v (startPin s) (endPin s) (timerRunning s) (timer1CB s) (gpo s) (gp16o s) (T1L s) (T1C s) (TEIE s) (readings s) (edges s).
Definition set_startPin v s := mkGen (waveform s) (waveformState s) (waveformEnabled s) (waveformToEnable s) (waveformToDisable s) v (endPin s) (timerRunning s) (timer1CB s) (gpo s) (gp16o s) (T1L s) (T1C s) (TEIE s) (readings s) (edges s).
Definition set_endPin v s := mkGen (waveform s) (waveformState s) (waveformEnabled s) (waveformToEnable s) (waveformToDisable s) (startPin s) v (timerRunning s) (timer1CB s) (gpo s) (gp16o s) (T1L s) (T1C s) (TEIE s) (readings s) (edges s).
Definition set_timerRunning v s := mkGen (waveform s) (waveformState s) (waveformEnabled s) (waveformToEnable s) (waveformToDisable s) (startPin s) (endPin s) v (timer1CB s) (gpo s) (gp16o s) (T1L s) (T1C s) (TEIE s) (readings s) (edges s).
Definition set_timer1CB v s := mkGen (waveform s) (waveformState s) (waveformEnabled s) (waveformToEnable s) (waveformToDisable s) (startPin s) (endPin s) (timerRunning s) v (gpo s) (gp16o s) (T1L s) (T1C s) (TEIE s) (readings s) (edges s).
Definition set_gpo v s := mkGen (waveform s) (waveformState s) (waveformEnabled s) (waveformToEnable s) (waveformToDisable s) (startPin s) (endPin s) (timerRunning s) (timer1CB s) v (gp16o s) (T1L s) (T1C s) (TEIE s) (readings s) (edges s).
Definition set_gp16o v s := mkGen (waveform s) (waveformState s) (waveformEnabled s) (waveformToEnable s) (waveformToDisable s) (startPin s) (endPin s) (timerRunning s) (timer1CB s) (gpo s) v (T1L s) (T1C s) (TEIE s) (readings s) (edges s).
Definition set_T1L v s := mkGen (waveform s) (waveformState s) (waveformEnabled s) (waveformToEnable s) (waveformToDisable s) (startPin s) (endPin s) (timerRunning s) (timer1CB s) (gpo s) (gp16o s) v (T1C s) (TEIE s) (readings s) (edges s).
Definition set_T1C v s := mkGen (waveform s) (waveformState s) (waveformEnabled s) (waveformToEnable s) (waveformToDisable s) (startPin s) (endPin s) (timerRunning s) (timer1CB s) (gpo s) (gp16o s) (T1L s) v (TEIE s) (readings s) (edges s).
Definition set_TEIE v s := mkGen (waveform s) (waveformState s) (waveformEnabled s) (waveformToEnable s) (waveformToDisable s) (startPin s) (endPin s) (timerRunning s) (timer1CB s) (gpo s) (gp16o s) (T1L s) (T1C s) v (readings s) (edges s).
Definition set_readings v s := mkGen (waveform s) (waveformState s) (waveformEnabled s) (waveformToEnable s) (waveformToDisable s) (startPin s) (endPin s) (timerRunning s) (timer1CB s) (gpo s) (gp16o s) (T1L s) (T1C s) (TEIE s) v (edges s).
Definition set_edges v s := mkGen (waveform s) (waveformState s) (waveformEnabled s) (waveformToEnable s) (waveformToDisable s) (startPin s) (endPin s) (timerRunning s) (timer1CB s) (gpo s) (gp16o s) (T1L s) (T1C s) (TEIE s) (readings s) v.

Section Generator.
(** The cycle counter, and what the callback of the timer returns when it is called after
    that many readings. *)
Context (cyc : nat -> Z) (timer1CB_result : nat -> Z).

Definition GetCycleCount (s : gen) : Z * gen := (u32 (cyc (readings s)), set_readings (S (readings s)) s).
Definition GetCycleCountIRQ : gen -> Z * gen := GetCycleCount.

(** ** The timer *)

Definition timer1_write (ticks : Z) (s : gen) : gen :=
  let s := set_T1L (Z.land ticks 0x7FFFFF) s in
  if bit_set (T1C s) (bv 0) then s else set_TEIE (Z.lor (TEIE s) 2) s.
Definition timer1_enable (divider int_type reload : Z) (s : gen) : gen :=
  set_T1C (Z.lor (Z.lor (Z.lor (bv 7) (Z.shiftl (Z.land divider 3) 2)) (Z.shiftl (Z.land int_type 1) 0)) (Z.shiftl (Z.land reload 1) 6)) s.
Definition timer1_disable (s : gen) : gen := set_T1C 0 s.
Definition initTimer (s : gen) : gen := set_timerRunning true (timer1_enable 0 0 0 (timer1_disable s)).
Definition deinitTimer (s : gen) : gen := set_timerRunning false (timer1_disable s).
Definition setTimer1Callback (fn : bool) (s : gen) : gen :=
  let s := set_timer1CB fn s in
  if negb (timerRunning s) && fn then timer1_write (microsecondsToClockCycles 1) (initTimer s)
  else if timerRunning s && negb fn && (waveformEnabled s =? 0) then deinitTimer s else s.

(** ** The interrupt handler *)

Definition min_u32 (a b : Z) : Z := if a <? b then a else b.
(** [__builtin_ffs] and [__builtin_clz] (for a value that is not 0). *)
Definition ffs (v : Z) : Z := match list_find (fun i => Z.testbit v (Z.of_nat i) = true) (seq 0 32) with Some (i, _) => Z.of_nat i + 1 | None => 0 end.
Definition clz (v : Z) : Z := 31 - Z.log2 v.

Definition set_pin (i : Z) (s : gen) : gen :=
  if i =? 16 then set_gp16o (Z.lor (gp16o s) 1) s else set_gpo (Z.lor (gpo s) (bv i)) s.
Definition clear_pin (i : Z) (s : gen) : gen :=
  if i =? 16 then set_gp16o (Z.land (gp16o s) (Z.lnot 1)) s else set_gpo (Z.land (gpo s) (Z.lnot (bv i))) s.

(** Requests of the program. *)
Definition handle_requests (s : gen) : gen :=
  if truth (waveformToEnable s) || truth (waveformToDisable s) then
    let s := set_waveformEnabled (Z.lor (Z.land (waveformEnabled s) (Z.lnot (waveformToDisable s))) (waveformToEnable s)) s in
    let s := set_waveformState (Z.land (waveformState s) (Z.lnot (waveformToEnable s))) s in
    let s := set_waveformToDisable 0 (set_waveformToEnable 0 s) in
    set_endPin (32 - clz (waveformEnabled s)) (set_startPin (ffs (waveformEnabled s) - 1) s)
  else s.

(** The body of the loop over the pins: the state and [nextEventCycles]. *)
Definition service_pin (i : Z) (nextEventCycles : Z) (s : gen) : Z * gen :=
  let mask := bv i in
  if negb (bit_set (waveformEnabled s) mask) then (nextEventCycles, s) else
  let wave := waveform s !!! Z.to_nat i in
  let t := cyc (readings s) in
  let '(now, s) := GetCycleCountIRQ s in
  if truth (expiryCycle wave) && (int32 (expiryCycle wave - now) <? 0) then
    (nextEventCycles, clear_pin i (set_waveformEnabled (Z.land (waveformEnabled s) (Z.lnot mask)) s))
  else if int32 (nextServiceCycle wave - now) <? 0 then
    let s := set_waveformState (Z.lxor (waveformState s) mask) s in
    let up := bit_set (waveformState s) mask in
    let len := if up then nextTimeHighCycles wave else nextTimeLowCycles wave in
    let s := if up then set_pin i s else clear_pin i s in
    let s := set_waveform (<[Z.to_nat i := set_next (u32 (now + len)) wave]> (waveform s)) s in
    (min_u32 nextEventCycles len, set_edges (mkEdge (Z.to_nat i) up t len :: edges s) s)
  else (min_u32 nextEventCycles (u32 (nextServiceCycle wave - now)), s).

Fixpoint service_pins (l : list Z) (nextEventCycles : Z) (s : gen) : Z * gen :=
  match l with [] => (nextEventCycles, s) | i :: l' => let '(n, s) := service_pin i nextEventCycles s in service_pins l' n s end.
Definition pin_range (a b : Z) : list Z := map (fun k => a + Z.of_nat k) (seq 0 (Z.to_nat (b - a + 1))).

(** [do ... while (!done)]; [None] when the fuel is used up. *)
Fixpoint service_loop (fuel : nat) (timeoutCycle : Z) (s : gen) : option (Z * gen) :=
  match fuel with
  | O => None
  | S fuel' =>
      let '(next, s) := service_pins (pin_range (startPin s) (endPin s)) (microsecondsToClockCycles MAXIRQUS) s in
      let '(now, s) := GetCycleCountIRQ s in
      if (int32 (timeoutCycle - u32 (now + next)) <? 0) || (int32 (timeoutCycle - now) <? 0) then Some (next, s)
      else service_loop fuel' timeoutCycle s
  end.

Definition finish_irq (next : Z) (s : gen) : gen :=
  let next := if timer1CB s then min_u32 next (timer1CB_result (readings s)) else next in
  let next := if next <? microsecondsToClockCycles 10 then microsecondsToClockCycles 10 else next in
  let next := u32 (next - DELTAIRQ) in
  set_TEIE (Z.lor (TEIE s) 2) (set_T1L next s).
Definition timer1Interrupt (fuel : nat) (s : gen) : option gen :=
  let next := microsecondsToClockCycles MAXIRQUS in
  let '(now, s) := GetCycleCountIRQ s in
  let timeoutCycle := u32 (now + microsecondsToClockCycles 14) in
  let s := handle_requests s in
  if truth (waveformEnabled s) then
    match service_loop fuel timeoutCycle s with Some (next, s) => Some (finish_irq next s) | None => None end
  else Some (finish_irq next s).

(** ** Starting and stopping *)

(** The loops that wait: the interrupt comes, until the flags are taken. *)
Fixpoint await_flags (flags : gen -> Z) (n fuel : nat) (s : gen) : option gen :=
  match n with
  | O => None
  | S n' => if flags s =? 0 then Some s else match timer1Interrupt fuel s with Some s' => await_flags flags n' fuel s' | None => None end
  end.
(** The interrupt comes here, if [b] and the timer runs. *)
Definition nmi (fuel : nat) (b : bool) (s : gen) : option gen :=
  if b && timerRunning s then timer1Interrupt fuel s else Some s.
(** A store to a field of [waveform[i]]. *)
Definition edit (i : nat) (f : Waveform -> Waveform) (s : gen) : gen :=
  set_waveform (<[i := f (waveform s !!! i)]> (waveform s)) s.
(** "Ensure timely service" *)
Definition ensure_service (s : gen) : gen :=
  if microsecondsToClockCycles 10 <? T1L s then timer1_write (microsecondsToClockCycles 10) s else s.

Section Foreground.
Context (fuel : nat) (nmis : list bool).
Definition point (k : nat) : gen -> option gen := nmi fuel (nth k nmis false).

(** The times of the wave, which the handler uses at once when the wave is on. *)
Definition store_times (i : nat) (timeHighUS timeLowUS runTimeUS : Z) (s : gen) : option gen :=
  s ← point 0 (edit i (set_high (microsecondsToClockCycles timeHighUS)) s);
  s ← point 1 (edit i (set_low (microsecondsToClockCycles timeLowUS)) s);
  let '(now, s) := if truth runTimeUS then GetCycleCount s else (0, s) in
  s ← point 2 s;
  s ← point 3 (edit i (set_expiry (if truth runTimeUS then u32 (now + microsecondsToClockCycles runTimeUS) else 0)) s);
  point 4 (if truth runTimeUS && (expiryCycle (waveform s !!! i) =? 0) then edit i (set_expiry 1) s else s).
(** The request to enable it, up to the loop that waits. *)
Definition request_start (i : nat) (s : gen) : option gen :=
  let '(now, s) := GetCycleCount s in
  s ← point 5 s;
  s ← point 6 (edit i (set_next (u32 (now + microsecondsToClockCycles 1))) s);
  let old := waveformToEnable s in
  s ← point 7 s;
  s ← point 8 (set_waveformToEnable (Z.lor old (bv (Z.of_nat i))) s);
  Some (if negb (timerRunning s) then timer1_write (microsecondsToClockCycles 10) (initTimer s) else ensure_service s).
Definition startWaveform (pin timeHighUS timeLowUS runTimeUS : Z) (s : gen) : option (bool * gen) :=
  if (16 <? pin) || isFlashInterfacePin pin then Some (false, s) else
  s ← store_times (Z.to_nat pin) timeHighUS timeLowUS runTimeUS s;
  if bit_set (waveformEnabled s) (bv pin) then Some (true, s) else
  s ← request_start (Z.to_nat pin) s;
  s ← await_flags waveformToEnable fuel fuel s;
  Some (true, s).

Definition stopWaveform (pin : Z) (s : gen) : option (bool * gen) :=
  if negb (timerRunning s) then Some (false, s) else
  let mask := if pin <? 32 then bv pin else 0 in
  if negb (bit_set (waveformEnabled s) mask) then Some (false, s) else
  let old := waveformToDisable s in
  s ← point 0 s;
  s ← point 1 (set_waveformToDisable (Z.lor old mask) s);
  s ← await_flags waveformToDisable fuel fuel (ensure_service s);
  Some (true, if (waveformEnabled s =? 0) && negb (timer1CB s) then deinitTimer s else s).
(** [__digitalWrite] of [core_esp8266_wiring_digital.c]. *)
Definition digitalWrite (pin val : Z) (s : gen) : option gen :=
  match stopWaveform pin s with
  | Some (_, s) => Some (if pin <=? 16 then if truth val then set_pin pin s else clear_pin pin s else s)
  | None => None
  end.
End Foreground.
End Generator.
