(* ===== verification/WaveformProps.v ===== *)
(** * Square waves on the pins

    A reference for the waveform generator: every pin has an oscillator of its own, with
    times that do not overflow.  The interrupt handler serves all the pins in words of
    flags and in 32-bit times; it acts on each pin as the oscillator of the pin. *)

From S2P Require Import Prelude Waveform.

(** ** The oscillator of a pin *)

(** Off, or on: the level, the cycle after which it changes, and the last cycle. *)
Inductive osc := Off | On (up : bool) (next : Z) (expiry : option Z).
(** The waves made so far, the newest first, each with its newest edge first. *)
Record pin := mkPin { p_osc : osc; p_high : Z; p_low : Z; p_level : bool; p_waves : list (list edge) }.

Definition expired (ex : option Z) (t : Z) : bool := match ex with Some e => e <? t | None => false end.
Definition push_edge (e : edge) (ws : list (list edge)) : list (list edge) :=
  match ws with [] => [[e]] | w :: ws' => (e :: w) :: ws' end.
(** The pin is looked after at cycle [t]. *)
Definition serve (i : nat) (p : pin) (t : Z) : pin :=
  match p_osc p with
  | Off => p
  | On up next ex =>
      if expired ex t then mkPin Off (p_high p) (p_low p) false (p_waves p)
      else if next <? t then
        let len := if negb up then p_high p else p_low p in
        mkPin (On (negb up) (t + len) ex) (p_high p) (p_low p) (negb up) (push_edge (mkEdge i (negb up) t len) (p_waves p))
      else p
  end.
Definition is_on (p : pin) : bool := match p_osc p with Off => false | On _ _ _ => true end.

(** A wave: it starts with a rise, its levels alternate and none ends early. *)
Fixpoint square_wave (w : list edge) : Prop :=
  match w with
  | [] => True
  | e :: w' =>
      match w' with
      | [] => e_up e = true
      | e' :: _ => e_up e = negb (e_up e') /\ e_at e' + e_len e' < e_at e
      end /\ square_wave w'
  end.

(** ** The pins of the generator *)

Definition level (s : gen) (i : nat) : bool := if (i =? 16)%nat then Z.testbit (gp16o s) 0 else Z.testbit (gpo s) (Z.of_nat i).
Definition pin_edges (s : gen) (i : nat) : list edge := filter (fun e => e_pin e = i) (edges s).
(** The flags of a pin, with the requests that are pending. *)
Definition active (s : gen) (i : nat) : bool :=
  Z.testbit (waveformEnabled s) (Z.of_nat i) && negb (Z.testbit (waveformToDisable s) (Z.of_nat i)) || Z.testbit (waveformToEnable s) (Z.of_nat i).
Definition is_up (s : gen) (i : nat) : bool := Z.testbit (waveformState s) (Z.of_nat i) && negb (Z.testbit (waveformToEnable s) (Z.of_nat i)).

(** A time [t] that is neither before [lo] nor half a turn of the counter after [hi]
    can be compared, in 32 bits, with every cycle from [hi] to half a turn after [lo]. *)
Definition near (lo hi t : Z) : Prop := lo <= t < hi + 2147483648.
Definition expiry_word (ex : option Z) : Z := match ex with Some e => u32 e | None => 0 end.
Definition expiry_near (lo hi : Z) (ex : option Z) : Prop := match ex with Some e => near lo hi e /\ u32 e <> 0 | None => True end.
Definition half (v : Z) : Prop := 0 <= v < 2147483648.

(** The generator [s] has the pin [p] as number [i], with the times of an oscillator
    that is on near [lo] and [hi]. *)
Record shows (lo hi : Z) (s : gen) (i : nat) (p : pin) : Prop := mkShows {
  sh_osc : match p_osc p with
           | Off => active s i = false
           | On up next ex =>
               active s i = true /\ is_up s i = up /\ near lo hi next /\ expiry_near lo hi ex /\
               nextServiceCycle (waveform s !!! i) = u32 next /\ expiryCycle (waveform s !!! i) = expiry_word ex
           end;
  sh_high : nextTimeHighCycles (waveform s !!! i) = p_high p /\ half (p_high p);
  sh_low : nextTimeLowCycles (waveform s !!! i) = p_low p /\ half (p_low p);
  sh_level : level s i = p_level p;
  sh_edges : pin_edges s i = concat (p_waves p)
}.

Definition idle (s : gen) : Prop := waveformToEnable s = 0 /\ waveformToDisable s = 0.
Definition pins_word (v : Z) : Prop := 0 <= v < 131072.
Definition in_range (s : gen) : Prop := 0 <= startPin s /\ endPin s <= 17 /\ forall k, Z.testbit (waveformEnabled s) k = true -> startPin s <= k <= endPin s.
Record wf (s : gen) : Prop := mkWf {
  wf_len : length (waveform s) = 17%nat;
  wf_enabled : pins_word (waveformEnabled s);
  wf_toenable : pins_word (waveformToEnable s);
  wf_todisable : pins_word (waveformToDisable s);
  wf_range : idle s -> waveformEnabled s <> 0 -> in_range s;
  wf_running : waveformEnabled s <> 0 \/ waveformToEnable s <> 0 -> timerRunning s = true
}.

(** ** Times *)

Lemma int32_diff lo hi x t : near lo hi x -> hi <= t <= lo + 2147483648 -> int32 (u32 x - u32 t) = x - t.
Proof. unfold near, int32, u32. intros. mlia. Qed.
Lemma u32_diff x t : 0 <= x - t < 4294967296 -> u32 (u32 x - u32 t) = x - t.
Proof. unfold u32. intros. mlia. Qed.
Lemma u32_plus x l : u32 (u32 x + l) = u32 (x + l).
Proof. unfold u32. mlia. Qed.

Lemma expired_word lo hi ex t : expiry_near lo hi ex -> hi <= t <= lo + 2147483648 ->
  truth (expiry_word ex) && (int32 (expiry_word ex - u32 t) <? 0) = expired ex t.
Proof.
  unfold expiry_near, expiry_word, expired. destruct ex as [e|]; [|done]. intros [He H0] Ht.
  rewrite (int32_diff lo hi) by done. unfold truth. destruct (Z.eqb_spec (u32 e) 0); [done|]. cbn.
  destruct (Z.ltb_spec (e - t) 0), (Z.ltb_spec e t); (reflexivity || lia).
Qed.
Lemma due_word lo hi next t : near lo hi next -> hi <= t <= lo + 2147483648 -> (int32 (u32 next - u32 t) <? 0) = (next <? t).
Proof. intros Hn Ht. rewrite (int32_diff lo hi) by done. destruct (Z.ltb_spec (next - t) 0), (Z.ltb_spec next t); (reflexivity || lia). Qed.

(** ** Flags of one pin in a word *)

Lemma bit_flip v i k : 0 <= i -> 0 <= k -> Z.testbit (Z.lxor v (bv i)) k = (if k =? i then negb (Z.testbit v k) else Z.testbit v k).
Proof.
  intros Hi Hk. rewrite Z.lxor_spec, testbit_bv by done. case_bool_decide as E; destruct (Z.eqb_spec k i); subst; lia.
Qed.
Lemma bit_off v i k : 0 <= i -> 0 <= k -> Z.testbit (Z.land v (Z.lnot (bv i))) k = (if k =? i then false else Z.testbit v k).
Proof.
  intros Hi Hk. rewrite Z.land_spec, Z.lnot_spec, testbit_bv by done. case_bool_decide as E; destruct (Z.eqb_spec k i); subst; lia.
Qed.
Lemma bit_on v i k : 0 <= i -> 0 <= k -> Z.testbit (Z.lor v (bv i)) k = (if k =? i then true else Z.testbit v k).
Proof.
  intros Hi Hk. rewrite Z.lor_spec, testbit_bv by done. case_bool_decide as E; destruct (Z.eqb_spec k i); subst; lia.
Qed.

Lemma level_set_pin i j s : level (set_pin (Z.of_nat i) s) j = if (j =? i)%nat then true else level s j.
Proof.
  unfold level, set_pin. destruct (Z.eqb_spec (Z.of_nat i) 16) as [E|E]; cbn [gp16o gpo set_gp16o set_gpo].
  - assert (i = 16%nat) as -> by lia. destruct (Nat.eqb_spec j 16); [|done]. rewrite Z.lor_spec. apply orb_true_r.
  - destruct (Nat.eqb_spec j 16), (Nat.eqb_spec j i); try (subst; lia); try done; rewrite bit_on by lia.
    + subst. by rewrite Z.eqb_refl.
    + by rewrite (proj2 (Z.eqb_neq (Z.of_nat j) (Z.of_nat i))) by lia.
Qed.
Lemma level_clear_pin i j s : level (clear_pin (Z.of_nat i) s) j = if (j =? i)%nat then false else level s j.
Proof.
  unfold level, clear_pin. destruct (Z.eqb_spec (Z.of_nat i) 16) as [E|E]; cbn [gp16o gpo set_gp16o set_gpo].
  - assert (i = 16%nat) as -> by lia. destruct (Nat.eqb_spec j 16); [|done]. rewrite Z.land_spec. apply andb_false_r.
  - destruct (Nat.eqb_spec j 16), (Nat.eqb_spec j i); try (subst; lia); try done; rewrite bit_off by lia.
    + subst. by rewrite Z.eqb_refl.
    + by rewrite (proj2 (Z.eqb_neq (Z.of_nat j) (Z.of_nat i))) by lia.
Qed.

(** Setting the level of a pin changes nothing but its output register. *)
Definition drive (up : bool) (i : nat) (s : gen) : gen := if up then set_pin (Z.of_nat i) s else clear_pin (Z.of_nat i) s.
Definition out_only (f : gen -> gen) : Prop := forall s, exists a b, f s = set_gp16o b (set_gpo a s).
Lemma drive_out up i : out_only (drive up i).
Proof.
  intros s. unfold drive, set_pin, clear_pin. destruct up, (Z.of_nat i =? 16).
  - exists (gpo s), (Z.lor (gp16o s) 1). by destruct s.
  - exists (Z.lor (gpo s) (bv (Z.of_nat i))), (gp16o s). by destruct s.
  - exists (gpo s), (Z.land (gp16o s) (Z.lnot 1)). by destruct s.
  - exists (Z.land (gpo s) (Z.lnot (bv (Z.of_nat i)))), (gp16o s). by destruct s.
Qed.
Lemma level_drive up i j s : level (drive up i s) j = if (j =? i)%nat then up else level s j.
Proof. destruct up; [apply level_set_pin | apply level_clear_pin]. Qed.

(** ** One pin is looked after *)

Section Serving.
(** The counter is read again within 2^20 cycles, 13 ms. *)
Context (cyc : nat -> Z) (Hcyc : forall n, cyc n < cyc (S n) <= cyc n + 1048576).

Lemma cyc_le a b : (a <= b)%nat -> cyc a <= cyc b.
Proof. induction 1 as [|b _ IH]; [lia|]. specialize (Hcyc b). lia. Qed.
Lemma cyc_lt a b : (a < b)%nat -> cyc a < cyc b.
Proof. intros H. pose proof (cyc_le (S a) b H). specialize (Hcyc a). lia. Qed.
Lemma cyc_after a n : cyc (a + n) <= cyc a + 1048576 * Z.of_nat n.
Proof. induction n as [|n IH]; [rewrite Nat.add_0_r; lia|]. rewrite Nat.add_succ_r. specialize (Hcyc (a + n)%nat). lia. Qed.

Definition read (s : gen) : gen := set_readings (S (readings s)) s.
Definition turn_off (i : nat) (s : gen) : gen :=
  drive false i (set_waveformEnabled (Z.land (waveformEnabled s) (Z.lnot (bv (Z.of_nat i)))) s).
Definition toggle (i : nat) (up : bool) (t len : Z) (s : gen) : gen :=
  let s := drive up i (set_waveformState (Z.lxor (waveformState s) (bv (Z.of_nat i))) s) in
  let s := set_waveform (<[i := set_next (u32 (u32 t + len)) (waveform s !!! i)]> (waveform s)) s in
  set_edges (mkEdge i up t len :: edges s) s.

Lemma active_idle s i : idle s -> active s i = Z.testbit (waveformEnabled s) (Z.of_nat i).
Proof. intros [E D]. unfold active. rewrite E, D, Z.bits_0. cbn. by rewrite andb_true_r, orb_false_r. Qed.
Lemma is_up_idle s i : idle s -> is_up s i = Z.testbit (waveformState s) (Z.of_nat i).
Proof. intros [E D]. unfold is_up. by rewrite E, Z.bits_0, andb_true_r. Qed.

Lemma service_pin_off i n s : 0 <= i -> Z.testbit (waveformEnabled s) i = false -> service_pin cyc i n s = (n, s).
Proof. intros Hi E. unfold service_pin. by rewrite bit_set_bv, E by done. Qed.

Lemma service_pin_on lo hi i p up next ex n s :
  idle s -> shows lo hi s i p -> p_osc p = On up next ex -> let t := cyc (readings s) in
  hi <= t <= lo + 2147483648 ->
  service_pin cyc (Z.of_nat i) n s =
    if expired ex t then (n, turn_off i (read s))
    else if next <? t then let len := if negb up then p_high p else p_low p in (min_u32 n len, toggle i (negb up) t len (read s))
    else (min_u32 n (next - t), read s).
Proof.
  intros Hi [Ho [Hh _] [Hl _] _ _] Hp t Ht. rewrite Hp in Ho. destruct Ho as (Ha & Hu & Hn & Hx & En & Ex).
  rewrite active_idle in Ha by done. rewrite is_up_idle in Hu by done.
  unfold service_pin. rewrite bit_set_bv, Ha by lia. cbn [negb].
  cbv beta zeta iota delta [GetCycleCountIRQ GetCycleCount]. rewrite Nat2Z.id. fold t.
  rewrite En, Ex, (expired_word lo hi), (due_word lo hi), Hh, Hl by done.
  destruct (expired ex t); [done|].
  destruct (Z.ltb_spec next t) as [L|L].
  - rewrite bit_set_bv by lia. cbn [waveformState set_waveformState set_readings].
    rewrite bit_flip, Z.eqb_refl, Hu by lia. unfold toggle, read, drive. destruct (negb up); cbn [negb];
    destruct (Z.of_nat i =? 16) eqn:E16; unfold set_pin, clear_pin; rewrite E16; reflexivity.
  - unfold near in Hn. rewrite u32_diff by lia. reflexivity.
Qed.

(** What the handler leaves alone; of a wave, all but the next change. *)
Definition times_of (w : Waveform) : Z * Z * Z := (nextTimeHighCycles w, nextTimeLowCycles w, expiryCycle w).
Record frame (s s' : gen) : Prop := mkFrame {
  fr_toenable : waveformToEnable s' = waveformToEnable s;
  fr_todisable : waveformToDisable s' = waveformToDisable s;
  fr_start : startPin s' = startPin s;
  fr_end : endPin s' = endPin s;
  fr_cb : timer1CB s' = timer1CB s;
  fr_running : timerRunning s' = timerRunning s;
  fr_len : length (waveform s') = length (waveform s);
  fr_enabled : forall k, Z.testbit (waveformEnabled s') k = true -> Z.testbit (waveformEnabled s) k = true;
  fr_word : pins_word (waveformEnabled s) -> pins_word (waveformEnabled s');
  fr_times : forall j, times_of (waveform s' !!! j) = times_of (waveform s !!! j);
  fr_next : forall j, Z.testbit (waveformEnabled s) (Z.of_nat j) = false -> nextServiceCycle (waveform s' !!! j) = nextServiceCycle (waveform s !!! j)
}.
Lemma frame_refl s : frame s s.
Proof. by split. Qed.
Lemma frame_trans a b c : frame a b -> frame b c -> frame a c.
Proof.
  intros F G. split; try (destruct F, G; congruence); try (destruct F, G; by auto).
  intros j Hj. rewrite (fr_next _ _ G), (fr_next _ _ F); try done.
  apply not_true_is_false. intros Hb%(fr_enabled _ _ F). congruence.
Qed.
Lemma frame_idle s s' : frame s s' -> idle s -> idle s'.
Proof. intros [] []. split; congruence. Qed.

Lemma land_word v m : pins_word v -> pins_word (Z.land v m).
Proof.
  unfold pins_word. intros H. assert (0 <= Z.land v m) by (apply Z.land_nonneg; lia).
  split; [done|]. destruct (decide (Z.land v m = 0)) as [->|N]; [lia|].
  assert (Z.log2 (Z.land v m) < 17); [|apply (Z.log2_lt_pow2 _ 17); lia].
  destruct (decide (v = 0)) as [->|]; [by rewrite Z.land_0_l in N|].
  apply Z.nle_gt. intros L.
  assert (Hb : Z.testbit (Z.land v m) (Z.log2 (Z.land v m)) = true) by (apply Z.bit_log2; lia).
  rewrite Z.land_spec, (testbit_small v 17) in Hb by lia. done.
Qed.

Lemma turn_off_frame i s : frame s (turn_off i s).
Proof.
  unfold turn_off. destruct (drive_out false i (set_waveformEnabled (Z.land (waveformEnabled s) (Z.lnot (bv (Z.of_nat i)))) s)) as (a & b & ->).
  split; try done; cbn.
  - intros k. rewrite Z.land_spec. by intros [? _]%andb_prop.
  - apply land_word.
Qed.
Lemma insert_total_cases (l : list Waveform) i j w : <[i := w]> l !!! j = (if (j =? i)%nat && (i <? length l)%nat then w else l !!! j).
Proof.
  destruct (Nat.eqb_spec j i) as [->|N]; cbn [andb]; [|by rewrite list_lookup_total_insert_ne].
  destruct (Nat.ltb_spec i (length l)); [by apply list_lookup_total_insert_eq | by rewrite list_insert_ge].
Qed.
Lemma toggle_frame i up t len s : Z.testbit (waveformEnabled s) (Z.of_nat i) = true -> frame s (toggle i up t len s).
Proof.
  intros Hi. unfold toggle. destruct (drive_out up i (set_waveformState (Z.lxor (waveformState s) (bv (Z.of_nat i))) s)) as (a & b & ->).
  split; try done; cbn; [apply length_insert | |]; intros j; rewrite insert_total_cases.
  - by destruct (Nat.eqb_spec j i) as [->|]; [destruct (_ <? _)%nat|].
  - intros Hj. destruct (Nat.eqb_spec j i) as [->|]; [congruence | done].
Qed.
Lemma read_frame s : frame s (read s).
Proof. by split. Qed.

(** A change that concerns pin [i] only. *)
Definition only_pin (i : nat) (s s' : gen) : Prop := forall j lo hi p, j <> i -> shows lo hi s j p -> shows lo hi s' j p.
Lemma shows_ext lo hi s s' j p :
  active s' j = active s j -> is_up s' j = is_up s j -> waveform s' !!! j = waveform s !!! j ->
  level s' j = level s j -> pin_edges s' j = pin_edges s j -> shows lo hi s j p -> shows lo hi s' j p.
Proof. intros A U W L E []. split; by rewrite ?A, ?U, ?W, ?L, ?E. Qed.
Lemma eqb_other j i : j <> i -> (Z.of_nat j =? Z.of_nat i) = false /\ (j =? i)%nat = false.
Proof. lia. Qed.

Lemma turn_off_other i s : only_pin i s (turn_off i s).
Proof.
  intros j lo hi p [Ez En]%eqb_other. unfold turn_off. set (s1 := set_waveformEnabled _ s).
  pose proof (level_drive false i j s1) as L. rewrite En in L. destruct (drive_out false i s1) as (a & b & E). rewrite E in *.
  apply shows_ext; try reflexivity; [|exact L]. unfold active. cbn. rewrite bit_off, Ez by lia. reflexivity.
Qed.
Lemma toggle_other i up t len s : only_pin i s (toggle i up t len s).
Proof.
  intros j lo hi p N. destruct (eqb_other j i N) as [Ez En]. unfold toggle. set (s1 := set_waveformState _ s).
  pose proof (level_drive up i j s1) as L. rewrite En in L. destruct (drive_out up i s1) as (a & b & E). rewrite E in *.
  apply shows_ext; try reflexivity; try exact L.
  - unfold is_up. cbn. rewrite bit_flip, Ez by lia. reflexivity.
  - cbn. by rewrite list_lookup_total_insert_ne.
  - unfold pin_edges. cbn [edges set_edges set_waveform set_gp16o set_gpo]. rewrite filter_cons_False; [done | cbn; congruence].
Qed.
Lemma read_shows lo hi s i p : shows lo hi s i p -> shows lo hi (read s) i p.
Proof. by apply shows_ext. Qed.

Lemma turn_off_shows lo hi lo' hi' i p s : idle s -> shows lo hi s i p ->
  shows lo' hi' (turn_off i s) i (mkPin Off (p_high p) (p_low p) false (p_waves p)).
Proof.
  intros [I J] [_ Hh Hl _ He]. unfold turn_off. set (s1 := set_waveformEnabled _ s).
  pose proof (level_drive false i i s1) as L. rewrite Nat.eqb_refl in L. destruct (drive_out false i s1) as (a & b & E). rewrite E in *.
  split; try done. cbn. unfold active. cbn. by rewrite I, bit_off, Z.eqb_refl, Z.bits_0 by lia.
Qed.
Lemma concat_push e ws : concat (push_edge e ws) = e :: concat ws.
Proof. by destruct ws. Qed.
Lemma toggle_shows lo hi i p up next ex t s : idle s -> (i < length (waveform s))%nat -> shows lo hi s i p -> p_osc p = On up next ex ->
  expired ex t = false -> hi <= t -> let len := if negb up then p_high p else p_low p in
  shows t t (toggle i (negb up) t len s) i
    (mkPin (On (negb up) (t + len) ex) (p_high p) (p_low p) (negb up) (push_edge (mkEdge i (negb up) t len) (p_waves p))).
Proof.
  intros I Hlen [Ho Hh Hl _ He] Hp Hx Ht len. rewrite Hp in Ho. destruct Ho as (Ha & Hu & Hn & Hxn & En & Ex).
  assert (Hhalf : half len) by (unfold len; destruct (negb up); tauto).
  unfold toggle. set (s1 := set_waveformState _ s).
  pose proof (level_drive (negb up) i i s1) as L. rewrite Nat.eqb_refl in L. destruct (drive_out (negb up) i s1) as (a & b & E). rewrite E in *.
  split; cbn [p_osc p_high p_low p_level p_waves].
  - split_and!.
    + exact Ha.
    + unfold is_up in *. cbn. rewrite (proj1 I), Z.bits_0, bit_flip, Z.eqb_refl in * by lia. cbn in *. rewrite andb_true_r in *. by rewrite Hu.
    + unfold near, half in *. lia.
    + unfold expiry_near, expired, near in *. destruct ex as [e|]; [|done]. split; [lia | tauto].
    + cbn. rewrite list_lookup_total_insert_eq by done. apply u32_plus.
    + cbn. by rewrite list_lookup_total_insert_eq by done.
  - cbn. by rewrite list_lookup_total_insert_eq by done.
  - cbn. by rewrite list_lookup_total_insert_eq by done.
  - exact L.
  - rewrite concat_push. unfold pin_edges in *. cbn [edges set_edges set_waveform set_gp16o set_gpo]. rewrite filter_cons_True by done. by rewrite <- He.
Qed.

Lemma min_u32_le a b : min_u32 a b <= a /\ min_u32 a b <= b.
Proof. unfold min_u32. destruct (Z.ltb_spec a b); lia. Qed.
Lemma min_u32_min a b : min_u32 a b = Z.min a b.
Proof. unfold min_u32. destruct (Z.ltb_spec a b); lia. Qed.

Lemma service_pin_cases i n s n' s' : service_pin cyc (Z.of_nat i) n s = (n', s') ->
  n' <= n /\ (s' = s \/ s' = read s \/ s' = turn_off i (read s) \/ Z.testbit (waveformEnabled s) (Z.of_nat i) = true /\ exists up t len, s' = toggle i up t len (read s)).
Proof.
  unfold service_pin. cbv beta zeta iota delta [GetCycleCountIRQ GetCycleCount]. rewrite Nat2Z.id.
  rewrite bit_set_bv by lia. destruct (Z.testbit (waveformEnabled s) (Z.of_nat i)) eqn:Hi; cbn [negb]; [|intros [= <- <-]; auto with lia].
  case_match; [intros [= <- <-]; split; [lia|]; right; right; left; reflexivity|].
  case_match; [|intros [= <- <-]; split; [apply min_u32_le | auto]].
  intros [= <- <-]. split; [apply min_u32_le|]. right; right; right. split; [done|].
  set (up := bit_set _ _). exists up, (cyc (readings s)), (if up then nextTimeHighCycles (waveform s !!! i) else nextTimeLowCycles (waveform s !!! i)).
  unfold toggle, drive. fold (read s).
  destruct up; destruct (Z.of_nat i =? 16) eqn:E16; unfold set_pin, clear_pin; rewrite E16; reflexivity.
Qed.

Lemma turn_off_readings i s : readings (turn_off i s) = readings s.
Proof. unfold turn_off. by destruct (drive_out false i (set_waveformEnabled (Z.land (waveformEnabled s) (Z.lnot (bv (Z.of_nat i)))) s)) as (a & b & ->). Qed.
Lemma toggle_readings i up t len s : readings (toggle i up t len s) = readings s.
Proof. unfold toggle. by destruct (drive_out up i (set_waveformState (Z.lxor (waveformState s) (bv (Z.of_nat i))) s)) as (a & b & ->). Qed.

Lemma service_pin_frame i n s n' s' : service_pin cyc (Z.of_nat i) n s = (n', s') ->
  frame s s' /\ only_pin i s s' /\ (readings s <= readings s' <= S (readings s))%nat /\ n' <= n.
Proof.
  intros [Hn [-> | [-> | [-> | (Hi & up & t & len & ->)]]]]%service_pin_cases.
  - split_and!; try lia; [apply frame_refl | by intros ? ? ? ? ?].
  - split_and!; try (cbn; lia); [apply read_frame | intros j lo hi p _ H; by apply read_shows].
  - rewrite turn_off_readings. split_and!; try (cbn; lia); [apply (frame_trans s (read s)); [apply read_frame | apply turn_off_frame]|].
    intros j lo hi p N H. by apply turn_off_other, read_shows.
  - rewrite toggle_readings. split_and!; try (cbn; lia); [apply (frame_trans s (read s)); [apply read_frame | by apply toggle_frame]|].
    intros j lo hi p N H. by apply toggle_other, read_shows.
Qed.

Definition until (p : pin) (t : Z) : Z := match p_osc p with Off => 0 | On _ next _ => next - t end.

Lemma shows_later lo hi lo' hi' s i p up next ex : shows lo hi s i p -> p_osc p = On up next ex ->
  lo' <= next -> expired ex lo' = false -> hi <= hi' -> shows lo' hi' s i p.
Proof.
  intros [Ho ? ? ? ?] Hp Hn Hx Hh. split; try done. rewrite Hp in *. unfold near, expiry_near, expired in *.
  destruct Ho as (? & ? & ? & Hex & ?). split_and!; try tauto; try lia. destruct ex as [e|]; [|done]. unfold near in *. split; [lia | tauto].
Qed.

Lemma service_pin_own lo hi i p n s n' s' : (i < length (waveform s))%nat -> idle s -> shows lo hi s i p -> is_on p = true ->
  let t := cyc (readings s) in hi <= t <= lo + 2147483648 -> service_pin cyc (Z.of_nat i) n s = (n', s') ->
  shows t t s' i (serve i p t) /\ readings s' = S (readings s) /\ (is_on (serve i p t) = true -> n' <= until (serve i p t) t).
Proof.
  intros Hlen I Hs On t Ht. destruct (p_osc p) as [|up next ex] eqn:Hp; [unfold is_on in On; by rewrite Hp in On|].
  rewrite (service_pin_on lo hi i p up next ex) by done. fold t. unfold serve. rewrite Hp.
  destruct (expired ex t) eqn:Ex.
  - intros [= <- <-]. rewrite turn_off_readings. split_and!; [|done|done]. apply (turn_off_shows lo hi); [done | by apply read_shows].
  - destruct (Z.ltb_spec next t) as [L|L].
    + intros [= <- <-]. rewrite toggle_readings. split_and!; [|done|].
      * apply (toggle_shows lo hi i p up next); try done; [by apply read_shows | lia].
      * intros _. unfold until. cbn [p_osc]. rewrite Z.add_simpl_l. apply min_u32_le.
    + intros [= <- <-]. split_and!; [|done|].
      * apply (shows_later lo hi t t (read s) i p up next ex); try done; [by apply read_shows | lia].
      * intros _. unfold until. rewrite Hp. apply min_u32_le.
Qed.
End Serving.
