(* ===== verification/WaveformIrq.v ===== *)
(** * The interrupt handler of the waveform generator

    The handler goes over the pins again and again until the next change is further away
    than the time it may take.  It ends, it acts on every pin as the oscillator of that
    pin at the cycles at which it looks after the pin, and it sets the timer so that the
    next change of each pin is not missed. *)

From S2P Require Import Prelude Waveform WaveformProps.

(** Increasing cycles between [a] and [b]. *)
Fixpoint during (a b : Z) (ts : list Z) : Prop :=
  match ts with [] => a <= b | t :: ts' => a <= t /\ during (t + 1) b ts' end.
Definition from (d : Z) (ts : list Z) : Z := default d (last ts).

Lemma during_le a b ts : during a b ts -> a <= b.
Proof. revert a. induction ts as [|t ts IH]; intros a; [done|]. intros [? ?%IH]. lia. Qed.
Lemma during_weaken a a' b b' ts : a' <= a -> b <= b' -> during a b ts -> during a' b' ts.
Proof.
  revert a a'. induction ts as [|t ts IH]; intros a a' Ha Hb; cbn; [lia|]. intros [? ?]. split; [lia|].
  by apply (IH (t + 1)); [lia | done |].
Qed.
Lemma during_app a b c ts ts' : during a b ts -> during b c ts' -> during a c (ts ++ ts').
Proof.
  revert a. induction ts as [|t ts IH]; intros a H H'; cbn in *.
  - apply (during_weaken b a c c); [lia | lia | done].
  - destruct H. split; [done|]. by apply IH.
Qed.
Lemma during_last a b ts t : during a b ts -> last ts = Some t -> a <= t < b.
Proof.
  revert a. induction ts as [|x ts IH]; intros a; [done|]. intros [H1 H2] E.
  destruct ts as [|y ts]; [injection E as <-; cbn in H2; lia|]. assert (E' : last (y :: ts) = Some t) by done.
  pose proof (IH _ H2 E'). lia.
Qed.
Lemma from_app d ts ts' : from d (ts ++ ts') = from (from d ts) ts'.
Proof. unfold from. rewrite last_app. by destruct (last ts'). Qed.
Lemma from_range d a b ts : d <= a -> during a b ts -> d <= from d ts <= b.
Proof. intros Hd H. pose proof (during_le _ _ _ H). unfold from. destruct (last ts) as [t|] eqn:E; cbn; [|lia]. pose proof (during_last _ _ _ _ H E). lia. Qed.

Lemma from_le d d' ts : d <= d' -> from d ts <= from d' ts.
Proof. unfold from. destruct (last ts); cbn; lia. Qed.

Section Irq.
Context (cyc : nat -> Z) (Hcyc : forall n, cyc n < cyc (S n) <= cyc n + 1048576).

Lemma off_bit lo hi s j p : idle s -> shows lo hi s j p -> is_on p = false -> Z.testbit (waveformEnabled s) (Z.of_nat j) = false.
Proof. intros I [Ho _ _ _ _]. unfold is_on. destruct (p_osc p); [|done]. intros _. by rewrite <- active_idle. Qed.
Lemma on_bit lo hi s j p : idle s -> shows lo hi s j p -> is_on p = true -> Z.testbit (waveformEnabled s) (Z.of_nat j) = true.
Proof. intros I [Ho _ _ _ _]. unfold is_on. destruct (p_osc p); [done|]. intros _. rewrite <- active_idle by done. tauto. Qed.
Lemma shows_off lo hi lo' hi' s j p : shows lo hi s j p -> is_on p = false -> shows lo' hi' s j p.
Proof. intros [Ho ? ? ? ?] Hp. split; try done. unfold is_on in Hp. by destruct (p_osc p). Qed.

Lemma pass_frame l : forall n s n' s', Forall (fun i => 0 <= i) l -> service_pins cyc l n s = (n', s') ->
  frame s s' /\ (readings s <= readings s' <= readings s + length l)%nat /\ n' <= n.
Proof.
  induction l as [|i l IH]; intros n s n' s' Hl; cbn [service_pins length].
  - intros [= <- <-]. split_and!; try lia. apply frame_refl.
  - apply Forall_cons in Hl as [Hi Hl]. destruct (service_pin cyc i n s) as [n1 s1] eqn:E1. intros E2.
    rewrite <- (Z2Nat.id i) in E1 by done. apply service_pin_frame in E1 as (F1 & _ & R1 & N1).
    apply IH in E2 as (F2 & R2 & N2); [|done]. split_and!; try lia. by apply (frame_trans s s1).
Qed.

(** A pin that is not in the list, or is off, is left alone. *)
Lemma pass_skips l : forall n s n' s' j lo hi p, Forall (fun i => 0 <= i) l -> idle s -> shows lo hi s j p ->
  Z.of_nat j ∉ l \/ is_on p = false -> service_pins cyc l n s = (n', s') -> shows lo hi s' j p.
Proof.
  induction l as [|i l IH]; intros n s n' s' j lo hi p Hl I Hs Hj; cbn [service_pins]; [by intros [= <- <-]|].
  apply Forall_cons in Hl as [Hi Hl]. destruct (service_pin cyc i n s) as [n1 s1] eqn:E1. intros E2.
  assert (Hj' : Z.of_nat j ∉ l \/ is_on p = false) by (destruct Hj as [Hj|]; [left; intros H; by apply Hj, list_elem_of_further | by right]).
  destruct (decide (Z.of_nat j = i)) as [<-|Nj].
  - destruct Hj as [Hj|Hj]; [exfalso; by apply Hj, list_elem_of_here|].
    rewrite service_pin_off in E1 by (lia || by eapply off_bit). injection E1 as <- <-. by apply (IH n s n' s').
  - rewrite <- (Z2Nat.id i) in E1 by done. apply service_pin_frame in E1 as (F1 & O1 & _).
    apply (IH n1 s1 n' s' j lo hi p); try done; [by apply (frame_idle s) | apply O1; [lia | done]].
Qed.

Lemma pass_serves l : forall n s n' s' j lo hi p, Forall (fun i => 0 <= i) l -> NoDup l -> idle s -> (j < length (waveform s))%nat ->
  shows lo hi s j p -> is_on p = true -> Z.of_nat j ∈ l -> lo <= hi <= cyc (readings s) -> cyc (readings s') <= lo + 2147483648 ->
  service_pins cyc l n s = (n', s') ->
  exists t, cyc (readings s) <= t < cyc (readings s') /\ shows t t s' j (serve j p t) /\
    (is_on (serve j p t) = true -> n' <= until (serve j p t) t).
Proof.
  induction l as [|i l IH]; intros n s n' s' j lo hi p Hl Nd I Hlen Hs On Hj Hlo Hw; cbn [service_pins]; [by apply not_elem_of_nil in Hj|].
  apply Forall_cons in Hl as [Hi Hl]. apply NoDup_cons in Nd as [Ni Nd].
  destruct (service_pin cyc i n s) as [n1 s1] eqn:E1. intros E2.
  destruct (pass_frame l n1 s1 n' s' Hl E2) as (F2 & R2 & N2).
  destruct (decide (Z.of_nat j = i)) as [<-|Nj].
  - assert (C : cyc (readings s) < cyc (readings s') \/ readings s1 = readings s).
    { destruct (service_pin_frame _ _ _ _ _ _ E1) as (_ & _ & R1 & _).
      destruct (decide (readings s1 = readings s)); [by right | left; apply (cyc_lt cyc Hcyc); lia]. }
    pose proof (cyc_le cyc Hcyc (readings s) (readings s')) as M.
    destruct (service_pin_frame _ _ _ _ _ _ E1) as (F1 & _ & R1 & _).
    destruct (service_pin_own cyc lo hi j p n s n1 s1) as (S1 & R & U); try done; [lia|].
    exists (cyc (readings s)). split_and!; [lia | destruct C; [done | lia] | | ].
    + apply (pass_skips l n1 s1 n' s'); try done; [by apply (frame_idle s) | by left].
    + intros H. specialize (U H). lia.
  - rewrite <- (Z2Nat.id i) in E1 by done. apply service_pin_frame in E1 as (F1 & O1 & R1 & _).
    pose proof (cyc_le cyc Hcyc (readings s) (readings s1)) as M.
    destruct (IH n1 s1 n' s' j lo hi p) as (t & T1 & T2 & T3); try done.
    + by apply (frame_idle s).
    + by rewrite (fr_len _ _ F1).
    + apply O1; [lia | done].
    + by apply elem_of_cons in Hj as [|].
    + lia.
    + exists t. split_and!; try done; lia.
Qed.

Lemma pin_range_elem a b k : k ∈ pin_range a b <-> a <= k <= b.
Proof.
  unfold pin_range. rewrite list_elem_of_fmap. split.
  - intros (i & -> & [_ ?]%elem_of_seq). lia.
  - intros H. exists (Z.to_nat (k - a)). split; [lia|]. apply elem_of_seq. lia.
Qed.
Lemma pin_range_nodup a b : NoDup (pin_range a b).
Proof. unfold pin_range. apply NoDup_fmap_2; [intros ???; lia | apply NoDup_seq]. Qed.
Lemma pin_range_nonneg a b : 0 <= a -> Forall (fun i => 0 <= i) (pin_range a b).
Proof. intros Ha. apply Forall_forall. intros k ?%pin_range_elem. lia. Qed.

Lemma frame_range s s' : frame s s' -> in_range s -> in_range s'.
Proof. intros F (A & B & C). unfold in_range. rewrite (fr_start _ _ F), (fr_end _ _ F). split_and!; try done. intros k Hk%(fr_enabled _ _ F). by apply C. Qed.
Lemma serve_on j p t : is_on (serve j p t) = true -> is_on p = true.
Proof. unfold serve, is_on at 2. destruct (p_osc p) eqn:E; [|done]. unfold is_on. by rewrite E. Qed.

(** The effect on pin [j], which is served at the cycles [ts]. *)
Definition follows (s s' : gen) (n : Z) (j : nat) (lo hi : Z) (p : pin) (ts : list Z) : Prop :=
  let p' := foldl (serve j) p ts in
  during (cyc (readings s)) (cyc (readings s')) ts /\ shows (from lo ts) (from hi ts) s' j p' /\
  (is_on p = true -> ts <> []) /\ (is_on p' = true -> n <= until p' (from lo ts)).

Lemma pass_follows n0 s n s' j lo hi p : idle s -> in_range s -> (j < length (waveform s))%nat -> shows lo hi s j p ->
  lo <= hi <= cyc (readings s) -> cyc (readings s') <= lo + 2147483648 ->
  service_pins cyc (pin_range (startPin s) (endPin s)) n0 s = (n, s') -> exists ts, follows s s' n j lo hi p ts.
Proof.
  intros I R Hj Hs Hlo Hw E. pose proof (pin_range_nonneg (startPin s) (endPin s) (proj1 R)) as Hnn.
  destruct (pass_frame _ _ _ _ _ Hnn E) as (F & Rd & _). destruct (is_on p) eqn:Hp.
  - assert (Hin : Z.of_nat j ∈ pin_range (startPin s) (endPin s)) by (apply pin_range_elem, R; by apply (on_bit lo hi s j p)).
    destruct (pass_serves _ n0 s n s' j lo hi p Hnn (pin_range_nodup _ _)) as (t & Ht & S & U); try done.
    exists [t]. unfold follows. cbn. split_and!; try done; lia.
  - exists []. unfold follows. cbn. rewrite Hp. split_and!; try done; [apply (cyc_le cyc Hcyc); lia|].
    apply (pass_skips (pin_range (startPin s) (endPin s)) n0 s n s'); try done. by right.
Qed.

Lemma follows_trans s s1 s2 n n' j lo hi p ts ts' : follows s s1 n j lo hi p ts ->
  follows s1 s2 n' j (from lo ts) (from hi ts) (foldl (serve j) p ts) ts' -> follows s s2 n' j lo hi p (ts ++ ts').
Proof.
  intros (D & _ & N & _) (D' & S' & N' & U'). unfold follows. rewrite foldl_app, !from_app. split_and!; try done.
  - by apply (during_app _ (cyc (readings s1))).
  - intros H [-> ->]%app_nil. by apply N.
Qed.
Lemma follows_read s s' n j lo hi p ts : follows s s' n j lo hi p ts -> follows s (read s') n j lo hi p ts.
Proof.
  intros (D & S & N & U). split_and!; try done; [|by apply read_shows].
  apply (during_weaken (cyc (readings s)) _ (cyc (readings s'))); [lia | | done]. cbn. specialize (Hcyc (readings s')). lia.
Qed.

(** One pass and the reading after it, while the time [T] at which the handler has begun
    is not long past. *)
Lemma one_pass T n0 s n s' : idle s -> in_range s -> T < cyc (readings s) <= T + 1049696 ->
  service_pins cyc (pin_range (startPin s) (endPin s)) n0 s = (n, s') ->
  frame s (read s') /\ n <= n0 /\ T < cyc (readings s') <= T + 20000000 /\ cyc (readings s) <= cyc (readings s') /\
  forall j lo hi p, (j < length (waveform s))%nat -> shows lo hi s j p -> lo <= hi <= cyc (readings s) -> T + 33554432 <= lo + 2147483648 ->
    exists ts, follows s (read s') n j lo hi p ts.
Proof.
  intros I R HT E. destruct (pass_frame _ _ _ _ _ (pin_range_nonneg _ _ (proj1 R)) E) as (F & Rd & N).
  assert (L : (length (pin_range (startPin s) (endPin s)) <= 18)%nat).
  { unfold pin_range. rewrite length_map, length_seq. destruct R as (? & ? & _). lia. }
  pose proof (cyc_after cyc Hcyc (readings s) 18) as C. pose proof (cyc_le cyc Hcyc (readings s) (readings s')) as C1.
  pose proof (cyc_le cyc Hcyc (readings s') (readings s + 18)) as C2.
  split_and!; try lia; [apply (frame_trans s s' _ F), read_frame|].
  intros j lo hi p Hj Hs Hlo Hw. destruct (pass_follows n0 s n s' j lo hi p) as [ts Hts]; try done; [lia|].
  exists ts. by apply follows_read.
Qed.

Definition timed_out (T : Z) (now next : Z) : bool :=
  (int32 (u32 (T + 1120) - u32 (now + next)) <? 0) || (int32 (u32 (T + 1120) - now) <? 0).
Lemma timed_out_late T t next : T < t <= T + 20000000 -> timed_out T (u32 t) next = false -> t <= T + 1120.
Proof.
  intros Ht. unfold timed_out. rewrite (int32_diff (T + 1120) T (T + 1120) t); [|unfold near; lia | lia].
  intros [_ H]%orb_false_elim. apply Z.ltb_ge in H. lia.
Qed.

Lemma service_loop_step fuel T s n s' :
  service_pins cyc (pin_range (startPin s) (endPin s)) (microsecondsToClockCycles MAXIRQUS) s = (n, s') ->
  service_loop cyc (S fuel) (u32 (T + 1120)) s =
    if timed_out T (u32 (cyc (readings s'))) n then Some (n, read s') else service_loop cyc fuel (u32 (T + 1120)) (read s').
Proof. intros E. cbn [service_loop]. rewrite E. reflexivity. Qed.

Lemma service_loop_follows T fuel : forall s, idle s -> in_range s -> T < cyc (readings s) <= T + 1049696 ->
  1 <= Z.of_nat fuel -> T + 1122 - cyc (readings s) <= Z.of_nat fuel ->
  exists n s', service_loop cyc fuel (u32 (T + 1120)) s = Some (n, s') /\ frame s s' /\ n <= microsecondsToClockCycles MAXIRQUS /\
    cyc (readings s) <= cyc (readings s') <= T + 33554432 /\
    forall j lo hi p, (j < length (waveform s))%nat -> shows lo hi s j p -> lo <= hi <= cyc (readings s) -> T + 33554432 <= lo + 2147483648 ->
      exists ts, follows s s' n j lo hi p ts.
Proof.
  induction fuel as [|fuel IH]; intros s I R HT H1 HF; [lia|].
  destruct (service_pins cyc (pin_range (startPin s) (endPin s)) (microsecondsToClockCycles MAXIRQUS) s) as [n s1] eqn:E.
  rewrite (service_loop_step _ _ _ _ _ E). destruct (one_pass T _ s n s1 I R HT E) as (F & N & T1 & C1 & Fo).
  assert (C2 : cyc (readings s1) < cyc (readings (read s1)) <= cyc (readings s1) + 1048576) by apply Hcyc.
  destruct (timed_out T (u32 (cyc (readings s1))) n) eqn:D.
  - exists n, (read s1). split_and!; try done; lia.
  - apply timed_out_late in D; [|done].
    destruct (IH (read s1)) as (n2 & s2 & E2 & F2 & N2 & C3 & Fo2).
    + by apply (frame_idle s).
    + by apply (frame_range s).
    + lia.
    + lia.
    + lia.
    + exists n2, s2. split_and!; try done; try lia; [by apply (frame_trans s (read s1))|].
      intros j lo hi p Hj Hs Hlo Hw. destruct (Fo j lo hi p Hj Hs Hlo Hw) as [ts Hts].
      pose proof (proj1 Hts) as Hd. pose proof (during_le _ _ _ Hd).
      destruct (Fo2 j (from lo ts) (from hi ts) (foldl (serve j) p ts)) as [ts' Hts'].
      * by rewrite (fr_len _ _ F).
      * apply Hts.
      * pose proof (from_le lo hi ts (proj1 Hlo)). pose proof (from_range hi _ _ ts (proj2 Hlo) Hd). lia.
      * assert (Hl : lo <= cyc (readings s)) by lia. pose proof (from_range lo _ _ ts Hl Hd). lia.
      * exists (ts ++ ts'). by apply (follows_trans s (read s1) s2 n).
Qed.

(** ** Requests *)

Lemma ffs_first v k : 0 <= k < 32 -> Z.testbit v k = true -> 1 <= ffs v <= k + 1.
Proof.
  intros Hk Hb. unfold ffs. destruct (list_find _ (seq 0 32)) as [[i x]|] eqn:E.
  - apply list_find_Some in E as (Hi & _ & Hmin). apply lookup_seq in Hi as [-> Hi]. cbn. split; [lia|].
    apply Z.nlt_ge. intros L. apply (Hmin (Z.to_nat k) (Z.to_nat k)); [apply lookup_seq; lia | lia |]. by rewrite Z2Nat.id by lia.
  - apply list_find_None in E. rewrite Forall_forall in E. exfalso. apply (E (Z.to_nat k)); [apply elem_of_seq; lia|]. by rewrite Z2Nat.id by lia.
Qed.
Lemma clz_last v k : 0 < v -> Z.testbit v k = true -> 0 <= k -> k <= 32 - clz v.
Proof.
  intros Hv Hb Hk. unfold clz. destruct (Z.le_gt_cases k (Z.log2 v)); [lia|]. by rewrite Z.bits_above_log2 in Hb by lia.
Qed.
Lemma word_bit v k : pins_word v -> Z.testbit v k = true -> 0 <= k < 17.
Proof.
  intros Hv Hb. destruct (Z.le_gt_cases 0 k); [|by rewrite Z.testbit_neg_r in Hb]. split; [done|].
  apply Z.nle_gt. intros L. by rewrite (testbit_small v 17) in Hb by (unfold pins_word in Hv; lia).
Qed.
Lemma lor_word v w : pins_word v -> pins_word w -> pins_word (Z.lor v w).
Proof.
  unfold pins_word. intros Hv Hw. split; [apply Z.lor_nonneg; lia|].
  destruct (decide (Z.lor v w = 0)) as [->|]; [lia|]. assert (0 <= Z.lor v w) by (apply Z.lor_nonneg; lia).
  apply (Z.log2_lt_pow2 _ 17); [lia|]. rewrite Z.log2_lor by lia.
  destruct (decide (v = 0)) as [->|], (decide (w = 0)) as [->|]; cbn; try lia;
  repeat match goal with |- context [Z.log2 ?x] => pose proof (Z.log2_lt_pow2 x 17 ltac:(lia)); generalize dependent (Z.log2 x); intros end; lia.
Qed.
Lemma word_nonzero v : pins_word v -> v <> 0 -> exists k, Z.testbit v k = true.
Proof. unfold pins_word. intros Hv N. exists (Z.log2 v). apply Z.bit_log2. lia. Qed.

Definition enabled_after (s : gen) : Z := Z.lor (Z.land (waveformEnabled s) (Z.lnot (waveformToDisable s))) (waveformToEnable s).
Lemma range_found s : pins_word (waveformEnabled s) -> waveformEnabled s <> 0 ->
  startPin s = ffs (waveformEnabled s) - 1 -> endPin s = 32 - clz (waveformEnabled s) -> in_range s.
Proof.
  intros W N Es Ee. destruct (word_nonzero _ W N) as [k Hk]. pose proof (word_bit _ _ W Hk). unfold in_range. rewrite Es, Ee. split_and!.
  - pose proof (ffs_first (waveformEnabled s) k). lia.
  - unfold clz, pins_word in *. pose proof (proj1 (Z.log2_lt_pow2 (waveformEnabled s) 17 ltac:(lia)) ltac:(lia)). lia.
  - intros i Hi. pose proof (word_bit _ _ W Hi). split; [pose proof (ffs_first (waveformEnabled s) i); lia | apply clz_last; unfold pins_word in *; lia || done].
Qed.

Lemma requests_idle s : idle s -> handle_requests s = s.
Proof. intros [E D]. unfold handle_requests. by rewrite E, D. Qed.
Lemma requests_wf s : wf s -> wf (handle_requests s) /\ idle (handle_requests s).
Proof.
  intros [Hl He Hte Htd Hr Hrun]. unfold handle_requests. destruct (truth (waveformToEnable s) || truth (waveformToDisable s)) eqn:E.
  - split; [|done]. fold (enabled_after s). assert (W : pins_word (enabled_after s)) by (apply lor_word; [by apply land_word | done]).
    split; try done; [intros _ N; by apply range_found|]. intros [N|N]; [|done]. apply Hrun. cbn in N.
    destruct (decide (waveformEnabled s = 0)) as [E0|]; [|by left]. right. intros E1. apply N. unfold enabled_after. by rewrite E0, E1.
  - unfold truth in E. assert (idle s) by (unfold idle; lia). done.
Qed.
Lemma requests_shows lo hi s j p : shows lo hi s j p -> shows lo hi (handle_requests s) j p.
Proof.
  unfold handle_requests. destruct (truth _ || truth _); [|done]. apply shows_ext; try done.
  - unfold active. cbn. by rewrite Z.bits_0, Z.lor_spec, Z.land_spec, Z.lnot_spec, andb_true_r, orb_false_r by lia.
  - unfold is_up. cbn. by rewrite Z.bits_0, Z.land_spec, Z.lnot_spec, andb_true_r by lia.
Qed.
Lemma requests_enabled s : waveformEnabled (handle_requests s) = enabled_after s.
Proof.
  unfold handle_requests. destruct (truth _ || truth _) eqn:E; [done|]. unfold truth in E. unfold enabled_after.
  rewrite (proj1 (Z.eqb_eq (waveformToEnable s) 0)), (proj1 (Z.eqb_eq (waveformToDisable s) 0)) by lia.
  by rewrite Z.lor_0_r, Z.land_m1_r.
Qed.
Lemma requests_same s : waveform (handle_requests s) = waveform s /\ readings (handle_requests s) = readings s /\ timer1CB (handle_requests s) = timer1CB s /\ timerRunning (handle_requests s) = timerRunning s.
Proof. unfold handle_requests. by destruct (truth _ || truth _). Qed.

(** ** The whole handler *)

Context (timer1CB_result : nat -> Z).

Definition next_timer (s : gen) (n : Z) : Z := Z.max 800 (if timer1CB s then Z.min n (timer1CB_result (readings s)) else n).
Lemma finish_timer n s : n <= 800000 -> let s' := finish_irq timer1CB_result n s in
  T1L s' + DELTAIRQ = next_timer s n /\ 800 <= next_timer s n <= Z.max 800 n.
Proof.
  intros Hn. unfold next_timer. split; [|destruct (timer1CB s); lia]. cbn. unfold microsecondsToClockCycles, clockCyclesPerMicrosecond, DELTAIRQ.
  change (u32 (10 * 80)) with 800. change (microsecondsToClockCycles 3) with 240. rewrite min_u32_min.
  set (m := if timer1CB s then Z.min n (timer1CB_result (readings s)) else n). assert (m <= 800000) by (unfold m; destruct (timer1CB s); lia).
  destruct (Z.ltb_spec m 800); rewrite u32_id by (unfold is_u32; lia); lia.
Qed.
Lemma finish_shows n s lo hi j p : shows lo hi s j p -> shows lo hi (finish_irq timer1CB_result n s) j p.
Proof. by apply shows_ext. Qed.

(** What the interrupt does to pin [j]. *)
Definition irq_serves (s s' : gen) (j : nat) (lo hi : Z) (p : pin) (ts : list Z) : Prop :=
  let p' := foldl (serve j) p ts in
  during (cyc (readings s)) (cyc (readings s')) ts /\ shows (from lo ts) (from hi ts) s' j p' /\
  (is_on p = true -> ts <> []) /\ (is_on p' = true -> T1L s' + DELTAIRQ <= Z.max (microsecondsToClockCycles 10) (until p' (from lo ts))).

Record irq_done (s s' : gen) : Prop := mkDone {
  id_wf : wf s';
  id_idle : idle s';
  id_cb : timer1CB s' = timer1CB s;
  id_running : timerRunning s' = timerRunning s;
  id_enabled : forall k, Z.testbit (waveformEnabled s') k = true -> Z.testbit (enabled_after s) k = true;
  id_timer : microsecondsToClockCycles 10 <= T1L s' + DELTAIRQ <= microsecondsToClockCycles MAXIRQUS;
  id_time : cyc (readings s) < cyc (readings s') <= cyc (readings s) + 33554432;
  id_times : forall j, times_of (waveform s' !!! j) = times_of (waveform s !!! j);
  id_next : forall j, Z.testbit (enabled_after s) (Z.of_nat j) = false -> nextServiceCycle (waveform s' !!! j) = nextServiceCycle (waveform s !!! j);
  id_pins : forall j lo hi p, (j < 17)%nat -> shows lo hi s j p -> lo <= hi <= cyc (readings s) -> cyc (readings s) <= lo + 1073741824 ->
    exists ts, irq_serves s s' j lo hi p ts
}.

Lemma frame_wf s s' : frame s s' -> wf s -> in_range s -> wf s'.
Proof.
  intros F [L E TE TD R Ru] I. split; rewrite ?(fr_len _ _ F), ?(fr_toenable _ _ F), ?(fr_todisable _ _ F), ?(fr_running _ _ F); try done.
  - by apply (fr_word _ _ F).
  - intros _ _. by apply (frame_range s).
  - intros [N|N]; apply Ru; [left|by right]. destruct (word_nonzero _ (fr_word _ _ F E) N) as [k Hk%(fr_enabled _ _ F)].
    intros E0. by rewrite E0, Z.bits_0 in Hk.
Qed.
Lemma finish_wf n s : wf s -> wf (finish_irq timer1CB_result n s).
Proof. by intros []. Qed.
Lemma finish_done s s1 s2 n : wf s2 -> idle s2 -> timer1CB s2 = timer1CB s -> timerRunning s2 = timerRunning s ->
  (forall k, Z.testbit (waveformEnabled s2) k = true -> Z.testbit (enabled_after s) k = true) ->
  n <= 800000 -> cyc (readings s) < cyc (readings s2) <= cyc (readings s) + 33554432 ->
  cyc (readings s) <= cyc (readings s1) ->
  (forall j, times_of (waveform s2 !!! j) = times_of (waveform s !!! j)) ->
  (forall j, Z.testbit (enabled_after s) (Z.of_nat j) = false -> nextServiceCycle (waveform s2 !!! j) = nextServiceCycle (waveform s !!! j)) ->
  (forall lo hi j p, shows lo hi s j p -> shows lo hi s1 j p) ->
  (forall j lo hi p, (j < 17)%nat -> shows lo hi s1 j p -> lo <= hi <= cyc (readings s1) -> cyc (readings s) + 33554432 <= lo + 2147483648 -> exists ts, follows s1 s2 n j lo hi p ts) ->
  irq_done s (finish_irq timer1CB_result n s2).
Proof.
  intros W I C R En Hn T T1 Tm Nx Sh Fo. destruct (finish_timer n s2 Hn) as [E B].
  change (microsecondsToClockCycles 10) with 800 in *. split; try done.
  - by apply finish_wf.
  - rewrite E. change (microsecondsToClockCycles 10) with 800. change (microsecondsToClockCycles MAXIRQUS) with 800000. lia.
  - intros j lo hi p Hj Hs Hlo Hw. destruct (Fo j lo hi p) as (ts & D & S & N & U); [done | by apply Sh | lia | lia|].
    exists ts. split_and!; try done.
    + apply (during_weaken (cyc (readings s1)) _ (cyc (readings s2))); [lia | cbn; lia | done].
    + by apply finish_shows.
    + intros H. specialize (U H). rewrite E. change (microsecondsToClockCycles 10) with 800. lia.
Qed.

Lemma timer1Interrupt_done fuel s : wf s -> (1122 <= fuel)%nat -> exists s', timer1Interrupt cyc timer1CB_result fuel s = Some s' /\ irq_done s s'.
Proof.
  intros W HF. unfold timer1Interrupt. cbv beta iota zeta delta [GetCycleCountIRQ GetCycleCount]. fold (read s).
  assert (W1 : wf (read s)) by (by destruct W). destruct (requests_wf _ W1) as [W2 I2]. destruct (requests_same (read s)) as (Wv & R2 & C2 & Q2).
  assert (Sh : forall lo hi j p, shows lo hi s j p -> shows lo hi (handle_requests (read s)) j p) by (intros; by apply requests_shows, read_shows).
  pose proof (requests_enabled (read s)) as En2. set (s1 := handle_requests (read s)) in *. cbn [readings read set_readings timer1CB timerRunning] in R2, C2, Q2.
  pose proof (Hcyc (readings s)) as HC. unfold truth. destruct (Z.eqb_spec (waveformEnabled s1) 0) as [E0|E0]; cbn [negb].
  - eexists. split; [reflexivity|]. change (microsecondsToClockCycles MAXIRQUS) with 800000.
    apply (finish_done s s1); try done; rewrite ?R2; try lia; [by rewrite En2 | by rewrite Wv | by rewrite Wv|]. intros j lo hi p Hj Hs Hlo Hw. exists [].
    assert (Hp : is_on p = false).
    { destruct (is_on p) eqn:Hp; [|done]. pose proof (on_bit lo hi s1 j p I2 Hs Hp) as Hb. by rewrite E0, Z.bits_0 in Hb. }
    unfold follows. cbn. rewrite Hp, R2. split_and!; try done; lia.
  - pose proof (wf_range _ W2 I2 E0) as R. change (microsecondsToClockCycles 14) with 1120. rewrite u32_plus.
    destruct (service_loop_follows (cyc (readings s)) fuel s1) as (n & s2 & E & F & N & T & Fo); try done; rewrite ?R2; try lia.
    rewrite E. eexists. split; [reflexivity|]. rewrite R2 in T.
    apply (finish_done s s1); try done; rewrite ?R2; try lia.
    + by apply (frame_wf s1).
    + by apply (frame_idle s1).
    + by rewrite (fr_cb _ _ F).
    + by rewrite (fr_running _ _ F).
    + intros k Hk%(fr_enabled _ _ F). by rewrite En2 in Hk.
    + intros j. by rewrite (fr_times _ _ F), Wv.
    + intros j Hj. rewrite (fr_next _ _ F), Wv; [done | by rewrite En2].
    + intros j lo hi p Hj Hs Hlo Hw. apply Fo; try done; [by rewrite (wf_len _ W2) | by rewrite R2].
Qed.
End Irq.
