(* ===== verification/WaveformSpec.v ===== *)
(** * What the waveform generator promises

    Runs of a program that starts and stops waves, writes levels and rests, with the
    interrupts that come in between, also between the stores of a start and of a stop:
    the edges of every pin are square waves with the times asked for, one for each start,
    in which no level ends early; the interrupt handler ends and refines the oscillators
    of the pins; and the requests are answered.  The invariant says that every pin of the
    generator is in the state of its oscillator. *)

From S2P Require Import Prelude Waveform WaveformProps WaveformIrq.

(** ** The oscillator and the requests *)

Definition expiry_at (t r : Z) : option Z :=
  if r =? 0 then None else let e := t + 80 * r in Some (if u32 e =? 0 then e + 1 else e).
(** The stores of a start, one at a time, as the oscillator sees them. *)
Definition with_high (v : Z) (p : pin) : pin := mkPin (p_osc p) v (p_low p) (p_level p) (p_waves p).
Definition with_low (v : Z) (p : pin) : pin := mkPin (p_osc p) (p_high p) v (p_level p) (p_waves p).
Definition with_expiry (ex : option Z) (p : pin) : pin :=
  match p_osc p with Off => p | On up next _ => mkPin (On up next ex) (p_high p) (p_low p) (p_level p) (p_waves p) end.
Definition begin_wave (next : Z) (ex : option Z) (p : pin) : pin :=
  mkPin (On false next ex) (p_high p) (p_low p) (p_level p) ([] :: p_waves p).
Definition hold_pin (lv : bool) (p : pin) : pin := mkPin Off (p_high p) (p_low p) lv (p_waves p).

(** The newest edge has the level of the pin and tells when the level ends. *)
Definition osc_ok (p : pin) : Prop :=
  Forall square_wave (p_waves p) /\
  match p_osc p with
  | Off => True
  | On up next _ =>
      exists w ws, p_waves p = w :: ws /\
      match w with [] => up = false | e :: _ => e_up e = up /\ next = e_at e + e_len e /\ p_level p = up end
  end.

Lemma serve_ok i p t : osc_ok p -> osc_ok (serve i p t).
Proof.
  unfold osc_ok, serve. destruct (p_osc p) as [|up next ex] eqn:Hp; [by rewrite Hp|]. intros (F & w & ws & E & H). rewrite E in *.
  destruct (expired ex t); [done|]. destruct (Z.ltb_spec next t); [|rewrite Hp, E; eauto]. cbn [p_waves p_osc push_edge p_level].
  apply Forall_cons in F as [Fw F]. split; [|by eexists _, _].
  constructor; [|done]. destruct w as [|e w]; cbn; [by rewrite H|]. destruct H as (Hu & Hn & _). subst up. split; [split; [reflexivity | lia] | exact Fw].
Qed.
Lemma expiry_ok ex p : osc_ok p -> osc_ok (with_expiry ex p).
Proof. unfold osc_ok, with_expiry. by destruct (p_osc p) eqn:Hp; [rewrite Hp|]. Qed.
Lemma begin_ok next ex p : osc_ok p -> osc_ok (begin_wave next ex p).
Proof. intros [F _]. split; [by constructor | by eexists _, _]. Qed.
Lemma hold_ok lv p : osc_ok p -> osc_ok (hold_pin lv p).
Proof. by intros [F _]. Qed.
(** The edges that a look at the pin adds. *)
Lemma serve_edges i p t : osc_ok p -> length (p_waves (serve i p t)) = length (p_waves p) /\
  (p_waves (serve i p t) = p_waves p \/ is_on p = true /\ exists up, concat (p_waves (serve i p t)) =
     mkEdge i up t (if up then p_high p else p_low p) :: concat (p_waves p)).
Proof.
  unfold osc_ok, serve. destruct (p_osc p) as [|up next ex] eqn:Hp; [by auto|]. intros (_ & w & ws & E & _).
  destruct (expired ex t); [by auto|]. destruct (next <? t); [|by auto]. cbn [p_waves]. split; [by rewrite E|]. right.
  split; [unfold is_on; by rewrite Hp|]. exists (negb up). apply concat_push.
Qed.
Lemma serve_times i p t : p_high (serve i p t) = p_high p /\ p_low (serve i p t) = p_low p.
Proof. unfold serve. destruct (p_osc p); [done|]. destruct (expired _ t); [done|]. by destruct (_ <? t). Qed.

(** ** Requests of the program *)

Section Run.
Context (cyc : nat -> Z) (Hcyc : forall n, cyc n < cyc (S n) <= cyc n + 1048576).

(** Pin [i], not left alone since [last], is one with the property [Q]. *)
Definition pin_inv (last : Z) (s : gen) (i : nat) (Q : pin -> Prop) : Prop :=
  exists p lo hi, shows lo hi s i p /\ last <= lo <= hi /\ hi <= cyc (readings s) /\ Q p.
Lemma pin_inv_mono last s i (Q Q' : pin -> Prop) : (forall p, Q p -> Q' p) -> pin_inv last s i Q -> pin_inv last s i Q'.
Proof. intros H (p & lo & hi & ? & ? & ? & ?). exists p, lo, hi. auto. Qed.

(** Properties that the handler keeps, and those that a stop and a write keep as well. *)
Definition closed (Q : nat -> pin -> Prop) : Prop := forall j p t, Q j p -> Q j (serve j p t).
Definition holds (Q : nat -> pin -> Prop) : Prop := forall j p lv, Q j p -> Q j (hold_pin lv p).
Lemma closed_serves Q j ts p : closed Q -> Q j p -> Q j (foldl (serve j) p ts).
Proof. intros C. revert p. induction ts as [|t ts IH]; intros p H; [done|]. cbn. auto. Qed.

(** A change of the state that no pin notices. *)
Definition unseen (s s' : gen) : Prop := (readings s' = readings s /\ waveform s' = waveform s) /\ (wf s -> wf s') /\ forall lo hi i p, shows lo hi s i p -> shows lo hi s' i p.
Lemma unseen_refl s : unseen s s.
Proof. by split_and!. Qed.
Lemma unseen_trans a b c : unseen a b -> unseen b c -> unseen a c.
Proof. intros ([A A'] & B & C) ([D D'] & E & F). split; [split; congruence | split; auto]. Qed.
Lemma timer1_write_unseen v s : unseen s (timer1_write v s).
Proof.
  unfold timer1_write. cbv zeta. destruct (bit_set _ _); (split_and!; [done | done | by intros [] | intros lo hi i p; by apply shows_ext]).
Qed.
Lemma initTimer_unseen s : unseen s (initTimer s).
Proof. split_and!; [done | done | by intros [] | intros lo hi i p; by apply shows_ext]. Qed.
Lemma deinitTimer_unseen s : idle s -> waveformEnabled s = 0 -> unseen s (deinitTimer s).
Proof.
  intros [E _] E0. split_and!; [done | done | | intros lo hi i p; by apply shows_ext].
  intros []. split; try done. cbn. rewrite E, E0. by intros [].
Qed.
Lemma callback_unseen b s : idle s -> unseen s (setTimer1Callback b s).
Proof.
  intros I.
  unfold setTimer1Callback. cbv zeta. assert (U : unseen s (set_timer1CB b s)) by (split_and!; [done | done | by intros [] | intros lo hi i p; by apply shows_ext]).
  destruct (negb _ && _); [|destruct (_ && _ && _) eqn:D; [|done]]; apply (unseen_trans _ _ _ U).
  - eapply unseen_trans; [apply initTimer_unseen | apply timer1_write_unseen].
  - apply deinitTimer_unseen; [done|]. cbn in *. lia.
Qed.
Lemma unseen_inv last s s' i Q : unseen s s' -> pin_inv last s i Q -> pin_inv last s' i Q.
Proof. intros ([R _] & _ & S) (p & lo & hi & H & ?). exists p, lo, hi. rewrite R. split; [by apply S | done]. Qed.

(** Durations below half a turn of the counter. *)
Definition short (us : Z) : Prop := 0 <= us /\ 80 * us < 2147483648.
Lemma cycles_of us : short us -> microsecondsToClockCycles us = 80 * us /\ half (80 * us).
Proof. unfold short, microsecondsToClockCycles, clockCyclesPerMicrosecond, half. intros H. rewrite u32_id; unfold is_u32; lia. Qed.

Lemma expiry_at_near t r : short r -> expiry_near t t (expiry_at t r).
Proof.
  intros [H0 H]. unfold expiry_at, expiry_near, near. destruct (r =? 0); [done|].
  destruct (Z.eqb_spec (u32 (t + 80 * r)) 0) as [E|E]; unfold u32 in *; split; mlia.
Qed.
Lemma expiry_near_mono lo hi lo' hi' ex : lo' <= lo -> hi <= hi' -> expiry_near lo hi ex -> expiry_near lo' hi' ex.
Proof. unfold expiry_near, near. destruct ex; [|done]. intros ? ? [? ?]. split; [lia | done]. Qed.

Lemma pin_inv_read last s i Q : pin_inv last s i Q -> pin_inv last (read s) i Q.
Proof.
  intros (p & lo & hi & H & ? & ? & ?). exists p, lo, hi. split_and!; try tauto; try lia; [by apply read_shows|].
  cbn. specialize (Hcyc (readings s)). lia.
Qed.
Lemma pin_inv_other last s s' i j Q : j <> i -> only_pin i s s' -> readings s' = readings s -> pin_inv last s j Q -> pin_inv last s' j Q.
Proof. intros N O R (p & lo & hi & H & ?). exists p, lo, hi. rewrite R. split; [by apply O | done]. Qed.
Lemma off_not_enabled s i lo hi p : idle s -> shows lo hi s i p -> is_on p = Z.testbit (waveformEnabled s) (Z.of_nat i).
Proof. intros I H. destruct (is_on p) eqn:E; symmetry; [by apply (on_bit lo hi s i p) | by apply (off_bit lo hi s i p)]. Qed.

(** ** The whole state *)

Record inv (last : Z) (s : gen) (Q : nat -> pin -> Prop) : Prop := mkInv {
  inv_wf : wf s;
  inv_time : last <= cyc (readings s);
  inv_pins : forall j, (j < 17)%nat -> pin_inv last s j (Q j)
}.
Lemma inv_mono last s (Q Q' : nat -> pin -> Prop) : (forall j p, (j < 17)%nat -> Q j p -> Q' j p) -> inv last s Q -> inv last s Q'.
Proof. intros H [W T P]. split; try done. intros j Hj. apply (pin_inv_mono last s j (Q j)); auto. Qed.
Lemma inv_earlier last last' s Q : last' <= last -> inv last s Q -> inv last' s Q.
Proof.
  intros H [W T P]. split; try done; [lia|]. intros j Hj. destruct (P j Hj) as (p & lo & hi & A & B & C). exists p, lo, hi. split_and!; try tauto; lia.
Qed.
Lemma unseen_whole last s s' Q : unseen s s' -> inv last s Q -> inv last s' Q.
Proof. intros U [W T P]. split; [by apply U | by rewrite (proj1 (proj1 U)) | intros j Hj; apply (unseen_inv _ s); auto]. Qed.
Lemma read_wf s : wf s -> wf (read s).
Proof. by intros []. Qed.
Lemma read_inv last s Q : inv last s Q -> inv last (read s) Q.
Proof.
  intros [W T P]. split; [by apply read_wf | cbn; specialize (Hcyc (readings s)); lia | intros j Hj; by apply pin_inv_read, P].
Qed.

(** *** The handler *)

Lemma irq_pin last s s' j Q : (j < 17)%nat -> closed Q -> irq_done cyc s s' -> cyc (readings s) <= last + 1073741824 -> pin_inv last s j (Q j) ->
  pin_inv (cyc (readings s)) s' j (Q j).
Proof.
  intros Hj C D Hl (p & lo & hi & S & L & H & K). destruct (id_pins _ _ _ D j lo hi p Hj S) as (ts & T & S' & N & _); [lia | lia|].
  pose proof (id_time _ _ _ D) as HT. pose proof (closed_serves Q j ts p C K) as K'.
  exists (foldl (serve j) p ts). destruct (is_on (foldl (serve j) p ts)) eqn:On.
  - assert (Hne : ts <> []).
    { intros ->. cbn in On. by apply N. }
    destruct (last_is_Some ts) as [_ X]. destruct (X Hne) as [t Et]. pose proof (during_last _ _ _ _ T Et).
    exists t, t. unfold from in S'. rewrite Et in S'. cbn in S'. split_and!; try lia; done.
  - exists (cyc (readings s)), (cyc (readings s)). split_and!; try lia; [by apply (shows_off (from lo ts) (from hi ts)) | done].
Qed.

(** What the foreground can rely on across an interrupt. *)
Record after (s s' : gen) : Prop := mkAfter {
  af_time : cyc (readings s) <= cyc (readings s') <= cyc (readings s) + 33554432;
  af_times : forall j, times_of (waveform s' !!! j) = times_of (waveform s !!! j);
  af_next : forall j, Z.testbit (enabled_after s) (Z.of_nat j) = false -> nextServiceCycle (waveform s' !!! j) = nextServiceCycle (waveform s !!! j);
  af_enabled : forall k, Z.testbit (enabled_after s') k = true -> Z.testbit (enabled_after s) k = true;
  af_running : timerRunning s' = timerRunning s
}.
Lemma enabled_after_idle s : idle s -> enabled_after s = waveformEnabled s.
Proof. intros [E D]. unfold enabled_after. by rewrite E, D, Z.lor_0_r, Z.land_m1_r. Qed.

Context (timer1CB_result : nat -> Z) (fuel : nat) (HF : (1122 <= fuel)%nat).

Lemma irq_inv last s Q : closed Q -> inv last s Q -> cyc (readings s) <= last + 1073741824 ->
  exists s', timer1Interrupt cyc timer1CB_result fuel s = Some s' /\ idle s' /\ inv (cyc (readings s)) s' Q /\ after s s'.
Proof.
  intros C [W T P] Hl. destruct (timer1Interrupt_done cyc Hcyc timer1CB_result fuel s W HF) as (s' & E & D).
  exists s'. pose proof (id_time _ _ _ D). split_and!; [done | apply D | |].
  - split; [apply D | lia|]. intros j Hj. apply (irq_pin last s s' j); auto.
  - split; try apply D; [lia|]. rewrite enabled_after_idle by apply D. apply D.
Qed.

(** The interrupt comes at a point of the foreground, or does not. *)
Lemma nmi_inv b last s Q : closed Q -> inv last s Q -> cyc (readings s) <= last + 1073741824 ->
  exists s', nmi cyc timer1CB_result fuel b s = Some s' /\ (idle s' \/ s' = s) /\ inv last s' Q /\ after s s'.
Proof.
  intros C V Hl. unfold nmi. destruct (b && timerRunning s).
  - destruct (irq_inv last s Q C V Hl) as (s' & E & I & V' & A). exists s'. split_and!; try done; [by left|].
    apply (inv_earlier (cyc (readings s))); [apply V | done].
  - exists s. split_and!; try done; [by right|]. split; try done. lia.
Qed.

(** Time left for the points of a start: each takes at most 2^25 cycles, 0.42 s. *)
Definition fit (k : Z) (last : Z) (s : gen) : Prop := cyc (readings s) <= last + 536870912 + k * 33554432.
(** A point between stores, at which no request is pending. *)
Lemma point_inv nmis k m last s Q : closed Q -> idle s -> inv last s Q -> fit m last s -> m <= 15 ->
  exists s', point cyc timer1CB_result fuel nmis k s = Some s' /\ idle s' /\ inv last s' Q /\ fit (m + 1) last s' /\ after s s'.
Proof.
  intros C I V HT Hm. unfold fit in *. destruct (nmi_inv (nth k nmis false) last s Q C V) as (s' & E & J & V' & A); [lia|].
  exists s'. pose proof (af_time _ _ A). split_and!; try done; [by destruct J as [?| ->] | lia].
Qed.

(** The wait for the interrupt ends with the first one. *)
Lemma await_inv (flags : gen -> Z) last s Q : closed Q -> (forall s, idle s -> flags s = 0) -> (flags s = 0 -> idle s) ->
  inv last s Q -> cyc (readings s) <= last + 1073741824 ->
  exists s', await_flags cyc timer1CB_result flags fuel fuel s = Some s' /\ idle s' /\ inv last s' Q /\ after s s'.
Proof.
  intros C Hf Hi V Hl. destruct (decide (flags s = 0)) as [Z0|N].
  - exists s. destruct fuel as [|n]; [lia|]. cbn [await_flags]. rewrite (proj2 (Z.eqb_eq _ _) Z0). split_and!; auto. split; try done. lia.
  - destruct (irq_inv last s Q C V Hl) as (s' & E & I & V' & A). exists s'.
    assert (W : forall n, await_flags cyc timer1CB_result flags (S (S n)) fuel s = Some s').
    { intros n. cbn [await_flags]. rewrite (proj2 (Z.eqb_neq _ _) N), E, (Hf s' I). done. }
    split_and!; try done; [|apply (inv_earlier (cyc (readings s))); [apply V | done]].
    destruct fuel as [|[|n]]; [lia | lia|]. apply W.
Qed.

(** *** Stores to a wave *)

Definition usable (i : nat) : bool := negb ((16 <? Z.of_nat i) || isFlashInterfacePin (Z.of_nat i)).

Lemma edit_other i f s : only_pin i s (edit i f s).
Proof. intros j lo hi p N. apply shows_ext; try done. cbn. by rewrite list_lookup_total_insert_ne. Qed.
Lemma edit_at i f s : wf s -> (i < 17)%nat -> waveform (edit i f s) !!! i = f (waveform s !!! i).
Proof. intros W Hi. cbn. apply list_lookup_total_insert_eq. by rewrite (wf_len _ W). Qed.
Lemma edit_inv last i f g s Q Q' : (i < 17)%nat -> (forall j p, j <> i -> Q j p -> Q' j p) ->
  (forall lo hi p, shows lo hi s i p -> last <= lo <= hi -> hi <= cyc (readings s) -> Q i p ->
     exists lo' hi', shows lo' hi' (edit i f s) i (g p) /\ (last <= lo' <= hi' /\ hi' <= cyc (readings s)) /\ Q' i (g p)) ->
  inv last s Q -> inv last (edit i f s) Q'.
Proof.
  intros Hi HO HI [W T P]. split; [|done|].
  - destruct W. split; try done. cbn. by rewrite length_insert.
  - intros j Hj. destruct (decide (j = i)) as [->|N].
    + destruct (P i Hj) as (p & lo & hi & S & L & R & K). destruct (HI lo hi p S L R K) as (lo' & hi' & S' & [L' R'] & K'). by exists (g p), lo', hi'.
    + apply (pin_inv_mono _ _ _ (Q j)); [by intros; apply HO|]. apply (pin_inv_other last s _ i); auto. apply edit_other.
Qed.
Lemma high_inv last i v s Q : (i < 17)%nat -> half v -> (forall p, Q i p -> Q i (with_high v p)) -> inv last s Q -> inv last (edit i (set_high v) s) Q.
Proof.
  intros Hi Hv HQ V. apply (edit_inv last i _ (with_high v) s Q); try done. intros lo hi p [Ho _ Hl Hlv He] L R K. exists lo, hi.
  split_and!; try done; try lia; [|by apply HQ]. pose proof (edit_at i (set_high v) s (inv_wf _ _ _ V) Hi) as E. split; rewrite ?E; try done.
Qed.
Lemma low_inv last i v s Q : (i < 17)%nat -> half v -> (forall p, Q i p -> Q i (with_low v p)) -> inv last s Q -> inv last (edit i (set_low v) s) Q.
Proof.
  intros Hi Hv HQ V. apply (edit_inv last i _ (with_low v) s Q); try done. intros lo hi p [Ho Hh _ Hlv He] L R K. exists lo, hi.
  split_and!; try done; try lia; [|by apply HQ]. pose proof (edit_at i (set_low v) s (inv_wf _ _ _ V) Hi) as E. split; rewrite ?E; try done.
Qed.
Lemma expiry_inv last i t ex s Q Q' : (i < 17)%nat -> last <= t <= cyc (readings s) -> expiry_near t t ex ->
  (forall j p, j <> i -> Q j p -> Q' j p) ->
  (forall p, p_high p = nextTimeHighCycles (waveform s !!! i) -> p_low p = nextTimeLowCycles (waveform s !!! i) -> Q i p -> Q' i (with_expiry ex p)) ->
  inv last s Q -> inv last (edit i (set_expiry (expiry_word ex)) s) Q'.
Proof.
  intros Hi Ht Hx HO HQ V. apply (edit_inv last i _ (with_expiry ex) s Q); try done. intros lo hi p [Ho Hh Hl Hlv He] L R K.
  exists (Z.min lo t), (Z.max hi t). pose proof (edit_at i (set_expiry (expiry_word ex)) s (inv_wf _ _ _ V) Hi) as E.
  split_and!; try lia; [|apply HQ; [by rewrite (proj1 Hh) | by rewrite (proj1 Hl) | done]].
  unfold with_expiry. destruct (p_osc p) as [|up next ex'] eqn:Hp; split; rewrite ?E; try done; cbn [p_osc]; [by rewrite Hp|].
  destruct Ho as (A & U & N & _ & En & _). split_and!; try done; [unfold near in *; lia|]. apply (expiry_near_mono t t); [lia | lia | done].
Qed.

(** The properties of pins that a start of pin [i] goes through: while the times are
    stored, when they are, and when the wave is on. *)
Record plan (i : nat) (h l r : Z) (Q1 Q2 Q3 : nat -> pin -> Prop) : Prop := mkPlan {
  pl_closed : closed Q1 /\ closed Q2 /\ closed Q3;
  pl_other : forall j p, j <> i -> (Q1 j p -> Q2 j p) /\ (Q2 j p -> Q3 j p);
  pl_high : forall p, Q1 i p -> Q1 i (with_high (80 * h) p);
  pl_low : forall p, Q1 i p -> Q1 i (with_low (80 * l) p);
  pl_expiry : forall ex p, (r = 0 -> ex = None) -> p_high p = 80 * h -> p_low p = 80 * l -> Q1 i p -> Q2 i (with_expiry ex p);
  pl_again : forall ex p, (r = 0 -> ex = None) -> Q2 i p -> Q2 i (with_expiry ex p);
  pl_on : forall p, is_on p = true -> Q2 i p -> Q3 i p;
  pl_off : forall next ex p, (r = 0 -> ex = None) -> is_on p = false -> Q2 i p -> Q3 i (begin_wave next ex p)
}.

(** The first store of the end, which may be 0 by accident. *)
Definition first_expiry (t r : Z) : option Z := if (r =? 0) || (u32 (t + 80 * r) =? 0) then None else Some (t + 80 * r).
Lemma first_expiry_word t r : short r -> (if truth r then u32 (u32 t + microsecondsToClockCycles r) else 0) = expiry_word (first_expiry t r).
Proof.
  intros Hr. rewrite (proj1 (cycles_of r Hr)), u32_plus. unfold truth, first_expiry. destruct (Z.eqb_spec r 0); cbn; [done|].
  by destruct (Z.eqb_spec (u32 (t + 80 * r)) 0).
Qed.
Lemma first_expiry_near t r : short r -> expiry_near t t (first_expiry t r).
Proof. intros [H0 H]. unfold first_expiry, expiry_near, near. destruct ((r =? 0) || (u32 (t + 80 * r) =? 0)) eqn:E; [done|]. lia. Qed.
Lemma second_expiry t r : truth r && (expiry_word (first_expiry t r) =? 0) = false -> first_expiry t r = expiry_at t r.
Proof.
  unfold truth, first_expiry, expiry_at. destruct (Z.eqb_spec r 0); cbn; [done|]. destruct (Z.eqb_spec (u32 (t + 80 * r)) 0); cbn; done.
Qed.
Lemma second_expiry_word t r : short r -> truth r && (expiry_word (first_expiry t r) =? 0) = true -> expiry_word (expiry_at t r) = 1.
Proof.
  intros Hr. unfold truth, first_expiry, expiry_at. destruct (Z.eqb_spec r 0); cbn; [done|].
  destruct (Z.eqb_spec (u32 (t + 80 * r)) 0); cbn; [intros _; unfold u32 in *; mlia|]. intros E. apply Z.eqb_eq in E. done.
Qed.
Lemma fit_later k k' last s s' : fit k last s -> cyc (readings s') <= cyc (readings s) + (k' - k) * 33554432 -> fit k' last s'.
Proof. unfold fit. lia. Qed.
Lemma triple_of w a b c : times_of w = (a, b, c) -> nextTimeHighCycles w = a /\ nextTimeLowCycles w = b /\ expiryCycle w = c.
Proof. by intros [= -> -> ->]. Qed.

Lemma ask_bit v k : Z.lor v (bv (Z.of_nat k)) <> 0.
Proof. intros E. pose proof (bit_on v (Z.of_nat k) (Z.of_nat k)) as B. rewrite E, Z.bits_0, Z.eqb_refl in B. discriminate B; lia. Qed.
Lemma bv_word k : (k < 17)%nat -> pins_word (bv (Z.of_nat k)).
Proof. intros H. do 17 (destruct k as [|k]; [done|]). lia. Qed.
Lemma ensure_unseen s : unseen s (ensure_service s).
Proof. unfold ensure_service. destruct (_ <? _); [apply timer1_write_unseen | apply unseen_refl]. Qed.
Lemma ensure_flags s : waveformToEnable (ensure_service s) = waveformToEnable s /\ waveformToDisable (ensure_service s) = waveformToDisable s /\
  waveformEnabled (ensure_service s) = waveformEnabled s.
Proof. unfold ensure_service, timer1_write. cbv zeta. destruct (_ <? _); [by destruct (bit_set _ _) | done]. Qed.


(** *** A start *)

Section Start.
Context (i : nat) (h l r : Z) (Q1 Q2 Q3 : nat -> pin -> Prop) (last : Z) (nmis : list bool).
Context (Hi : (i < 17)%nat) (Hh : short h) (Hl : short l) (Hr : short r) (PL : plan i h l r Q1 Q2 Q3).

(** High and low time. *)
Lemma durations_inv s : idle s -> inv last s Q1 -> fit 0 last s ->
  exists s1 s2, point cyc timer1CB_result fuel nmis 0 (edit i (set_high (microsecondsToClockCycles h)) s) = Some s1 /\ point cyc timer1CB_result fuel nmis 1 (edit i (set_low (microsecondsToClockCycles l)) s1) = Some s2 /\
    idle s2 /\ inv last s2 Q1 /\ fit 2 last s2 /\ nextTimeHighCycles (waveform s2 !!! i) = 80 * h /\ nextTimeLowCycles (waveform s2 !!! i) = 80 * l.
Proof.
  intros I V F. destruct PL as [(C1 & _) _ PH PW _ _ _ _]. rewrite (proj1 (cycles_of h Hh)), (proj1 (cycles_of l Hl)).
  pose proof (edit_at i (set_high (80 * h)) s (inv_wf _ _ _ V) Hi) as E0.
  destruct (point_inv nmis 0 0 last (edit i (set_high (80 * h)) s) Q1 C1) as (s1 & E1 & I1 & V1 & F1 & A1); try done;
    [apply high_inv; try done; by apply cycles_of|].
  pose proof (edit_at i (set_low (80 * l)) s1 (inv_wf _ _ _ V1) Hi) as E2.
  destruct (point_inv nmis 1 1 last (edit i (set_low (80 * l)) s1) Q1 C1) as (s2 & E3 & I2 & V2 & F2 & A2); try done;
    [apply low_inv; try done; by apply cycles_of|].
  exists s1, s2. pose proof (af_times _ _ A1 i) as T1. pose proof (af_times _ _ A2 i) as T2. rewrite E0 in T1. rewrite E2 in T2.
  apply triple_of in T1 as (T1 & _). apply triple_of in T2 as (T2 & T3 & _). cbn in T1, T2, T3. split_and!; try done. by rewrite T2, T1.
Qed.

Lemma store_times_inv s : idle s -> inv last s Q1 -> fit 0 last s ->
  exists t s', store_times cyc timer1CB_result fuel nmis i h l r s = Some s' /\ idle s' /\ inv last s' Q2 /\ fit 6 last s' /\
    last <= t <= cyc (readings s') /\ times_of (waveform s' !!! i) = (80 * h, 80 * l, expiry_word (expiry_at t r)).
Proof.
  intros I V F. destruct (durations_inv s I V F) as (s1 & s2 & E1 & E2 & I2 & V2 & F2 & TH & TL).
  destruct PL as [(C1 & C2 & _) PO _ _ PX PA _ _]. unfold store_times. rewrite E1. cbn [mbind option_bind]. rewrite E2. cbn [mbind option_bind].
  set (t := cyc (readings s2)). exists t.
  replace (if truth r then GetCycleCount cyc s2 else (0, s2)) with (if truth r then u32 t else 0, if truth r then read s2 else s2) by (by destruct (truth r)).
  assert (H3 : exists s3, s3 = (if truth r then read s2 else s2) /\ idle s3 /\ inv last s3 Q1 /\ fit 3 last s3 /\ t <= cyc (readings s3) /\ waveform s3 = waveform s2).
  { eexists. split; [reflexivity|]. pose proof (Hcyc (readings s2)). destruct (truth r); split_and!; try done; try (apply (fit_later 2 3 last s2 _ F2); cbn; lia); try (unfold t; cbn; lia).
    by apply read_inv. }
  destruct H3 as (s3 & <- & I3 & V3 & F3 & T3 & W3). pose proof (inv_time _ _ _ V2) as L2. fold t in L2.
  destruct (point_inv nmis 2 3 last s3 Q1 C1) as (s4 & E4 & I4 & V4 & F4 & A4); try done. rewrite E4. cbn [mbind option_bind].
  pose proof (af_times _ _ A4 i) as T4. rewrite W3 in T4. apply triple_of in T4 as (TH4 & TL4 & _). rewrite TH in TH4. rewrite TL in TL4.
  replace (if truth r then u32 ((if truth r then u32 t else 0) + microsecondsToClockCycles r) else 0) with (expiry_word (first_expiry t r))
    by (rewrite <- first_expiry_word by done; by destruct (truth r)).
  pose proof (af_time _ _ A4) as M4. assert (R0 : forall ex, ex = first_expiry t r \/ ex = expiry_at t r -> r = 0 -> ex = None) by (by intros ex [-> | ->] ->).
  pose proof (edit_at i (set_expiry (expiry_word (first_expiry t r))) s4 (inv_wf _ _ _ V4) Hi) as E5.
  destruct (point_inv nmis 3 4 last (edit i (set_expiry (expiry_word (first_expiry t r))) s4) Q2 C2) as (s6 & E6 & I6 & V6 & F6 & A6); try done.
  { apply (expiry_inv last i t _ s4 Q1); try done; [lia | by apply first_expiry_near | by intros; apply PO|]. rewrite TH4, TL4. intros p H1 H2. apply PX; auto. }
  rewrite E6. cbn [mbind option_bind]. pose proof (af_times _ _ A6 i) as T6. rewrite E5 in T6. apply triple_of in T6 as (TH6 & TL6 & TX6). rewrite TX6.
  pose proof (af_time _ _ A6) as M6. cbn [readings edit set_waveform] in M6. cbn [expiryCycle set_expiry].
  assert (H7 : exists s7, s7 = (if truth r && (expiry_word (first_expiry t r) =? 0) then edit i (set_expiry 1) s6 else s6) /\ idle s7 /\ inv last s7 Q2 /\ fit 5 last s7 /\
    cyc (readings s6) <= cyc (readings s7) /\ times_of (waveform s7 !!! i) = (80 * h, 80 * l, expiry_word (expiry_at t r))).
  { eexists. split; [reflexivity|]. destruct (truth r && (expiry_word (first_expiry t r) =? 0)) eqn:D.
    - pose proof (second_expiry_word t r Hr D) as W1. pose proof (edit_at i (set_expiry (expiry_word (expiry_at t r))) s6 (inv_wf _ _ _ V6) Hi) as E7. replace (set_expiry 1) with (set_expiry (expiry_word (expiry_at t r))) by (by rewrite W1).
      split_and!; try done; [|rewrite E7; unfold times_of; cbn; by rewrite TH6, TL6, <- TH4, <- TL4].
      apply (expiry_inv last i t _ s6 Q2); try done; [lia | by apply expiry_at_near|]. intros p _ _. apply PA. auto.
    - apply second_expiry in D. split_and!; try done. unfold times_of. rewrite TX6, TH6, TL6, <- D. cbn. by rewrite TH4, TL4. }
  destruct H7 as (s7 & <- & I7 & V7 & F7 & M7 & T7).
  destruct (point_inv nmis 4 5 last s7 Q2 C2) as (s8 & E8 & I8 & V8 & F8 & A8); try done. exists s8.
  pose proof (af_time _ _ A8). split_and!; try done; try lia. by rewrite (af_times _ _ A8 i).
Qed.
(** A request to start the pin, which is off. *)
Definition ask (i : nat) (s : gen) : gen := set_waveformToEnable (Z.lor (waveformToEnable s) (bv (Z.of_nat i))) s.
Lemma ask_other s : only_pin i s (ask i s).
Proof.
  intros j lo hi p N. destruct (eqb_other j i N) as [Ez En]. apply shows_ext; try done.
  - unfold active. cbn. by rewrite bit_on, Ez by lia.
  - unfold is_up. cbn. by rewrite bit_on, Ez by lia.
Qed.
Definition off (s : gen) : Prop := Z.testbit (waveformEnabled s) (Z.of_nat i) = false.
Lemma off_after s s' : idle s -> idle s' -> after s s' -> off s -> off s'.
Proof.
  intros I I' A O. apply not_true_is_false. rewrite <- enabled_after_idle by done. intros B%(af_enabled _ _ A).
  rewrite enabled_after_idle in B by done. unfold off in O. congruence.
Qed.
Lemma next_after s s' : idle s -> after s s' -> off s -> nextServiceCycle (waveform s' !!! i) = nextServiceCycle (waveform s !!! i).
Proof. intros I A O. apply (af_next _ _ A). by rewrite enabled_after_idle. Qed.

Lemma ask_pins t t' s : idle s -> inv last s Q2 -> off s -> last <= t -> t <= t' <= cyc (readings s) ->
  times_of (waveform s !!! i) = (80 * h, 80 * l, expiry_word (expiry_at t r)) -> nextServiceCycle (waveform s !!! i) = u32 (t' + 80) ->
  forall j, (j < 17)%nat -> pin_inv last (ask i s) j (Q3 j).
Proof.
  intros I V O Lt T (TH & TL & TX)%triple_of N j Hj. destruct (decide (j = i)) as [->|Nj].
  - destruct (inv_pins _ _ _ V i Hi) as (p & lo & hi & S & L & R & K). pose proof (off_not_enabled s i lo hi p I S) as Op. unfold off in O. rewrite O in Op.
    exists (begin_wave (t' + 80) (expiry_at t r) p), t, (cyc (readings s)). split_and!; try lia; [|cbn; lia|apply (pl_off _ _ _ _ _ _ _ PL); try done; by intros ->].
    destruct S as [_ Sh Sl Sv Se]. split; cbn [p_osc p_high p_low p_level p_waves begin_wave]; try done. split_and!; try done.
    + unfold active. cbn. rewrite bit_on, Z.eqb_refl by lia. apply orb_true_r.
    + unfold is_up. cbn. rewrite bit_on, Z.eqb_refl by lia. apply andb_false_r.
    + unfold near. lia.
    + apply (expiry_near_mono t t); [lia | lia | by apply expiry_at_near].
  - apply (pin_inv_other last s _ i); try done; [apply ask_other|]. apply (pin_inv_mono _ _ _ (Q2 j)); [intros p; by apply (pl_other _ _ _ _ _ _ _ PL)|]. by apply V.
Qed.

Lemma ask_wf s : wf s -> timerRunning s = true -> wf (ask i s).
Proof.
  intros [] R. split; try done; cbn; [by apply lor_word; [|apply bv_word]|]. intros [E _]. by apply ask_bit in E.
Qed.
(** The request is made and the timer set, with or without an interrupt in between. *)
Lemma request_made s : wf s -> idle s -> last <= cyc (readings s) -> (forall j, (j < 17)%nat -> pin_inv last (ask i s) j (Q3 j)) ->
  cyc (readings s) <= last + 1073741824 ->
  exists s1, point cyc timer1CB_result fuel nmis 8 (ask i s) = Some s1 /\
    let s' := if negb (timerRunning s1) then timer1_write (microsecondsToClockCycles 10) (initTimer s1) else ensure_service s1 in
    inv last s' Q3 /\ (waveformToEnable s' = 0 -> idle s') /\ times_of (waveform s' !!! i) = times_of (waveform s !!! i) /\
    cyc (readings s') <= cyc (readings s) + 33554432.
Proof.
  intros W I L P HT. unfold point. destruct PL as [(_ & _ & C3) _ _ _ _ _ _ _]. destruct (timerRunning s) eqn:R.
  - assert (V : inv last (ask i s) Q3) by (split; [by apply ask_wf | done | done]).
    destruct (nmi_inv (nth 8 nmis false) last (ask i s) Q3 C3 V HT) as (s1 & E & J & V1 & A). exists s1. split; [done|].
    rewrite (af_running _ _ A). cbn [ask timerRunning set_waveformToEnable]. rewrite R. cbn [negb]. cbv zeta. pose proof (ensure_unseen s1) as U. destruct (ensure_flags s1) as (F1 & F2 & _).
    pose proof (af_time _ _ A). rewrite (proj1 (proj1 U)), (proj2 (proj1 U)), F1. split_and!; [by apply (unseen_whole last s1) | | apply (af_times _ _ A) | cbn in *; lia].
    destruct J as [[J1 J2] | ->]; [intros _; split; congruence|]. intros Z. by apply ask_bit in Z.
  - exists (ask i s). unfold nmi. cbn [timerRunning ask set_waveformToEnable]. rewrite R, andb_false_r. split; [done|]. cbn [negb]. cbv zeta.
    pose proof (unseen_trans _ _ _ (initTimer_unseen (ask i s)) (timer1_write_unseen (microsecondsToClockCycles 10) _)) as U. rewrite (proj1 (proj1 U)), (proj2 (proj1 U)).
    split_and!; [| | done | cbn; lia].
    + split; [|by rewrite (proj1 (proj1 U)) | intros j Hj; by apply (unseen_inv _ (ask i s)); auto].
      apply timer1_write_unseen, (ask_wf (initTimer s)); [by apply initTimer_unseen | done].
    + unfold timer1_write. cbv zeta. destruct (bit_set _ _); intros Z; by apply ask_bit in Z.
Qed.

Lemma next_inv v s : idle s -> off s -> inv last s Q2 -> inv last (edit i (set_next v) s) Q2.
Proof.
  intros I O V. apply (edit_inv last i _ (fun p => p) s Q2); try done. intros lo hi p S L R K. exists lo, hi. split_and!; try done; try lia.
  pose proof (off_not_enabled s i lo hi p I S) as Op. unfold off in O. rewrite O in Op. unfold is_on in Op.
  pose proof (edit_at i (set_next v) s (inv_wf _ _ _ V) Hi) as E. destruct S as [So Sh Sl Sv Se]. split; rewrite ?E; try done. by destruct (p_osc p).
Qed.

Lemma request_start_inv t s : idle s -> inv last s Q2 -> fit 6 last s -> off s -> last <= t <= cyc (readings s) ->
  times_of (waveform s !!! i) = (80 * h, 80 * l, expiry_word (expiry_at t r)) ->
  exists s', request_start cyc timer1CB_result fuel nmis i s = Some s' /\ inv last s' Q3 /\ (waveformToEnable s' = 0 -> idle s') /\
    times_of (waveform s' !!! i) = (80 * h, 80 * l, expiry_word (expiry_at t r)) /\ cyc (readings s') <= last + 1073741824.
Proof.
  intros I V F O T TM. pose proof (Hcyc (readings s)) as HC. destruct (pl_closed _ _ _ _ _ _ _ PL) as (_ & C2 & _).
  unfold request_start. cbv beta iota zeta delta [GetCycleCount]. fold (read s). set (t' := cyc (readings s)) in *.
  destruct (point_inv nmis 5 7 last (read s) Q2 C2) as (s2 & E2 & I2 & V2 & F2 & A2); try done;
    [by apply read_inv | apply (fit_later 6 7 last s _ F); cbn; lia|]. rewrite E2. cbn [mbind option_bind].
  pose proof (off_after (read s) s2 I I2 A2 O) as O2. pose proof (af_time _ _ A2) as M2.
  change (microsecondsToClockCycles 1) with 80. rewrite u32_plus. set (s3 := edit i (set_next (u32 (t' + 80))) s2).
  pose proof (edit_at i (set_next (u32 (t' + 80))) s2 (inv_wf _ _ _ V2) Hi) as E3. fold s3 in E3.
  destruct (point_inv nmis 6 8 last s3 Q2 C2) as (s4 & E4 & I4 & V4 & F4 & A4); try done; [by apply next_inv|]. rewrite E4. cbn [mbind option_bind].
  pose proof (off_after s3 s4 I2 I4 A4 O2) as O4. pose proof (af_time _ _ A4) as M4. cbn [readings s3 edit set_waveform] in M4.
  destruct (point_inv nmis 7 9 last s4 Q2 C2) as (s5 & E5 & I5 & V5 & F5 & A5); try done. rewrite E5. cbn [mbind option_bind].
  pose proof (af_time _ _ A5) as M5. replace (waveformToEnable s4) with (waveformToEnable s5) by (by rewrite (proj1 I4), (proj1 I5)). fold (ask i s5). cbn [readings read set_readings] in M2.
  assert (TM5 : times_of (waveform s5 !!! i) = (80 * h, 80 * l, expiry_word (expiry_at t r))).
  { rewrite (af_times _ _ A5), (af_times _ _ A4), E3, <- TM. exact (af_times _ _ A2 i). }
  destruct (request_made s5) as (s6 & E6 & V6 & J6 & T6 & M6); try done; [apply V5 | apply V5 | | unfold fit in F5; lia|].
  { apply (ask_pins t t'); try done; try lia; [by apply (off_after s4) |].
    rewrite (next_after s4 s5 I4 A5 O4), (next_after s3 s4 I2 A4 O2), E3. done. }
  rewrite E6. cbn [mbind option_bind]. eexists. split; [reflexivity|]. split_and!; [exact V6 | exact J6 | etransitivity; [exact T6 | exact TM5] |]. unfold fit in F5. lia.
Qed.

(** A start ends, with the wave on or made to end, and the times stored. *)
Lemma start_inv s : usable i = true -> idle s -> inv last s Q1 -> fit 0 last s ->
  exists t s', startWaveform cyc timer1CB_result fuel nmis (Z.of_nat i) h l r s = Some (true, s') /\ idle s' /\ inv last s' Q3 /\
    times_of (waveform s' !!! i) = (80 * h, 80 * l, expiry_word (expiry_at t r)).
Proof.
  intros Hu I V F. unfold usable in Hu. apply negb_true_iff in Hu. unfold startWaveform. rewrite Hu, Nat2Z.id.
  destruct (store_times_inv s I V F) as (t & s1 & E1 & I1 & V1 & F1 & T1 & TM1). exists t. rewrite E1. cbn [mbind option_bind]. rewrite bit_set_bv by lia.
  destruct (Z.testbit (waveformEnabled s1) (Z.of_nat i)) eqn:B.
  - exists s1. split_and!; try done. destruct V1 as [W1 L1 P1]. split; try done. intros j Hj. destruct (P1 j Hj) as (p & lo & hi & S & L & R & K).
    exists p, lo, hi. split_and!; try done; try lia. destruct (decide (j = i)) as [->|N]; [|by apply (pl_other _ _ _ _ _ _ _ PL)].
    apply (pl_on _ _ _ _ _ _ _ PL); [by rewrite (off_not_enabled s1 i lo hi p)|done].
  - destruct (request_start_inv t s1) as (s2 & E2 & V2 & J2 & TM2 & M2); try done. rewrite E2. cbn [mbind option_bind].
    destruct (await_inv waveformToEnable last s2 Q3) as (s3 & E3 & I3 & V3 & A3); try done; [apply PL | by intros ? []|].
    rewrite E3. cbn [mbind option_bind]. exists s3. split_and!; try done. by rewrite (af_times _ _ A3).
Qed.
End Start.

(** *** A stop *)

Definition ask_stop (i : nat) (s : gen) : gen := set_waveformToDisable (Z.lor (waveformToDisable s) (bv (Z.of_nat i))) s.
Lemma ask_stop_inv last i s Q : (i < 17)%nat -> idle s -> holds Q -> timerRunning s = true -> inv last s Q -> inv last (ask_stop i s) Q.
Proof.
  intros Hi I H Ru [W T P]. split; [|done|].
  - destruct W. split; try done; [apply lor_word; [done | by apply bv_word]|]. intros [_ E]. by apply ask_bit in E.
  - intros j Hj. destruct (P j Hj) as (p & lo & hi & S & L & R & K). destruct (decide (j = i)) as [->|N].
    + exists (hold_pin (p_level p) p), lo, hi. split_and!; try done; try lia; [|by apply H].
      destruct S as [_ Sh Sl Sv Se]. split; try done. cbn. unfold active. cbn. rewrite (proj1 I), Z.bits_0, bit_on, Z.eqb_refl by lia. by rewrite andb_false_r.
    + exists p, lo, hi. split_and!; try done; try lia. apply (shows_ext lo hi s); try done. unfold active. cbn. by rewrite bit_on, (proj1 (eqb_other j i N)) by lia.
Qed.
Lemma stop_off nmis pin s : 0 <= pin -> Z.testbit (waveformEnabled s) pin = false -> stopWaveform cyc timer1CB_result fuel nmis pin s = Some (false, s).
Proof.
  intros Hp B. unfold stopWaveform. destruct (negb (timerRunning s)); [done|]. destruct (pin <? 32); [by rewrite bit_set_bv, B by done|].
  unfold bit_set. by rewrite Z.land_0_r.
Qed.
Lemma ask_stop_bit i s : idle s -> Z.testbit (enabled_after (ask_stop i s)) (Z.of_nat i) = false.
Proof. intros I. unfold enabled_after. cbn. by rewrite (proj1 I), (proj2 I), Z.lor_0_r, Z.lor_0_l, bit_off, Z.eqb_refl by lia. Qed.
Lemma stop_inv nmis last pin s Q : closed Q -> holds Q -> 0 <= pin -> idle s -> inv last s Q -> fit 0 last s ->
  exists s', stopWaveform cyc timer1CB_result fuel nmis pin s = Some (Z.testbit (waveformEnabled s) pin, s') /\ idle s' /\ inv last s' Q /\
    Z.testbit (waveformEnabled s') pin = false.
Proof.
  intros C H Hp I V F. pose proof (inv_wf _ _ _ V) as W. destruct (Z.testbit (waveformEnabled s) pin) eqn:B.
  2: { exists s. split_and!; [by apply stop_off | done | done | done]. }
  pose proof (word_bit _ _ (wf_enabled _ W) B) as Hr. unfold stopWaveform.
  assert (Ru : timerRunning s = true) by (apply (wf_running _ W); left; intros E; by rewrite E, Z.bits_0 in B).
  rewrite Ru. cbn [negb]. rewrite (proj2 (Z.ltb_lt pin 32)), bit_set_bv, B by lia. cbn [negb]. rewrite <- (Z2Nat.id pin) by done. set (i := Z.to_nat pin).
  destruct (point_inv nmis 0 0 last s Q C) as (s1 & E1 & I1 & V1 & F1 & A1); try done. rewrite E1. cbn [mbind option_bind].
  replace (waveformToDisable s) with (waveformToDisable s1) by (by rewrite (proj2 I), (proj2 I1)). fold (ask_stop i s1). pose proof (af_running _ _ A1) as Ru1. rewrite Ru in Ru1.
  assert (V2 : inv last (ask_stop i s1) Q) by (apply ask_stop_inv; auto; lia).
  assert (M : cyc (readings (ask_stop i s1)) <= last + 1073741824) by (unfold fit in F1; cbn; lia).
  destruct (nmi_inv (nth 1 nmis false) last (ask_stop i s1) Q C V2 M) as (s3 & E3 & J3 & V3 & A3). unfold point at 1. rewrite E3. cbn [mbind option_bind].
  pose proof (ensure_unseen s3) as U. destruct (ensure_flags s3) as (G1 & G2 & G3). pose proof (af_time _ _ A3) as M3. unfold fit in F1. cbn [readings ask_stop set_waveformToDisable] in M3.
  destruct (await_inv waveformToDisable last (ensure_service s3) Q) as (s4 & E4 & I4 & V4 & A4); try done.
  { by intros ? []. }
  { rewrite G2. destruct J3 as [[? ?] | ->]; [intros _; split; congruence|]. intros Z. by apply ask_bit in Z. }
  { by apply (unseen_whole last s3). }
  { rewrite (proj1 (proj1 U)). lia. }
  rewrite E4. cbn [mbind option_bind].
  assert (Off : Z.testbit (waveformEnabled s4) (Z.of_nat i) = false).
  { apply not_true_is_false. rewrite <- enabled_after_idle by done. intros Hb%(af_enabled _ _ A4). unfold enabled_after in Hb. rewrite G1, G2, G3 in Hb.
    apply (af_enabled _ _ A3) in Hb. by rewrite ask_stop_bit in Hb. }
  eexists. split_and!; [reflexivity | by destruct (_ && _) | | by destruct (_ && _)].
  destruct (_ && _) eqn:Z0; [|done]. apply (unseen_whole last s4); [apply deinitTimer_unseen; [done | lia] | done].
Qed.

(** *** Writing a level *)

Lemma drive_other up i s : only_pin i s (drive up i s).
Proof.
  intros j lo hi p [Ez En]%eqb_other. pose proof (level_drive up i j s) as L. rewrite En in L. destruct (drive_out up i s) as (a & b & E). rewrite E in *.
  by apply shows_ext.
Qed.
Lemma drive_inv last up i s Q : idle s -> holds Q -> Z.testbit (waveformEnabled s) (Z.of_nat i) = false -> inv last s Q -> inv last (drive up i s) Q.
Proof.
  intros I H B [W T P]. pose proof (level_drive up i i s) as Lv. rewrite Nat.eqb_refl in Lv. pose proof (drive_other up i s) as O.
  destruct (drive_out up i s) as (a & b & E). rewrite E in *. split; [by destruct W | done|]. intros j Hj. specialize (P j Hj).
  destruct (decide (j = i)) as [->|N]; [|by apply (pin_inv_other last s _ i)]. destruct P as (p & lo & hi & S & L & R & K).
  exists (hold_pin up p), lo, hi. split_and!; try done; try lia; [|by apply H]. destruct S. split; try done. cbn. by rewrite active_idle.
Qed.
Lemma digitalWrite_inv nmis last pin val s Q : closed Q -> holds Q -> 0 <= pin -> idle s -> inv last s Q -> fit 0 last s ->
  exists s', digitalWrite cyc timer1CB_result fuel nmis pin val s = Some s' /\ idle s' /\ inv last s' Q /\
    Z.testbit (waveformEnabled s') pin = false /\ (pin <= 16 -> level s' (Z.to_nat pin) = truth val).
Proof.
  intros C H Hp I V F. destruct (stop_inv nmis last pin s Q C H Hp I V F) as (s' & E & I' & V' & Off). unfold digitalWrite. rewrite E.
  destruct (Z.leb_spec pin 16) as [L|L]; [|exists s'; split_and!; try done; lia].
  rewrite <- (Z2Nat.id pin) in Off |- * by done. change (if truth val then set_pin ?x ?y else clear_pin ?x ?y) with (drive (truth val) (Z.to_nat pin) s').
  exists (drive (truth val) (Z.to_nat pin) s'). rewrite Nat2Z.id, level_drive, Nat.eqb_refl. pose proof (drive_inv last (truth val) (Z.to_nat pin) s' Q I' H Off V') as V2.
  destruct (drive_out (truth val) (Z.to_nat pin) s') as (a & b & Ed). rewrite Ed in *. by split_and!.
Qed.
End Run.

(** ** Runs *)

(** A start, a stop and a write come with the points at which they are interrupted; in
    a [Rest] nothing happens until the next time that is counted. *)
Inductive op := Interrupt | Rest | StartWave (nmis : list bool) (i : nat) (h l r : Z) | StopWave (nmis : list bool) (pin : Z)
  | WriteLevel (nmis : list bool) (pin val : Z) | SetCallback (fn : bool).

(** After a reset, with any levels of the pins. *)
Definition reset_gen (o o16 : Z) : gen := mkGen (replicate 17 (mkWave 0 0 0 0)) 0 0 0 0 0 0 false false o o16 0 0 0 0 [].
Definition irq_fuel : nat := 1122.

Definition op_ok (o : op) : Prop :=
  match o with
  | StartWave _ _ h l r => short h /\ short l /\ short r
  | StopWave _ pin | WriteLevel _ pin _ => 0 <= pin
  | Interrupt | Rest | SetCallback _ => True
  end.
Definition starts_pin (i : nat) (o : op) : bool := match o with StartWave _ j _ _ _ => (j =? i)%nat | _ => false end.
Definition starts (i : nat) (ops : list op) : nat := length (filter (fun o => starts_pin i o = true) ops).

(** The times asked for in a start of pin [i], and those of the last start. *)
Definition asked_high (ops : list op) (i : nat) (v : Z) : Prop := exists nmis h l r, StartWave nmis i h l r ∈ ops /\ v = 80 * h.
Definition asked_low (ops : list op) (i : nat) (v : Z) : Prop := exists nmis h l r, StartWave nmis i h l r ∈ ops /\ v = 80 * l.
Definition asked (ops : list op) (i : nat) (e : edge) : Prop := if e_up e then asked_high ops i (e_len e) else asked_low ops i (e_len e).
Definition start_times (i : nat) (times : option (Z * Z)) (o : op) : option (Z * Z) :=
  match o with StartWave _ j h l _ => if (j =? i)%nat && usable i then Some (h, l) else times | _ => times end.
Definition last_start (i : nat) (ops : list op) : option (Z * Z) := foldl (start_times i) None ops.

Section Spec.
Context (cyc : nat -> Z) (Hcyc : forall n, cyc n < cyc (S n) <= cyc n + 1048576) (timer1CB_result : nat -> Z).

Definition exec (o : op) (s : gen) : option gen :=
  match o with
  | Interrupt => timer1Interrupt cyc timer1CB_result irq_fuel s
  | Rest => Some (read s)
  | StartWave nmis i h l r => option_map snd (startWaveform cyc timer1CB_result irq_fuel nmis (Z.of_nat i) h l r s)
  | StopWave nmis pin => option_map snd (stopWaveform cyc timer1CB_result irq_fuel nmis pin s)
  | WriteLevel nmis pin val => digitalWrite cyc timer1CB_result irq_fuel nmis pin val s
  | SetCallback fn => Some (setTimer1Callback fn s)
  end.

(** The operations so far, the time of the last interrupt, and the state.  An interrupt
    has come within the last 2^29 cycles, 6.7 s, or no wave is on. *)
Inductive run : list op -> Z -> gen -> Prop :=
  | run_reset o o16 : run [] (cyc 0) (reset_gen o o16)
  | run_quiet ops last s : run ops last s -> waveformEnabled s = 0 -> run ops (cyc (readings s)) s
  | run_op ops last s o s' : run ops last s -> cyc (readings s) <= last + 536870912 -> op_ok o -> exec o s = Some s' ->
      run (ops ++ [o]) (match o with Interrupt => cyc (readings s) | _ => last end) s'.

(** The waves of a pin have times that were asked for, and its next edge will. *)
Record timed (ops : list op) (n : nat) (i : nat) (p : pin) : Prop := mkTimed {
  ti_ok : osc_ok p;
  ti_waves : (length (p_waves p) <= n)%nat;
  ti_edges : Forall (asked ops i) (concat (p_waves p));
  ti_next : is_on p = true -> asked_high ops i (p_high p) /\ asked_low ops i (p_low p)
}.
Definition exact_times (ops : list op) (i : nat) (p : pin) : Prop :=
  match last_start i ops with Some (h, l) => p_high p = 80 * h /\ p_low p = 80 * l | None => is_on p = false end.
Definition good (ops : list op) (i : nat) (p : pin) : Prop := timed ops (starts i ops) i p /\ exact_times ops i p.
Definition run_inv (ops : list op) (last : Z) (s : gen) : Prop := idle s /\ inv cyc last s (good ops).

Lemma timed_serve ops n i p t : timed ops n i p -> timed ops n i (serve i p t).
Proof.
  intros [K L F N]. destruct (serve_edges i p t K) as [El E]. destruct (serve_times i p t) as [Eh Ew]. split; [by apply serve_ok | by rewrite El | |].
  - destruct E as [-> | (On & up & ->)]; [done|]. constructor; [|done]. destruct (N On). by destruct up.
  - intros On. rewrite Eh, Ew. apply N. by apply (serve_on i p t).
Qed.
Lemma good_closed ops : closed (good ops).
Proof.
  intros j p t [T X]. split; [by apply timed_serve|]. unfold exact_times in *. destruct (serve_times j p t) as [-> ->].
  destruct (last_start j ops) as [[h l]|]; [done|]. apply not_true_is_false. intros H%serve_on. congruence.
Qed.
Lemma good_holds ops : holds (good ops).
Proof. intros j p lv [[K L F N] X]. split; [by split; [apply hold_ok| | |]|]. unfold exact_times in *. by destruct (last_start j ops) as [[h l]|]. Qed.
Lemma asked_app ops o i v : (asked_high ops i v -> asked_high (ops ++ [o]) i v) /\ (asked_low ops i v -> asked_low (ops ++ [o]) i v).
Proof. split; intros (nm & h & l & r & H & E); exists nm, h, l, r; (split; [apply elem_of_app; by left | done]). Qed.
Lemma starts_app i ops o : starts i (ops ++ [o]) = (starts i ops + starts i [o])%nat.
Proof. unfold starts. by rewrite filter_app, length_app. Qed.
Lemma last_start_app i ops o : last_start i (ops ++ [o]) = start_times i (last_start i ops) o.
Proof. unfold last_start. by rewrite foldl_app. Qed.
Lemma timed_more ops o n i p : timed ops n i p -> timed (ops ++ [o]) n i p.
Proof.
  intros [K L F N]. split; try done.
  - eapply Forall_impl; [exact F|]. intros e. unfold asked. destruct (e_up e); apply asked_app.
  - intros H. destruct (N H). split; by apply asked_app.
Qed.
Lemma timed_le ops n n' i p : (n <= n')%nat -> timed ops n i p -> timed ops n' i p.
Proof. intros Hn [K L F N]. split; try done. lia. Qed.
Lemma good_more ops o i p : start_times i (last_start i ops) o = last_start i ops -> good ops i p -> good (ops ++ [o]) i p.
Proof.
  intros E [T X]. split; [|unfold exact_times in *; by rewrite last_start_app, E].
  apply timed_more, (timed_le _ (starts i ops)); [|done]. rewrite starts_app. lia.
Qed.

Lemma reset_inv o o16 : run_inv [] (cyc 0) (reset_gen o o16).
Proof.
  split; [done|]. split; [|done|].
  - split; try done. by intros [].
  - intros j Hj. exists (mkPin Off 0 0 (level (reset_gen o o16) j) []), (cyc 0), (cyc 0). split_and!; try done; try lia.
    assert (E : waveform (reset_gen o o16) !!! j = mkWave 0 0 0 0) by (by apply lookup_total_replicate_2).
    split; cbn [p_osc p_high p_low p_level p_waves]; rewrite ?E; try done. unfold active. cbn. by rewrite Z.bits_0.
Qed.
Lemma quiet_inv ops last s : run_inv ops last s -> waveformEnabled s = 0 -> run_inv ops (cyc (readings s)) s.
Proof.
  intros [I [W T P]] E. split; [done|]. split; [done | lia|]. intros j Hj. destruct (P j Hj) as (p & lo & hi & S & _ & _ & K).
  exists p, (cyc (readings s)), (cyc (readings s)). split_and!; try done; try lia. apply (shows_off lo hi); [done|].
  by rewrite (off_not_enabled s j lo hi p), E, Z.bits_0.
Qed.

Lemma start_refused nmis i h l r s : usable i = false -> startWaveform cyc timer1CB_result irq_fuel nmis (Z.of_nat i) h l r s = Some (false, s).
Proof. intros U. unfold startWaveform. unfold usable in U. apply negb_false_iff in U. by rewrite U. Qed.

(** [P] for pin [i] and [Q] for the others. *)
Definition at_pin (i : nat) (P : pin -> Prop) (Q : nat -> pin -> Prop) (j : nat) (p : pin) : Prop := if (j =? i)%nat then P p else Q j p.
Lemma at_pin_closed i P Q : (forall p t, P p -> P (serve i p t)) -> closed Q -> closed (at_pin i P Q).
Proof. intros HP HQ j p t. unfold at_pin. destruct (Nat.eqb_spec j i) as [->|]; auto. Qed.
Lemma at_pin_own i P Q p : at_pin i P Q i p <-> P p.
Proof. unfold at_pin. by rewrite Nat.eqb_refl. Qed.
Lemma at_pin_other i P Q j p : j <> i -> at_pin i P Q j p <-> Q j p.
Proof. intros N. unfold at_pin. by rewrite (proj2 (Nat.eqb_neq j i)). Qed.

Lemma timed_plan ops nmis i h l r : let ops' := ops ++ [StartWave nmis i h l r] in let n := starts i ops in
  let times p := p_high p = 80 * h /\ p_low p = 80 * l in
  plan i h l r (at_pin i (timed ops' n i) (good ops)) (at_pin i (fun p => timed ops' n i p /\ times p) (good ops))
    (at_pin i (fun p => timed ops' (S n) i p /\ times p) (good ops)).
Proof.
  intros ops' n times.
  assert (In : StartWave nmis i h l r ∈ ops') by (apply elem_of_app; right; by apply list_elem_of_singleton).
  assert (AH : asked_high ops' i (80 * h)) by (by exists nmis, h, l, r). assert (AL : asked_low ops' i (80 * l)) by (by exists nmis, h, l, r).
  assert (TX : forall ex p, timed ops' n i p -> timed ops' n i (with_expiry ex p)).
  { intros ex p [K L F N]. split; [by apply expiry_ok | | |]; revert L F N; unfold with_expiry, is_on; destruct (p_osc p) eqn:Hp; cbn; rewrite ?Hp; auto. }
  assert (TT : forall ex p, times p -> times (with_expiry ex p)) by (intros ex p; unfold times, with_expiry; by destruct (p_osc p)).
  assert (TS : forall p t, times p -> times (serve i p t)) by (intros p t; unfold times; by destruct (serve_times i p t) as [-> ->]).
  split.
  - split_and!; (apply at_pin_closed; [|apply good_closed]); [intros p t; apply timed_serve| |]; intros p t [T X]; (split; [by apply timed_serve | by apply TS]).
  - intros j p N. rewrite !at_pin_other by done. done.
  - intros p. rewrite !at_pin_own. intros [K L F N]. split; try done. intros On. split; [done | by apply N].
  - intros p. rewrite !at_pin_own. intros [K L F N]. split; try done. intros On. split; [by apply N | done].
  - intros ex p _ Eh El. rewrite !at_pin_own. intros T. split; [by apply TX | by apply TT].
  - intros ex p _. rewrite !at_pin_own. intros [T X]. split; [by apply TX | by apply TT].
  - intros p _. rewrite !at_pin_own. intros [T X]. split; [|done]. apply (timed_le _ n); [lia | done].
  - intros next ex p _ _. rewrite !at_pin_own. intros [[K L F N] [X1 X2]]. split; [|done]. split; [by apply begin_ok | cbn; lia | done|].
    intros _. cbn. by rewrite X1, X2.
Qed.

Lemma started_good ops nmis i h l r j p : usable i = true -> let ops' := ops ++ [StartWave nmis i h l r] in
  at_pin i (fun p => timed ops' (S (starts i ops)) i p /\ p_high p = 80 * h /\ p_low p = 80 * l) (good ops) j p -> good ops' j p.
Proof.
  intros U ops'. destruct (decide (j = i)) as [->|N].
  - rewrite at_pin_own. intros [T X]. split.
    + apply (timed_le _ (S (starts i ops))); [|done]. unfold ops'. rewrite starts_app. unfold starts at 3. rewrite filter_cons_True by apply Nat.eqb_refl. simpl. lia.
    + unfold exact_times, ops'. rewrite last_start_app. cbn. by rewrite Nat.eqb_refl, U.
  - rewrite at_pin_other by done. apply good_more. cbn. by rewrite (proj2 (Nat.eqb_neq i j)) by done.
Qed.

(** Every operation ends and keeps the invariant. *)
Lemma exec_inv ops last s o : run_inv ops last s -> cyc (readings s) <= last + 536870912 -> op_ok o ->
  exists s', exec o s = Some s' /\ run_inv (ops ++ [o]) (match o with Interrupt => cyc (readings s) | _ => last end) s'.
Proof.
  intros [I V] HT Ho. assert (F : fit cyc 0 last s) by (unfold fit; lia). pose proof (good_closed ops) as C. pose proof (good_holds ops) as H.
  destruct o as [| |nmis i h l r|nmis pin|nmis pin val|fn]; cbn [exec].
  - destruct (irq_inv cyc Hcyc timer1CB_result irq_fuel (le_n _) last s (good ops)) as (s' & E & I' & V' & _); try done; [lia|].
    exists s'. split; [done|]. split; [done|]. exact (inv_mono _ _ _ _ _ (fun j p _ => good_more ops Interrupt j p eq_refl) V').
  - exists (read s). split; [done|]. split; [done|]. apply (read_inv cyc Hcyc). exact (inv_mono _ _ _ _ _ (fun j p _ => good_more ops Rest j p eq_refl) V).
  - destruct Ho as (Hh & Hl & Hr). destruct (usable i) eqn:U.
    + pose proof (timed_plan ops nmis i h l r) as PL. assert (Hi : (i < 17)%nat) by (unfold usable in U; lia).
      destruct (start_inv cyc Hcyc timer1CB_result irq_fuel (le_n _) i h l r _ _ _ last nmis Hi Hh Hl Hr PL s U I) as (t & s' & E & I' & V' & _); [|done|].
      * refine (inv_mono _ _ _ _ _ _ V). intros j p _ G. destruct (decide (j = i)) as [->|N]; [apply at_pin_own, timed_more, G | by apply at_pin_other].
      * exists s'. rewrite E. split; [done|]. split; [done|]. refine (inv_mono _ _ _ _ _ _ V'). intros j p _. by apply started_good.
    + exists s. rewrite start_refused by done. split; [done|]. split; [done|]. refine (inv_mono _ _ _ _ _ _ V). intros j p _. apply good_more. cbn.
      destruct (Nat.eqb_spec i j) as [->|]; [by rewrite U | done].
  - destruct (stop_inv cyc Hcyc timer1CB_result irq_fuel (le_n _) nmis last pin s (good ops)) as (s' & E & I' & V' & _); try done.
    exists s'. rewrite E. split; [done|]. split; [done|]. exact (inv_mono _ _ _ _ _ (fun j p _ => good_more ops (StopWave nmis pin) j p eq_refl) V').
  - destruct (digitalWrite_inv cyc Hcyc timer1CB_result irq_fuel (le_n _) nmis last pin val s (good ops)) as (s' & E & I' & V' & _); try done.
    exists s'. split; [done|]. split; [done|]. exact (inv_mono _ _ _ _ _ (fun j p _ => good_more ops (WriteLevel nmis pin val) j p eq_refl) V').
  - eexists. split; [reflexivity|]. pose proof (callback_unseen fn s I) as U. split.
    + unfold setTimer1Callback, timer1_write. cbv zeta. destruct (negb _ && _); [by destruct (bit_set _ _)|]. by destruct (_ && _ && _).
    + apply (unseen_whole _ _ s); [done|]. exact (inv_mono _ _ _ _ _ (fun j p _ => good_more ops (SetCallback fn) j p eq_refl) V).
Qed.

Lemma run_invariant ops last s : run ops last s -> run_inv ops last s.
Proof.
  induction 1 as [o o16|ops last s _ IH E|ops last s o s' _ IH HT Ho E]; [apply reset_inv | by apply (quiet_inv ops last)|].
  destruct (exec_inv ops last s o IH HT Ho) as (s2 & E2 & V). rewrite E in E2. by injection E2 as <-.
Qed.


End Spec.
