(* ===== verification/Pwm.v ===== *)
(** * Pin modes and analog output of the ESP8266 core

    Models [__pinMode] of [core_esp8266_wiring_digital.c] and
    [core_esp8266_wiring_pwm.c], analog output as a wave of the waveform generator.  The
    registers of the pins are a map from their addresses; a write to the set and clear
    registers [GPES] and [GPEC] acts on the enable register [GPE].

    A pin mode concerns the registers of its own pin only, and [analogWrite] makes the
    pin an output with a wave of the period of the frequency and of the duty asked for,
    or with a steady level at the ends of the range. *)

From S2P Require Import Prelude Waveform WaveformProps WaveformIrq WaveformSpec.

(** ** Registers of the pins *)

Definition rd (a : Z) (m : gmap Z Z) : Z := default 0 (m !! a).
Definition esp8266_gpioToFn : list Z := [0x34; 0x18; 0x38; 0x14; 0x3C; 0x40; 0x1C; 0x20; 0x24; 0x28; 0x2C; 0x30; 0x04; 0x08; 0x0C; 0x10].
Definition GPE : Z := 0x30C.
Definition GPC (p : Z) : Z := 0x328 + Z.land p 0xF * 4.
Definition GPF (p : Z) : Z := 0x800 + esp8266_gpioToFn !!! Z.to_nat (Z.land p 0xF).
Definition GP16E : Z := 0x774.
Definition GPC16 : Z := 0x790.
Definition GPF16 : Z := 0x7A0.
Definition set_GPES (v : Z) (m : gmap Z Z) : gmap Z Z := <[GPE := Z.lor (rd GPE m) v]> m.
Definition set_GPEC (v : Z) (m : gmap Z Z) : gmap Z Z := <[GPE := Z.land (rd GPE m) (Z.lnot v)]> m.

Definition GPCI : Z := 7.
Definition GPCD : Z := 2.
Definition GPCWE : Z := 10.
Definition GPFPU : Z := 7.
Definition GPFPD : Z := 6.
Definition flag (b : bool) (n : Z) : Z := if b then bv n else 0.
Definition GPFFS (f : Z) : Z := Z.lor (Z.lor (flag (bit_set f 4) 8) (flag (bit_set f 2) 5)) (flag (bit_set f 1) 4).
Definition GPFFS_GPIO (p : Z) : Z := if (p =? 0) || (p =? 2) || (p =? 4) || (p =? 5) then 0 else if p =? 16 then 1 else 3.
Definition GPFFS_BUS (p : Z) : Z :=
  if (p =? 1) || (p =? 3) then 0 else if (p =? 2) || (p =? 12) || (p =? 13) || (p =? 14) || (p =? 15) then 2 else if p =? 0 then 4 else 1.
Definition GP16FPD : Z := 3.
Definition GP16FFS (f : Z) : Z := Z.lor (Z.land f 3) (Z.shiftl (Z.land f 4) 4).

Definition INPUT : Z := 0x00.
Definition INPUT_PULLUP : Z := 0x02.
Definition INPUT_PULLDOWN_16 : Z := 0x04.
Definition OUTPUT : Z := 0x01.
Definition OUTPUT_OPEN_DRAIN : Z := 0x03.
Definition WAKEUP_PULLUP : Z := 0x05.
Definition WAKEUP_PULLDOWN : Z := 0x07.
Definition SPECIAL : Z := 0xF8.
Definition FUNCTION_0 : Z := 0x08.
Definition FUNCTION_4 : Z := 0x48.

Definition pinMode (pin mode : Z) (m : gmap Z Z) : gmap Z Z :=
  let keep_int m := Z.land (rd (GPC pin) m) (Z.shiftl 0xF GPCI) in
  let gpio m := <[GPF pin := GPFFS (GPFFS_GPIO pin)]> m in
  let pull n m := <[GPF pin := Z.lor (rd (GPF pin) m) (bv n)]> m in
  if pin <? 16 then
    if mode =? SPECIAL then
      let m := <[GPC pin := keep_int m]> m in
      let m := <[GPF pin := GPFFS (GPFFS_BUS pin)]> (set_GPEC (bv pin) m) in
      if pin =? 3 then pull GPFPU m else m
    else if bit_set mode FUNCTION_0 then
      let m := <[GPC pin := keep_int m]> m in
      let m := <[GPF pin := GPFFS (Z.land (Z.shiftr mode 4) 7)]> (set_GPEC (bv pin) m) in
      if (pin =? 13) && (mode =? FUNCTION_4) then pull GPFPU m else m
    else if (mode =? OUTPUT) || (mode =? OUTPUT_OPEN_DRAIN) then
      let m := gpio m in
      let m := <[GPC pin := keep_int m]> m in
      let m := if mode =? OUTPUT_OPEN_DRAIN then <[GPC pin := Z.lor (rd (GPC pin) m) (bv GPCD)]> m else m in
      set_GPES (bv pin) m
    else if (mode =? INPUT) || (mode =? INPUT_PULLUP) then
      let m := set_GPEC (bv pin) (gpio m) in
      let m := <[GPC pin := Z.lor (keep_int m) (bv GPCD)]> m in
      if mode =? INPUT_PULLUP then pull GPFPU m else m
    else if (mode =? WAKEUP_PULLUP) || (mode =? WAKEUP_PULLDOWN) then
      let m := set_GPEC (bv pin) (gpio m) in
      if mode =? WAKEUP_PULLUP then <[GPC pin := Z.lor (Z.lor (bv GPCD) (Z.shiftl 4 GPCI)) (bv GPCWE)]> (pull GPFPU m)
      else <[GPC pin := Z.lor (Z.lor (bv GPCD) (Z.shiftl 5 GPCI)) (bv GPCWE)]> (pull GPFPD m)
    else m
  else if pin =? 16 then
    let m := <[GPC16 := 0]> (<[GPF16 := GP16FFS (GPFFS_GPIO pin)]> m) in
    if (mode =? INPUT) || (mode =? INPUT_PULLDOWN_16) then
      let m := if mode =? INPUT_PULLDOWN_16 then <[GPF16 := Z.lor (rd GPF16 m) (bv GP16FPD)]> m else m in
      <[GP16E := Z.land (rd GP16E m) (Z.lnot 1)]> m
    else if mode =? OUTPUT then <[GP16E := Z.lor (rd GP16E m) 1]> m
    else m
  else m.

(** ** Analog output *)

Record board := mkBoard { analogMap : Z; analogScale : Z; analogFreq : Z; regs : gmap Z Z; waves : gen }.
Definition PWMRANGE : Z := 1023.
Definition analogWriteRange (range : Z) (b : board) : board :=
  if 0 <? range then mkBoard (analogMap b) (int32 range) (analogFreq b) (regs b) (waves b) else b.
Definition analogWriteFreq (freq : Z) (b : board) : board :=
  mkBoard (analogMap b) (analogScale b) (if freq <? 100 then 100 else if 40000 <? freq then 40000 else u16 freq) (regs b) (waves b).

Definition with_map (v : Z) (b : board) : board := mkBoard v (analogScale b) (analogFreq b) (regs b) (waves b).
Definition with_regs (m : gmap Z Z) (b : board) : board := mkBoard (analogMap b) (analogScale b) (analogFreq b) m (waves b).
Definition with_waves (s : gen) (b : board) : board := mkBoard (analogMap b) (analogScale b) (analogFreq b) (regs b) s.

Section Analog.
Context (cyc : nat -> Z) (timer1CB_result : nat -> Z) (nmis nmis' : list bool).

(** [stopWaveform] and [digitalWrite], with the points at which the interrupt comes. *)
Definition hold_level (pin val : Z) (b : board) : option board :=
  match stopWaveform cyc timer1CB_result irq_fuel nmis pin (waves b) with
  | Some (_, s) => option_map (fun s => with_waves s b) (digitalWrite cyc timer1CB_result irq_fuel nmis' pin val s)
  | None => None
  end.
(** [None] is a loop that does not end. *)
Definition analogWrite (pin val : Z) (b : board) : option board :=
  if 16 <? pin then Some b else
  let analogPeriod := 1000000 / analogFreq b in
  let val := if val <? 0 then 0 else if analogScale b <? val then analogScale b else val in
  let b := with_map (Z.land (analogMap b) (Z.lnot (bv pin))) b in
  let high := u32 (analogPeriod * val) / u32 (analogScale b) in
  let low := u32 (analogPeriod - high) in
  let b := with_regs (pinMode pin OUTPUT (regs b)) b in
  if low =? 0 then hold_level pin 1 b
  else if high =? 0 then hold_level pin 0 b
  else match startWaveform cyc timer1CB_result irq_fuel nmis pin high low 0 (waves b) with
       | Some (ok, s) => let b := with_waves s b in Some (if ok then with_map (Z.lor (analogMap b) (bv pin)) b else b)
       | None => None
       end.
End Analog.

(** ** Properties of pin modes *)

Lemma rd_insert_eq a v (m : gmap Z Z) : rd a (<[a := v]> m) = v.
Proof. unfold rd. by rewrite lookup_insert_eq. Qed.
Lemma rd_insert_ne a a' v (m : gmap Z Z) : a' <> a -> rd a (<[a' := v]> m) = rd a m.
Proof. intros N. unfold rd. by rewrite lookup_insert_ne. Qed.

(** The registers of a pin, as a group, are those of no other pin. *)
Definition own_register (i : nat) (a : Z) : Prop :=
  if (i =? 16)%nat then a = GP16E \/ a = GPC16 \/ a = GPF16 else a = GPC (Z.of_nat i) \/ a = GPF (Z.of_nat i).
Lemma GPC_of i : (i < 16)%nat -> GPC (Z.of_nat i) = 0x328 + Z.of_nat i * 4.
Proof. intros H. unfold GPC. change 0xF with (Z.ones 4). rewrite Z.land_ones by lia. by rewrite Z.mod_small by lia. Qed.
Lemma GPF_of i : (i < 16)%nat -> GPF (Z.of_nat i) = 0x800 + esp8266_gpioToFn !!! i.
Proof. intros H. unfold GPF. change 0xF with (Z.ones 4). rewrite Z.land_ones by lia. by rewrite Z.mod_small, Nat2Z.id by lia. Qed.
Lemma gpioToFn_inj i j : (i < 16)%nat -> (j < 16)%nat -> i <> j -> esp8266_gpioToFn !!! i <> esp8266_gpioToFn !!! j.
Proof.
  intros Hi Hj N E. apply N. assert (D : NoDup esp8266_gpioToFn) by (apply (bool_decide_unpack (NoDup esp8266_gpioToFn)); by vm_compute).
  assert (L : forall k, (k < 16)%nat -> esp8266_gpioToFn !! k = Some (esp8266_gpioToFn !!! k)) by (intros k Hk; apply list_lookup_lookup_total_lt; exact Hk).
  apply (NoDup_lookup _ _ _ (esp8266_gpioToFn !!! i) D); [by apply L | rewrite E; by apply L].
Qed.
Lemma gpioToFn_range i : (i < 16)%nat -> 0 < esp8266_gpioToFn !!! i <= 0x40.
Proof. intros H. do 16 (destruct i as [|i]; [vm_compute; split; [reflexivity | discriminate]|]). lia. Qed.
(** The addresses. *)
Lemma own_where i a : (i < 17)%nat -> own_register i a ->
  (i = 16%nat /\ 0x774 <= a <= 0x7A0) \/ ((i < 16)%nat /\ (a = 0x328 + Z.of_nat i * 4 \/ a = 0x800 + esp8266_gpioToFn !!! i)).
Proof.
  intros Hi. unfold own_register, GP16E, GPC16, GPF16. destruct (Nat.eqb_spec i 16) as [->|N]; [left; lia|]. rewrite GPC_of, GPF_of by lia. right. lia.
Qed.
Lemma own_apart i j a : (i < 17)%nat -> (j < 17)%nat -> i <> j -> own_register i a -> ~ own_register j a.
Proof.
  intros Hi Hj N Oi Oj. apply own_where in Oi, Oj; try done.
  destruct Oi as [[-> A] | [Li Ai]], Oj as [[-> B] | [Lj Bj]]; [done | pose proof (gpioToFn_range j Lj); lia | pose proof (gpioToFn_range i Li); lia|].
  pose proof (gpioToFn_inj i j Li Lj N). pose proof (gpioToFn_range i Li). pose proof (gpioToFn_range j Lj). lia.
Qed.
Lemma own_not_enable i a : (i < 17)%nat -> own_register i a -> a <> GPE.
Proof. intros Hi O. apply own_where in O; [|done]. unfold GPE. destruct O as [[-> A] | [Li Ai]]; [lia|]. pose proof (gpioToFn_range i Li). lia. Qed.

(** Writes to the registers of pin [i] and to its bit of the enable register. *)
Inductive only_own (i : nat) : gmap Z Z -> gmap Z Z -> Prop :=
  | own_refl m : only_own i m m
  | own_write m m' a v : only_own i m m' -> own_register i a -> only_own i m (<[a := v]> m')
  | own_set m m' : only_own i m m' -> only_own i m (set_GPES (bv (Z.of_nat i)) m')
  | own_clear m m' : only_own i m m' -> only_own i m (set_GPEC (bv (Z.of_nat i)) m').
#[local] Hint Constructors only_own : core.

(** Nothing else changes. *)
Definition kept (i : nat) (m m' : gmap Z Z) : Prop :=
  (forall a, ~ own_register i a -> a <> GPE -> rd a m' = rd a m) /\
  (forall j, j <> i -> Z.testbit (rd GPE m') (Z.of_nat j) = Z.testbit (rd GPE m) (Z.of_nat j)) /\
  (forall j a, (j < 17)%nat -> j <> i -> own_register j a -> rd a m' = rd a m).
Lemma only_own_kept i m m' : (i < 17)%nat -> only_own i m m' -> kept i m m'.
Proof.
  intros Hi H. assert (K : (forall a, ~ own_register i a -> a <> GPE -> rd a m' = rd a m) /\
    (forall j, j <> i -> Z.testbit (rd GPE m') (Z.of_nat j) = Z.testbit (rd GPE m) (Z.of_nat j))).
  { induction H as [|m m' b v _ [IH1 IH2] Hb|m m' _ [IH1 IH2]|m m' _ [IH1 IH2]]; [done| | |].
    - split; [intros a Ha Ne; rewrite rd_insert_ne; [by apply IH1 | by intros ->]|].
      intros j N. rewrite rd_insert_ne by (by apply (own_not_enable i)). by apply IH2.
    - split; [intros a Ha Ne; unfold set_GPES; rewrite rd_insert_ne by done; by apply IH1|].
      intros j N. unfold set_GPES. destruct (eqb_other j i N) as [Ez _]. rewrite rd_insert_eq, bit_on, Ez by lia. by apply IH2.
    - split; [intros a Ha Ne; unfold set_GPEC; rewrite rd_insert_ne by done; by apply IH1|].
      intros j N. unfold set_GPEC. destruct (eqb_other j i N) as [Ez _]. rewrite rd_insert_eq, bit_off, Ez by lia. by apply IH2. }
  destruct K as [K1 K2]. split_and!; [done | done|]. intros j a Hj N O. apply K1; [by apply (own_apart j i) | by apply (own_not_enable j)].
Qed.
Lemma pinMode_own i mode m : (i < 17)%nat -> only_own i m (pinMode (Z.of_nat i) mode m).
Proof.
  intros Hi. unfold pinMode. cbv zeta. destruct (Nat.eqb_spec i 16) as [->|N].
  - assert (A : own_register 16 GP16E) by (by left). assert (B : own_register 16 GPC16) by (by right; left). assert (C : own_register 16 GPF16) by (by right; right).
    change (Z.of_nat 16) with 16. cbn [Z.ltb Z.eqb Z.compare Pos.compare Pos.compare_cont Pos.eqb]. repeat case_match; auto 8.
  - rewrite (proj2 (Z.ltb_lt _ 16)) by lia.
    assert (A : own_register i (GPC (Z.of_nat i))) by (unfold own_register; rewrite (proj2 (Nat.eqb_neq i 16)) by done; by left).
    assert (B : own_register i (GPF (Z.of_nat i))) by (unfold own_register; rewrite (proj2 (Nat.eqb_neq i 16)) by done; by right).
    repeat case_match; auto 8.
Qed.

(** An output: the pin drives its level, without an open drain. *)
Definition is_output (pin : Z) (m : gmap Z Z) : Prop :=
  if pin =? 16 then Z.testbit (rd GP16E m) 0 = true /\ rd GPF16 m = GP16FFS (GPFFS_GPIO 16)
  else Z.testbit (rd GPE m) pin = true /\ rd (GPF pin) m = GPFFS (GPFFS_GPIO pin) /\ Z.testbit (rd (GPC pin) m) GPCD = false.
Lemma pinMode_output pin m : 0 <= pin <= 16 -> is_output pin (pinMode pin OUTPUT m).
Proof.
  intros Hp. unfold is_output. destruct (Z.eqb_spec pin 16) as [->|N].
  - set (m1 := <[GPC16 := 0]> (<[GPF16 := GP16FFS (GPFFS_GPIO 16)]> m)).
    change (pinMode 16 OUTPUT m) with (<[GP16E := Z.lor (rd GP16E m1) 1]> m1). rewrite rd_insert_eq, Z.lor_spec.
    split; [apply orb_true_r|]. unfold m1. by rewrite rd_insert_ne, rd_insert_ne, rd_insert_eq.
  - unfold pinMode. cbv zeta. rewrite (proj2 (Z.ltb_lt pin 16)) by lia. change (OUTPUT =? SPECIAL) with false.
    change (bit_set OUTPUT FUNCTION_0) with false. change ((OUTPUT =? OUTPUT) || (OUTPUT =? OUTPUT_OPEN_DRAIN)) with true.
    change (OUTPUT =? OUTPUT_OPEN_DRAIN) with false. cbv iota.
    rewrite <- (Z2Nat.id pin) in * by lia. set (i := Z.to_nat pin) in *. pose proof (gpioToFn_range i ltac:(lia)).
    unfold set_GPES. rewrite rd_insert_eq, bit_on, Z.eqb_refl by lia. split; [done|].
    rewrite !(rd_insert_ne _ GPE) by (unfold GPE; rewrite ?GPC_of, ?GPF_of by lia; lia).
    rewrite rd_insert_eq. split; [rewrite rd_insert_ne, rd_insert_eq by (rewrite GPC_of, GPF_of by lia; lia); done|].
    rewrite Z.land_spec. change (Z.testbit (Z.shiftl 15 GPCI) GPCD) with false. apply andb_false_r.
Qed.

(** ** Properties of analog output *)

Section AnalogProps.
Context (cyc : nat -> Z) (Hcyc : forall n, cyc n < cyc (S n) <= cyc n + 1048576) (timer1CB_result : nat -> Z) (nmis nmis' : list bool).

(** Stopping first makes no difference to [digitalWrite]. *)
Lemma hold_level_write ops last pin val b : run_inv cyc ops last (waves b) -> cyc (readings (waves b)) <= last + 536870912 -> 0 <= pin ->
  hold_level cyc timer1CB_result nmis nmis' pin val b = option_map (fun s => with_waves s b) (exec cyc timer1CB_result (WriteLevel nmis pin val) (waves b)).
Proof.
  intros [I V] HT Hp. destruct (stop_inv cyc Hcyc timer1CB_result irq_fuel (le_n _) nmis last pin (waves b) (good ops)) as (s' & E & I' & V' & Off);
    try done; [apply good_closed | apply good_holds | unfold fit; lia|].
  unfold hold_level. cbn [exec]. unfold digitalWrite. by rewrite E, stop_off.
Qed.

(** A wave without an end stays on. *)
Definition no_end (p : pin) : Prop := match p_osc p with On _ _ (Some _) => False | _ => True end.
Lemma serve_no_end i p t : no_end p -> no_end (serve i p t) /\ is_on (serve i p t) = is_on p.
Proof.
  unfold no_end, serve, is_on. destruct (p_osc p) as [|up next [e|]] eqn:E; try done; [by rewrite E|].
  intros _. cbn. destruct (next <? t); [done|]. by rewrite E.
Qed.
Lemma endless_plan i h l : plan i h l 0 (fun _ _ => True) (at_pin i no_end (fun _ _ => True)) (at_pin i (fun p => no_end p /\ is_on p = true) (fun _ _ => True)).
Proof.
  assert (X : forall ex p, (0 = 0 -> ex = None) -> no_end (with_expiry ex p)).
  { intros ex p ->; [|done]. unfold no_end, with_expiry. by destruct (p_osc p) eqn:E; [rewrite E|]. }
  split; try done.
  - split_and!; [done | | ]; apply at_pin_closed; try done; [intros p t H; by apply serve_no_end|]. intros p t [H On]. by destruct (serve_no_end i p t H) as [? ->].
  - intros j p N. by rewrite !at_pin_other.
  - intros ex p R _ _ _. by apply at_pin_own, X.
  - intros ex p R _. by apply at_pin_own, X.
  - intros p On. rewrite !at_pin_own. done.
  - intros next ex p R _ _. rewrite at_pin_own. by rewrite R.
Qed.
Definition has_wave (s : gen) (i : nat) (h l : Z) : Prop :=
  Z.testbit (waveformEnabled s) (Z.of_nat i) = true /\ nextTimeHighCycles (waveform s !!! i) = 80 * h /\
  nextTimeLowCycles (waveform s !!! i) = 80 * l /\ expiryCycle (waveform s !!! i) = 0.

Lemma start_has_wave ops last i h l s : run_inv cyc ops last s -> cyc (readings s) <= last + 536870912 -> usable i = true -> short h -> short l ->
  exists s', startWaveform cyc timer1CB_result irq_fuel nmis (Z.of_nat i) h l 0 s = Some (true, s') /\ has_wave s' i h l.
Proof.
  intros [I V] HT Hu Hh Hl. assert (Hr : short 0) by (unfold short; lia). assert (Hi : (i < 17)%nat) by (unfold usable in Hu; lia).
  destruct (start_inv cyc Hcyc timer1CB_result irq_fuel (le_n _) i h l 0 _ _ _ last nmis Hi Hh Hl Hr (endless_plan i h l) s Hu I) as (t & s' & E & I' & [_ _ P] & T);
    [by apply (inv_mono _ _ _ (good ops)) | unfold fit; lia|].
  exists s'. split; [done|]. apply triple_of in T as (TH & TL & TX). destruct (P i Hi) as (p & lo & hi & S & _ & _ & [_ On]%at_pin_own).
  unfold has_wave. rewrite <- (off_not_enabled s' i lo hi p), On by done. done.
Qed.
Lemma write_has_level ops last pin val s : run_inv cyc ops last s -> cyc (readings s) <= last + 536870912 -> 0 <= pin <= 16 ->
  exists s', exec cyc timer1CB_result (WriteLevel nmis pin val) s = Some s' /\ Z.testbit (waveformEnabled s') pin = false /\ level s' (Z.to_nat pin) = truth val.
Proof.
  intros [I V] HT Hp. destruct (digitalWrite_inv cyc Hcyc timer1CB_result irq_fuel (le_n _) nmis last pin val s (good ops)) as (s' & E & _ & _ & Off & L);
    try done; [apply good_closed | apply good_holds | lia | unfold fit; lia|].
  exists s'. split_and!; [done | done | apply L; lia].
Qed.

(** Settings that [analogWriteFreq] and [analogWriteRange] make, for ranges in which the
    product with the period fits in 32 bits. *)
Definition period (b : board) : Z := 1000000 / analogFreq b.
Definition settings_ok (b : board) : Prop := 100 <= analogFreq b <= 40000 /\ 0 < analogScale b /\ period b * analogScale b < 4294967296.
Definition clamp (b : board) (val : Z) : Z := Z.max 0 (Z.min val (analogScale b)).
Definition high_time (b : board) (val : Z) : Z := period b * clamp b val / analogScale b.

Lemma period_range b : settings_ok b -> 25 <= period b <= 10000.
Proof. intros (Hf & _ & _). unfold period. split; [apply Z.div_le_lower_bound; lia | apply Z.div_le_upper_bound; lia]. Qed.
Lemma high_time_spec b val : settings_ok b -> let h := high_time b val in
  0 <= h <= period b /\ analogScale b * h <= period b * clamp b val < analogScale b * (h + 1) /\ (h = period b <-> clamp b val = analogScale b).
Proof.
  intros S h. pose proof (period_range b S) as HP. destruct S as (_ & Hs & _). unfold h, high_time.
  assert (Hv : 0 <= clamp b val <= analogScale b) by (unfold clamp; lia).
  pose proof (Z.mul_div_le (period b * clamp b val) (analogScale b) Hs). pose proof (Z.mul_succ_div_gt (period b * clamp b val) (analogScale b) Hs).
  set (q := period b * clamp b val / analogScale b) in *. split_and!; try lia; try nia.
Qed.
Lemma analogWrite_eq i val b : settings_ok b -> (i < 17)%nat -> let pin := Z.of_nat i in let h := high_time b val in
  let b1 := mkBoard (Z.land (analogMap b) (Z.lnot (bv pin))) (analogScale b) (analogFreq b) (pinMode pin OUTPUT (regs b)) (waves b) in
  analogWrite cyc timer1CB_result nmis nmis' pin val b =
    if period b - h =? 0 then hold_level cyc timer1CB_result nmis nmis' pin 1 b1
    else if h =? 0 then hold_level cyc timer1CB_result nmis nmis' pin 0 b1
    else match startWaveform cyc timer1CB_result irq_fuel nmis pin h (period b - h) 0 (waves b) with
         | Some (ok, s) => Some (if ok then with_map (Z.lor (analogMap b1) (bv pin)) (with_waves s b1) else with_waves s b1)
         | None => None
         end.
Proof.
  intros S Hi pin h b1. destruct (high_time_spec b val S) as (Hh & _ & _). fold h in Hh. pose proof (period_range b S). destruct S as (_ & Hs & Ho).
  unfold analogWrite. rewrite (proj2 (Z.ltb_ge 16 pin)) by (unfold pin; lia). cbv zeta.
  replace (if val <? 0 then 0 else if analogScale b <? val then analogScale b else val) with (clamp b val)
    by (unfold clamp; destruct (Z.ltb_spec val 0), (Z.ltb_spec (analogScale b) val); lia).
  change (analogScale (with_map _ b)) with (analogScale b). fold (period b).
  assert (E : u32 (period b * clamp b val) / u32 (analogScale b) = h).
  { unfold h, high_time. rewrite !u32_id; [done | |]; unfold is_u32, clamp; nia. }
  rewrite E, (u32_id (period b - h)) by (unfold is_u32; lia). reflexivity.
Qed.

Definition output_of (b : board) (val : Z) (s : gen) (i : nat) : Prop :=
  let h := high_time b val in
  if h =? period b then Z.testbit (waveformEnabled s) (Z.of_nat i) = false /\ level s i = true
  else if h =? 0 then Z.testbit (waveformEnabled s) (Z.of_nat i) = false /\ level s i = false
  else has_wave s i h (period b - h).

(** C40: In every run of the waveform generator (with waves of less than 26.9 s, an
    interrupt in the last 6.7 s and the cycle counter looked at or counted every 2^20
    cycles), [analogWrite] on any pin from 0 to 16 but those of the flash memory, with a
    range whose product with the period fits in 32 bits, ends, makes the pin an output and
    changes no register but its own and no bit of the enable register but its own, and
    gives the pin a wave without end whose period is that of the frequency and whose
    high time is the whole microseconds in the fraction of the period asked for, with
    the value cut to the range; the end of the range gives a steady high level, and a
    fraction below a microsecond a steady low one.  The generator has made one more
    operation of a run, so that the waves of all the pins stay square. *)
Theorem analog_output ops last b i val : run cyc timer1CB_result ops last (waves b) -> cyc (readings (waves b)) <= last + 536870912 ->
  usable i = true -> settings_ok b ->
  let h := high_time b val in
  (analogScale b * h <= period b * clamp b val < analogScale b * (h + 1) /\ (h = period b <-> clamp b val = analogScale b)) /\
  exists b' o, analogWrite cyc timer1CB_result nmis nmis' (Z.of_nat i) val b = Some b' /\ run cyc timer1CB_result (ops ++ [o]) last (waves b') /\
    output_of b val (waves b') i /\ is_output (Z.of_nat i) (regs b') /\
    (Z.testbit (analogMap b') (Z.of_nat i) = true <-> h <> 0 /\ h <> period b) /\
    kept i (regs b) (regs b').
Proof.
  intros R HT Hu S h. destruct (high_time_spec b val S) as (Hh & D). split; [exact D|]. fold h in Hh.
  pose proof (run_invariant cyc Hcyc timer1CB_result _ _ _ R) as V. assert (Hi : (i < 17)%nat) by (unfold usable in Hu; lia). pose proof (period_range b S) as HP.
  rewrite analogWrite_eq by done. fold h. set (b1 := mkBoard _ _ _ _ _).
  assert (O1 : is_output (Z.of_nat i) (regs b1)) by (apply pinMode_output; lia).
  assert (M1 : Z.testbit (analogMap b1) (Z.of_nat i) = false) by (cbn; by rewrite bit_off, Z.eqb_refl by lia).
  assert (L1 : kept i (regs b) (regs b1)) by (by apply only_own_kept, pinMode_own).
  unfold output_of. fold h.
  assert (Hold : forall v, exists b', hold_level cyc timer1CB_result nmis nmis' (Z.of_nat i) v b1 = Some b' /\ run cyc timer1CB_result (ops ++ [WriteLevel nmis (Z.of_nat i) v]) last (waves b') /\
    regs b' = regs b1 /\ analogMap b' = analogMap b1 /\ Z.testbit (waveformEnabled (waves b')) (Z.of_nat i) = false /\ level (waves b') i = truth v).
  { intros v. rewrite (hold_level_write ops last) by (done || lia). destruct (write_has_level ops last (Z.of_nat i) v (waves b) V HT) as (s' & E & Off & Lv); [lia|].
    change (waves b1) with (waves b). rewrite E. eexists. split_and!; try reflexivity; try done; [|by rewrite Nat2Z.id in Lv].
    apply (run_op _ _ ops last (waves b) (WriteLevel nmis (Z.of_nat i) v)); try done. cbn. lia. }
  destruct (Z.eqb_spec (period b - h) 0) as [E1|E1]; [rewrite (proj2 (Z.eqb_eq h (period b))) by lia|rewrite (proj2 (Z.eqb_neq h (period b))) by lia].
  - destruct (Hold 1) as (b' & E & R' & Er & Em & Off & Lv). exists b', (WriteLevel nmis (Z.of_nat i) 1). rewrite Er, Em, M1. split_and!; try done. split; [done | lia].
  - destruct (Z.eqb_spec h 0) as [E0|E0].
    + destruct (Hold 0) as (b' & E & R' & Er & Em & Off & Lv). exists b', (WriteLevel nmis (Z.of_nat i) 0). rewrite Er, Em, M1. split_and!; try done. split; [done | lia].
    + assert (Sh : short h /\ short (period b - h)) by (unfold short; lia).
      destruct (start_has_wave ops last i h (period b - h) (waves b)) as (s' & E & HW); try done; try apply Sh.
      rewrite E. eexists _, (StartWave nmis i h (period b - h) 0). split_and!; [reflexivity | | done | done | | done].
      * apply (run_op _ _ ops last (waves b) (StartWave nmis i h (period b - h) 0)); try done; [|cbn; by rewrite E]. split_and!; try apply Sh. unfold short. lia.
      * cbn. rewrite bit_on, Z.eqb_refl by lia. split; [lia | done].
Qed.
End AnalogProps.
