(* ===== verification/WaveformWitness.v ===== *)
(** * Runs of the waveform generator

    Concrete runs, with a cycle counter that is read every 5000 cycles and interrupts
    between the stores of a start: the theorems
    about waves and analog output at work, and three cases outside of their bounds. *)

From S2P Require Import Prelude Waveform WaveformProps WaveformIrq WaveformSpec Pwm.

Definition demo_cyc (n : nat) : Z := 5000 * Z.of_nat n.
Lemma demo_cyc_ok n : demo_cyc n < demo_cyc (S n) <= demo_cyc n + 1048576.
Proof. unfold demo_cyc. lia. Qed.

(** No callback is set. *)
Definition no_callback (_ : nat) : Z := 0.
Definition exec_all (ops : list op) : gen :=
  foldl (fun s o => default s (exec demo_cyc no_callback o s)) (reset_gen 0 0) ops.
(** The wave of pin 2, with 500 us high and 500 us low, and one of pin 16. *)
Definition demo_ops : list op := [StartWave [] 2 500 500 0; StartWave [true; false; true; true; false; true; true; true; true] 16 100 200 0] ++ replicate 10 Interrupt.

Lemma exec_all_app ops o : exec_all (ops ++ [o]) = default (exec_all ops) (exec demo_cyc no_callback o (exec_all ops)).
Proof. unfold exec_all. by rewrite foldl_app. Qed.
Lemma demo_step ops last last' o : run demo_cyc no_callback ops last (exec_all ops) -> demo_cyc (readings (exec_all ops)) <= last + 536870912 -> op_ok o ->
  last' = match o with Interrupt => demo_cyc (readings (exec_all ops)) | _ => last end -> run demo_cyc no_callback (ops ++ [o]) last' (exec_all (ops ++ [o])).
Proof.
  intros R HT Ho ->. destruct (exec_inv demo_cyc demo_cyc_ok no_callback ops last (exec_all ops) o) as (s' & E & _); try done.
  - by apply (run_invariant demo_cyc demo_cyc_ok no_callback).
  - rewrite exec_all_app, E. by apply (run_op demo_cyc no_callback ops last (exec_all ops) o).
Qed.

Definition demo_start : list op := [StartWave [] 2 500 500 0; StartWave [true; false; true; true; false; true; true; true; true] 16 100 200 0].
Lemma demo_run_start : run demo_cyc no_callback demo_start 0 (exec_all demo_start).
Proof.
  apply (demo_step [StartWave [] 2 500 500 0] 0); [|by vm_compute | cbn; unfold short; lia | done].
  apply (demo_step [] 0); [apply (run_reset demo_cyc no_callback 0 0) | by vm_compute | cbn; unfold short; lia | done].
Qed.
Lemma demo_run_interrupts n : (n <= 10)%nat -> exists last, run demo_cyc no_callback (demo_start ++ replicate n Interrupt) last (exec_all (demo_start ++ replicate n Interrupt)) /\
  0 <= last.
Proof.
  induction n as [|n IH]; intros Hn; [exists 0; split; [exact demo_run_start | lia]|]. destruct IH as (last & R & Hl); [lia|].
  rewrite replicate_S_end, app_assoc. eexists. split; [eapply (demo_step _ last); [done | | done | reflexivity] | unfold demo_cyc; lia].
  assert (B : demo_cyc (readings (exec_all (demo_start ++ replicate n Interrupt))) <= 1000000); [|lia].
  do 10 (destruct n as [|n]; [by vm_compute|]). lia.
Qed.



Definition demo_board : board := mkBoard 0 PWMRANGE 1000 ∅ (exec_all demo_start).
(** A quarter of the range on pin 4, at 1 kHz. *)
Lemma analog_output_witness :
  high_time demo_board 256 = 250 /\ exists b', analogWrite demo_cyc no_callback [] [] 4 256 demo_board = Some b' /\ has_wave (waves b') 4 250 750 /\ is_output 4 (regs b').
Proof.
  split; [vm_compute; reflexivity|].
  assert (HT : demo_cyc (readings (waves demo_board)) <= 0 + 536870912) by (vm_compute; discriminate).
  assert (S : settings_ok demo_board) by (vm_compute; repeat split; discriminate).
  destruct (analog_output demo_cyc demo_cyc_ok no_callback [] [] demo_start 0 demo_board 4 256 demo_run_start HT eq_refl S) as (_ & b' & o & E & _ & O & I & _).
  exists b'. split; [exact E|]. split; [exact O | exact I].
Defined.

(** ** Outside of the bounds *)

(** A wave of 30 s has an end that is half a turn of the counter or more away: it is off
    when [startWaveform] returns, and there has been no rise. *)
Example long_wave_ends_at_once :
  match startWaveform demo_cyc no_callback irq_fuel [] 2 500 500 30000000 (reset_gen 0 0) with
  | Some (ok, s) => (ok, waveformEnabled s, edges s) = (true, 0, [])
  | None => False
  end.
Proof. vm_compute. reflexivity. Qed.

(** Half of a range of one million at 100 Hz: 705 us of 10 ms instead of 5 ms. *)
Example large_range_overflows :
  match analogWrite demo_cyc no_callback [] [] 4 500000 (analogWriteRange 1000000 (analogWriteFreq 100 demo_board)) with
  | Some b => nextTimeHighCycles (waveform (waves b) !!! 4%nat) = 80 * 705
  | None => False
  end.
Proof. vm_compute. reflexivity. Qed.

(** New times given while the pin is high are used at the next fall, not at the next rise:
    a wave with 500 us and 500 us that is changed to 900 us and 100 us has a period with
    500 us high and 100 us low. *)
Example change_before_the_rise :
  let s := exec_all ([StartWave [] 2 500 500 0; StartWave [] 2 900 100 0] ++ replicate 6 Interrupt) in
  map (fun e => (e_up e, e_len e)) (pin_edges s 2) = [(true, 72000); (false, 8000); (true, 40000)].
Proof. vm_compute. reflexivity. Qed.
