(* ===== verification/Witness.v ===== *)
(** * Witnesses

    The theorems about programming sessions, applied to the bootloader's own
    link on the board of [Sim]. *)

From Stdlib Require Import Strings.Ascii.
From S2P Require Import Prelude Machine Logic Endpoint UsbDevice Descriptors Bootloader Avr109 Boot Programming CdcLink Session Safety BootProps Liveness RingBuffer Bridge Control DescriptorProps Requests Sim.

#[local] Existing Instance adelino_vectors.
#[local] Existing Instance adelino_link.
#[local] Existing Instance minimal_build.

(** Two pages of an image. *)
Definition image : list (list Z) := [repeat 0xA5 128; map Z.of_nat (seq 0 128)].
Definition upload_host : @state sim := host (concat (map page_command image)).

Lemma image_ok : Forall (fun p => Forall is_u8 p /\ Z.of_nat (length p) = SPM_PAGESIZE) image.
Proof. repeat (constructor; [split; [apply (bool_decide_unpack _); by vm_compute|done]|]). constructor. Qed.

Lemma erased_host l : erased_buffer (spm_at (host l)).
Proof. done. Qed.

Ltac host_up := apply sim_up; by vm_compute.

(** The address counter and the bytes sent, before the session. *)
Lemma host_addr l : var_of CurrAddress (host l) = 0.
Proof. by vm_compute. Qed.
Lemma host_tx l : tx (host l) = [].
Proof. done. Qed.
Lemma host_mode l : var_of boot_mode (host l) = BM_KEEP_BOOTLOADER.
Proof. by vm_compute. Qed.

Ltac at_host H :=
  cbv zeta in H; unfold upload_host in *; rewrite ?host_addr, ?host_tx, ?host_mode in H.

Lemma upload_correct_witness :
  exists s', avr109_steps 2 4%nat upload_host = Ok tt s' /\
    rx s' = [] /\ tx s' = [13; 13] /\ var_of CurrAddress s' = 256 /\
    var_of boot_mode s' = BM_NORMAL_BOOT /\
    forall x, sp_flash (spm_at s') x =
      flash_with 0 (concat image) (sp_flash (spm_at upload_host)) x.
Proof.
  pose proof (upload_correct (LK := adelino_link_ok) 4 image [] upload_host) as H.
  at_host H. apply H.
  - reflexivity.
  - host_up.
  - discriminate.
  - exact image_ok.
  - reflexivity.
  - discriminate.
  - discriminate.
  - apply erased_host.
  - by vm_compute.
Defined.

Definition verify_host : @state sim :=
  host ([ch "A"; 0x01; 0x40] ++ concat (map page_command image) ++
        [ch "A"; 0x01; 0x40] ++ [ch "g"; 1; 0; ch "F"] ++ []).

Lemma upload_read_back_witness :
  exists s', avr109_steps (1 + (2 + 2)) 4%nat verify_host = Ok tt s' /\
    rx s' = [] /\ tx s' = tx verify_host ++ 13 :: repeat 13 2 ++ 13 :: concat image.
Proof.
  apply (upload_read_back (LK := adelino_link_ok) 4 0x01 0x40 image 1 0 [] verify_host);
    try done; try (by unfold is_u8).
  - host_up.
  - exact image_ok.
Defined.

(** A block of five bytes: the fifth is lost. *)
Lemma write_block_correct_witness :
  exists s', ReadWriteMemoryBlock (ch "B") 4%nat (host [0; 5; ch "F"; 1; 2; 3; 4; 5]) = Ok tt s' /\
    rx s' = [] /\ tx s' = [13] /\ var_of CurrAddress s' = 4 /\
    forall x, sp_flash (spm_at s') x =
      page_with 0 [1; 2; 3; 4; 5] (sp_flash (spm_at (host [0; 5; ch "F"; 1; 2; 3; 4; 5]))) x.
Proof.
  pose proof (write_block_correct (LK := adelino_link_ok) 4 0 5 [1; 2; 3; 4; 5] []
    (host [0; 5; ch "F"; 1; 2; 3; 4; 5])) as H.
  at_host H. apply H; try done; try (by unfold is_u8).
  - host_up.
  - apply (bool_decide_unpack _). by vm_compute.
Defined.

Lemma wrong_memory_type_witness :
  exists s', ReadWriteMemoryBlock (ch "B") 4%nat (host [0; 16; ch "E"; 7]) = Ok tt s' /\
    rx s' = [7] /\ tx s' = [ch "?"] /\
    spm_at s' = spm_at (host [0; 16; ch "E"; 7]) /\ var_of CurrAddress s' = 0.
Proof.
  pose proof (wrong_memory_type (LK := adelino_link_ok) 4 (ch "B") 0 16 (ch "E") [7]) as H.
  at_host H. apply H; try done; try (by unfold is_u8).
  host_up.
Defined.

Lemma command_answers_witness :
  exists s', avr109_step 4%nat (host [ch "V"; 7]) = Ok tt s' /\
    rx s' = [7] /\ tx s' = [ch "1"; ch "0"] /\
    (forall x, sp_flash (spm_at s') x = sp_flash (spm_at (host [ch "V"; 7])) x) /\
    var_of CurrAddress s' = 0 /\ var_of boot_mode s' = BM_KEEP_BOOTLOADER.
Proof.
  pose proof (command_answers (LK := adelino_link_ok) 4 (ch "V") [7]) as H.
  at_host H. apply H; try done. host_up.
Defined.

Lemma set_address_correct_witness :
  exists s', set_address 4%nat (host [0x12; 0x34; 7]) = Ok tt s' /\ rx s' = [7] /\ tx s' = [13] /\
    (0x12 < 64 -> var_of CurrAddress s' = 2 * (256 * 0x12 + 0x34)) /\
    (64 <= 0x12 < 128 -> var_of CurrAddress s' = 2 * (256 * 0x12 + 0x34) + 0xFFFF0000).
Proof.
  pose proof (set_address_correct (LK := adelino_link_ok) 4 0x12 0x34 [7]) as H.
  at_host H. apply H; try done;
    try (by unfold is_u8).
  host_up.
Defined.

Lemma full_minimal_equivalent_witness :
  ReadWriteMemoryBlock_full (ch "B") 4%nat (host [0; 5; ch "F"; 1; 2; 3; 4; 5]) = ReadWriteMemoryBlock_minimal (ch "B") 4%nat (host [0; 5; ch "F"; 1; 2; 3; 4; 5]).
Proof.
  destruct (run_header (LK := adelino_link_ok) 4 0 5 (ch "F") [1; 2; 3; 4; 5] [] 0
    BM_KEEP_BOOTLOADER (spm_at (host [0; 5; ch "F"; 1; 2; 3; 4; 5]))
    (host [0; 5; ch "F"; 1; 2; 3; 4; 5])) as (s1 & E & _).
  - reflexivity.
  - by unfold is_u8.
  - by unfold is_u8.
  - split; [host_up|by vm_compute|reflexivity|apply host_addr|apply host_mode|reflexivity].
  - exact (full_minimal_equivalent (ch "B") 4 _ _ s1 E).
Defined.

Lemma chip_erase_correct_witness :
  exists s', chip_erase 4%nat (host [7]) = Ok tt s' /\ rx s' = [7] /\ tx s' = [13] /\
    (forall x, 0 <= x < BOOT_START_ADDR -> sp_flash (spm_at s') x = 255) /\
    (forall x, BOOT_START_ADDR <= x -> sp_flash (spm_at s') x = sp_flash (spm_at (host [7])) x).
Proof.
  pose proof (chip_erase_correct (LK := adelino_link_ok) 4 (host [7])) as H.
  at_host H. apply H; try done. host_up.
Defined.

(** A byte arrives and is discarded by a reset; two more arrive, one of them while the
    first is being taken. *)
Lemma uart_buffer_interleavings_witness :
  let y := mkSys (ring_push 66 (ring_bump (ring_push 65 (ring_in0 (ring_out0 (ring_push 64 empty_ring)))))) Idle [65; 66] [65] in
  (sy_pc y <> Resetting false -> sy_accepted y = sy_consumed y ++ in_flight y ++ contents (sy_ring y)) /\
  (length (contents (sy_ring y)) <= 255)%nat.
Proof.
  intros y. enough (rtc step start y) as Hy by (destruct (uart_buffer_interleavings (B := sim) y Hy) as (H1 & H2 & _); exact (conj H1 H2)).
  eapply rtc_l; [apply (step_isr empty_ring Idle [] [] 64)|].
  eapply rtc_l; [apply step_out0|]. eapply rtc_l; [apply step_in0|]. eapply rtc_l; [apply step_ready|].
  eapply rtc_l; [apply (step_isr _ Idle [] [] 65)|].
  eapply rtc_l; [apply step_bump; discriminate|].
  eapply rtc_l; [apply (step_isr _ _ _ _ 66)|].
  eapply rtc_l; [apply step_then_load|]. apply rtc_refl.
Defined.

(** The host sends two bytes to the ESP8266; the UART is ready and receives an A. *)
Definition bridge_host : @state sim :=
  set_world (mkSim (mkCdc 0 [[7; 8]] [] [] (bv OCIE1A) 0 [1; 0; 2]%nat) (mkSpm (fun _ => 255) (fun _ => 0xFFFF) true)
    some_irqs (fun r => match r with UCSR1A => bv UDRE1 | _ => 0x41 end)) (host []).

Lemma bridge_refines_channels_witness :
  exists s', nsteps (fun s s' => bridge_body tt 3%nat s = Ok (inl tt) s') 4 bridge_host s' /\ bridging s' /\
    rtc bstep (abs bridge_host) (abs s') /\ transfers (abs bridge_host) (abs s') /\
    [] `prefix_of` cdc_tx s' /\ (3 <= polls (tr s') - 0 -> cdc_rx s' = [])%nat.
Proof.
  assert (bridging bridge_host) as Hb.
  { split; [by vm_compute | | done | done | done | done]. split; repeat constructor; cbn; try lia; unfold is_u8; lia. }
  exact (bridge_refines_channels 3 4 bridge_host (le_n 3) Hb).
Defined.

(** On that board the loop passes everything on in four rounds. *)
Fixpoint channels_after (k : nat) (s : @state sim) : option chan :=
  match k with
  | O => Some (abs s)
  | S k' => match bridge_body tt 3%nat s with Ok (inl _) s' => channels_after k' s' | _ => None end
  end.
Example channels_after_four : channels_after 4 bridge_host = Some (mkChan [0x41] [] [0x41] [] [7; 8]).
Proof. by vm_compute. Qed.

Lemma usb_link_fifo_witness :
  exists s', usb_read_byte 4%nat (host [3; 4]) = Ok 3 s' /\ link_up s' /\ cdc_rx s' = [4] /\
    cdc_tx s' = [] /\ quiet (host [3; 4]) s'.
Proof.
  destruct (usb_link_fifo 4 (host [3; 4])) as [H _]; [done|host_up|].
  apply (H 3 [4]). by vm_compute.
Defined.

(** A board whose timer is masked and whose timeout has run out. *)
Definition timed_out : @state sim :=
  upd Timeout 0 (set_world (mkSim (mkCdc 0 [] [] [] 0 0 []) (mkSpm (fun _ => 255) (fun _ => 0xFFFF) true)
    some_irqs (fun _ => 0)) (host [])).

Lemma read_byte_timeout_witness :
  exists s', usb_read_byte 1%nat timed_out = Ok 0 s' /\ quiet timed_out s'.
Proof. apply (read_byte_timeout 1 timed_out); try done; by vm_compute. Defined.

(** A block write of which the host has sent the header only; the state behind the header
    and the state with the timer masked. *)
Definition cut_short : @state clock := clock_state [[0; 128; ch "F"]].
Definition after_header : @state clock :=
  match read_block_header 100%nat cut_short with Ok _ s => s | _ => cut_short end.
Definition after_mask : @state clock :=
  match wr TIMSK1 0 100%nat after_header with Ok _ s => s | _ => cut_short end.

Lemma block_write_hangs_witness :
  (exists s', usb_read_byte (B := clock) 700%nat idle_state = Ok 0 s') /\
  ReadWriteMemoryBlock_minimal (B := clock) (ch "B") 100%nat cut_short = NoFuel.
Proof.
  destruct (block_write_hangs (B := clock)) as [H1 H2]. split.
  - apply (H1 idle_cdc 700%nat idle_state idle_start). apply Nat.leb_le. by vm_compute.
  - apply (H2 100%nat 128 cut_short after_header after_mask); by vm_compute.
Defined.

(** ** Whole-firmware theorems *)

Lemma only_escape_programs_witness : keeps (within Frame.esp_fp) (cdc_command (B := sim) 0xc0).
Proof. apply (only_escape_programs 0xc0). discriminate. Defined.

(** The state after reset: power-on flag set, a sketch in flash. *)
Definition power_on : @state sim :=
  mkState (static_vars 0x7777) static_mem false []
    (mkSim (mkCdc 0 [] [] [] 0 0 []) (mkSpm (fun _ => 0x55) (fun _ => 0xFFFF) true) []
       (fun r => match r with MCUSR => bv PORF | _ => 0 end)).

Lemma reset_starts_sketch_witness :
  exists s' v w, main 2%nat power_on = Jump s' /\
    tr s' = quiesced v w ++ [EAvr wdt_disable; EWr MCUSR 0; ERd MCUSR 1] ++ [] /\
    var_of bootKeyMem s' = 0.
Proof.
  apply (reset_starts_sketch 2 power_on eq_refl); [by vm_compute|reflexivity|by left].
Defined.

Lemma power_on_jumps : exists s', main 2%nat power_on = Jump s'.
Proof.
  assert (match main 2%nat power_on with Jump _ => true | _ => false end = true) as H by (by vm_compute).
  destruct (main 2%nat power_on) as [? ?|s'|]; [done|by exists s'|done].
Qed.

Lemma main_fuel_witness : exists s', main 5%nat power_on = Jump s'.
Proof.
  destruct power_on_jumps as [s' E]. exists s'. apply (main_fuel 2 5 power_on s'); [lia|exact E].
Defined.

Lemma reset_esp_sequence_witness :
  exists s' b0 b1 c0 c1 e0 e1 e2, reset_esp true 2%nat (host []) = Ok tt s' /\
    logged
      [EWr PORTB (Z.land b0 (Z.lnot (bv 0))); EWr DDRB (Z.lor b1 (bv 0));
       EWr PORTC (Z.land c0 (Z.lnot (bv 7))); EWr DDRC (Z.lor c1 (bv 7));
       EWr PORTE (Z.land e0 (Z.lnot (bv 2))); EWr DDRE (Z.lor e1 (bv 2));
       EAvr (delay_ms 1); EWr PORTE (Z.lor e2 (bv 2))] (host []) s'.
Proof. apply (reset_esp_sequence cdc_no_usb true 2 (host [])). Defined.

Lemma silent_boot_starts_sketch_witness :
  exists s', (bootloader_loop (B := clock) ;; USB_Detach ;; start_sketch) 700%nat idle_state = Jump s' /\
    clean s'.
Proof.
  apply (silent_boot_starts_sketch (B := clock) idle_cdc 700 idle_state); [exact idle_start|].
  apply Nat.leb_le. by vm_compute.
Defined.

Lemma uart_buffer_refines_queue_witness :
  exists s', @USART1_RX_vect sim no_vectors 2%nat (set_iflag false (host [])) = Ok tt s' /\
    ring_ok (ring_of s') /\
    contents (ring_of s') = [0].
Proof.
  destruct (uart_buffer_refines_queue 2 (host [])) as [H _].
  - split; [done|]. split; by vm_compute.
  - exact H.
Defined.

(** ** USB *)

Lemma shadow_first_match_witness :
  let s := ctl_state [] (repeat 0 8) false sketch_memory in
  let f := fun a => pgm_byte (Board := ctl_board) a (world s) in
  exists s', shadow_vid_pid_from_sketch (B := ctl_board) 2%nat s = Ok tt s' /\
    var_of DD_Size s' = sizeof_Device /\ shadow_vid_pid_from_sketch 2%nat s' = Ok tt s' /\
    ((exists j, _VECTORS_SIZE <= j < 0x200 /\ sketch_at f j = true /\
        (forall x, _VECTORS_SIZE <= x < j -> sketch_at f x = false) /\
        var_of DD_VendorID s' = word_at f (j + 4) /\ var_of DD_ProductID s' = word_at f (j + 6)) \/
     ((forall x, _VECTORS_SIZE <= x < 0x200 -> sketch_at f x = false) /\
        var_of DD_VendorID s' = var_of DD_VendorID s /\
        var_of DD_ProductID s' = var_of DD_ProductID s)).
Proof.
  apply (shadow_first_match (B := ctl_board) 2 (ctl_state [] (repeat 0 8) false sketch_memory)).
  by vm_compute.
Defined.

Lemma get_descriptor_sizes_witness :
  exists size bytes s',
    Adelino_GetDescriptor (B := ctl_board) 0x0302 0 2%nat (ctl_state [] (repeat 0 8) false sketch_memory)
      = Ok (size, bytes) s' /\
    size = Z.of_nat (length bytes) /\
    (size = NO_DESCRIPTOR \/
     (nth 1 bytes 0 = u8 (Z.shiftr 0x0302 8) /\
      nth 0 bytes 0 = (if u8 (Z.shiftr 0x0302 8) =? DTYPE_Configuration then 9 else size))) /\
    (size <> NO_DESCRIPTOR <->
      u8 (Z.shiftr 0x0302 8) = DTYPE_Device \/ u8 (Z.shiftr 0x0302 8) = DTYPE_Configuration \/
      (u8 (Z.shiftr 0x0302 8) = DTYPE_String /\ 0 <= u8 (Z.land 0x0302 0xFF) <= 2)).
Proof.
  apply (get_descriptor_sizes (B := ctl_board) 2 0x0302 0). left. by vm_compute.
Defined.

Lemma configuration_truthful_witness :
  exists l s', split_descriptors 9 ConfigurationDescriptor = Some l /\
    descriptor_types l = [2; 4; 0x24; 0x24; 0x24; 5; 4; 5; 5] /\
    le_value (take 2 (drop 2 ConfigurationDescriptor)) = Z.of_nat (length ConfigurationDescriptor) /\
    map (fun b => nth 4 b 0) (bodies_of DTYPE_Interface l) = [1; 2] /\
    @Adelino_ConfigurationChanged sim no_vectors 3%nat (set_iflag false (host [])) = Ok tt s' /\
    exists d, tr s' = d ++ tr (set_iflag false (host [])) /\
      Permutation (configured_endpoints (rev d)) (map ep_of_descriptor (bodies_of DTYPE_Endpoint l)) /\
      map (fun x => x.1.1) (configured_endpoints (rev d)) = [2; 3; 4].
Proof. apply (configuration_truthful 3 (set_iflag false (host []))); [done|lia]. Defined.

(** GetDescriptor(configuration), the first 9 bytes. *)
Definition get_config : list Z := [0x80; 6; 0; 2; 0; 0; 9; 0].

Lemma get_descriptor_transfer_witness :
  exists size bytes s1 s',
    Adelino_GetDescriptor (B := ctl_board) 0x0200 0 126%nat (ctl_state [] get_config true sketch_memory)
      = Ok (size, bytes) s1 /\
    @USB_Device_GetDescriptor ctl_board no_vectors adelino_app 126%nat
      (ctl_state [] get_config true sketch_memory) = Ok tt s' /\
    k_setup (ctl_of (world s')) = false /\
    concat (k_sent (ctl_of (world s'))) = take 9 bytes.
Proof.
  apply (get_descriptor_transfer (B := ctl_board) (V := no_vectors) 126
    (ctl_state [] get_config true sketch_memory)).
  - split; by vm_compute.
  - done.
  - done.
  - by vm_compute.
  - by vm_compute.
  - left. by vm_compute.
  - right. left. by vm_compute.
  - lia.
Defined.

Lemma write_stream_delivers_witness :
  exists s', @Endpoint_Write_Control_Stream_LE ctl_board no_vectors (repeat 7 16)
      (Z.of_nat (length (repeat 7 16))) 34%nat
      (ctl_state [] get_config false sketch_memory) = Ok ENDPOINT_RWCSTREAM_NoError s' /\
    concat (k_sent (ctl_of (world s'))) =
      take (Z.to_nat (k_want (ctl_of (world (ctl_state [] get_config false sketch_memory)))))
        (repeat 7 16) /\
    Forall (fun p => (length p <= 8)%nat) (k_sent (ctl_of (world s'))).
Proof.
  apply (write_stream_delivers (B := ctl_board) (V := no_vectors) 34 (repeat 7 16)
    (ctl_state [] get_config false sketch_memory)); try done; try (by vm_compute).
Defined.

(** SetConfiguration(2). *)
Definition bad_request : list Z := [0; 9; 2; 0; 0; 0; 0; 0].

Lemma unsupported_request_stalled_witness :
  exists s', @USB_Device_ProcessControlRequest ctl_board no_vectors adelino_app 2%nat
      (ctl_state bad_request (repeat 0 8) true sketch_memory) = Ok tt s' /\
    k_stall (ctl_of (world s')) = true /\ k_setup (ctl_of (world s')) = false /\
    k_sent (ctl_of (world s')) =
      k_sent (ctl_of (world (ctl_state bad_request (repeat 0 8) true sketch_memory))) /\
    var_of USB_DeviceState s' =
      var_of USB_DeviceState (ctl_state bad_request (repeat 0 8) true sketch_memory) /\
    var_of USB_Device_ConfigurationNumber s' =
      var_of USB_Device_ConfigurationNumber (ctl_state bad_request (repeat 0 8) true sketch_memory).
Proof.
  apply (unsupported_request_stalled (B := ctl_board) (V := no_vectors) 2
    (ctl_state bad_request (repeat 0 8) true sketch_memory)).
  - reflexivity.
  - apply (bool_decide_unpack _). by vm_compute.
  - reflexivity.
  - by vm_compute.
  - left. by vm_compute.
  - by vm_compute.
Defined.
